(* ===== verification/_CoqProject ===== *)
-Q . S2P
Prelude.v
PyStr.v
PyFloat.v
PyVal.v
PyJson.v
FloatOrder.v
Effects.v
Machine.v
Clock.v
CpuList.v
Devices.v
CpuIsolation.v
CpuIsolationSpec.v
CpuAffinity.v
Attempts.v
SteadyAttempts.v
SystemControls.v
SystemControlsSpec.v
SchedTrace.v
Lifecycle.v
SteadyTrace.v
SteadyTraceSpec.v
DeadlineProfile.v
DeadlineProfileSpec.v
Timerlat.v
TimerlatTable.v
Recovery.v
RecoverySpec.v
StartupTrace.v
Shell.v
Kernel.v
Reproduce.v
Adapters.v
StageRun.v
Pipeline.v
CampaignDisk.v
CampaignDemo.v
PipelineSpec.v
PipelineCrash.v
StageRunSpec.v
ConfigSpec.v
Noise.v
NoiseSpec.v
ThreadTrace.v
ThreadTraceSpec.v
Commands.v
Memory.v
Bisect.v
V4l2Trace.v
KernelTrace.v
FreshnessTrace.v
OverrunTrace.v
Calls.v
SteadyResults.v
SteadyBench.v
SteadyBenchSpec.v
SteadyNoise.v
CampaignRun.v
SteadyCampaign.v
SteadyCampaignSpec.v
StartupBench.v
StartupBenchSpec.v
MultiCamera.v
MultiCameraSpec.v
PlannedCases.v
Calibration.v
CalibrationRuns.v
CalibrationSpec.v
StartupModel.v
StartupModelSpec.v
MultiCameraProfiles.v
TimerlatLoad.v
TimerlatBench.v
TimerlatSpec.v
TimerlatCampaign.v
V4l2TraceSpec.v
FreshnessSpec.v
OverrunSpec.v
DiagnosticOverhead.v
DiagnosticOverheadSpec.v
