(* ===== verification/Prelude.v ===== *)
(** * rs-camera: a verification development

    The program measures Intel RealSense cameras on Linux.  It has two halves.
    The benchmarks (src/tools) set a machine up (CPU isolation, CPU frequency,
    USB power, camera driver), run a probe under interference workloads, retry
    and recover failed attempts, and analyse the traces of the runs.  The
    reproduction (src/reproduction) plans a campaign of experiments over several
    kernels, runs it unattended across reboots, and checks what it finds.  The
    Python code of both is modelled here; the probes in C++ and the shell
    scripts are commands that it runs.

    ** The model

    A method of an object with attributes [S] is a computation of type
    [M (S * world W) A] (Effects.v): it returns or raises, and the state it
    reaches is kept in both cases.  The operating system is the parameter
    [handle] of the class [OS]; a theorem that does not say otherwise holds
    whatever it answers, so failing files, commands and clocks are covered by
    every theorem.  What a theorem needs of the operating system is a class with
    laws ([Clock], [IrqKernel], [TextFiles], [TraceFiles], [CampaignDisk],
    [Killable], [ProcessGroups], ...), each with an instance on a machine that can
    be run (Machine.v, CampaignDemo.v and the ends of the files that use them),
    where the witnesses evaluate.  The law of [CampaignDisk] on commands is an
    assumption on the stages of a campaign: what they do is open, but they leave
    pipeline.json as it is and remove no completion marker.  Calls that act on
    the machine are recorded in a ghost log, about which the properties on orders
    of events speak.  A property that a result is what a call answered says so by
    [did c a w w'] (Calls.v): between two worlds of the run, the machine was asked
    [c] and answered [a].  Pure code is translated to functions
    in [outcome], the type of a value or an exception (Prelude.v).

    Prelude.v holds exceptions and shared list lemmas; PyStr.v, PyFloat.v,
    PyVal.v and PyJson.v the parts of Python's str, float, dict/list and json that
    the code uses, with the lemmas on them; Effects.v the monad, its rules ([wp]
    for postconditions, [within] for relations kept on every path, tactics
    [solve_within], [solve_keeps], [solve_preserves]); Clock.v the rule for loops
    that wait for a deadline; Calls.v what a computation cannot do because of the
    calls it makes, and the calls that a computation made on its way.

    ** Files and sources

    - CpuList.v, CpuIsolation.v, CpuIsolationSpec.v, CpuAffinity.v:
      realsense_bench_common/cpu_isolation.py (class CpuIsolation and the CPU-list
      syntax); Devices.v: realsense_devices.py.
    - Attempts.v, SteadyAttempts.v: attempts.py, results.py, artifacts.py of
      realsense_bench_common and steady_attempts.py of realsense_steady_bench.
    - SystemControls.v, SystemControlsSpec.v: system_controls.py; it holds a
      [CpuIsolation] object and calls it through [zoom].
    - Recovery.v, RecoverySpec.v: recovery.py.  Memory.v: memory.py.
      Commands.v: commands.py, settings.py, steady_settings.py.
    - SchedTrace.v, Lifecycle.v, StartupTrace.v: parse_startup_trace.py;
      SteadyTrace.v, SteadyTraceSpec.v: parse_steady_trace.py; DeadlineProfile.v,
      DeadlineProfileSpec.v: generate_deadline_profile.py; Timerlat.v,
      TimerlatTable.v: timerlat_parser.py, and the table of a histogram read word
      by word.
    - Noise.v, NoiseSpec.v: noise_workloads.py and noise_transition.py.
    - SteadyResults.v: steady_results.py.  SteadyBench.v, SteadyBenchSpec.v,
      SteadyNoise.v: steady_benchmark.py, which composes all of the above into one
      run.
    - TimerlatLoad.v: timerlat_workload.py; TimerlatBench.v, TimerlatSpec.v:
      timerlat_benchmark.py, the same composition around [rtla timerlat].
    - V4l2Trace.v, V4l2TraceSpec.v: parse_v4l2_diagnostic_trace.py, with the layout
      of its binary file; KernelTrace.v: the lines of a kernel trace report;
      FreshnessTrace.v, FreshnessSpec.v: parse_freshness_kernel_trace.py;
      OverrunTrace.v, OverrunSpec.v: parse_overrun_kernel_trace.py; Bisect.v: the
      binary search all three use.
    - StartupModel.v, StartupModelSpec.v: build_startup_model.py, on the orders of
      floats in FloatOrder.v.  StartupBench.v, StartupBenchSpec.v:
      run_startup_campaign.py.  Calibration.v, CalibrationRuns.v,
      CalibrationSpec.v: calibrate_startup_timings.py.
    - MultiCamera.v, MultiCameraSpec.v: run_multicamera_campaign.py, which writes a
      plan; MultiCameraProfiles.v: generate_profiles.py.  CampaignRun.v: what the
      campaign programs share; SteadyCampaign.v, SteadyCampaignSpec.v:
      run_steady_campaign.py; TimerlatCampaign.v: run_timerlat_campaign.py.  PlannedCases.v: the plan of the multi-camera
      program is what the steady-state campaign accepts.
    - DiagnosticOverhead.v, DiagnosticOverheadSpec.v: run_diagnostic_overhead.py.
      ThreadTrace.v, ThreadTraceSpec.v: parse_trace.py of realsense_thread_trace.
    - Shell.v, Kernel.v: reproduction/setup/kernel.py; Reproduce.v, Adapters.v,
      StageRun.v: reproduction/reproduce.py; Pipeline.v: reproduction/pipeline.py;
      CampaignDisk.v, CampaignDemo.v, PipelineSpec.v, PipelineCrash.v,
      StageRunSpec.v, ConfigSpec.v: their properties.

    Definitions keep the names of the code; a long method is cut into
    definitions whose composition reads like it.

    ** What is shown

    - Undoing what was done: [prepare] of the isolation is a transaction,
      restoring and cleaning up attempt every step, interrupt affinities survive
      a campaign, noise processes and camera loads are never orphaned, by one
      workload, by one run and by the cleanup after it; a frequency lock is
      verified and undone.
    - Retries: the policy and the counts of the attempt loop, that it returns the
      output and the summary of its last attempt, its termination, that a failed
      setup ends a run, that a run starts only with recovered
      cameras and measures only with cold caches, that the selected attempt is
      found again.
    - Analyses: intervals, activations and logical jobs are ordered and
      complete, and come from the events read from the task files, sorted by time;
      thread records are consistent, a histogram counts the samples of its text
      and kernel errors are accounted for, deadline profiles are within their bounds, two analyses
      number threads alike, the columns of a result do not depend on the data,
      work bursts and stable periods are the ones the startup model means, a
      binary trace is read back as it was written, each begin of a stage is
      paired once, missing frames account for the sequence numbers, a lost frame
      is put down to the first cause in the window around it, the interrupt time
      of an activation is complete when interrupts do not overlap, a successful
      timer-latency attempt measured what it reports, a thread has one record
      whichever of its creation and its start was written first.
    - Measurements on many runs: a recommended timeout covers every observation,
      the probe was run with the validated settings, every candidate is tried by
      the resets and the run of the probe that its rows record, and a calibration
      ends; a layout that passes the preflight is connected, camera by camera, and
      keeps the limit per hub, cameras are spread
      evenly over hubs, a plan measures each situation once and is accepted by the
      steady-state campaign; profiles have enough runs behind them; a successful
      recovery has its evidence, a successful startup was reported in time; the
      campaigns run the cases of the file with the asked changes only, accepted
      cases can be run, the end of a campaign hides no failure and leaves no
      interference; the cost of diagnostics is measured at a locked frequency,
      which is restored, and its conditions can be run again.
    - The campaign, with commands that keep the law of [CampaignDisk]: it
      completes when its workers return, stages run in the order of the plan under
      the kernel of their phase, are announced before they start and are not repeated
      after an interruption; a failed worker cleans up; a run of a stage leaves
      the marker that the worker accepts; an accepted configuration is well
      typed; text edits change one line.

    ** Fuel

    Structural recursion is used where the code iterates over data.  A loop that
    waits for an event takes [fuel : nat]; when it runs out it raises [OutOfFuel],
    which no [except] clause of the model catches for good, so nothing is concluded
    from a run that was cut off.  On a machine whose clock advances with every sleep
    ([Clock]) the termination theorems give a number of turns that is enough:
    the timeout divided by the sleep, plus one.  The loop over the phases of a
    campaign needs one turn per phase.  The sampling of the diagnostic probe lasts
    as long as the probe does: what is shown of it holds with any fuel.

    ** What is left out

    - [print], docstrings, type annotations and argument parsers.
    - The working directory, the output redirection and (but for the GPU
      workload, the tracer and the diagnostic probe) the environment of commands.
    - JSON and CSV files are the values they hold; only text that the code
      itself takes apart is parsed.  Text is a sequence of bytes: the code's
      texts are ASCII.  [OverflowError] of int-to-float conversions and of
      array("q") in the overrun analysis.  A binary file, and the output of a
      command that is read line by line, are read at once.
    - Threads: the noise coordinator runs as a computation of its own, with the
      event that ends it answered by the operating system.
    - Regular expressions are functions on lines, translated by hand.
    - Benchkit, a git submodule: its [run_bench_command] is a system call.
    - Not modelled: the offline statistics of finished experiments (regressions,
      bootstraps, resource and latency models), which no other part calls; scripts for one
      experiment each with its paths written into them; tables, plots and
      timelines, among them those of build_startup_model.py; programs that only
      collect what is installed and connected; the hardware synchronisation
      benchmark and the runner and the symbolising of the thread tracer, which
      stand alone.  The C++ probes, the pthread tracer in C and the shell scripts
      are not Python, and run as commands; tests are not part of the program. *)
From stdpp Require Import base gmap strings list sorting pretty.
From Stdlib Require Import ZArith Lia.

(** ** Python exceptions *)

(** The exception classes the modelled code raises or names in an [except]
    clause.  [KeyboardInterrupt] and [SystemExit] derive from [BaseException]
    only, all the others from [Exception].  [OutOfFuel] is no Python exception: it
    marks a run whose loop was cut off by the model's fuel, and no [except]
    clause catches it for good. *)
Inductive exn_class :=
  | RuntimeError | ValueError | TypeError | KeyError | IndexError
  | AttributeError | AssertionError | NotImplementedError | ZeroDivisionError | OverflowError
  | OSError | FileNotFoundError | FileExistsError | PermissionError
  | NotADirectoryError | ProcessLookupError | TimeoutError | UnicodeDecodeError | JSONDecodeError
  | TimeoutExpired | CalledProcessError | StopIteration
  | KeyboardInterrupt | SystemExit
  | OutOfFuel.

#[export] Instance exn_class_eq_dec : EqDecision exn_class.
Proof. solve_decision. Defined.

(** [type(error).__name__] and [str(error)]. *)
Record exn := Exn { exn_type : exn_class; exn_msg : string }.

#[export] Instance exn_eq_dec : EqDecision exn.
Proof. solve_decision. Defined.

Definition exn_name (c : exn_class) : string :=
  match c with
  | RuntimeError => "RuntimeError" | ValueError => "ValueError"
  | TypeError => "TypeError" | KeyError => "KeyError"
  | IndexError => "IndexError" | AttributeError => "AttributeError"
  | AssertionError => "AssertionError"
  | NotImplementedError => "NotImplementedError"
  | ZeroDivisionError => "ZeroDivisionError" | OverflowError => "OverflowError"
  | OSError => "OSError" | FileNotFoundError => "FileNotFoundError"
  | FileExistsError => "FileExistsError" | PermissionError => "PermissionError"
  | NotADirectoryError => "NotADirectoryError"
  | ProcessLookupError => "ProcessLookupError" | TimeoutError => "TimeoutError"
  | UnicodeDecodeError => "UnicodeDecodeError"
  | JSONDecodeError => "JSONDecodeError"
  | TimeoutExpired => "TimeoutExpired"
  | CalledProcessError => "CalledProcessError" | StopIteration => "StopIteration"
  | KeyboardInterrupt => "KeyboardInterrupt" | SystemExit => "SystemExit"
  | OutOfFuel => "OutOfFuel"
  end.

(** The subclass tests of the [except] clauses. *)
Definition is_Exception (e : exn) : bool :=
  match exn_type e with KeyboardInterrupt | SystemExit | OutOfFuel => false | _ => true end.
Definition is_OSError (e : exn) : bool :=
  match exn_type e with
  | OSError | FileNotFoundError | FileExistsError | PermissionError
  | NotADirectoryError | ProcessLookupError | TimeoutError => true
  | _ => false
  end.
Definition is_ValueError (e : exn) : bool :=
  match exn_type e with
  | ValueError | UnicodeDecodeError | JSONDecodeError => true
  | _ => false
  end.
Definition is_SubprocessError (e : exn) : bool :=
  match exn_type e with TimeoutExpired | CalledProcessError => true | _ => false end.
Definition is_class (c : exn_class) (e : exn) : bool :=
  bool_decide (exn_type e = c).

(** ** Fallible pure code: a value or a raised exception *)

Inductive outcome (A : Type) :=
  | Ok (a : A)
  | Raise (e : exn).
Arguments Ok {_} _.
Arguments Raise {_} _.

#[export] Instance outcome_eq_dec `{EqDecision A} : EqDecision (outcome A).
Proof. solve_decision. Defined.

#[export] Instance outcome_ret : MRet outcome := @Ok.
#[export] Instance outcome_bind : MBind outcome := λ A B f m,
  match m with Ok a => f a | Raise e => Raise e end.
#[export] Instance outcome_fmap : FMap outcome := λ A B f m,
  match m with Ok a => Ok (f a) | Raise e => Raise e end.

Definition raise {A} (c : exn_class) (msg : string) : outcome A :=
  Raise (Exn c msg).

Definition is_ok {A} (m : outcome A) : bool :=
  match m with Ok _ => true | Raise _ => false end.

(** [for x in l: ...] in fallible code, collecting the results. *)
Fixpoint traverse {A B} (f : A → outcome B) (l : list A) : outcome (list B) :=
  match l with
  | [] => Ok []
  | x :: l => match f x with
              | Raise e => Raise e
              | Ok y => match traverse f l with
                        | Raise e => Raise e
                        | Ok ys => Ok (y :: ys)
                        end
              end
  end.

(** [for x in l: acc = f(acc, x)], leaving at the first exception. *)
Fixpoint fold_outcome {A B} (f : B → A → outcome B) (acc : B) (l : list A) : outcome B :=
  match l with
  | [] => Ok acc
  | x :: l => match f acc x with
              | Ok acc' => fold_outcome f acc' l
              | Raise e => Raise e
              end
  end.

Lemma outcome_bind_ok {A B} (m : outcome A) (f : A → outcome B) b :
  (m ≫= f) = Ok b ↔ ∃ a, m = Ok a ∧ f a = Ok b.
Proof. destruct m as [a|e]; cbn; split; [eauto| |done|]; intros (a' & [=] & ?); congruence. Qed.

Lemma outcome_fmap_ok {A B} (f : A → B) (m : outcome A) b :
  (f <$> m) = Ok b ↔ ∃ a, m = Ok a ∧ b = f a.
Proof.
  destruct m as [a|e]; cbn; split; [intros [=]; eauto| |done|];
    intros (a' & [=] & ?); congruence.
Qed.

Lemma traverse_ok {A B} (f : A → outcome B) l ys :
  traverse f l = Ok ys ↔ Forall2 (λ x y, f x = Ok y) l ys.
Proof.
  revert ys; induction l as [|x l IH]; intros ys; cbn.
  { split; [intros [= <-]; constructor | inversion 1; done]. }
  destruct (f x) as [y|] eqn:E; [destruct (traverse f l) as [ys'|] eqn:T|].
  - split.
    + intros [= <-]. constructor; [done|]. by apply IH.
    + inversion 1 as [|? y' ? ys'' Hy Hl]; subst.
      apply IH in Hl. congruence.
  - split; [done|]. inversion 1 as [|? y' ? ys'' Hy Hl]; subst.
    by apply IH in Hl.
  - split; [done|]. inversion 1; congruence.
Qed.

Lemma fold_outcome_app {A B} (f : B → A → outcome B) acc l1 l2 :
  fold_outcome f acc (l1 ++ l2) =
  match fold_outcome f acc l1 with
  | Ok acc' => fold_outcome f acc' l2
  | Raise e => Raise e
  end.
Proof.
  revert acc; induction l1 as [|x l1 IH]; intros acc; cbn; [done|].
  by destruct (f acc x).
Qed.

(** The invariant rule of the loop, with the consumed prefix as an index. *)
Lemma fold_outcome_inv {A B} (f : B → A → outcome B) (I : list A → B → Prop) acc l acc' :
  I [] acc →
  (∀ done x rest b b', l = done ++ x :: rest → I done b → f b x = Ok b' → I (done ++ [x]) b') →
  fold_outcome f acc l = Ok acc' → I l acc'.
Proof.
  intros H0 Hstep. cut (∀ d r b, l = d ++ r → I d b → fold_outcome f b r = Ok acc' → I l acc').
  { intros H Hf. by eapply (H [] l acc). }
  intros d r; revert d; induction r as [|x r IH]; intros d b Heq Hd Hf; cbn in Hf.
  - rewrite app_nil_r in Heq; by simplify_eq.
  - destruct (f b x) as [b'|] eqn:E; [|done].
    apply (IH (d ++ [x]) b'); [by rewrite <- app_assoc| |done].
    by eapply Hstep.
Qed.

(** ** [sorted(l, key=...)]: the stable sort on an integer key *)

Section sort_on.
Context {A : Type} (key : A → Z).

Fixpoint insert_on (x : A) (l : list A) : list A :=
  match l with
  | [] => [x]
  | y :: l' => if bool_decide (key x ≤ key y)%Z then x :: l else y :: insert_on x l'
  end.
Definition sort_on (l : list A) : list A := foldr insert_on [] l.

Definition key_le (x y : A) : Prop := (key x ≤ key y)%Z.
#[export] Instance key_le_trans : Transitive key_le.
Proof. unfold key_le. intros x y z. lia. Qed.

Lemma insert_on_perm x l : insert_on x l ≡ₚ x :: l.
Proof.
  induction l as [|y l IH]; simpl; [done|]. case_bool_decide; [done|].
  rewrite IH. constructor.
Qed.
Lemma sort_on_perm l : sort_on l ≡ₚ l.
Proof. induction l as [|x l IH]; simpl; [done|]. by rewrite insert_on_perm, IH. Qed.

Lemma insert_on_sorted x l : StronglySorted key_le l → StronglySorted key_le (insert_on x l).
Proof.
  induction 1 as [|y l Hl IH Hy]; simpl; [by repeat constructor|].
  case_bool_decide as Hxy; constructor; [by constructor| |done|].
  - constructor; [done|]. eapply Forall_impl; [exact Hy|]. unfold key_le. lia.
  - rewrite insert_on_perm. constructor; [|done]. unfold key_le. lia.
Qed.
Lemma sort_on_sorted l : StronglySorted key_le (sort_on l).
Proof. induction l as [|x l IH]; simpl; [constructor|]. by apply insert_on_sorted. Qed.

(** A sorted list is left as it is: the sort is stable. *)
Lemma sort_on_id l : StronglySorted key_le l → sort_on l = l.
Proof.
  induction 1 as [|x l Hl IH Hx]; simpl; [done|]. rewrite IH.
  destruct l as [|y l]; simpl; [done|]. apply Forall_cons in Hx as [Hxy _].
  by rewrite bool_decide_true.
Qed.
Lemma sort_on_nil l : sort_on l = [] → l = [].
Proof. intros H. apply Permutation_nil_r. by rewrite <- (sort_on_perm l), H. Qed.
Lemma elem_of_sort_on x l : x ∈ sort_on l ↔ x ∈ l.
Proof. by rewrite sort_on_perm. Qed.
Lemma length_sort_on l : length (sort_on l) = length l.
Proof. by rewrite sort_on_perm. Qed.

(** [l'] is [l] in the order of its keys, elements of one key as they were. *)
Definition stable_sorted (l l' : list A) : Prop :=
  l' ≡ₚ l ∧ StronglySorted key_le l' ∧ ∀ k, filter (λ x, key x = k) l' = filter (λ x, key x = k) l.
Lemma insert_on_stable k x l :
  filter (λ x, key x = k) (insert_on x l) = filter (λ x, key x = k) (x :: l).
Proof.
  induction l as [|y l IH]; simpl; [done|]. case_bool_decide as Hxy; [done|].
  rewrite filter_cons, IH, !filter_cons. repeat case_decide; try done. lia.
Qed.
Lemma sort_on_stable l : stable_sorted l (sort_on l).
Proof.
  split_and!; [apply sort_on_perm|apply sort_on_sorted|]. intros k.
  induction l as [|x l IH]; simpl; [done|]. by rewrite insert_on_stable, !filter_cons, IH.
Qed.
End sort_on.

(** Sorting pairs of a key and its element sorts the elements by their key. *)
Lemma sort_on_pairs {A} (key : A → Z) (l : list (Z * A)) :
  Forall (λ p, p.1 = key p.2) l → (sort_on fst l).*2 = sort_on key l.*2.
Proof.
  intros Hl. assert (∀ x (l : list (Z * A)), x.1 = key x.2 → Forall (λ p, p.1 = key p.2) l →
    (insert_on fst x l).*2 = insert_on key x.2 l.*2) as Hins.
  { intros x l' Hx. induction 1 as [|y l' Hy _ IH]; simpl; [done|]. rewrite Hx, Hy.
    case_bool_decide; simpl; [done|]. f_equal. exact IH. }
  induction Hl as [|x l Hx Hl IH]; [done|].
  etrans; [apply (Hins x (sort_on fst l)); [done|by rewrite sort_on_perm]|]. by rewrite IH.
Qed.

(** ** Tactics of the development *)

(** Case analysis on the scrutinee of some [match] of the goal (resp. of a
    hypothesis), keeping the equation. *)
Ltac case_inner t :=
  lazymatch t with
  | context [match ?u with _ => _ end] => case_inner u
  | _ => let E := fresh "E" in destruct t eqn:E
  end.
Ltac case_goal :=
  match goal with |- context [match ?t with _ => _ end] => case_inner t end.
Ltac case_hyp H :=
  match type of H with context [match ?t with _ => _ end] => case_inner t end.
Ltac split_and_all := repeat match goal with |- _ ∧ _ => split end.
