(* ===== verification/PyStr.v ===== *)
(** * Python's [str] operations

    The [str] methods, [int()] on text, [str()] on integers and [repr()] on
    text that the modelled code uses.  Text is a [string] of 8-bit characters:
    the code's text is ASCII (sysfs and procfs values, JSON keys, messages);
    the whitespace and line-boundary classes are those of [str] on that range. *)
From S2P Require Import Prelude.
From stdpp Require Import base gmap strings list sorting pretty.
From Stdlib Require Import Ascii ZArith Lia.

Declare Scope py_scope.
Delimit Scope py_scope with py.

(** ** Character classes *)

Definition code (a : ascii) : nat := Ascii.nat_of_ascii a.

(** [str.isspace] on one character: tab..carriage return, the four information
    separators and the space. *)
Definition py_isspace (a : ascii) : bool :=
  let n := code a in
  ((9 <=? n) && (n <=? 13)) || ((28 <=? n) && (n <=? 32)).

Definition py_isdigit_char (a : ascii) : bool :=
  let n := code a in (48 <=? n) && (n <=? 57).

Definition digit_value (a : ascii) : Z := Z.of_nat (code a) - 48.

(** [str.lower] on one character. *)
Definition lower_char (a : ascii) : ascii :=
  let n := code a in
  if (65 <=? n) && (n <=? 90) then Ascii.ascii_of_nat (n + 32) else a.

Fixpoint string_map (f : ascii → ascii) (s : string) : string :=
  match s with
  | EmptyString => EmptyString
  | String a s => String (f a) (string_map f s)
  end.
Definition py_lower : string → string := string_map lower_char.

Fixpoint string_forall (p : ascii → bool) (s : string) : bool :=
  match s with
  | EmptyString => true
  | String a s => p a && string_forall p s
  end.

(** [s.isdigit()]: at least one character, all of them digits. *)
Definition py_isdigit (s : string) : bool :=
  negb (bool_decide (s = "")) && string_forall py_isdigit_char s.

(** ** Stripping *)

Fixpoint lstrip_by (p : ascii → bool) (s : string) : string :=
  match s with
  | EmptyString => EmptyString
  | String a s' => if p a then lstrip_by p s' else s
  end.

Fixpoint rstrip_by (p : ascii → bool) (s : string) : string :=
  match s with
  | EmptyString => EmptyString
  | String a s' =>
      match rstrip_by p s' with
      | EmptyString => if p a then EmptyString else String a EmptyString
      | r => String a r
      end
  end.

Definition py_strip (s : string) : string := rstrip_by py_isspace (lstrip_by py_isspace s).
(** [s.lstrip("/")] and the like. *)
Definition py_lstrip_char (c : ascii) : string → string := lstrip_by (λ a, bool_decide (a = c)).
(** [s.strip(" |")]: the characters of [cs]. *)
Fixpoint in_string (a : ascii) (cs : string) : bool :=
  match cs with
  | EmptyString => false
  | String c cs => bool_decide (a = c) || in_string a cs
  end.
Definition py_strip_chars (cs : string) (s : string) : string :=
  rstrip_by (λ a, in_string a cs) (lstrip_by (λ a, in_string a cs) s).

(** ** Splitting and joining *)

(** [s.split(c)]: always at least one field. *)
Fixpoint py_split (c : ascii) (s : string) : list string :=
  match s with
  | EmptyString => [""]
  | String a s' =>
      if bool_decide (a = c) then "" :: py_split c s'
      else match py_split c s' with
           | [] => [String a ""]
           | w :: ws => String a w :: ws
           end
  end.

(** [s.split(c, n)]: at most [n] splits. *)
Fixpoint py_split_max (c : ascii) (n : nat) (s : string) : list string :=
  match s with
  | EmptyString => [""]
  | String a s' =>
      match n with
      | O => [s]
      | S n' =>
          if bool_decide (a = c) then "" :: py_split_max c n' s'
          else match py_split_max c n s' with
               | [] => [String a ""]
               | w :: ws => String a w :: ws
               end
      end
  end.

(** [s.split()]: runs of whitespace separate, no empty field. *)
Fixpoint py_words_go (cur : string) (s : string) : list string :=
  match s with
  | EmptyString => if bool_decide (cur = "") then [] else [cur]
  | String a s' =>
      if py_isspace a
      then if bool_decide (cur = "") then py_words_go "" s' else cur :: py_words_go "" s'
      else py_words_go (cur +:+ String a "") s'
  end.
Definition py_words : string → list string := py_words_go "".

(** [s.partition(c)] as (before, separator found, after). *)
Fixpoint py_partition (c : ascii) (s : string) : string * bool * string :=
  match s with
  | EmptyString => ("", false, "")
  | String a s' =>
      if bool_decide (a = c) then ("", true, s')
      else let '(b, f, r) := py_partition c s' in (String a b, f, r)
  end.

(** [s.rsplit(c, 1)[0]]: the text before the last [c], all of it without one. *)
Fixpoint py_rsplit1_head (c : ascii) (s : string) : string :=
  match s with
  | EmptyString => ""
  | String a s' =>
      if in_string c s' then String a (py_rsplit1_head c s')
      else if bool_decide (a = c) then "" else s
  end.

(** [s.splitlines()]: CR LF counts once, a final line boundary adds no line. *)
Definition is_line_end (a : ascii) : bool :=
  let n := code a in ((10 <=? n) && (n <=? 13)) || ((28 <=? n) && (n <=? 30)).
Fixpoint py_splitlines_go (cur : string) (s : string) : list string :=
  match s with
  | EmptyString => if bool_decide (cur = "") then [] else [cur]
  | String a s' =>
      if is_line_end a
      then match s' with
           | String b s'' =>
               if (code a =? 13) && (code b =? 10)
               then cur :: py_splitlines_go "" s''
               else cur :: py_splitlines_go "" s'
           | EmptyString => cur :: py_splitlines_go "" s'
           end
      else py_splitlines_go (cur +:+ String a "") s'
  end.
Definition py_splitlines : string → list string := py_splitlines_go "".

(** [sep.join(l)]. *)
Fixpoint py_join (sep : string) (l : list string) : string :=
  match l with
  | [] => ""
  | [x] => x
  | x :: l' => x +:+ sep +:+ py_join sep l'
  end.

(** [s.startswith(p)], [s.endswith(p)], [p in s] and [s[len(p):]]. *)
Definition py_startswith (p s : string) : bool := String.prefix p s.
Fixpoint py_contains (p s : string) : bool :=
  String.prefix p s ||
  match s with EmptyString => false | String _ s' => py_contains p s' end.
Fixpoint py_endswith (p s : string) : bool :=
  bool_decide (p = s) ||
  match s with EmptyString => false | String _ s' => py_endswith p s' end.
Fixpoint py_drop (n : nat) (s : string) : string :=
  match n, s with
  | O, _ => s
  | S n', EmptyString => EmptyString
  | S n', String _ s' => py_drop n' s'
  end.

(** [s.removesuffix(p)]. *)
Definition py_removesuffix (p s : string) : string :=
  if py_endswith p s && negb (bool_decide (p = ""))
  then String.substring 0 (String.length s - String.length p) s else s.

(** ** Integers as text *)

(** [str(n)] and [f"{n}"]. *)
Definition str_Z (z : Z) : string := pretty z.

(** [f"{n:03d}"]: zero padding to width [w], after the sign. *)
Fixpoint zeros (n : nat) : string :=
  match n with O => "" | S n => String "0" (zeros n) end.
Definition pad_Z (w : nat) (z : Z) : string :=
  let digits := pretty (Z.to_N (Z.abs z)) in
  let sign := if bool_decide (z < 0)%Z then "-" else "" in
  sign +:+ zeros (w - String.length sign - String.length digits) +:+ digits.

(** The digits of [int(s)]: underscores may separate digits, one at a time. *)
Fixpoint digits_go (acc : Z) (after_digit : bool) (s : string) : option Z :=
  match s with
  | EmptyString => if after_digit then Some acc else None
  | String a s' =>
      if py_isdigit_char a then digits_go (10 * acc + digit_value a) true s'
      else if bool_decide (a = "_"%char) && after_digit then digits_go acc false s'
      else None
  end.

Definition signed_digits (s : string) : option Z :=
  match s with
  | EmptyString => None
  | String a s' =>
      if bool_decide (a = "-"%char) then Z.opp <$> digits_go 0 false s'
      else if bool_decide (a = "+"%char) then digits_go 0 false s'
      else digits_go 0 false s
  end.

(** [int(s)] on text: surrounding whitespace and one sign are accepted. *)
Definition int_of_string (s : string) : option Z :=
  signed_digits (py_strip s).

(** ** [repr] on text *)

Definition hex_digit (n : nat) : ascii :=
  if n <? 10 then Ascii.ascii_of_nat (48 + n) else Ascii.ascii_of_nat (87 + n).
Definition repr_char (q : ascii) (a : ascii) : string :=
  let n := code a in
  if bool_decide (a = q) || (n =? 92) then String "\" (String a "")
  else if n =? 10 then "\n" else if n =? 13 then "\r" else if n =? 9 then "\t"
  else if (n <? 32) || (n =? 127)
  then "\x" +:+ String (hex_digit (n / 16)) (String (hex_digit (n mod 16)) "")
  else String a "".
Fixpoint repr_body (q : ascii) (s : string) : string :=
  match s with
  | EmptyString => ""
  | String a s' => repr_char q a +:+ repr_body q s'
  end.
Definition squote : ascii := Ascii.ascii_of_nat 39.
Definition dquote : ascii := Ascii.ascii_of_nat 34.
(** [f"{s!r}"]: double quotes only when the text has a single quote and no
    double quote. *)
Definition py_repr (s : string) : string :=
  let q := if in_string squote s && negb (in_string dquote s) then dquote else squote in
  String q (repr_body q s +:+ String q "").

(** The newline as a string. *)
Definition nl : string := String (Ascii.ascii_of_nat 10) "".

(** [a or b] on text: the first operand when it is not empty. *)
Definition str_or (a b : string) : string := if bool_decide (a = "") then b else a.

(** The leading digits of a text and what follows them. *)
Fixpoint span_digits (s : string) : string * string :=
  match s with
  | String a s' =>
      if py_isdigit_char a then let '(d, r) := span_digits s' in (String a d, r) else ("", s)
  | EmptyString => ("", "")
  end.

(** ** Lemmas *)

Lemma py_split_nonempty c s : py_split c s ≠ [].
Proof.
  destruct s as [|a s]; cbn; [done|].
  case_bool_decide; [done|]. by destruct (py_split c s).
Qed.

Lemma in_string_app a s t : in_string a (s +:+ t) = in_string a s || in_string a t.
Proof. induction s as [|b s IH]; simpl; [done|]. by rewrite IH, orb_assoc. Qed.

Lemma string_forall_app p s t : string_forall p (s +:+ t) = string_forall p s && string_forall p t.
Proof. induction s as [|b s IH]; simpl; [done|]. by rewrite IH, andb_assoc. Qed.

(** A text of characters satisfying [p] has no character outside [p]. *)
Lemma string_forall_not_in p s c :
  string_forall p s = true → p c = false → in_string c s = false.
Proof.
  induction s as [|b s IH]; cbn; [done|]. intros [Hb Hs]%andb_true_iff Hc.
  rewrite IH by done. rewrite orb_false_r. apply bool_decide_false. intros ->; congruence.
Qed.

Lemma py_split_none c s : in_string c s = false → py_split c s = [s].
Proof.
  induction s as [|a s IH]; cbn; [done|]. intros [Hc Hs]%orb_false_iff.
  apply bool_decide_eq_false in Hc. rewrite bool_decide_false by congruence.
  by rewrite IH.
Qed.

Lemma py_split_cons c s t :
  in_string c s = false → py_split c (s +:+ String c t) = s :: py_split c t.
Proof.
  induction s as [|a s IH]; simpl; intros H.
  { by rewrite bool_decide_true. }
  apply orb_false_iff in H as [Hc Hs]. apply bool_decide_eq_false in Hc.
  rewrite bool_decide_false by congruence. by rewrite IH.
Qed.

(** [",".join(l).split(",")] is [l] when no field holds the separator. *)
Lemma py_split_join c l :
  l ≠ [] → Forall (λ s, in_string c s = false) l →
  py_split c (py_join (String c "") l) = l.
Proof.
  intros Hl Hf. induction Hf as [|s l Hs Hf IH]; [done|].
  destruct l as [|t l]; [by apply py_split_none|].
  change (py_split c (s +:+ String c (py_join (String c "") (t :: l))) = s :: t :: l).
  rewrite py_split_cons by done. by rewrite IH.
Qed.

Lemma py_split_max_none c n s : in_string c s = false → py_split_max c n s = [s].
Proof.
  induction s as [|a s IH]; cbn; [done|]. intros [Hc Hs]%orb_false_iff.
  apply bool_decide_eq_false in Hc.
  destruct n; [done|]. rewrite bool_decide_false by congruence. by rewrite IH.
Qed.

Lemma py_split_max_1 c s t :
  in_string c s = false → py_split_max c 1 (s +:+ String c t) = [s; t].
Proof.
  induction s as [|a s IH]; simpl; intros H.
  { rewrite bool_decide_true by done. by destruct t. }
  apply orb_false_iff in H as [Hc Hs]. apply bool_decide_eq_false in Hc.
  rewrite bool_decide_false by congruence. by rewrite IH.
Qed.

(** Stripping leaves a text without whitespace alone. *)
Lemma rstrip_by_none p s : string_forall (λ a, negb (p a)) s = true → rstrip_by p s = s.
Proof.
  induction s as [|a s IH]; cbn; [done|]. intros [Ha Hs]%andb_true_iff.
  rewrite IH by done. destruct s; [|done]. by destruct (p a).
Qed.
Lemma lstrip_by_none p s : string_forall (λ a, negb (p a)) s = true → lstrip_by p s = s.
Proof.
  destruct s as [|a s]; cbn; [done|]. intros [Ha _]%andb_true_iff. by destruct (p a).
Qed.
Lemma py_strip_none s : string_forall (λ a, negb (py_isspace a)) s = true → py_strip s = s.
Proof. intros H. unfold py_strip. by rewrite lstrip_by_none, rstrip_by_none. Qed.

Lemma string_forall_weaken (p q : ascii → bool) s :
  (∀ a, p a = true → q a = true) → string_forall p s = true → string_forall q s = true.
Proof.
  intros Hpq. induction s as [|a s IH]; cbn; [done|].
  intros [Ha Hs]%andb_true_iff. by rewrite (Hpq a), IH.
Qed.

Lemma digit_not_space a : py_isdigit_char a = true → negb (py_isspace a) = true.
Proof.
  unfold py_isdigit_char, py_isspace. intros H. apply negb_true_iff.
  apply andb_true_iff in H as [?%Nat.leb_le ?%Nat.leb_le].
  apply orb_false_iff; split; apply andb_false_iff; rewrite !Nat.leb_gt; lia.
Qed.

(** *** Printing and reading integers *)

Lemma pretty_N_char_digit x :
  (x < 10)%N → py_isdigit_char (pretty_N_char x) = true ∧ digit_value (pretty_N_char x) = Z.of_N x.
Proof.
  intros H. assert (x = 0 ∨ x = 1 ∨ x = 2 ∨ x = 3 ∨ x = 4 ∨ x = 5 ∨ x = 6 ∨ x = 7 ∨ x = 8 ∨ x = 9)%N
    as Hx by lia.
  destruct_or! Hx; subst; by vm_compute.
Qed.

Lemma pretty_N_go_digits x s :
  string_forall py_isdigit_char s = true → string_forall py_isdigit_char (pretty_N_go x s) = true.
Proof.
  revert s. induction (N.lt_wf_0 x) as [x _ IH]; intros s Hs.
  destruct (decide (x = 0)%N) as [->|Hx]; [by rewrite pretty_N_go_0|].
  rewrite pretty_N_go_step by lia. apply IH; [apply N.div_lt; lia|].
  cbn. rewrite Hs, andb_true_r. apply pretty_N_char_digit. apply N.mod_lt; lia.
Qed.

Lemma pretty_N_digits (x : N) : string_forall py_isdigit_char (pretty x) = true.
Proof.
  unfold pretty, pretty_N. case_decide; [done|]. by apply pretty_N_go_digits.
Qed.

Lemma pretty_N_go_nonempty x s : s ≠ "" → pretty_N_go x s ≠ "".
Proof.
  revert s. induction (N.lt_wf_0 x) as [x _ IH]; intros s Hs.
  destruct (decide (x = 0)%N) as [->|Hx]; [by rewrite pretty_N_go_0|].
  rewrite pretty_N_go_step by lia. apply IH; [apply N.div_lt; lia|done].
Qed.

Lemma pretty_N_nonempty (x : N) : pretty x ≠ "".
Proof.
  unfold pretty, pretty_N. case_decide; [done|].
  rewrite pretty_N_go_step by lia. by apply pretty_N_go_nonempty.
Qed.

(** [str(n).isdigit()] for a natural number. *)
Lemma pretty_N_isdigit (x : N) : py_isdigit (pretty x) = true.
Proof.
  unfold py_isdigit. rewrite pretty_N_digits, andb_true_r.
  apply negb_true_iff, bool_decide_false, pretty_N_nonempty.
Qed.

Lemma digits_go_pretty x s b :
  (x ≠ 0)%N → digits_go 0 b (pretty_N_go x s) = digits_go (Z.of_N x) true s.
Proof.
  revert s b. induction (N.lt_wf_0 x) as [x _ IH]; intros s b Hx.
  rewrite pretty_N_go_step by lia.
  destruct (pretty_N_char_digit (x `mod` 10)) as [Hd Hv]; [apply N.mod_lt; lia|].
  destruct (decide (x / 10 = 0)%N) as [Hq|Hq].
  - rewrite Hq, pretty_N_go_0. simpl. rewrite Hd, Hv. f_equal.
    pose proof (N.div_mod x 10). lia.
  - rewrite IH by (done || (apply N.div_lt; lia)). simpl. rewrite Hd, Hv. f_equal.
    pose proof (N.div_mod x 10). lia.
Qed.

Lemma digits_go_pretty_N (x : N) : digits_go 0 false (pretty x) = Some (Z.of_N x).
Proof.
  unfold pretty, pretty_N. case_decide as H; [by subst|].
  by rewrite digits_go_pretty.
Qed.

Lemma signed_digits_digits s : py_isdigit s = true → signed_digits s = digits_go 0 false s.
Proof.
  destruct s as [|a s]; [done|]. intros [_ [Ha _]%andb_true_iff]%andb_true_iff. unfold signed_digits.
  rewrite !bool_decide_false; [done| |]; intros ->; discriminate Ha.
Qed.

(** [int(str(n)) == n] for a natural number. *)
Lemma int_of_pretty_N (x : N) : int_of_string (pretty x) = Some (Z.of_N x).
Proof.
  unfold int_of_string. rewrite py_strip_none.
  - rewrite signed_digits_digits by apply pretty_N_isdigit. apply digits_go_pretty_N.
  - eapply string_forall_weaken, pretty_N_digits. apply digit_not_space.
Qed.

(** [int(str(z)) == z] for every integer. *)
Lemma int_of_str_Z (z : Z) : int_of_string (str_Z z) = Some z.
Proof.
  unfold str_Z. destruct z as [|p|p]; [done| |].
  - change (pretty (Z.pos p)) with (pretty (N.pos p)). by rewrite int_of_pretty_N.
  - change (pretty (Z.neg p)) with (String "-" (pretty (N.pos p))).
    unfold int_of_string. rewrite py_strip_none.
    + unfold signed_digits. rewrite bool_decide_true by done. by rewrite digits_go_pretty_N.
    + simpl. eapply string_forall_weaken, pretty_N_digits. apply digit_not_space.
Qed.

Lemma str_Z_inj z1 z2 : str_Z z1 = str_Z z2 → z1 = z2.
Proof. intros H. pose proof (int_of_str_Z z1) as H1. rewrite H, int_of_str_Z in H1. by simplify_eq. Qed.

(** A text of digits holds no character that is not a digit. *)
Lemma digits_no_char c s :
  string_forall py_isdigit_char s = true → py_isdigit_char c = false → in_string c s = false.
Proof. apply string_forall_not_in. Qed.

(** [s.startswith(s)] and prefixes of concatenations. *)
Lemma py_startswith_app p s : py_startswith p (p +:+ s) = true.
Proof.
  unfold py_startswith. induction p as [|a p IH]; [by destruct s|]. simpl.
  by destruct (Ascii.ascii_dec a a).
Qed.
Lemma py_drop_app p s : py_drop (String.length p) (p +:+ s) = s.
Proof. by induction p. Qed.
Lemma py_startswith_inv p s : py_startswith p s = true → s = p +:+ py_drop (String.length p) s.
Proof.
  unfold py_startswith. revert s. induction p as [|a p IH]; intros [|b s]; simpl; try done.
  destruct (Ascii.ascii_dec a b) as [->|]; [|done]. intros H. change (String b s = String b (p +:+ py_drop (String.length p) s)). f_equal. by apply IH.
Qed.

Lemma string_app_cons a (s t : string) : String a s +:+ t = String a (s +:+ t).
Proof. done. Qed.
Lemma string_app_assoc (s t u : string) : (s +:+ t) +:+ u = s +:+ t +:+ u.
Proof. induction s as [|a s IH]; [done|]. by rewrite !string_app_cons, IH. Qed.
Lemma string_app_nil_r (s : string) : s +:+ "" = s.
Proof. induction s as [|a s IH]; [done|]. by rewrite string_app_cons, IH. Qed.
Lemma string_app_inj_l (s t u : string) : s +:+ t = s +:+ u → t = u.
Proof. induction s as [|a s IH]; [done|]. rewrite !string_app_cons. intros [=]; auto. Qed.

(** *** Checked examples *)
Example split_example : py_split "," "0, 2-3" = ["0"; " 2-3"].
Proof. reflexivity. Qed.
Example int_examples :
  (int_of_string " 42", int_of_string "-7", int_of_string "1_0", int_of_string "1__0",
   int_of_string "", int_of_string "x") =
  (Some 42, Some (-7), Some 10, None, None, None)%Z.
Proof. reflexivity. Qed.
Example repr_example : py_repr "a'b" = String dquote "a'b" +:+ String dquote "".
Proof. reflexivity. Qed.
Example pad_example : (pad_Z 3 7, pad_Z 3 1234, pad_Z 3 (-5)) = ("007", "1234", "-05").
Proof. reflexivity. Qed.

Lemma string_app_length (s t : string) :
  String.length (s +:+ t) = (String.length s + String.length t)%nat.
Proof. induction s as [|a s IH]; [done|]. rewrite string_app_cons. simpl. by rewrite IH. Qed.
Lemma py_endswith_app p s : py_endswith p (s +:+ p) = true.
Proof.
  induction s as [|a s IH].
  - destruct p; simpl; [done|]. by rewrite bool_decide_eq_true_2.
  - rewrite string_app_cons. simpl. by rewrite IH, orb_true_r.
Qed.
Lemma substring_app (s t : string) : String.substring 0 (String.length s) (s +:+ t) = s.
Proof. induction s as [|a s IH]; [by destruct t|]. rewrite string_app_cons. simpl. by rewrite IH. Qed.
Lemma py_removesuffix_app p s : py_removesuffix p (s +:+ p) = s.
Proof.
  unfold py_removesuffix. rewrite py_endswith_app. case_bool_decide as Hp; simpl.
  - subst. apply string_app_nil_r.
  - rewrite string_app_length, Nat.add_sub. apply substring_app.
Qed.

Lemma rstrip_by_app p s t :
  string_forall (λ a, negb (p a)) s = true → string_forall p t = true → rstrip_by p (s +:+ t) = s.
Proof.
  intros Hs Ht. induction s as [|a s IH].
  - change (rstrip_by p t = ""). induction t as [|b t IH]; cbn; [done|].
    cbn in Ht. apply andb_true_iff in Ht as [Hb Ht]. by rewrite IH, Hb.
  - cbn in Hs. apply andb_true_iff in Hs as [Ha Hs]. rewrite string_app_cons. cbn.
    rewrite IH by done. destruct s; [|done]. by destruct (p a).
Qed.
Lemma py_strip_app s t :
  s ≠ "" → string_forall (λ a, negb (py_isspace a)) s = true →
  string_forall py_isspace t = true → py_strip (s +:+ t) = s.
Proof.
  intros Hne Hs Ht. unfold py_strip. destruct s as [|a s]; [done|].
  assert (lstrip_by py_isspace (String a s +:+ t) = String a s +:+ t) as ->.
  { rewrite string_app_cons. cbn in *. apply andb_true_iff in Hs as [Ha _].
    by destruct (py_isspace a). }
  by apply rstrip_by_app.
Qed.
Lemma str_Z_not_space z : string_forall (λ a, negb (py_isspace a)) (str_Z z) = true.
Proof.
  unfold str_Z. destruct z as [|p|p]; [done| |].
  all: try change (pretty (Z.neg p)) with ("-" +:+ pretty (N.pos p)).
  all: try change (pretty (Z.pos p)) with (pretty (N.pos p)).
  - eapply string_forall_weaken; [apply digit_not_space|apply pretty_N_digits].
  - rewrite string_forall_app. eapply string_forall_weaken; [apply digit_not_space|apply pretty_N_digits].
Qed.
Lemma str_Z_not_empty z : str_Z z ≠ "".
Proof. intros Hz. pose proof (int_of_str_Z z) as Hi. by rewrite Hz in Hi. Qed.
(** [f"{n}\n"] strips to [str(n)]. *)
Lemma py_strip_str_Z z : py_strip (str_Z z +:+ nl) = str_Z z.
Proof. apply py_strip_app; [apply str_Z_not_empty|apply str_Z_not_space|done]. Qed.

(** ** Occurrences of a text *)

Definition py_rstrip : string → string := rstrip_by py_isspace.

(** [s.count(p)] and [s.replace(p, r)] for a nonempty [p]: occurrences are
    found from the left and do not overlap; [skip] characters of the last one
    are still to be passed over. *)
Fixpoint count_go (p : string) (skip : nat) (s : string) : nat :=
  match s with
  | EmptyString => 0
  | String _ s' =>
      match skip with
      | S skip => count_go p skip s'
      | O => if py_startswith p s then S (count_go p (String.length p - 1) s')
             else count_go p 0 s'
      end
  end.
Definition py_count (p s : string) : nat := count_go p 0 s.
(** [n] bounds the number of replacements ([s.replace(p, r, n)]). *)
Fixpoint replace_go (p r : string) (n : nat) (skip : nat) (s : string) : string :=
  match s with
  | EmptyString => ""
  | String a s' =>
      match skip with
      | S skip => replace_go p r n skip s'
      | O =>
          match n with
          | O => s
          | S n' => if py_startswith p s then r +:+ replace_go p r n' (String.length p - 1) s'
                    else String a (replace_go p r n 0 s')
          end
      end
  end.
Definition py_replace_max (p r : string) (n : nat) (s : string) : string := replace_go p r n 0 s.
Definition py_replace (p r s : string) : string := py_replace_max p r (String.length s) s.
(** [s.split(p)[0]]. *)
Fixpoint py_before (p s : string) : string :=
  match s with
  | EmptyString => ""
  | String a s' => if py_startswith p s then "" else String a (py_before p s')
  end.

Lemma count_go_skip p s t : count_go p (String.length s) (s +:+ t) = count_go p 0 t.
Proof. induction s as [|a s IH]; [by destruct t|]. by rewrite string_app_cons. Qed.
Lemma replace_go_skip p r n s t : replace_go p r n (String.length s) (s +:+ t) = replace_go p r n 0 t.
Proof. induction s as [|a s IH]; [by destruct t|]. by rewrite string_app_cons. Qed.
Lemma replace_go_O p r s : replace_go p r 0 0 s = s.
Proof. by destruct s. Qed.

(** The first occurrence splits the text; the rest holds the others. *)
Lemma py_count_split p s :
  p ≠ "" → (0 < py_count p s)%nat →
  ∃ t, s = py_before p s +:+ p +:+ t ∧ py_count p s = S (py_count p t) ∧
       ∀ r n, py_replace_max p r (S n) s = py_before p s +:+ r +:+ py_replace_max p r n t.
Proof.
  intros Hp. unfold py_count, py_replace_max. induction s as [|a s IH]; intros Hc; [simpl in Hc; lia|].
  cbn [count_go replace_go py_before] in *. destruct (py_startswith p (String a s)) eqn:Hs.
  - apply py_startswith_inv in Hs. destruct p as [|b p]; [done|].
    rewrite string_app_cons in Hs. cbn [py_drop String.length] in Hs. injection Hs as -> Hs.
    set (t := py_drop (String.length p) s) in *. exists t. split; [by rewrite Hs at 1|].
    cbn [String.length]. rewrite Nat.sub_0_r || replace (S (String.length p) - 1) with (String.length p) by lia.
    rewrite Hs. split.
    + f_equal. apply count_go_skip.
    + intros r n. rewrite replace_go_skip. done.
  - destruct (IH Hc) as (t & Ht & Hn & Hr). exists t. split.
    { rewrite string_app_cons. by rewrite <- Ht. }
    split; [done|]. intros r n. by rewrite string_app_cons, Hr.
Qed.

Example replace_examples :
  (py_count "ab" "ababxab", py_replace "ab" "-" "ababxab", py_replace_max "a" "b" 1 "aaa",
   py_before "=" "k=v=w") = (3, "--x-", "baa", "k").
Proof. vm_compute. reflexivity. Qed.

(** ** Words and lines *)

Definition no_space (s : string) : bool := string_forall (λ a, negb (py_isspace a)) s.
Definition is_word (s : string) : bool := negb (bool_decide (s = "")) && no_space s.

Lemma py_words_go_app cur s t :
  no_space s = true → py_words_go cur (s +:+ t) = py_words_go (cur +:+ s) t.
Proof.
  revert cur. induction s as [|a s IH]; intros cur; [by rewrite string_app_nil_r|].
  unfold no_space in *. cbn. intros [Ha Hs]%andb_true_iff. rewrite string_app_cons. cbn.
  apply negb_true_iff in Ha. rewrite Ha, IH by done. by rewrite string_app_assoc.
Qed.
Lemma py_words_go_space cur a t :
  py_isspace a = true → cur ≠ "" → py_words_go cur (String a t) = cur :: py_words t.
Proof. intros Ha Hc. cbn. rewrite Ha. by rewrite bool_decide_false. Qed.
(** [(" ".join(words) + "\n").split()] are the words again. *)
Lemma py_words_join ws :
  Forall (λ w, is_word w = true) ws → py_words (py_join " " ws +:+ nl) = ws.
Proof.
  induction 1 as [|w ws [Hw Hs]%andb_true_iff Hws IH]; [done|].
  apply negb_true_iff, bool_decide_eq_false in Hw.
  destruct ws as [|v ws].
  - simpl py_join. unfold py_words. rewrite py_words_go_app by done. by apply py_words_go_space.
  - change (py_words ((w +:+ " " +:+ py_join " " (v :: ws)) +:+ nl) = w :: v :: ws).
    rewrite string_app_assoc. unfold py_words. rewrite py_words_go_app by done.
    change (" " +:+ py_join " " (v :: ws)) with (String " " (py_join " " (v :: ws))).
    rewrite string_app_cons, py_words_go_space by done. by rewrite IH.
Qed.
Lemma py_words_go_words cur s :
  no_space cur = true → Forall (λ w, is_word w = true) (py_words_go cur s).
Proof.
  assert (∀ cur, no_space cur = true → bool_decide (cur = "") = false → is_word cur = true) as Hw.
  { intros c Hc Hne. unfold is_word. by rewrite Hne, Hc. }
  revert cur. induction s as [|a s IH]; intros cur Hcur; cbn.
  - destruct (bool_decide _) eqn:E; [done|]. apply Forall_singleton. auto.
  - destruct (py_isspace a) eqn:Ha; [destruct (bool_decide _) eqn:E|]; [by apply IH| |].
    + apply Forall_cons_2; [auto|by apply IH].
    + apply IH. unfold no_space in *. rewrite string_forall_app, Hcur. cbn. by rewrite Ha.
Qed.
Lemma py_words_words s : Forall (λ w, is_word w = true) (py_words s).
Proof. by apply py_words_go_words. Qed.

Lemma py_split_no_sep c s : Forall (λ w, in_string c w = false) (py_split c s).
Proof.
  induction s as [|a s IH]; cbn; [by repeat constructor|].
  case_bool_decide as Ha; [by constructor|].
  destruct IH as [|w ws Hw Hws]; [|constructor; [|done]]; [repeat constructor|];
    cbn; rewrite bool_decide_false by congruence; done.
Qed.
(** The fields of [s + t]: the last field of [s] runs into the first of [t]. *)
Lemma py_split_app c s t :
  ∃ ls l r rs, py_split c s = ls ++ [l] ∧ py_split c t = r :: rs ∧
    py_split c (s +:+ t) = ls ++ [l +:+ r] ++ rs.
Proof.
  induction s as [|a s IH].
  - destruct (py_split c t) as [|r rs] eqn:Ht; [by apply py_split_nonempty in Ht|].
    exists [], "", r, rs. split_and!; [done|done|exact Ht].
  - destruct IH as (ls & l & r & rs & Hs & Ht & Happ).
    rewrite string_app_cons. cbn [py_split]. case_bool_decide.
    + exists ("" :: ls), l, r, rs. by rewrite Hs, Happ.
    + rewrite Hs, Happ. destruct ls as [|w ls]; simpl.
      * by exists [], (String a l), r, rs.
      * by exists (String a w :: ls), l, r, rs.
Qed.
Lemma py_join_split c s : py_join (String c "") (py_split c s) = s.
Proof.
  induction s as [|a s IH]; [done|]. cbn [py_split]. case_bool_decide as Ha.
  - subst a. destruct (py_split c s) as [|w ws] eqn:E; [by apply py_split_nonempty in E|].
    change ("" +:+ String c "" +:+ py_join (String c "") (w :: ws) = String c s). by rewrite IH.
  - destruct (py_split c s) as [|w ws] eqn:E; [by apply py_split_nonempty in E|].
    rewrite <- IH. by destruct ws.
Qed.
Lemma rstrip_by_prefix p s : ∃ t, s = rstrip_by p s +:+ t.
Proof.
  induction s as [|a s [t IH]]; [by exists ""|]. cbn [rstrip_by].
  destruct (rstrip_by p s) as [|b r] eqn:E.
  - destruct (p a); [by exists (String a s)|]. by exists s.
  - exists t. rewrite string_app_cons. by rewrite <- IH.
Qed.

(** [s.splitlines(keepends=True)]. *)
Fixpoint splitlines_keep_go (cur : string) (s : string) : list string :=
  match s with
  | EmptyString => if bool_decide (cur = "") then [] else [cur]
  | String a s' =>
      if is_line_end a
      then match s' with
           | String b s'' =>
               if (code a =? 13) && (code b =? 10)
               then (cur +:+ String a (String b "")) :: splitlines_keep_go "" s''
               else (cur +:+ String a "") :: splitlines_keep_go "" s'
           | EmptyString => (cur +:+ String a "") :: splitlines_keep_go "" s'
           end
      else splitlines_keep_go (cur +:+ String a "") s'
  end.
Definition py_splitlines_keep : string → list string := splitlines_keep_go "".
