(* ===== verification/PyFloat.v ===== *)
(** * Python's [float]

    IEEE-754 binary64 numbers as [SpecFloat.spec_float] with precision 53 and
    exponent bound 1024, rounding to nearest even as CPython does: the
    arithmetic operators, true division of integers (correctly rounded),
    [int()], [math.floor], [math.ceil], [round], [math.sqrt], [math.fsum],
    [statistics.fmean], the comparison of a float with an integer (exact), and
    decimal literals. *)
From Stdlib Require Import Ascii ZArith Lia.
From Stdlib Require Import Floats.SpecFloat.
From S2P Require Import Prelude PyStr.
From stdpp Require Import base gmap strings list sorting.
Local Open Scope Z_scope.

Abbreviation f64 := spec_float.
Definition prec : Z := 53.
Definition emax : Z := 1024.

#[export] Instance spec_float_eq_dec : EqDecision spec_float.
Proof. solve_decision. Defined.

Definition f_add : f64 → f64 → f64 := SFadd prec emax.
Definition f_sub : f64 → f64 → f64 := SFsub prec emax.
Definition f_mul : f64 → f64 → f64 := SFmul prec emax.
Definition f_div_raw : f64 → f64 → f64 := SFdiv prec emax.
Definition f_sqrt : f64 → f64 := SFsqrt prec emax.
Definition f_lt : f64 → f64 → bool := SFltb.
Definition f_le : f64 → f64 → bool := SFleb.
Definition f_eq : f64 → f64 → bool := SFeqb.
Definition f_zero : f64 := S754_zero false.

(** [float(z)]. *)
Definition f_of_Z (z : Z) : f64 := binary_normalize prec emax z 0 false.

(** [x / y] on floats: division by zero raises. *)
Definition f_div (x y : f64) : outcome f64 :=
  if f_eq y f_zero then raise ZeroDivisionError "float division by zero"
  else Ok (f_div_raw x y).

(** The exact integer as an (unnormalised) finite float. *)
Definition f_exact (z : Z) : f64 :=
  match z with
  | Z0 => S754_zero false
  | Zpos p => S754_finite false p 0
  | Zneg p => S754_finite true p 0
  end.

(** [a / b] on integers: the correctly rounded quotient. *)
Definition Z_truediv (a b : Z) : f64 := f_div_raw (f_exact a) (f_exact b).

(** The literal [m * 10 ** k]. *)
Definition f_dec (m k : Z) : f64 :=
  if bool_decide (0 <= k) then f_of_Z (m * 10 ^ k) else Z_truediv m (10 ^ (- k)).

(** ** Rounding to integers; infinities and NaN raise *)

Definition cannot_convert {A} (x : f64) : outcome A :=
  match x with
  | S754_nan => raise ValueError "cannot convert float NaN to integer"
  | _ => raise OverflowError "cannot convert float infinity to integer"
  end.

(** [int(x)]: truncation towards zero. *)
Definition f_trunc (x : f64) : outcome Z :=
  match x with
  | S754_zero _ => Ok 0
  | S754_finite s m e =>
      Ok (cond_Zopp s (if bool_decide (0 <= e) then Zpos m * 2 ^ e else Zpos m / 2 ^ (- e)))
  | _ => cannot_convert x
  end.

(** [math.floor(x)] and [math.ceil(x)]. *)
Definition f_floor (x : f64) : outcome Z :=
  match x with
  | S754_zero _ => Ok 0
  | S754_finite s m e =>
      Ok (if bool_decide (0 <= e) then cond_Zopp s (Zpos m) * 2 ^ e
          else cond_Zopp s (Zpos m) / 2 ^ (- e))
  | _ => cannot_convert x
  end.
Definition f_ceil (x : f64) : outcome Z := Z.opp <$> f_floor (SFopp x).

(** [round(x)]: to the nearest integer, ties to even. *)
Definition f_round (x : f64) : outcome Z :=
  match x with
  | S754_zero _ => Ok 0
  | S754_finite s m e =>
      Ok (if bool_decide (0 <= e) then cond_Zopp s (Zpos m) * 2 ^ e
          else let d := 2 ^ (- e) in
               let q := Zpos m / d in
               let r := Zpos m mod d in
               let n := if bool_decide (2 * r < d) then q
                        else if bool_decide (d < 2 * r) then q + 1
                        else if Z.even q then q else q + 1 in
               cond_Zopp s n)
  | _ => cannot_convert x
  end.

(** [x <= z] and [x > z] for a float and an integer, compared exactly. *)
Definition f_compare_Z (x : f64) (z : Z) : option comparison :=
  match x with
  | S754_nan => None
  | S754_infinity s => Some (if s then Lt else Gt)
  | S754_zero _ => Some (0 ?= z)
  | S754_finite s m e =>
      Some (if bool_decide (0 <= e) then cond_Zopp s (Zpos m) * 2 ^ e ?= z
            else cond_Zopp s (Zpos m) ?= z * 2 ^ (- e))
  end.
Definition f_le_Z (x : f64) (z : Z) : bool :=
  match f_compare_Z x z with Some (Lt | Eq) => true | _ => false end.
Definition f_ge_Z (x : f64) (z : Z) : bool :=
  match f_compare_Z x z with Some (Gt | Eq) => true | _ => false end.
Definition f_lt_Z (x : f64) (z : Z) : bool :=
  match f_compare_Z x z with Some Lt => true | _ => false end.
Definition f_gt_Z (x : f64) (z : Z) : bool :=
  match f_compare_Z x z with Some Gt => true | _ => false end.

(** [max(x, y)] and [min(x, y)] keep the first operand when the second is not
    strictly better. *)
Definition f_max (x y : f64) : f64 := if f_lt x y then y else x.
Definition f_min (x y : f64) : f64 := if f_lt y x then y else x.
Definition f_list_max (x : f64) (l : list f64) : f64 := foldl f_max x l.
Definition f_list_min (x : f64) (l : list f64) : f64 := foldl f_min x l.

(** [math.fsum] of finite floats: the exact sum, rounded once. *)
Definition fsum_unit : Z := -1074.
Definition f_units (x : f64) : Z :=
  match x with
  | S754_finite s m e => cond_Zopp s (Zpos m) * 2 ^ (e - fsum_unit)
  | _ => 0
  end.
Definition f_fsum (l : list f64) : f64 :=
  binary_normalize prec emax (foldr (λ x acc, f_units x + acc) 0 l) fsum_unit false.
(** [statistics.fmean(l)] of a non-empty list. *)
Definition f_fmean (l : list f64) : f64 := f_div_raw (f_fsum l) (f_of_Z (Z.of_nat (length l))).
(** [sum(l)] of floats: left to right from the integer 0. *)
Definition f_sum (l : list f64) : f64 := foldl f_add f_zero l.

(** [sorted(l)] on floats: stable insertion by [<]. *)
Fixpoint f_insert (x : f64) (l : list f64) : list f64 :=
  match l with
  | [] => [x]
  | y :: l' => if f_lt y x then y :: f_insert x l' else x :: l
  end.
Definition f_sorted (l : list f64) : list f64 := foldr f_insert [] l.

(** [float(text)] for decimal notation with an optional fraction and
    exponent. *)
Fixpoint digits_count (acc : Z) (n : Z) (s : string) : Z * Z * string :=
  match s with
  | String a s' =>
      if py_isdigit_char a then digits_count (10 * acc + digit_value a) (n + 1) s'
      else (acc, n, s)
  | EmptyString => (acc, n, s)
  end.
Definition f_of_unsigned (s : string) : option f64 :=
  let '(ip, ni, rest) := digits_count 0 0 s in
  let '(m, nf, rest, nd) :=
    match rest with
    | String a rest' =>
        if bool_decide (a = "."%char)
        then let '(m, n, rest'') := digits_count ip 0 rest' in (m, n, rest'', ni + n)
        else (ip, 0, rest, ni)
    | EmptyString => (ip, 0, rest, ni)
    end in
  if bool_decide (nd = 0) then None else
  match rest with
  | EmptyString => Some (f_dec m (- nf))
  | String a rest' =>
      if bool_decide (a = "e"%char ∨ a = "E"%char)
      then (λ k, f_dec m (k - nf)) <$> signed_digits rest'
      else None
  end.
Definition float_of_string (s : string) : option f64 :=
  match py_strip s with
  | EmptyString => None
  | String a s' =>
      if bool_decide (a = "-"%char) then SFopp <$> f_of_unsigned s'
      else if bool_decide (a = "+"%char) then f_of_unsigned s'
      else f_of_unsigned (String a s')
  end.

(** ** Checked examples: the values CPython computes *)
Example ex_add : f_add (f_dec 1 (-1)) (f_dec 2 (-1)) = f_dec 30000000000000004 (-17).
Proof. vm_compute. reflexivity. Qed.
Example ex_truediv : Z_truediv 1 3 = f_dec 3333333333333333148 (-19).
Proof. vm_compute. reflexivity. Qed.
Example ex_round : (f_round (f_dec 25 (-1)), f_round (f_dec 35 (-1)), f_round (f_dec (-5) (-1)))
  = (Ok 2, Ok 4, Ok 0).
Proof. vm_compute. reflexivity. Qed.
Example ex_floor : (f_floor (f_dec (-15) (-1)), f_ceil (f_dec 12 (-1)), f_trunc (f_dec (-19) (-1)))
  = (Ok (-2), Ok 2, Ok (-1)).
Proof. vm_compute. reflexivity. Qed.
Example ex_parse : float_of_string " 12.5e-1 " = Some (f_dec 125 (-2)).
Proof. vm_compute. reflexivity. Qed.
Example ex_fsum : f_fsum [f_dec 1 (-1); f_dec 1 (-1); f_dec 1 (-1)] = f_dec 30000000000000004 (-17).
Proof. vm_compute. reflexivity. Qed.
