(* ===== verification/PyVal.v ===== *)
(** * Python's JSON-shaped values

    The dictionaries, lists and scalars the code passes between its parts and
    stores as JSON: truth value, equality, [str()], and the dictionary
    operations.  Dictionaries have text keys and keep insertion order. *)
From Stdlib Require Import Ascii ZArith Lia.
From Stdlib Require Import Floats.SpecFloat.
From S2P Require Import Prelude PyStr PyFloat.
From stdpp Require Import base gmap strings list sorting.
Local Open Scope Z_scope.

Inductive pyval :=
  | VNone
  | VBool (b : bool)
  | VInt (z : Z)
  | VFloat (x : f64)
  | VStr (s : string)
  | VList (l : list pyval)
  | VDict (d : list (string * pyval)).

Abbreviation pydict := (list (string * pyval)).

(** ** Association-list dictionaries, over any type of values *)
Section dict.
Context {A : Type}.
Implicit Types d : list (string * A).

(** [d.get(k)]. *)
Fixpoint dget (k : string) d : option A :=
  match d with
  | [] => None
  | (k', v) :: d => if bool_decide (k = k') then Some v else dget k d
  end.

(** [d[k] = v]: in place when the key is present, at the end otherwise. *)
Fixpoint dset (k : string) (v : A) d : list (string * A) :=
  match d with
  | [] => [(k, v)]
  | (k', v') :: d => if bool_decide (k = k') then (k', v) :: d else (k', v') :: dset k v d
  end.

(** [d.update(e)] and [{**d, **e}]. *)
Definition dupdate d (e : list (string * A)) : list (string * A) :=
  foldl (λ d p, dset p.1 p.2 d) d e.

(** [d.pop(k, None)]. *)
Fixpoint dpop (k : string) d : list (string * A) :=
  match d with
  | [] => []
  | (k', v') :: d => if bool_decide (k = k') then d else (k', v') :: dpop k d
  end.

Definition dkeys d : list string := map fst d.

Lemma dget_dset k k' v d : dget k (dset k' v d) = if decide (k = k') then Some v else dget k d.
Proof.
  induction d as [|[k1 v1] d IH]; simpl.
  { case_decide; case_bool_decide; congruence. }
  repeat (case_bool_decide; simpl); rewrite ?IH; repeat case_decide; congruence.
Qed.
Lemma dget_dset_eq k v d : dget k (dset k v d) = Some v.
Proof. rewrite dget_dset. by case_decide. Qed.
Lemma dget_dset_ne k k' v d : k ≠ k' → dget k (dset k' v d) = dget k d.
Proof. intros. rewrite dget_dset. by case_decide. Qed.

Lemma dget_elem k v d : dget k d = Some v → (k, v) ∈ d.
Proof.
  induction d as [|[k' v'] d IH]; simpl; [done|]. case_bool_decide; [intros [= <-]; subst; by left|].
  intros. right. auto.
Qed.
Lemma dget_None k d : dget k d = None ↔ k ∉ dkeys d.
Proof.
  induction d as [|[k1 v1] d IH]; simpl; [set_solver|].
  rewrite not_elem_of_cons. case_bool_decide; naive_solver.
Qed.
Lemma dkeys_dset k v d :
  dkeys (dset k v d) = if bool_decide (k ∈ dkeys d) then dkeys d else dkeys d ++ [k].
Proof.
  induction d as [|[k1 v1] d IH]; [done|].
  change (dkeys ((k1, v1) :: d)) with (k1 :: dkeys d). simpl.
  destruct (bool_decide_reflect (k = k1)) as [->|Hk].
  { by rewrite bool_decide_true by set_solver. }
  change (k1 :: dkeys (dset k v d) =
          if bool_decide (k ∈ k1 :: dkeys d) then k1 :: dkeys d else k1 :: dkeys d ++ [k]).
  rewrite IH. destruct (decide (k ∈ dkeys d)) as [H1|H1].
  - by rewrite !bool_decide_true by set_solver.
  - by rewrite !bool_decide_false by set_solver.
Qed.
Lemma NoDup_dset k v d : NoDup (dkeys d) → NoDup (dkeys (dset k v d)).
Proof.
  intros Hd. rewrite dkeys_dset. case_bool_decide; [done|].
  apply NoDup_app. split_and!; [done|set_solver|]. apply NoDup_singleton.
Qed.
End dict.

(** ** Truth value and equality *)

(** [bool(v)]. *)
Definition truthy (v : pyval) : bool :=
  match v with
  | VNone => false
  | VBool b => b
  | VInt z => negb (Z.eqb z 0)
  | VFloat x => negb (f_eq x f_zero)
  | VStr s => negb (bool_decide (s = ""))
  | VList l => match l with [] => false | _ => true end
  | VDict d => match d with [] => false | _ => true end
  end.

Definition num_eq (x : f64) (z : Z) : bool :=
  match f_compare_Z x z with Some Eq => true | _ => false end.
Definition Z_of_bool (b : bool) : Z := if b then 1 else 0.

(** [v == w]: numbers compare by value across types, dictionaries without
    regard to order. *)
Fixpoint py_eq (v w : pyval) {struct v} : bool :=
  match v, w with
  | VNone, VNone => true
  | VBool a, VBool b => eqb a b
  | VBool a, VInt b | VInt b, VBool a => Z.eqb (Z_of_bool a) b
  | VInt a, VInt b => Z.eqb a b
  | VFloat x, VFloat y => f_eq x y
  | VFloat x, VInt b | VInt b, VFloat x => num_eq x b
  | VFloat x, VBool b | VBool b, VFloat x => num_eq x (Z_of_bool b)
  | VStr s, VStr t => bool_decide (s = t)
  | VList l, VList m =>
      (fix go l m := match l, m with
                     | [], [] => true
                     | x :: l, y :: m => py_eq x y && go l m
                     | _, _ => false
                     end) l m
  | VDict d, VDict e =>
      bool_decide (length d = length e) &&
      (fix go d := match d with
                   | [] => true
                   | (k, x) :: d =>
                       match dget k e with
                       | Some y => py_eq x y && go d
                       | None => false
                       end
                   end) d
  | _, _ => false
  end.

(** [d.get(k, default)]. *)
Definition dgetd (k : string) (default : pyval) (d : pydict) : pyval :=
  match dget k d with Some v => v | None => default end.

(** A method call or subscript on a value that has to be a dictionary. *)
Definition as_dict (v : pyval) : outcome pydict :=
  match v with
  | VDict d => Ok d
  | _ => raise AttributeError "object has no attribute 'get'"
  end.
Definition as_list (v : pyval) : outcome (list pyval) :=
  match v with
  | VList l => Ok l
  | VDict d => Ok (map (λ p, VStr p.1) d)
  | VStr s => Ok (map (λ a, VStr (String a "")) (String.list_ascii_of_string s))
  | _ => raise TypeError "object is not iterable"
  end.
Definition as_str (v : pyval) : option string :=
  match v with VStr s => Some s | _ => None end.

(** [int(v)]. *)
Definition py_int (v : pyval) : outcome Z :=
  match v with
  | VBool b => Ok (Z_of_bool b)
  | VInt z => Ok z
  | VFloat x => f_trunc x
  | VStr s => match int_of_string s with
              | Some z => Ok z
              | None => raise ValueError
                  ("invalid literal for int() with base 10: " +:+ py_repr s)
              end
  | _ => raise TypeError
      "int() argument must be a string, a bytes-like object or a real number"
  end.

(** [float(v)]. *)
Definition py_float (v : pyval) : outcome f64 :=
  match v with
  | VBool b => Ok (f_of_Z (Z_of_bool b))
  | VInt z => Ok (f_of_Z z)
  | VFloat x => Ok x
  | VStr s => match float_of_string s with
              | Some x => Ok x
              | None => raise ValueError ("could not convert string to float: " +:+ py_repr s)
              end
  | _ => raise TypeError "float() argument must be a string or a real number"
  end.

(** ** [repr] of a float: the shortest decimal that reads back *)

(** [x] as [m * 10 ** k] with [digits] significant digits, rounded to nearest. *)
Definition f_abs_num_den (m : positive) (e : Z) : Z * Z :=
  if bool_decide (0 <= e) then (Zpos m * 2 ^ e, 1) else (Zpos m, 2 ^ (- e)).
Definition round_div (a b : Z) : Z :=
  let q := a / b in let r := a mod b in
  if bool_decide (2 * r < b) then q else if bool_decide (b < 2 * r) then q + 1
  else if Z.even q then q else q + 1.
(** The decimal exponent: the largest [k] with [10 ** k <= a / b]. *)
Fixpoint dec_exponent (fuel : nat) (k a b : Z) : Z :=
  match fuel with
  | O => k
  | S fuel =>
      if bool_decide (a < b) then dec_exponent fuel (k - 1) (10 * a) b
      else if bool_decide (10 * b <= a) then dec_exponent fuel (k + 1) a (10 * b)
      else k
  end.
Definition scaled (n : Z) (k a b : Z) : Z :=
  let p := n - 1 - k in
  if bool_decide (0 <= p) then round_div (a * 10 ^ p) b else round_div a (b * 10 ^ (- p)).
Fixpoint shortest (fuel : nat) (n : Z) (k a b : Z) (x : f64) : Z * Z :=
  let m := scaled n k a b in
  let cand := f_dec m (k + 1 - n) in
  match fuel with
  | O => (m, k + 1 - n)
  | S fuel => if f_eq cand x then (m, k + 1 - n) else shortest fuel (n + 1) k a b x
  end.
Fixpoint strip_zeros (fuel : nat) (m k : Z) : Z * Z :=
  match fuel with
  | O => (m, k)
  | S fuel => if bool_decide (m mod 10 = 0 ∧ m ≠ 0) then strip_zeros fuel (m / 10) (k + 1) else (m, k)
  end.
Definition repr_unsigned (m : positive) (e : Z) : string :=
  let '(a, b) := f_abs_num_den m e in
  let k := dec_exponent 400 0 a b in
  let '(dm, dk) := shortest 17 1 k a b (S754_finite false m e) in
  let '(dm, dk) := strip_zeros 20 dm dk in
  let digits := str_Z dm in
  let nd := Z.of_nat (String.length digits) in
  let pt := nd + dk in
  if bool_decide (-4 < pt <= 16) then
    if bool_decide (0 <= dk) then digits +:+ zeros (Z.to_nat dk) +:+ ".0"
    else if bool_decide (0 < pt)
    then String.substring 0 (Z.to_nat pt) digits +:+ "." +:+ py_drop (Z.to_nat pt) digits
    else "0." +:+ zeros (Z.to_nat (- pt)) +:+ digits
  else
    let ex := pt - 1 in
    let sign := if bool_decide (ex < 0) then "-" else "+" in
    let frac := py_drop 1 digits in
    String.substring 0 1 digits +:+ (if bool_decide (frac = "") then "" else "." +:+ frac)
      +:+ "e" +:+ sign +:+ pad_Z 2 (Z.abs ex).
Definition repr_float (x : f64) : string :=
  match x with
  | S754_nan => "nan"
  | S754_infinity s => if s then "-inf" else "inf"
  | S754_zero s => if s then "-0.0" else "0.0"
  | S754_finite s m e => (if s then "-" else "") +:+ repr_unsigned m e
  end.

(** [repr(v)] and [str(v)]: they differ on text only. *)
Fixpoint repr_val (v : pyval) : string :=
  match v with
  | VNone => "None"
  | VBool b => if b then "True" else "False"
  | VInt z => str_Z z
  | VFloat x => repr_float x
  | VStr s => py_repr s
  | VList l =>
      "[" +:+ (fix go l := match l with
                           | [] => ""
                           | [x] => repr_val x
                           | x :: l => repr_val x +:+ ", " +:+ go l
                           end) l +:+ "]"
  | VDict d =>
      "{" +:+ (fix go d := match d with
                           | [] => ""
                           | [(k, x)] => py_repr k +:+ ": " +:+ repr_val x
                           | (k, x) :: d => py_repr k +:+ ": " +:+ repr_val x +:+ ", " +:+ go d
                           end) d +:+ "}"
  end.
Definition str_val (v : pyval) : string :=
  match v with VStr s => s | _ => repr_val v end.

(** [v or w]. *)
Definition val_or (v w : pyval) : pyval := if truthy v then v else w.

(** [isinstance(v, int)]: booleans are integers too. *)
Definition as_int (v : pyval) : option Z :=
  match v with VInt z => Some z | VBool b => Some (Z_of_bool b) | _ => None end.

Example repr_floats :
  map repr_float [f_dec 1 (-1); f_dec 15 (-1); f_of_Z 1000; f_dec 12 (-1); f_dec 1 22; f_dec 25 (-8);
                  f_add (f_dec 1 (-1)) (f_dec 2 (-1)); f_of_Z (2 ^ 53); f_dec 1 (-4)] =
  ["0.1"; "1.5"; "1000.0"; "1.2"; "1e+22"; "2.5e-07"; "0.30000000000000004"; "9007199254740992.0"; "0.0001"].
Proof. vm_compute. reflexivity. Qed.
Example repr_nested :
  str_val (VDict [("a", VList [VInt 1; VStr "x"]); ("b", VNone)]) = "{'a': [1, 'x'], 'b': None}".
Proof. vm_compute. reflexivity. Qed.

Section dupdate.
Context {A : Type}.
Implicit Types d e : list (string * A).

Lemma dget_dupdate k d e : k ∉ dkeys e → dget k (dupdate d e) = dget k d.
Proof.
  unfold dupdate. revert d. induction e as [|[k' v] e IH]; intros d Hk; [done|].
  change (k ∉ k' :: dkeys e) in Hk. apply not_elem_of_cons in Hk as [Hne Hk].
  simpl. rewrite IH by done. by apply dget_dset_ne.
Qed.
Lemma dget_dupdate_in k d e v :
  NoDup (dkeys e) → (k, v) ∈ e → dget k (dupdate d e) = Some v.
Proof.
  unfold dupdate. revert d. induction e as [|[k' v'] e IH]; intros d Hnd Hin; [by apply elem_of_nil in Hin|].
  change (NoDup (k' :: dkeys e)) in Hnd. apply NoDup_cons in Hnd as [Hk Hnd].
  apply elem_of_cons in Hin as [[= -> ->]|Hin]; simpl.
  - change (dget k' (dupdate (dset k' v' d) e) = Some v'). rewrite dget_dupdate by done.
    apply dget_dset_eq.
  - by apply IH.
Qed.
End dupdate.

(** ** Dictionaries keyed by integers *)

(** [d[k] = v] on a dictionary with integer keys. *)
Fixpoint zset {A} (k : Z) (v : A) (d : list (Z * A)) : list (Z * A) :=
  match d with
  | [] => [(k, v)]
  | (k', v') :: d => if bool_decide (k = k') then (k', v) :: d else (k', v') :: zset k v d
  end.
Fixpoint zget {A} (k : Z) (d : list (Z * A)) : option A :=
  match d with
  | [] => None
  | (k', v) :: d => if bool_decide (k = k') then Some v else zget k d
  end.

Lemma zget_zset {A} k k' (v : A) d :
  zget k' (zset k v d) = if bool_decide (k' = k) then Some v else zget k' d.
Proof. induction d as [|[]]; simpl; repeat (case_bool_decide; simplify_eq/=); done. Qed.
Lemma zget_None {A} k (d : list (Z * A)) : zget k d = None ↔ k ∉ d.*1.
Proof.
  induction d as [|[k' v] d IH]; simpl; [set_solver|].
  rewrite not_elem_of_cons. case_bool_decide; naive_solver.
Qed.
Lemma zset_keys {A} k (v : A) d k' : k' ∈ (zset k v d).*1 ↔ k' = k ∨ k' ∈ d.*1.
Proof.
  induction d as [|[k0 v0] d IH]; simpl; [set_solver|].
  case_bool_decide; subst; simpl; rewrite !elem_of_cons; naive_solver.
Qed.
Lemma zset_NoDup {A} k (v : A) d : NoDup d.*1 → NoDup (zset k v d).*1.
Proof.
  induction d as [|[k0 v0] d IH]; simpl; intros Hd; [apply NoDup_singleton|].
  case_bool_decide; simpl; [done|]. apply NoDup_cons in Hd as [Hk Hd].
  apply NoDup_cons. split; [|auto]. rewrite zset_keys. naive_solver.
Qed.
Lemma zget_elem {A} k (v : A) d : zget k d = Some v → (k, v) ∈ d.
Proof.
  induction d as [|[k0 v0] d IH]; simpl; [done|].
  case_bool_decide; intros; simplify_eq; rewrite elem_of_cons; auto.
Qed.
Lemma zset_elem {A} k (v : A) d p : p ∈ zset k v d → p = (k, v) ∨ p ∈ d.
Proof.
  induction d as [|[k0 v0] d IH]; simpl; [set_solver|].
  case_bool_decide; rewrite !elem_of_cons; subst; naive_solver.
Qed.

Definition key_error {A} (k : string) : outcome A := raise KeyError (py_repr k).
(** [d[k]]. *)
Definition subscript (d : pydict) (k : string) : outcome pyval :=
  match dget k d with Some v => Ok v | None => key_error k end.

(** [v[k]] with a text key, on any value. *)
Definition type_name (v : pyval) : string :=
  match v with
  | VNone => "NoneType" | VBool _ => "bool" | VInt _ => "int" | VFloat _ => "float"
  | VStr _ => "str" | VList _ => "list" | VDict _ => "dict"
  end.
Definition item (v : pyval) (k : string) : outcome pyval :=
  match v with
  | VDict d => subscript d k
  | VList _ => raise TypeError "list indices must be integers or slices, not str"
  | VStr _ => raise TypeError "string indices must be integers, not 'str'"
  | _ => raise TypeError ("'" +:+ type_name v +:+ "' object is not subscriptable")
  end.
(** [v.values()]. *)
Definition values_of (v : pyval) : outcome (list pyval) :=
  match v with
  | VDict d => Ok (map snd d)
  | _ => raise AttributeError ("'" +:+ type_name v +:+ "' object has no attribute 'values'")
  end.
(** [len(v)]. *)
Definition py_len (v : pyval) : outcome nat :=
  match v with
  | VList l => Ok (length l)
  | VDict d => Ok (length d)
  | VStr s => Ok (String.length s)
  | _ => raise TypeError ("object of type '" +:+ type_name v +:+ "' has no len()")
  end.
(** [d[v]] where the key is any value: the dictionaries here have text keys. *)
Definition lookup_val (d : pyval) (key : pyval) : outcome pyval :=
  match key with
  | VStr k => item d k
  | VList _ | VDict _ => raise TypeError ("unhashable type: '" +:+ type_name key +:+ "'")
  | _ => match d with
         | VDict _ => raise KeyError (repr_val key)
         | _ => raise TypeError ("'" +:+ type_name d +:+ "' object is not subscriptable")
         end
  end.
(** [len(set(l))]. *)
Definition distinct_step (acc : list pyval) (v : pyval) : outcome (list pyval) :=
  match v with
  | VList _ | VDict _ => raise TypeError ("unhashable type: '" +:+ type_name v +:+ "'")
  | _ => Ok (if existsb (py_eq v) acc then acc else acc ++ [v])
  end.
Definition distinct_count (l : list pyval) : outcome nat :=
  length <$> fold_outcome distinct_step [] l.
