(* ===== verification/PyJson.v ===== *)
(** * JSON text

    [json.dumps] in its compact form with sorted keys, and [json.loads]: the
    two directions of the standard library's codec that the code applies to
    text it does not only store. *)
From Stdlib Require Import Ascii ZArith Lia.
From Stdlib Require Import Floats.SpecFloat.
From S2P Require Import Prelude PyStr PyFloat PyVal.
From stdpp Require Import base gmap strings list.
Local Open Scope Z_scope.

(** ** [json.dumps(value, sort_keys=True, separators=(",", ":"))] *)

Definition json_escape (a : ascii) : string :=
  let n := code a in
  if bool_decide (a = dquote) then String (ascii_of_nat 92) (String dquote "")
  else if bool_decide (n = 92%nat) then String (ascii_of_nat 92) (String (ascii_of_nat 92) "")
  else if bool_decide (n = 10%nat) then String (ascii_of_nat 92) "n"
  else if bool_decide (n = 13%nat) then String (ascii_of_nat 92) "r"
  else if bool_decide (n = 9%nat) then String (ascii_of_nat 92) "t"
  else if bool_decide (n = 8%nat) then String (ascii_of_nat 92) "b"
  else if bool_decide (n = 12%nat) then String (ascii_of_nat 92) "f"
  else if bool_decide ((32 <= n)%nat ∧ (n <= 126)%nat) then String a ""
  else String (ascii_of_nat 92) ("u00" +:+ String (hex_digit (n / 16)) (String (hex_digit (n mod 16)) "")).
Fixpoint json_body (s : string) : string :=
  match s with
  | EmptyString => ""
  | String a s => json_escape a +:+ json_body s
  end.
Definition json_string (s : string) : string := String dquote (json_body s) +:+ String dquote "".
Definition json_float (x : f64) : string :=
  match repr_float x with "nan" => "NaN" | "inf" => "Infinity" | "-inf" => "-Infinity" | s => s end.

(** The items of a dictionary in key order. *)
Fixpoint insert_key {A} (p : string * A) (l : list (string * A)) : list (string * A) :=
  match l with
  | [] => [p]
  | q :: l' => if String.leb p.1 q.1 then p :: l else q :: insert_key p l'
  end.
Definition sort_keys {A} (l : list (string * A)) : list (string * A) := foldr insert_key [] l.

Fixpoint json_dumps (v : pyval) : string :=
  match v with
  | VNone => "null"
  | VBool b => if b then "true" else "false"
  | VInt z => str_Z z
  | VFloat x => json_float x
  | VStr s => json_string s
  | VList l => "[" +:+ py_join "," (map json_dumps l) +:+ "]"
  | VDict d =>
      let texts := (fix go d := match d with
                                | [] => []
                                | (k, x) :: d => (k, json_string k +:+ ":" +:+ json_dumps x) :: go d
                                end) d in
      "{" +:+ py_join "," (map snd (sort_keys texts)) +:+ "}"
  end.

(** ** [json.dumps(value, indent=2)] *)

Fixpoint spaces (n : nat) : string := match n with O => "" | S n => String " " (spaces n) end.
(** The items of a list or dictionary, one per line at depth [n]. *)
Definition json_block (opening closing : string) (n : nat) (items : list string) : string :=
  match items with
  | [] => opening +:+ closing
  | _ => opening +:+ nl +:+ spaces (2 * S n) +:+ py_join ("," +:+ nl +:+ spaces (2 * S n)) items
         +:+ nl +:+ spaces (2 * n) +:+ closing
  end.
Fixpoint json_indent_go (n : nat) (v : pyval) : string :=
  match v with
  | VList l => json_block "[" "]" n (map (json_indent_go (S n)) l)
  | VDict d =>
      json_block "{" "}" n
        ((fix go d := match d with
                      | [] => []
                      | (k, x) :: d => (json_string k +:+ ": " +:+ json_indent_go (S n) x) :: go d
                      end) d)
  | VNone => "null"
  | VBool b => if b then "true" else "false"
  | VInt z => str_Z z
  | VFloat x => json_float x
  | VStr s => json_string s
  end.
Definition json_indent : pyval → string := json_indent_go 0.

(** ** [json.loads(text)] *)

Definition backslash : ascii := ascii_of_nat 92.
Definition is_json_space (a : ascii) : bool :=
  let n := code a in bool_decide (n = 32 ∨ n = 9 ∨ n = 10 ∨ n = 13)%nat.
Definition skip_space : string → string := lstrip_by is_json_space.

Definition hex_value (a : ascii) : option Z :=
  let n := Z.of_nat (code a) in
  if py_isdigit_char a then Some (n - 48)
  else if bool_decide (97 <= n <= 102) then Some (n - 87)
  else if bool_decide (65 <= n <= 70) then Some (n - 55)
  else None.
Definition hex4 (a b c d : ascii) : option Z :=
  a ← hex_value a; b ← hex_value b; c ← hex_value c; d ← hex_value d;
  Some (((a * 16 + b) * 16 + c) * 16 + d).
Definition byte_string (n : Z) : string := String (ascii_of_nat (Z.to_nat n)) "".
(** The UTF-8 bytes of a code point of the basic plane. *)
Definition utf8 (n : Z) : string :=
  if bool_decide (n < 128) then byte_string n
  else if bool_decide (n < 2048) then byte_string (192 + n / 64) +:+ byte_string (128 + n mod 64)
  else byte_string (224 + n / 4096) +:+ byte_string (128 + n / 64 mod 64)
       +:+ byte_string (128 + n mod 64).
Definition simple_escape (a : ascii) : option string :=
  match code a with
  | 34%nat | 92%nat | 47%nat => Some (String a "")
  | 98%nat => Some (byte_string 8) | 102%nat => Some (byte_string 12) | 110%nat => Some nl
  | 114%nat => Some (byte_string 13) | 116%nat => Some (byte_string 9)
  | _ => None
  end.

(** The rest of a string after its opening quote, and what follows it. *)
Fixpoint scan_string (s : string) : option (string * string) :=
  match s with
  | EmptyString => None
  | String a s =>
      if bool_decide (a = dquote) then Some ("", s)
      else if bool_decide (a = backslash) then
        match s with
        | String b s' =>
            if bool_decide (b = "u"%char) then
              match s' with
              | String h1 (String h2 (String h3 (String h4 s''))) =>
                  n ← hex4 h1 h2 h3 h4; r ← scan_string s''; Some (utf8 n +:+ r.1, r.2)
              | _ => None
              end
            else e ← simple_escape b; r ← scan_string s'; Some (e +:+ r.1, r.2)
        | EmptyString => None
        end
      else if bool_decide (code a < 32)%nat then None
      else r ← scan_string s; Some (String a r.1, r.2)
  end.

(** The text of a number, by parts (sign, digits without a leading zero, an
    optional fraction and an optional exponent), and what follows it. *)
Definition scan_fraction (s : string) : string * string :=
  match s with
  | String a s' =>
      if bool_decide (a = "."%char) then
        let '(d, r) := span_digits s' in
        if bool_decide (d = "") then ("", s) else (String a d, r)
      else ("", s)
  | EmptyString => ("", s)
  end.
Definition scan_exponent (s : string) : string * string :=
  match s with
  | String a s' =>
      if bool_decide (a = "e"%char ∨ a = "E"%char) then
        let '(sign, s'') := match s' with
                            | String b t => if bool_decide (b = "-"%char ∨ b = "+"%char)
                                            then (String b "", t) else ("", s')
                            | EmptyString => ("", s')
                            end in
        let '(d, r) := span_digits s'' in
        if bool_decide (d = "") then ("", s) else (String a (sign +:+ d), r)
      else ("", s)
  | EmptyString => ("", s)
  end.
Definition scan_integer (s : string) : string * string :=
  match s with
  | String a s' => if bool_decide (a = "0"%char) then ("0", s') else span_digits s
  | EmptyString => ("", s)
  end.
Definition scan_number (s : string) : option (pyval * string) :=
  let '(sign, s') := match s with
                     | String a t => if bool_decide (a = "-"%char) then ("-", t) else ("", s)
                     | EmptyString => ("", s)
                     end in
  let '(i, r) := scan_integer s' in
  if bool_decide (i = "") then None else
  let '(f, r) := scan_fraction r in
  let '(e, r) := scan_exponent r in
  if bool_decide (f = "" ∧ e = "")
  then (λ z, (VInt z, r)) <$> int_of_string (sign +:+ i)
  else (λ x, (VFloat x, r)) <$> float_of_string (sign +:+ i +:+ f +:+ e).

Definition scan_word (w : string) (v : pyval) (s : string) : option (pyval * string) :=
  if py_startswith w s then Some (v, py_drop (String.length w) s) else None.
Definition scan_constant (s : string) : option (pyval * string) :=
  match omap (λ wv, scan_word wv.1 wv.2 s)
      [("null", VNone); ("true", VBool true); ("false", VBool false); ("NaN", VFloat S754_nan);
       ("Infinity", VFloat (S754_infinity false)); ("-Infinity", VFloat (S754_infinity true))] with
  | r :: _ => Some r
  | [] => None
  end.

(** A value at the head of a text; every nested value costs one unit of
    [fuel], of which a text of length [n] needs at most [n]. *)
Fixpoint scan_value (fuel : nat) (s : string) : option (pyval * string) :=
  match fuel with
  | O => None
  | S fuel =>
      match s with
      | EmptyString => None
      | String a s' =>
          if bool_decide (a = dquote) then (λ r, (VStr r.1, r.2)) <$> scan_string s'
          else if bool_decide (a = "["%char) then
            match skip_space s' with
            | String "]" r => Some (VList [], r)
            | s'' => r ← scan_items fuel s''; Some (VList r.1, r.2)
            end
          else if bool_decide (a = "{"%char) then
            match skip_space s' with
            | String "}" r => Some (VDict [], r)
            | s'' => r ← scan_pairs fuel [] s''; Some (VDict r.1, r.2)
            end
          else match scan_constant s with Some r => Some r | None => scan_number s end
      end
  end
with scan_items (fuel : nat) (s : string) : option (list pyval * string) :=
  match fuel with
  | O => None
  | S fuel =>
      v ← scan_value fuel s;
      match skip_space v.2 with
      | String "]" r => Some ([v.1], r)
      | String "," r => rest ← scan_items fuel (skip_space r); Some (v.1 :: rest.1, rest.2)
      | _ => None
      end
  end
with scan_pairs (fuel : nat) (d : pydict) (s : string) : option (pydict * string) :=
  match fuel with
  | O => None
  | S fuel =>
      match s with
      | String a s' =>
          if bool_decide (a = dquote) then
            k ← scan_string s';
            match skip_space k.2 with
            | String ":" r =>
                v ← scan_value fuel (skip_space r);
                let d := dset k.1 v.1 d in
                match skip_space v.2 with
                | String "}" r => Some (d, r)
                | String "," r => scan_pairs fuel d (skip_space r)
                | _ => None
                end
            | _ => None
            end
          else None
      | EmptyString => None
      end
  end.

(** Nothing but white space may follow the value. *)
Definition json_loads (s : string) : outcome pyval :=
  match scan_value (2 * String.length s + 2) (skip_space s) with
  | Some (v, rest) =>
      if bool_decide (skip_space rest = "") then Ok v else raise JSONDecodeError "Extra data"
  | None => raise JSONDecodeError "Expecting value"
  end.

Example loads_examples :
  map json_loads [json_dumps (VDict [("a", VList [VInt (-1); VStr (nl +:+ "x"); VNone]);
                                     ("b", VFloat (f_dec 15 (-1)))]);
                  " [ ] "; "{ } x"; "01"; "1e3"] =
  [Ok (VDict [("a", VList [VInt (-1); VStr (nl +:+ "x"); VNone]); ("b", VFloat (f_dec 15 (-1)))]);
   Ok (VList []); raise JSONDecodeError "Extra data"; raise JSONDecodeError "Extra data";
   Ok (VFloat (f_of_Z 1000))].
Proof. vm_compute. reflexivity. Qed.
