(* ===== verification/FloatOrder.v ===== *)
(** * The order of floats

    [<], [<=] and [==] on binary64 compare keys: a float that is a number has
    one, and keys are ordered lexicographically.  [f_order] decides goals about
    the three tests.  Lists are sorted by any test that orders their elements. *)
From Stdlib Require Import ZArith Lia Floats.SpecFloat.
From S2P Require Import Prelude PyFloat.
From stdpp Require Import base list sorting sets.
Local Open Scope Z_scope.

(** ** Keys *)

Definition f_key (x : f64) : option (Z * Z * Z) :=
  match x with
  | S754_nan => None
  | S754_infinity s => Some (if s then -2 else 2, 0, 0)
  | S754_zero _ => Some (0, 0, 0)
  | S754_finite s m e => Some (if s then (-1, - e, Zneg m) else (1, e, Zpos m))
  end.
(** Neither operand of a comparison that holds is a NaN. *)
Definition num (x : f64) : Prop := is_Some (f_key x).
Definition key_lt (a b : Z * Z * Z) : Prop :=
  a.1.1 < b.1.1 ∨ (a.1.1 = b.1.1 ∧ (a.1.2 < b.1.2 ∨ (a.1.2 = b.1.2 ∧ a.2 < b.2))).

Definition key_le (a b : Z * Z * Z) : Prop :=
  a.1.1 < b.1.1 ∨ (a.1.1 = b.1.1 ∧ (a.1.2 < b.1.2 ∨ (a.1.2 = b.1.2 ∧ a.2 <= b.2))).

Definition key_compare (a b : Z * Z * Z) : comparison :=
  match a.1.1 ?= b.1.1 with
  | Eq => match a.1.2 ?= b.1.2 with Eq => a.2 ?= b.2 | c => c end
  | c => c
  end.
Lemma key_compare_spec a b :
  match key_compare a b with Lt => key_lt a b | Gt => key_lt b a | Eq => a = b end.
Proof.
  destruct a as [[a1 a2] a3], b as [[b1 b2] b3]. unfold key_compare, key_lt. simpl.
  destruct (Z.compare_spec a1 b1); [|lia..]. destruct (Z.compare_spec a2 b2); [|lia..].
  destruct (Z.compare_spec a3 b3); [by subst|lia..].
Qed.
Lemma key_lt_asym a b : key_lt a b → ¬ key_lt b a.
Proof. unfold key_lt. lia. Qed.
Lemma key_lt_irrefl a : ¬ key_lt a a.
Proof. unfold key_lt. lia. Qed.
Lemma compare_key x y :
  SFcompare x y = match f_key x, f_key y with Some a, Some b => Some (key_compare a b) | _, _ => None end.
Proof.
  destruct x as [sx|sx| |sx mx ex], y as [sy|sy| |sy my ey]; try destruct sx; try destruct sy; try reflexivity;
    simpl; unfold key_compare; simpl.
  rewrite <- Zcompare_opp, (Z.compare_antisym ex ey). by destruct (ex ?= ey).
Qed.

Lemma f_lt_key x y : f_lt x y = true ↔ ∃ a b, f_key x = Some a ∧ f_key y = Some b ∧ key_lt a b.
Proof.
  unfold f_lt, SFltb. rewrite compare_key. destruct (f_key x) as [a|], (f_key y) as [b|]; try naive_solver.
  pose proof (key_compare_spec a b) as Hs. split.
  - intros Hc. exists a, b. destruct (key_compare a b); try done.
  - intros (? & ? & [= <-] & [= <-] & Hl). destruct (key_compare a b); [subst; by apply key_lt_irrefl in Hl|done|by apply key_lt_asym in Hl].
Qed.
Lemma f_eq_key x y : f_eq x y = true ↔ ∃ a, f_key x = Some a ∧ f_key y = Some a.
Proof.
  unfold f_eq, SFeqb. rewrite compare_key. destruct (f_key x) as [a|], (f_key y) as [b|]; try naive_solver.
  pose proof (key_compare_spec a b) as Hs. split.
  - intros Hc. exists a. destruct (key_compare a b); try done. by subst.
  - intros (c & [= ->] & [= ->]). destruct (key_compare c c); [done|by apply key_lt_irrefl in Hs..].
Qed.
Lemma key_le_compare a b : key_le a b ↔ key_compare a b ≠ Gt.
Proof.
  pose proof (key_compare_spec a b) as Hs. destruct (key_compare a b); [subst|..]; unfold key_lt, key_le in *;
    split; try done; lia.
Qed.
Lemma f_le_key x y :
  f_le x y = true ↔ ∃ a b, f_key x = Some a ∧ f_key y = Some b ∧ key_le a b.
Proof.
  unfold f_le, SFleb. rewrite compare_key. destruct (f_key x) as [a|], (f_key y) as [b|]; try naive_solver.
  split.
  - intros Hc. exists a, b. rewrite key_le_compare. by destruct (key_compare a b).
  - intros (? & ? & [= <-] & [= <-] & Hl%key_le_compare). by destruct (key_compare a b).
Qed.

(** The comparisons in terms of keys, also when they fail. *)
Lemma f_lt_false x y : f_lt x y = false ↔ ∀ a b, f_key x = Some a → f_key y = Some b → key_le b a.
Proof.
  rewrite <- not_true_iff_false, f_lt_key. unfold key_lt, key_le. split.
  - intros Hn a b Ha Hb. destruct (decide (key_lt a b)) as [Hl|Hl]; [|unfold key_lt in Hl; lia].
    destruct Hn. by exists a, b.
  - intros Hc (a & b & Ha & Hb & Hl). specialize (Hc a b Ha Hb). lia.
Qed.
Lemma f_le_false x y : f_le x y = false ↔ ∀ a b, f_key x = Some a → f_key y = Some b → key_lt b a.
Proof.
  rewrite <- not_true_iff_false, f_le_key. split.
  - intros Hn a b Ha Hb. destruct (decide (key_lt b a)) as [Hl|Hl]; [done|].
    destruct Hn. exists a, b. split_and!; [done..|]. unfold key_lt, key_le in *. lia.
  - intros Hc (a & b & Ha & Hb & Hl). specialize (Hc a b Ha Hb). unfold key_lt, key_le in *. lia.
Qed.

Lemma key_le_antisym a b : key_le a b → key_le b a → a = b.
Proof. destruct a as [[a1 a2] a3], b as [[b1 b2] b3]. unfold key_le. simpl. intros. repeat f_equal; lia. Qed.
Lemma f_eq_le x y : f_eq x y = true ↔ f_le x y = true ∧ f_le y x = true.
Proof.
  rewrite f_eq_key, !f_le_key. split.
  - intros (a & Hx & Hy). split; exists a, a; split_and!; try done; unfold key_le; lia.
  - intros [(a & b & Ha & Hb & Hab) (b' & a' & Hb' & Ha' & Hba)]. exists a. split; [done|].
    rewrite Hb. f_equal. symmetry. apply key_le_antisym; [done|]. congruence.
Qed.
Lemma f_eq_false x y :
  f_eq x y = false ↔ ∀ a b, f_key x = Some a → f_key y = Some b → key_lt a b ∨ key_lt b a.
Proof.
  rewrite <- not_true_iff_false, f_eq_key. split.
  - intros Hn a b Ha Hb. pose proof (key_compare_spec a b) as Hs. destruct (key_compare a b); auto.
    subst. destruct Hn. by exists b.
  - intros Hc (a & Ha & Hb). destruct (Hc a a Ha Hb) as [Hl|Hl]; by apply key_lt_irrefl in Hl.
Qed.

(** Turns comparisons into keys; [lia] compares these. *)
Ltac f_order :=
  intros; unfold num in *;
  repeat match goal with
    | H : is_Some (f_key _) |- _ => destruct H
    | H : f_lt _ _ = true |- _ => apply f_lt_key in H as (? & ? & ? & ? & ?)
    | H : f_le _ _ = true |- _ => apply f_le_key in H as (? & ? & ? & ? & ?)
    | H : f_eq _ _ = true |- _ => apply f_eq_key in H as (? & ? & ?)
    | H : f_eq _ _ = false |- _ => rewrite f_eq_false in H
    | H : f_lt _ _ = false |- _ => rewrite f_lt_false in H
    | H : f_le _ _ = false |- _ => rewrite f_le_false in H
    | |- f_lt _ _ = false => apply f_lt_false; intros
    | |- f_le _ _ = false => apply f_le_false; intros
    | |- f_lt _ _ = true => apply f_lt_key
    | |- f_le _ _ = true => apply f_le_key
    | |- f_eq _ _ = true => apply f_eq_le; split
    | |- f_eq _ _ = false => apply f_eq_false; intros
    end;
  repeat match goal with
    | Hf : ∀ a b, f_key ?x = Some a → f_key ?y = Some b → _, Hx : f_key ?x = Some ?a, Hy : f_key ?y = Some ?b |- _ =>
        pose proof (Hf a b Hx Hy); clear Hf
    | H : f_key ?x = Some ?a, K : f_key ?x = Some ?b |- _ => rewrite K in H; injection H as ?; try subst b
    end;
  repeat match goal with |- ∃ _, _ => eexists end; split_and?; try eassumption; try done;
  unfold key_lt, key_le in *;
  repeat match goal with
    | p : (Z * Z * Z)%type |- _ => destruct p as [[? ?] ?]; simpl in *
    | H : (_, _) = (_, _) |- _ => injection H as ? ? ?
    end; simplify_eq; try lia.


Lemma f_lt_trans x y z : f_lt x y = true → f_lt y z = true → f_lt x z = true.
Proof. f_order. Qed.
Lemma f_le_trans x y z : f_le x y = true → f_le y z = true → f_le x z = true.
Proof. f_order. Qed.
Lemma f_lt_le x y : f_lt x y = true → f_le x y = true.
Proof. f_order. Qed.
Lemma f_le_refl x : num x → f_le x x = true.
Proof. f_order. Qed.
Lemma f_nlt_le x y : num x → num y → f_lt x y = false → f_le y x = true.
Proof. f_order. Qed.
Lemma f_eq_lt x y z : f_eq x y = true → f_lt y z = true → f_lt x z = true.
Proof. f_order. Qed.
Lemma f_lt_eq x y z : f_lt x y = true → f_eq y z = true → f_lt x z = true.
Proof. f_order. Qed.
Lemma f_eq_trans x y z : f_eq x y = true → f_eq y z = true → f_eq x z = true.
Proof. f_order. Qed.
Lemma f_eq_sym x y : f_eq x y = f_eq y x.
Proof. apply eq_true_iff_eq. split; f_order. Qed.
Lemma le_num x y : f_le x y = true → num x ∧ num y.
Proof. intros (a & b & Ha & Hb & _)%f_le_key. by split; eexists. Qed.

(** [max] and [min] of numbers. *)
Lemma f_max_num x y : num x → num y → num (f_max x y).
Proof. intros. unfold f_max. by destruct (f_lt x y). Qed.
Lemma f_min_num x y : num x → num y → num (f_min x y).
Proof. intros. unfold f_min. by destruct (f_lt y x). Qed.
Lemma f_max_le_l x y : num x → num y → f_le x (f_max x y) = true.
Proof. intros Hx Hy. unfold f_max. destruct (f_lt x y) eqn:E; [by apply f_lt_le|by apply f_le_refl]. Qed.
Lemma f_max_le_r x y : num x → num y → f_le y (f_max x y) = true.
Proof. intros Hx Hy. unfold f_max. destruct (f_lt x y) eqn:E; [by apply f_le_refl|by apply f_nlt_le]. Qed.
Lemma f_min_le_r x y : num x → num y → f_le (f_min x y) y = true.
Proof. intros Hx Hy. unfold f_min. destruct (f_lt y x) eqn:E; [by apply f_le_refl|by apply f_nlt_le]. Qed.

Lemma f_list_max_spec x l : Forall num (x :: l) →
  f_list_max x l ∈ x :: l ∧ ∀ y, y ∈ x :: l → f_le y (f_list_max x l) = true.
Proof.
  unfold f_list_max. revert x. induction l as [|z l IH]; intros x Hn; simpl.
  { apply Forall_cons in Hn as [Hx _]. split; [by left|]. intros y ->%list_elem_of_singleton. by apply f_le_refl. }
  apply Forall_cons in Hn as [Hx Hl]. pose proof Hl as [Hz Hl']%Forall_cons.
  assert (Forall num (f_max x z :: l)) as Hm by (constructor; [by apply f_max_num|done]).
  destruct (IH _ Hm) as [Hin Hle]. split.
  - apply elem_of_cons in Hin as [Heq|Hin]; [|set_solver]. rewrite Heq. unfold f_max. destruct (f_lt x z); set_solver.
  - assert (f_le (f_max x z) (foldl f_max (f_max x z) l) = true) as Hle0 by (apply Hle; by left).
    intros y [->|[->|Hy]%elem_of_cons]%elem_of_cons.
    + eapply f_le_trans; [by apply (f_max_le_l x z)|done].
    + eapply f_le_trans; [by apply (f_max_le_r x z)|done].
    + apply Hle. by right.
Qed.

(** ** Sorting by a test *)

Section sort_by.
Context {A : Type} (lt : A → A → bool).
Fixpoint insert_by (x : A) (l : list A) : list A :=
  match l with
  | [] => [x]
  | y :: l' => if lt y x then y :: insert_by x l' else x :: l
  end.
Definition sort_by (l : list A) : list A := foldr insert_by [] l.
(** Not after. *)
Definition by_le (x y : A) : Prop := lt y x = false.

Lemma insert_by_perm x l : insert_by x l ≡ₚ x :: l.
Proof. induction l as [|y l IH]; simpl; [done|]. destruct (lt y x); [|done]. rewrite IH. constructor. Qed.
Lemma sort_by_perm l : sort_by l ≡ₚ l.
Proof. induction l as [|x l IH]; simpl; [done|]. by rewrite insert_by_perm, IH. Qed.

(** The elements the test orders. *)
Context (P : A → Prop) (asym : ∀ x y, lt x y = true → lt y x = false).
Context (trans : ∀ x y z, P x → P y → P z → by_le x y → by_le y z → by_le x z).
Lemma insert_by_sorted x l :
  P x → Forall P l → StronglySorted by_le l → StronglySorted by_le (insert_by x l).
Proof.
  intros Hx Hl. induction 1 as [|y l Hs IH Hy]; simpl; [by repeat constructor|].
  apply Forall_cons in Hl as [Py Hl]. destruct (lt y x) eqn:Hyx; constructor.
  - by apply IH.
  - rewrite insert_by_perm. constructor; [by apply asym|done].
  - by constructor.
  - constructor; [done|]. apply Forall_forall. intros z Hz. rewrite Forall_forall in Hy, Hl.
    apply (trans x y z); auto.
Qed.
Lemma sort_by_sorted l : Forall P l → StronglySorted by_le (sort_by l).
Proof.
  induction 1 as [|x l Hx Hl IH]; simpl; [constructor|]. apply insert_by_sorted; [done| |done].
  by rewrite sort_by_perm.
Qed.
End sort_by.

(** Keeping the best of a list: a later element replaces the choice when it beats
    it. *)
Section choose_by.
Context {A : Type} (beats : A → A → bool).
Definition choose_by (best x : A) : A := if beats x best then x else best.
Context (irrefl : ∀ x, beats x x = false).
Context (trans : ∀ x y z, beats x y = true → beats y z = true → beats x z = true).
Lemma choose_by_spec l x :
  foldl choose_by x l ∈ x :: l ∧ ∀ y, y ∈ x :: l → beats y (foldl choose_by x l) = false.
Proof.
  induction l as [|z l [Hin Hbest]] using rev_ind; simpl.
  { split; [by left|]. by intros y ->%list_elem_of_singleton. }
  rewrite foldl_app. simpl. set (best := foldl choose_by x l) in *. set (new := choose_by best z). unfold choose_by in new. subst new.
  rewrite app_comm_cons. destruct (beats z best) eqn:Hz; (split; [apply elem_of_app|intros y [Hy|Hy]%elem_of_app]).
  - right. by left.
  - destruct (beats y z) eqn:Hyz; [|done]. pose proof (trans _ _ _ Hyz Hz). by rewrite (Hbest y Hy) in *.
  - apply list_elem_of_singleton in Hy as ->. apply irrefl.
  - by left.
  - by apply Hbest.
  - by apply list_elem_of_singleton in Hy as ->.
Qed.
End choose_by.
