(* ===== verification/Effects.v ===== *)
(** * Effects: Python methods as state-passing computations with exceptions

    A method of an object with attributes [S], running on an operating system
    with state [W], is a computation of type [M (S * world W) A]: it returns a
    value or raises, and the state it reaches is kept in both cases.  The
    operating system (files, processes, clocks, scheduler) is code that is not
    under src/: it is the parameter [handle] of the class [OS], and what a
    property relies on is a hypothesis about [handle].  Every system call that
    changes the machine is recorded, in order, in the ghost log [w_log]. *)
From Stdlib Require Import Ascii ZArith Lia.
From S2P Require Import Prelude PyStr PyFloat PyVal.
From stdpp Require Import base gmap strings list sorting.
Local Open Scope Z_scope.

(** ** The monad *)

Definition M (S A : Type) : Type := S → outcome A * S.

Definition ret {S A} (a : A) : M S A := λ s, (Ok a, s).
Definition bind {S A B} (m : M S A) (k : A → M S B) : M S B := λ s,
  match m s with
  | (Ok a, s') => k a s'
  | (Raise e, s') => (Raise e, s')
  end.

Declare Scope M_scope.
Notation "x <- m ;; k" := (bind m (λ x, k))
  (at level 100, m at next level, k at level 200, right associativity) : M_scope.
Notation "m ;; k" := (bind m (λ _, k)) (at level 100, k at level 200, right associativity) : M_scope.
Open Scope M_scope.

Definition throw {S A} (c : exn_class) (msg : string) : M S A := λ s, (raise c msg, s).
Definition rethrow {S A} (e : exn) : M S A := λ s, (Raise e, s).
Definition lift {S A} (m : outcome A) : M S A := λ s, (m, s).
Definition get {S} : M S S := λ s, (Ok s, s).
Definition gets {S A} (f : S → A) : M S A := λ s, (Ok (f s), s).
Definition modify {S} (f : S → S) : M S unit := λ s, (Ok (), f s).

(** [try: m except <p> as e: h(e)]. *)
Definition try_except {S A} (p : exn → bool) (m : M S A) (h : exn → M S A) : M S A := λ s,
  match m s with
  | (Ok a, s') => (Ok a, s')
  | (Raise e, s') => if p e then h e s' else (Raise e, s')
  end.

(** [try: m finally: f]. *)
Definition try_finally {S A} (m : M S A) (f : M S unit) : M S A := λ s,
  match m s with
  | (r, s') => match f s' with
               | (Ok _, s'') => (r, s'')
               | (Raise e, s'') => (Raise e, s'')
               end
  end.

Definition when {S} (b : bool) (m : M S unit) : M S unit := if b then m else ret ().

(** [for x in l: f(x)]. *)
Fixpoint for_each {S A} (l : list A) (f : A → M S unit) : M S unit :=
  match l with
  | [] => ret ()
  | x :: l => f x ;; for_each l f
  end.

(** [[f(x) for x in l]]. *)
Fixpoint map_each {S A B} (l : list A) (f : A → M S B) : M S (list B) :=
  match l with
  | [] => ret []
  | x :: l => y <- f x ;; ys <- map_each l f ;; ret (y :: ys)
  end.

(** [for x in l: acc = f(acc, x)]. *)
Fixpoint fold_each {S A B} (l : list A) (acc : B) (f : B → A → M S B) : M S B :=
  match l with
  | [] => ret acc
  | x :: l => acc <- f acc x ;; fold_each l acc f
  end.

(** ** Postconditions *)

(** [wp m Q E s]: from [s], [m] returns in a state satisfying [Q] or raises in
    a state satisfying [E]. *)
Definition wp {S A} (m : M S A) (Q : A → S → Prop) (E : exn → S → Prop) (s : S) : Prop :=
  match m s with
  | (Ok a, s') => Q a s'
  | (Raise e, s') => E e s'
  end.

Section wp.
Context {S : Type}.
Implicit Types s : S.

Lemma wp_ret {A} (a : A) (Q : A → S → Prop) E s : Q a s → wp (ret a : M S A) Q E s.
Proof. done. Qed.
Lemma wp_bind {A B} (m : M S A) (k : A → M S B) Q E s :
  wp m (λ a, wp (k a) Q E) E s → wp (bind m k) Q E s.
Proof. unfold wp, bind. by destruct (m s) as [[]]. Qed.
Lemma wp_conseq {A} (m : M S A) (Q Q' : A → S → Prop) (E E' : exn → S → Prop) s :
  wp m Q E s → (∀ a s', Q a s' → Q' a s') → (∀ e s', E e s' → E' e s') → wp m Q' E' s.
Proof. unfold wp. destruct (m s) as [[]]; eauto. Qed.
Lemma wp_throw {A} c msg (Q : A → S → Prop) E s : E (Exn c msg) s → wp (throw c msg) Q E s.
Proof. done. Qed.
Lemma wp_rethrow {A} e (Q : A → S → Prop) E s : E e s → wp (rethrow e) Q E s.
Proof. done. Qed.
Lemma wp_lift {A} (o : outcome A) (Q : A → S → Prop) E s :
  match o with Ok a => Q a s | Raise e => E e s end → wp (lift o) Q E s.
Proof. unfold wp, lift. by destruct o. Qed.
Lemma wp_gets {A} (f : S → A) (Q : A → S → Prop) E s : Q (f s) s → wp (gets f) Q E s.
Proof. done. Qed.
Lemma wp_get (Q : S → S → Prop) E s : Q s s → wp get Q E s.
Proof. done. Qed.
Lemma wp_modify f (Q : unit → S → Prop) E s : Q () (f s) → wp (modify f) Q E s.
Proof. done. Qed.
Lemma wp_try {A} (p : exn → bool) (m : M S A) h Q (E : exn → S → Prop) s :
  wp m Q (λ e s', if p e then wp (h e) Q E s' else E e s') s → wp (try_except p m h) Q E s.
Proof. unfold wp, try_except. destruct (m s) as [[] s']; [done|]. by destruct (p e). Qed.
Lemma wp_finally {A} (m : M S A) f Q (E : exn → S → Prop) s :
  wp m (λ a, wp f (λ _, Q a) E) (λ e, wp f (λ _, E e) E) s → wp (try_finally m f) Q E s.
Proof. unfold wp, try_finally. destruct (m s) as [[] s']; by destruct (f s') as [[]]. Qed.
Lemma wp_when b (m : M S unit) Q E s :
  (b = true → wp m Q E s) → (b = false → Q () s) → wp (when b m) Q E s.
Proof. destruct b; intros H1 H2; [by apply H1|by apply H2]. Qed.

(** The loop rule: an invariant over the processed prefix. *)
Lemma wp_for_each {A} (l : list A) (f : A → M S unit) (I : list A → S → Prop) E s :
  I [] s →
  (∀ done x rest s', l = done ++ x :: rest → I done s' →
     wp (f x) (λ _, I (done ++ [x])) E s') →
  wp (for_each l f) (λ _, I l) E s.
Proof.
  intros H0 Hstep. cut (∀ d r s', l = d ++ r → I d s' → wp (for_each r f) (λ _, I l) E s').
  { intros H. by apply (H []). }
  intros d r. revert d. induction r as [|x r IH]; intros d s' Heq Hd; simpl.
  { apply wp_ret. by rewrite Heq, app_nil_r. }
  apply wp_bind. eapply wp_conseq; [by eapply Hstep| |done]. intros [] s'' H. simpl in H.
  apply (IH (d ++ [x])); [by rewrite <- app_assoc|done].
Qed.

Lemma wp_and {A} (m : M S A) (Q Q' : A → S → Prop) (E E' : exn → S → Prop) s :
  wp m Q E s → wp m Q' E' s →
  wp m (λ a s', Q a s' ∧ Q' a s') (λ e s', E e s' ∧ E' e s') s.
Proof. unfold wp. by destruct (m s) as [[]]. Qed.
Lemma wp_skip {A B} (m : M S A) (k : A → M S B) Q (E : exn → S → Prop) s :
  (∀ a s', wp (k a) Q E s') → (∀ e s', E e s') → wp (bind m k) Q E s.
Proof. intros Hk HE. unfold wp, bind. destruct (m s) as [[a|e] s']; [apply Hk|apply HE]. Qed.

(** What a computation that returns (resp. raises) establishes. *)
Lemma wp_ok {A} (m : M S A) Q E s a s' : wp m Q E s → m s = (Ok a, s') → Q a s'.
Proof. unfold wp. by intros H Heq; rewrite Heq in H. Qed.
Lemma wp_raise {A} (m : M S A) Q E s e s' : wp m Q E s → m s = (Raise e, s') → E e s'.
Proof. unfold wp. by intros H Heq; rewrite Heq in H. Qed.
End wp.

(** Whether a run returned; the class of the exception it raised. *)
Definition returned {S A} (r : outcome A * S) : bool :=
  match r with (Ok _, _) => true | _ => false end.
Definition raised {S A} (r : outcome A * S) : option exn_class :=
  match r with (Raise e, _) => Some (exn_type e) | _ => None end.

(** ** The operating system *)

(** [subprocess.CompletedProcess]. *)
Record completed := Completed { returncode : Z; stdout : string; stderr : string }.

(** What a method asks of the machine.  Text files are read and written whole.
    A JSON or CSV file is the value it holds: [ReadJson] is
    [json.loads(path.read_text())], [ReadJsonl] the values of the non-empty
    lines of a JSON-lines file, [ReadCsv] the rows of a [csv.DictReader],
    [FileDigest] the SHA-256 of a file.  [Release], [MachineName] and [UtcNow]
    are [platform.release()], [platform.machine()] and the current time in ISO
    form; [Copy], [CopyTree] and [Rename] are [shutil.copy2], [shutil.copytree]
    and [Path.replace]; [OpenAppend] opens a log file for a command's output;
    [RmTree] removes a directory with what is in it;
    [Lock] opens a file and takes its exclusive lock without waiting.
    [BlockNumbers] is [os.stat] of a path: the device numbers of a block device,
    [None] for anything else.  [Spawn] is [subprocess.Popen] with additions to
    the environment, the others are its methods on the process [pid]; [Poll]
    and [Wait] give the exit status.  [IsSet] reads an event that another thread
    sets.  [RunBench] is Benchkit's [run_bench_command] on a command, with its
    timeout; it returns what the benchmark prints.  [Platform] is [sys.platform],
    [MayWrite] and [MayExecute] are [os.access(path, os.W_OK)] and
    [os.access(path, os.X_OK)], [WhichPath] is [shutil.which] when the path it
    finds is used, [KernelVersion] is [platform.version()]; [ReadBytes] is the
    whole of a binary file, [Unlink] is [path.unlink(missing_ok=True)].  [Environ]
    is a copy of [os.environ], [SpawnWith] is [subprocess.Popen] with the whole
    environment, in a session of its own; [Wait4] is [os.wait4] with the exit
    status decoded and the resource usage by field name, [Reap] is
    [process.wait()] without a timeout, [KillGroup] is [os.killpg].  [Symlink] is
    [path.symlink_to(target)], [FileSize] a size in bytes, [Uname] the five texts
    of [os.uname()], [ClockTicks] is [os.sysconf(SC_CLK_TCK)]. *)
Inductive syscall : Type → Type :=
  | ReadText (path : string) : syscall string
  | WriteText (path text : string) : syscall unit
  | ReadJson (path : string) : syscall pyval
  | WriteJson (path : string) (value : pyval) : syscall unit
  | ReadJsonl (path : string) : syscall (list pyval)
  | ReadCsv (path : string) : syscall (list (list (string * string)))
  | WriteCsv (path : string) (fields : list string) (rows : list pydict) : syscall unit
  | FileDigest (path : string) : syscall string
  | IsFile (path : string) : syscall bool
  | IsDir (path : string) : syscall bool
  | PathExists (path : string) : syscall bool
  | Glob (dir pattern : string) : syscall (list string)
  | Resolve (path : string) : syscall string
  | Mkdir (path : string) (exist_ok : bool) : syscall unit
  | Which (name : string) : syscall bool
  | RunCommand (command : list string) (input : option string) (timeout : option f64) :
      syscall completed
  | Monotonic : syscall f64
  | BoottimeNs : syscall Z
  | Sleep (seconds : f64) : syscall unit
  | GetPid : syscall Z
  | GetEuid : syscall Z
  | SchedGetAffinity (pid : Z) : syscall (gset Z)
  | SchedGetScheduler (pid : Z) : syscall Z
  | SchedGetPriority (pid : Z) : syscall Z
  | Release : syscall string
  | MachineName : syscall string
  | UtcNow : syscall string
  | GetEnv (name : string) : syscall (option string)
  | SetEnv (name value : string) : syscall unit
  | ListDir (path : string) : syscall (list string)
  | Owner (path : string) : syscall (Z * Z)
  | ReadTarJson (bundle member : string) : syscall pyval
  | OpenAppend (path : string) : syscall unit
  | Copy (source target : string) : syscall unit
  | CopyTree (source target : string) : syscall unit
  | Rename (source target : string) : syscall unit
  | MkdTemp (prefix : string) (dir : option string) : syscall string
  | Chmod (path : string) (mode : Z) : syscall unit
  | RmTree (path : string) : syscall unit
  | Lock (path : string) : syscall unit
  | SyncDisks : syscall unit
  | ResolveStrict (path : string) : syscall string
  | BlockNumbers (path : string) : syscall (option (Z * Z))
  | GetUid : syscall Z
  | GetGid : syscall Z
  | Spawn (command : list string) (environment : list (string * string)) : syscall Z
  | Poll (pid : Z) : syscall (option Z)
  | Terminate (pid : Z) : syscall unit
  | Kill (pid : Z) : syscall unit
  | Wait (pid : Z) (timeout : f64) : syscall Z
  | IsSet (event : string) : syscall bool
  | RunBench (command : list string) (timeout : Z) : syscall string
  | Platform : syscall string
  | MayWrite (path : string) : syscall bool
  | WhichPath (name : string) : syscall (option string)
  | MayExecute (path : string) : syscall bool
  | KernelVersion : syscall string
  | ReadBytes (path : string) : syscall (list Byte.byte)
  | Unlink (path : string) : syscall unit
  | Environ : syscall (list (string * string))
  | SpawnWith (command : list string) (environment : list (string * string)) : syscall Z
  | Wait4 (pid : Z) : syscall (Z * pydict)
  | Reap (pid : Z) : syscall Z
  | KillGroup (pid signal : Z) : syscall unit
  | Symlink (path target : string) : syscall unit
  | FileSize (path : string) : syscall Z
  | Uname : syscall (list string)
  | ClockTicks : syscall Z.

Class OS (W : Type) := handle : ∀ {A}, syscall A → W → outcome A * W.

(** What the ghost log records of a call: the calls that act on the machine. *)
Inductive entry :=
  | ERun (command : list string) (input : option string) (result : outcome Z)
  | EWriteText (path text : string)
  | EWriteJson (path : string) (value : pyval)
  | EWriteCsv (path : string) (rows : list pydict)
  | EMkdir (path : string)
  | ESleep (seconds : f64)
  | ECopy (source target : string)
  | ERename (source target : string)
  | ESync
  | ESpawn (pid : Z) (command : list string)
  | EExit (pid status : Z)
  | EBench (command : list string) (timeout : Z)
  | EUnlink (path : string).

Definition note {A} (c : syscall A) : outcome A → list entry :=
  match c in syscall A return outcome A → list entry with
  | RunCommand cmd input _ => λ r, [ERun cmd input (returncode <$> r)]
  | WriteText p t => λ _, [EWriteText p t]
  | WriteJson p v => λ _, [EWriteJson p v]
  | WriteCsv p _ rows => λ _, [EWriteCsv p rows]
  | Mkdir p _ => λ _, [EMkdir p]
  | Sleep t => λ _, [ESleep t]
  | Copy p q | CopyTree p q => λ _, [ECopy p q]
  | Rename p q => λ _, [ERename p q]
  | SyncDisks => λ _, [ESync]
  | Spawn command _ | SpawnWith command _ => λ r, match r with Ok pid => [ESpawn pid command] | Raise _ => [] end
  | Poll pid => λ r, match r with Ok (Some status) => [EExit pid status] | _ => [] end
  | Wait pid _ | Reap pid => λ r, match r with Ok status => [EExit pid status] | Raise _ => [] end
  | Wait4 pid => λ r, match r with Ok result => [EExit pid result.1] | Raise _ => [] end
  | RunBench command timeout => λ _, [EBench command timeout]
  | Unlink p => λ _, [EUnlink p]
  | _ => λ _, []
  end.

Record world (W : Type) := World { w_os : W; w_log : list entry }.
Arguments World {_} _ _.
Arguments w_os {_} _.
Arguments w_log {_} _.

Section sys.
Context {W : Type} `{OS W} {S : Type}.

Definition sys {A} (c : syscall A) : M (S * world W) A := λ '(s, w),
  let '(r, o) := handle c (w_os w) in (r, (s, World o (w_log w ++ note c r))).

(** Access to the attributes of the object. *)
Definition self {A} (f : S → A) : M (S * world W) A := gets (λ sw, f sw.1).
Definition set_self (f : S → S) : M (S * world W) unit := modify (λ sw, (f sw.1, sw.2)).

Lemma wp_sys {A} (c : syscall A) Q E s w :
  (∀ r o, handle c (w_os w) = (r, o) →
     match r with
     | Ok a => Q a (s, World o (w_log w ++ note c r))
     | Raise e => E e (s, World o (w_log w ++ note c r))
     end) →
  wp (sys c) Q E (s, w).
Proof.
  intros Hc. unfold wp, sys. destruct (handle c (w_os w)) as [r o] eqn:Heq.
  specialize (Hc r o eq_refl). by destruct r.
Qed.
Lemma wp_self {A} (f : S → A) Q E s w : Q (f s) (s, w) → wp (self f) Q E (s, w).
Proof. done. Qed.
Lemma wp_set_self f Q E s w : Q () (f s, w) → wp (set_self f) Q E (s, w).
Proof. done. Qed.
End sys.

(** A method of an object held in the attribute [f] of another one. *)
Definition zoom {W S T A} (f : S → T) (set : T → S → S) (m : M (T * world W) A) :
    M (S * world W) A := λ '(s, w),
  let '(r, (t, w')) := m (f s, w) in (r, (set t s, w')).

Lemma wp_zoom {W S T A} (f : S → T) (set : T → S → S) (m : M (T * world W) A) Q E s w :
  wp m (λ a tw, Q a (set tw.1 s, tw.2)) (λ e tw, E e (set tw.1 s, tw.2)) (f s, w) →
  wp (zoom f set m) Q E (s, w).
Proof. unfold wp, zoom. by destruct (m (f s, w)) as [[] []]. Qed.

(** A body with local variables of its own, which start as [t]. *)
Definition local {W S T A} (t : T) (m : M (T * world W) A) : M (S * world W) A := λ '(s, w),
  let '(r, (_, w')) := m (t, w) in (r, (s, w')).

Lemma wp_local {W S T A} (t : T) (m : M (T * world W) A) Q E (s : S) w :
  wp m (λ a tw, Q a (s, tw.2)) (λ e tw, E e (s, tw.2)) (t, w) → wp (local t m) Q E (s, w).
Proof. unfold wp, local. by destruct (m (t, w)) as [[] []]. Qed.

(** ** Computations confined to a preorder on states *)

(** [within R m]: whatever the system answers, the state [m] leaves, also when
    it raises, is related by [R] to the state it started from. *)
Definition within {S A} (R : relation S) (m : M S A) : Prop := ∀ s, R s (m s).2.

Section within.
Context {S : Type} (R : relation S) `{!PreOrder R}.

Lemma within_ret {A} (a : A) : within R (ret a).
Proof. intros s. reflexivity. Qed.
Lemma within_throw {A} c msg : within R (throw c msg : M S A).
Proof. intros s. reflexivity. Qed.
Lemma within_rethrow {A} e : within R (rethrow e : M S A).
Proof. intros s. reflexivity. Qed.
Lemma within_lift {A} (o : outcome A) : within R (lift o).
Proof. intros s. reflexivity. Qed.
Lemma within_gets {A} (f : S → A) : within R (gets f).
Proof. intros s. reflexivity. Qed.
Lemma within_bind {A B} (m : M S A) (k : A → M S B) :
  within R m → (∀ a, within R (k a)) → within R (bind m k).
Proof.
  intros Hm Hk s. unfold bind. specialize (Hm s).
  destruct (m s) as [[a|e] s']; simpl in *; [|done]. etrans; [done|apply Hk].
Qed.
Lemma within_try {A} p (m : M S A) h :
  within R m → (∀ e, within R (h e)) → within R (try_except p m h).
Proof.
  intros Hm Hh s. unfold try_except. specialize (Hm s).
  destruct (m s) as [[a|e] s']; simpl in *; [done|].
  destruct (p e); [|done]. etrans; [done|apply Hh].
Qed.
Lemma within_finally {A} (m : M S A) f :
  within R m → within R f → within R (try_finally m f).
Proof.
  intros Hm Hf s. unfold try_finally. specialize (Hm s).
  destruct (m s) as [r s']. specialize (Hf s'). simpl in *.
  destruct (f s') as [[] s'']; simpl in *; by etrans.
Qed.
Lemma within_map_each {A B} (l : list A) (f : A → M S B) :
  (∀ x, within R (f x)) → within R (map_each l f).
Proof.
  intros Hf. induction l as [|x l IH]; simpl; [apply within_ret|].
  apply within_bind; [done|]. intros y. apply within_bind; [done|]. intros. apply within_ret.
Qed.
Lemma within_for_each {A} (l : list A) (f : A → M S unit) :
  (∀ x, within R (f x)) → within R (for_each l f).
Proof.
  intros Hf. induction l as [|x l IH]; simpl; [apply within_ret|]. by apply within_bind.
Qed.
Lemma within_fold_each {A B} (l : list A) (acc : B) (f : B → A → M S B) :
  (∀ acc x, within R (f acc x)) → within R (fold_each l acc f).
Proof.
  intros Hf. revert acc. induction l as [|x l IH]; intros acc; simpl; [apply within_ret|].
  by apply within_bind.
Qed.
Lemma within_when b (m : M S unit) : within R m → within R (when b m).
Proof. destruct b; [done|]. intros. apply within_ret. Qed.

Lemma wp_within {A} (m : M S A) (Q : A → S → Prop) (E : exn → S → Prop) s :
  within R m → (∀ a s', R s s' → Q a s') → (∀ e s', R s s' → E e s') → wp m Q E s.
Proof.
  intros Hm HQ HE. unfold wp. specialize (Hm s).
  destruct (m s) as [[a|e] s']; simpl in *; auto.
Qed.
(** A postcondition together with the confinement. *)
Lemma wp_and_within {A} (m : M S A) (Q : A → S → Prop) (E : exn → S → Prop) s :
  within R m → wp m Q E s → wp m (λ a s', Q a s' ∧ R s s') (λ e s', E e s' ∧ R s s') s.
Proof. intros Hm. unfold wp. specialize (Hm s). by destruct (m s) as [[a|e] s']. Qed.
End within.

Lemma within_mono {S A} (R R' : relation S) (m : M S A) :
  (∀ x y, R x y → R' x y) → within R m → within R' m.
Proof. intros HR Hm s. apply HR, Hm. Qed.

(** The object is unchanged; an invariant [I] of the object is kept. *)
Definition same_self {S T} : relation (S * T) := λ x y, y.1 = x.1.
Definition inv_self {S T} (I : S → Prop) : relation (S * T) := λ x y, I x.1 → I y.1.
#[export] Instance same_self_preorder {S T} : PreOrder (@same_self S T).
Proof. split; [done|]. intros x y z. unfold same_self. congruence. Qed.
#[export] Instance inv_self_preorder {S T} (I : S → Prop) : PreOrder (@inv_self S T I).
Proof. unfold inv_self. split; [intros x Hx; exact Hx|]. intros x y z. auto. Qed.

Abbreviation keeps := (within same_self).
Abbreviation preserves I := (within (inv_self I)).

Section keeps.
Context {W : Type} `{OS W} {S : Type}.

Lemma keeps_sys {A} (c : syscall A) : keeps (sys (S := S) c).
Proof. intros [s w]. unfold sys, same_self. simpl. by destruct (handle c _). Qed.
Lemma within_self (R : relation (S * world W)) `{!PreOrder R} {A} (f : S → A) :
  within R (self (W := W) f).
Proof. by apply within_gets. Qed.
Lemma preserves_keeps (I : S → Prop) {A} (m : M (S * world W) A) : keeps m → preserves I m.
Proof. apply within_mono. unfold same_self, inv_self. by intros [] [] ->. Qed.
Lemma preserves_set_self (I : S → Prop) (f : S → S) :
  (∀ s, I s → I (f s)) → preserves I (set_self (W := W) f).
Proof. intros Hf [s w] Hs. by apply Hf. Qed.

Lemma wp_keeps {A} (m : M (S * world W) A) (Q : A → S * world W → Prop) E s w :
  keeps m → (∀ a w', Q a (s, w')) → (∀ e w', E e (s, w')) → wp m Q E (s, w).
Proof.
  intros Hm HQ HE. eapply wp_within; [exact Hm| |]; intros ? [s' w']; unfold same_self;
    intros Hs; simpl in Hs; subst s'; auto.
Qed.
Lemma wp_same_self {A} (m : M (S * world W) A) s w :
  keeps m → wp m (λ _ sw, sw.1 = s) (λ _ sw, sw.1 = s) (s, w).
Proof. intros Hm. by eapply wp_keeps. Qed.
Lemma wp_preserves (I : S → Prop) {A} (m : M (S * world W) A) (Q : A → S * world W → Prop) E s w :
  preserves I m → I s →
  (∀ a s' w', I s' → Q a (s', w')) → (∀ e s' w', I s' → E e (s', w')) → wp m Q E (s, w).
Proof.
  intros Hm Hs HQ HE. eapply wp_within; [exact Hm| |]; intros ? [s' w']; unfold inv_self;
    simpl; auto.
Qed.
End keeps.

(** ** What a computation has established when it returns *)

Definition establishes {S T A} (I : S → Prop) (m : M (S * T) A) : Prop :=
  ∀ s, wp m (λ _ s', I s'.1) (λ _ _, True) s.

Section establishes.
Context {S T : Type} (I : S → Prop).

Lemma establishes_later {A B} (m : M (S * T) A) (k : A → M (S * T) B) :
  (∀ a, establishes I (k a)) → establishes I (bind m k).
Proof. intros Hk s. by apply wp_skip; [intros a s'; apply Hk|]. Qed.
Lemma establishes_now {A B} (m : M (S * T) A) (k : A → M (S * T) B) :
  establishes I m → (∀ a, preserves I (k a)) → establishes I (bind m k).
Proof.
  intros Hm Hk s. apply wp_bind. eapply wp_conseq; [apply Hm| |done]. intros a s' Hs'.
  eapply wp_within; [apply Hk| |done]. auto.
Qed.
Lemma establishes_set_self {W} (f : S → S) :
  (∀ s, I (f s)) → establishes (T := world W) I (set_self f).
Proof. intros Hf [s w]. apply Hf. Qed.
End establishes.

Create HintDb keeps.
#[export] Hint Resolve keeps_sys : keeps.
Create HintDb preserves.

(** Walks to the assignment that establishes the attribute; the rest of the
    body must preserve it. *)
Ltac solve_establishes tac :=
  repeat (intros; first
    [ apply establishes_now; [apply establishes_set_self; intros; reflexivity|]; intros; tac
    | apply establishes_later ]).

(** Decides [within R m] for a method body; the calls it cannot decide with
    the hint database [keeps] are left as goals. *)
Ltac solve_within :=
  repeat (intros; match goal with
    | |- within _ (bind _ _) => apply within_bind; [typeclasses eauto| |]
    | |- within _ (match ?x with _ => _ end) => destruct x
    | |- within _ (ret _) => apply within_ret; typeclasses eauto
    | |- within _ (throw _ _) => apply within_throw; typeclasses eauto
    | |- within _ (rethrow _) => apply within_rethrow; typeclasses eauto
    | |- within _ (lift _) => apply within_lift; typeclasses eauto
    | |- within _ (self _) => apply within_self; typeclasses eauto
    | |- within _ (gets _) => apply within_gets; typeclasses eauto
    | |- within _ _ => solve [eauto with keeps]
    | |- within _ (try_except _ _ _) => apply within_try; [typeclasses eauto| |]
    | |- within _ (try_finally _ _) => apply within_finally; [typeclasses eauto| |]
    | |- within _ (map_each _ _) => apply within_map_each; [typeclasses eauto|]
    | |- within _ (for_each _ _) => apply within_for_each; [typeclasses eauto|]
    | |- within _ (fold_each _ _ _) => apply within_fold_each; [typeclasses eauto|]
    | |- within _ (when _ _) => apply within_when; [typeclasses eauto|]
    end).
Ltac solve_keeps := solve_within.
Ltac solve_preserves :=
  repeat (intros; match goal with
    | |- within (inv_self _) (set_self _) => apply preserves_set_self
    | |- within (inv_self _) (sys _) => apply preserves_keeps, keeps_sys
    | |- within (inv_self _) _ => solve [apply preserves_keeps; eauto with keeps]
    | |- _ => progress solve_within
    end).

(** ** Paths *)

(** [Path(p) / c]: an absolute [c] replaces [p]; empty and [.] components
    disappear. *)
Definition path_parts (c : string) : list string :=
  filter (λ x, x ≠ "" ∧ x ≠ ".") (py_split "/"%char c).
Definition pjoin (p c : string) : string :=
  if py_startswith "/" c then "/" +:+ py_join "/" (path_parts c)
  else match path_parts c with
       | [] => p
       | parts =>
           if bool_decide (p = "/") then "/" +:+ py_join "/" parts
           else if bool_decide (p = ".") then py_join "/" parts
           else p +:+ "/" +:+ py_join "/" parts
       end.
Infix "//" := pjoin (at level 40, left associativity) : py_scope.

(** [path.name] and [path.parents]. *)
Definition path_name (p : string) : string := List.last (path_parts p) "".
Fixpoint prefixes_desc (parts : list string) : list (list string) :=
  match parts with
  | [] => []
  | x :: l => map (cons x) (prefixes_desc l) ++ [[]]
  end.
(** The proper prefixes of an absolute path, the longest first. *)
Definition path_parents (p : string) : list string :=
  map (λ l, "/" +:+ py_join "/" l) (prefixes_desc (path_parts p)).

(** Joining keeps different file names apart. *)
Definition plain_name (c : string) : bool :=
  bool_decide (path_parts c = [c]) && negb (py_startswith "/" c).
Lemma pjoin_inj p c c' : plain_name c = true → plain_name c' = true → pjoin p c = pjoin p c' → c = c'.
Proof.
  unfold plain_name. rewrite !andb_true_iff, !negb_true_iff, !bool_decide_eq_true.
  intros [Hc Hs] [Hc' Hs']. unfold pjoin. rewrite Hc, Hc', Hs, Hs'. simpl py_join.
  repeat case_bool_decide; intros Heq; try done; repeat apply string_app_inj_l in Heq; done.
Qed.

Example path_examples :
  (pjoin "/sys/fs/cgroup" "", pjoin "/sys" "a/b", pjoin "/sys" "/x", path_name "/a/b",
   path_parents "/a/b/c") =
  ("/sys/fs/cgroup", "/sys/a/b", "/x", "b", ["/a/b"; "/a"; "/"]).
Proof. vm_compute. reflexivity. Qed.

(** The loop rules with the membership of the element. *)
Lemma within_for_each_in {S A} (R : relation S) `{!PreOrder R} (l : list A) (f : A → M S unit) :
  (∀ x, x ∈ l → within R (f x)) → within R (for_each l f).
Proof.
  induction l as [|x l IH]; intros Hf; simpl; [by apply within_ret|].
  apply within_bind; [done|apply Hf; set_solver|]. intros []. apply IH. set_solver.
Qed.
Lemma within_map_each_in {S A B} (R : relation S) `{!PreOrder R} (l : list A) (f : A → M S B) :
  (∀ x, x ∈ l → within R (f x)) → within R (map_each l f).
Proof.
  induction l as [|x l IH]; intros Hf; simpl; [by apply within_ret|].
  apply within_bind; [done|apply Hf; set_solver|]. intros y.
  apply within_bind; [done|apply IH; set_solver|]. intros ys. by apply within_ret.
Qed.
(** A relation on the machine alone. *)
Definition on_world {S W} (R : relation (world W)) : relation (S * world W) := λ x y, R x.2 y.2.
#[export] Instance on_world_preorder {S W} (R : relation (world W)) `{!PreOrder R} :
  PreOrder (on_world (S := S) R).
Proof. unfold on_world. split; [intros x; reflexivity|intros x y z; apply transitivity]. Qed.
Lemma within_local {W S T A} (R : relation (world W)) (t : T) (m : M (T * world W) A) :
  within (on_world R) m → within (on_world (S := S) R) (local t m).
Proof.
  intros Hm [s w]. specialize (Hm (t, w)). unfold local, on_world in *.
  by destruct (m (t, w)) as [r [t' w']].
Qed.
Lemma within_set_self {W S} (R : relation (world W)) `{!PreOrder R} (f : S → S) :
  within (on_world R) (set_self f).
Proof. intros [s w]. unfold on_world. simpl. reflexivity. Qed.
