(* ===== verification/Machine.v ===== *)
(** * A concrete operating system

    A small machine that can be run: text files, stored JSON values,
    directories, processes' scheduling attributes and two clocks, with the
    effect of a command as a parameter.  The components are proved against any
    [OS]; this one is where their theorems are applied to inputs. *)
From Stdlib Require Import Ascii ZArith Lia.
From S2P Require Import Prelude PyStr PyFloat PyVal Effects.
From stdpp Require Import base gmap strings list.
Local Open Scope Z_scope.
Local Open Scope py_scope.

Record machine := Machine {
  m_files : list (string * string);
  m_json : list (string * pyval);
  m_dirs : list string;
  m_globs : list (string * list string);
  m_links : list (string * string);
  m_clock : f64;
  m_boottime : Z;
  m_euid : Z;
  m_affinity : gset Z;
}.

Definition set_files f m := {| m_files := f; m_json := m_json m; m_dirs := m_dirs m;
  m_globs := m_globs m; m_links := m_links m; m_clock := m_clock m; m_boottime := m_boottime m;
  m_euid := m_euid m; m_affinity := m_affinity m |}.
Definition set_json j m := {| m_files := m_files m; m_json := j; m_dirs := m_dirs m;
  m_globs := m_globs m; m_links := m_links m; m_clock := m_clock m; m_boottime := m_boottime m;
  m_euid := m_euid m; m_affinity := m_affinity m |}.
Definition set_dirs d m := {| m_files := m_files m; m_json := m_json m; m_dirs := d;
  m_globs := m_globs m; m_links := m_links m; m_clock := m_clock m; m_boottime := m_boottime m;
  m_euid := m_euid m; m_affinity := m_affinity m |}.
Definition set_clock c m := {| m_files := m_files m; m_json := m_json m; m_dirs := m_dirs m;
  m_globs := m_globs m; m_links := m_links m; m_clock := c; m_boottime := m_boottime m;
  m_euid := m_euid m; m_affinity := m_affinity m |}.
Definition set_affinity a m := {| m_files := m_files m; m_json := m_json m; m_dirs := m_dirs m;
  m_globs := m_globs m; m_links := m_links m; m_clock := m_clock m; m_boottime := m_boottime m;
  m_euid := m_euid m; m_affinity := a |}.

(** The id of the process under verification. *)
Definition the_pid : Z := 4242.

Definition missing {A} (p : string) : outcome A :=
  raise FileNotFoundError ("[Errno 2] No such file or directory: " +:+ py_repr p).

Definition has {A} (p : string) (l : list (string * A)) : bool := bool_decide (is_Some (dget p l)).
Definition known_dir (p : string) (m : machine) : bool := bool_decide (p ∈ m_dirs m).

(** A copy of a file, of either kind. *)
Definition copy_file (p q : string) (m : machine) : outcome unit * machine :=
  match dget p (m_json m), dget p (m_files m) with
  | Some v, _ => (Ok (), set_json (dset q v (m_json m)) m)
  | None, Some t => (Ok (), set_files (dset q t (m_files m)) m)
  | None, None => (missing p, m)
  end.
(** Where the kernel's release is kept. *)
Definition RELEASE_PATH : string := "/proc/sys/kernel/osrelease".

(** What a command does to the machine: a parameter. *)
Class Commands := run_command : list string → option string → machine → outcome completed * machine.

Definition sim_handle `{Commands} {A} (c : syscall A) (m : machine) : outcome A * machine :=
  match c in syscall A return outcome A * machine with
  | ReadText p => (match dget p (m_files m) with Some t => Ok t | None => missing p end, m)
  | WriteText p t => (Ok (), set_files (dset p t (m_files m)) m)
  | ReadJson p => (match dget p (m_json m) with Some v => Ok v | None => missing p end, m)
  | WriteJson p v => (Ok (), set_json (dset p v (m_json m)) m)
  | ReadJsonl p =>
      (match dget p (m_json m) with Some (VList l) => Ok l | _ => missing p end, m)
  | ReadCsv p =>
      (match dget p (m_json m) with
       | Some (VList l) => Ok (map (λ v, match v with
           | VDict d => map (λ kv, (kv.1, str_val kv.2)) d | _ => [] end) l)
       | _ => missing p end, m)
  | WriteCsv p _ rows => (Ok (), set_json (dset p (VList (map VDict rows)) (m_json m)) m)
  | FileDigest p => (Ok (match dget p (m_files m) with Some t => t | None => "" end), m)
  | IsFile p => (Ok (has p (m_files m) || has p (m_json m)), m)
  | IsDir p => (Ok (known_dir p m), m)
  | PathExists p => (Ok (has p (m_files m) || has p (m_json m) || known_dir p m), m)
  | Glob d pattern =>
      (Ok (match dget (d // pattern) (m_globs m) with Some l => l | None => [] end), m)
  | Resolve p => (Ok (match dget p (m_links m) with Some q => q | None => p end), m)
  | Mkdir p _ => (Ok (), set_dirs (p :: m_dirs m) m)
  | Which _ => (Ok true, m)
  | RunCommand cmd input _ => run_command cmd input m
  | Monotonic => (Ok (m_clock m), m)
  | BoottimeNs => (Ok (m_boottime m), m)
  | Sleep t => (Ok (), set_clock (f_add (m_clock m) t) m)
  | GetPid => (Ok the_pid, m)
  | GetEuid => (Ok (m_euid m), m)
  | SchedGetAffinity _ => (Ok (m_affinity m), m)
  | SchedGetScheduler _ => (Ok 0, m)
  | SchedGetPriority _ => (Ok 0, m)
  | Release => (match dget RELEASE_PATH (m_files m) with Some t => Ok (py_strip t) | None => missing RELEASE_PATH end, m)
  | MachineName => (Ok "aarch64", m)
  | UtcNow => (Ok "2026-01-01T00:00:00+00:00", m)
  | GetEnv name => (Ok (dget ("env:" +:+ name) (m_files m)), m)
  | SetEnv name value => (Ok (), set_files (dset ("env:" +:+ name) value (m_files m)) m)
  | ListDir p => (Ok (match dget (p // "*") (m_globs m) with Some l => l | None => [] end), m)
  | Owner _ => (Ok (1000, 1000), m)
  | ReadTarJson p _ => (match dget p (m_json m) with Some v => Ok v | None => missing p end, m)
  | OpenAppend p => (Ok (), m)
  | Copy p q | CopyTree p q => copy_file p q m
  | Rename p q =>
      let '(r, m') := copy_file p q m in
      (r, set_files (dpop p (m_files m')) (set_json (dpop p (m_json m')) m'))
  | MkdTemp prefix dir => let p := default "/tmp" dir // (prefix +:+ "0") in (Ok p, set_dirs (p :: m_dirs m) m)
  | Chmod _ _ | RmTree _ => (Ok (), m)
  | Lock _ => (Ok (), m)
  | SyncDisks => (Ok (), m)
  | ResolveStrict p => (if has p (m_files m) then Ok p else missing p, m)
  | GetUid | GetGid => (Ok (m_euid m), m)
  | _ => (raise OSError "not available", m)
  end.

Instance sim_os `{Commands} : OS machine := @sim_handle _.

Definition empty_machine : machine := Machine [] [] [] [] [] (f_of_Z 0) 0 0 ∅.

Definition exit_status (code : Z) (err : string) : outcome completed := Ok (Completed code "" err).

(** The input of [tee] without its final newline. *)
Definition tee_value (input : option string) : string :=
  match input with Some t => py_removesuffix nl t | None => "" end.
