(* ===== verification/Clock.v ===== *)
(** * Loops that wait for a deadline

    The monotonic clock as an interface: every positive sleep brings a deadline
    nearer, and a deadline that has been reached reads as reached.  The rule
    [wp_until] shows that a loop with enough fuel never runs out of it. *)
From Stdlib Require Import Ascii ZArith Lia Floats.SpecFloat.
From S2P Require Import Prelude PyStr PyFloat PyVal Effects Machine.
From stdpp Require Import base gmap strings list.
Local Open Scope Z_scope.
Local Open Scope M_scope.

(** [deadline d]: a point in time the clock will reach.  [time_left d w]: a
    bound on the sleeps that can still begin before it. *)
Class Clock (W : Type) `{OS W} := {
  deadline : f64 → Prop;
  time_left : f64 → W → nat;
  clock_due d w now : deadline d → (handle Monotonic w).1 = Ok now → time_left d w = 0%nat →
    f_le_Z (f_sub d now) 0 = true ∧ f_le d now = true;
  clock_reached d w now : deadline d → (handle Monotonic w).1 = Ok now →
    f_lt f_zero (f_sub d now) = false → time_left d w = 0%nat;
  clock_sleep d t w : f_gt_Z t 0 = true →
    (time_left d (handle (Sleep t) w).2 <= pred (time_left d w))%nat;
  clock_call d {A} (c : syscall A) w : (time_left d (handle c w).2 <= time_left d w)%nat;
  clock_real {A} (c : syscall A) w e : (handle c w).1 = Raise e → exn_type e ≠ OutOfFuel;
}.

(** The outcome is not that of a loop cut off by its fuel. *)
Definition in_fuel {S A} (r : outcome A * S) : Prop := raised r ≠ Some OutOfFuel.

(** A wait of [t] that starts at any moment ends after fewer than [fuel]
    sleeps. *)
Definition ends_within {W} `{Clock W} (t : f64) (fuel : nat) : Prop :=
  ∀ w now, (handle Monotonic w).1 = Ok now →
    deadline (f_add now t) ∧ (time_left (f_add now t) (handle Monotonic w).2 < fuel)%nat.

Section clock.
Context {W : Type} `{OS W} `{!Clock W} {S : Type}.
Abbreviation state := (S * world W)%type.
Implicit Types sw : state.

(** The exceptions of the machine. *)
Definition fine : exn → state → Prop := λ e _, exn_type e ≠ OutOfFuel.

(** The step brings no deadline further away. *)
Definition no_later : relation state := λ x y,
  ∀ d, (time_left d (w_os y.2) <= time_left d (w_os x.2))%nat.
#[export] Instance no_later_preorder : PreOrder no_later.
Proof.
  split; [by intros x d|]. intros x y z Hxy Hyz d. specialize (Hxy d). specialize (Hyz d). lia.
Qed.

Lemma no_later_sys {A} (c : syscall A) : within no_later (sys (S := S) c).
Proof.
  intros [s w] d. unfold sys. pose proof (clock_call d c (w_os w)) as Hc.
  by destruct (handle c (w_os w)).
Qed.

Lemma wp_sys_fine {A B} (c : syscall A) (k : A → M state B) Q sw :
  (∀ a sw', no_later sw sw' → wp (k a) Q fine sw') → wp (bind (sys c) k) Q fine sw.
Proof.
  intros Hk. destruct sw as [s w]. apply wp_bind, wp_sys. intros r o Heq.
  destruct r as [a|e].
  - apply Hk. intros d. simpl. pose proof (clock_call d c (w_os w)) as Hc. by rewrite Heq in Hc.
  - apply (clock_real c (w_os w)). by rewrite Heq.
Qed.

Lemma wp_sleep_fine {B} t (k : unit → M state B) Q sw :
  f_gt_Z t 0 = true →
  (∀ sw', (∀ d, (time_left d (w_os sw'.2) <= pred (time_left d (w_os sw.2)))%nat) →
     wp (k ()) Q fine sw') →
  wp (bind (sys (Sleep t)) k) Q fine sw.
Proof.
  intros Ht Hk. destruct sw as [s w]. apply wp_bind, wp_sys. intros r o Heq.
  destruct r as [[]|e].
  - apply Hk. intros d. pose proof (clock_sleep d t (w_os w) Ht) as Hs. by rewrite Heq in Hs.
  - apply (clock_real (Sleep t) (w_os w)). by rewrite Heq.
Qed.

(** Reading the clock: once the time is up, the deadline reads as reached. *)
Lemma wp_now_fine {B} d (k : f64 → M state B) Q sw :
  deadline d →
  (∀ now sw', no_later sw sw' →
     (time_left d (w_os sw.2) = 0%nat → f_le_Z (f_sub d now) 0 = true ∧ f_le d now = true) →
     wp (k now) Q fine sw') →
  wp (bind (sys Monotonic) k) Q fine sw.
Proof.
  intros Hdl Hk. destruct sw as [s w]. apply wp_bind, wp_sys. intros r o Heq.
  destruct r as [now|e].
  - apply Hk.
    + intros d'. pose proof (clock_call d' Monotonic (w_os w)) as Hc. by rewrite Heq in Hc.
    + intros Hd. apply (clock_due d (w_os w)); [done|by rewrite Heq|exact Hd].
  - apply (clock_real Monotonic (w_os w)). by rewrite Heq.
Qed.

(** Once a deadline reads as reached, no time is left. *)
Lemma wp_reached_fine {B} d (k : f64 → M state B) Q sw :
  deadline d →
  (∀ now sw', no_later sw sw' →
     (f_lt f_zero (f_sub d now) = false → time_left d (w_os sw'.2) = 0%nat) → wp (k now) Q fine sw') →
  wp (bind (sys Monotonic) k) Q fine sw.
Proof.
  intros Hdl Hk. destruct sw as [s w]. apply wp_bind, wp_sys. intros r o Heq.
  destruct r as [now|e].
  - pose proof (clock_call d Monotonic (w_os w)) as Hd. rewrite Heq in Hd. apply Hk.
    + intros d'. pose proof (clock_call d' Monotonic (w_os w)) as Hc. by rewrite Heq in Hc.
    + intros Hr. simpl in *. enough (time_left d (w_os w) = 0%nat) by lia.
      apply (clock_reached d (w_os w) now); [done|by rewrite Heq|done].
  - apply (clock_real Monotonic (w_os w)). by rewrite Heq.
Qed.

(** ** Computations that wait for nothing *)

(** [quick m]: [m] ends by itself, and brings no deadline further away. *)
Definition quick {A} (m : M state A) : Prop :=
  ∀ sw, wp m (λ _ sw', no_later sw sw') (λ e sw', exn_type e ≠ OutOfFuel ∧ no_later sw sw') sw.

Lemma quick_ret {A} (a : A) : quick (ret a).
Proof. intros sw. by apply wp_ret. Qed.
Lemma quick_throw {A} c msg : c ≠ OutOfFuel → quick (throw (A := A) c msg).
Proof. intros Hc sw. apply wp_throw. by split. Qed.
Lemma quick_self {A} (f : S → A) : quick (self f).
Proof. intros [s w]. by apply wp_self. Qed.
Lemma quick_set_self f : quick (set_self f).
Proof. intros [s w]. apply wp_set_self. by intros d. Qed.
Lemma quick_lift {A} (o : outcome A) :
  (∀ e, o = Raise e → exn_type e ≠ OutOfFuel) → quick (lift o).
Proof. intros Ho sw. apply wp_lift. destruct o; [done|]. split; [auto|done]. Qed.
Lemma quick_sys {A} (c : syscall A) : quick (sys c).
Proof.
  intros [s w]. apply wp_sys. intros r o Heq.
  assert (no_later (s, w) (s, World o (w_log w ++ note c r))) as Hl.
  { intros d. pose proof (clock_call d c (w_os w)) as Hc. by rewrite Heq in Hc. }
  destruct r as [a|e]; [done|]. split; [|done]. apply (clock_real c (w_os w)). by rewrite Heq.
Qed.
Lemma quick_bind {A B} (m : M state A) (k : A → M state B) :
  quick m → (∀ a, quick (k a)) → quick (bind m k).
Proof.
  intros Hm Hk sw. apply wp_bind. eapply wp_conseq; [apply Hm| |done]. intros a sw' H1.
  eapply wp_conseq; [apply Hk| |].
  - intros b sw'' H2. exact (transitivity H1 H2).
  - intros e sw'' [He H2]. split; [done|exact (transitivity H1 H2)].
Qed.
Lemma quick_try {A} p (m : M state A) h :
  quick m → (∀ e, quick (h e)) → quick (try_except p m h).
Proof.
  intros Hm Hh sw. apply wp_try. eapply wp_conseq; [apply Hm|done|]. intros e sw' [He H1].
  cbv beta. destruct (p e); [|done]. eapply wp_conseq; [apply Hh| |].
  - intros b sw'' H2. exact (transitivity H1 H2).
  - intros e' sw'' [He' H2]. split; [done|exact (transitivity H1 H2)].
Qed.
Lemma quick_when b (m : M state unit) : quick m → quick (when b m).
Proof. destruct b; [done|]. intros _. apply quick_ret. Qed.
Lemma quick_fold_each {A B} (l : list A) (acc : B) (f : B → A → M state B) :
  (∀ acc x, quick (f acc x)) → quick (fold_each l acc f).
Proof.
  intros Hf. revert acc. induction l as [|x l IH]; intros acc; simpl; [apply quick_ret|].
  by apply quick_bind.
Qed.
Lemma quick_for_each {A} (l : list A) (f : A → M state unit) :
  (∀ x, quick (f x)) → quick (for_each l f).
Proof.
  intros Hf. induction l as [|x l IH]; simpl; [apply quick_ret|]. by apply quick_bind.
Qed.
Lemma quick_map_each {A B} (l : list A) (f : A → M state B) :
  (∀ x, quick (f x)) → quick (map_each l f).
Proof.
  intros Hf. induction l as [|x l IH]; simpl; [apply quick_ret|].
  apply quick_bind; [done|]. intros y. apply quick_bind; [done|]. intros. apply quick_ret.
Qed.

Lemma wp_quick {A B} (m : M state A) (k : A → M state B) Q sw :
  quick m → (∀ a sw', no_later sw sw' → wp (k a) Q fine sw') → wp (bind m k) Q fine sw.
Proof.
  intros Hm Hk. apply wp_bind. eapply wp_conseq; [apply Hm|exact Hk|]. by intros e sw' [].
Qed.
Lemma wp_quick_last {A} (m : M state A) sw : quick m → wp m (λ _ _, True) fine sw.
Proof. intros Hm. eapply wp_conseq; [apply Hm|done|]. by intros e sw' []. Qed.

(** The start of a wait. *)
Lemma wp_start_fine {B} t fuel (k : f64 → M state B) Q sw :
  ends_within t fuel →
  (∀ now sw', no_later sw sw' → deadline (f_add now t) →
     (time_left (f_add now t) (w_os sw'.2) < fuel)%nat → wp (k now) Q fine sw') →
  wp (bind (sys Monotonic) k) Q fine sw.
Proof.
  intros Ht Hk. destruct sw as [s w]. apply wp_bind, wp_sys. intros r o Heq.
  destruct r as [now|e].
  - destruct (Ht (w_os w) now) as [Hd Hl]; [by rewrite Heq|]. rewrite Heq in Hl.
    apply Hk; [|done|done]. intros d. pose proof (clock_call d Monotonic (w_os w)) as Hc.
    by rewrite Heq in Hc.
  - apply (clock_real Monotonic (w_os w)). by rewrite Heq.
Qed.

Lemma in_fuel_wp {A} (m : M state A) Q sw : wp m Q fine sw → in_fuel (m sw).
Proof. unfold wp, in_fuel, fine. destruct (m sw) as [[] ?]; simpl; congruence. Qed.
End clock.

(** Decides [quick m] for a body without loops of its own. *)
Ltac solve_quick :=
  repeat (intros; match goal with
    | |- quick (bind _ _) => apply quick_bind
    | |- quick (match ?x with _ => _ end) => destruct x
    | |- quick (ret _) => apply quick_ret
    | |- quick (throw _ _) => apply quick_throw; done
    | |- quick (self _) => apply quick_self
    | |- quick (set_self _) => apply quick_set_self
    | |- quick (sys _) => apply quick_sys
    | |- quick (try_except _ _ _) => apply quick_try
    | |- quick (when _ _) => apply quick_when
    | |- quick (fold_each _ _ _) => apply quick_fold_each
    | |- quick (for_each _ _) => apply quick_for_each
    | |- quick (map_each _ _) => apply quick_map_each
    end).

(** [min(q, remaining)] of a positive quantum and a remaining time that is not
    up is positive. *)
Lemma f_min_positive q r :
  f_gt_Z q 0 = true → f_le_Z r 0 = false → f_gt_Z (f_min q r) 0 = true.
Proof.
  intros Hq Hr. unfold f_min. destruct (f_lt r q) eqn:Hlt; [|done].
  unfold f_le_Z, f_gt_Z in *. destruct (f_compare_Z r 0) as [[]|] eqn:Hc; try done.
  destruct r; try done.
Qed.

(** [min(q, max(0.0, r))] of a remaining time that is not up. *)
Lemma f_wait_positive q r :
  f_gt_Z q 0 = true → f_lt f_zero r = true → f_gt_Z (f_min q (f_max f_zero r)) 0 = true.
Proof.
  intros Hq Hr. apply f_min_positive; [done|]. unfold f_max. rewrite Hr.
  destruct r as [| [] | |[] m e]; try done. unfold f_le_Z, f_compare_Z.
  case_bool_decide; simpl; rewrite ?Z.mul_0_l; [|done].
  assert (0 < Z.pos m * 2 ^ e) as Hp by (apply Z.mul_pos_pos; [lia|apply Z.pow_pos_nonneg; lia]).
  by rewrite (proj2 (Z.compare_gt_iff _ _) Hp).
Qed.

(** ** A clock *)

(** A machine on which one sleep passes any deadline: the clock reads zero
    before it and the largest float after it.  Commands fail. *)
Definition f_largest : f64 := S754_finite false 9007199254740991 971.
Definition tick_handle {A} (c : syscall A) (awake : bool) : outcome A * bool :=
  match c in syscall A return outcome A * bool with
  | Monotonic => (Ok (if awake then f_of_Z 0 else f_largest), awake)
  | Sleep _ => (Ok (), false)
  | RunCommand _ _ _ => (Ok (Completed 1 "" "busy"), awake)
  | Glob _ _ => (Ok [], awake)
  | _ => (raise OSError "unavailable", awake)
  end.
Definition tick_os : OS bool := @tick_handle.

Definition tick_deadlines : list f64 := [f_largest; f_of_Z 1; f_of_Z 10].
#[export] Instance f64_eq_dec : EqDecision f64.
Proof. solve_decision. Defined.

Program Definition tick_clock : @Clock bool tick_os := {|
  deadline d := d ∈ tick_deadlines;
  time_left _ awake := if awake then 1%nat else 0%nat;
|}.
Next Obligation.
  intros d w now Hd Hnow Hw. destruct w; [done|]. injection Hnow as <-.
  assert (Forall (λ d, f_le_Z (f_sub d f_largest) 0 = true ∧ f_le d f_largest = true) tick_deadlines)
    as Hall by (apply (bool_decide_unpack _); vm_compute; done).
  rewrite Forall_forall in Hall. by apply Hall.
Qed.
Next Obligation.
  intros d w now Hd Hnow Hr. destruct w; [|done]. injection Hnow as <-.
  assert (Forall (λ d, f_lt f_zero (f_sub d (f_of_Z 0)) = true) tick_deadlines)
    as Hall by (apply (bool_decide_unpack _); vm_compute; done).
  rewrite Forall_forall in Hall. by rewrite Hall in Hr.
Qed.
Next Obligation. intros d t w _. simpl. lia. Qed.
Next Obligation. intros d A c w. destruct c, w; simpl; lia. Qed.
Next Obligation. intros A c w e. by destruct c; intros [= <-]. Qed.
