(* ===== verification/CpuList.v ===== *)
(** * Linux CPU lists ([cpu_isolation.py])

    [parse_cpu_list] and [format_cpu_list] of
    tools/realsense_bench_common/cpu_isolation.py.  A [Set[int]] is a
    [gset Z]. *)
From S2P Require Import Prelude PyStr.
From stdpp Require Import base gmap strings list sorting pretty.
From Stdlib Require Import Ascii ZArith Lia.
Local Open Scope Z_scope.

(** [set(range(a, b))]. *)
Definition py_range (a b : Z) : list Z := seqZ a (b - a).

(** The body of the loop over the comma-separated tokens. *)
Definition parse_cpu_token (value : string) (cpus : gset Z) (token : string) :
    outcome (gset Z) :=
  let token := py_strip token in
  if bool_decide (token = "") then
    raise ValueError ("invalid empty CPU-list element in " +:+ py_repr value)
  else if in_string "-"%char token then
    let fields := py_split_max "-"%char 1 token in
    if negb (forallb py_isdigit fields) then
      raise ValueError ("invalid CPU range " +:+ py_repr token)
    else
      match mapM int_of_string fields with
      | Some [first; last] =>
          if bool_decide (last < first) then
            raise ValueError ("descending CPU range " +:+ py_repr token)
          else Ok (cpus ∪ list_to_set (py_range first (last + 1)))
      | _ => raise ValueError ("invalid literal for int() with base 10: " +:+ py_repr token)
      end
  else if negb (py_isdigit token) then
    raise ValueError ("invalid CPU number " +:+ py_repr token)
  else
    match int_of_string token with
    | Some n => Ok (cpus ∪ {[ n ]})
    | None => raise ValueError ("invalid literal for int() with base 10: " +:+ py_repr token)
    end.

Definition parse_cpu_list (value : string) : outcome (gset Z) :=
  let text := py_strip value in
  if bool_decide (text = "") then Ok ∅
  else fold_outcome (parse_cpu_token value) ∅ (py_split ","%char text).

(** [sorted(cpus)]. *)
Definition sorted_cpus (cpus : gset Z) : list Z := merge_sort (≤) (elements cpus).

Definition format_range (first last : Z) : string :=
  if bool_decide (first = last) then str_Z first
  else str_Z first +:+ "-" +:+ str_Z last.

(** The loop of [format_cpu_list] over [values[1:]], as the list of the
    (first, previous) pairs that it closes. *)
Fixpoint cpu_ranges (first previous : Z) (values : list Z) : list (Z * Z) :=
  match values with
  | [] => [(first, previous)]
  | value :: values =>
      if bool_decide (value = previous + 1) then cpu_ranges first value values
      else (first, previous) :: cpu_ranges value value values
  end.

Definition format_cpu_list (cpus : gset Z) : string :=
  match sorted_cpus cpus with
  | [] => ""
  | first :: values =>
      py_join "," (map (λ r, format_range r.1 r.2) (cpu_ranges first first values))
  end.

Example format_example : format_cpu_list {[ 3; 1; 0; 2; 7; 9; 8 ]} = "0-3,7-9".
Proof. vm_compute. reflexivity. Qed.
Example parse_example : parse_cpu_list " 0-3, 7
" = Ok {[ 0; 1; 2; 3; 7 ]}.
Proof. vm_compute. reflexivity. Qed.
Example parse_error : parse_cpu_list "3-1" = raise ValueError "descending CPU range '3-1'".
Proof. vm_compute. reflexivity. Qed.

(** ** Ranges *)

Definition range_set (r : Z * Z) : gset Z := list_to_set (py_range r.1 (r.2 + 1)).

Lemma elem_of_range_set n r : n ∈ range_set r ↔ r.1 ≤ n ≤ r.2.
Proof.
  unfold range_set, py_range. rewrite elem_of_list_to_set, elem_of_seqZ. lia.
Qed.

(** The list that [format_cpu_list] walks is strictly increasing. *)
Lemma sorted_cpus_lt cpus : StronglySorted (<) (sorted_cpus cpus).
Proof.
  assert (StronglySorted (≤) (sorted_cpus cpus)) as Hs.
  { apply Sorted_StronglySorted; [exact Z.le_trans|].
    apply Sorted_merge_sort. intros x y. lia. }
  assert (NoDup (sorted_cpus cpus)) as Hn.
  { unfold sorted_cpus. rewrite merge_sort_Permutation. apply NoDup_elements. }
  induction Hs as [|x l Hs IH Hx]; [constructor|].
  apply NoDup_cons in Hn as [Hni Hn]. constructor; [by apply IH|].
  rewrite Forall_forall in Hx |- *. intros y Hy. specialize (Hx y Hy).
  destruct (decide (x = y)) as [->|]; [done|lia].
Qed.

Lemma elem_of_sorted_cpus n cpus : n ∈ sorted_cpus cpus ↔ n ∈ cpus.
Proof. unfold sorted_cpus. rewrite merge_sort_Permutation. apply elem_of_elements. Qed.

(** The ranges are non-empty, and two successive ones leave a gap: the printed
    list is the shortest one. *)
Fixpoint separated (lo : Z) (rs : list (Z * Z)) : Prop :=
  match rs with
  | [] => True
  | (a, b) :: rs => lo < a ∧ a ≤ b ∧ separated (b + 1) rs
  end.

Lemma cpu_ranges_separated first previous values lo :
  lo < first → first ≤ previous → StronglySorted (<) (previous :: values) →
  separated lo (cpu_ranges first previous values).
Proof.
  revert first previous lo. induction values as [|v values IH]; intros first previous lo Hlo Hfp Hs.
  { simpl. lia. }
  apply StronglySorted_inv in Hs as [Hs Hp]. apply Forall_cons in Hp as [Hp _]. simpl.
  case_bool_decide as Hv; [apply IH; [lia..|done]|].
  simpl. split_and!; [lia..|]. apply IH; [lia..|done].
Qed.

Lemma cpu_ranges_cover first previous values n :
  first ≤ previous → StronglySorted (<) (previous :: values) →
  n ∈ ⋃ (range_set <$> cpu_ranges first previous values) ↔ first ≤ n ≤ previous ∨ n ∈ values.
Proof.
  revert first previous. induction values as [|v values IH]; intros first previous Hfp Hs.
  { simpl. rewrite elem_of_union, elem_of_range_set. simpl. set_solver. }
  apply StronglySorted_inv in Hs as [Hs Hp]. apply Forall_cons in Hp as [Hp _]. simpl.
  rewrite elem_of_cons. case_bool_decide as Hv.
  - rewrite IH by (done || lia).
    assert (first ≤ n ≤ v ↔ first ≤ n ≤ previous ∨ n = v) by lia. tauto.
  - simpl. rewrite elem_of_union, elem_of_range_set, IH by (done || lia). simpl.
    assert (v ≤ n ≤ v ↔ n = v) by lia. tauto.
Qed.

Lemma cpu_ranges_sorted_cover cpus first values n :
  sorted_cpus cpus = first :: values →
  n ∈ ⋃ (range_set <$> cpu_ranges first first values) ↔ n ∈ cpus.
Proof.
  intros Heq. pose proof (sorted_cpus_lt cpus) as Hs. rewrite Heq in Hs.
  rewrite cpu_ranges_cover by (done || lia).
  rewrite <- elem_of_sorted_cpus, Heq, elem_of_cons.
  assert (first ≤ n ≤ first ↔ n = first) by lia. tauto.
Qed.

(** Every bound of a range is an element of the set. *)
Lemma cpu_ranges_bounds P first previous values :
  P first → P previous → Forall P values →
  Forall (λ r, P r.1 ∧ P r.2) (cpu_ranges first previous values).
Proof.
  intros H1 H2 Hv. revert first previous H1 H2.
  induction Hv as [|v values Hv Hvs IH]; intros first previous H1 H2; simpl.
  { by repeat constructor. }
  case_bool_decide; [by apply IH|]. constructor; [done|by apply IH].
Qed.

(** ** Reading a printed range back *)

Lemma str_Z_nonneg z : 0 ≤ z → str_Z z = pretty (Z.to_N z).
Proof. unfold str_Z. destruct z as [|p|p]; [done|done|lia]. Qed.

Lemma str_Z_isdigit z : 0 ≤ z → py_isdigit (str_Z z) = true.
Proof. intros. rewrite str_Z_nonneg by done. apply pretty_N_isdigit. Qed.
Lemma str_Z_digits z : 0 ≤ z → string_forall py_isdigit_char (str_Z z) = true.
Proof. intros. rewrite str_Z_nonneg by done. apply pretty_N_digits. Qed.
Lemma str_Z_nonempty z : 0 ≤ z → str_Z z ≠ "".
Proof. intros. rewrite str_Z_nonneg by done. apply pretty_N_nonempty. Qed.

(** The characters of a printed range: digits and the dash. *)
Definition range_char (a : ascii) : bool := py_isdigit_char a || bool_decide (a = "-"%char).

Lemma format_range_chars a b :
  0 ≤ a → 0 ≤ b → string_forall range_char (format_range a b) = true.
Proof.
  intros Ha Hb. assert (∀ z, 0 ≤ z → string_forall range_char (str_Z z) = true) as H.
  { intros z Hz. eapply string_forall_weaken, str_Z_digits; [|done].
    intros c Hc. unfold range_char. by rewrite Hc. }
  unfold format_range. case_bool_decide; [auto|].
  rewrite !string_forall_app, !H by done. done.
Qed.

Lemma range_char_not_space a : range_char a = true → negb (py_isspace a) = true.
Proof.
  unfold range_char. intros [H|H]%orb_true_iff; [by apply digit_not_space|].
  by apply bool_decide_eq_true in H as ->.
Qed.

Lemma format_range_nonempty a b : 0 ≤ a → format_range a b ≠ "".
Proof.
  intros Ha. pose proof (str_Z_nonempty a Ha). unfold format_range.
  case_bool_decide; [done|]. by destruct (str_Z a).
Qed.

Definition dashed (a b : Z) : string := str_Z a +:+ "-" +:+ str_Z b.

Lemma dashed_chars a b : 0 ≤ a → 0 ≤ b → string_forall range_char (dashed a b) = true.
Proof.
  intros Ha Hb. assert (∀ z, 0 ≤ z → string_forall range_char (str_Z z) = true) as H.
  { intros z Hz. eapply string_forall_weaken, str_Z_digits; [|done].
    intros c Hc. unfold range_char. by rewrite Hc. }
  unfold dashed. by rewrite !string_forall_app, !H.
Qed.

Lemma parse_cpu_token_dashed value cpus a b :
  0 ≤ a → 0 ≤ b →
  parse_cpu_token value cpus (dashed a b) =
    if bool_decide (b < a) then raise ValueError ("descending CPU range " +:+ py_repr (dashed a b))
    else Ok (cpus ∪ range_set (a, b)).
Proof.
  intros Ha Hb. unfold parse_cpu_token.
  rewrite py_strip_none; last first.
  { eapply string_forall_weaken, dashed_chars; [apply range_char_not_space|lia..]. }
  rewrite bool_decide_false; last first.
  { pose proof (str_Z_nonempty a Ha). unfold dashed. by destruct (str_Z a). }
  assert (in_string "-"%char (str_Z a) = false) as Hna.
  { by apply digits_no_char; [apply str_Z_digits|]. }
  assert (py_split_max "-"%char 1 (dashed a b) = [str_Z a; str_Z b]) as Hsplit.
  { unfold dashed. rewrite string_app_cons. by apply py_split_max_1. }
  assert (in_string "-"%char (dashed a b) = true) as ->.
  { unfold dashed. by rewrite in_string_app, Hna. }
  rewrite Hsplit. simpl. rewrite !str_Z_isdigit by lia. simpl. by rewrite !int_of_str_Z.
Qed.

Lemma parse_format_range value cpus a b :
  0 ≤ a ≤ b → parse_cpu_token value cpus (format_range a b) = Ok (cpus ∪ range_set (a, b)).
Proof.
  intros [Ha Hab]. unfold format_range. case_bool_decide as Heq; last first.
  { change (str_Z a +:+ "-" +:+ str_Z b) with (dashed a b).
    by rewrite parse_cpu_token_dashed, bool_decide_false by lia. }
  subst b. unfold parse_cpu_token.
  rewrite py_strip_none; last first.
  { eapply string_forall_weaken, str_Z_digits; [apply digit_not_space|lia]. }
  rewrite bool_decide_false by (by apply str_Z_nonempty).
  rewrite (digits_no_char "-"%char) by (done || by apply str_Z_digits).
  rewrite str_Z_isdigit by done. simpl. rewrite int_of_str_Z. do 2 f_equal.
  apply leibniz_equiv, set_equiv. intros n. rewrite elem_of_range_set, elem_of_singleton. simpl. lia.
Qed.

Lemma fold_format_ranges value cpus rs :
  Forall (λ r, 0 ≤ r.1 ≤ r.2) rs →
  fold_outcome (parse_cpu_token value) cpus (map (λ r, format_range r.1 r.2) rs) =
  Ok (cpus ∪ ⋃ (range_set <$> rs)).
Proof.
  intros Hrs. revert cpus. induction Hrs as [|[a b] rs Hr Hrs IH]; intros cpus; simpl.
  { f_equal. set_solver. }
  rewrite parse_format_range by done. rewrite IH. f_equal. set_solver.
Qed.

Lemma separated_ordered lo rs : separated lo rs → Forall (λ r, r.1 ≤ r.2) rs.
Proof.
  revert lo. induction rs as [|[a b] rs IH]; intros lo; simpl; [constructor|].
  intros (? & ? & Hs). constructor; [done|]. by eapply IH.
Qed.

Lemma cpu_ranges_nonempty first previous values : cpu_ranges first previous values ≠ [].
Proof. revert first previous. induction values; intros; simpl; [done|]. by case_bool_decide. Qed.

(** The printed text of a non-empty list of ranges. *)
Lemma join_forall p sep l :
  string_forall p sep = true → Forall (λ s, string_forall p s = true) l →
  string_forall p (py_join sep l) = true.
Proof.
  intros Hsep Hl. induction Hl as [|x l Hx Hl IH]; [done|].
  destruct l as [|y l]; [done|].
  change (string_forall p (x +:+ sep +:+ py_join sep (y :: l)) = true).
  by rewrite !string_forall_app, Hx, Hsep, IH.
Qed.

Lemma printed_chars rs :
  Forall (λ r, 0 ≤ r.1 ∧ 0 ≤ r.2) rs →
  Forall (λ s, string_forall range_char s = true) (map (λ r, format_range r.1 r.2) rs).
Proof. intros H. apply Forall_map. eapply Forall_impl; [exact H|]. intros r []. by apply format_range_chars. Qed.

Lemma printed_no_space rs :
  Forall (λ r, 0 ≤ r.1 ∧ 0 ≤ r.2) rs →
  string_forall (λ a, negb (py_isspace a)) (py_join "," (map (λ r, format_range r.1 r.2) rs)) = true.
Proof.
  intros H. apply join_forall; [done|]. eapply Forall_impl; [by apply printed_chars|].
  intros s Hs. eapply string_forall_weaken, Hs. apply range_char_not_space.
Qed.

Lemma printed_no_comma rs :
  Forall (λ r, 0 ≤ r.1 ∧ 0 ≤ r.2) rs →
  Forall (λ s, in_string ","%char s = false) (map (λ r, format_range r.1 r.2) rs).
Proof.
  intros H. eapply Forall_impl; [by apply printed_chars|].
  intros s Hs. by apply (string_forall_not_in range_char).
Qed.

Lemma printed_nonempty rs :
  rs ≠ [] → Forall (λ r, 0 ≤ r.1 ∧ 0 ≤ r.2) rs →
  py_join "," (map (λ r, format_range r.1 r.2) rs) ≠ "".
Proof.
  destruct rs as [|r rs]; [done|]. intros _ [[Hr _] _]%Forall_cons.
  pose proof (format_range_nonempty r.1 r.2 Hr).
  destruct rs; simpl; [done|]. by destruct (format_range r.1 r.2).
Qed.

(** [parse_cpu_list(format_cpu_list(cpus)) == cpus]. *)
Lemma parse_format_id (cpus : gset Z) :
  set_Forall (λ n, 0 ≤ n) cpus → parse_cpu_list (format_cpu_list cpus) = Ok cpus.
Proof.
  intros Hpos. unfold format_cpu_list.
  destruct (sorted_cpus cpus) as [|first values] eqn:Heq.
  { replace cpus with (∅ : gset Z); [done|]. apply leibniz_equiv, set_equiv. intros n.
    rewrite <- (elem_of_sorted_cpus n cpus), Heq. set_solver. }
  pose proof (sorted_cpus_lt cpus) as Hs. rewrite Heq in Hs.
  assert (Forall (λ n, 0 ≤ n) (first :: values)) as Hnn.
  { apply Forall_forall. intros n. rewrite <- Heq, elem_of_sorted_cpus. apply Hpos. }
  apply Forall_cons in Hnn as [Hf Hv].
  set (rs := cpu_ranges first first values).
  assert (Forall (λ r, 0 ≤ r.1 ≤ r.2) rs) as Hrs.
  { pose proof (cpu_ranges_bounds (λ n, 0 ≤ n) first first values Hf Hf Hv) as Hb.
    pose proof (separated_ordered (first - 1) rs) as Ho. unfold rs in Ho.
    rewrite Forall_forall in Hb |- *. intros r Hr. specialize (Hb r Hr).
    assert (Forall (λ r, r.1 ≤ r.2) rs) as Ho'.
    { apply Ho, cpu_ranges_separated; [lia|lia|done]. }
    rewrite Forall_forall in Ho'. specialize (Ho' r Hr). lia. }
  assert (Forall (λ r, 0 ≤ r.1 ∧ 0 ≤ r.2) rs) as Hrs0.
  { eapply Forall_impl; [exact Hrs|]. simpl. lia. }
  unfold parse_cpu_list. rewrite py_strip_none by (by apply printed_no_space).
  rewrite bool_decide_false by (by apply printed_nonempty, Hrs0; apply cpu_ranges_nonempty).
  rewrite py_split_join; [|by intros ?%map_eq_nil; eapply cpu_ranges_nonempty|by apply printed_no_comma].
  rewrite fold_format_ranges by done. f_equal. rewrite union_empty_l_L.
  apply leibniz_equiv, set_equiv. intros n. by apply cpu_ranges_sorted_cover.
Qed.

(** ** What a parsed list holds *)

Lemma digits_go_nonneg acc b s n : 0 ≤ acc → digits_go acc b s = Some n → 0 ≤ n.
Proof.
  revert acc b. induction s as [|a s IH]; intros acc b Hacc; simpl.
  { destruct b; [by intros [= <-]|done]. }
  destruct (py_isdigit_char a) eqn:Ha.
  - apply IH. unfold py_isdigit_char, digit_value in *.
    apply andb_true_iff in Ha as [?%Nat.leb_le ?%Nat.leb_le]. lia.
  - destruct (_ && b); [by apply IH|done].
Qed.

Lemma int_of_digits_nonneg s n : py_isdigit s = true → int_of_string s = Some n → 0 ≤ n.
Proof.
  intros Hd. unfold int_of_string. rewrite py_strip_none.
  - rewrite signed_digits_digits by done. by apply digits_go_nonneg.
  - apply andb_true_iff in Hd as [_ Hd]. eapply string_forall_weaken, Hd. apply digit_not_space.
Qed.

Lemma parse_cpu_token_nonneg value cpus token cpus' :
  set_Forall (λ n, 0 ≤ n) cpus → parse_cpu_token value cpus token = Ok cpus' →
  set_Forall (λ n, 0 ≤ n) cpus'.
Proof.
  intros Hpos. unfold parse_cpu_token. case_bool_decide; [done|].
  destruct (in_string _ _).
  - destruct (forallb py_isdigit _) eqn:Hd; [simpl|done].
    destruct (mapM int_of_string _) as [fields|] eqn:Hm; [|done].
    destruct fields as [|first [|last [|]]]; try done. case_bool_decide; [done|]. intros [= <-].
    apply mapM_Some, Forall2_cons_inv_r in Hm as (x & xs & Hx & _ & Heq). rewrite Heq in Hd.
    simpl in Hd. apply andb_true_iff in Hd as [Hd _].
    pose proof (int_of_digits_nonneg _ _ Hd Hx). intros n.
    rewrite elem_of_union, elem_of_list_to_set. unfold py_range. rewrite elem_of_seqZ.
    intros [?|?]; [by apply Hpos|lia].
  - destruct (py_isdigit _) eqn:Hd; [simpl|done].
    destruct (int_of_string _) as [n|] eqn:Hn; [|done]. intros [= <-] m.
    rewrite elem_of_union, elem_of_singleton. intros [?| ->]; [by apply Hpos|].
    by eapply int_of_digits_nonneg.
Qed.

Lemma parse_cpu_list_nonneg value cpus :
  parse_cpu_list value = Ok cpus → set_Forall (λ n, 0 ≤ n) cpus.
Proof.
  unfold parse_cpu_list. case_bool_decide; [intros [= <-]; by intros n ?%elem_of_empty|].
  apply (fold_outcome_inv (parse_cpu_token value) (λ _ cpus, set_Forall (λ n, 0 ≤ n) cpus)).
  - by intros n ?%elem_of_empty.
  - intros. by eapply parse_cpu_token_nonneg.
Qed.

(** The canonical text of a parsed list parses to the same set. *)
Lemma parse_format_parse value cpus :
  parse_cpu_list value = Ok cpus → parse_cpu_list (format_cpu_list cpus) = Ok cpus.
Proof. intros H. by apply parse_format_id, (parse_cpu_list_nonneg value). Qed.

(** ** Properties *)

(** canonical text of a CPU set.  For every set of non-negative CPU
    numbers [parse_cpu_list(format_cpu_list(cpus)) == cpus]; the text is made
    of the maximal runs, in increasing order and separated by gaps; hence two
    sets with the same text are equal. *)
Theorem format_cpu_list_canonical (cpus : gset Z) :
  set_Forall (λ n, 0 ≤ n) cpus →
  parse_cpu_list (format_cpu_list cpus) = Ok cpus ∧
  (∃ rs, separated (-1) rs ∧ (∀ n, n ∈ ⋃ (range_set <$> rs) ↔ n ∈ cpus) ∧
         format_cpu_list cpus = py_join "," (map (λ r, format_range r.1 r.2) rs)) ∧
  (∀ cpus', set_Forall (λ n, 0 ≤ n) cpus' →
     format_cpu_list cpus' = format_cpu_list cpus → cpus' = cpus).
Proof.
  intros Hpos. split; [by apply parse_format_id|]. split.
  - unfold format_cpu_list. destruct (sorted_cpus cpus) as [|first values] eqn:Heq.
    { exists []. split; [done|]. split; [|done]. intros n.
      rewrite <- (elem_of_sorted_cpus n cpus), Heq. set_solver. }
    pose proof (sorted_cpus_lt cpus) as Hs. rewrite Heq in Hs.
    exists (cpu_ranges first first values). split_and!; [|by intros n; apply cpu_ranges_sorted_cover|done].
    apply cpu_ranges_separated; [|lia|done].
    assert (0 ≤ first); [|lia]. apply Hpos, elem_of_sorted_cpus. rewrite Heq. set_solver.
  - intros cpus' Hpos' Heq. pose proof (parse_format_id cpus' Hpos') as H1.
    rewrite Heq, parse_format_id in H1 by done. congruence.
Qed.

Example format_cpu_list_canonical_witness :
  set_Forall (λ n, 0 ≤ n) ({[ 0; 2; 3 ]} : gset Z) ∧
  parse_cpu_list (format_cpu_list {[ 0; 2; 3 ]}) = Ok {[ 0; 2; 3 ]}.
Proof.
  assert (set_Forall (λ n, 0 ≤ n) ({[ 0; 2; 3 ]} : gset Z)) as H by (intros n; set_unfold; lia).
  split; [exact H|]. exact (proj1 (format_cpu_list_canonical _ H)).
Defined.

(** what [parse_cpu_list] accepts.  Text that parses denotes only
    non-negative numbers and parses to the same set after normalisation by
    [format_cpu_list]; a range [a-b] of two numbers denotes exactly
    [a..b] when [a <= b] and raises [ValueError] when it descends. *)
Theorem parse_cpu_list_spec :
  (∀ value cpus, parse_cpu_list value = Ok cpus →
     set_Forall (λ n, 0 ≤ n) cpus ∧ parse_cpu_list (format_cpu_list cpus) = Ok cpus) ∧
  (∀ a b, 0 ≤ a → 0 ≤ b →
     parse_cpu_list (dashed a b) =
       if bool_decide (b < a)
       then raise ValueError ("descending CPU range " +:+ py_repr (dashed a b))
       else Ok (range_set (a, b))).
Proof.
  split.
  { intros value cpus H. split; [by eapply parse_cpu_list_nonneg|by eapply parse_format_parse]. }
  intros a b Ha Hb. unfold parse_cpu_list.
  pose proof (dashed_chars a b Ha Hb) as Hc.
  rewrite py_strip_none by (eapply string_forall_weaken, Hc; apply range_char_not_space).
  rewrite bool_decide_false; last first.
  { pose proof (str_Z_nonempty a Ha). unfold dashed. by destruct (str_Z a). }
  rewrite py_split_none by (by apply (string_forall_not_in range_char)). simpl.
  rewrite parse_cpu_token_dashed by done.
  case_bool_decide; [done|]. by rewrite union_empty_l_L.
Qed.
