(* ===== verification/Devices.v ===== *)
(** * RealSense USB devices ([realsense_devices.py])

    Discovery of the cameras in sysfs: tools/realsense_bench_common/realsense_devices.py. *)
From Stdlib Require Import Ascii ZArith Lia.
From S2P Require Import Prelude PyStr PyFloat PyVal Effects.
From stdpp Require Import base gmap strings list sorting.
Local Open Scope py_scope.
Local Open Scope M_scope.

Definition INTEL_VENDOR_ID : string := "8086".
Definition KNOWN_D400_PRODUCTS : list (string * string) :=
  [("0ad3", "D415"); ("0b07", "D435"); ("0b5c", "D455")].

(** [sorted(paths)]: by code points. *)
Definition sorted_strings : list string → list string := merge_sort String.le.

Section devices.
Context {W : Type} `{OS W} {S : Type}.
Abbreviation IO := (M (S * world W)).

Definition read_optional_text (path : string) : IO string :=
  try_except is_OSError (t <- sys (ReadText path) ;; ret (py_strip t)) (λ _, ret "").

Definition is_realsense_video_device (path : string) : IO bool :=
  vendor <- read_optional_text (path // "idVendor") ;;
  if negb (bool_decide (py_lower vendor = INTEL_VENDOR_ID)) then ret false else
  product_id <- read_optional_text (path // "idProduct") ;;
  manufacturer <- read_optional_text (path // "manufacturer") ;;
  product <- read_optional_text (path // "product") ;;
  let identity := py_lower (py_join " " [manufacturer; product]) in
  ret (bool_decide (is_Some (dget (py_lower product_id) KNOWN_D400_PRODUCTS))
        || py_contains "realsense" identity).

Definition model_from_device (path : string) : IO string :=
  product_id <- read_optional_text (path // "idProduct") ;;
  match dget (py_lower product_id) KNOWN_D400_PRODUCTS with
  | Some known => ret known
  | None =>
      product <- read_optional_text (path // "product") ;;
      match filter (λ model, py_contains (py_lower model) (py_lower product))
              ["D455"; "D435"; "D415"] with
      | model :: _ => ret model
      | [] => ret (str_or product "unknown")
      end
  end.

Definition upstream_hub_name (usb_device : string) : string :=
  if negb (in_string "."%char usb_device) then "direct:" +:+ usb_device
  else py_rsplit1_head "."%char usb_device.

(** The name of the first of [path] and its parents that is an xHCI
    controller. *)
Definition xhci_name (path : string) : string :=
  match filter (λ n, py_startswith "xhci-hcd." n)
          (map path_name (path :: path_parents path)) with
  | n :: _ => n
  | [] => ""
  end.

Definition device_record (path : string) : IO pydict :=
  resolved <- sys (Resolve path) ;;
  usb_descriptor_serial <- read_optional_text (path // "serial") ;;
  vendor_id <- read_optional_text (path // "idVendor") ;;
  product_id <- read_optional_text (path // "idProduct") ;;
  manufacturer <- read_optional_text (path // "manufacturer") ;;
  product <- read_optional_text (path // "product") ;;
  model <- model_from_device path ;;
  speed <- read_optional_text (path // "speed") ;;
  control <- read_optional_text (path // "power" // "control") ;;
  runtime <- read_optional_text (path // "power" // "runtime_status") ;;
  ret [ ("usb_device", VStr (path_name path));
         ("sysfs_path", VStr path);
         ("resolved_sysfs_path", VStr resolved);
         ("vendor_id", VStr (py_lower vendor_id));
         ("product_id", VStr (py_lower product_id));
         ("manufacturer", VStr manufacturer);
         ("product", VStr product);
         ("model", VStr model);
         ("serial", VStr usb_descriptor_serial);
         ("usb_descriptor_serial", VStr usb_descriptor_serial);
         ("speed_mbps", VStr speed);
         ("power_control", VStr control);
         ("runtime_status", VStr runtime);
         ("upstream_hub", VStr (upstream_hub_name (path_name path)));
         ("xhci_controller", VStr (xhci_name resolved)) ].

(** The loop of [discover_realsense_devices] and of
    [_connected_realsense_devices]: the directories that are cameras, in
    sorted order. *)
Definition camera_dirs (usb_sysfs_base : string) : IO (list string) :=
  paths <- sys (Glob usb_sysfs_base "*") ;;
  fold_each (sorted_strings paths) [] (λ devices path,
    d <- sys (IsDir path) ;;
    if negb d then ret devices else
    c <- is_realsense_video_device path ;;
    ret (if c then devices ++ [path] else devices)).

Definition discover_realsense_devices (usb_sysfs_base : string) : IO (list pydict) :=
  paths <- sys (Glob usb_sysfs_base "*") ;;
  fold_each (sorted_strings paths) [] (λ devices path,
    d <- sys (IsDir path) ;;
    if negb d then ret devices else
    c <- is_realsense_video_device path ;;
    if negb c then ret devices else
    r <- device_record path ;;
    ret (devices ++ [r])).

Definition devices_by_serial (devices : list pydict) : list (string * pydict) :=
  foldl (λ result device,
    let serial := str_val (dgetd "serial" (VStr "") device) in
    if bool_decide (serial = "") then result else dset serial device result) [] devices.

(** Reading sysfs leaves the caller's attributes alone. *)
Lemma keeps_read_optional_text p : keeps (read_optional_text p).
Proof. unfold read_optional_text. solve_keeps. Qed.
Lemma keeps_is_realsense p : keeps (is_realsense_video_device p).
Proof.
  unfold is_realsense_video_device. pose proof keeps_read_optional_text. solve_keeps.
Qed.
Lemma keeps_model p : keeps (model_from_device p).
Proof. unfold model_from_device. pose proof keeps_read_optional_text. solve_keeps. Qed.
Lemma keeps_device_record p : keeps (device_record p).
Proof.
  unfold device_record. pose proof keeps_read_optional_text. pose proof keeps_model. solve_keeps.
Qed.
Lemma keeps_camera_dirs b : keeps (camera_dirs b).
Proof. unfold camera_dirs. pose proof keeps_is_realsense. solve_keeps. Qed.
Lemma keeps_discover b : keeps (discover_realsense_devices b).
Proof.
  unfold discover_realsense_devices. pose proof keeps_is_realsense.
  pose proof keeps_device_record. solve_keeps.
Qed.
End devices.

#[export] Hint Resolve keeps_read_optional_text keeps_is_realsense keeps_camera_dirs
  keeps_discover : keeps.

Example hub_examples :
  (upstream_hub_name "3-1", upstream_hub_name "4-2.1.3") = ("direct:3-1", "4-2.1").
Proof. vm_compute. reflexivity. Qed.
