(* ===== verification/CpuIsolation.v ===== *)
(** * CPU isolation ([cpu_isolation.py], class [CpuIsolation])

    The campaign's cpuset partition and the pinning of the camera xHCI
    interrupts: the attributes of the class, every method, and the properties
    of [prepare], [verify] and [restore].  The record of the attributes is
    [CpuIsolation]; a method is a computation on it and the machine. *)
From Stdlib Require Import Ascii ZArith Lia.
From S2P Require Import Prelude PyStr PyFloat PyVal Effects CpuList Devices.
From stdpp Require Import base gmap strings list sorting.
Local Open Scope Z_scope.
Local Open Scope py_scope.
Local Open Scope M_scope.

Record CpuIsolationConfig := {
  enabled : bool;
  housekeeping_cpus : string;
  benchmark_cpus : string;
  use_sudo : bool;
  repo_root : string;
  cgroup_root : string;
  cpu_online_path : string;
  proc_root : string;
  usb_sysfs_base : string;
}.

(** The attributes; [_original_irq_affinities] is a dictionary keyed by IRQ. *)
Record CpuIsolation := {
  active : bool;
  controller_enabled_by_us : bool;
  cgroup_created : bool;
  process_moved : bool;
  cgroup_path : option string;
  original_cgroup_path : option string;
  original_irq_affinities : list (Z * string);
  state : pydict;
}.

Definition set_active b s := {| active := b; controller_enabled_by_us := controller_enabled_by_us s;
  cgroup_created := cgroup_created s; process_moved := process_moved s; cgroup_path := cgroup_path s;
  original_cgroup_path := original_cgroup_path s;
  original_irq_affinities := original_irq_affinities s; state := state s |}.
Definition set_controller b s := {| active := active s; controller_enabled_by_us := b;
  cgroup_created := cgroup_created s; process_moved := process_moved s; cgroup_path := cgroup_path s;
  original_cgroup_path := original_cgroup_path s;
  original_irq_affinities := original_irq_affinities s; state := state s |}.
Definition set_created b s := {| active := active s;
  controller_enabled_by_us := controller_enabled_by_us s;
  cgroup_created := b; process_moved := process_moved s; cgroup_path := cgroup_path s;
  original_cgroup_path := original_cgroup_path s;
  original_irq_affinities := original_irq_affinities s; state := state s |}.
Definition set_moved b s := {| active := active s;
  controller_enabled_by_us := controller_enabled_by_us s;
  cgroup_created := cgroup_created s; process_moved := b; cgroup_path := cgroup_path s;
  original_cgroup_path := original_cgroup_path s;
  original_irq_affinities := original_irq_affinities s; state := state s |}.
Definition set_paths p o s := {| active := active s;
  controller_enabled_by_us := controller_enabled_by_us s;
  cgroup_created := cgroup_created s; process_moved := process_moved s; cgroup_path := p;
  original_cgroup_path := o;
  original_irq_affinities := original_irq_affinities s; state := state s |}.
Definition set_irqs l s := {| active := active s;
  controller_enabled_by_us := controller_enabled_by_us s;
  cgroup_created := cgroup_created s; process_moved := process_moved s; cgroup_path := cgroup_path s;
  original_cgroup_path := original_cgroup_path s;
  original_irq_affinities := l; state := state s |}.
Definition set_state d s := {| active := active s;
  controller_enabled_by_us := controller_enabled_by_us s;
  cgroup_created := cgroup_created s; process_moved := process_moved s; cgroup_path := cgroup_path s;
  original_cgroup_path := original_cgroup_path s;
  original_irq_affinities := original_irq_affinities s; state := d |}.

(** ** Text matching *)

(** [re.match(r"^\s*(\d+):", line)]: the number. *)
Definition match_irq_line (line : string) : option Z :=
  let '(d, r) := span_digits (lstrip_by py_isspace line) in
  match r with
  | String a _ => if bool_decide (a = ":"%char ∧ d ≠ "") then int_of_string d else None
  | EmptyString => None
  end.

(** [re.findall(r"xhci-hcd:(usb\d+)", line)]. *)
Fixpoint find_xhci_actions (fuel : nat) (line : string) : list string :=
  match fuel with
  | O => []
  | S fuel =>
      match line with
      | EmptyString => []
      | String _ rest =>
          if py_startswith "xhci-hcd:usb" line then
            let '(d, r) := span_digits (py_drop 12 line) in
            if bool_decide (d = "") then find_xhci_actions fuel rest
            else ("usb" +:+ d) :: find_xhci_actions fuel r
          else find_xhci_actions fuel rest
      end
  end.
Definition findall_xhci (line : string) : list string :=
  find_xhci_actions (Datatypes.S (String.length line)) line.

(** [re.fullmatch(r"usb\d+", name)]. *)
Definition is_root_hub_name (name : string) : bool :=
  py_startswith "usb" name && py_isdigit (py_drop 3 name).

(** [int(record["irq"])]. *)
Definition irq_of (record : pydict) : outcome Z := v ← subscript record "irq"; py_int v.

Definition policy_names : list (Z * string) :=
  [(0, "SCHED_OTHER"); (1, "SCHED_FIFO"); (2, "SCHED_RR"); (3, "SCHED_BATCH");
   (5, "SCHED_IDLE"); (6, "SCHED_DEADLINE")].

(** Replaces the element [i] of a list (of the record list of the state). *)
Definition CGROUP_FILES : list string :=
  ["cgroup.controllers"; "cgroup.subtree_control"; "cgroup.procs"; "cpuset.cpus.effective";
   "cpuset.cpus.isolated"; "cpuset.mems.effective"].

Definition initial (config : CpuIsolationConfig) : CpuIsolation := {|
  active := false; controller_enabled_by_us := false; cgroup_created := false;
  process_moved := false; cgroup_path := None; original_cgroup_path := None;
  original_irq_affinities := [];
  state := [("enabled", VBool (enabled config)); ("active", VBool false);
            ("housekeeping_cpus", VStr (housekeeping_cpus config));
            ("benchmark_cpus", VStr (benchmark_cpus config)); ("xhci_irqs", VList [])] |}.

Section methods.
Context {W : Type} `{OS W} (config : CpuIsolationConfig).
Abbreviation IO := (M (CpuIsolation * world W)).

Definition privileged (command : list string) : list string :=
  if use_sudo config then ["sudo"; "--non-interactive"] ++ command else command.

Definition read (path : string) : IO string :=
  t <- sys (ReadText path) ;; ret (py_strip t).

Definition failure_detail (c : completed) : string :=
  str_or (str_or (py_strip (stderr c)) (py_strip (stdout c)))
         ("status " +:+ str_Z (returncode c)).

Definition run_privileged (command : list string) : IO unit :=
  c <- sys (RunCommand (privileged command) None None) ;;
  when (negb (bool_decide (returncode c = 0)))
    (throw RuntimeError (py_join " " command +:+ " failed: " +:+ failure_detail c)).

Definition write (path value : string) : IO unit :=
  c <- sys (RunCommand (privileged ["tee"; path]) (Some (value +:+ nl)) None) ;;
  when (negb (bool_decide (returncode c = 0)))
    (throw RuntimeError ("failed to write " +:+ path +:+ "=" +:+ value +:+ ": "
                         +:+ failure_detail c)).

(** The first line [0::<path>] of /proc/self/cgroup. *)
Fixpoint cgroup_v2_path (lines : list string) : option string :=
  match lines with
  | [] => None
  | line :: lines =>
      match py_split_max ":"%char 2 line with
      | [f0; f1; f2] =>
          if bool_decide (f0 = "0" ∧ f1 = "") then Some (py_lstrip_char "/"%char f2)
          else cgroup_v2_path lines
      | _ => cgroup_v2_path lines
      end
  end.

Definition current_process_cgroup : IO string :=
  cgroup_text <- read (proc_root config // "self" // "cgroup") ;;
  match cgroup_v2_path (py_splitlines cgroup_text) with
  | Some relative => ret (cgroup_root config // relative)
  | None => throw RuntimeError "the current process is not in a cgroup-v2 hierarchy"
  end.

Definition connected_realsense_devices : IO (list string) := camera_dirs (usb_sysfs_base config).

(** The inner loop over the actions of one interrupt line. *)
Definition add_actions (irq : Z) (actions : list (string * Z)) (found : list string) :
    outcome (list (string * Z)) :=
  fold_outcome (λ actions action,
    match dget action actions with
    | Some irq' =>
        if bool_decide (irq' = irq) then Ok (dset action irq actions)
        else raise RuntimeError ("xHCI action " +:+ action +:+ " maps to multiple IRQs")
    | None => Ok (dset action irq actions)
    end) actions found.

Definition parse_interrupts (text : string) : outcome (list (string * Z)) :=
  fold_outcome (λ actions line,
    match match_irq_line line with
    | None => Ok actions
    | Some irq => add_actions irq actions (findall_xhci line)
    end) [] (py_splitlines text).

Definition interrupt_actions : IO (list (string * Z)) :=
  text <- read (proc_root config // "interrupts") ;;
  lift (parse_interrupts text).

(** [repr] of the list of matched (bus, irq) pairs. *)
Definition repr_matches (l : list (string * Z)) : string :=
  "[" +:+ py_join ", " (map (λ m, "(" +:+ py_repr m.1 +:+ ", " +:+ str_Z m.2 +:+ ")") l) +:+ "]".

Definition new_irq_record (irq : Z) (bus controller : string) : pydict :=
  [("irq", VInt irq); ("action", VStr ("xhci-hcd:" +:+ bus));
   ("controller", VStr controller); ("usb_devices", VList [])].

(** [record["usb_devices"].append(name)]. *)
Definition append_device (name : string) (record : pydict) : pydict :=
  match dget "usb_devices" record with
  | Some (VList l) => dset "usb_devices" (VList (l ++ [VStr name])) record
  | _ => record
  end.

Definition discover_one (actions : list (string * Z)) (by_irq : list (Z * pydict))
    (device : string) : IO (list (Z * pydict)) :=
  resolved <- sys (Resolve device) ;;
  match filter (λ p, py_startswith "xhci-hcd." (path_name p)) (resolved :: path_parents resolved)
  with
  | [] => throw RuntimeError ("cannot find the xHCI controller for " +:+ path_name device
                              +:+ ": " +:+ resolved)
  | controller :: _ =>
      children <- sys (Glob controller "usb*") ;;
      hubs <- fold_each children [] (λ hubs child,
        d <- sys (IsDir child) ;;
        ret (if d && is_root_hub_name (path_name child) then hubs ++ [path_name child] else hubs)) ;;
      let matches := omap (λ bus, (λ irq, (bus, irq)) <$> dget bus actions) (sorted_strings hubs) in
      match matches with
      | [(bus, irq)] =>
          let record := match zget irq by_irq with
                        | Some r => r
                        | None => new_irq_record irq bus controller
                        end in
          ret (zset irq (append_device (path_name device) record) by_irq)
      | _ => throw RuntimeError ("expected one xHCI IRQ for " +:+ path_name device +:+ " via "
               +:+ controller +:+ ", found " +:+ repr_matches matches)
      end
  end.

(** [sorted(by_irq)]. *)
Definition sorted_by_irq (by_irq : list (Z * pydict)) : list (Z * pydict) :=
  sort_on fst by_irq.

Definition discover_camera_xhci_irqs : IO (list pydict) :=
  devices <- connected_realsense_devices ;;
  match devices with
  | [] => throw RuntimeError "CPU isolation requires at least one connected RealSense camera"
  | _ =>
      actions <- interrupt_actions ;;
      by_irq <- fold_each devices [] (discover_one actions) ;;
      ret (map snd (sorted_by_irq by_irq))
  end.

(** The scheduling attributes of one process; [(-1, -1, empty)] when they
    cannot be read. *)
Definition sched_attributes (pid : Z) : IO (Z * Z * gset Z) :=
  try_except is_OSError
    (policy <- sys (SchedGetScheduler pid) ;;
     priority <- sys (SchedGetPriority pid) ;;
     affinity <- sys (SchedGetAffinity pid) ;;
     ret (policy, priority, affinity))
    (λ _, ret (-1, -1, ∅)).

Fixpoint irq_thread_scan (prefix : string) (processes : list string) : IO pydict :=
  match processes with
  | [] => ret []
  | process :: processes =>
      if negb (py_isdigit (path_name process)) then irq_thread_scan prefix processes else
      name <- try_except is_OSError (t <- read (process // "comm") ;; ret (Some t))
                (λ _, ret None) ;;
      match name with
      | None => irq_thread_scan prefix processes
      | Some name =>
          if negb (py_startswith prefix name) then irq_thread_scan prefix processes else
          match int_of_string (path_name process) with
          | None => lift (raise ValueError "invalid literal for int() with base 10")
          | Some pid =>
              attrs <- sched_attributes pid ;;
              let '(policy_id, priority, affinity) := attrs in
              ret [("pid", VInt pid); ("name", VStr name);
                   ("policy", VStr (match zget policy_id policy_names with
                                    | Some n => n | None => str_Z policy_id end));
                   ("priority", VInt priority);
                   ("affinity", VStr (format_cpu_list affinity))]
          end
      end
  end.

Definition irq_thread_state (irq : Z) : IO pydict :=
  processes <- sys (Glob (proc_root config) "[0-9]*") ;;
  irq_thread_scan ("irq/" +:+ str_Z irq +:+ "-") processes.

(** ** [validate_environment] *)

Definition overlap_checks (housekeeping benchmark online : gset Z) : outcome unit :=
  if bool_decide (housekeeping = ∅ ∨ benchmark = ∅) then
    raise RuntimeError "CPU isolation requires two non-empty CPU sets"
  else if bool_decide (housekeeping ∩ benchmark ≠ ∅) then
    raise RuntimeError "housekeeping and benchmark CPU sets overlap"
  else if bool_decide (housekeeping ∪ benchmark ≠ online) then
    raise RuntimeError ("housekeeping and benchmark CPU sets must exactly partition online CPUs "
                        +:+ format_cpu_list online)
  else Ok ().

Definition validate_environment : IO unit :=
  if negb (enabled config) then ret () else
  housekeeping <- lift (parse_cpu_list (housekeeping_cpus config)) ;;
  benchmark <- lift (parse_cpu_list (benchmark_cpus config)) ;;
  online_text <- read (cpu_online_path config) ;;
  online <- lift (parse_cpu_list online_text) ;;
  lift (overlap_checks housekeeping benchmark online) ;;
  let root := cgroup_root config in
  missing <- fold_each (map (pjoin root) CGROUP_FILES) [] (λ missing path,
    f <- sys (IsFile path) ;; ret (if (f : bool) then missing else missing ++ [path])) ;;
  when (negb (bool_decide (missing = [])))
    (throw RuntimeError ("cgroup-v2 cpuset support is unavailable: " +:+ py_join ", " missing)) ;;
  controllers <- read (root // "cgroup.controllers") ;;
  when (negb (bool_decide ("cpuset" ∈ py_words controllers)))
    (throw RuntimeError "the cgroup-v2 cpuset controller is unavailable") ;;
  isolated <- read (root // "cpuset.cpus.isolated") ;;
  when (negb (bool_decide (isolated = "")))
    (throw RuntimeError "an existing isolated cpuset partition is already active") ;;
  current_process_cgroup ;;
  discover_camera_xhci_irqs ;;
  ret ().

(** ** [verify] *)

Definition irq_affinity_path (irq : Z) : string :=
  proc_root config // "irq" // str_Z irq // "smp_affinity_list".

(** [self._state["xhci_irqs"]], the list whose records the loop mutates. *)
Definition state_irqs (s : CpuIsolation) : list pyval :=
  match dget "xhci_irqs" (state s) with Some (VList l) => l | _ => [] end.
Definition set_state_irq (i : nat) (record : pydict) (s : CpuIsolation) : CpuIsolation :=
  set_state (dset "xhci_irqs" (VList (<[i := VDict record]> (state_irqs s))) (state s)) s.

(** One record of the loop of [verify]: the errors it adds. *)
Definition verify_irq (housekeeping : string) (errors : list string) (ir : nat * pyval) :
    IO (list string) :=
  record <- lift (as_dict ir.2) ;;
  irq <- lift (irq_of record) ;;
  affinity <- read (irq_affinity_path irq) ;;
  let record := dset "effective_affinity" (VStr affinity) record in
  set_self (set_state_irq ir.1 record) ;;
  thread <- irq_thread_state irq ;;
  set_self (set_state_irq ir.1 (dset "thread" (VDict thread) record)) ;;
  a <- lift (parse_cpu_list affinity) ;;
  h <- lift (parse_cpu_list housekeeping) ;;
  ret (if bool_decide (a = h) then errors
       else errors ++ ["IRQ " +:+ str_Z irq +:+ " affinity=" +:+ affinity
                       +:+ ", expected " +:+ housekeeping]).

Definition compare_cpus (errors : list string) (kv : string * string * string) :
    outcome (list string) :=
  let '(key, actual, expected) := kv in
  a ← parse_cpu_list actual;
  e ← parse_cpu_list expected;
  mret (if bool_decide (a = e) then errors
        else errors ++ [key +:+ "=" +:+ actual +:+ ", expected " +:+ expected]).

Definition canonical_cpus (text : string) : IO string :=
  cpus <- lift (parse_cpu_list text) ;; ret (format_cpu_list cpus).

Definition raise_errors (prefix : string) (errors : list string) : IO unit :=
  when (negb (bool_decide (errors = [])))
    (throw RuntimeError (prefix +:+ py_join " | " errors)).

Definition verify (output : option string) : IO pydict :=
  if negb (enabled config) then self state else
  act <- self active ;;
  path <- self cgroup_path ;;
  match path with
  | Some path =>
      if negb act then throw RuntimeError "the configured CPU isolation is not active" else
      let root := cgroup_root config in
      benchmark <- canonical_cpus (benchmark_cpus config) ;;
      housekeeping <- canonical_cpus (housekeeping_cpus config) ;;
      root_effective <- read (root // "cpuset.cpus.effective") ;;
      benchmark_effective <- read (path // "cpuset.cpus.effective") ;;
      isolated <- read (root // "cpuset.cpus.isolated") ;;
      own <- sys (SchedGetAffinity 0) ;;
      let affinity := format_cpu_list own in
      errors <- lift (fold_outcome compare_cpus []
        [("root_effective_cpus", root_effective, housekeeping);
         ("benchmark_effective_cpus", benchmark_effective, benchmark);
         ("isolated_cpus", isolated, benchmark);
         ("process_affinity", affinity, benchmark)]) ;;
      records <- self state_irqs ;;
      errors <- fold_each (imap pair records) errors (verify_irq housekeeping) ;;
      set_self (λ s, set_state (dset "verified" (VBool (bool_decide (errors = [])))
        (dupdate (state s)
           [("root_effective_cpus", VStr root_effective);
            ("benchmark_effective_cpus", VStr benchmark_effective);
            ("isolated_cpus", VStr isolated);
            ("process_affinity", VStr affinity)])) s) ;;
      st <- self state ;;
      match output with
      | Some output => sys (WriteJson output (VDict st))
      | None => ret ()
      end ;;
      raise_errors "CPU isolation verification failed: " errors ;;
      self state
  | None => throw RuntimeError "the configured CPU isolation is not active"
  end.

(** ** [restore] *)

(** [try: m except Exception as error: errors.append(f"{label}: {error}")]. *)
Definition collect (label : string) (m : IO unit) (errors : list string) : IO (list string) :=
  try_except is_Exception (m ;; ret errors)
    (λ e, ret (errors ++ [label +:+ ": " +:+ exn_msg e])).

Definition touched (s : CpuIsolation) : bool :=
  active s || controller_enabled_by_us s || cgroup_created s || process_moved s
  || negb (bool_decide (original_irq_affinities s = [])).

Definition restore_process (errors : list string) : IO (list string) :=
  moved <- self process_moved ;;
  if negb moved then ret errors else
  original <- self original_cgroup_path ;;
  let target := match original with Some p => p | None => cgroup_root config end in
  collect "restore process cgroup"
    (pid <- sys GetPid ;;
     write (target // "cgroup.procs") (str_Z pid) ;;
     set_self (set_moved false)) errors.

Definition restore_irq (errors : list string) (ia : Z * string) : IO (list string) :=
  collect ("restore IRQ " +:+ str_Z ia.1 +:+ " affinity")
    (write (irq_affinity_path ia.1) ia.2) errors.

Definition restore_cgroup (errors : list string) : IO (list string) :=
  created <- self cgroup_created ;;
  path <- self cgroup_path ;;
  match path with
  | Some path =>
      if negb created then ret errors else
      collect "remove benchmark cpuset"
        (write (path // "cpuset.cpus.partition") "member" ;;
         run_privileged ["rmdir"; path] ;;
         set_self (set_created false)) errors
  | None => ret errors
  end.

Definition restore_controller (errors : list string) : IO (list string) :=
  enabled_by_us <- self controller_enabled_by_us ;;
  if negb enabled_by_us then ret errors else
  collect "disable cpuset controller"
    (write (cgroup_root config // "cgroup.subtree_control") "-cpuset" ;;
     set_self (set_controller false)) errors.

Definition restore : IO unit :=
  t <- self touched ;;
  if negb t then ret () else
  errors <- restore_process [] ;;
  originals <- self original_irq_affinities ;;
  errors <- fold_each originals errors restore_irq ;;
  set_self (set_irqs []) ;;
  errors <- restore_cgroup errors ;;
  errors <- restore_controller errors ;;
  set_self (set_active false) ;;
  set_self (λ s, set_state (dset "active" (VBool false) (state s)) s) ;;
  raise_errors "" errors.

(** ** [prepare] *)

(** The loop over the IRQ records: pins one interrupt. *)
Definition pin_irq (housekeeping : string) (records : list pydict) (record : pydict) :
    IO (list pydict) :=
  irq <- lift (irq_of record) ;;
  let path := irq_affinity_path irq in
  original <- read path ;;
  set_self (λ s, set_irqs (zset irq original (original_irq_affinities s)) s) ;;
  write path housekeeping ;;
  effective <- read path ;;
  thread <- irq_thread_state irq ;;
  ret (records ++ [dset "thread" (VDict thread)
                     (dset "effective_affinity" (VStr effective)
                        (dset "original_affinity" (VStr original) record))]).

Definition check_cpus (errors : list string) (kv : string * string * string) :
    outcome (list string) :=
  let '(label, actual, expected) := kv in
  a ← parse_cpu_list actual;
  e ← parse_cpu_list expected;
  mret (if bool_decide (a = e) then errors else errors ++ [label +:+ "=" +:+ actual]).

(** The body of the [try] of [prepare]. *)
Definition prepare_body (record_dir cgroup : string) (subtree : list string)
    (irq_records : list pydict) (housekeeping benchmark : string) : IO pydict :=
  let root := cgroup_root config in
  when (negb (bool_decide ("cpuset" ∈ subtree)))
    (write (root // "cgroup.subtree_control") "+cpuset" ;;
     set_self (set_controller true)) ;;
  run_privileged ["mkdir"; cgroup] ;;
  set_self (set_created true) ;;
  mems <- read (root // "cpuset.mems.effective") ;;
  write (cgroup // "cpuset.mems") mems ;;
  write (cgroup // "cpuset.cpus") benchmark ;;
  write (cgroup // "cpuset.cpus.partition") "isolated" ;;
  irq_records <- fold_each irq_records [] (pin_irq housekeeping) ;;
  pid <- sys GetPid ;;
  write (cgroup // "cgroup.procs") (str_Z pid) ;;
  set_self (set_moved true) ;;
  effective_benchmark <- read (cgroup // "cpuset.cpus.effective") ;;
  effective_root <- read (root // "cpuset.cpus.effective") ;;
  isolated <- read (root // "cpuset.cpus.isolated") ;;
  own <- sys (SchedGetAffinity 0) ;;
  let process_affinity := format_cpu_list own in
  errors <- lift (fold_outcome check_cpus []
    [("benchmark effective CPUs", effective_benchmark, benchmark);
     ("root effective CPUs", effective_root, housekeeping);
     ("isolated CPUs", isolated, benchmark);
     ("process affinity", process_affinity, benchmark)]) ;;
  raise_errors "CPU isolation verification failed: " errors ;;
  set_self (set_active true) ;;
  original <- self original_cgroup_path ;;
  set_self (set_state
    [("enabled", VBool true); ("active", VBool true); ("cgroup", VStr cgroup);
     ("original_cgroup", VStr (match original with Some p => p | None => "None" end));
     ("housekeeping_cpus", VStr housekeeping); ("benchmark_cpus", VStr benchmark);
     ("root_effective_cpus", VStr effective_root);
     ("benchmark_effective_cpus", VStr effective_benchmark);
     ("isolated_cpus", VStr isolated); ("process_affinity", VStr process_affinity);
     ("xhci_irqs", VList (map VDict irq_records))]) ;;
  verify None ;;
  sys (Mkdir record_dir true) ;;
  st <- self state ;;
  sys (WriteJson (record_dir // "cpu_isolation_campaign.json") (VDict st)) ;;
  self state.

Definition prepare (record_dir : string) : IO pydict :=
  if negb (enabled config) then self state else
  act <- self active ;;
  if (act : bool) then self state else
  validate_environment ;;
  let root := cgroup_root config in
  pid <- sys GetPid ;;
  let cgroup := root // ("rs-camera-benchmark-" +:+ str_Z pid) in
  exists_ <- sys (PathExists cgroup) ;;
  if (exists_ : bool)
  then throw RuntimeError ("benchmark cpuset already exists: " +:+ cgroup) else
  old <- self original_cgroup_path ;;
  set_self (set_paths (Some cgroup) old) ;;
  original <- current_process_cgroup ;;
  set_self (set_paths (Some cgroup) (Some original)) ;;
  subtree <- read (root // "cgroup.subtree_control") ;;
  irq_records <- discover_camera_xhci_irqs ;;
  housekeeping <- canonical_cpus (housekeeping_cpus config) ;;
  benchmark <- canonical_cpus (benchmark_cpus config) ;;
  try_except is_Exception
    (prepare_body record_dir cgroup (py_words subtree) irq_records housekeeping benchmark)
    (λ e,
      try_except is_Exception restore
        (λ cleanup_error, throw RuntimeError
           ("CPU isolation setup failed and cleanup also failed: " +:+ exn_msg cleanup_error)) ;;
      rethrow e).
End methods.

(** ** What the helpers leave alone *)

Section facts.
Context {W : Type} `{OS W} (config : CpuIsolationConfig).
Implicit Types s : CpuIsolation.
Implicit Types w : world W.

Lemma keeps_read p : keeps (read p).
Proof. unfold read. solve_keeps. Qed.
Lemma keeps_run_privileged c : keeps (run_privileged config c).
Proof. unfold run_privileged. solve_keeps. Qed.
Lemma keeps_write p v : keeps (write config p v).
Proof. unfold write. solve_keeps. Qed.
#[local] Hint Resolve keeps_read keeps_run_privileged keeps_write : keeps.
Lemma keeps_current_process_cgroup : keeps (current_process_cgroup config).
Proof. unfold current_process_cgroup. solve_keeps. Qed.
Lemma keeps_discover_one actions b d : keeps (discover_one actions b d).
Proof. unfold discover_one. solve_keeps. Qed.
Lemma keeps_discover_irqs : keeps (discover_camera_xhci_irqs config).
Proof.
  unfold discover_camera_xhci_irqs, interrupt_actions, connected_realsense_devices.
  pose proof keeps_discover_one. solve_keeps.
Qed.
Lemma keeps_irq_thread_scan prefix l : keeps (irq_thread_scan prefix l).
Proof. induction l; simpl; unfold sched_attributes; solve_keeps. Qed.
Lemma keeps_irq_thread_state irq : keeps (irq_thread_state config irq).
Proof. unfold irq_thread_state. pose proof keeps_irq_thread_scan. solve_keeps. Qed.
Lemma keeps_canonical_cpus t : keeps (canonical_cpus (W := W) t).
Proof. unfold canonical_cpus. solve_keeps. Qed.
Lemma keeps_raise_errors p l : keeps (raise_errors (W := W) p l).
Proof. unfold raise_errors. solve_keeps. Qed.
#[local] Hint Resolve keeps_current_process_cgroup keeps_discover_irqs keeps_irq_thread_state
  keeps_canonical_cpus keeps_raise_errors : keeps.
Lemma keeps_validate_environment : keeps (validate_environment config).
Proof. unfold validate_environment. solve_keeps. Qed.

(** The attributes other than the reported state. *)
Definition flags s :=
  (active s, controller_enabled_by_us s, cgroup_created s, process_moved s, cgroup_path s,
   original_cgroup_path s, original_irq_affinities s).

(** [verify] changes the reported state only. *)
Lemma preserves_verify f output : preserves (λ s, flags s = f) (verify config output).
Proof. unfold verify, verify_irq. solve_preserves; done. Qed.

(** ** [restore] *)

(** A created cpuset has a path. *)
Definition wf s : Prop := cgroup_created s = true → is_Some (cgroup_path s).
(** Nothing to restore. *)
Definition clean s : Prop :=
  active s = false ∧ controller_enabled_by_us s = false ∧ cgroup_created s = false ∧
  process_moved s = false ∧ original_irq_affinities s = [].

Lemma touched_clean s : touched s = false ↔ clean s.
Proof.
  unfold touched, clean. rewrite !orb_false_iff, negb_false_iff, bool_decide_eq_true. tauto.
Qed.

(** A collected step either returns, or adds one error. *)
Lemma wp_collect label (m : M (CpuIsolation * world W) unit) errors Q E s w :
  wp m (λ _, Q errors)
    (λ e sw, if is_Exception e then Q (errors ++ [label +:+ ": " +:+ exn_msg e]) sw else E e sw)
    (s, w) →
  wp (collect label m errors) Q E (s, w).
Proof.
  intros Hm. unfold collect. apply wp_try, wp_bind.
  eapply wp_conseq; [exact Hm|by intros [] ?|]. intros e sw; cbv beta; destruct (is_Exception e); [|done].
  intros He. by apply wp_ret.
Qed.

Lemma restore_process_spec errors s w :
  wp (restore_process config errors)
    (λ errs sw, ∃ l, errs = errors ++ l ∧
       sw.1 = set_moved (process_moved s && negb (bool_decide (l = []))) s)
    (λ e _, is_Exception e = false) (s, w).
Proof.
  unfold restore_process. apply wp_bind, wp_self. destruct (process_moved s) eqn:Hm; simpl.
  - apply wp_bind, wp_self, wp_collect, wp_bind, wp_keeps; [apply keeps_sys| |].
    + intros pid w1. apply wp_bind, wp_keeps; [apply keeps_write| |].
      * intros _ w2. apply wp_set_self. exists []. by rewrite app_nil_r.
      * intros e w2. destruct (is_Exception e) eqn:He; [|done].
        eexists [_]; split; [done|]. simpl. destruct s; simpl in *; by subst.
    + intros e w2. destruct (is_Exception e) eqn:He; [|done].
      eexists [_]; split; [done|]. simpl. destruct s; simpl in *; by subst.
  - apply wp_ret. exists []. rewrite app_nil_r. split; [done|]. destruct s; simpl in *; by subst.
Qed.

(** The three collected steps that act through [write] only. *)
Lemma restore_irq_spec errors ia s w :
  wp (restore_irq config errors ia) (λ errs sw, ∃ l, errs = errors ++ l ∧ sw.1 = s)
    (λ e sw, is_Exception e = false) (s, w).
Proof.
  unfold restore_irq. apply wp_collect, wp_keeps; [apply keeps_write| |].
  - intros _ w'. exists []. by rewrite app_nil_r.
  - intros e w'. destruct (is_Exception e) eqn:He; [|done]. by eexists [_].
Qed.

Lemma restore_irqs_spec l errors s w :
  wp (fold_each l errors (restore_irq config)) (λ errs sw, ∃ l, errs = errors ++ l ∧ sw.1 = s)
    (λ e sw, is_Exception e = false) (s, w).
Proof.
  revert errors w. induction l as [|ia l IH]; intros errors w; simpl.
  { apply wp_ret. exists []. by rewrite app_nil_r. }
  apply wp_bind. eapply wp_conseq; [apply restore_irq_spec| |done].
  intros errs [s' w'] (l1 & -> & Hs). simpl in Hs; subst s'.
  eapply wp_conseq; [apply IH| |done].
  intros errs' sw (l2 & -> & Hs). exists (l1 ++ l2). by rewrite app_assoc.
Qed.

Lemma restore_cgroup_spec errors s w :
  wf s →
  wp (restore_cgroup config errors)
    (λ errs sw, ∃ l, errs = errors ++ l ∧
       sw.1 = set_created (cgroup_created s && negb (bool_decide (l = []))) s)
    (λ e _, is_Exception e = false) (s, w).
Proof.
  intros Hwf. unfold restore_cgroup. apply wp_bind, wp_self, wp_bind, wp_self.
  destruct (cgroup_created s) eqn:Hc.
  - destruct (cgroup_path s) as [p|] eqn:Hp; [simpl|destruct (Hwf Hc); congruence].
    assert (∀ e w', is_Exception e = true → ∃ l0,
      errors ++ ["remove benchmark cpuset" +:+ ": " +:+ exn_msg e] = errors ++ l0 ∧
      (s, w').1 = set_created (true && negb (bool_decide (l0 = []))) s) as Hcase.
    { intros e w' _. eexists [_]; split; [done|]. destruct s; simpl in *; by subst. }
    apply wp_collect, wp_bind, wp_keeps; [apply keeps_write| |].
    + intros _ w1. apply wp_bind, wp_keeps; [apply keeps_run_privileged| |].
      * intros _ w2. apply wp_set_self. exists []. by rewrite app_nil_r.
      * intros e w2. destruct (is_Exception e) eqn:He; [by apply Hcase|done].
    + intros e w1. destruct (is_Exception e) eqn:He; [by apply Hcase|done].
  - assert (wp (ret errors) (λ errs sw, ∃ l, errs = errors ++ l ∧
       sw.1 = set_created (false && negb (bool_decide (l = []))) s)
       (λ e _, is_Exception e = false) (s, w)) as Hret.
    { apply wp_ret. exists []. rewrite app_nil_r. split; [done|]. destruct s; simpl in *; by subst. }
    by destruct (cgroup_path s).
Qed.

Lemma restore_controller_spec errors s w :
  wp (restore_controller config errors)
    (λ errs sw, ∃ l, errs = errors ++ l ∧
       sw.1 = set_controller (controller_enabled_by_us s && negb (bool_decide (l = []))) s)
    (λ e _, is_Exception e = false) (s, w).
Proof.
  unfold restore_controller. apply wp_bind, wp_self.
  destruct (controller_enabled_by_us s) eqn:Hc; simpl.
  - apply wp_collect, wp_bind, wp_keeps; [apply keeps_write| |].
    + intros _ w1. apply wp_set_self. exists []. by rewrite app_nil_r.
    + intros e w1. destruct (is_Exception e) eqn:He; [|done].
      eexists [_]; split; [done|]. destruct s; simpl in *; by subst.
  - apply wp_ret. exists []. rewrite app_nil_r. split; [done|]. destruct s; simpl in *; by subst.
Qed.

Lemma restore_post s w :
  wf s →
  wp (restore config) (λ _ sw, clean sw.1)
    (λ e sw, is_Exception e = false ∨
       exn_type e = RuntimeError ∧ active sw.1 = false ∧ original_irq_affinities sw.1 = [])
    (s, w).
Proof.
  intros Hwf. unfold restore. apply wp_bind, wp_self.
  destruct (touched s) eqn:Ht; simpl; [|by apply wp_ret, touched_clean].
  apply wp_bind. eapply wp_conseq; [apply restore_process_spec| |by left].
  intros errs [s1 w1] (l1 & -> & Hs1). simpl in Hs1; subst s1.
  apply wp_bind, wp_self, wp_bind. eapply wp_conseq; [apply restore_irqs_spec| |by left].
  intros errs [s2 w2] (l2 & -> & Hs2). simpl in Hs2; subst s2.
  apply wp_bind, wp_set_self, wp_bind.
  eapply wp_conseq; [apply restore_cgroup_spec; done| |by left].
  intros errs [s3 w3] (l3 & -> & Hs3). simpl in Hs3; subst s3.
  apply wp_bind. eapply wp_conseq; [apply restore_controller_spec| |by left].
  intros errs [s4 w4] (l4 & -> & Hs4). simpl in Hs4; subst s4.
  apply wp_bind, wp_set_self, wp_bind, wp_set_self.
  unfold raise_errors. apply wp_when; intros Herr; [by apply wp_throw; right|].
  apply negb_false_iff, bool_decide_eq_true in Herr.
  apply app_eq_nil in Herr as [Herr ->]. apply app_eq_nil in Herr as [Herr ->].
  apply app_eq_nil in Herr as [Herr ->]. simpl in Herr; subst l1.
  unfold clean; simpl. by rewrite !andb_false_r.
Qed.
End facts.
