(* ===== verification/CpuIsolationSpec.v ===== *)
(** * What CPU isolation promises

    The properties of [CpuIsolation]: [prepare] is a transaction, [restore]
    attempts every step and reports exactly the failures, and the interrupt
    affinities the campaign found are the ones it leaves. *)
From Stdlib Require Import Ascii ZArith Lia.
From S2P Require Import Prelude PyStr PyFloat PyVal Effects Machine CpuList Devices CpuIsolation.
From stdpp Require Import base gmap strings list sorting.
Local Open Scope Z_scope.
Local Open Scope py_scope.
Local Open Scope M_scope.

#[export] Hint Resolve keeps_read keeps_run_privileged keeps_write keeps_current_process_cgroup
  keeps_discover_irqs keeps_irq_thread_state keeps_canonical_cpus keeps_raise_errors
  keeps_validate_environment : keeps.

(** The message of a failure whose rollback failed too. *)
Definition rollback_failure (e : exn) : Prop :=
  ∃ msg, e = Exn RuntimeError ("CPU isolation setup failed and cleanup also failed: " +:+ msg).

Section transaction.
Context {W : Type} `{OS W} (config : CpuIsolationConfig).
Implicit Types s : CpuIsolation.
Implicit Types w : world W.

Lemma preserves_verify_flags (I : CpuIsolation → Prop) output :
  (∀ s s', flags s' = flags s → I s → I s') → preserves I (verify config output).
Proof.
  intros HI [s w] Hs. pose proof (preserves_verify config (flags s) output (s, w)) as Hv.
  apply (HI s); [by apply Hv|done].
Qed.

Lemma preserves_pin_irq (I : CpuIsolation → Prop) h l r :
  (∀ s l', I s → I (set_irqs l' s)) → preserves I (pin_irq config h l r).
Proof. intros HI. unfold pin_irq. solve_preserves; eauto. Qed.

Ltac solve_body :=
  repeat first
    [ progress solve_preserves
    | intros; apply preserves_verify_flags; unfold flags; intros; simplify_eq/=; congruence
    | intros; apply preserves_pin_irq ]; try done.

Lemma prepare_body_path record_dir cgroup subtree irqs h b :
  preserves (λ s, is_Some (cgroup_path s))
    (prepare_body config record_dir cgroup subtree irqs h b).
Proof. unfold prepare_body. solve_body. Qed.
Lemma prepare_body_created record_dir cgroup subtree irqs h b :
  establishes (λ s, cgroup_created s = true)
    (prepare_body config record_dir cgroup subtree irqs h b).
Proof. unfold prepare_body. solve_establishes solve_body. Qed.
Lemma prepare_body_moved record_dir cgroup subtree irqs h b :
  establishes (λ s, process_moved s = true)
    (prepare_body config record_dir cgroup subtree irqs h b).
Proof. unfold prepare_body. solve_establishes solve_body. Qed.
Lemma prepare_body_active record_dir cgroup subtree irqs h b :
  establishes (λ s, active s = true)
    (prepare_body config record_dir cgroup subtree irqs h b).
Proof. unfold prepare_body. solve_establishes solve_body. Qed.

(** What is guaranteed when [prepare] returns, and when it raises. *)
Definition prepared s : Prop :=
  active s = true ∧ cgroup_created s = true ∧ process_moved s = true.
Definition rolled_back (e : exn) s : Prop :=
  active s = false ∧ original_irq_affinities s = [] ∧ (clean s ∨ rollback_failure e).

Lemma prepare_body_post record_dir cgroup subtree irqs h b s w :
  is_Some (cgroup_path s) →
  wp (prepare_body config record_dir cgroup subtree irqs h b)
    (λ _ sw, prepared sw.1) (λ _ sw, is_Some (cgroup_path sw.1)) (s, w).
Proof.
  intros Hs. eapply wp_conseq.
  - apply wp_and; [apply prepare_body_active|]. apply wp_and; [apply prepare_body_created|].
    apply wp_and; [apply prepare_body_moved|].
    eapply wp_within; [apply (prepare_body_path _ _ _ _ _ _)| |];
      [intros a s' Hs'; exact (Hs' Hs)|intros e s' Hs'; exact (Hs' Hs)].
  - intros a s' (Ha & Hc & Hm & _). by split_and!.
  - by intros e s' (_ & _ & _ & He).
Qed.

Lemma rollback_post e s w :
  is_Exception e = true → is_Some (cgroup_path s) →
  wp (try_except is_Exception (restore config)
        (λ c, throw RuntimeError
           ("CPU isolation setup failed and cleanup also failed: " +:+ exn_msg c)) ;;
      rethrow (A := pydict) e)
    (λ _ _, False) (λ e' sw, is_Exception e' = true → rolled_back e' sw.1) (s, w).
Proof.
  intros He Hs. apply wp_bind, wp_try. eapply wp_conseq; [apply restore_post; by intros _| |].
  - intros _ [s' w'] Hc. apply wp_rethrow. intros _. simpl in Hc.
    unfold rolled_back. split_and!; [apply Hc|apply Hc|by left].
  - intros c [s' w'] [Hc|(Hc & Ha & Hi)].
    + rewrite Hc. congruence.
    + unfold is_Exception, is_class. rewrite Hc. apply wp_throw. intros _.
      split_and!; [done|done|]. right. by eexists.
Qed.

Local Ltac wp_keep :=
  apply wp_bind, wp_keeps; [by eauto with keeps|intros ? ?|by intros ? ? ?; eauto].

Lemma prepare_post record_dir s w :
  clean s →
  wp (prepare config record_dir)
    (λ _ sw, if enabled config then prepared sw.1 else sw.1 = s)
    (λ e sw, is_Exception e = true → rolled_back e sw.1) (s, w).
Proof.
  intros Hc. unfold prepare. destruct (enabled config); [simpl|done].
  assert (∀ e s' w', flags s' = flags s ∨ (∃ p o, s' = set_paths p o s) →
    is_Exception e = true → rolled_back e (s', w' : world W).1) as Hrb.
  { intros e s' w' Hs' _. destruct s, Hc as (?&?&?&?&?).
    destruct Hs' as [Hs'|(p & o & ->)]; [destruct s'; unfold flags in Hs'; simplify_eq/=|].
    all: unfold rolled_back, clean; simpl in *; subst; split_and!; auto; left; done. }
  apply wp_bind, wp_self. destruct Hc as (Ha & Hc). rewrite Ha.
  wp_keep. wp_keep. apply wp_bind, wp_keeps; [apply keeps_sys|intros exists_ ?|by auto].
  destruct exists_; [by apply wp_throw; auto|].
  apply wp_bind, wp_self, wp_bind, wp_set_self. wp_keep. apply wp_bind, wp_set_self.
  do 4 wp_keep. apply wp_try. eapply wp_conseq; [by apply prepare_body_post|done|].
  intros e [s1 w1] Hs1; simpl in Hs1; cbv beta. destruct (is_Exception e) eqn:He; [|congruence].
  eapply wp_conseq; [by apply rollback_post| |]; done.
Qed.
End transaction.

(** ** The commands of [restore] *)

Definition issued (e : entry) : option (list string * option string) :=
  match e with ERun cmd input _ => Some (cmd, input) | _ => None end.
Definition succeeded (e : entry) : bool :=
  match e with ERun _ _ r => bool_decide (r = Ok 0) | _ => true end.

(** The log [w'] continues the log [w] with the commands of [script]; all of
    them exited 0 exactly when [good]. *)
Definition ran {W} (script : list (list string * option string)) (good : Prop) (w w' : world W)
    : Prop :=
  ∃ es, w_log w' = w_log w ++ es ∧ omap issued es = script ∧ (Forall succeeded es ↔ good).

Lemma ran_nil {W} (w : world W) : ran [] True w w.
Proof. exists []. rewrite app_nil_r. by split_and!. Qed.
Lemma ran_trans {W} l1 l2 P1 P2 P (w1 w2 w3 : world W) :
  ran l1 P1 w1 w2 → ran l2 P2 w2 w3 → (P ↔ P1 ∧ P2) → ran (l1 ++ l2) P w1 w3.
Proof.
  intros (e1 & Hl1 & Hi1 & Hs1) (e2 & Hl2 & Hi2 & Hs2) HP. exists (e1 ++ e2).
  rewrite Hl2, Hl1, <- app_assoc, omap_app, Hi1, Hi2, Forall_app, Hs1, Hs2. by split_and!.
Qed.
Lemma ran_iff {W} l P P' (w w' : world W) : ran l P w w' → (P ↔ P') → ran l P' w w'.
Proof. intros (es & ? & ? & Hs) HP. exists es. by rewrite <- HP. Qed.

Section script.
Context {W : Type} `{OS W} (config : CpuIsolationConfig) (my_pid : Z).
(** Starting a command raises [Exception]s only, and the process has an id. *)
Context (commands_return : ∀ cmd input t w,
  match (handle (RunCommand cmd input t) w).1 with
  | Raise e => is_Exception e = true | Ok _ => True end).
Context (pid_known : ∀ w, (handle GetPid w).1 = Ok my_pid).

Definition tee (path value : string) : list string * option string :=
  (privileged config ["tee"; path], Some (value +:+ nl)).

(** What [restore] issues; the cpuset directory is only removed after its
    partition became a member again ([removed]). *)
Definition restore_script (s : CpuIsolation) (removed : bool) :
    list (list string * option string) :=
  (if process_moved s then
     [tee (match original_cgroup_path s with Some p => p | None => cgroup_root config end
           // "cgroup.procs") (str_Z my_pid)]
   else []) ++
  map (λ ia, tee (irq_affinity_path config ia.1) ia.2) (original_irq_affinities s) ++
  (match cgroup_path s with
   | Some p =>
       if cgroup_created s then
         tee (p // "cpuset.cpus.partition") "member" ::
         (if removed then [(privileged config ["rmdir"; p], None)] else [])
       else []
   | None => []
   end) ++
  (if controller_enabled_by_us s
   then [tee (cgroup_root config // "cgroup.subtree_control") "-cpuset"] else []).

Lemma wp_command (cmd : list string) input msg (s : CpuIsolation) (w : world W) :
  wp (c <- sys (RunCommand cmd input None) ;;
      when (negb (bool_decide (returncode c = 0))) (throw RuntimeError (msg c)))
    (λ _ sw, sw.1 = s ∧ ran [(cmd, input)] True w sw.2)
    (λ e sw, is_Exception e = true ∧ sw.1 = s ∧ ran [(cmd, input)] False w sw.2) (s, w).
Proof.
  apply wp_bind, wp_sys. intros r o Heq. pose proof (commands_return cmd input None (w_os w)) as Hr.
  rewrite Heq in Hr. simpl in Hr.
  assert (∀ P : Prop, (bool_decide ((returncode <$> r) = Ok 0) ↔ P) →
    ran [(cmd, input)] P w (World o (w_log w ++ note (RunCommand cmd input None) r))) as Hran.
  { intros P HP. eexists [_]. split_and!; [done|done|]. by rewrite Forall_singleton. }
  destruct r as [c|e]; [|split_and!; [done|done|by apply Hran]].
  apply wp_when; intros Hc; [apply wp_throw|]; (split_and!; try done); apply Hran; simpl.
  - apply negb_true_iff, bool_decide_eq_false in Hc. rewrite bool_decide_spec. naive_solver.
  - apply negb_false_iff, bool_decide_eq_true in Hc. rewrite Hc. by rewrite bool_decide_spec.
Qed.
Definition wp_write path value := wp_command (privileged config ["tee"; path])
  (Some (value +:+ nl)) (λ c, "failed to write " +:+ path +:+ "=" +:+ value +:+ ": "
                         +:+ failure_detail c).

Lemma wp_pid (s : CpuIsolation) (w : world W) :
  wp (sys GetPid) (λ p sw, p = my_pid ∧ sw.1 = s ∧ ran [] True w sw.2) (λ _ _, False) (s, w).
Proof.
  apply wp_sys. intros r o Heq. pose proof (pid_known (w_os w)) as Hr. rewrite Heq in Hr.
  simpl in Hr. destruct r; simplify_eq. split_and!; [done..|]. exists [].
  split_and!; [done..|]. by rewrite Forall_nil.
Qed.

(** A collected step: it runs one of the scripts [sc], the complete one
    [sc true] if it adds no error, and adds an error exactly on failure. *)
Definition attempts (sc : bool → list (list string * option string)) (errors : list string)
    (w : world W) (errs : list string) (w' : world W) : Prop :=
  ∃ l b, errs = errors ++ l ∧ ran (sc b) (l = []) w w' ∧ (l = [] → b = true).

Lemma attempts_nothing sc errors w : sc true = [] → attempts sc errors w errors w.
Proof.
  intros Hsc. exists [], true. rewrite app_nil_r, Hsc. split_and!; [done| |done].
  by eapply ran_iff; [apply ran_nil|].
Qed.

Lemma wp_collect_ran label (m : M (CpuIsolation * world W) unit) errors sc s w :
  wp m (λ _ sw, ran (sc true) True w sw.2)
    (λ e sw, is_Exception e = true ∧ ∃ b, ran (sc b) False w sw.2) (s, w) →
  wp (collect label m errors) (λ errs sw, attempts sc errors w errs sw.2) (λ _ _, False) (s, w).
Proof.
  intros Hm. apply wp_collect. eapply wp_conseq; [exact Hm| |].
  - intros [] sw Hr. exists [], true. rewrite app_nil_r. split_and!; [done| |done].
    by eapply ran_iff.
  - intros e sw [-> (b & Hr)]. eexists [_], b. split_and!; [done| |done]. by eapply ran_iff.
Qed.

Lemma restore_process_ran errors s w :
  wp (restore_process config errors)
    (λ errs sw, attempts (λ _, if process_moved s then
       [tee (match original_cgroup_path s with Some p => p | None => cgroup_root config end
             // "cgroup.procs") (str_Z my_pid)] else []) errors w errs sw.2)
    (λ _ _, False) (s, w).
Proof.
  unfold restore_process. apply wp_bind, wp_self. destruct (process_moved s); simpl;
    [|by apply wp_ret, attempts_nothing].
  apply wp_bind, wp_self, wp_collect_ran, wp_bind.
  eapply wp_conseq; [apply wp_pid| |done]. intros p [s1 w1] (-> & Hs & Hw). simpl in Hs, Hw.
  subst s1. apply wp_bind. eapply wp_conseq; [apply wp_write| |].
  - intros _ [s2 w2] (_ & Hw2). apply wp_set_self. by eapply (ran_trans []).
  - intros e [s2 w2] (He & _ & Hw2). split; [done|]. exists true.
    eapply (ran_trans []); [done..|]. tauto.
Qed.

Lemma restore_irq_ran errors ia s w :
  wp (restore_irq config errors ia)
    (λ errs sw, attempts (λ _, [tee (irq_affinity_path config ia.1) ia.2]) errors w errs sw.2)
    (λ _ _, False) (s, w).
Proof.
  apply wp_collect_ran. eapply wp_conseq; [apply wp_write| |].
  - by intros _ sw [].
  - intros e sw (He & _ & Hw). split; [done|]. by exists true.
Qed.

Lemma attempts_trans_l sc1 sc2 errors w1 errs1 w2 errs2 w3 :
  attempts (λ _, sc1) errors w1 errs1 w2 → attempts sc2 errs1 w2 errs2 w3 →
  attempts (λ b, sc1 ++ sc2 b) errors w1 errs2 w3.
Proof.
  intros (l1 & b1 & -> & H1 & Hb1) (l2 & b & -> & H2 & Hb). exists (l1 ++ l2), b.
  rewrite <- app_assoc. split_and!; [done| |].
  - eapply ran_trans; [done..|]. apply app_nil.
  - intros []%app_nil. auto.
Qed.
Lemma attempts_trans_r sc1 sc2 errors w1 errs1 w2 errs2 w3 :
  attempts sc1 errors w1 errs1 w2 → attempts (λ _, sc2) errs1 w2 errs2 w3 →
  attempts (λ b, sc1 b ++ sc2) errors w1 errs2 w3.
Proof.
  intros (l1 & b & -> & H1 & Hb) (l2 & b2 & -> & H2 & Hb2). exists (l1 ++ l2), b.
  rewrite <- app_assoc. split_and!; [done| |].
  - eapply ran_trans; [done..|]. apply app_nil.
  - intros []%app_nil. auto.
Qed.

Lemma restore_irqs_ran l errors s w :
  wp (fold_each l errors (restore_irq config))
    (λ errs sw, attempts (λ _, map (λ ia, tee (irq_affinity_path config ia.1) ia.2) l)
                  errors w errs sw.2) (λ _ _, False) (s, w).
Proof.
  revert errors w. induction l as [|ia l IH]; intros errors w; simpl.
  { by apply wp_ret, attempts_nothing. }
  apply wp_bind. eapply wp_conseq.
  - apply wp_and; [apply restore_irq_ran|apply restore_irq_spec].
  - intros errs [s' w'] (Hat & _ & _ & Hs). simpl in Hs, Hat; subst s'.
    eapply wp_conseq; [apply IH| |done]. intros errs' sw Hat'.
    exact (attempts_trans_l [_] _ _ _ _ _ _ _ Hat Hat').
  - by intros e sw [].
Qed.

Lemma restore_cgroup_ran errors s w :
  wp (restore_cgroup config errors)
    (λ errs sw, attempts (λ removed,
      match cgroup_path s with
      | Some p =>
        if cgroup_created s then
          tee (p // "cpuset.cpus.partition") "member" ::
          (if removed then [(privileged config ["rmdir"; p], None)] else [])
        else []
      | None => []
      end) errors w errs sw.2) (λ _ _, False) (s, w).
Proof.
  unfold restore_cgroup. apply wp_bind, wp_self, wp_bind, wp_self.
  destruct (cgroup_path s) as [p|]; [|by apply wp_ret, attempts_nothing].
  destruct (cgroup_created s); [simpl|by apply wp_ret, attempts_nothing].
  apply wp_collect_ran, wp_bind. eapply wp_conseq; [apply wp_write| |].
  - intros _ [s1 w1] (_ & Hw1). apply wp_bind. eapply wp_conseq; [apply wp_command| |].
    + intros _ [s2 w2] (_ & Hw2). apply wp_set_self. by eapply (ran_trans [_]).
    + intros e [s2 w2] (He & _ & Hw2). split; [done|]. exists true.
      eapply (ran_trans [_]); [done..|]. tauto.
  - intros e [s1 w1] (He & _ & Hw1). split; [done|]. by exists false.
Qed.

Lemma restore_cgroup_frame errors s w :
  wp (restore_cgroup config errors)
    (λ _ sw, controller_enabled_by_us sw.1 = controller_enabled_by_us s) (λ _ _, True) (s, w).
Proof.
  eapply (wp_preserves (λ s', controller_enabled_by_us s' = controller_enabled_by_us s));
    [|done..]. unfold restore_cgroup, collect. solve_preserves. done.
Qed.

Lemma restore_controller_ran errors s w :
  wp (restore_controller config errors)
    (λ errs sw, attempts (λ _, if controller_enabled_by_us s
       then [tee (cgroup_root config // "cgroup.subtree_control") "-cpuset"] else [])
       errors w errs sw.2) (λ _ _, False) (s, w).
Proof.
  unfold restore_controller. apply wp_bind, wp_self.
  destruct (controller_enabled_by_us s); simpl; [|by apply wp_ret, attempts_nothing].
  apply wp_collect_ran, wp_bind. eapply wp_conseq; [apply wp_write| |].
  - intros _ sw (_ & Hw). by apply wp_set_self.
  - intros e sw (He & _ & Hw). split; [done|]. by exists true.
Qed.

Lemma restore_ran s w :
  wp (restore config)
    (λ _ sw, ran (restore_script s true) True w sw.2)
    (λ e sw, exn_type e = RuntimeError ∧ ∃ b, ran (restore_script s b) False w sw.2) (s, w).
Proof.
  unfold restore. apply wp_bind, wp_self. destruct (touched s) eqn:Ht; simpl.
  2: { apply touched_clean in Ht as (?&Hc&Hcr&Hm&Hi). apply wp_ret. unfold restore_script.
       rewrite Hc, Hcr, Hm, Hi. destruct (cgroup_path s); apply ran_nil. }
  apply wp_bind. eapply wp_conseq;
    [apply wp_and; [apply restore_process_ran|apply restore_process_spec]| |by intros ? ? []].
  intros errs1 [s1 w1] (Hr1 & l1 & _ & Hs1). simpl in Hr1, Hs1. subst s1.
  apply wp_bind, wp_self, wp_bind. eapply wp_conseq;
    [apply wp_and; [apply restore_irqs_ran|apply restore_irqs_spec]| |by intros ? ? []].
  intros errs2 [s2 w2] (Hr2 & l2 & _ & Hs2). simpl in Hr2, Hs2. subst s2.
  apply wp_bind, wp_set_self, wp_bind. eapply wp_conseq;
    [apply wp_and; [apply restore_cgroup_ran|apply restore_cgroup_frame]| |by intros ? ? []].
  intros errs3 [s3 w3] (Hr3 & Hs3). simpl in Hr3, Hs3.
  apply wp_bind. eapply wp_conseq; [apply restore_controller_ran| |done].
  intros errs4 [s4 w4] Hr4. simpl in Hr4. rewrite Hs3 in Hr4.
  apply wp_bind, wp_set_self, wp_bind, wp_set_self.
  pose proof (attempts_trans_l _ _ _ _ _ _ _ _ Hr1 (attempts_trans_l _ _ _ _ _ _ _ _ Hr2
    (attempts_trans_r _ _ _ _ _ _ _ _ Hr3 Hr4))) as (l & b & Hl & Hran & Hb).
  simpl in Hl; subst errs4. unfold raise_errors. apply wp_when; intros Herr.
  - apply wp_throw. split; [done|]. exists b. eapply ran_iff; [exact Hran|].
    apply negb_true_iff, bool_decide_eq_false in Herr. tauto.
  - apply negb_false_iff, bool_decide_eq_true in Herr. rewrite (Hb Herr) in Hran.
    eapply ran_iff; [exact Hran|]. tauto.
Qed.
End script.

(** ** A machine to isolate *)

(** Two housekeeping and two benchmark CPUs, one camera behind interrupt 98. *)
Definition demo_config : CpuIsolationConfig := {|
  enabled := true; housekeeping_cpus := "0-1"; benchmark_cpus := "2,3"; use_sudo := true;
  repo_root := "/repo"; cgroup_root := "/cg"; cpu_online_path := "/online"; proc_root := "/proc";
  usb_sysfs_base := "/usb" |}.

Definition demo_machine : machine :=
  set_affinity (list_to_set [2; 3]) {|
  m_files := [("/online", "0-3" +:+ nl); ("/cg/cgroup.controllers", "cpu cpuset" +:+ nl);
    ("/cg/cgroup.subtree_control", "cpu" +:+ nl); ("/cg/cgroup.procs", "1" +:+ nl);
    ("/cg/cpuset.cpus.effective", "0-3" +:+ nl); ("/cg/cpuset.cpus.isolated", nl);
    ("/cg/cpuset.mems.effective", "0" +:+ nl); ("/proc/self/cgroup", "0::/user" +:+ nl);
    ("/proc/interrupts", "  98:  17  xhci-hcd:usb2" +:+ nl);
    ("/proc/irq/98/smp_affinity_list", "0-3" +:+ nl);
    ("/usb/2-1/idVendor", "8086" +:+ nl); ("/usb/2-1/idProduct", "0b07" +:+ nl)];
  m_json := []; m_dirs := ["/usb/2-1"; "/pci/xhci-hcd.1/usb2"];
  m_globs := [("/usb/*", ["/usb/2-1"]); ("/pci/xhci-hcd.1/usb*", ["/pci/xhci-hcd.1/usb2"])];
  m_links := [("/usb/2-1", "/pci/xhci-hcd.1/usb2/2-1")];
  m_clock := f_of_Z 0; m_boottime := 0; m_euid := 1000; m_affinity := ∅ |}.

(** [tee] writes the file; making the partition [isolated] moves its CPUs out
    of the root set, making it a [member] gives them back.  Writing a path that
    [denied] selects fails. *)
Definition demo_commands (denied : string → bool) : Commands := λ cmd input m,
  match skipn 2 cmd with
  | ["tee"; path] =>
      if denied path then (exit_status 1 "Permission denied", m) else
      let value := tee_value input in
      let m := set_files (dset path (value +:+ nl) (m_files m)) m in
      if py_endswith "cpuset.cpus.partition" path then
        let isolate := bool_decide (value = "isolated") in
        (exit_status 0 "",
         set_files (dset "/cg/cpuset.cpus.effective" ((if isolate then "0-1" else "0-3") +:+ nl)
           (dset "/cg/rs-camera-benchmark-4242/cpuset.cpus.effective" ("2-3" +:+ nl)
             (dset "/cg/cpuset.cpus.isolated" ((if isolate then "2-3" else "") +:+ nl)
               (m_files m)))) m)
      else (exit_status 0 "", m)
  | _ => (exit_status 0 "", m)
  end.

Definition run_demo {A} denied (m : ∀ {H : OS machine}, M (CpuIsolation * world machine) A) :=
  @m (@sim_os (demo_commands denied)) (initial demo_config, World demo_machine []).

Lemma demo_returns denied cmd input t m :
  match (@handle _ (@sim_os (demo_commands denied)) _ (RunCommand cmd input t) m).1 with
  | Raise e => is_Exception e = true | Ok _ => True end.
Proof.
  cbv [handle sim_os sim_handle run_command demo_commands].
  destruct (skipn 2 cmd) as [|? [|? []]]; try done; repeat case_match; done.
Qed.

(** ** The properties *)

(** C7: [prepare] is a transaction.  Started from an object that holds nothing,
    it returns with the cpuset created, the process moved and the isolation
    active; if it raises any [Exception], the isolation is inactive, no
    interrupt affinity is left on record, and nothing remains to undo unless
    the error is the one that says the rollback itself failed. *)
Theorem prepare_transactional {W} `{OS W} config record_dir s (w : world W) :
  clean s →
  match prepare config record_dir (s, w) with
  | (Ok _, (s', _)) => if enabled config then prepared s' else s' = s
  | (Raise e, (s', _)) => is_Exception e = true → rolled_back e s'
  end.
Proof.
  intros Hc. pose proof (prepare_post config record_dir s w Hc) as Hp. unfold wp in Hp.
  by destruct (prepare config record_dir (s, w)) as [[] []].
Qed.

Definition clean_initial config : clean (initial config).
Proof. by repeat split. Defined.

Theorem prepare_transactional_witness :
  (match run_demo (λ _, false) (λ H, @prepare _ H demo_config "/rec") with
   | (Ok _, (s', _)) => prepared s' | _ => False end) ∧
  (match run_demo (py_endswith "cgroup.procs") (λ H, @prepare _ H demo_config "/rec") with
   | (Raise e, (s', _)) => rolled_back e s' | _ => False end).
Proof.
  split.
  - pose proof (@prepare_transactional _ (@sim_os (demo_commands (λ _, false))) demo_config "/rec"
      (initial demo_config) (World demo_machine []) (clean_initial _)) as Hp.
    assert (returned (run_demo (λ _, false) (λ H, @prepare _ H demo_config "/rec")) = true)
      as Hok by (vm_compute; reflexivity).
    unfold run_demo in *. by destruct (prepare _ _ _) as [[] []].
  - pose proof (@prepare_transactional _ (@sim_os (demo_commands (py_endswith "cgroup.procs")))
      demo_config "/rec" (initial demo_config) (World demo_machine []) (clean_initial _)) as Hp.
    assert (raised (run_demo (py_endswith "cgroup.procs") (λ H, @prepare _ H demo_config "/rec"))
      = Some RuntimeError) as Hr by (vm_compute; reflexivity).
    unfold run_demo in *. destruct (prepare _ _ _) as [[|e] []]; [done|].
    apply Hp. unfold is_Exception, is_class. by injection Hr as ->.
Defined.

(** C11: [restore] gives up on nothing.  Whatever failed before, it issues every
    command that undoes [prepare], in the order process, interrupts, cpuset,
    controller (only [rmdir] waits for the partition write); it returns exactly
    when every command exited 0, and then nothing is left to restore; otherwise
    it raises [RuntimeError]. *)
Theorem restore_attempts_everything {W} `{OS W} config my_pid s (w : world W) :
  (∀ cmd input t w, match (handle (RunCommand cmd input t) w).1 with
                    | Raise e => is_Exception e = true | Ok _ => True end) →
  (∀ w, (handle GetPid w).1 = Ok my_pid) →
  wf s →
  match restore config (s, w) with
  | (Ok _, (s', w')) => clean s' ∧ ran (restore_script config my_pid s true) True w w'
  | (Raise e, (s', w')) =>
      exn_type e = RuntimeError ∧ ∃ removed, ran (restore_script config my_pid s removed) False w w'
  end.
Proof.
  intros Hc Hp Hwf. pose proof (restore_ran config my_pid Hc Hp s w) as Hr.
  pose proof (restore_post config s w Hwf) as Hpost. unfold wp in *.
  by destruct (restore config (s, w)) as [[] []].
Qed.

(** The attributes after a complete [prepare]. *)
Definition demo_prepared : CpuIsolation := {|
  active := true; controller_enabled_by_us := true; cgroup_created := true; process_moved := true;
  cgroup_path := Some "/cg/rs-camera-benchmark-4242"; original_cgroup_path := Some "/cg/user";
  original_irq_affinities := [(98, "0-3")]; state := [] |}.

Theorem restore_attempts_everything_witness :
  match @restore _ (@sim_os (demo_commands (py_endswith "smp_affinity_list"))) demo_config
          (demo_prepared, World demo_machine []) with
  | (Raise e, (s', w')) =>
      exn_type e = RuntimeError ∧
      (restore_script demo_config the_pid demo_prepared true =
         omap issued (w_log w'))
  | _ => False
  end.
Proof.
  pose proof (@restore_attempts_everything _
    (@sim_os (demo_commands (py_endswith "smp_affinity_list"))) demo_config the_pid demo_prepared
    (World demo_machine []) (demo_returns _) (λ _, eq_refl) (λ _, ltac:(eexists; reflexivity))) as Hr.
  assert (restore_script demo_config the_pid demo_prepared true = omap issued (w_log (@restore _
    (@sim_os (demo_commands (py_endswith "smp_affinity_list"))) demo_config
    (demo_prepared, World demo_machine [])).2.2)) as Hlog by (vm_compute; reflexivity).
  assert (returned (@restore _
    (@sim_os (demo_commands (py_endswith "smp_affinity_list"))) demo_config
    (demo_prepared, World demo_machine [])) = false) as Hok by (vm_compute; reflexivity).
  destruct (restore _ _) as [[|e] []]; [done|]. by destruct Hr.
Defined.

(** The two CPU sets of the configuration split [online] in two. *)
Definition partitions config (online : gset Z) : Prop :=
  ∃ h b, parse_cpu_list (housekeeping_cpus config) = Ok h ∧
         parse_cpu_list (benchmark_cpus config) = Ok b ∧
         h ≠ ∅ ∧ b ≠ ∅ ∧ h ## b ∧ h ∪ b = online.

Lemma overlap_checks_spec h b online :
  overlap_checks h b online = Ok () ↔ h ≠ ∅ ∧ b ≠ ∅ ∧ h ## b ∧ h ∪ b = online.
Proof.
  unfold overlap_checks, raise. repeat case_bool_decide; split; try done; intros; destruct_and?.
  all: repeat match goal with Hd : ¬ (_ ≠ _) |- _ => apply dec_stable in Hd end.
  all: first [tauto | set_solver | split_and!; [tauto|tauto|set_solver|done]].
Qed.

(** [validate_environment] accepts a configuration only if it splits the
    CPUs the kernel reports online into two non-empty disjoint sets. *)
Theorem validate_environment_partitions {W} `{OS W} config s (w : world W) :
  match validate_environment config (s, w) with
  | (Ok _, (s', _)) =>
      s' = s ∧
      (enabled config = true → ∃ w1 text online, (handle (ReadText (cpu_online_path config)) w1).1 = Ok text ∧
         parse_cpu_list (py_strip text) = Ok online ∧ partitions config online)
  | (Raise _, (s', _)) => s' = s
  end.
Proof.
  assert (within same_self (validate_environment config)) as Hk by apply keeps_validate_environment.
  assert (enabled config = true → wp (validate_environment config)
    (λ _ _, ∃ w1 text online, (handle (ReadText (cpu_online_path config)) w1).1 = Ok text ∧
         parse_cpu_list (py_strip text) = Ok online ∧ partitions config online)
    (λ _ _, True) (s, w)) as Hwp.
  { intros Hen. unfold validate_environment. rewrite Hen. simpl.
    apply wp_bind, wp_lift. destruct (parse_cpu_list (housekeeping_cpus config)) as [h|] eqn:Hh; [|done].
    apply wp_bind, wp_lift. destruct (parse_cpu_list (benchmark_cpus config)) as [b|] eqn:Hb; [|done].
    unfold read at 1. apply wp_bind, wp_bind, wp_sys. intros r o Hr. destruct r as [text|]; [|done].
    apply wp_ret, wp_bind, wp_lift. destruct (parse_cpu_list (py_strip text)) as [online|] eqn:Ho; [|done].
    apply wp_bind, wp_lift. destruct (overlap_checks h b online) as [[]|] eqn:Hc; [|done].
    apply overlap_checks_spec in Hc.
    eapply (wp_within (λ _ _, True)); [by intros ?| |done]. intros _ _ _.
    exists (w_os w), text, online. rewrite Hr. split_and!; [done..|]. exists h, b. split_and!; tauto. }
  specialize (Hk (s, w)). unfold wp in Hwp. unfold same_self in Hk.
  destruct (validate_environment config (s, w)) as [[[]|e] [s' w']]; simpl in *; auto.
Qed.
