(* ===== verification/CpuAffinity.v ===== *)
(** * The interrupt affinities survive a campaign

    The kernel's [smp_affinity_list] files as an interface ([IrqKernel]), and
    the round trip of [prepare] and [restore] over it. *)
From Stdlib Require Import Ascii String ZArith Lia.
From S2P Require Import Prelude PyStr PyFloat PyVal Effects Machine CpuList Devices CpuIsolation.
From S2P Require Import CpuIsolationSpec.
From stdpp Require Import base gmap strings list sorting pretty.
Local Open Scope Z_scope.
Local Open Scope py_scope.
Local Open Scope M_scope.

Lemma app_self_nil {A} (l k : list A) : l ++ k = l → k = [].
Proof. intros Hl%(f_equal length). rewrite length_app in Hl. destruct k; simpl in Hl; [done|lia]. Qed.

(** ** The records of the discovered interrupts *)

Definition keyed (by_irq : list (Z * pydict)) : Prop :=
  NoDup by_irq.*1 ∧ ∀ k r, (k, r) ∈ by_irq → irq_of r = Ok k.

Lemma irq_of_append name r : irq_of (append_device name r) = irq_of r.
Proof.
  unfold append_device, irq_of, subscript. destruct (dget "usb_devices" r) as [[]|]; try done.
  by rewrite dget_dset_ne.
Qed.

Section discovery.
Context {W : Type} `{OS W} (config : CpuIsolationConfig).

Lemma discover_one_keyed actions by_irq d (sw : CpuIsolation * world W) :
  keyed by_irq → wp (discover_one actions by_irq d) (λ b _, keyed b) (λ _ _, True) sw.
Proof.
  intros [Hnd Hk]. unfold discover_one. apply wp_skip; [|done]. intros resolved s1.
  destruct (filter _ _) as [|controller ?]; [done|]. apply wp_skip; [|done]. intros children s2.
  apply wp_skip; [|done]. intros hubs s3. destruct (omap _ _) as [|[bus irq] []]; [done| |done].
  apply wp_ret. split; [by apply zset_NoDup|]. intros k r [Hr|Hr]%zset_elem; [|by apply Hk].
  simplify_eq. rewrite irq_of_append. destruct (zget irq by_irq) as [r0|] eqn:Hz; [|done].
  by apply Hk, zget_elem.
Qed.

Lemma discover_keyed (sw : CpuIsolation * world W) :
  wp (discover_camera_xhci_irqs config) (λ l _, ∃ ks, NoDup ks ∧ map irq_of l = map Ok ks)
    (λ _ _, True) sw.
Proof.
  unfold discover_camera_xhci_irqs. apply wp_skip; [|done]. intros devices s1.
  destruct devices as [|d devices]; [done|]. apply wp_skip; [|done]. intros actions s2.
  apply wp_bind.
  assert (∀ l b s, keyed b →
    wp (fold_each l b (discover_one actions)) (λ b _, keyed b) (λ _ _, True) s) as Hfold.
  { induction l as [|x l IH]; intros b s Hb; simpl; [done|].
    apply wp_bind. eapply wp_conseq; [by apply discover_one_keyed|by auto|done]. }
  eapply wp_conseq; [apply Hfold; split; [constructor|set_solver]| |done].
  intros b s3 [Hnd Hk]. apply wp_ret. exists (sorted_by_irq b).*1.
  assert (sorted_by_irq b ≡ₚ b) as Hp by apply sort_on_perm. split; [by rewrite Hp|].
  rewrite map_map, map_map. apply map_ext_in. intros [k r] Hin. simpl. apply Hk.
  by rewrite <- Hp, list_elem_of_In.
Qed.
End discovery.

(** ** The kernel's affinity files *)

Definition writes_affinity config {A} (c : syscall A) : Prop :=
  match c with
  | RunCommand cmd _ _ => ∃ irq, cmd = privileged config ["tee"; irq_affinity_path config irq]
  | _ => False
  end.

(** What procfs documents: the file of an interrupt reads as its affinity in
    canonical form; a successful write sets the affinity of that interrupt, a
    failed one sets nothing, and nothing else the campaign does sets one. *)
Class IrqKernel (config : CpuIsolationConfig) (W : Type) `{OS W} := {
  affinity : W → Z → string;
  canonical : string → string;
  affinity_canonical w irq : canonical (affinity w irq) = affinity w irq;
  affinity_read irq w :
    match (handle (ReadText (irq_affinity_path config irq)) w).1 with
    | Ok t => py_strip t = affinity w irq | Raise _ => True end;
  affinity_write irq v w irq' :
    let '(r, w') := handle (RunCommand
      (privileged config ["tee"; irq_affinity_path config irq]) (Some (v +:+ nl)) None) w in
    affinity w' irq' =
      match r with
      | Ok c => if bool_decide (returncode c = 0 ∧ irq' = irq) then canonical v
                else affinity w irq'
      | Raise _ => affinity w irq'
      end;
  affinity_other {A} (c : syscall A) w irq :
    ¬ writes_affinity config c → affinity (handle c w).2 irq = affinity w irq;
}.

(** ** Paths that are not affinity files *)

Definition last_char (s : string) : ascii := List.last (String.list_ascii_of_string s) "?"%char.
Lemma last_char_app s t : t ≠ "" → last_char (s +:+ t) = last_char t.
Proof.
  intros Ht. induction s as [|a s IH]; [done|]. rewrite string_app_cons. unfold last_char in *.
  simpl. rewrite <- IH. destruct (String.list_ascii_of_string (s +:+ t)) eqn:Hl; [|done].
  exfalso. apply Ht. destruct s as [|b s]; [|done]. by destruct t.
Qed.
Lemma last_char_pjoin p c : path_parts c = [c] → c ≠ "" → last_char (p // c) = last_char c.
Proof.
  intros Hc Hne. unfold pjoin. rewrite Hc. simpl py_join.
  repeat case_match; rewrite ?last_char_app; try done.
  all: by destruct c.
Qed.

Section affinity.
Context {W : Type} `{OS W} (config : CpuIsolationConfig) `{!IrqKernel config W}.
Abbreviation state := (CpuIsolation * world W)%type.
Implicit Types s : CpuIsolation.
Implicit Types w : world W.

Definition aff (w : world W) (irq : Z) : string := affinity (config := config) (w_os w) irq.

(** The step touches neither an affinity nor the recorded originals. *)
Definition frame : relation state := λ x y,
  original_irq_affinities y.1 = original_irq_affinities x.1 ∧ ∀ irq, aff y.2 irq = aff x.2 irq.
#[export] Instance frame_preorder : PreOrder frame.
Proof.
  split; [by intros x|]. intros x y z [Hxy1 Hxy2] [Hyz1 Hyz2]. split; [congruence|].
  intros irq. by rewrite Hyz2.
Qed.

Lemma frame_sys {A} (c : syscall A) : ¬ writes_affinity config c → within frame (sys c).
Proof.
  intros Hc [s w]. unfold sys. pose proof (λ irq, affinity_other c (w_os w) irq Hc) as Ho.
  destruct (handle c (w_os w)) as [r o]. split; [done|]. exact Ho.
Qed.
Lemma frame_set_self f :
  (∀ s, original_irq_affinities (f s) = original_irq_affinities s) →
  within frame (set_self f).
Proof. intros Hf [s w]. split; [apply Hf|done]. Qed.
Lemma frame_read p : within frame (read p).
Proof. unfold read. solve_within; apply frame_sys; by intros []. Qed.

Lemma not_irq_path dir file :
  path_parts file = [file] → file ≠ "" → last_char file ≠ "t"%char →
  ∀ irq, dir // file ≠ irq_affinity_path config irq.
Proof.
  intros Hf Hne Ht irq Heq. apply Ht. rewrite <- (last_char_pjoin dir file), Heq by done.
  unfold irq_affinity_path. by rewrite last_char_pjoin.
Qed.
Lemma tee_path p q : privileged config ["tee"; p] = privileged config ["tee"; q] → p = q.
Proof. unfold privileged. destruct (use_sudo config); by intros; simplify_eq/=. Qed.

(** A file name the campaign writes that is not the affinity file's. *)
Definition plain_file (file : string) : bool :=
  bool_decide (path_parts file = [file]) && bool_decide (file ≠ "")
  && bool_decide (last_char file ≠ "t"%char).
Lemma frame_write dir file v : plain_file file = true → within frame (write config (dir // file) v).
Proof.
  intros Hf. unfold plain_file in Hf. rewrite !andb_true_iff, !bool_decide_eq_true in Hf.
  destruct Hf as [[Hp Hne] Hl]. unfold write. apply within_bind; [typeclasses eauto| |solve_within].
  apply frame_sys. intros [irq Heq]. apply tee_path in Heq. by eapply not_irq_path.
Qed.
Lemma frame_run_privileged cmd :
  head cmd ≠ Some "tee" → within frame (run_privileged config cmd).
Proof.
  intros Hf. unfold run_privileged. apply within_bind; [typeclasses eauto| |solve_within].
  apply frame_sys. intros [irq Heq]. unfold privileged in Heq.
  destruct (use_sudo config); simplify_eq/=.
Qed.

(** ** Reads and checks are frames *)

Ltac frames :=
  repeat first
    [ progress solve_within
    | intros; apply frame_read
    | intros; apply frame_write; reflexivity
    | intros; apply frame_run_privileged; done
    | intros; apply frame_set_self; by intros
    | intros; apply frame_sys; by intros [] ].

Lemma frame_irq_thread_state irq : within frame (irq_thread_state config irq).
Proof.
  unfold irq_thread_state. frames.
  generalize ("irq/" +:+ str_Z irq +:+ "-"). intros p l. induction l; simpl; unfold sched_attributes; frames; done.
Qed.
Lemma frame_verify output : within frame (verify config output).
Proof.
  unfold verify, verify_irq, canonical_cpus, raise_errors. frames.
  all: apply frame_irq_thread_state.
Qed.
Lemma frame_discover : within frame (discover_camera_xhci_irqs config).
Proof.
  unfold discover_camera_xhci_irqs, connected_realsense_devices, camera_dirs, interrupt_actions,
    is_realsense_video_device, read_optional_text, discover_one. frames.
Qed.
Lemma frame_validate : within frame (validate_environment config).
Proof.
  unfold validate_environment, current_process_cgroup. frames.
  all: apply frame_discover.
Qed.

(** ** Pinning and restoring *)

(** A write to an affinity file: the affinity of [irq] becomes the written
    one, or nothing changes. *)
Lemma wp_affinity_write irq v s w :
  wp (write config (irq_affinity_path config irq) v)
    (λ _ sw, sw.1 = s ∧
       ∀ irq', aff sw.2 irq' = if bool_decide (irq' = irq) then canonical (config := config) v
                               else aff w irq')
    (λ _ sw, sw.1 = s ∧ ∀ irq', irq' ≠ irq → aff sw.2 irq' = aff w irq') (s, w).
Proof.
  unfold write. apply wp_bind, wp_sys. intros r o Heq.
  pose proof (affinity_write (config := config) irq v (w_os w)) as Hw. rewrite Heq in Hw.
  destruct r as [c|e].
  - apply wp_when; intros Hc; [apply wp_throw|]; (split; [done|]); intros irq'; unfold aff; simpl.
    + intros Hne. rewrite Hw, bool_decide_eq_false_2 by naive_solver. done.
    + apply negb_false_iff, bool_decide_eq_true in Hc. rewrite Hw.
      repeat case_bool_decide; naive_solver.
  - split; [done|]. intros irq' _. apply Hw.
Qed.

(** The recorded originals are the affinities of [aff0]; the other interrupts
    still have theirs. *)
Definition intact (aff0 : Z → string) (sw : state) : Prop :=
  NoDup (original_irq_affinities sw.1).*1 ∧
  ∀ irq, match zget irq (original_irq_affinities sw.1) with
         | Some a => a = aff0 irq
         | None => aff sw.2 irq = aff0 irq
         end.

Lemma intact_frame aff0 x y : frame x y → intact aff0 x → intact aff0 y.
Proof.
  intros [Ho Ha] [Hnd Hi]. split; [by rewrite Ho|]. intros irq. specialize (Hi irq).
  rewrite Ho, Ha. done.
Qed.
Lemma wp_intact_frame {A} (m : M state A) aff0 sw (Q : A → state → Prop) (E : exn → state → Prop) :
  within frame m → intact aff0 sw → (∀ a sw', frame sw sw' → intact aff0 sw' → Q a sw') →
  (∀ e sw', intact aff0 sw' → E e sw') → wp m Q E sw.
Proof.
  intros Hm Hi HQ HE.
  eapply wp_within; [exact Hm| |]; intros; [apply HQ; [done|]|apply HE]; by eapply intact_frame.
Qed.

Lemma wp_read_affinity irq s w aff0 (Q : string → state → Prop) :
  intact aff0 (s, w) → (∀ sw, frame (s, w) sw → intact aff0 sw → Q (aff w irq) sw) →
  wp (read (irq_affinity_path config irq)) Q (λ _ sw, intact aff0 sw) (s, w).
Proof.
  intros Hi HQ. unfold read. apply wp_bind, wp_sys. intros r o Heq.
  pose proof (affinity_read (config := config) irq (w_os w)) as Hr.
  pose proof (frame_sys (ReadText (irq_affinity_path config irq))) as Hf.
  specialize (Hf (λ x, x) (s, w)). unfold sys in Hf. rewrite Heq in Hr, Hf. simpl in Hf.
  destruct r as [t|e]; simpl in Hr; [|by eapply intact_frame].
  apply wp_ret. rewrite Hr. apply HQ; [done|]. by eapply intact_frame.
Qed.

Lemma pin_irq_intact aff0 h l r irq s w :
  irq_of r = Ok irq → zget irq (original_irq_affinities s) = None → intact aff0 (s, w) →
  wp (pin_irq config h l r)
    (λ _ sw, intact aff0 sw ∧ ∀ k, k ≠ irq → zget k (original_irq_affinities s) = None →
                                   zget k (original_irq_affinities sw.1) = None)
    (λ _ sw, intact aff0 sw) (s, w).
Proof.
  intros Hr Hz Hi. unfold pin_irq. apply wp_bind, wp_lift. rewrite Hr.
  apply wp_bind, (wp_read_affinity _ _ _ aff0); [done|]. intros [s1 w1] [Ho Ha] [Hnd Hi1].
  simpl in Ho, Ha, Hnd, Hi1. apply wp_bind, wp_set_self.
  assert (aff w irq = aff0 irq) as H0.
  { destruct Hi as [_ Hi]. specialize (Hi irq). simpl in Hi. by rewrite Hz in Hi. }
  assert (∀ w2, (∀ k, k ≠ irq → aff w2 k = aff w1 k) →
    intact aff0 (set_irqs (zset irq (aff w irq) (original_irq_affinities s1)) s1, w2)) as Hw2.
  { intros w2 Hk. split; simpl; [by apply zset_NoDup|]. intros k. rewrite zget_zset.
    case_bool_decide; [by subst|]. specialize (Hi1 k). by rewrite Hk. }
  apply wp_bind. eapply wp_conseq; [apply wp_affinity_write| |].
  2: { intros e [s2 w2] [Hs2 Hk]. simpl in Hs2, Hk. subst s2. by apply Hw2. }
  intros _ [s2 w2] [Hs2 Hk]. simpl in Hs2, Hk. subst s2.
  eapply wp_intact_frame; [|apply Hw2| |done].
  - solve_within; [apply frame_read|apply frame_irq_thread_state].
  - intros k Hne. by rewrite Hk, bool_decide_eq_false_2.
  - intros recs sw [Ho2 _] Hi2. split; [done|]. intros k Hne Hk0. rewrite Ho2. simpl.
    by rewrite zget_zset, bool_decide_eq_false_2, Ho.
Qed.

Lemma pin_irqs_intact aff0 h irqs ks l s w :
  map irq_of irqs = map Ok ks → NoDup ks →
  (∀ k, k ∈ ks → zget k (original_irq_affinities s) = None) → intact aff0 (s, w) →
  wp (fold_each irqs l (pin_irq config h)) (λ _ sw, intact aff0 sw)
    (λ _ sw, intact aff0 sw) (s, w).
Proof.
  revert ks l s w. induction irqs as [|r irqs IH]; intros ks l s w Hks Hnd Hz Hi; simpl; [done|].
  destruct ks as [|k ks]; [done|]. simpl in Hks. injection Hks as Hr Hks.
  apply NoDup_cons in Hnd as [Hk Hnd].
  apply wp_bind. eapply wp_conseq.
  - apply pin_irq_intact; [exact Hr|apply Hz; left|exact Hi].
  - intros l' [s1 w1] [Hi1 Hz1]. eapply IH; [done..| |done]. intros k' Hk'. apply Hz1; [|apply Hz; by right].
    by intros ->.
  - done.
Qed.

Ltac framed := apply wp_bind; eapply wp_intact_frame;
  [solve [frames]|eassumption| |done]; intros ? [] [] ?; simplify_eq/=.

Lemma prepare_body_intact aff0 record_dir cgroup subtree irqs ks h b s w :
  map irq_of irqs = map Ok ks → NoDup ks → original_irq_affinities s = [] →
  intact aff0 (s, w) →
  wp (prepare_body config record_dir cgroup subtree irqs h b) (λ _ sw, intact aff0 sw)
    (λ _ sw, intact aff0 sw) (s, w).
Proof.
  intros Hks Hnd Ho Hi. unfold prepare_body.
  do 7 framed. apply wp_bind. eapply wp_conseq.
  - eapply pin_irqs_intact; [done..| |eassumption]. intros k _.
    repeat match goal with Heq : original_irq_affinities _ = _ |- _ => rewrite Heq end. done.
  - intros recs sw Hi'. eapply wp_intact_frame; [|exact Hi'|done..].
    unfold raise_errors. frames. all: apply frame_verify.
  - done.
Qed.

(** The restoring loop: if it adds no error, every recorded interrupt has its
    recorded affinity, and the others keep theirs. *)
Lemma restore_irqs_affinity l errors s w :
  NoDup l.*1 →
  wp (fold_each l errors (restore_irq config))
    (λ errs sw, errs = errors → ∀ irq, aff sw.2 irq =
       match zget irq l with Some a => canonical (config := config) a | None => aff w irq end)
    (λ _ _, True) (s, w).
Proof.
  revert errors w. induction l as [|[k a] l IH]; intros errors w Hnd; simpl; [done|].
  apply NoDup_cons in Hnd as [Hk Hnd]. apply wp_bind.
  apply (wp_conseq _ (λ errs sw, sw.1 = s ∧ ∃ l', errs = errors ++ l' ∧
    (l' = [] → ∀ irq, aff sw.2 irq =
       if bool_decide (irq = k) then canonical (config := config) a else aff w irq)) _ (λ _ _, True));
    [|intros errs [s1 w1] (Hs & l' & -> & Hl')|done].
  { apply wp_collect. eapply wp_conseq; [apply wp_affinity_write| |].
    - intros [] sw [Hs Ha]. split; [done|]. exists []. by rewrite app_nil_r.
    - intros e sw [Hs _]. destruct (is_Exception e); [|done]. split; [done|]. by eexists [_]. }
  simpl in Hs. subst s1.
  eapply wp_conseq; [apply wp_and; [by apply IH|apply restore_irqs_spec]| |done].
  intros errs' [s2 w2] (Ha2 & l2 & -> & _) Heq irq. simpl in *.
  rewrite <- app_assoc in Heq. apply app_self_nil in Heq as [-> ->]%app_eq_nil.
  rewrite !app_nil_r in Ha2. rewrite Ha2 by done. rewrite (Hl' eq_refl).
  case_bool_decide; [subst irq|done]. by apply zget_None in Hk as ->.
Qed.

Lemma collect_extends label (m : M state unit) errors s w :
  wp (collect label m errors) (λ errs _, ∃ l, errs = errors ++ l) (λ _ _, True) (s, w).
Proof.
  apply wp_collect. unfold wp. destruct (m (s, w)) as [[[]|e] sw].
  - exists []. by rewrite app_nil_r.
  - destruct (is_Exception e); [by eexists|done].
Qed.
Lemma restore_cgroup_extends errors s w :
  wp (restore_cgroup config errors) (λ errs _, ∃ l, errs = errors ++ l) (λ _ _, True) (s, w).
Proof.
  unfold restore_cgroup. apply wp_bind, wp_self, wp_bind, wp_self.
  destruct (cgroup_path s), (cgroup_created s); try apply collect_extends.
  all: apply wp_ret; exists []; by rewrite app_nil_r.
Qed.
Lemma restore_controller_extends errors s w :
  wp (restore_controller config errors) (λ errs _, ∃ l, errs = errors ++ l) (λ _ _, True) (s, w).
Proof.
  unfold restore_controller. apply wp_bind, wp_self.
  destruct (controller_enabled_by_us s); [apply collect_extends|].
  apply wp_ret; exists []; by rewrite app_nil_r.
Qed.

Lemma restore_affinity aff0 s w :
  intact aff0 (s, w) → (∀ irq, canonical (config := config) (aff0 irq) = aff0 irq) →
  wp (restore config) (λ _ sw, ∀ irq, aff sw.2 irq = aff0 irq) (λ _ _, True) (s, w).
Proof.
  intros [Hnd Hi] Hcan. simpl in Hnd, Hi. unfold restore. apply wp_bind, wp_self.
  destruct (touched s) eqn:Ht; simpl.
  2: { apply touched_clean in Ht as (_&_&_&_&Ho). apply wp_ret. intros irq.
       specialize (Hi irq). by rewrite Ho in Hi. }
  apply wp_bind. eapply wp_conseq; [apply (wp_and_within frame); [|apply restore_process_spec]| |done].
  { unfold restore_process, collect. frames. }
  intros errs [s1 w1] ((l1 & -> & Hs1) & [_ Ha1]). simpl in Hs1, Ha1. subst s1.
  apply wp_bind, wp_self, wp_bind.
  eapply wp_conseq; [apply wp_and; [by apply restore_irqs_affinity|apply restore_irqs_spec]| |done].
  intros errs [s2 w2] (Ha2 & l2 & -> & Hs2). simpl in Hs2, Ha2. subst s2.
  apply wp_bind, wp_set_self.
  assert (l1 ++ l2 = [] → ∀ irq, aff w2 irq = aff0 irq) as Hdone.
  { intros [-> ->]%app_eq_nil irq. rewrite Ha2 by done. specialize (Hi irq).
    destruct (zget irq _) as [a|]; [by rewrite Hi|by rewrite Ha1]. }
  apply wp_bind. eapply wp_conseq; [apply (wp_and_within frame); [|apply restore_cgroup_extends]| |done].
  { unfold restore_cgroup, collect. frames. }
  intros errs [s3 w3] ((l3 & ->) & [_ Ha3]). simpl in Ha3.
  apply wp_bind. eapply wp_conseq;
    [apply (wp_and_within frame); [|apply restore_controller_extends]| |done].
  { unfold restore_controller, collect. frames. }
  intros errs [s4 w4] ((l4 & ->) & [_ Ha4]). simpl in Ha4.
  apply wp_bind, wp_set_self, wp_bind, wp_set_self.
  unfold raise_errors. apply wp_when; intros Herr; [done|]. intros irq. simpl.
  apply negb_false_iff, bool_decide_eq_true in Herr as [[Hl _]%app_eq_nil _]%app_eq_nil.
  by rewrite Ha4, Ha3, Hdone.
Qed.

(** Nothing recorded, every affinity as in [aff0]. *)
Definition calm (aff0 : Z → string) (sw : state) : Prop :=
  original_irq_affinities sw.1 = [] ∧ ∀ irq, aff sw.2 irq = aff0 irq.
Lemma calm_intact aff0 sw : calm aff0 sw → intact aff0 sw.
Proof. intros [Ho Ha]. split; rewrite Ho; [constructor|exact Ha]. Qed.
Lemma calm_frame aff0 x y : calm aff0 x → frame x y → calm aff0 y.
Proof.
  intros [Ho Ha] [Ho' Ha']. split; [congruence|]. intros irq. by rewrite Ha'.
Qed.
Lemma wp_calm {A B} (m : M state A) (k : A → M state B) aff0 Q (E : exn → state → Prop) sw :
  within frame m → calm aff0 sw → (∀ a sw', calm aff0 sw' → wp (k a) Q E sw') →
  (∀ e sw', calm aff0 sw' → E e sw') → wp (bind m k) Q E sw.
Proof.
  intros Hm Hc Hk HE. apply wp_bind. eapply wp_within; [exact Hm| |]; eauto using calm_frame.
Qed.

Lemma rollback_affinity aff0 e sw :
  intact aff0 sw → (∀ irq, canonical (config := config) (aff0 irq) = aff0 irq) →
  wp (try_except is_Exception (restore config)
        (λ c, throw RuntimeError
           ("CPU isolation setup failed and cleanup also failed: " +:+ exn_msg c)) ;;
      rethrow (A := pydict) e)
    (λ _ _, False)
    (λ e' sw', is_Exception e' = true → rollback_failure e' ∨ ∀ irq, aff sw'.2 irq = aff0 irq) sw.
Proof.
  intros Hi Hcan. destruct sw as [s w].
  apply wp_bind, wp_try. eapply wp_conseq; [by apply restore_affinity| |].
  - intros [] sw' Ha. apply wp_rethrow. auto.
  - intros c sw' _. cbv beta. destruct (is_Exception c) eqn:Hc; [|congruence].
    apply wp_throw. intros _. left. by eexists.
Qed.

Lemma prepare_affinity record_dir s w :
  clean s →
  wp (prepare config record_dir) (λ _ sw, intact (aff w) sw)
    (λ e sw, is_Exception e = true → rollback_failure e ∨ ∀ irq, aff sw.2 irq = aff w irq)
    (s, w).
Proof.
  intros (Hact & _ & _ & _ & Ho).
  assert (calm (aff w) (s, w)) as Hi by done.
  assert (∀ irq, canonical (config := config) (aff w irq) = aff w irq) as Hcan
    by (intros irq; apply affinity_canonical).
  revert Hi Hcan. generalize (aff w). intros aff0 Hi Hcan.
  unfold prepare. destruct (negb (enabled config)); [by apply calm_intact|].
  apply wp_bind, wp_self. rewrite Hact.
  assert (∀ e sw, calm aff0 sw → is_Exception e = true →
    rollback_failure e ∨ ∀ irq, aff sw.2 irq = aff0 irq) as HE by (intros e sw [_ Ha]; auto).
  eapply wp_calm; [apply frame_validate|done| |by auto]. intros _ sw1 H1.
  eapply wp_calm; [frames|done| |by auto]. intros pid sw2 H2.
  eapply wp_calm; [frames|done| |by auto]. intros exists_ sw3 H3.
  destruct exists_; [by apply wp_throw, HE|].
  eapply wp_calm; [frames|done| |by auto]. intros old sw4 H4.
  eapply wp_calm; [frames|done| |by auto]. intros _ sw5 H5.
  eapply wp_calm; [unfold current_process_cgroup; frames|done| |by auto]. intros cg sw6 H6.
  eapply wp_calm; [frames|done| |by auto]. intros _ sw7 H7.
  eapply wp_calm; [frames|done| |by auto]. intros subtree sw8 H8.
  apply wp_bind. eapply wp_conseq;
    [apply wp_and; [apply discover_keyed|
       apply (wp_within frame _ (λ _, calm aff0) (λ _, calm aff0)); [apply frame_discover| |];
         intros; by eapply calm_frame]| |].
  2: { intros e sw9 [_ H9]. by apply HE. }
  intros irqs sw9 [(ks & Hnd & Hks) H9].
  eapply wp_calm; [unfold canonical_cpus; frames|done| |by auto]. intros h sw10 H10.
  eapply wp_calm; [unfold canonical_cpus; frames|done| |by auto]. intros b [s11 w11] H11.
  apply wp_try. eapply wp_conseq;
    [eapply prepare_body_intact; [done..|apply H11|by apply calm_intact]|done|].
  intros e sw12 H12. cbv beta in *. destruct (is_Exception e) eqn:He; [|congruence].
  by eapply wp_conseq; [apply rollback_affinity| |].
Qed.
End affinity.

(** ** A kernel *)

Lemma str_Z_no_slash z : in_string "/"%char (str_Z z) = false.
Proof.
  unfold str_Z. destruct z as [|p|p]; [done| |].
  all: change (in_string "/"%char (pretty (N.pos p)) = false).
  all: apply digits_no_char; [|done]; apply pretty_N_digits.
Qed.
Lemma str_Z_first z a s : str_Z z = String a s → py_isdigit_char a || bool_decide (a = "-"%char) = true.
Proof.
  unfold str_Z. destruct z as [|p|p]; [by intros [= <- <-]| |by intros [= <- <-]].
  intros Hp. pose proof (pretty_N_digits (N.pos p)) as Hd.
  change (pretty (Z.pos p)) with (pretty (N.pos p)) in Hp. rewrite Hp in Hd.
  cbn in Hd. apply andb_true_iff in Hd as [-> _]. done.
Qed.
Lemma path_parts_str_Z z : path_parts (str_Z z) = [str_Z z].
Proof.
  unfold path_parts. rewrite py_split_none by apply str_Z_no_slash.
  rewrite filter_cons_True; [done|]. split; [apply str_Z_not_empty|].
  intros Hz. pose proof (int_of_str_Z z) as Hi. by rewrite Hz in Hi.
Qed.

Lemma demo_irq_path irq :
  irq_affinity_path demo_config irq =
  py_join "/" ["/proc/irq"; str_Z irq; "smp_affinity_list"].
Proof.
  unfold irq_affinity_path. change (proc_root demo_config // "irq") with "/proc/irq".
  assert ("/proc/irq" // str_Z irq = "/proc/irq/" +:+ str_Z irq) as ->.
  { unfold pjoin. rewrite path_parts_str_Z.
    destruct (py_startswith "/" (str_Z irq)) eqn:Hs; [|by simpl].
    apply py_startswith_inv in Hs. rewrite string_app_cons in Hs.
    by apply str_Z_first in Hs. }
  unfold pjoin. change (path_parts "smp_affinity_list") with ["smp_affinity_list"].
  rewrite !bool_decide_eq_false_2 by done. simpl. by rewrite !string_app_assoc.
Qed.

Lemma demo_irq_split irq :
  py_split "/"%char (irq_affinity_path demo_config irq) =
  [""; "proc"; "irq"; str_Z irq; "smp_affinity_list"].
Proof.
  assert (irq_affinity_path demo_config irq =
    py_join (String "/"%char "") [""; "proc"; "irq"; str_Z irq; "smp_affinity_list"]) as ->
    by (rewrite demo_irq_path; done).
  apply py_split_join; [done|]. repeat constructor. apply str_Z_no_slash.
Qed.

(** The interrupt an affinity file belongs to. *)
Definition irq_of_path (p : string) : option Z :=
  match py_split "/"%char p with
  | [_; _; _; s; _] =>
      irq ← int_of_string s;
      if bool_decide (p = irq_affinity_path demo_config irq) then Some irq else None
  | _ => None
  end.
Lemma irq_of_path_spec p irq : irq_of_path p = Some irq ↔ p = irq_affinity_path demo_config irq.
Proof.
  split.
  - unfold irq_of_path. repeat case_match; try done. intros (k & _ & Hk)%bind_Some.
    by case_bool_decide; simplify_eq.
  - intros ->. unfold irq_of_path. rewrite demo_irq_split, int_of_str_Z. cbn -[irq_affinity_path].
    by rewrite bool_decide_eq_true_2.
Qed.

(** The machine of [CpuIsolationSpec] with a function for the affinities. *)
Definition kmachine : Type := machine * (Z → string).
Definition demo_tee (cmd : list string) : option Z :=
  match cmd with
  | [sudo; flag; tee; p] =>
      if bool_decide (sudo = "sudo" ∧ flag = "--non-interactive" ∧ tee = "tee")
      then irq_of_path p else None
  | _ => None
  end.
Definition delegate {A} (c : syscall A) (w : kmachine) : outcome A * kmachine :=
  let '(r, m) := @sim_handle (demo_commands (λ _, false)) A c w.1 in (r, (m, w.2)).
Definition khandle {A} (c : syscall A) : kmachine → outcome A * kmachine :=
  match c in syscall A return kmachine → outcome A * kmachine with
  | ReadText p => λ w,
      match irq_of_path p with
      | Some irq => (if bool_decide (py_strip (w.2 irq) = w.2 irq) then Ok (w.2 irq)
                     else missing p, w)
      | None => delegate (ReadText p) w
      end
  | RunCommand cmd input t => λ w,
      match demo_tee cmd with
      | Some irq => (exit_status 0 "",
                     (w.1, λ k, if bool_decide (k = irq) then tee_value input else w.2 k))
      | None => delegate (RunCommand cmd input t) w
      end
  | c => delegate c
  end.
#[export] Instance kernel_os : OS kmachine := @khandle.

Lemma demo_tee_spec cmd irq :
  demo_tee cmd = Some irq ↔ cmd = privileged demo_config ["tee"; irq_affinity_path demo_config irq].
Proof.
  split.
  - unfold demo_tee. repeat case_match; try done. rewrite irq_of_path_spec. intros ->.
    match goal with Hb : bool_decide _ = true |- _ => apply bool_decide_eq_true in Hb end.
    by destruct_and!; subst.
  - intros ->. cbn -[irq_affinity_path irq_of_path]. by apply irq_of_path_spec.
Qed.

#[export] Program Instance demo_kernel : IrqKernel demo_config kmachine := {|
  affinity w irq := w.2 irq;
  canonical v := v;
|}.
Next Obligation. done. Qed.
Next Obligation.
  intros irq w. unfold handle, kernel_os, khandle.
  assert (irq_of_path (irq_affinity_path demo_config irq) = Some irq) as ->
    by by apply irq_of_path_spec.
  simpl. by case_bool_decide.
Qed.
Next Obligation.
  intros irq v w irq'. unfold handle, kernel_os, khandle.
  assert (demo_tee (privileged demo_config ["tee"; irq_affinity_path demo_config irq]) = Some irq)
    as -> by by apply demo_tee_spec.
  unfold exit_status, tee_value. rewrite py_removesuffix_app. simpl.
  repeat case_bool_decide; naive_solver.
Qed.
Next Obligation.
  intros A c w irq Hc. unfold handle, kernel_os. destruct c; try done.
  - simpl. case_match; [done|]. unfold delegate. by destruct (sim_handle _ _).
  - simpl. destruct (demo_tee command) as [k|] eqn:Hk.
    + apply demo_tee_spec in Hk. destruct Hc. by exists k.
    + unfold delegate. by destruct (sim_handle _ _).
  - unfold khandle, delegate. by destruct (sim_handle _ _).
  - unfold khandle, delegate. by destruct (sim_handle _ _).
  - unfold khandle, delegate. by destruct (sim_handle _ _).
Qed.

(** C3: The interrupt affinities survive a campaign.  On a kernel whose
    affinity files behave as documented, and for any campaign that writes no
    affinity itself: when [prepare], the campaign and [restore] all return,
    every interrupt of the machine has the affinity it had before; and when
    [prepare] raises an [Exception] whose rollback did not fail, they are
    unchanged as well. *)
Theorem affinities_survive_campaign {W} `{OS W} config `{!IrqKernel config W} record_dir
    (campaign : M (CpuIsolation * world W) unit) s w :
  clean s → within (frame config) campaign →
  match (prepare config record_dir ;; campaign ;; restore config) (s, w) with
  | (Ok _, (_, w')) => ∀ irq, aff config w' irq = aff config w irq
  | (Raise _, _) => True
  end ∧
  match prepare config record_dir (s, w) with
  | (Raise e, (_, w')) => is_Exception e = true →
      rollback_failure e ∨ ∀ irq, aff config w' irq = aff config w irq
  | (Ok _, _) => True
  end.
Proof.
  intros Hs Hcamp. pose proof (prepare_affinity config record_dir s w Hs) as Hp. split.
  - assert (wp (prepare config record_dir ;; campaign ;; restore config)
      (λ _ sw, ∀ irq, aff config sw.2 irq = aff config w irq) (λ _ _, True) (s, w)) as Hwp.
    { apply wp_bind. eapply wp_conseq; [exact Hp| |done]. intros _ [s1 w1] Hi.
      apply wp_bind. eapply wp_intact_frame; [exact Hcamp|exact Hi| |done].
      intros _ [s2 w2] _ Hi2. apply restore_affinity; [done|]. intros irq. apply affinity_canonical. }
    unfold wp in Hwp. by destruct ((prepare _ _ ;; _) _) as [[] []].
  - unfold wp in Hp. by destruct (prepare _ _ _) as [[] []].
Qed.

Definition demo_affinities : Z → string := λ irq, if bool_decide (irq = 98) then "0-3" else "7".
Definition demo_run : outcome unit * (CpuIsolation * world kmachine) :=
  (prepare demo_config "/rec" ;; sys (Sleep (f_of_Z 5)) ;; restore demo_config)
    (initial demo_config, World (demo_machine, demo_affinities) []).

Theorem affinities_survive_campaign_witness :
  returned demo_run = true ∧
  omap issued (w_log demo_run.2.2) !! 5%nat =
    Some (["sudo"; "--non-interactive"; "tee"; "/proc/irq/98/smp_affinity_list"], Some ("0-1" +:+ nl)) ∧
  ∀ irq, aff demo_config demo_run.2.2 irq = demo_affinities irq.
Proof.
  split; [vm_compute; reflexivity|]. split; [vm_compute; reflexivity|].
  pose proof (affinities_survive_campaign demo_config "/rec" (sys (Sleep (f_of_Z 5)))
    (initial demo_config) (World (demo_machine, demo_affinities) []) (clean_initial _)
    (frame_sys demo_config (Sleep (f_of_Z 5)) (λ x, x))) as [Hp _].
  assert (returned demo_run = true) as Hok by (vm_compute; reflexivity).
  unfold demo_run in *. by destruct ((_ ;; _) _) as [[] []].
Defined.
