(* ===== verification/Attempts.v ===== *)
(** * Attempts, recoveries and retries ([attempts.py], [results.py], [artifacts.py])

    The loop that repeats one benchmark point.  The callables it is given (run
    the attempt, classify it, recover, prepare, describe) are arguments, with
    their exceptions; the loop runs on any object state [T] and machine [W].
    The properties describe the list of attempts a run leaves behind. *)
From Stdlib Require Import Ascii ZArith Lia.
From S2P Require Import Prelude PyStr PyFloat PyVal Effects Machine.
From stdpp Require Import base gmap strings list.
Local Open Scope Z_scope.
Local Open Scope py_scope.
Local Open Scope M_scope.

Record AttemptDecision := {
  success : bool;
  failure_phase : string;
  retry : bool;
  recover : bool;
  error : string;
  metadata : pydict;
}.

Record AttemptLoopResult := {
  output : string;
  summary : pydict;
  selected_attempt : Z;
  selected_attempt_dir : string;
  attempts : list pydict;
  recoveries : list pydict;
  recovery : pydict;
}.

(** The errors that are not empty, as text. *)
Definition recovery_errors (recoveries : list pydict) : list string :=
  omap (λ item, let e := dgetd "error" VNone item in
                if truthy e then Some (str_val e) else None) recoveries.

Definition aggregate_recoveries (recovery_method : string) (recoveries : list pydict) : pydict :=
  let errors := recovery_errors recoveries in
  let aggregate :=
    [("attempted", VBool (negb (bool_decide (recoveries = []))));
     ("method", VStr recovery_method);
     ("count", VInt (Z.of_nat (length recoveries)))] in
  let aggregate :=
    if bool_decide (recoveries = []) then aggregate
    else dset "success"
           (VBool (forallb (λ item, truthy (dgetd "success" (VBool false) item)) recoveries))
           aggregate in
  if bool_decide (errors = []) then aggregate
  else dset "error" (VStr (py_join " | " errors)) aggregate.

Definition attempt_record (attempt : Z) (dir : string) (decision : AttemptDecision) : pydict :=
  dupdate [("attempt", VInt attempt); ("success", VBool (success decision));
           ("failure_phase", VStr (failure_phase decision)); ("error", VStr (error decision));
           ("record_data_dir", VStr dir)] (metadata decision).

(** What one pass of the loop leaves in its variables. *)
Record attempt_step := Step {
  st_output : string;
  st_summary : pydict;
  st_decision : AttemptDecision;
  st_record : pydict;
  st_recovery : option pydict;
}.

(** [item["success"]] of an attempt record. *)
Definition record_success (item : pydict) : bool := truthy (dgetd "success" VNone item).

Section loop.
Context {W : Type} `{OS W} {T : Type}.
Abbreviation IO := (M (T * world W)).

(** The arguments of [run_attempt_loop]. *)
Record loop_arguments := {
  record_dir : string;
  max_attempts : Z;
  recovery_method : string;
  recovery_settle_seconds : f64;
  run_attempt : Z → string → IO (string * pydict);
  classify_attempt : pydict → outcome AttemptDecision;
  recover_attempt : option (pydict → string → AttemptDecision → IO pydict);
  before_attempt : option (Z → string → IO unit);
  build_attempt_record : option (pydict → AttemptDecision → outcome pydict);
}.

Section arguments.
Context (args : loop_arguments).

Definition attempt_dir (attempt : Z) : string := record_dir args // ("attempt-" +:+ str_Z attempt).

(** Whether a failed attempt is recovered, and how. *)
Definition recovery_for (d : AttemptDecision) : option (pydict → string → AttemptDecision → IO pydict) :=
  if negb (success d) && recover d && negb (bool_decide (recovery_method args = "none"))
  then recover_attempt args else None.

(** The body of the loop up to [attempts.append]. *)
Definition one_attempt (attempt : Z) : IO attempt_step :=
  let dir := attempt_dir attempt in
  match before_attempt args with Some f => f attempt dir | None => ret () end ;;
  os <- run_attempt args attempt dir ;;
  let '(output, summary) := os in
  decision <- lift (classify_attempt args summary) ;;
  let record := attempt_record attempt dir decision in
  record <- match build_attempt_record args with
            | Some build => extra <- lift (build summary decision) ;; ret (dupdate record extra)
            | None => ret record
            end ;;
  match recovery_for decision with
  | Some f =>
      recovery <- f summary dir decision ;;
      ret (Step output summary decision (dset "recovery" (VDict recovery) record) (Some recovery))
  | None => ret (Step output summary decision record None)
  end.

Definition retry_after (attempt : Z) (st : attempt_step) : bool :=
  negb (success (st_decision st)) && retry (st_decision st)
  && bool_decide (attempt < max_attempts args).

Definition settle : IO unit :=
  when (f_gt_Z (recovery_settle_seconds args) 0) (sys (Sleep (recovery_settle_seconds args))).

(** [for attempt in range(attempt, attempt + n)]: the passes made. *)
Fixpoint attempt_loop (n : nat) (attempt : Z) : IO (list attempt_step) :=
  match n with
  | O => ret []
  | Datatypes.S n =>
      st <- one_attempt attempt ;;
      if negb (retry_after attempt st) then ret [st] else
      settle ;;
      sts <- attempt_loop n (attempt + 1) ;;
      ret (st :: sts)
  end.

Definition loop_summary (sts : list attempt_step) (final : attempt_step) : pydict :=
  let attempts := map st_record sts in
  dupdate (st_summary final)
    [("attempt_count", VInt (Z.of_nat (length attempts)));
     ("failed_attempt_count",
        VInt (Z.of_nat (length (filter (λ item, record_success item = false) attempts))));
     ("initial_attempt_success",
        VBool (match attempts with item :: _ => record_success item | [] => false end));
     ("eventual_success", VBool (success (st_decision final)));
     ("selected_attempt", VInt (Z.of_nat (length sts)));
     ("attempts", VList (map VDict attempts));
     ("recovery", VDict (aggregate_recoveries (recovery_method args) (omap st_recovery sts)))].

Definition run_attempt_loop : IO AttemptLoopResult :=
  if bool_decide (max_attempts args < 1)
  then throw ValueError "max_attempts must be at least one" else
  sts <- attempt_loop (Z.to_nat (max_attempts args)) 1 ;;
  match last sts with
  | None => throw RuntimeError "No benchmark attempt was executed"
  | Some final =>
      let n := Z.of_nat (length sts) in
      ret {| output := st_output final;
             summary := loop_summary sts final;
             selected_attempt := n;
             selected_attempt_dir := attempt_dir n;
             attempts := map st_record sts;
             recoveries := omap st_recovery sts;
             recovery := aggregate_recoveries (recovery_method args) (omap st_recovery sts) |}
  end.
End arguments.
End loop.
Arguments loop_arguments : clear implicits.

(** ** The retry policy *)

Section policy.
Context {W : Type} `{OS W} {T : Type} (args : loop_arguments W T).
Implicit Types sw : T * world W.

(** What pass [k] of the loop leaves: its decision classifies its summary, its
    record starts from the attempt's own, and a recovery ran exactly when the
    decision asks for one. *)
Definition step_of (k : Z) (st : attempt_step) : Prop :=
  classify_attempt args (st_summary st) = Ok (st_decision st) ∧
  (is_Some (st_recovery st) ↔ is_Some (recovery_for args (st_decision st))) ∧
  ∃ extra,
    match build_attempt_record args with
    | Some build => build (st_summary st) (st_decision st) = Ok extra | None => extra = [] end ∧
    st_record st =
    let record := dupdate (attempt_record k (attempt_dir args k) (st_decision st)) extra in
    match st_recovery st with
    | Some r => dset "recovery" (VDict r) record | None => record end.

Lemma one_attempt_step k sw : wp (one_attempt args k) (λ st _, step_of k st) (λ _ _, True) sw.
Proof.
  unfold one_attempt. apply wp_skip; [intros _ s1|done]. apply wp_skip; [intros [out sum] s2|done].
  apply wp_bind, wp_lift. destruct (classify_attempt args sum) as [d|] eqn:Hd; [|done].
  apply wp_bind.
  apply (wp_conseq _ (λ record _, ∃ extra,
    match build_attempt_record args with
    | Some build => build sum d = Ok extra | None => extra = [] end ∧
    record = dupdate (attempt_record k (attempt_dir args k) d) extra) _ (λ _ _, True)); [| |done].
  { destruct (build_attempt_record args) as [build|].
    - apply wp_bind, wp_lift. destruct (build sum d) as [extra|] eqn:Hb; [|done].
      apply wp_ret. by exists extra.
    - apply wp_ret. by exists []. }
  intros record s3 (extra & Hb & ->). destruct (recovery_for args d) as [f|] eqn:Hf.
  - apply wp_skip; [intros r s4|done]. apply wp_ret. split_and!; simpl; [done|by rewrite Hf|by exists extra].
  - apply wp_ret. split_and!; simpl; [done|by rewrite Hf; split; intros []|by exists extra].
Qed.

(** Pass [k] of the loop from [x] to [y], as its callables were run: the attempt
    itself, whose output and summary the step holds, behind the preparation, and
    the recovery when there is one, whose report the step holds. *)
Definition attempt_ran (k : Z) (x : T * world W) (st : attempt_step) (y : T * world W) : Prop :=
  let dir := attempt_dir args k in
  ∃ x1 x2,
    match before_attempt args with Some f => f k dir x = (Ok (), x1) | None => x1 = x end ∧
    run_attempt args k dir x1 = (Ok (st_output st, st_summary st), x2) ∧
    match recovery_for args (st_decision st) with
    | Some f => ∃ r, f (st_summary st) dir (st_decision st) x2 = (Ok r, y) ∧ st_recovery st = Some r
    | None => y = x2 ∧ st_recovery st = None
    end.
(** A run of the loop from pass [k] on: a pass after which the loop stops, or a
    pass, the pause, and the rest. *)
Inductive attempts_ran : Z → T * world W → list attempt_step → T * world W → Prop :=
  | LastAttempt k x st y :
      attempt_ran k x st y → retry_after args k st = false → attempts_ran k x [st] y
  | RetriedAttempt k x st y z sts final :
      attempt_ran k x st y → retry_after args k st = true → settle args y = (Ok (), z) →
      attempts_ran (k + 1) z sts final → attempts_ran k x (st :: sts) final.

(** A computation that returns took the step it took. *)
Lemma wp_then {A B} (m : M (T * world W) A) (k : A → M (T * world W) B) Q E sw :
  (∀ a s1, m sw = (Ok a, s1) → wp (k a) Q E s1) → (∀ e s1, E e s1) → wp (bind m k) Q E sw.
Proof. intros Hk HE. apply wp_bind. unfold wp at 1. destruct (m sw) as [[a|e] s1]; auto. Qed.

Lemma one_attempt_ran k sw : wp (one_attempt args k) (λ st sw', attempt_ran k sw st sw') (λ _ _, True) sw.
Proof.
  unfold one_attempt, attempt_ran. apply wp_then; [intros [] s1 Hbefore|done].
  assert (match before_attempt args with
          | Some f => f k (attempt_dir args k) sw = (Ok (), s1) | None => s1 = sw end) as Hb.
  { destruct (before_attempt args); [done|]. by injection Hbefore. }
  apply wp_then; [intros [out sum] s2 Hrun|done].
  apply wp_bind, wp_lift. destruct (classify_attempt args sum) as [d|]; [|done].
  apply wp_bind. apply (wp_conseq _ (λ _ s3, s3 = s2) _ (λ _ _, True)); [| |done].
  { destruct (build_attempt_record args) as [build|]; [|done]. apply wp_bind, wp_lift. by destruct (build sum d). }
  intros record s3 ->. destruct (recovery_for args d) as [f|] eqn:Hf.
  - apply wp_then; [intros r s4 Hr|done]. apply wp_ret. exists s1, s2. simpl. rewrite Hf. eauto.
  - apply wp_ret. exists s1, s2. simpl. by rewrite Hf.
Qed.
Lemma attempt_loop_ran n k sw :
  0 < Z.of_nat n → k + Z.of_nat n = max_attempts args + 1 →
  wp (attempt_loop args n k) (λ sts sw', attempts_ran k sw sts sw') (λ _ _, True) sw.
Proof.
  revert k sw. induction n as [|n IH]; intros k sw Hn Hk; [lia|]. simpl.
  apply wp_bind. eapply wp_conseq; [apply one_attempt_ran| |done]. intros st s1 Hst. cbv beta in Hst.
  destruct (retry_after args k st) eqn:Hr; simpl; [|apply wp_ret; by constructor].
  apply wp_then; [intros [] s2 Hs|done]. apply wp_bind.
  assert (k < max_attempts args).
  { unfold retry_after in Hr. by apply andb_true_iff in Hr as [_ Hlt%bool_decide_eq_true]. }
  eapply wp_conseq; [apply IH; lia| |done]. intros sts s3 Hsts. apply wp_ret. by econstructor.
Qed.

(** The last step of a run of the loop is that of an attempt that was run, with
    the number and the directory of the last pass. *)
Lemma attempts_ran_last k x sts y :
  attempts_ran k x sts y →
  ∃ final x', last sts = Some final ∧ attempt_ran (k + Z.of_nat (length sts) - 1) x' final y.
Proof.
  induction 1 as [k x st y Hst Hr|k x st y z sts w Hst Hr Hs Hrest IH].
  - exists st, x. split; [done|]. cbn [length].
    assert (k + Z.of_nat 1 - 1 = k) as -> by lia. done.
  - destruct IH as (final & x' & Hl & Hf). exists final, x'. split; [by rewrite last_cons, Hl|].
    cbn [length].
    assert (k + Z.of_nat (Datatypes.S (length sts)) - 1 = k + 1 + Z.of_nat (length sts) - 1) as -> by lia. done.
Qed.

(** The passes from number [k] on: all but the last failed and asked for a
    retry, and the last is one after which the loop stops. *)
Definition passes (k : Z) (sts : list attempt_step) : Prop :=
  (∀ i st, sts !! i = Some st → step_of (k + Z.of_nat i) st) ∧
  ∃ before final, sts = before ++ [final] ∧
    Forall (λ st, success (st_decision st) = false ∧ retry (st_decision st) = true) before ∧
    retry_after args (k + Z.of_nat (length before)) final = false.

Lemma attempt_loop_passes n k sw :
  k + Z.of_nat n = max_attempts args + 1 → 0 < Z.of_nat n →
  wp (attempt_loop args n k) (λ sts _, passes k sts ∧ (length sts <= n)%nat) (λ _ _, True) sw.
Proof.
  revert k sw. induction n as [|n IH]; intros k sw Hk Hn; [lia|]. simpl.
  apply wp_bind. eapply wp_conseq; [apply one_attempt_step| |done]. intros st s1 Hst. cbv beta in Hst.
  destruct (retry_after args k st) eqn:Hr; simpl.
  - assert (Hretry := Hr). unfold retry_after in Hretry.
    apply andb_true_iff in Hretry as [Hretry Hlt%bool_decide_eq_true].
    apply andb_true_iff in Hretry as [Hs%negb_true_iff Hre].
    apply wp_skip; [intros _ s2|done]. apply wp_bind.
    eapply wp_conseq; [apply IH; lia| |done]. intros sts s3 [[Hsteps Hp] Hlen]. apply wp_ret.
    destruct Hp as (before & final & -> & Hb & Hf). split; [split|simpl; lia].
    + intros [|i] st' Hi; [simplify_eq/=; by rewrite Z.add_0_r|].
      replace (k + Z.of_nat (Datatypes.S i)) with (k + 1 + Z.of_nat i) by lia. by apply Hsteps.
    + exists (st :: before), final. split_and!; [done|by constructor|].
      rewrite <- Hf. f_equal. simpl length. lia.
  - apply wp_ret. split; [split|simpl; lia].
    + intros [|i] st' Hi; simplify_eq/=. by rewrite Z.add_0_r.
    + exists [], st. split_and!; [done|constructor|]. simpl. by rewrite Z.add_0_r.
Qed.

Lemma last_retry_stops k st :
  retry_after args k st = false → 0 < k →
  success (st_decision st) = true ∨ retry (st_decision st) = false ∨ max_attempts args <= k.
Proof.
  unfold retry_after. intros Hr Hk. destruct (success _), (retry _); auto. simpl in Hr.
  apply bool_decide_eq_false in Hr. right. right. lia.
Qed.
End policy.

(** ** Termination *)

(** The callables return whenever they are called. *)
Record answers {W} `{OS W} {T} (args : loop_arguments W T) : Prop := {
  answers_run k dir sw : returned (run_attempt args k dir sw) = true;
  answers_classify summary : is_ok (classify_attempt args summary) = true;
  answers_recover f summary dir d sw :
    recover_attempt args = Some f → returned (f summary dir d sw) = true;
  answers_before f k dir sw : before_attempt args = Some f → returned (f k dir sw) = true;
  answers_build f summary d : build_attempt_record args = Some f → is_ok (f summary d) = true;
  answers_sleep t (w : W) : is_ok (handle (Sleep t) w).1 = true;
}.

Section returns.
Context {W : Type} `{OS W} {T : Type} (args : loop_arguments W T) (Hargs : answers args).
Implicit Types sw : T * world W.

Lemma wp_returned {A} (m : M (T * world W) A) (Q : A → T * world W → Prop) sw :
  returned (m sw) = true → (∀ a sw', Q a sw') → wp m Q (λ _ _, False) sw.
Proof. unfold wp. destruct (m sw) as [[] ?]; [eauto|done]. Qed.
Lemma wp_lift_ok {A} (o : outcome A) (Q : A → T * world W → Prop) sw :
  is_ok o = true → (∀ a, Q a sw) → wp (lift o) Q (λ _ _, False) sw.
Proof. intros Ho HQ. apply wp_lift. by destruct o. Qed.

Lemma one_attempt_returns k sw : wp (one_attempt args k) (λ _ _, True) (λ _ _, False) sw.
Proof.
  unfold one_attempt. apply wp_bind, wp_returned.
  { destruct (before_attempt args) eqn:Hb; [by apply (answers_before args Hargs)|done]. }
  intros _ s1. apply wp_bind, wp_returned; [apply Hargs|]. intros [out sum] s2.
  apply wp_bind, wp_lift_ok; [apply Hargs|]. intros d. apply wp_bind.
  apply (wp_conseq _ (λ _ _, True) _ (λ _ _, False)); [|intros record s3 _|done].
  { destruct (build_attempt_record args) eqn:Hb; [|done].
    apply wp_bind, wp_lift_ok; [by apply (answers_build args Hargs)|done]. }
  destruct (recovery_for args d) as [f|] eqn:Hf; [|done].
  apply wp_bind, wp_returned; [|done]. eapply (answers_recover args Hargs).
  unfold recovery_for in Hf. by case_match.
Qed.

Lemma settle_returns sw : wp (settle args) (λ _ _, True) (λ _ _, False) sw.
Proof.
  unfold settle. apply wp_when; [intros _|done]. destruct sw as [s w]. apply wp_sys.
  intros r o Hr. pose proof (answers_sleep args Hargs (recovery_settle_seconds args) (w_os w)) as Hs.
  rewrite Hr in Hs. by destruct r.
Qed.

Lemma attempt_loop_returns n k sw :
  wp (attempt_loop args (Datatypes.S n) k) (λ sts _, sts ≠ []) (λ _ _, False) sw.
Proof.
  revert k sw. induction n as [|n IH]; intros k sw; cbn [attempt_loop].
  all: apply wp_bind; eapply wp_conseq; [apply one_attempt_returns| |done]; intros st s1 _; cbv beta.
  all: destruct (negb (retry_after args k st)); [done|].
  all: apply wp_bind; eapply wp_conseq; [apply settle_returns| |done]; intros _ s2 _; cbv beta.
  - by apply wp_bind, wp_ret, wp_ret.
  - apply wp_bind. eapply wp_conseq; [apply IH| |done]. intros sts s3 _. by apply wp_ret.
Qed.
End returns.

(** ** Counting *)

(** Neither the metadata of a decision nor the adapter's own fields replace the
    [success] field of an attempt record. *)
Definition keeps_success {W} `{OS W} {T} (args : loop_arguments W T) : Prop :=
  (∀ summary d, classify_attempt args summary = Ok d → "success" ∉ dkeys (metadata d)) ∧
  (∀ build summary d extra, build_attempt_record args = Some build →
     build summary d = Ok extra → "success" ∉ dkeys extra).

Lemma step_success {W} `{OS W} {T} (args : loop_arguments W T) k st :
  keeps_success args → step_of args k st → record_success (st_record st) = success (st_decision st).
Proof.
  intros [Hc Hb] (Hd & _ & extra & He & Hr).
  assert ("success" ∉ dkeys extra) as Hx.
  { destruct (build_attempt_record args) as [build|] eqn:Hbuild; [by eapply Hb|by subst; apply not_elem_of_nil]. }
  assert (dget "success" (dupdate (attempt_record k (attempt_dir args k) (st_decision st)) extra)
          = Some (VBool (success (st_decision st)))) as Hget.
  { rewrite dget_dupdate by done. unfold attempt_record. by rewrite dget_dupdate by eauto. }
  unfold record_success, dgetd. rewrite Hr. simpl. destruct (st_recovery st).
  - by rewrite dget_dset_ne, Hget.
  - by rewrite Hget.
Qed.

Lemma passes_success {W} `{OS W} {T} (args : loop_arguments W T) before final k :
  keeps_success args → passes args k (before ++ [final]) →
  Forall (λ st, record_success (st_record st) = false) before ∧
  record_success (st_record final) = success (st_decision final).
Proof.
  intros Hk (Hsteps & before' & final' & [-> [= ->]]%app_inj_tail & Hb & _). split.
  - apply Forall_lookup. intros i st Hi. rewrite Forall_lookup in Hb.
    rewrite (step_success args (k + Z.of_nat i)); [by eapply Hb|done|].
    apply Hsteps. by apply lookup_app_l_Some.
  - eapply step_success; [done|]. apply (Hsteps (length before')).
    rewrite lookup_app_r by done. by rewrite Nat.sub_diag.
Qed.

Lemma failed_length before final :
  Forall (λ st, record_success (st_record st) = false) before →
  record_success (st_record final) = success (st_decision final) →
  Z.of_nat (length (filter (λ item, record_success item = false) (map st_record (before ++ [final]))))
  = Z.of_nat (length (before ++ [final])) - (if success (st_decision final) then 1 else 0).
Proof.
  intros Hb Hf. rewrite map_app, filter_app, !length_app, !Nat2Z.inj_add.
  assert (length (filter (λ item, record_success item = false) (map st_record before))
          = length before) as ->.
  { induction Hb as [|st before Hst Hb IH]; [done|]. simpl. rewrite filter_cons_True by done.
    simpl. by rewrite IH. }
  simpl. rewrite filter_cons, Hf. case_decide; destruct (success (st_decision final)); simpl; try done; lia.
Qed.

(** ** The properties *)

Lemma run_attempt_loop_ran {W} `{OS W} {T} (args : loop_arguments W T) s w :
  1 <= max_attempts args →
  wp (run_attempt_loop args)
    (λ r sw, ∃ sts final, passes args 1 sts ∧ attempts_ran args 1 (s, w) sts sw ∧ last sts = Some final ∧
       r = {| output := st_output final; summary := loop_summary args sts final;
              selected_attempt := Z.of_nat (length sts);
              selected_attempt_dir := attempt_dir args (Z.of_nat (length sts));
              attempts := map st_record sts; recoveries := omap st_recovery sts;
              recovery := aggregate_recoveries (recovery_method args) (omap st_recovery sts) |} ∧
       1 <= Z.of_nat (length sts) <= max_attempts args)
    (λ _ _, True) (s, w).
Proof.
  intros Hmax. unfold run_attempt_loop. rewrite bool_decide_eq_false_2 by lia.
  apply wp_bind. eapply wp_conseq.
  { apply wp_and; [apply attempt_loop_passes; lia|apply attempt_loop_ran; lia]. }
  2:{ done. }
  intros sts sw [[Hp Hlen] Hran]. assert (Hp' := Hp). destruct Hp' as (_ & before & final & -> & _).
  rewrite last_snoc. apply wp_ret. exists (before ++ [final]), final.
  rewrite last_snoc. split_and!; [done..| |lia]. rewrite length_app. simpl. lia.
Qed.
Lemma run_attempt_loop_passes {W} `{OS W} {T} (args : loop_arguments W T) s w :
  1 <= max_attempts args →
  wp (run_attempt_loop args)
    (λ r _, ∃ sts final, passes args 1 sts ∧ last sts = Some final ∧
       r = {| output := st_output final; summary := loop_summary args sts final;
              selected_attempt := Z.of_nat (length sts);
              selected_attempt_dir := attempt_dir args (Z.of_nat (length sts));
              attempts := map st_record sts; recoveries := omap st_recovery sts;
              recovery := aggregate_recoveries (recovery_method args) (omap st_recovery sts) |} ∧
       1 <= Z.of_nat (length sts) <= max_attempts args)
    (λ _ _, True) (s, w).
Proof.
  intros Hmax. eapply wp_conseq; [by apply run_attempt_loop_ran| |done].
  intros r sw (sts & final & Hp & _ & Hrest). by exists sts, final.
Qed.

(** The keys of the summary that the loop itself writes. *)
Definition loop_keys : list string :=
  ["attempt_count"; "failed_attempt_count"; "initial_attempt_success"; "eventual_success";
   "selected_attempt"; "attempts"; "recovery"].
Lemma loop_summary_other {W} `{OS W} {T} (args : loop_arguments W T) sts final key :
  key ∉ loop_keys → dget key (loop_summary args sts final) = dget key (st_summary final).
Proof. intros Hk. unfold loop_summary. by rewrite dget_dupdate. Qed.

(** C12: The retry policy.  When the loop returns, its run is a sequence of
    between one and [max_attempts] passes, numbered from one, the first from the
    machine the loop started on and the last to the machine it leaves: in each,
    the attempt was run after its preparation and its own summary was
    classified, and it was recovered exactly when it failed and asked for it;
    between two passes there was the pause.  Every attempt but the last failed
    and asked to be retried; the last succeeded, or asked not to be retried, or
    used up the budget.  The selected attempt is the last: the reported output
    is what the run of the attempt of that number, in the reported directory,
    gave last, and the reported summary agrees with the summary it gave on every
    field but the seven the loop writes.  The reported recoveries are what the
    recoveries gave, in order.  A budget below one is a [ValueError], raised
    before anything is done. *)
Theorem run_attempt_loop_policy {W} `{OS W} {T} (args : loop_arguments W T) s w :
  match run_attempt_loop args (s, w) with
  | (Ok r, sw) => ∃ sts,
      attempts_ran args 1 (s, w) sts sw ∧ passes args 1 sts ∧
      1 <= selected_attempt r <= max_attempts args ∧
      selected_attempt r = Z.of_nat (length sts) ∧
      selected_attempt_dir r = attempt_dir args (selected_attempt r) ∧
      attempts r = map st_record sts ∧ recoveries r = omap st_recovery sts ∧
      ∃ final x,
        last sts = Some final ∧ attempt_ran args (selected_attempt r) x final sw ∧
        (success (st_decision final) = true ∨ retry (st_decision final) = false ∨
         selected_attempt r = max_attempts args) ∧
        output r = st_output final ∧
        (∀ key, key ∉ loop_keys → dget key (summary r) = dget key (st_summary final)) ∧
        dget "selected_attempt" (summary r) = Some (VInt (selected_attempt r)) ∧
        dget "eventual_success" (summary r) = Some (VBool (success (st_decision final)))
  | (Raise e, sw) => max_attempts args < 1 → exn_type e = ValueError ∧ sw = (s, w)
  end.
Proof.
  destruct (decide (max_attempts args < 1)) as [Hlt|Hge].
  { unfold run_attempt_loop. rewrite bool_decide_eq_true_2 by done. done. }
  pose proof (run_attempt_loop_ran args s w) as Hwp. unfold wp in Hwp.
  destruct (run_attempt_loop args (s, w)) as [[r|e] sw]; [|done].
  destruct Hwp as (sts & final & Hp & Hran & Hl & -> & Hn); [lia|]. exists sts.
  destruct (attempts_ran_last _ _ _ _ _ Hran) as (final' & x & Hl' & Hx).
  rewrite Hl in Hl'. injection Hl' as <-. replace (1 + Z.of_nat (length sts) - 1)
    with (Z.of_nat (length sts)) in Hx by lia.
  split_and!; [done|done|simpl; lia|simpl; lia|done..|]. exists final, x. split_and!; try done.
  - destruct Hp as (_ & before & final' & -> & _ & Hr). rewrite last_snoc in Hl. simplify_eq.
    apply last_retry_stops in Hr; [|lia]. simpl. rewrite length_app in *. simpl in *.
    destruct Hr as [|[|]]; auto. right. right. lia.
  - intros key Hk. by apply loop_summary_other.
  - simpl. unfold loop_summary. apply dget_dupdate_in; [|set_solver].
    apply (bool_decide_unpack _). vm_compute. done.
  - simpl. unfold loop_summary. apply dget_dupdate_in; [|set_solver].
    apply (bool_decide_unpack _). vm_compute. done.
Qed.

(** The counts of the summary are those of the attempts made, provided the
    adapter leaves the [success] field alone: the failed ones are all of them,
    or all but the last if that one succeeded, and the initial attempt counts
    as a success only if it is also the last. *)
Theorem run_attempt_loop_counts {W} `{OS W} {T} (args : loop_arguments W T) s w :
  keeps_success args →
  match run_attempt_loop args (s, w) with
  | (Ok r, _) => ∃ b,
      dget "eventual_success" (summary r) = Some (VBool b) ∧
      dget "attempt_count" (summary r) = Some (VInt (selected_attempt r)) ∧
      dget "failed_attempt_count" (summary r) =
        Some (VInt (selected_attempt r - (if (b : bool) then 1 else 0))) ∧
      dget "initial_attempt_success" (summary r) =
        Some (VBool (b && bool_decide (selected_attempt r = 1)))
  | (Raise _, _) => True
  end.
Proof.
  intros Hk. destruct (decide (max_attempts args < 1)) as [Hlt|Hge].
  { unfold run_attempt_loop. by rewrite bool_decide_eq_true_2 by done. }
  pose proof (run_attempt_loop_passes args s w) as Hwp. unfold wp in Hwp.
  destruct (run_attempt_loop args (s, w)) as [[r|e] sw]; [|done].
  destruct Hwp as (sts & final & Hp & Hl & -> & Hn); [lia|]. simpl.
  assert (Hp' := Hp). destruct Hp' as (_ & before & final' & -> & _).
  rewrite last_snoc in Hl. simplify_eq.
  destruct (passes_success args before final 1 Hk Hp) as [Hb Hf].
  exists (success (st_decision final)). unfold loop_summary.
  split_and!; (erewrite dget_dupdate_in; [| |]);
    try (apply (bool_decide_unpack _); vm_compute; done);
    try (rewrite !elem_of_cons; naive_solver); [done|..]; do 2 f_equal.
  - by rewrite length_map.
  - by apply failed_length.
  - destruct before as [|st before]; simpl.
    + rewrite Hf. by rewrite andb_true_r.
    + apply Forall_cons in Hb as [-> _]. rewrite bool_decide_eq_false_2; [by rewrite andb_false_r|].
      rewrite length_app. simpl. lia.
Qed.

(** A camera that answers at the second attempt. *)
Definition demo_args `{OS machine} : loop_arguments machine unit := {|
  record_dir := "/rec"; max_attempts := 5; recovery_method := "full-reset";
  recovery_settle_seconds := f_of_Z 1;
  run_attempt k dir := ret (dir, [("success", VBool (bool_decide (1 < k)))]);
  classify_attempt summary :=
    let ok := truthy (dgetd "success" VNone summary) in
    Ok {| success := ok; failure_phase := "startup"; retry := negb ok; recover := negb ok;
          error := ""; metadata := [("measurement_started", VBool ok)] |};
  recover_attempt := Some (λ _ _ _, ret [("success", VBool true)]);
  before_attempt := None; build_attempt_record := None |}.

#[local] Instance no_commands : Commands := λ _ _ m, (exit_status 0 "", m).

Theorem run_attempt_loop_counts_witness :
  match run_attempt_loop demo_args ((), World empty_machine []) with
  | (Ok r, _) => dget "failed_attempt_count" (summary r) = Some (VInt 1) ∧ selected_attempt r = 2
  | (Raise _, _) => False
  end.
Proof.
  assert (keeps_success demo_args) as Hk.
  { split; [|done]. intros sum d [= <-]. simpl. set_solver. }
  pose proof (run_attempt_loop_counts demo_args () (World empty_machine []) Hk) as Hr.
  assert (match (run_attempt_loop demo_args ((), World empty_machine [])).1 with
          | Ok r => (selected_attempt r, dget "eventual_success" (summary r))
          | Raise _ => (0, None) end = (2, Some (VBool true))) as Hrun by (vm_compute; reflexivity).
  destruct (run_attempt_loop _ _) as [[r|e] ?]; simpl in Hrun; [|done].
  destruct Hr as (b & Hb & _ & Hf & _). injection Hrun as Hs He. rewrite He in Hb.
  injection Hb as <-. split; [|done]. by rewrite Hf, Hs.
Defined.

(** The loop terminates: with a positive budget, and callables that return
    whenever they are called, it returns a result. *)
Theorem run_attempt_loop_returns {W} `{OS W} {T} (args : loop_arguments W T) s w :
  answers args → 1 <= max_attempts args → returned (run_attempt_loop args (s, w)) = true.
Proof.
  intros Hargs Hmax. unfold run_attempt_loop. rewrite bool_decide_eq_false_2 by lia.
  destruct (Z.to_nat (max_attempts args)) as [|n] eqn:Hn; [lia|].
  pose proof (attempt_loop_returns args Hargs n 1 (s, w)) as Hwp. unfold wp in Hwp. unfold bind.
  destruct (attempt_loop args (Datatypes.S n) 1 (s, w)) as [[sts|e] sw]; [|done].
  destruct (last sts) eqn:Hl; [done|]. by apply last_None in Hl.
Qed.

Theorem run_attempt_loop_returns_witness :
  returned (run_attempt_loop demo_args ((), World empty_machine [])) = true.
Proof.
  apply run_attempt_loop_returns; [|vm_compute; done].
  split; intros; simpl in *; simplify_eq; done.
Defined.
