(* ===== verification/SteadyAttempts.v ===== *)
(** * The steady-state adapter and its artifacts ([steady_attempts.py], [artifacts.py])

    The classification of a steady-state attempt, the files a run leaves, and
    the functions that find the selected attempt again.  The interface
    [TextFiles] states what is used of the file system; the round trip from
    [run_steady_attempts] to [resolve_selected_attempt] is proved over it. *)
From Stdlib Require Import Ascii ZArith Lia.
From S2P Require Import Prelude PyStr PyFloat PyVal Effects Machine Attempts.
From stdpp Require Import base gmap strings list.
Local Open Scope Z_scope.
Local Open Scope py_scope.
Local Open Scope M_scope.

(** ** [steady_attempts.py] *)

Definition measurement_started (summary : pydict) : outcome bool :=
  measurement ← as_dict (dgetd "measurement" (VDict []) summary);
  let value := dgetd "start_boottime_ns" (VInt 0) measurement in
  n ← py_int (if truthy value then value else VInt 0);
  mret (negb (bool_decide (n = 0))).

(** The serials of a probe, and its RSUSB ports by serial. *)
Definition probe_serials (probe : pydict) : outcome (list pyval) :=
  match dgetd "serials" (dgetd "serial" (VList []) probe) probe with
  | VStr s => Ok (if bool_decide (s = "") then [] else [VStr s])
  | v => as_list v
  end.
Definition rsusb_ports (serials usb_devices : list pyval) : list (string * string) :=
  foldl (λ ports p, dset (str_val p.1) ("/sys/bus/usb/devices/" +:+ str_val p.2) ports) []
        (zip serials usb_devices).

Definition with_port (ports : list (string * string)) (descriptor : pydict) : pydict :=
  match dget (str_val (dgetd "serial" (VStr "") descriptor)) ports with
  | Some port => if bool_decide (port = "") then descriptor
                 else dset "physical_port" (VStr port) descriptor
  | None => descriptor
  end.
Definition serial_descriptor (ports : list (string * string)) (serial : pyval) : pydict :=
  ("serial", VStr (str_val serial)) ::
  match dget (str_val serial) ports with
  | Some port => [("physical_port", VStr port)] | None => [] end.

Definition camera_descriptors (case summary : pydict) : outcome (list pydict) :=
  probe ← as_dict (dgetd "probe" (VDict []) case);
  serials ← probe_serials probe;
  usb_devices ← as_list (dgetd "rsusb_usb_devices" (VList []) probe);
  let ports := rsusb_ports serials usb_devices in
  match dgetd "cameras" (VList []) summary with
  | VList ((_ :: _) as cameras) =>
      mret (map (with_port ports)
                (omap (λ c, match c with VDict d => Some d | _ => None end) cameras))
  | _ => mret (map (serial_descriptor ports) serials)
  end.

Definition SETUP_ERRORS : list string :=
  ["SCHED_DEADLINE setup failed:"; "Rate-monotonic setup failed:"].
Definition retryable_phases : list string := ["startup"; "noise_transition"; "measurement"].

Definition attempt_phase (success started : bool) (error : string) : string :=
  if success then "none"
  else if existsb (λ p, py_startswith p error) SETUP_ERRORS then "scheduler_setup"
  else if py_startswith "Noise setup failed:" error then "noise_setup"
  else if py_startswith "Noise transition frame failure:" error then "noise_transition"
  else if started then "measurement"
  else "startup".

Definition _classify_attempt (summary : pydict) : outcome AttemptDecision :=
  let success := truthy (dgetd "success" (VBool false) summary) in
  started ← measurement_started summary;
  let error := str_val (dgetd "error" (VStr "") summary) in
  let phase := attempt_phase success started error in
  mret {| success := success; failure_phase := phase;
          retry := negb success && bool_decide (phase ∈ retryable_phases);
          recover := negb success && bool_decide (phase ∈ retryable_phases);
          error := error;
          metadata := [("measurement_started", VBool started)] |}.

Definition _steady_attempt_record (summary : pydict) (_decision : AttemptDecision) : outcome pydict :=
  cameras ← as_list (dgetd "cameras" (VList []) summary);
  rows ← traverse (λ c,
    camera ← as_dict c;
    mret (VDict [("serial", dgetd "serial" (VStr "") camera);
                 ("warmup_deliveries", dgetd "warmup_deliveries" (VInt 0) camera);
                 ("timeouts", dgetd "timeouts" (VInt 0) camera)])) cameras;
  mret [("cameras", VList rows)].

Record SelectedAttempt := {
  run_dir : string;
  attempt : Z;
  data_dir : string;
  layout : string;
}.

Section steady.
Context {W : Type} `{OS W} {T : Type}.
Abbreviation IO := (M (T * world W)).

Definition record_pre_run_reset_failure (case : pydict) (attempt : Z) (attempt_dir : string)
    (base_manifest : pydict) (error : exn) : IO (string * pydict) :=
  sys (Mkdir attempt_dir false) ;;
  let message := "Pre-run reset failed: " +:+ exn_name (exn_type error) +:+ ": " +:+ exn_msg error in
  cameras <- lift (camera_descriptors case []) ;;
  let summary := [
    ("schema_version", VInt 1); ("success", VBool false); ("error", VStr message);
    ("run", VDict [("camera_count", VInt (Z.of_nat (length cameras)))]);
    ("measurement", VDict [("start_boottime_ns", VInt 0); ("end_boottime_ns", VInt 0);
                           ("duration_ms", VFloat (f_of_Z 0))]);
    ("aggregate", VDict []); ("cameras", VList (map VDict cameras))] in
  let manifest := dupdate base_manifest [
    ("attempt", VInt attempt); ("record_data_dir", VStr attempt_dir);
    ("pre_run_reset_failed", VBool true); ("pre_run_reset_error", VStr message)] in
  sys (WriteJson (attempt_dir // "steady_summary.json") (VDict summary)) ;;
  sys (WriteJson (attempt_dir // "attempt_manifest.json") (VDict manifest)) ;;
  let output := message +:+ nl in
  sys (WriteText (attempt_dir // "probe_stdout.txt") output) ;;
  ret (output, summary).

(** The keyword arguments of [run_steady_attempts]. *)
Record steady_arguments := {
  case : pydict;
  record_dir : string;
  base_manifest : pydict;
  recover_on_failure : string;
  recovery_settle_seconds : f64;
  max_attempts_per_run : Z;
  recovery_recover : list pydict → string → IO pydict;
  run_attempt : Z → string → IO (string * pydict);
}.

Definition steady_loop (a : steady_arguments) : loop_arguments W T := {|
  Attempts.record_dir := record_dir a;
  Attempts.max_attempts := max_attempts_per_run a;
  Attempts.recovery_method := recover_on_failure a;
  Attempts.recovery_settle_seconds := recovery_settle_seconds a;
  Attempts.run_attempt := run_attempt a;
  Attempts.classify_attempt := _classify_attempt;
  Attempts.recover_attempt :=
    if bool_decide (recover_on_failure a = "full-reset")
    then Some (λ summary attempt_dir _,
           cameras <- lift (camera_descriptors (case a) summary) ;;
           recovery_recover a cameras attempt_dir)
    else None;
  Attempts.before_attempt := None;
  Attempts.build_attempt_record := Some _steady_attempt_record |}.

(** The files written after the loop. *)
Definition publish_attempts (a : steady_arguments) (result : AttemptLoopResult) : IO string :=
  sys (WriteJson (record_dir a // "steady_summary.json") (VDict (summary result))) ;;
  sys (WriteJson (record_dir a // "attempts.json") (VList (map VDict (attempts result)))) ;;
  sys (WriteText (record_dir a // "selected_attempt.txt") (str_Z (selected_attempt result) +:+ nl)) ;;
  sys (WriteText (record_dir a // "probe_stdout.txt") (output result)) ;;
  let attempt_manifest_path := selected_attempt_dir result // "attempt_manifest.json" in
  f <- sys (IsFile attempt_manifest_path) ;;
  selected_manifest <-
    (if (f : bool) then v <- sys (ReadJson attempt_manifest_path) ;; lift (as_dict v)
     else ret (base_manifest a)) ;;
  sys (WriteJson (record_dir a // "run_manifest.json")
         (VDict (dupdate selected_manifest
            [("selected_attempt", VInt (selected_attempt result));
             ("attempt_count", VInt (Z.of_nat (length (attempts result))));
             ("eventual_success", dgetd "eventual_success" VNone (summary result))]))) ;;
  ret (output result).

Definition run_steady_attempts (a : steady_arguments) : IO string :=
  result <- run_attempt_loop (steady_loop a) ;;
  publish_attempts a result.

(** ** [artifacts.py] *)

Definition read_json (path : string) : IO pydict :=
  value <- sys (ReadJson path) ;;
  match value with
  | VDict d => ret d
  | _ => throw ValueError ("Expected a JSON object in " +:+ path)
  end.

Definition selected_attempt_number (run_dir : string) : IO Z :=
  let selected_path := run_dir // "selected_attempt.txt" in
  f <- sys (IsFile selected_path) ;;
  if (f : bool) then
    attempt <- try_except is_ValueError
      (t <- sys (ReadText selected_path) ;; lift (py_int (VStr (py_strip t))))
      (λ _, throw ValueError ("Invalid selected attempt in " +:+ selected_path)) ;;
    if bool_decide (attempt < 1)
    then throw ValueError ("Selected attempt must be positive: " +:+ selected_path)
    else ret attempt
  else
    let attempts_path := run_dir // "attempts.json" in
    g <- sys (IsFile attempts_path) ;;
    if (g : bool) then
      v <- sys (ReadJson attempts_path) ;;
      match v with
      | VList ((_ :: _) as attempts) =>
          item <- lift (as_dict (List.last attempts VNone)) ;;
          lift (py_int (dgetd "attempt" (VInt (Z.of_nat (length attempts))) item))
      | _ => ret 1
      end
    else ret 1.

Definition resolve_selected_attempt (run_dir : string) : IO SelectedAttempt :=
  run_dir <- sys (Resolve run_dir) ;;
  attempt <- selected_attempt_number run_dir ;;
  let attempt_dir := run_dir // ("attempt-" +:+ str_Z attempt) in
  d <- sys (IsDir attempt_dir) ;;
  ret (if (d : bool)
       then {| run_dir := run_dir; attempt := attempt; data_dir := attempt_dir;
               layout := "attempt-directory" |}
       else {| run_dir := run_dir; attempt := attempt; data_dir := run_dir;
               layout := "legacy-promoted-root" |}).
End steady.
Arguments steady_arguments : clear implicits.

(** ** [results.py] *)

Definition common_attempt_result_fields (summary : pydict) : outcome pydict :=
  let success := VBool (truthy (dgetd "success" (VBool false) summary)) in
  recovery ← as_dict (dgetd "recovery" (VDict []) summary);
  mret [("attempt_count", dgetd "attempt_count" (VInt 1) summary);
        ("failed_attempt_count", dgetd "failed_attempt_count" (VInt 0) summary);
        ("initial_attempt_success", dgetd "initial_attempt_success" success summary);
        ("eventual_success", dgetd "eventual_success" success summary);
        ("selected_attempt", dgetd "selected_attempt" (VInt 1) summary);
        ("recovery_attempted", dgetd "attempted" (VBool false) recovery);
        ("recovery_count", dgetd "count" (VInt 0) recovery);
        ("recovery_method", dgetd "method" (VStr "none") recovery);
        ("recovery_success", dgetd "success" (VStr "") recovery);
        ("recovery_error", dgetd "error" (VStr "") recovery)].

(** ** Classification *)

Lemma classify_spec summary d :
  _classify_attempt summary = Ok d →
  success d = truthy (dgetd "success" (VBool false) summary) ∧
  (∃ started, measurement_started summary = Ok started ∧
     failure_phase d = attempt_phase (success d) started (error d) ∧
     metadata d = [("measurement_started", VBool started)]) ∧
  retry d = negb (success d) && bool_decide (failure_phase d ∈ retryable_phases) ∧
  recover d = retry d.
Proof.
  unfold _classify_attempt. intros (started & Hs & [= <-])%outcome_bind_ok. simpl. split_and!; eauto.
Qed.

Lemma classify_keeps_success {W} `{OS W} {T} (a : steady_arguments W T) :
  keeps_success (steady_loop a).
Proof.
  split.
  - intros summary d (_ & (started & _ & _ & ->) & _)%classify_spec. simpl. set_solver.
  - intros build summary d extra [= <-]. unfold _steady_attempt_record.
    intros (cams & _ & (rows & _ & [= <-])%outcome_bind_ok)%outcome_bind_ok. simpl. set_solver.
Qed.

Definition setup_phases : list string := ["scheduler_setup"; "noise_setup"].

(** A failed setup: the phase of the attempt's record. *)
Definition setup_failure (record : pydict) : Prop :=
  ∃ phase, dget "failure_phase" record = Some (VStr phase) ∧ phase ∈ setup_phases.

Lemma step_phase {W} `{OS W} {T} (a : steady_arguments W T) k st :
  step_of (steady_loop a) k st →
  dget "failure_phase" (st_record st) = Some (VStr (failure_phase (st_decision st))).
Proof.
  intros (Hd & _ & extra & He & ->). simpl in Hd, He.
  apply classify_spec in Hd as (_ & (started & _ & _ & Hm) & _).
  assert (dget "failure_phase" (dupdate (attempt_record k (attempt_dir (steady_loop a) k)
    (st_decision st)) extra) = Some (VStr (failure_phase (st_decision st)))) as Hget.
  { revert He. unfold _steady_attempt_record.
    intros (cams & _ & (rows & _ & [= <-])%outcome_bind_ok)%outcome_bind_ok.
    rewrite dget_dupdate by (simpl; set_solver). unfold attempt_record. by rewrite Hm. }
  destruct (st_recovery st); [by rewrite dget_dset_ne|done].
Qed.

(** ** The file system *)

(** Text files: reading gives what was written last; writing another file, or
    asking about files, does not change one. *)
Class TextFiles (W : Type) `{OS W} := {
  text_at : W → string → option string;
  text_read p w t : text_at w p = Some t →
    handle (ReadText p) w = (Ok t, (handle (ReadText p) w).2);
  text_is_file p w t : text_at w p = Some t →
    handle (IsFile p) w = (Ok true, (handle (IsFile p) w).2);
  text_write p t w w' q : handle (WriteText p t) w = (Ok (), w') →
    text_at w' q = if bool_decide (q = p) then Some t else text_at w q;
  text_query p w q : text_at (handle (IsFile p) w).2 q = text_at w q;
  text_resolve p w q : text_at (handle (Resolve p) w).2 q = text_at w q;
  text_read_json p w q : text_at (handle (ReadJson p) w).2 q = text_at w q;
  text_write_json p v w q : q ≠ p → text_at (handle (WriteJson p v) w).2 q = text_at w q;
}.

Section files.
Context {W : Type} `{OS W} `{!TextFiles W} {T : Type}.
Implicit Types s : T.
Implicit Types w : world W.

Definition selected_file (a : steady_arguments W T) : string := record_dir a // "selected_attempt.txt".

(** The step keeps the content of the text file [p]. *)
Definition same_text (p : string) : relation (T * world W) := λ x y,
  text_at (w_os y.2) p = text_at (w_os x.2) p.
#[export] Instance same_text_preorder p : PreOrder (same_text p).
Proof. split; [by intros x|]. intros x y z. unfold same_text. congruence. Qed.

Lemma same_text_sys {A} (c : syscall A) p :
  (∀ o : W, text_at (handle c o).2 p = text_at o p) → within (same_text p) (sys (S := T) c).
Proof.
  intros Hc [s w]. unfold sys, same_text. specialize (Hc (w_os w)). by destruct (handle c _).
Qed.

Lemma wp_write_text p t s w :
  wp (sys (WriteText p t)) (λ _ sw, text_at (w_os sw.2) p = Some t) (λ _ _, True) (s, w).
Proof.
  apply wp_sys. intros [[]|e] o Heq; [|done]. simpl. rewrite (text_write p t _ _ p Heq).
  by rewrite bool_decide_eq_true_2.
Qed.
Lemma wp_write_other p t q s w :
  q ≠ p → wp (sys (WriteText p t)) (λ _ sw, text_at (w_os sw.2) q = text_at (w_os w) q)
    (λ _ _, True) (s, w).
Proof.
  intros Hne. apply wp_sys. intros [[]|e] o Heq; [|done]. simpl. rewrite (text_write p t _ _ q Heq).
  by rewrite bool_decide_eq_false_2.
Qed.

(** Once published, the number is in its file. *)
Lemma publish_selected (a : steady_arguments W T) r s w :
  wp (publish_attempts a r)
    (λ _ sw, text_at (w_os sw.2) (selected_file a) = Some (str_Z (selected_attempt r) +:+ nl))
    (λ _ _, True) (s, w).
Proof.
  unfold publish_attempts, selected_file. apply wp_skip; [intros _ s1|done].
  apply wp_skip; [intros _ [s2 w2]|done].
  apply wp_bind. eapply wp_conseq; [apply wp_write_text| |done]. intros _ [s3 w3] H3. simpl in H3.
  apply wp_bind. eapply wp_conseq; [apply (wp_write_other _ _ (record_dir a // "selected_attempt.txt"))| |done].
  { by intros ?%pjoin_inj. }
  intros [] sw4 H4. rewrite <- H3, <- H4.
  eapply (wp_within (same_text (record_dir a // "selected_attempt.txt"))); [|done..].
  solve_within; apply same_text_sys; intros; auto using text_query, text_read_json.
  apply text_write_json. by intros ?%pjoin_inj.
Qed.

(** A number in the file is the number read. *)
Lemma selected_attempt_number_read run_dir n s w :
  1 <= n → text_at (w_os w) (run_dir // "selected_attempt.txt") = Some (str_Z n +:+ nl) →
  ∃ w', selected_attempt_number run_dir (s, w) = (Ok n, (s, w')).
Proof.
  intros Hn Ht. unfold selected_attempt_number, bind, sys at 1.
  pose proof (text_is_file _ _ _ Ht) as Hf. rewrite Hf. cbv beta iota.
  unfold try_except, bind, sys, lift. cbv beta iota.
  pose proof (text_query (run_dir // "selected_attempt.txt") (w_os w)
    (run_dir // "selected_attempt.txt")) as Hq.
  rewrite Ht in Hq. apply text_read in Hq. cbn [w_os] in *. rewrite Hq. cbv beta iota.
  unfold py_int. rewrite py_strip_str_Z, int_of_str_Z, bool_decide_eq_false_2 by lia. by eexists.
Qed.
End files.

#[export] Program Instance sim_text_files `{Commands} : TextFiles machine := {|
  text_at m p := dget p (m_files m);
|}.
Next Obligation. intros ? p w t Ht. unfold handle, sim_os. simpl. by rewrite Ht. Qed.
Next Obligation.
  intros ? p w t Ht. unfold handle, sim_os. simpl. unfold has.
  by rewrite bool_decide_eq_true_2 by (rewrite Ht; eauto).
Qed.
Next Obligation.
  intros ? p t w w' q [= <-]. simpl. rewrite dget_dset. case_decide; case_bool_decide; congruence.
Qed.
Next Obligation. done. Qed.
Next Obligation. done. Qed.
Next Obligation. done. Qed.
Next Obligation. done. Qed.

(** ** The properties *)

Section setup.
Context {W : Type} `{OS W} {T : Type} (a : steady_arguments W T).

Lemma setup_not_retried k st :
  step_of (steady_loop a) k st → setup_failure (st_record st) →
  retry (st_decision st) = false.
Proof.
  intros Hst (phase & Hp & Hin). pose proof (step_phase a k st Hst) as Hphase.
  destruct Hst as (Hd & _). simpl in Hd. apply classify_spec in Hd as (_ & _ & -> & _).
  rewrite Hp in Hphase. simplify_eq. apply andb_false_iff. right.
  apply bool_decide_eq_false_2.
  assert (Forall (λ p, p ∉ retryable_phases) setup_phases) as Hall
    by (apply (bool_decide_unpack _); vm_compute; done).
  rewrite Forall_forall in Hall. by apply Hall.
Qed.
End setup.

(** A failed setup (of the deadline scheduler, of the rate-monotonic
    priorities or of the noise) is never retried: an attempt recorded in such a
    phase is the last attempt of the run. *)
Theorem setup_failure_ends_run {W} `{OS W} {T} (a : steady_arguments W T) s w :
  match run_attempt_loop (steady_loop a) (s, w) with
  | (Ok r, _) => ∀ i record, attempts r !! i = Some record → setup_failure record →
      Z.of_nat i + 1 = selected_attempt r
  | (Raise _, _) => True
  end.
Proof.
  destruct (decide (max_attempts_per_run a < 1)) as [Hlt|Hge].
  { unfold run_attempt_loop. by rewrite bool_decide_eq_true_2 by done. }
  pose proof (run_attempt_loop_passes (steady_loop a) s w) as Hwp. unfold wp in Hwp.
  destruct (run_attempt_loop _ (s, w)) as [[r|e] sw]; [|done].
  destruct Hwp as (sts & final & [Hsteps Hp] & Hl & -> & Hn); [simpl; lia|]. simpl.
  intros i record Hi Hset. rewrite list_lookup_fmap in Hi.
  destruct (sts !! i) as [st|] eqn:Hst; [|done]. simplify_eq/=.
  pose proof (setup_not_retried a _ _ (Hsteps i st Hst) Hset) as Hr.
  destruct Hp as (before & final' & -> & Hb & _). rewrite length_app. simpl.
  destruct (decide (i < length before)%nat) as [Hlt|Hnl].
  - rewrite lookup_app_l in Hst by done. rewrite Forall_lookup in Hb.
    destruct (Hb _ _ Hst) as [_ Hb']. congruence.
  - apply lookup_lt_Some in Hst. rewrite length_app in Hst. simpl in Hst. lia.
Qed.

(** C13: The selected attempt survives on disk: when a steady run returns, the
    number its loop selected is the one [selected_attempt_number] reads from
    the run directory, on any file system that reads back what was written. *)
Theorem selected_attempt_roundtrip {W} `{OS W} `{!TextFiles W} {T} (a : steady_arguments W T) s w :
  match run_steady_attempts a (s, w) with
  | (Ok _, (s', w')) => ∃ r sw w'',
      run_attempt_loop (steady_loop a) (s, w) = (Ok r, sw) ∧
      1 <= selected_attempt r <= max_attempts_per_run a ∧
      selected_attempt_number (record_dir a) (s', w') = (Ok (selected_attempt r), (s', w''))
  | (Raise _, _) => True
  end.
Proof.
  unfold run_steady_attempts, bind.
  destruct (run_attempt_loop (steady_loop a) (s, w)) as [[r|e] [s1 w1]] eqn:Hloop; [|done].
  pose proof (publish_selected a r s1 w1) as Hpub. unfold wp in Hpub.
  destruct (publish_attempts a r (s1, w1)) as [[out|e] [s2 w2]]; [|done].
  assert (1 <= selected_attempt r <= max_attempts_per_run a) as Hr.
  { destruct (decide (max_attempts_per_run a < 1)) as [Hlt|Hge].
    { unfold run_attempt_loop in Hloop. by rewrite bool_decide_eq_true_2 in Hloop by done. }
    assert (1 <= max_attempts (steady_loop a)) as Hm by (simpl; lia).
    pose proof (run_attempt_loop_passes (steady_loop a) s w Hm) as Hwp.
    eapply wp_ok in Hwp; [|exact Hloop].
    destruct Hwp as (sts & final & _ & _ & -> & Hn). simpl in *. lia. }
  destruct (selected_attempt_number_read (record_dir a) (selected_attempt r) s2 w2) as [w3 Hw3];
    [lia|exact Hpub|].
  exists r, (s1, w1), w3. split; [done|]. split; [exact Hr|exact Hw3].
Qed.

(** A camera that fails once while it starts. *)
#[local] Instance no_commands : Commands := λ _ _ m, (exit_status 0 "", m).
Definition demo_steady : steady_arguments machine unit := {|
  case := [("probe", VDict [("serials", VList [VStr "123"]); ("rsusb_usb_devices", VList [VStr "2-1"])])];
  record_dir := "/rec"; base_manifest := [("case", VStr "demo")];
  recover_on_failure := "full-reset"; recovery_settle_seconds := f_of_Z 2;
  max_attempts_per_run := 3;
  recovery_recover cameras dir := ret [("success", VBool true); ("cameras", VList (map VDict cameras))];
  run_attempt k dir := ret ("frames" +:+ nl,
    [("success", VBool (bool_decide (1 < k))); ("error", VStr (if bool_decide (1 < k) then "" else "no frame"));
     ("cameras", VList [])]) |}.

Theorem selected_attempt_roundtrip_witness :
  match run_steady_attempts demo_steady ((), World empty_machine []) with
  | (Ok _, (s', w')) => ∃ w'', selected_attempt_number "/rec" (s', w') = (Ok 2, (s', w''))
  | (Raise _, _) => False
  end.
Proof.
  pose proof (selected_attempt_roundtrip demo_steady () (World empty_machine [])) as Hr.
  assert (match (run_attempt_loop (steady_loop demo_steady) ((), World empty_machine [])).1 with
          | Ok r => selected_attempt r | Raise _ => 0 end = 2) as Hsel by (vm_compute; reflexivity).
  assert (returned (run_steady_attempts demo_steady ((), World empty_machine [])) = true) as Hok
    by (vm_compute; reflexivity).
  destruct (run_steady_attempts _ _) as [[out|e] [s' w']]; [|done].
  destruct Hr as (r & sw & w'' & Hrun & _ & Hn). rewrite Hrun in Hsel. simpl in Hsel.
  exists w''. by rewrite <- Hsel.
Defined.
