(* ===== verification/SystemControls.v ===== *)
(** * Machine controls of a campaign ([system_controls.py])

    The class [SystemControls]: the CPU-frequency lock, the RSUSB binding, the
    USB autosuspend, the kernel log, and the composition with [CpuIsolation],
    whose object it holds in an attribute.  A loop that waits for a deadline
    takes [fuel]; the termination property says how much is enough. *)
From Stdlib Require Import Ascii ZArith Lia.
From S2P Require Import Prelude PyStr PyFloat PyVal Effects Machine CpuList Devices CpuIsolation.
From stdpp Require Import base gmap strings list.
Local Open Scope Z_scope.
Local Open Scope py_scope.
Local Open Scope M_scope.

Definition CPUFREQ_BASE : string := "/sys/devices/system/cpu/cpufreq".
Definition NO_TURBO_PATH : string := "/sys/devices/system/cpu/intel_pstate/no_turbo".
Definition THERMAL_ZONE0 : string := "/sys/class/thermal/thermal_zone0/temp".

Record SystemControlConfig := {
  repo_root : string;
  tool_dir : string;
  use_sudo : bool;
  cpu_frequency_mhz : option Z;
  cpu_lock_script : string;
  cpu_restore_script : string;
  rsusb_backend : bool;
  rsusb_usb_devices : list string;
  rsusb_helper : string;
  rsusb_prepare_each_attempt : bool;
  rsusb_prepare_timeout_seconds : f64;
  rsusb_unbind_settle_seconds : f64;
  disable_realsense_autosuspend : bool;
  usb_sysfs_base : string;
  cpu_isolation_enabled : bool;
  housekeeping_cpus : string;
  benchmark_cpus : string;
}.

Record SystemControls := {
  cpu_locked : bool;
  cpu_restore_needed : bool;
  cpu_original_state : option pydict;
  rsusb_unbound : bool;
  cpu_isolation : CpuIsolation;
}.

Definition set_locked b s := {| cpu_locked := b; cpu_restore_needed := cpu_restore_needed s;
  cpu_original_state := cpu_original_state s; rsusb_unbound := rsusb_unbound s;
  cpu_isolation := cpu_isolation s |}.
Definition set_restore_needed b s := {| cpu_locked := cpu_locked s; cpu_restore_needed := b;
  cpu_original_state := cpu_original_state s; rsusb_unbound := rsusb_unbound s;
  cpu_isolation := cpu_isolation s |}.
Definition set_original_state o s := {| cpu_locked := cpu_locked s;
  cpu_restore_needed := cpu_restore_needed s; cpu_original_state := o;
  rsusb_unbound := rsusb_unbound s; cpu_isolation := cpu_isolation s |}.
Definition set_unbound b s := {| cpu_locked := cpu_locked s;
  cpu_restore_needed := cpu_restore_needed s; cpu_original_state := cpu_original_state s;
  rsusb_unbound := b; cpu_isolation := cpu_isolation s |}.
Definition set_isolation i s := {| cpu_locked := cpu_locked s;
  cpu_restore_needed := cpu_restore_needed s; cpu_original_state := cpu_original_state s;
  rsusb_unbound := rsusb_unbound s; cpu_isolation := i |}.

(** The configuration of the isolation object built by [__init__]. *)
Definition isolation_config (c : SystemControlConfig) : CpuIsolationConfig := {|
  CpuIsolation.enabled := cpu_isolation_enabled c;
  CpuIsolation.housekeeping_cpus := housekeeping_cpus c;
  CpuIsolation.benchmark_cpus := benchmark_cpus c;
  CpuIsolation.use_sudo := use_sudo c;
  CpuIsolation.repo_root := repo_root c;
  CpuIsolation.cgroup_root := "/sys/fs/cgroup";
  CpuIsolation.cpu_online_path := "/sys/devices/system/cpu/online";
  CpuIsolation.proc_root := "/proc";
  CpuIsolation.usb_sysfs_base := usb_sysfs_base c |}.

Definition initial (c : SystemControlConfig) : SystemControls := {|
  cpu_locked := false; cpu_restore_needed := false; cpu_original_state := None;
  rsusb_unbound := false; cpu_isolation := CpuIsolation.initial (isolation_config c) |}.

Definition backend_name (c : SystemControlConfig) : string :=
  if rsusb_backend c then "RSUSB" else "V4L2".

(** [dmesg] output added between two captures. *)
Fixpoint find_anchor (anchor : string) (rev_lines after : list string) : option (list string) :=
  match rev_lines with
  | [] => None
  | line :: rev_lines =>
      if bool_decide (line = anchor) then Some after else find_anchor anchor rev_lines (line :: after)
  end.

Definition kernel_delta (before after : string) : string * string :=
  if py_startswith before after then (py_drop (String.length before) after, "") else
  match last (py_splitlines before) with
  | None => (after, "")
  | Some anchor =>
      match find_anchor anchor (rev (py_splitlines after)) [] with
      | Some lines =>
          let delta := py_join nl lines in
          (if bool_decide (delta = "") then "" else delta +:+ nl, "")
      | None => ("", "dmesg ring buffer changed and the pre-run anchor was lost")
      end
  end.

Definition frequency_fields : list string :=
  ["scaling_min_khz"; "scaling_max_khz"; "scaling_current_khz"].

(** The mismatches of one policy. *)
Definition policy_errors (target_khz : Z) (policy : pydict) : list string :=
  let name := str_val (dgetd "name" (VStr "unknown") policy) in
  omap (λ field,
    let value := str_val (dgetd field (VStr "") policy) in
    if bool_decide (value = str_Z target_khz) then None
    else Some (name +:+ " " +:+ field +:+ "=" +:+ value +:+ ", expected " +:+ str_Z target_khz))
    frequency_fields.

Definition verify_cpu_frequency (config : SystemControlConfig) (state : pydict) :
    outcome (list string) :=
  match cpu_frequency_mhz config with
  | None => Ok []
  | Some frequency_mhz =>
      let target_khz := frequency_mhz * 1000 in
      let policies := dgetd "policies" (VList []) state in
      if negb (truthy policies)
      then Ok ["no CPU-frequency policies found below " +:+ CPUFREQ_BASE] else
      policies ← as_list policies;
      policies ← traverse as_dict policies;
      mret (concat (map (policy_errors target_khz) policies))
  end.

(** The fields [restore_cpu_frequency] compares, and the mismatches of one
    policy. *)
Definition restored_fields : list string := ["scaling_min_khz"; "scaling_max_khz"; "governor"].
Definition restored_errors (restored_by_name : list (string * pydict)) (original : pydict) :
    outcome (list string) :=
  name ← subscript original "name";
  let actual := match dget (str_val name) restored_by_name with Some d => d | None => [] end in
  mret (omap (λ field,
    if py_eq (dgetd field VNone actual) (dgetd field VNone original) then None
    else Some (str_val name +:+ " " +:+ field +:+ "=" +:+ str_val (dgetd field (VStr "") actual)
               +:+ ", expected " +:+ str_val (dgetd field (VStr "") original))) restored_fields).
Definition by_name (policies : list pydict) : outcome (list (string * pydict)) :=
  fold_outcome (λ d item,
    name ← subscript item "name"; mret (dset (str_val name) item d)) [] policies.

Section methods.
Context {W : Type} `{OS W} (config : SystemControlConfig) (fuel : nat).
Abbreviation IO := (M (SystemControls * world W)).

(** A call on the isolation object. *)
Definition isolation {A} (m : M (CpuIsolation * world W) A) : IO A :=
  zoom cpu_isolation set_isolation m.

Definition cpu_isolation_state : IO pydict := isolation (self CpuIsolation.state).
Definition verify_cpu_isolation (output : option string) : IO pydict :=
  isolation (CpuIsolation.verify (isolation_config config) output).

Definition privileged (command : list string) : list string :=
  if use_sudo config then ["sudo"; "--non-interactive"] ++ command else command.

(** ** CPU frequency *)

Definition policy_state (policy_dir : string) : IO pydict :=
  driver <- read_optional_text (policy_dir // "scaling_driver") ;;
  cpus <- read_optional_text (policy_dir // "affected_cpus") ;;
  governor <- read_optional_text (policy_dir // "scaling_governor") ;;
  min <- read_optional_text (policy_dir // "scaling_min_freq") ;;
  max <- read_optional_text (policy_dir // "scaling_max_freq") ;;
  current <- read_optional_text (policy_dir // "scaling_cur_freq") ;;
  ret [("name", VStr (path_name policy_dir)); ("path", VStr policy_dir); ("driver", VStr driver);
       ("affected_cpus", VStr cpus); ("governor", VStr governor); ("scaling_min_khz", VStr min);
       ("scaling_max_khz", VStr max); ("scaling_current_khz", VStr current)].

Definition cpu_frequency_state : IO pydict :=
  dirs <- sys (Glob CPUFREQ_BASE "policy*") ;;
  policies <- fold_each (sorted_strings dirs) [] (λ policies policy_dir,
    d <- sys (IsDir policy_dir) ;;
    if negb d then ret policies else
    p <- policy_state policy_dir ;;
    ret (policies ++ [p])) ;;
  boost <- read_optional_text (CPUFREQ_BASE // "boost") ;;
  no_turbo <- read_optional_text NO_TURBO_PATH ;;
  temperature <- read_optional_text THERMAL_ZONE0 ;;
  ret [("policies", VList (map VDict policies)); ("boost", VStr boost);
       ("intel_pstate_no_turbo", VStr no_turbo); ("temperature_millic", VStr temperature)].

(** The loop after the lock script: [while True] until the frequencies match or
    the deadline passes. *)
Fixpoint await_frequency (fuel : nat) (deadline : f64) : IO (pydict * list string) :=
  match fuel with
  | O => throw OutOfFuel ""
  | S fuel =>
      state <- cpu_frequency_state ;;
      errors <- lift (verify_cpu_frequency config state) ;;
      if bool_decide (errors = []) then ret (state, errors) else
      now <- sys Monotonic ;;
      if f_le deadline now then ret (state, errors) else
      sys (Sleep (f_dec 5 (-2))) ;;
      await_frequency fuel deadline
  end.

Definition locked_state (frequency_mhz : Z) (state : pydict) : pydict :=
  dupdate state [("enabled", VBool true); ("requested_mhz", VInt frequency_mhz);
                 ("locked", VBool true)].

Definition lock_cpu_once (record_dir : string) : IO pydict :=
  match cpu_frequency_mhz config with
  | None => ret [("enabled", VBool false); ("policies", VList [])]
  | Some frequency_mhz =>
      locked <- self cpu_locked ;;
      if (locked : bool) then
        state <- cpu_frequency_state ;;
        errors <- lift (verify_cpu_frequency config state) ;;
        when (negb (bool_decide (errors = [])))
          (throw RuntimeError ("CPU frequency changed during the campaign: "
                               +:+ py_join " | " errors)) ;;
        ret (locked_state frequency_mhz state)
      else
        original <- cpu_frequency_state ;;
        set_self (set_original_state (Some original)) ;;
        when (negb (truthy (dgetd "policies" VNone original)))
          (throw RuntimeError ("No CPU-frequency policies found below " +:+ CPUFREQ_BASE)) ;;
        set_self (set_restore_needed true) ;;
        completed <- sys (RunCommand
          (privileged [cpu_lock_script config; str_Z (frequency_mhz * 1000)]) None None) ;;
        sys (WriteText (record_dir // "cpu_frequency_lock.txt") (stdout completed +:+ stderr completed)) ;;
        when (negb (bool_decide (returncode completed = 0)))
          (throw RuntimeError "Failed to lock CPU frequency; see cpu_frequency_lock.txt") ;;
        now <- sys Monotonic ;;
        se <- await_frequency fuel (f_add now (f_of_Z 1)) ;;
        let '(state, errors) := (se : pydict * list string) in
        when (negb (bool_decide (errors = [])))
          (throw RuntimeError ("CPU-frequency lock verification failed: "
                               +:+ py_join " | " errors)) ;;
        set_self (set_locked true) ;;
        ret (locked_state frequency_mhz state)
  end.

Definition write_sysfs_value (path value : string) : IO unit :=
  completed <- sys (RunCommand (privileged ["tee"; path]) (Some (value +:+ nl)) None) ;;
  when (negb (bool_decide (returncode completed = 0)))
    (throw RuntimeError ("Failed to write " +:+ path +:+ "=" +:+ value +:+ ": "
       +:+ str_or (py_strip (stderr completed)) (py_strip (stdout completed)))).

(** The three writes of one policy. *)
Definition restore_policy (policy : pydict) : IO unit :=
  path <- lift (subscript policy "path") ;;
  let policy_dir := str_val path in
  let scaling_max := str_val (dgetd "scaling_max_khz" (VStr "") policy) in
  let scaling_min := str_val (dgetd "scaling_min_khz" (VStr "") policy) in
  let governor := str_val (dgetd "governor" (VStr "") policy) in
  when (negb (bool_decide (scaling_max = "")))
    (write_sysfs_value (policy_dir // "scaling_max_freq") scaling_max) ;;
  when (negb (bool_decide (scaling_min = "")))
    (write_sysfs_value (policy_dir // "scaling_min_freq") scaling_min) ;;
  when (negb (bool_decide (governor = "")))
    (write_sysfs_value (policy_dir // "scaling_governor") governor).

(** [if value and path.is_file(): write]. *)
Definition restore_switch (path value : string) : IO unit :=
  when (negb (bool_decide (value = "")))
    (f <- sys (IsFile path) ;; when f (write_sysfs_value path value)).

Definition policies_of (state : pydict) : outcome (list pydict) :=
  v ← subscript state "policies"; l ← as_list v; traverse as_dict l.

Definition restore_cpu_frequency : IO unit :=
  needed <- self cpu_restore_needed ;;
  if negb needed then ret () else
  original <- self cpu_original_state ;;
  match original with
  | None => throw RuntimeError "Original CPU-frequency state was not captured"
  | Some original =>
      completed <- sys (RunCommand (privileged [cpu_restore_script config]) None None) ;;
      when (negb (bool_decide (returncode completed = 0)))
        (throw RuntimeError ("Default CPU-frequency restore failed: " +:+ failure_detail completed)) ;;
      policies <- lift (policies_of original) ;;
      for_each policies restore_policy ;;
      restore_switch (CPUFREQ_BASE // "boost") (str_val (dgetd "boost" (VStr "") original)) ;;
      restore_switch NO_TURBO_PATH (str_val (dgetd "intel_pstate_no_turbo" (VStr "") original)) ;;
      restored <- cpu_frequency_state ;;
      names <- lift (policies_of restored ≫= by_name) ;;
      errors <- lift (traverse (restored_errors names) policies) ;;
      when (negb (bool_decide (concat errors = [])))
        (throw RuntimeError ("Pre-campaign CPU-frequency state was not restored: "
                             +:+ py_join " | " (concat errors))) ;;
      set_self (set_restore_needed false) ;;
      set_self (set_locked false)
  end.

(** ** RSUSB binding *)

(** The inner [while True]: the failures of the attempts before success. *)
Fixpoint helper_attempts (fuel : nat) (command : list string) (what : string) (deadline : f64)
    (failures : list string) : IO (list string) :=
  match fuel with
  | O => throw OutOfFuel ""
  | S fuel =>
      completed <- sys (RunCommand command None None) ;;
      let output := py_strip (stdout completed +:+ stderr completed) in
      if bool_decide (returncode completed = 0) then ret failures else
      let failure := str_or output ("exit status " +:+ str_Z (returncode completed)) in
      now <- sys Monotonic ;;
      let remaining := f_sub deadline now in
      if f_le_Z remaining 0
      then throw RuntimeError ("Failed to " +:+ what +:+ ": " +:+ failure)
      else
        sys (Sleep (f_min (f_dec 25 (-2)) remaining)) ;;
        helper_attempts fuel command what deadline (failures ++ [failure])
  end.

Definition run_rsusb_helper (action : string) : IO unit :=
  for_each (rsusb_usb_devices config) (λ device,
    let command := privileged [rsusb_helper config; action; device] in
    now <- sys Monotonic ;;
    let deadline := f_add now (rsusb_prepare_timeout_seconds config) in
    helper_attempts fuel command (action +:+ " UVC for " +:+ device) deadline [] ;;
    ret ()).

Definition settle_after_unbind : IO unit :=
  when (f_gt_Z (rsusb_unbind_settle_seconds config) 0)
    (sys (Sleep (rsusb_unbind_settle_seconds config))).

Definition prepare_rsusb_once : IO unit :=
  unbound <- self rsusb_unbound ;;
  if negb (rsusb_backend config) || unbound then ret () else
  run_rsusb_helper "unbind" ;;
  set_self (set_unbound true) ;;
  settle_after_unbind.

Definition prepare_rsusb_access : IO unit :=
  if negb (rsusb_backend config) then ret () else
  run_rsusb_helper "unbind" ;;
  set_self (set_unbound true) ;;
  settle_after_unbind.

Definition restore_v4l2_binding : IO unit :=
  unbound <- self rsusb_unbound ;;
  if negb unbound then ret () else
  run_rsusb_helper "bind" ;;
  set_self (set_unbound false).

(** ** USB autosuspend *)

Definition power_record (discovered : pydict) : IO pydict :=
  sysfs_path <- lift (subscript discovered "sysfs_path") ;;
  let device_dir := str_val sysfs_path in
  let control := device_dir // "power" // "control" in
  vendor <- lift (subscript discovered "vendor_id") ;;
  product <- lift (subscript discovered "product_id") ;;
  model <- lift (subscript discovered "model") ;;
  serial <- lift (subscript discovered "serial") ;;
  power <- read_optional_text control ;;
  ret [("usb_device", VStr (path_name device_dir)); ("sysfs_path", VStr device_dir);
       ("vendor", VStr (str_val vendor)); ("product", VStr (str_val product));
       ("model", VStr (str_val model)); ("serial", VStr (str_val serial));
       ("power_control_path", VStr control); ("power_control", VStr power)].

Definition realsense_usb_power_state : IO (list pydict) :=
  devices <- discover_realsense_devices (usb_sysfs_base config) ;;
  map_each devices power_record.

Definition power_of (device : pydict) : string := str_val (dgetd "power_control" (VStr "") device).

Definition enable_power (device : pydict) : IO unit :=
  let control := str_val (dgetd "power_control_path" (VStr "") device) in
  f <- sys (IsFile control) ;;
  when (negb f) (throw RuntimeError ("RealSense power control is unavailable: " +:+ control)) ;;
  when (negb (bool_decide (power_of device = "on"))) (write_sysfs_value control "on").

Definition enforce_realsense_autosuspend (output : option string) (attempt : option Z) :
    IO (list pydict) :=
  devices <- realsense_usb_power_state ;;
  when (bool_decide (devices = []))
    (throw RuntimeError "No connected Intel RealSense video camera was found") ;;
  for_each devices enable_power ;;
  verified <- realsense_usb_power_state ;;
  let errors := omap (λ device,
    if bool_decide (power_of device = "on") then None
    else Some (str_val (dgetd "usb_device" (VStr "") device) +:+ "=" +:+
               str_or (power_of device) "unreadable")) verified in
  when (negb (bool_decide (errors = [])))
    (throw RuntimeError ("RealSense USB autosuspend disable verification failed: "
                         +:+ py_join ", " errors)) ;;
  match output with
  | Some output => sys (WriteJson output (VDict
      [("enabled", VBool true);
       ("attempt", match attempt with Some n => VInt n | None => VNone end);
       ("devices", VList (map VDict verified))]))
  | None => ret ()
  end ;;
  ret verified.

(** ** The campaign *)

Definition validate_environment : IO unit :=
  when (rsusb_backend config && bool_decide (rsusb_usb_devices config = []))
    (throw RuntimeError "RSUSB campaign constants require one USB device per connected camera") ;;
  let helpers :=
    (match cpu_frequency_mhz config with
     | Some _ => [cpu_lock_script config; cpu_restore_script config] | None => [] end) ++
    (if rsusb_backend config then [rsusb_helper config] else []) in
  for_each helpers (λ helper,
    f <- sys (IsFile helper) ;;
    when (negb f) (throw RuntimeError ("Required helper is missing: " +:+ helper))) ;;
  isolation (CpuIsolation.validate_environment (isolation_config config)).

Definition prepare_campaign (record_dir : string) : IO pydict :=
  isolation (CpuIsolation.prepare (isolation_config config) record_dir) ;;
  cpu_state <- lock_cpu_once record_dir ;;
  when (negb (rsusb_prepare_each_attempt config)) prepare_rsusb_once ;;
  when (disable_realsense_autosuspend config)
    (enforce_realsense_autosuspend
       (Some (record_dir // "realsense_autosuspend_campaign.json")) None ;; ret ()) ;;
  ret cpu_state.

Definition prepare_attempt (attempt : Z) (attempt_dir : string) : IO unit :=
  isolation (CpuIsolation.verify (isolation_config config)
               (Some (attempt_dir // "cpu_isolation_before.json"))) ;;
  when (rsusb_backend config)
    (if rsusb_prepare_each_attempt config then prepare_rsusb_access else prepare_rsusb_once) ;;
  when (disable_realsense_autosuspend config)
    (d <- sys (IsDir attempt_dir) ;;
     let output := if (d : bool) then Some (attempt_dir // "realsense_autosuspend.json") else None in
     enforce_realsense_autosuspend output (Some attempt) ;; ret ()).

Definition snapshot_topology (executable output : string) : IO unit :=
  sys (RunCommand [executable; tool_dir config // "snapshot_topology.py"; "--output"; output]
         None None) ;;
  ret ().

(** ** Kernel log *)

Definition kernel_log : IO (option string * string) :=
  completed <- sys (RunCommand (privileged ["dmesg"; "--color=never"]) None None) ;;
  if bool_decide (returncode completed = 0) then ret (Some (stdout completed), "") else
  ret (None, str_or (str_or (py_strip (stderr completed)) (py_strip (stdout completed)))
                    ("dmesg exited with " +:+ str_Z (returncode completed))).

Definition capture_kernel_delta (record_dir : string) (before : option string) (before_error : string) :
    IO unit :=
  log <- kernel_log ;;
  let '(after, after_error) := (log : option string * string) in
  let error := str_or before_error after_error in
  error <- match before, after with
           | Some before, Some after =>
               let '(delta, delta_error) := kernel_delta before after in
               when (bool_decide (delta_error = ""))
                 (sys (WriteText (record_dir // "kernel_log.txt") delta)) ;;
               ret (str_or error delta_error)
           | _, _ => ret error
           end ;;
  when (negb (bool_decide (error = "")))
    (sys (WriteText (record_dir // "kernel_log_capture_error.txt") (error +:+ nl))).

Definition write_cpu_state (output : string) (state : pydict) : IO unit :=
  sys (WriteJson output (VDict state)).

(** ** [cleanup] *)

Definition cleanup_step (errors : list string) (da : string * IO unit) : IO (list string) :=
  try_except is_Exception (da.2 ;; ret errors)
    (λ e, ret (errors ++ [da.1 +:+ ": " +:+ exn_msg e])).

Definition cleanup : IO unit :=
  errors <- fold_each
    [("restore V4L2 binding", restore_v4l2_binding);
     ("restore CPU isolation", isolation (CpuIsolation.restore (isolation_config config)));
     ("restore CPU frequency", restore_cpu_frequency)] [] cleanup_step ;;
  when (negb (bool_decide (errors = []))) (throw RuntimeError (py_join " | " errors)).
End methods.
