(* ===== verification/SystemControlsSpec.v ===== *)
(** * What the machine controls promise

    Properties of [SystemControls]: cleaning up runs every restoring action,
    the frequency is restored only once it reads back, the lock is verified,
    waiting loops end, and the kernel log of an attempt is what was added. *)
From Stdlib Require Import Ascii ZArith Lia.
From S2P Require Import Prelude PyStr PyFloat PyVal Effects Machine Clock CpuList Devices CpuIsolation.
From S2P Require Import SystemControls.
From stdpp Require Import base gmap strings list.
Local Open Scope Z_scope.
Local Open Scope py_scope.
Local Open Scope M_scope.

(** ** [cleanup] *)

(** The action returned, or raised something that [except Exception] catches. *)
Definition caught {S} (r : outcome unit * S) : bool :=
  match r with (Ok _, _) => true | (Raise e, _) => is_Exception e end.

Section cleanup.
Context {W : Type} `{OS W} (config : SystemControlConfig) (fuel : nat).
Abbreviation state := (SystemControls * world W)%type.

Lemma cleanup_step_run label (m : M state unit) errors s :
  caught (m s) = true →
  cleanup_step errors (label, m) s =
    (Ok (match m s with
         | (Ok _, _) => errors
         | (Raise e, _) => errors ++ [label +:+ ": " +:+ exn_msg e]
         end), (m s).2).
Proof.
  unfold cleanup_step, try_except, bind, caught. simpl. destruct (m s) as [[[]|e] s']; [done|].
  by intros ->.
Qed.

(** The three actions, one after the other, whatever each of them does. *)
Definition after_actions (s : state) : state * bool :=
  let r1 := restore_v4l2_binding config fuel s in
  let r2 := isolation (CpuIsolation.restore (isolation_config config)) r1.2 in
  let r3 := restore_cpu_frequency config r2.2 in
  (r3.2, returned r1 && returned r2 && returned r3).
Definition actions_caught (s : state) : bool :=
  let r1 := restore_v4l2_binding config fuel s in
  let r2 := isolation (CpuIsolation.restore (isolation_config config)) r1.2 in
  let r3 := restore_cpu_frequency config r2.2 in
  caught r1 && caught r2 && caught r3.

(** Cleaning up gives up on nothing: unless an action is interrupted by
    something that is not an [Exception], [cleanup] leaves the state in which
    all three actions have run one after the other, returns exactly when all
    three returned, and otherwise raises [RuntimeError]. *)
Theorem cleanup_runs_every_action s :
  if actions_caught s then
    (cleanup config fuel s).2 = (after_actions s).1 ∧
    returned (cleanup config fuel s) = (after_actions s).2 ∧
    raised (cleanup config fuel s) = (if (after_actions s).2 then None else Some RuntimeError)
  else True.
Proof.
  destruct (actions_caught s) eqn:Hc; [|done]. unfold actions_caught in Hc.
  rewrite !andb_true_iff in Hc. destruct Hc as [[H1 H2] H3].
  unfold cleanup, after_actions. set (r := fold_each _ _ _).
  assert (∃ errors, r s = (Ok errors, (after_actions s).1) ∧
                    bool_decide (errors = []) = (after_actions s).2) as (errors & Hr & He).
  { unfold r, fold_each, bind, after_actions.
    rewrite cleanup_step_run by done. cbv beta iota.
    rewrite cleanup_step_run by done. cbv beta iota.
    rewrite cleanup_step_run by done. cbv beta iota. unfold ret.
    eexists. split; [reflexivity|].
    destruct (restore_v4l2_binding config fuel s) as [[[]|e1] s1]; simpl in *;
    destruct (isolation _ s1) as [[[]|e2] s2]; simpl in *;
    destruct (restore_cpu_frequency config s2) as [[[]|e3] s3]; simpl in *; done. }
  unfold bind. rewrite Hr, He. unfold after_actions.
  by destruct (_ && _ && _).
Qed.
End cleanup.

(** ** CPU frequency *)

Section frequency.
Context {W : Type} `{OS W} (config : SystemControlConfig) (fuel : nat).
Implicit Types s : SystemControls.
Implicit Types w : world W.

Lemma keeps_cpu_frequency_state : keeps (cpu_frequency_state (W := W)).
Proof. unfold cpu_frequency_state, policy_state. solve_keeps. Qed.
Lemma keeps_write_sysfs p v : keeps (write_sysfs_value (W := W) config p v).
Proof. unfold write_sysfs_value. solve_keeps. Qed.
#[local] Hint Resolve keeps_cpu_frequency_state keeps_write_sysfs : keeps.
Lemma keeps_restore_policy p : keeps (restore_policy (W := W) config p).
Proof. unfold restore_policy. solve_keeps. Qed.
Lemma keeps_restore_switch p v : keeps (restore_switch (W := W) config p v).
Proof. unfold restore_switch. solve_keeps. Qed.
Lemma keeps_await_frequency n d : keeps (await_frequency (W := W) config n d).
Proof. induction n; simpl; solve_keeps. Qed.
#[local] Hint Resolve keeps_restore_policy keeps_restore_switch keeps_await_frequency : keeps.

(** A policy as read back agrees with the recorded one on minimum, maximum and
    governor. *)
Definition reads_back (names : list (string * pydict)) (original : pydict) : Prop :=
  ∃ name, dget "name" original = Some name ∧
    Forall (λ field,
      py_eq (dgetd field VNone (match dget (str_val name) names with Some d => d | None => [] end))
            (dgetd field VNone original) = true) restored_fields.

Lemma omap_nil {A B} (f : A → option B) l : omap f l = [] → Forall (λ x, f x = None) l.
Proof.
  induction l as [|x l IH]; [constructor|]. simpl. destruct (f x) eqn:Hx; [done|].
  intros. constructor; auto.
Qed.
Lemma concat_nil_forall {A} (l : list (list A)) : concat l = [] → Forall (λ x, x = []) l.
Proof. induction l as [|x l IH]; [constructor|]. intros [-> Hl]%app_eq_nil. constructor; auto. Qed.

Lemma restored_errors_nil names original :
  restored_errors names original = Ok [] → reads_back names original.
Proof.
  unfold restored_errors, subscript. destruct (dget "name" original) as [name|] eqn:Hn; [|done].
  intros Hnil. apply (f_equal (λ r, match r with Ok l => l | Raise _ => [] end)) in Hnil.
  exists name. split; [done|]. apply omap_nil in Hnil.
  eapply Forall_impl; [exact Hnil|]. intros field. cbv beta. by destruct (py_eq _ _).
Qed.

(** What [restore_cpu_frequency] has checked when it returns. *)
Definition frequency_restored s : Prop :=
  ∃ original policies w1 restored names,
    cpu_original_state s = Some original ∧ policies_of original = Ok policies ∧
    (cpu_frequency_state (s, w1)).1 = Ok restored ∧
    (policies_of restored ≫= by_name) = Ok names ∧ Forall (reads_back names) policies.

Lemma restore_frequency_post s w :
  cpu_restore_needed s = true →
  wp (restore_cpu_frequency config)
    (λ _ sw, cpu_restore_needed sw.1 = false ∧ cpu_locked sw.1 = false ∧ frequency_restored s)
    (λ _ sw, sw.1 = s) (s, w).
Proof.
  intros Hn. unfold restore_cpu_frequency. apply wp_bind, wp_self. rewrite Hn. simpl.
  apply wp_bind, wp_self. destruct (cpu_original_state s) as [original|] eqn:Ho; [|done].
  apply wp_bind, wp_keeps; [apply keeps_sys|intros completed w1|done].
  apply wp_bind, wp_when; intros _; [done|].
  apply wp_bind, wp_lift. destruct (policies_of original) as [policies|] eqn:Hp; [|done].
  apply wp_bind, wp_keeps; [solve_keeps|intros _ w2|done].
  apply wp_bind, wp_keeps; [solve_keeps|intros _ w3|done].
  apply wp_bind, wp_keeps; [solve_keeps|intros _ w4|done].
  apply wp_bind. pose proof (keeps_cpu_frequency_state (s, w4)) as Hkeep.
  unfold wp at 1. destruct (cpu_frequency_state (s, w4)) as [[restored|e] [s5 w5]] eqn:Hread;
    unfold same_self in Hkeep; simpl in Hkeep; subst s5; [|done].
  apply wp_bind, wp_lift. destruct (policies_of restored ≫= by_name) as [names|] eqn:Hnames; [|done].
  apply wp_bind, wp_lift. destruct (traverse (restored_errors names) policies) as [errors|] eqn:Ht; [|done].
  apply wp_bind, wp_when; intros Herr; [done|].
  apply wp_bind, wp_set_self, wp_set_self. split; [done|]. split; [done|].
  apply negb_false_iff, bool_decide_eq_true in Herr.
  exists original, policies, w4, restored, names. split_and!; try done; [by rewrite Hread|].
  apply concat_nil_forall in Herr. apply traverse_ok in Ht.
  clear -Ht Herr. induction Ht; [constructor|]. apply Forall_cons in Herr as [-> Herr].
  constructor; [by apply restored_errors_nil|auto].
Qed.

(** ** The lock *)

(** Every policy of a frequency state is at [target] kHz, and there is one. *)
Definition at_frequency (target : Z) (state : pydict) : Prop :=
  ∃ policies, policies_of state = Ok policies ∧ policies ≠ [] ∧
    Forall (λ p, Forall (λ field,
      str_val (dgetd field (VStr "") p) = str_Z target) frequency_fields) policies.

Lemma policy_errors_nil target p :
  policy_errors target p = [] →
  Forall (λ field, str_val (dgetd field (VStr "") p) = str_Z target) frequency_fields.
Proof.
  intros Hnil%omap_nil. eapply Forall_impl; [exact Hnil|]. intros field. cbv beta zeta.
  by case_bool_decide.
Qed.

Lemma verify_nil mhz state :
  cpu_frequency_mhz config = Some mhz → verify_cpu_frequency config state = Ok [] →
  at_frequency (mhz * 1000) state.
Proof.
  unfold verify_cpu_frequency. intros ->.
  destruct (truthy (dgetd "policies" (VList []) state)) eqn:Ht; [simpl|done].
  intros (l & Hl & (policies & Hp & Hnil)%outcome_bind_ok)%outcome_bind_ok.
  injection Hnil as Hnil. exists policies.
  assert (dget "policies" state = Some (dgetd "policies" (VList []) state)) as Hget.
  { unfold dgetd in *. by destruct (dget "policies" state). }
  split_and!.
  - unfold policies_of, subscript. rewrite Hget. simpl. rewrite Hl. exact Hp.
  - intros ->. apply traverse_ok in Hp. inversion Hp; subst l.
    destruct (dgetd "policies" (VList []) state) as [| | | |str|l|d]; try done; simpl in *.
    + by destruct str.
    + by simplify_eq.
    + by destruct d.
  - apply concat_nil_forall in Hnil. apply Forall_map in Hnil.
    eapply Forall_impl; [exact Hnil|]. intros p. apply policy_errors_nil.
Qed.

Lemma await_frequency_post n d sw :
  wp (await_frequency config n d) (λ se _, verify_cpu_frequency config se.1 = Ok se.2)
    (λ _ _, True) sw.
Proof.
  revert sw. induction n as [|n IH]; intros sw; [done|]. simpl.
  apply wp_skip; [intros state s1|done]. apply wp_bind, wp_lift.
  destruct (verify_cpu_frequency config state) as [errors|] eqn:Hv; [|done].
  case_bool_decide; [by apply wp_ret|].
  apply wp_skip; [intros now s2|done]. destruct (f_le d now); [by apply wp_ret|].
  apply wp_skip; [intros _ s3|done]. apply IH.
Qed.

(** The commands of a log. *)
Definition commands_of (w : world W) : list (list string) :=
  omap (λ e, match e with ERun cmd _ _ => Some cmd | _ => None end) (w_log w).

(** A command is only issued once the frequency is marked for restoring. *)
Definition marked_first : relation (SystemControls * world W) := λ x y,
  (cpu_restore_needed x.1 = true → cpu_restore_needed y.1 = true) ∧
  cpu_locked y.1 = cpu_locked x.1 ∧
  (cpu_restore_needed y.1 = true ∨ commands_of y.2 = commands_of x.2).
#[export] Instance marked_first_preorder : PreOrder marked_first.
Proof.
  split; [by intros x; split_and!; auto|].
  intros x y z (H1 & H2 & [H3|H3]) (H4 & H5 & [H6|H6]); split_and!; auto; try congruence.
  right. congruence.
Qed.

Lemma marked_sys {A} (c : syscall A) :
  match c with RunCommand _ _ _ => False | _ => True end → within marked_first (sys c).
Proof.
  intros Hc [s w]. unfold sys. destruct (handle c (w_os w)) as [r o]. split_and!; auto.
  right. unfold commands_of. simpl. rewrite omap_app. destruct c; try done; simpl; repeat case_match; by rewrite ?app_nil_r.
Qed.
Lemma marked_frequency_state : within marked_first (cpu_frequency_state (W := W)).
Proof.
  unfold cpu_frequency_state, policy_state, read_optional_text.
  solve_within; by apply marked_sys.
Qed.

Lemma locked_state_policies mhz state target :
  at_frequency target state → at_frequency target (locked_state mhz state).
Proof.
  intros (policies & Hp & Hne & Hall). exists policies. split_and!; [|done..].
  unfold policies_of, subscript, locked_state in *. rewrite dget_dupdate; [done|].
  simpl. set_solver.
Qed.

(** From a marked state, what follows changes neither mark nor lock. *)
Lemma wp_marked {A B} (m : M (SystemControls * world W) A) (k : A → M (SystemControls * world W) B)
    Q (E : exn → SystemControls * world W → Prop) s w x :
  keeps m → cpu_restore_needed s = true → cpu_locked s = cpu_locked x.1 →
  (∀ a w', wp (k a) Q E (s, w')) → (∀ e y, marked_first x y → E e y) → wp (bind m k) Q E (s, w).
Proof.
  intros Hm Hs Hl Hk HE. apply wp_bind, wp_keeps; [exact Hm|exact Hk|].
  intros e w'. apply HE. split_and!; simpl; auto.
Qed.

Lemma lock_post dir mhz s w :
  cpu_frequency_mhz config = Some mhz →
  wp (lock_cpu_once config fuel dir)
    (λ st sw, cpu_locked sw.1 = true ∧ at_frequency (mhz * 1000) st)
    (λ _ sw, marked_first (s, w) sw) (s, w).
Proof.
  intros Hmhz. unfold lock_cpu_once. rewrite Hmhz. apply wp_bind, wp_self.
  destruct (cpu_locked s) eqn:Hl.
  - apply wp_bind. eapply wp_conseq; [apply (wp_and_within marked_first);
      [apply marked_frequency_state|apply wp_same_self, keeps_cpu_frequency_state]| |by intros e sw []].
    intros st [s1 w1] [Hs Hmark]. simpl in Hs. subst s1. apply wp_bind, wp_lift.
    destruct (verify_cpu_frequency config st) as [errors|] eqn:Hv; [|done].
    apply wp_bind, wp_when; intros Herr; [by apply wp_throw|]. apply wp_ret. split; [done|].
    apply negb_false_iff, bool_decide_eq_true in Herr. subst errors.
    by apply locked_state_policies, verify_nil.
  - apply wp_bind. eapply wp_conseq; [apply (wp_and_within marked_first);
      [apply marked_frequency_state|apply wp_same_self, keeps_cpu_frequency_state]| |by intros e sw []].
    intros st [s1 w1] [Hs Hmark]. simpl in Hs. subst s1.
    apply wp_bind, wp_set_self, wp_bind, wp_when; intros Ht; [by apply wp_throw|].
    apply wp_bind, wp_set_self.
    eapply (wp_marked _ _ _ _ _ _ (s, w)); [solve_keeps|done|done|intros completed w2|done].
    eapply (wp_marked _ _ _ _ _ _ (s, w)); [solve_keeps|done|done|intros _ w3|done].
    eapply (wp_marked _ _ _ _ _ _ (s, w)); [solve_keeps|done|done|intros _ w4|done].
    eapply (wp_marked _ _ _ _ _ _ (s, w)); [solve_keeps|done|done|intros now w5|done].
    apply wp_bind. eapply wp_conseq; [apply wp_and; [apply await_frequency_post|
      apply wp_same_self, keeps_await_frequency]| |].
    + intros [st2 errors] [s6 w6] [Hv Hs6]. simpl in Hv, Hs6. subst s6.
      apply wp_bind, wp_when; intros Herr.
      { apply wp_throw. split_and!; simpl; auto. }
      apply wp_bind, wp_set_self, wp_ret. split; [done|].
      apply negb_false_iff, bool_decide_eq_true in Herr. subst errors.
      by apply locked_state_policies, verify_nil.
    + intros e [s6 w6] [_ Hs6]. simpl in Hs6. subst s6. split_and!; simpl; auto.
Qed.
End frequency.

(** The frequency restore is verified.  When it returns, the frequency is
    no longer marked as changed, and if it was marked, the machine was read
    after the writes and every recorded policy agreed on minimum, maximum and
    governor; when it raises, nothing of the object has changed, so that the
    mark and the recorded state are there for the next attempt. *)
Theorem restore_cpu_frequency_verified {W} `{OS W} config s (w : world W) :
  match restore_cpu_frequency config (s, w) with
  | (Ok _, (s', _)) => cpu_restore_needed s' = false ∧
      (if cpu_restore_needed s then frequency_restored (W := W) s else s' = s)
  | (Raise _, (s', _)) => s' = s
  end.
Proof.
  destruct (cpu_restore_needed s) eqn:Hn.
  - pose proof (restore_frequency_post config s w Hn) as Hp. unfold wp in Hp.
    destruct (restore_cpu_frequency config (s, w)) as [[] []]; simpl in Hp; tauto.
  - unfold restore_cpu_frequency, bind, self, gets. simpl. by rewrite Hn.
Qed.

(** The frequency lock is verified and always undoable.  When
    [_lock_cpu_once] returns with a requested frequency, the frequency is
    marked locked and the state it returns has at least one policy, every one
    of them at the requested minimum, maximum and current frequency; when it
    raises, no command has been issued unless the frequency is marked for
    restoring, and the lock mark has not changed. *)
Theorem lock_cpu_once_verified {W} `{OS W} config fuel dir s (w : world W) :
  match cpu_frequency_mhz config, lock_cpu_once config fuel dir (s, w) with
  | Some mhz, (Ok st, (s', _)) => cpu_locked s' = true ∧ at_frequency (mhz * 1000) st
  | Some _, (Raise _, (s', w')) =>
      (cpu_restore_needed s' = true ∨ commands_of w' = commands_of w) ∧
      cpu_locked s' = cpu_locked s
  | None, (_, sw) => sw = (s, w)
  end.
Proof.
  destruct (cpu_frequency_mhz config) as [mhz|] eqn:Hmhz.
  - pose proof (lock_post config fuel dir mhz s w Hmhz) as Hp. unfold wp in Hp.
    destruct (lock_cpu_once config fuel dir (s, w)) as [[] []]; [exact Hp|].
    destruct Hp as (_ & Hl & Hm). by split.
  - unfold lock_cpu_once. by rewrite Hmhz.
Qed.

(** ** Waiting *)

Section waiting.
Context {W : Type} `{OS W} `{!Clock W} (config : SystemControlConfig) (fuel : nat).
Abbreviation state := (SystemControls * world W)%type.

(** Exceptions of the code itself are not [OutOfFuel]. *)
Lemma as_dicts_fine l e : traverse as_dict l = Raise e → exn_type e ≠ OutOfFuel.
Proof.
  revert e. induction l as [|v l IH]; intros e; [done|]. simpl.
  destruct v; simpl; try by intros [= <-]. destruct (traverse as_dict l); [done|].
  intros [= <-]. by apply IH.
Qed.
Lemma as_list_fine v e : as_list v = Raise e → exn_type e ≠ OutOfFuel.
Proof. destruct v; by intros [= <-]. Qed.
Lemma verify_fine st e : verify_cpu_frequency config st = Raise e → exn_type e ≠ OutOfFuel.
Proof.
  unfold verify_cpu_frequency. destruct (cpu_frequency_mhz config); [|done].
  destruct (truthy _); [simpl|done].
  destruct (as_list _) as [l|e'] eqn:Hl; simpl; [|intros [= <-]; by eapply as_list_fine].
  destruct (traverse as_dict l) eqn:Ht; simpl; [done|]. intros [= <-]. by eapply as_dicts_fine.
Qed.

Lemma quick_frequency_state : quick (S := SystemControls) (W := W) cpu_frequency_state.
Proof. unfold cpu_frequency_state, policy_state, read_optional_text. solve_quick. Qed.

Lemma await_frequency_ends n d sw :
  deadline d → (time_left d (w_os sw.2) < n)%nat →
  wp (await_frequency config n d) (λ _ _, True) fine sw.
Proof.
  intros Hd. revert sw. induction n as [|n IH]; intros sw Hn; [lia|]. simpl.
  apply wp_quick; [apply quick_frequency_state|]. intros st s1 H1.
  apply wp_quick; [apply quick_lift; intros e; apply verify_fine|]. intros errors s2 H2.
  case_bool_decide; [done|]. apply (wp_now_fine d); [done|]. intros now s3 H3 Hdue.
  destruct (f_le d now) eqn:Hle; [done|]. specialize (H1 d). specialize (H2 d). specialize (H3 d).
  assert (time_left d (w_os s2.2) ≠ 0%nat) by (intros Hz; destruct (Hdue Hz); congruence).
  apply wp_sleep_fine; [done|]. intros s4 Hs4. specialize (Hs4 d). apply IH. lia.
Qed.

Lemma helper_attempts_end n command what d failures sw :
  deadline d → (time_left d (w_os sw.2) < n)%nat →
  wp (helper_attempts n command what d failures) (λ _ _, True) fine sw.
Proof.
  intros Hd. revert failures sw. induction n as [|n IH]; intros failures sw Hn; [lia|]. simpl.
  apply wp_quick; [apply quick_sys|]. intros completed s1 H1. case_bool_decide; [done|].
  apply (wp_now_fine d); [done|]. intros now s2 H2 Hdue.
  destruct (f_le_Z (f_sub d now) 0) eqn:Hle; [by apply wp_throw|].
  specialize (H1 d). specialize (H2 d).
  assert (time_left d (w_os s1.2) ≠ 0%nat) by (intros Hz; destruct (Hdue Hz); congruence).
  apply wp_sleep_fine; [by apply f_min_positive|]. intros s3 Hs3. specialize (Hs3 d). apply IH. lia.
Qed.

Lemma run_rsusb_helper_ends action sw :
  ends_within (rsusb_prepare_timeout_seconds config) fuel →
  wp (run_rsusb_helper config fuel action) (λ _ _, True) fine sw.
Proof.
  intros Ht. unfold run_rsusb_helper. revert sw.
  induction (rsusb_usb_devices config) as [|device devices IH]; intros sw; simpl; [done|].
  apply wp_bind. apply (wp_start_fine (rsusb_prepare_timeout_seconds config) fuel); [exact Ht|]. intros now s1 _ Hd Hl.
  apply wp_bind. eapply wp_conseq; [by apply helper_attempts_end| |done]. intros _ s2 _. apply wp_ret.
  apply IH.
Qed.

Lemma lock_cpu_once_ends dir sw :
  ends_within (f_of_Z 1) fuel → wp (lock_cpu_once config fuel dir) (λ _ _, True) fine sw.
Proof.
  intros Ht. unfold lock_cpu_once. destruct (cpu_frequency_mhz config) as [mhz|]; [|done].
  apply wp_quick; [apply quick_self|]. intros [] s1 _.
  - apply wp_quick; [apply quick_frequency_state|]. intros st s2 _.
    apply wp_quick; [apply quick_lift; intros e; apply verify_fine|]. intros errors s3 _.
    apply wp_quick_last. solve_quick.
  - apply wp_quick; [apply quick_frequency_state|]. intros st s2 _.
    apply wp_quick; [solve_quick|]. intros _ s3 _. apply wp_quick; [solve_quick|]. intros _ s4 _.
    apply wp_quick; [solve_quick|]. intros _ s5 _. apply wp_quick; [solve_quick|]. intros completed s6 _.
    apply wp_quick; [solve_quick|]. intros _ s7 _. apply wp_quick; [solve_quick|]. intros _ s8 _.
    apply (wp_start_fine (f_of_Z 1) fuel); [exact Ht|]. intros now s9 _ Hd Hl.
    apply wp_bind. eapply wp_conseq; [by apply await_frequency_ends| |done]. intros [st2 errors] s10 _.
    apply wp_quick_last. solve_quick.
Qed.
End waiting.

(** The waiting loops end.  On a clock that advances with every sleep, and
    with fuel for the sleeps that fit into the timeout, locking the frequency
    and binding or unbinding the cameras never run out of fuel: they return or
    raise a Python exception. *)
Theorem waiting_loops_end {W} `{Clock W} config fuel dir action (sw : SystemControls * world W) :
  ends_within (f_of_Z 1) fuel → ends_within (rsusb_prepare_timeout_seconds config) fuel →
  in_fuel (lock_cpu_once config fuel dir sw) ∧ in_fuel (run_rsusb_helper config fuel action sw).
Proof.
  intros H1 H2. split; eapply in_fuel_wp; [by apply lock_cpu_once_ends|by apply run_rsusb_helper_ends].
Qed.

Definition demo_controls : SystemControlConfig := {|
  repo_root := "/repo"; tool_dir := "/repo/tools"; use_sudo := false; cpu_frequency_mhz := Some 1500;
  cpu_lock_script := "/repo/lock.sh"; cpu_restore_script := "/repo/restore.sh";
  rsusb_backend := true; rsusb_usb_devices := ["2-1"]; rsusb_helper := "/repo/rsusb.sh";
  rsusb_prepare_each_attempt := false; rsusb_prepare_timeout_seconds := f_of_Z 10;
  rsusb_unbind_settle_seconds := f_dec 25 (-2); disable_realsense_autosuspend := false;
  usb_sysfs_base := "/usb"; cpu_isolation_enabled := false; housekeeping_cpus := "0";
  benchmark_cpus := "1-3" |}.

Theorem waiting_loops_end_witness :
  let r := @run_rsusb_helper bool tick_os demo_controls 2 "unbind" (initial demo_controls, World true []) in
  in_fuel r ∧ raised r = Some RuntimeError.
Proof.
  split; [|vm_compute; reflexivity].
  assert (∀ t, f_add (f_of_Z 0) t ∈ tick_deadlines → f_add f_largest t ∈ tick_deadlines →
    @ends_within bool tick_os tick_clock t 2) as Hends.
  { intros t H0 Hl [] now [= <-]; (split; [assumption|simpl; lia]). }
  apply (@waiting_loops_end bool tick_os tick_clock demo_controls 2 "/rec" "unbind"
    (initial demo_controls, World true [])); apply Hends;
    (apply (bool_decide_unpack _); vm_compute; done).
Defined.

(** ** The kernel log *)

Lemma find_anchor_skip anchor l r acc :
  anchor ∉ l → find_anchor anchor (rev l ++ r) acc = find_anchor anchor r (l ++ acc).
Proof.
  revert acc. induction l as [|x l IH] using rev_ind; intros acc Hl; [done|].
  apply not_elem_of_app in Hl as [Hl Hx]. rewrite rev_app_distr. simpl.
  rewrite bool_decide_eq_false_2 by set_solver. rewrite IH by done. by rewrite <- app_assoc.
Qed.
Lemma find_anchor_last anchor kept new :
  anchor ∉ new → find_anchor anchor (rev (kept ++ anchor :: new)) [] = Some new.
Proof.
  intros Hn. rewrite rev_app_distr. simpl. rewrite <- app_assoc, find_anchor_skip by done.
  simpl. by rewrite bool_decide_eq_true_2, app_nil_r.
Qed.
Lemma find_anchor_none anchor lines :
  anchor ∉ lines → find_anchor anchor (rev lines) [] = None.
Proof. intros Hn. rewrite <- (app_nil_r (rev lines)). by rewrite find_anchor_skip. Qed.

Definition lines_text (lines : list string) : string :=
  if bool_decide (py_join nl lines = "") then "" else py_join nl lines +:+ nl.

(** The kernel-log delta is what was added.  A log that only grew yields
    exactly the new text; a rotated one yields the lines after the last
    occurrence of the last line known before; and when that line is gone, an
    error is reported instead of a delta. *)
Theorem kernel_delta_is_the_addition before after :
  (∀ new, after = before +:+ new → kernel_delta before after = (new, "")) ∧
  (∀ anchor kept new, py_startswith before after = false →
     last (py_splitlines before) = Some anchor →
     py_splitlines after = kept ++ anchor :: new → anchor ∉ new →
     kernel_delta before after = (lines_text new, "")) ∧
  (∀ anchor, py_startswith before after = false → last (py_splitlines before) = Some anchor →
     anchor ∉ py_splitlines after →
     kernel_delta before after =
       ("", "dmesg ring buffer changed and the pre-run anchor was lost")).
Proof.
  unfold kernel_delta. split_and!.
  - intros new ->. by rewrite py_startswith_app, py_drop_app.
  - intros anchor kept new -> -> -> Hn. by rewrite find_anchor_last.
  - intros anchor -> -> Hn. by rewrite find_anchor_none.
Qed.

Theorem kernel_delta_is_the_addition_witness :
  kernel_delta ("a" +:+ nl +:+ "b" +:+ nl) ("b" +:+ nl +:+ "c" +:+ nl +:+ "d" +:+ nl) =
    ("c" +:+ nl +:+ "d" +:+ nl, "").
Proof.
  destruct (kernel_delta_is_the_addition ("a" +:+ nl +:+ "b" +:+ nl)
    ("b" +:+ nl +:+ "c" +:+ nl +:+ "d" +:+ nl)) as (_ & Hrot & _).
  apply (Hrot "b" [] ["c"; "d"]); [reflexivity|reflexivity|reflexivity|].
  apply (bool_decide_unpack _). vm_compute. done.
Defined.
