(* ===== verification/SchedTrace.v ===== *)
(** * Scheduler intervals and activations ([parse_startup_trace.py], [parse_steady_trace.py])

    From the scheduler events of one thread to its running, ready and sleeping
    intervals ([scheduler_intervals]), and from those to its activations
    ([activations_from_intervals]).  The closures that share variables with
    their function become transitions on the record of those variables. *)
From Stdlib Require Import Ascii ZArith Lia.
From S2P Require Import Prelude PyStr PyFloat PyVal.
From stdpp Require Import base gmap strings list sorting.
Local Open Scope Z_scope.
Local Open Scope py_scope.

Definition BLOCKING_EVENTS : list string :=
  ["enter_accept"; "enter_clock_nano_sleep"; "enter_epoll_pwait"; "enter_futex";
   "enter_mq_timedreceive"; "enter_msgrcv"; "enter_nanosleep"; "enter_pause";
   "enter_poll"; "enter_pselect6"; "enter_read_blk"; "enter_read_chr";
   "enter_read_fifo"; "enter_read_sock"; "enter_recv"; "enter_recvfrom";
   "enter_recvmsg"; "enter_recvmmsg"; "enter_rt_sigsuspend"; "enter_select";
   "enter_semop"; "enter_sig_timed_wait"].

(** [int(d[k])]. *)
Definition int_item (d : pydict) (k : string) : outcome Z := v ← subscript d k; py_int v.

(** [d.get(k) or default]. *)
Definition get_or (k : string) (default : pyval) (d : pydict) : pyval :=
  let v := dgetd k VNone d in if truthy v then v else default.

(** ** Intervals *)

Record Interval := {
  cycle : Z;
  tid : Z;
  name : string;
  state : string;
  start_ns : Z;
  end_ns : Z;
  start_ms : f64;
  end_ms : f64;
  duration_ms : f64;
  cpu : pyval;
  reason : string;
}.

(** The variables of [scheduler_intervals]; [current_state] and
    [current_start] are set and cleared together. *)
Record sched_vars := {
  intervals : list Interval;
  current : option (string * Z);
  current_cpu : pyval;
  current_reason : string;
  last_blocking : string;
  first_run : option Z;
  first_sleep : option Z;
}.

Definition ms_of_ns (ns : Z) : f64 := Z_truediv ns 1000000.

Section intervals.
Context (cycle_ tid_ : Z) (name_ : string) (origin : Z).

Definition interval (v : sched_vars) (st : string) (start timestamp : Z) : Interval := {|
  cycle := cycle_; tid := tid_; name := name_; state := st; start_ns := start; end_ns := timestamp;
  start_ms := ms_of_ns (start - origin); end_ms := ms_of_ns (timestamp - origin);
  duration_ms := ms_of_ns (timestamp - start); cpu := current_cpu v; reason := current_reason v |}.

Definition close (timestamp : Z) (v : sched_vars) : sched_vars :=
  match current v with
  | Some (st, start) =>
      if bool_decide (timestamp < start) then v else
      {| intervals := intervals v ++ [interval v st start timestamp]; current := None;
         current_cpu := current_cpu v; current_reason := current_reason v;
         last_blocking := last_blocking v; first_run := first_run v; first_sleep := first_sleep v |}
  | None => v
  end.

(** [current_state, current_start, current_cpu, current_reason = ...]. *)
Definition enter (st : string) (start : Z) (cpu : pyval) (reason : string) (v : sched_vars) :
    sched_vars :=
  {| intervals := intervals v; current := Some (st, start); current_cpu := cpu;
     current_reason := reason; last_blocking := last_blocking v; first_run := first_run v;
     first_sleep := first_sleep v |}.
Definition set_blocking (kind : string) (v : sched_vars) : sched_vars :=
  {| intervals := intervals v; current := current v; current_cpu := current_cpu v;
     current_reason := current_reason v; last_blocking := kind; first_run := first_run v;
     first_sleep := first_sleep v |}.
Definition note_run (timestamp : Z) (v : sched_vars) : sched_vars :=
  {| intervals := intervals v; current := current v; current_cpu := current_cpu v;
     current_reason := current_reason v; last_blocking := last_blocking v;
     first_run := match first_run v with Some t => Some t | None => Some timestamp end;
     first_sleep := first_sleep v |}.
Definition note_sleep (timestamp : Z) (v : sched_vars) : sched_vars :=
  {| intervals := intervals v; current := current v; current_cpu := current_cpu v;
     current_reason := current_reason v; last_blocking := last_blocking v; first_run := first_run v;
     first_sleep := match first_sleep v with Some t => Some t | None => Some timestamp end |}.

(** The body of the event loop. *)
Definition sched_event (v : sched_vars) (event : pydict) : outcome sched_vars :=
  timestamp ← int_item event "ts";
  let kind := str_val (dgetd "event" (VStr "") event) in
  if bool_decide (kind ∈ BLOCKING_EVENTS) then Ok (set_blocking kind v)
  else if bool_decide (kind = "sched_switched_in") then
    Ok (note_run timestamp
          (enter "running" timestamp (dgetd "cpu" (VStr "") event) "" (close timestamp v)))
  else if bool_decide (kind = "sched_switched_out") then
    let v := close timestamp v in
    st ← py_int (dgetd "state" (VInt 0) event);
    let ready := bool_decide (st = 0) in
    let v' := enter (if ready then "ready" else "sleeping") timestamp
                (dgetd "cpu" (current_cpu v) event)
                (if ready then "preempted"
                 else str_or (last_blocking v) ("task_state_" +:+ str_Z st)) v in
    mret (if ready then v' else note_sleep timestamp v')
  else if bool_decide (kind = "sched_wake_up" ∨ kind = "sched_wake_up_new") then
    let v := match current v with
             | Some (st, _) => if bool_decide (st = "sleeping") then close timestamp v else v
             | None => v
             end in
    Ok (match current v with
        | None => enter "ready" timestamp (dgetd "cpu" (VStr "") event) kind v
        | Some _ => v
        end)
  else if bool_decide (kind = "sched_process_exit") then Ok (close timestamp v)
  else Ok v.

Definition start_vars : sched_vars := {|
  intervals := []; current := None; current_cpu := VStr ""; current_reason := "";
  last_blocking := ""; first_run := None; first_sleep := None |}.

(** [[event for event in events if begin <= int(event["ts"]) <= end]]. *)
Fixpoint relevant (begin_ end_ : Z) (events : list pydict) : outcome (list pydict) :=
  match events with
  | [] => Ok []
  | event :: events =>
      ts ← int_item event "ts";
      rest ← relevant begin_ end_ events;
      mret (if bool_decide (begin_ <= ts <= end_) then event :: rest else rest)
  end.

Definition scheduler_intervals (events : list pydict) (begin_ end_ : Z) :
    outcome (list Interval * option Z * option Z) :=
  events ← relevant begin_ end_ events;
  v ← fold_outcome sched_event start_vars events;
  let v := close end_ v in
  mret (intervals v, first_run v, first_sleep v).
End intervals.

(** ** Activations *)

Record Activation := {
  a_tid : Z;
  a_name : string;
  release_ns : Z;
  first_run_ns : option Z;
  execution_ms : f64;
  ready_ms : f64;
  partial_start : bool;
  completion_ns : Z;
  response_ms : f64;
  partial_end : bool;
  activation : Z;
  period_ms : option f64;
}.

(** The variables of [activations_from_intervals]; [current] holds the fields
    known before it is closed. *)
Record act_vars := {
  rows : list Activation;
  open : option Activation;
  preceded_by_sleep : bool;
}.

Section activations.
Context (tid_ : Z) (name_ : string).

Definition close_activation (completion : Z) (partial : bool) (v : act_vars) : act_vars :=
  match open v with
  | None => v
  | Some a =>
      {| rows := rows v ++ [{|
           a_tid := a_tid a; a_name := a_name a; release_ns := release_ns a;
           first_run_ns := first_run_ns a; execution_ms := execution_ms a; ready_ms := ready_ms a;
           partial_start := partial_start a; completion_ns := completion;
           response_ms := ms_of_ns (completion - release_ns a); partial_end := partial;
           activation := activation a; period_ms := period_ms a |}];
         open := None; preceded_by_sleep := preceded_by_sleep v |}
  end.

Definition new_activation (start : Z) (partial : bool) : Activation := {|
  a_tid := tid_; a_name := name_; release_ns := start; first_run_ns := None;
  execution_ms := f_zero; ready_ms := f_zero; partial_start := partial; completion_ns := 0;
  response_ms := f_zero; partial_end := false; activation := 0; period_ms := None |}.

(** [current[metric] += duration] and the first running start. *)
Definition extend (i : Interval) (a : Activation) : Activation :=
  let running := bool_decide (state i = "running") in
  {| a_tid := a_tid a; a_name := a_name a; release_ns := release_ns a;
     first_run_ns := match first_run_ns a with
                     | Some t => Some t
                     | None => if running then Some (start_ns i) else None end;
     execution_ms := if running then f_add (execution_ms a) (duration_ms i) else execution_ms a;
     ready_ms := if running then ready_ms a else f_add (ready_ms a) (duration_ms i);
     partial_start := partial_start a; completion_ns := completion_ns a;
     response_ms := response_ms a; partial_end := partial_end a; activation := activation a;
     period_ms := period_ms a |}.

Definition act_interval (v : act_vars) (i : Interval) : act_vars :=
  if bool_decide (state i = "sleeping") then
    let v := close_activation (start_ns i) false v in
    {| rows := rows v; open := open v; preceded_by_sleep := true |}
  else if negb (bool_decide (state i = "ready" ∨ state i = "running")) then v
  else
    match open v with
    | Some a => {| rows := rows v; open := Some (extend i a);
                   preceded_by_sleep := preceded_by_sleep v |}
    | None =>
        {| rows := rows v;
           open := Some (extend i (new_activation (start_ns i) (negb (preceded_by_sleep v))));
           preceded_by_sleep := false |}
    end.

(** The final loop: numbers and periods. *)
Fixpoint number_from (index : Z) (previous : option Z) (l : list Activation) : list Activation :=
  match l with
  | [] => []
  | a :: l =>
      {| a_tid := a_tid a; a_name := a_name a; release_ns := release_ns a;
         first_run_ns := first_run_ns a; execution_ms := execution_ms a; ready_ms := ready_ms a;
         partial_start := partial_start a; completion_ns := completion_ns a;
         response_ms := response_ms a; partial_end := partial_end a; activation := index;
         period_ms := (λ p, ms_of_ns (release_ns a - p)) <$> previous |}
      :: number_from (index + 1) (Some (release_ns a)) l
  end.

Definition activations_from_intervals (l : list Interval) (window_end : Z) : list Activation :=
  let v := foldl act_interval {| rows := []; open := None; preceded_by_sleep := false |}
                 (sort_on start_ns l) in
  number_from 1 None (rows (close_activation window_end true v)).
End activations.

(** ** Statistics *)

(** [sorted(values)[low] + ...]: linear interpolation. *)
Definition percentile (values : list f64) (quantile : f64) : outcome f64 :=
  match f_sorted values with
  | [] => Ok f_zero
  | [x] => Ok x
  | ordered =>
      let n := Z.of_nat (length ordered) in
      let position := f_mul quantile (f_of_Z (n - 1)) in
      low ← f_trunc position;
      let high := Z.min (low + 1) (n - 1) in
      let at_ i := nth (Z.to_nat i) ordered f_zero in
      mret (f_add (at_ low) (f_mul (f_sub (at_ high) (at_ low)) (f_sub position (f_of_Z low))))
  end.

Definition distribution (samples : list f64) : outcome pydict :=
  match samples with
  | [] => Ok [("n", VInt 0); ("min", VFloat f_zero); ("mean", VFloat f_zero); ("p50", VFloat f_zero);
              ("p90", VFloat f_zero); ("p99", VFloat f_zero); ("p999", VFloat f_zero);
              ("max", VFloat f_zero)]
  | x :: l =>
      p50 ← percentile samples (f_dec 50 (-2));
      p90 ← percentile samples (f_dec 90 (-2));
      p99 ← percentile samples (f_dec 99 (-2));
      p999 ← percentile samples (f_dec 999 (-3));
      mret [("n", VInt (Z.of_nat (length samples))); ("min", VFloat (f_list_min x l));
            ("mean", VFloat (f_fmean samples)); ("p50", VFloat p50); ("p90", VFloat p90);
            ("p99", VFloat p99); ("p999", VFloat p999); ("max", VFloat (f_list_max x l))]
  end.

(** ** Intervals in order *)

(** Intervals one after the other within [[lo, hi]]. *)
Fixpoint chain (lo hi : Z) (l : list Interval) : Prop :=
  match l with
  | [] => lo <= hi
  | i :: l => lo <= start_ns i <= end_ns i ∧ chain (end_ns i) hi l
  end.

Lemma chain_weaken lo hi hi' l : hi <= hi' → chain lo hi l → chain lo hi' l.
Proof. revert lo. induction l as [|i l IH]; intros lo Hle; simpl; [lia|]. intros [? ?]. auto. Qed.
Lemma chain_bounds lo hi l : chain lo hi l → lo <= hi.
Proof. revert lo. induction l as [|i l IH]; intros lo; simpl; [done|]. intros [? ?%IH]. lia. Qed.
Lemma chain_snoc lo hi l i :
  chain lo (start_ns i) l → start_ns i <= end_ns i <= hi → chain lo hi (l ++ [i]).
Proof.
  revert lo. induction l as [|j l IH]; intros lo; simpl; [lia|]. intros [? ?] ?. auto.
Qed.

(** The time the intervals cover fits into the window. *)
Definition covered (l : list Interval) : Z := foldr (λ i acc, end_ns i - start_ns i + acc) 0 l.
Lemma chain_covered lo hi l : chain lo hi l → 0 <= covered l <= hi - lo.
Proof.
  revert lo. induction l as [|i l IH]; intros lo; simpl; [lia|]. intros [? ?%IH]. lia.
Qed.
Lemma chain_Forall lo hi l : chain lo hi l → Forall (λ i, lo <= start_ns i <= end_ns i ∧ end_ns i <= hi) l.
Proof.
  revert lo. induction l as [|i l IH]; intros lo; simpl; [constructor|]. intros [Hi Hl].
  pose proof (chain_bounds _ _ _ Hl). constructor; [lia|].
  eapply Forall_impl; [apply IH, Hl|]. simpl. intros j. lia.
Qed.

Definition known_state (i : Interval) : Prop :=
  state i = "running" ∨ state i = "ready" ∨ state i = "sleeping".

(** Up to time [t]: the closed intervals are in order and end before the open
    one starts. *)
Definition upto (lo t : Z) (v : sched_vars) : Prop :=
  Forall known_state (intervals v) ∧
  match current v with
  | Some (st, start) => chain lo start (intervals v) ∧ start <= t ∧
                        (st = "running" ∨ st = "ready" ∨ st = "sleeping")
  | None => chain lo t (intervals v)
  end.

Section order.
Context (cycle_ tid_ : Z) (name_ : string) (origin : Z).
Abbreviation close := (close cycle_ tid_ name_ origin).
Abbreviation sched_event := (sched_event cycle_ tid_ name_ origin).

Lemma close_upto lo t t' v :
  t <= t' → upto lo t v → upto lo t' (close t' v) ∧ current (close t' v) = None.
Proof.
  unfold upto, SchedTrace.close. intros Ht [Hk Hv]. destruct (current v) as [[st start]|] eqn:Hc.
  - destruct Hv as (Hch & Hs & Hst). rewrite bool_decide_eq_false_2 by lia. simpl.
    split; [|done]. split; [by apply Forall_app_2; [done|constructor]|].
    by apply chain_snoc; simpl; [|lia].
  - rewrite Hc. split; [|done]. split; [done|]. eapply chain_weaken; [|done]. lia.
Qed.
Lemma enter_upto lo t st c r v :
  upto lo t v → current v = None → st = "running" ∨ st = "ready" ∨ st = "sleeping" →
  upto lo t (enter st t c r v).
Proof. unfold upto. intros [Hk Hv] Hc Hst. rewrite Hc in Hv. simpl. split_and!; auto. lia. Qed.
Lemma upto_weaken lo t t' v : t <= t' → upto lo t v → upto lo t' v.
Proof.
  unfold upto. intros Ht [Hk Hv]. split; [done|]. destruct (current v) as [[st start]|].
  - destruct Hv as (?&?&?). split_and!; auto. lia.
  - by eapply chain_weaken.
Qed.

Lemma sched_event_upto lo t ts v event v' :
  int_item event "ts" = Ok ts → t <= ts → upto lo t v → sched_event v event = Ok v' →
  upto lo ts v'.
Proof.
  intros Hts Ht Hv. unfold SchedTrace.sched_event. rewrite Hts. cbn -[close enter].
  destruct (close_upto lo t ts v Ht Hv) as [Hcl Hno].
  assert (upto lo ts v) as Hv' by by eapply upto_weaken.
  case_bool_decide; [by intros [= <-]|].
  case_bool_decide.
  { intros [= <-]. apply (enter_upto lo ts "running"); auto. }
  case_bool_decide.
  { intros (st & _ & [= <-])%outcome_bind_ok. cbv zeta.
    destruct (bool_decide (st = 0)).
    - apply (enter_upto lo ts "ready"); auto.
    - apply (enter_upto lo ts "sleeping"); auto. }
  case_bool_decide.
  { intros [= <-]. destruct (current v) as [[st start]|] eqn:Hc.
    - case_bool_decide; [rewrite Hno; apply enter_upto; auto|by rewrite Hc].
    - rewrite Hc. apply enter_upto; auto. }
  by case_bool_decide; intros [= <-].
Qed.

(** Events in time order. *)
Definition timed : list pydict → Prop := StronglySorted (λ x y,
  ∀ a b, int_item x "ts" = Ok a → int_item y "ts" = Ok b → a <= b).

Lemma relevant_within lo hi events l :
  relevant lo hi events = Ok l → timed events →
  timed l ∧ Forall (λ e, e ∈ events ∧ ∃ ts, int_item e "ts" = Ok ts ∧ lo <= ts <= hi) l.
Proof.
  revert l. induction events as [|e events IH]; intros l; simpl.
  { intros [= <-]. split; constructor. }
  intros (ts & Hts & (rest & Hrest & [= <-])%outcome_bind_ok)%outcome_bind_ok Hsort.
  apply StronglySorted_inv in Hsort as [Hsort He].
  destruct (IH _ Hrest Hsort) as [Hs Hw].
  assert (Forall (λ e', e' ∈ e :: events ∧ ∃ ts, int_item e' "ts" = Ok ts ∧ lo <= ts <= hi) rest).
  { eapply Forall_impl; [exact Hw|]. intros x [Hx ?]. split; [by right|done]. }
  case_bool_decide; [|done]. split.
  - constructor; [done|]. rewrite Forall_forall in He, Hw. apply Forall_forall. intros x Hx.
    apply He. by apply (Hw x Hx).
  - constructor; [|done]. split; [by left|eauto].
Qed.

Lemma fold_upto lo hi events v v' t :
  timed events → Forall (λ e, ∃ ts, int_item e "ts" = Ok ts ∧ t <= ts <= hi) events →
  t <= hi → upto lo t v → fold_outcome sched_event v events = Ok v' → upto lo hi v'.
Proof.
  revert v t. induction events as [|e events IH]; intros v t Hsort Hall Ht Hv; simpl.
  { intros [= <-]. by eapply upto_weaken. }
  apply StronglySorted_inv in Hsort as [Hsort He].
  apply Forall_cons in Hall as [(ts & Hts & Hle) Hall].
  destruct (sched_event v e) as [v1|] eqn:Hev; [|done]. apply (IH v1 ts); [done| |lia|].
  - rewrite Forall_forall in He, Hall. apply Forall_forall. intros x Hx.
    destruct (Hall x Hx) as (tx & Htx & ?). exists tx. split; [done|].
    pose proof (He x Hx ts tx Hts Htx). lia.
  - eapply sched_event_upto; [done| |done|done]. lia.
Qed.
End order.

(** ** Activations in order *)

Fixpoint act_chain (lo hi : Z) (l : list Activation) : Prop :=
  match l with
  | [] => lo <= hi
  | a :: l => lo <= release_ns a <= completion_ns a ∧ act_chain (completion_ns a) hi l
  end.
Lemma act_chain_weaken lo hi hi' l : hi <= hi' → act_chain lo hi l → act_chain lo hi' l.
Proof. revert lo. induction l as [|i l IH]; intros lo Hle; simpl; [lia|]. intros [? ?]. auto. Qed.
Lemma act_chain_snoc lo hi l a :
  act_chain lo (release_ns a) l → release_ns a <= completion_ns a <= hi → act_chain lo hi (l ++ [a]).
Proof.
  revert lo. induction l as [|j l IH]; intros lo; simpl; [lia|]. intros [? ?] ?. auto.
Qed.

(** Only the first row may start before the window. *)
Definition starts_ok (l : list Activation) : Prop := Forall (λ a, partial_start a = false) (tail l).
Lemma starts_ok_snoc l a :
  starts_ok l → (partial_start a = true → l = []) → starts_ok (l ++ [a]).
Proof.
  unfold starts_ok. destruct l as [|b l]; simpl; intros Hl Ha; [constructor|].
  apply Forall_app_2; [done|]. constructor; [|done]. destruct (partial_start a); [|done].
  by discriminate Ha.
Qed.

(** Up to time [t]: the closed rows are in order and complete at the end, the
    open one starts after them, and only a sleep separates two of them. *)
Definition act_upto (lo t : Z) (v : act_vars) : Prop :=
  Forall (λ a, partial_end a = false) (rows v) ∧ starts_ok (rows v) ∧
  match open v with
  | Some a => act_chain lo (release_ns a) (rows v) ∧ release_ns a <= t ∧
              (partial_start a = true → rows v = [])
  | None => act_chain lo t (rows v) ∧ (preceded_by_sleep v = false → rows v = [])
  end.

Lemma act_upto_weaken lo t t' v : t <= t' → act_upto lo t v → act_upto lo t' v.
Proof.
  unfold act_upto. intros Ht (Hp & Hs & Hv). split_and!; [done..|]. destruct (open v).
  - destruct Hv as (?&?&?). split_and!; auto. lia.
  - destruct Hv. split; [by eapply act_chain_weaken|done].
Qed.

Lemma act_interval_upto tid_ name_ lo t v i :
  t <= start_ns i <= end_ns i → act_upto lo t v → act_upto lo (end_ns i) (act_interval tid_ name_ v i).
Proof.
  intros Hi Hv. unfold act_interval. destruct (bool_decide (state i = "sleeping")).
  - destruct Hv as (Hp & Hs & Hv). unfold close_activation. destruct (open v) as [a|] eqn:Ho; simpl.
    + destruct Hv as (Hc & Hr & Hps). unfold act_upto. simpl.
      split_and!; [by apply Forall_app_2; [|constructor]|by apply starts_ok_snoc| |done].
      apply act_chain_snoc; simpl; [done|lia].
    + destruct Hv as [Hc _]. unfold act_upto. simpl. rewrite Ho. split_and!; try done.
      eapply act_chain_weaken; [|exact Hc]. lia.
  - destruct (negb _); [eapply act_upto_weaken; [|exact Hv]; lia|].
    destruct Hv as (Hp & Hs & Hv). unfold act_upto. destruct (open v) as [a|]; simpl.
    + destruct Hv as (Hc & Hr & Hps). split_and!; try done. lia.
    + destruct Hv as [Hc Hsl]. split_and!; try done.
      * eapply act_chain_weaken; [|exact Hc]. lia.
      * lia.
      * destruct (preceded_by_sleep v); [done|]. intros _. auto.
Qed.

Lemma act_fold_upto tid_ name_ lo t hi v l :
  chain t hi l → act_upto lo t v → act_upto lo hi (foldl (act_interval tid_ name_) v l).
Proof.
  revert t v. induction l as [|i l IH]; intros t v; simpl.
  { intros Hle. by apply act_upto_weaken. }
  intros [Hi Hl] Hv. eapply IH; [exact Hl|]. by eapply act_interval_upto.
Qed.

Lemma chain_sorted lo hi l : chain lo hi l → StronglySorted (key_le start_ns) l.
Proof.
  revert lo. induction l as [|i l IH]; intros lo; simpl; [constructor|]. intros [Hi Hl].
  constructor; [by eapply IH|]. eapply Forall_impl; [by eapply chain_Forall|].
  intros j. unfold key_le. simpl. lia.
Qed.

Lemma number_from_spec n p l i a :
  number_from n p l !! i = Some a →
  ∃ b, l !! i = Some b ∧ activation a = n + Z.of_nat i ∧ release_ns a = release_ns b ∧
    completion_ns a = completion_ns b ∧ partial_start a = partial_start b ∧
    partial_end a = partial_end b ∧
    period_ms a = (λ q, ms_of_ns (release_ns b - q)) <$>
      (match i with O => p | S j => release_ns <$> l !! j end).
Proof.
  revert n p i. induction l as [|b l IH]; intros n p i; simpl; [done|]. destruct i as [|i]; simpl.
  - intros [= <-]. exists b. simpl. split_and!; try done. lia.
  - intros Ha. apply IH in Ha as (c & Hc & Hn & ? & ? & ? & ? & Hper). exists c.
    split_and!; try done; [lia|]. rewrite Hper. by destruct i.
Qed.
Lemma number_from_length n p l : length (number_from n p l) = length l.
Proof. revert n p. induction l as [|b l IH]; intros n p; simpl; [done|]. by rewrite IH. Qed.
Lemma number_from_chain n p lo hi l : act_chain lo hi l → act_chain lo hi (number_from n p l).
Proof.
  revert n p lo. induction l as [|b l IH]; intros n p lo; simpl; [done|]. intros [? ?]. split; auto.
Qed.

(** The rows before they are numbered. *)
Definition closed_ok (lo hi : Z) (l : list Activation) : Prop :=
  act_chain lo hi l ∧ starts_ok l ∧
  ∀ i a, l !! i = Some a → partial_end a = true → Datatypes.S i = length l.
Lemma close_final lo hi window_end v :
  act_upto lo hi v → hi <= window_end →
  closed_ok lo window_end (rows (close_activation window_end true v)).
Proof.
  intros (Hp & Hs & Hv) Hle. unfold close_activation, closed_ok. destruct (open v) as [a|]; simpl.
  - destruct Hv as (Hc & Hr & Hps). split_and!.
    + apply act_chain_snoc; simpl; [done|lia].
    + by apply starts_ok_snoc.
    + intros i b Hib Hb. assert (Hlt := Hib). apply lookup_lt_Some in Hlt.
      rewrite length_app in *. simpl in *. apply lookup_app_Some in Hib as [Hi|[Hi _]]; [|lia].
      rewrite Forall_lookup in Hp. rewrite (Hp _ _ Hi) in Hb. done.
  - destruct Hv as [Hc _]. split_and!; [by eapply act_chain_weaken|done|].
    intros i b Hi Hb. rewrite Forall_lookup in Hp. rewrite (Hp _ _ Hi) in Hb. done.
Qed.
Lemma starts_ok_lookup l i a : starts_ok l → l !! i = Some a → partial_start a = true → i = 0%nat.
Proof.
  unfold starts_ok. destruct l as [|b l], i as [|i]; simpl; try done. intros Hl Hi Ha.
  rewrite Forall_lookup in Hl. rewrite (Hl _ _ Hi) in Ha. done.
Qed.

(** ** The properties *)

Lemma scheduler_intervals_chain cycle_ tid_ name_ origin events begin_ end_ r :
  begin_ <= end_ → timed events →
  scheduler_intervals cycle_ tid_ name_ origin events begin_ end_ = Ok r →
  chain begin_ end_ r.1.1 ∧ Forall known_state r.1.1.
Proof.
  intros Hle Hsort. unfold scheduler_intervals.
  intros (evs & Hrel & (v & Hfold & [= <-])%outcome_bind_ok)%outcome_bind_ok.
  destruct (relevant_within _ _ _ _ Hrel Hsort) as [Hs Hw].
  assert (upto begin_ end_ v) as Hv.
  { eapply (fold_upto _ _ _ _ begin_ end_ evs start_vars v begin_); [done| |done| |done].
    - eapply Forall_impl; [exact Hw|]. by intros e [_ ?].
    - split; [by apply Forall_nil|simpl; lia]. }
  destruct (close_upto cycle_ tid_ name_ origin begin_ end_ end_ v) as [[Hk Hc] Hno]; [lia|done|].
  rewrite Hno in Hc. done.
Qed.

Lemma activations_chain tid_ name_ l lo hi window_end :
  chain lo hi l → hi <= window_end →
  closed_ok lo window_end
    (rows (close_activation window_end true
      (foldl (act_interval tid_ name_) {| rows := []; open := None; preceded_by_sleep := false |}
             (sort_on start_ns l)))).
Proof.
  intros Hl Hle. rewrite (sort_on_id start_ns) by (by eapply chain_sorted).
  eapply close_final; [|exact Hle]. eapply act_fold_upto; [exact Hl|]. unfold act_upto. simpl.
  split_and!; [by apply Forall_nil|by apply Forall_nil|lia|done].
Qed.
Lemma activations_act_chain tid_ name_ l lo hi :
  chain lo hi l → act_chain lo hi (activations_from_intervals tid_ name_ l hi).
Proof. intros Hl. apply number_from_chain. by apply (activations_chain _ _ _ _ hi). Qed.

(** The intervals of a thread are in order.  For scheduler events in time
    order, the intervals lie one after the other inside the window, each in
    one of the three states, so that together they cover no more time than
    the window has. *)
Theorem scheduler_intervals_in_order cycle_ tid_ name_ origin events begin_ end_ l first_run first_sleep :
  begin_ <= end_ → timed events →
  scheduler_intervals cycle_ tid_ name_ origin events begin_ end_ = Ok (l, first_run, first_sleep) →
  chain begin_ end_ l ∧ Forall known_state l ∧ 0 <= covered l <= end_ - begin_.
Proof.
  intros Hle Hsort Heq. destruct (scheduler_intervals_chain _ _ _ _ _ _ _ _ Hle Hsort Heq) as [Hc Hk].
  split_and!; [done|done|apply (chain_covered _ _ _ Hc)..].
Qed.

(** The activations of a thread are in order.  From intervals that lie one
    after the other, the activations do too, each released before it
    completes; they are numbered from one; only the first may have started
    before the window and only the last may end with it; and the period of
    each is the time since the release before it. *)
Theorem activations_in_order tid_ name_ l lo hi window_end :
  chain lo hi l → hi <= window_end →
  let rows := activations_from_intervals tid_ name_ l window_end in
  act_chain lo window_end rows ∧
  (∀ i a, rows !! i = Some a →
     activation a = Z.of_nat i + 1 ∧ (partial_start a = true → i = 0%nat) ∧
     (partial_end a = true → S i = length rows) ∧
     period_ms a = match i with
                   | O => None
                   | S j => (λ b, ms_of_ns (release_ns a - release_ns b)) <$> rows !! j
                   end).
Proof.
  intros Hl Hle. unfold activations_from_intervals.
  destruct (activations_chain tid_ name_ l lo hi window_end Hl Hle) as (Hc & Hs & He).
  set (v := foldl _ _ _) in *. cbv zeta.
  split; [by apply number_from_chain|]. rewrite number_from_length. intros i a Ha.
  assert (Ha' := Ha). apply number_from_spec in Ha as (b & Hb & Hn & Hr & _ & Hps & Hpe & Hper).
  split_and!; [lia|rewrite Hps; by eapply starts_ok_lookup|rewrite Hpe; by eapply He|].
  rewrite Hper. destruct i as [|i]; [done|]. rewrite Hr.
  destruct (lookup_lt_is_Some_2 (number_from 1 None (rows (close_activation window_end true v))) i)
    as [c Hc'].
  { rewrite number_from_length. apply lookup_lt_Some in Hb. lia. }
  rewrite Hc'. apply number_from_spec in Hc' as (d & Hd & _ & Hr' & _). rewrite Hd. simpl.
  by rewrite Hr'.
Qed.

(** Events with these time stamps. *)
Lemma timed_stamps events zs :
  map (λ e, int_item e "ts") events = map Ok zs → StronglySorted Z.le zs → timed events.
Proof.
  revert zs. induction events as [|e events IH]; intros zs; [intros; constructor|].
  destruct zs as [|z zs]; [done|]. simpl. intros Heq Hs. injection Heq as He Heq.
  apply StronglySorted_inv in Hs as [Hs Hz]. constructor; [by eapply IH|].
  apply Forall_forall. intros x Hx a b Ha Hb. rewrite He in Ha. injection Ha as <-.
  assert (int_item x "ts" ∈ map Ok zs) as Hin.
  { rewrite <- Heq. apply list_elem_of_In, (in_map (λ e, int_item e "ts")), list_elem_of_In, Hx. }
  apply list_elem_of_In, in_map_iff in Hin as (y & Hy & Hin%list_elem_of_In).
  rewrite Hb in Hy. injection Hy as <-. rewrite Forall_forall in Hz. by apply Hz.
Qed.

(** A thread that is woken, runs, is preempted, runs again and sleeps. *)
Definition demo_events : list pydict :=
  map (λ '(ts, kind, st), [("ts", VInt ts); ("event", VStr kind); ("state", VInt st); ("cpu", VInt 2)])
    [(10, "sched_wake_up", 0); (12, "sched_switched_in", 0); (15, "sched_switched_out", 0);
     (20, "sched_switched_in", 0); (22, "enter_futex", 0); (25, "sched_switched_out", 1)].
Definition demo_intervals : list Interval :=
  match scheduler_intervals 0 7 "worker" 0 demo_events 5 40 with Ok (l, _, _) => l | _ => [] end.

Theorem scheduler_intervals_in_order_witness :
  map (λ i, (state i, start_ns i, end_ns i)) demo_intervals =
    [("ready", 10, 12); ("running", 12, 15); ("ready", 15, 20); ("running", 20, 25);
     ("sleeping", 25, 40)] ∧
  chain 5 40 demo_intervals.
Proof.
  split; [vm_compute; reflexivity|].
  unfold demo_intervals.
  destruct (scheduler_intervals 0 7 "worker" 0 demo_events 5 40) as [[[l fr] fs]|e] eqn:He.
  - eapply (scheduler_intervals_in_order 0 7 "worker" 0 demo_events 5 40); [lia| |exact He].
    apply (timed_stamps _ [10; 12; 15; 20; 22; 25]); [vm_compute; reflexivity|].
    repeat constructor; lia.
  - exfalso. vm_compute in He. discriminate He.
Defined.

Theorem activations_in_order_witness :
  map (λ a, (activation a, release_ns a, completion_ns a, partial_start a, partial_end a))
    (activations_from_intervals 7 "worker" demo_intervals 40) = [(1, 10, 25, true, false)] ∧
  act_chain 5 40 (activations_from_intervals 7 "worker" demo_intervals 40).
Proof.
  split; [vm_compute; reflexivity|].
  assert (chain 5 40 demo_intervals) as Hchain.
  { assert (map (λ i, (start_ns i, end_ns i)) demo_intervals =
      [(10, 12); (12, 15); (15, 20); (20, 25); (25, 40)]) as Hmap by (vm_compute; reflexivity).
    revert Hmap. generalize demo_intervals. intros l Hmap.
    repeat match goal with Hm : map _ ?l = _ :: _ |- _ =>
      let i := fresh in destruct l as [|i ?l]; [discriminate Hm|]; injection Hm as ? ? Hm end.
    destruct l; [|done]. simpl in *. lia. }
  exact (proj1 (activations_in_order 7 "worker" demo_intervals 5 40 40 Hchain (Z.le_refl 40))).
Defined.
