(* ===== verification/Lifecycle.v ===== *)
(** * Thread lifecycles ([parse_startup_trace.py])

    The records that [lifecycle_records] builds from the tracer's events.  In
    the code a record is one dictionary object reached from a list and three
    indices; here the objects live in the list [records] of a store and the
    indices hold their positions, so that an update through one index is seen
    through the others. *)
From Stdlib Require Import Ascii ZArith Lia.
From S2P Require Import Prelude PyStr PyFloat PyVal Effects Devices SchedTrace.
From stdpp Require Import base gmap strings list sorting.
Local Open Scope Z_scope.
Local Open Scope py_scope.

Abbreviation bounds_map := (list (Z * (Z * Z))).

(** ** Phases and cycles *)

Definition is_marker (name : option string) (event : pydict) : bool :=
  py_eq (dgetd "event" VNone event) (VStr "phase_marker") &&
  match name with
  | Some name => py_eq (dgetd "name" VNone event) (VStr name)
  | None => true
  end.

(** [re.match(r"^cycle_(\d+)_(begin|end)$", name)]. *)
Definition match_cycle (name : string) : option (Z * bool) :=
  if py_startswith "cycle_" name then
    let '(d, r) := span_digits (py_drop 6 name) in
    let suffix := py_removesuffix nl r in
    if bool_decide (d = "") then None
    else if bool_decide (suffix = "_begin") then (λ c, (c, true)) <$> int_of_string d
    else if bool_decide (suffix = "_end") then (λ c, (c, false)) <$> int_of_string d
    else None
  else None.

Definition cycle_mark (acc : list (Z * Z) * list (Z * Z)) (event : pydict) :
    outcome (list (Z * Z) * list (Z * Z)) :=
  match match_cycle (str_val (dgetd "name" (VStr "") event)) with
  | None => Ok acc
  | Some (cycle, first) =>
      ts ← int_item event "timestamp_ns";
      mret (if (first : bool) then (zset cycle ts acc.1, acc.2) else (acc.1, zset cycle ts acc.2))
  end.

(** The bounds of the cycles in order: a cycle without an end lasts until the
    next one begins. *)
Fixpoint cycle_bounds (ends : list (Z * Z)) (trace_end : Z) (starts : list (Z * Z)) : bounds_map :=
  match starts with
  | [] => []
  | (cycle, start) :: starts =>
      let next_start := match starts with (_, s) :: _ => s | [] => trace_end + 1 end in
      (cycle, (start, match zget cycle ends with Some e => e | None => next_start end))
      :: cycle_bounds ends trace_end starts
  end.

Definition Z_list_min (default : Z) (l : list Z) : Z :=
  match l with [] => default | x :: l => foldl Z.min x l end.
Definition Z_list_max (default : Z) (l : list Z) : Z :=
  match l with [] => default | x :: l => foldl Z.max x l end.

Definition phase_data (events : list pydict) : outcome (Z * list pydict * bounds_map) :=
  let phases := filter (λ e, is_marker None e = true) events in
  stamps ← traverse (λ e, int_item e "timestamp_ns") phases;
  origin ← match filter (λ e, is_marker (Some "process_start") e = true) phases with
           | e :: _ => int_item e "timestamp_ns"
           | [] => Ok (Z_list_min 0 stamps)
           end;
  se ← fold_outcome cycle_mark ([], []) phases;
  all ← traverse (λ e, py_int (dgetd "timestamp_ns" (VInt 0) e)) events;
  let trace_end := Z_list_max origin all in
  mret (origin, phases, cycle_bounds se.2 trace_end (sort_on fst se.1)).

Definition STARTUP_PHASES : list string :=
  ["begin"; "before_context"; "after_context"; "before_pipeline_construction";
   "after_pipeline_construction"; "before_pipeline_start"].
Definition STREAMING_PHASES : list string := ["after_pipeline_start"; "first_frame"].
Definition TEARDOWN_PHASES : list string :=
  ["frames_complete"; "before_pipeline_stop"; "after_pipeline_stop";
   "before_object_destruction"; "after_object_destruction"; "threads_joined";
   "thread_join_timeout"; "end"].

Definition classify_uvc_phase (phase_name : string) : string :=
  let '(d, r) := span_digits (py_drop 6 phase_name) in
  let suffix := py_drop 1 (py_removesuffix nl r) in
  if negb (py_startswith "cycle_" phase_name) || bool_decide (d = "") || negb (py_startswith "_" r)
     || bool_decide (suffix = "")
  then "other"
  else if bool_decide (suffix ∈ STARTUP_PHASES) then "startup"
  else if bool_decide (suffix ∈ STREAMING_PHASES) then "streaming"
  else if bool_decide (suffix ∈ TEARDOWN_PHASES) then "teardown"
  else "other".

Fixpoint find_cycle (timestamp : Z) (bounds : bounds_map) : Z :=
  match bounds with
  | [] => 0
  | (cycle, (begin_, end_)) :: bounds =>
      if bool_decide (begin_ <= timestamp <= end_) then cycle else find_cycle timestamp bounds
  end.
Definition cycle_at (timestamp : option Z) (bounds : bounds_map) : Z :=
  match timestamp with
  | None => 0
  | Some t => find_cycle t (sort_on fst bounds)
  end.

(** ** Signatures *)

Definition str_get_or (k : string) (d : pydict) : string := str_val (get_or k (VStr "") d).

(** The loop over the stack: at most six frames of other modules. *)
Fixpoint stack_parts (entry_module : string) (included : nat) (stack : list pyval) : list string :=
  match included, stack with
  | O, _ | _, [] => []
  | S included', VDict frame :: stack =>
      let module := path_name (str_get_or "module" frame) in
      if bool_decide (module = "") || py_contains "libtrace_pthreads.so" module
         || bool_decide (module = entry_module)
      then stack_parts entry_module included stack
      else
        let offset := str_val (get_or "module_offset" (get_or "address" (VStr "0x0") frame) frame) in
        (if bool_decide (module = "realsense_steady_probe") then module
         else module +:+ "@" +:+ offset) :: stack_parts entry_module included' stack
  | _, _ :: stack => stack_parts entry_module included stack
  end.

Definition thread_signature (event : pydict) : outcome string :=
  let explicit := str_get_or "signature" event in
  if negb (bool_decide (explicit = "")) then Ok explicit else
  let entry_module := path_name (str_get_or "entry_module" event) in
  let entry_offset :=
    str_val (get_or "entry_module_offset" (get_or "entry_address" (VStr "0x0") event) event) in
  let entry := if bool_decide (entry_module = "realsense_steady_probe")
               then "entry=" +:+ entry_module
               else "entry=" +:+ entry_module +:+ "@" +:+ entry_offset in
  stack ← as_list (dgetd "stack" (VList []) event);
  mret (py_join "|" (entry :: stack_parts entry_module 6 stack)).

(** ** The store *)

Record store := {
  records : list pydict;
  by_create : gmap (string * Z) nat;
  by_tid : gmap Z (list nat);
  by_pthread : gmap string (list nat);
}.

Definition BLANK_RECORD : pydict :=
  [("tid", VNone); ("tgid", VNone); ("pthread_value", VStr ""); ("name", VStr "");
   ("parent_tid", VNone); ("created_ns", VNone); ("started_ns", VNone); ("exited_ns", VNone);
   ("joined_ns", VNone); ("joined_by", VNone); ("detached_by", VNone); ("cycle", VInt 0);
   ("creation_sequence", VNone); ("signature", VStr ""); ("entry_module", VStr "");
   ("entry_module_offset", VStr "")].

Definition new_record (values : pydict) (st : store) : store * nat :=
  let record := dupdate BLANK_RECORD values in
  let i := length (records st) in
  let pthread_value := str_get_or "pthread_value" record in
  ({| records := records st ++ [record]; by_create := by_create st; by_tid := by_tid st;
      by_pthread :=
        if bool_decide (pthread_value = "") then by_pthread st
        else <[pthread_value := default [] (by_pthread st !! pthread_value) ++ [i]]> (by_pthread st) |},
   i).

Definition register_create (key : string * Z) (i : nat) (st : store) : store :=
  {| records := records st; by_create := <[key := i]> (by_create st); by_tid := by_tid st;
     by_pthread := by_pthread st |}.
Definition register_tid (tid : Z) (i : nat) (st : store) : store :=
  {| records := records st; by_create := by_create st;
     by_tid := <[tid := default [] (by_tid st !! tid) ++ [i]]> (by_tid st);
     by_pthread := by_pthread st |}.
(** [records[i].update(values)]. *)
Definition update_record (i : nat) (values : pydict) (st : store) : store :=
  {| records := alter (λ r, dupdate r values) i (records st); by_create := by_create st;
     by_tid := by_tid st; by_pthread := by_pthread st |}.
Definition record_at (st : store) (i : nat) : pydict := default [] (records st !! i).

Definition is_none (v : pyval) : bool := match v with VNone => true | _ => false end.
Definition opt_val (z : option Z) : pyval := match z with Some z => VInt z | None => VNone end.
Definition int_instance (v : pyval) : option Z :=
  match v with VInt z => Some z | VBool b => Some (Z_of_bool b) | _ => None end.

(** [event.get("name", "") or record.get("name", "")]. *)
Definition name_or (event record : pydict) : pyval :=
  let v := dgetd "name" (VStr "") event in
  if truthy v then v else dgetd "name" (VStr "") record.

(** [next((r["tgid"] for r in records if r.get("tgid")), None)]. *)
Definition first_tgid (rs : list pydict) : pyval :=
  match filter (λ v, truthy v = true) (map (dgetd "tgid" VNone) rs) with
  | v :: _ => v | [] => VNone end.

Section events.
Context (bounds : bounds_map).

Definition on_create (event : pydict) (timestamp : option Z) (pthread_value : string) (st : store) :
    outcome store :=
  signature ← thread_signature event;
  let '(st, i) := new_record
    [("pthread_value", VStr pthread_value); ("parent_tid", dgetd "caller_tid" VNone event);
     ("created_ns", opt_val timestamp); ("cycle", VInt (cycle_at timestamp bounds));
     ("creation_sequence", dgetd "creation_sequence" VNone event);
     ("signature", VStr signature); ("entry_module", dgetd "entry_module" (VStr "") event);
     ("entry_module_offset", dgetd "entry_module_offset" (VStr "") event)] st in
  mret (register_create (pthread_value, default 0 timestamp) i st).

(** The record a start event belongs to: the one of its creation, or a new
    one. *)
Definition start_record (create_timestamp : Z) (timestamp : option Z) (pthread_value : string)
    (st : store) : store * nat :=
  match by_create st !! (pthread_value, create_timestamp) with
  | Some i => (st, i)
  | None =>
      let created := if bool_decide (create_timestamp = 0) then timestamp else Some create_timestamp in
      let '(st, i) := new_record
        [("pthread_value", VStr pthread_value); ("created_ns", opt_val created);
         ("cycle", VInt (cycle_at created bounds))] st in
      (register_create (pthread_value, create_timestamp) i st, i)
  end.

Definition on_start (event : pydict) (timestamp : option Z) (pthread_value : string) (st : store) :
    outcome store :=
  create_timestamp ← py_int (dgetd "create_timestamp_ns" (VInt 0) event);
  let '(st, i) := start_record create_timestamp timestamp pthread_value st in
  tid ← int_item event "tid";
  let record := record_at st i in
  signature ← (let s := dgetd "signature" (VStr "") event in
               if truthy s then Ok s else
               let s := dgetd "signature" (VStr "") record in
               if truthy s then Ok s else VStr <$> thread_signature event);
  mret (register_tid tid i (update_record i
    [("tid", VInt tid); ("tgid", first_tgid (records st));
     ("parent_tid", dgetd "parent_tid" (dgetd "parent_tid" VNone record) event);
     ("started_ns", opt_val timestamp); ("name", name_or event record);
     ("creation_sequence", dgetd "creation_sequence" (dgetd "creation_sequence" VNone record) event);
     ("signature", signature);
     ("entry_module", dgetd "entry_module" (dgetd "entry_module" (VStr "") record) event);
     ("entry_module_offset",
        dgetd "entry_module_offset" (dgetd "entry_module_offset" (VStr "") record) event)] st)).

Definition on_name (event : pydict) (pthread_value : string) (st : store) : outcome store :=
  candidates ← (match dgetd "caller_tid" VNone event with
                | VNone => Ok []
                | v => t ← py_int v; mret (default [] (by_tid st !! t))
                end);
  let candidates := match candidates with
                    | [] => default [] (by_pthread st !! pthread_value) | l => l end in
  mret match last candidates with
       | Some i => update_record i [("name", name_or event (record_at st i))] st
       | None => st
       end.

Definition on_exit (event : pydict) (timestamp : option Z) (st : store) : outcome store :=
  tid ← int_item event "tid";
  let candidates := filter (λ i, is_none (dgetd "exited_ns" VNone (record_at st i)) = true)
                           (default [] (by_tid st !! tid)) in
  mret match last candidates with
       | Some i => update_record i [("exited_ns", opt_val timestamp);
                                    ("name", name_or event (record_at st i))] st
       | None => st
       end.

(** [created is None or timestamp is None or created <= timestamp]. *)
Definition created_by (timestamp : option Z) (record : pydict) : bool :=
  match dgetd "created_ns" VNone record, timestamp with
  | VInt c, Some t => bool_decide (c <= t)
  | _, _ => true
  end.

Definition on_join (detach : bool) (event : pydict) (timestamp : option Z) (pthread_value : string)
    (st : store) : store :=
  let candidates := filter (λ i, created_by timestamp (record_at st i) = true)
                           (default [] (by_pthread st !! pthread_value)) in
  match last candidates with
  | Some i =>
      if negb (py_eq (dgetd "result" (VInt 0) event) (VInt 0)) then st
      else if detach
      then update_record i [("detached_by", dgetd "caller_tid" VNone event)] st
      else update_record i [("joined_ns", opt_val timestamp);
                            ("joined_by", dgetd "caller_tid" VNone event)] st
  | None => st
  end.

(** [record.get("tid") == record.get("tgid")]. *)
Definition on_process_end (timestamp : option Z) (st : store) : store :=
  {| records := map (λ r, if py_eq (dgetd "tid" VNone r) (dgetd "tgid" VNone r)
                          then dset "exited_ns" (opt_val timestamp) r else r) (records st);
     by_create := by_create st; by_tid := by_tid st; by_pthread := by_pthread st |}.

Definition lifecycle_event (st : store) (event : pydict) : outcome store :=
  let kind := match dgetd "event" VNone event with VStr s => s | _ => "" end in
  let timestamp := int_instance (dgetd "timestamp_ns" VNone event) in
  let pthread_value := str_get_or "pthread_value" event in
  if bool_decide (kind = "pthread_create") &&
     truthy (dgetd "success" (VBool (py_eq (dgetd "result" VNone event) (VInt 0))) event)
  then on_create event timestamp pthread_value st
  else if bool_decide (kind = "thread_start") then on_start event timestamp pthread_value st
  else if bool_decide (kind = "thread_name") then on_name event pthread_value st
  else if bool_decide (kind = "thread_exit") then on_exit event timestamp st
  else if bool_decide (kind = "pthread_join_end" ∨ kind = "pthread_detach")
  then Ok (on_join (bool_decide (kind = "pthread_detach")) event timestamp pthread_value st)
  else if is_marker (Some "process_exit") event || is_marker (Some "process_error") event
  then Ok (on_process_end timestamp st)
  else Ok st.

Definition empty_store : store := {| records := []; by_create := ∅; by_tid := ∅; by_pthread := ∅ |}.

(** The record of the main thread. *)
Definition start_store (events : list pydict) : outcome store :=
  match filter (λ e, is_marker (Some "process_start") e = true) events with
  | process_start :: _ =>
      tid ← int_item process_start "tid";
      ts ← int_item process_start "timestamp_ns";
      let '(st, i) := new_record
        [("tid", VInt tid); ("tgid", VInt tid); ("name", VStr "main"); ("created_ns", VInt ts);
         ("started_ns", VInt ts)] empty_store in
      mret (register_tid tid i st)
  | [] => Ok empty_store
  end.

(** The final loop over a record. *)
Definition finish_record (app_tgid : pyval) (r : pydict) : pydict :=
  let r := dset "tgid" app_tgid r in
  if truthy (dgetd "cycle" VNone r) then r
  else dset "cycle" (VInt (cycle_at (int_instance (dgetd "created_ns" VNone r)) bounds)) r.

Definition lifecycle_records (events : list pydict) :
    outcome (list pydict * gmap (string * Z) nat) :=
  st ← start_store events;
  st ← fold_outcome lifecycle_event st events;
  mret (map (finish_record (first_tgid (records st))) (records st), by_create st).
End events.

Definition event_window (record : pydict) (trace_end : Z) : outcome (Z * Z) :=
  b ← py_int (get_or "created_ns" (get_or "started_ns" (VInt 0) record) record);
  e ← py_int (get_or "exited_ns" (get_or "joined_ns" (VInt trace_end) record) record);
  mret (b, e).

Definition marker_time (events : list pydict) (name : string) : outcome Z :=
  matches ← traverse (λ e, int_item e "timestamp_ns")
                     (filter (λ e, is_marker (Some name) e = true) events);
  match matches with
  | [t] => Ok t
  | _ => raise ValueError ("Expected one " +:+ py_repr name +:+ " phase marker, found "
                           +:+ str_Z (Z.of_nat (length matches)))
  end.

(** ** Consistency of the store *)

Definition pthread_of (r : pydict) : option pyval := dget "pthread_value" r.
Definition created_of (r : pydict) : option pyval := dget "created_ns" r.

(** The record of a creation key: the object with that pthread value and, if
    the key has one, that creation time. *)
Definition record_of_key (key : string * Z) (r : pydict) : Prop :=
  pthread_of r = Some (VStr key.1) ∧ (key.2 ≠ 0 → created_of r = Some (VInt key.2)).

Definition consistent (st : store) : Prop :=
  (∀ key i, by_create st !! key = Some i →
     ∃ r, records st !! i = Some r ∧ record_of_key key r) ∧
  (∀ k1 k2 i, by_create st !! k1 = Some i → by_create st !! k2 = Some i → k1 = k2).

(** [values] leaves the identity of a record alone. *)
Definition keeps_identity (values : pydict) : Prop :=
  "pthread_value" ∉ dkeys values ∧ "created_ns" ∉ dkeys values.

Lemma dupdate_key key r values :
  keeps_identity values → record_of_key key r → record_of_key key (dupdate r values).
Proof.
  intros [Hp Hc] [H1 H2]. unfold record_of_key, pthread_of, created_of in *.
  by rewrite !dget_dupdate.
Qed.

Lemma update_consistent i values st :
  keeps_identity values → consistent st → consistent (update_record i values st).
Proof.
  intros Hv [Hr Hi]. split; [|exact Hi]. intros key j Hj. destruct (Hr key j Hj) as (r & Hl & Hk).
  exists (if decide (i = j) then dupdate r values else r). split.
  - simpl. rewrite list_lookup_alter. destruct (decide _) as [->|]; by rewrite Hl.
  - destruct (decide _); [by apply dupdate_key|done].
Qed.
Lemma register_tid_consistent tid i st : consistent st → consistent (register_tid tid i st).
Proof. done. Qed.

(** A fresh object registered under a key it matches. *)
Lemma new_registered key values st :
  consistent st → record_of_key key (dupdate BLANK_RECORD values) →
  let '(st', i) := new_record values st in consistent (register_create key i st').
Proof.
  intros [Hr Hi] Hk. simpl. split; simpl.
  - intros k j. rewrite lookup_insert_Some. intros [[<- <-]|[Hne Hj]].
    + exists (dupdate BLANK_RECORD values). split; [|done].
      by rewrite lookup_app_r, Nat.sub_diag by lia.
    + destruct (Hr k j Hj) as (r & Hl & Hkr). exists r. split; [|done]. by apply lookup_app_l_Some.
  - assert (∀ k, by_create st !! k ≠ Some (length (records st))) as Hfresh.
    { intros k Hk'. destruct (Hr _ _ Hk') as (r & Hl & _). apply lookup_lt_Some in Hl. lia. }
    intros k1 k2 j. rewrite !lookup_insert_Some. intros [[<- <-]|[? ?]] [[<- Hj]|[? ?]]; try done.
    + by destruct (Hfresh k2).
    + subst. by destruct (Hfresh k1).
    + by eapply Hi.
Qed.

Lemma start_record_consistent ts timestamp pv bounds st :
  consistent st →
  let '(st', i) := start_record bounds ts timestamp pv st in consistent st'.
Proof.
  intros Hst. unfold start_record. destruct (by_create st !! (pv, ts)); [done|].
  pose proof (new_registered (pv, ts) [("pthread_value", VStr pv);
    ("created_ns", opt_val (if bool_decide (ts = 0) then timestamp else Some ts));
    ("cycle", VInt (cycle_at (if bool_decide (ts = 0) then timestamp else Some ts) bounds))] st Hst) as Hn.
  destruct (new_record _ st) as [st' i]. apply Hn.
  split; [done|]. intros Hne. by rewrite bool_decide_eq_false_2.
Qed.

Lemma map_records_consistent f st :
  (∀ key r, record_of_key key r → record_of_key key (f r)) → consistent st →
  consistent {| records := map f (records st); by_create := by_create st; by_tid := by_tid st;
                by_pthread := by_pthread st |}.
Proof.
  intros Hf [Hr Hi]. split; [|exact Hi]. intros key i Hk. destruct (Hr key i Hk) as (r & Hl & Hkr).
  exists (f r). simpl. rewrite list_lookup_fmap, Hl. split; [done|auto].
Qed.

Ltac identity := split; simpl; set_solver.

Lemma lifecycle_event_consistent bounds st event st' :
  consistent st → lifecycle_event bounds st event = Ok st' → consistent st'.
Proof.
  intros Hst. unfold lifecycle_event.
  set (timestamp := int_instance _). set (pv := str_get_or _ event).
  destruct (bool_decide _ && _).
  { unfold on_create. intros (sig & _ & Heq)%outcome_bind_ok.
    pose proof (new_registered (pv, default 0 timestamp)
      [("pthread_value", VStr pv); ("parent_tid", dgetd "caller_tid" VNone event);
       ("created_ns", opt_val timestamp); ("cycle", VInt (cycle_at timestamp bounds));
       ("creation_sequence", dgetd "creation_sequence" VNone event);
       ("signature", VStr sig); ("entry_module", dgetd "entry_module" (VStr "") event);
       ("entry_module_offset", dgetd "entry_module_offset" (VStr "") event)] st Hst) as Hn.
    destruct (new_record _ st) as [st1 i]. injection Heq as <-. apply Hn.
    split; [done|]. simpl. by destruct timestamp. }
  destruct (bool_decide (_ = "thread_start")).
  { unfold on_start. intros (ts & _ & Heq)%outcome_bind_ok.
    pose proof (start_record_consistent ts timestamp pv bounds st Hst) as Hn.
    destruct (start_record _ _ _ _ st) as [st1 i].
    apply outcome_bind_ok in Heq as (tid & _ & (sig & _ & [= <-])%outcome_bind_ok).
    apply register_tid_consistent, update_consistent; [identity|done]. }
  destruct (bool_decide (_ = "thread_name")).
  { unfold on_name. intros (cands & _ & [= <-])%outcome_bind_ok.
    case_match; [|done]. apply update_consistent; [identity|done]. }
  destruct (bool_decide (_ = "thread_exit")).
  { unfold on_exit. intros (tid & _ & [= <-])%outcome_bind_ok.
    case_match; [|done]. apply update_consistent; [identity|done]. }
  destruct (bool_decide (_ ∨ _)).
  { intros [= <-]. unfold on_join. repeat case_match; try done; apply update_consistent; (identity || done). }
  destruct (_ || _); intros [= <-]; [|done].
  apply map_records_consistent; [|done]. intros key r [H1 H2]. destruct (py_eq _ _); [|done].
  unfold record_of_key, pthread_of, created_of in *. by rewrite !dget_dset_ne.
Qed.

Lemma start_store_consistent events st : start_store events = Ok st → consistent st.
Proof.
  unfold start_store. destruct (filter _ events) as [|e l]; [intros [= <-]; done|].
  intros (tid & _ & (ts & _ & [= <-])%outcome_bind_ok)%outcome_bind_ok. done.
Qed.

Lemma finish_record_key bounds tgid key r :
  record_of_key key r → record_of_key key (finish_record bounds tgid r).
Proof.
  intros [H1 H2]. unfold finish_record, record_of_key, pthread_of, created_of in *.
  case_match; by rewrite !dget_dset_ne.
Qed.

(** ** What the records are *)

(** The key under which an event finds or enters its record. *)
Definition event_key (event : pydict) : option (string * Z) :=
  let kind := match dgetd "event" VNone event with VStr s => s | _ => "" end in
  let pthread_value := str_get_or "pthread_value" event in
  if bool_decide (kind = "pthread_create") &&
     truthy (dgetd "success" (VBool (py_eq (dgetd "result" VNone event) (VInt 0))) event)
  then Some (pthread_value, default 0 (int_instance (dgetd "timestamp_ns" VNone event)))
  else if bool_decide (kind = "thread_start")
  then match py_int (dgetd "create_timestamp_ns" (VInt 0) event) with
       | Ok t => Some (pthread_value, t) | _ => None end
  else None.

Definition grows (st st' : store) : Prop :=
  (length (records st) <= length (records st'))%nat ∧
  (∀ key i, by_create st !! key = Some i → ∃ j, by_create st' !! key = Some j).

Lemma grows_refl st : grows st st.
Proof. split; [done|eauto]. Qed.
Lemma update_grows i values st : grows st (update_record i values st).
Proof. split; simpl; [by rewrite length_alter|eauto]. Qed.
Lemma register_grows key values st :
  let '(st', i) := new_record values st in
  grows st (register_create key i st') ∧ is_Some (by_create (register_create key i st') !! key).
Proof.
  simpl. split; [split; simpl|].
  - rewrite length_app. lia.
  - intros k i Hk. destruct (decide (k = key)) as [->|Hne].
    + rewrite lookup_insert_eq. eauto.
    + rewrite lookup_insert_ne by done. eauto.
  - rewrite lookup_insert_eq. eauto.
Qed.

Lemma start_record_grows bounds ts timestamp pv st :
  let '(st', i) := start_record bounds ts timestamp pv st in
  grows st st' ∧ is_Some (by_create st' !! (pv, ts)).
Proof.
  unfold start_record. destruct (by_create st !! (pv, ts)) as [i|] eqn:Hi.
  - split; [apply grows_refl|by rewrite Hi].
  - pose proof (register_grows (pv, ts) [("pthread_value", VStr pv);
      ("created_ns", opt_val (if bool_decide (ts = 0) then timestamp else Some ts));
      ("cycle", VInt (cycle_at (if bool_decide (ts = 0) then timestamp else Some ts) bounds))] st) as Hn.
    destruct (new_record _ st) as [st' i]. exact Hn.
Qed.

Lemma lifecycle_event_grows bounds st event st' :
  lifecycle_event bounds st event = Ok st' →
  grows st st' ∧ ∀ key, event_key event = Some key → is_Some (by_create st' !! key).
Proof.
  unfold lifecycle_event, event_key.
  set (timestamp := int_instance _). set (pv := str_get_or _ event).
  destruct (bool_decide _ && _).
  { unfold on_create. intros (sig & _ & Heq)%outcome_bind_ok.
    pose proof (register_grows (pv, default 0 timestamp)
      [("pthread_value", VStr pv); ("parent_tid", dgetd "caller_tid" VNone event);
       ("created_ns", opt_val timestamp); ("cycle", VInt (cycle_at timestamp bounds));
       ("creation_sequence", dgetd "creation_sequence" VNone event);
       ("signature", VStr sig); ("entry_module", dgetd "entry_module" (VStr "") event);
       ("entry_module_offset", dgetd "entry_module_offset" (VStr "") event)] st) as Hn.
    destruct (new_record _ st) as [st1 i]. injection Heq as <-. destruct Hn as [Hg Hk].
    split; [done|]. by intros ? [= <-]. }
  destruct (bool_decide (_ = "thread_start")).
  { unfold on_start. intros (ts & -> & Heq)%outcome_bind_ok.
    pose proof (start_record_grows bounds ts timestamp pv st) as Hn.
    destruct (start_record _ _ _ _ st) as [st1 i].
    apply outcome_bind_ok in Heq as (tid & _ & (sig & _ & [= <-])%outcome_bind_ok).
    destruct Hn as [[Hl Hg] Hk]. split; [|by intros ? [= <-]].
    split; simpl; [by rewrite length_alter|done]. }
  intros Heq. split; [|done]. revert Heq.
  destruct (bool_decide (_ = "thread_name")).
  { unfold on_name. intros (cands & _ & [= <-])%outcome_bind_ok.
    case_match; [apply update_grows|apply grows_refl]. }
  destruct (bool_decide (_ = "thread_exit")).
  { unfold on_exit. intros (tid & _ & [= <-])%outcome_bind_ok.
    case_match; [apply update_grows|apply grows_refl]. }
  destruct (bool_decide (_ ∨ _)).
  { intros [= <-]. unfold on_join. repeat case_match; first [apply update_grows|apply grows_refl]. }
  destruct (_ || _); intros [= <-]; [|apply grows_refl].
  split; simpl; [by rewrite length_map|eauto].
Qed.

Lemma lifecycle_fold bounds events st st' :
  consistent st → fold_outcome (lifecycle_event bounds) st events = Ok st' →
  consistent st' ∧ grows st st' ∧
  ∀ e key, e ∈ events → event_key e = Some key → is_Some (by_create st' !! key).
Proof.
  revert st. induction events as [|e events IH]; intros st Hst; simpl.
  - intros [= <-]. split_and!; [done|apply grows_refl|by intros ? ? ?%not_elem_of_nil].
  - intros (st1 & He & Hf)%outcome_bind_ok.
    destruct (lifecycle_event_grows _ _ _ _ He) as [[Hl1 Hg1] Hk1].
    destruct (IH st1 (lifecycle_event_consistent _ _ _ _ Hst He) Hf) as (Hc & [Hl2 Hg2] & Hk2).
    split_and!; [done| |].
    + split; [lia|]. intros key i Hk. destruct (Hg1 _ _ Hk) as [j Hj]. eauto.
    + intros e' key [->|He']%elem_of_cons Hk; [|by eapply Hk2].
      destruct (Hk1 _ Hk) as [j Hj]. apply (Hg2 _ _ Hj).
Qed.

Lemma finish_record_tgid bounds tgid r : dget "tgid" (finish_record bounds tgid r) = Some tgid.
Proof.
  unfold finish_record. case_match; [apply dget_dset_eq|].
  by rewrite dget_dset_ne, dget_dset_eq.
Qed.

(** The thread records are sound and complete for creations and starts:
    every successful [pthread_create] and every [thread_start] of the trace
    has a record under its key (thread handle and creation time), the record
    of a key carries that handle and, when it is known, that creation time,
    no record belongs to two keys, and all records carry one thread group. *)
Theorem lifecycle_records_consistent bounds events rs creates :
  lifecycle_records bounds events = Ok (rs, creates) →
  (∀ e key, e ∈ events → event_key e = Some key → is_Some (creates !! key)) ∧
  (∀ key i, creates !! key = Some i → ∃ r, rs !! i = Some r ∧ record_of_key key r) ∧
  (∀ k1 k2 i, creates !! k1 = Some i → creates !! k2 = Some i → k1 = k2) ∧
  (∃ tgid, Forall (λ r, dget "tgid" r = Some tgid) rs).
Proof.
  intros (st0 & H0 & (st & Hf & [= <- <-])%outcome_bind_ok)%outcome_bind_ok.
  destruct (lifecycle_fold _ _ _ _ (start_store_consistent _ _ H0) Hf) as ([Hr Hi] & _ & Hk).
  split_and!; [done| |done|].
  - intros key i Hki. destruct (Hr key i Hki) as (r & Hl & Hkr).
    exists (finish_record bounds (first_tgid (records st)) r).
    rewrite list_lookup_fmap, Hl. split; [done|by apply finish_record_key].
  - exists (first_tgid (records st)). apply Forall_forall. intros r Hr'.
    apply list_elem_of_fmap in Hr' as (r' & -> & _). apply finish_record_tgid.
Qed.

(** A main thread and one worker that starts after its creation. *)
Definition SAMPLE_TRACE : list pydict :=
  [[("event", VStr "phase_marker"); ("name", VStr "process_start"); ("tid", VInt 10);
    ("timestamp_ns", VInt 1)];
   [("event", VStr "pthread_create"); ("result", VInt 0); ("pthread_value", VStr "0xa");
    ("timestamp_ns", VInt 5); ("caller_tid", VInt 10)];
   [("event", VStr "thread_start"); ("pthread_value", VStr "0xa"); ("create_timestamp_ns", VInt 5);
    ("tid", VInt 11); ("timestamp_ns", VInt 7)];
   [("event", VStr "thread_exit"); ("tid", VInt 11); ("timestamp_ns", VInt 9)]].

Lemma lifecycle_records_consistent_witness :
  ∃ rs creates, lifecycle_records [] SAMPLE_TRACE = Ok (rs, creates) ∧ length rs = 2%nat ∧
  is_Some (creates !! ("0xa", 5)).
Proof.
  destruct (lifecycle_records [] SAMPLE_TRACE) as [[rs creates]|?] eqn:Heq;
    [|by vm_compute in Heq].
  exists rs, creates. split; [done|]. split.
  { assert (length <$> (fst <$> lifecycle_records [] SAMPLE_TRACE) = Ok 2%nat) as Hlen by by vm_compute.
    rewrite Heq in Hlen. by injection Hlen. }
  destruct (lifecycle_records_consistent _ _ _ _ Heq) as [Hk _].
  apply (Hk (nth 1 SAMPLE_TRACE [])); [by apply (list_elem_of_lookup_2 _ 1%nat)|by vm_compute].
Defined.
