(* ===== verification/SteadyTrace.v ===== *)
(** * Steady-state traces ([parse_steady_trace.py], [load_lime])

    The loader of the per-task scheduler events and the analysis that turns a
    trace into one row per live thread.  The dictionaries with integer keys
    keep their insertion order. *)
From Stdlib Require Import Ascii ZArith Lia.
From S2P Require Import Prelude PyStr PyFloat PyVal PyJson Effects Machine Devices CpuList SchedTrace.
From S2P Require Import Lifecycle.
From stdpp Require Import base gmap strings list sorting.
Local Open Scope Z_scope.
Local Open Scope py_scope.
Local Open Scope M_scope.

(** ** Policies *)

Definition policy_fields (policy : pyval) : string * string :=
  match policy with
  | VStr s => (s, "")
  | VDict ((name, parameters) :: _) =>
      match parameters with
      | VDict p =>
          match dget "prio" p with
          | Some prio => (name, str_val prio)
          | None => (name, json_dumps parameters)
          end
      | _ => (name, "")
      end
  | _ => ("UNKNOWN", "")
  end.

(** [if value not in values: values.append(value)]. *)
Definition append_new `{EqDecision A} (x : A) (l : list A) : list A :=
  if decide (x ∈ l) then l else l ++ [x].

(** The copy of an event: [None] when the event is not one. *)
Definition tag_event (policy : string * string) (task_id : string) (v : pyval) : option pydict :=
  match v with
  | VDict event =>
      match int_instance (dgetd "ts" VNone event) with
      | Some _ =>
          Some (dset "_task_version" (VStr task_id)
                 (dset "_priority" (VStr policy.2) (dset "_policy" (VStr policy.1) event)))
      | None => None
      end
  | _ => None
  end.

(** [events_by_tid[tid].append(copy)] for all copies: a key appears with its
    first event. *)
Definition append_events (tid : Z) (copies : list pydict) (events : list (Z * list pydict)) :
    list (Z * list pydict) :=
  match copies with
  | [] => events
  | _ => zset tid (default [] (zget tid events) ++ copies) events
  end.

Record lime := Lime {
  events_by_tid : list (Z * list pydict);
  policies_by_tid : list (Z * list (string * string));
}.

(** The time stamp of a kept event. *)
Definition ts_of (event : pydict) : Z := default 0 (int_instance (dgetd "ts" VNone event)).

(** [sorted(l, key=key)] where computing a key may fail. *)
Definition sorted_by (key : pydict → outcome Z) (l : list pydict) : outcome (list pydict) :=
  keyed ← traverse (λ e, k ← key e; mret (k, e)) l;
  mret (sort_on fst keyed).*2.

Section load.
Context {W : Type} `{OS W} {T : Type}.
Abbreviation IO := (M (T * world W)).

Definition read_jsonl (path : string) : IO (list pydict) :=
  values <- try_except (is_class JSONDecodeError) (sys (ReadJsonl path))
              (λ error, throw ValueError (path +:+ ":" +:+ exn_msg error)) ;;
  lift (sorted_by (λ e, py_int (dgetd "timestamp_ns" (VInt 0) e))
         (omap (λ v, match v with VDict d => Some d | _ => None end) values)).

(** The body of the loop over the tasks. *)
Definition load_task (lime_dir : string) (app_tgid : option Z) (acc : lime) (info_path : string) :
    IO lime :=
  let task_id := py_removesuffix ".infos.json" (path_name info_path) in
  let event_path := lime_dir // (task_id +:+ ".events.json") in
  value <- sys (ReadJson info_path) ;;
  info <- lift (as_dict value) ;;
  tid <- lift (py_int (dgetd "pid" (VStr (nth 0 (py_split_max "-"%char 1 task_id) "")) info)) ;;
  tgid <- lift (py_int (dgetd "tgid" (VInt tid) info)) ;;
  if match app_tgid with Some app => negb (bool_decide (tgid = app)) | None => false end
  then ret acc else
  let policy := policy_fields (dgetd "policy" VNone info) in
  let acc := {| events_by_tid := events_by_tid acc;
                policies_by_tid :=
                  zset tid (append_new policy (default [] (zget tid (policies_by_tid acc))))
                       (policies_by_tid acc) |} in
  exists_ <- sys (PathExists event_path) ;;
  if negb exists_ then ret acc else
  values <- sys (ReadJson event_path) ;;
  match values with
  | VList values =>
      ret {| events_by_tid := append_events tid (omap (tag_event policy task_id) values)
                                (events_by_tid acc);
             policies_by_tid := policies_by_tid acc |}
  | _ => throw ValueError (event_path +:+ " does not contain a JSON event array")
  end.

Definition load_lime (lime_dir : string) (app_tgid : option Z) : IO lime :=
  paths <- sys (Glob lime_dir "*.infos.json") ;;
  acc <- fold_each (sorted_strings paths) (Lime [] []) (load_task lime_dir app_tgid) ;;
  ret {| events_by_tid := map (λ p, (p.1, sort_on ts_of p.2)) (events_by_tid acc);
         policies_by_tid := policies_by_tid acc |}.
End load.

(** ** Live threads of the steady-state window *)

Definition MAIN_THREAD_SIGNATURE : string := "process-main".

Definition record_name (record : pydict) : string := str_get_or "name" record.
Definition record_signature (record : pydict) : string :=
  if bool_decide (record_name record = "main") then MAIN_THREAD_SIGNATURE
  else str_get_or "signature" record.
(** [int(record.get("started_ns") or record.get("created_ns") or default)]. *)
Definition thread_begin (default : Z) (record : pydict) : outcome Z :=
  py_int (get_or "started_ns" (get_or "created_ns" (VInt default) record) record).
Definition thread_end (default : Z) (record : pydict) : outcome Z :=
  py_int (get_or "exited_ns" (VInt default) record).
Definition record_tid (record : pydict) : pyval := dgetd "tid" VNone record.

(** [profile_instances] and [signature_counts]. *)
Record profile_vars := Profile {
  profile_instances : gmap Z Z;
  signature_counts : gmap string Z;
}.

Section window.
Context (steady_begin steady_end : Z).

Definition profile_step (v : profile_vars) (record : pydict) : outcome profile_vars :=
  let signature := record_signature record in
  tb ← thread_begin steady_begin record;
  te ← thread_end steady_end record;
  if is_none (record_tid record) || bool_decide (signature = "") ||
     bool_decide (Z.min steady_end te <= Z.max steady_begin tb)
  then Ok v else
  let n := default 0 (signature_counts v !! signature) + 1 in
  tid ← py_int (record_tid record);
  mret (Profile (<[tid := n]> (profile_instances v)) (<[signature := n]> (signature_counts v))).

Definition thread_profiles (rs : list pydict) : outcome profile_vars :=
  ordered ← sorted_by (thread_begin 0) rs;
  fold_outcome profile_step (Profile ∅ ∅) ordered.
End window.

(** [sum(float(row["duration_ms"]) for row in intervals if row["state"] == state)]:
    the integer 0 when there is none. *)
Definition state_durations (st : string) (l : list Interval) : list f64 :=
  map duration_ms (filter (λ i, state i = st) l).
Definition py_sum (l : list f64) : pyval :=
  match l with [] => VInt 0 | _ => VFloat (f_sum l) end.
(** [running_ms + ready_ms + sleeping_ms]. *)
Definition sum3 (a b c : list f64) : pyval :=
  match a, b, c with
  | [], [], [] => VInt 0
  | _, _, _ => VFloat (f_add (f_add (f_sum a) (f_sum b)) (f_sum c))
  end.

(** The policies a thread had in the window. *)
Definition window_policies (begin_ end_ : Z) (events : list pydict) : list (string * string) :=
  foldl (λ values event,
           if bool_decide (begin_ <= ts_of event <= end_)
           then append_new (str_get_or "_policy" event, str_get_or "_priority" event) values
           else values) [] events.
Definition policy_text (values : list (string * string)) : string :=
  str_or (py_join "|" values.*1) "UNKNOWN".
Definition priority_text (values : list (string * string)) : string :=
  py_join "|" (filter (λ p, p ≠ "") values.*2).

(** [sorted({int(row["cpu"]) for row in intervals if str(...).isdigit()})]. *)
Definition used_cpus (l : list Interval) : outcome (list Z) :=
  cpus ← traverse (λ i, py_int (cpu i)) (filter (λ i, py_isdigit (str_val (cpu i)) = true) l);
  mret (sorted_cpus (list_to_set cpus)).

Definition interval_row (i : Interval) : pydict :=
  [("cycle", VInt (cycle i)); ("tid", VInt (tid i)); ("name", VStr (name i));
   ("state", VStr (state i)); ("start_ns", VInt (start_ns i)); ("end_ns", VInt (end_ns i));
   ("start_ms", VFloat (start_ms i)); ("end_ms", VFloat (end_ms i));
   ("duration_ms", VFloat (duration_ms i)); ("cpu", cpu i); ("reason", VStr (reason i))].
Definition activation_row (a : Activation) : pydict :=
  [("tid", VInt (a_tid a)); ("name", VStr (a_name a)); ("release_ns", VInt (release_ns a));
   ("first_run_ns", match first_run_ns a with Some t => VInt t | None => VStr "" end);
   ("execution_ms", VFloat (execution_ms a)); ("ready_ms", VFloat (ready_ms a));
   ("partial_start", VBool (partial_start a)); ("completion_ns", VInt (completion_ns a));
   ("response_ms", VFloat (response_ms a)); ("partial_end", VBool (partial_end a));
   ("activation", VInt (activation a));
   ("period_ms", match period_ms a with Some p => VFloat p | None => VStr "" end)].

Definition complete_activations (l : list Activation) : list Activation :=
  filter (λ a, partial_start a = false ∧ partial_end a = false) l.

(** One pass of the loop over the records: the intervals, the activations and
    the row of a thread that is live in the window. *)
Record thread_result := ThreadResult {
  t_intervals : list Interval;
  t_activations : list Activation;
  t_row : pydict;
}.

Section thread.
Context (steady_begin steady_end : Z) (lime_ : lime) (instances : gmap Z Z).

Definition thread_row (record : pydict) (tid_ begin_ end_ : Z) (l : list Interval) :
    outcome thread_result :=
  let name_ := record_name record in
  let events := default [] (zget tid_ (events_by_tid lime_)) in
  let acts := activations_from_intervals tid_ name_ l end_ in
  let complete := complete_activations acts in
  let source := match complete with [] => acts | _ => complete end in
  let running := state_durations "running" l in
  let ready := state_durations "ready" l in
  let sleeping := state_durations "sleeping" l in
  let lifetime := ms_of_ns (end_ - begin_) in
  let values := match window_policies begin_ end_ events with
                | [] => default [] (zget tid_ (policies_by_tid lime_))
                | values => values
                end in
  execution ← distribution (map execution_ms source);
  ready_d ← distribution (map ready_ms source);
  response ← distribution (map response_ms source);
  period ← distribution (omap period_ms source);
  cpus ← used_cpus l;
  mret (ThreadResult l acts
    [("tid", VInt tid_); ("name", VStr name_); ("signature", VStr (record_signature record));
     ("profile_instance", VInt (default 0 (instances !! tid_)));
     ("creation_sequence", dgetd "creation_sequence" VNone record);
     ("entry_module", VStr (str_get_or "entry_module" record));
     ("entry_module_offset", VStr (str_get_or "entry_module_offset" record));
     ("policy", VStr (policy_text values)); ("priority", VStr (priority_text values));
     ("lifetime_in_window_ms", VFloat lifetime); ("running_ms", py_sum running);
     ("ready_ms", py_sum ready); ("sleeping_ms", py_sum sleeping);
     ("trace_coverage_ms", sum3 running ready sleeping);
     ("unobserved_ms", VFloat (f_max f_zero
        (f_sub (f_sub (f_sub lifetime (f_sum running)) (f_sum ready)) (f_sum sleeping))));
     ("lime_event_count", VInt (Z.of_nat (length events)));
     ("activation_count", VInt (Z.of_nat (length acts)));
     ("complete_activation_count", VInt (Z.of_nat (length complete)));
     ("execution_ms", VDict execution); ("ready_per_activation_ms", VDict ready_d);
     ("response_ms", VDict response); ("period_ms", VDict period);
     ("cpus", VList (map VInt cpus))]).

(** [None]: the record has no thread in the window. *)
Definition analyse_record (record : pydict) : outcome (option thread_result) :=
  if is_none (record_tid record) then Ok None else
  tid_ ← py_int (record_tid record);
  tb ← thread_begin steady_begin record;
  te ← thread_end steady_end record;
  let begin_ := Z.max steady_begin tb in
  let end_ := Z.min steady_end te in
  if bool_decide (end_ <= begin_) then Ok None else
  ifs ← scheduler_intervals 0 tid_ (record_name record) steady_begin
          (default [] (zget tid_ (events_by_tid lime_))) begin_ end_;
  Some <$> thread_row record tid_ begin_ end_ ifs.1.1.
End thread.

(** [max(0.0, x)] is [f_max f_zero x]; the rows of the CSV summary. *)
Definition METRICS : list string :=
  ["execution_ms"; "ready_per_activation_ms"; "response_ms"; "period_ms"].
Definition flat_row (row : pydict) : pydict :=
  let plain := filter (λ p, match p.2 with VDict _ => false | _ => true end = true) row in
  let flat := foldl (λ flat metric,
      match dgetd metric VNone row with
      | VDict d => foldl (λ flat p, dset (metric +:+ "_" +:+ p.1) p.2 flat) flat d
      | _ => flat
      end) plain METRICS in
  match dgetd "cpus" VNone row with
  | VList cpus => dset "cpus" (VStr (py_join "," (map str_val cpus))) flat
  | _ => flat
  end.

Definition interval_fields : list string :=
  ["tid"; "name"; "state"; "start_ns"; "end_ns"; "start_ms"; "end_ms"; "duration_ms"; "cpu"; "reason"].
Definition activation_fields : list string :=
  ["tid"; "name"; "activation"; "release_ns"; "first_run_ns"; "completion_ns"; "execution_ms";
   "ready_ms"; "response_ms"; "period_ms"; "partial_start"; "partial_end"].

(** [next((int(r["tgid"]) for r in records if r.get("tgid") is not None), None)]. *)
Definition app_tgid_of (rs : list pydict) : outcome (option Z) :=
  match filter (λ v, is_none v = false) (map (dgetd "tgid" VNone) rs) with
  | v :: _ => Some <$> py_int v
  | [] => Ok None
  end.

(** The analysis of a trace, without its files. *)
Definition steady_window (lifecycle : list pydict) : outcome (Z * Z) :=
  b ← marker_time lifecycle "steady_state_begin";
  e ← marker_time lifecycle "steady_state_end";
  if bool_decide (e <= b) then raise ValueError "steady_state_end must be after steady_state_begin"
  else Ok (b, e).

Definition steady_threads (b e : Z) (lime_ : lime) (rs : list pydict) :
    outcome (list thread_result) :=
  profiles ← thread_profiles b e rs;
  results ← traverse (analyse_record b e lime_ (profile_instances profiles)) rs;
  mret (omap (M := list) (A := option thread_result) id results).

Definition steady_summary (b e : Z) (threads : list thread_result) : pydict :=
  [("schema_version", VInt 1); ("steady_begin_ns", VInt b); ("steady_end_ns", VInt e);
   ("duration_ms", VFloat (ms_of_ns (e - b)));
   ("thread_count", VInt (Z.of_nat (length threads)));
   ("activation_count", VInt (Z.of_nat (length (threads ≫= t_activations))));
   ("threads", VList (map (VDict ∘ t_row) threads))].

Section parse.
Context {W : Type} `{OS W} {T : Type}.
Abbreviation IO := (M (T * world W)).

Definition parse_steady_trace (lifecycle_path lime_dir output_dir : string) : IO pydict :=
  sys (Mkdir output_dir true) ;;
  lifecycle <- read_jsonl lifecycle_path ;;
  window <- lift (steady_window lifecycle) ;;
  let '(b, e) := window in
  rc <- lift (lifecycle_records [] lifecycle) ;;
  app <- lift (app_tgid_of rc.1) ;;
  lime_ <- load_lime lime_dir app ;;
  threads <- lift (steady_threads b e lime_ rc.1) ;;
  let flat := map (flat_row ∘ t_row) threads in
  let thread_fields := match flat with row :: _ => dkeys row | [] => ["tid"; "name"] end in
  sys (WriteCsv (output_dir // "thread_steady_intervals.csv") interval_fields
         (map interval_row (threads ≫= t_intervals))) ;;
  sys (WriteCsv (output_dir // "thread_steady_activations.csv") activation_fields
         (map activation_row (threads ≫= t_activations))) ;;
  sys (WriteCsv (output_dir // "thread_steady_summary.csv") thread_fields flat) ;;
  let summary := steady_summary b e threads in
  sys (WriteJson (output_dir // "thread_steady_summary.json") (VDict summary)) ;;
  ret summary.
End parse.

(** ** The loader keeps every thread's events in time order *)

Lemma int_item_ts event :
  is_Some (int_instance (dgetd "ts" VNone event)) → int_item event "ts" = Ok (ts_of event).
Proof.
  unfold int_item, ts_of, dgetd, subscript. destruct (dget "ts" event) as [[]|]; simpl; try by intros [].
Qed.

(** A kept event: it has a time stamp and carries its task. *)
Definition tagged (event : pydict) : Prop :=
  is_Some (int_instance (dgetd "ts" VNone event)) ∧
  is_Some (dget "_policy" event) ∧ is_Some (dget "_priority" event) ∧
  is_Some (dget "_task_version" event).

Lemma tag_event_tagged policy task_id v event : tag_event policy task_id v = Some event → tagged event.
Proof.
  unfold tag_event. destruct v as [| | | | | |d]; try done.
  destruct (int_instance _) as [z|] eqn:Hz; [|done]. intros [= <-].
  unfold tagged, dgetd in *. rewrite !dget_dset_ne by done. rewrite Hz. split; [eauto|].
  split_and!; rewrite ?dget_dset_ne by done; rewrite dget_dset_eq; eauto.
Qed.

Definition tagged_events (l : list (Z * list pydict)) : Prop := Forall (λ p, Forall tagged p.2) l.

Lemma append_events_tagged tid copies events :
  Forall tagged copies → tagged_events events → tagged_events (append_events tid copies events).
Proof.
  intros Hc He. unfold append_events. destruct copies as [|c copies]; [done|].
  apply Forall_forall. intros p [->|Hp]%zset_elem; simpl; unfold tagged_events in He;
    rewrite Forall_forall in He; [|by apply He].
  apply Forall_app_2; [|done]. destruct (zget tid events) as [l|] eqn:Hl; [|by apply Forall_nil].
  apply (He _ (zget_elem _ _ _ Hl)).
Qed.

Lemma sorted_tagged_timed l : Forall tagged l → timed (sort_on ts_of l).
Proof.
  intros Hl. assert (Forall tagged (sort_on ts_of l)) as Hs by by rewrite sort_on_perm.
  pose proof (sort_on_sorted ts_of l) as Hsort. revert Hs Hsort. generalize (sort_on ts_of l).
  clear. intros l Hl Hsort. induction Hsort as [|x l Hsort IH Hx]; [constructor|].
  apply Forall_cons in Hl as [[Htx _] Hl]. constructor; [by apply IH|].
  rewrite Forall_forall in Hl, Hx. apply Forall_forall. intros y Hy a b Ha Hb.
  rewrite int_item_ts in Ha by done. rewrite int_item_ts in Hb by by apply (Hl y).
  injection Ha as <-. injection Hb as <-. apply (Hx y Hy).
Qed.

Section load_spec.
Context {W : Type} `{OS W} {T : Type}.

Lemma load_task_tagged lime_dir app acc path (sw : T * world W) :
  tagged_events (events_by_tid acc) →
  wp (load_task lime_dir app acc path) (λ acc' _, tagged_events (events_by_tid acc')) (λ _ _, True) sw.
Proof.
  intros Hacc. unfold load_task. repeat (apply wp_skip; [intros|done]).
  destruct (match app with Some _ => _ | None => _ end); [by apply wp_ret|].
  apply wp_skip; [intros|done]. destruct (negb _); [by apply wp_ret|].
  apply wp_skip; [intros|done]. case_match; try by apply wp_throw.
  apply wp_ret. simpl. apply append_events_tagged; [|done].
  apply Forall_forall. intros e (v & _ & He)%list_elem_of_omap. by eapply tag_event_tagged.
Qed.

Lemma load_fold_tagged lime_dir app paths acc (sw : T * world W) :
  tagged_events (events_by_tid acc) →
  wp (fold_each paths acc (load_task lime_dir app))
     (λ acc' _, tagged_events (events_by_tid acc')) (λ _ _, True) sw.
Proof.
  revert acc sw. induction paths as [|p paths IH]; intros acc sw Hacc; simpl; [by apply wp_ret|].
  apply wp_bind. eapply wp_conseq; [by apply load_task_tagged| |done].
  intros acc' sw' Hacc'. by apply IH.
Qed.

Definition timed_lime (l : lime) : Prop := ∀ tid, timed (default [] (zget tid (events_by_tid l))).

Lemma load_lime_timed lime_dir app (sw : T * world W) :
  wp (load_lime lime_dir app) (λ l _, timed_lime l) (λ _ _, True) sw.
Proof.
  unfold load_lime. apply wp_skip; [intros paths sw'|done]. apply wp_bind.
  eapply wp_conseq; [by apply load_fold_tagged, Forall_nil| |done]. intros acc sw'' Hacc.
  apply wp_ret. intros tid. simpl. destruct (zget tid _) as [l|] eqn:Hl; simpl; [|constructor].
  apply zget_elem, list_elem_of_fmap in Hl as ([t l'] & [= -> ->] & Hin).
  apply sorted_tagged_timed. unfold tagged_events in Hacc. rewrite Forall_forall in Hacc.
  apply (Hacc _ Hin).
Qed.
End load_spec.

(** ** From a trace to rows *)

(** A record has a thread, alive in part of the window. *)
Definition window_of (b e : Z) (record : pydict) : outcome (Z * Z) :=
  tb ← thread_begin b record;
  te ← thread_end e record;
  mret (Z.max b tb, Z.min e te).
Definition live (b e : Z) (record : pydict) : bool :=
  negb (is_none (record_tid record)) &&
  match window_of b e record with Ok (begin_, end_) => bool_decide (begin_ < end_) | _ => false end.

(** The intervals and the activations of a live record are one after the other
    in the part of the window in which its thread was alive. *)
Definition ordered_thread (b e : Z) (record : pydict) (t : thread_result) : Prop :=
  ∃ begin_ end_, window_of b e record = Ok (begin_, end_) ∧ b <= begin_ < end_ ∧ end_ <= e ∧
    chain begin_ end_ (t_intervals t) ∧ Forall known_state (t_intervals t) ∧
    covered (t_intervals t) <= end_ - begin_ ∧ act_chain begin_ end_ (t_activations t) ∧
    dget "lifetime_in_window_ms" (t_row t) = Some (VFloat (ms_of_ns (end_ - begin_))).

Lemma thread_row_parts lime_ instances record tid_ begin_ end_ l t :
  thread_row lime_ instances record tid_ begin_ end_ l = Ok t →
  t_intervals t = l ∧
  t_activations t = activations_from_intervals tid_ (record_name record) l end_ ∧
  dget "lifetime_in_window_ms" (t_row t) = Some (VFloat (ms_of_ns (end_ - begin_))).
Proof.
  unfold thread_row. intros Heq.
  repeat (apply outcome_bind_ok in Heq as (? & _ & Heq)). by injection Heq as <-.
Qed.

Lemma analyse_record_ordered b e lime_ instances record o :
  timed_lime lime_ → analyse_record b e lime_ instances record = Ok o →
  match o with
  | Some t => live b e record = true ∧ ordered_thread b e record t
  | None => live b e record = false
  end.
Proof.
  intros Hlime. unfold analyse_record, live. destruct (is_none _); [by intros [= <-]|].
  intros (tid_ & _ & (tb & Htb & (te & Hte & Heq)%outcome_bind_ok)%outcome_bind_ok)%outcome_bind_ok.
  assert (window_of b e record = Ok (Z.max b tb, Z.min e te)) as Hw.
  { unfold window_of. by rewrite Htb, Hte. }
  rewrite Hw. simpl. case_bool_decide as Hle.
  { injection Heq as <-. apply bool_decide_eq_false_2. lia. }
  apply outcome_bind_ok in Heq as (ifs & Hifs & (t & Ht & ->)%outcome_fmap_ok).
  split; [apply bool_decide_eq_true_2; lia|].
  destruct (thread_row_parts _ _ _ _ _ _ _ _ Ht) as (Hi & Ha & Hl).
  assert (Z.max b tb <= Z.min e te) as Hle' by lia.
  destruct (scheduler_intervals_chain _ _ _ _ _ _ _ _ Hle' (Hlime tid_) Hifs) as [Hc Hk].
  pose proof (chain_covered _ _ _ Hc). exists (Z.max b tb), (Z.min e te). rewrite Hi, Ha.
  split_and!; try done; try lia. by apply activations_act_chain.
Qed.

Lemma steady_threads_ordered b e lime_ rs threads :
  timed_lime lime_ → steady_threads b e lime_ rs = Ok threads →
  Forall2 (ordered_thread b e) (filter (λ r, live b e r = true) rs) threads.
Proof.
  intros Hlime. unfold steady_threads.
  intros (profiles & _ & (results & Hr & [= <-])%outcome_bind_ok)%outcome_bind_ok.
  apply traverse_ok in Hr. induction Hr as [|record o rs results Ho _ IH]; [constructor|].
  apply (analyse_record_ordered _ _ _ _ _ _ Hlime) in Ho. rewrite filter_cons. destruct o as [t|]; simpl.
  - destruct Ho as [Hl Ht]. rewrite decide_True by done. by constructor.
  - rewrite decide_False by by rewrite Ho. done.
Qed.

Lemma steady_window_lt lifecycle b e : steady_window lifecycle = Ok (b, e) → b < e.
Proof.
  unfold steady_window. intros (b' & _ & (e' & _ & Heq)%outcome_bind_ok)%outcome_bind_ok.
  case_bool_decide; [done|]. injection Heq as <- <-. lia.
Qed.

(** A machine with the trace of one camera thread. *)
Definition trace_machine : machine :=
  let marker name ts := VDict [("event", VStr "phase_marker"); ("name", VStr name);
                               ("tid", VInt 10); ("timestamp_ns", VInt ts)] in
  let sched ts kind st := VDict [("ts", VInt ts); ("event", VStr kind); ("state", VInt st);
                                 ("cpu", VInt 2)] in
  {| m_files := []; m_json := [
       ("/t/lifecycle.jsonl", VList [
          marker "process_start" 1; marker "steady_state_begin" 100; marker "steady_state_end" 900;
          VDict [("event", VStr "pthread_create"); ("result", VInt 0); ("pthread_value", VStr "0xa");
                 ("timestamp_ns", VInt 5); ("signature", VStr "entry=x")];
          VDict [("event", VStr "thread_start"); ("pthread_value", VStr "0xa");
                 ("create_timestamp_ns", VInt 5); ("tid", VInt 11); ("timestamp_ns", VInt 7)]]);
       ("/t/lime/11-1.infos.json", VDict [("pid", VInt 11); ("tgid", VInt 10);
          ("policy", VDict [("SCHED_FIFO", VDict [("prio", VInt 5)])])]);
       ("/t/lime/11-1.events.json", VList [sched 300 "sched_switched_out" 1; sched 200 "sched_switched_in" 0])];
     m_dirs := []; m_globs := [("/t/lime/*.infos.json", ["/t/lime/11-1.infos.json"])]; m_links := [];
     m_clock := f_zero; m_boottime := 0; m_euid := 0; m_affinity := ∅ |}.

#[local] Instance no_commands : Commands := λ _ _ m, (exit_status 0 "", m).
