(* ===== verification/SteadyTraceSpec.v ===== *)
(** * What the steady-state analysis reports of its files

    The files of a trace as the run of [parse_steady_trace] reads them, one
    after the other, and what its rows, its tables and its summary say of
    them. *)
From Stdlib Require Import Ascii ZArith Lia.
From S2P Require Import Prelude PyStr PyFloat PyVal PyJson Effects Machine Devices CpuList SchedTrace.
From S2P Require Import Lifecycle SteadyTrace.
From stdpp Require Import base gmap strings list sorting.
Local Open Scope Z_scope.
Local Open Scope py_scope.
Local Open Scope M_scope.

(** ** The files of a trace *)

(** The events of a task, with the thread, the name and the policy of the
    task. *)
Record task_file := TaskFile {
  tf_tid : Z;
  tf_id : string;
  tf_policy : string * string;
  tf_events : list pyval;
}.

(** The events of thread [tid] that count, task by task: the objects with a time
    stamp, with the policy and the version of their task. *)
Definition thread_events (files : list task_file) (tid_ : Z) : list pydict :=
  filter (λ f, tf_tid f = tid_) files ≫= λ f, omap (tag_event (tf_policy f) (tf_id f)) (tf_events f).

(** The objects of a JSON-lines file and the time of an event of the
    lifecycle. *)
Definition objects (values : list pyval) : list pydict :=
  omap (λ v, match v with VDict d => Some d | _ => None end) values.
Definition event_time (d : pydict) : outcome Z := py_int (dgetd "timestamp_ns" (VInt 0) d).
Definition time_or_0 (d : pydict) : Z := match event_time d with Ok t => t | Raise _ => 0 end.

Section files.
Context {W : Type} `{OS W}.

(** [task_read lime_dir app path w f w']: reading the task with the information
    file [path] takes the machine from [w] to [w'] and gives [f]; [None] is a task
    of another program, whose events are not read. *)
Inductive task_read (lime_dir : string) (app : option Z) (path : string) : W → option task_file → W → Prop :=
  | TaskOther w info w1 tid_ tgid app_tgid :
      handle (ReadJson path) w = (Ok (VDict info), w1) →
      py_int (dgetd "pid" (VStr (nth 0 (py_split_max "-"%char 1 (py_removesuffix ".infos.json" (path_name path))) "")) info)
        = Ok tid_ →
      py_int (dgetd "tgid" (VInt tid_) info) = Ok tgid → app = Some app_tgid → tgid ≠ app_tgid →
      task_read lime_dir app path w None w1
  | TaskOurs w info w1 tid_ tgid values w3 :
      let id := py_removesuffix ".infos.json" (path_name path) in
      let events := lime_dir // (id +:+ ".events.json") in
      handle (ReadJson path) w = (Ok (VDict info), w1) →
      py_int (dgetd "pid" (VStr (nth 0 (py_split_max "-"%char 1 id) "")) info) = Ok tid_ →
      py_int (dgetd "tgid" (VInt tid_) info) = Ok tgid → (∀ app_tgid, app = Some app_tgid → tgid = app_tgid) →
      ((∃ w2, handle (PathExists events) w1 = (Ok true, w2) ∧
              handle (ReadJson events) w2 = (Ok (VList values), w3)) ∨
       handle (PathExists events) w1 = (Ok false, w3) ∧ values = []) →
      task_read lime_dir app path w
        (Some (TaskFile tid_ id (policy_fields (dgetd "policy" VNone info)) values)) w3.
(** The tasks of a trace, one after the other. *)
Inductive tasks_read (lime_dir : string) (app : option Z) : list string → W → list task_file → W → Prop :=
  | TasksEnd w : tasks_read lime_dir app [] w [] w
  | TasksNext path paths w f w1 files w2 :
      task_read lime_dir app path w f w1 → tasks_read lime_dir app paths w1 files w2 →
      tasks_read lime_dir app (path :: paths) w (option_list f ++ files) w2.

Context {T : Type}.
Implicit Types sw : T * world W.

(** A call that is not logged. *)
Lemma wp_query {A B} (c : syscall A) (k : A → M (T * world W) B) Q (E : exn → T * world W → Prop) sw :
  (∀ r, note c r = []) →
  (∀ a sw', handle c (w_os sw.2) = (Ok a, w_os sw'.2) → w_log sw'.2 = w_log sw.2 → wp (k a) Q E sw') →
  (∀ e sw', E e sw') → wp (bind (sys c) k) Q E sw.
Proof.
  intros Hn Hk HE. apply wp_bind. destruct sw as [s w]. apply wp_sys. intros [a|e] o Ho; [|done].
  apply Hk; [done|]. simpl. by rewrite Hn, app_nil_r.
Qed.

(** The events of the threads are those of the files read so far. *)
Definition holds (files : list task_file) (acc : lime) : Prop :=
  ∀ tid_, default [] (zget tid_ (events_by_tid acc)) = thread_events files tid_.
Lemma thread_events_app files files' tid_ :
  thread_events (files ++ files') tid_ = thread_events files tid_ ++ thread_events files' tid_.
Proof. unfold thread_events. by rewrite filter_app, bind_app. Qed.
Lemma append_events_get tid_ copies events t :
  default [] (zget t (append_events tid_ copies events)) =
  default [] (zget t events) ++ (if bool_decide (t = tid_) then copies else []).
Proof.
  unfold append_events. destruct copies as [|c copies].
  - case_bool_decide; by rewrite app_nil_r.
  - rewrite zget_zset. case_bool_decide as Ht; [by subst|by rewrite app_nil_r].
Qed.
Lemma thread_events_one f t :
  thread_events [f] t =
  if bool_decide (t = tf_tid f) then omap (tag_event (tf_policy f) (tf_id f)) (tf_events f) else [].
Proof.
  unfold thread_events. rewrite filter_cons, filter_nil. case_decide; case_bool_decide; simpl; try congruence.
  by rewrite app_nil_r.
Qed.

Lemma load_task_reads lime_dir app acc files path sw :
  holds files acc →
  wp (load_task lime_dir app acc path)
     (λ acc' sw', ∃ f, task_read lime_dir app path (w_os sw.2) f (w_os sw'.2) ∧
        holds (files ++ option_list f) acc' ∧ w_log sw'.2 = w_log sw.2) (λ _ _, True) sw.
Proof.
  intros Hacc. unfold load_task. apply wp_query; [done| |done]. intros value s1 H1 L1.
  apply wp_bind, wp_lift. destruct value as [| | | | | |info]; try done. simpl.
  apply wp_bind, wp_lift. destruct (py_int (dgetd "pid" _ info)) as [tid_|] eqn:Htid; [|done].
  apply wp_bind, wp_lift. destruct (py_int (dgetd "tgid" _ info)) as [tgid|] eqn:Htgid; [|done].
  destruct (match app with Some _ => _ | None => false end) eqn:Happ.
  { apply wp_ret. exists None. destruct app as [a|]; [|done].
    apply negb_true_iff, bool_decide_eq_false in Happ. split_and!; [|by rewrite app_nil_r|done].
    by eapply (TaskOther _ _ _ _ _ _ tid_ tgid a). }
  assert (∀ a, app = Some a → tgid = a) as Hsame.
  { intros a ->. by apply negb_false_iff, bool_decide_eq_true in Happ. }
  set (id := py_removesuffix ".infos.json" (path_name path)) in *.
  apply wp_query; [done| |done]. intros [] s2 H2 L2; simpl.
  - apply wp_query; [done| |done]. intros values s3 H3 L3.
    destruct values as [| | | | |values|]; try by apply (wp_throw (A := lime)).
    apply wp_ret. eexists (Some _). split_and!; [|intros t|congruence].
    { eapply TaskOurs; [exact H1|exact Htid|exact Htgid|exact Hsame|]. left. eauto. }
    simpl. rewrite append_events_get, thread_events_app, thread_events_one, Hacc. simpl. done.
  - apply wp_ret. eexists (Some _). split_and!; [|intros t|congruence].
    { eapply TaskOurs; [exact H1|exact Htid|exact Htgid|exact Hsame|]. right. eauto. }
    simpl. rewrite Hacc, thread_events_app, thread_events_one. simpl. case_bool_decide; by rewrite app_nil_r.
Qed.
Lemma load_tasks_read lime_dir app paths acc files sw :
  holds files acc →
  wp (fold_each paths acc (load_task lime_dir app))
     (λ acc' sw', ∃ fs, tasks_read lime_dir app paths (w_os sw.2) fs (w_os sw'.2) ∧
        holds (files ++ fs) acc' ∧ w_log sw'.2 = w_log sw.2) (λ _ _, True) sw.
Proof.
  revert acc files sw. induction paths as [|path paths IH]; intros acc files sw Hacc; simpl.
  { apply wp_ret. exists []. rewrite app_nil_r. split_and!; [constructor|done..]. }
  apply wp_bind. eapply wp_conseq; [by apply load_task_reads| |done].
  intros acc' s1 (f & Hf & Hacc' & L1). eapply wp_conseq; [by apply IH| |done].
  intros acc'' s2 (fs & Hfs & Hacc'' & L2). exists (option_list f ++ fs). rewrite app_assoc.
  split_and!; [by econstructor|done|congruence].
Qed.

(** The loader: every thread has the events of the files, in the order of their
    times. *)
Lemma load_lime_reads lime_dir app sw :
  wp (load_lime lime_dir app)
     (λ l sw', ∃ paths w1 files,
        handle (Glob lime_dir "*.infos.json") (w_os sw.2) = (Ok paths, w1) ∧
        tasks_read lime_dir app (sorted_strings paths) w1 files (w_os sw'.2) ∧
        (∀ tid_, stable_sorted ts_of (thread_events files tid_) (default [] (zget tid_ (events_by_tid l)))) ∧
        w_log sw'.2 = w_log sw.2) (λ _ _, True) sw.
Proof.
  unfold load_lime. apply wp_query; [done| |done]. intros paths s1 H1 L1. apply wp_bind.
  eapply wp_conseq; [by apply (load_tasks_read _ _ _ _ [])| |done].
  intros acc s2 (fs & Hfs & Hacc & L2). apply wp_ret. exists paths, (w_os s1.2), fs.
  split_and!; [done|done| |simpl; congruence]. intros t. simpl in *. rewrite <- (Hacc t).
  assert (∀ d : list (Z * list pydict),
    zget t (map (λ p, (p.1, sort_on ts_of p.2)) d) = sort_on ts_of <$> zget t d) as ->.
  { intros d. induction d as [|[k v] d IH]; simpl; [done|]. by case_bool_decide. }
  destruct (zget t _); [apply sort_on_stable|]. by apply (sort_on_stable ts_of []).
Qed.

Lemma sorted_by_stable key l l' :
  sorted_by key l = Ok l' →
  stable_sorted (λ d, match key d with Ok t => t | Raise _ => 0 end) l l' ∧
  Forall (λ d, is_ok (key d) = true) l.
Proof.
  unfold sorted_by. intros (keyed & Hk & [= <-])%outcome_bind_ok. apply traverse_ok in Hk.
  assert (keyed.*2 = l ∧ Forall (λ p, p.1 = match key p.2 with Ok t => t | Raise _ => 0 end) keyed ∧
          Forall (λ d, is_ok (key d) = true) l) as (<- & Hf & Hok).
  { induction Hk as [|d p l keyed Hd _ (<- & IH & Hok)]; [done|].
    apply outcome_bind_ok in Hd as (t & Ht & [= <-]). split_and!; [done|..]; constructor; simpl; try done.
    all: by rewrite Ht. }
  split; [|done]. rewrite (sort_on_pairs (λ d, match key d with Ok t => t | Raise _ => 0 end) _ Hf). apply sort_on_stable.
Qed.
Lemma read_jsonl_reads path sw :
  wp (read_jsonl path)
     (λ l sw', ∃ values, handle (ReadJsonl path) (w_os sw.2) = (Ok values, w_os sw'.2) ∧
        stable_sorted time_or_0 (objects values) l ∧
        Forall (λ d, is_ok (event_time d) = true) (objects values) ∧ w_log sw'.2 = w_log sw.2)
     (λ _ _, True) sw.
Proof.
  destruct sw as [s w]. unfold read_jsonl, try_except, bind, wp, sys.
  destruct (handle (ReadJsonl path) (w_os w)) as [[values|e] o] eqn:Ho.
  2:{ by destruct (is_class _ e). }
  unfold lift. fold (objects values). destruct (sorted_by _ (objects values)) as [l|] eqn:Hl; [|done].
  exists values. simpl. rewrite app_nil_r, Ho. apply sorted_by_stable in Hl as [Hs Hok]. done.
Qed.
End files.

(** ** From the files to the rows *)

(** The result [t] for the record of a thread: the intervals are those of the
    thread's events in the files, taken in the order of their times, within the
    part of the window in which the thread was alive, and the activations those
    of the intervals; both are one after the other there. *)
Definition reported_thread (b e : Z) (files : list task_file) (record : pydict) (t : thread_result) : Prop :=
  ∃ tid_ events begin_ end_ first_run first_sleep,
    py_int (record_tid record) = Ok tid_ ∧ window_of b e record = Ok (begin_, end_) ∧
    b <= begin_ < end_ ∧ end_ <= e ∧
    stable_sorted ts_of (thread_events files tid_) events ∧
    scheduler_intervals 0 tid_ (record_name record) b events begin_ end_ =
      Ok (t_intervals t, first_run, first_sleep) ∧
    chain begin_ end_ (t_intervals t) ∧ Forall known_state (t_intervals t) ∧
    covered (t_intervals t) <= end_ - begin_ ∧
    t_activations t = activations_from_intervals tid_ (record_name record) (t_intervals t) end_ ∧
    act_chain begin_ end_ (t_activations t) ∧
    dget "tid" (t_row t) = Some (VInt tid_) ∧
    dget "lifetime_in_window_ms" (t_row t) = Some (VFloat (ms_of_ns (end_ - begin_))) ∧
    dget "lime_event_count" (t_row t) = Some (VInt (Z.of_nat (length (thread_events files tid_)))).

(** The fields of a row that say whose it is. *)
Lemma thread_row_fields lime_ instances record tid_ begin_ end_ l t :
  thread_row lime_ instances record tid_ begin_ end_ l = Ok t →
  dget "tid" (t_row t) = Some (VInt tid_) ∧
  dget "lime_event_count" (t_row t) =
    Some (VInt (Z.of_nat (length (default [] (zget tid_ (events_by_tid lime_)))))).
Proof.
  unfold thread_row. intros Heq.
  repeat (apply outcome_bind_ok in Heq as (? & _ & Heq)). by injection Heq as <-.
Qed.

(** The loaded events are those of the files, in the order of their times. *)
Definition loaded (files : list task_file) (l : lime) : Prop :=
  ∀ tid_, stable_sorted ts_of (thread_events files tid_) (default [] (zget tid_ (events_by_tid l))).

Lemma analyse_record_reported b e files lime_ instances record o :
  timed_lime lime_ → loaded files lime_ → analyse_record b e lime_ instances record = Ok o →
  match o with
  | Some t => live b e record = true ∧ reported_thread b e files record t
  | None => live b e record = false
  end.
Proof.
  intros Hlime Hload Ho. pose proof (analyse_record_ordered _ _ _ _ _ _ Hlime Ho) as Hord.
  destruct o as [t|]; [|done]. destruct Hord as [Hl (begin_ & end_ & Hw & Hb & He & Hc & Hk & Hcov & Ha & Hlife)].
  split; [done|]. unfold analyse_record in Ho. destruct (is_none _); [done|].
  revert Ho. intros (tid_ & Htid & (tb & Htb & (te & Hte & Heq)%outcome_bind_ok)%outcome_bind_ok)%outcome_bind_ok.
  unfold window_of in Hw. rewrite Htb, Hte in Hw. injection Hw as <- <-.
  rewrite bool_decide_eq_false_2 in Heq by lia.
  apply outcome_bind_ok in Heq as ([[ifs fr] fs] & Hifs & (t' & Ht & [= <-])%outcome_fmap_ok). simpl in Ht.
  destruct (thread_row_parts _ _ _ _ _ _ _ _ Ht) as (Hi & Hacts & _).
  destruct (thread_row_fields _ _ _ _ _ _ _ _ Ht) as [Htid_row Hcount].
  exists tid_, (default [] (zget tid_ (events_by_tid lime_))), (Z.max b tb), (Z.min e te), fr, fs.
  unfold window_of. rewrite Htb, Hte, Hi in *. split_and!; try done; try lia.
  rewrite Hcount. do 3 f_equal. destruct (Hload tid_) as [Hperm _]. by rewrite Hperm.
Qed.
Lemma steady_threads_reported b e files lime_ rs threads :
  timed_lime lime_ → loaded files lime_ → steady_threads b e lime_ rs = Ok threads →
  Forall2 (reported_thread b e files) (filter (λ r, live b e r = true) rs) threads.
Proof.
  intros Hlime Hload. unfold steady_threads.
  intros (profiles & _ & (results & Hr & [= <-])%outcome_bind_ok)%outcome_bind_ok.
  apply traverse_ok in Hr. induction Hr as [|record o rs results Ho _ IH]; [constructor|].
  apply (analyse_record_reported _ _ files _ _ _ _ Hlime Hload) in Ho. rewrite filter_cons. destruct o as [t|]; simpl.
  - destruct Ho as [Hl Ht]. rewrite decide_True by done. by constructor.
  - rewrite decide_False by by rewrite Ho. done.
Qed.

(** What an analysis leaves in its directory. *)
Definition steady_outputs (output_dir : string) (threads : list thread_result) (summary : pydict) : list entry :=
  [EWriteCsv (output_dir // "thread_steady_intervals.csv") (map interval_row (threads ≫= t_intervals));
   EWriteCsv (output_dir // "thread_steady_activations.csv") (map activation_row (threads ≫= t_activations));
   EWriteCsv (output_dir // "thread_steady_summary.csv") (map (flat_row ∘ t_row) threads);
   EWriteJson (output_dir // "thread_steady_summary.json") (VDict summary)].

(** C14: The steady-state analysis, from files to rows.  When the analysis
    returns, the run read the lifecycle file and then every information file of
    the trace directory, in the order of their names, with the events of each
    task of the traced program; and what it made of them is this.  The records
    are those of the lifecycle's events taken in the order of their times, and
    the window between its two markers has a positive length.  There is one
    result per record of a thread alive in the window, in the order of the
    records: its scheduler intervals are those of exactly the events the files
    hold of that thread, in the order of their times; they lie one after the
    other without overlap in the part of the window in which the thread was
    alive and cover no more than that, and so do the activations, which are
    those of the intervals.  These intervals, activations and rows are what is
    written to the tables, in this order, and the summary that is written last
    and returned counts and holds them. *)
Theorem parse_steady_trace_ordered {W} `{OS W} {T} lifecycle_path lime_dir output_dir (sw : T * world W) :
  wp (parse_steady_trace lifecycle_path lime_dir output_dir)
     (λ summary sw', ∃ w1 values w2 lifecycle b e rs creates app paths w3 files w4 threads,
        handle (Mkdir output_dir true) (w_os sw.2) = (Ok (), w1) ∧
        handle (ReadJsonl lifecycle_path) w1 = (Ok values, w2) ∧
        stable_sorted time_or_0 (objects values) lifecycle ∧
        Forall (λ d, is_ok (event_time d) = true) (objects values) ∧
        steady_window lifecycle = Ok (b, e) ∧ b < e ∧
        lifecycle_records [] lifecycle = Ok (rs, creates) ∧ app_tgid_of rs = Ok app ∧
        handle (Glob lime_dir "*.infos.json") w2 = (Ok paths, w3) ∧
        tasks_read lime_dir app (sorted_strings paths) w3 files w4 ∧
        Forall2 (reported_thread b e files) (filter (λ r, live b e r = true) rs) threads ∧
        summary = steady_summary b e threads ∧
        w_log sw'.2 = w_log sw.2 ++ EMkdir output_dir :: steady_outputs output_dir threads summary)
     (λ _ _, True) sw.
Proof.
  destruct sw as [s w]. unfold parse_steady_trace. apply wp_bind, wp_sys. intros [[]|] w1 H1; [|done].
  apply wp_bind. eapply wp_conseq; [apply read_jsonl_reads| |done].
  intros lifecycle [s2 w2] (values & H2 & Hs & Hok & L2). simpl in H2, L2.
  apply wp_bind, wp_lift. destruct (steady_window _) as [[b e]|] eqn:Hw; [|done].
  assert (b < e) by by eapply steady_window_lt.
  apply wp_bind, wp_lift. destruct (lifecycle_records [] lifecycle) as [[rs creates]|] eqn:Hr; [|done].
  apply wp_bind, wp_lift. simpl. destruct (app_tgid_of rs) as [app|] eqn:Happ; [|done].
  apply wp_bind. eapply wp_conseq; [apply wp_and; [apply load_lime_timed|apply load_lime_reads]| |done].
  intros lime_ [s4 w4] [Hlime (paths & w3 & files & H3 & H4 & Hload & L4)]. simpl in H3, H4, L4.
  apply wp_bind, wp_lift. destruct (steady_threads _ _ _ _) as [threads|] eqn:Ht; [|done].
  apply (steady_threads_reported _ _ files) in Ht; [|done|exact Hload].
  do 4 (apply wp_bind, wp_sys; intros [[]|] ? _; [|done]). simpl.
  apply wp_ret. exists w1, values, (w_os w2), lifecycle, b, e, rs, creates, app, paths, w3, files, (w_os w4), threads.
  split_and!; try done. simpl. by rewrite L4, L2, <- !app_assoc.
Qed.

#[local] Instance no_commands : Commands := λ _ _ m, (exit_status 0 "", m).

Definition trace_run := parse_steady_trace (T := unit) "/t/lifecycle.jsonl" "/t/lime" "/t/out"
                          ((), World trace_machine []).
Lemma parse_steady_trace_ordered_witness :
  returned trace_run = true ∧
  (∀ summary sw, trace_run = (Ok summary, sw) → ∃ b e files threads rs,
     b < e ∧ Forall2 (reported_thread b e files) (filter (λ r, live b e r = true) rs) threads ∧
     w_log sw.2 = EMkdir "/t/out" :: steady_outputs "/t/out" threads summary).
Proof.
  split; [by vm_compute|]. intros summary sw Heq.
  destruct (wp_ok _ _ _ _ _ _
    (parse_steady_trace_ordered "/t/lifecycle.jsonl" "/t/lime" "/t/out" ((), World trace_machine [])) Heq)
    as (w1 & values & w2 & lifecycle & b & e & rs & creates & app & paths & w3 & files & w4 & threads
        & _ & _ & _ & _ & _ & Hlt & _ & _ & _ & _ & Hall & _ & Hlog).
  exists b, e, files, threads, rs. exact (conj Hlt (conj Hall Hlog)).
Defined.
