(* ===== verification/DeadlineProfile.v ===== *)
(** * Deadline profiles ([generate_deadline_profile.py])

    From SCHED_OTHER traces to one reservation per thread role: logical jobs,
    stable periods, execution demand, the identities of the live threads, and
    the profile with its clamped runtimes and periods. *)
From Stdlib Require Import Ascii ZArith Lia.
From S2P Require Import Prelude PyStr PyFloat PyVal Effects Machine Devices CpuList SchedTrace Lifecycle.
From S2P Require Import SteadyTrace.
From stdpp Require Import base gmap strings list sorting.
Local Open Scope Z_scope.
Local Open Scope py_scope.
Local Open Scope M_scope.

Definition PROFILE_HEADER : list string :=
  ["signature"; "instance"; "name"; "runtime_ns"; "deadline_ns"; "period_ns"].

Definition _bool (value : string) : bool :=
  bool_decide (py_lower (py_strip value) ∈ ["1"; "true"; "yes"]).

(** ** Logical jobs *)

(** [sorted(activations, key=lambda row: int(row["release_ns"]))], each row
    with its release. *)
Definition with_releases (activations : list pydict) : outcome (list (Z * pydict)) :=
  keyed ← traverse (λ row, r ← int_item row "release_ns"; mret (r, row)) activations;
  mret (sort_on fst keyed).

(** The differences of adjacent numbers. *)
Fixpoint deltas (l : list Z) : list Z :=
  match l with
  | a :: (b :: _) as l' => b - a :: deltas l'
  | _ => []
  end.

Definition sorted_Z : list Z → list Z := sort_on id.

(** The largest ratio of neighbours, above [best], with its index. *)
Fixpoint best_gap (index : Z) (best : f64 * Z) (positive : list Z) : f64 * Z :=
  match positive with
  | a :: (b :: _) as rest =>
      let ratio := Z_truediv b a in
      best_gap (index + 1)
        (if bool_decide (a <= 0) then best else if f_lt best.1 ratio then (ratio, index) else best) rest
  | _ => best
  end.

Definition burst_threshold (positive : list Z) : option f64 :=
  let n := Z.of_nat (length positive) in
  if bool_decide (n < 4) then None else
  let '(best_ratio, best_index) := best_gap 0 (f_of_Z 1, -1) positive in
  if negb (f_ge_Z best_ratio 4) then None else
  let upper_count := n - best_index - 1 in
  let upper_fraction := Z_truediv upper_count n in
  if bool_decide (2 <= upper_count) && f_le (f_dec 5 (-2)) upper_fraction
     && f_le upper_fraction (f_dec 90 (-2))
  then Some (f_sqrt (f_of_Z (nth (Z.to_nat best_index) positive 0 *
                             nth (Z.to_nat (best_index + 1)) positive 0)))
  else None.

(** [threshold is None or delta >= threshold]. *)
Definition starts_job (threshold : option f64) (delta : Z) : bool :=
  match threshold with None => true | Some t => f_le_Z t delta end.

(** The loop that fills [groups]; [group] is [groups[-1]]. *)
Fixpoint fill_groups (threshold : option f64) (previous : Z) (group : list pydict)
    (rest : list (Z * pydict)) : list (list pydict) :=
  match rest with
  | [] => [group]
  | (release, row) :: rest =>
      if starts_job threshold (release - previous)
      then group :: fill_groups threshold release [row] rest
      else fill_groups threshold release (group ++ [row]) rest
  end.

Definition _split_logical_jobs (activations : list pydict) :
    outcome (list (list pydict) * option f64) :=
  ordered ← with_releases activations;
  match ordered with
  | [] => Ok ([], None)
  | (release, row) :: rest =>
      let positive := sorted_Z (filter (λ d, 0 < d) (deltas ordered.*1)) in
      let threshold := burst_threshold positive in
      Ok (fill_groups threshold release [row] rest, threshold)
  end.

(** [statistics.median]: an integer for an odd count, a float for an even one. *)
Definition median (l : list Z) : pyval :=
  let s := sorted_Z l in
  let n := length s in
  if Nat.odd n then VInt (nth (n / 2) s 0)
  else VFloat (Z_truediv (nth (n / 2 - 1) s 0 + nth (n / 2) s 0) 2).
Definition num_float (v : pyval) : f64 :=
  match v with VInt z => f_of_Z z | VFloat x => x | _ => f_zero end.
(** [int(round(v))]. *)
Definition num_round (v : pyval) : outcome Z :=
  match v with VInt z => Ok z | VFloat x => f_round x | _ => Ok 0 end.

Definition group_release (group : list pydict) : outcome (option Z) :=
  match group with
  | [] => Ok None
  | row :: _ => Some <$> int_item row "release_ns"
  end.

(** [0.80 * median <= period <= 1.20 * median]. *)
Definition near (median : pyval) (period : Z) : bool :=
  f_le_Z (f_mul (f_dec 80 (-2)) (num_float median)) period &&
  f_ge_Z (f_mul (f_dec 120 (-2)) (num_float median)) period.

Definition stable_of (periods : list Z) : outcome (list Z) :=
  if bool_decide (length periods < 2)%nat
  then raise ValueError "fewer than three complete logical jobs" else
  let stable := filter (λ p, near (median periods) p = true) periods in
  half ← f_ceil (f_mul (f_of_Z (Z.of_nat (length periods))) (f_dec 50 (-2)));
  if bool_decide (Z.of_nat (length stable) < Z.max 2 half)
  then raise ValueError "logical period is not stable enough to model"
  else Ok stable.

Definition _stable_periods_ns (groups : list (list pydict)) : outcome (list Z) :=
  releases ← traverse group_release groups;
  stable_of (filter (λ d, 0 < d) (deltas (omap (M := list) (A := option Z) id releases))).

Definition _minimum_stable_period_ns (groups : list (list pydict)) : outcome Z :=
  Z_list_min 0 <$> _stable_periods_ns groups.

(** [int(round(float(row["execution_ms"]) * 1_000_000))]. *)
Definition execution_of (row : pydict) : outcome Z :=
  v ← subscript row "execution_ms";
  x ← py_float v;
  f_round (f_mul x (f_of_Z 1000000)).

Definition Z_sum (l : list Z) : Z := foldl Z.add 0 l.
Definition _maximum_job_execution_ns (groups : list (list pydict)) : outcome Z :=
  maxima ← traverse (λ group, Z_sum <$> traverse execution_of group)
                    (filter (λ g, g ≠ []) groups);
  match maxima with
  | [] => raise ValueError "no positive execution demand was observed"
  | _ => if bool_decide (Z_list_max 0 maxima <= 0)
         then raise ValueError "no positive execution demand was observed"
         else Ok (Z_list_max 0 maxima)
  end.

(** ** Identities *)

(** [counts] and [identities]: signature, instance and name by thread id. *)
Record identity_vars := Identities {
  identities : list (Z * (string * Z * string));
  counts : gmap string Z;
}.

Section identities.
Context (begin_ end_ : Z).

Definition identity_step (v : identity_vars) (record : pydict) : outcome identity_vars :=
  let name := record_name record in
  if bool_decide (name = "main") then Ok v else
  let signature := str_get_or "signature" record in
  tb ← thread_begin begin_ record;
  te ← thread_end end_ record;
  if is_none (record_tid record) || bool_decide (signature = "") ||
     bool_decide (Z.min end_ te <= Z.max begin_ tb)
  then Ok v else
  let n := default 0 (counts v !! signature) + 1 in
  tid ← py_int (record_tid record);
  mret (Identities (zset tid (signature, n, name) (identities v)) (<[signature := n]> (counts v))).

Definition identities_of (rs : list pydict) : outcome identity_vars :=
  ordered ← sorted_by (thread_begin 0) rs;
  fold_outcome identity_step (Identities [] ∅) ordered.
End identities.

(** ** The threads of a trace *)

(** What [_trace_threads] keeps of a thread. *)
Record observation := {
  o_name : string;
  period_ns : Z;
  principal_period_ns : Z;
  execution_ns : Z;
  activation_count : Z;
  logical_job_count : Z;
  burst_threshold_ns : option f64;
}.
Definition observation_dict (o : observation) : pydict :=
  [("name", VStr (o_name o)); ("period_ns", VInt (period_ns o));
   ("principal_period_ns", VInt (principal_period_ns o)); ("execution_ns", VInt (execution_ns o));
   ("activation_count", VInt (activation_count o));
   ("logical_job_count", VInt (logical_job_count o));
   ("burst_threshold_ns", match burst_threshold_ns o with Some t => VFloat t | None => VNone end);
   ("model_kind", VStr "periodic_or_sporadic_worker")].

Abbreviation thread_key := (string * Z)%type.
Definition repr_key (key : thread_key) : string :=
  "(" +:+ py_repr key.1 +:+ ", " +:+ str_Z key.2 +:+ ")".
Abbreviation run_threads := (gmap thread_key observation).

(** [summary_by_tid] and [rows_by_tid]. *)
Definition index_summary (threads : list pyval) : outcome (list (Z * pydict)) :=
  fold_outcome (λ acc thread,
    d ← as_dict thread;
    match dgetd "tid" VNone d with
    | VNone => Ok acc
    | v => tid ← py_int v; mret (zset tid d acc)
    end) [] threads.
Definition csv_row (row : list (string * string)) : pydict := map (λ p, (p.1, VStr p.2)) row.
Definition csv_flag (k : string) (row : pydict) : bool := _bool (str_val (dgetd k (VStr "") row)).
Definition index_rows (rows : list pydict) : outcome (list (Z * list pydict)) :=
  fold_outcome (λ acc row,
    if csv_flag "partial_start" row || csv_flag "partial_end" row then Ok acc else
    tid ← int_item row "tid";
    mret (zset tid (default [] (zget tid acc) ++ [row]) acc)) [] rows.

(** [try: ... except ValueError as error: raise ValueError(...)]. *)
Definition relabel {A} (message : string → string) (m : outcome A) : outcome A :=
  match m with
  | Ok a => Ok a
  | Raise e => if is_ValueError e then raise ValueError (message (exn_msg e)) else Raise e
  end.

(** The model of a thread: its stable periods and its execution demand. *)
Definition model_of (groups : list (list pydict)) : outcome (list Z * Z) :=
  stable ← _stable_periods_ns groups;
  execution ← _maximum_job_execution_ns groups;
  mret (stable, execution).

Definition observe_thread (require_sched_other : bool) (summary_by_tid : list (Z * pydict))
    (rows_by_tid : list (Z * list pydict)) (result : run_threads)
    (identity : Z * (string * Z * string)) : outcome run_threads :=
  let '(tid, (signature, instance, lifecycle_name)) := identity in
  match zget tid summary_by_tid with
  | None => raise ValueError ("TID " +:+ str_Z tid +:+ " has no LiME steady-state summary")
  | Some thread_summary =>
      let policy := str_get_or "policy" thread_summary in
      if require_sched_other && (negb (py_contains "SCHED_OTHER" policy) || py_contains "|" policy)
      then raise ValueError ("TID " +:+ str_Z tid +:+ " source policy is " +:+ py_repr policy
                             +:+ ", not a pure SCHED_OTHER trace") else
      let rows := default [] (zget tid rows_by_tid) in
      split_ ← _split_logical_jobs rows;
      model ← relabel (λ error, "cannot model TID " +:+ str_Z tid +:+ " (" +:+ lifecycle_name +:+ ", "
                          +:+ signature +:+ "): " +:+ error) (model_of split_.1);
      match result !! (signature, instance) with
      | Some _ => raise ValueError ("duplicate live-thread identity: " +:+ repr_key (signature, instance))
      | None =>
          principal ← num_round (median model.1);
          mret (<[(signature, instance) := {|
            o_name := str_val (get_or "name" (VStr lifecycle_name) thread_summary);
            period_ns := Z_list_min 0 model.1; principal_period_ns := principal;
            execution_ns := model.2; activation_count := Z.of_nat (length rows);
            logical_job_count := Z.of_nat (length split_.1); burst_threshold_ns := split_.2 |}]> result)
      end
  end.

Section trace.
Context {W : Type} `{OS W} {T : Type}.
Abbreviation IO := (M (T * world W)).

Definition _read_limit (path : string) (fallback : Z) : IO Z :=
  try_except (λ e, is_OSError e || is_ValueError e)
    (text <- sys (ReadText path) ;; lift (py_int (VStr (py_strip text)))) (λ _, ret fallback).

Definition _selected_attempt (path : string) : IO string :=
  direct <- sys (IsFile (path // "thread_lifecycle.jsonl")) ;;
  if direct then ret path else
  let selection := path // "selected_attempt.txt" in
  let failed := throw ValueError
    (path +:+ " is neither a trace attempt nor a logical run with selected_attempt.txt") in
  found <- sys (IsFile selection) ;;
  if negb found then failed else
  text <- sys (ReadText selection) ;;
  attempt <- lift (py_int (VStr (py_strip text))) ;;
  let selected := path // ("attempt-" +:+ str_Z attempt) in
  directory <- sys (IsDir selected) ;;
  if directory then ret selected else failed.

Definition _read_csv (path : string) : IO (list pydict) :=
  rows <- sys (ReadCsv path) ;; ret (map csv_row rows).

Definition _thread_identities (lifecycle_path : string) :
    IO (list (Z * (string * Z * string)) * Z * Z) :=
  events <- read_jsonl lifecycle_path ;;
  b <- lift (marker_time events "steady_state_begin") ;;
  e <- lift (marker_time events "steady_state_end") ;;
  rc <- lift (lifecycle_records [] events) ;;
  v <- lift (identities_of b e rc.1) ;;
  ret (identities v, b, e).

Definition require_file (path : string) : IO unit :=
  found <- sys (IsFile path) ;;
  if found then ret () else throw ValueError ("required trace artifact is missing: " +:+ path).

Definition _trace_threads (path : string) (require_sched_other : bool) : IO (run_threads * pydict) :=
  resolved <- sys (Resolve path) ;;
  attempt <- _selected_attempt resolved ;;
  let lifecycle := attempt // "thread_lifecycle.jsonl" in
  let activations_path := attempt // "thread_steady_activations.csv" in
  let summary_path := attempt // "thread_steady_summary.json" in
  for_each [lifecycle; activations_path; summary_path] require_file ;;
  value <- sys (ReadJson summary_path) ;;
  ids <- _thread_identities lifecycle ;;
  let '(ids, b, e) := ids in
  summary <- lift (as_dict value) ;;
  threads <- lift (as_list (dgetd "threads" (VList []) summary)) ;;
  summary_by_tid <- lift (index_summary threads) ;;
  rows <- _read_csv activations_path ;;
  rows_by_tid <- lift (index_rows rows) ;;
  result <- lift (fold_outcome (observe_thread require_sched_other summary_by_tid rows_by_tid) ∅ ids) ;;
  digest <- sys (FileDigest lifecycle) ;;
  input <- sys (Resolve path) ;;
  ret (result,
       [("input", VStr input); ("attempt", VStr attempt); ("steady_begin_ns", VInt b);
        ("steady_end_ns", VInt e); ("duration_ms", VFloat (ms_of_ns (e - b)));
        ("lifecycle_sha256", VStr digest); ("thread_count", VInt (Z.of_nat (size result)))]).
End trace.

(** ** The profile *)

(** A line of the profile. *)
Record reservation := {
  signature : string;
  instance : Z;
  r_name : string;
  runtime_ns : Z;
  deadline_ns : Z;
  reserved_period_ns : Z;
}.
Definition reservation_dict (r : reservation) : pydict :=
  [("signature", VStr (signature r)); ("instance", VInt (instance r)); ("name", VStr (r_name r));
   ("runtime_ns", VInt (runtime_ns r)); ("deadline_ns", VInt (deadline_ns r));
   ("period_ns", VInt (reserved_period_ns r))].

(** The command line parameters. *)
Record profile_parameters := {
  runtime_margin : f64;
  period_scale : f64;
  minimum_runtime_us : Z;
  maximum_period_us : Z;
  maximum_modeled_period_us : option Z;
}.

Definition minimum_runtime_ns (p : profile_parameters) : Z := minimum_runtime_us p * 1000.
Definition maximum_period_ns (p : profile_parameters) : Z := maximum_period_us p * 1000.

(** [threads[(signature, instance)] for threads in per_run]. *)
Definition observations_of (per_run : list run_threads) (key : thread_key) :
    outcome (list observation) :=
  traverse (λ threads : run_threads, match threads !! key with
                                     | Some o => Ok o | None => key_error (repr_key key) end) per_run.

Definition key_le_bool (a b : thread_key) : bool :=
  if String.eqb a.1 b.1 then a.2 <=? b.2 else String.leb a.1 b.1.
Definition thread_key_le (a b : thread_key) : Prop := key_le_bool a b = true.
#[export] Instance thread_key_le_dec : RelDecision thread_key_le.
Proof. intros a b. unfold thread_key_le. apply _. Defined.
(** [sorted(keys)] on pairs. *)
Definition sorted_keys (l : list thread_key) : list thread_key := merge_sort thread_key_le l.

(** [sorted(instances_by_signature)] and [sorted(instances)]. *)
Definition signatures_of (expected : gset thread_key) : list string :=
  sorted_strings (elements (set_map fst expected : gset string)).
Definition instances_of (expected : gset thread_key) (sig : string) : list Z :=
  sorted_Z (filter (λ key, key.1 = sig) (elements expected)).*2.

(** The lists [rows], [detail] and [excluded]. *)
Record profile_lists := ProfileLists {
  rows : list reservation;
  detail : list pydict;
  excluded : list (thread_key * pydict);
}.

Definition max_execution (l : list observation) : Z := Z_list_max 0 (map execution_ns l).
Definition min_period (l : list observation) : Z := Z_list_min 0 (map period_ns l).
Definition first_name (l : list observation) : string :=
  match l with o :: _ => o_name o | [] => "" end.
Definition observation_list (l : list observation) : pyval :=
  VList (map (VDict ∘ observation_dict) l).

(** [a / b] on integers. *)
Definition py_truediv (a b : Z) : outcome f64 :=
  if bool_decide (b = 0) then raise ZeroDivisionError "division by zero" else Ok (Z_truediv a b).

Section roles.
Context (p : profile_parameters) (per_run : list run_threads) (expected : gset thread_key).

Definition excluded_row (sig : string) (execution period : Z) (obs : Z * list observation) :
    thread_key * pydict :=
  ((sig, obs.1),
   [("signature", VStr sig); ("instance", VInt obs.1); ("name", VStr (first_name obs.2));
    ("role_observed_execution_max_ns", VInt execution);
    ("role_observed_logical_period_min_ns", VInt period);
    ("reason", VStr "observed role period exceeds maximum modeled period");
    ("observations", observation_list obs.2)]).

Definition role_runtime (execution : Z) : outcome Z :=
  scaled ← f_ceil (f_mul (f_of_Z execution) (runtime_margin p));
  mret (Z.max (minimum_runtime_ns p) scaled).
Definition role_period (period : Z) : outcome Z :=
  scaled ← f_floor (f_mul (f_of_Z period) (period_scale p));
  mret (Z.min (maximum_period_ns p) scaled).

Definition reserve (sig : string) (runtime period : Z) (obs : Z * list observation) : reservation :=
  {| signature := sig; instance := obs.1; r_name := first_name obs.2; runtime_ns := runtime;
     deadline_ns := period; reserved_period_ns := period |}.

Definition detail_row (sig : string) (count execution period runtime_ns period_ns : Z)
    (obs : Z * list observation) : outcome pydict :=
  utilization ← py_truediv runtime_ns period_ns;
  mret (dupdate (reservation_dict (reserve sig runtime_ns period_ns obs))
    [("observed_execution_max_ns", VInt (max_execution obs.2));
     ("observed_logical_period_min_ns", VInt (min_period obs.2));
     ("role_instance_count", VInt count);
     ("role_observed_execution_max_ns", VInt execution);
     ("role_observed_logical_period_min_ns", VInt period);
     ("runtime_was_clamped_to_kernel_minimum",
        VBool (bool_decide (runtime_ns = minimum_runtime_ns p) &&
               f_lt_Z (f_mul (f_of_Z execution) (runtime_margin p)) (minimum_runtime_ns p)));
     ("period_was_clamped_to_kernel_maximum",
        VBool (bool_decide (period_ns = maximum_period_ns p) &&
               f_gt_Z (f_mul (f_of_Z period) (period_scale p)) (maximum_period_ns p)));
     ("utilization", VFloat utilization);
     ("observations", observation_list obs.2)]).

(** The body of the loop over the signatures. *)
Definition role_step (acc : profile_lists) (sig : string) : outcome profile_lists :=
  let instances := instances_of expected sig in
  by_instance ← traverse (λ i, o ← observations_of per_run (sig, i); mret (i, o)) instances;
  let observations := by_instance ≫= snd in
  let execution := max_execution observations in
  let period := min_period observations in
  if match maximum_modeled_period_us p with
     | Some us => bool_decide (us * 1000 < period) | None => false end
  then mret (ProfileLists (rows acc) (detail acc)
               (excluded acc ++ map (excluded_row sig execution period) by_instance)) else
  runtime ← role_runtime execution;
  period_ns ← role_period period;
  if bool_decide (period_ns < runtime)
  then raise ValueError ("runtime exceeds deadline for thread role " +:+ sig +:+ ": runtime="
                         +:+ str_Z runtime +:+ ", period=" +:+ str_Z period_ns) else
  details ← traverse (detail_row sig (Z.of_nat (length instances)) execution period runtime period_ns)
                     by_instance;
  mret (ProfileLists (rows acc ++ map (reserve sig runtime period_ns) by_instance)
          (detail acc ++ details) (excluded acc)).

Definition profile_roles : outcome profile_lists :=
  fold_outcome role_step (ProfileLists [] [] []) (signatures_of expected).
End roles.

(** The comparison of the runs: all have the threads of the first one. *)
Fixpoint check_runs (index : Z) (expected : gset thread_key) (runs : list run_threads) :
    outcome unit :=
  match runs with
  | [] => Ok ()
  | threads :: runs =>
      if bool_decide (dom threads = expected) then check_runs (index + 1) expected runs else
      let show keys := "[" +:+ py_join ", " (map repr_key (sorted_keys (elements (keys : gset _)))) +:+ "]" in
      raise ValueError ("trace run " +:+ str_Z index +:+ " has a different live-thread set; missing="
                        +:+ show (expected ∖ dom threads) +:+ ", extra="
                        +:+ show (dom threads ∖ expected))
  end.

Definition check_parameters (p : profile_parameters) (runs : list string) : outcome unit :=
  if f_lt (runtime_margin p) (f_of_Z 1)
  then raise ValueError "runtime margin must be at least 1.0"
  else if negb (f_lt f_zero (period_scale p) && f_le (period_scale p) (f_of_Z 1))
  then raise ValueError "period scale must be in (0, 1]"
  else if bool_decide (runs = [])
  then raise ValueError "at least one SCHED_OTHER trace run is required"
  else Ok ().

Definition profile_metadata (p : profile_parameters) (output : string) (expected : gset thread_key)
    (l : profile_lists) (sources : list pydict) : outcome pydict :=
  parts ← traverse (λ r, py_truediv (runtime_ns r) (reserved_period_ns r)) (rows l);
  mret [("schema_version", VInt 1); ("profile", VStr output);
        ("formula", VDict [
           ("runtime", VStr "max(kernel_minimum, ceil(runtime_margin * role_max_logical_job_execution_across_runs_and_instances))");
           ("deadline", VStr "min(kernel_maximum, floor(period_scale * role_min_stable_logical_period_across_runs_and_instances))");
           ("period", VStr "deadline")]);
        ("shared_parameters_per_thread_signature", VBool true);
        ("runtime_margin", VFloat (runtime_margin p)); ("period_scale", VFloat (period_scale p));
        ("minimum_runtime_us", VInt (minimum_runtime_us p));
        ("maximum_period_us", VInt (maximum_period_us p));
        ("maximum_modeled_period_us", opt_val (maximum_modeled_period_us p));
        ("source_thread_count", VInt (Z.of_nat (size expected)));
        ("thread_count", VInt (Z.of_nat (length (rows l))));
        ("excluded_thread_count", VInt (Z.of_nat (length (excluded l))));
        ("total_reserved_cpu_utilization", VFloat (f_sum parts));
        ("sources", VList (map VDict sources)); ("threads", VList (map VDict (detail l)));
        ("excluded_threads", VList (map (VDict ∘ snd) (excluded l)))].

(** The profile of the runs. *)
Definition profile_of (p : profile_parameters) (per_run : list run_threads) :
    outcome (gset thread_key * profile_lists) :=
  let expected := match per_run with threads :: _ => dom threads | [] => ∅ end in
  check_runs 2 expected (tail per_run) ≫= λ _,
  l ← profile_roles p per_run expected;
  match rows l with
  | [] => raise ValueError "modeled-period filter excluded every live worker"
  | _ => Ok (expected, l)
  end.

Section generate.
Context {W : Type} `{OS W} {T : Type}.
Abbreviation IO := (M (T * world W)).

Definition generate_profile (trace_runs : list string) (output : string) (p : profile_parameters) :
    IO pydict :=
  lift (check_parameters p trace_runs) ;;
  traces <- map_each trace_runs (λ run, _trace_threads run true) ;;
  profile <- lift (profile_of p traces.*1) ;;
  let '(expected, l) := profile in
  output <- sys (Resolve output) ;;
  sys (Mkdir (hd "/" (path_parents output)) true) ;;
  sys (WriteCsv output PROFILE_HEADER (map reservation_dict (rows l))) ;;
  metadata <- lift (profile_metadata p output expected l traces.*2) ;;
  sys (WriteJson (output +:+ ".json") (VDict metadata)) ;;
  ret metadata.
End generate.
