(* ===== verification/DeadlineProfileSpec.v ===== *)
(** * Properties of the deadline profiles

    How activations are grouped into jobs, that the identities of the live
    threads are unique and agree with the steady-state analysis, and what a
    profile guarantees. *)
From Stdlib Require Import Ascii ZArith Lia.
From S2P Require Import Prelude PyStr PyFloat PyVal Effects Machine Devices CpuList SchedTrace Lifecycle.
From S2P Require Import SteadyTrace DeadlineProfile.
From stdpp Require Import base gmap strings list sorting.
Local Open Scope Z_scope.

(** ** Logical jobs *)

(** Groups of timed rows: no row of a group but the first starts a job, and
    the first row of every later group does. *)
Definition first_release (g : list (Z * pydict)) : Z := match g with x :: _ => x.1 | [] => 0 end.
Definition last_release (g : list (Z * pydict)) : Z := match last g with Some x => x.1 | None => 0 end.
Definition one_job (threshold : option f64) (g : list (Z * pydict)) : Prop :=
  g ≠ [] ∧ Forall (λ d, starts_job threshold d = false) (deltas g.*1).
Fixpoint separate_jobs (threshold : option f64) (gs : list (list (Z * pydict))) : Prop :=
  match gs with
  | g :: (g' :: _) as gs' =>
      starts_job threshold (first_release g' - last_release g) = true ∧ separate_jobs threshold gs'
  | _ => True
  end.

Lemma deltas_snoc (l : list Z) a b : deltas (l ++ [a; b]) = deltas (l ++ [a]) ++ [b - a].
Proof.
  induction l as [|x l IH]; [done|]. destruct l as [|y l]; [done|].
  change (y - x :: deltas ((y :: l) ++ [a; b]) = y - x :: deltas ((y :: l) ++ [a]) ++ [b - a]).
  by rewrite IH.
Qed.

Lemma fill_groups_spec threshold g x rest :
  one_job threshold (g ++ [x]) →
  ∃ g' gs, fill_groups threshold x.1 (g ++ [x]).*2 rest = map (fmap snd) (g' :: gs) ∧
    concat (g' :: gs) = (g ++ [x]) ++ rest ∧ first_release g' = first_release (g ++ [x]) ∧
    Forall (one_job threshold) (g' :: gs) ∧ separate_jobs threshold (g' :: gs).
Proof.
  revert g x. induction rest as [|[r row] rest IH]; intros g x Hg; simpl.
  { exists (g ++ [x]), []. simpl. rewrite !app_nil_r. split_and!; try done. by apply Forall_singleton. }
  destruct (starts_job threshold (r - x.1)) eqn:Hs.
  - destruct (IH [] (r, row)) as (g' & gs & Hf & Hc & Hr & Hall & Hsep).
    { split; [done|constructor]. }
    exists (g ++ [x]), (g' :: gs). split_and!; try done.
    + simpl in Hf |- *. by rewrite Hf.
    + change (concat ((g ++ [x]) :: g' :: gs)) with ((g ++ [x]) ++ concat (g' :: gs)). by rewrite Hc.
    + by constructor.
    + rewrite Hr. unfold last_release. by rewrite last_snoc.
  - destruct (IH (g ++ [x]) (r, row)) as (g' & gs & Hf & Hc & Hr & Hall & Hsep).
    { destruct Hg as [_ Hd]. split; [by destruct g|].
      rewrite !fmap_app, <- app_assoc. simpl. rewrite deltas_snoc.
      rewrite fmap_app in Hd. apply Forall_app_2; [done|]. by constructor. }
    exists g', gs. rewrite fmap_app in Hf. split_and!; try done.
    + etrans; [exact Hc|]. by rewrite <- app_assoc.
    + rewrite Hr. by destruct g.
Qed.

Lemma with_releases_spec activations ordered :
  with_releases activations = Ok ordered →
  StronglySorted (key_le fst) ordered ∧ ordered.*2 ≡ₚ activations ∧
  Forall (λ p, int_item p.2 "release_ns" = Ok p.1) ordered.
Proof.
  unfold with_releases. intros (keyed & Hk & [= <-])%outcome_bind_ok.
  split_and!; [apply sort_on_sorted|rewrite sort_on_perm|rewrite sort_on_perm];
    apply traverse_ok in Hk; induction Hk as [|x p l keyed Hp _ IH]; try done;
    apply outcome_bind_ok in Hp as (r & Hr & [= <-]); simpl; [by rewrite IH|by constructor].
Qed.

Lemma separate_none_length gs :
  Forall (one_job None) gs → length gs = length (concat gs).
Proof.
  induction 1 as [|g gs [Hne Hd] _ IH]; simpl; [done|]. rewrite length_app, <- IH.
  destruct g as [|x [|y g]]; [done|done|]. simpl in Hd. by apply Forall_cons in Hd as [? _].
Qed.

(** Logical jobs.  The activations of a thread are grouped in the order of
    their releases; every activation is in exactly one group, a group goes on
    as long as the next release is nearer than the threshold, and a new one
    starts exactly where it is not; without a threshold every activation is a
    job of its own. *)
Theorem split_logical_jobs_spec activations groups threshold :
  _split_logical_jobs activations = Ok (groups, threshold) →
  ∃ ordered gs, with_releases activations = Ok ordered ∧
    StronglySorted (key_le fst) ordered ∧ ordered.*2 ≡ₚ activations ∧
    groups = map (fmap snd) gs ∧ concat gs = ordered ∧
    Forall (one_job threshold) gs ∧ separate_jobs threshold gs ∧
    (threshold = None → length groups = length activations).
Proof.
  unfold _split_logical_jobs. intros (ordered & Ho & Heq)%outcome_bind_ok.
  destruct (with_releases_spec _ _ Ho) as (Hs & Hp & _). exists ordered.
  destruct ordered as [|[r row] rest].
  { injection Heq as <- <-. apply Permutation_nil_l in Hp. subst. exists []. by split_and!. }
  injection Heq as Hg Ht. rewrite Ht in Hg.
  destruct (fill_groups_spec threshold [] (r, row) rest) as (g & gs & Hf & Hc & _ & Hall & Hsep).
  { split; [done|constructor]. }
  simpl in Hf. rewrite Hf in Hg. exists (g :: gs). split_and!; try done.
  intros ->. rewrite <- Hg. simpl. rewrite length_map. apply separate_none_length in Hall.
  rewrite Hc in Hall. rewrite <- Hp, length_fmap. simpl in *. lia.
Qed.

Definition release_row (r : Z) : pydict := [("release_ns", VInt r); ("execution_ms", VInt 1)].
(** Three bursts of two activations. *)
Lemma split_logical_jobs_spec_witness :
  ∃ gs, _split_logical_jobs (map release_row [0; 1; 100; 101; 200; 201]) =
    Ok (map (map release_row) [[0; 1]; [100; 101]; [200; 201]], gs) ∧
  ∃ ordered, with_releases (map release_row [0; 1; 100; 101; 200; 201]) = Ok ordered ∧
    ordered.*2 ≡ₚ map release_row [0; 1; 100; 101; 200; 201].
Proof.
  destruct (_split_logical_jobs (map release_row [0; 1; 100; 101; 200; 201])) as [[groups t]|e] eqn:Heq;
    [|by vm_compute in Heq].
  exists t. split.
  { assert (fst <$> _split_logical_jobs (map release_row [0; 1; 100; 101; 200; 201]) =
      Ok (map (map release_row) [[0; 1]; [100; 101]; [200; 201]])) as Hg by by vm_compute.
    rewrite Heq in Hg. injection Hg as ->. done. }
  destruct (split_logical_jobs_spec _ _ _ Heq) as (ordered & gs & Ho & _ & Hp & _). eauto.
Defined.

(** ** Identities *)

Definition identity_key (p : Z * (string * Z * string)) : thread_key := p.2.1.

(** The numbers given out so far: each below its counter, none twice. *)
Definition numbered (v : identity_vars) : Prop :=
  NoDup (identities v).*1 ∧ NoDup (map identity_key (identities v)) ∧
  (∀ p, p ∈ identities v → 1 <= (identity_key p).2 <= default 0 (counts v !! (identity_key p).1)) ∧
  (∀ sig, 0 <= default 0 (counts v !! sig)).

Lemma zset_perm_new {A} k (a : A) d : k ∉ d.*1 → zset k a d = d ++ [(k, a)].
Proof.
  induction d as [|[k' a'] d IH]; simpl; [done|]. intros Hk. apply not_elem_of_cons in Hk as [Hne Hk].
  rewrite bool_decide_eq_false_2 by done. by rewrite IH.
Qed.

Lemma zset_keys_of tid val (l : list (Z * (string * Z * string))) :
  val.1 ∉ map identity_key l → NoDup (map identity_key l) →
  NoDup (map identity_key (zset tid val l)) ∧
  (∀ k, k ∈ map identity_key (zset tid val l) → k = val.1 ∨ k ∈ map identity_key l).
Proof.
  induction l as [|[t a] l IH]; simpl.
  { intros _ _. split; [apply NoDup_singleton|]. intros k Hk%list_elem_of_singleton. auto. }
  intros Hk Hnd. apply not_elem_of_cons in Hk as [Hne Hk]. apply NoDup_cons in Hnd as [Ha Hnd].
  case_bool_decide; simpl.
  - split; [by apply NoDup_cons|]. intros k [->|Hin]%elem_of_cons; [by left|]. right. by right.
  - destruct (IH Hk Hnd) as [IH1 IH2]. split.
    + apply NoDup_cons. split; [|done]. intros Hin. destruct (IH2 _ Hin) as [Heq|?]; [|done].
      by apply Hne.
    + intros k [->|Hin]%elem_of_cons; [right; by left|]. destruct (IH2 _ Hin); [by left|]. right. by right.
Qed.

Lemma numbered_add tid sig name v :
  numbered v →
  let n := default 0 (counts v !! sig) + 1 in
  numbered (Identities (zset tid (sig, n, name) (identities v)) (<[sig := n]> (counts v))).
Proof.
  intros (Ht & Hk & Hb & Hc) n. unfold numbered. simpl.
  assert ((sig, n) ∉ map identity_key (identities v)) as Hnew.
  { intros Hin%list_elem_of_In%in_map_iff. destruct Hin as (p & Hp & Hin%list_elem_of_In).
    apply Hb in Hin. rewrite Hp in Hin. simpl in Hin. lia. }
  assert (∀ sig', default 0 (counts v !! sig') <= default 0 (<[sig:=n]> (counts v) !! sig')) as Hmono.
  { intros sig'. destruct (decide (sig' = sig)) as [->|Hne].
    - rewrite lookup_insert_eq. simpl. lia.
    - by rewrite lookup_insert_ne. }
  pose proof (Hc sig) as Hsig. split_and!.
  - by apply zset_NoDup.
  - by apply (zset_keys_of tid (sig, n, name)).
  - intros p [->|Hin]%zset_elem; simpl.
    + rewrite lookup_insert_eq. simpl. lia.
    + specialize (Hb _ Hin). specialize (Hmono (identity_key p).1). unfold identity_key in *. lia.
  - intros sig'. specialize (Hc sig'). specialize (Hmono sig'). lia.
Qed.

Lemma identity_step_numbered b e v record v' :
  numbered v → identity_step b e v record = Ok v' → numbered v'.
Proof.
  intros Hv. unfold identity_step. case_bool_decide; [by intros [= <-]|].
  intros (tb & _ & (te & _ & Heq)%outcome_bind_ok)%outcome_bind_ok.
  destruct (_ || _); [by injection Heq as <-|].
  apply outcome_bind_ok in Heq as (tid & _ & [= <-]). by apply numbered_add.
Qed.

Lemma identities_numbered b e rs v : identities_of b e rs = Ok v → numbered v.
Proof.
  unfold identities_of. intros (ordered & _ & Hf)%outcome_bind_ok.
  apply (fold_outcome_inv _ (λ _, numbered) _ _ _) in Hf; [done| |].
  - split_and!; [constructor..| |done]. by intros ? ?%not_elem_of_nil.
  - intros done_ x rest v1 v2 _. apply identity_step_numbered.
Qed.

Lemma observe_thread_ok req sbt rbt result p result' :
  observe_thread req sbt rbt result p = Ok result' →
  ∃ o, result !! identity_key p = None ∧ result' = <[identity_key p := o]> result.
Proof.
  destruct p as [tid [[sig n] name]]. unfold observe_thread, identity_key. simpl.
  destruct (zget tid sbt); [|done]. destruct (_ && _); [done|].
  intros (split_ & _ & (model & _ & Heq)%outcome_bind_ok)%outcome_bind_ok.
  destruct (result !! (sig, n)) eqn:Hn; [done|].
  apply outcome_bind_ok in Heq as (principal & _ & [= <-]). eauto.
Qed.

Lemma observe_fold_dom req sbt rbt ids result result' :
  fold_outcome (observe_thread req sbt rbt) result ids = Ok result' →
  dom result' = dom result ∪ list_to_set (map identity_key ids) ∧
  size result' = (size result + length ids)%nat.
Proof.
  revert result. induction ids as [|p ids IH]; intros result; simpl.
  { intros [= <-]. split; [set_solver|lia]. }
  destruct (observe_thread _ _ _ _ _) as [r1|] eqn:Hr; [|done]. intros Hf.
  destruct (observe_thread_ok _ _ _ _ _ _ Hr) as (o & Hn & ->).
  destruct (IH _ Hf) as [Hd Hs]. rewrite Hd, Hs, dom_insert_L, map_size_insert_None by done.
  split; [set_solver|lia].
Qed.

(** The identity of a live thread is its own.  The identities found in a
    trace give no thread id and no pair of signature and instance twice, so
    that no thread of the trace meets an entry under its own key (the
    duplicate-identity error of [_trace_threads] cannot arise) and a modelled
    trace has one entry per live thread. *)
Theorem live_identities_unique b e rs v req sbt rbt :
  identities_of b e rs = Ok v →
  NoDup (identities v).*1 ∧ NoDup (map identity_key (identities v)) ∧
  (∀ done p rest result, identities v = done ++ p :: rest →
     fold_outcome (observe_thread req sbt rbt) ∅ done = Ok result → result !! identity_key p = None) ∧
  (∀ result, fold_outcome (observe_thread req sbt rbt) ∅ (identities v) = Ok result →
     dom result = list_to_set (map identity_key (identities v)) ∧
     size result = length (identities v)).
Proof.
  intros Hv. destruct (identities_numbered _ _ _ _ Hv) as (Ht & Hk & _).
  split_and!; [done|done| |].
  - intros d p rest result Heq Hf. apply not_elem_of_dom.
    destruct (observe_fold_dom _ _ _ _ _ _ Hf) as [-> _]. rewrite Heq, map_app in Hk.
    apply NoDup_app in Hk as (_ & Hdis & _). rewrite dom_empty_L, elem_of_union, elem_of_list_to_set.
    intros [?%elem_of_empty|Hin]; [done|]. apply (Hdis _ Hin). simpl. by left.
  - intros result Hf. destruct (observe_fold_dom _ _ _ _ _ _ Hf) as [-> ->].
    split; [set_solver|]. by rewrite map_size_empty.
Qed.

(** Two workers of the same role and the main thread. *)
Definition sample_records : list pydict :=
  [[("tid", VInt 10); ("name", VStr "main"); ("started_ns", VInt 1)];
   [("tid", VInt 12); ("name", VStr "w"); ("signature", VStr "s"); ("started_ns", VInt 9)];
   [("tid", VInt 11); ("name", VStr "w"); ("signature", VStr "s"); ("started_ns", VInt 5)]].
Definition sample_identities : list (Z * (string * Z * string)) :=
  match identities_of 20 90 sample_records with Ok v => identities v | _ => [] end.

Lemma live_identities_unique_witness :
  map (λ p, (p.1, identity_key p)) sample_identities = [(11, ("s", 1)); (12, ("s", 2))] ∧
  NoDup (map identity_key sample_identities).
Proof.
  split; [by vm_compute|]. unfold sample_identities.
  destruct (identities_of 20 90 sample_records) as [v|e] eqn:Heq; [|apply NoDup_nil_2].
  apply (live_identities_unique 20 90 sample_records v true [] [] Heq).
Defined.

(** ** Agreement with the steady-state analysis *)

(** The worker entries of both analyses. *)
Definition agree (workers : list Z) (pv : profile_vars) (iv : identity_vars) : Prop :=
  (∀ sig, sig ≠ MAIN_THREAD_SIGNATURE → signature_counts pv !! sig = counts iv !! sig) ∧
  (∀ tid val, zget tid (identities iv) = Some val →
     tid ∈ workers ∧ profile_instances pv !! tid = Some val.1.2).

(** The records of workers and of main threads do not share thread ids, and no
    worker has the signature reserved for the main thread. *)
Definition is_main (record : pydict) : bool := bool_decide (record_name record = "main").
Definition workers_apart (workers : list Z) (record : pydict) : Prop :=
  if is_main record
  then ∀ tid, py_int (record_tid record) = Ok tid → tid ∉ workers
  else str_get_or "signature" record ≠ MAIN_THREAD_SIGNATURE ∧
       ∀ tid, py_int (record_tid record) = Ok tid → tid ∈ workers.

Lemma steps_agree workers b e pv iv record pv' iv' :
  workers_apart workers record → agree workers pv iv →
  profile_step b e pv record = Ok pv' → identity_step b e iv record = Ok iv' →
  agree workers pv' iv'.
Proof.
  unfold workers_apart, is_main, profile_step, identity_step, record_signature.
  intros Hap [Hc Hi]. destruct (bool_decide (record_name record = "main")).
  - intros Hp [= <-]. apply outcome_bind_ok in Hp as (tb & _ & (te & _ & Heq)%outcome_bind_ok).
    destruct (_ || _); [by injection Heq as <-|].
    apply outcome_bind_ok in Heq as (tid & Ht & [= <-]). split; simpl.
    + intros sig Hsig. rewrite lookup_insert_ne by done. auto.
    + intros t val Hv. destruct (Hi _ _ Hv) as [Hw Hl]. split; [done|].
      rewrite lookup_insert_ne; [done|]. intros ->. by apply (Hap _ Ht).
  - destruct Hap as [Hsig Hap].
    intros (tb & Htb & (te & Hte & Heq)%outcome_bind_ok)%outcome_bind_ok.
    rewrite Htb, Hte. simpl. destruct (_ || _); [injection Heq as <-; by intros [= <-]|].
    apply outcome_bind_ok in Heq as (tid & Ht & [= <-]). rewrite Ht. simpl. intros [= <-].
    rewrite (Hc _ Hsig). split; simpl.
    + intros sig' Hs. destruct (decide (sig' = str_get_or "signature" record)) as [->|Hne].
      * by rewrite !lookup_insert_eq.
      * rewrite !lookup_insert_ne by done. auto.
    + intros t val. rewrite zget_zset. case_bool_decide as Heq; intros Hv.
      * subst t. injection Hv as <-. split; [auto|]. by rewrite lookup_insert_eq.
      * rewrite lookup_insert_ne by done. auto.
Qed.

Lemma folds_agree workers b e l pv iv pv' iv' :
  Forall (workers_apart workers) l → agree workers pv iv →
  fold_outcome (profile_step b e) pv l = Ok pv' → fold_outcome (identity_step b e) iv l = Ok iv' →
  agree workers pv' iv'.
Proof.
  intros Hl. revert pv iv. induction Hl as [|record l Hr _ IH]; intros pv iv Ha; simpl.
  { by intros [= <-] [= <-]. }
  destruct (profile_step b e pv record) as [pv1|] eqn:Hp; [|done].
  destruct (identity_step b e iv record) as [iv1|] eqn:Hi; [|done].
  apply IH. by eapply steps_agree.
Qed.

Lemma sorted_by_perm key l l' : sorted_by key l = Ok l' → l' ≡ₚ l.
Proof.
  unfold sorted_by. intros (keyed & Hk & [= <-])%outcome_bind_ok. rewrite sort_on_perm.
  apply traverse_ok in Hk. induction Hk as [|x p l keyed Hp _ IH]; [done|].
  apply outcome_bind_ok in Hp as (k & _ & [= <-]). simpl. by rewrite IH.
Qed.

(** The two analyses number the live threads alike.  The instance that the
    profile generator gives a worker is the profile instance that the
    steady-state analysis writes into the summary row of the same thread, as
    long as workers and main thread have different thread ids and no worker
    uses the signature of the main thread. *)
Theorem identities_match_profiles workers b e rs pv iv tid val :
  Forall (workers_apart workers) rs →
  thread_profiles b e rs = Ok pv → identities_of b e rs = Ok iv →
  zget tid (identities iv) = Some val → profile_instances pv !! tid = Some val.1.2.
Proof.
  unfold thread_profiles, identities_of. intros Hap (l & Hl & Hp)%outcome_bind_ok.
  rewrite Hl. simpl. intros Hi Hv. apply sorted_by_perm in Hl. rewrite <- Hl in Hap.
  refine (proj2 (proj2 (folds_agree workers b e l _ _ _ _ Hap _ Hp Hi) tid val Hv)).
  split; [done|]. by intros ? ?.
Qed.

Lemma identities_match_profiles_witness :
  Forall (workers_apart [11; 12]) sample_records ∧
  (∀ pv iv, thread_profiles 20 90 sample_records = Ok pv → identities_of 20 90 sample_records = Ok iv →
     zget 12 (identities iv) = Some ("s", 2, "w") → profile_instances pv !! 12 = Some 2) ∧
  zget 12 sample_identities = Some ("s", 2, "w").
Proof.
  assert (Forall (workers_apart [11; 12]) sample_records) as Hap.
  { repeat apply Forall_cons_2; [| | |apply Forall_nil_2].
    - intros tid. simpl. intros [= <-]. rewrite !not_elem_of_cons. split_and!; [lia|lia|apply not_elem_of_nil].
    - split; [done|]. intros tid [= <-]. set_solver.
    - split; [done|]. intros tid [= <-]. set_solver. }
  split; [done|]. split; [|by vm_compute]. intros pv iv Hp Hi Hv.
  exact (identities_match_profiles [11; 12] 20 90 sample_records pv iv 12 ("s", 2, "w") Hap Hp Hi Hv).
Defined.

(** ** The profile *)

Lemma foldl_max_ge l x : x <= foldl Z.max x l ∧ Forall (λ y, y <= foldl Z.max x l) l.
Proof.
  revert x. induction l as [|y l IH]; intros x; simpl; [split; [lia|constructor]|].
  destruct (IH (Z.max x y)) as [Hx Hl]. split; [lia|]. constructor; [lia|done].
Qed.
Lemma foldl_min_le l x : foldl Z.min x l <= x ∧ Forall (λ y, foldl Z.min x l <= y) l.
Proof.
  revert x. induction l as [|y l IH]; intros x; simpl; [split; [lia|constructor]|].
  destruct (IH (Z.min x y)) as [Hx Hl]. split; [lia|]. constructor; [lia|done].
Qed.
Lemma Z_list_max_ge d l : Forall (λ y, y <= Z_list_max d l) l.
Proof. destruct l as [|x l]; [constructor|]. destruct (foldl_max_ge l x). by constructor. Qed.
Lemma Z_list_min_le d l : Forall (λ y, Z_list_min d l <= y) l.
Proof. destruct l as [|x l]; [constructor|]. destruct (foldl_min_le l x). by constructor. Qed.

Section profile.
Context (p : profile_parameters) (per_run : list run_threads) (expected : gset thread_key).

(** The largest execution demand and the smallest period of a role, over all
    runs and instances. *)
Definition role_demand (sig : string) : outcome (Z * Z) :=
  by_instance ← traverse (λ i, o ← observations_of per_run (sig, i); mret (i, o))
                         (instances_of expected sig);
  mret (max_execution (by_instance ≫= snd), min_period (by_instance ≫= snd)).

Definition row_key (r : reservation) : thread_key := (signature r, instance r).
Definition role_keys (sig : string) : list thread_key := map (pair sig) (instances_of expected sig).

(** What a line of the profile promises. *)
Definition sound_row (r : reservation) : Prop :=
  ∃ execution period,
    role_demand (signature r) = Ok (execution, period) ∧
    match maximum_modeled_period_us p with Some us => period <= us * 1000 | None => True end ∧
    role_runtime p execution = Ok (runtime_ns r) ∧ role_period p period = Ok (reserved_period_ns r) ∧
    deadline_ns r = reserved_period_ns r ∧ runtime_ns r <= deadline_ns r.
(** Why a thread has no line. *)
Definition sound_exclusion (x : thread_key * pydict) : Prop :=
  ∃ execution period us,
    role_demand x.1.1 = Ok (execution, period) ∧
    maximum_modeled_period_us p = Some us ∧ us * 1000 < period.

Lemma role_demand_bounds sig execution period i threads o :
  role_demand sig = Ok (execution, period) → i ∈ instances_of expected sig →
  threads ∈ per_run → threads !! (sig, i) = Some o →
  execution_ns o <= execution ∧ period <= period_ns o.
Proof.
  unfold role_demand. intros (by_instance & Hb & [= <- <-])%outcome_bind_ok Hi Ht Ho.
  assert (o ∈ by_instance ≫= snd) as Hin.
  { apply traverse_ok in Hb. apply list_elem_of_bind.
    induction Hb as [|j x l xs Hx _ IH]; [by apply not_elem_of_nil in Hi|].
    apply elem_of_cons in Hi as [->|Hi].
    - exists x. split; [|by left]. apply outcome_bind_ok in Hx as (obs & Hobs & [= <-]). simpl.
      unfold observations_of in Hobs. apply traverse_ok in Hobs.
      apply list_elem_of_split in Ht as (l1 & l2 & ->).
      apply Forall2_app_inv_l in Hobs as (o1 & o2 & _ & H2 & ->).
      apply Forall2_cons_inv_l in H2 as (y & o2' & Hy & _ & ->). simpl in Hy. rewrite Ho in Hy.
      injection Hy as <-. set_solver.
    - destruct (IH Hi) as (y & Hoy & Hy). exists y. split; [done|by right]. }
  unfold max_execution, min_period. split.
  - pose proof (Z_list_max_ge 0 (map execution_ns (by_instance ≫= snd))) as Hm.
    rewrite Forall_forall in Hm. apply Hm, list_elem_of_In, in_map, list_elem_of_In, Hin.
  - pose proof (Z_list_min_le 0 (map period_ns (by_instance ≫= snd))) as Hm.
    rewrite Forall_forall in Hm. apply Hm, list_elem_of_In, in_map, list_elem_of_In, Hin.
Qed.

Lemma by_instance_keys sig by_instance :
  traverse (λ i, o ← observations_of per_run (sig, i); mret (i, o)) (instances_of expected sig) =
    Ok by_instance →
  map (λ x, (sig, x.1)) by_instance = role_keys sig.
Proof.
  unfold role_keys. generalize (instances_of expected sig). intros l Hb. apply traverse_ok in Hb.
  induction Hb as [|i x l xs Hx _ IH]; [done|]. simpl. rewrite IH.
  by apply outcome_bind_ok in Hx as (obs & _ & [= <-]).
Qed.

Lemma role_step_spec acc sig acc' :
  role_step p per_run expected acc sig = Ok acc' →
  ∃ new_rows new_ex, rows acc' = rows acc ++ new_rows ∧ excluded acc' = excluded acc ++ new_ex ∧
    map row_key new_rows ++ map fst new_ex = role_keys sig ∧
    Forall sound_row new_rows ∧ Forall sound_exclusion new_ex.
Proof.
  unfold role_step. intros (by_instance & Hb & Heq)%outcome_bind_ok.
  assert (role_demand sig = Ok (max_execution (by_instance ≫= snd), min_period (by_instance ≫= snd)))
    as Hd by (unfold role_demand; by rewrite Hb).
  apply by_instance_keys in Hb.
  destruct (match maximum_modeled_period_us p with Some _ => _ | None => _ end) eqn:Hmax.
  { injection Heq as <-. exists [], (map (excluded_row sig (max_execution (by_instance ≫= snd))
      (min_period (by_instance ≫= snd))) by_instance).
    simpl. rewrite app_nil_r, map_map. split_and!; try done.
    apply Forall_forall. intros x (y & <- & _)%list_elem_of_In%in_map_iff.
    destruct (maximum_modeled_period_us p) as [us|] eqn:Hus; [|done].
    apply bool_decide_eq_true_1 in Hmax. by eexists _, _, us. }
  apply outcome_bind_ok in Heq as (runtime & Hr & (period & Hp & Heq)%outcome_bind_ok).
  case_bool_decide as Hle; [done|]. apply outcome_bind_ok in Heq as (details & _ & [= <-]).
  exists (map (reserve sig runtime period) by_instance), [].
  simpl. rewrite !app_nil_r, map_map. split_and!; try done.
  apply Forall_forall. intros x (y & <- & _)%list_elem_of_In%in_map_iff.
  eexists _, _. split; [exact Hd|]. split_and!; try done; simpl; [|lia].
  destruct (maximum_modeled_period_us p) as [us|]; [|done].
  apply bool_decide_eq_false_1 in Hmax. lia.
Qed.

Lemma profile_roles_spec l :
  profile_roles p per_run expected = Ok l →
  map row_key (rows l) ++ map fst (excluded l) ≡ₚ signatures_of expected ≫= role_keys ∧
  Forall sound_row (rows l) ∧ Forall sound_exclusion (excluded l).
Proof.
  unfold profile_roles. intros Hf.
  apply (fold_outcome_inv _ (λ d l, map row_key (rows l) ++ map fst (excluded l) ≡ₚ d ≫= role_keys ∧
    Forall sound_row (rows l) ∧ Forall sound_exclusion (excluded l)) _ _ _) in Hf; [done| |].
  - simpl. split_and!; [done|apply Forall_nil_2|apply Forall_nil_2].
  - intros d sig rest acc acc' _ (Hp & Hr & He) Hs.
    destruct (role_step_spec _ _ _ Hs) as (nr & ne & -> & -> & Hk & Hnr & Hne).
    split_and!; [|by apply Forall_app_2|by apply Forall_app_2].
    rewrite !map_app, bind_app, bind_singleton, <- Hp, <- Hk, <- !app_assoc.
    apply Permutation_app_head. rewrite !app_assoc. apply Permutation_app_tail, Permutation_app_comm.
Qed.

Lemma role_keys_partition : signatures_of expected ≫= role_keys ≡ₚ elements expected.
Proof.
  assert (∀ key sig, key ∈ role_keys sig ↔ key.1 = sig ∧ key ∈ expected) as Hkeys.
  { intros [s i] sig. unfold role_keys, instances_of, sorted_Z.
    rewrite list_elem_of_In, in_map_iff. setoid_rewrite <- list_elem_of_In.
    setoid_rewrite elem_of_sort_on. setoid_rewrite list_elem_of_fmap.
    setoid_rewrite list_elem_of_filter. setoid_rewrite elem_of_elements. simpl. split.
    - intros (j & [= -> ->] & [s' j'] & -> & Heq & Hin). simpl in *. by subst.
    - intros [-> Hin]. exists i. split; [done|]. by exists (sig, i). }
  apply NoDup_Permutation.
  - apply NoDup_bind.
    + intros s1 s2 key _ _ [? _]%Hkeys [? _]%Hkeys. congruence.
    + intros sig _. apply (NoDup_fmap_2 (pair sig)).
      unfold instances_of, sorted_Z. rewrite sort_on_perm.
      assert (NoDup (filter (λ key : thread_key, key.1 = sig) (elements expected))) as Hnd
        by apply NoDup_filter, NoDup_elements.
      revert Hnd. assert (Forall (λ key : thread_key, key.1 = sig)
        (filter (λ key : thread_key, key.1 = sig) (elements expected))) as Hall.
      { apply Forall_forall. by intros key [? _]%list_elem_of_filter. }
      revert Hall. generalize (filter (λ key : thread_key, key.1 = sig) (elements expected)).
      clear. intros l Hall Hnd. induction Hnd as [|[s i] l Hi _ IH]; [constructor|].
      apply Forall_cons in Hall as [Hs Hall]. simpl in Hs. subst s. simpl. constructor; [|auto].
      intros ([s' i'] & -> & Hin)%list_elem_of_fmap. rewrite Forall_forall in Hall.
      specialize (Hall _ Hin). simpl in *. by subst.
    + unfold signatures_of, sorted_strings. rewrite merge_sort_Permutation. apply NoDup_elements.
  - apply NoDup_elements.
  - intros key. rewrite list_elem_of_bind, elem_of_elements. split.
    + by intros (sig & [_ ?]%Hkeys & _).
    + intros Hin. exists key.1. rewrite Hkeys. split; [done|].
      unfold signatures_of, sorted_strings. rewrite merge_sort_Permutation, elem_of_elements.
      apply elem_of_map. eauto.
Qed.
End profile.

Lemma check_runs_dom n expected runs :
  check_runs n expected runs = Ok () → Forall (λ threads, dom threads = expected) runs.
Proof.
  revert n. induction runs as [|threads runs IH]; intros n; simpl; [constructor|].
  case_bool_decide as Hd; [|done]. intros Hc. constructor; [done|by eapply IH].
Qed.
Lemma elem_of_instances expected sig i : i ∈ instances_of expected sig ↔ (sig, i) ∈ expected.
Proof.
  unfold instances_of, sorted_Z. rewrite elem_of_sort_on, list_elem_of_fmap. split.
  - intros ([s j] & -> & [Heq Hin]%list_elem_of_filter). simpl in *. subst.
    by apply elem_of_elements in Hin.
  - intros Hin. exists (sig, i). split; [done|]. by rewrite list_elem_of_filter, elem_of_elements.
Qed.
Lemma role_runtime_min p e r : role_runtime p e = Ok r → minimum_runtime_ns p <= r.
Proof. unfold role_runtime. intros (s & _ & [= <-])%outcome_bind_ok. lia. Qed.
Lemma role_period_max p d r : role_period p d = Ok r → r <= maximum_period_ns p.
Proof. unfold role_period. intros (s & _ & [= <-])%outcome_bind_ok. lia. Qed.

(** C15: What a deadline profile guarantees.  All runs have the same live
    threads; every one of them gets exactly one line or one exclusion, and at
    least one a line; every line has a runtime between the kernel minimum and
    its deadline, its deadline is its period and at most the kernel maximum;
    lines of one role have equal parameters; and they are computed from an
    execution demand no run and instance of the role exceeds and a period none
    undercuts. *)
Theorem profile_sound p per_run expected l :
  profile_of p per_run = Ok (expected, l) →
  Forall (λ threads, dom threads = expected) per_run ∧
  map row_key (rows l) ++ map fst (excluded l) ≡ₚ elements expected ∧ rows l ≠ [] ∧
  (∀ r, r ∈ rows l →
     minimum_runtime_ns p <= runtime_ns r <= deadline_ns r ∧
     deadline_ns r = reserved_period_ns r ∧ reserved_period_ns r <= maximum_period_ns p) ∧
  (∀ r1 r2, r1 ∈ rows l → r2 ∈ rows l → signature r1 = signature r2 →
     runtime_ns r1 = runtime_ns r2 ∧ reserved_period_ns r1 = reserved_period_ns r2) ∧
  (∀ r, r ∈ rows l → ∃ execution period,
     role_runtime p execution = Ok (runtime_ns r) ∧ role_period p period = Ok (reserved_period_ns r) ∧
     ∀ i threads o, (signature r, i) ∈ expected → threads ∈ per_run →
       threads !! (signature r, i) = Some o → execution_ns o <= execution ∧ period <= period_ns o).
Proof.
  unfold profile_of. set (e := match per_run with [] => _ | _ => _ end).
  intros ([] & Hc & (l' & Hl & Heq)%outcome_bind_ok)%outcome_bind_ok.
  assert (rows l' ≠ [] ∧ expected = e ∧ l = l') as (Hne & -> & ->).
  { destruct (rows l') eqn:Hr; [done|]. by injection Heq as <- <-. }
  destruct (profile_roles_spec _ _ _ _ Hl) as (Hp & Hrows & _). rewrite role_keys_partition in Hp.
  rewrite Forall_forall in Hrows. split_and!; try done.
  - apply check_runs_dom in Hc. subst e. destruct per_run as [|threads per_run]; by constructor.
  - intros r Hr. destruct (Hrows r Hr) as (ex & d & _ & _ & H1 & H2 & H3 & H4).
    apply role_runtime_min in H1. apply role_period_max in H2. lia.
  - intros r1 r2 Hr1 Hr2 Hs. destruct (Hrows r1 Hr1) as (e1 & d1 & Hd1 & _ & H1 & H2 & _).
    destruct (Hrows r2 Hr2) as (e2 & d2 & Hd2 & _ & H3 & H4 & _). rewrite Hs, Hd2 in Hd1.
    injection Hd1 as -> ->. rewrite H1 in H3. rewrite H2 in H4. by injection H3; injection H4.
  - intros r Hr. destruct (Hrows r Hr) as (ex & d & Hd & _ & H1 & H2 & _). exists ex, d.
    split_and!; [done|done|]. intros i threads o Hi Ht Ho.
    eapply role_demand_bounds; [exact Hd| |exact Ht|exact Ho]. by apply elem_of_instances.
Qed.

(** Two runs of two instances of one role. *)
Definition sample_observation (period execution : Z) : observation := {|
  o_name := "worker"; period_ns := period; principal_period_ns := period; execution_ns := execution;
  activation_count := 10; logical_job_count := 10; burst_threshold_ns := None |}.
Definition sample_run (execution : Z) : run_threads :=
  {[("s", 1) := sample_observation 33000000 execution; ("s", 2) := sample_observation 32000000 500000]}.
Definition sample_parameters : profile_parameters := {|
  runtime_margin := f_dec 120 (-2); period_scale := f_dec 91 (-2); minimum_runtime_us := 100;
  maximum_period_us := 4194304; maximum_modeled_period_us := None |}.
Definition sample_profile := profile_of sample_parameters [sample_run 1000000; sample_run 900000].

Lemma profile_sound_witness :
  (λ x, map (λ r, (row_key r, runtime_ns r, deadline_ns r)) (rows x.2)) <$> sample_profile =
    Ok [(("s", 1), 1200000, 29120000); (("s", 2), 1200000, 29120000)] ∧
  (∀ expected l, sample_profile = Ok (expected, l) →
     map row_key (rows l) ++ map fst (excluded l) ≡ₚ elements expected).
Proof.
  split; [by vm_compute|]. intros expected l Heq.
  apply (profile_sound sample_parameters [sample_run 1000000; sample_run 900000] expected l Heq).
Defined.
