(* ===== verification/Timerlat.v ===== *)
(** * Timer-latency histograms ([timerlat_parser.py])

    The parser of the text that [rtla timerlat hist] prints: per-context
    histograms, summaries, overflow counters and nearest-rank quantiles. *)
From Stdlib Require Import Ascii ZArith Lia.
From S2P Require Import Prelude PyStr PyFloat PyVal.
From S2P Require Import Lifecycle.
From stdpp Require Import base gmap strings list sorting.
Local Open Scope Z_scope.

Definition _SUMMARY_KEYS : list string := ["count"; "min"; "avg"; "max"].

Definition _integers (tokens : list string) : outcome (list Z) :=
  traverse (λ token, py_int (VStr token)) tokens.

Definition Zsum (l : list Z) : Z := foldr Z.add 0 l.

(** The loop over the sorted buckets. *)
Fixpoint rank_loop (target cumulative : Z) (buckets : list (Z * Z)) : option Z :=
  match buckets with
  | [] => None
  | (latency_us, count) :: buckets =>
      let cumulative := cumulative + count in
      if bool_decide (target <= cumulative) then Some latency_us
      else rank_loop target cumulative buckets
  end.

(** [max(1, int(total * quantile + 0.999999999))]. *)
Definition rank_target (total : Z) (quantile : f64) : outcome Z :=
  n ← f_trunc (f_add (f_mul (f_of_Z total) quantile) (f_dec 999999999 (-9)));
  mret (Z.max 1 n).

Definition _nearest_rank (buckets : list (Z * Z)) (total : Z) (quantile : f64) : outcome (option Z) :=
  if bool_decide (total <= 0) then Ok None else
  target ← rank_target total quantile;
  mret (rank_loop target 0 (sort_on fst buckets)).

Definition _maximum_known (values : list (option Z)) : option Z :=
  match values with
  | [] => Some 0
  | _ => if existsb (λ v, match v with None => true | Some _ => false end) values then None
         else Some (Z_list_max 0 (omap id values))
  end.

(** The variables of the parser. *)
Record parse_vars := {
  columns : list string;
  histograms : list (string * list (Z * Z));
  summary : list (string * list (string * Z));
  overflow : list (string * Z);
}.

Definition set_summary (key : string) (l : list (string * Z))
    (summary : list (string * list (string * Z))) : list (string * list (string * Z)) :=
  foldl (λ s p, dset p.1 (dset key p.2 (default [] (dget p.1 s))) s) summary l.
Definition set_buckets (latency_us : Z) (l : list (string * Z))
    (histograms : list (string * list (Z * Z))) : list (string * list (Z * Z)) :=
  foldl (λ h p, if bool_decide (p.2 = 0) then h
                else dset p.1 (zset latency_us p.2 (default [] (dget p.1 h))) h) histograms l.
(** [{column: value for column in columns}] and [dict(zip(columns, values))]. *)
Definition dict_of {A} (l : list (string * A)) : list (string * A) := dupdate [] l.

(** [re.match(r"^<key>:\s+(.+)$", line)] on a stripped line: the values. *)
Definition starts_with_space (s : string) : bool :=
  match s with String a _ => py_isspace a | EmptyString => false end.
Definition match_key (key line : string) : option string :=
  if py_startswith (key +:+ ":") line then
    let rest := py_drop (String.length key + 1) line in
    if starts_with_space rest then Some rest else None
  else None.
(** The first key of the alternatives that matches. *)
Definition match_summary (line : string) : option (string * string) :=
  match omap (λ key, (λ rest, (key, rest)) <$> match_key key line) _SUMMARY_KEYS with
  | m :: _ => Some m
  | [] => None
  end.
(** [re.match(r"^(\d+)\s+(.+)$", line)]. *)
Definition match_bucket (line : string) : option (Z * string) :=
  let '(d, rest) := span_digits line in
  if bool_decide (d = "") || negb (starts_with_space rest) then None
  else (λ n, (n, rest)) <$> int_of_string d.

(** The integers of a row, one per column. *)
Definition row_values (columns : list string) (message rest : string) : outcome (list (string * Z)) :=
  values ← _integers (py_words rest);
  if bool_decide (length values = length columns) then Ok (zip columns values)
  else raise ValueError message.

(** The body of the loop over the lines. *)
Definition parse_line (v : parse_vars) (raw_line : string) : outcome parse_vars :=
  let line := py_strip raw_line in
  if bool_decide (line = "") || py_startswith "#" line then Ok v
  else if py_startswith "Index " line then
    let columns := tail (py_words line) in
    Ok {| columns := columns; histograms := dict_of (map (λ c, (c, [])) columns);
          summary := dict_of (map (λ c, (c, [])) columns);
          overflow := dict_of (map (λ c, (c, 0)) columns) |}
  else if bool_decide (columns v = []) then Ok v
  else match match_summary line with
  | Some (key, rest) =>
      l ← row_values (columns v) ("Timerlat " +:+ key +:+ " column count does not match header") rest;
      mret {| columns := columns v; histograms := histograms v;
              summary := set_summary key l (summary v); overflow := overflow v |}
  | None =>
  match match_key "over" line with
  | Some rest =>
      l ← row_values (columns v) "Timerlat overflow column count does not match header" rest;
      mret {| columns := columns v; histograms := histograms v; summary := summary v;
              overflow := dict_of l |}
  | None =>
  match match_bucket line with
  | Some (latency_us, rest) =>
      l ← row_values (columns v) "Timerlat histogram column count does not match header" rest;
      mret {| columns := columns v; histograms := set_buckets latency_us l (histograms v);
              summary := summary v; overflow := overflow v |}
  | None => Ok v
  end end end.

(** The row of a column in [contexts]. *)
Record context := {
  counters : list (string * Z);
  over : Z;
  histogram_count : Z;
  p50_us : option Z;
  p99_us : option Z;
  p999_us : option Z;
  p9999_us : option Z;
}.

Definition missing_keys (v : parse_vars) : list string :=
  column ← columns v;
  (λ key, column +:+ ":" +:+ key) <$>
    filter (λ key, dget key (default [] (dget column (summary v))) = None) _SUMMARY_KEYS.

Definition make_context (v : parse_vars) (column : string) : outcome (string * context) :=
  let buckets := default [] (dget column (histograms v)) in
  let counters := default [] (dget column (summary v)) in
  let over := default 0 (dget column (overflow v)) in
  let in_range_count := Zsum buckets.*2 in
  let total := default 0 (dget "count" counters) in
  if negb (bool_decide (in_range_count + over = total)) then
    raise ValueError ("Timerlat sample count mismatch for " +:+ column +:+ ": histogram="
      +:+ str_Z in_range_count +:+ ", over=" +:+ str_Z over +:+ ", count=" +:+ str_Z total) else
  p50 ← _nearest_rank buckets total (f_dec 50 (-2));
  p99 ← _nearest_rank buckets total (f_dec 99 (-2));
  p999 ← _nearest_rank buckets total (f_dec 999 (-3));
  p9999 ← _nearest_rank buckets total (f_dec 9999 (-4));
  mret (column, {| counters := counters; over := over; histogram_count := in_range_count;
                   p50_us := p50; p99_us := p99; p999_us := p999; p9999_us := p9999 |}).

Record histogram := {
  h_columns : list string;
  contexts : list (string * context);
  irq_max_us : Z;
  thread_max_us : Z;
  irq_p999_us_max_cpu : option Z;
  thread_p999_us_max_cpu : option Z;
  overflow_samples : Z;
}.

Definition contexts_of (prefix : string) (l : list (string * context)) : list context :=
  (filter (λ p, py_startswith prefix p.1 = true) l).*2.
Definition context_max (c : context) : Z := default 0 (dget "max" (counters c)).

Definition start_parse : parse_vars :=
  {| columns := []; histograms := []; summary := []; overflow := [] |}.

Definition parse_timerlat_histogram (text : string) : outcome histogram :=
  v ← fold_outcome parse_line start_parse (py_splitlines text);
  if bool_decide (columns v = []) then raise ValueError "Timerlat histogram header was not found" else
  match missing_keys v with
  | (_ :: _) as missing => raise ValueError ("Timerlat summary is incomplete: " +:+ py_join ", " missing)
  | [] =>
      rows ← traverse (make_context v) (columns v);
      let contexts := dict_of rows in
      let irq := contexts_of "IRQ-" contexts in
      let thread := contexts_of "Thr-" contexts in
      mret {| h_columns := columns v; contexts := contexts;
              irq_max_us := Z_list_max 0 (map context_max irq);
              thread_max_us := Z_list_max 0 (map context_max thread);
              irq_p999_us_max_cpu := _maximum_known (map p999_us irq);
              thread_p999_us_max_cpu := _maximum_known (map p999_us thread);
              overflow_samples := Zsum (overflow v).*2 |}
  end.

(** ** Sums and dictionaries *)

#[export] Instance Zsum_perm : Proper ((≡ₚ) ==> (=)) Zsum.
Proof. intros l l'. induction 1; simpl; lia. Qed.
Lemma Zsum_app l l' : Zsum (l ++ l') = Zsum l + Zsum l'.
Proof. induction l; simpl; lia. Qed.

(** The keys of a dictionary depend on the keys it was built from only. *)
Lemma dkeys_dupdate {A B} (d e : list (string * A)) (d' e' : list (string * B)) :
  dkeys d = dkeys d' → dkeys e = dkeys e' → dkeys (dupdate d e) = dkeys (dupdate d' e').
Proof.
  unfold dupdate. revert d d' e'. induction e as [|[k v] e IH]; intros d d' [|[k' v'] e'] Hd He; try done.
  injection He as -> He. simpl. apply IH; [|done]. by rewrite !dkeys_dset, Hd.
Qed.
Lemma NoDup_dupdate {A} (d e : list (string * A)) : NoDup (dkeys d) → NoDup (dkeys (dupdate d e)).
Proof.
  unfold dupdate. revert d. induction e as [|[k v] e IH]; intros d Hd; simpl; [done|].
  by apply IH, NoDup_dset.
Qed.
Lemma elem_of_dset {A} (p : string * A) k v d : p ∈ dset k v d → p = (k, v) ∨ p ∈ d.
Proof.
  induction d as [|[k' v'] d IH]; simpl; [set_solver|].
  case_bool_decide; rewrite !elem_of_cons; subst; naive_solver.
Qed.
Lemma elem_of_dupdate {A} (p : string * A) d e : p ∈ dupdate d e → p ∈ d ∨ p ∈ e.
Proof.
  unfold dupdate. revert d. induction e as [|[k v] e IH]; intros d; simpl; [auto|].
  intros [[->|Hp]%elem_of_dset|Hp]%IH; rewrite elem_of_cons; auto.
Qed.
Lemma dget_elem_of {A} (d : list (string * A)) k v : NoDup (dkeys d) → (k, v) ∈ d → dget k d = Some v.
Proof.
  induction d as [|[k' v'] d IH]; simpl; intros Hd Hin; [by apply not_elem_of_nil in Hin|].
  apply NoDup_cons in Hd as [Hk Hd]. apply elem_of_cons in Hin as [[= -> ->]|Hin].
  - by rewrite bool_decide_eq_true_2.
  - rewrite bool_decide_eq_false_2; [by apply IH|]. intros ->. apply Hk, list_elem_of_fmap.
    by exists (k', v).
Qed.
Lemma dget_key {A} (d : list (string * A)) k : k ∈ dkeys d → is_Some (dget k d).
Proof.
  intros Hk. destruct (dget k d) eqn:Hd; [eauto|]. by apply dget_None in Hd.
Qed.
Lemma dkeys_dict_of {A} (l : list (string * A)) k : k ∈ dkeys (dict_of l) ↔ k ∈ dkeys l.
Proof.
  unfold dict_of. cut (∀ d : list (string * A), k ∈ dkeys (dupdate d l) ↔ k ∈ dkeys d ∨ k ∈ dkeys l).
  { intros Hcut. rewrite Hcut. simpl. rewrite elem_of_nil. tauto. }
  unfold dupdate. induction l as [|[k' v] l IH]; intros d; simpl.
  - rewrite elem_of_nil. tauto.
  - rewrite IH, dkeys_dset. rewrite elem_of_cons. case_bool_decide; [|rewrite elem_of_app, elem_of_cons, elem_of_nil]; naive_solver.
Qed.
(** A sum over the values is a sum over the keys. *)
Lemma Zsum_dict {A} (f : A → Z) (d : list (string * A)) (d' : list (string * Z)) :
  NoDup (dkeys d) → dkeys d = dkeys d' →
  (∀ k v, (k, v) ∈ d → f v = default 0 (dget k d')) → Zsum (map f d.*2) = Zsum d'.*2.
Proof.
  intros Hd Hkeys. rewrite Hkeys in Hd. revert d' Hkeys Hd.
  induction d as [|[k v] d IH]; intros [|[k' v'] d'] Hkeys Hd Hf; try done.
  injection Hkeys as -> Hkeys. apply NoDup_cons in Hd as [Hk Hd]. simpl.
  rewrite (Hf k' v) by by left. simpl. rewrite bool_decide_eq_true_2 by done. simpl. f_equal.
  apply IH; [done|done|]. intros k v2 Hin. rewrite (Hf k v2) by by right. simpl.
  rewrite bool_decide_eq_false_2; [done|]. intros ->. apply Hk.
  change (k' ∈ dkeys d'). rewrite <- Hkeys. apply list_elem_of_fmap. by exists (k', v2).
Qed.

(** ** The nearest rank *)

(** The samples at or below a latency. *)
Definition count_upto (v : Z) (buckets : list (Z * Z)) : Z :=
  Zsum (filter (λ b, b.1 <= v) buckets).*2.

Definition least_reaching (target : Z) (buckets : list (Z * Z)) (o : option Z) : Prop :=
  match o with
  | Some v => v ∈ buckets.*1 ∧ target <= count_upto v buckets ∧
              ∀ w, w ∈ buckets.*1 → w < v → count_upto w buckets < target
  | None => ∀ w, w ∈ buckets.*1 → count_upto w buckets < target
  end.

Lemma filter_keys_none (l : list (Z * Z)) v : Forall (λ b, v < b.1) l → filter (λ b, b.1 <= v) l = [].
Proof. induction 1 as [|b l Hb _ IH]; [done|]. rewrite filter_cons, decide_False by lia. done. Qed.
Lemma filter_keys_all (l : list (Z * Z)) v : Forall (λ b, b.1 <= v) l → filter (λ b, b.1 <= v) l = l.
Proof. induction 1 as [|b l Hb _ IH]; [done|]. rewrite filter_cons, decide_True by lia. by rewrite IH. Qed.

(** On strictly sorted buckets the loop's counter is [count_upto]. *)
Lemma count_upto_prefix pre v n post :
  StronglySorted (λ x y : Z * Z, x.1 < y.1) (pre ++ (v, n) :: post) →
  count_upto v (pre ++ (v, n) :: post) = Zsum pre.*2 + n.
Proof.
  intros Hs. apply StronglySorted_app in Hs as (Hpre & _ & Hs).
  apply StronglySorted_cons in Hs as [Hpost _]. unfold count_upto.
  rewrite filter_app, filter_cons, decide_True by (simpl; lia).
  rewrite (filter_keys_none post) by done. rewrite (filter_keys_all pre).
  - rewrite fmap_app, Zsum_app. simpl. lia.
  - apply Forall_forall. intros b Hb. specialize (Hpre b (v, n) Hb ltac:(by left)). simpl in *. lia.
Qed.

Lemma rank_loop_least target pre l :
  StronglySorted (λ x y : Z * Z, x.1 < y.1) (pre ++ l) →
  (∀ w, w ∈ pre.*1 → count_upto w (pre ++ l) < target) →
  least_reaching target (pre ++ l) (rank_loop target (Zsum pre.*2) l).
Proof.
  revert pre. induction l as [|[v n] l IH]; intros pre Hs Hpre; simpl.
  { rewrite app_nil_r in *. done. }
  pose proof (count_upto_prefix _ _ _ _ Hs) as Hv. case_bool_decide as Ht.
  - simpl. rewrite Hv. split_and!; [|lia|].
    + rewrite fmap_app. apply elem_of_app. right. by left.
    + intros w Hw Hlt. apply Hpre. rewrite fmap_app in Hw. apply elem_of_app in Hw as [?|Hw]; [done|].
      exfalso. apply StronglySorted_app in Hs as (_ & _ & Hs). apply StronglySorted_cons in Hs as [Hpost _].
      apply elem_of_cons in Hw as [->|Hw]; [simpl in Hlt; lia|].
      apply list_elem_of_fmap in Hw as (b & -> & Hb). rewrite Forall_forall in Hpost.
      specialize (Hpost b Hb). simpl in *. lia.
  - replace (pre ++ (v, n) :: l) with ((pre ++ [(v, n)]) ++ l) in * by by rewrite <- app_assoc.
    replace (Zsum pre.*2 + n) with (Zsum (pre ++ [(v, n)]).*2) by (rewrite fmap_app, Zsum_app; simpl; lia).
    apply IH; [done|]. intros w Hw. rewrite fmap_app in Hw. apply elem_of_app in Hw as [Hw|Hw]; [auto|].
    apply list_elem_of_singleton in Hw as ->. simpl. rewrite Hv. lia.
Qed.

Lemma key_sorted_strict (l : list (Z * Z)) :
  NoDup l.*1 → StronglySorted (key_le fst) l → StronglySorted (λ x y : Z * Z, x.1 < y.1) l.
Proof.
  intros Hn Hs. induction Hs as [|x l Hs IH Hx]; [constructor|].
  apply NoDup_cons in Hn as [Hxl Hn]. constructor; [by apply IH|].
  rewrite Forall_forall in Hx. apply Forall_forall. intros y Hy. specialize (Hx y Hy).
  unfold key_le in Hx. assert (x.1 ≠ y.1); [|lia]. intros Heq. apply Hxl. rewrite Heq.
  by apply list_elem_of_fmap_2.
Qed.

(** A quantile that was reported. *)
Definition is_quantile (buckets : list (Z * Z)) (total : Z) (quantile : f64) (o : option Z) : Prop :=
  (total <= 0 ∧ o = None) ∨
  (0 < total ∧ ∃ target, rank_target total quantile = Ok target ∧ least_reaching target buckets o).

Lemma nearest_rank_spec buckets total quantile o :
  NoDup buckets.*1 → _nearest_rank buckets total quantile = Ok o → is_quantile buckets total quantile o.
Proof.
  unfold _nearest_rank. intros Hn. case_bool_decide as Ht; [intros [= <-]; by left|].
  intros (target & Hr & [= <-])%outcome_bind_ok. right. split; [lia|]. exists target. split; [done|].
  assert (sort_on fst buckets ≡ₚ buckets) as Hperm by apply sort_on_perm.
  assert (least_reaching target (sort_on fst buckets) (rank_loop target 0 (sort_on fst buckets))) as Hl.
  { apply (rank_loop_least target []); [|by intros w ?%not_elem_of_nil].
    apply key_sorted_strict; [by rewrite Hperm|apply sort_on_sorted]. }
  assert (∀ w, count_upto w (sort_on fst buckets) = count_upto w buckets) as Hc.
  { intros w. unfold count_upto. by rewrite Hperm. }
  destruct (rank_loop _ _ _) as [v|]; simpl in *.
  - destruct Hl as (Hin & Hv & Hw). rewrite Hc, Hperm in *. split_and!; [done|done|].
    intros w Hin' Hlt. rewrite <- Hc. apply Hw; [by rewrite Hperm|done].
  - intros w Hin. rewrite <- Hc. apply Hl. by rewrite Hperm.
Qed.

(** ** What the parser keeps *)

Definition keys_of (columns : list string) : list string := dkeys (dict_of (map (λ c, (c, 0)) columns)).
(** The overflow counters have the columns as keys; no latency has two
    buckets. *)
Definition well_formed (v : parse_vars) : Prop :=
  dkeys (overflow v) = keys_of (columns v) ∧ Forall (λ p, NoDup p.2.*1) (histograms v).

Lemma bucket_NoDup (h : list (string * list (Z * Z))) k :
  Forall (λ p, NoDup p.2.*1) h → NoDup (default [] (dget k h)).*1.
Proof.
  intros Hh. destruct (dget k h) as [b|] eqn:Hk; simpl; [|constructor].
  apply dget_elem in Hk. rewrite Forall_forall in Hh. apply (Hh _ Hk).
Qed.
Lemma set_buckets_NoDup latency l h :
  Forall (λ p, NoDup p.2.*1) h → Forall (λ p, NoDup p.2.*1) (set_buckets latency l h).
Proof.
  unfold set_buckets. revert h. induction l as [|[k n] l IH]; intros h Hh; simpl; [done|].
  apply IH. case_bool_decide; [done|]. apply Forall_forall. intros p [->|Hp]%elem_of_dset; simpl.
  - apply zset_NoDup. by apply bucket_NoDup.
  - rewrite Forall_forall in Hh. by apply Hh.
Qed.
Lemma row_values_keys columns message rest l : row_values columns message rest = Ok l → dkeys l = columns.
Proof.
  unfold row_values. intros (values & _ & Heq)%outcome_bind_ok. case_bool_decide; [|done].
  injection Heq as <-. unfold dkeys. apply fst_zip. lia.
Qed.

Lemma parse_line_well_formed v line v' : well_formed v → parse_line v line = Ok v' → well_formed v'.
Proof.
  intros [Hk Hb]. unfold parse_line. destruct (_ || _); [by intros [= <-]|].
  destruct (py_startswith "Index " _).
  { intros [= <-]. split; simpl; [done|]. apply Forall_forall.
    intros p [Hp|Hp]%elem_of_dupdate; [by apply not_elem_of_nil in Hp|].
    apply list_elem_of_In, in_map_iff in Hp as (c & <- & _). simpl. constructor. }
  destruct (bool_decide _); [by intros [= <-]|].
  destruct (match_summary _) as [[key rest]|].
  { intros (l & _ & [= <-])%outcome_bind_ok. done. }
  destruct (match_key _ _) as [rest|].
  { intros (l & Hl%row_values_keys & [= <-])%outcome_bind_ok. split; simpl; [|done].
    unfold keys_of, dict_of. apply dkeys_dupdate; [done|]. rewrite Hl. unfold dkeys.
    rewrite map_map. symmetry. apply map_id. }
  destruct (match_bucket _) as [[latency rest]|]; [|by intros [= <-]].
  intros (l & _ & [= <-])%outcome_bind_ok. split; [done|]. by apply set_buckets_NoDup.
Qed.

(** The row of a column, in terms of the buckets of its samples. *)
Definition accounts (buckets : list (Z * Z)) (c : context) : Prop :=
  ∃ total,
    dget "count" (counters c) = Some total ∧ Zsum buckets.*2 = histogram_count c ∧
    histogram_count c + over c = total ∧
    is_quantile buckets total (f_dec 50 (-2)) (p50_us c) ∧
    is_quantile buckets total (f_dec 99 (-2)) (p99_us c) ∧
    is_quantile buckets total (f_dec 999 (-3)) (p999_us c) ∧
    is_quantile buckets total (f_dec 9999 (-4)) (p9999_us c).

Lemma make_context_spec v column p :
  well_formed v → missing_keys v = [] → column ∈ columns v → make_context v column = Ok p →
  p.1 = column ∧ over p.2 = default 0 (dget column (overflow v)) ∧
  counters p.2 = default [] (dget column (summary v)) ∧
  accounts (default [] (dget column (histograms v))) p.2 ∧
  Forall (λ key, is_Some (dget key (counters p.2))) _SUMMARY_KEYS.
Proof.
  intros [_ Hb] Hm Hc. unfold make_context.
  set (buckets := default [] (dget column (histograms v))).
  set (counters_ := default [] (dget column (summary v))).
  assert (Forall (λ key, is_Some (dget key counters_)) _SUMMARY_KEYS) as Hkeys.
  { apply Forall_forall. intros key Hkey. destruct (dget key counters_) eqn:Hk; [eauto|]. exfalso.
    assert (column +:+ ":" +:+ key ∈ missing_keys v) as Hin.
    { apply list_elem_of_bind. exists column. split; [|done].
      apply (list_elem_of_fmap_2 (λ key, column +:+ ":" +:+ key)), list_elem_of_filter. done. }
    rewrite Hm in Hin. by apply not_elem_of_nil in Hin. }
  assert (is_Some (dget "count" counters_)) as [total Ht] by (apply Forall_cons in Hkeys as [? _]; done).
  rewrite Ht. simpl. destruct (negb _) eqn:Hsum; [done|].
  apply negb_false_iff, bool_decide_eq_true_1 in Hsum.
  assert (NoDup buckets.*1) as Hn by by apply bucket_NoDup.
  intros (p50 & H50 & (p99 & H99 & (p999 & H999 & (p9999 & H9999 & [= <-])%outcome_bind_ok)%outcome_bind_ok)%outcome_bind_ok)%outcome_bind_ok.
  split_and!; [done|done|done| |done]. exists total. simpl.
  split_and!; try done; by apply nearest_rank_spec.
Qed.

Definition sample_histogram : string := py_join nl
  ["# RTLA timerlat histogram"; "Index   IRQ-000   Thr-000"; "0        3        0"; "1        0        2";
   "5        1        1"; "over:    0        1"; "count:   4        4"; "min:     0        1";
   "avg:     1        3"; "max:     5       40"].
