(* ===== verification/TimerlatTable.v ===== *)
(** * The histogram of a text, row by row

    What the table of [rtla timerlat hist] says, read off the words of its lines
    below the last header, and that the parser reports exactly that: the
    buckets, the counters and the overflow of every column. *)
From Stdlib Require Import Ascii ZArith Lia.
From S2P Require Import Prelude PyStr PyFloat PyVal Lifecycle Timerlat.
From stdpp Require Import base gmap strings list sorting.
Local Open Scope Z_scope.

(** ** The table of a text *)

(** The lines below the last header, stripped, and the columns that header
    names. *)
Definition table (text : string) (columns lines : list string) : Prop :=
  ∃ above header,
    map py_strip (py_splitlines text) = above ++ header :: lines ∧
    py_startswith "Index " header = true ∧
    Forall (λ line, py_startswith "Index " line = false) lines ∧ columns = tail (py_words header).

(** The number a word writes. *)
Definition number_or_0 (word : string) : Z := match py_int (VStr word) with Ok n => n | Raise _ => 0 end.
(** The cells of a line whose first word is labelled [label], by column, and
    those of a column, line by line. *)
Definition cells (label : string → bool) (columns : list string) (line : string) : list (string * Z) :=
  match py_words line with
  | w :: ws => if label w then zip columns (map number_or_0 ws) else []
  | [] => []
  end.
Definition column_cells (label : string → bool) (columns lines : list string) (column : string) : list Z :=
  (filter (λ p, p.1 = column) (lines ≫= cells label columns)).*2.

(** The rows of a latency, of a counter and of the overflow. *)
Definition latency_row (latency_us : Z) (w : string) : bool :=
  py_isdigit w && bool_decide (int_of_string w = Some latency_us).
Definition counter_row (key w : string) : bool := bool_decide (w = key +:+ ":").
Definition over_row (w : string) : bool := bool_decide (w = "over:").

(** What the table says of a column: the last count that is not zero of a
    latency, the last value of a counter, the last overflow. *)
Definition said_count (columns lines : list string) (column : string) (latency_us : Z) : option Z :=
  last (filter (λ n, n ≠ 0) (column_cells (latency_row latency_us) columns lines column)).
Definition said_counter (columns lines : list string) (column key : string) : option Z :=
  last (column_cells (counter_row key) columns lines column).
Definition said_over (columns lines : list string) (column : string) : Z :=
  default 0 (last (column_cells over_row columns lines column)).

(** ** Words and matches *)

Lemma py_words_split w rest :
  is_word w = true → rest = "" ∨ starts_with_space rest = true → py_words (w +:+ rest) = w :: py_words rest.
Proof.
  unfold is_word. intros [Hne%negb_true_iff%bool_decide_eq_false Hw]%andb_true_iff Hr.
  unfold py_words at 1. rewrite py_words_go_app by done. destruct rest as [|a t].
  - cbn. by rewrite bool_decide_false.
  - destruct Hr as [|Ha]; [done|]. simpl in Ha. change ("" +:+ w) with w.
    rewrite py_words_go_space by done. unfold py_words. cbn. by rewrite Ha.
Qed.
Lemma first_word line :
  line ≠ "" → starts_with_space line = false →
  ∃ w rest, line = w +:+ rest ∧ is_word w = true ∧ (rest = "" ∨ starts_with_space rest = true).
Proof.
  induction line as [|a line IH]; [done|]. intros _ Ha. simpl in Ha.
  destruct (decide (line = "")) as [->|Hne]; [|destruct (starts_with_space line) eqn:Hs].
  - exists (String a ""), "". split_and!; [done| |by left]. unfold is_word, no_space. simpl. by rewrite Ha.
  - exists (String a ""), line. split_and!; [done| |by right]. unfold is_word, no_space. simpl. by rewrite Ha.
  - destruct (IH Hne eq_refl) as (w & rest & -> & [_ Hw]%andb_true_iff & Hr).
    exists (String a w), rest. split_and!; [done| |done]. unfold is_word, no_space in *. simpl. by rewrite Ha, Hw.
Qed.
Lemma rstrip_start p s a t : rstrip_by p s = String a t → ∃ s', s = String a s'.
Proof. destruct s as [|b s]; simpl; [done|]. destruct (rstrip_by p s); [destruct (p b)|]; intros [= -> _]; eauto. Qed.
Lemma lstrip_start p s a t : lstrip_by p s = String a t → p a = false.
Proof. induction s as [|b s IH]; simpl; [done|]. destruct (p b) eqn:Hb; [done|]. by intros [= -> _]. Qed.
Lemma strip_start s : starts_with_space (py_strip s) = false.
Proof.
  unfold py_strip. destruct (rstrip_by _ _) as [|a t] eqn:Hr; [done|]. simpl.
  apply rstrip_start in Hr as [s' Hs']. by eapply lstrip_start.
Qed.

(** A prefix without spaces that a space follows is the first word. *)
Lemma string_app_split (u v w rest : string) :
  no_space u = true → no_space w = true →
  starts_with_space v = true → rest = "" ∨ starts_with_space rest = true →
  u +:+ v = w +:+ rest → u = w ∧ v = rest.
Proof.
  unfold no_space. revert w. induction u as [|a u IH]; intros [|b w] Hu Hw Hv Hr Heq.
  - done.
  - rewrite string_app_cons in Heq. change ("" +:+ v) with v in Heq. subst v. simpl in Hv, Hw. by rewrite Hv in Hw.
  - rewrite string_app_cons in Heq. change ("" +:+ rest) with rest in Heq. subst rest.
    destruct Hr as [|Hr]; [done|]. simpl in Hr, Hu. by rewrite Hr in Hu.
  - rewrite !string_app_cons in Heq. injection Heq as -> Heq. simpl in Hu, Hw.
    apply andb_true_iff in Hu as [_ Hu], Hw as [_ Hw]. destruct (IH w Hu Hw Hv Hr Heq) as [-> ->]. done.
Qed.
Lemma match_key_word key w rest :
  no_space (key +:+ ":") = true → is_word w = true → rest = "" ∨ starts_with_space rest = true →
  match_key key (w +:+ rest) =
  if bool_decide (w = key +:+ ":") && starts_with_space rest then Some rest else None.
Proof.
  intros Hkey [_ Hw]%andb_true_iff Hr. unfold match_key.
  assert (String.length key + 1 = String.length (key +:+ ":"))%nat as ->.
  { clear. induction key as [|a key IH]; [done|]. rewrite string_app_cons. simpl. by rewrite <- IH. }
  case_bool_decide as Heq; simpl.
  - subst w. by rewrite py_startswith_app, py_drop_app.
  - destruct (py_startswith _ _) eqn:Hp; [|done]. apply py_startswith_inv in Hp.
    set (v := py_drop _ _) in *. destruct (starts_with_space v) eqn:Hv; [|done]. exfalso. apply Heq.
    symmetry in Hp. by destruct (string_app_split _ _ _ _ Hkey Hw Hv Hr Hp).
Qed.
Lemma span_digits_app s : let '(d, r) := span_digits s in
  s = d +:+ r ∧ string_forall py_isdigit_char d = true ∧
  (∀ a t, r = String a t → py_isdigit_char a = false).
Proof.
  induction s as [|a s IH]; simpl; [done|]. destruct (py_isdigit_char a) eqn:Ha.
  - destruct (span_digits s) as [d r]. destruct IH as (-> & Hd & Hr). simpl. by rewrite Ha.
  - split_and!; [done|done|]. by intros b t [= <- _].
Qed.
Lemma digits_no_space d : string_forall py_isdigit_char d = true → no_space d = true.
Proof. apply string_forall_weaken. apply digit_not_space. Qed.
Lemma match_bucket_word w rest :
  is_word w = true → rest = "" ∨ starts_with_space rest = true →
  match_bucket (w +:+ rest) =
  if py_isdigit w && starts_with_space rest then (λ n, (n, rest)) <$> int_of_string w else None.
Proof.
  intros Hword Hr. assert (Hword' := Hword). apply andb_true_iff in Hword' as [Hne%negb_true_iff Hw].
  unfold match_bucket. pose proof (span_digits_app (w +:+ rest)) as Hs.
  destruct (span_digits (w +:+ rest)) as [d r]. destruct Hs as (Heq & Hd & Hstop).
  destruct (bool_decide (d = "") || negb (starts_with_space r)) eqn:Hc.
  - destruct (py_isdigit w && starts_with_space rest) eqn:Hw2; [|done]. exfalso.
    apply andb_true_iff in Hw2 as [Hdig Hsp]. apply andb_true_iff in Hdig as [_ Hdig].
    assert (w = d ∧ rest = r) as [<- <-].
    { clear -Hdig Hsp Heq Hd Hstop. revert d Heq Hd.
      induction w as [|a w IH]; intros [|b d] Heq Hd; rewrite ?string_app_cons in Heq.
      - done.
      - change ("" +:+ rest) with rest in Heq. subst rest. simpl in Hd, Hsp. apply andb_true_iff in Hd as [Hb _].
        apply digit_not_space in Hb. by rewrite Hsp in Hb.
      - change ("" +:+ r) with r in Heq. symmetry in Heq. apply Hstop in Heq. simpl in Hdig. by rewrite Heq in Hdig.
      - injection Heq as -> Heq. simpl in Hdig, Hd. apply andb_true_iff in Hdig as [_ Hdig], Hd as [_ Hd].
        by destruct (IH Hdig d Heq Hd) as [-> ->]. }
    rewrite Hsp, Hne in Hc. done.
  - apply orb_false_iff in Hc as [Hdne Hsp%negb_false_iff].
    destruct (string_app_split d r w rest (digits_no_space d Hd) Hw Hsp Hr (eq_sym Heq)) as [-> ->].
    unfold py_isdigit. by rewrite Hdne, Hd, Hsp.
Qed.

(** ** Dictionaries that the last value wins *)

(** The values of a column in a row. *)
Definition of_column {A} (c : string) (l : list (string * A)) : list A := (filter (λ p, p.1 = c) l).*2.
Lemma of_column_cons {A} c (p : string * A) l :
  of_column c (p :: l) = if bool_decide (p.1 = c) then p.2 :: of_column c l else of_column c l.
Proof. unfold of_column. rewrite filter_cons. by case_decide; case_bool_decide. Qed.
Lemma column_cells_app label columns lines line c :
  column_cells label columns (lines ++ [line]) c =
  column_cells label columns lines c ++ of_column c (cells label columns line).
Proof. unfold column_cells, of_column. rewrite bind_app, filter_app, fmap_app. simpl. by rewrite app_nil_r. Qed.

Definition or_else {A} (o o' : option A) : option A := match o with Some x => Some x | None => o' end.
Lemma last_or_else {A} (l l' : list A) : last (l ++ l') = or_else (last l') (last l).
Proof. rewrite last_app. by destruct (last l'). Qed.
Lemma or_else_cons {A} (x : A) l o : or_else (last (x :: l)) o = or_else (last l) (Some x).
Proof. rewrite last_cons. by destruct (last l). Qed.

Lemma dget_dict_of {A} (l : list (string * A)) c : dget c (dict_of l) = last (of_column c l).
Proof.
  unfold dict_of, dupdate. transitivity (or_else (last (of_column c l)) (dget (A := A) c [])).
  2:{ by destruct (last _). }
  generalize (@nil (string * A)). induction l as [|[k x] l IH]; intros d; [done|].
  cbn [foldl fst snd]. rewrite IH, of_column_cons, dget_dset. cbn [fst snd].
  case_bool_decide; case_decide; try congruence. by rewrite or_else_cons.
Qed.
Lemma dget_set_summary key l s c key' :
  dget key' (default [] (dget c (set_summary key l s))) =
  if bool_decide (key' = key) then or_else (last (of_column c l)) (dget key' (default [] (dget c s)))
  else dget key' (default [] (dget c s)).
Proof.
  unfold set_summary. revert s. induction l as [|[k x] l IH]; intros s; cbn [foldl fst snd].
  { by case_bool_decide. }
  rewrite IH, of_column_cons, dget_dset. cbn [fst snd].
  case_bool_decide as Hk; case_decide as Hc; repeat case_bool_decide; subst; try congruence; simpl; try done.
  - by rewrite or_else_cons, dget_dset, decide_True.
  - by rewrite dget_dset, decide_False.
Qed.
Lemma zget_set_buckets latency l h c t :
  zget t (default [] (dget c (set_buckets latency l h))) =
  if bool_decide (t = latency)
  then or_else (last (filter (λ n, n ≠ 0) (of_column c l))) (zget t (default [] (dget c h)))
  else zget t (default [] (dget c h)).
Proof.
  unfold set_buckets. revert h. induction l as [|[k n] l IH]; intros h; cbn [foldl fst snd].
  { by case_bool_decide. }
  rewrite IH, of_column_cons. cbn [fst snd].
  destruct (bool_decide (n = 0)) eqn:Hn; [apply bool_decide_eq_true in Hn|apply bool_decide_eq_false in Hn].
  { case_bool_decide; [|done]. case_bool_decide; [|done]. by rewrite filter_cons_False by (intros []; done). }
  rewrite dget_dset. case_bool_decide as Ht; case_decide as Hc; repeat case_bool_decide; subst; try congruence; simpl; try done.
  - rewrite filter_cons_True, or_else_cons, zget_zset by done. by rewrite bool_decide_true.
  - rewrite zget_zset. by rewrite bool_decide_false.
Qed.

(** ** The parser keeps what the table says *)

(** After the lines [lines] below a header of [cols]. *)
Definition agrees (cols lines : list string) (v : parse_vars) : Prop :=
  columns v = cols ∧
  (∀ c t, zget t (default [] (dget c (histograms v))) = said_count cols lines c t) ∧
  (∀ c key, key ∈ _SUMMARY_KEYS → dget key (default [] (dget c (summary v))) = said_counter cols lines c key) ∧
  (∀ c, default 0 (dget c (overflow v)) = said_over cols lines c).

Definition nothing_said (cols : list string) (line : string) : Prop :=
  (∀ t, cells (latency_row t) cols line = []) ∧
  (∀ key, key ∈ _SUMMARY_KEYS → cells (counter_row key) cols line = []) ∧ cells over_row cols line = [].
Lemma agrees_nothing cols lines line v :
  agrees cols lines v → nothing_said cols line → agrees cols (lines ++ [line]) v.
Proof.
  intros (Hc & Hh & Hs & Ho) (Nh & Ns & No). split_and!; [done|intros c t|intros c key Hk|intros c].
  - unfold said_count. rewrite column_cells_app, Nh. unfold of_column. simpl. rewrite app_nil_r. apply Hh.
  - unfold said_counter. rewrite column_cells_app, Ns by done. unfold of_column. simpl. rewrite app_nil_r. by apply Hs.
  - unfold said_over. rewrite column_cells_app, No. unfold of_column. simpl. rewrite app_nil_r. apply Ho.
Qed.
Lemma agrees_header cols v :
  columns v = cols → histograms v = dict_of (map (λ c, (c, [])) cols) →
  summary v = dict_of (map (λ c, (c, [])) cols) → overflow v = dict_of (map (λ c, (c, 0)) cols) →
  agrees cols [] v.
Proof.
  assert (∀ {A} (x : A) c, dget c (dict_of (map (λ c, (c, x)) cols)) = Some x ∨
                           dget c (dict_of (map (λ c, (c, x)) cols)) = None) as Hget.
  { intros A x c. rewrite dget_dict_of. destruct (last _) as [y|] eqn:Hl; [left|by right].
    apply last_Some_elem_of, list_elem_of_fmap in Hl as ([c' y'] & -> & Hin).
    apply list_elem_of_filter in Hin as [_ Hin]. by apply list_elem_of_fmap in Hin as (c0 & [= -> ->] & _). }
  intros Hc Hh Hs Ho. unfold agrees. rewrite Hh, Hs, Ho. split_and!; [done|intros c t|intros c key _|intros c].
  - by destruct (Hget _ ([] : list (Z * Z)) c) as [-> | ->].
  - by destruct (Hget _ ([] : list (string * Z)) c) as [-> | ->].
  - by destruct (Hget _ 0 c) as [-> | ->].
Qed.

Lemma row_values_cells cols message rest l :
  row_values cols message rest = Ok l → l = zip cols (map number_or_0 (py_words rest)).
Proof.
  unfold row_values, _integers. intros (values & Hv & Heq)%outcome_bind_ok.
  case_bool_decide; [|done]. injection Heq as <-. f_equal. apply traverse_ok in Hv. clear H.
  induction Hv as [|w n ws ns Hw _ IH]; [done|]. simpl. unfold number_or_0 at 1. by rewrite Hw, IH.
Qed.

Section row.
Context (cols : list string) (w rest : string) (w_word : is_word w = true)
  (rest_ok : starts_with_space rest = true).
Abbreviation row := (zip cols (map number_or_0 (py_words rest))).
Lemma row_cells label : cells label cols (w +:+ rest) = if label w then row else [].
Proof. unfold cells. rewrite py_words_split by auto. done. Qed.
Lemma row_summary :
  match match_summary (w +:+ rest) with
  | Some (key, r) => key ∈ _SUMMARY_KEYS ∧ w = key +:+ ":" ∧ r = rest
  | None => ∀ key, key ∈ _SUMMARY_KEYS → w ≠ key +:+ ":"
  end.
Proof.
  unfold match_summary, _SUMMARY_KEYS. simpl omap.
  rewrite !match_key_word by (done || auto). rewrite rest_ok, !andb_true_r.
  repeat (case_bool_decide; simpl; [split_and!; [set_solver|done|done]|]).
  intros key Hk. repeat (apply elem_of_cons in Hk as [->|Hk]; [done|]). by apply elem_of_nil in Hk.
Qed.
Lemma row_over : match_key "over" (w +:+ rest) = if bool_decide (w = "over:") then Some rest else None.
Proof. rewrite match_key_word by (done || auto). by rewrite rest_ok, andb_true_r. Qed.
Lemma row_bucket :
  match_bucket (w +:+ rest) = if py_isdigit w then (λ n, (n, rest)) <$> int_of_string w else None.
Proof. rewrite match_bucket_word by auto. by rewrite rest_ok, andb_true_r. Qed.
End row.

Lemma counter_row_inj key key' :
  key' ∈ _SUMMARY_KEYS → key ∈ _SUMMARY_KEYS → counter_row key' (key +:+ ":") = bool_decide (key' = key).
Proof.
  intros H1 H2. repeat (apply elem_of_cons in H1 as [->|H1]; [|]); [..|by apply elem_of_nil in H1].
  all: repeat (apply elem_of_cons in H2 as [->|H2]; [done|]); by apply elem_of_nil in H2.
Qed.
Lemma counter_not_digits key t : latency_row t (key +:+ ":") = false.
Proof.
  unfold latency_row, py_isdigit. rewrite string_forall_app. simpl. by rewrite !andb_false_r.
Qed.
Lemma counter_not_over key : key ∈ _SUMMARY_KEYS → over_row (key +:+ ":") = false.
Proof. intros H. repeat (apply elem_of_cons in H as [->|H]; [done|]). by apply elem_of_nil in H. Qed.

(** A row of the table. *)
Lemma agrees_counter cols lines w rest v key l :
  is_word w = true → starts_with_space rest = true → agrees cols lines v →
  key ∈ _SUMMARY_KEYS → w = key +:+ ":" → l = zip cols (map number_or_0 (py_words rest)) →
  agrees cols (lines ++ [w +:+ rest])
    {| columns := columns v; histograms := histograms v; summary := set_summary key l (summary v);
       overflow := overflow v |}.
Proof.
  intros Hw Hr (Hc & Hh & Hs & Ho) Hk Heq ->. split_and!; simpl; [done|intros c t|intros c key' Hk'|intros c].
  - unfold said_count. rewrite column_cells_app, row_cells, Heq, counter_not_digits by (congruence || done).
    rewrite app_nil_r. apply Hh.
  - unfold said_counter. rewrite column_cells_app, row_cells, Heq, counter_row_inj by (congruence || done).
    rewrite dget_set_summary. case_bool_decide; [|by rewrite app_nil_r, Hs].
    subst key'. by rewrite last_or_else, Hs.
  - unfold said_over. rewrite column_cells_app, row_cells, Heq, counter_not_over by (congruence || done).
    rewrite app_nil_r. apply Ho.
Qed.
Lemma column_cells_other label cols lines c : c ∉ cols → column_cells label cols lines c = [].
Proof.
  intros Hc. unfold column_cells. destruct (filter _ _) as [|[k n] l] eqn:Hf; [done|]. exfalso.
  assert ((k, n) ∈ filter (λ p : string * Z, p.1 = c) (lines ≫= cells label cols)) as Hin by (rewrite Hf; by left).
  apply list_elem_of_filter in Hin as [<- Hin]. apply list_elem_of_bind in Hin as (line & Hin & _).
  unfold cells in Hin. destruct (py_words line) as [|w ws]; [by apply elem_of_nil in Hin|].
  destruct (label w); [|by apply elem_of_nil in Hin]. apply Hc, (elem_of_zip_l _ _ _ _ Hin).
Qed.
Lemma of_column_none {A} c (l : list (string * A)) : last (of_column c l) = None → c ∉ dkeys l.
Proof.
  intros Hl%last_None Hc. apply list_elem_of_fmap in Hc as ([k x] & -> & Hin).
  assert (x ∈ of_column k l) as Hx.
  { apply list_elem_of_fmap. exists (k, x). split; [done|]. by apply list_elem_of_filter. }
  simpl in *. rewrite Hl in Hx. by apply elem_of_nil in Hx.
Qed.
Lemma agrees_over cols lines rest v l :
  starts_with_space rest = true → agrees cols lines v →
  dkeys l = cols → l = zip cols (map number_or_0 (py_words rest)) →
  agrees cols (lines ++ ["over:" +:+ rest])
    {| columns := columns v; histograms := histograms v; summary := summary v; overflow := dict_of l |}.
Proof.
  intros Hr (Hc & Hh & Hs & Ho) Hkeys Hl. split_and!; simpl; [done|intros c t|intros c key Hk|intros c].
  - unfold said_count. rewrite column_cells_app, row_cells by done. rewrite app_nil_r. apply Hh.
  - unfold said_counter. rewrite column_cells_app, row_cells by done.
    assert (counter_row key "over:" = false) as ->.
    { repeat (apply elem_of_cons in Hk as [->|Hk]; [done|]). by apply elem_of_nil in Hk. }
    rewrite app_nil_r. by apply Hs.
  - unfold said_over. rewrite column_cells_app, row_cells by done.
    change (over_row "over:") with true. cbv iota. rewrite <- Hl, dget_dict_of, last_or_else.
    destruct (last (of_column c l)) as [n|] eqn:Hn; [done|].
    apply of_column_none in Hn. rewrite Hkeys in Hn. by rewrite column_cells_other.
Qed.
Lemma agrees_bucket cols lines w rest v n l :
  is_word w = true → starts_with_space rest = true → agrees cols lines v →
  py_isdigit w = true → int_of_string w = Some n →
  (∀ key, key ∈ _SUMMARY_KEYS → w ≠ key +:+ ":") → w ≠ "over:" →
  l = zip cols (map number_or_0 (py_words rest)) →
  agrees cols (lines ++ [w +:+ rest])
    {| columns := columns v; histograms := set_buckets n l (histograms v); summary := summary v;
       overflow := overflow v |}.
Proof.
  intros Hw Hr (Hc & Hh & Hs & Ho) Hd Hn Hk Hov ->. split_and!; simpl; [done|intros c t|intros c key Hkey|intros c].
  - unfold said_count. rewrite column_cells_app, row_cells by done. unfold latency_row. rewrite Hd, Hn.
    rewrite zget_set_buckets. simpl. case_bool_decide as Ht.
    + subst t. rewrite bool_decide_true by done. by rewrite filter_app, last_or_else, Hh.
    + rewrite bool_decide_false by congruence. rewrite app_nil_r. apply Hh.
  - unfold said_counter. rewrite column_cells_app, row_cells by done. unfold counter_row.
    rewrite bool_decide_false by auto. rewrite app_nil_r. by apply Hs.
  - unfold said_over. rewrite column_cells_app, row_cells by done. unfold over_row.
    rewrite bool_decide_false by done. rewrite app_nil_r. apply Ho.
Qed.

Lemma nothing_no_words cols line : (∀ label, cells label cols line = []) → nothing_said cols line.
Proof. by intros H. Qed.
Lemma cells_no_columns label line : cells label [] line = [].
Proof. unfold cells. destruct (py_words line); [done|]. by case_match. Qed.

(** One line below the header. *)
Lemma parse_line_agrees cols lines raw v v' :
  agrees cols lines v → py_startswith "Index " (py_strip raw) = false → parse_line v raw = Ok v' →
  agrees cols (lines ++ [py_strip raw]) v'.
Proof.
  intros Hv Hno. pose proof (strip_start raw) as Hstart. unfold parse_line. rewrite Hno.
  assert (columns v = cols) as <- by apply Hv.
  destruct (decide (py_strip raw = "")) as [Hempty|Hne].
  { rewrite Hempty. simpl. intros [= <-]. by apply agrees_nothing. }
  destruct (first_word _ Hne Hstart) as (w & rest & Heq & Hw & Hrest). rewrite Heq in *.
  rewrite (bool_decide_false _ Hne). simpl "||".
  destruct (py_startswith "#" (w +:+ rest)) eqn:Hhash.
  { intros [= <-]. apply agrees_nothing; [done|]. destruct w as [|a w]; [done|].
    apply py_startswith_inv in Hhash. injection Hhash as ->.
    assert (py_words (String "#" w +:+ rest) = String "#" w :: py_words rest) as Hwords by by apply py_words_split.
    unfold nothing_said, cells. rewrite Hwords. split_and!; [done| |done].
    intros key Hk. repeat (apply elem_of_cons in Hk as [->|Hk]; [done|]). by apply elem_of_nil in Hk. }
  destruct (bool_decide (columns v = [])) eqn:Hnil.
  { apply bool_decide_eq_true in Hnil. intros [= <-].
    rewrite Hnil in *. apply agrees_nothing, nothing_no_words; [done|]. intros. apply cells_no_columns. }
  destruct (starts_with_space rest) eqn:Hsp.
  2:{ destruct Hrest as [->|]; [|done]. unfold match_summary, _SUMMARY_KEYS. simpl omap.
      rewrite !match_key_word, match_bucket_word by (done || by left). rewrite !andb_false_r. intros [= <-].
      apply agrees_nothing, nothing_no_words; [done|]. intros label. unfold cells.
      rewrite py_words_split by (done || by left). destruct (label w); [|done]. simpl. by destruct (columns v). }
  pose proof (row_summary w rest Hw Hsp) as Hsum. rewrite (row_over w rest Hw Hsp), (row_bucket w rest Hw Hsp).
  destruct (match_summary (w +:+ rest)) as [[key r]|].
  { destruct Hsum as (Hk & Hwk & ->). intros (l & Hl%row_values_cells & [= <-])%outcome_bind_ok.
    by apply agrees_counter. }
  destruct (decide (w = "over:")) as [Hov|Hov].
  { rewrite bool_decide_true by done. subst w. intros (l & Hl & [= <-])%outcome_bind_ok.
    apply agrees_over; [done|done|by eapply row_values_keys|by eapply row_values_cells]. }
  rewrite bool_decide_false by done. destruct (py_isdigit w) eqn:Hd.
  2:{ intros [= <-]. apply agrees_nothing; [done|]. unfold nothing_said. setoid_rewrite row_cells; [|done..].
      unfold latency_row, counter_row, over_row. rewrite Hd, (bool_decide_false _ Hov). split_and!; [done| |done].
      intros key Hk. by rewrite bool_decide_false by auto. }
  destruct (int_of_string w) as [n|] eqn:Hn; simpl.
  - intros (l & Hl%row_values_cells & [= <-])%outcome_bind_ok. by eapply agrees_bucket.
  - intros [= <-]. apply agrees_nothing; [done|]. unfold nothing_said. setoid_rewrite row_cells; [|done..].
    unfold latency_row, counter_row, over_row. rewrite Hd, Hn, (bool_decide_false _ Hov).
    split_and!; [done| |done]. intros key Hk. by rewrite bool_decide_false by auto.
Qed.

(** All lines: those below the last header agree. *)
Definition parsed_lines (raws : list string) (v : parse_vars) : Prop :=
  columns v = [] ∨
  ∃ above header lines,
    map py_strip raws = above ++ header :: lines ∧ py_startswith "Index " header = true ∧
    Forall (λ line, py_startswith "Index " line = false) lines ∧
    columns v = tail (py_words header) ∧ agrees (columns v) lines v.
Lemma index_not_blank s :
  py_startswith "Index " s = true → bool_decide (s = "") || py_startswith "#" s = false.
Proof. intros H%py_startswith_inv. by rewrite H. Qed.
Lemma parse_lines_step done_ raw v v' :
  parsed_lines done_ v → parse_line v raw = Ok v' → parsed_lines (done_ ++ [raw]) v'.
Proof.
  intros Hd Hline. unfold parsed_lines. rewrite map_app.
  destruct (py_startswith "Index " (py_strip raw)) eqn:Hi.
  { unfold parse_line in Hline. rewrite (index_not_blank _ Hi), Hi in Hline. injection Hline as <-.
    right. exists (map py_strip done_), (py_strip raw), []. split_and!; try done. by apply agrees_header. }
  destruct Hd as [Hnil|(above & header & lines & Hlines & Hh & Hno & Hc & Ha)].
  - left. revert Hline. unfold parse_line. rewrite Hi, Hnil.
    destruct (_ || _); [by intros [= <-]|]. by intros [= <-].
  - assert (columns v' = columns v) as Hcols by apply (parse_line_agrees _ _ _ _ _ Ha Hi Hline).
    right. exists above, header, (lines ++ [py_strip raw]). rewrite Hlines, <- app_assoc, Hcols.
    split_and!; [done|done| |done|by eapply parse_line_agrees]. by apply Forall_app_2; [|constructor].
Qed.

(** ** The property *)

(** The row of a column accounts for what the table says of it: [buckets] holds
    its counts by latency. *)
Definition accounts_for (cols lines : list string) (column : string) (c : context) : Prop :=
  (∃ buckets, NoDup buckets.*1 ∧ (∀ t, zget t buckets = said_count cols lines column t) ∧ accounts buckets c) ∧
  (∀ key, key ∈ _SUMMARY_KEYS →
     is_Some (dget key (counters c)) ∧ dget key (counters c) = said_counter cols lines column key) ∧
  over c = said_over cols lines column.

(** C18: A parsed timer-latency histogram accounts for every sample of its
    text.  The columns are those of the last header of the text, and each has a
    context.  The samples of a column are exactly the counts that the rows below
    the header state under it, by the latency that starts the row; its four
    counters and its overflow are those stated there; its count is the sum of
    its samples and its overflow, none lost or counted twice; each reported
    quantile is the least latency at or below which the required number of
    these samples lies, or absent when they do not reach it; and the global
    overflow is the sum over the contexts. *)
Theorem histogram_accounts_for_samples text h :
  parse_timerlat_histogram text = Ok h →
  ∃ lines,
    table text (h_columns h) lines ∧ h_columns h ≠ [] ∧
    (∀ column, column ∈ h_columns h → is_Some (dget column (contexts h))) ∧
    Forall (λ p, accounts_for (h_columns h) lines p.1 p.2) (contexts h) ∧
    overflow_samples h = Zsum (map over (contexts h).*2).
Proof.
  unfold parse_timerlat_histogram. intros (v & Hf & Heq)%outcome_bind_ok.
  assert (well_formed v ∧ parsed_lines (py_splitlines text) v) as [Hv Hp].
  { apply (fold_outcome_inv _ (λ d v, well_formed v ∧ parsed_lines d v) _ _ _) in Hf; [done| |].
    - split; [by repeat constructor|by left].
    - intros d x rest v1 v2 _ [H1 H2] Hx. by split; [eapply parse_line_well_formed|eapply parse_lines_step]. }
  case_bool_decide as Hne; [done|]. destruct (missing_keys v) as [|m ms] eqn:Hm; [|done].
  destruct Hp as [|(above & header & lines & Hlines & Hh & Hno & Hc & _ & Hcount & Hcounter & Hover')]; [done|].
  apply outcome_bind_ok in Heq as (rows & Hr & [= <-]). simpl. apply traverse_ok in Hr.
  assert (dkeys rows = columns v ∧ Forall (λ p, over p.2 = default 0 (dget p.1 (overflow v)) ∧
    accounts_for (columns v) lines p.1 p.2) rows) as [Hk Hall].
  { assert (∀ c, c ∈ columns v → c ∈ columns v) as Hsub by done. revert Hsub Hr.
    generalize (columns v) at 1 3 4. intros cs Hsub Hr. induction Hr as [|c p cs rows Hcp _ IH].
    { split; [done|apply Forall_nil_2]. }
    destruct IH as [IH1 IH2]; [intros; apply Hsub; by right|].
    destruct (make_context_spec _ _ _ Hv Hm (Hsub c ltac:(by left)) Hcp) as (Hp & Ho & Hcs & Ha & Hkeys).
    split; [by simpl; rewrite Hp, IH1|]. constructor; [|done]. rewrite Hp. split; [done|]. split_and!.
    - exists (default [] (dget c (histograms v))). split_and!; [apply bucket_NoDup, Hv|intros t; apply Hcount|done].
    - intros key Hkey. rewrite Forall_forall in Hkeys. split; [by apply Hkeys|]. rewrite Hcs. by apply Hcounter.
    - by rewrite Ho. }
  destruct Hv as [Hover _]. exists lines. split_and!; [|done|intros column Hcol|apply Forall_forall|].
  - by exists above, header.
  - apply dget_key, dkeys_dict_of. by rewrite Hk.
  - intros p [Hp|Hp]%elem_of_dupdate; [by apply not_elem_of_nil in Hp|].
    rewrite Forall_forall in Hall. by apply (Hall _ Hp).
  - symmetry. apply Zsum_dict.
    + apply NoDup_dupdate. constructor.
    + rewrite Hover. unfold keys_of, dict_of. apply dkeys_dupdate; [done|]. rewrite Hk.
      unfold dkeys. rewrite map_map. symmetry. apply map_id.
    + intros k c [Hp|Hp]%elem_of_dupdate; [by apply not_elem_of_nil in Hp|].
      rewrite Forall_forall in Hall. by destruct (Hall _ Hp).
Qed.

Lemma histogram_accounts_for_samples_witness :
  (λ h, (irq_max_us h, thread_max_us h, overflow_samples h,
         map (λ p, (p.1, p50_us p.2, p99_us p.2)) (contexts h))) <$>
    parse_timerlat_histogram sample_histogram =
    Ok (5, 40, 1, [("IRQ-000", Some 0, Some 5); ("Thr-000", Some 1, None)]) ∧
  (∀ h, parse_timerlat_histogram sample_histogram = Ok h →
     ∃ lines, table sample_histogram (h_columns h) lines ∧
       Forall (λ p, accounts_for (h_columns h) lines p.1 p.2) (contexts h)).
Proof.
  split; [by vm_compute|]. intros h Hh.
  destruct (histogram_accounts_for_samples _ _ Hh) as (lines & Ht & _ & _ & Hall & _).
  exists lines. exact (conj Ht Hall).
Defined.
