(* ===== verification/Recovery.v ===== *)
(** * Camera recovery ([recovery.py])

    [MultiCameraFullReset]: firmware reset, USB reset and re-enumeration of
    every camera of a failed run.  The callable that prepares the enumeration
    probe is an argument, with its exceptions.  The [while True] loop takes
    [fuel]; the termination property says how much is enough. *)
From Stdlib Require Import Ascii ZArith Lia Floats.SpecFloat.
From S2P Require Import Prelude PyStr PyFloat PyVal PyJson Effects Machine Clock.
From stdpp Require Import base gmap strings list.
Local Open Scope Z_scope.
Local Open Scope py_scope.
Local Open Scope M_scope.

Record CameraRecoveryConfig (W T : Type) := {
  repo_root : string;
  reset_probe : string;
  use_sudo : bool;
  reset_timeout_ms : Z;
  enumeration_timeout_seconds : f64;
  prepare_enumeration_probe : option (M (T * world W) unit);
}.
Arguments repo_root {_ _} _.
Arguments reset_probe {_ _} _.
Arguments use_sudo {_ _} _.
Arguments reset_timeout_ms {_ _} _.
Arguments enumeration_timeout_seconds {_ _} _.
Arguments prepare_enumeration_probe {_ _} _.

(** [f"{type(error).__name__}: {error}"]. *)
Definition error_text (error : exn) : string := exn_name (exn_type error) +:+ ": " +:+ exn_msg error.
Definition is_TimeoutExpired : exn → bool := is_class TimeoutExpired.

(** The first requested reset names the port. *)
Fixpoint _physical_port_from_lines (lines : list string) : outcome string :=
  match lines with
  | [] => Ok ""
  | line :: lines =>
      let prefix := "RS_HARDWARE_RESET " in
      if negb (py_startswith prefix line) then _physical_port_from_lines lines else
      match json_loads (py_drop (String.length prefix) line) with
      | Raise _ => _physical_port_from_lines lines
      | Ok value =>
          payload ← as_dict value;
          if py_eq (dgetd "state" VNone payload) (VStr "requested")
          then Ok (str_val (dgetd "physical_port" (VStr "") payload))
          else _physical_port_from_lines lines
      end
  end.
Definition _physical_port_from_reset_output (output : string) : outcome string :=
  _physical_port_from_lines (py_splitlines output).

Section recovery.
Context {W : Type} `{OS W} {T : Type} (config : CameraRecoveryConfig W T) (fuel : nat).
Abbreviation IO := (M (T * world W)).

Definition validate_environment : IO unit :=
  found <- sys (Which "usbreset") ;;
  when (negb found) (throw RuntimeError "usbreset is required for full-reset recovery") ;;
  if use_sudo config then
    found <- sys (Which "sudo") ;;
    when (negb found) (throw RuntimeError "sudo is required for full-reset recovery")
  else ret ().

Definition privileged (command : list string) (preserve_library_path : bool) : list string :=
  if negb (use_sudo config) then command
  else ["sudo"; "--non-interactive"]
       ++ (if preserve_library_path then ["--preserve-env=LD_LIBRARY_PATH"] else []) ++ command.

(** The loop over the path and its parents. *)
Fixpoint first_usb_device (candidates : list string) : IO (option string) :=
  match candidates with
  | [] => ret None
  | candidate :: candidates =>
      bus <- sys (IsFile (candidate // "busnum")) ;;
      if negb bus then first_usb_device candidates else
      dev <- sys (IsFile (candidate // "devnum")) ;;
      if dev then ret (Some candidate) else first_usb_device candidates
  end.
Definition _usb_device_from_physical_port (physical_port : string) : IO (option string) :=
  if negb (py_startswith "/sys/" physical_port) then ret None else
  path <- sys (Resolve physical_port) ;;
  first_usb_device (path :: path_parents path).

Definition present_command (serial : string) : list string :=
  privileged [reset_probe config; "--device-present"; "--serial"; serial] true.
Definition _probe_can_find_serial (serial : string) (timeout_seconds : f64) : IO (bool * string) :=
  try_except is_TimeoutExpired
    (completed <- sys (RunCommand (present_command serial) None (Some timeout_seconds)) ;;
     ret (bool_decide (returncode completed = 0), py_strip (stdout completed +:+ stderr completed)))
    (λ _, ret (false, "device enumeration probe timed out")).

Definition firmware_command (serial : string) : list string :=
  privileged [reset_probe config; "--hardware-reset"; "--reset-timeout-ms";
              str_Z (reset_timeout_ms config); "--serial"; serial] true.
Definition command_value (command : list string) : pyval := VList (map VStr command).

(** [json.dumps] of the state in the probe's output. *)
Definition STATE_COMPLETE : string := json_string "state" +:+ ":" +:+ json_string "complete".

(** [try: ... except <caught> as error: result["error"] = ...]; [m] returns the
    updated result. *)
Definition guarded (caught : exn → bool) (result : pydict) (m : IO pydict) : IO pydict :=
  try_except caught m (λ error, ret (dset "error" (VStr (error_text error)) result)).

Definition run_errors (e : exn) : bool := is_OSError e || is_TimeoutExpired e.

Definition _firmware_reset (serial : string) : IO pydict :=
  let command := firmware_command serial in
  let result := [("command", command_value command); ("success", VBool false)] in
  guarded run_errors result
    (completed <- sys (RunCommand command None
       (Some (f_add (f_div_raw (f_of_Z (reset_timeout_ms config)) (f_of_Z 1000)) (f_of_Z 5)))) ;;
     let output := stdout completed +:+ stderr completed in
     port <- lift (_physical_port_from_reset_output output) ;;
     let success := bool_decide (returncode completed = 0) && py_contains STATE_COMPLETE output in
     let result := dupdate result
       [("returncode", VInt (returncode completed)); ("output", VStr (py_strip output));
        ("success", VBool success); ("reported_physical_port", VStr port)] in
     ret (if success then result
          else dset "error" (VStr "RealSense firmware hardware reset did not complete") result)).

Definition usb_errors (e : exn) : bool := is_OSError e || is_ValueError e || is_TimeoutExpired e.

(** The loop that waits until the camera is back: whether it was seen, and the
    last output of the probe. *)
Fixpoint await_camera (fuel : nat) (serial : string) (deadline : f64) (last_output : string) :
    IO (bool * string) :=
  match fuel with
  | O => throw OutOfFuel ""
  | S fuel =>
      now <- sys Monotonic ;;
      let remaining := f_sub deadline now in
      if f_le_Z remaining 0 then ret (false, last_output) else
      seen <- _probe_can_find_serial serial (f_max (f_dec 5 (-2)) (f_min (f_of_Z 5) remaining)) ;;
      if seen.1 then ret (true, seen.2) else
      now <- sys Monotonic ;;
      sys (Sleep (f_min (f_dec 25 (-2)) (f_max f_zero (f_sub deadline now)))) ;;
      await_camera fuel serial deadline seen.2
  end.

(** After the reset: prepare the probe and wait for the camera. *)
Definition await_enumeration (serial : string) (result : pydict) : IO pydict :=
  match prepare_enumeration_probe config with Some prepare => prepare | None => ret () end ;;
  now <- sys Monotonic ;;
  seen <- await_camera fuel serial (f_add now (enumeration_timeout_seconds config)) "" ;;
  let result := if (seen.1 : bool) then dset "success" (VBool true) result else result in
  let result := dset "enumeration_output" (VStr seen.2) result in
  ret (if seen.1 then result
       else dset "error" (VStr "camera did not reappear before recovery timeout") result).

(** [int((path).read_text().strip())]. *)
Definition read_number (path : string) : IO Z :=
  text <- sys (ReadText path) ;; lift (py_int (VStr (py_strip text))).

Definition usbreset_command (target : string) : list string := privileged ["usbreset"; target] false.

(** The run of [usbreset] and what follows it. *)
Definition reset_device (serial target : string) (result : pydict) : IO pydict :=
  completed <- sys (RunCommand (usbreset_command target) None (Some (f_of_Z 15))) ;;
  let result := dset "returncode" (VInt (returncode completed)) result in
  let result := dset "output" (VStr (py_strip (stdout completed +:+ stderr completed))) result in
  if negb (bool_decide (returncode completed = 0))
  then ret (dset "error" (VStr "usbreset failed") result)
  else guarded usb_errors result (await_enumeration serial result).

Definition _usb_reset (serial physical_port : string) : IO pydict :=
  let result := [("physical_port", VStr physical_port); ("success", VBool false)] in
  usb_device <- _usb_device_from_physical_port physical_port ;;
  match usb_device with
  | None =>
      ret (dset "error" (VStr "could not resolve the camera to a composite USB device") result)
  | Some usb_device =>
      guarded usb_errors result
        (bus <- read_number (usb_device // "busnum") ;;
         device_number <- read_number (usb_device // "devnum") ;;
         let target := pad_Z 3 bus +:+ "/" +:+ pad_Z 3 device_number in
         let result := dupdate result
           [("usb_device", VStr usb_device); ("target", VStr target);
            ("command", command_value (usbreset_command target))] in
         guarded usb_errors result (reset_device serial target result))
  end.

Definition item_error (item : pydict) : option string :=
  let e := dgetd "error" VNone item in if truthy e then Some (str_val e) else None.

Definition _recover_camera (camera : pydict) : IO pydict :=
  let serial := str_val (dgetd "serial" (VStr "") camera) in
  let physical_port := str_val (dgetd "physical_port" (VStr "") camera) in
  let result := [("serial", VStr serial); ("physical_port", VStr physical_port);
                 ("success", VBool false)] in
  if bool_decide (serial = "") then ret (dset "error" (VStr "camera serial is missing") result) else
  firmware <- _firmware_reset serial ;;
  let result := dset "hardware_reset" (VDict firmware) result in
  let '(physical_port, result) :=
    if bool_decide (physical_port = "") then
      let port := str_val (dgetd "reported_physical_port" (VStr "") firmware) in
      (port, dset "physical_port" (VStr port) result)
    else (physical_port, result) in
  usb <- _usb_reset serial physical_port ;;
  let result := dset "usb_reset" (VDict usb) result in
  let result := dset "success" (VBool (truthy (dgetd "success" (VBool false) firmware) &&
                                       truthy (dgetd "success" (VBool false) usb))) result in
  match omap item_error [firmware; usb] with
  | [] => ret result
  | errors => ret (dset "error" (VStr (py_join " | " errors)) result)
  end.

(** The cameras without repeated serials. *)
Fixpoint distinct_cameras (seen_serials : list string) (cameras : list pydict) : list pydict :=
  match cameras with
  | [] => []
  | camera :: cameras =>
      let serial := str_val (dgetd "serial" (VStr "") camera) in
      if negb (bool_decide (serial = "")) && bool_decide (serial ∈ seen_serials)
      then distinct_cameras seen_serials cameras
      else camera :: distinct_cameras
             (if bool_decide (serial = "") then seen_serials else serial :: seen_serials) cameras
  end.

Definition camera_error (camera : pydict) : option string :=
  (λ e, str_val (dgetd "serial" (VStr "unknown") camera) +:+ ": " +:+ e) <$> item_error camera.

Definition recovery_result (results : list pydict) (count : Z) : pydict :=
  let result := [("attempted", VBool true); ("method", VStr "full-reset"); ("success", VBool false);
                 ("camera_count", VInt count); ("cameras", VList (map VDict results))] in
  if bool_decide (count = 0)
  then dset "error" (VStr "failed run did not report any camera descriptors") result
  else
    let result := dset "success"
      (VBool (forallb (λ c, truthy (dgetd "success" (VBool false) c)) results)) result in
    match omap camera_error results with
    | [] => result
    | errors => dset "error" (VStr (py_join " | " errors)) result
    end.

Definition recover (cameras : list pydict) (record_dir : string) : IO pydict :=
  let descriptors := distinct_cameras [] cameras in
  results <- map_each descriptors _recover_camera ;;
  let result := recovery_result results (Z.of_nat (length descriptors)) in
  sys (Mkdir record_dir true) ;;
  sys (WriteJson (record_dir // "recovery.json") (VDict result)) ;;
  ret result.

Definition reset_before_run (cameras : list pydict) (record_dir : string) : IO pydict :=
  started <- sys Monotonic ;;
  result <- recover cameras (record_dir // "pre_run_reset") ;;
  now <- sys Monotonic ;;
  let result := dset "duration_ms" (VFloat (f_mul (f_sub now started) (f_of_Z 1000)))
                  (dset "operation" (VStr "pre-run-reset") result) in
  sys (WriteJson (record_dir // "pre_run_reset.json") (VDict result)) ;;
  if truthy (dgetd "success" (VBool false) result) then ret result
  else throw RuntimeError ("pre-run RealSense full reset failed: "
         +:+ str_val (dgetd "error" (VStr "unknown error") result)).
End recovery.
