(* ===== verification/RecoverySpec.v ===== *)
(** * Properties of the camera recovery

    A run that starts after a reset has evidence for every camera in the log
    of commands, and the waiting loop ends. *)
From Stdlib Require Import Ascii ZArith Lia Floats.SpecFloat.
From S2P Require Import Prelude PyStr PyFloat PyVal PyJson Effects Machine Clock Recovery.
From stdpp Require Import base gmap strings list.
Local Open Scope Z_scope.
Local Open Scope M_scope.

(** ** What a step adds to the log *)

Section logged.
Context {W S : Type}.
Implicit Types x y z : S * world W.

(** From [x] to [y] the entries [es] were logged, in order. *)
Definition logged x y (es : list entry) : Prop :=
  ∃ l, w_log y.2 = w_log x.2 ++ l ∧ es `sublist_of` l.
Definition grows : relation (S * world W) := λ x y, logged x y [].

Lemma logged_refl x : logged x x [].
Proof. exists []. by rewrite app_nil_r. Qed.
Lemma logged_app x y z es es' : logged x y es → logged y z es' → logged x z (es ++ es').
Proof.
  intros (l & Hl & Hs) (l' & Hl' & Hs'). exists (l ++ l'). split; [by rewrite Hl', Hl, app_assoc|].
  by apply sublist_app.
Qed.
#[export] Instance grows_preorder : PreOrder grows.
Proof. split; [exact logged_refl|]. intros x y z. apply (logged_app x y z [] []). Qed.
Lemma logged_before x y z es : grows x y → logged y z es → logged x z es.
Proof. apply (logged_app x y z []). Qed.
Lemma logged_after x y z es : logged x y es → grows y z → logged x z es.
Proof. intros H1 H2. rewrite <- (app_nil_r es). by eapply logged_app. Qed.

Lemma logged_grows x y es : logged x y es → grows x y.
Proof. intros (l & Hl & _). exists l. split; [done|apply sublist_nil_l]. Qed.

Context `{OS W}.
Lemma grows_sys {A} (c : syscall A) : within grows (sys (S := S) c).
Proof.
  intros [s w]. unfold sys, grows, logged. simpl. destruct (handle c (w_os w)) as [r o].
  exists (note c r). split; [done|apply sublist_nil_l].
Qed.
Lemma wp_run command input timeout x :
  wp (sys (RunCommand command input timeout))
     (λ c y, logged x y [ERun command input (Ok (returncode c))]) (λ _ y, grows x y) x.
Proof.
  destruct x as [s w]. apply wp_sys. intros r o _. destruct r as [c|e]; simpl.
  - exists [ERun command input (Ok (returncode c))]. done.
  - eexists. split; [reflexivity|apply sublist_nil_l].
Qed.
(** A step of which only the growth of the log matters. *)
Lemma wp_grows {A B} (m : M (S * world W) A) (k : A → M (S * world W) B) Q E x :
  within grows m → (∀ a y, grows x y → wp (k a) Q E y) → (∀ e y, E e y) → wp (bind m k) Q E x.
Proof.
  intros Hm Hk HE. apply wp_bind. eapply wp_within; [exact Hm|exact Hk|]. intros. apply HE.
Qed.
End logged.
#[export] Hint Resolve grows_sys : keeps.

Section evidence.
Context {W : Type} `{OS W} {T : Type} (config : CameraRecoveryConfig W T) (fuel : nat).
(** The callable of the configuration only adds to the log. *)
Context (prepare_grows : ∀ prepare, prepare_enumeration_probe config = Some prepare →
                                    within grows prepare).
Implicit Types x y : T * world W.

(** The commands that show that a camera was reset and is back: the firmware
    reset and the USB reset succeeded, and the probe then saw the camera. *)
Definition usb_evidence (serial target : string) : list entry :=
  [ERun (usbreset_command config target) None (Ok 0); ERun (present_command config serial) None (Ok 0)].
Definition evidence (serial target : string) : list entry :=
  ERun (firmware_command config serial) None (Ok 0) :: usb_evidence serial target.

Definition succeeded (result : pydict) : bool := truthy (dgetd "success" (VBool false) result).
Definition camera_serial (camera : pydict) : string := str_val (dgetd "serial" (VStr "") camera).

Lemma succeeded_error (v : pyval) (d : pydict) : succeeded (dset "error" v d) = succeeded d.
Proof. unfold succeeded, dgetd. by rewrite dget_dset_ne. Qed.
Lemma succeeded_other k (v : pyval) (d : pydict) : k ≠ "success" → succeeded (dset k v d) = succeeded d.
Proof. intros. unfold succeeded, dgetd. by rewrite dget_dset_ne. Qed.

(** [m] logs [es] when its result satisfies [ok], and only adds to the log. *)
Definition logs {A} (m : M (T * world W) A) (ok : A → bool) (es : list entry) : Prop :=
  ∀ x, wp m (λ r y, logged x y (if ok r then es else [])) (λ _ y, grows x y) x.

Lemma logs_bind_grows {A B} (m : M (T * world W) A) (k : A → M (T * world W) B) ok es :
  within grows m → (∀ a, logs (k a) ok es) → logs (bind m k) ok es.
Proof.
  intros Hm Hk x. apply wp_bind. eapply wp_within; [exact Hm| |done]. intros a y Hy.
  eapply wp_conseq; [apply Hk| |].
  - intros r z Hz. by eapply logged_before.
  - intros e z Hz. by etrans.
Qed.
Lemma logs_ret {A} (r : A) ok es : ok r = false → logs (ret r) ok es.
Proof. intros Hr x. apply wp_ret. rewrite Hr. apply logged_refl. Qed.
Lemma logs_guarded caught result m es :
  succeeded result = false → logs m succeeded es → logs (guarded caught result m) succeeded es.
Proof.
  intros Hr Hm x. unfold guarded. apply wp_try. eapply wp_conseq; [apply Hm|done|].
  intros e y Hy. destruct (caught e); [|done]. apply wp_ret. by rewrite succeeded_error, Hr.
Qed.
(** A run of a command, with the rest of the body depending on its result. *)
Lemma logs_run {A} command input t (k : completed → M (T * world W) A) ok es :
  (∀ c, (returncode c = 0 ∧ logs (k c) ok es) ∨
        (∀ x, wp (k c) (λ r y, logged x y [] ∧ ok r = false) (λ _ y, grows x y) x)) →
  logs (bind (sys (RunCommand command input t)) k) ok (ERun command input (Ok 0) :: es).
Proof.
  intros Hk x. apply wp_bind. eapply wp_conseq; [apply wp_run| |done]. intros c y Hy. simpl in Hy.
  destruct (Hk c) as [[Hc Hkc]|Hkc].
  - simpl in Hy. rewrite Hc in Hy. eapply wp_conseq; [apply Hkc| |].
    + intros r z Hz. simpl in Hz. destruct (ok r); [exact (logged_app _ _ _ _ _ Hy Hz)|].
      eapply logged_grows, (logged_app _ _ _ _ _ Hy Hz).
    + intros e z Hz. etrans; [by eapply logged_grows|exact Hz].
  - eapply wp_conseq; [apply Hkc| |].
    + intros r z [Hz Hr]. simpl in Hr. rewrite Hr. eapply logged_grows, (logged_app _ _ _ _ _ Hy Hz).
    + intros e z Hz. etrans; [by eapply logged_grows|exact Hz].
Qed.

Lemma probe_logs serial t :
  logs (_probe_can_find_serial config serial t) fst [ERun (present_command config serial) None (Ok 0)].
Proof.
  intros x. unfold _probe_can_find_serial. apply wp_try.
  eapply wp_conseq; [apply (logs_run _ _ _ _ fst [])| |].
  - intros c. destruct (decide (returncode c = 0)) as [Hc|Hc].
    + left. split; [done|]. intros y. apply wp_ret. destruct (fst _); apply logged_refl.
    + right. intros y. apply wp_ret. split; [apply logged_refl|]. by apply bool_decide_eq_false_2.
  - done.
  - intros e y Hy. destruct (is_TimeoutExpired e); [|done]. by apply wp_ret.
Qed.

Lemma await_camera_logs n serial d out :
  logs (await_camera config n serial d out) fst [ERun (present_command config serial) None (Ok 0)].
Proof.
  revert out. induction n as [|n IH]; intros out; simpl.
  { intros x. apply wp_throw. reflexivity. }
  apply logs_bind_grows; [eauto with keeps|]. intros now.
  destruct (f_le_Z _ _); [by apply logs_ret|]. intros x. apply wp_bind.
  eapply wp_conseq; [apply probe_logs| |done]. intros [seen o] y Hy. simpl in *. destruct seen.
  - by apply wp_ret.
  - eapply wp_conseq; [|intros r z Hz; eapply logged_before; [exact Hy|exact Hz]|intros e z Hz; exact (logged_app _ _ _ [] [] Hy Hz)].
    do 2 (apply logs_bind_grows; [eauto with keeps|]; intros ?). apply IH.
Qed.

Lemma await_enumeration_logs serial result :
  succeeded result = false →
  logs (await_enumeration config fuel serial result) succeeded
       [ERun (present_command config serial) None (Ok 0)].
Proof.
  intros Hr. unfold await_enumeration. apply logs_bind_grows.
  { destruct (prepare_enumeration_probe config) as [prepare|] eqn:Hp; [by apply prepare_grows|].
    apply within_ret; typeclasses eauto. }
  intros []. apply logs_bind_grows; [eauto with keeps|]. intros now x. apply wp_bind.
  eapply wp_conseq; [apply await_camera_logs| |done]. intros [seen out] y Hy. apply wp_ret.
  simpl in *. destruct seen; [|by rewrite succeeded_error, succeeded_other, Hr].
  rewrite succeeded_other by done. unfold succeeded, dgetd. by rewrite dget_dset_eq.
Qed.

Lemma reset_device_logs serial target result :
  succeeded result = false →
  logs (reset_device config fuel serial target result) succeeded (usb_evidence serial target).
Proof.
  intros Hr. unfold reset_device. apply logs_run. intros c. destruct (decide (returncode c = 0)) as [Hc|Hc].
  - left. split; [done|]. rewrite bool_decide_eq_true_2 by done. simpl.
    assert (succeeded (dset "output" (VStr (py_strip (stdout c +:+ stderr c)))
              (dset "returncode" (VInt (returncode c)) result)) = false) as Hs.
    { by rewrite !succeeded_other. }
    apply logs_guarded; [done|]. by apply await_enumeration_logs.
  - right. intros x. rewrite bool_decide_eq_false_2 by done. apply wp_ret.
    split; [apply logged_refl|]. by rewrite succeeded_error, !succeeded_other.
Qed.

Lemma firmware_logs serial :
  logs (_firmware_reset config serial) succeeded [ERun (firmware_command config serial) None (Ok 0)].
Proof.
  unfold _firmware_reset. apply logs_guarded; [done|]. apply logs_run. intros c.
  set (ok := bool_decide (returncode c = 0) && _).
  destruct (decide (returncode c = 0)) as [Hc|Hc]; [left; split; [done|]|right].
  - intros x. apply wp_bind, wp_lift. destruct (_physical_port_from_reset_output _); [|reflexivity].
    apply wp_ret. case_match; apply logged_refl.
  - assert (ok = false) as -> by (subst ok; by rewrite bool_decide_eq_false_2).
    intros x. apply wp_bind, wp_lift. destruct (_physical_port_from_reset_output _); [|reflexivity].
    by apply wp_ret; split; [apply logged_refl|].
Qed.

Lemma first_usb_grows candidates : within grows (first_usb_device (T := T) candidates).
Proof. induction candidates as [|c cs IH]; simpl; solve_within; done. Qed.
Lemma usb_device_grows port : within grows (_usb_device_from_physical_port (T := T) port).
Proof. unfold _usb_device_from_physical_port. solve_within. intros. apply first_usb_grows. Qed.
Lemma read_number_grows path : within grows (read_number (T := T) path).
Proof. unfold read_number. solve_within. Qed.

(** The target is read in the course of the reset. *)
Lemma usb_reset_logs serial port x :
  wp (_usb_reset config fuel serial port)
     (λ r y, ∃ target, logged x y (if succeeded r then usb_evidence serial target else []))
     (λ _ y, grows x y) x.
Proof.
  unfold _usb_reset. apply wp_bind. eapply wp_within; [apply usb_device_grows| |done].
  intros [dev|] y Hy; [|apply wp_ret; by exists ""].
  unfold guarded at 1. apply wp_try, wp_bind. set (base := [_; _] : pydict).
  eapply wp_within; [apply read_number_grows| |].
  - intros bus y2 Hy2. apply wp_bind. eapply wp_within; [apply read_number_grows| |].
    + intros number y3 Hy3. set (target := _ +:+ _). cbv zeta.
      eapply wp_conseq; [apply (logs_guarded usb_errors _ _ (usb_evidence serial target)); [|apply reset_device_logs]|..]; try done.
      * intros r z Hz. exists target. eapply logged_before; [|exact Hz]. by do 2 (etrans; [eassumption|]).
      * intros e z Hz. assert (grows x z) by (do 3 (etrans; [eassumption|]); done).
        destruct (usb_errors e); [|done]. apply wp_ret. by exists "".
    + intros e z Hz. assert (grows x z) by (do 2 (etrans; [eassumption|]); done).
      destruct (usb_errors e); [|done]. apply wp_ret. by exists "".
  - intros e z Hz. assert (grows x z) by (etrans; [eassumption|]; done).
    destruct (usb_errors e); [|done]. apply wp_ret. by exists "".
Qed.

Lemma recover_camera_logs camera x :
  wp (_recover_camera config fuel camera)
     (λ r y, grows x y ∧ (succeeded r = true → camera_serial camera ≠ "" ∧
        ∃ target, logged x y (evidence (camera_serial camera) target)))
     (λ _ _, True) x.
Proof.
  unfold _recover_camera. change (str_val (dgetd "serial" (VStr "") camera)) with (camera_serial camera).
  case_bool_decide as Hs; [by apply wp_ret; split; [reflexivity|]|].
  apply wp_bind. eapply wp_conseq; [apply firmware_logs| |done]. intros firmware y Hy. simpl in Hy.
  cbv zeta. set (port := str_val (dgetd "physical_port" _ camera)).
  destruct (if bool_decide (port = "") then _ else _) as [port' result].
  apply wp_bind. eapply wp_conseq; [apply usb_reset_logs| |done]. intros usb z [target Hz].
  set (result' := dset "success" _ _).
  assert (succeeded result' = succeeded firmware && succeeded usb) as Hr.
  { unfold succeeded at 1, dgetd. subst result'. by rewrite dget_dset_eq. }
  assert (grows x z ∧ (succeeded result' = true → camera_serial camera ≠ "" ∧
    ∃ target, logged x z (evidence (camera_serial camera) target))) as [Hg Hev].
  { split; [eapply logged_grows, (logged_app _ _ _ _ _ Hy Hz)|].
    rewrite Hr. intros [Hf Hu]%andb_true_iff. split; [done|]. exists target.
    rewrite Hf in Hy. rewrite Hu in Hz. exact (logged_app _ _ _ _ _ Hy Hz). }
  destruct (omap item_error [firmware; usb]); apply wp_ret; rewrite ?succeeded_error; by split.
Qed.

Lemma recover_all_logs cameras x :
  wp (map_each cameras (_recover_camera config fuel))
     (λ rs y, grows x y ∧ length rs = length cameras ∧ (forallb succeeded rs = true →
        Forall (λ c, camera_serial c ≠ "" ∧ ∃ target, logged x y (evidence (camera_serial c) target)) cameras))
     (λ _ _, True) x.
Proof.
  revert x. induction cameras as [|c cs IH]; intros x; simpl.
  { apply wp_ret. split_and!; [reflexivity|done|]. intros _. constructor. }
  apply wp_bind. eapply wp_conseq; [apply recover_camera_logs| |done]. intros r y [Hy Hev].
  apply wp_bind. eapply wp_conseq; [apply IH| |done]. intros rs z (Hz & Hlen & Hall). apply wp_ret.
  split_and!; [by etrans|by simpl; rewrite Hlen|]. simpl. intros [Hr Hrs]%andb_true_iff.
  destruct (Hev Hr) as [Hs [target Ht]]. constructor.
  - split; [done|]. exists target. by eapply logged_after.
  - eapply Forall_impl; [by apply Hall|]. intros c' [Hs' [t Ht']]. split; [done|]. exists t.
    by eapply logged_before.
Qed.

(** Every camera is represented among the distinct ones. *)
Lemma distinct_cameras_cover seen cameras c :
  c ∈ cameras → camera_serial c ∉ seen →
  ∃ d, d ∈ distinct_cameras seen cameras ∧ camera_serial d = camera_serial c.
Proof.
  revert seen. induction cameras as [|d ds IH]; intros seen Hc Hseen; [by apply not_elem_of_nil in Hc|].
  simpl. change (str_val (dgetd "serial" (VStr "") d)) with (camera_serial d).
  apply elem_of_cons in Hc as [->|Hc].
  - rewrite (bool_decide_eq_false_2 (camera_serial d ∈ seen)) by done. rewrite andb_false_r.
    exists d. split; [by left|done].
  - destruct (negb _ && _); [by apply IH|]. case_bool_decide as Hd.
    + destruct (IH seen Hc Hseen) as (e & He & Heq). exists e. split; [by right|done].
    + destruct (decide (camera_serial c = camera_serial d)) as [Heq|Hne].
      { exists d. split; [by left|done]. }
      destruct (IH (camera_serial d :: seen) Hc) as (e & He & Heq).
      { by rewrite not_elem_of_cons. }
      exists e. split; [by right|done].
Qed.
Lemma distinct_cameras_sub seen cameras d : d ∈ distinct_cameras seen cameras → d ∈ cameras.
Proof.
  revert seen. induction cameras as [|c cs IH]; intros seen; simpl; [done|].
  destruct (negb _ && _); [intros; right; by eapply IH|].
  intros [->|Hd]%elem_of_cons; [by left|right; by eapply IH].
Qed.

Lemma recovery_result_succeeded results n :
  succeeded (recovery_result results n) = true → n ≠ 0 ∧ forallb succeeded results = true.
Proof.
  unfold recovery_result. case_bool_decide as Hn; [done|].
  intros Hs. split; [done|]. revert Hs. case_match; rewrite ?succeeded_error;
    unfold succeeded at 1, dgetd; by rewrite dget_dset_eq.
Qed.

Lemma recover_logs cameras dir x :
  wp (recover config fuel cameras dir)
     (λ r y, grows x y ∧ (succeeded r = true → cameras ≠ [] ∧
        Forall (λ c, camera_serial c ≠ "" ∧ ∃ target, logged x y (evidence (camera_serial c) target)) cameras))
     (λ _ _, True) x.
Proof.
  unfold recover. apply wp_bind. eapply wp_conseq; [apply recover_all_logs| |done].
  intros rs y (Hy & Hlen & Hall). apply wp_grows; [eauto with keeps|intros _ y2 Hy2|done].
  apply wp_grows; [eauto with keeps|intros _ z Hz|done]. apply wp_ret.
  assert (grows y z) as Hyz by by etrans. split; [by etrans|].
  intros [Hn Hs]%recovery_result_succeeded. specialize (Hall Hs). split.
  { intros ->. by apply Hn. }
  rewrite Forall_forall in Hall. apply Forall_forall. intros c Hc.
  destruct (distinct_cameras_cover [] cameras c Hc) as (d & Hd & Heq); [by apply not_elem_of_nil|].
  destruct (Hall d Hd) as [Hd' [target Ht]]. rewrite Heq in *. split; [done|].
  exists target. by eapply logged_after.
Qed.
End evidence.

(** C16: A logical run starts only with recovered cameras.  When the reset
    before a run returns, every selected camera has a serial, and for each of
    them the log of commands holds, in this order, a successful firmware
    reset, a successful USB reset and a successful sighting by the probe; in
    every other case the method raises. *)
Theorem reset_before_run_recovers_all {W} `{OS W} {T} (config : CameraRecoveryConfig W T) fuel cameras dir
    (x : T * world W) :
  (∀ prepare, prepare_enumeration_probe config = Some prepare → within grows prepare) →
  wp (reset_before_run config fuel cameras dir)
     (λ _ y, cameras ≠ [] ∧ Forall (λ c, camera_serial c ≠ "" ∧ ∃ target,
        logged x y (evidence config (camera_serial c) target)) cameras)
     (λ _ _, True) x.
Proof.
  intros Hprep. unfold reset_before_run. apply wp_grows; [eauto with keeps|intros started y Hy|done].
  apply wp_bind. eapply wp_conseq; [by apply recover_logs| |done]. intros r z [Hz Hr].
  apply wp_grows; [eauto with keeps|intros now z2 Hz2|done].
  apply wp_grows; [eauto with keeps|intros _ z3 Hz3|done].
  set (result := dset "duration_ms" _ _).
  change (truthy (dgetd "success" (VBool false) result)) with (succeeded result).
  subst result. rewrite !succeeded_other by done. destruct (succeeded r); [|by apply wp_throw].
  apply wp_ret. destruct (Hr eq_refl) as [Hne Hall]. split; [done|].
  eapply Forall_impl; [exact Hall|]. intros c [Hc [target Ht]]. split; [done|]. exists target.
  eapply logged_before; [exact Hy|]. eapply logged_after; [exact Ht|]. by etrans.
Qed.

(** ** The waiting loop ends *)

Section ends.
Context {W : Type} `{Clock W} {T : Type} (config : CameraRecoveryConfig W T) (fuel : nat).
Context (timeout_ends : ends_within (enumeration_timeout_seconds config) fuel).
Context (prepare_quick : ∀ prepare, prepare_enumeration_probe config = Some prepare → quick prepare).
Implicit Types x y : T * world W.

Abbreviation ends m x := (wp m (λ _ _, True) fine x).

Lemma probe_quick serial t : quick (_probe_can_find_serial config serial t).
Proof. unfold _probe_can_find_serial. solve_quick. Qed.

Lemma await_camera_ends n serial d out x :
  deadline d → (time_left d (w_os x.2) < n)%nat → ends (await_camera config n serial d out) x.
Proof.
  revert out x. induction n as [|n IH]; intros out x Hd Hn; [lia|]. simpl.
  apply (wp_now_fine d); [done|]. intros now x1 H1 Hdue.
  destruct (f_le_Z _ _) eqn:Hle; [by apply wp_ret|].
  assert (1 <= time_left d (w_os x.2))%nat as Hleft.
  { destruct (time_left d (w_os x.2)); [|lia]. destruct Hdue as [Hdue _]; [done|].
    by rewrite Hdue in Hle. }
  apply wp_quick; [apply probe_quick|]. intros [seen o] x2 H2. simpl.
  destruct seen; [by apply wp_ret|].
  apply (wp_reached_fine d); [done|]. intros now2 x3 H3 Hreached.
  specialize (H1 d). specialize (H2 d). specialize (H3 d).
  destruct (f_lt f_zero (f_sub d now2)) eqn:Hlt.
  - apply wp_sleep_fine; [by apply f_wait_positive|]. intros x4 H4. specialize (H4 d).
    apply IH; [done|lia].
  - apply wp_quick; [apply quick_sys|]. intros _ x4 H4. specialize (H4 d).
    rewrite Hreached in H4 by done. apply IH; [done|lia].
Qed.

Lemma guarded_ends caught result m x : ends m x → ends (guarded caught result m) x.
Proof.
  intros Hm. unfold guarded. apply wp_try. eapply wp_conseq; [exact Hm|done|].
  intros e y He. destruct (caught e); [by apply wp_ret|done].
Qed.
Lemma port_fine output e :
  _physical_port_from_reset_output output = Raise e → exn_type e ≠ OutOfFuel.
Proof.
  unfold _physical_port_from_reset_output. induction (py_splitlines output) as [|line lines IH]; simpl; [done|].
  destruct (negb _); [done|]. destruct (json_loads _) as [v|]; [|done].
  destruct v; simpl; try by intros [= <-]. by destruct (py_eq _ _).
Qed.
Lemma read_number_quick path : quick (read_number (T := T) path).
Proof.
  unfold read_number. solve_quick. intros text. apply quick_lift. intros e. unfold py_int.
  destruct (int_of_string _); by intros [= <-].
Qed.
Lemma usb_device_quick port : quick (_usb_device_from_physical_port (T := T) port).
Proof.
  assert (∀ cs, quick (first_usb_device (T := T) cs)) as Hfirst.
  { induction cs as [|c cs IH]; simpl; solve_quick; done. }
  unfold _usb_device_from_physical_port. solve_quick. intros. apply Hfirst.
Qed.
Lemma firmware_quick serial : quick (_firmware_reset config serial).
Proof. unfold _firmware_reset, guarded. solve_quick. intros c. apply quick_lift. intros e. apply port_fine. Qed.

Lemma reset_device_ends serial target result x : ends (reset_device config fuel serial target result) x.
Proof.
  unfold reset_device. apply wp_quick; [apply quick_sys|]. intros c y _.
  destruct (negb _); [by apply wp_ret|]. apply guarded_ends. unfold await_enumeration.
  apply wp_quick.
  { destruct (prepare_enumeration_probe config) eqn:Hp; [by apply prepare_quick|apply quick_ret]. }
  intros _ y1 _. eapply wp_start_fine; [exact timeout_ends|]. intros now y2 _ Hd Hn.
  apply wp_bind. eapply wp_conseq; [by apply await_camera_ends| |done]. intros seen y3 _. by apply wp_ret.
Qed.
Lemma usb_reset_ends serial port x : ends (_usb_reset config fuel serial port) x.
Proof.
  unfold _usb_reset. apply wp_quick; [apply usb_device_quick|]. intros [dev|] y _; [|by apply wp_ret].
  apply guarded_ends. apply wp_quick; [apply read_number_quick|]. intros bus y1 _.
  apply wp_quick; [apply read_number_quick|]. intros number y2 _. apply guarded_ends, reset_device_ends.
Qed.
Lemma recover_camera_ends camera x : ends (_recover_camera config fuel camera) x.
Proof.
  unfold _recover_camera. case_bool_decide; [by apply wp_ret|].
  apply wp_quick; [apply firmware_quick|]. intros firmware y _. cbv zeta.
  destruct (if bool_decide (_ = "") then _ else _) as [port result].
  apply wp_bind. eapply wp_conseq; [apply usb_reset_ends| |done]. intros usb z _.
  destruct (omap _ _); by apply wp_ret.
Qed.
Lemma recover_ends cameras dir x : ends (recover config fuel cameras dir) x.
Proof.
  unfold recover. apply wp_bind. assert (∀ cs x, ends (map_each cs (_recover_camera config fuel)) x) as Hall.
  { induction cs as [|c cs IH]; intros z; simpl; [by apply wp_ret|].
    apply wp_bind. eapply wp_conseq; [apply recover_camera_ends| |done]. intros r z1 _.
    apply wp_bind. eapply wp_conseq; [apply IH| |done]. intros rs z2 _. by apply wp_ret. }
  eapply wp_conseq; [apply Hall| |done]. intros rs y _. apply wp_quick_last. solve_quick.
Qed.
End ends.

(** C17: Recovery ends.  On a machine whose clock advances, with fuel for the
    sleeps that fit into the enumeration timeout and a preparation that waits
    for nothing, resetting the cameras never runs out of fuel: it returns or
    raises a Python exception. *)
Theorem recovery_ends {W} `{Clock W} {T} (config : CameraRecoveryConfig W T) fuel cameras dir
    (x : T * world W) :
  ends_within (enumeration_timeout_seconds config) fuel →
  (∀ prepare, prepare_enumeration_probe config = Some prepare → quick prepare) →
  in_fuel (recover config fuel cameras dir x) ∧ in_fuel (reset_before_run config fuel cameras dir x).
Proof.
  intros Ht Hp. split; eapply in_fuel_wp; [by apply recover_ends|].
  unfold reset_before_run. apply wp_quick; [apply quick_sys|]. intros started y _.
  apply wp_bind. eapply wp_conseq; [by apply recover_ends| |done]. intros r z _.
  apply wp_quick_last. solve_quick.
Qed.

(** ** Applications *)

(** A machine with one camera, on which the reset commands succeed. *)
#[local] Instance reset_commands : Commands := λ cmd _ m,
  (Ok (Completed 0 (if bool_decide ("--hardware-reset" ∈ cmd) then STATE_COMPLETE else "") ""), m).
Definition camera_machine : machine := {|
  m_files := [("/sys/bus/usb/devices/2-1/busnum", "2" +:+ nl); ("/sys/bus/usb/devices/2-1/devnum", "5" +:+ nl)];
  m_json := []; m_dirs := []; m_globs := [];
  m_links := [("/sys/bus/usb/devices/2-1:1.0", "/sys/bus/usb/devices/2-1")];
  m_clock := f_of_Z 1; m_boottime := 0; m_euid := 0; m_affinity := ∅ |}.
Definition demo_config {W} : CameraRecoveryConfig W unit := {|
  repo_root := "/repo"; reset_probe := "/repo/probe"; use_sudo := false; reset_timeout_ms := 5000;
  enumeration_timeout_seconds := f_of_Z 10; prepare_enumeration_probe := None |}.
Definition demo_cameras : list pydict :=
  [[("serial", VStr "123"); ("physical_port", VStr "/sys/bus/usb/devices/2-1:1.0")]].
Definition demo_start : unit * world machine := ((), World camera_machine []).

Lemma reset_before_run_recovers_all_witness :
  returned (reset_before_run demo_config 1 demo_cameras "/rec" demo_start) = true ∧
  (∀ r y, reset_before_run demo_config 1 demo_cameras "/rec" demo_start = (Ok r, y) →
     ∃ target, logged demo_start y (evidence (demo_config (W := machine)) "123" target)).
Proof.
  split; [vm_compute; reflexivity|]. intros r y Heq.
  destruct (wp_ok _ _ _ _ _ _
    (reset_before_run_recovers_all demo_config 1 demo_cameras "/rec" demo_start
       (λ prepare Hp, False_ind _ (eq_ind None (λ o, match o with None => True | Some _ => False end) I _ Hp)))
    Heq) as [_ Hall].
  apply Forall_cons in Hall as [[_ [target Ht]] _]. exists target. exact Ht.
Defined.

Lemma recovery_ends_witness :
  let r := @reset_before_run bool tick_os unit demo_config 2 demo_cameras "/rec" ((), World true []) in
  in_fuel r ∧ raised r = Some OSError.
Proof.
  split; [|vm_compute; reflexivity].
  refine (proj2 (@recovery_ends bool tick_os tick_clock unit demo_config 2 demo_cameras "/rec"
    ((), World true []) _ _)); [|by intros].
  intros [] now [= <-]; (split; [|simpl; lia]).
  - change (f_add (f_of_Z 0) (f_of_Z 10) ∈ tick_deadlines). apply (bool_decide_unpack _); vm_compute; done.
  - change (f_add f_largest (f_of_Z 10) ∈ tick_deadlines). apply (bool_decide_unpack _); vm_compute; done.
Defined.
