(* ===== verification/StartupTrace.v ===== *)
(** * Startup traces ([parse_startup_trace])

    The merge of thread lifecycles and scheduler events into the timing rows,
    the timeline, the kernel events and the summary of a startup run. *)
From Stdlib Require Import Ascii ZArith Lia.
From S2P Require Import Prelude PyStr PyFloat PyVal PyJson Effects Machine Devices CpuList SchedTrace.
From S2P Require Import Lifecycle SteadyTrace.
From stdpp Require Import base gmap strings list sorting.
Local Open Scope Z_scope.
Local Open Scope py_scope.
Local Open Scope M_scope.

(** ** Timing rows *)

(** A field that [lifecycle_records] sets to an integer or [None]. *)
Definition ns_of (k : string) (record : pydict) : option Z := int_instance (dgetd k VNone record).
(** [value if value is not None else ""]. *)
Definition or_empty (z : option Z) : pyval := match z with Some z => VInt z | None => VStr "" end.
Definition relative (origin : Z) (timestamp : option Z) : pyval :=
  match timestamp with Some t => VFloat (ms_of_ns (t - origin)) | None => VStr "" end.
Definition difference (a b : option Z) : pyval :=
  match a, b with Some a, Some b => VFloat (ms_of_ns (a - b)) | _, _ => VStr "" end.

Definition thread_status (record : pydict) : string :=
  let has k := negb (is_none (dgetd k VNone record)) in
  if has "joined_ns" then "joined"
  else if has "detached_by" && has "exited_ns" then "detached_and_exited"
  else if has "detached_by" then "detached_unobserved_exit"
  else if has "exited_ns" then "exited"
  else "unobserved_exit".

Section rows.
Context (origin trace_end : Z) (lime_ : lime).

Definition count_state (st : string) (l : list Interval) : pyval :=
  VInt (Z.of_nat (length (filter (λ i, state i = st) l))).

Definition timing_row (record : pydict) (tid_ : Z) (l : list Interval) (first_run first_sleep : option Z) :
    pydict :=
  let policies := default [] (zget tid_ (policies_by_tid lime_)) in
  let created := ns_of "created_ns" record in
  let started := ns_of "started_ns" record in
  let exited := ns_of "exited_ns" record in
  let joined := ns_of "joined_ns" record in
  [("cycle", dgetd "cycle" (VInt 0) record); ("tid", record_tid record);
   ("tgid", dgetd "tgid" (VStr "") record);
   ("pthread_value", dgetd "pthread_value" (VStr "") record);
   ("name", dgetd "name" (VStr "") record); ("parent_tid", dgetd "parent_tid" (VStr "") record);
   ("policy", VStr (policy_text policies)); ("priority", VStr (priority_text policies));
   ("created_ns", or_empty created); ("created_ms", relative origin created);
   ("started_ns", or_empty started); ("started_ms", relative origin started);
   ("first_run_ns", or_empty first_run); ("first_run_ms", relative origin first_run);
   ("first_sleep_ns", or_empty first_sleep); ("first_sleep_ms", relative origin first_sleep);
   ("exited_ns", or_empty exited); ("exited_ms", relative origin exited);
   ("joined_ns", or_empty joined); ("joined_ms", relative origin joined);
   ("create_to_start_ms", difference started created);
   ("execution_ms", VFloat (f_sum (state_durations "running" l)));
   ("sleep_ms", VFloat (f_sum (state_durations "sleeping" l)));
   ("ready_ms", VFloat (f_sum (state_durations "ready" l)));
   ("lifetime_ms", difference exited started);
   ("running_intervals", count_state "running" l); ("sleep_intervals", count_state "sleeping" l);
   ("ready_intervals", count_state "ready" l);
   ("joined_by", dgetd "joined_by" (VStr "") record);
   ("detached_by", dgetd "detached_by" (VStr "") record); ("status", VStr (thread_status record))].

(** One pass of the loop over the records. *)
Definition time_record (record : pydict) : outcome (option (list Interval * pydict)) :=
  if is_none (record_tid record) then Ok None else
  window ← event_window record trace_end;
  tid_ ← py_int (record_tid record);
  cycle_ ← py_int (get_or "cycle" (VInt 0) record);
  r ← scheduler_intervals cycle_ tid_ (record_name record) origin
        (default [] (zget tid_ (events_by_tid lime_))) window.1 window.2;
  mret (Some (r.1.1, timing_row record tid_ r.1.1 r.1.2 r.2)).
End rows.

Definition timing_fields : list string :=
  ["cycle"; "tid"; "tgid"; "pthread_value"; "name"; "parent_tid"; "policy"; "priority"; "created_ns";
   "created_ms"; "started_ns"; "started_ms"; "first_run_ns"; "first_run_ms"; "first_sleep_ns";
   "first_sleep_ms"; "exited_ns"; "exited_ms"; "joined_ns"; "joined_ms"; "create_to_start_ms";
   "execution_ms"; "sleep_ms"; "ready_ms"; "lifetime_ms"; "running_intervals"; "sleep_intervals";
   "ready_intervals"; "joined_by"; "detached_by"; "status"].
Definition startup_interval_fields : list string :=
  ["cycle"; "tid"; "name"; "state"; "start_ns"; "end_ns"; "start_ms"; "end_ms"; "duration_ms"; "cpu";
   "reason"].
Definition timeline_fields : list string :=
  ["cycle"; "tid"; "source"; "event"; "timestamp_ns"; "timestamp_ms"; "cpu"; "state"; "detail"].
Definition kernel_fields : list string :=
  ["timestamp_ns"; "timestamp_ms"; "cycle"; "interface"; "error_code"; "phase"; "phase_class"; "line"].

(** [next((r.get("tgid") for r in records if r.get("tgid")), None)], an integer
    if there is one. *)
Definition startup_tgid (rs : list pydict) : option Z := int_instance (first_tgid rs).

Definition trace_end_of (lifecycle : list pydict) (lime_ : lime) (origin : Z) : outcome Z :=
  stamps ← traverse (λ e, py_int (dgetd "timestamp_ns" (VInt 0) e)) lifecycle;
  mret (Z_list_max 0 (stamps ++ map ts_of (events_by_tid lime_ ≫= snd) ++ [origin])).

(** ** The timeline *)

(** [record_for_create]: the last record entered under a key. *)
Definition create_key (record : pydict) : outcome (pyval * Z) :=
  created ← py_int (get_or "created_ns" (VInt 0) record);
  mret (dgetd "pthread_value" (VStr "") record, created).
Definition record_for (keyed : list (pyval * Z * pydict)) (pthread_value : string) (timestamp : Z) :
    option pydict :=
  snd <$> last (filter (λ k, py_eq k.1.1 (VStr pthread_value) && bool_decide (k.1.2 = timestamp) = true)
                       keyed).

Record timeline_row := {
  tl_timestamp : Z;
  tl_source : string;
  tl_row : pydict;
}.
Definition source_rank (r : timeline_row) : Z :=
  if bool_decide (tl_source r = "lime_ebpf") then 0 else 1.

Section timeline.
Context (origin : Z) (bounds : bounds_map) (keyed : list (pyval * Z * pydict)).

Definition timeline_entry (timestamp : Z) (tid_ : pyval) (source : string) (event : pydict)
    (cpu detail : pyval) : timeline_row :=
  {| tl_timestamp := timestamp; tl_source := source; tl_row :=
       [("cycle", VInt (cycle_at (Some timestamp) bounds)); ("tid", tid_); ("source", VStr source);
        ("event", dgetd "event" (VStr "") event); ("timestamp_ns", VInt timestamp);
        ("timestamp_ms", VFloat (ms_of_ns (timestamp - origin))); ("cpu", cpu);
        ("state", dgetd "state" (VStr "") event); ("detail", detail)] |}.

Definition pthread_row (event : pydict) : option timeline_row :=
  match int_instance (dgetd "timestamp_ns" VNone event) with
  | None => None
  | Some timestamp =>
      let tid_ := dgetd "tid" (dgetd "caller_tid" (VStr "") event) event in
      let tid_ := if py_eq (dgetd "event" VNone event) (VStr "pthread_create") then
                    match record_for keyed (str_get_or "pthread_value" event) timestamp with
                    | Some record => dgetd "tid" (VStr "") record
                    | None => tid_
                    end
                  else tid_ in
      Some (timeline_entry timestamp tid_ "pthread" event (VStr "") (dgetd "name" (VStr "") event))
  end.
Definition lime_row (tid_ : Z) (event : pydict) : timeline_row :=
  timeline_entry (ts_of event) (VInt tid_) "lime_ebpf" event (dgetd "cpu" (VStr "") event)
    (dgetd "_task_version" (VStr "") event).

(** [timeline_rows.sort(key=lambda row: (timestamp, source))]: a stable sort on
    a pair is one on its second component followed by one on its first. *)
Definition timeline (lifecycle : list pydict) (lime_ : lime) : list timeline_row :=
  sort_on tl_timestamp (sort_on source_rank
    (omap pthread_row lifecycle ++
     (events_by_tid lime_ ≫= λ te, map (lime_row te.1) te.2))).
End timeline.

(** ** The kernel log *)

Fixpoint span_nonspace (s : string) : string * string :=
  match s with
  | String a s' =>
      if py_isspace a then ("", s) else let '(t, r) := span_nonspace s' in (String a t, r)
  | EmptyString => ("", "")
  end.
(** [\s+] and a fixed text after it. *)
Definition expect_space (s : string) : option string :=
  match s with
  | String a _ => if py_isspace a then Some (lstrip_by py_isspace s) else None
  | EmptyString => None
  end.
Definition expect (p s : string) : option string :=
  if py_startswith p s then Some (py_drop (String.length p) s) else None.

(** The pattern after [uvcvideo]: interface and error code. *)
Definition uvc_tail (s : string) : option (string * string) :=
  s ← expect_space s;
  let '(token, s) := span_nonspace s in
  let interface := py_removesuffix ":" token in
  if bool_decide (interface = token) || bool_decide (interface = "") then None else
  s ← expect_space s;
  s ← expect "Failed to resubmit video URB" s;
  s ← expect_space s;
  s ← expect "(" s;
  let '(sign, s) := match expect "-" s with Some s => ("-", s) | None => ("", s) end in
  let '(digits, s) := span_digits s in
  if bool_decide (digits = "") then None else
  _ ← expect ")" s;
  Some (interface, sign +:+ digits).
Fixpoint find_uvc (s : string) : option (string * string) :=
  match s with
  | EmptyString => None
  | String _ s' =>
      match (s ← expect "uvcvideo" s; uvc_tail s) with
      | Some r => Some r
      | None => find_uvc s'
      end
  end.
(** The time stamp [[  12.345]] and the rest. *)
Definition uvc_stamp (s : string) : option (string * string) :=
  s ← expect "[" s;
  let '(whole, s) := span_digits (lstrip_by py_isspace s) in
  if bool_decide (whole = "") then None else
  let '(stamp, s) := match expect "." s with
                     | Some r => let '(frac, r') := span_digits r in
                                 if bool_decide (frac = "") then (whole, s) else (whole +:+ "." +:+ frac, r')
                     | None => (whole, s)
                     end in
  s ← expect "]" s;
  Some (stamp, s).
(** [uvc_pattern.search(line)]. *)
Fixpoint uvc_search (s : string) : option (string * string * string) :=
  match s with
  | EmptyString => None
  | String _ s' =>
      match (st ← uvc_stamp s; e ← find_uvc st.2; Some (st.1, e.1, e.2)) with
      | Some r => Some r
      | None => uvc_search s'
      end
  end.

Record uvc_event := {
  u_timestamp : Z;
  u_interface : string;
  u_error_code : string;
  u_phase : string;
  u_class : string;
  u_line : string;
}.

Definition phase_name_at (ordered : list (Z * pydict)) (timestamp : Z) : string :=
  match last (filter (λ p, p.1 <= timestamp) ordered) with
  | Some p => str_val (dgetd "name" (VStr "") p.2)
  | None => ""
  end.

Definition uvc_of_line (ordered : list (Z * pydict)) (line : string) : outcome (option uvc_event) :=
  match uvc_search line with
  | None => Ok None
  | Some (stamp, interface, error_code) =>
      x ← py_float (VStr stamp);
      timestamp ← f_trunc (f_mul x (f_of_Z 1000000000));
      let phase := phase_name_at ordered timestamp in
      mret (Some {| u_timestamp := timestamp; u_interface := interface; u_error_code := error_code;
                    u_phase := phase; u_class := classify_uvc_phase phase; u_line := line |})
  end.
Definition uvc_row (origin : Z) (bounds : bounds_map) (u : uvc_event) : pydict :=
  [("timestamp_ns", VInt (u_timestamp u));
   ("timestamp_ms", VFloat (ms_of_ns (u_timestamp u - origin)));
   ("cycle", VInt (cycle_at (Some (u_timestamp u)) bounds)); ("interface", VStr (u_interface u));
   ("error_code", VStr (u_error_code u)); ("phase", VStr (u_phase u));
   ("phase_class", VStr (u_class u)); ("line", VStr (u_line u))].

(** [Counter(...)[key]], and the distinct keys in order. *)
Definition counter (key : string) (l : list string) : Z := Z.of_nat (length (filter (λ x, x = key) l)).
Definition sorted_set (l : list string) : list string := sorted_strings (remove_dups l).

(** ** Standard output and summary *)

(** [cycle_results], [device], [scheduler], [final_result] and
    [startup_error]. *)
Record stdout_vars := {
  cycle_results : list pyval;
  device : pydict;
  scheduler : pydict;
  final_result : pydict;
  startup_error : pydict;
}.
Definition update_target (line prefix : string) (target : pydict) : outcome pydict :=
  if py_startswith prefix line then
    value ← json_loads (py_drop (String.length prefix) line);
    match value with
    | VDict d => Ok (dupdate target d)
    | _ => raise TypeError "dictionary update from another value"
    end
  else Ok target.
Definition stdout_line (v : stdout_vars) (line : string) : outcome stdout_vars :=
  device_ ← update_target line "RS_DEVICE " (device v);
  scheduler_ ← update_target line "RS_SCHEDULER " (scheduler v);
  final ← update_target line "RS_STARTUP_RESULT " (final_result v);
  error ← update_target line "RS_STARTUP_ERROR " (startup_error v);
  cycles ← (if py_startswith "RS_STARTUP_CYCLE " line
            then c ← json_loads (py_drop 17 line); mret (cycle_results v ++ [c])
            else Ok (cycle_results v));
  mret {| cycle_results := cycles; device := device_; scheduler := scheduler_;
          final_result := final; startup_error := error |}.
Definition no_stdout : stdout_vars :=
  {| cycle_results := []; device := []; scheduler := []; final_result := []; startup_error := [] |}.

(** [[float(cycle[field]) for cycle in cycle_results if field in cycle]]. *)
Definition field_values (field : string) (cycles : list pydict) : outcome (list f64) :=
  traverse py_float (omap (dget field) cycles).
Definition mean (field : string) (cycles : list pydict) : outcome f64 :=
  values ← field_values field cycles;
  mret match values with [] => f_zero | _ => f_fmean values end.
Definition maximum (field : string) (cycles : list pydict) : outcome f64 :=
  values ← field_values field cycles;
  mret match values with [] => f_zero | x :: l => f_list_max x l end.

Definition float_field (k : string) (row : pydict) : outcome f64 := v ← subscript row k; py_float v.
Definition total_of (k : string) (rows : list pydict) : outcome pyval :=
  values ← traverse (float_field k) rows; mret (py_sum values).

(** What the summary is computed from. *)
Record startup_data := {
  s_rows : list pydict;
  s_stdout : stdout_vars;
  s_manifest : pydict;
  s_kernel_log : bool;
  s_uvc : list uvc_event;
  s_phases : list pydict;
  s_bounds : bounds_map;
  s_lime_tasks : Z;
}.

Definition worker_rows (rows : list pydict) : outcome (list pydict) :=
  keyed ← traverse (λ row, c ← py_int (get_or "cycle" (VInt 0) row); mret (c, row)) rows;
  mret (filter (λ k, 0 < k.1) keyed).*2.

Definition phase_names (phases : list pydict) : list string :=
  remove_dups (map (λ p, str_val (dgetd "name" (VStr "") p)) phases).
Definition completed_cycles (names : list string) : Z :=
  Z.of_nat (length (filter (λ n, bool_decide (is_Some (match_cycle n)) && py_endswith "_end" n = true) names)).

Definition PHASE_CLASSES : list string := ["startup"; "streaming"; "teardown"; "other"].
Definition uvc_counts (l : list uvc_event) : list (string * pyval) :=
  map (λ c, ("uvc_resubmit_errors_" +:+ c, VInt (counter c (map u_class l)))) PHASE_CLASSES.
Definition uvc_code_text (l : list uvc_event) : string :=
  let codes := map u_error_code l in
  py_join "," (map (λ c, c +:+ ":" +:+ str_Z (counter c codes)) (sorted_set codes)).

Definition MEASURES : list (string * string) :=
  [("start_call_ms_mean", "start_call_ms"); ("first_frame_ms_mean", "first_frame_ms");
   ("first_frame_wait_ms_mean", "first_frame_wait_ms"); ("join_wait_ms_mean", "join_wait_ms")].
Definition MAXIMA : list (string * string) :=
  [("start_call_ms_max", "start_call_ms"); ("first_frame_ms_max", "first_frame_ms");
   ("first_frame_wait_ms_max", "first_frame_wait_ms"); ("join_wait_ms_max", "join_wait_ms")].
Definition TOTALS : list (string * string) :=
  [("execution_ms_total", "execution_ms"); ("sleep_ms_total", "sleep_ms"); ("ready_ms_total", "ready_ms")].

Definition startup_summary (d : startup_data) : outcome pydict :=
  let o := s_stdout d in
  let names := phase_names (s_phases d) in
  let started := Z.of_nat (length (s_bounds d)) in
  let completed := completed_cycles names in
  final ← match final_result o with
          | [] => requested ← py_int (dgetd "cycles" (VInt started) (s_manifest d));
                  mret [("success", VBool false); ("completed_cycles", VInt completed);
                        ("requested_cycles", VInt requested)]
          | r => Ok r
          end;
  workers ← worker_rows (s_rows d);
  cycles ← traverse as_dict (cycle_results o);
  means ← traverse (λ p, x ← mean p.2 cycles; mret (p.1, VFloat x)) MEASURES;
  maxima ← traverse (λ p, x ← maximum p.2 cycles; mret (p.1, VFloat x)) MAXIMA;
  totals ← traverse (λ p, x ← total_of p.2 workers; mret (p.1, x)) TOTALS;
  delay ← py_int (dgetd "cycle_delay_ms" (VInt 0) (s_manifest d));
  mret ([("schema_version", VInt 1); ("clock", VStr "CLOCK_BOOTTIME"); ("device", VDict (device o));
    ("scheduler", VDict (scheduler o)); ("startup_result", VDict final);
    ("startup_error", VDict (startup_error o));
    ("process_error", VBool (bool_decide ("process_error" ∈ names)));
    ("cycles_started", VInt started); ("cycles_completed_by_phase", VInt completed);
    ("cycles", VList (cycle_results o)); ("cycle_count", VInt (Z.of_nat (length (cycle_results o))));
    ("successful_cycles",
       VInt (Z.of_nat (length (filter (λ c, truthy (dgetd "success" VNone c) = true) cycles))));
    ("thread_instances", VInt (Z.of_nat (length workers)));
    ("all_observed_threads_terminated",
       VBool (forallb (λ row, negb (py_eq (dgetd "exited_ns" VNone row) (VStr ""))) workers))]
    ++ means ++ maxima ++ totals ++
   [("cycle_delay_ms", VInt delay); ("kernel_log_captured", VBool (s_kernel_log d));
    ("uvc_resubmit_errors", VInt (Z.of_nat (length (s_uvc d))))] ++ uvc_counts (s_uvc d) ++
   [("uvc_resubmit_interfaces", VStr (py_join "," (sorted_set (map u_interface (s_uvc d)))));
    ("uvc_resubmit_error_codes", VStr (uvc_code_text (s_uvc d)));
    ("phase_count", VInt (Z.of_nat (length (s_phases d))));
    ("lime_task_count", VInt (s_lime_tasks d))]).

Section parse.
Context {W : Type} `{OS W} {T : Type}.
Abbreviation IO := (M (T * world W)).

(** The text of a file, if it is there. *)
Definition optional_text (path : option string) : IO (option string) :=
  match path with
  | None => ret None
  | Some path =>
      found <- sys (PathExists path) ;;
      if found then text <- sys (ReadText path) ;; ret (Some text) else ret None
  end.
Definition optional_json (path : string) : IO pydict :=
  found <- sys (PathExists path) ;;
  if found then value <- sys (ReadJson path) ;; lift (as_dict value) else ret [].

Definition parse_startup_trace (lifecycle_path lime_dir output_dir : string)
    (stdout_path : option string) : IO pydict :=
  sys (Mkdir output_dir true) ;;
  lifecycle <- read_jsonl lifecycle_path ;;
  phase <- lift (phase_data lifecycle) ;;
  let '(origin, phases, bounds) := phase in
  rc <- lift (lifecycle_records bounds lifecycle) ;;
  lime_ <- load_lime lime_dir (startup_tgid rc.1) ;;
  trace_end <- lift (trace_end_of lifecycle lime_ origin) ;;
  keyed <- lift (traverse (λ r, k ← create_key r; mret (k, r)) rc.1) ;;
  timed_ <- lift (traverse (time_record origin trace_end lime_) rc.1) ;;
  let threads := omap (M := list) (A := option (list Interval * pydict)) id timed_ in
  sys (WriteCsv (output_dir // "thread_timing.csv") timing_fields threads.*2) ;;
  sys (WriteCsv (output_dir // "thread_intervals.csv") startup_interval_fields
         (map interval_row (threads ≫= fst))) ;;
  sys (WriteCsv (output_dir // "thread_events.csv") timeline_fields
         (map tl_row (timeline origin bounds keyed lifecycle lime_))) ;;
  text <- optional_text stdout_path ;;
  out <- lift (fold_outcome stdout_line no_stdout
                 (match text with Some text => py_splitlines text | None => [] end)) ;;
  manifest <- optional_json (output_dir // "run_manifest.json") ;;
  ordered <- lift (traverse (λ p, t ← py_int (dgetd "timestamp_ns" (VInt 0) p); mret (t, p)) phases) ;;
  log <- optional_text (Some (output_dir // "kernel_log.txt")) ;;
  events <- lift (traverse (uvc_of_line (sort_on fst ordered))
                    (match log with Some text => py_splitlines text | None => [] end)) ;;
  let uvc := omap (M := list) (A := option uvc_event) id events in
  sys (WriteCsv (output_dir // "kernel_events.csv") kernel_fields (map (uvc_row origin bounds) uvc)) ;;
  summary <- lift (startup_summary {|
    s_rows := threads.*2; s_stdout := out; s_manifest := manifest;
    s_kernel_log := bool_decide (is_Some log); s_uvc := uvc; s_phases := phases; s_bounds := bounds;
    s_lime_tasks := Z.of_nat (length (events_by_tid lime_)) |}) ;;
  sys (WriteJson (output_dir // "summary.json") (VDict summary)) ;;
  ret summary.
End parse.

(** ** The timeline is sorted and complete *)

(** By time stamp, at equal times the scheduler's events first. *)
Definition timeline_le (x y : timeline_row) : Prop :=
  tl_timestamp x < tl_timestamp y ∨
  (tl_timestamp x = tl_timestamp y ∧ source_rank x <= source_rank y).

Lemma insert_lexicographic x l :
  Forall (λ y, source_rank x <= source_rank y) l →
  StronglySorted timeline_le l → StronglySorted timeline_le (insert_on tl_timestamp x l).
Proof.
  intros Hx Hs. induction Hs as [|y l Hs IH Hy]; simpl.
  { constructor; [constructor|apply Forall_nil_2]. }
  apply Forall_cons in Hx as [Hxy Hx]. case_bool_decide as Hle.
  - assert (timeline_le x y) as Hle' by (unfold timeline_le; lia). constructor; [by constructor|].
    constructor; [done|]. rewrite Forall_forall in Hy, Hx. apply Forall_forall. intros z Hz.
    specialize (Hy z Hz). specialize (Hx z Hz). unfold timeline_le in *. lia.
  - constructor; [by apply IH|]. rewrite insert_on_perm. constructor; [unfold timeline_le; lia|done].
Qed.
Lemma sort_lexicographic l :
  StronglySorted (key_le source_rank) l → StronglySorted timeline_le (sort_on tl_timestamp l).
Proof.
  induction 1 as [|x l Hs IH Hx]; simpl; [constructor|]. apply insert_lexicographic; [|done].
  by rewrite sort_on_perm.
Qed.

(** The timeline of a startup trace is sorted and complete: it lists the
    lifecycle events that carry a time stamp and all scheduler events, each
    exactly once, in the order of their time stamps and, at equal times, the
    scheduler's events before the lifecycle's. *)
Theorem timeline_sorted_complete origin bounds keyed lifecycle lime_ :
  StronglySorted timeline_le (timeline origin bounds keyed lifecycle lime_) ∧
  timeline origin bounds keyed lifecycle lime_ ≡ₚ
    omap (pthread_row origin bounds keyed) lifecycle ++
    (events_by_tid lime_ ≫= λ te, map (lime_row origin bounds te.1) te.2) ∧
  map tl_timestamp (omap (pthread_row origin bounds keyed) lifecycle) =
    omap (λ e, int_instance (dgetd "timestamp_ns" VNone e)) lifecycle.
Proof.
  unfold timeline. split_and!.
  - apply sort_lexicographic, sort_on_sorted.
  - by rewrite !sort_on_perm.
  - induction lifecycle as [|e l IH]; [done|]. simpl. unfold pthread_row at 1.
    destruct (int_instance _) as [t|]; [|done]. simpl. f_equal. exact IH.
Qed.

(** ** The summary accounts for the kernel's errors *)

Lemma Ok_inj {A} (a b : A) : Ok a = Ok b → a = b.
Proof. by intros [=]. Qed.
Lemma dget_app {A} k (d e : list (string * A)) :
  dget k (d ++ e) = match dget k d with Some v => Some v | None => dget k e end.
Proof. induction d as [|[k' v] d IH]; simpl; [done|]. by case_bool_decide. Qed.
Lemma traverse_keys {A B} (f : string * A → outcome (string * B)) l r :
  (∀ p q, f p = Ok q → q.1 = p.1) → traverse f l = Ok r → dkeys r = l.*1.
Proof.
  intros Hf Hr%traverse_ok. induction Hr as [|p q l r Hq _ IH]; [done|]. simpl.
  by rewrite IH, (Hf p q).
Qed.
Lemma dget_skip {A} k (d e : list (string * A)) : k ∉ dkeys d → dget k (d ++ e) = dget k e.
Proof. intros Hk. rewrite dget_app. by apply dget_None in Hk as ->. Qed.

Lemma classify_class name : classify_uvc_phase name ∈ PHASE_CLASSES.
Proof.
  unfold classify_uvc_phase. destruct (span_digits _) as [d r]. repeat case_match;
    apply (bool_decide_unpack _); by vm_compute.
Qed.

(** How many of some phase classes are [c]. *)
Lemma counter_total l :
  Forall (λ c, c ∈ PHASE_CLASSES) l →
  counter "startup" l + counter "streaming" l + counter "teardown" l + counter "other" l =
  Z.of_nat (length l).
Proof.
  unfold counter. induction 1 as [|c l Hc _ IH]; [done|]. rewrite !filter_cons. simpl length.
  unfold PHASE_CLASSES in Hc. rewrite !elem_of_cons in Hc.
  destruct Hc as [->|[->|[->|[->|Hc%not_elem_of_nil]]]]; [simpl; lia..|done].
Qed.

(** The error counters of a summary. *)
Definition uvc_total (summary : pydict) (n startup streaming teardown other : Z) : Prop :=
  dget "uvc_resubmit_errors" summary = Some (VInt n) ∧
  dget "uvc_resubmit_errors_startup" summary = Some (VInt startup) ∧
  dget "uvc_resubmit_errors_streaming" summary = Some (VInt streaming) ∧
  dget "uvc_resubmit_errors_teardown" summary = Some (VInt teardown) ∧
  dget "uvc_resubmit_errors_other" summary = Some (VInt other).

Lemma startup_summary_uvc d summary :
  startup_summary d = Ok summary →
  let classes := map u_class (s_uvc d) in
  uvc_total summary (Z.of_nat (length (s_uvc d))) (counter "startup" classes)
    (counter "streaming" classes) (counter "teardown" classes) (counter "other" classes).
Proof.
  unfold startup_summary. intros (final & _ & (workers & _ & (cycles & _ & (means & Hm &
    (maxima & Hx & (totals & Ht & (delay & _ & Hsum)%outcome_bind_ok)%outcome_bind_ok)%outcome_bind_ok
    )%outcome_bind_ok)%outcome_bind_ok)%outcome_bind_ok)%outcome_bind_ok.
  apply traverse_keys in Hm; [|by intros p q (x & _ & [= <-])%outcome_bind_ok].
  apply traverse_keys in Hx; [|by intros p q (x & _ & [= <-])%outcome_bind_ok].
  apply traverse_keys in Ht; [|by intros p q (x & _ & [= <-])%outcome_bind_ok].
  assert (∀ k rest, k ∉ MEASURES.*1 ++ MAXIMA.*1 ++ TOTALS.*1 →
    dget k (means ++ maxima ++ totals ++ rest) = dget k rest) as Hskip.
  { intros k rest. rewrite !not_elem_of_app. intros (H1 & H2 & H3).
    rewrite !dget_skip; rewrite ?Hm, ?Hx, ?Ht; done. }
  apply Ok_inj in Hsum as <-. unfold uvc_total. split_and!;
    (rewrite dget_skip by (apply (bool_decide_unpack _); by vm_compute));
    (rewrite Hskip by (apply (bool_decide_unpack _); by vm_compute)); reflexivity.
Qed.

Lemma uvc_of_line_class ordered line u :
  uvc_of_line ordered line = Ok (Some u) → u_class u ∈ PHASE_CLASSES.
Proof.
  unfold uvc_of_line. destruct (uvc_search line) as [[[stamp interface] code]|]; [|done].
  intros (x & _ & (t & _ & [= <-])%outcome_bind_ok)%outcome_bind_ok. apply classify_class.
Qed.
Lemma uvc_lines_classes ordered lines events :
  traverse (uvc_of_line ordered) lines = Ok events →
  Forall (λ c, c ∈ PHASE_CLASSES)
    (map u_class (omap (M := list) (A := option uvc_event) id events)).
Proof.
  intros He%traverse_ok. induction He as [|line o lines events Ho _ IH]; [apply Forall_nil_2|].
  destruct o as [u|]; [|exact IH]. constructor; [|exact IH]. by eapply uvc_of_line_class.
Qed.

(** No kernel error is lost or counted twice.  In the summary of a startup
    trace the number of UVC resubmit errors is the sum of those attributed to
    the startup, streaming, teardown and other phases. *)
Theorem uvc_errors_accounted {W} `{OS W} {T} lifecycle_path lime_dir output_dir stdout_path
    (sw : T * world W) :
  wp (parse_startup_trace lifecycle_path lime_dir output_dir stdout_path)
     (λ summary _, ∃ startup streaming teardown other,
        uvc_total summary (startup + streaming + teardown + other) startup streaming teardown other)
     (λ _ _, True) sw.
Proof.
  unfold parse_startup_trace. do 2 (apply wp_skip; [intros ? ?|done]).
  apply wp_skip; [intros [[origin phases] bounds] ?|done].
  do 13 (apply wp_skip; [intros ? ?|done]).
  apply wp_bind, wp_lift. destruct (traverse (uvc_of_line _) _) as [events|] eqn:He; [|done].
  apply uvc_lines_classes, counter_total in He. rewrite length_map in He.
  apply wp_skip; [intros _ ?|done]. apply wp_bind, wp_lift.
  destruct (startup_summary _) as [summary|] eqn:Hs; [|done]. apply startup_summary_uvc in Hs.
  apply wp_skip; [intros _ ?|done]. apply wp_ret. cbv zeta in Hs. cbn [s_uvc] in Hs.
  rewrite <- He in Hs. eauto.
Qed.

Example uvc_line_example :
  uvc_search ("[  12.345] usb 2-1: uvcvideo 2-1:1.0: Failed to resubmit video URB (-19).") =
  Some ("12.345", "2-1:1.0", "-19").
Proof. vm_compute. reflexivity. Qed.

(** The startup trace of the machine of [SteadyTrace], with a kernel log. *)
Definition startup_machine : machine :=
  set_files [("/t/out/kernel_log.txt",
      "[  0.000001] uvcvideo 2-1:1.0: Failed to resubmit video URB (-19)." +:+ nl)] trace_machine.
#[local] Instance startup_commands : Commands := λ _ _ m, (exit_status 0 "", m).
Definition startup_run := parse_startup_trace (T := unit) "/t/lifecycle.jsonl" "/t/lime" "/t/out" None
                            ((), World startup_machine []).
Lemma uvc_errors_accounted_witness :
  (match startup_run with (Ok s, _) => dget "uvc_resubmit_errors" s | _ => None end) = Some (VInt 1) ∧
  (∀ summary sw, startup_run = (Ok summary, sw) → ∃ startup streaming teardown other,
     uvc_total summary (startup + streaming + teardown + other) startup streaming teardown other).
Proof.
  split; [by vm_compute|]. intros summary sw Heq.
  exact (wp_ok _ _ _ _ _ _
    (uvc_errors_accounted "/t/lifecycle.jsonl" "/t/lime" "/t/out" None ((), World startup_machine [])) Heq).
Defined.
