(* ===== verification/Shell.v ===== *)
(** * Commands and shell words

    [subprocess.run(..., check=True)] and its exception, the [call] helper of
    the reproduction scripts, and [shlex.quote], which writes values into the
    generated shell adapters.  [sh_word] is the POSIX reading of one word, the
    specification the quoting is proved against. *)
From Stdlib Require Import Ascii ZArith Lia.
From S2P Require Import Prelude PyStr PyFloat PyVal Effects.
From stdpp Require Import base gmap strings list.
Local Open Scope Z_scope.
Local Open Scope M_scope.

(** [str(CalledProcessError)]. *)
Definition signal_names : list string :=
  ["SIGHUP"; "SIGINT"; "SIGQUIT"; "SIGILL"; "SIGTRAP"; "SIGABRT"; "SIGBUS"; "SIGFPE"; "SIGKILL";
   "SIGUSR1"; "SIGSEGV"; "SIGUSR2"; "SIGPIPE"; "SIGALRM"; "SIGTERM"; "SIGSTKFLT"; "SIGCHLD";
   "SIGCONT"; "SIGSTOP"; "SIGTSTP"; "SIGTTIN"; "SIGTTOU"; "SIGURG"; "SIGXCPU"; "SIGXFSZ";
   "SIGVTALRM"; "SIGPROF"; "SIGWINCH"; "SIGIO"; "SIGPWR"; "SIGSYS"].
Definition called_process_text (command : list string) (returncode : Z) : string :=
  let cmd := "Command '" +:+ repr_val (VList (map VStr command)) +:+ "'" in
  if bool_decide (returncode < 0) then
    match signal_names !! Z.to_nat (- returncode - 1) with
    | Some name => cmd +:+ " died with <Signals." +:+ name +:+ ": " +:+ str_Z (- returncode) +:+ ">."
    | None => cmd +:+ " died with unknown signal " +:+ str_Z (- returncode) +:+ "."
    end
  else cmd +:+ " returned non-zero exit status " +:+ str_Z returncode +:+ ".".

Section shell.
Context {W : Type} `{OS W} {S : Type}.
Abbreviation IO := (M (S * world W)).

(** [subprocess.run(command, check=True)]. *)
Definition run_checked (command : list string) (input : option string) (timeout : option f64) :
    IO completed :=
  result <- sys (RunCommand command input timeout) ;;
  if bool_decide (returncode result = 0) then ret result
  else throw CalledProcessError (called_process_text command (returncode result)).
Definition check_call (command : list string) : IO unit := run_checked command None None ;; ret ().
(** [subprocess.check_output(command, text=True)]. *)
Definition check_output (command : list string) : IO string :=
  result <- run_checked command None None ;; ret (stdout result).
End shell.

(** ** [shlex.quote] *)

(** The characters of [\w@%+=:,./-]. *)
Definition sh_safe (a : ascii) : bool :=
  let n := code a in
  (py_isdigit_char a || ((65 <=? n) && (n <=? 90)) || ((97 <=? n) && (n <=? 122)))%nat
  || in_string a "_@%+=:,./-".
(** [s.replace(QUOTE, ...)]: a quote closes the word, stands in double quotes
    and opens the word again. *)
Fixpoint quote_body (s : string) : string :=
  match s with
  | EmptyString => ""
  | String a s =>
      if bool_decide (a = squote)
      then String squote (String dquote (String squote (String dquote (String squote (quote_body s)))))
      else String a (quote_body s)
  end.
Definition shlex_quote (s : string) : string :=
  if bool_decide (s = "") then String squote (String squote "")
  else if string_forall sh_safe s then s
  else String squote (quote_body s +:+ String squote "").
Definition shlex_join (words : list string) : string := py_join " " (map shlex_quote words).

(** The word a POSIX shell reads: no quoting for safe characters, everything
    literal between single quotes, everything but the escape and expansion
    characters literal between double quotes.  [None] when another character
    with a meaning to the shell stands outside quotes, or a quote is open. *)
Inductive quoting := Unquoted | Single | Double.
Definition expands (a : ascii) : bool :=
  bool_decide (code a = 36 ∨ code a = 96 ∨ code a = 92)%nat.
Fixpoint sh_word (q : quoting) (s : string) : option string :=
  match s with
  | EmptyString => match q with Unquoted => Some "" | _ => None end
  | String a s =>
      match q with
      | Unquoted =>
          if bool_decide (a = squote) then sh_word Single s
          else if bool_decide (a = dquote) then sh_word Double s
          else if sh_safe a then String a <$> sh_word Unquoted s else None
      | Single =>
          if bool_decide (a = squote) then sh_word Unquoted s else String a <$> sh_word Single s
      | Double =>
          if bool_decide (a = dquote) then sh_word Unquoted s
          else if expands a then None else String a <$> sh_word Double s
      end
  end.

Lemma sh_safe_not_quote a : sh_safe a = true → a ≠ squote ∧ a ≠ dquote.
Proof. intros Ha. split; intros ->; discriminate Ha. Qed.
Lemma sh_word_safe s : string_forall sh_safe s = true → sh_word Unquoted s = Some s.
Proof.
  induction s as [|a s IH]; [done|]. cbn. intros [Ha Hs]%andb_true_iff.
  destruct (sh_safe_not_quote a Ha) as [H1 H2]. rewrite !bool_decide_false by done.
  by rewrite Ha, IH.
Qed.
Lemma sh_word_quoted s : sh_word Single (quote_body s +:+ String squote "") = Some s.
Proof.
  induction s as [|a s IH]; [done|]. cbn [quote_body]. case_bool_decide as Ha.
  - subst a. rewrite !string_app_cons. cbn -[sh_word]. cbn [sh_word]. cbn.
    fold (sh_word Single). by rewrite IH.
  - rewrite string_app_cons. cbn [sh_word]. rewrite bool_decide_false by done. by rewrite IH.
Qed.
Lemma sh_word_quote s : sh_word Unquoted (shlex_quote s) = Some s.
Proof.
  unfold shlex_quote. case_bool_decide as Hs; [by subst|].
  destruct (string_forall sh_safe s) eqn:Hsafe; [by apply sh_word_safe|].
  cbn [sh_word]. rewrite bool_decide_true by done. apply sh_word_quoted.
Qed.
