(* ===== verification/Kernel.v ===== *)
(** * Kernel selection ([setup/kernel.py])

    The kernel variants of the campaign, the boot configuration a selection
    writes ([config.txt] and [cmdline.txt]), and the installation and
    selection commands. *)
From Stdlib Require Import Ascii ZArith Lia.
From S2P Require Import Prelude PyStr PyFloat PyVal Effects Machine Shell.
From stdpp Require Import base gmap strings list.
Local Open Scope Z_scope.
Local Open Scope py_scope.
Local Open Scope M_scope.

(** [VARIANTS]: release, boot prefix and the directories of the artifacts. *)
Record variant := Variant {
  v_release : string; v_prefix : string; v_boot_source : string; v_modules_source : string }.
Definition VARIANTS : list (string * variant) := [
  ("standard-urb5", Variant "6.12.96-rpi5-standard-btf+" "standard-6.12-btf"
     "artifacts/standard-boot" "artifacts/standard-root-stripped");
  ("standard-urb16", Variant "6.12.96-rpi5-standard-btf-uvc16+" "standard-6.12-btf-uvc16"
     "artifacts/standard-uvc16-boot" "stage-standard-btf-uvc16");
  ("rt-urb16", Variant "6.12.96-rpi5-rt-btf-uvc16+" "rt-6.12-btf-uvc16"
     "artifacts/rt-uvc16-boot" "stage-rt-btf-uvc16")].
(** [VARIANTS[name]]. *)
Definition get_variant (name : string) : outcome variant :=
  match dget name VARIANTS with Some v => Ok v | None => key_error name end.

(** The dictionary comprehension over the lines: a later line wins. *)
Definition config_settings (text : string) : list (string * string) :=
  foldl (λ d line,
    if py_startswith "CONFIG_" line && py_contains "=" line
       && negb (py_startswith "CONFIG_CC_VERSION_TEXT=" line)
    then let '(k, _, v) := py_partition "="%char line in dset k v d else d) [] (py_splitlines text).
(** [==] on dictionaries of text. *)
Definition settings_eq (d e : list (string * string)) : bool :=
  bool_decide (length d = length e) && forallb (λ p, bool_decide (dget p.1 e = Some p.2)) d.

Definition newline : ascii := Ascii.ascii_of_nat 10.
(** The lines that [^os_prefix=.*$] matches (multi-line mode). *)
Definition is_os_prefix (line : string) : bool := py_startswith "os_prefix=" line.
Definition os_prefix_line (prefix : string) : string := "os_prefix=" +:+ prefix +:+ "/".
Definition os_prefixes (config : string) : list string :=
  filter (λ l, is_os_prefix l = true) (py_split newline config).

Definition selected_config (config prefix : string) : string :=
  match os_prefixes config with
  | [] => py_rstrip config +:+ nl +:+ nl +:+ "[all]" +:+ nl +:+ os_prefix_line prefix +:+ nl
  | _ => py_join nl (map (λ l, if is_os_prefix l then os_prefix_line prefix else l)
                         (py_split newline config))
  end.
Definition kept_words (cmdline : string) : list string :=
  filter (λ w, w ≠ "threadirqs") (py_words cmdline).

Definition boot_selection (config cmdline prefix : string) (threaded : bool) :
    outcome (string * string) :=
  if bool_decide (1 < length (os_prefixes config))%nat
  then raise ValueError "Multiple os_prefix entries; inspect boot configuration" else
  let words := kept_words cmdline in
  if negb (existsb (py_startswith "root=") words)
  then raise ValueError "Missing root= boot argument" else
  let words := if threaded then words ++ ["threadirqs"] else words in
  Ok (selected_config config prefix, py_join " " words +:+ nl).

(** ** The command line *)

Record kernel_args := KernelArgs {
  ka_install : bool; ka_variant : string; ka_threadirqs : bool; ka_artifacts : string;
  ka_boot : string; ka_root : string; ka_apply : bool }.

(** [strftime('%Y%m%dT%H%M%S%fZ')] of a UTC time, from its ISO form: without
    microseconds [isoformat] leaves the fraction out. *)
Fixpoint drop_chars (p : ascii → bool) (s : string) : string :=
  match s with
  | EmptyString => ""
  | String a s => if p a then drop_chars p s else String a (drop_chars p s)
  end.
Definition stamp (iso : string) : string :=
  drop_chars (λ a, in_string a "-:") (String.substring 0 19 iso)
  +:+ (if py_startswith "." (py_drop 19 iso) then String.substring 20 6 iso else "000000") +:+ "Z".

Section kernel.
Context {W : Type} `{OS W} {S : Type} (HERE : string).
Abbreviation IO := (M (S * world W)).

(** [for p in paths: if not p.exists(): raise ...] and the [is_file] variant. *)
Definition require_path (test : string → syscall bool) (what p : string) : IO unit :=
  found <- sys (test p) ;; when (negb found) (throw ValueError (what +:+ p)).

Definition check_install (args : kernel_args) (v : variant) : IO unit :=
  let src := ka_artifacts args // v_boot_source v in
  let modules := ka_artifacts args // v_modules_source v // "lib/modules" // v_release v in
  let config := "config-" +:+ v_release v in
  for_each [src // "vmlinuz"; src // config; src // "bcm2712-rpi-5-b.dtb"; src // "overlays"; modules]
    (require_path PathExists "Missing kernel artifact: ") ;;
  built <- sys (ReadText (src // config)) ;;
  preserved <- sys (ReadText (HERE // "kernel-configs" // (ka_variant args +:+ ".config"))) ;;
  when (negb (settings_eq (config_settings built) (config_settings preserved)))
    (throw ValueError "Artifact kernel configuration differs from the preserved configuration") ;;
  there <- sys (PathExists (ka_boot args // v_prefix v)) ;;
  installed <- (if there : bool then ret true
                else sys (PathExists (ka_root args // "lib/modules" // v_release v))) ;;
  when installed
    (throw ValueError "Kernel already installed; refusing to overwrite its boot files/modules").

Definition plan_selection (args : kernel_args) (v : variant) : IO (string * string) :=
  let destination := ka_boot args // v_prefix v in
  for_each ["vmlinuz"; "initrd.img"; "cmdline.txt"]
    (λ name, require_path IsFile "Missing " (destination // name)) ;;
  config <- sys (ReadText (ka_boot args // "config.txt")) ;;
  cmdline <- sys (ReadText (destination // "cmdline.txt")) ;;
  lift (boot_selection config cmdline (v_prefix v) (ka_threadirqs args)).

Definition check_apply (args : kernel_args) : IO unit :=
  uid <- sys GetEuid ;;
  when (negb (bool_decide (uid = 0))) (throw ValueError "--apply requires root") ;;
  when (negb (bool_decide (ka_root args = "/" ∧ ka_boot args = "/boot/firmware")))
    (throw ValueError "--apply supports only the live Pi paths") ;;
  model <- sys (ReadText "/proc/device-tree/model") ;;
  when (negb (py_contains "Raspberry Pi 5" model)) (throw ValueError "Pi 5 required").

Definition apply_install (args : kernel_args) (v : variant) : IO unit :=
  let src := ka_artifacts args // v_boot_source v in
  let modules := ka_artifacts args // v_modules_source v // "lib/modules" // v_release v in
  let destination := ka_boot args // v_prefix v in
  sys (CopyTree src destination) ;;
  sys (CopyTree modules (ka_root args // "lib/modules" // v_release v)) ;;
  sys (Copy (ka_boot args // "cmdline.txt") (destination // "cmdline.txt")) ;;
  check_call ["depmod"; "-a"; v_release v] ;;
  check_call ["mkinitramfs"; "-o"; destination // "initrd.img"; v_release v].

Definition apply_selection (args : kernel_args) (v : variant) (config cmdline : string) : IO unit :=
  let destination := ka_boot args // v_prefix v in
  time <- sys UtcNow ;;
  let backup := ka_boot args // ("reproduction-backup-" +:+ stamp time) in
  sys (Mkdir backup false) ;;
  sys (Copy (ka_boot args // "config.txt") (backup // "config.txt")) ;;
  sys (Copy (destination // "cmdline.txt") (backup // "cmdline.txt")) ;;
  sys (WriteText (backup // "prefix.txt") (v_prefix v +:+ nl)) ;;
  sys (WriteText (destination // "cmdline.txt") cmdline) ;;
  sys (WriteText (ka_boot args // "config.txt") config).

(** [main]: the plan is checked also without [--apply]. *)
Definition kernel_main (args : kernel_args) : IO unit :=
  v <- lift (get_variant (ka_variant args)) ;;
  if ka_install args then
    check_install args v ;;
    if negb (ka_apply args) then ret () else
    check_apply args ;; apply_install args v ;; sys SyncDisks
  else
    selection <- plan_selection args v ;;
    if negb (ka_apply args) then ret () else
    check_apply args ;; apply_selection args v selection.1 selection.2 ;; sys SyncDisks.
End kernel.


(** ** What a selection writes *)

Abbreviation prefix_lines := (filter (λ l, is_os_prefix l = true)).

Lemma is_os_prefix_line prefix : is_os_prefix (os_prefix_line prefix) = true.
Proof. apply py_startswith_app. Qed.
Lemma prefix_lines_none lines :
  prefix_lines lines = [] ↔ Forall (λ l, is_os_prefix l = false) lines.
Proof.
  induction lines as [|l lines IH]; [split; [constructor|done]|].
  rewrite filter_cons, Forall_cons, <- IH. case_decide as Hl; [|apply not_true_is_false in Hl]; naive_solver congruence.
Qed.
Lemma replaced_lines_none (f : string → string) lines :
  Forall (λ l, is_os_prefix l = false) lines →
  map (λ l, if is_os_prefix l then f l else l) lines = lines.
Proof. induction 1 as [|l lines Hl _ IH]; simpl; [done|]. by rewrite Hl, IH. Qed.

(** One prefix line: the lines around it stay. *)
Lemma prefix_lines_one lines :
  length (prefix_lines lines) = 1%nat →
  ∃ before line after, lines = before ++ line :: after ∧ is_os_prefix line = true ∧
    Forall (λ l, is_os_prefix l = false) before ∧ Forall (λ l, is_os_prefix l = false) after.
Proof.
  induction lines as [|l lines IH]; [done|]. rewrite filter_cons. case_decide as Hl; simpl.
  - intros [= Hn]. exists [], l, lines. split_and!; [done|done|constructor|].
    apply prefix_lines_none. by apply length_zero_iff_nil.
  - intros Hn. destruct (IH Hn) as (b & x & a & -> & ? & ? & ?). exists (l :: b), x, a.
    apply not_true_is_false in Hl. split_and!; try done. by constructor.
Qed.
Lemma prefix_lines_split before line after :
  Forall (λ l, is_os_prefix l = false) before → Forall (λ l, is_os_prefix l = false) after →
  is_os_prefix line = true → prefix_lines (before ++ line :: after) = [line].
Proof.
  intros Hb Ha Hl. rewrite filter_app, filter_cons, decide_True by done.
  by rewrite (proj2 (prefix_lines_none before)), (proj2 (prefix_lines_none after)).
Qed.

Lemma lines_of_join lines :
  lines ≠ [] → Forall (λ l, in_string newline l = false) lines →
  py_split newline (py_join nl lines) = lines.
Proof. apply (py_split_join newline). Qed.
Lemma line_no_newline prefix : in_string newline prefix = false → in_string newline (os_prefix_line prefix) = false.
Proof. intros Hp. unfold os_prefix_line. by rewrite !in_string_app, Hp. Qed.

(** The lines of the selected configuration. *)
Lemma selected_config_lines config prefix :
  in_string newline prefix = false → (length (os_prefixes config) <= 1)%nat →
  ∃ before after,
    py_split newline (selected_config config prefix) = before ++ os_prefix_line prefix :: after ∧
    Forall (λ l, is_os_prefix l = false) before ∧ Forall (λ l, is_os_prefix l = false) after ∧
    (length (os_prefixes config) = 1%nat →
       ∃ line, py_split newline config = before ++ line :: after ∧ is_os_prefix line = true) ∧
    (os_prefixes config = [] →
       before = py_split newline (py_rstrip config) ++ [""; "[all]"] ∧ after = [""]).
Proof.
  intros Hp Hlen. pose proof (py_split_no_sep newline config) as Hsep.
  unfold selected_config. destruct (os_prefixes config) as [|p ps] eqn:Hps; unfold os_prefixes in Hps.
  - exists (py_split newline (py_rstrip config) ++ [""; "[all]"]), [""].
    assert (Forall (λ l, is_os_prefix l = false) (py_split newline (py_rstrip config))) as Hkept.
    { apply prefix_lines_none in Hps. destruct (rstrip_by_prefix py_isspace config) as [t Ht].
      fold (py_rstrip config) in Ht.
      destruct (py_split_app newline (py_rstrip config) t) as (ls & l & r & rs & H1 & _ & H3).
      rewrite <- Ht in H3. rewrite H3 in Hps. rewrite H1. apply Forall_app in Hps as [Hls Hrest].
      simpl in Hrest. apply Forall_cons in Hrest as [Hl _]. apply Forall_app. split; [done|].
      apply Forall_singleton. destruct (is_os_prefix l) eqn:Hpl; [|done].
      unfold is_os_prefix in *. apply py_startswith_inv in Hpl. rewrite Hpl, string_app_assoc in Hl.
      by rewrite py_startswith_app in Hl. }
    split_and!; [|by apply Forall_app; split; [|repeat constructor]|by repeat constructor|done|done].
    destruct (py_split_app newline (py_rstrip config)
      (nl +:+ nl +:+ "[all]" +:+ nl +:+ os_prefix_line prefix +:+ nl)) as (ls & l & r & rs & H1 & H2 & H3).
    rewrite H3, H1. assert (r :: rs = ["" ; ""; "[all]"; os_prefix_line prefix; ""]) as Hr.
    { rewrite <- H2. change (nl +:+ nl +:+ "[all]" +:+ nl +:+ os_prefix_line prefix +:+ nl) with
        (py_join nl ["" ; ""; "[all]"; os_prefix_line prefix; ""]). apply lines_of_join; [done|].
      repeat (apply Forall_cons_2; [first [done|by apply line_no_newline]|]). constructor. }
    injection Hr as -> ->. rewrite string_app_nil_r, <- !app_assoc. done.
  - assert (length (prefix_lines (py_split newline config)) = 1%nat) as Hone.
    { rewrite Hps. simpl in *. lia. }
    destruct (prefix_lines_one _ Hone) as (b & x & a & Heq & Hx & Hb & Ha). exists b, a.
    split_and!; [|done|done|by eexists|done].
    rewrite Heq, map_app, map_cons, Hx, !(replaced_lines_none (λ _, os_prefix_line prefix)) by done.
    apply lines_of_join; [by destruct b|]. rewrite Heq in Hsep.
    apply Forall_app in Hsep as [Hsb Hsa]. apply Forall_cons in Hsa as [_ Hsa].
    apply Forall_app; split; [done|]. apply Forall_cons; split; [by apply line_no_newline|done].
Qed.

Lemma selected_config_again config prefix :
  in_string newline prefix = false → (length (os_prefixes config) <= 1)%nat →
  os_prefixes (selected_config config prefix) = [os_prefix_line prefix] ∧
  selected_config (selected_config config prefix) prefix = selected_config config prefix.
Proof.
  intros Hp Hlen. destruct (selected_config_lines config prefix Hp Hlen) as (b & a & Heq & Hb & Ha & _).
  assert (os_prefixes (selected_config config prefix) = [os_prefix_line prefix]) as H1.
  { unfold os_prefixes. rewrite Heq. apply prefix_lines_split; [done|done|apply is_os_prefix_line]. }
  split; [done|]. unfold selected_config at 1. rewrite H1, Heq, map_app, map_cons, is_os_prefix_line.
  rewrite !(replaced_lines_none (λ _, os_prefix_line prefix)) by done. rewrite <- Heq.
  apply (py_join_split newline).
Qed.

Definition thread_words (threaded : bool) : list string := if threaded then ["threadirqs"] else [].
Lemma selected_words cmdline (threaded : bool) :
  py_words (py_join " " (if threaded then kept_words cmdline ++ ["threadirqs"] else kept_words cmdline) +:+ nl)
  = kept_words cmdline ++ thread_words threaded.
Proof.
  assert (Forall (λ w, is_word w = true) (kept_words cmdline)) as Hw.
  { apply Forall_forall. intros w [_ Hw]%list_elem_of_filter. revert w Hw. apply Forall_forall, py_words_words. }
  destruct threaded; simpl; rewrite py_words_join; rewrite ?app_nil_r; try done.
  apply Forall_app; split; [done|]. by repeat constructor.
Qed.
Lemma kept_words_again cmdline threaded :
  filter (λ w, w ≠ "threadirqs") (kept_words cmdline ++ thread_words threaded) = kept_words cmdline.
Proof.
  unfold kept_words. rewrite filter_app, list_filter_filter. 
  rewrite (list_filter_iff _ (λ w : string, w ≠ "threadirqs")) by naive_solver.
  destruct threaded; simpl; [rewrite filter_cons, decide_False by naive_solver|]; apply app_nil_r.
Qed.

Lemma kept_words_selected cmdline (threaded : bool) :
  kept_words (py_join " " (if threaded then kept_words cmdline ++ ["threadirqs"] else kept_words cmdline) +:+ nl)
  = kept_words cmdline.
Proof. unfold kept_words at 1. by rewrite selected_words, kept_words_again. Qed.

(** What [boot_selection] returns. *)
Lemma boot_selection_ok config cmdline prefix (threaded : bool) config' cmdline' :
  boot_selection config cmdline prefix threaded = Ok (config', cmdline') →
  (length (os_prefixes config) <= 1)%nat ∧ existsb (py_startswith "root=") (kept_words cmdline) = true ∧
  config' = selected_config config prefix ∧
  cmdline' = py_join " " (if threaded then kept_words cmdline ++ ["threadirqs"] else kept_words cmdline) +:+ nl.
Proof.
  unfold boot_selection. case_bool_decide; [done|]. destruct (existsb _ _); [|done].
  simpl. intros [= <- <-]. split_and!; try done. lia.
Qed.

(** Selecting a kernel for the next boot.  The selection fails when the
    configuration has several [os_prefix] entries or the kernel command line no
    [root=]; otherwise the new configuration has exactly one [os_prefix] line,
    that of the selected kernel, and keeps every other line (a new entry goes
    into an [[all]] section at the end); the new command line has the other
    words in their order and [threadirqs] exactly when asked for; and applying
    the same selection again changes nothing. *)
Theorem boot_selection_spec config cmdline prefix threaded :
  in_string newline prefix = false →
  match boot_selection config cmdline prefix threaded with
  | Raise e => e = Exn ValueError "Multiple os_prefix entries; inspect boot configuration" ∧
                 (1 < length (os_prefixes config))%nat
               ∨ e = Exn ValueError "Missing root= boot argument" ∧
                 Forall (λ w, w = "threadirqs" ∨ py_startswith "root=" w = false) (py_words cmdline)
  | Ok (config', cmdline') =>
      (∃ before after,
         py_split newline config' = before ++ os_prefix_line prefix :: after ∧
         os_prefixes config' = [os_prefix_line prefix] ∧
         ((∃ line, py_split newline config = before ++ line :: after) ∨
          os_prefixes config = [] ∧
          before = py_split newline (py_rstrip config) ++ [""; "[all]"] ∧ after = [""])) ∧
      py_words cmdline' = filter (λ w, w ≠ "threadirqs") (py_words cmdline) ++ thread_words threaded ∧
      boot_selection config' cmdline' prefix threaded = Ok (config', cmdline')
  end.
Proof.
  intros Hp. destruct (boot_selection config cmdline prefix threaded) as [[config' cmdline']|e] eqn:Heq.
  - apply boot_selection_ok in Heq as (Hlen & Hroot & -> & ->).
    destruct (selected_config_again config prefix Hp Hlen) as [Hone Hagain].
    destruct (selected_config_lines config prefix Hp Hlen) as (b & a & Hl & _ & _ & H1 & H0).
    split_and!.
    + exists b, a. split_and!; [done|done|]. destruct (os_prefixes config) as [|p ps] eqn:Hps.
      * right. destruct (H0 eq_refl). done.
      * left. destruct H1 as (line & Hline & _); [simpl in *; lia|]. by exists line.
    + apply selected_words.
    + unfold boot_selection. rewrite Hone, Hagain, !kept_words_selected, Hroot. done.
  - unfold boot_selection in Heq. case_bool_decide; [left; by injection Heq as <-|].
    destruct (existsb _ _) eqn:Hr; [done|]. injection Heq as <-. right. split; [done|].
    apply Forall_forall. intros w Hw. destruct (decide (w = "threadirqs")); [by left|right].
    destruct (py_startswith "root=" w) eqn:Hs; [|done]. rewrite <- Hr. symmetry.
    apply existsb_exists. exists w. split; [|done]. apply list_elem_of_In, list_elem_of_filter. done.
Qed.

Lemma boot_selection_spec_witness :
  boot_selection ("arm_64bit=1" +:+ nl +:+ "os_prefix=old/" +:+ nl) "root=/dev/x threadirqs quiet" "rt" false
    = Ok ("arm_64bit=1" +:+ nl +:+ "os_prefix=rt/" +:+ nl, "root=/dev/x quiet" +:+ nl) ∧
  is_ok (boot_selection "dtparam=audio=on" "root=/dev/x" "rt" true) = true ∧
  py_words ("root=/dev/x threadirqs" +:+ nl) = ["root=/dev/x"] ++ thread_words true.
Proof.
  split; [vm_compute; reflexivity|]. split; [vm_compute; reflexivity|].
  refine (proj1 (proj2 (boot_selection_spec "dtparam=audio=on" "root=/dev/x" "rt" true _))).
  vm_compute. reflexivity.
Defined.
