(* ===== verification/Reproduce.v ===== *)
(** * Stages of the reproduction ([reproduce.py])

    The stage and kernel tables, the camera configuration and its validation,
    the preflight check of a stage, the provenance record and the profile
    generation.  Directories below [repo] and [root] are text paths. *)
From Stdlib Require Import Ascii ZArith Lia Floats.SpecFloat.
From S2P Require Import Prelude PyStr PyFloat PyVal Effects Machine Shell.
From stdpp Require Import base gmap strings list sorting.
Local Open Scope Z_scope.
Local Open Scope py_scope.
Local Open Scope M_scope.

(** ** Tables *)

(** [STAGES]: the kernel mode and the number of runs. *)
Definition STAGES : list (string * (string * Z)) := [
  ("startup", ("standard-hardirq16", 20)); ("ablation", ("standard-threaded16", 6));
  ("e1", ("rt-threaded16", 12)); ("e2-calibrate", ("rt-threaded16", 2));
  ("e2-urb5", ("standard-hardirq5", 6)); ("e2-urb16", ("standard-hardirq16", 6));
  ("e3", ("standard-threaded16", 18)); ("e4-calibrate", ("standard-threaded16", 6));
  ("e4-standard-hardirq", ("standard-hardirq16", 24));
  ("e4-standard-threaded", ("standard-threaded16", 72)); ("e4-rt-threaded", ("rt-threaded16", 96));
  ("overhead", ("standard-hardirq16", 18)); ("diagnosis", ("standard-hardirq16", 1))].
(** [KERNELS]: release and [threadirqs]. *)
Definition KERNELS : list (string * (string * bool)) := [
  ("standard-hardirq5", ("6.12.96-rpi5-standard-btf+", false));
  ("standard-hardirq16", ("6.12.96-rpi5-standard-btf-uvc16+", false));
  ("standard-threaded16", ("6.12.96-rpi5-standard-btf-uvc16+", true));
  ("rt-threaded16", ("6.12.96-rpi5-rt-btf-uvc16+", true))].
Definition table {A} (k : string) (d : list (string * A)) : outcome A :=
  match dget k d with Some v => Ok v | None => key_error k end.

(** [EXPERIMENTS]: stages and sections. *)
Definition EXPERIMENTS : list (string * (list string * list string)) := [
  ("e1_workers", (["startup"; "ablation"; "e1"], ["startup"; "ablation"; "e1"]));
  ("e2_uvc_pool", (["e2-calibrate"; "e2-urb5"; "e2-urb16"; "diagnosis"], ["e2"; "diagnosis"]));
  ("e3_kernel_path", (["e3"], ["e3"]));
  ("e4_scheduling", (["e4-calibrate"; "e4-standard-hardirq"; "e4-standard-threaded";
                      "e4-rt-threaded"; "overhead"], ["e4"; "overhead"]))].

(** ** Text edits *)

Definition replace_once (text old new : string) : outcome string :=
  if negb (bool_decide (py_count old text = 1%nat))
  then raise ValueError ("Source changed: expected one occurrence of " +:+ py_repr old)
  else Ok (py_replace_max old new 1 text).
Definition before (text marker : string) : outcome string :=
  if negb (bool_decide (py_count marker text = 1%nat))
  then raise ValueError ("Source changed: expected unique boundary " +:+ py_repr marker)
  else Ok (py_before marker text).
Definition q (value : string) : string := shlex_quote value.
Definition patched_analyzer (text : string) : outcome string :=
  replace_once text "if latency_s < 0.0 or latency_s > 0.250:" "if latency_s < 0.0:".

(** ** The camera configuration *)

(** [re.fullmatch(pattern, v)]: a [TypeError] on anything but text. *)
Definition fullmatch (p : string → bool) (v : pyval) : outcome bool :=
  match v with
  | VStr s => Ok (p s)
  | _ => raise TypeError ("expected string or bytes-like object, got '" +:+ type_name v +:+ "'")
  end.
(** [all(...)]: stops at the first that does not match. *)
Fixpoint all_match (p : string → bool) (l : list pyval) : outcome bool :=
  match l with
  | [] => Ok true
  | v :: l => b ← fullmatch p v; if (b : bool) then all_match p l else Ok false
  end.
Definition xhci_label (s : string) : bool :=
  py_startswith "xhci-hcd:usb" s && py_isdigit (py_drop 12 s).

Definition check_camera_irq (camera : pyval) : outcome unit :=
  irq ← item camera "xhci_irq";
  match as_int irq with
  | None => raise ValueError "Set the E3 IRQ numbers from this Pi, not from the paper"
  | Some n =>
      if bool_decide (n <= 0)
      then raise ValueError "Set the E3 IRQ numbers from this Pi, not from the paper" else
      label ← item camera "xhci_label";
      matched ← fullmatch xhci_label label;
      if negb matched then raise ValueError "Set the matching E3 xHCI IRQ labels" else Ok ()
  end.
Definition check_d435 (cameras name : pyval) : outcome unit :=
  camera ← lookup_val cameras name;
  model ← item camera "model";
  if py_eq model (VStr "D435") then Ok ()
  else raise ValueError (str_val name +:+ " is not a D435").
(** [pair + [a, b]]. *)
Definition list_plus (v : pyval) (l : list pyval) : outcome (list pyval) :=
  match v with
  | VList k => Ok (k ++ l)
  | VStr _ => raise TypeError ("can only concatenate str (not " +:+ String dquote ("list" +:+ String dquote ") to str"))
  | _ => raise TypeError ("unsupported operand type(s) for +: '" +:+ type_name v +:+ "' and 'list'")
  end.
(** [{'number': ..., 'label': ...}] for the camera of a role. *)
Definition e3_irq (cameras selection : pyval) (role : string) : outcome pyval :=
  name ← item selection role;
  camera ← lookup_val cameras name;
  number ← item camera "xhci_irq";
  label ← item camera "xhci_label";
  Ok (VDict [("number", number); ("label", label)]).
Definition serial_of (cameras name : pyval) : outcome pyval :=
  camera ← lookup_val cameras name; item camera "serial".

Definition check_serials (cameras : pyval) : outcome unit :=
  cs ← values_of cameras;
  serials ← traverse (λ camera, item camera "serial") cs;
  n ← distinct_count serials;
  if negb (bool_decide (n = length serials))
  then raise ValueError "Camera SDK serials must be distinct" else
  numeric ← all_match py_isdigit serials;
  if negb numeric
  then raise ValueError "Replace serial placeholders with the actual numeric serials" else
  mbind (λ _, Ok ()) (traverse check_camera_irq cs).

(** The selected pair of D435 cameras. *)
Definition check_pair (pair : pyval) : outcome unit :=
  n ← py_len pair;
  if negb (bool_decide (n = 2%nat)) then raise ValueError "Select two different D435 cameras for E4" else
  names ← as_list pair;
  d ← distinct_count names;
  if negb (bool_decide (d = 2%nat)) then raise ValueError "Select two different D435 cameras for E4"
  else Ok ().
Definition check_roles (cameras selection pair : pyval) : outcome unit :=
  single ← item selection "single_d435";
  startup ← item selection "startup_d435";
  names ← list_plus pair [single; startup];
  mbind (λ _ : list unit,
    name ← item selection "single_d455";
    d455 ← lookup_val cameras name;
    model ← item d455 "model";
    if py_eq model (VStr "D455") || py_eq model (VStr "D455F") then Ok ()
    else raise ValueError "Select a D455/D455F") (traverse (check_d435 cameras) names).

(** The attributes [load_config] adds. *)
Definition derive_roles (cfg : pydict) (cameras selection pair : pyval) : outcome pydict :=
  names ← as_list pair;
  pair_serials ← traverse (serial_of cameras) names;
  single ← item selection "single_d435" ≫= serial_of cameras;
  startup ← item selection "startup_d435" ≫= serial_of cameras;
  d455 ← item selection "single_d455" ≫= serial_of cameras;
  irq_d435 ← e3_irq cameras selection "single_d435";
  irq_d455 ← e3_irq cameras selection "single_d455";
  Ok (dset "e3_irqs" (VDict [("d435", irq_d435); ("d455", irq_d455)])
     (dset "d455_serial" d455 (dset "startup_serial" startup
     (dset "single_d435_serial" single (dset "d435_serials" (VList pair_serials) cfg))))).

Definition checked_config (value : pyval) : outcome pydict :=
  cameras ← item value "cameras";
  selection ← item value "selection";
  mbind (λ _,
    pair ← item selection "d435_pair";
    mbind (λ _, mbind (λ _, cfg ← as_dict value; derive_roles cfg cameras selection pair)
      (check_roles cameras selection pair)) (check_pair pair)) (check_serials cameras).

(** [camera_identity]: the copy through JSON is the value itself. *)
Definition drop_irq (camera : pyval) : outcome pyval :=
  match camera with
  | VDict d => Ok (VDict (dpop "xhci_label" (dpop "xhci_irq" d)))
  | _ => raise AttributeError ("'" +:+ type_name camera +:+ "' object has no attribute 'pop'")
  end.
Definition camera_identity (cfg : pydict) : outcome pydict :=
  let identity := dpop "e3_irqs" cfg in
  cameras ← subscript identity "cameras";
  match cameras with
  | VDict cs =>
      cs' ← traverse (λ p, c ← drop_irq p.2; Ok (p.1, c)) cs;
      Ok (dset "cameras" (VDict cs') identity)
  | _ => raise AttributeError ("'" +:+ type_name cameras +:+ "' object has no attribute 'values'")
  end.

(** [path.suffix] and [path.relative_to(repo)] of a path below [repo]. *)
Fixpoint last_dot (s : string) : option string :=
  match s with
  | EmptyString => None
  | String a s' =>
      match last_dot s' with
      | Some t => Some t
      | None => if bool_decide (a = "."%char) then Some s else None
      end
  end.
Definition path_suffix (p : string) : string :=
  let name := path_name p in
  match last_dot (py_drop 1 name) with
  | Some t => if bool_decide (t = ".") then "" else t
  | None => ""
  end.
Definition relative_to (base p : string) : string := py_drop (String.length base + 1) p.

(** [sorted] on text. *)
Fixpoint insert_text (s : string) (l : list string) : list string :=
  match l with
  | [] => [s]
  | t :: l' => if String.leb s t then s :: l else t :: insert_text s l'
  end.
Definition sort_texts (l : list string) : list string := foldr insert_text [] l.
Definition texts_of (v : pyval) : outcome (list string) :=
  l ← as_list v;
  traverse (λ x, match x with VStr s => Ok s | _ => raise TypeError "expected text" end) l.

Section reproduce.
Context {W : Type} `{OS W} {S : Type}.
Abbreviation IO := (M (S * world W)).

Definition digest (path : string) : IO string := sys (FileDigest path).

Definition load_config (path : string) : IO pydict :=
  value <- sys (ReadJson path) ;; lift (checked_config value).

(** ** The preflight check of a stage *)

Definition complain (b : bool) (text : string) : list string := if b then [text] else [].

(** The platform: architecture, model, Wi-Fi, kernel and [threadirqs]. *)
Definition is_aarch64 (m : string) : bool := bool_decide (m ∈ ["aarch64"; "arm64"]).
Definition model_is_pi : IO bool :=
  there <- sys (IsFile "/proc/device-tree/model") ;;
  if negb there then ret false else
  text <- sys (ReadText "/proc/device-tree/model") ;; ret (py_contains "Raspberry Pi 5" text).
Definition check_platform (mode kernel : string) (threaded : bool) : IO (list string) :=
  m <- sys MachineName ;;
  pi <- model_is_pi ;;
  wifi_there <- sys (PathExists "/sys/class/net/wlan0/operstate") ;;
  wifi_up <- (if negb wifi_there then ret false else
              text <- sys (ReadText "/sys/class/net/wlan0/operstate") ;;
              ret (bool_decide (py_strip text = "up"))) ;;
  release <- sys Release ;;
  cmdline <- sys (ReadText "/proc/cmdline") ;;
  ret (complain (negb (is_aarch64 m)) "Acquisition requires the AArch64 Raspberry Pi 5, not this host"
    ++ complain (negb pi) "Paper platform is Raspberry Pi 5"
    ++ complain wifi_up "Paper runs disable Wi-Fi; use wired/local access and disable it before acquisition"
    ++ complain (negb (bool_decide (release = kernel)))
         ("Boot kernel " +:+ kernel +:+ "; found " +:+ release)
    ++ complain (negb (py_startswith "rt-" mode)
                 && negb (eqb (bool_decide ("threadirqs" ∈ py_words cmdline)) threaded))
         (mode +:+ ": threadirqs must be " +:+ repr_val (VBool threaded))).

Definition missing_files (what : string) (paths : list string) : IO (list string) :=
  fold_each paths [] (λ errors path,
    there <- sys (IsFile path) ;;
    ret (errors ++ complain (negb there) (what +:+ path))).

(** The devices the SDK has to find. *)
Definition device_errors (error : exn) : bool := is_OSError error || is_class TimeoutExpired error.
Definition check_device (probe serial : string) (errors : list string) : IO (list string) :=
  try_except device_errors
    (result <- sys (RunCommand [probe; "--serial"; serial; "--device-present"] None (Some (f_of_Z 15))) ;;
     ret (errors ++ complain (negb (bool_decide (returncode result = 0)))
       ("SDK cannot find camera " +:+ serial
        +:+ "; use the librealsense serial, not the USB sysfs serial: " +:+ py_strip (stdout result))))
    (λ error, ret (errors ++ ["SDK device check failed for " +:+ serial +:+ ": " +:+ exn_msg error])).
Definition all_serials (cfg : pydict) : outcome (list string) :=
  pair ← subscript cfg "d435_serials" ≫= texts_of;
  d455 ← subscript cfg "d455_serial";
  single ← subscript cfg "single_d435_serial";
  startup ← subscript cfg "startup_serial";
  rest ← texts_of (VList [d455; single; startup]);
  Ok (sort_texts (remove_dups (pair ++ rest))).
Definition check_devices (repo : string) (cfg : pydict) : IO (list string) :=
  let probe := repo // "build-realsense-steady/d435_sensor_probe" in
  m <- sys MachineName ;;
  there <- (if is_aarch64 m then sys (IsFile probe) else ret false) ;;
  if negb there then ret [] else
  serials <- lift (all_serials cfg) ;;
  fold_each serials [] (λ errors serial, check_device probe serial errors).

Definition check_tools : IO (list string) :=
  errors <- fold_each ["trace-cmd"; "chrt"; "taskset"; "lsusb"; "gcc"; "g++"] [] (λ errors name,
    found <- sys (Which name) ;;
    ret (errors ++ complain (negb found) ("Missing command: " +:+ name))) ;;
  fold_each ["gcc"; "g++"] errors (λ errors compiler,
    found <- sys (Which compiler) ;;
    if negb found then ret errors else
    version <- check_output [compiler; "-dumpfullversion"] ;;
    ret (errors ++ complain (negb (bool_decide (py_strip version = "13.3.0")))
      ("Paper uses " +:+ compiler +:+ " 13.3.0; found " +:+ py_strip version))).

Definition check_build (repo : string) : IO (list string) :=
  let cache := repo // "build-realsense-steady/CMakeCache.txt" in
  there <- sys (IsFile cache) ;;
  configured <- (if negb there then ret false else
                 text <- sys (ReadText cache) ;;
                 ret (py_contains "CMAKE_BUILD_TYPE:STRING=RelWithDebInfo" text)) ;;
  analyzer <- sys (ReadText (repo // "tools/realsense_steady_bench/analyze_full_receive_path.py")) ;;
  ret (complain (negb configured) "Benchmark must be configured as RelWithDebInfo"
    ++ complain (py_contains "latency_s > 0.250" analyzer)
         "Latency analyzer still discards >250 ms; run fix-latency first").

(** The calibration profiles a stage reads. *)
Definition needed_profiles (root stage : string) : list string :=
  if py_startswith "e2-urb" stage
  then [root // "e2/profiles" // "representative.csv"; root // "e2/profiles" // "stress.csv"]
  else if py_startswith "e4-" stage && negb (bool_decide (stage = "e4-calibrate"))
  then [root // "e4-profiles" // "representative.csv"; root // "e4-profiles" // "stress.csv"]
  else if bool_decide (stage = "e3")
  then [root // "e2/profiles/stress.csv"; root // "e1/profiles/d455_stress60.csv"]
  else [].

(** [^\s*N:.*label] on the lines of [/proc/interrupts]. *)
Definition irq_line (number label line : string) : bool :=
  let rest := lstrip_by py_isspace line in
  py_startswith (number +:+ ":") rest && py_contains label (py_drop (String.length number + 1) rest).
Definition check_irq (interrupts : string) (v : pyval) : outcome (list string) :=
  number ← item v "number";
  label ← item v "label";
  label ← (match label with VStr s => Ok s | _ => raise TypeError "expected text" end);
  Ok (complain (negb (existsb (irq_line (str_val number) label)
                        (py_split (Ascii.ascii_of_nat 10) interrupts)))
       ("IRQ mapping does not exist: " +:+ str_val v)).
Definition check_irqs (cfg : pydict) : IO (list string) :=
  interrupts <- sys (ReadText "/proc/interrupts") ;;
  irqs <- lift (subscript cfg "e3_irqs" ≫= values_of) ;;
  errors <- lift (traverse (check_irq interrupts) irqs) ;;
  ret (concat errors).

Definition check (repo root stage : string) (cfg : pydict) : IO (list string) :=
  entry <- lift (table stage STAGES) ;;
  kernel <- lift (table entry.1 KERNELS) ;;
  e1 <- check_platform entry.1 kernel.1 kernel.2 ;;
  e2 <- missing_files "Missing " [repo // ".venv/bin/python";
     repo // "deps/lime-rtw/target/release/lime-rtw";
     repo // "build-realsense-steady/realsense_steady_probe"] ;;
  e3 <- check_devices repo cfg ;;
  e4 <- check_tools ;;
  e5 <- check_build repo ;;
  e6 <- missing_files "Missing prerequisite calibration: " (needed_profiles root stage) ;;
  e7 <- (if bool_decide (stage = "e3") then check_irqs cfg else ret []) ;;
  ret (e1 ++ e2 ++ e3 ++ e4 ++ e5 ++ e6 ++ e7).

(** ** Provenance *)

Definition provenance_commands (repo : string) : list (string * list string) := [
  ("commit", ["git"; "rev-parse"; "HEAD"]); ("working_tree", ["git"; "status"; "--short"]);
  ("sdk_commit", ["git"; "-C"; repo // "deps/librealsense"; "rev-parse"; "HEAD"]);
  ("gcc", ["gcc"; "--version"]); ("g++", ["g++"; "--version"]); ("usb_topology", ["lsusb"; "-t"])].
Definition source_suffixes : list string := [".py"; ".sh"; ".cpp"; ".c"; ".h"; ".hpp"; ".json"; ".txt"].
Definition is_source (path : string) : bool :=
  negb (existsb (λ part, bool_decide (part ∈ ["results"; "__pycache__"; ".git"])) (path_parts path))
  && bool_decide (path_suffix path ∈ source_suffixes).
Definition source_hashes (repo : string) : IO pydict :=
  fold_each ["tools"; "scripts"; "src"] [] (λ hashes directory,
    paths <- sys (Glob (repo // directory) "**/*") ;;
    fold_each (sort_texts paths) hashes (λ hashes path,
      file <- sys (IsFile path) ;;
      if (file : bool) && is_source path
      then sha <- digest path ;; ret (dset (relative_to repo path) (VStr sha) hashes)
      else ret hashes)).
Definition provenance (repo root stage : string) : IO unit :=
  release <- sys Release ;;
  m <- sys MachineName ;;
  cmdline <- sys (ReadText "/proc/cmdline") ;;
  let record := [("kernel", VStr release); ("machine", VStr m); ("cmdline", VStr cmdline);
                 ("stage", VStr stage); ("files", VDict [])] in
  record <- fold_each (provenance_commands repo) record (λ record p,
    result <- sys (RunCommand p.2 None None) ;;
    ret (dset p.1 (VDict [("returncode", VInt (returncode result)); ("output", VStr (stdout result))]) record)) ;;
  paths <- sys (Glob (repo // "build-realsense-steady") "**/flags.make") ;;
  files <- fold_each (sort_texts paths) [] (λ files path,
    if py_contains "realsense" path
    then text <- sys (ReadText path) ;; ret (dset (relative_to repo path) (VStr text) files)
    else ret files) ;;
  let record := dset "files" (VDict files) record in
  hashes <- source_hashes repo ;;
  let record := dset "source_sha256" (VDict hashes) record in
  sys (Mkdir (root // "environment") true) ;;
  sys (WriteJson (root // "environment" // (stage +:+ ".json")) (VDict record)).

(** ** Deadline profiles of the E1 runs *)

Definition selected_run (logical : string) : IO string :=
  text <- sys (ReadText (logical // "selected_attempt.txt")) ;;
  ret (logical // ("attempt-" +:+ py_strip text)).
Definition profile_runs : list (string * string) :=
  [("d435", "representative30"); ("d435", "stress60"); ("d455", "representative30"); ("d455", "stress60")].
Definition generate_profiles (repo root : string) : IO unit :=
  prepared <- sys (ReadJson (root // "prepared.json")) ;;
  prepared <- lift (as_dict prepared) ;;
  let repetitions := if truthy (dgetd "smoke" VNone prepared) then [1] else [1; 2; 3] in
  for_each profile_runs (λ '(camera, workload),
    selected <- map_each (map (λ n, root // "e1" // camera // workload // ("run-" +:+ str_Z n)) repetitions)
      selected_run ;;
    let output := root // "e1/profiles" // (camera +:+ "_" +:+ workload +:+ ".csv") in
    sys (Mkdir (root // "e1/profiles") true) ;;
    check_call ([repo // ".venv/bin/python"; repo // "tools/realsense_steady_bench/generate_deadline_profile.py"]
      ++ flat_map (λ p, ["--trace-run"; p]) selected ++ ["--output"; output])).
End reproduce.
