(* ===== verification/Adapters.v ===== *)
(** * The generated adapters ([reproduce.prepare])

    [prepare] rewrites the experiment scripts of the repository into one shell
    adapter per stage: camera serials, IRQ numbers and result directories are
    assigned, the boot state machines are cut off, a smoke campaign shortens
    the measurements.  The regular expressions work on whole lines and are
    translated to functions on lines. *)
From Stdlib Require Import Ascii ZArith Lia Floats.SpecFloat.
From S2P Require Import Prelude PyStr PyFloat PyVal PyJson Effects Machine Shell Reproduce.
From stdpp Require Import base gmap strings list sorting.
Local Open Scope Z_scope.
Local Open Scope py_scope.
Local Open Scope M_scope.

(** A text between double quotes. *)
Definition dq (s : string) : string := String dquote (s +:+ String dquote "").
Definition newline : ascii := Ascii.ascii_of_nat 10.

(** ** Edits of a script *)

(** The multi-line pattern of an assignment of [name] (indentation, name, the
    equals sign, the rest of the line), on one line: its indentation and the new
    assignment. *)
Definition is_assignment (name line : string) : bool :=
  py_startswith (name +:+ "=") (lstrip_by py_isspace line).
Definition indentation (line : string) : string :=
  String.substring 0 (String.length line - String.length (lstrip_by py_isspace line)) line.
Definition assign_line (name value line : string) : string :=
  if is_assignment name line then indentation line +:+ name +:+ "=" +:+ q value else line.
Definition assignments (name text : string) : list string :=
  filter (λ l, is_assignment name l = true) (py_split newline text).
Definition assignment (text name value : string) : outcome string :=
  let count := length (assignments name text) in
  if negb (bool_decide (count = 1%nat))
  then raise ValueError ("Expected one assignment for " +:+ name +:+ ", found " +:+ str_Z (Z.of_nat count))
  else Ok (py_join nl (map (assign_line name value) (py_split newline text))).

(** [re.subn] with the pattern of a whole [case] branch: the lines between the
    line [header] and the first following line [close], both ended by a newline,
    are given to [f]; also the number of branches. *)
Fixpoint configure_branches (header close : string) (f : string → outcome string)
    (lines : list string) (block : option string) : outcome (string * nat) :=
  match lines with
  | [] => Ok (default "" block, 0%nat)
  | [l] => Ok (default "" block +:+ l, 0%nat)
  | l :: lines =>
      match block with
      | None =>
          r ← configure_branches header close f lines
                (if bool_decide (l = header) then Some "" else None);
          Ok (l +:+ nl +:+ r.1, r.2)
      | Some b =>
          if bool_decide (l = close) then
            b' ← f b;
            r ← configure_branches header close f lines None;
            Ok (b' +:+ l +:+ nl +:+ r.1, S r.2)
          else configure_branches header close f lines (Some (b +:+ l +:+ nl))
      end
  end.

(** The E3 branch of a camera model. *)
Definition configure_model (model serial number label text : string) : outcome string :=
  r ← configure_branches ("    " +:+ model +:+ ")") "        ;;"
        (λ block, block ← assignment block "serial" serial;
                  block ← assignment block "xhci_irq" number;
                  assignment block "xhci_label" label) (py_split newline text) None;
  if negb (bool_decide (r.2 = 1%nat))
  then raise ValueError ("Expected one " +:+ model +:+ " case in E3 adapter") else Ok r.1.

(** ** The smoke campaign *)

Definition smoke_pairs (seconds : Z) : list (string * string) := [
  ("--measurement-duration-seconds 30", "--measurement-duration-seconds " +:+ str_Z seconds);
  ("--measurement-duration-ms 30000", "--measurement-duration-ms " +:+ str_Z (seconds * 1000));
  ("measurement_seconds=30", "measurement_seconds=" +:+ str_Z seconds);
  ("--nb-runs 3", "--nb-runs 1"); ("if len(rows) != 3:", "if len(rows) != 1:");
  ("expected three repetitions", "expected one smoke repetition");
  ("for repetition in 1 2 3;", "for repetition in 1;");
  ("[ " +:+ dq "$run_count" +:+ " -eq 3 ]", "[ " +:+ dq "$run_count" +:+ " -eq 1 ]");
  ("while [ " +:+ dq "$round" +:+ " -le 3 ];", "while [ " +:+ dq "$round" +:+ " -le 1 ];")].
Definition replace_all (pairs : list (string * string)) (text : string) : string :=
  foldl (λ text p, py_replace p.1 p.2 text) text pairs.

(** [next(i for i in range(start, ...) if p(lines[i]))]. *)
Fixpoint next_index (p : string → bool) (lines : list string) : outcome nat :=
  match lines with
  | [] => raise StopIteration ""
  | l :: lines => if p l then Ok 0%nat else S <$> next_index p lines
  end.
Definition strip_row : string → string := rstrip_by (λ a, in_string a (String newline "'")).
(** The matrix of [e3.sh] cut down to the first repetition. *)
Definition smoke_matrix (text : string) : outcome string :=
  let lines := py_splitlines_keep text in
  start ← next_index (py_startswith "matrix='") lines;
  rest ← next_index (λ l, py_endswith "'" (py_rstrip l)) (drop (S start) lines);
  let stop := (start + S rest)%nat in
  let retained := filter (λ l, py_endswith ":1" l = true)
    (map strip_row (take (S stop - start) (drop start lines))) in
  Ok (py_join "" (take start lines ++ [py_join nl retained +:+ "'" +:+ nl] ++ drop (S stop) lines)).

Definition smoke_text (name text : string) (calibration_seconds : Z) : outcome string :=
  let seconds := if bool_decide (name ∈ ["e1.sh"; "e2-calibrate.sh"; "e4-calibrate.sh"])
                 then calibration_seconds else 3 in
  let text := replace_all (smoke_pairs seconds) text in
  text ← (if bool_decide (name = "e3.sh")
          then t ← smoke_matrix text; Ok (py_replace "x 3 repetitions" "x 1 smoke repetition" t)
          else Ok text);
  let text := if bool_decide (name = "e3-one.sh")
              then replace_all [("--duration 40", "--duration 8");
                                ("time.monotonic()+40.0", "time.monotonic()+8.0")] text
              else text in
  let text := replace_all [("repetitions=3", "repetitions=1");
                           ("all 12 logical runs", "all 4 smoke calibration runs")] text in
  Ok (py_replace_max ("#!/bin/sh" +:+ nl)
        ("#!/bin/sh" +:+ nl +:+ "# SMOKE TEST: one repetition; not paper performance evidence." +:+ nl)
        1 text).

(** ** The JSON case files *)

(** [v[k] = x] on a dictionary. *)
Definition set_item (v : pyval) (k : string) (x : pyval) : outcome pyval :=
  match v with
  | VDict d => Ok (VDict (dset k x d))
  | _ => raise TypeError ("'" +:+ type_name v +:+ "' object does not support item assignment")
  end.
(** [text in v]. *)
Definition contains_text (text : string) (v : pyval) : outcome bool :=
  match v with
  | VStr s => Ok (py_contains text s)
  | VList l => Ok (existsb (py_eq (VStr text)) l)
  | VDict d => Ok (bool_decide (text ∈ dkeys d))
  | _ => raise TypeError ("argument of type '" +:+ type_name v +:+ "' is not iterable")
  end.
Definition keep_d435 (case : pyval) : outcome (option pyval) :=
  id ← item case "case_id"; b ← contains_text "d435" id; Ok (if b : bool then Some case else None).
Definition set_serials (serials case : pyval) : outcome pyval :=
  probe ← item case "probe"; probe ← set_item probe "serials" serials; set_item case "probe" probe.
Definition case_file (name text : string) (serials : pyval) : outcome string :=
  data ← json_loads text;
  cases ← item data "cases" ≫= as_list;
  cases ← (if py_startswith "p1_" name
           then omap id <$> traverse keep_d435 cases else Ok cases);
  cases ← traverse (set_serials serials) cases;
  data ← set_item data "cases" (VList cases);
  noted ← contains_text "notes" data;
  data ← (if (noted : bool)
          then set_item data "notes" (VList [VStr "Camera selection is generated from config.json."])
          else Ok data);
  Ok (json_indent data +:+ nl).

(** [name.lstrip('.')]. *)
Definition lstrip_dots : string → string := py_lstrip_char "."%char.

(** [cfg.get(key, cfg['d435_serials'][i])]: the default is evaluated first. *)
Definition list_item (v : pyval) (i : nat) : outcome pyval :=
  match v with
  | VList l => match l !! i with Some x => Ok x | None => raise IndexError "list index out of range" end
  | _ => raise TypeError ("'" +:+ type_name v +:+ "' object is not subscriptable")
  end.
Definition serial_or (cfg : pydict) (key : string) (i : nat) : outcome pyval :=
  pair ← subscript cfg "d435_serials"; fallback ← list_item pair i; Ok (dgetd key fallback cfg).

(** The E4 phases: the policies, the kernel and [threadirqs]. *)
Definition E4_PHASES : list (string * string * string * string) := [
  ("standard-hardirq", "other", "standard-hardirq16", "no");
  ("standard-threaded", "rr-rm fifo-rm deadline", "standard-threaded16", "yes");
  ("rt-threaded", "other rr-rm fifo-rm deadline", "rt-threaded16", "yes")].

Section prepare.
Context {W : Type} `{OS W} (repo root : string) (smoke : bool) (calibration_seconds : Z).
(** The local variable [sources]. *)
Abbreviation IO := (M (pydict * world W)).
Let tool := repo // "tools/realsense_steady_bench".
Let entry := root // "entrypoints".

Definition read_source (name : string) : IO string :=
  let path := tool // name in
  sha <- digest path ;;
  set_self (dset (relative_to repo path) (VStr sha)) ;;
  text <- sys (ReadText path) ;;
  ret (py_replace "/home/safebot/.local/state/" (root // "state" +:+ "/")
        (py_replace "repo=/home/safebot/program/rs-camera" ("repo=" +:+ q repo) text)).

Definition write_adapter (name text : string) : IO string :=
  text <- lift (if smoke && py_endswith ".sh" name then smoke_text name text calibration_seconds
                else Ok text) ;;
  let path := entry // name in
  sys (WriteText path text) ;;
  sys (Chmod path 493) ;;
  when (bool_decide (path_suffix path = ".sh")) (check_call ["sh"; "-n"; path]) ;;
  ret path.

(** [(name, serials)] of the case files. *)
Definition case_serials (cfg : pydict) (startup single : pyval) (name : string) : outcome pyval :=
  if py_startswith "p1_" name then subscript cfg "d435_serials"
  else if py_contains "ablation" name then Ok (VList [startup])
  else if py_contains "d455" name then d455 ← subscript cfg "d455_serial"; Ok (VList [d455])
  else Ok (VList [single]).
Definition case_names : list string :=
  [".d1_h1_single_d435_20260819.json"; ".h1_single_d455_20260819.json"; "p1_v2_cases_20260820.json";
   ".model_stream_ablation_cases_20260812.json"].
Definition write_case_file (cfg : pydict) (startup single : pyval) (name : string) : IO (string * string) :=
  text <- read_source name ;;
  serials <- lift (case_serials cfg startup single name) ;;
  text <- lift (case_file name text serials) ;;
  dest <- write_adapter (lstrip_dots name) text ;;
  ret (name, dest).
Definition config_paths (configs : list (string * string)) (text : string) : string :=
  replace_all (map (λ c, (dq ("$tool_dir/" +:+ c.1), q c.2)) configs) text.

Definition prepare_e1 (single d455 : string) : IO unit :=
  text <- read_source ".c1_full_receive_path_20260819.sh" ;;
  text <- lift (assignment text "d435_serial" single) ;;
  text <- lift (assignment text "d455_serial" d455) ;;
  text <- lift (replace_once text ("repo=$(CDPATH= cd -- " +:+ dq ("$(dirname " +:+ dq "$0" +:+ ")/../..") +:+ " && pwd)")
                  ("repo=" +:+ q repo)) ;;
  text <- lift (replace_once text
    "output=${1:-$repo/tools/realsense_steady_bench/results/c1_full_receive_path_20260819}"
    ("output=" +:+ q (root // "e1"))) ;;
  text <- lift (replace_once text ("python3 " +:+ dq "$path_analyzer" +:+ " " +:+ dq "$attempt_dir" +:+ " || true")
    ("python3 " +:+ dq "$path_analyzer" +:+ " " +:+ dq "$attempt_dir" +:+ " || return 1")) ;;
  write_adapter "e1.sh" text ;; ret ().

(** The start of a script's own state machine. *)
Definition state_boundary : string := "state=$(cat " +:+ dq "$state_file" +:+ " 2>/dev/null || printf '%s' prepare)".

Definition prepare_e2 (configs : list (string * string)) (single : string) : IO unit :=
  text <- read_source ".d1_h1_single_d435_20260819.sh" ;;
  text <- lift (assignment (config_paths configs text) "serial" single) ;;
  text <- lift (before text state_boundary) ;;
  text <- lift (replace_once text ("result_root=" +:+ dq "$tool_dir/results/d1_h1_single_d435_20260819")
                  ("result_root=" +:+ q (root // "e2"))) ;;
  for_each [("e2-calibrate", "calibrate_profiles" +:+ nl);
            ("e2-urb5", "run_cell d1-uvc5-standard-hardirq 5 hardirq" +:+ nl);
            ("e2-urb16", "run_cell d1-h1-uvc16-standard-hardirq 16 hardirq" +:+ nl)]
    (λ p, write_adapter (p.1 +:+ ".sh") (text +:+ nl +:+ "sudo -n true" +:+ nl +:+ p.2) ;; ret ()).

(** The number and label of the xHCI interrupt of a model. *)
Definition irq_of (cfg : pydict) (model : string) : outcome (string * string) :=
  irqs ← subscript cfg "e3_irqs"; irq ← item irqs model;
  number ← item irq "number"; label ← item irq "label"; Ok (str_val number, str_val label).
Definition monitor_build : string :=
  "sudo -n true" +:+ nl +:+ dq "$tool_dir/build_uvc_worker_fifo_monitor.sh" +:+ " " +:+ dq "$monitor_build" +:+ nl.

Definition prepare_e3 (configs : list (string * string)) (cfg : pydict) (single d455 : string) : IO unit :=
  one <- read_source ".run_h1_replacement_one_20260819.sh" ;;
  let one := config_paths configs one in
  let one := py_replace (dq "$tool_dir/results/d1_h1_single_d435_20260819/profiles/stress.csv")
               (q (root // "e2/profiles/stress.csv")) one in
  let one := py_replace (dq "$tool_dir/results/h1_replacement_profiles/d455_stress60_fullpath.csv")
               (q (root // "e1/profiles/d455_stress60.csv")) one in
  one <- fold_each [("d435", single); ("d455", d455)] one (λ one p,
    irq <- lift (irq_of cfg p.1) ;; lift (configure_model p.1 p.2 irq.1 irq.2 one)) ;;
  one <- lift (replace_once one ("sudo -n true" +:+ nl) monitor_build) ;;
  write_adapter "e3-one.sh" one ;;
  text <- read_source ".run_h1_replacement_matrix_20260819.sh" ;;
  text <- lift (replace_once text ("one=" +:+ dq "$tool_dir/.run_h1_replacement_one_20260819.sh")
                  ("one=" +:+ q (entry // "e3-one.sh"))) ;;
  text <- lift (replace_once text ("root=" +:+ dq "$tool_dir/results/h1_replacement_targeted_starvation_20260819")
                  ("root=" +:+ q (root // "e3"))) ;;
  write_adapter "e3.sh" text ;; ret ().

(** The lines appended for one E4 phase. *)
Definition e4_suffix (p : string * string * string * string) (kernel : string) : string :=
  let '(phase, policies, _, threading) := p in
  foldl (λ suffix scope, suffix +:+ py_join nl [
      "result_root=" +:+ q (root // ("e4-" +:+ scope)); "profiles=" +:+ q (root // "e4-profiles");
      "p1_trace_mode=host-latency"; "p1_workload_scope=" +:+ scope; "mkdir -p " +:+ dq "$result_root";
      "run_phase " +:+ phase +:+ " " +:+ q policies +:+ " " +:+ kernel +:+ " " +:+ threading; ""])
    (nl +:+ "sudo -n true" +:+ nl) ["representative"; "stress"].
Definition prepare_e4 (configs : list (string * string)) : IO unit :=
  text <- read_source "run_p1_v2_calibration_20260820.sh" ;;
  text <- lift (replace_once (config_paths configs text)
    ("result_root=" +:+ dq "$tool_dir/results/p1_cross_layer_v2_20260820/calibration")
    ("result_root=" +:+ q (root // "e4-calibration"))) ;;
  text <- lift (replace_once text ("profiles=" +:+ dq "$tool_dir/results/p1_cross_layer_v2_20260820/profiles")
    ("profiles=" +:+ q (root // "e4-profiles"))) ;;
  text <- lift (replace_once text ("sudo -n true" +:+ nl) monitor_build) ;;
  write_adapter "e4-calibrate.sh" text ;;
  text <- read_source "run_p1_cross_layer_v2_20260820.sh" ;;
  text <- lift (before (config_paths configs text) ("sudo -n true" +:+ nl +:+ state_boundary)) ;;
  text <- lift (replace_once text
    "result_root=${RS_P1_RESULT_ROOT:-$tool_dir/results/p1_cross_layer_v2_20260820}"
    ("result_root=" +:+ q (root // "e4"))) ;;
  text <- lift (replace_once text ("    disable_wifi" +:+ nl +:+ "    disable_autosuspend") "    disable_autosuspend") ;;
  for_each E4_PHASES (λ p,
    kernel <- lift (table p.1.2 KERNELS) ;;
    write_adapter ("e4-" +:+ p.1.1.1 +:+ ".sh") (text +:+ e4_suffix p kernel.1) ;; ret ()).

Definition wifi_lines : string :=
  "    sudo -n systemctl stop wpa_supplicant.service 2>/dev/null || true" +:+ nl +:+
  "    sudo -n ip link set wlan0 down 2>/dev/null || true" +:+ nl.
Definition prepare_ablation (configs : list (string * string)) : IO unit :=
  text <- read_source ".model_stream_ablation_20260812.sh" ;;
  text <- lift (before (config_paths configs text) state_boundary) ;;
  text <- lift (replace_once text ("result_root=" +:+ dq "$tool_dir/results/model_stream_ablation_20260812")
                  ("result_root=" +:+ q (root // "ablation"))) ;;
  text <- lift (replace_once text wifi_lines "") ;;
  write_adapter "ablation.sh" (text +:+ nl +:+ "sudo -n true" +:+ nl +:+ "run_kernel standard" +:+ nl) ;;
  ret ().

(** The commands of the supplements. *)
Definition direct_commands (startup single first second : string) : list (string * list string) :=
  let python := repo // ".venv/bin/python" in [
  ("startup", [python; repo // "tools/realsense_startup_bench/run_startup_campaign.py";
    "--policies"; "other"; "--recover-on-failure"; "full-reset"; "--max-attempts-per-run"; "3";
    "--recovery-settle-seconds"; "0"; "--recovery-wait-seconds"; "1.2"; "--recovery-reset-timeout-ms"; "5000";
    "--frame-timeout-ms"; "1500"; "--join-timeout-ms"; "10"; "--cycles"; "1"; "--frames"; "60"; "--nb-runs"; "20";
    "--serial"; startup; "--build-dir"; repo // "build-realsense-thread-trace";
    "--results-dir"; root // "startup"]);
  ("overhead", [python; tool // "run_diagnostic_overhead.py"; "--serial"; single;
    "--results-dir"; root // "overhead"; "--build-jobs"; "3"]);
  ("diagnosis", [python; tool // "run_steady_campaign.py"; "--config"; tool // "configs/timing_trace_60s.json";
    "--case"; "representative_depth_color_30fps_60s_trace"; "--policies"; "other";
    "--freshness-kernel-trace"; "--measurement-duration-seconds"; "600"; "--nb-runs"; "1";
    "--serial"; first; "--serial"; second;
    "--recover-on-failure"; "full-reset"; "--max-attempts-per-run"; "3"; "--results-dir"; root // "diagnosis"])].
Definition prepare_direct (startup single first second : string) : IO unit :=
  for_each (direct_commands startup single first second) (λ p,
    write_adapter (p.1 +:+ ".sh") ("#!/bin/sh" +:+ nl +:+ "set -eu" +:+ nl +:+ "cd " +:+ q repo +:+ nl
      +:+ "exec " +:+ shlex_join p.2 +:+ nl) ;; ret ()).

(** The configuration of an earlier preparation has to agree. *)
Definition same_config (allow_irq_refresh : bool) (prior : pyval) (cfg : pydict) : outcome bool :=
  if allow_irq_refresh then
    d ← as_dict prior; a ← camera_identity d; b ← camera_identity cfg; Ok (py_eq (VDict a) (VDict b))
  else Ok (py_eq prior (VDict cfg)).
Definition check_prior (allow_irq_refresh : bool) (cfg : pydict) : IO unit :=
  there <- sys (PathExists (root // "prepared.json")) ;;
  if negb there then ret () else
  value <- sys (ReadJson (root // "prepared.json")) ;;
  prior <- lift (as_dict value) ;;
  when (negb (py_eq (dgetd "smoke" (VBool false) prior) (VBool smoke))
        || negb (py_eq (dgetd "calibration_seconds" (VInt 30) prior) (VInt calibration_seconds)))
    (throw ValueError "Use a new output directory for a different capture protocol") ;;
  config <- lift (subscript prior "config") ;;
  same <- lift (same_config allow_irq_refresh config cfg) ;;
  same_repo <- (if (same : bool) then r <- lift (subscript prior "repo") ;; ret (py_eq r (VStr repo))
                else ret false) ;;
  when (negb same_repo)
    (throw ValueError "Use a new output directory for a different configuration/repository").

Definition entrypoint_digests : IO pydict :=
  paths <- sys (ListDir entry) ;;
  fold_each (sort_texts paths) [] (λ digests path,
    file <- sys (IsFile path) ;;
    if (file : bool) then sha <- digest path ;; ret (dset (path_name path) (VStr sha) digests)
    else ret digests).

Definition prepare_body (allow_irq_refresh : bool) (cfg : pydict) : IO pydict :=
  check_prior allow_irq_refresh cfg ;;
  sys (Mkdir entry true) ;;
  single <- lift (serial_or cfg "single_d435_serial" 1) ;;
  startup <- lift (serial_or cfg "startup_serial" 0) ;;
  configs <- map_each case_names (write_case_file cfg startup single) ;;
  d455 <- lift (subscript cfg "d455_serial") ;;
  prepare_e1 (str_val single) (str_val d455) ;;
  prepare_e2 configs (str_val single) ;;
  prepare_e3 configs cfg (str_val single) (str_val d455) ;;
  prepare_e4 configs ;;
  prepare_ablation configs ;;
  pair <- lift (subscript cfg "d435_serials") ;;
  first <- lift (list_item pair 0) ;;
  second <- lift (list_item pair 1) ;;
  prepare_direct (str_val startup) (str_val single) (str_val first) (str_val second) ;;
  sources <- self id ;;
  entrypoints <- entrypoint_digests ;;
  let manifest := [("repo", VStr repo); ("config", VDict cfg); ("smoke", VBool smoke);
    ("calibration_seconds", VInt calibration_seconds); ("adapter_sources", VDict sources);
    ("entrypoints", VDict entrypoints)] in
  sys (WriteJson (root // "prepared.json") (VDict manifest)) ;;
  ret manifest.
End prepare.

Definition prepare {W} `{OS W} {S} (repo root : string) (cfg : pydict) (allow_irq_refresh smoke : bool)
    (calibration_seconds : Z) : M (S * world W) pydict :=
  local [] (prepare_body repo root smoke calibration_seconds allow_irq_refresh cfg).
