(* ===== verification/StageRun.v ===== *)
(** * Running one stage ([reproduce.main])

    The command line of [reproduce.py]: preparation, preflight check, the run of
    a stage up to its completion marker, and the auxiliary actions.  The marker
    names the stage and the digest of the adapter that ran. *)
From Stdlib Require Import Ascii ZArith Lia Floats.SpecFloat.
From S2P Require Import Prelude PyStr PyFloat PyVal PyJson Effects Machine Shell Reproduce Adapters.
From stdpp Require Import base gmap strings list.
Local Open Scope Z_scope.
Local Open Scope py_scope.
Local Open Scope M_scope.

Inductive stage_action :=
  | APlan | APrepare | ACheck | ARun | AFixLatency | AProfiles | AAnalyze | ABundle | ADiscover.
Record stage_args := StageArgs {
  sa_repo : string; sa_output : string; sa_config : string; sa_action : stage_action;
  sa_stage : option string }.

Section main.
Context {W : Type} `{OS W} {S : Type} (python HERE : string).
(** The verdict of Python's compiler on a source text. *)
Context (compile : string → outcome unit).
Abbreviation IO := (M (S * world W)).

Definition fix_latency (repo root : string) : IO unit :=
  let path := repo // "tools/realsense_steady_bench/analyze_full_receive_path.py" in
  old <- sys (ReadText path) ;;
  if negb (py_contains "latency_s > 0.250" old) then
    when (negb (py_contains "if latency_s < 0.0:" old))
      (throw ValueError "Unknown latency-filter implementation; inspect manually")
  else
    new <- lift (patched_analyzer old) ;;
    lift (compile new) ;;
    sha <- digest path ;;
    let folder := root // "source-before-fix" in
    sys (Mkdir folder true) ;;
    sys (WriteText (folder // ("analyze_full_receive_path-" +:+ sha +:+ ".py")) old) ;;
    sys (WriteText path new).

(** Nothing changed since the preparation. *)
Definition check_sources (repo : string) (sources : pydict) : IO unit :=
  for_each sources (λ p,
    sha <- digest (repo // p.1) ;;
    when (negb (py_eq (VStr sha) p.2)) (throw ValueError ("Source changed since prepare: " +:+ p.1))).
Definition check_prepared (repo root stage : string) (cfg : pydict) : IO unit :=
  manifest <- sys (ReadJson (root // "prepared.json")) ;;
  config <- lift (item manifest "config") ;;
  same <- (if py_eq config (VDict cfg)
           then r <- lift (item manifest "repo") ;; ret (py_eq r (VStr repo)) else ret false) ;;
  when (negb same) (throw ValueError "Config/repo changed; prepare again in a fresh output directory") ;;
  sources <- lift (item manifest "adapter_sources") ;;
  sources <- lift (match sources with VDict d => Ok d
                   | _ => raise AttributeError ("'" +:+ type_name sources +:+ "' object has no attribute 'items'") end) ;;
  check_sources repo sources ;;
  sha <- digest (root // "entrypoints" // (stage +:+ ".sh")) ;;
  entrypoints <- lift (item manifest "entrypoints") ;;
  expected <- lift (item entrypoints (stage +:+ ".sh")) ;;
  when (negb (py_eq (VStr sha) expected)) (throw ValueError "Adapter changed since prepare").

Definition marker_path (root stage : string) : string := root // "completed" // (stage +:+ ".json").
Definition stage_command (root stage : string) : list string :=
  let command := ["sh"; root // "entrypoints" // (stage +:+ ".sh")] in
  if bool_decide (stage = "e1") then ["sudo"; "-n"] ++ command else command.

(** The run of a checked stage; a completed stage is left alone. *)
Definition run_stage (repo root stage : string) (cfg : pydict) : IO unit :=
  check_prepared repo root stage cfg ;;
  done <- sys (PathExists (marker_path root stage)) ;;
  if (done : bool) then ret () else
  check_call ["sudo"; "-n"; "true"] ;;
  sys (Lock (root // "campaign.lock")) ;;
  provenance repo root stage ;;
  sys (OpenAppend (root // (stage +:+ ".log"))) ;;
  check_call (stage_command root stage) ;;
  when (bool_decide (stage = "e1")) (generate_profiles repo root) ;;
  sys (Mkdir (root // "completed") true) ;;
  release <- sys Release ;;
  sha <- digest (root // "entrypoints" // (stage +:+ ".sh")) ;;
  sys (WriteJson (marker_path root stage)
    (VDict [("stage", VStr stage); ("kernel", VStr release); ("adapter_sha256", VStr sha)])).

Definition checked_stage (args : stage_args) (repo root : string) : IO unit :=
  cfg <- load_config (sa_config args) ;;
  match sa_action args, sa_stage args with
  | APrepare, _ => prepare repo root cfg false false 30 ;; ret ()
  | _, None => throw SystemExit "2"
  | action, Some stage =>
      errors <- check repo root stage cfg ;;
      match errors, action with
      | _ :: _, _ => throw SystemExit "1"
      | [], ARun => run_stage repo root stage cfg
      | [], _ => ret ()
      end
  end.

(** [args.config.resolve().parent]. *)
Definition parent (p : string) : string := default "/" (head (path_parents p)).

Definition main (args : stage_args) : IO unit :=
  repo <- sys (Resolve (sa_repo args)) ;;
  root <- sys (Resolve (sa_output args)) ;;
  match sa_action args with
  | ADiscover =>
      config <- sys (Resolve (sa_config args)) ;;
      check_call [python; HERE // "setup/discover.py"; "--output"; sa_config args; "--inventory";
                  parent config // "inventory.json"; "--probe";
                  repo // "build-realsense-steady/d435_sensor_probe"]
  | AAnalyze => check_call [python; HERE // "analyze.py"; "--repo"; repo; "--input"; root; "--output"; root // "derived"]
  | ABundle => check_call [python; HERE // "bundle_sources.py"; "--repo"; repo; "--output"; root // "source-snapshot.tar.gz"]
  | APlan => ret ()
  | AFixLatency => fix_latency repo root
  | AProfiles => generate_profiles repo root
  | APrepare | ACheck | ARun => checked_stage args repo root
  end.
End main.

(** ** The experiments' command line *)

(** [experiment.split('_')[0]]. *)
Definition experiment_section (experiment : string) : string := (py_partition "_"%char experiment).1.1.
Record experiment_args := ExperimentArgs {
  ea_action : string; ea_stage : option string; ea_config : string; ea_output : string;
  ea_input : option string; ea_archive : bool; ea_supplements : bool }.
(** The command it runs: none for [plan]. *)
Definition experiment_command (python HERE experiment : string) (args : experiment_args) :
    outcome (option (list string)) :=
  entry ← table experiment EXPERIMENTS;
  let runs := HERE // "runs" in
  (* the choices of the stage argument *)
  if negb (match ea_stage args with Some stage => bool_decide (stage ∈ entry.1) | None => true end)
  then raise SystemExit "2" else
  if bool_decide (ea_action args = "plan") then Ok None
  else if bool_decide (ea_action args = "analyze") then
    let selected := if ea_supplements args then entry.2 else [experiment_section experiment] in
    let destination := if bool_decide (ea_output args = runs) then HERE // experiment // "derived"
                       else ea_output args in
    Ok (Some ([python; HERE // "analyze.py"; "--input"; default runs (ea_input args);
               "--output"; destination; "--sections"] ++ selected
              ++ (if ea_archive args then ["--archive"] else [])))
  else match ea_stage args with
       | None => if bool_decide (ea_action args ∈ ["run"; "check"]) then raise SystemExit "2"
                 else Ok (Some [python; HERE // "reproduce.py"; "--config"; ea_config args;
                                "--output"; ea_output args; ea_action args])
       | Some stage => Ok (Some [python; HERE // "reproduce.py"; "--config"; ea_config args;
                                 "--output"; ea_output args; ea_action args; stage])
       end.
