(* ===== verification/Pipeline.v ===== *)
(** * The campaign pipeline ([pipeline.py])

    The unattended campaign: a service runs [worker] after every boot, which
    runs the pending stages of the phase whose kernel is booted, selects the
    next phase's kernel and reboots, and analyses the results when no stage is
    pending.  [pipeline.json] keeps the state across boots; a marker file per
    stage records its completion.  [full] prepares a campaign, [control]
    inspects, stops and resumes it, [raw] analyses archived data.

    The dictionary [state] of [worker] is the object of the computations; the
    two loops ([check_wired] and the loop over the phases) take fuel. *)
From Stdlib Require Import Ascii ZArith Lia Floats.SpecFloat.
From S2P Require Import Prelude PyStr PyFloat PyVal Effects Machine Shell Kernel Reproduce Adapters.
From stdpp Require Import base gmap strings list.
Local Open Scope Z_scope.
Local Open Scope py_scope.
Local Open Scope M_scope.

(** ** The plan *)

Definition SERVICE : string := "rs-camera-reproduction.service".
Definition UNIT : string := "/etc/systemd/system" // SERVICE.
Definition SIGNATURE : string := "# Managed by rs-camera reproduction/pipeline.py".

(** A phase: kernel variant, [threadirqs], stages. *)
Definition phase : Type := string * bool * list string.
Definition PHASES : list phase := [
  ("rt-urb16", false, ["e1"; "e2-calibrate"]);
  ("standard-urb16", true, ["ablation"; "e3"; "e4-calibrate"; "e4-standard-threaded"]);
  ("standard-urb5", false, ["e2-urb5"]);
  ("standard-urb16", false, ["startup"; "e2-urb16"; "e4-standard-hardirq"; "overhead"; "diagnosis"]);
  ("rt-urb16", false, ["e4-rt-threaded"])].
Definition supplements : list string := ["startup"; "ablation"; "overhead"; "diagnosis"].
Definition smoke_phases : list phase :=
  map (λ p, (p.1, filter (λ s, s ∉ supplements) p.2)) PHASES.
Definition plan (smoke : bool) : list phase := if smoke then smoke_phases else PHASES.

(** [boot_matches] on a release and a kernel command line. *)
Definition matches (variant : string) (threaded : pyval) (release cmdline : string) : outcome bool :=
  v ← get_variant variant;
  Ok (bool_decide (release = v_release v)
      && (py_startswith "rt-" variant
          || py_eq (VBool (bool_decide ("threadirqs" ∈ py_words cmdline))) threaded)).

(** [re.fullmatch(r'/[A-Za-z0-9_./-]+', value)]. *)
Definition unit_char (a : ascii) : bool :=
  let n := code a in
  (py_isdigit_char a || ((65 <=? n) && (n <=? 90)) || ((97 <=? n) && (n <=? 122)))%nat
  || in_string a "_./-".
Definition systemd_path (value : string) : outcome string :=
  match value with
  | String a s =>
      if bool_decide (a = "/"%char) && negb (bool_decide (s = "")) && string_forall unit_char s
      then Ok value
      else raise ValueError
        "Full-mode repository/output/Python paths must be absolute without spaces or shell metacharacters"
  | EmptyString => raise ValueError
        "Full-mode repository/output/Python paths must be absolute without spaces or shell metacharacters"
  end.

(** [path.is_relative_to(other)] for absolute paths. *)
Definition is_relative_to (path other : string) : bool :=
  let p := path_parts path in let o := path_parts other in
  bool_decide (take (length o) p = o).

(** [except (OSError, ValueError, RuntimeError, subprocess.SubprocessError)]. *)
Definition is_RuntimeError (e : exn) : bool :=
  is_class RuntimeError e || is_class NotImplementedError e.
Definition main_errors (e : exn) : bool :=
  is_OSError e || is_ValueError e || is_RuntimeError e || is_SubprocessError e.
(** [except BaseException]: everything but the end of the fuel. *)
Definition is_BaseException (e : exn) : bool := negb (is_class OutOfFuel e).

(** ** Operations of the campaign directory *)

Section pipeline.
Context {W : Type} `{OS W} {S : Type} (sys_executable REPO : string) (argv : list string).
Abbreviation IO := (M (S * world W)).
Let HERE : string := REPO // "reproduction".

Definition read (path : string) : IO pyval := sys (ReadJson path).
(** A temporary file that replaces the old one. *)
Definition save (path : string) (data : pyval) : IO unit :=
  sys (WriteJson (path +:+ ".tmp") data) ;; sys (Rename (path +:+ ".tmp") path).

Definition call (command : list string) (log : option string) : IO unit :=
  match log with Some path => sys (OpenAppend path) | None => ret () end ;; check_call command.
Definition py (script : string) (args : list string) (log : option string) : IO unit :=
  call ([sys_executable; HERE // script] ++ args) log.

(** [render.check_dependencies]. *)
Definition render_dependencies : IO unit :=
  engine <- sys (Which "pdflatex") ;;
  finder <- sys (Which "kpsewhich") ;;
  when (negb engine || negb finder)
    (throw RuntimeError "PDF rendering needs pdflatex and kpsewhich; install texlive-latex-extra texlive-pictures, or use --no-pdf") ;;
  for_each ["standalone.cls"; "booktabs.sty"; "array.sty"; "pgfplots.sty"] (λ package,
    found <- sys (RunCommand ["kpsewhich"; package] None None) ;;
    when (negb (bool_decide (returncode found = 0)) || bool_decide (py_strip (stdout found) = ""))
      (throw RuntimeError ("Missing TeX package: " +:+ package
         +:+ "; install texlive-latex-extra texlive-pictures"))).

Definition require_analysis (pdf : bool) : IO unit :=
  call [sys_executable; REPO // "scripts/check_dependencies.py"; "--sources"; "--python"] None ;;
  temp <- sys (MkdTemp "rs-camera-analysis-check-" None) ;;
  try_finally (call [sys_executable; "-c"; "import numpy; import benchkit"] None) (sys (RmTree temp)) ;;
  for_each ["paper_metrics.py"; "e4_scheduling/metrics.py"; "e4_scheduling/tikz.py"] (λ name,
    there <- sys (IsFile (HERE // name)) ;;
    when (negb there) (throw ValueError ("Missing tracked reproduction helper: " +:+ name))) ;;
  when pdf render_dependencies.

Definition require_empty (root : string) : IO unit :=
  there <- sys (PathExists root) ;;
  if negb there then ret () else
  files <- sys (ListDir root) ;;
  when (negb (bool_decide (files = []))) (throw ValueError ("Output must be new or empty: " +:+ root)).

Definition analyze (source output : string) (archive pdf : bool) (log : string) : IO unit :=
  let command := ["--input"; source; "--output"; output] in
  more <- (if archive then ret ["--archive"] else
           there <- sys (PathExists (source // "prepared.json")) ;;
           if negb there then ret [] else
           prepared <- read (source // "prepared.json") ;;
           prepared <- lift (as_dict prepared) ;;
           ret (if truthy (dgetd "smoke" VNone prepared)
                then ["--smoke"; "--sections"; "e1"; "e2"; "e3"; "e4"] else [])) ;;
  py "analyze.py" (command ++ more) (Some log) ;;
  when pdf (py "render.py" [output] (Some log)).

Definition boot_matches (variant : string) (threaded : pyval) : IO bool :=
  release <- sys Release ;;
  cmdline <- sys (ReadText "/proc/cmdline") ;;
  lift (matches variant threaded release cmdline).

Definition marker (root stage : string) : string := root // "completed" // (stage +:+ ".json").
Definition adapter (root stage : string) : string := root // "entrypoints" // (stage +:+ ".sh").
Definition complete (root stage : string) : IO bool :=
  there <- sys (PathExists (marker root stage)) ;;
  if negb there then ret false else
  record <- read (marker root stage) ;;
  record <- lift (as_dict record) ;;
  valid <- (if py_eq (dgetd "stage" VNone record) (VStr stage)
            then sha <- digest (adapter root stage) ;;
                 ret (py_eq (dgetd "adapter_sha256" VNone record) (VStr sha))
            else ret false) ;;
  if (valid : bool) then ret true
  else throw ValueError ("Invalid completion marker: " +:+ marker root stage).

Definition state_path (root : string) : string := root // "pipeline.json".
Definition phases (root : string) : IO (list phase) :=
  there <- sys (PathExists (state_path root)) ;;
  if negb there then ret (plan false) else
  state <- read (state_path root) ;;
  state <- lift (as_dict state) ;;
  ret (plan (truthy (dgetd "smoke" (VBool false) state))).

(** [[stage for stage in stages if not complete(root, stage)]]. *)
Fixpoint pending_stages (root : string) (stages : list string) : IO (list string) :=
  match stages with
  | [] => ret []
  | stage :: stages =>
      done <- complete root stage ;;
      rest <- pending_stages root stages ;;
      ret (if (done : bool) then rest else stage :: rest)
  end.
Fixpoint first_pending (root : string) (phases : list phase) : IO (option phase) :=
  match phases with
  | [] => ret None
  | (variant, threaded, stages) :: phases =>
      pending <- pending_stages root stages ;;
      match pending with
      | [] => first_pending root phases
      | _ => ret (Some (variant, threaded, pending))
      end
  end.
Definition next_phase (root : string) : IO (option phase) :=
  plan <- phases root ;; first_pending root plan.

Definition require_pi : IO unit :=
  pi <- model_is_pi ;;
  when (negb pi)
    (throw ValueError "Full capture requires a configured Raspberry Pi 5; use raw or plan on a laptop").
Definition root_access : IO unit :=
  uid <- sys GetEuid ;;
  when (negb (bool_decide (uid = 0)))
    (call (["sudo"; "--preserve-env=SSH_CONNECTION"; sys_executable; HERE // "pipeline.py"] ++ argv) None ;;
     throw SystemExit "0").

Definition service_lines (executable script destination repo : string) (uid gid : Z) : list string := [
  SIGNATURE; "[Unit]"; "Description=rs-camera complete paper reproduction";
  "After=network-online.target"; "Wants=network-online.target"; "[Service]"; "Type=oneshot";
  "WorkingDirectory=" +:+ repo; "Environment=SUDO_UID=" +:+ str_Z uid +:+ " SUDO_GID=" +:+ str_Z gid;
  "ExecStartPre=/usr/bin/udevadm settle --timeout=30";
  "ExecStart=" +:+ executable +:+ " " +:+ script +:+ " _worker --output " +:+ destination;
  "TimeoutStartSec=infinity"; "TimeoutStopSec=120"; "KillMode=control-group"; "Restart=no";
  "UMask=0022"; "[Install]"; "WantedBy=multi-user.target"; ""].
Definition service_text (root : string) : IO string :=
  executable <- lift (systemd_path sys_executable) ;;
  script <- lift (systemd_path (HERE // "pipeline.py")) ;;
  destination <- lift (systemd_path root) ;;
  repo <- lift (systemd_path REPO) ;;
  user <- sys (Owner REPO) ;;
  group <- sys (Owner REPO) ;;
  ret (py_join nl (service_lines executable script destination repo user.1 group.2)).

Definition active_states : list string := ["active"; "activating"; "deactivating"; "reloading"].
Definition check_unit_available (root : string) (resuming : bool) : IO unit :=
  there <- sys (PathExists UNIT) ;;
  if negb there then ret () else
  text <- sys (ReadText UNIT) ;;
  when (negb (py_startswith SIGNATURE text))
    (throw ValueError ("Refusing to replace an unrelated service: " +:+ UNIT)) ;;
  active <- check_output ["systemctl"; "show"; "--property=ActiveState"; "--value"; SERVICE] ;;
  when (bool_decide (py_strip active ∈ active_states))
    (throw ValueError "A full reproduction is already running; inspect status first") ;;
  same <- (if resuming then text <- sys (ReadText UNIT) ;; expected <- service_text root ;;
                            ret (bool_decide (text = expected)) else ret true) ;;
  when (negb same) (throw ValueError "Installed service belongs to a different output directory") ;;
  enabled <- sys (RunCommand ["systemctl"; "is-enabled"; "--quiet"; SERVICE] None None) ;;
  when (bool_decide (returncode enabled = 0) && negb resuming)
    (throw ValueError "An unfinished service is enabled; use status/resume/stop").

(** [value.items()]. *)
Definition items_of (v : pyval) : outcome pydict :=
  match v with
  | VDict d => Ok d
  | _ => raise AttributeError ("'" +:+ type_name v +:+ "' object has no attribute 'items'")
  end.
Definition verify_sources (root : string) : IO unit :=
  manifest <- sys (ReadTarJson (root // "source-snapshot.tar.gz") "SOURCE_MANIFEST.json") ;;
  sources <- lift (item manifest "source_sha256" ≫= items_of) ;;
  for_each sources (λ p,
    sha <- digest (REPO // p.1) ;;
    when (negb (py_eq (VStr sha) p.2))
      (throw ValueError ("Frozen source changed: " +:+ p.1
         +:+ "; preserve this campaign and use a new output"))).

(** ** The boot configuration, saved and restored *)

Definition BOOT : string := "/boot/firmware".
Definition boot_files : list string :=
  (BOOT // "config.txt") :: map (λ p, BOOT // v_prefix p.2 // "cmdline.txt") VARIANTS.
Definition WLAN0 : string := "/sys/class/net/wlan0".
Definition snapshot_system (root : string) : IO unit :=
  originals <- fold_each boot_files [] (λ originals path,
    text <- sys (ReadText path) ;; ret (dset path (VStr text) originals)) ;;
  there <- sys (PathExists (WLAN0 // "operstate")) ;;
  up <- (if negb there then ret false else
         text <- sys (ReadText (WLAN0 // "operstate")) ;; ret (bool_decide (py_strip text = "up"))) ;;
  save (root // "system-before.json") (VDict [("boot_files", VDict originals); ("wifi_up", VBool up)]).
Definition restore_file (p : string * pyval) : IO unit :=
  match p.2 with
  | VStr text => sys (WriteText p.1 text)
  | v => throw TypeError ("data must be str, not " +:+ type_name v)
  end.
Definition wifi_command (state : string) : list string := ["ip"; "link"; "set"; "dev"; "wlan0"; state].
Definition restore_system (root : string) : IO unit :=
  before <- read (root // "system-before.json") ;;
  files <- lift (item before "boot_files" ≫= items_of) ;;
  for_each files restore_file ;;
  up <- lift (item before "wifi_up") ;;
  when (truthy up) (call (wifi_command "up") None) ;;
  sys SyncDisks.

(** ** The wired connection *)

Definition eth0_up : IO bool :=
  there <- sys (PathExists "/sys/class/net/eth0/operstate") ;;
  if negb there then ret false else
  text <- sys (ReadText "/sys/class/net/eth0/operstate") ;; ret (bool_decide (py_strip text = "up")).
Fixpoint await_eth0 (fuel : nat) (deadline : f64) : IO unit :=
  match fuel with
  | O => throw OutOfFuel ""
  | Datatypes.S fuel =>
      up <- eth0_up ;;
      if (up : bool) then ret () else
      now <- sys Monotonic ;;
      if f_le deadline now
      then throw ValueError "Full mode requires an active eth0 connection before disabling Wi-Fi" else
      sys (Sleep (f_of_Z 1)) ;; await_eth0 fuel deadline
  end.
Definition check_route : IO unit :=
  connection <- sys (GetEnv "SSH_CONNECTION") ;;
  match py_words (default "" connection) with
  | [] => ret ()
  | peer :: _ =>
      route <- check_output ["ip"; "route"; "get"; peer] ;;
      when (negb (py_contains "dev eth0" route))
        (throw ValueError "Reconnect SSH through Ethernet before starting full mode")
  end.
Definition check_wired (fuel : nat) (wait_seconds : Z) : IO unit :=
  now <- sys Monotonic ;;
  await_eth0 fuel (f_add now (f_of_Z wait_seconds)) ;; check_route.

Definition current_boot_id : IO string :=
  text <- sys (ReadText "/proc/sys/kernel/random/boot_id") ;; ret (py_strip text).

(** ** The devices after a boot *)

Definition check_entrypoints (root : string) (previous : pydict) : IO unit :=
  entrypoints <- lift (subscript previous "entrypoints" ≫= items_of) ;;
  for_each entrypoints (λ p,
    sha <- digest (root // "entrypoints" // p.1) ;;
    when (negb (py_eq (VStr sha) p.2)) (throw ValueError ("Prepared adapter was modified: " +:+ p.1))).
Definition refresh_boot_config (root boot_id : string) : IO unit :=
  let folder := root // "boot-inventories" // boot_id in
  sys (Mkdir folder true) ;;
  let config := folder // "config.json" in
  sys (Copy (root // "camera-config.json") config) ;;
  py "setup/discover.py" ["--output"; config; "--inventory"; folder // "inventory.json"] None ;;
  old <- load_config (root // "camera-config.json") ;;
  new <- load_config config ;;
  old_identity <- lift (camera_identity old) ;;
  new_identity <- lift (camera_identity new) ;;
  when (negb (py_eq (VDict old_identity) (VDict new_identity)))
    (throw ValueError "Camera identities/roles changed across boots; refusing to combine experiments") ;;
  previous <- read (root // "prepared.json") ;;
  entries <- lift (as_dict previous) ;;
  check_entrypoints root entries ;;
  when (negb (py_eq (VDict old) (VDict new)))
    (save (folder // "prepared-before-irq-refresh.json") previous ;;
     seconds <- lift (py_int (dgetd "calibration_seconds" (VInt 30) entries)) ;;
     prepare REPO root new true (truthy (dgetd "smoke" (VBool false) entries)) seconds ;;
     sys (Copy config (root // "camera-config.json"))) ;;
  prepared <- read (root // "prepared.json") ;;
  save (folder // "prepared.json") prepared.
End pipeline.

(** ** The worker *)

Section worker.
Context {W : Type} `{OS W} (sys_executable REPO : string) (root : string) (fuel : nat).
(** The object is the local variable [state]. *)
Abbreviation IO := (M (pydict * world W)).
Let py {S} := py (S := S) sys_executable REPO.

Definition update (changes : pydict) : IO unit := set_self (λ state, dupdate state changes).
Definition save_state : IO unit := state <- self id ;; save (state_path root) (VDict state).

Definition stage_args (action stage : string) : list string :=
  ["--output"; root; "--config"; root // "camera-config.json"; action; stage].
Definition run_stage (stage : string) : IO unit :=
  py "reproduce.py" (stage_args "check" stage) None ;;
  sys (Mkdir (root // "environment") true) ;;
  prepared <- read (root // "prepared.json") ;;
  save (root // "environment" // (stage +:+ "-prepared.json")) prepared ;;
  update [("active_stage", VStr stage)] ;; save_state ;;
  py "reproduce.py" (stage_args "run" stage) None ;;
  done <- complete root stage ;;
  when (negb done) (throw ValueError ("No valid completion marker for " +:+ stage)) ;;
  update [("active_stage", VNone)] ;; save_state.

Definition request_boot (variant : string) (threaded : bool) (boot_id : string) : IO unit :=
  py "setup/kernel.py" (["select"; variant; "--apply"] ++ (if threaded then ["--threadirqs"] else [])) None ;;
  update [("status", VStr "rebooting");
          ("pending_boot", VDict [("variant", VStr variant); ("threaded", VBool threaded);
                                  ("boot_id", VStr boot_id)])] ;;
  save_state ;;
  sys SyncDisks ;;
  call ["systemctl"; "reboot"] None.

(** The [while True] loop: [true] when no phase is left, [false] after a
    requested reboot. *)
Fixpoint run_phases (fuel : nat) (boot_id : string) : IO bool :=
  match fuel with
  | O => throw OutOfFuel ""
  | Datatypes.S fuel =>
      phase <- next_phase root ;;
      match phase with
      | None => ret true
      | Some (variant, threaded, stages) =>
          booted <- boot_matches variant (VBool threaded) ;;
          if negb booted then request_boot variant threaded boot_id ;; ret false
          else for_each stages run_stage ;; run_phases fuel boot_id
      end
  end.

(** An interrupted stage is not repeated. *)
Definition check_interrupted : IO unit :=
  stage <- self (dgetd "active_stage" VNone) ;;
  if negb (truthy stage) then ret () else
  done <- complete root (str_val stage) ;;
  when (negb done)
    (throw ValueError (str_val stage
       +:+ " was interrupted without a completion marker; keep partial data and start a new campaign")).
(** A requested boot has taken place. *)
Definition check_boot (boot_id : string) : IO unit :=
  pending <- self (dgetd "pending_boot" VNone) ;;
  if negb (truthy pending) then ret () else
  previous <- lift (item pending "boot_id") ;;
  booted <- (if py_eq previous (VStr boot_id) then ret false else
             variant <- lift (item pending "variant") ;;
             threaded <- lift (item pending "threaded") ;;
             boot_matches (str_val variant) threaded) ;;
  if negb booted
  then throw ValueError "Requested kernel boot did not complete; automatic reboot retry disabled"
  else update [("pending_boot", VNone)].

Definition disable_wifi : IO unit :=
  there <- sys (PathExists WLAN0) ;; when there (call (wifi_command "down") None).
(** After the last stage: the analysis, then the system as it was. *)
Definition finish : IO unit :=
  let output := root // "derived" in
  there <- sys (PathExists output) ;;
  when (negb there)
    (pending_output <- sys (MkdTemp "analysis-attempt-" (Some root)) ;;
     analyze sys_executable REPO root pending_output false false (root // "analysis.log") ;;
     sys (Chmod pending_output 493) ;;
     sys (Rename pending_output output)) ;;
  there <- sys (PathExists (output // "manifest.json")) ;;
  when (negb there)
    (throw ValueError "Incomplete derived output; preserve it before retrying analysis") ;;
  state <- self id ;;
  pdf <- lift (subscript state "pdf") ;;
  when (truthy pdf) (py "render.py" [output] (Some (root // "analysis.log"))) ;;
  restore_system root ;;
  time <- sys UtcNow ;;
  update [("status", VStr "complete"); ("completed_at", VStr time); ("derived", VStr output)] ;;
  save_state ;;
  call ["systemctl"; "disable"; SERVICE] None.

Definition worker_body : IO unit :=
  verify_sources REPO root ;;
  check_wired fuel 60 ;;
  check_interrupted ;;
  boot_id <- current_boot_id ;;
  check_boot boot_id ;;
  update [("status", VStr "running"); ("active_stage", VNone)] ;;
  save_state ;;
  refresh_boot_config sys_executable REPO root boot_id ;;
  disable_wifi ;;
  finished <- run_phases fuel boot_id ;;
  when finished finish.

(** [except BaseException]: record the failure, restore the system and disable
    the service, whatever the restoration does. *)
Definition worker_failed (error : exn) : IO unit :=
  time <- sys UtcNow ;;
  update [("status", VStr "failed"); ("error", VStr (exn_msg error)); ("failed_at", VStr time)] ;;
  save_state ;;
  try_finally (restore_system root) (call ["systemctl"; "disable"; SERVICE] None) ;;
  rethrow error.

Definition worker_run : IO unit := try_except is_BaseException worker_body worker_failed.

Definition worker {S} : M (S * world W) unit :=
  require_pi ;;
  uid <- sys GetEuid ;;
  when (negb (bool_decide (uid = 0))) (throw ValueError "Worker must run in the installed root service") ;;
  sys (Mkdir (root // "private-tmp") true) ;;
  sys (SetEnv "TMPDIR" (root // "private-tmp")) ;;
  state <- read (state_path root) ;;
  repo <- lift (item state "repo") ;;
  when (negb (py_eq repo (VStr REPO))) (throw ValueError "Repository moved since preparation") ;;
  state <- lift (as_dict state) ;;
  sys (Lock (root // "pipeline.lock")) ;;
  local state worker_run.
End worker.

(** ** The commands of the user *)

Record pipeline_args := PipelineArgs {
  pa_action : string; pa_input : string; pa_output : string; pa_config : string; pa_smoke : bool;
  pa_calibration_seconds : Z; pa_no_pdf : bool }.

Section commands.
Context {W : Type} `{OS W} {S : Type} (sys_executable REPO : string) (argv : list string) (fuel : nat).
Abbreviation IO := (M (S * world W)).
Let HERE : string := REPO // "reproduction".
Let py := py (S := S) sys_executable REPO.

Definition starts (e : string) : bool :=
  py_startswith "Boot kernel " e || py_startswith "Paper runs disable Wi-Fi" e.
Definition enable_service : IO unit :=
  call ["systemctl"; "enable"; SERVICE] None ;;
  call ["systemctl"; "start"; "--no-block"; SERVICE] None.

Definition full (args : pipeline_args) : IO unit :=
  require_pi ;;
  uid <- sys GetEuid ;;
  when (negb (bool_decide (uid = 0)))
    (call [sys_executable; REPO // "scripts/check_dependencies.py"; "--rust"] None) ;;
  root_access sys_executable REPO argv ;;
  root <- sys (Resolve (pa_output args)) ;;
  require_empty root ;;
  unit <- service_text sys_executable REPO root ;;
  check_unit_available sys_executable REPO root false ;;
  require_analysis sys_executable REPO (negb (pa_no_pdf args)) ;;
  check_wired fuel 0 ;;
  call [sys_executable; REPO // "scripts/check_dependencies.py"; "--system"] None ;;
  for_each (dkeys VARIANTS) (λ variant, py "setup/kernel.py" ["select"; variant] None) ;;
  sys (Mkdir root true) ;;
  let config := root // "camera-config.json" in
  there <- sys (PathExists (pa_config args)) ;;
  when there (sys (Copy (pa_config args) config)) ;;
  py "setup/discover.py" ["--output"; config; "--inventory"; root // "camera-inventory.json"] None ;;
  cfg <- load_config config ;;
  errors <- check REPO root "e1" cfg ;;
  let errors := filter (λ e, starts e = false) errors in
  when (negb (bool_decide (errors = []))) (throw ValueError (py_join nl errors)) ;;
  prepare REPO root cfg false (pa_smoke args) (pa_calibration_seconds args) ;;
  py "bundle_sources.py" ["--output"; root // "source-snapshot.tar.gz"; "--exclude"; root] None ;;
  snapshot_system root ;;
  time <- sys UtcNow ;;
  save (state_path root) (VDict [("level", VStr "full"); ("status", VStr "queued"); ("repo", VStr REPO);
    ("started_at", VStr time); ("pdf", VBool (negb (pa_no_pdf args))); ("smoke", VBool (pa_smoke args));
    ("calibration_seconds", VInt (pa_calibration_seconds args)); ("active_stage", VNone);
    ("pending_boot", VNone)]) ;;
  sys (WriteText UNIT unit) ;;
  call ["systemctl"; "daemon-reload"] None ;;
  enable_service.

(** The body of [raw]: [state] is the object. *)
Definition raw_checksums (source root : string) : M (pydict * world W) unit :=
  there <- sys (IsFile (source // "SHA256SUMS")) ;;
  if there : bool then
    call ["sha256sum"; "--check"; "--quiet"; "SHA256SUMS"] (Some (root // "checksums.log")) ;;
    set_self (dset "checksums" (VStr "verified"))
  else set_self (dset "checksums"
    (VStr "no SHA256SUMS supplied; analysis manifest records consumed input hashes")).
Definition raw_run (source root : string) (pdf : bool) : M (pydict * world W) unit :=
  try_except is_BaseException
    (raw_checksums source root ;;
     save_state root ;;
     analyze sys_executable REPO source (root // "derived") true pdf (root // "analysis.log") ;;
     time <- sys UtcNow ;;
     update [("status", VStr "complete"); ("completed_at", VStr time)] ;;
     save_state root)
    (λ error, update [("status", VStr "failed"); ("error", VStr (exn_msg error))] ;;
              save_state root ;; rethrow error).
Definition raw (args : pipeline_args) : IO unit :=
  source <- sys (Resolve (pa_input args)) ;;
  root <- sys (Resolve (pa_output args)) ;;
  there <- sys (IsDir source) ;;
  when (negb there) (throw ValueError ("Missing raw-data package: " +:+ source)) ;;
  when (bool_decide (root = source) || is_relative_to root source)
    (throw ValueError "Keep generated output outside the raw-data package") ;;
  require_empty root ;;
  require_analysis sys_executable REPO (negb (pa_no_pdf args)) ;;
  sys (Mkdir root true) ;;
  time <- sys UtcNow ;;
  let state := [("level", VStr "raw"); ("status", VStr "running"); ("source", VStr source);
                ("started_at", VStr time); ("pdf", VBool (negb (pa_no_pdf args)))] in
  save (state_path root) (VDict state) ;;
  local state (raw_run source root (negb (pa_no_pdf args))).

Definition show_status (root : string) (state : pydict) : IO unit :=
  level <- lift (subscript state "level") ;;
  if negb (py_eq level (VStr "full")) then ret () else
  plan <- phases root ;; pending_stages root (concat (map snd plan)) ;; ret ().
Definition stop_campaign (root : string) : IO unit :=
  call ["systemctl"; "disable"; "--now"; SERVICE] None ;;
  state <- read (state_path root) ;;
  restore_system root ;;
  time <- sys UtcNow ;;
  state <- lift (as_dict state) ;;
  save (state_path root) (VDict (dupdate state [("status", VStr "stopped"); ("stopped_at", VStr time)])).
Definition resume_campaign (root : string) (state : pydict) : IO unit :=
  check_unit_available sys_executable REPO root true ;;
  let stage := dgetd "active_stage" VNone state in
  interrupted <- (if truthy stage then done <- complete root (str_val stage) ;; ret (negb done)
                  else ret false) ;;
  when interrupted
    (throw ValueError "Interrupted acquisition cannot be resumed safely; use a new output") ;;
  verify_sources REPO root ;;
  check_wired fuel 0 ;;
  save (state_path root) (VDict (dupdate state [("status", VStr "queued"); ("pending_boot", VNone)])) ;;
  enable_service.
Definition control (args : pipeline_args) : IO unit :=
  root <- sys (Resolve (pa_output args)) ;;
  state <- read (state_path root) ;;
  state <- lift (as_dict state) ;;
  if bool_decide (pa_action args = "status") then show_status root state else
  level <- lift (subscript state "level") ;;
  when (negb (py_eq level (VStr "full")))
    (throw ValueError "resume/stop apply only to full-mode campaigns") ;;
  status <- lift (subscript state "status") ;;
  if py_eq status (VStr "complete") then
    (if bool_decide (pa_action args = "stop") then ret ()
     else throw ValueError "Campaign already complete")
  else
  require_pi ;; root_access sys_executable REPO argv ;;
  there <- sys (PathExists UNIT) ;;
  same <- (if negb there then ret false else
           text <- sys (ReadText UNIT) ;; expected <- service_text sys_executable REPO root ;;
           ret (bool_decide (text = expected))) ;;
  when (negb same) (throw ValueError "Output does not match the installed reproduction service") ;;
  if bool_decide (pa_action args = "stop") then stop_campaign root else resume_campaign root state.

(** [main] after the arguments are parsed: the exit status. *)
Definition pipeline_main (args : pipeline_args) : IO Z :=
  if bool_decide (pa_action args = "plan") then ret 0 else
  try_except main_errors
    ((if bool_decide (pa_action args = "raw") then raw args
      else if bool_decide (pa_action args = "full") then full args
      else if bool_decide (pa_action args = "_worker") then
        root <- sys (Resolve (pa_output args)) ;; worker sys_executable REPO root fuel
      else control args) ;; ret 0)
    (λ _, ret 1).
End commands.
