(* ===== verification/CampaignDisk.v ===== *)
(** * The campaign directory across calls and boots

    What the worker's theorems rely on: files keep their contents unless a call
    writes them, a kernel keeps its release and command line while it runs, and
    the commands of the campaign leave [pipeline.json] alone and remove no
    completion marker.  A computation is [calm] when it leaves all of this as it
    is and starts no stage. *)
From Stdlib Require Import Ascii ZArith Lia Floats.SpecFloat.
From S2P Require Import Prelude PyStr PyFloat PyVal PyJson Effects Machine Shell Kernel Reproduce Adapters Pipeline.
From stdpp Require Import base gmap strings list.
Local Open Scope Z_scope.
Local Open Scope py_scope.
Local Open Scope M_scope.

(** The calls that may change the file [p]: those that write it or a directory
    on its path. *)
Definition touches {A} (c : syscall A) (p : string) : bool :=
  match c with
  | WriteText q _ | WriteJson q _ | WriteCsv q _ _ | Copy _ q | OpenAppend q | Lock q => bool_decide (p = q)
  | Mkdir q _ => py_startswith p q
  | Rename a q => py_startswith a p || py_startswith q p
  | CopyTree _ q | RmTree q => py_startswith q p
  | RunCommand _ _ _ | MkdTemp _ _ | Spawn _ _ | SpawnWith _ _ | Poll _ | Terminate _ | Kill _ | Wait _ _
  | Wait4 _ | Reap _ | KillGroup _ _ | RunBench _ _ => true
  | Symlink q _ => bool_decide (p = q)
  | _ => false
  end.

(** The calls that may remove the file [p]. *)
Definition removes {A} (c : syscall A) (p : string) : bool :=
  match c with
  | Rename a _ => py_startswith a p
  | RmTree q => py_startswith q p
  | RunCommand _ _ _ | Spawn _ _ | SpawnWith _ _ | Poll _ | Terminate _ | Kill _ | Wait _ _
  | Wait4 _ | Reap _ | KillGroup _ _ | RunBench _ _ => true
  | _ => false
  end.
Lemma removes_touches {A} (c : syscall A) p : touches c p = false → removes c p = false.
Proof. destruct c; simpl; try done. by intros [? _]%orb_false_iff. Qed.

(** The state file and the completion markers. *)
Definition protected (root p : string) : Prop :=
  p = state_path root ∨ ∃ stage, stage ∈ dkeys STAGES ∧ p = marker root stage.

(** [json_at w p]: the JSON value in the file [p]; [exists_at w p]: whether
    [p] exists; [boot_at w]: release and command line of the running kernel. *)
Class CampaignDisk (root : string) (W : Type) `{OS W} := {
  json_at : W → string → option pyval;
  exists_at : W → string → bool;
  boot_at : W → string * string;
  disk_exists p w b : (handle (PathExists p) w).1 = Ok b → exists_at w p = b;
  disk_read p w v : (handle (ReadJson p) w).1 = Ok v → json_at w p = Some v;
  disk_json_exists w p v : json_at w p = Some v → exists_at w p = true;
  disk_write p v w : (handle (WriteJson p v) w).1 = Ok () → json_at (handle (WriteJson p v) w).2 p = Some v;
  disk_rename p q w : (handle (Rename p q) w).1 = Ok () → json_at (handle (Rename p q) w).2 q = json_at w p;
  disk_frame {A} (c : syscall A) w p : touches c p = false → json_at (handle c w).2 p = json_at w p;
  disk_stays {A} (c : syscall A) w p :
    removes c p = false → exists_at w p = true → exists_at (handle c w).2 p = true;
  disk_temporary prefix dir w p : (handle (MkdTemp prefix (Some dir)) w).1 = Ok p →
    plain_name prefix = true → ∃ s, p = dir // (prefix +:+ s) ∧ plain_name (prefix +:+ s) = true;
  command_frame command input timeout w p : protected root p →
    let w' := (handle (RunCommand command input timeout) w).2 in
    json_at w' (state_path root) = json_at w (state_path root) ∧
    (exists_at w p = true → exists_at w' p = true);
  boot_release w r : (handle Release w).1 = Ok r → (boot_at w).1 = r;
  boot_cmdline w t : (handle (ReadText "/proc/cmdline") w).1 = Ok t → (boot_at w).2 = t;
  boot_id_plain w t : (handle (ReadText "/proc/sys/kernel/random/boot_id") w).1 = Ok t →
    plain_name (py_strip t) = true;
  boot_frame {A} (c : syscall A) w : boot_at (handle c w).2 = boot_at w;
}.

(** ** Paths of the campaign directory *)

Definition absolute (root : string) : Prop := ∃ c rest, root = String "/" (String c rest).

Section paths.
Context (root : string) (root_ok : absolute root).

Lemma pjoin_plain p c :
  absolute p → plain_name c = true → p // c = p +:+ "/" +:+ c.
Proof.
  intros (a & rest & ->). unfold plain_name. rewrite andb_true_iff, negb_true_iff, bool_decide_eq_true.
  intros [Hc Hs]. unfold pjoin. rewrite Hs, Hc. rewrite !bool_decide_false by done. done.
Qed.
Lemma absolute_app s : absolute (root +:+ s).
Proof. destruct root_ok as (c & rest & ->). by exists c, (rest +:+ s). Qed.
Lemma pjoin_1 c : plain_name c = true → root // c = root +:+ "/" +:+ c.
Proof. by apply pjoin_plain. Qed.
Lemma pjoin_2 c d :
  plain_name c = true → plain_name d = true → root // c // d = root +:+ "/" +:+ c +:+ "/" +:+ d.
Proof.
  intros Hc Hd. rewrite (pjoin_1 c Hc), pjoin_plain by (done || apply absolute_app).
  by rewrite !string_app_assoc.
Qed.

(** The part of a protected path below the directory. *)
Definition protected_rel (r : string) : Prop :=
  r = "pipeline.json" ∨ ∃ stage, stage ∈ dkeys STAGES ∧ r = "completed/" +:+ stage +:+ ".json".
Lemma stage_plain stage : stage ∈ dkeys STAGES → plain_name (stage +:+ ".json") = true.
Proof.
  assert (Forall (λ s, plain_name (s +:+ ".json") = true) (dkeys STAGES)) as Hall.
  { apply (bool_decide_unpack _). vm_compute. done. }
  rewrite Forall_forall in Hall. exact (Hall stage).
Qed.
Lemma state_path_eq : state_path root = root +:+ "/" +:+ "pipeline.json".
Proof. by apply pjoin_1. Qed.
Lemma marker_eq stage :
  stage ∈ dkeys STAGES → marker root stage = root +:+ "/" +:+ "completed/" +:+ stage +:+ ".json".
Proof. intros Hs. unfold marker. rewrite pjoin_2; [done|done|by apply stage_plain]. Qed.
Lemma protected_below p : protected root p → ∃ r, p = root +:+ "/" +:+ r ∧ protected_rel r.
Proof.
  intros [->|(stage & Hs & ->)].
  - exists "pipeline.json". split; [apply state_path_eq|by left].
  - eexists. split; [by apply marker_eq|]. right. by exists stage.
Qed.

Lemma startswith_app s a b : py_startswith (s +:+ a) (s +:+ b) = py_startswith a b.
Proof.
  induction s as [|c s IH]; [done|]. rewrite !string_app_cons. unfold py_startswith in *. simpl.
  by destruct (Ascii.ascii_dec c c).
Qed.
(** Texts that differ early: neither is a prefix of the other. *)
Definition apart (a b : string) : bool := negb (py_startswith a b) && negb (py_startswith b a).
Lemma apart_app a b s t : apart a b = true → py_startswith (a +:+ s) (b +:+ t) = false.
Proof.
  revert b. induction a as [|x a IH]; intros [|y b]; unfold apart, py_startswith in *; simpl; try done.
  destruct (Ascii.ascii_dec x y) as [->|]; [|done]. destruct (Ascii.ascii_dec y y); [|done]. apply IH.
Qed.
(** A path whose first characters below [root] are [a] does not meet a
    protected one. *)
Definition elsewhere (a : string) : bool := apart a "pipeline.json" && apart a "completed/".
Lemma elsewhere_spec a s p :
  elsewhere a = true → protected root p →
  let q := root +:+ "/" +:+ a +:+ s in
  p ≠ q ∧ py_startswith q p = false ∧ py_startswith p q = false.
Proof.
  intros [H1 H2]%andb_true_iff (r & -> & Hr)%protected_below. cbv zeta.
  assert (∀ b, apart a b = apart b a) as Hsym.
  { intros b. unfold apart. apply andb_comm. }
  assert (py_startswith (a +:+ s) r = false ∧ py_startswith r (a +:+ s) = false) as [Hqp Hpq].
  { destruct Hr as [->|(stage & _ & ->)].
    - rewrite <- (string_app_nil_r "pipeline.json"). split; apply apart_app; [done|by rewrite <- Hsym].
    - split; apply apart_app; [done|by rewrite <- Hsym]. }
  rewrite !startswith_app. split_and!; [|done|done].
  intros Heq%string_app_inj_l. apply (string_app_inj_l "/") in Heq. subst r.
  rewrite <- (string_app_nil_r (a +:+ s)) in Hqp at 2. by rewrite py_startswith_app in Hqp.
Qed.

(** A path below [root] that meets no protected one. *)
Definition elsewhere_path (p : string) : Prop :=
  ∃ a s, p = root +:+ "/" +:+ a +:+ s ∧ elsewhere a = true.
Lemma elsewhere_1 c : plain_name c = true → elsewhere c = true → elsewhere_path (root // c).
Proof.
  intros Hp He. exists c, "". split; [|done]. by rewrite pjoin_1, string_app_nil_r by done.
Qed.
Lemma elsewhere_below p d : elsewhere_path p → plain_name d = true → elsewhere_path (p // d).
Proof.
  intros (a & s & -> & Ha) Hd. exists a, (s +:+ "/" +:+ d). split; [|done].
  rewrite pjoin_plain by (done || apply absolute_app). by rewrite !string_app_assoc.
Qed.
Lemma elsewhere_app p s : elsewhere_path p → elsewhere_path (p +:+ s).
Proof.
  intros (a & t & -> & Ha). exists a, (t +:+ s). split; [|done]. by rewrite !string_app_assoc.
Qed.
Lemma elsewhere_apart q p : elsewhere_path q → protected root p →
  p ≠ q ∧ py_startswith q p = false ∧ py_startswith p q = false.
Proof. intros (a & s & -> & Ha). by apply elsewhere_spec. Qed.
End paths.

(** ** Calm computations *)

(** Not the command that runs a stage: another length, or another action. *)
Ltac not_a_run :=
  let stage := fresh in let Heq := fresh in intros stage Heq;
  first [ apply (f_equal length) in Heq; cbn in Heq; discriminate Heq
        | apply (f_equal (λ l, nth 6 l EmptyString)) in Heq; discriminate Heq ].

Section calm.
Context {W : Type} `{OS W} (sys_executable REPO root : string) (root_ok : absolute root).
Context `{!CampaignDisk root W}.

(** The command that runs a stage, and the stages a log ran. *)
Definition run_command (stage : string) : list string :=
  [sys_executable; REPO // "reproduction" // "reproduce.py"] ++ stage_args root "run" stage.
Definition stage_of (command : list string) : option string :=
  find (λ s, bool_decide (command = run_command s)) (dkeys STAGES).
Definition run_of (e : entry) : option string :=
  match e with ERun command _ _ => stage_of command | _ => None end.
Definition runs (l : list entry) : list string := omap run_of l.

Definition calm_w : relation (world W) := λ x y,
  boot_at (w_os y) = boot_at (w_os x) ∧
  json_at (w_os y) (state_path root) = json_at (w_os x) (state_path root) ∧
  (∀ stage, stage ∈ dkeys STAGES → exists_at (w_os x) (marker root stage) = true →
     exists_at (w_os y) (marker root stage) = true) ∧
  ∃ l, w_log y = w_log x ++ l ∧ runs l = [].
#[export] Instance calm_w_preorder : PreOrder calm_w.
Proof.
  split.
  - intros x. split_and!; try done. exists []. by rewrite app_nil_r.
  - intros x y z (B1 & J1 & E1 & l1 & L1 & R1) (B2 & J2 & E2 & l2 & L2 & R2).
    split_and!; [congruence|congruence|by auto|]. exists (l1 ++ l2). split.
    + by rewrite L2, L1, app_assoc.
    + unfold runs in *. by rewrite omap_app, R1, R2.
Qed.
(** Calm but for the state file. *)
Definition mild_w : relation (world W) := λ x y,
  boot_at (w_os y) = boot_at (w_os x) ∧
  (∀ stage, stage ∈ dkeys STAGES → exists_at (w_os x) (marker root stage) = true →
     exists_at (w_os y) (marker root stage) = true) ∧
  ∃ l, w_log y = w_log x ++ l ∧ runs l = [].
#[export] Instance mild_w_preorder : PreOrder mild_w.
Proof.
  split.
  - intros x. split_and!; try done. exists []. by rewrite app_nil_r.
  - intros x y z (B1 & E1 & l1 & L1 & R1) (B2 & E2 & l2 & L2 & R2).
    split_and!; [congruence|by auto|]. exists (l1 ++ l2). split.
    + by rewrite L2, L1, app_assoc.
    + unfold runs in *. by rewrite omap_app, R1, R2.
Qed.
Abbreviation calm := (on_world calm_w).
Abbreviation mild := (on_world mild_w).
Lemma calm_mild x y : calm_w x y → mild_w x y.
Proof. by intros (? & _ & ? & ?). Qed.

Lemma stage_of_run stage : stage ∈ dkeys STAGES → stage_of (run_command stage) = Some stage.
Proof.
  intros Hs. unfold stage_of. destruct (find _ _) as [s|] eqn:Hf.
  - apply find_some in Hf as [_ Hf%bool_decide_eq_true]. unfold run_command, stage_args in Hf.
    by injection Hf as ->.
  - eapply find_none in Hf; [|by apply list_elem_of_In]. by rewrite bool_decide_true in Hf.
Qed.
Lemma stage_of_none command :
  (∀ stage, command ≠ run_command stage) → stage_of command = None.
Proof.
  intros Hne. unfold stage_of. destruct (find _ _) as [s|] eqn:Hf; [|done].
  apply find_some in Hf as [_ Hf%bool_decide_eq_true]. by destruct (Hne s).
Qed.
Lemma stage_of_some command stage :
  stage_of command = Some stage → command = run_command stage ∧ stage ∈ dkeys STAGES.
Proof.
  unfold stage_of. intros [Hin Hf%bool_decide_eq_true]%find_some. split; [done|by apply list_elem_of_In].
Qed.

(** A call that touches no protected file. *)
Lemma calm_sys {T A} (c : syscall A) :
  (∀ p, protected root p → touches c p = false) → (∀ r, runs (note c r) = []) →
  within calm (sys (S := T) c).
Proof.
  intros Ht Hn [s w]. unfold sys, on_world, calm_w. pose proof (boot_frame (root := root) c (w_os w)) as Hb.
  assert (∀ p, protected root p → json_at (handle c (w_os w)).2 p = json_at (w_os w) p ∧
    (exists_at (w_os w) p = true → exists_at (handle c (w_os w)).2 p = true)) as Hf.
  { intros p Hp. split; [by apply disk_frame, Ht|]. by apply disk_stays, removes_touches, Ht. }
  destruct (handle c (w_os w)) as [r o]. simpl in *. split_and!; [done| | |].
  - apply Hf. by left.
  - intros stage Hs. apply Hf. right. by exists stage.
  - by exists (note c r).
Qed.
Lemma calm_command {T} command input timeout :
  (∀ stage, command ≠ run_command stage) →
  within calm (sys (S := T) (RunCommand command input timeout)).
Proof.
  intros Hne [s w]. unfold sys, on_world, calm_w.
  pose proof (boot_frame (root := root) (RunCommand command input timeout) (w_os w)) as Hb.
  assert (∀ p, protected root p → _) as Hf by exact (command_frame command input timeout (w_os w)).
  destruct (handle (RunCommand command input timeout) (w_os w)) as [r o]. cbv zeta in Hf. simpl in *.
  split_and!; [done| | |].
  - eapply Hf. by left.
  - intros stage Hs. apply Hf. right. by exists stage.
  - eexists. split; [done|]. unfold runs, run_of. simpl. by rewrite stage_of_none.
Qed.

(** Writing calls away from the protected files. *)
Lemma calm_write {T A} (c : syscall A) q :
  (∀ p, p ≠ q ∧ py_startswith q p = false ∧ py_startswith p q = false → touches c p = false) →
  elsewhere_path root q → (∀ r, runs (note c r) = []) → within calm (sys (S := T) c).
Proof. intros Ht Hq Hn. apply calm_sys; [|done]. intros p Hp. by apply Ht, (elsewhere_apart root). Qed.
Lemma calm_save {T} path v : elsewhere_path root path → within calm (save (S := T) path v).
Proof.
  intros Hp. pose proof (elsewhere_app root _ ".tmp" Hp) as Htmp. unfold save.
  apply within_bind; [typeclasses eauto| |intros _].
  - eapply calm_write; [|exact Htmp|done]. intros p (Hne & _). by apply bool_decide_false.
  - apply calm_sys; [|done]. intros p Hprot. simpl.
    destruct (elsewhere_apart root root_ok _ _ Hp Hprot) as (_ & -> & _).
    by destruct (elsewhere_apart root root_ok _ _ Htmp Hprot) as (_ & -> & _).
Qed.

Lemma calm_checked {T} command input timeout :
  (∀ stage, command ≠ run_command stage) →
  within calm (run_checked (S := T) command input timeout).
Proof. intros Hne. unfold run_checked. solve_within. by apply calm_command. Qed.
Lemma calm_check_call {T} command :
  (∀ stage, command ≠ run_command stage) → within calm (check_call (S := T) command).
Proof. intros Hne. unfold check_call. solve_within. by apply calm_checked. Qed.
Lemma calm_call {T} command :
  (∀ stage, command ≠ run_command stage) → within calm (call (S := T) command None).
Proof.
  intros Hne. unfold call. apply within_bind; [typeclasses eauto| |intros _; by apply calm_check_call].
  apply within_ret. typeclasses eauto.
Qed.
Lemma calm_output {T} command :
  (∀ stage, command ≠ run_command stage) → within calm (check_output (S := T) command).
Proof. intros Hne. unfold check_output. solve_within. by apply calm_checked. Qed.

(** *** The operations of the worker *)

Ltac calm_read := apply calm_sys; [by intros|by intros].
Ltac solve_calm :=
  repeat (intros; first
    [ progress solve_within
    | match goal with
      | |- within _ (set_self _) => apply within_set_self; typeclasses eauto
      | |- within _ (local _ _) => apply within_local
      | |- within _ (sys (RunCommand _ _ _)) => apply calm_command; not_a_run
      | |- within _ (call _ None) => apply calm_call; not_a_run
      | |- within _ (check_call _) => apply calm_check_call; not_a_run
      | |- within _ (check_output _) => apply calm_output; not_a_run
      | |- within _ (sys _) => calm_read
      end ]).

Lemma calm_reads {T} path : within calm (read (S := T) path).
Proof. unfold read. solve_calm. Qed.
#[local] Hint Resolve calm_reads : keeps.
Lemma calm_complete {T} stage : within calm (complete (S := T) root stage).
Proof. unfold complete, read, digest. solve_calm. Qed.
Lemma calm_phases {T} : within calm (phases (S := T) root).
Proof. unfold phases, read. solve_calm. Qed.
Lemma calm_boot_matches {T} variant threaded : within calm (boot_matches (S := T) variant threaded).
Proof. unfold boot_matches. solve_calm. Qed.
Lemma calm_model {T} : within calm (model_is_pi (S := T)).
Proof. unfold model_is_pi. solve_calm. Qed.
Lemma calm_verify {T} : within calm (verify_sources (S := T) REPO root).
Proof. unfold verify_sources, digest. solve_calm. Qed.
Lemma calm_wired {T} fuel seconds : within calm (check_wired (S := T) fuel seconds).
Proof.
  assert (∀ n d, within calm (await_eth0 (S := T) n d)) as Hawait.
  { induction n as [|n IH]; intros d; simpl; unfold eth0_up; solve_calm. }
  unfold check_wired, check_route. solve_calm.
Qed.
Lemma calm_boot_id {T} : within calm (current_boot_id (S := T)).
Proof. unfold current_boot_id. solve_calm. Qed.
Lemma calm_wifi : within calm disable_wifi.
Proof. unfold disable_wifi. solve_calm. Qed.
Lemma calm_load {T} path : within calm (load_config (S := T) path).
Proof. unfold load_config. solve_calm. Qed.

(** *** The preparation of adapters *)

Lemma entry_elsewhere name : plain_name name = true → elsewhere_path root (root // "entrypoints" // name).
Proof. intros Hn. apply elsewhere_below; [done| |done]. by apply elsewhere_1. Qed.
Lemma calm_adapter smoke seconds name text :
  plain_name name = true → within calm (write_adapter root smoke seconds name text).
Proof.
  intros Hn. unfold write_adapter.
  apply within_bind; [typeclasses eauto|solve_calm|]. intros t.
  apply within_bind; [typeclasses eauto| |intros _; solve_calm].
  eapply calm_write; [|by apply entry_elsewhere|done]. intros p (Hne & _). by apply bool_decide_false.
Qed.
Lemma calm_source name : within calm (read_source REPO root name).
Proof. unfold read_source, digest. solve_calm. Qed.
Lemma calm_adapter_named smoke seconds name text (k : M (pydict * world W) unit) :
  plain_name name = true → within calm k →
  within calm (write_adapter root smoke seconds name text ;; k).
Proof. intros Hn Hk. apply within_bind; [typeclasses eauto|by apply calm_adapter|done]. Qed.

#[local] Hint Resolve calm_source calm_load calm_complete calm_phases calm_boot_matches calm_model
  calm_verify calm_wired calm_boot_id calm_wifi : keeps.
Ltac solve_adapters :=
  repeat (intros; first
    [ progress solve_calm
    | match goal with
      | |- within _ (write_adapter _ _ _ _ _) => apply calm_adapter; [vm_compute; reflexivity]
      | |- within _ (for_each _ _) => apply within_for_each_in; [typeclasses eauto|]
      end ]).
(** Steps over the first computation of a sequence with [tac]. *)
Ltac bind_with tac :=
  match goal with |- within _ (bind _ _) => apply within_bind; [typeclasses eauto|tac|intros ?] end.
Ltac each_member := intros ? Hin;
  repeat (apply elem_of_cons in Hin as [->|Hin]); [..|by apply elem_of_nil in Hin].

Section prepared.
Variables (smoke : bool) (seconds : Z).

Lemma calm_case_file cfg startup single name :
  name ∈ case_names → within calm (write_case_file REPO root smoke seconds cfg startup single name).
Proof.
  intros Hin. assert (plain_name (lstrip_dots name) = true) as Hp.
  { assert (Forall (λ n, plain_name (lstrip_dots n) = true) case_names) as Hall.
    { apply (bool_decide_unpack _). vm_compute. done. }
    rewrite Forall_forall in Hall. exact (Hall name Hin). }
  unfold write_case_file. solve_calm. by apply calm_adapter.
Qed.
Lemma calm_e1 single d455 : within calm (prepare_e1 REPO root smoke seconds single d455).
Proof. unfold prepare_e1. solve_adapters. Qed.
Lemma calm_e2 configs single : within calm (prepare_e2 REPO root smoke seconds configs single).
Proof.
  unfold prepare_e2. repeat bind_with ltac:(solve_calm).
  apply within_for_each_in; [typeclasses eauto|]. each_member; solve_adapters.
Qed.
Lemma calm_e3 configs cfg single d455 : within calm (prepare_e3 REPO root smoke seconds configs cfg single d455).
Proof. unfold prepare_e3. solve_adapters. Qed.
Lemma calm_e4 configs : within calm (prepare_e4 REPO root smoke seconds configs).
Proof.
  unfold prepare_e4. repeat bind_with ltac:(solve_adapters).
  apply within_for_each_in; [typeclasses eauto|]. each_member; solve_adapters.
Qed.
Lemma calm_ablation configs : within calm (prepare_ablation REPO root smoke seconds configs).
Proof. unfold prepare_ablation. solve_adapters. Qed.
Lemma calm_direct a b c d : within calm (prepare_direct REPO root smoke seconds a b c d).
Proof.
  unfold prepare_direct, direct_commands. apply within_for_each_in; [typeclasses eauto|].
  each_member; solve_adapters.
Qed.
Lemma calm_prior allow cfg : within calm (check_prior REPO root smoke seconds allow cfg).
Proof. unfold check_prior. solve_calm. Qed.
Lemma calm_digests : within calm (entrypoint_digests root).
Proof. unfold entrypoint_digests, digest. solve_calm. Qed.
End prepared.

Lemma calm_mkdir {T} path b : elsewhere_path root path → within calm (sys (S := T) (Mkdir path b)).
Proof. intros Hp. eapply calm_write; [|exact Hp|done]. by intros p (_ & _ & ?). Qed.
Lemma calm_write_json {T} path v : elsewhere_path root path → within calm (sys (S := T) (WriteJson path v)).
Proof.
  intros Hp. eapply calm_write; [|exact Hp|done]. intros p (Hne & _). by apply bool_decide_false.
Qed.
Lemma calm_copy {T} source path : elsewhere_path root path → within calm (sys (S := T) (Copy source path)).
Proof.
  intros Hp. eapply calm_write; [|exact Hp|done]. intros p (Hne & _). by apply bool_decide_false.
Qed.

Lemma calm_prepare {T} cfg allow smoke seconds :
  within calm (prepare (S := T) REPO root cfg allow smoke seconds).
Proof.
  unfold prepare. apply within_local. unfold prepare_body.
  repeat (match goal with |- within _ (bind _ _) => apply within_bind; [typeclasses eauto|..] end;
    intros; try solve [solve_calm]).
  - apply calm_prior.
  - apply calm_mkdir. by apply elsewhere_1.
  - apply within_map_each_in; [typeclasses eauto|]. intros name Hin. by apply calm_case_file.
  - apply calm_e1.
  - apply calm_e2.
  - apply calm_e3.
  - apply calm_e4.
  - apply calm_ablation.
  - apply calm_direct.
  - apply calm_digests.
  - apply calm_write_json. by apply elsewhere_1.
Qed.

Lemma calm_py {T} script args :
  (∀ stage, [sys_executable; REPO // "reproduction" // script] ++ args ≠ run_command stage) →
  within calm (py (S := T) sys_executable REPO script args None).
Proof. intros Hne. unfold py. by apply calm_call. Qed.
Lemma calm_entrypoints {T} entries : within calm (check_entrypoints (S := T) root entries).
Proof. unfold check_entrypoints, digest. solve_calm. Qed.
Lemma calm_refresh {T} boot_id :
  plain_name boot_id = true → within calm (refresh_boot_config (S := T) sys_executable REPO root boot_id).
Proof.
  intros Hid. assert (elsewhere_path root (root // "boot-inventories" // boot_id)) as Hfolder.
  { apply elsewhere_below; [done| |done]. by apply elsewhere_1. }
  assert (∀ name, plain_name name = true →
    elsewhere_path root (root // "boot-inventories" // boot_id // name)) as Hin.
  { intros name Hn. by apply elsewhere_below. }
  unfold refresh_boot_config.
  repeat (match goal with
          | |- within _ (bind _ _) => apply within_bind; [typeclasses eauto|..]
          | |- within _ (when _ _) => apply within_when; [typeclasses eauto|]
          end; intros; try solve [solve_calm]).
  - by apply calm_mkdir.
  - apply calm_copy. by apply Hin.
  - apply calm_py. not_a_run.
  - apply calm_entrypoints.
  - apply calm_save. by apply Hin.
  - apply calm_prepare.
  - apply calm_copy. by apply elsewhere_1.
  - apply calm_save. by apply Hin.
Qed.

(** *** Steps that may write the state file *)

Lemma mild_calm {T A} (m : M (T * world W) A) : within calm m → within mild m.
Proof. apply within_mono. intros x y. apply calm_mild. Qed.
Lemma mild_sys {T A} (c : syscall A) :
  (∀ p, protected root p → removes c p = false) → (∀ r, runs (note c r) = []) →
  within mild (sys (S := T) c).
Proof.
  intros Ht Hn [s w]. unfold sys, on_world, mild_w. pose proof (boot_frame (root := root) c (w_os w)) as Hb.
  assert (∀ p, protected root p → exists_at (w_os w) p = true → exists_at (handle c (w_os w)).2 p = true) as Hf.
  { intros p Hp. by apply disk_stays, Ht. }
  destruct (handle c (w_os w)) as [r o]. simpl in *. split_and!; [done| |].
  - intros stage Hs. apply Hf. right. by exists stage.
  - by exists (note c r).
Qed.
(** The temporary name of the state file is no protected path. *)
Lemma state_temporary p :
  protected root p → p ≠ state_path root +:+ ".tmp" ∧ py_startswith (state_path root +:+ ".tmp") p = false.
Proof.
  intros (r & -> & Hr)%(protected_below root root_ok).
  rewrite (state_path_eq root root_ok), !string_app_assoc.
  assert (py_startswith ("pipeline.json" +:+ ".tmp") r = false) as Hpre.
  { destruct Hr as [->|(stage & _ & ->)]; [vm_compute; reflexivity|]. by apply apart_app. }
  rewrite !startswith_app. split; [|done].
  intros Heq%string_app_inj_l. apply (string_app_inj_l "/") in Heq. subst r. vm_compute in Hpre. done.
Qed.
Lemma mild_save_state {T} v : within mild (save (S := T) (state_path root) v).
Proof.
  unfold save. apply within_bind; [typeclasses eauto| |intros _]; (apply mild_sys; [|done]); intros p Hp; simpl; [done|].
  by apply state_temporary.
Qed.
(** After a save that returns the file holds the value. *)
Lemma save_state_ok {T} v (x : T * world W) :
  wp (save (state_path root) v) (λ _ y, y.1 = x.1 ∧ json_at (w_os y.2) (state_path root) = Some v)
    (λ _ y, y.1 = x.1) x.
Proof.
  destruct x as [s w]. unfold save. apply wp_bind, wp_sys. intros r o Hw. destruct r as [[]|e]; [|done].
  assert (json_at o (state_path root +:+ ".tmp") = Some v) as Ho.
  { pose proof (disk_write (root := root) (state_path root +:+ ".tmp") v (w_os w)) as Hd. rewrite Hw in Hd. by apply Hd. }
  apply wp_sys. intros r o' Hr. destruct r as [[]|e]; [|done]. simpl in *. split; [done|].
  pose proof (disk_rename (root := root) (state_path root +:+ ".tmp") (state_path root) o) as Hd.
  rewrite Hr in Hd. rewrite <- Ho. by apply Hd.
Qed.
End calm.
