(* ===== verification/CampaignDemo.v ===== *)
(** * A campaign machine that can be run

    A Raspberry Pi small enough to evaluate a whole campaign on: JSON files as a
    map, a kernel that is selected and booted, commands that leave a completion
    marker, and an analysis that writes its manifest.  It has the properties the
    worker's theorems ask for. *)
From Stdlib Require Import Ascii ZArith Lia Floats.SpecFloat.
From S2P Require Import Prelude PyStr PyFloat PyVal PyJson Effects Machine Clock Shell Kernel Reproduce.
From S2P Require Import Adapters Pipeline CampaignDisk.
From stdpp Require Import base gmap strings list.
Local Open Scope Z_scope.
Local Open Scope py_scope.

Definition demo_root : string := "/runs/full".
Definition demo_repo : string := "/repo".
Definition demo_python : string := "/usr/bin/python3".

(** [pi_next]: the kernel the next boot starts; [pi_odd]: the parity of the
    number of boots, from which the boot id is made. *)
Record pi := Pi {
  pi_json : string → option pyval;
  pi_kernel : string * bool;
  pi_next : string * bool;
  pi_odd : bool;
}.
Definition pi_write (p : string) (v : pyval) (w : pi) : pi := {|
  pi_json := λ q, if bool_decide (q = p) then Some v else pi_json w q;
  pi_kernel := pi_kernel w; pi_next := pi_next w; pi_odd := pi_odd w |}.
Definition pi_select (k : string * bool) (w : pi) : pi := {|
  pi_json := pi_json w; pi_kernel := pi_kernel w; pi_next := k; pi_odd := pi_odd w |}.
Definition pi_reboot (w : pi) : pi := {|
  pi_json := pi_json w; pi_kernel := pi_next w; pi_next := pi_next w; pi_odd := negb (pi_odd w) |}.

Definition pi_release (w : pi) : string :=
  match dget (pi_kernel w).1 VARIANTS with Some v => v_release v | None => "unknown" end.
Definition pi_cmdline (w : pi) : string := "root=/dev/sda2" +:+ (if (pi_kernel w).2 then " threadirqs" else "").
Definition pi_boot_id (w : pi) : string := if pi_odd w then "boot-odd" else "boot-even".

(** What the commands do. *)
Definition demo_marker (stage : string) : pyval :=
  VDict [("stage", VStr stage); ("adapter_sha256", VStr "sha")].
Definition pi_command (command : list string) (w : pi) : pi :=
  match stage_of demo_python demo_repo demo_root command with
  | Some stage => pi_write (marker demo_root stage) (demo_marker stage) w
  | None =>
      if bool_decide (nth 2 command "" = "select")
      then pi_select (nth 3 command "", bool_decide ("--threadirqs" ∈ command)) w
      else if bool_decide (nth 2 command "" = "--input")
      then pi_write (demo_root // "derived/manifest.json") VNone w
      else w
  end.

Definition pi_handle {A} (c : syscall A) (w : pi) : outcome A * pi :=
  match c in syscall A return outcome A * pi with
  | PathExists p => (Ok (bool_decide (is_Some (pi_json w p))), w)
  | IsFile _ => (Ok true, w)
  | ReadJson p => (match pi_json w p with Some v => Ok v | None => missing p end, w)
  | WriteJson p v => (Ok (), pi_write p v w)
  | Copy p q | Rename p q =>
      match pi_json w p with Some v => (Ok (), pi_write q v w) | None => (missing p, w) end
  | MkdTemp prefix dir => let p := default "/tmp" dir // prefix in (Ok p, pi_write p VNone w)
  | ReadText p =>
      (if bool_decide (p = "/proc/cmdline") then Ok (pi_cmdline w)
       else if bool_decide (p = "/proc/sys/kernel/random/boot_id") then Ok (pi_boot_id w)
       else if bool_decide (p = "/proc/device-tree/model") then Ok "Raspberry Pi 5"
       else Ok "up", w)
  | Release => (Ok (pi_release w), w)
  | MachineName => (Ok "aarch64", w)
  | FileDigest _ => (Ok "sha", w)
  | Glob _ _ => (Ok [], w)
  | ReadTarJson _ _ => (Ok (VDict [("source_sha256", VDict [("pipeline.py", VStr "sha")])]), w)
  | RunCommand command _ _ => (Ok (Completed 0 "" ""), pi_command command w)
  | GetEnv _ => (Ok None, w)
  | GetEuid => (Ok 0, w)
  | Monotonic => (Ok (f_of_Z 0), w)
  | UtcNow => (Ok "2026-01-01T00:00:00+00:00", w)
  | WriteText _ _ | WriteCsv _ _ _ | Mkdir _ _ | OpenAppend _ | Lock _ | SyncDisks | Sleep _
  | SetEnv _ _ | Chmod _ _ => (Ok (), w)
  | _ => (raise OSError "not available", w)
  end.
#[export] Instance pi_os : OS pi := @pi_handle.

Lemma pi_json_write p v w q : pi_json (pi_write p v w) q = if bool_decide (q = p) then Some v else pi_json w q.
Proof. done. Qed.
Lemma pi_exists_write p v w q :
  bool_decide (is_Some (pi_json w q)) = true → bool_decide (is_Some (pi_json (pi_write p v w) q)) = true.
Proof. rewrite !bool_decide_eq_true, pi_json_write. by case_bool_decide. Qed.
Lemma demo_absolute : absolute demo_root.
Proof. by exists "r"%char, "uns/full". Qed.
(** Cases of [pi_command]: a marker, a selection, the manifest, nothing. *)
Lemma pi_command_cases command w :
  (∃ stage, stage ∈ dkeys STAGES ∧ pi_command command w = pi_write (marker demo_root stage) (demo_marker stage) w) ∨
  (∃ k, pi_command command w = pi_select k w) ∨
  pi_command command w = pi_write (demo_root // "derived/manifest.json") VNone w ∨
  pi_command command w = w.
Proof.
  unfold pi_command. destruct (stage_of _ _ _ command) as [stage|] eqn:Hs.
  - left. exists stage. split; [|done]. by apply stage_of_some in Hs as [_ ?].
  - right. repeat case_bool_decide; eauto.
Qed.

(** A write changes one file. *)
Lemma pi_command_frame command w p :
  pi_json (pi_command command w) (state_path demo_root) = pi_json w (state_path demo_root) ∧
  (bool_decide (is_Some (pi_json w p)) = true → bool_decide (is_Some (pi_json (pi_command command w) p)) = true).
Proof.
  destruct (pi_command_cases command w) as [(stage & Hs & ->)|[(k & ->)|[ -> | -> ]]]; [|done| |done].
  - split; [|apply pi_exists_write]. rewrite pi_json_write, bool_decide_false; [done|].
    rewrite (state_path_eq _ demo_absolute), (marker_eq _ demo_absolute stage Hs).
    intros Heq%string_app_inj_l. discriminate Heq.
  - split; [|apply pi_exists_write]. rewrite pi_json_write, bool_decide_false; [done|]. vm_compute. done.
Qed.

#[export] Program Instance pi_disk : CampaignDisk demo_root pi := {|
  json_at w p := pi_json w p;
  exists_at w p := bool_decide (is_Some (pi_json w p));
  boot_at w := (pi_release w, pi_cmdline w);
|}.
Next Obligation. by intros p w b [= <-]. Qed.
Next Obligation. intros p w v. unfold handle, pi_os, pi_handle. by destruct (pi_json w p); [intros [= <-]|]. Qed.
Next Obligation. intros p w v. simpl. intros ->. by apply bool_decide_eq_true. Qed.
Next Obligation. intros p v w _. unfold handle, pi_os, pi_handle. simpl. by rewrite bool_decide_true. Qed.
Next Obligation.
  intros p q w. unfold handle, pi_os, pi_handle. destruct (pi_json w p); [|done]. intros _. simpl.
  by rewrite bool_decide_true.
Qed.
Next Obligation.
  intros A c w p Ht. unfold handle, pi_os, pi_handle. destruct c; try done; simpl in *; try by rewrite Ht.
  - destruct (pi_json w source); [|done]. simpl. by rewrite Ht.
  - destruct (pi_json w source); [|done]. simpl. rewrite bool_decide_false; [done|]. intros ->.
    apply orb_false_iff in Ht as [_ Ht]. rewrite <- (string_app_nil_r target) in Ht at 2.
    by rewrite py_startswith_app in Ht.
Qed.
Next Obligation.
  intros A c w p _. unfold handle, pi_os, pi_handle. destruct c; try done; try apply pi_exists_write.
  - intros Hp. exact (proj2 (pi_command_frame command w p) Hp).
  - destruct (pi_json w source); [apply pi_exists_write|done].
  - destruct (pi_json w source); [apply pi_exists_write|done].
Qed.
Next Obligation.
  intros prefix dir w p [= <-] Hp. exists "". rewrite string_app_nil_r. done.
Qed.
Next Obligation. intros command input timeout w p _. exact (pi_command_frame command w p). Qed.
Next Obligation. by intros w r [= <-]. Qed.
Next Obligation. by intros w t [= <-]. Qed.
Next Obligation.
  intros w t. unfold handle, pi_os, pi_handle. simpl. intros [= <-]. unfold pi_boot_id.
  destruct (pi_odd w); vm_compute; done.
Qed.
Next Obligation.
  intros A c w. unfold handle, pi_os, pi_handle. destruct c; try done.
  - simpl. unfold pi_command. destruct (stage_of _ _ _ _); [done|]. by repeat case_bool_decide.
  - by destruct (pi_json w source).
  - by destruct (pi_json w source).
Qed.

(** ** A campaign on it *)

Definition demo_camera (model serial label : string) (irq : Z) : pyval :=
  VDict [("model", VStr model); ("serial", VStr serial); ("xhci_irq", VInt irq); ("xhci_label", VStr label)].
Definition demo_cameras : pyval := VDict [
  ("a", demo_camera "D435" "101" "xhci-hcd:usb1" 131); ("b", demo_camera "D435" "102" "xhci-hcd:usb3" 136);
  ("c", demo_camera "D455" "103" "xhci-hcd:usb1" 131)].
Definition demo_config : pyval := VDict [
  ("cameras", demo_cameras);
  ("selection", VDict [("d435_pair", VList [VStr "a"; VStr "b"]); ("single_d435", VStr "b");
                       ("single_d455", VStr "c"); ("startup_d435", VStr "a")])].
Definition demo_state (smoke : bool) : pydict := [
  ("level", VStr "full"); ("status", VStr "queued"); ("repo", VStr demo_repo); ("pdf", VBool true);
  ("smoke", VBool smoke); ("active_stage", VNone); ("pending_boot", VNone)].
Definition demo_files (smoke : bool) : list (string * pyval) := [
  (state_path demo_root, VDict (demo_state smoke));
  ("/sys/class/net/eth0/operstate", VNone);
  (demo_root // "camera-config.json", demo_config);
  (demo_root // "prepared.json", VDict [("entrypoints", VDict [])]);
  (demo_root // "system-before.json", VDict [("boot_files", VDict []); ("wifi_up", VBool true)])].
Definition pi_start (smoke : bool) : pi := {|
  pi_json := λ p, dget p (demo_files smoke); pi_kernel := ("standard-urb5", false);
  pi_next := ("standard-urb5", false); pi_odd := false |}.
Definition demo_worker (w : world pi) : outcome unit * (unit * world pi) :=
  worker demo_python demo_repo demo_root 6 ((), w).
(** The machine at the start of the boots, and at the end of the workers. *)
Fixpoint demo_before (smoke : bool) (i : nat) : world pi :=
  match i with
  | O => World (pi_start smoke) []
  | S i => let w := (demo_worker (demo_before smoke i)).2.2 in World (pi_reboot (w_os w)) (w_log w)
  end.
Definition demo_after (smoke : bool) (i : nat) : world pi := (demo_worker (demo_before smoke i)).2.2.

(** What a log ran, as stages and reboots. *)
Definition demo_story (e : entry) : option string :=
  match e with
  | ERun command _ _ =>
      match stage_of demo_python demo_repo demo_root command with
      | Some stage => Some stage
      | None => if bool_decide (command = ["systemctl"; "reboot"]) then Some "reboot" else None
      end
  | _ => None
  end.
Example demo_campaign :
  omap demo_story (w_log (demo_after true 5)) =
    ["reboot"; "e1"; "e2-calibrate"; "reboot"; "e3"; "e4-calibrate"; "e4-standard-threaded"; "reboot";
     "e2-urb5"; "reboot"; "e2-urb16"; "e4-standard-hardirq"; "reboot"; "e4-rt-threaded"].
Proof. vm_compute. reflexivity. Qed.
