(* ===== verification/PipelineSpec.v ===== *)
(** * Properties of the campaign pipeline

    Which stages a worker runs and when, what a failed worker leaves behind,
    and that a campaign whose workers return completes after at most one reboot
    per phase. *)
From Stdlib Require Import Ascii ZArith Lia Floats.SpecFloat.
From S2P Require Import Prelude PyStr PyFloat PyVal PyJson Effects Machine Clock Shell Kernel Reproduce.
From S2P Require Import Adapters Pipeline CampaignDisk CampaignDemo.
From stdpp Require Import base gmap strings list.
Local Open Scope Z_scope.
Local Open Scope py_scope.
Local Open Scope M_scope.

(** ** The plan and the tables *)

Definition plan_stages (smoke : bool) : list string := concat (map snd (plan smoke)).

Lemma plan_in_stages smoke p stage : p ∈ plan smoke → stage ∈ p.2 → stage ∈ dkeys STAGES.
Proof.
  assert (Forall (λ p, Forall (λ s, s ∈ dkeys STAGES) p.2) (plan smoke)) as Hall.
  { destruct smoke; apply (bool_decide_unpack _); vm_compute; done. }
  rewrite Forall_forall in Hall. intros Hp Hs. specialize (Hall p Hp). by rewrite Forall_forall in Hall; apply Hall.
Qed.
Lemma plan_stages_NoDup smoke : NoDup (plan_stages smoke).
Proof. destruct smoke; apply (bool_decide_unpack _); vm_compute; done. Qed.

Section spec.
Context {W : Type} `{OS W} (sys_executable REPO root : string) (root_ok : absolute root).
Context `{!CampaignDisk root W}.
Implicit Types x y z : pydict * world W.

Abbreviation calm := (on_world (calm_w sys_executable REPO root)).
Abbreviation mild := (on_world (mild_w sys_executable REPO root)).

(** The completion markers of a machine. *)
Definition marked (o : W) (stage : string) : bool := exists_at o (marker root stage).

Lemma keeps_complete stage : keeps (complete (W := W) (S := pydict) root stage).
Proof. unfold complete, read, digest. solve_keeps. Qed.

(** *** Asking for completion *)

Lemma complete_returns stage x :
  wp (complete root stage) (λ r _, r = marked (w_os x.2) stage) (λ _ _, True) x.
Proof.
  destruct x as [s w]. unfold complete, read, digest, marked. simpl. apply wp_bind, wp_sys. intros r o Hr.
  destruct r as [b|]; [|done].
  rewrite (disk_exists (root := root) (marker root stage) (w_os w) b) by by rewrite Hr.
  destruct b; simpl; [|by apply wp_ret].
  apply wp_skip; [intros record y|done]. apply wp_skip; [intros d y'|done].
  apply wp_skip; [intros v y''|done]. destruct v; [by apply wp_ret|by apply wp_throw].
Qed.
Lemma complete_spec stage x :
  wp (complete root stage)
     (λ r y, r = marked (w_os x.2) stage ∧ y.1 = x.1 ∧ calm x y) (λ _ y, y.1 = x.1 ∧ calm x y) x.
Proof.
  eapply wp_conseq; [apply (wp_and_within calm); [apply calm_complete; done|];
    apply (wp_and_within same_self); [apply keeps_complete|apply complete_returns]| |].
  - by intros r y [[-> Hs] Hc].
  - by intros e y [[_ Hs] Hc].
Qed.

Lemma pending_stages_spec stages x :
  (∀ s, s ∈ stages → s ∈ dkeys STAGES) →
  wp (pending_stages root stages)
     (λ l y, y.1 = x.1 ∧ calm x y ∧ l `sublist_of` stages ∧
             (∀ s, s ∈ stages → s ∈ l ∨ marked (w_os y.2) s = true) ∧
             (∀ s, s ∈ l → marked (w_os x.2) s = false))
     (λ _ y, y.1 = x.1 ∧ calm x y) x.
Proof.
  revert x. induction stages as [|s stages IH]; intros x Hin; simpl.
  { apply wp_ret. split_and!; [done|reflexivity|constructor|set_solver|set_solver]. }
  apply wp_bind. eapply wp_conseq; [apply complete_spec| |done]. intros done y (-> & Hs1 & Hc1).
  apply wp_bind. eapply wp_conseq; [apply IH; set_solver| |].
  2:{ intros e z [Hs2 Hc2]. split; [congruence|]. by etrans. }
  intros l z (Hs2 & Hc2 & Hsub & Hall & Hun). apply wp_ret.
  assert (marked (w_os x.2) s = true → marked (w_os z.2) s = true) as Hkeep.
  { pose proof (transitivity Hc1 Hc2) as Hc. destruct Hc as (_ & _ & Hm & _). apply Hm. set_solver. }
  assert (∀ t, t ∈ l → marked (w_os x.2) t = false) as Hun'.
  { intros t Ht. apply not_true_is_false. intros Hx. specialize (Hun t Ht).
    destruct Hc1 as (_ & _ & Hm & _). unfold marked in *. rewrite Hm in Hun; [done| |done].
    apply Hin. right. by eapply elem_of_sublist. }
  split; [congruence|]. split; [by etrans|].
  destruct (marked (w_os x.2) s) eqn:Hm; (split_and!; [by constructor| |]).
  - intros t [->|Ht]%elem_of_cons; [by right; apply Hkeep|auto].
  - done.
  - intros t [->|Ht]%elem_of_cons; [left; set_solver|]. destruct (Hall t Ht); [left; set_solver|by right].
  - intros t [->|Ht]%elem_of_cons; [done|auto].
Qed.

(** *** The next phase *)

Definition smoke_of (v : option pyval) : bool :=
  match v with Some (VDict d) => truthy (dgetd "smoke" (VBool false) d) | _ => false end.
(** The plan of the campaign whose state file the machine holds. *)
Definition plan_of (o : W) : list phase := plan (smoke_of (json_at o (state_path root))).
Definition phase_done (o : W) (p : phase) : Prop := ∀ s, s ∈ p.2 → marked o s = true.

Lemma phases_spec x :
  wp (phases root) (λ p y, p = plan_of (w_os x.2) ∧ y.1 = x.1 ∧ calm x y) (λ _ y, y.1 = x.1 ∧ calm x y) x.
Proof.
  eapply wp_conseq; [apply (wp_and_within calm); [by apply calm_phases|];
    apply (wp_and_within same_self);
      [|instantiate (1 := λ _ _, True); instantiate (1 := λ p _, p = plan_of (w_os x.2))]| |].
  - unfold phases, read. solve_keeps.
  - destruct x as [s w]. unfold phases, read, plan_of. simpl. apply wp_bind, wp_sys. intros r o Hr.
    destruct r as [b|]; [|done].
    assert (exists_at (w_os w) (state_path root) = b) as Hb.
    { apply disk_exists. by rewrite Hr. }
    assert (json_at o (state_path root) = json_at (w_os w) (state_path root)) as Ho.
    { pose proof (disk_frame (root := root) (PathExists (state_path root)) (w_os w) (state_path root) eq_refl) as Hf. by rewrite Hr in Hf. }
    destruct b; simpl.
    + apply wp_bind, wp_sys. intros r o' Hr'. destruct r as [v|]; [|done].
      assert (json_at o (state_path root) = Some v) as Hv by (simpl in Hr'; apply disk_read; by rewrite Hr').
      apply wp_bind, wp_lift. destruct v; try done. apply wp_ret. by rewrite <- Ho, Hv.
    + apply wp_ret. destruct (json_at (w_os w) (state_path root)) as [v|] eqn:Hj; [|done].
      apply disk_json_exists in Hj. congruence.
  - by intros p y [[-> Hs] Hc].
  - by intros e y [[_ Hs] Hc].
Qed.

(** What [next_phase] found in the phases [ps]: nothing is left, or the first
    phase with a stage [l] to run. *)
Definition found (ps : list phase) (x y : pydict * world W) (r : option phase) : Prop :=
  match r with
  | None => ∀ p, p ∈ ps → phase_done (w_os y.2) p
  | Some (v, t, l) =>
      ∃ pre ss post, ps = pre ++ (v, t, ss) :: post ∧ (∀ p, p ∈ pre → phase_done (w_os y.2) p) ∧
        l ≠ [] ∧ l `sublist_of` ss ∧ (∀ s, s ∈ ss → s ∈ l ∨ marked (w_os y.2) s = true) ∧
        (∀ s, s ∈ l → marked (w_os x.2) s = false)
  end.
Lemma marked_calm x y s :
  s ∈ dkeys STAGES → calm x y → marked (w_os x.2) s = true → marked (w_os y.2) s = true.
Proof. intros Hs (_ & _ & Hm & _). by apply Hm. Qed.
Lemma first_pending_spec ps x :
  (∀ p s, p ∈ ps → s ∈ p.2 → s ∈ dkeys STAGES) →
  wp (first_pending root ps) (λ r y, y.1 = x.1 ∧ calm x y ∧ found ps x y r)
     (λ _ y, y.1 = x.1 ∧ calm x y) x.
Proof.
  revert x. induction ps as [|[[v t] ss] ps IH]; intros x Hin; simpl.
  { apply wp_ret. split_and!; [done|reflexivity|]. intros p Hp. by apply elem_of_nil in Hp. }
  assert (∀ s, s ∈ ss → s ∈ dkeys STAGES) as Hss.
  { intros s. apply (Hin (v, t, ss)). set_solver. }
  apply wp_bind. eapply wp_conseq; [by apply pending_stages_spec| |done].
  intros l y (Hs1 & Hc1 & Hsub & Hall & Hun). destruct l as [|s l].
  - eapply wp_conseq; [apply IH; intros p s Hp; apply Hin; set_solver| |].
    2:{ intros e z [Hs2 Hc2]. split; [congruence|]. by etrans. }
    intros r z (Hs2 & Hc2 & Hf). split; [congruence|]. split; [by etrans|].
    assert (phase_done (w_os z.2) (v, t, ss)) as Hdone.
    { intros s Hs. destruct (Hall s Hs) as [Hnil|Hm]; [by apply elem_of_nil in Hnil|].
      by eapply marked_calm; [apply Hss| |]. }
    destruct r as [[[v' t'] l']|]; simpl in *.
    + destruct Hf as (pre & ss' & post & -> & Hpre & Hne & Hsub' & Hall' & Hun').
      exists ((v, t, ss) :: pre), ss', post. split_and!; try done.
      * intros p [->|Hp]%elem_of_cons; auto.
      * intros s Hs. apply not_true_is_false. intros Hx. specialize (Hun' s Hs).
        rewrite (marked_calm x y) in Hun'; [done| |done|done].
        apply (Hin (v', t', ss')); [set_solver|]. by eapply elem_of_sublist.
    + intros p [->|Hp]%elem_of_cons; auto.
  - apply wp_ret. split_and!; [done|done|]. exists [], ss, ps. split_and!; try done.
    intros p Hp. by apply elem_of_nil in Hp.
Qed.
Lemma next_phase_spec x :
  wp (next_phase root) (λ r y, y.1 = x.1 ∧ calm x y ∧ found (plan_of (w_os x.2)) x y r)
     (λ _ y, y.1 = x.1 ∧ calm x y) x.
Proof.
  unfold next_phase. apply wp_bind. eapply wp_conseq; [apply phases_spec| |done].
  intros ps y (-> & Hs1 & Hc1). eapply wp_conseq; [apply first_pending_spec| |].
  - intros p s. by apply plan_in_stages.
  - intros r z (Hs2 & Hc2 & Hf). split; [congruence|]. split; [by etrans|].
    destruct r as [[[v t] l]|]; [|done]. destruct Hf as (pre & ss & post & Heq & Hpre & Hne & Hsub & Hall & Hun).
    exists pre, ss, post. split_and!; try done. intros s Hs. apply not_true_is_false. intros Hx.
    specialize (Hun s Hs). rewrite (marked_calm x y) in Hun; [done| |done|done].
    apply (plan_in_stages (smoke_of (json_at (w_os x.2) (state_path root))) (v, t, ss)).
    + unfold plan_of in Heq. rewrite Heq. set_solver.
    + by eapply elem_of_sublist.
  - intros e z [Hs2 Hc2]. split; [congruence|]. by etrans.
Qed.

(** *** Steps of the worker *)

(** From [x] to [y] the kernel stayed, no marker disappeared and the stages
    [ls] were run, in this order. *)
Definition step x y (ls : list string) : Prop :=
  boot_at (w_os y.2) = boot_at (w_os x.2) ∧
  (∀ s, s ∈ dkeys STAGES → marked (w_os x.2) s = true → marked (w_os y.2) s = true) ∧
  ∃ l, w_log y.2 = w_log x.2 ++ l ∧ runs sys_executable REPO root l = ls.
Lemma step_mild x y : mild x y → step x y [].
Proof. done. Qed.
Lemma step_calm x y : calm x y → step x y [].
Proof. intros Hc. apply step_mild. by apply calm_mild. Qed.
Lemma step_trans x y z l k : step x y l → step y z k → step x z (l ++ k).
Proof.
  intros (B1 & M1 & e1 & L1 & R1) (B2 & M2 & e2 & L2 & R2). split_and!; [congruence|auto|].
  exists (e1 ++ e2). split; [by rewrite L2, L1, app_assoc|]. unfold runs in *. by rewrite omap_app, R1, R2.
Qed.
Lemma step_nil_l x y z l : step x y [] → step y z l → step x z l.
Proof. apply (step_trans x y z []). Qed.
Lemma step_nil_r x y z l : step x y l → step y z [] → step x z l.
Proof. intros H1 H2. rewrite <- (app_nil_r l). by eapply step_trans. Qed.

(** The campaign keeps its plan: on the disk and in the variable [state]. *)
Definition planned (b : bool) x : Prop :=
  smoke_of (json_at (w_os x.2) (state_path root)) = b ∧ truthy (dgetd "smoke" (VBool false) x.1) = b.
Lemma planned_calm b x y : planned b x → y.1 = x.1 → calm x y → planned b y.
Proof. intros [Hj Hs] Heq (_ & Hc & _). unfold planned. by rewrite Heq, Hc. Qed.

(** A calm computation before the rest. *)
Lemma wp_calm_step {T A B} (m : M (T * world W) A) (k : A → M (T * world W) B) Q E (x : T * world W) :
  within calm m → keeps m →
  (∀ a (y : T * world W), y.1 = x.1 → calm x y → wp (k a) Q E y) →
  (∀ e (y : T * world W), y.1 = x.1 → calm x y → E e y) →
  wp (bind m k) Q E x.
Proof.
  intros Hc Hk Hok He. apply wp_bind. eapply wp_conseq;
    [apply (wp_and_within calm); [exact Hc|]; apply (wp_within same_self m (λ _ (y : T * world W), y.1 = x.1)
       (λ _ (y : T * world W), y.1 = x.1)); [exact Hk|done|done]| |]; intros r y [Hs Hy]; auto.
Qed.
Lemma wp_save_state Q E x :
  (∀ y, y.1 = x.1 → mild x y → json_at (w_os y.2) (state_path root) = Some (VDict x.1) → Q () y) →
  (∀ e y, y.1 = x.1 → mild x y → E e y) →
  wp (save_state root) Q E x.
Proof.
  intros Hok He. unfold save_state. apply wp_bind. destruct x as [s w]. apply wp_self.
  eapply wp_conseq; [apply (wp_and_within mild); [by apply mild_save_state|by apply save_state_ok]| |].
  - intros [] y [[Hs Hj] Hm]. by apply Hok.
  - intros e y [Hs Hm]. by apply He.
Qed.
Lemma wp_update {B} changes (k : unit → M (pydict * world W) B) Q E x :
  wp (k ()) Q E (dupdate x.1 changes, x.2) → wp (bind (update changes) k) Q E x.
Proof. destruct x as [s w]. done. Qed.

Lemma keeps_call {T} command log : keeps (call (W := W) (S := T) command log).
Proof. unfold call, check_call, run_checked. solve_keeps. Qed.
Lemma keeps_save {T} path v : keeps (save (W := W) (S := T) path v).
Proof. unfold save. solve_keeps. Qed.
Lemma keeps_local {S T A} (t : T) (m : M (T * world W) A) : keeps (local (S := S) t m).
Proof. intros [s w]. unfold local, same_self. by destruct (m (t, w)) as [r [t' w']]. Qed.
#[local] Hint Resolve keeps_call keeps_save keeps_local keeps_complete : keeps.

(** The run command as a step of the log. *)
Lemma run_command_spec stage x :
  stage ∈ dkeys STAGES →
  wp (py sys_executable REPO "reproduce.py" (stage_args root "run" stage) None)
     (λ _ y, y.1 = x.1 ∧ step x y [stage] ∧
             json_at (w_os y.2) (state_path root) = json_at (w_os x.2) (state_path root))
     (λ _ y, y.1 = x.1 ∧ step x y [stage]) x.
Proof.
  intros Hs. unfold py.
  change ([sys_executable; REPO // "reproduction" // "reproduce.py"] ++ stage_args root "run" stage)
    with (run_command sys_executable REPO root stage).
  unfold call, check_call, run_checked. apply wp_bind, wp_ret, wp_bind, wp_bind.
  destruct x as [s w]. apply wp_sys. intros r o Hr.
  assert (step (s, w) (s, World o (w_log w ++ note (RunCommand (run_command sys_executable REPO root stage) None None) r)) [stage] ∧
    json_at o (state_path root) = json_at (w_os w) (state_path root)) as [Hstep Hj].
  { pose proof (λ p Hp, command_frame (run_command sys_executable REPO root stage) None None (w_os w) p Hp) as Hf.
    pose proof (boot_frame (root := root) (RunCommand (run_command sys_executable REPO root stage) None None) (w_os w)) as Hb.
    rewrite Hr in Hf, Hb. cbv zeta in Hf. simpl in Hf, Hb. split; [|by eapply Hf; left].
    split_and!; [done| |].
    - intros t Ht. apply Hf. right. by exists t.
    - eexists. split; [done|]. unfold runs, run_of. simpl. by rewrite stage_of_run. }
  destruct r as [c|e]; [|done]. by case_bool_decide.
Qed.

Lemma planned_update b changes x : "smoke" ∉ dkeys changes → planned b x → planned b (dupdate x.1 changes, x.2).
Proof. intros Hc [Hj Hs]. split; [done|]. simpl. unfold dgetd in *. by rewrite dget_dupdate. Qed.
Lemma planned_saved b x y :
  planned b x → y.1 = x.1 → json_at (w_os y.2) (state_path root) = Some (VDict x.1) → planned b y.
Proof. intros [_ Hs] Heq Hj. split; [|by rewrite Heq]. by rewrite Hj. Qed.

Lemma stage_plain_name stage suffix :
  stage ∈ dkeys STAGES → suffix ∈ ["-prepared.json"; ".sh"] → plain_name (stage +:+ suffix) = true.
Proof.
  assert (Forall (λ s, Forall (λ f, plain_name (s +:+ f) = true) ["-prepared.json"; ".sh"]) (dkeys STAGES)) as Hall.
  { apply (bool_decide_unpack _). vm_compute. done. }
  rewrite Forall_forall in Hall. intros Hs Hf. specialize (Hall stage Hs).
  rewrite Forall_forall in Hall. by apply Hall.
Qed.
Lemma environment_elsewhere stage :
  stage ∈ dkeys STAGES → elsewhere_path root (root // "environment" // (stage +:+ "-prepared.json")).
Proof.
  intros Hs. apply elsewhere_below; [done|by apply elsewhere_1|]. apply stage_plain_name; [done|set_solver].
Qed.

(** The preflight check and the record before the run. *)
Definition before_run (stage : string) : M (pydict * world W) unit :=
  py sys_executable REPO "reproduce.py" (stage_args root "check" stage) None ;;
  sys (Mkdir (root // "environment") true) ;;
  prepared <- read (root // "prepared.json") ;;
  save (root // "environment" // (stage +:+ "-prepared.json")) prepared.
Lemma calm_before_run stage : stage ∈ dkeys STAGES → within calm (before_run stage).
Proof.
  intros Hs. unfold before_run.
  apply within_bind; [typeclasses eauto|apply calm_py; not_a_run|intros _].
  apply within_bind; [typeclasses eauto|apply calm_mkdir; [done|by apply elsewhere_1]|intros _].
  apply within_bind; [typeclasses eauto|by apply calm_reads|intros v].
  apply calm_save; [done|by apply environment_elsewhere].
Qed.
Lemma keeps_before_run stage : keeps (before_run stage).
Proof. unfold before_run, py, read. solve_keeps. Qed.
Lemma bind_assoc {S A B C} (m : M S A) (f : A → M S B) (g : B → M S C) s :
  bind (bind m f) g s = bind m (λ a, bind (f a) g) s.
Proof. unfold bind. by destruct (m s) as [[]]. Qed.
Lemma run_stage_before stage x :
  run_stage sys_executable REPO root stage x =
  (before_run stage ;;
   update [("active_stage", VStr stage)] ;; save_state root ;;
   py sys_executable REPO "reproduce.py" (stage_args root "run" stage) None ;;
   done <- complete root stage ;;
   when (negb done) (throw ValueError ("No valid completion marker for " +:+ stage)) ;;
   update [("active_stage", VNone)] ;; save_state root) x.
Proof.
  unfold run_stage, before_run, bind.
  destruct (py _ _ _ _ _ x) as [[] y]; [|done]. destruct (sys (Mkdir _ _) y) as [[] y1]; [|done].
  by destruct (read _ y1) as [[] y2].
Qed.

(** A failure after the stages [ls] of [l]. *)
Definition failed_in (l : list string) x (e : exn) y : Prop := ∃ ls, ls `sublist_of` l ∧ step x y ls.
Lemma failed_calm l x e y z : step x y [] → calm y z → failed_in l x e z.
Proof.
  intros Hs Hc. exists []. split; [apply sublist_nil_l|]. eapply step_nil_l; [done|by apply step_calm].
Qed.

Lemma worker_stage_spec b stage x :
  stage ∈ dkeys STAGES → planned b x →
  wp (run_stage sys_executable REPO root stage)
     (λ _ y, planned b y ∧ step x y [stage] ∧ marked (w_os y.2) stage = true)
     (failed_in [stage] x) x.
Proof.
  intros Hs Hb. unfold wp at 1. rewrite run_stage_before. fold (wp (A := unit) (S := pydict * world W)).
  assert (step x x []) as T0 by (apply step_calm; reflexivity).
  change (wp (before_run stage ;; update [("active_stage", VStr stage)] ;; save_state root ;;
     py sys_executable REPO "reproduce.py" (stage_args root "run" stage) None ;;
     done <- complete root stage ;;
     when (negb done) (throw ValueError ("No valid completion marker for " +:+ stage)) ;;
     update [("active_stage", VNone)] ;; save_state root)
     (λ _ y, planned b y ∧ step x y [stage] ∧ marked (w_os y.2) stage = true) (failed_in [stage] x) x).
  apply wp_calm_step; [by apply calm_before_run|apply keeps_before_run| |].
  2:{ intros e y _ Hc. by eapply failed_calm. }
  intros _ y Sy Cy. apply wp_update. set (x1 := (dupdate y.1 _, y.2)).
  assert (planned b x1) as Hb1.
  { apply planned_update; [simpl; set_solver|by eapply planned_calm]. }
  assert (step x x1 []) as T1 by exact (step_calm x y Cy).
  apply wp_bind, wp_save_state.
  2:{ intros e z _ Hm. exists []. split; [apply sublist_nil_l|]. eapply step_nil_l; [done|by apply step_mild]. }
  intros y1 S1 M1 J1. assert (planned b y1) as Hy1 by by eapply planned_saved.
  assert (step x y1 []) as T2 by (eapply step_nil_l; [done|by apply step_mild]).
  apply wp_bind. eapply wp_conseq; [by apply run_command_spec| |].
  2:{ intros e z [_ T]. exists [stage]. split; [done|]. by eapply step_nil_l. }
  intros _ y2 (S2 & T & J2). assert (step x y2 [stage]) as T3 by (by eapply step_nil_l).
  assert (planned b y2) as Hy2 by (destruct Hy1 as [??]; split; [by rewrite J2|by rewrite S2]).
  clear Sy Cy x1 Hb1 T1 S1 M1 J1 Hy1 T2 T S2 J2.
  apply wp_bind. eapply wp_conseq; [apply complete_spec; done| |].
  2:{ intros e z [_ Cz]. exists [stage]. split; [done|]. eapply step_nil_r; [done|by apply step_calm]. }
  intros done y3 (-> & S3 & C3). assert (step x y3 [stage]) as T4 by (eapply step_nil_r; [done|by apply step_calm]).
  apply wp_bind. destruct (marked (w_os y2.2) stage) eqn:Hm; simpl; [|apply wp_throw; by exists [stage]].
  apply wp_ret, wp_update, wp_save_state.
  2:{ intros e z _ Hz. exists [stage]. split; [done|]. eapply step_nil_r; [exact T4|by apply step_mild]. }
  intros y4 S4 M4 J4. split_and!.
  - eapply planned_saved; [|exact S4|exact J4]. apply planned_update; [simpl; set_solver|by eapply planned_calm].
  - eapply step_nil_r; [exact T4|by apply step_mild].
  - apply (proj1 (proj2 M4)); [done|]. by eapply marked_calm.
Qed.

(** *** The loop over the phases *)

Lemma failed_nil l x e y : step x y [] → failed_in l x e y.
Proof. intros Hs. exists []. split; [apply sublist_nil_l|done]. Qed.
Lemma run_stages_spec b l x :
  (∀ s, s ∈ l → s ∈ dkeys STAGES) → planned b x →
  wp (for_each l (run_stage sys_executable REPO root))
     (λ _ y, planned b y ∧ step x y l ∧ ∀ s, s ∈ l → marked (w_os y.2) s = true)
     (failed_in l x) x.
Proof.
  revert x. induction l as [|s l IH]; intros x Hl Hb; simpl.
  { apply wp_ret. split_and!; [done|apply step_calm; reflexivity|]. intros s Hs. by apply elem_of_nil in Hs. }
  apply wp_bind. eapply wp_conseq; [apply worker_stage_spec; [set_solver|done]| |].
  2:{ intros e y (ls & Hsub & Hs). exists ls. split; [|done]. etrans; [done|].
      apply sublist_skip, sublist_nil_l. }
  intros _ y (Hb1 & Hs1 & Hm). eapply wp_conseq; [apply IH; [set_solver|done]| |].
  - intros _ z (Hb2 & Hs2 & Hall). split_and!; [done|by apply (step_trans x y z [s])|].
    intros t [->|Ht]%elem_of_cons; [|auto]. apply Hs2; [set_solver|done].
  - intros e z (ls & Hsub & Hs2). exists (s :: ls). split; [by constructor|]. by apply (step_trans x y z [s]).
Qed.

(** The kernel of the phase is booted. *)
Definition matching (o : W) (variant : string) (threaded : pyval) : outcome bool :=
  matches variant threaded (boot_at o).1 (boot_at o).2.
Lemma boot_matches_spec variant threaded x :
  wp (boot_matches variant threaded)
     (λ r y, matching (w_os x.2) variant threaded = Ok r ∧ y.1 = x.1 ∧ calm x y)
     (λ _ y, y.1 = x.1 ∧ calm x y) x.
Proof.
  eapply wp_conseq; [apply (wp_and_within calm); [by apply calm_boot_matches|];
    apply (wp_and_within same_self);
      [|instantiate (1 := λ _ _, True);
        instantiate (1 := λ r _, matching (w_os x.2) variant threaded = Ok r)]| |].
  - unfold boot_matches. solve_keeps.
  - destruct x as [s w]. unfold boot_matches, matching. apply wp_bind, wp_sys. intros r o Hr.
    destruct r as [release|]; [|done]. apply wp_bind, wp_sys. intros r o' Hr'. destruct r as [cmdline|]; [|done].
    apply wp_lift. simpl in *.
    pose proof (boot_frame (root := root) Release (w_os w)) as Hb. rewrite Hr in Hb. simpl in Hb.
    assert ((boot_at (w_os w)).1 = release) as -> by (apply boot_release; by rewrite Hr).
    rewrite <- Hb. assert ((boot_at o).2 = cmdline) as -> by (apply boot_cmdline; by rewrite Hr').
    by destruct (matches _ _ _ _).
  - by intros r y [[-> Hs] Hc].
  - by intros e y [[_ Hs] Hc].
Qed.

(** The state a worker leaves when it asks for a boot. *)
Definition requested (variant : string) (threaded : bool) (state : pydict) : Prop :=
  dget "status" state = Some (VStr "rebooting") ∧
  ∃ boot_id, dget "pending_boot" state =
    Some (VDict [("variant", VStr variant); ("threaded", VBool threaded); ("boot_id", VStr boot_id)]).
Lemma request_boot_spec b variant (threaded : bool) boot_id x :
  planned b x →
  wp (request_boot sys_executable REPO root variant threaded boot_id)
     (λ _ y, planned b y ∧ step x y [] ∧ requested variant threaded y.1 ∧
             json_at (w_os y.2) (state_path root) = Some (VDict y.1))
     (λ _ y, step x y []) x.
Proof.
  intros Hb. unfold request_boot.
  apply wp_calm_step; [apply calm_py; destruct threaded; not_a_run|apply keeps_call| |].
  2:{ intros e y _ Hc. by apply step_calm. }
  intros _ y Sy Cy. apply wp_update. set (x1 := (dupdate y.1 _, y.2)).
  assert (planned b x1) as Hb1.
  { apply planned_update; [simpl; set_solver|by eapply planned_calm]. }
  assert (step x x1 []) as T1 by exact (step_calm x y Cy).
  assert (requested variant threaded x1.1) as Hreq.
  { split; [|exists boot_id]; simpl; rewrite ?dget_dset; done. }
  apply wp_bind, wp_save_state.
  2:{ intros e z _ Hm. eapply step_nil_l; [done|by apply step_mild]. }
  intros z Sz Mz Jz. assert (planned b z) as Hz by by eapply planned_saved.
  assert (step x z []) as T2 by (eapply step_nil_l; [done|by apply step_mild]).
  apply wp_calm_step; [apply calm_sys; by intros|apply keeps_sys| |].
  2:{ intros e u _ Hc. eapply step_nil_l; [done|by apply step_calm]. }
  intros _ u Su Cu. unfold wp at 1.
  pose proof (calm_call sys_executable REPO root ["systemctl"; "reboot"] ltac:(not_a_run) u) as Hc.
  pose proof (keeps_call (T := pydict) ["systemctl"; "reboot"] None u) as Hk.
  assert (calm z (call ["systemctl"; "reboot"] None u).2) as Cz by (etrans; [exact Cu|exact Hc]).
  destruct (call ["systemctl"; "reboot"] None u) as [[[]|e] v]; simpl in *;
    [|eapply step_nil_l; [exact T2|by apply step_calm]].
  assert (v.1 = x1.1) as Sv by (unfold same_self in Hk; simpl in Hk; by rewrite Hk, Su, Sz).
  split_and!.
  - eapply planned_calm; [exact Hz| |exact Cz]. by rewrite Sz.
  - eapply step_nil_l; [exact T2|by apply step_calm].
  - by rewrite Sv.
  - rewrite Sv. etrans; [apply Cz|]. exact Jz.
Qed.

(** A stage the worker may run: it has no marker and its phase is booted. *)
Definition allowed (b : bool) (o : W) (stage : string) : Prop :=
  marked o stage = false ∧
  ∃ v t ss, (v, t, ss) ∈ plan b ∧ stage ∈ ss ∧ matching o v (VBool t) = Ok true.
(** What the loop ran between [x] and [y]: stages of [phases] in their order,
    each allowed. *)
Definition ran (b : bool) (phases : list phase) x y : Prop :=
  ∃ ls, step x y ls ∧ ls `sublist_of` concat (map snd phases) ∧ ∀ s, s ∈ ls → allowed b (w_os x.2) s.
(** Where the loop ends: nothing is left, or the first phase with work to do is
    not booted and has been requested. *)
Definition loop_end (b : bool) (pre : list phase) (r : bool) y : Prop :=
  if r then ∀ p, p ∈ plan b → phase_done (w_os y.2) p
  else ∃ pre' v t ss post', plan b = pre' ++ (v, t, ss) :: post' ∧
         (∀ p, p ∈ pre' → phase_done (w_os y.2) p) ∧ (length pre <= length pre')%nat ∧
         matching (w_os y.2) v (VBool t) = Ok false ∧ requested v t y.1 ∧
         json_at (w_os y.2) (state_path root) = Some (VDict y.1).

Lemma matching_step x y ls v t : step x y ls → matching (w_os y.2) v t = matching (w_os x.2) v t.
Proof. intros (Hb & _). unfold matching. by rewrite Hb. Qed.
Lemma phase_done_step b x y ls p :
  p ∈ plan b → step x y ls → phase_done (w_os x.2) p → phase_done (w_os y.2) p.
Proof. intros Hp (_ & Hm & _) Hd s Hs. apply Hm; [by eapply plan_in_stages|by apply Hd]. Qed.

(** Two splits of the plan, at phases that are done and at one that is not. *)
Lemma split_later {A} (P : A → Prop) pre post pre' a post' :
  (∀ p, p ∈ pre → P p) → ¬ P a → pre ++ post = pre' ++ a :: post' →
  ∃ mid, pre' = pre ++ mid ∧ post = mid ++ a :: post'.
Proof.
  revert pre'. induction pre as [|p pre IH]; intros pre' Hpre Ha Heq; simpl in *.
  - by exists pre'.
  - destruct pre' as [|p' pre']; simpl in *; simplify_eq.
    + destruct Ha. apply Hpre. set_solver.
    + destruct (IH pre') as (mid & -> & ->); [set_solver|done|done|]. by exists mid.
Qed.

Lemma ran_no_phase b phases x y : step x y [] → ran b phases x y.
Proof. intros Hs. exists []. split_and!; [done|apply sublist_nil_l|]. intros s Hs'. by apply elem_of_nil in Hs'. Qed.
Lemma allowed_step b x y ls s :
  s ∈ dkeys STAGES → step x y ls → allowed b (w_os y.2) s → allowed b (w_os x.2) s.
Proof.
  intros Hs Hstep (Hm & v & t & ss & Hp & Hin & Hmatch). split.
  - apply not_true_is_false. intros Hx. destruct Hstep as (_ & Hkeep & _).
    specialize (Hkeep s Hs Hx). congruence.
  - exists v, t, ss. split_and!; [done|done|]. by rewrite <- (matching_step x y ls).
Qed.
Lemma ran_before b phases x y z : step x y [] → ran b phases y z → ran b phases x z.
Proof.
  intros T (ls & Hs & Hsub & Hall). exists ls. split_and!; [by eapply step_nil_l|done|].
  intros s Hs'. eapply allowed_step; [|exact T|by apply Hall].
  destruct (Hall s Hs') as (_ & v & t & ss & Hp & Hin & _). by eapply plan_in_stages.
Qed.
Lemma ran_after b phases x y z : ran b phases x y → step y z [] → ran b phases x z.
Proof. intros (ls & Hs & Hsub & Hall) T. exists ls. split_and!; [by eapply step_nil_r|done|done]. Qed.
(** A loop pass over the stages [l] of the phase [ph], then the rest. *)
Lemma ran_more b mid ph post l x y z :
  step x y l → l `sublist_of` ph.2 → (∀ s, s ∈ l → allowed b (w_os x.2) s) →
  ran b post y z → ran b (mid ++ ph :: post) x z.
Proof.
  intros Hstep Hsub Hall (ls & Hs2 & Hsub2 & Hall2). exists (l ++ ls). split_and!.
  - by eapply step_trans.
  - rewrite map_app, concat_app, map_cons. simpl. apply sublist_inserts_l. by apply sublist_app.
  - intros s [Hs|Hs]%elem_of_app; [by apply Hall|]. eapply allowed_step; [|done|by apply Hall2].
    destruct (Hall2 s Hs) as (_ & v & t & ss & Hp & Hin & _). by eapply plan_in_stages.
Qed.
(** The pass fails on the way. *)
Lemma ran_failed b mid ph post l x y e z :
  step x y [] → l `sublist_of` ph.2 → (∀ s, s ∈ l → allowed b (w_os x.2) s) →
  failed_in l y e z → ran b (mid ++ ph :: post) x z.
Proof.
  intros Hstep Hsub Hall (ls & Hl & Hs). exists ls. split_and!.
  - by eapply step_nil_l.
  - rewrite map_app, concat_app, map_cons. simpl. apply sublist_inserts_l, sublist_inserts_r. by etrans.
  - intros s Hin. apply Hall. by eapply elem_of_sublist.
Qed.

(** The phase that was found, behind the phases known to be done. *)
Lemma found_split b pre post x y v t l :
  plan b = pre ++ post → (∀ p, p ∈ pre → phase_done (w_os x.2) p) → calm x y →
  found (plan b) x y (Some (v, t, l)) →
  ∃ mid ss post', post = mid ++ (v, t, ss) :: post' ∧ l `sublist_of` ss ∧
    (∀ p, p ∈ pre ++ mid → phase_done (w_os y.2) p) ∧
    (∀ s, s ∈ ss → s ∈ l ∨ marked (w_os y.2) s = true) ∧
    (∀ s, s ∈ l → marked (w_os x.2) s = false).
Proof.
  intros Hplan Hpre Hc (pre' & ss & post' & Heq & Hpre' & Hne & Hsub & Hall & Hun).
  assert (¬ phase_done (w_os x.2) (v, t, ss)) as Hnot.
  { intros Hd. destruct l as [|s l]; [done|]. specialize (Hd s). rewrite (Hun s) in Hd by set_solver.
    discriminate Hd. eapply elem_of_sublist; [|done]. set_solver. }
  destruct (split_later (phase_done (w_os x.2)) pre post pre' (v, t, ss) post') as (mid & -> & ->);
    [done|done|by rewrite <- Hplan|]. exists mid, ss, post'. done.
Qed.
(** Running the stages of a found phase completes it. *)
Lemma run_phase_spec b done_phases v t ss l y z :
  (v, t, ss) ∈ plan b → (∀ p, p ∈ done_phases → p ∈ plan b) → l `sublist_of` ss →
  (∀ p, p ∈ done_phases → phase_done (w_os y.2) p) →
  (∀ s, s ∈ ss → s ∈ l ∨ marked (w_os y.2) s = true) → step y z [] → planned b z →
  wp (for_each l (run_stage sys_executable REPO root))
     (λ _ u, planned b u ∧ step z u l ∧
             ∀ p, p ∈ done_phases ++ [(v, t, ss)] → phase_done (w_os u.2) p)
     (failed_in l z) z.
Proof.
  intros Hin Hdp Hsub Hdone Hall Hyz Hz.
  assert (∀ s, s ∈ ss → s ∈ dkeys STAGES) as Hss by (intros s; by apply (plan_in_stages b (v, t, ss))).
  eapply wp_conseq; [apply (run_stages_spec b); [|done]| |done].
  { intros s Hs. apply Hss. by eapply elem_of_sublist. }
  intros _ u (Hu & Tu & Hmarks). split_and!; [done|done|]. intros p [Hp|Hp]%elem_of_app.
  - eapply (phase_done_step b z u l); [by apply Hdp|done|].
    eapply (phase_done_step b y z []); [by apply Hdp|done|by apply Hdone].
  - apply list_elem_of_singleton in Hp as ->. intros s Hs. destruct (Hall s Hs) as [Hl|Hl]; [by apply Hmarks|].
    apply Tu; [by apply Hss|]. apply Hyz; [by apply Hss|done].
Qed.

Lemma run_phases_spec b n boot_id pre post x :
  planned b x → plan b = pre ++ post → (∀ p, p ∈ pre → phase_done (w_os x.2) p) →
  wp (run_phases sys_executable REPO root n boot_id)
     (λ r y, planned b y ∧ ran b post x y ∧ loop_end b pre r y) (λ _ y, ran b post x y) x.
Proof.
  revert pre post x. induction n as [|n IH]; intros pre post x Hb Hplan Hpre; simpl.
  { apply wp_throw. apply ran_no_phase, step_calm. reflexivity. }
  apply wp_bind. eapply wp_conseq; [apply next_phase_spec| |].
  2:{ intros e y [_ Hc]. by apply ran_no_phase, step_calm. }
  unfold plan_of. rewrite (proj1 Hb). intros r y (S1 & C1 & Hf).
  assert (planned b y) as Hy by by eapply planned_calm.
  destruct r as [[[v t] l]|]; [|apply wp_ret; split_and!; [done|by apply ran_no_phase, step_calm|done]].
  destruct (found_split b pre post x y v t l) as (mid & ss & post' & -> & Hsub & Hdone & Hall & Hun); [done..|].
  assert ((v, t, ss) ∈ plan b ∧ (∀ p, p ∈ pre ++ mid → p ∈ plan b)) as [Hin Hdp] by (rewrite Hplan; set_solver).
  apply wp_bind. eapply wp_conseq; [apply boot_matches_spec| |].
  2:{ intros e z [_ Hc]. apply ran_no_phase. eapply step_nil_l; by apply step_calm. }
  intros booted z (Hmatch & S2 & C2). assert (planned b z) as Hz by (eapply planned_calm; done).
  assert (step x z []) as T by (eapply step_nil_l; by apply step_calm).
  rewrite (matching_step x y []) in Hmatch by by apply step_calm.
  destruct booted; simpl.
  - assert (∀ s, s ∈ l → allowed b (w_os x.2) s) as Hallow.
    { intros s Hs. split; [by apply Hun|]. exists v, t, ss. split_and!; [done|by eapply elem_of_sublist|done]. }
    apply wp_bind. eapply wp_conseq; [apply (run_phase_spec b (pre ++ mid) v t ss l y z); try done; by apply step_calm| |].
    2:{ intros e u. by apply ran_failed. }
    intros _ u (Hu & Tu & Hdu). assert (step x u l) as Txu by (by eapply step_nil_l).
    eapply wp_conseq; [apply (IH ((pre ++ mid) ++ [(v, t, ss)]) post'); [done|by rewrite Hplan, <- !app_assoc|done]| |].
    + intros r q (Hq & Hran & Hend). split; [done|]. split; [by eapply ran_more|].
      destruct r; [done|]. destruct Hend as (pre2 & v2 & t2 & ss2 & post2 & E & D & L & R).
      exists pre2, v2, t2, ss2, post2. rewrite !length_app in L. split_and!; try done; try apply R. lia.
    + intros e q Hran. by eapply ran_more.
  - apply wp_bind. eapply wp_conseq; [by apply (request_boot_spec b)| |].
    2:{ intros e u Tu. apply ran_no_phase. by eapply step_nil_l. }
    intros _ u (Hu & Tu & Hreq & Hj). assert (step x u []) as Txu by (by eapply step_nil_l). apply wp_ret.
    split_and!; [done|by apply ran_no_phase|]. exists (pre ++ mid), v, t, ss, post'. split_and!; try done.
    + by rewrite Hplan, <- app_assoc.
    + intros p Hp. eapply (phase_done_step b z u []); [by apply Hdp|done|].
      eapply (phase_done_step b y z []); [by apply Hdp|by apply step_calm|by apply Hdone].
    + rewrite length_app. lia.
    + by rewrite (matching_step x u []).
Qed.

(** *** The end of a campaign and the failure of a worker *)

Lemma mild_append {T} path : within mild (sys (S := T) (OpenAppend path)).
Proof. apply mild_sys; by intros. Qed.
Lemma mild_script {T} script args log :
  script ≠ "reproduce.py" → plain_name script = true →
  within mild (py (S := T) sys_executable REPO script args (Some log)).
Proof.
  intros Hne Hp. unfold py, call. apply within_bind; [typeclasses eauto|apply mild_append|intros _].
  apply mild_calm, calm_check_call. intros stage Heq. apply (f_equal (λ l, nth 1 l EmptyString)) in Heq.
  simpl nth in Heq. apply pjoin_inj in Heq; [done|done|vm_compute; done].
Qed.
Lemma mild_call {T} command :
  (∀ stage, command ≠ run_command sys_executable REPO root stage) →
  within mild (call (S := T) command None).
Proof. intros Hne. by apply mild_calm, calm_call. Qed.
Lemma mild_restore {T} : within mild (restore_system (S := T) root).
Proof.
  unfold restore_system.
  apply within_bind; [typeclasses eauto|by apply mild_calm, calm_reads|intros v].
  apply within_bind; [typeclasses eauto|apply within_lift; typeclasses eauto|intros files].
  apply within_bind; [typeclasses eauto| |intros _].
  { apply within_for_each; [typeclasses eauto|]. intros [name text]. unfold restore_file. simpl.
    destruct text; try (apply within_throw; typeclasses eauto). apply mild_sys; by intros. }
  apply within_bind; [typeclasses eauto|apply within_lift; typeclasses eauto|intros up].
  apply within_bind; [typeclasses eauto| |intros _].
  - apply within_when; [typeclasses eauto|]. apply mild_call. not_a_run.
  - apply mild_sys; by intros.
Qed.
Lemma mild_analyze {T} source output archive log :
  within mild (analyze (S := T) sys_executable REPO source output archive false log).
Proof.
  unfold analyze. apply within_bind; [typeclasses eauto| |intros more].
  - destruct archive; [apply within_ret; typeclasses eauto|]. apply mild_calm.
    unfold read. solve_within; apply calm_sys; by intros.
  - apply within_bind; [typeclasses eauto|by apply mild_script|intros _].
    apply within_ret. typeclasses eauto.
Qed.
Lemma mild_update changes : within mild (update (W := W) changes).
Proof. apply within_set_self. typeclasses eauto. Qed.
Lemma mild_save_current : within mild (save_state (W := W) root).
Proof.
  unfold save_state. apply within_bind; [typeclasses eauto|apply within_self; typeclasses eauto|].
  intros s. by apply mild_save_state.
Qed.
Lemma mild_failed error : within mild (worker_failed root error).
Proof.
  unfold worker_failed.
  apply within_bind; [typeclasses eauto|apply mild_sys; by intros|intros time].
  apply within_bind; [typeclasses eauto|apply mild_update|intros _].
  apply within_bind; [typeclasses eauto|apply mild_save_current|intros _].
  apply within_bind; [typeclasses eauto| |intros _; apply within_rethrow; typeclasses eauto].
  apply within_finally; [typeclasses eauto|apply mild_restore|]. apply mild_call. not_a_run.
Qed.

(** The analysis directory appears under its final name. *)
Lemma mild_derived : within mild (
  pending_output <- sys (S := pydict) (MkdTemp "analysis-attempt-" (Some root)) ;;
  analyze sys_executable REPO root pending_output false false (root // "analysis.log") ;;
  sys (Chmod pending_output 493) ;; sys (Rename pending_output (root // "derived"))).
Proof.
  intros [s w]. unfold bind at 1, sys at 1.
  pose proof (disk_temporary (root := root) "analysis-attempt-" root (w_os w)) as Hfresh.
  assert (within mild (sys (S := pydict) (MkdTemp "analysis-attempt-" (Some root)))) as Hm by (apply mild_sys; by intros).
  specialize (Hm (s, w)). unfold sys in Hm.
  destruct (handle (MkdTemp "analysis-attempt-" (Some root)) (w_os w)) as [[p|e] o]; [|exact Hm].
  destruct (Hfresh p eq_refl) as (suffix & -> & Hp); [vm_compute; done|].
  etrans; [exact Hm|]. clear Hm Hfresh.
  match goal with |- on_world _ _ (?m ?x).2 => enough (within mild m) as Hr by apply (Hr x) end.
  apply within_bind; [typeclasses eauto|apply mild_analyze|intros _].
  apply within_bind; [typeclasses eauto|apply mild_sys; by intros|intros _].
  apply mild_sys; [|by intros]. intros q Hq. simpl.
  assert (elsewhere_path root (root // ("analysis-attempt-" +:+ suffix))) as He.
  { rewrite pjoin_plain by (done || vm_compute; done). by exists "analysis-attempt-", suffix. }
  by destruct (elsewhere_apart root root_ok _ _ He Hq) as (_ & -> & _).
Qed.

(** A mild computation before the rest. *)
Lemma wp_mild {A B} (m : M (pydict * world W) A) (k : A → M (pydict * world W) B) Q x y :
  mild x y → within mild m → (∀ a z, mild x z → wp (k a) Q (λ _ u, mild x u) z) →
  wp (bind m k) Q (λ _ u, mild x u) y.
Proof.
  intros Hy Hm Hk. apply wp_bind. eapply (wp_within mild); [exact Hm|..].
  - intros a z Hz. apply Hk. by etrans.
  - intros e z Hz. by etrans.
Qed.
(** A calm computation at the end of a sequence. *)
Lemma wp_calm_last {A} (m : M (pydict * world W) A) (Q : A → pydict * world W → Prop) E x :
  within calm m → keeps m → (∀ a y, y.1 = x.1 → calm x y → Q a y) → (∀ e y, y.1 = x.1 → calm x y → E e y) →
  wp m Q E x.
Proof.
  intros Hc Hk Hok He. specialize (Hc x). specialize (Hk x). unfold wp.
  destruct (m x) as [[a|e] y]; auto.
Qed.

Definition completed_state (state : pydict) : Prop := dget "status" state = Some (VStr "complete").
(** The state on disk is that of the variable, and the campaign is complete. *)
Definition recorded (y : pydict * world W) : Prop :=
  completed_state y.1 ∧ json_at (w_os y.2) (state_path root) = Some (VDict y.1).
Lemma finish_spec x :
  wp (finish sys_executable REPO root) (λ _ y, mild x y ∧ recorded y) (λ _ y, mild x y) x.
Proof.
  unfold finish. assert (mild x x) as H0 by reflexivity. revert H0. generalize x at 2 5. intros y Hy.
  apply wp_mild; [done|apply mild_sys; by intros|]. intros there z1 H1.
  apply wp_mild; [done|apply within_when; [typeclasses eauto|apply mild_derived]|]. intros _ z2 H2.
  apply wp_mild; [done|apply mild_sys; by intros|]. intros there' z3 H3.
  apply wp_mild; [done|apply within_when; [typeclasses eauto|apply within_throw; typeclasses eauto]|].
  intros _ z4 H4.
  apply wp_mild; [done|apply within_self; typeclasses eauto|]. intros state z5 H5.
  apply wp_mild; [done|apply within_lift; typeclasses eauto|]. intros pdf z6 H6.
  apply wp_mild; [done|apply within_when; [typeclasses eauto|by apply mild_script]|]. intros _ z7 H7.
  apply wp_mild; [done|apply mild_restore|]. intros _ z8 H8.
  apply wp_mild; [done|apply mild_sys; by intros|]. intros time z9 H9.
  apply wp_update, wp_bind, wp_save_state.
  2:{ intros e u _ Hu. by etrans; [exact H9|]. }
  intros u Su Mu Ju. assert (mild x u) as Hu by (by etrans; [exact H9|]).
  apply wp_calm_last; [apply calm_call; not_a_run|apply keeps_call| |].
  2:{ intros e v _ Cv. etrans; [exact Hu|]. by apply calm_mild. }
  intros _ v Sv Cv. split; [etrans; [exact Hu|by apply calm_mild]|]. split.
  - unfold completed_state. rewrite Sv, Su. simpl. by rewrite !dget_dset.
  - etrans; [apply Cv|]. by rewrite Sv, Su.
Qed.

(** *** The start of a worker *)

Lemma check_boot_spec b boot_id x :
  planned b x →
  wp (check_boot boot_id)
     (λ _ y, planned b y ∧ calm x y ∧
             ∀ v t, requested v t x.1 → matching (w_os x.2) v (VBool t) = Ok true)
     (λ _ y, calm x y) x.
Proof.
  intros Hb. unfold check_boot. apply wp_bind. destruct x as [state w]. apply wp_self.
  destruct (truthy (dgetd "pending_boot" VNone state)) eqn:Hp; simpl.
  2:{ apply wp_ret. split_and!; [done|reflexivity|]. intros v t (_ & id & Hreq). simpl in *.
      unfold dgetd in Hp. by rewrite Hreq in Hp. }
  set (pending := dgetd "pending_boot" VNone state) in *.
  apply wp_bind, wp_lift. destruct (item pending "boot_id") as [previous|e]; [|reflexivity].
  apply wp_bind. eapply (wp_conseq _ (λ r y, y.1 = state ∧ calm (state, w) y ∧
    (r = true → ∀ v t, requested v t state → matching (w_os w) v (VBool t) = Ok true))
    _ (λ _ y, calm (state, w) y)).
  - destruct (py_eq previous (VStr boot_id)).
    { apply wp_ret. split_and!; [done|reflexivity|done]. }
    apply wp_bind, wp_lift. destruct (item pending "variant") as [variant|] eqn:Hv; [|reflexivity].
    apply wp_bind, wp_lift. destruct (item pending "threaded") as [threaded|] eqn:Ht; [|reflexivity].
    eapply wp_conseq; [apply boot_matches_spec| |by intros e y []].
    intros r y (Hm & Hs & Hc). split_and!; [done|done|]. intros -> v t (_ & id & Hreq).
    assert (pending = VDict [("variant", VStr v); ("threaded", VBool t); ("boot_id", VStr id)]) as Heq.
    { unfold pending, dgetd. by rewrite Hreq. }
    rewrite Heq in Hv, Ht. vm_compute in Hv, Ht. injection Hv as <-. injection Ht as <-. exact Hm.
  - intros booted y (Hs & Hc & Hm). destruct booted; simpl; [|by apply wp_throw].
    unfold update, set_self. destruct y as [s2 w2]. apply wp_modify. simpl in Hs. subst s2.
    split_and!; [|exact Hc|by apply Hm].
    assert (planned b (state, w2)) as Hb2 by by eapply planned_calm.
    apply (planned_update b [("pending_boot", VNone)] (state, w2)); [simpl; set_solver|done].
  - done.
Qed.

Lemma boot_id_spec x :
  wp current_boot_id (λ id y, plain_name id = true ∧ y.1 = x.1 ∧ calm x y) (λ _ y, y.1 = x.1 ∧ calm x y) x.
Proof.
  eapply wp_conseq; [apply (wp_and_within calm); [by apply calm_boot_id|];
    apply (wp_and_within same_self);
      [|instantiate (1 := λ _ _, True); instantiate (1 := λ id _, plain_name id = true)]| |].
  - unfold current_boot_id. solve_keeps.
  - destruct x as [s w]. unfold current_boot_id. apply wp_bind, wp_sys. intros r o Hr.
    destruct r as [text|]; [|done]. apply wp_ret. apply (boot_id_plain (root := root) (w_os w)). by rewrite Hr.
  - by intros id y [[Hp Hs] Hc].
  - by intros e y [[_ Hs] Hc].
Qed.
Lemma calm_interrupted : within calm (check_interrupted (W := W) root).
Proof.
  unfold check_interrupted.
  apply within_bind; [typeclasses eauto|apply within_self; typeclasses eauto|intros stage].
  destruct (negb _); [apply within_ret; typeclasses eauto|].
  apply within_bind; [typeclasses eauto|by apply calm_complete|intros done].
  apply within_when; [typeclasses eauto|]. apply within_throw. typeclasses eauto.
Qed.
Lemma keeps_interrupted : keeps (check_interrupted (W := W) root).
Proof. unfold check_interrupted. solve_keeps. Qed.
Lemma keeps_verify {T} : keeps (verify_sources (W := W) (S := T) REPO root).
Proof. unfold verify_sources, digest. solve_keeps. Qed.
Lemma keeps_wired {T} n seconds : keeps (check_wired (W := W) (S := T) n seconds).
Proof.
  assert (∀ n d, keeps (await_eth0 (W := W) (S := T) n d)) as Hawait.
  { induction n0 as [|n0 IH]; intros d; simpl; unfold eth0_up; solve_keeps. }
  unfold check_wired, check_route, check_output, run_checked. solve_keeps.
Qed.
Lemma keeps_refresh {T} boot_id : keeps (refresh_boot_config (W := W) (S := T) sys_executable REPO root boot_id).
Proof. unfold refresh_boot_config, check_entrypoints, load_config, prepare, read, digest, py. solve_keeps. Qed.
Lemma keeps_wifi : keeps (disable_wifi (W := W)).
Proof. unfold disable_wifi. solve_keeps. Qed.

(** What a worker that returns leaves: a completed campaign, or a request for
    the kernel of the first phase with work to do. *)
Definition worker_end (b : bool) (pre : list phase) y : Prop :=
  recorded y ∧ (∀ p, p ∈ plan b → phase_done (w_os y.2) p) ∨ planned b y ∧ loop_end b pre false y.

(** The rest of a worker after the state is saved as running. *)
Lemma worker_rest_spec b n pre post boot_id x :
  plain_name boot_id = true → planned b x → plan b = pre ++ post →
  (∀ p, p ∈ pre → phase_done (w_os x.2) p) →
  wp (refresh_boot_config sys_executable REPO root boot_id ;; disable_wifi ;;
      finished <- run_phases sys_executable REPO root n boot_id ;;
      when finished (finish sys_executable REPO root))
     (λ _ y, ran b post x y ∧ worker_end b pre y) (λ _ y, ran b post x y) x.
Proof.
  intros Hid Hb Hplan Hpre.
  apply wp_calm_step; [by apply calm_refresh|apply keeps_refresh| |].
  2:{ intros e y _ Hc. by apply ran_no_phase, step_calm. }
  intros _ y Sy Cy. apply wp_calm_step; [by apply calm_wifi|apply keeps_wifi| |].
  2:{ intros e z _ Hc. apply ran_no_phase, step_calm. by etrans. }
  intros _ z Sz Cz. assert (calm x z) as C by (by etrans). assert (planned b z) as Hz.
  { eapply planned_calm; [exact Hb| |exact C]. congruence. }
  assert (step x z []) as T by by apply step_calm.
  assert (∀ p, p ∈ pre → phase_done (w_os z.2) p) as Hpz.
  { intros p Hp. eapply (phase_done_step b x z []); [rewrite Hplan; set_solver|done|by apply Hpre]. }
  pose proof (λ u, ran_before b post x z u T) as Hran.
  apply wp_bind. eapply wp_conseq; [by apply (run_phases_spec b n boot_id pre post)| |].
  2:{ intros e u Hu. by apply Hran. }
  intros finished u (Hu & Hr & Hend). apply Hran in Hr. destruct finished; simpl.
  2:{ apply wp_ret. split; [done|]. by right. }
  assert (∀ v, mild u v → ran b post x v) as Hmild.
  { intros v Hv. by eapply ran_after; [|apply step_mild]. }
  eapply wp_conseq; [apply finish_spec| |].
  - intros _ v [Hv Hrec]. split; [by apply Hmild|]. left. split; [done|]. intros p Hp.
    eapply (phase_done_step b u v []); [done|by apply step_mild|by apply Hend].
  - intros e v Hv. by apply Hmild.
Qed.

(** The worker after its checks of the sources, the network and the last stage. *)
Definition worker_tail (n : nat) : M (pydict * world W) unit :=
  boot_id <- current_boot_id ;;
  check_boot boot_id ;;
  update [("status", VStr "running"); ("active_stage", VNone)] ;;
  save_state root ;;
  refresh_boot_config sys_executable REPO root boot_id ;;
  disable_wifi ;;
  finished <- run_phases sys_executable REPO root n boot_id ;;
  when finished (finish sys_executable REPO root).
Lemma worker_body_tail n :
  worker_body sys_executable REPO root n =
  (verify_sources REPO root ;; check_wired n 60 ;; check_interrupted root ;; worker_tail n).
Proof. reflexivity. Qed.

Lemma worker_tail_spec b n pre post x :
  planned b x → plan b = pre ++ post → (∀ p, p ∈ pre → phase_done (w_os x.2) p) →
  wp (worker_tail n)
     (λ _ y, ran b post x y ∧ worker_end b pre y ∧
             ∀ v t, requested v t x.1 → matching (w_os x.2) v (VBool t) = Ok true)
     (λ _ y, ran b post x y) x.
Proof.
  intros Hb Hplan Hpre. unfold worker_tail. apply wp_bind. eapply wp_conseq; [apply boot_id_spec| |].
  2:{ intros e y [_ Hc]. by apply ran_no_phase, step_calm. }
  intros boot_id y4 (Hid & Sx & C').
  apply wp_bind. eapply wp_conseq; [apply (check_boot_spec b); by eapply planned_calm| |].
  2:{ intros e y Hc. apply ran_no_phase, step_calm. by etrans. }
  intros _ y5 (Hb5 & C5 & Hmatch). rewrite Sx in Hmatch. assert (calm x y5) as C'' by (by etrans).
  apply wp_update. set (x6 := (dupdate y5.1 _, y5.2)).
  assert (planned b x6) as Hb6 by (apply planned_update; [simpl; set_solver|done]).
  assert (step x x6 []) as T6 by exact (step_calm x y5 C'').
  apply wp_bind, wp_save_state.
  2:{ intros e z _ Hm. apply ran_no_phase. eapply step_nil_l; [done|by apply step_mild]. }
  intros y7 S7 M7 J7. assert (planned b y7) as Hb7 by by eapply planned_saved.
  assert (step x y7 []) as T7 by (eapply step_nil_l; [done|by apply step_mild]).
  pose proof (λ z, ran_before b post x y7 z T7) as Hran.
  eapply wp_conseq; [apply (worker_rest_spec b n pre post boot_id y7); try done| |].
  - intros p Hp. eapply (phase_done_step b x y7 []); [rewrite Hplan; set_solver|done|by apply Hpre].
  - intros _ z [Hz He]. split_and!; [by apply Hran|done|].
    intros v t Hreq. rewrite <- (matching_step x y4 []); [by apply Hmatch|by apply step_calm].
  - intros e z Hz. by apply Hran.
Qed.
Lemma worker_body_spec b n pre post x :
  planned b x → plan b = pre ++ post → (∀ p, p ∈ pre → phase_done (w_os x.2) p) →
  wp (worker_body sys_executable REPO root n)
     (λ _ y, ran b post x y ∧ worker_end b pre y ∧
             ∀ v t, requested v t x.1 → matching (w_os x.2) v (VBool t) = Ok true)
     (λ _ y, ran b post x y) x.
Proof.
  intros Hb Hplan Hpre. rewrite worker_body_tail.
  apply wp_calm_step; [by apply calm_verify|apply keeps_verify| |].
  2:{ intros e y _ Hc. by apply ran_no_phase, step_calm. }
  intros _ y1 S1 C1. apply wp_calm_step; [by apply calm_wired|apply keeps_wired| |].
  2:{ intros e y _ Hc. apply ran_no_phase, step_calm. by etrans. }
  intros _ y2 S2 C2. apply wp_calm_step; [apply calm_interrupted|apply keeps_interrupted| |].
  2:{ intros e y _ Hc. apply ran_no_phase, step_calm. by do 2 (etrans; [done|]). }
  intros _ y3 S3 C3. assert (calm x y3) as C by (by do 2 (etrans; [done|])).
  assert (y3.1 = x.1) as Sx by congruence. assert (step x y3 []) as T by by apply step_calm.
  eapply wp_conseq; [apply (worker_tail_spec b n pre post y3); [by eapply planned_calm|done|]| |].
  - intros p Hp. eapply (phase_done_step b x y3 []); [rewrite Hplan; set_solver|done|by apply Hpre].
  - intros _ z (Hr & He & Hm). split_and!; [by eapply ran_before|done|].
    intros v t Hreq. rewrite Sx in Hm. rewrite <- (matching_step x y3 []) by done. by apply Hm.
  - intros e z Hr. by eapply ran_before.
Qed.

(** A failed worker raises. *)
Lemma worker_failed_raises error y : match (worker_failed root error y).1 with Ok _ => False | Raise _ => True end.
Proof.
  unfold worker_failed, bind, rethrow. by repeat case_goal.
Qed.
Lemma worker_run_spec b n pre post x :
  planned b x → plan b = pre ++ post → (∀ p, p ∈ pre → phase_done (w_os x.2) p) →
  wp (worker_run sys_executable REPO root n)
     (λ _ y, ran b post x y ∧ worker_end b pre y ∧
             ∀ v t, requested v t x.1 → matching (w_os x.2) v (VBool t) = Ok true)
     (λ _ y, ran b post x y) x.
Proof.
  intros Hb Hplan Hpre. unfold worker_run. apply wp_try.
  eapply wp_conseq; [by apply (worker_body_spec b n pre post)|done|]. intros e y Hr.
  destruct (is_BaseException e); [|done]. unfold wp. pose proof (mild_failed e y) as Hm.
  pose proof (worker_failed_raises e y) as Hraise.
  destruct (worker_failed root e y) as [[a|e'] z]; [by destruct Hraise|].
  eapply ran_after; [exact Hr|by apply step_mild].
Qed.

(** The start of a worker, before it reads the state. *)
Definition worker_start {T} : M (T * world W) unit :=
  require_pi ;;
  uid <- sys GetEuid ;;
  when (negb (bool_decide (uid = 0))) (throw ValueError "Worker must run in the installed root service") ;;
  sys (Mkdir (root // "private-tmp") true) ;;
  sys (SetEnv "TMPDIR" (root // "private-tmp")).
Lemma calm_worker_start {T} : within calm (worker_start (T := T)).
Proof.
  unfold worker_start, require_pi.
  repeat (match goal with
          | |- within _ (bind _ _) => apply within_bind; [typeclasses eauto|..]
          | |- within _ (when _ _) => apply within_when; [typeclasses eauto|]
          | |- within _ (throw _ _) => apply within_throw; typeclasses eauto
          end; intros).
  - by apply calm_model.
  - apply calm_sys; by intros.
  - apply calm_mkdir; [done|by apply elsewhere_1].
  - apply calm_sys; by intros.
Qed.
Lemma worker_starts {T} n (x : T * world W) :
  worker sys_executable REPO root n x =
  (worker_start ;;
   state <- read (state_path root) ;;
   repo <- lift (item state "repo") ;;
   when (negb (py_eq repo (VStr REPO))) (throw ValueError "Repository moved since preparation") ;;
   state <- lift (as_dict state) ;;
   sys (Lock (root // "pipeline.lock")) ;;
   local state (worker_run sys_executable REPO root n)) x.
Proof.
  unfold worker, worker_start, bind.
  destruct (require_pi x) as [[] y]; [|done]. destruct (sys GetEuid y) as [[] y1]; [|done].
  destruct (when _ _ y1) as [[] y2]; [|done]. by destruct (sys (Mkdir _ _) y2) as [[] y3].
Qed.

(** The stages of the plan that the machine's campaign follows. *)
Definition smoke_at (w : world W) : bool := smoke_of (json_at (w_os w) (state_path root)).
(** The relations above, on machines alone. *)
Definition ran_w (b : bool) (phases : list phase) (w w' : world W) : Prop := ran b phases ([], w) ([], w').

Lemma wp_calm_w {T A B} (m : M (T * world W) A) (k : A → M (T * world W) B) Q b phases (x0 x : T * world W) :
  within calm m → keeps m → calm_w sys_executable REPO root x0.2 x.2 →
  (∀ a (y : T * world W), calm_w sys_executable REPO root x0.2 y.2 → wp (k a) Q (λ _ u, ran_w b phases x0.2 u.2) y) →
  wp (bind m k) Q (λ _ u, ran_w b phases x0.2 u.2) x.
Proof.
  intros Hm Hk H0 H1. apply wp_calm_step; [done|done| |].
  - intros a y _ Hc. apply H1. etrans; [exact H0|exact Hc].
  - intros e y _ Hc. apply ran_no_phase. apply (step_calm ([], x0.2) ([], y.2)). unfold on_world. simpl.
    etrans; [exact H0|exact Hc].
Qed.
Lemma read_state_spec {T} (x : T * world W) :
  wp (read (state_path root)) (λ v u, json_at (w_os x.2) (state_path root) = Some v ∧ calm x u)
    (λ _ u, calm x u) x.
Proof.
  eapply wp_conseq; [apply (wp_and_within calm); [by apply calm_reads|];
    instantiate (1 := λ _ _, True);
    instantiate (1 := λ v _, json_at (w_os x.2) (state_path root) = Some v)| |].
  - destruct x as [s w]. unfold read. apply wp_sys. intros r o Hr. destruct r as [v|]; [|done].
    simpl. apply disk_read. exact (f_equal fst Hr).
  - by intros v y [Hv Hc].
  - by intros e y [_ Hc].
Qed.

(** A whole run of the worker. *)
Lemma worker_spec {T} b n pre post (x : T * world W) :
  smoke_at x.2 = b → plan b = pre ++ post → (∀ p, p ∈ pre → phase_done (w_os x.2) p) →
  wp (worker sys_executable REPO root n)
     (λ _ u, ran_w b post x.2 u.2 ∧ ∃ d d', json_at (w_os x.2) (state_path root) = Some (VDict d) ∧
        worker_end b pre (d', u.2) ∧
        ∀ v t, requested v t d → matching (w_os x.2) v (VBool t) = Ok true)
     (λ _ u, ran_w b post x.2 u.2) x.
Proof.
  intros Hb Hplan Hpre. unfold wp at 1. rewrite worker_starts.
  match goal with |- match ?m x with _ => _ end => change (wp m
     (λ _ u, ran_w b post x.2 u.2 ∧ ∃ d d', json_at (w_os x.2) (state_path root) = Some (VDict d) ∧
        worker_end b pre (d', u.2) ∧
        ∀ v t, requested v t d → matching (w_os x.2) v (VBool t) = Ok true)
     (λ _ u, ran_w b post x.2 u.2) x) end.
  assert (calm_w sys_executable REPO root x.2 x.2) as C0 by reflexivity.
  apply wp_calm_w; [apply calm_worker_start| |done|].
  { unfold worker_start, require_pi, model_is_pi. solve_keeps. }
  intros _ y1 C1.
  assert (∀ w, calm_w sys_executable REPO root x.2 w → ran_w b post x.2 w) as Hnil.
  { intros w Hc. apply ran_no_phase. by apply (step_calm ([], x.2) ([], w)). }
  apply wp_bind. eapply wp_conseq; [apply read_state_spec| |].
  2:{ intros e u Hu. apply Hnil. etrans; [exact C1|exact Hu]. }
  intros v u2 [Hv C2]. assert (calm_w sys_executable REPO root x.2 u2.2) as C2' by (etrans; [exact C1|exact C2]).
  assert (json_at (w_os x.2) (state_path root) = Some v) as Hx by (rewrite <- Hv; symmetry; apply C1).
  apply wp_bind, wp_lift. destruct (item v "repo") as [repo|]; [|by apply Hnil].
  apply wp_bind. destruct (negb _); [by apply wp_throw, Hnil|]. apply wp_ret.
  apply wp_bind, wp_lift. destruct v as [| | | | | |d]; try by apply Hnil. simpl.
  apply wp_calm_w; [|apply keeps_sys|done|].
  { apply calm_sys; [|by intros]. intros p Hp. simpl. apply bool_decide_false.
    assert (elsewhere_path root (root // "pipeline.lock")) as He by by apply elsewhere_1.
    by apply (elsewhere_apart root root_ok _ _ He Hp). }
  intros _ [s3 w3] C3. apply wp_local. simpl in C3.
  eapply wp_conseq; [apply (worker_run_spec b n pre post (d, w3))| |].
  - split; simpl.
    + rewrite <- Hb. unfold smoke_at. f_equal. apply C3.
    + rewrite <- Hb. unfold smoke_at. by rewrite Hx.
  - done.
  - intros p Hp. eapply (phase_done_step b ([], x.2) (d, w3) []); [rewrite Hplan; set_solver| |by apply Hpre].
    by apply (step_calm ([], x.2) ([], w3)).
  - intros _ [s4 w4] (Hr & He & Hm). split.
    + apply (ran_before b post ([], x.2) (d, w3)); [|exact Hr]. by apply (step_calm ([], x.2) ([], w3)).
    + exists d, s4. split_and!; [done|done|]. intros vv tt Hreq. specialize (Hm vv tt Hreq).
      by rewrite (matching_step ([], x.2) (d, w3) []) in Hm; [|apply (step_calm ([], x.2) ([], w3))].
  - intros e [s4 w4] Hr. apply (ran_before b post ([], x.2) (d, w3)); [|exact Hr].
    by apply (step_calm ([], x.2) ([], w3)).
Qed.
End spec.

(** ** Which stages a worker runs *)

(** The running kernel is the one of a phase: it has the release of the phase's
    variant, and [threadirqs] is on its command line exactly when the phase asks
    for it; for the real-time variants, which thread their interrupts in any
    case, [threadirqs] does not matter. *)
Definition booted_for (boot : string * string) (variant : string) (threaded : bool) : Prop :=
  ∃ v, dget variant VARIANTS = Some v ∧ boot.1 = v_release v ∧
    (py_startswith "rt-" variant = true ∨ ("threadirqs" ∈ py_words boot.2 ↔ threaded = true)).
Lemma matches_booted variant threaded boot :
  matches variant (VBool threaded) boot.1 boot.2 = Ok true → booted_for boot variant threaded.
Proof.
  unfold matches, get_variant, booted_for. destruct (dget variant VARIANTS) as [v|]; [|done].
  intros [= [Hv Hm]%andb_true_iff]. exists v. split_and!; [done|by apply bool_decide_eq_true in Hv|].
  apply orb_true_iff in Hm as [Hm|Hm]; [by left|]. right. revert Hm.
  destruct (decide ("threadirqs" ∈ py_words boot.2)); [rewrite bool_decide_true by done|rewrite bool_decide_false by done];
    by destruct threaded.
Qed.

(** C2: Stages run in the order of the plan, each at most once, under their
    kernel, and never again.  What the commands of the stages do is left open,
    but for the law of [CampaignDisk] that a command leaves pipeline.json as it
    is and removes no completion marker.  Then, however the worker ends, the
    stages one run of it starts are in the order of the campaign's plan, none
    twice; a stage that has a completion marker when the worker starts is not
    run; and every stage that is run belongs to a phase of the plan whose
    variant has the release of the running kernel, and, unless the variant is a
    real-time one, [threadirqs] is on the kernel's command line exactly when the
    phase asks for it. *)
Theorem worker_runs_in_plan_order {W} `{OS W} sys_executable REPO root `{!CampaignDisk root W} {T} n
    (x : T * world W) :
  absolute root →
  let b := smoke_at root x.2 in
  ∃ l, w_log (worker sys_executable REPO root n x).2.2 = w_log x.2 ++ l ∧
    let ls := runs sys_executable REPO root l in
    ls `sublist_of` plan_stages b ∧ NoDup ls ∧
    ∀ stage, stage ∈ ls →
      marked root (w_os x.2) stage = false ∧
      ∃ variant threaded stages, (variant, threaded, stages) ∈ plan b ∧ stage ∈ stages ∧
        booted_for (boot_at (w_os x.2)) variant threaded.
Proof.
  intros Hroot b. assert (ran_w sys_executable REPO root b (plan b) x.2 (worker sys_executable REPO root n x).2.2) as Hran.
  { pose proof (worker_spec sys_executable REPO root Hroot b n [] (plan b) x eq_refl eq_refl) as Hw.
    unfold wp in Hw. destruct (worker sys_executable REPO root n x) as [[a|e] [s w]]; apply Hw;
      intros p Hp; by apply elem_of_nil in Hp. }
  destruct Hran as (ls & (_ & _ & l & Hl & Hr) & Hsub & Hall). exists l. cbv zeta. simpl in Hl. rewrite Hr.
  split_and!; [done|done|eapply sublist_NoDup; [apply plan_stages_NoDup|done]|].
  intros stage Hs. destruct (Hall stage Hs) as (Hm & v & t & ss & Hp & Hin & Hk).
  split; [done|]. exists v, t, ss. split_and!; [done|done|by apply matches_booted].
Qed.

Lemma worker_runs_in_plan_order_witness :
  let r := demo_worker (demo_before true 1) in
  raised r = None ∧
  (∃ l, w_log r.2.2 = w_log (demo_before true 1) ++ l ∧ NoDup (runs demo_python demo_repo demo_root l)).
Proof.
  split; [vm_compute; reflexivity|].
  destruct (worker_runs_in_plan_order demo_python demo_repo demo_root 6 ((), demo_before true 1)
    demo_absolute) as (l & Hl & _ & Hnd & _).
  exists l. exact (conj Hl Hnd).
Defined.

(** ** A campaign completes *)

Section campaign.
Context {W : Type} `{OS W} (sys_executable REPO root : string) `{!CampaignDisk root W}.

(** A boot: the campaign directory is as it was. *)
Definition rebooted (w w' : W) : Prop :=
  json_at (root := root) w' (state_path root) = json_at w (state_path root) ∧
  ∀ stage, stage ∈ dkeys STAGES → marked root w stage = true → marked root w' stage = true.
(** [pipeline.json] says complete and every stage of the plan has its marker. *)
Definition campaign_complete (b : bool) (w : W) : Prop :=
  (∃ state, json_at (root := root) w (state_path root) = Some (VDict state) ∧ completed_state state) ∧
  ∀ stage, stage ∈ plan_stages b → marked root w stage = true.
(** A run of the worker that returns. *)
Definition worker_returns (n : nat) (w w' : world W) : Prop :=
  worker sys_executable REPO root n ((), w) = (Ok (), ((), w')).

(** What a worker that returns leaves for the next boot: completion, or a
    request for the kernel of the phase behind [pre]. *)
Definition next_request (b : bool) (pre : list phase) (w : W) : Prop :=
  ∃ v t ss post state, plan b = pre ++ (v, t, ss) :: post ∧ (∀ p, p ∈ pre → phase_done root w p) ∧
    json_at (root := root) w (state_path root) = Some (VDict state) ∧ requested v t state ∧
    smoke_of (Some (VDict state)) = b.

(** The campaign is complete or not: a boolean test. *)
Definition complete_b (b : bool) (w : W) : bool :=
  match json_at (root := root) w (state_path root) with
  | Some (VDict state) =>
      match dget "status" state with Some (VStr s) => bool_decide (s = "complete") | _ => false end
  | _ => false
  end && forallb (marked root w) (plan_stages b).
Lemma complete_b_spec b w : complete_b b w = true ↔ campaign_complete b w.
Proof.
  unfold complete_b, campaign_complete. rewrite andb_true_iff, forallb_forall.
  setoid_rewrite <- list_elem_of_In.
  destruct (json_at w (state_path root)) as [[]|]; split; try (intros [? ?]; naive_solver).
  - intros [Hs Hm]. split; [|done]. eexists. split; [done|]. unfold completed_state.
    destruct (dget "status" d) as [[]|]; try done. by apply bool_decide_eq_true in Hs as ->.
  - intros [(state & [= <-] & Hs) Hm]. split; [|done]. unfold completed_state in Hs. rewrite Hs. done.
Qed.
Lemma classic_complete b w : campaign_complete b w ∨ ¬ campaign_complete b w.
Proof. rewrite <- complete_b_spec. destruct (complete_b b w); [by left|by right]. Qed.

Lemma phase_of_stage b stage : stage ∈ plan_stages b → ∃ p, p ∈ plan b ∧ stage ∈ p.2.
Proof.
  unfold plan_stages. rewrite list_elem_of_In, in_concat. intros (l & Hl & Hs).
  apply in_map_iff in Hl as (p & <- & Hp). exists p. by rewrite !list_elem_of_In.
Qed.
Lemma worker_returns_end n b pre w w' :
  absolute root → smoke_at root w = b → pre `prefix_of` plan b →
  (∀ p, p ∈ pre → phase_done root (w_os w) p) → worker_returns n w w' →
  campaign_complete b (w_os w') ∨
  ∃ pre', next_request b pre' (w_os w') ∧ (length pre <= length pre')%nat ∧
    ∀ v t ss post state, json_at (root := root) (w_os w) (state_path root) = Some (VDict state) →
      requested v t state → plan b = pre ++ (v, t, ss) :: post → (length pre < length pre')%nat.
Proof.
  intros Hroot Hb [post Hplan] Hpre Hrun.
  pose proof (worker_spec sys_executable REPO root Hroot b n pre post ((), w) Hb Hplan Hpre) as Hw.
  destruct (wp_ok _ _ _ _ _ _ Hw Hrun) as ((ls & Hstep & _) & d & d' & Hd & Hend & Hmatch). simpl in *.
  destruct Hend as [[[Hc Hj] Hall]|[Hp Hend]].
  - left. split; [by exists d'|]. intros s (p & Hp & Hs)%phase_of_stage. by apply (Hall p).
  - right. destruct Hend as (pre' & v & t & ss & post' & E & D & L & M & R & J). simpl in *.
    exists pre'. split_and!; [|done|].
    + exists v, t, ss, post', d'. split_and!; try done. apply Hp.
    + intros v0 t0 ss0 post0 state Hs Hreq Hplan0. rewrite Hd in Hs. injection Hs as <-.
      specialize (Hmatch v0 t0 Hreq).
      unfold phase in *. destruct (decide (length pre = length pre')) as [Hlen|]; [|lia]. exfalso.
      rewrite Hplan0 in E. apply app_inj_1 in E as [-> E]; [|done]. injection E as -> -> -> _.
      pose proof (matching_step sys_executable REPO root ([], w) ([], w') ls v (VBool t) Hstep) as Hsame.
      simpl in Hsame. congruence.
Qed.

(** A chain of boots behind a request: [m] phases are left after the requested
    one. *)
Lemma campaign_chain b n (before after : nat → world W) m pre v t ss post state :
  absolute root → plan b = pre ++ (v, t, ss) :: post → (length post <= m)%nat →
  json_at (root := root) (w_os (before 0%nat)) (state_path root) = Some (VDict state) →
  requested v t state → smoke_of (Some (VDict state)) = b →
  (∀ p, p ∈ pre → phase_done root (w_os (before 0%nat)) p) →
  (∀ i, (i <= m)%nat → (∀ j, (j < i)%nat → ¬ campaign_complete b (w_os (after j))) →
     worker_returns n (before i) (after i)) →
  (∀ i, (i < m)%nat → rebooted (w_os (after i)) (w_os (before (S i)))) →
  ∃ i, (i <= m)%nat ∧ campaign_complete b (w_os (after i)).
Proof.
  intros Hroot. revert before after pre v t ss post state.
  induction m as [|m IH]; intros before after pre v t ss post state Hplan Hm Hj Hreq Hsmoke Hpre Hrun Hboot.
  all: assert (worker_returns n (before 0%nat) (after 0%nat)) as H0 by (apply Hrun; [lia|intros j Hlt; lia]).
  all: destruct (worker_returns_end n b pre (before 0%nat) (after 0%nat) Hroot) as [Hc|(pre' & Hnext & _ & Hlater)];
    [unfold smoke_at; by rewrite Hj|by eexists|done|done|exists 0%nat; split; [lia|done]|].
  all: specialize (Hlater v t ss post state Hj Hreq Hplan).
  all: destruct Hnext as (v' & t' & ss' & post' & state' & Hplan' & Hdone & Hj' & Hreq' & Hsmoke').
  all: assert (length pre + S (length post) = length pre' + S (length post'))%nat as Hlen
    by (apply (f_equal length) in Hplan, Hplan'; rewrite length_app in Hplan, Hplan'; unfold phase in *; simpl in *; lia).
  { unfold phase in *. lia. }
  destruct (classic_complete b (w_os (after 0%nat))) as [Hc|Hc]; [exists 0%nat; split; [lia|done]|].
  destruct (Hboot 0%nat ltac:(lia)) as [Hjson Hmarks].
  destruct (IH (λ i, before (S i)) (λ i, after (S i)) pre' v' t' ss' post' state') as (i & Hi & Hci);
    try done; [unfold phase in *; lia|by rewrite Hjson| | | |exists (S i); split; [lia|done]].
  - intros p Hp s Hs. apply Hmarks; [|by apply (Hdone p)]. apply (plan_in_stages b p); [|done]. rewrite Hplan'. set_solver.
  - intros i Hi Hnot. apply Hrun; [lia|]. intros [|j] Hlt; [done|]. apply Hnot. lia.
  - intros i Hi. apply Hboot. lia.
Qed.
End campaign.

(** C1: A campaign whose workers return completes.  Consider the boots of a
    campaign: a worker runs in each until the campaign is complete, and the next
    boot finds the campaign directory as the worker left it.  When every worker
    returns, then after at most as many reboots as the plan has phases (five)
    [pipeline.json] says complete and every stage of the plan has its completion
    marker.  What the commands of the stages do is left open, but for the law of
    [CampaignDisk] that a command leaves pipeline.json as it is and removes no
    completion marker. *)
Theorem campaign_completes {W} `{OS W} sys_executable REPO root `{!CampaignDisk root W} b n
    (before after : nat → world W) :
  absolute root → smoke_at root (before 0%nat) = b →
  (∀ i, (i <= length (plan b))%nat → (∀ j, (j < i)%nat → ¬ campaign_complete root b (w_os (after j))) →
     worker_returns sys_executable REPO root n (before i) (after i)) →
  (∀ i, (i < length (plan b))%nat → rebooted root (w_os (after i)) (w_os (before (S i)))) →
  ∃ i, (i <= length (plan b))%nat ∧ campaign_complete root b (w_os (after i)).
Proof.
  intros Hroot Hb Hrun Hboot.
  destruct (worker_returns_end sys_executable REPO root n b [] (before 0%nat) (after 0%nat) Hroot)
    as [Hc|(pre' & (v & t & ss & post & state & Hplan & Hdone & Hj & Hreq & Hsmoke) & _ & _)];
    [done|apply prefix_nil|intros p Hp; by apply elem_of_nil in Hp|apply Hrun; [lia|intros; lia]
    |exists 0%nat; split; [lia|done]|].
  assert (length (plan b) = 5)%nat as Hlen by by destruct b.
  assert (length pre' + S (length post) = 5)%nat as Hsum
    by (rewrite <- Hlen; apply (f_equal length) in Hplan; rewrite length_app in Hplan; unfold phase in *; simpl in *; lia).
  rewrite Hlen in Hrun, Hboot |- *.
  destruct (classic_complete root b (w_os (after 0%nat))) as [Hc|Hc]; [exists 0%nat; split; [lia|done]|].
  destruct (Hboot 0%nat ltac:(lia)) as [Hjson Hmarks].
  destruct (campaign_chain sys_executable REPO root b n (λ i, before (S i)) (λ i, after (S i)) 4
    pre' v t ss post state) as (i & Hi & Hci);
    try done; [lia|by rewrite Hjson| | | |exists (S i); split; [lia|done]].
  - intros p Hp s Hs. apply Hmarks; [|by apply (Hdone p)]. apply (plan_in_stages b p); [|done]. rewrite Hplan. set_solver.
  - intros i Hi Hnot. apply Hrun; [lia|]. intros [|j] Hlt; [done|]. apply Hnot. lia.
  - intros i Hi. apply Hboot. lia.
Qed.

Lemma campaign_completes_witness :
  forallb (λ i, returned (demo_worker (demo_before true i))) (seq 0 6) = true ∧
  ∃ i, (i <= 5)%nat ∧ campaign_complete demo_root true (w_os (demo_after true i)).
Proof.
  assert (forallb (λ i, returned (demo_worker (demo_before true i))) (seq 0 6) = true) as Hret
    by (vm_compute; reflexivity).
  split; [exact Hret|].
  refine (campaign_completes demo_python demo_repo demo_root true 6 (demo_before true) (demo_after true)
    demo_absolute eq_refl _ _).
  - intros i Hi _. rewrite forallb_forall in Hret. specialize (Hret i (proj2 (in_seq 6 0 i) (conj (Nat.le_0_l i) (le_n_S _ _ Hi)))).
    unfold worker_returns, demo_after. change (worker demo_python demo_repo demo_root 6 ((), demo_before true i))
      with (demo_worker (demo_before true i)).
    destruct (demo_worker (demo_before true i)) as [[[]|e] [[] w]]; [reflexivity|discriminate Hret].
  - intros i _. split; [reflexivity|]. intros stage _ Hm. exact Hm.
Defined.
