(* ===== verification/PipelineCrash.v ===== *)
(** * Interruptions and failures of the worker

    On any operating system: a stage is started only right after [pipeline.json]
    has been replaced by a state that names it, so that a later boot finds the
    interruption; and a worker that fails records the failure, restores the boot
    configuration and disables the service, whatever fails on the way. *)
From Stdlib Require Import Ascii ZArith Lia Floats.SpecFloat.
From S2P Require Import Prelude PyStr PyFloat PyVal PyJson Effects Machine Clock Recovery RecoverySpec.
From S2P Require Import Shell Kernel Reproduce Adapters Pipeline CampaignDisk CampaignDemo PipelineSpec.
From stdpp Require Import base gmap strings list.
Local Open Scope Z_scope.
Local Open Scope py_scope.
Local Open Scope M_scope.

#[local] Arguments run_command : simpl never.
#[local] Arguments pjoin : simpl never.
#[local] Arguments state_path : simpl never.

Section announced.
Context {W : Type} `{OS W} (sys_executable REPO root : string).

(** The replacement of [pipeline.json] by a state. *)
Definition saved_entries (state : pydict) : list entry :=
  [EWriteJson (state_path root +:+ ".tmp") (VDict state);
   ERename (state_path root +:+ ".tmp") (state_path root)].
(** Every start of a stage follows the save of a state that names it. *)
Definition announced (l : list entry) : Prop := ∀ l1 stage result l2,
  l = l1 ++ ERun (run_command sys_executable REPO root stage) None result :: l2 →
  ∃ l0 state, l1 = l0 ++ saved_entries state ∧ dget "active_stage" state = Some (VStr stage).
(** No start of a stage. *)
Definition is_start (e : entry) : Prop := ∃ stage result, e = ERun (run_command sys_executable REPO root stage) None result.
Definition hushed (l : list entry) : Prop := Forall (λ e, ¬ is_start e) l.

Lemma announced_app l k : announced l → announced k → announced (l ++ k).
Proof.
  intros Hl Hk l1 stage result l2 Heq. apply app_eq_app in Heq as (m & [[-> Hm]|[-> Hm]]).
  - destruct m as [|e m]; simpl in Hm.
    + destruct (Hk [] stage result l2) as (l0 & state & Hnil & _); [by rewrite <- Hm|].
      by destruct l0.
    + injection Hm as <- ->. apply (Hl l1 stage result m). done.
  - destruct (Hk m stage result l2 Hm) as (l0 & state & -> & Hs). exists (l ++ l0), state.
    by rewrite app_assoc.
Qed.
Lemma hushed_announced l : hushed l → announced l.
Proof.
  intros Hl l1 stage result l2 ->. apply Forall_app in Hl as [_ Hl]. apply Forall_cons in Hl as [Hl _].
  destruct Hl. by exists stage, result.
Qed.

Definition announcing : relation (world W) := λ x y, ∃ l, w_log y = w_log x ++ l ∧ announced l.
#[export] Instance announcing_preorder : PreOrder announcing.
Proof.
  split.
  - intros x. exists []. rewrite app_nil_r. split; [done|]. apply hushed_announced. constructor.
  - intros x y z (l & Hl & Al) (k & Hk & Ak). exists (l ++ k). rewrite Hk, Hl, app_assoc.
    split; [done|by apply announced_app].
Qed.
Abbreviation calls := (on_world announcing).

Lemma calls_sys {T A} (c : syscall A) :
  (∀ r, Forall (λ e, ¬ is_start e) (note c r)) → within calls (sys (S := T) c).
Proof.
  intros Hn [s w]. unfold sys, on_world, announcing. simpl. destruct (handle c (w_os w)) as [r o]. simpl.
  exists (note c r). split; [done|]. by apply hushed_announced, Hn.
Qed.
Lemma calls_command {T} command input timeout :
  (∀ stage, command ≠ run_command sys_executable REPO root stage) →
  within calls (sys (S := T) (RunCommand command input timeout)).
Proof.
  intros Hne. apply calls_sys. intros r. apply Forall_singleton. intros (stage & result & [= Heq _ _]).
  by apply (Hne stage).
Qed.
Lemma calls_checked {T} command :
  (∀ stage, command ≠ run_command sys_executable REPO root stage) →
  within calls (check_call (S := T) command) ∧ within calls (check_output (S := T) command).
Proof.
  intros Hne. unfold check_call, check_output, run_checked.
  split; solve_within; by apply calls_command.
Qed.
Lemma calls_call {T} command log :
  (∀ stage, command ≠ run_command sys_executable REPO root stage) →
  within calls (call (S := T) command log).
Proof.
  intros Hne. unfold call. apply within_bind; [typeclasses eauto| |intros _; by apply calls_checked].
  destruct log; [|apply within_ret; typeclasses eauto]. apply calls_sys. intros r. constructor.
Qed.
Lemma calls_py {T} script args log :
  script ≠ "reproduce.py" → plain_name script = true →
  within calls (py (S := T) sys_executable REPO script args log).
Proof.
  intros Hne Hp. unfold py. apply calls_call. intros stage Heq.
  apply (f_equal (λ l, nth 1 l EmptyString)) in Heq. simpl nth in Heq.
  apply pjoin_inj in Heq; [done|done|vm_compute; done].
Qed.

Ltac not_a_start := let r := fresh in intros r; repeat constructor; by intros (? & ? & ?).
Ltac solve_calls :=
  repeat (intros; first
    [ progress solve_within
    | match goal with
      | |- within _ (set_self _) => apply within_set_self; typeclasses eauto
      | |- within _ (local _ _) => apply within_local
      | |- within _ (sys (RunCommand _ _ _)) => apply calls_command; not_a_run
      | |- within _ (call _ _) => apply calls_call; not_a_run
      | |- within _ (check_call _) => apply calls_checked; not_a_run
      | |- within _ (check_output _) => apply calls_checked; not_a_run
      | |- within _ (py _ _ _ _ _) =>
          first [ apply calls_py; [done|vm_compute; reflexivity] | unfold py; apply calls_call; not_a_run ]
      | |- within _ (sys _) => apply calls_sys; not_a_start
      end ]).

Lemma calls_save {T} path v : within calls (save (S := T) path v).
Proof. unfold save. solve_calls. Qed.
Lemma calls_complete {T} stage : within calls (complete (S := T) root stage).
Proof. unfold complete, read, digest. solve_calls. Qed.
Lemma calls_next {T} : within calls (next_phase (S := T) root).
Proof.
  assert (∀ stages, within calls (pending_stages (S := T) root stages)) as Hp.
  { induction stages as [|s stages IH]; simpl; [apply within_ret; typeclasses eauto|].
    apply within_bind; [typeclasses eauto|apply calls_complete|intros done].
    apply within_bind; [typeclasses eauto|apply IH|intros rest]. apply within_ret. typeclasses eauto. }
  assert (∀ ps, within calls (first_pending (S := T) root ps)) as Hf.
  { induction ps as [|[[v t] ss] ps IH]; simpl; [apply within_ret; typeclasses eauto|].
    apply within_bind; [typeclasses eauto|apply Hp|]. intros [|s l]; [apply IH|apply within_ret; typeclasses eauto]. }
  unfold next_phase, phases, read. solve_calls.
Qed.

(** *** The preparation, the devices and the restoration *)

Lemma calls_adapter smoke seconds name text : within calls (write_adapter root smoke seconds name text).
Proof. unfold write_adapter. solve_calls. Qed.
Lemma calls_source name : within calls (read_source REPO root name).
Proof. unfold read_source, digest. solve_calls. Qed.
#[local] Hint Resolve calls_save calls_complete calls_next calls_adapter calls_source : keeps.
Lemma calls_case smoke seconds cfg a b name : within calls (write_case_file REPO root smoke seconds cfg a b name).
Proof. unfold write_case_file. solve_calls. Qed.
Lemma calls_prepare {T} cfg allow smoke seconds : within calls (prepare (S := T) REPO root cfg allow smoke seconds).
Proof.
  pose proof calls_case. unfold prepare. apply within_local. unfold prepare_body.
  unfold check_prior, prepare_e1, prepare_e2, prepare_e3, prepare_e4, prepare_ablation, prepare_direct,
    entrypoint_digests, digest.
  solve_calls.
Qed.
#[local] Hint Resolve calls_prepare : keeps.
Lemma calls_refresh {T} boot_id : within calls (refresh_boot_config (S := T) sys_executable REPO root boot_id).
Proof. unfold refresh_boot_config, check_entrypoints, load_config, read, digest. solve_calls. Qed.
Lemma calls_restore {T} : within calls (restore_system (S := T) root).
Proof. unfold restore_system, restore_file, read. solve_calls. Qed.
Lemma calls_save_state : within calls (save_state (W := W) root).
Proof. unfold save_state. solve_calls. Qed.
Lemma calls_wired {T} n seconds : within calls (check_wired (S := T) n seconds).
Proof.
  assert (∀ n d, within calls (await_eth0 (S := T) n d)) as Hawait.
  { induction n0 as [|n0 IH]; intros d; simpl; unfold eth0_up; solve_calls. }
  unfold check_wired, check_route. solve_calls.
Qed.
#[local] Hint Resolve calls_refresh calls_restore calls_save_state calls_wired : keeps.
Lemma calls_analyze {T} source output log :
  within calls (analyze (S := T) sys_executable REPO source output false false log).
Proof. unfold analyze, read. solve_calls. Qed.
#[local] Hint Resolve calls_analyze : keeps.
Lemma calls_finish : within calls (finish sys_executable REPO root).
Proof. unfold finish, update. solve_calls. Qed.
Lemma calls_failed error : within calls (worker_failed root error).
Proof. unfold worker_failed, update. solve_calls. Qed.

(** *** The announcement of a stage *)

(** Saving the state: two entries, or an exception. *)
Lemma save_state_entries (x : pydict * world W) :
  wp (save_state root)
     (λ _ y, y.1 = x.1 ∧ w_log y.2 = w_log x.2 ++ saved_entries x.1)
     (λ _ y, on_world announcing x y) x.
Proof.
  destruct x as [s w]. unfold save_state, save. apply wp_bind, wp_self, wp_bind, wp_sys.
  intros r o _. destruct r as [[]|e].
  - apply wp_sys. intros r o' _. destruct r as [[]|e]; simpl.
    + split; [done|]. by rewrite <- app_assoc.
    + unfold on_world, announcing. simpl. exists (saved_entries s). rewrite <- app_assoc. split; [done|].
      apply hushed_announced. repeat constructor; by intros (? & ? & ?).
  - unfold on_world, announcing. simpl. eexists. split; [done|].
    apply hushed_announced. repeat constructor; by intros (? & ? & ?).
Qed.
Lemma announced_start state stage result :
  dget "active_stage" state = Some (VStr stage) →
  announced (saved_entries state ++ [ERun (run_command sys_executable REPO root stage) None result]).
Proof.
  intros Hs l1 stage' result' l2 Heq. exists [], state. simpl in *.
  destruct l1 as [|e1 [|e2 [|e3 l1]]]; simplify_eq/=.
  - done.
  - by destruct l1.
Qed.
(** The block that announces a stage and starts it. *)
Definition start_stage (stage : string) : M (pydict * world W) unit :=
  update [("active_stage", VStr stage)] ;; save_state root ;;
  py sys_executable REPO "reproduce.py" (stage_args root "run" stage) None.
Lemma calls_start stage : within calls (start_stage stage).
Proof.
  intros x. unfold start_stage, py.
  change ([sys_executable; REPO // "reproduction" // "reproduce.py"] ++ stage_args root "run" stage)
    with (run_command sys_executable REPO root stage).
  assert (wp (update [("active_stage", VStr stage)] ;; save_state root ;;
              call (run_command sys_executable REPO root stage) None)
    (λ _ y, calls x y) (λ _ y, calls x y) x) as Hw.
  { destruct x as [s w]. set (s' := dupdate s [("active_stage", VStr stage)]).
    apply wp_bind. unfold update. apply wp_set_self. fold s'.
    apply wp_bind. eapply wp_conseq; [apply save_state_entries|intros _ [s2 w2] [_ Hl]|by intros].
    unfold call, check_call, run_checked. apply wp_bind, wp_ret, wp_bind, wp_bind, wp_sys. simpl in Hl.
    assert (∀ result o, calls (s, w) (s2, World o (w_log w2 ++ [ERun (run_command sys_executable REPO root stage) None result]))) as Hc.
    { intros result o. unfold on_world, announcing. simpl. rewrite Hl, <- app_assoc. eexists. split; [done|].
      apply announced_start. unfold s'. simpl. by rewrite dget_dset. }
    intros r o _. destruct r as [c|e]; simpl; [|apply Hc].
    case_bool_decide; apply Hc. }
  unfold wp in Hw. by destruct ((update _ ;; _) x) as [[] y].
Qed.
Lemma calls_run_stage stage : within calls (run_stage sys_executable REPO root stage).
Proof.
  pose proof (calls_start stage) as Hstart.
  assert (within calls (before_run sys_executable REPO root stage ;; start_stage stage ;;
    done <- complete root stage ;;
    when (negb done) (throw ValueError ("No valid completion marker for " +:+ stage)) ;;
    update [("active_stage", VNone)] ;; save_state root)) as Hall.
  { unfold before_run, read, update. apply within_bind; [typeclasses eauto| |intros _].
    - apply within_bind; [typeclasses eauto| |intros _; solve_calls].
      unfold py. apply calls_call. not_a_run.
    - apply within_bind; [typeclasses eauto|exact Hstart|intros _]. solve_calls. }
  intros x. specialize (Hall x). rewrite run_stage_before. revert Hall. unfold start_stage, bind.
  destruct (before_run _ _ _ _ x) as [[] y]; [|done]. destruct (update _ y) as [[] y1]; [|done].
  by destruct (save_state _ y1) as [[] y2].
Qed.

Lemma calls_phases n boot_id : within calls (run_phases sys_executable REPO root n boot_id).
Proof.
  pose proof calls_run_stage. induction n as [|n IH]; simpl; [apply within_throw; typeclasses eauto|].
  apply within_bind; [typeclasses eauto|apply calls_next|]. intros [[[v t] ss]|]; [|apply within_ret; typeclasses eauto].
  apply within_bind; [typeclasses eauto|unfold boot_matches; solve_calls|intros booted].
  destruct booted; simpl; [solve_calls|]. destruct t; unfold request_boot, update; solve_calls.
Qed.

Lemma calls_body n : within calls (worker_body sys_executable REPO root n).
Proof.
  pose proof calls_phases. pose proof calls_finish.
  unfold worker_body, verify_sources, check_interrupted, check_boot, current_boot_id, boot_matches, disable_wifi,
    update, digest.
  solve_calls.
Qed.
Lemma calls_worker {T} n : within calls (worker (S := T) sys_executable REPO root n).
Proof.
  pose proof calls_body. pose proof calls_failed. unfold worker, worker_run, require_pi, model_is_pi, read.
  solve_calls.
Qed.
End announced.

(** C9: A stage is announced before it starts.  On any operating system, and
    however the worker ends, each start of a stage in its log of commands comes
    directly after the replacement of [pipeline.json] by a state whose
    [active_stage] is that stage: the temporary file with the state, renamed to
    [pipeline.json]. *)
Theorem stage_starts_are_announced {W} `{OS W} sys_executable REPO root {T} n (x : T * world W) :
  ∃ l, w_log (worker sys_executable REPO root n x).2.2 = w_log x.2 ++ l ∧
    ∀ l1 stage result l2, l = l1 ++ ERun (run_command sys_executable REPO root stage) None result :: l2 →
      ∃ l0 state,
        l1 = l0 ++ [EWriteJson (state_path root +:+ ".tmp") (VDict state);
                    ERename (state_path root +:+ ".tmp") (state_path root)] ∧
        dget "active_stage" state = Some (VStr stage).
Proof. exact (calls_worker sys_executable REPO root n x). Qed.

(** ** An interrupted stage *)

Section interrupted.
Context {W : Type} `{OS W} (sys_executable REPO root : string) (root_ok : absolute root).
Context `{!CampaignDisk root W} (stage : string) (stage_ok : stage ∈ dkeys STAGES).
Implicit Types x y : pydict * world W.

Abbreviation calm := (on_world (calm_w sys_executable REPO root)).
(** The marker of the stage is there, or nothing was run since [w]. *)
Definition completed_or_idle (w w' : world W) : Prop :=
  marked root (w_os w') stage = true ∨
  ∃ l, w_log w' = w_log w ++ l ∧ runs sys_executable REPO root l = [].

Lemma idle_mild w w1 w2 :
  mild_w sys_executable REPO root w1 w2 → completed_or_idle w w1 → completed_or_idle w w2.
Proof.
  intros (_ & Hm & l2 & L2 & R2) [Hd|(l & L & R)]; [left; by apply Hm|right].
  exists (l ++ l2). unfold runs in *. split; [by rewrite L2, L, app_assoc|by rewrite omap_app, R, R2].
Qed.
Lemma idle_calm w w1 w2 :
  calm_w sys_executable REPO root w1 w2 → completed_or_idle w w1 → completed_or_idle w w2.
Proof. intros Hc. by apply idle_mild, calm_mild. Qed.
Lemma idle_refl w : completed_or_idle w w.
Proof. right. exists []. by rewrite app_nil_r. Qed.

Lemma check_interrupted_spec x :
  dget "active_stage" x.1 = Some (VStr stage) →
  wp (check_interrupted root) (λ _ y, y.1 = x.1 ∧ calm x y ∧ marked root (w_os y.2) stage = true)
     (λ _ y, calm x y) x.
Proof.
  intros Hs. unfold check_interrupted. apply wp_bind. destruct x as [s w]. apply wp_self. simpl in Hs.
  unfold dgetd. rewrite Hs. unfold truthy.
  assert (stage ≠ "") as Hne by (intros ->; revert stage_ok; apply (bool_decide_unpack _); vm_compute; done).
  rewrite bool_decide_false by done. simpl.
  apply wp_bind. eapply wp_conseq; [apply (complete_spec sys_executable REPO root)|..].
  - intros r y (-> & Sy & Cy). cbn [snd]. destruct (marked root (w_os w) stage) eqn:Hm; simpl; [|exact Cy].
    apply (wp_ret (A := unit)). split_and!; [done|done|]. by eapply marked_calm.
  - by intros e y [_ Hc].
Qed.

Lemma worker_body_interrupted n x :
  dget "active_stage" x.1 = Some (VStr stage) →
  planned root (truthy (dgetd "smoke" (VBool false) x.1)) x →
  wp (worker_body sys_executable REPO root n) (λ _ y, marked root (w_os y.2) stage = true)
     (λ _ y, completed_or_idle x.2 y.2) x.
Proof.
  intros Hs Hb. rewrite worker_body_tail.
  assert (∀ y, calm x y → completed_or_idle x.2 y.2) as Hidle by (intros y Hc; eapply idle_calm; [exact Hc|apply idle_refl]).
  apply (wp_calm_step sys_executable REPO root); [by apply calm_verify|apply keeps_verify| |].
  2:{ intros e y _ Hc. by apply Hidle. }
  intros _ y1 S1 C1. apply (wp_calm_step sys_executable REPO root); [by apply calm_wired|apply keeps_wired| |].
  2:{ intros e y _ Hc. apply Hidle. by etrans. }
  intros _ y2 S2 C2. apply wp_bind. assert (y2.1 = x.1) as Sx by congruence. assert (calm x y2) as C by by etrans.
  eapply wp_conseq; [apply check_interrupted_spec; by rewrite Sx| |].
  2:{ intros e y Hc. apply Hidle. by etrans. }
  intros _ y3 (S3 & C3 & Hm). assert (planned root (truthy (dgetd "smoke" (VBool false) x.1)) y3) as Hy3.
  { eapply (planned_calm sys_executable REPO root); [exact Hb|congruence|by etrans]. }
  assert (∀ z, ran sys_executable REPO root (truthy (dgetd "smoke" (VBool false) x.1))
    (plan (truthy (dgetd "smoke" (VBool false) x.1))) y3 z → marked root (w_os z.2) stage = true) as Hkeep.
  { intros z (ls & (_ & Hk & _) & _). by apply Hk. }
  eapply wp_conseq; [apply (worker_tail_spec sys_executable REPO root root_ok _ n [] _ y3 Hy3 eq_refl)| |].
  - intros p Hp. by apply elem_of_nil in Hp.
  - intros _ z (Hr & _). by apply Hkeep.
  - intros e z Hr. left. by apply Hkeep.
Qed.
Lemma worker_run_interrupted n x :
  dget "active_stage" x.1 = Some (VStr stage) →
  planned root (truthy (dgetd "smoke" (VBool false) x.1)) x →
  wp (worker_run sys_executable REPO root n) (λ _ y, marked root (w_os y.2) stage = true)
     (λ _ y, completed_or_idle x.2 y.2) x.
Proof.
  intros Hs Hb. unfold worker_run. apply wp_try.
  eapply wp_conseq; [by apply worker_body_interrupted|done|]. intros e y Hr.
  destruct (is_BaseException e); [|done]. unfold wp.
  pose proof (mild_failed sys_executable REPO root root_ok e y) as Hm.
  pose proof (worker_failed_raises root e y) as Hraise.
  destruct (worker_failed root e y) as [[a|e'] z]; [by destruct Hraise|]. by eapply idle_mild.
Qed.
End interrupted.

Section interrupted_worker.
Context {W : Type} `{OS W} (sys_executable REPO root : string) (root_ok : absolute root).
Context `{!CampaignDisk root W} (stage : string) (stage_ok : stage ∈ dkeys STAGES).

Abbreviation idle := (completed_or_idle sys_executable REPO root stage).
Lemma idle_calm_start (x0 : world W) w : calm_w sys_executable REPO root x0 w → idle x0 w.
Proof. intros Hc. eapply (idle_calm _ _ _ stage stage_ok); [exact Hc|apply idle_refl]. Qed.
Lemma idle_trans w0 w1 w2 : calm_w sys_executable REPO root w0 w1 → idle w1 w2 → idle w0 w2.
Proof.
  intros (_ & _ & _ & l1 & L1 & R1) [Hd|(l2 & L2 & R2)]; [by left|right]. exists (l1 ++ l2).
  unfold runs in *. split; [by rewrite L2, L1, app_assoc|by rewrite omap_app, R1, R2].
Qed.
(** A step that leaves the campaign calm, before the run proper. *)
Lemma wp_idle {T A B} (m : M (T * world W) A) (k : A → M (T * world W) B) Q (w0 : world W) (x : T * world W) :
  within (on_world (calm_w sys_executable REPO root)) m → calm_w sys_executable REPO root w0 x.2 →
  (∀ a (y : T * world W), calm_w sys_executable REPO root w0 y.2 → wp (k a) Q (λ _ u, idle w0 u.2) y) →
  wp (bind m k) Q (λ _ u, idle w0 u.2) x.
Proof.
  intros Hm H0 Hk. apply wp_bind. specialize (Hm x). unfold wp.
  destruct (m x) as [[a|e] y]; [apply Hk|apply idle_calm_start]; (etrans; [exact H0|exact Hm]).
Qed.
Lemma worker_interrupted {T} n (x : T * world W) state :
  json_at (w_os x.2) (state_path root) = Some (VDict state) → dget "active_stage" state = Some (VStr stage) →
  wp (worker sys_executable REPO root n) (λ _ u, marked root (w_os u.2) stage = true) (λ _ u, idle x.2 u.2) x.
Proof.
  intros Hj Hs. unfold wp at 1. rewrite worker_starts.
  match goal with |- match ?m x with _ => _ end => change (wp m
     (λ _ u, marked root (w_os u.2) stage = true) (λ _ u, idle x.2 u.2) x) end.
  assert (calm_w sys_executable REPO root x.2 x.2) as C0 by reflexivity.
  apply wp_idle; [by apply calm_worker_start|done|]. intros _ y1 C1.
  apply wp_bind. eapply wp_conseq; [apply (read_state_spec sys_executable REPO root)| |].
  2:{ intros e u Hu. apply idle_calm_start. etrans; [exact C1|exact Hu]. }
  intros v u2 [Hv C2]. assert (calm_w sys_executable REPO root x.2 u2.2) as C2' by (etrans; [exact C1|exact C2]).
  assert (v = VDict state) as ->.
  { destruct C1 as (_ & J1 & _). rewrite J1, Hj in Hv. by injection Hv. }
  apply wp_bind, wp_lift. destruct (item (VDict state) "repo") as [repo|]; [|by apply idle_calm_start].
  apply wp_bind. destruct (negb _); [by apply wp_throw, idle_calm_start|]. apply (wp_ret (A := unit)).
  apply wp_bind, wp_lift. cbn [as_dict]. apply wp_idle; [|done|].
  { apply calm_sys; [|by intros]. intros p Hp. simpl. apply bool_decide_false.
    assert (elsewhere_path root (root // "pipeline.lock")) as He by by apply elsewhere_1.
    by apply (elsewhere_apart root root_ok _ _ He Hp). }
  intros _ [s3 w3] C3. simpl in C3. apply wp_local.
  eapply wp_conseq; [apply (worker_run_interrupted sys_executable REPO root root_ok stage stage_ok n (state, w3)); [done|]| |].
  - assert (json_at (w_os w3) (state_path root) = Some (VDict state)) as J3
      by (rewrite <- Hj; apply C3).
    split; simpl; by rewrite ?J3.
  - by intros _ [s4 w4].
  - intros e [s4 w4] Hr. by eapply idle_trans.
Qed.
End interrupted_worker.

(** C8: An interrupted stage is not repeated and nothing is run after it.  When
    the worker starts from a [pipeline.json] whose [active_stage] is a stage,
    because the boot that ran it was interrupted, and the completion marker file
    of the stage does not exist at the end of the worker, then the worker raised,
    and it started no stage at all.  This holds whatever fails and whatever the
    commands do, as long as they keep the law of [CampaignDisk]: a command leaves
    pipeline.json as it is and removes no completion marker. *)
Theorem interrupted_stage_not_repeated {W} `{OS W} sys_executable REPO root `{!CampaignDisk root W} {T} n
    (x : T * world W) stage state :
  absolute root → stage ∈ dkeys STAGES →
  json_at (w_os x.2) (state_path root) = Some (VDict state) → dget "active_stage" state = Some (VStr stage) →
  marked root (w_os (worker sys_executable REPO root n x).2.2) stage = false →
  (∃ e, (worker sys_executable REPO root n x).1 = Raise e) ∧
  ∃ l, w_log (worker sys_executable REPO root n x).2.2 = w_log x.2 ++ l ∧ runs sys_executable REPO root l = [].
Proof.
  intros Hroot Hstage Hj Hs Hm.
  pose proof (worker_interrupted sys_executable REPO root Hroot stage Hstage n x state Hj Hs) as Hw.
  unfold wp in Hw. destruct (worker sys_executable REPO root n x) as [[a|e] y]; simpl in *.
  - congruence.
  - split; [by exists e|]. destruct Hw as [Hd|Hl]; [simpl in *; congruence|done].
Qed.

(** A machine that was interrupted in stage [e3]. *)
Definition demo_interrupted : world pi :=
  World (pi_write (state_path demo_root) (VDict (dset "active_stage" (VStr "e3") (demo_state true))) (pi_start true)) [].
Lemma interrupted_stage_not_repeated_witness :
  let r := demo_worker demo_interrupted in
  marked demo_root (w_os r.2.2) "e3" = false ∧
  ∃ l, w_log r.2.2 = l ∧ runs demo_python demo_repo demo_root l = [].
Proof.
  cbv zeta. assert (marked demo_root (w_os (demo_worker demo_interrupted).2.2) "e3" = false) as Hm
    by (vm_compute; reflexivity).
  split; [exact Hm|].
  refine (proj2 (interrupted_stage_not_repeated demo_python demo_repo demo_root 6 ((), demo_interrupted) "e3"
    (dset "active_stage" (VStr "e3") (demo_state true)) demo_absolute _ eq_refl eq_refl Hm)).
  apply (bool_decide_unpack _). reflexivity.
Defined.

(** ** A worker that fails *)

Section failed.
Context {W : Type} `{OS W} (root : string).
Implicit Types x y : pydict * world W.

(** A restoration that succeeds wrote every file of the snapshot of the boot
    configuration that it read, in order, and then flushed the disks. *)
Definition restored_from (w w' : world W) : Prop :=
  ∃ before o files l,
    handle (ReadJson (root // "system-before.json")) (w_os w) = (Ok before, o) ∧
    item before "boot_files" ≫= items_of = Ok files ∧
    w_log w' = w_log w ++ map (λ p, EWriteText p.1 (str_val p.2)) files ++ l ++ [ESync].
Lemma restore_files_spec files x :
  wp (for_each files restore_file)
     (λ _ y, w_log y.2 = w_log x.2 ++ map (λ p, EWriteText p.1 (str_val p.2)) files) (λ _ _, True) x.
Proof.
  revert x. induction files as [|[name v] files IH]; intros [s w].
  { apply wp_ret. by rewrite app_nil_r. }
  apply wp_bind. unfold restore_file. cbn [fst snd].
  destruct v as [| | | |text| |]; try by apply (wp_throw (A := unit)).
  apply wp_sys. intros [[]|e] o _; [|done]. eapply wp_conseq; [apply IH| |done].
  intros _ y ->. simpl. by rewrite <- app_assoc.
Qed.
Lemma restore_system_spec x :
  wp (restore_system root) (λ _ y, restored_from x.2 y.2) (λ _ _, True) x.
Proof.
  destruct x as [s w]. unfold restore_system, read. apply wp_bind, wp_sys.
  intros [before|e] o Ho; [|done]. apply wp_bind, wp_lift. destruct (_ ≫= items_of) as [files|] eqn:Hf; [|done].
  apply wp_bind. eapply wp_conseq; [apply restore_files_spec| |done]. intros _ [s1 w1] L1.
  apply wp_bind, wp_lift. destruct (item before "wifi_up") as [up|]; [|done].
  apply wp_grows; [|intros _ [s2 w2] (l & L2 & _)|done].
  { unfold call, check_call, run_checked. solve_within. }
  apply wp_sys. intros [[]|e] o2 _; [|done]. exists before, o, files, l. split_and!; [done|done|].
  simpl in *. by rewrite L2, L1, app_nil_r, <- !app_assoc.
Qed.

Lemma keeps_restore : keeps (restore_system (W := W) (S := pydict) root).
Proof. unfold restore_system, restore_file, read, call, check_call, run_checked. solve_keeps. Qed.
Lemma save_state_works x :
  (∀ w v, ∃ o1 o2, handle (WriteJson (state_path root +:+ ".tmp") v) w = (Ok (), o1) ∧
     handle (Rename (state_path root +:+ ".tmp") (state_path root)) o1 = (Ok (), o2)) →
  ∃ w, save_state root x = (Ok (), (x.1, w)) ∧ w_log w = w_log x.2 ++ saved_entries root x.1.
Proof.
  intros Hwrite. destruct x as [s w]. unfold save_state, save, bind, self, gets, sys. simpl.
  destruct (Hwrite (w_os w) (VDict s)) as (o & o' & Ho & Ho'). rewrite Ho. simpl. rewrite Ho'. eexists. split; [done|]. simpl. by rewrite <- app_assoc.
Qed.
Lemma disable_spec x :
  let command := ["systemctl"; "disable"; SERVICE] in
  ∃ r o result, call command None x = (r, (x.1, World o (w_log x.2 ++ [ERun command None result]))) ∧
    (result = Ok 0 → r = Ok ()).
Proof.
  destruct x as [s w]. unfold call, check_call, run_checked, bind, sys, ret. simpl.
  destruct (handle _ (w_os w)) as [[c|e] o].
  - case_bool_decide as Hc; eexists _, o, _; (split; [reflexivity|]); [done|]. intros [= Hz]. done.
  - eexists _, o, _. split; [reflexivity|done].
Qed.
End failed.

(** C6: A worker that fails records it and cleans up.  When the body of the
    worker raises, whatever it raises and wherever, and the clock and the
    replacement of [pipeline.json] work, then [pipeline.json] is replaced by a state
    that says [failed] with the message of the exception; the boot configuration
    is then restored, and when that succeeds every file of the snapshot was
    written back and the disks flushed; the service is disabled in any case; and
    the worker raises, the original exception when the cleanup succeeds. *)
Theorem failed_worker_cleans_up {W} `{OS W} sys_executable REPO root n (x y : pydict * world W) e :
  (∀ w, ∃ time o, handle UtcNow w = (Ok time, o)) →
  (∀ w v, ∃ o1 o2, handle (WriteJson (state_path root +:+ ".tmp") v) w = (Ok (), o1) ∧
     handle (Rename (state_path root +:+ ".tmp") (state_path root)) o1 = (Ok (), o2)) →
  worker_body sys_executable REPO root n x = (Raise e, y) → is_BaseException e = true →
  ∃ e' s w1 restored w2 o result,
    dget "status" s = Some (VStr "failed") ∧ dget "error" s = Some (VStr (exn_msg e)) ∧
    w_log w1 = w_log y.2 ++ saved_entries root s ∧
    restore_system root (s, w1) = (restored, (s, w2)) ∧
    (restored = Ok () → restored_from root w1 w2) ∧
    worker_run sys_executable REPO root n x =
      (Raise e', (s, World o (w_log w2 ++ [ERun ["systemctl"; "disable"; SERVICE] None result]))) ∧
    (restored = Ok () → result = Ok 0 → e' = e).
Proof.
  intros Htime Hwrite Hbody He. unfold worker_run, try_except. rewrite Hbody, He.
  destruct y as [s0 w0]. unfold worker_failed. destruct (Htime (w_os w0)) as (time & o0 & H0).
  unfold bind at 1. unfold sys at 1. rewrite H0. simpl note. rewrite app_nil_r.
  set (s := dset "failed_at" (VStr time) (dset "error" (VStr (exn_msg e)) (dset "status" (VStr "failed") s0))).
  destruct (save_state_works root (s, World o0 (w_log w0)) Hwrite) as (w1 & Hsave & L1).
  unfold bind at 1. unfold update, set_self, modify, dupdate. cbn [fst snd foldl]. fold s. unfold bind at 1.
  rewrite Hsave. unfold bind at 1, try_finally. cbn [fst].
  pose proof (keeps_restore root (s, w1)) as Hsame. pose proof (restore_system_spec root (s, w1)) as Hrestore.
  unfold wp in Hrestore. destruct (restore_system root (s, w1)) as [restored [s2 w2]] eqn:Hr.
  unfold same_self in Hsame. cbn in Hsame. subst s2.
  destruct (disable_spec (s, w2)) as (r & o & result & Hcall & Hok). cbv beta iota zeta.
  cbn [fst snd] in Hcall. rewrite Hcall.
  assert (dget "status" s = Some (VStr "failed") ∧ dget "error" s = Some (VStr (exn_msg e))) as [Hstatus Herror].
  { unfold s. split; by repeat (rewrite dget_dset || rewrite dget_dset_ne by done). }
  destruct r as [[]|e1].
  - destruct restored as [[]|e2]; eexists _, s, w1, _, w2, o, result; split_and!; try done.
  - eexists e1, s, w1, _, w2, o, result; split_and!; try done.
    + by intros ->.
    + intros _ Hz. by specialize (Hok Hz).
Qed.

(** The interrupted machine, with a boot file to restore. *)
Definition demo_failing : pydict * world pi :=
  (dset "active_stage" (VStr "e3") (demo_state true),
   World (pi_write (demo_root // "system-before.json")
     (VDict [("boot_files", VDict [("/boot/firmware/config.txt", VStr "kernel=a")]); ("wifi_up", VBool true)])
     (w_os demo_interrupted)) []).
Lemma failed_worker_cleans_up_witness :
  raised (worker_run demo_python demo_repo demo_root 6 demo_failing) = Some ValueError ∧
  ∃ s w1 w2,
    worker_run demo_python demo_repo demo_root 6 demo_failing = (w1, (s, w2)) ∧
    dget "status" s = Some (VStr "failed").
Proof.
  split; [vm_compute; reflexivity|].
  assert (∃ e y, worker_body demo_python demo_repo demo_root 6 demo_failing = (Raise e, y) ∧
                 is_BaseException e = true) as (e & y & Hbody & He).
  { destruct (worker_body demo_python demo_repo demo_root 6 demo_failing) as [[[]|e] y] eqn:Hb.
    - apply (f_equal raised) in Hb. vm_compute in Hb. discriminate Hb.
    - exists e, y. split; [reflexivity|]. apply (f_equal raised) in Hb. vm_compute in Hb.
      destruct e as [c m]. injection Hb as <-. reflexivity. }
  destruct (failed_worker_cleans_up demo_python demo_repo demo_root 6 demo_failing y e)
    as (e' & s & w1 & restored & w2 & o & result & Hstatus & _ & _ & _ & _ & Hrun & _); [| |exact Hbody|exact He|].
  - intros w. eexists _, _. reflexivity.
  - intros w v. eexists _, _. split; [reflexivity|].
    unfold handle, pi_os, pi_handle. rewrite pi_json_write, bool_decide_true by reflexivity. reflexivity.
  - eexists s, _, _. split; [exact Hrun|exact Hstatus].
Defined.
