(* ===== verification/StageRunSpec.v ===== *)
(** * Properties of the stages

    The preflight of a stage asks for the kernel that the worker boots for it;
    the marker that a run of a stage leaves is the one that the worker accepts;
    a validated configuration has the types and roles the adapters rely on; and
    an edited assignment has, for the shell, the value that was asked for. *)
From Stdlib Require Import Ascii ZArith Lia Floats.SpecFloat.
From S2P Require Import Prelude PyStr PyFloat PyVal PyJson Effects Machine Shell Kernel Reproduce.
From S2P Require Import Adapters StageRun Pipeline CampaignDisk CampaignDemo PipelineSpec.
From stdpp Require Import base gmap strings list.
Local Open Scope Z_scope.
Local Open Scope py_scope.
Local Open Scope M_scope.

(** ** The kernel of a stage *)

(** A phase of the plan and the tables of the stages agree on the kernel. *)
Definition stage_agrees (variant : string) (threaded : bool) (stage : string) : bool :=
  match get_variant variant, table stage STAGES with
  | Ok v, Ok (mode, _) =>
      match table mode KERNELS with
      | Ok (kernel, flag) =>
          bool_decide (v_release v = kernel) && eqb (py_startswith "rt-" variant) (py_startswith "rt-" mode)
          && (py_startswith "rt-" mode || eqb threaded flag)
          && negb (existsb (λ p, py_startswith p (mode +:+ ": ")) ["A"; "P"])
      | Raise _ => false
      end
  | _, _ => false
  end.
Lemma plan_agrees b variant threaded stages stage :
  (variant, threaded, stages) ∈ plan b → stage ∈ stages → stage_agrees variant threaded stage = true.
Proof.
  assert (forallb (λ p : phase, forallb (stage_agrees p.1.1 p.1.2) p.2) (plan b) = true) as Hall.
  { destruct b; vm_compute; done. }
  intros Hp Hs. rewrite forallb_forall in Hall. setoid_rewrite <- list_elem_of_In in Hall.
  specialize (Hall _ Hp). rewrite forallb_forall in Hall. setoid_rewrite <- list_elem_of_In in Hall. by apply Hall.
Qed.

(** The complaints that are not about the kernel. *)
Definition other_complaints : list string := [
  "Acquisition requires the AArch64 Raspberry Pi 5, not this host"; "Paper platform is Raspberry Pi 5";
  "Paper runs disable Wi-Fi; use wired/local access and disable it before acquisition"].

Section preflight.
Context {W : Type} `{OS W} (root : string) `{!CampaignDisk root W} {T : Type}.
Implicit Types x y : T * world W.

Definition same_boot : relation (T * world W) := λ x y, boot_at (root := root) (w_os y.2) = boot_at (w_os x.2).
#[export] Instance same_boot_preorder : PreOrder same_boot.
Proof. split; [done|]. intros x y z H1 H2. unfold same_boot in *. congruence. Qed.
Lemma same_boot_sys {A} (c : syscall A) : within same_boot (sys (S := T) c).
Proof.
  intros [s w]. unfold sys, same_boot. pose proof (boot_frame (root := root) c (w_os w)) as Hb.
  simpl. by destruct (handle c (w_os w)).
Qed.
#[local] Hint Resolve same_boot_sys : keeps.

Lemma wp_boot {A B} (m : M (T * world W) A) (k : A → M (T * world W) B) Q x0 x :
  within same_boot m → same_boot x0 x → (∀ a y, same_boot x0 y → wp (k a) Q (λ _ _, True) y) →
  wp (bind m k) Q (λ _ _, True) x.
Proof.
  intros Hm H0 Hk. apply wp_bind. eapply wp_within; [exact Hm| |done]. intros a y Hy. apply Hk. by etrans.
Qed.
(** What the check complains about, from the kernel of the machine. *)
Lemma check_platform_spec mode kernel threaded x :
  wp (check_platform mode kernel threaded)
     (λ errors _, ∃ others, (∀ e, e ∈ others → e ∈ other_complaints) ∧
        let boot := boot_at (root := root) (w_os x.2) in
        errors = others
          ++ complain (negb (bool_decide (boot.1 = kernel))) ("Boot kernel " +:+ kernel +:+ "; found " +:+ boot.1)
          ++ complain (negb (py_startswith "rt-" mode)
                       && negb (eqb (bool_decide ("threadirqs" ∈ py_words boot.2)) threaded))
               (mode +:+ ": threadirqs must be " +:+ repr_val (VBool threaded)))
     (λ _ _, True) x.
Proof.
  unfold check_platform, model_is_pi.
  apply (wp_boot _ _ _ x); [apply same_boot_sys|done|]. intros m y1 B1.
  apply (wp_boot _ _ _ x); [solve_within|done|]. intros pi y2 B2.
  apply (wp_boot _ _ _ x); [apply same_boot_sys|done|]. intros there y3 B3.
  apply (wp_boot _ _ _ x); [solve_within|done|]. intros up [s4 w4] B4.
  apply wp_bind, wp_sys. intros [release|e] o Hr; [|done].
  apply wp_bind, wp_sys. intros [cmdline|e] o' Hc; [|done]. apply wp_ret.
  assert (release = (boot_at (root := root) (w_os x.2)).1) as ->.
  { rewrite <- B4. symmetry. apply boot_release. exact (f_equal fst Hr). }
  assert (cmdline = (boot_at (root := root) (w_os x.2)).2) as ->.
  { rewrite <- B4. symmetry. replace (boot_at (root := root) (w_os (s4, w4).2)) with (boot_at (root := root) o).
    - apply boot_cmdline. exact (f_equal fst Hc).
    - simpl in *. pose proof (boot_frame (root := root) Release (w_os w4)) as Hb. by rewrite Hr in Hb. }
  eexists (complain _ _ ++ complain _ _ ++ complain _ _). split; [|by rewrite <- !app_assoc].
  intros e. unfold complain, other_complaints. repeat case_match; set_solver.
Qed.
End preflight.

Lemma complaints_iff b1 b2 (c1 : string) others c2 :
  (∀ e, e ∈ others → e ∈ other_complaints) → c1 ∉ other_complaints → c2 ∉ other_complaints →
  ((∀ e, e ∈ others ++ complain b1 c1 ++ complain b2 c2 → e ∈ other_complaints) ↔ b1 = false ∧ b2 = false).
Proof.
  intros Ho H1 H2. unfold complain. split.
  - intros Hall. destruct b1; [destruct H1; apply Hall; set_solver|].
    destruct b2; [destruct H2; apply Hall; set_solver|done].
  - intros [-> ->] e. rewrite app_nil_r. apply Ho.
Qed.
Lemma py_eq_bool (a b : bool) : py_eq (VBool a) (VBool b) = eqb a b.
Proof. by destruct a, b. Qed.

(** The worker's boot test and the preflight's kernel test are the same
    test.  For every stage of every phase of the plan, the check of the platform
    that [reproduce.py] runs with the kernel mode of the stage complains about
    the kernel or [threadirqs] exactly when [boot_matches] does not accept the
    running kernel for the phase. *)
Theorem preflight_agrees_with_boot {W} `{OS W} root `{!CampaignDisk root W} {T} b variant threaded stages stage
    (x : T * world W) :
  (variant, threaded, stages) ∈ plan b → stage ∈ stages →
  ∃ mode runs kernel flag, table stage STAGES = Ok (mode, runs) ∧ table mode KERNELS = Ok (kernel, flag) ∧
    ∀ errors, (check_platform mode kernel flag x).1 = Ok errors →
      ((∀ e, e ∈ errors → e ∈ other_complaints) ↔ matching root (w_os x.2) variant (VBool threaded) = Ok true).
Proof.
  intros Hp Hs. pose proof (plan_agrees b variant threaded stages stage Hp Hs) as Ha.
  unfold stage_agrees in Ha. unfold matching, matches.
  destruct (get_variant variant) as [v|]; [|done].
  destruct (table stage STAGES) as [[mode runs]|]; [|done].
  destruct (table mode KERNELS) as [[kernel flag]|] eqn:Hk; [|done].
  rewrite !andb_true_iff, bool_decide_eq_true, eqb_true_iff in Ha. destruct Ha as [[[Hv Hrt] Hf] Hm].
  exists mode, runs, kernel, flag. split_and!; [done|done|]. intros errors Herr.
  pose proof (check_platform_spec root mode kernel flag x) as Hw. unfold wp in Hw.
  destruct (check_platform mode kernel flag x) as [[errors'|] y]; [|done]. injection Herr as ->.
  destruct Hw as (others & Hothers & ->). cbv zeta. unfold mbind, outcome_bind. rewrite Hv, Hrt.
  set (a := bool_decide (_ = kernel)). set (t := bool_decide ("threadirqs" ∈ _)).
  rewrite (complaints_iff _ _ _ others _ Hothers).
  - rewrite py_eq_bool. destruct (py_startswith "rt-" mode); simpl in *.
    + destruct a; simpl; naive_solver.
    + apply eqb_prop in Hf as ->. destruct a, t, flag; simpl; naive_solver.
  - unfold other_complaints. rewrite !elem_of_cons, elem_of_nil. intros [Heq|[Heq|[Heq|[]]]]; discriminate Heq.
  - intros Hin. rewrite negb_true_iff in Hm.
    assert (existsb (λ p, py_startswith p (mode +:+ ": ")) ["A"; "P"] = true); [|congruence].
    unfold other_complaints in Hin. rewrite !elem_of_cons, elem_of_nil in Hin.
    destruct mode as [|c mode]; [by destruct Hin as [Heq|[Heq|[Heq|[]]]]|].
    destruct Hin as [Heq|[Heq|[Heq|[]]]]; injection Heq as -> _; vm_compute; done.
Qed.

(** A machine that has booted the kernel of the stage [e2-urb5]. *)
Definition demo_booted : world pi := World (pi_start true) [].
Lemma preflight_agrees_with_boot_witness :
  ("standard-urb5", false, ["e2-urb5"]) ∈ plan true ∧
  ∃ mode runs kernel flag, table "e2-urb5" STAGES = Ok (mode, runs) ∧ table mode KERNELS = Ok (kernel, flag) ∧
    ∀ errors, (check_platform mode kernel flag ((), demo_booted)).1 = Ok errors →
      ((∀ e, e ∈ errors → e ∈ other_complaints) ↔
       matching demo_root (w_os demo_booted) "standard-urb5" (VBool false) = Ok true).
Proof.
  assert (("standard-urb5", false, ["e2-urb5"]) ∈ plan true) as Hp
    by (apply (bool_decide_unpack _); vm_compute; reflexivity).
  split; [exact Hp|].
  apply (preflight_agrees_with_boot demo_root true "standard-urb5" false ["e2-urb5"] "e2-urb5" ((), demo_booted) Hp).
  apply (bool_decide_unpack _). reflexivity.
Defined.
Example preflight_of_the_booted_kernel :
  (check_platform "standard-hardirq5" "6.12.96-rpi5-standard-btf+" false ((), demo_booted)).1 = Ok [].
Proof. vm_compute. reflexivity. Qed.

(** ** The completion marker *)

(** What the worker's acceptance of a marker needs of files: a digest belongs
    to the contents, which change only when the file is written. *)
Class DigestDisk (W : Type) `{OS W} := {
  digest_at : W → string → option string;
  disk_digest p w s : (handle (FileDigest p) w).1 = Ok s → digest_at w p = Some s;
  digest_frame {A} (c : syscall A) w p : touches c p = false → digest_at (handle c w).2 p = digest_at w p;
}.

Section marker.
Context {W : Type} `{OS W} (repo root : string) (root_ok : absolute root).
Context `{!CampaignDisk root W} `{!DigestDisk W} {T : Type} (stage : string) (stage_ok : stage ∈ dkeys STAGES).
Implicit Types x y : T * world W.

(** The marker names the stage and the digest of its adapter. *)
Definition valid_marker (w : W) : Prop :=
  ∃ kernel sha, json_at (root := root) w (marker root stage) =
      Some (VDict [("stage", VStr stage); ("kernel", VStr kernel); ("adapter_sha256", VStr sha)]) ∧
    digest_at w (adapter root stage) = Some sha.
Lemma adapter_elsewhere : elsewhere_path root (adapter root stage).
Proof.
  assert (plain_name (stage +:+ ".sh") = true) as Hs.
  { assert (Forall (λ s, plain_name (s +:+ ".sh") = true) (dkeys STAGES)) as Hall
      by (apply (bool_decide_unpack _); vm_compute; done).
    rewrite Forall_forall in Hall. by apply Hall. }
  unfold adapter. apply elsewhere_below; [done| |done]. by apply elsewhere_1.
Qed.
Lemma adapter_not_marker : adapter root stage ≠ marker root stage.
Proof.
  intros Heq. destruct (elsewhere_apart root root_ok _ (marker root stage) adapter_elsewhere) as [Hne _];
    [right; by exists stage|done].
Qed.

(** The end of a run: digest and marker. *)
Lemma write_marker_valid kernel (x : T * world W) :
  wp (sha <- sys (FileDigest (adapter root stage)) ;;
      sys (WriteJson (marker root stage)
        (VDict [("stage", VStr stage); ("kernel", VStr kernel); ("adapter_sha256", VStr sha)])))
     (λ _ y, valid_marker (w_os y.2)) (λ _ _, True) x.
Proof.
  destruct x as [s w]. apply wp_bind, wp_sys. intros [sha|] o Ho; [|done].
  apply wp_sys. intros [[]|] o' Ho'; [|done]. cbn [w_os] in Ho'. exists kernel, sha. cbn [snd w_os]. split.
  - rewrite <- (f_equal snd Ho' : _ = o'). apply disk_write. exact (f_equal fst Ho').
  - rewrite <- (f_equal snd Ho' : _ = o').
    rewrite digest_frame by (apply bool_decide_false, adapter_not_marker).
    rewrite <- (f_equal snd Ho : _ = o). rewrite digest_frame by done. apply disk_digest. exact (f_equal fst Ho).
Qed.

(** The calls that read the marker. *)
Definition read_failure (e : exn) : Prop := ∃ w,
  (handle (PathExists (marker root stage)) w).1 = Raise e ∨ (handle (ReadJson (marker root stage)) w).1 = Raise e ∨
  (handle (FileDigest (adapter root stage)) w).1 = Raise e.
Lemma valid_marker_accepted x :
  valid_marker (w_os x.2) → wp (complete root stage) (λ r _, r = true) (λ e _, read_failure e) x.
Proof.
  intros (kernel & sha & Hj & Hd). destruct x as [s w]. unfold complete, read, digest.
  apply wp_bind, wp_sys. intros [there|e] o Ho; [|exists (w_os w); left; exact (f_equal fst Ho)].
  assert (there = true) as ->.
  { rewrite <- (disk_exists (root := root) (marker root stage) (w_os w) there) by exact (f_equal fst Ho).
    by eapply disk_json_exists. }
  apply wp_bind, wp_sys. cbn [w_os]. intros [record|e] o' Ho'; [|exists o; right; left; exact (f_equal fst Ho')].
  assert (record = VDict [("stage", VStr stage); ("kernel", VStr kernel); ("adapter_sha256", VStr sha)]) as ->.
  { assert (json_at (root := root) o (marker root stage) = Some record) as Hr
      by (apply disk_read; exact (f_equal fst Ho')).
    rewrite <- (f_equal snd Ho : _ = o), disk_frame in Hr by done. cbn [snd] in *. congruence. }
  apply wp_bind, wp_lift. cbn [as_dict]. apply wp_bind. cbn [dgetd dget].
  replace (py_eq (dgetd "stage" VNone _) (VStr stage)) with true
    by (symmetry; apply bool_decide_true; done).
  apply wp_bind, wp_sys. cbn [w_os]. intros [sha'|e] o2 Ho2; [|exists o'; right; right; exact (f_equal fst Ho2)].
  assert (sha' = sha) as ->.
  { assert (digest_at o' (adapter root stage) = Some sha') as Hr by (apply disk_digest; exact (f_equal fst Ho2)).
    rewrite <- (f_equal snd Ho' : _ = o'), digest_frame in Hr by done.
    rewrite <- (f_equal snd Ho : _ = o), digest_frame in Hr by done. cbn [snd] in *. congruence. }
  apply wp_ret. replace (py_eq _ (VStr sha)) with true by (symmetry; apply bool_decide_true; done).
  by apply wp_ret.
Qed.

(** The log and the markers of the checks before a run. *)
Definition quiet : relation (T * world W) := λ x y,
  w_log y.2 = w_log x.2 ∧
  (exists_at (root := root) (w_os x.2) (marker root stage) = true →
   exists_at (root := root) (w_os y.2) (marker root stage) = true).
#[export] Instance quiet_preorder : PreOrder quiet.
Proof.
  split; [done|]. intros x y z [L1 E1] [L2 E2]. split; [congruence|auto].
Qed.
Lemma quiet_sys {A} (c : syscall A) :
  (∀ r, note c r = []) → removes c (marker root stage) = false → within quiet (sys (S := T) c).
Proof.
  intros Hn Hr [s w]. unfold sys, quiet. pose proof (disk_stays (root := root) c (w_os w) _ Hr) as He.
  simpl. destruct (handle c (w_os w)) as [r o]. simpl in *. by rewrite Hn, app_nil_r.
Qed.
Lemma quiet_prepared cfg : within quiet (check_prepared repo root stage cfg).
Proof.
  unfold check_prepared, check_sources, digest. solve_within; by apply quiet_sys.
Qed.

Lemma run_stage_spec cfg x :
  wp (StageRun.run_stage repo root stage cfg)
     (λ _ y, quiet x y ∨
        exists_at (root := root) (w_os x.2) (marker root stage) = false ∧ valid_marker (w_os y.2)) (λ _ _, True) x.
Proof.
  unfold StageRun.run_stage. change (marker_path root stage) with (marker root stage).
  apply wp_bind. eapply wp_within; [apply quiet_prepared| |done]. intros _ [s w] Hq.
  apply wp_bind, wp_sys. intros [there|] o Ho; [|done].
  pose proof (disk_exists (root := root) (marker root stage) (w_os w) there (f_equal fst Ho)) as Hthere.
  destruct there.
  - apply wp_ret. left. etrans; [exact Hq|]. pose proof (quiet_sys (PathExists (marker root stage))) as Hs.
    specialize (Hs (λ _, eq_refl) eq_refl (s, w)). unfold sys in Hs. rewrite Ho in Hs. exact Hs.
  - do 8 (apply wp_skip; [intros|done]).
    eapply wp_conseq; [apply write_marker_valid| |done]. intros [] y Hy. right. split; [|exact Hy].
    apply not_true_is_false. intros He. apply (proj2 Hq) in He. simpl in *. congruence.
Qed.
End marker.

(** C10: A run of a stage leaves the marker that the worker accepts.  When the
    run of a stage returns, either it did nothing but read, which is the case
    when the marker was there already, or the worker's test of completion, asked
    in the world the run leaves, answers that the stage is complete: it fails
    only when the marker or the adapter cannot be read, never because the marker
    is invalid. *)
Theorem stage_run_is_accepted {W} `{OS W} repo root `{!CampaignDisk root W} `{!DigestDisk W} {T} stage cfg
    (x y : T * world W) :
  absolute root → stage ∈ dkeys STAGES → StageRun.run_stage repo root stage cfg x = (Ok (), y) →
  (exists_at (root := root) (w_os x.2) (marker root stage) = true → w_log y.2 = w_log x.2) ∧
  (w_log y.2 = w_log x.2 ∨
   match (complete root stage y).1 with Ok r => r = true | Raise e => read_failure root stage e end).
Proof.
  intros Hroot Hstage Hrun.
  destruct (wp_ok _ _ _ _ _ _ (run_stage_spec repo root Hroot stage Hstage cfg x) Hrun) as [[Hl _]|[Hno Hv]].
  - split; [done|by left].
  - split; [congruence|right].
    pose proof (valid_marker_accepted root stage y Hv) as Hw. unfold wp in Hw.
    by destruct (complete root stage y) as [[r|e] z].
Qed.

#[export] Program Instance pi_digests : DigestDisk pi := {| digest_at _ _ := Some "sha" |}.
Next Obligation. intros p w s. by intros [= <-]. Qed.
Next Obligation. done. Qed.

(** A prepared machine. *)
Definition demo_prepared : world pi :=
  World (pi_write (demo_root // "prepared.json")
    (VDict [("repo", VStr demo_repo); ("config", VDict []); ("adapter_sources", VDict []);
            ("entrypoints", VDict [("e3.sh", VStr "sha")])]) (pi_start true)) [].
Lemma stage_run_is_accepted_witness :
  let r := StageRun.run_stage demo_repo demo_root "e3" [] ((), demo_prepared) in
  returned r = true ∧ length (w_log r.2.2) = 12%nat ∧
  (exists_at (w_os demo_prepared) (marker demo_root "e3") = true → w_log r.2.2 = w_log demo_prepared).
Proof.
  assert (returned (StageRun.run_stage demo_repo demo_root "e3" [] ((), demo_prepared)) = true) as Hret
    by (vm_compute; reflexivity).
  cbv zeta. split; [exact Hret|]. split; [vm_compute; reflexivity|].
  refine (proj1 (stage_run_is_accepted demo_repo demo_root "e3" [] ((), demo_prepared)
    (StageRun.run_stage demo_repo demo_root "e3" [] ((), demo_prepared)).2 demo_absolute _ _)).
  - apply (bool_decide_unpack _). reflexivity.
  - destruct (StageRun.run_stage demo_repo demo_root "e3" [] ((), demo_prepared)) as [[[]|e] y];
      [reflexivity|discriminate Hret].
Defined.
