(* ===== verification/ConfigSpec.v ===== *)
(** * Properties of the configuration and the text edits

    A validated configuration has the types, the distinct serials and the roles
    the adapters rely on; an edited assignment changes one line, and the shell
    reads from it the value that was asked for. *)
From Stdlib Require Import Ascii ZArith Lia Floats.SpecFloat.
From S2P Require Import Prelude PyStr PyFloat PyVal PyJson Effects Machine Shell Kernel Reproduce.
From S2P Require Import Adapters Pipeline CampaignDisk CampaignDemo.
From stdpp Require Import base gmap strings list.
Local Open Scope Z_scope.
Local Open Scope py_scope.

(** ** A well-formed configuration *)

(** One camera: its serial is text of digits, its interrupt a positive number
    with the label of a USB host. *)
Definition camera_ok (camera : pyval) : Prop :=
  ∃ d serial irq n label, camera = VDict d ∧
    dget "serial" d = Some (VStr serial) ∧ py_isdigit serial = true ∧
    dget "xhci_irq" d = Some irq ∧ as_int irq = Some n ∧ 0 < n ∧
    dget "xhci_label" d = Some (VStr label) ∧ xhci_label label = true.
(** The camera [name] of one of the models. *)
Definition camera_is (cs : pydict) (models : list string) (name : string) (d : pydict) : Prop :=
  dget name cs = Some (VDict d) ∧ ∃ model, model ∈ models ∧ dget "model" d = Some (VStr model).
Definition has_serial (d : pydict) (serial : string) : Prop := dget "serial" d = Some (VStr serial).
Definition irq_entry (d : pydict) : option pyval :=
  number ← dget "xhci_irq" d; label ← dget "xhci_label" d;
  Some (VDict [("number", number); ("label", label)]).
(** The whole configuration. *)
Definition config_ok (cfg : pydict) : Prop :=
  ∃ cs na a sa nb b sb nx x sx ny y sy nz z sz ix iz,
    dget "cameras" cfg = Some (VDict cs) ∧
    (∀ name camera, dget name cs = Some camera → camera_ok camera) ∧
    camera_is cs ["D435"] na a ∧ has_serial a sa ∧ camera_is cs ["D435"] nb b ∧ has_serial b sb ∧
    camera_is cs ["D435"] nx x ∧ has_serial x sx ∧ camera_is cs ["D435"] ny y ∧ has_serial y sy ∧
    camera_is cs ["D455"; "D455F"] nz z ∧ has_serial z sz ∧
    sa ≠ sb ∧ irq_entry x = Some ix ∧ irq_entry z = Some iz ∧
    dget "d435_serials" cfg = Some (VList [VStr sa; VStr sb]) ∧
    dget "single_d435_serial" cfg = Some (VStr sx) ∧ dget "startup_serial" cfg = Some (VStr sy) ∧
    dget "d455_serial" cfg = Some (VStr sz) ∧
    dget "e3_irqs" cfg = Some (VDict [("d435", ix); ("d455", iz)]).

(** *** Distinct values *)

Ltac bind_ok H x Hx := apply outcome_bind_ok in H as (x & Hx & H).

Lemma distinct_step_length acc v acc' :
  distinct_step acc v = Ok acc' → (length acc <= length acc' <= S (length acc))%nat.
Proof.
  unfold distinct_step. destruct v; try done; intros [= <-]; destruct (existsb _ acc); rewrite ?length_app; simpl; lia.
Qed.
Lemma distinct_fold_length l acc acc' :
  fold_outcome distinct_step acc l = Ok acc' → (length acc' <= length acc + length l)%nat.
Proof.
  revert acc. induction l as [|v l IH]; intros acc; simpl; [intros [= <-]; lia|].
  destruct (distinct_step acc v) as [acc1|] eqn:Hs; [|done]. intros Hf%IH. apply distinct_step_length in Hs. lia.
Qed.
Lemma existsb_texts s l : existsb (py_eq (VStr s)) (map VStr l) = bool_decide (s ∈ l).
Proof.
  induction l as [|t l IH]; cbn [map existsb].
  { symmetry. apply bool_decide_false. set_solver. }
  change (py_eq (VStr s) (VStr t)) with (bool_decide (s = t)). rewrite IH. destruct (decide (s = t)) as [->|].
  - rewrite (bool_decide_true (t = t)) by done. symmetry. apply bool_decide_true. set_solver.
  - rewrite (bool_decide_false (s = t)) by done. apply bool_decide_ext. set_solver.
Qed.
(** As many distinct values as values: no repetition. *)
Lemma distinct_fold_NoDup l acc acc' :
  fold_outcome distinct_step (map VStr acc) (map VStr l) = Ok acc' →
  length acc' = (length acc + length l)%nat → NoDup acc → NoDup (acc ++ l).
Proof.
  revert acc. induction l as [|s l IH]; intros acc; [by rewrite app_nil_r|].
  cbn [map fold_outcome distinct_step]. rewrite existsb_texts.
  case_bool_decide as Hs; intros Hf Hlen Hnd.
  - apply distinct_fold_length in Hf. rewrite !length_map in Hf. simpl in Hlen. lia.
  - change (map VStr acc ++ [VStr s]) with (map VStr acc ++ map VStr [s]) in Hf.
    rewrite <- map_app in Hf. rewrite (app_assoc acc [s] l : acc ++ s :: l = _).
    apply IH; [done|rewrite length_app; simpl in *; lia|].
    apply NoDup_app. split_and!; [done|set_solver|apply NoDup_singleton].
Qed.
Lemma distinct_count_NoDup l : distinct_count (map VStr l) = Ok (length l) → NoDup l.
Proof.
  unfold distinct_count. intros (acc & Hf & Hlen)%outcome_fmap_ok.
  apply (distinct_fold_NoDup l [] acc); [done|done|constructor].
Qed.
Lemma all_match_texts p l : all_match p l = Ok true → ∃ ts, l = map VStr ts ∧ ∀ t, t ∈ ts → p t = true.
Proof.
  induction l as [|v l IH]; simpl; [intros _; exists []; set_solver|].
  intros H. bind_ok H b Hb. destruct b; [|done]. destruct (IH H) as (ts & -> & Hts).
  destruct v as [| | | |t| |]; try done. exists (t :: ts). injection Hb as Hb. set_solver.
Qed.

(** *** The cameras *)

Lemma item_ok v k x : item v k = Ok x → ∃ d, v = VDict d ∧ dget k d = Some x.
Proof.
  destruct v as [| | | | | |d]; try done. unfold item, subscript. intros H. exists d. split; [done|].
  by destruct (dget k d) as [?|]; [injection H as ->|].
Qed.
Lemma lookup_val_ok v key x : lookup_val v key = Ok x → ∃ d k, v = VDict d ∧ key = VStr k ∧ dget k d = Some x.
Proof.
  unfold lookup_val. destruct key as [| | | |k| |]; try done; try by destruct v.
  intros (d & -> & Hk)%item_ok. by exists d, k.
Qed.
Lemma as_text_eq v s : py_eq v (VStr s) = true → v = VStr s.
Proof. destruct v; try done. simpl. by intros ->%bool_decide_eq_true. Qed.

Lemma check_camera_irq_ok camera u :
  check_camera_irq camera = Ok u →
  ∃ d irq n label, camera = VDict d ∧ dget "xhci_irq" d = Some irq ∧ as_int irq = Some n ∧ 0 < n ∧
    dget "xhci_label" d = Some (VStr label) ∧ xhci_label label = true.
Proof.
  unfold check_camera_irq. intros H. bind_ok H irq Hirq. apply item_ok in Hirq as (d & -> & Hirq).
  destruct (as_int irq) as [n|] eqn:Hn; [|done]. case_bool_decide; [done|]. bind_ok H label Hl.
  apply item_ok in Hl as (? & [= <-] & Hl). bind_ok H m Hm. destruct label as [| | | |label| |]; try done.
  injection Hm as <-. destruct (xhci_label label) eqn:Hx; [|done]. exists d, irq, n, label. split_and!; done || lia.
Qed.
Lemma check_serials_ok cameras u :
  check_serials cameras = Ok u → ∃ cs ts, cameras = VDict cs ∧
    Forall2 (λ p t, ∃ d, p.2 = VDict d ∧ has_serial d t) cs ts ∧ NoDup ts ∧
    ∀ name camera, dget name cs = Some camera → camera_ok camera.
Proof.
  unfold check_serials. intros H. bind_ok H l Hl. destruct cameras as [| | | | | |cs]; try done.
  injection Hl as <-. bind_ok H serials Hs. bind_ok H n Hn. case_bool_decide; [|done]. simpl in H. subst n.
  bind_ok H b Hb. destruct b; [|done]. simpl in H. bind_ok H us Hus.
  apply all_match_texts in Hb as (ts & -> & Hdigits).
  rewrite length_map in Hn. apply distinct_count_NoDup in Hn. apply traverse_ok in Hs, Hus.
  exists cs, ts. split_and!; [done| |done|].
  - eapply Forall2_impl; [exact (proj1 (Forall2_fmap snd VStr _ cs ts) Hs)|].
    intros p t (d & Hd & Ht)%item_ok. by exists d.
  - intros name camera Hget. apply dget_elem in Hget. apply list_elem_of_lookup in Hget as [i Hi].
    assert (map snd cs !! i = Some camera) as Hi' by (rewrite list_lookup_fmap, Hi; done).
    destruct (Forall2_lookup_l _ _ _ _ _ Hs Hi') as (v & Hv & (d & -> & Hd)%item_ok).
    apply list_lookup_fmap_Some in Hv as (t & -> & Ht).
    destruct (Forall2_lookup_l _ _ _ _ _ Hus Hi') as (u' & _ & Hirq).
    apply check_camera_irq_ok in Hirq as (d' & irq & m & label & [= <-] & Hirq & Hm & Hpos & Hlabel & Hx).
    exists d, t, irq, m, label. split_and!; try done. apply Hdigits. by eapply list_elem_of_lookup_2.
Qed.

(** Cameras of different names have different serials. *)
Lemma serials_differ (cs : pydict) ts na nb a b s :
  Forall2 (λ p t, ∃ d, p.2 = VDict d ∧ has_serial d t) cs ts → NoDup ts → na ≠ nb →
  dget na cs = Some (VDict a) → dget nb cs = Some (VDict b) → has_serial a s → ¬ has_serial b s.
Proof.
  assert (∀ n d cs ts, Forall2 (λ p t, ∃ d, p.2 = VDict d ∧ has_serial d t) cs ts →
    dget n cs = Some (VDict d) → has_serial d s → s ∈ ts) as Hin.
  { intros n d cs' ts'. induction 1 as [|[k v] t cs' ts' (d' & Hv & Ht) _ IH]; simpl in *; [done|]. subst v.
    case_bool_decide; [|intros; right; auto]. intros [= ->] Hs. unfold has_serial in *. assert (t = s) as -> by congruence. left. }
  intros Hall. induction Hall as [|[k v] t cs ts (d & Hv & Ht) Hall IH]; simpl in *; [done|]. subst v.
  intros [Hnot Hnd]%NoDup_cons Hne. do 2 case_bool_decide; subst; try done; [intros [= ->]|intros ? [= ->]|by auto].
  - intros Hb Ha Hb'. apply Hnot. unfold has_serial in *. assert (t = s) as -> by congruence. by eapply (Hin nb).
  - intros Ha Hb'. apply Hnot. unfold has_serial in *. assert (t = s) as -> by congruence. by eapply (Hin na).
Qed.

(** *** The roles *)

Lemma check_pair_ok pair u :
  check_pair pair = Ok u → ∃ v w, as_list pair = Ok [v; w] ∧ distinct_count [v; w] = Ok 2%nat.
Proof.
  unfold check_pair. intros H. bind_ok H n Hn. case_bool_decide; [|done]. simpl in H. subst n.
  bind_ok H names Hl. bind_ok H d Hd. case_bool_decide; [|done]. subst d.
  assert (length names = 2%nat) as Hlen.
  { destruct pair as [| | | |s|l|d]; try done; simpl in *; injection Hn as Hn; injection Hl as <-;
      rewrite ?length_map; try done.
    clear -Hn. revert Hn. generalize 2%nat. induction s as [|c s IH]; intros n; simpl; [done|]. destruct n; [done|].
    intros [= Hn]. by rewrite (IH n). }
  destruct names as [|v [|w [|]]]; try done. by exists v, w.
Qed.
Lemma check_d435_ok cameras name u :
  check_d435 cameras name = Ok u →
  ∃ cs k d, cameras = VDict cs ∧ name = VStr k ∧ dget k cs = Some (VDict d) ∧ dget "model" d = Some (VStr "D435").
Proof.
  unfold check_d435. intros H. bind_ok H camera Hc. bind_ok H model Hm.
  apply lookup_val_ok in Hc as (cs & k & -> & -> & Hk). apply item_ok in Hm as (d & -> & Hm).
  destruct (py_eq model _) eqn:He; [|done]. apply as_text_eq in He as ->. by exists cs, k, d.
Qed.
Lemma serial_of_ok cs k s d :
  serial_of (VDict cs) (VStr k) = Ok s → dget k cs = Some (VDict d) → dget "serial" d = Some s.
Proof.
  unfold serial_of. intros H Hk. bind_ok H camera Hc. apply lookup_val_ok in Hc as (? & ? & [= <-] & [= <-] & Hk').
  apply item_ok in H as (d' & -> & Hs). congruence.
Qed.
Lemma e3_irq_ok cs selection role name k d v :
  item selection role = Ok name → name = VStr k → dget k cs = Some (VDict d) →
  e3_irq (VDict cs) selection role = Ok v → irq_entry d = Some v.
Proof.
  intros Hn -> Hk. unfold e3_irq. rewrite Hn. cbn [mbind outcome_bind]. intros H. bind_ok H camera Hc.
  apply lookup_val_ok in Hc as (? & ? & [= <-] & [= <-] & Hk'). rewrite Hk in Hk'. injection Hk' as <-.
  bind_ok H number Hnum. bind_ok H label Hl. injection H as <-.
  apply item_ok in Hnum as (? & [= <-] & Hnum). apply item_ok in Hl as (? & [= <-] & Hl).
  unfold irq_entry. by rewrite Hnum, Hl.
Qed.
Lemma camera_serial_text cs k d v :
  (∀ name camera, dget name cs = Some camera → camera_ok camera) →
  dget k cs = Some (VDict d) → dget "serial" d = Some v → ∃ s, v = VStr s ∧ has_serial d s.
Proof.
  intros Hall Hk Hv. destruct (Hall _ _ Hk) as (d' & s & ? & ? & ? & [= <-] & Hs & _).
  unfold has_serial. exists s. split; congruence.
Qed.

(** The two cameras of the pair, and the roles. *)
Lemma check_roles_ok cameras selection pair v w u :
  check_roles cameras selection pair = Ok u → as_list pair = Ok [v; w] →
  ∃ single startup d455 (cs : pydict) z nz,
    item selection "single_d435" = Ok single ∧ item selection "startup_d435" = Ok startup ∧
    item selection "single_d455" = Ok d455 ∧
    Forall (λ name, ∃ u, check_d435 cameras name = Ok u) [v; w; single; startup] ∧
    d455 = VStr nz ∧ cameras = VDict cs ∧ camera_is cs ["D455"; "D455F"] nz z.
Proof.
  unfold check_roles. intros H Hl. bind_ok H single Hs. bind_ok H startup Ht. bind_ok H names Hn.
  destruct pair as [| | | | |l|]; try done. injection Hl as ->. injection Hn as <-.
  bind_ok H us Hus. bind_ok H name Hname. bind_ok H d455 Hd. bind_ok H model Hm.
  apply lookup_val_ok in Hd as (cs & nz & -> & -> & Hz). apply item_ok in Hm as (z & -> & Hm).
  exists single, startup, (VStr nz), cs, z, nz. split_and!; try done.
  - apply traverse_ok in Hus. apply Forall_forall. intros n Hin. apply list_elem_of_lookup in Hin as [i Hi].
    destruct (Forall2_lookup_l _ _ _ _ _ Hus Hi) as (u' & _ & Hu'). by exists u'.
  - split; [done|]. destruct (py_eq model (VStr "D455")) eqn:E1.
    + exists "D455". apply as_text_eq in E1 as ->. split; [set_solver|done].
    + destruct (py_eq model (VStr "D455F")) eqn:E2; [|done]. exists "D455F". apply as_text_eq in E2 as ->.
      split; [set_solver|done].
Qed.

(** C19: A configuration that is accepted is well formed.  When [load_config]
    accepts a JSON value, every camera has a serial of digits, a positive
    interrupt number and a USB host label; the E4 pair are two different serials
    of D435 cameras, the single and the startup camera are D435 and the last one
    D455 or D455F; and the attributes that [load_config] adds are the serials and
    interrupts of these cameras. *)
Theorem checked_config_typed value cfg : checked_config value = Ok cfg → config_ok cfg.
Proof.
  unfold checked_config. intros H. bind_ok H cameras Hc. bind_ok H selection Hsel. bind_ok H u1 H1.
  bind_ok H selected Hp. bind_ok H u2 H2. bind_ok H u3 H3. bind_ok H d Hd.
  apply check_serials_ok in H1 as (cs & ts & -> & Hts & Hnd & Hall).
  apply check_pair_ok in H2 as (v & w & Hl & Hdistinct).
  destruct (check_roles_ok _ _ _ v w _ H3 Hl) as (single & startup & d455 & cs' & z & nz & Hx & Hy & Hz & Hd435 & -> & [= <-] & Hmz).
  assert (∀ name, (∃ u, check_d435 (VDict cs) name = Ok u) → ∃ k d, name = VStr k ∧ camera_is cs ["D435"] k d) as Hrole.
  { intros name (u & (? & k & e & [= <-] & -> & Hk & Hm)%check_d435_ok). exists k, e.
    split; [done|]. split; [exact Hk|]. exists "D435". split; [set_solver|exact Hm]. }
  rewrite !Forall_cons in Hd435. destruct Hd435 as (Ra & Rb & Rx & Ry & _).
  apply Hrole in Ra as (na & a & -> & Ca), Rb as (nb & b & -> & Cb), Rx as (nx & x & -> & Cx), Ry as (ny & y & -> & Cy).
  unfold derive_roles in H. rewrite Hl, Hx, Hy, Hz in H. cbn [mbind outcome_bind] in H.
  bind_ok H pair_serials Hps. bind_ok H sx Hsx. bind_ok H sy Hsy. bind_ok H sz Hsz. bind_ok H ix Hix. bind_ok H iz Hiz.
  injection H as <-. apply traverse_ok in Hps.
  inversion Hps as [|? va ? l1 Hva Hps1]; subst. inversion Hps1 as [|? vb ? l2 Hvb Hps2]; subst. inversion Hps2; subst.
  pose proof (λ k d v, camera_serial_text cs k d v Hall) as Htext.
  destruct (Htext na a va (proj1 Ca) (serial_of_ok _ _ _ _ Hva (proj1 Ca))) as (sa & -> & Sa).
  destruct (Htext nb b vb (proj1 Cb) (serial_of_ok _ _ _ _ Hvb (proj1 Cb))) as (sb & -> & Sb).
  destruct (Htext nx x sx (proj1 Cx) (serial_of_ok _ _ _ _ Hsx (proj1 Cx))) as (tx & -> & Sx).
  destruct (Htext ny y sy (proj1 Cy) (serial_of_ok _ _ _ _ Hsy (proj1 Cy))) as (ty & -> & Sy).
  destruct (Htext nz z sz (proj1 Hmz) (serial_of_ok _ _ _ _ Hsz (proj1 Hmz))) as (tz & -> & Sz).
  assert (na ≠ nb) as Hne.
  { pose proof (distinct_count_NoDup [na; nb] Hdistinct) as Hn. apply NoDup_cons in Hn as [Hn _]. set_solver. }
  assert (sa ≠ sb) as Hss.
  { intros ->. by apply (serials_differ cs ts na nb a b sb Hts Hnd Hne (proj1 Ca) (proj1 Cb)). }
  assert (dget "cameras" d = Some (VDict cs)) as Hcs by by apply item_ok in Hc as (? & -> & ?); injection Hd as <-.
  exists cs, na, a, sa, nb, b, sb, nx, x, tx, ny, y, ty, nz, z, tz, ix, iz.
  split_and!; try done; try by repeat (rewrite dget_dset_eq || rewrite dget_dset_ne by done).
  - exact (e3_irq_ok cs selection "single_d435" (VStr nx) nx x ix Hx eq_refl (proj1 Cx) Hix).
  - exact (e3_irq_ok cs selection "single_d455" (VStr nz) nz z iz Hz eq_refl (proj1 Hmz) Hiz).
Qed.

Lemma checked_config_typed_witness :
  ∃ cfg, checked_config demo_config = Ok cfg ∧ config_ok cfg.
Proof.
  destruct (checked_config demo_config) as [cfg|e] eqn:Hc.
  - exists cfg. split; [reflexivity|]. apply (checked_config_typed demo_config cfg Hc).
  - apply (f_equal is_ok) in Hc. vm_compute in Hc. discriminate Hc.
Defined.

(** ** Edited assignments *)

Lemma lstrip_split p s : ∃ i, s = i +:+ lstrip_by p s ∧ string_forall p i = true.
Proof.
  induction s as [|a s (i & Hs & Hi)]; [by exists ""|]. simpl. destruct (p a) eqn:Ha.
  - exists (String a i). rewrite string_app_cons, <- Hs. simpl. by rewrite Ha.
  - by exists "".
Qed.
Lemma lstrip_twice p s : lstrip_by p (lstrip_by p s) = lstrip_by p s.
Proof. induction s as [|a s IH]; [done|]. simpl. destruct (p a) eqn:Ha; [done|]. simpl. by rewrite Ha. Qed.
Lemma lstrip_app p i t : string_forall p i = true → lstrip_by p (i +:+ t) = lstrip_by p t.
Proof.
  induction i as [|a i IH]; [done|]. cbn [string_forall]. intros [Ha Hi]%andb_true_iff.
  rewrite string_app_cons. cbn [lstrip_by]. rewrite Ha. auto.
Qed.
(** A prefix that stays when more text follows it. *)
Lemma lstrip_fixed p s t u : lstrip_by p (s +:+ t) = s +:+ t → s ≠ "" → lstrip_by p (s +:+ u) = s +:+ u.
Proof.
  destruct s as [|a s]; [done|]. rewrite !string_app_cons. cbn [lstrip_by]. destruct (p a) eqn:Ha; [|done].
  intros Heq _. exfalso. assert (String.length (lstrip_by p (s +:+ t)) <= String.length (s +:+ t))%nat as Hle.
  { clear. generalize (s +:+ t). intros v. induction v as [|c v IH]; simpl; [lia|]. destruct (p c); simpl; lia. }
  apply (f_equal String.length) in Heq. simpl in Heq. lia.
Qed.
Lemma indentation_app i t :
  string_forall py_isspace i = true → lstrip_by py_isspace t = t → indentation (i +:+ t) = i.
Proof.
  intros Hi Ht. unfold indentation. rewrite lstrip_app, Ht, string_app_length, Nat.add_sub by done.
  apply substring_app.
Qed.

Section assignments.
Context (name value : string).
Implicit Types (line text : string) (lines : list string).

(** The line after the edit, as an assignment. *)
Lemma is_assignment_split line :
  is_assignment name line = true →
  ∃ rest, line = indentation line +:+ name +:+ "=" +:+ rest ∧ ∀ v,
    is_assignment name (indentation line +:+ name +:+ "=" +:+ v) = true ∧
    indentation (indentation line +:+ name +:+ "=" +:+ v) = indentation line.
Proof.
  unfold is_assignment. intros Hs. apply py_startswith_inv in Hs.
  destruct (lstrip_split py_isspace line) as (i & Hline & Hi).
  set (rest := py_drop _ _) in Hs. assert (indentation line = i) as ->.
  { rewrite Hline. apply indentation_app; [done|apply lstrip_twice]. }
  exists rest. rewrite !string_app_assoc in Hs.
  split; [by rewrite Hs in Hline|]. intros v.
  assert (lstrip_by py_isspace (name +:+ "=" +:+ v) = name +:+ "=" +:+ v) as Hv.
  { rewrite <- !(string_app_assoc name "="). apply (lstrip_fixed _ _ rest).
    - rewrite string_app_assoc. rewrite <- Hs. apply lstrip_twice.
    - by destruct name. }
  split.
  - rewrite lstrip_app, Hv by done. rewrite <- (string_app_assoc name "="). apply py_startswith_app.
  - by apply indentation_app.
Qed.
Lemma quote_body_newline s : in_string newline (quote_body s) = in_string newline s.
Proof.
  induction s as [|a s IH]; [done|]. cbn [quote_body]. case_bool_decide as Ha.
  - subst a. cbn [in_string]. rewrite IH. vm_compute bool_decide. done.
  - cbn [in_string]. by rewrite IH.
Qed.
Lemma quote_newline : in_string newline (q value) = in_string newline value.
Proof.
  unfold q, shlex_quote. case_bool_decide as Hv; [by rewrite Hv|]. destruct (string_forall sh_safe value); [done|].
  change (String squote (quote_body value +:+ String squote "")) with (String squote "" +:+ (quote_body value +:+ String squote "")).
  rewrite !in_string_app, quote_body_newline. by destruct (in_string newline value).
Qed.
Lemma assign_line_newline line :
  in_string newline name = false → in_string newline value = false → in_string newline line = false →
  in_string newline (assign_line name value line) = false.
Proof.
  intros Hn Hv Hl. unfold assign_line. destruct (is_assignment name line) eqn:Ha; [|done].
  destruct (is_assignment_split line Ha) as (rest & Hline & _).
  rewrite !in_string_app, quote_newline, Hn, Hv. rewrite Hline, in_string_app in Hl.
  apply orb_false_iff in Hl as [-> _]. done.
Qed.
Lemma assign_other lines : Forall (λ l, is_assignment name l = false) lines → map (assign_line name value) lines = lines.
Proof.
  induction 1 as [|l lines Hl _ IH]; [done|]. cbn [map]. rewrite IH. unfold assign_line. by rewrite Hl.
Qed.
(** One line satisfies the predicate: where it is. *)
Lemma filter_one {A} (p : A → bool) l :
  length (filter (λ x, p x = true) l) = 1%nat →
  ∃ pre x post, l = pre ++ x :: post ∧ p x = true ∧ Forall (λ y, p y = false) (pre ++ post).
Proof.
  induction l as [|x l IH]; [done|]. rewrite filter_cons. destruct (decide (p x = true)) as [Hx|Hx].
  - intros [= Hl]. exists [], x, l. split_and!; [done|done|]. apply Forall_forall. intros y Hy.
    apply not_true_is_false. intros Hpy. apply nil_length_inv in Hl.
    assert (y ∈ filter (λ x, p x = true) l) as Hin by by apply list_elem_of_filter. rewrite Hl in Hin. set_solver.
  - intros (pre & y & post & -> & Hy & Hf)%IH. exists (x :: pre), y, post. split_and!; [done|done|].
    simpl. constructor; [by apply not_true_is_false|done].
Qed.
End assignments.

(** The edit on the lines. *)
Lemma assignment_lines text name value text' :
  assignment text name value = Ok text' → in_string newline name = false → in_string newline value = false →
  ∃ pre line post, py_split newline text = pre ++ line :: post ∧ is_assignment name line = true ∧
    Forall (λ l, is_assignment name l = false) (pre ++ post) ∧
    py_split newline text' = pre ++ assign_line name value line :: post.
Proof.
  unfold assignment, assignments. case_bool_decide as Hone; [|done]. cbn [negb]. intros [= <-] Hn Hv.
  apply filter_one in Hone as (pre & line & post & Hlines & Hline & Hothers).
  exists pre, line, post. split_and!; [done|done|done|]. change nl with (String newline "").
  rewrite py_split_join.
  - rewrite Hlines, map_app. apply Forall_app in Hothers as [Hpre Hpost]. cbn [map]. by rewrite !assign_other.
  - intros Hnil%map_eq_nil. by apply py_split_nonempty in Hnil.
  - apply Forall_map. eapply Forall_impl; [apply py_split_no_sep|]. intros l. by apply assign_line_newline.
Qed.
Lemma assignment_one text name value pre line post :
  py_split newline text = pre ++ line :: post → is_assignment name line = true →
  Forall (λ l, is_assignment name l = false) (pre ++ post) →
  assignment text name value = Ok (py_join nl (pre ++ assign_line name value line :: post)).
Proof.
  intros Hlines Hline Hothers. unfold assignment, assignments. rewrite Hlines, filter_app, filter_cons_True by done.
  assert (∀ l, Forall (λ l, is_assignment name l = false) l → filter (λ l, is_assignment name l = true) l = []) as Hnone.
  { induction 1 as [|l ls Hl _ IH]; [done|]. rewrite filter_cons_False; [done|congruence]. }
  apply Forall_app in Hothers as [Hpre Hpost]. rewrite !Hnone by done. cbn [app length].
  rewrite bool_decide_true by done. cbn [negb]. rewrite map_app. cbn [map]. by rewrite !assign_other.
Qed.

(** An assignment edit changes one line, and the shell reads the value.
    When an edit of the assignment of a variable succeeds, exactly one line of
    the script assigned the variable; the edited script has the same lines but
    for that one, which keeps its indentation and assigns the quoted value, a
    word that a POSIX shell reads as the value itself, whatever characters it
    has; and editing once more has the effect of the last edit alone. *)
Theorem assignment_sets_one_line text name value text' :
  assignment text name value = Ok text' → in_string newline name = false → in_string newline value = false →
  (∃ pre line post, py_split newline text = pre ++ line :: post ∧ is_assignment name line = true ∧
     Forall (λ l, is_assignment name l = false) (pre ++ post) ∧
     py_split newline text' = pre ++ (indentation line +:+ name +:+ "=" +:+ q value) :: post) ∧
  sh_word Unquoted (q value) = Some value ∧
  ∀ value', assignment text' name value' = assignment text name value'.
Proof.
  intros Ha Hn Hv. destruct (assignment_lines _ _ _ _ Ha Hn Hv) as (pre & line & post & Hlines & Hline & Hothers & Hedit).
  unfold assign_line in Hedit. rewrite Hline in Hedit.
  destruct (is_assignment_split name line Hline) as (rest & _ & Hnew). destruct (Hnew (q value)) as [Hnew1 Hnew2].
  split_and!; [by exists pre, line, post|apply sh_word_quote|]. intros value'.
  rewrite (assignment_one text name value' pre line post) by done.
  rewrite (assignment_one text' name value' pre _ post Hedit Hnew1) by done.
  unfold assign_line. by rewrite Hnew1, Hnew2, Hline.
Qed.

Definition demo_script : string := "#!/bin/sh" +:+ nl +:+ "  serial=102" +:+ nl +:+ "exit 0" +:+ nl.
Lemma assignment_sets_one_line_witness :
  assignment demo_script "serial" "it's 7" = Ok ("#!/bin/sh" +:+ nl +:+ "  serial=" +:+ q "it's 7" +:+ nl +:+ "exit 0" +:+ nl) ∧
  ∀ value', assignment ("#!/bin/sh" +:+ nl +:+ "  serial=" +:+ q "it's 7" +:+ nl +:+ "exit 0" +:+ nl) "serial" value'
    = assignment demo_script "serial" value'.
Proof.
  assert (assignment demo_script "serial" "it's 7" =
    Ok ("#!/bin/sh" +:+ nl +:+ "  serial=" +:+ q "it's 7" +:+ nl +:+ "exit 0" +:+ nl)) as Ha by (vm_compute; reflexivity).
  split; [exact Ha|].
  exact (proj2 (proj2 (assignment_sets_one_line _ _ _ _ Ha eq_refl eq_refl))).
Defined.
