(* ===== verification/Noise.v ===== *)
(** * Interference workloads ([noise_workloads.py])

    A noise workload owns one subprocess: it is started, has to report that it
    is ready, is stopped, and leaves artifacts.  The base class
    [ManagedNoiseProcess] is the record of the operations the four workloads
    define; [NoiseSuite] starts and stops all of them together.  The waiting loop
    takes fuel.  What a process prints goes to its files; [print()] is left out,
    but not the exceptions of the formatting. *)
From Stdlib Require Import Ascii ZArith Lia Floats.SpecFloat.
From S2P Require Import Prelude PyStr PyFloat PyVal PyJson Effects Machine.
From stdpp Require Import base gmap strings list.
Local Open Scope Z_scope.
Local Open Scope py_scope.
Local Open Scope M_scope.

(** ** Data *)

Record CpuNoiseConfig := {
  cpu_executable : string; cpu_modes : list string; cpu_workers : Z; cpu_warmup_seconds : f64;
  cpu_ready_timeout_seconds : f64; cpu_affinity : option string }.
Record MemoryNoiseConfig := {
  mem_executable : string; mem_modes : list string; mem_workers : Z; mem_buffer_size_mib : Z;
  mem_copy_chunk_kib : Z; mem_target_mib_per_second : f64; mem_warmup_seconds : f64;
  mem_ready_timeout_seconds : f64; mem_affinity : option string }.
Record UsbStorageNoiseConfig := {
  usb_executable : string; usb_modes : list string; usb_device : option string; usb_warmup_seconds : f64;
  usb_block_size_kib : Z; usb_ready_timeout_seconds : f64; usb_use_sudo : bool }.
Record GpuNoiseConfig := {
  gpu_executable : string; gpu_modes : list string; gpu_model_param : string; gpu_device : Z;
  gpu_warmup_iterations : Z; gpu_ready_timeout_seconds : f64; gpu_affinity : option string;
  gpu_vulkan_icd : option string }.

Record NoiseArtifacts := {
  na_prefix : string; na_mode : string; na_ready : pyval; na_summary : pyval; na_process : pyval;
  na_valid : bool; na_error : string; na_extra : pydict }.

(** The attributes of a workload that change: [_process], its process id, and
    [identity], which only the USB workload uses. *)
Record noise := Noise { np_process : option Z; np_identity : pydict }.
Definition idle : noise := Noise None [].
Definition set_process (p : option Z) (s : noise) : noise := Noise p (np_identity s).
Definition set_identity (d : pydict) (s : noise) : noise := Noise (np_process s) d.

(** A text that is there and not empty. *)
Definition given (o : option string) : option string :=
  match o with Some s => if bool_decide (s = "") then None else Some s | None => None end.
Definition text_or_none (o : option string) : pyval := match o with Some s => VStr s | None => VNone end.
Definition ok_or_text (o : option string) : pyval := VStr (default "" (given o)).

(** [f"{v:.1f}"]: what it raises. *)
Definition check_format (v : pyval) : outcome unit :=
  match v with
  | VBool _ | VInt _ | VFloat _ => Ok ()
  | VStr _ => raise ValueError "Unknown format code 'f' for object of type 'str'"
  | _ => raise TypeError ("unsupported format string passed to " +:+ type_name v +:+ ".__format__")
  end.
(** [f"{x:.nf}"] of a float, rounded half to even. *)
Definition format_fixed (n : nat) (x : f64) : string :=
  match x with
  | S754_finite s m e =>
      let '(a, b) := f_abs_num_den m e in
      let unit := 10 ^ Z.of_nat n in
      let k := round_div (a * unit) b in
      (if s then "-" else "") +:+ str_Z (k / unit) +:+ "." +:+ pad_Z n (k mod unit)
  | S754_zero s => (if s then "-" else "") +:+ "0." +:+ pad_Z n 0
  | S754_infinity s => if s then "-inf" else "inf"
  | S754_nan => "nan"
  end.
Example format_examples :
  map (format_fixed 1) [f_of_Z 5; f_dec 525 (-2); f_dec 535 (-2); f_dec (-25) (-2); f_zero] =
    ["5.0"; "5.2"; "5.3"; "-0.2"; "0.0"].
Proof. vm_compute. reflexivity. Qed.
(** [math.isclose(a, b, rel_tol=..., abs_tol=...)]. *)
Definition is_finite (x : f64) : bool := match x with S754_finite _ _ _ | S754_zero _ => true | _ => false end.
Definition is_infinite (x : f64) : bool := match x with S754_infinity _ => true | _ => false end.
Definition f_isclose (a b rel_tol abs_tol : f64) : bool :=
  if f_eq a b then true
  else if is_infinite a || is_infinite b then false
  else let diff := SFabs (f_sub b a) in
       f_le diff (SFabs (f_mul rel_tol b)) || f_le diff (SFabs (f_mul rel_tol a)) || f_le diff abs_tol.

(** ** The base class *)

Section managed.
Context {W : Type} `{OS W}.
Abbreviation IO := (M (noise * world W)).

(** What the subclasses define. *)
Record ManagedNoiseProcess := {
  prefix : string; label : string; supported_mode : string; build_target : string;
  modes : list string; ready_timeout_seconds : f64;
  validate_environment : IO unit;
  manifest : string → IO pydict;
  _command : string → string → IO (list string);
  _environment : list (string * string);
  _before_start : IO unit;
  _decorate_ready : pydict → list string → IO pydict;
  _ready_message : pydict → outcome unit;
  _summary_valid : pydict → outcome bool;
  _extra_result_fields : string → IO pydict }.

Definition _read_json (path : string) : IO pyval :=
  file <- sys (IsFile path) ;;
  if negb file then ret (VDict []) else sys (ReadJson path).
Definition is_JSONDecodeError : exn → bool := is_class JSONDecodeError.
(** [_decorate_ready] of the base class. *)
Definition decorate (ready : pydict) (command : list string) : pydict :=
  dset "command" (VList (map VStr command)) (dset "enabled" (VBool true) ready).

Section process.
Context (w : ManagedNoiseProcess) (fuel : nat).

Definition enabled : bool := existsb (λ m, negb (bool_decide (m = "none"))) (modes w).
Definition _path (record_dir suffix : string) : string := record_dir // (prefix w +:+ "_" +:+ suffix).
Definition _write_process (record_dir : string) (status : Z) (forced_kill : bool) : IO unit :=
  sys (WriteJson (_path record_dir "process.json")
    (VDict [("returncode", VInt status); ("forced_kill", VBool forced_kill)])).

(** The end of [process.wait] after [terminate] or, in time, [kill]. *)
Definition end_process (pid : Z) : IO (Z * bool) :=
  sys (Terminate pid) ;;
  try_except (is_class TimeoutExpired)
    (status <- sys (Wait pid (f_of_Z 10)) ;; ret (status, false))
    (λ _, sys (Kill pid) ;; status <- sys (Wait pid (f_of_Z 5)) ;; ret (status, true)).
Definition stop (record_dir : option string) : IO unit :=
  process <- self np_process ;;
  match process with
  | None => ret ()
  | Some pid =>
      set_self (set_process None) ;;
      status <- sys (Poll pid) ;;
      ended <- (match status with
                | Some status => ret (status, false)
                | None => end_process pid
                end) ;;
      match record_dir with
      | Some dir => _write_process dir ended.1 ended.2
      | None => ret ()
      end
  end.

(** The process ended before it was ready. *)
Definition exited_early (record_dir : string) (status : Z) : IO pydict :=
  set_self (set_process None) ;;
  _write_process record_dir status false ;;
  detail <- sys (ReadText (_path record_dir "stderr.txt")) ;;
  throw RuntimeError (label w +:+ " exited before ready with code " +:+ str_Z status +:+ ": " +:+ py_strip detail).
(** One look at the ready file: the decorated value when the process is ready,
    [None] when it is not, and the seconds to sleep. *)
Definition look_ready (record_dir : string) (command : list string) : IO (option pydict * f64) :=
  let path := _path record_dir "ready.json" in
  file <- sys (IsFile path) ;;
  if negb file then ret (None, f_dec 5 (-2)) else
  value <- try_except is_JSONDecodeError (v <- _read_json path ;; ret (Some v)) (λ _, ret None) ;;
  match value with
  | None => ret (None, f_dec 1 (-2))
  | Some v =>
      ready <- lift (as_dict v) ;;
      if negb (truthy (dgetd "ready" VNone ready)) then ret (None, f_dec 5 (-2)) else
      ready <- _decorate_ready w ready command ;;
      lift (_ready_message w ready) ;;
      ret (Some ready, f_zero)
  end.
(** The [while] loop. *)
Fixpoint await_ready (fuel : nat) (pid : Z) (record_dir : string) (command : list string) (deadline : f64) :
    IO pydict :=
  match fuel with
  | O => throw OutOfFuel ""
  | S fuel =>
      now <- sys Monotonic ;;
      if negb (f_lt now deadline) then
        stop (Some record_dir) ;;
        throw RuntimeError (label w +:+ " did not become ready within "
          +:+ format_fixed 1 (ready_timeout_seconds w) +:+ " seconds")
      else
      status <- sys (Poll pid) ;;
      match status with
      | Some status => exited_early record_dir status
      | None =>
          look <- look_ready record_dir command ;;
          match look.1 with
          | Some ready => ret ready
          | None => sys (Sleep look.2) ;; await_ready fuel pid record_dir command deadline
          end
      end
  end.
Definition start (mode record_dir : string) : IO pydict :=
  if bool_decide (mode = "none") then ret [("mode", VStr "none"); ("enabled", VBool false)] else
  when (negb (bool_decide (mode = supported_mode w)))
    (throw ValueError ("Unsupported " +:+ label w +:+ " mode: " +:+ mode)) ;;
  process <- self np_process ;;
  when (bool_decide (is_Some process))
    (throw RuntimeError ("A " +:+ label w +:+ " process is already running")) ;;
  _before_start w ;;
  command <- _command w (_path record_dir "ready.json") (_path record_dir "summary.json") ;;
  started <- sys Monotonic ;;
  sys (WriteText (_path record_dir "stdout.txt") "") ;;
  sys (WriteText (_path record_dir "stderr.txt") "") ;;
  pid <- sys (Spawn command (_environment w)) ;;
  set_self (set_process (Some pid)) ;;
  await_ready fuel pid record_dir command (f_add started (ready_timeout_seconds w)).

(** The verdict on the artifacts of a run. *)
Definition artifacts_valid (mode : string) (ready summary process : pyval) : outcome bool :=
  if bool_decide (mode = "none") then Ok true else
  r ← as_dict ready;
  if negb (truthy (dgetd "ready" VNone r)) then Ok false else
  s ← as_dict summary;
  v ← _summary_valid w s;
  if negb v then Ok false else
  p ← as_dict process;
  Ok (py_eq (dgetd "returncode" VNone p) (VInt 0) && negb (truthy (dgetd "forced_kill" (VBool false) p))).
Definition artifacts (mode record_dir : string) : IO NoiseArtifacts :=
  ready <- _read_json (_path record_dir "ready.json") ;;
  summary <- _read_json (_path record_dir "summary.json") ;;
  process <- _read_json (_path record_dir "process.json") ;;
  valid <- lift (artifacts_valid mode ready summary process) ;;
  extra <- _extra_result_fields w mode ;;
  ret {| na_prefix := prefix w; na_mode := mode; na_ready := ready; na_summary := summary;
         na_process := process; na_valid := valid; na_error := "invalid " +:+ label w +:+ " process";
         na_extra := extra |}.
End process.
End managed.

(** ** The workloads *)

Section workloads.
Context {W : Type} `{OS W}.
Abbreviation IO := (M (noise * world W)).

Definition pin (affinity : option string) : list string :=
  match given affinity with Some cpus => ["taskset"; "--cpu-list"; cpus] | None => [] end.
Definition check_taskset (enabled : bool) (affinity : option string) (what : string) : IO unit :=
  if enabled && bool_decide (is_Some (given affinity)) then
    found <- sys (Which "taskset") ;;
    when (negb found) (throw RuntimeError ("taskset is required for --" +:+ what +:+ "-noise-cpu-affinity"))
  else ret ().
Definition any_mode (modes : list string) : bool := existsb (λ m, negb (bool_decide (m = "none"))) modes.
Definition summary_float (k : string) (default : pyval) (s : pydict) : outcome f64 := py_float (dgetd k default s).
Definition is_text (k text : string) (s : pydict) : bool := py_eq (dgetd k VNone s) (VStr text).
Definition is_number (k : string) (z : Z) (s : pydict) : bool := py_eq (dgetd k VNone s) (VInt z).
Definition positive_float (v : outcome f64) : outcome bool := x ← v; Ok (f_lt f_zero x).

Section cpu.
Context (c : CpuNoiseConfig).
Definition cpu_command (ready_path summary_path : string) : list string :=
  ["chrt"; "--other"; "0"] ++ pin (cpu_affinity c)
  ++ [cpu_executable c; "--ready-file"; ready_path; "--summary-output"; summary_path;
      "--workers"; str_Z (cpu_workers c); "--warmup-seconds"; repr_float (cpu_warmup_seconds c)].
Definition CpuBusyLoopNoise : ManagedNoiseProcess := {|
  prefix := "cpu_noise"; label := "CPU-NOISE"; supported_mode := "busy_loop";
  build_target := "realsense_cpu_noise"; modes := cpu_modes c;
  ready_timeout_seconds := cpu_ready_timeout_seconds c;
  validate_environment := check_taskset (any_mode (cpu_modes c)) (cpu_affinity c) "cpu";
  manifest := λ mode, ret [("mode", VStr mode); ("workers", VInt (cpu_workers c));
    ("warmup_seconds", VFloat (cpu_warmup_seconds c)); ("cpu_affinity", text_or_none (cpu_affinity c));
    ("working_set", VStr "register_only"); ("process_policy", VStr "SCHED_OTHER")];
  _command := λ ready summary, ret (cpu_command ready summary);
  _environment := []; _before_start := ret ();
  _decorate_ready := λ ready command,
    ret (dset "cpu_affinity" (ok_or_text (cpu_affinity c)) (decorate ready command));
  _ready_message := λ ready, check_format (dgetd "warmup_cpu_equivalents" (VInt 0) ready);
  _summary_valid := λ s,
    if negb (truthy (dgetd "success" VNone s) && is_text "working_set" "register_only" s
             && is_number "workers" (cpu_workers c) s) then Ok false
    else positive_float (summary_float "measurement_cpu_equivalents" (VInt 0) s);
  _extra_result_fields := λ _, ret [] |}.
End cpu.

Section memory.
Context (c : MemoryNoiseConfig).
Definition memory_command (ready_path summary_path : string) : list string :=
  ["chrt"; "--other"; "0"] ++ pin (mem_affinity c)
  ++ [mem_executable c; "--ready-file"; ready_path; "--summary-output"; summary_path;
      "--workers"; str_Z (mem_workers c); "--buffer-size-mib"; str_Z (mem_buffer_size_mib c);
      "--copy-chunk-kib"; str_Z (mem_copy_chunk_kib c); "--warmup-seconds"; repr_float (mem_warmup_seconds c);
      "--target-memory-mib-per-second"; repr_float (mem_target_mib_per_second c)].
Definition memory_summary_valid (s : pydict) : outcome bool :=
  if negb (truthy (dgetd "success" VNone s) && is_text "memory_access" "thread_private_memcpy_read_write" s
           && is_number "workers" (mem_workers c) s && is_number "buffer_size_mib" (mem_buffer_size_mib c) s
           && is_number "copy_chunk_kib" (mem_copy_chunk_kib c) s) then Ok false else
  target ← summary_float "target_memory_mib_per_second" (VFloat (f_of_Z (-1))) s;
  if negb (f_isclose target (mem_target_mib_per_second c) (f_dec 1 (-9)) (f_dec 1 (-6))) then Ok false else
  bytes ← py_int (dgetd "payload_bytes_copied" (VInt 0) s);
  if bool_decide (bytes <= 0) then Ok false
  else positive_float (summary_float "estimated_memory_mib_per_second" (VInt 0) s).
Definition FixedCopyMemoryNoise : ManagedNoiseProcess := {|
  prefix := "memory_noise"; label := "MEMORY-NOISE"; supported_mode := "fixed_copy";
  build_target := "realsense_memory_noise"; modes := mem_modes c;
  ready_timeout_seconds := mem_ready_timeout_seconds c;
  validate_environment := check_taskset (any_mode (mem_modes c)) (mem_affinity c) "memory";
  manifest := λ mode, ret [("mode", VStr mode); ("workers", VInt (mem_workers c));
    ("buffer_size_mib", VInt (mem_buffer_size_mib c)); ("copy_chunk_kib", VInt (mem_copy_chunk_kib c));
    ("target_memory_mib_per_second", VFloat (mem_target_mib_per_second c)); ("buffers_per_worker", VInt 2);
    ("warmup_seconds", VFloat (mem_warmup_seconds c)); ("cpu_affinity", text_or_none (mem_affinity c));
    ("memory_access", VStr "thread_private_memcpy_read_write"); ("process_policy", VStr "SCHED_OTHER")];
  _command := λ ready summary, ret (memory_command ready summary);
  _environment := []; _before_start := ret ();
  _decorate_ready := λ ready command,
    ret (dset "cpu_affinity" (ok_or_text (mem_affinity c)) (decorate ready command));
  _ready_message := λ ready, check_format (dgetd "warmup_estimated_memory_mib_per_second" (VInt 0) ready);
  _summary_valid := memory_summary_valid;
  _extra_result_fields := λ _, ret [] |}.
End memory.

Section gpu.
Context (c : GpuNoiseConfig).
Definition gpu_command (ready_path summary_path : string) : list string :=
  ["chrt"; "--other"; "0"] ++ pin (gpu_affinity c)
  ++ [gpu_executable c; "--model-param"; gpu_model_param c; "--ready-file"; ready_path;
      "--summary-output"; summary_path; "--gpu-device"; str_Z (gpu_device c);
      "--warmup-iterations"; str_Z (gpu_warmup_iterations c); "--num-threads"; "1"].
Definition gpu_validate_environment : IO unit :=
  if negb (any_mode (gpu_modes c)) then ret () else
  model <- sys (IsFile (gpu_model_param c)) ;;
  when (negb model)
    (throw RuntimeError "The pinned ncnn MobileNetV2 graph is missing; initialize deps/ncnn recursively") ;;
  match gpu_vulkan_icd c with
  | Some icd => file <- sys (IsFile icd) ;;
      when (negb file) (throw RuntimeError ("Vulkan ICD file does not exist: " +:+ icd))
  | None => ret ()
  end ;;
  check_taskset true (gpu_affinity c) "gpu".
Definition model_digest (mode : string) (none : pyval) : IO pyval :=
  if bool_decide (mode = "none") then ret none
  else sha <- sys (FileDigest (gpu_model_param c)) ;; ret (VStr sha).
Definition GpuVulkanNoise : ManagedNoiseProcess := {|
  prefix := "gpu_noise"; label := "GPU-NOISE"; supported_mode := "mobilenet_v2_vulkan";
  build_target := "realsense_gpu_noise"; modes := gpu_modes c;
  ready_timeout_seconds := gpu_ready_timeout_seconds c;
  validate_environment := gpu_validate_environment;
  manifest := λ mode, sha <- model_digest mode VNone ;;
    ret [("mode", VStr mode); ("gpu_device", VInt (gpu_device c));
      ("warmup_iterations", VInt (gpu_warmup_iterations c)); ("cpu_affinity", text_or_none (gpu_affinity c));
      ("vulkan_icd", text_or_none (gpu_vulkan_icd c)); ("model_param", VStr (gpu_model_param c));
      ("model_param_sha256", sha)];
  _command := λ ready summary, ret (gpu_command ready summary);
  _environment := match gpu_vulkan_icd c with Some icd => [("VK_DRIVER_FILES", icd)] | None => [] end;
  _before_start := ret ();
  _decorate_ready := λ ready command,
    sha <- sys (FileDigest (gpu_model_param c)) ;;
    ret (dset "cpu_affinity" (ok_or_text (gpu_affinity c))
        (dset "vulkan_icd" (VStr (default "" (gpu_vulkan_icd c)))
        (dset "model_param_sha256" (VStr sha) (decorate ready command))));
  _ready_message := λ ready, check_format (dgetd "startup_ms" (VInt 0) ready);
  _summary_valid := λ s, Ok (truthy (dgetd "success" VNone s));
  _extra_result_fields := λ mode, sha <- model_digest mode (VStr "") ;;
    ret [("gpu_noise_model_param_sha256", sha)] |}.
End gpu.

Section usb.
Context (c : UsbStorageNoiseConfig).

(** The block devices of [lsblk]: a node, then its children, last one first. *)
Definition no_get {A} (t : string) : outcome A :=
  raise AttributeError ("'" +:+ t +:+ "' object has no attribute 'get'").
Definition not_iterable {A} (v : pyval) : outcome A :=
  raise TypeError ("'" +:+ type_name v +:+ "' object is not iterable").
Fixpoint all_nodes (v : pyval) : outcome (list pydict) :=
  match v with
  | VDict d =>
      children ← (fix find (e : pydict) : outcome (list pydict) :=
        match e with
        | [] => Ok []
        | (k, children) :: e =>
            if bool_decide (k = "children") then
              match children with
              | VList l => (fix go l := match l with
                                        | [] => Ok []
                                        | x :: l => later ← go l; mine ← all_nodes x; Ok (later ++ mine)
                                        end) l
              | VStr s => if bool_decide (s = "") then Ok [] else no_get "str"
              | VDict d => match d with [] => Ok [] | _ => no_get "str" end
              | v => not_iterable v
              end
            else find e
        end) d;
      Ok (d :: children)
  | v => no_get (type_name v)
  end.
Definition mounted_at (node : pydict) : outcome (list string) :=
  let mountpoints := val_or (dgetd "mountpoints" VNone node) (VList []) in
  points ← (match mountpoints with VStr s => Ok [VStr s] | v => as_list v end);
  Ok (map (λ p, str_val (dgetd "name" VNone node) +:+ ":" +:+ str_val p) (filter (λ p, truthy p = true) points)).
(** The whole disk among the block devices. *)
Definition whole_disk (v : pyval) : outcome pydict :=
  report ← as_dict v;
  let devices := dgetd "blockdevices" (VList []) report in
  n ← py_len devices;
  let refuse := raise RuntimeError "USB storage noise requires a whole disk, preferably /dev/disk/by-id/..." in
  if negb (bool_decide (n = 1%nat)) then refuse else
  first ← (match devices with
           | VList (x :: _) => Ok x
           | VDict _ => raise KeyError "0"
           | _ => Ok devices
           end);
  root ← as_dict first;
  if py_eq (dgetd "type" VNone root) (VStr "disk") then Ok root else refuse.
Definition udev_properties (text : string) : list (string * string) :=
  foldl (λ d line, if py_contains "=" line then let '(k, _, v) := py_partition "="%char line in dset k v d else d)
    [] (py_splitlines text).

Definition failure_text (r : completed) : string :=
  if bool_decide (py_strip (stderr r) = "") then py_strip (stdout r) else py_strip (stderr r).
Definition lsblk_command (resolved : string) : list string :=
  ["lsblk"; "--json"; "--bytes"; "--paths"; "--output";
   "NAME,TYPE,TRAN,SIZE,RO,RM,MOUNTPOINTS,MODEL,SERIAL,VENDOR"; resolved].
Definition require_utilities : IO unit :=
  for_each ["lsblk"; "udevadm"] (λ utility,
    found <- sys (Which utility) ;;
    when (negb found) (throw RuntimeError (utility +:+ " is required for USB storage safety checks"))).
(** The device file: its path and numbers. *)
Definition resolve_device (requested : string) : IO (string * (Z * Z)) :=
  resolved <- try_except (is_class FileNotFoundError) (sys (ResolveStrict requested))
    (λ _, throw RuntimeError ("USB storage device does not exist: " +:+ requested)) ;;
  numbers <- sys (BlockNumbers resolved) ;;
  match numbers with
  | None => throw RuntimeError ("USB storage noise requires a block device: " +:+ resolved)
  | Some n => ret (resolved, n)
  end.
Definition inspect_disk (resolved : string) : IO pydict :=
  listed <- sys (RunCommand (lsblk_command resolved) None None) ;;
  when (negb (bool_decide (returncode listed = 0)))
    (throw RuntimeError ("lsblk failed for USB storage device: " +:+ failure_text listed)) ;;
  root <- lift (json_loads (stdout listed) ≫= whole_disk) ;;
  nodes <- lift (all_nodes (VDict root)) ;;
  mounted <- lift (traverse mounted_at nodes) ;;
  when (negb (bool_decide (concat mounted = [])))
    (throw RuntimeError ("refusing mounted USB storage device: " +:+ py_join ", " (concat mounted))) ;;
  ret root.
Definition usb_properties (resolved : string) (root : pydict) : IO (list (string * string)) :=
  udev <- sys (RunCommand ["udevadm"; "info"; "--query=property"; "--name=" +:+ resolved] None None) ;;
  when (negb (bool_decide (returncode udev = 0)))
    (throw RuntimeError ("udevadm failed for USB storage device: " +:+ failure_text udev)) ;;
  let properties := udev_properties (stdout udev) in
  when (negb (py_eq (dgetd "tran" VNone root) (VStr "usb")) && negb (bool_decide (dget "ID_BUS" properties = Some "usb")))
    (throw RuntimeError ("refusing non-USB block device: " +:+ resolved)) ;;
  ret properties.
Definition _validate_device : IO pydict :=
  match usb_device c with
  | None => throw RuntimeError "--usb-storage-device is required when sequential-read noise is enabled"
  | Some requested =>
      require_utilities ;;
      device <- resolve_device requested ;;
      let '(resolved, (major, minor)) := device in
      root <- inspect_disk resolved ;;
      properties <- usb_properties resolved root ;;
      sysfs_path <- sys (Resolve ("/sys/dev/block" // (str_Z major +:+ ":" +:+ str_Z minor))) ;;
      let property k := VStr (default "" (dget k properties)) in
      ret [("requested_device", VStr requested); ("resolved_device", VStr resolved); ("major", VInt major);
        ("minor", VInt minor); ("size_bytes", dgetd "size" (VInt 0) root); ("transport", dgetd "tran" (VStr "") root);
        ("model", dgetd "model" (VStr "") root); ("serial", dgetd "serial" (VStr "") root);
        ("vendor", dgetd "vendor" (VStr "") root); ("removable", dgetd "rm" (VBool false) root);
        ("read_only_device", dgetd "ro" (VBool false) root); ("id_bus", property "ID_BUS");
        ("id_path", property "ID_PATH"); ("id_serial", property "ID_SERIAL"); ("sysfs_path", VStr sysfs_path)]
  end.
(** [self.identity = self._validate_device()]. *)
Definition identify : IO unit := identity <- _validate_device ;; set_self (set_identity identity).

Definition usb_command (ready_path summary_path : string) : IO (list string) :=
  match usb_device c with
  | None => throw AssertionError ""
  | Some device =>
      let command := ["chrt"; "--other"; "0"; usb_executable c; "--device"; device; "--ready-file"; ready_path;
        "--summary-output"; summary_path; "--block-size-kib"; str_Z (usb_block_size_kib c);
        "--warmup-seconds"; repr_float (usb_warmup_seconds c)] in
      if usb_use_sudo c then
        uid <- sys GetUid ;; gid <- sys GetGid ;;
        ret (["sudo"; "--non-interactive"] ++ command ++ ["--drop-uid"; str_Z uid; "--drop-gid"; str_Z gid])
      else ret command
  end.
Definition UsbStorageReadNoise : ManagedNoiseProcess := {|
  prefix := "usb_storage_noise"; label := "USB-STORAGE-NOISE"; supported_mode := "sequential_read";
  build_target := "realsense_usb_storage_noise"; modes := usb_modes c;
  ready_timeout_seconds := usb_ready_timeout_seconds c;
  validate_environment := when (any_mode (usb_modes c)) identify;
  manifest := λ mode, identity <- self np_identity ;;
    ret [("mode", VStr mode); ("device", text_or_none (usb_device c)); ("warmup_seconds", VFloat (usb_warmup_seconds c));
      ("block_size_kib", VInt (usb_block_size_kib c)); ("identity", VDict identity);
      ("access", VStr "read_only"); ("direct_io", VBool true)];
  _command := usb_command; _environment := []; _before_start := identify;
  _decorate_ready := λ ready command,
    identity <- self np_identity ;; ret (dset "identity" (VDict identity) (decorate ready command));
  _ready_message := λ ready, check_format (dgetd "warmup_mib_per_second" (VInt 0) ready);
  _summary_valid := λ s, Ok (truthy (dgetd "success" VNone s) && is_text "access" "read_only" s
                             && truthy (dgetd "direct_io" VNone s));
  _extra_result_fields := λ _, ret [] |}.
End usb.
End workloads.

(** ** The suite *)

Inductive member := Cpu | Memory | UsbStorage | Gpu.
#[export] Instance member_eq_dec : EqDecision member.
Proof. solve_decision. Defined.
(** [_by_key.items()], and the key of a member. *)
Definition members : list member := [Cpu; Memory; UsbStorage; Gpu].
Definition mode_key (m : member) : string :=
  match m with
  | Cpu => "cpu_noise" | Memory => "memory_noise" | UsbStorage => "usb_storage_noise" | Gpu => "gpu_noise"
  end.
(** The attributes of the four workloads. *)
Definition suite : Type := member → noise.
Definition set_member (m : member) (s : noise) (all : suite) : suite := λ k, if decide (k = m) then s else all k.

Section suite.
Context {W : Type} `{OS W} (workload : member → ManagedNoiseProcess (W := W)) (fuel : nat).
Abbreviation IO := (M (suite * world W)).

(** A method of one of the workloads. *)
Definition on_member {A} (m : member) (c : M (noise * world W) A) : IO A := zoom (λ all, all m) (set_member m) c.
Definition mode_of (modes : list (string * string)) (m : member) : outcome string :=
  match dget (mode_key m) modes with Some mode => Ok mode | None => key_error (mode_key m) end.

Definition suite_validate_environment : IO unit :=
  for_each members (λ m, on_member m (validate_environment (workload m))).
Definition gpu_enabled : bool := enabled (workload Gpu).
Fixpoint any_enabled_of (modes : list (string * string)) (ms : list member) : outcome bool :=
  match ms with
  | [] => Ok false
  | m :: ms => mode ← mode_of modes m; if bool_decide (mode = "none") then any_enabled_of modes ms else Ok true
  end.
Definition any_enabled (modes : list (string * string)) : outcome bool := any_enabled_of modes members.
Definition timeout_of (modes : list (string * string)) (m : member) : outcome (option f64) :=
  mode ← mode_of modes m;
  Ok (if bool_decide (mode = "none") then None else Some (ready_timeout_seconds (workload m))).
Definition startup_timeout_seconds (modes : list (string * string)) : outcome f64 :=
  timeouts ← traverse (timeout_of modes) members; Ok (f_sum (omap id timeouts)).
Definition build_targets : list string :=
  map (λ m, build_target (workload m)) (filter (λ m, enabled (workload m) = true) members).
Definition suite_manifest (modes : list (string * string)) : IO (list (string * pydict)) :=
  map_each members (λ m,
    mode <- lift (mode_of modes m) ;; d <- on_member m (manifest (workload m) mode) ;; ret (mode_key m, d)).

Definition stop_all (record_dir : option string) : IO unit :=
  for_each (rev members) (λ m, on_member m (stop (workload m) record_dir)).
Definition start_member (modes : list (string * string)) (record_dir : string)
    (ready_values : list (string * pydict)) (m : member) : IO (list (string * pydict)) :=
  mode <- lift (mode_of modes m) ;;
  ready <- on_member m (start (workload m) fuel mode record_dir) ;;
  sys (WriteJson (record_dir // (prefix (workload m) +:+ "_configuration.json")) (VDict ready)) ;;
  ret (dset (mode_key m) ready ready_values).
Definition start_all (modes : list (string * string)) (record_dir : string) : IO (list (string * pydict)) :=
  try_except is_Exception (fold_each members [] (start_member modes record_dir))
    (λ e, stop_all (Some record_dir) ;; rethrow e).
Definition suite_artifacts (modes : list (string * string)) (record_dir : string) : IO (list NoiseArtifacts) :=
  map_each members (λ m,
    mode <- lift (mode_of modes m) ;; on_member m (artifacts (workload m) mode record_dir)).
End suite.

(** The suite of the campaign. *)
Definition NoiseSuite {W} `{OS W} (cpu : CpuNoiseConfig) (memory : MemoryNoiseConfig) (usb : UsbStorageNoiseConfig)
    (gpu : GpuNoiseConfig) (m : member) : ManagedNoiseProcess :=
  match m with
  | Cpu => CpuBusyLoopNoise cpu | Memory => FixedCopyMemoryNoise memory
  | UsbStorage => UsbStorageReadNoise usb | Gpu => GpuVulkanNoise gpu
  end.

(** ** The transition to the measurement ([noise_transition.py]) *)

(** [_thread] is started or not, [_state] is the dictionary that is written.
    [_probe_done] is an event that the thread of the campaign sets. *)
Record transition := Transition { nt_started : bool; nt_state : pydict; nt_suite : suite }.
Definition set_started (t : transition) : transition := Transition true (nt_state t) (nt_suite t).
Definition set_state (f : pydict → pydict) (t : transition) : transition :=
  Transition (nt_started t) (f (nt_state t)) (nt_suite t).
Definition set_suite (s : suite) (t : transition) : transition := Transition (nt_started t) (nt_state t) s.

Section transition.
Context {W : Type} `{OS W} (workload : member → ManagedNoiseProcess (W := W)) (fuel : nat).
Context (modes : list (string * string)) (record_dir : string).
Abbreviation IO := (M (transition * world W)).

Definition warmup_ready_path : string := record_dir // "camera_warmup_ready".
Definition measurement_gate_path : string := record_dir // "measurement_start_gate".
Definition error_path : string := measurement_gate_path +:+ ".error".
Definition initial_state (enabled : bool) : pydict := [
  ("enabled", VBool enabled); ("camera_warmup_ready_boottime_ns", VInt 0); ("noise_start_boottime_ns", VInt 0);
  ("noise_ready_boottime_ns", VInt 0); ("error", VStr "")].
(** [NoiseTransition(...)]. *)
Definition new_transition (s : suite) : outcome transition :=
  b ← any_enabled modes; Ok (Transition false (initial_state b) s).

Definition transition_enabled : IO bool :=
  state <- self nt_state ;; ret (truthy (dgetd "enabled" VNone state)).
Definition gate_timeout_ms : outcome Z :=
  timeout ← startup_timeout_seconds workload modes;
  ms ← f_trunc (f_add (f_mul (f_add timeout (f_of_Z 5)) (f_of_Z 1000)) (f_dec 5 (-1)));
  Ok (Z.max 5000 ms).
Definition probe_arguments : IO (list string) :=
  enabled <- transition_enabled ;;
  if negb enabled then ret [] else
  timeout <- lift gate_timeout_ms ;;
  ret ["--warmup-ready-file"; warmup_ready_path; "--measurement-start-gate"; measurement_gate_path;
       "--measurement-gate-timeout-ms"; str_Z timeout].

Definition _atomic_write (path value : string) : IO unit :=
  sys (WriteText (path +:+ ".tmp") value) ;; sys (Rename (path +:+ ".tmp") path).
Definition _write_state : IO unit :=
  state <- self nt_state ;; sys (WriteJson (record_dir // "noise_transition.json") (VDict state)).
Definition note_state (k : string) (v : pyval) : IO unit := set_self (set_state (dset k v)).
Definition _publish_error (error : exn) : IO unit :=
  let detail := exn_name (exn_type error) +:+ ": " +:+ exn_msg error in
  note_state "error" (VStr detail) ;;
  _atomic_write error_path (detail +:+ nl) ;;
  _write_state.

Definition probe_done : IO bool := sys (IsSet "probe_done").
(** The time stamp of the warm-up file, [None] while it cannot be read. *)
Definition warmup_timestamp : IO (option Z) :=
  try_except (λ e, is_OSError e || is_ValueError e)
    (text <- sys (ReadText warmup_ready_path) ;; z <- lift (py_int (VStr (py_strip text))) ;; ret (Some z))
    (λ _, ret None).
Fixpoint _wait_for_camera_warmup (fuel : nat) : IO bool :=
  match fuel with
  | O => throw OutOfFuel ""
  | S fuel =>
      done <- probe_done ;;
      if (done : bool) then ret false else
      file <- sys (IsFile warmup_ready_path) ;;
      timestamp <- (if (file : bool) then warmup_timestamp else ret None) ;;
      match timestamp with
      | Some t => if bool_decide (0 < t) then note_state "camera_warmup_ready_boottime_ns" (VInt t) ;; ret true
                  else sys (Sleep (f_dec 1 (-2))) ;; _wait_for_camera_warmup fuel
      | None => sys (Sleep (f_dec 1 (-2))) ;; _wait_for_camera_warmup fuel
      end
  end.
Definition run_transition : IO unit :=
  warm <- _wait_for_camera_warmup fuel ;;
  if negb warm then ret () else
  now <- sys BoottimeNs ;;
  note_state "noise_start_boottime_ns" (VInt now) ;;
  zoom nt_suite set_suite (start_all workload fuel modes record_dir) ;;
  done <- probe_done ;;
  if (done : bool) then ret () else
  ready_ns <- sys BoottimeNs ;;
  note_state "noise_ready_boottime_ns" (VInt ready_ns) ;;
  _atomic_write measurement_gate_path (str_Z ready_ns +:+ nl) ;;
  _write_state.
(** The body of the thread. *)
Definition _run : IO unit := try_except (λ e, negb (is_class OutOfFuel e)) run_transition _publish_error.

(** [start] and [finish].  The thread's body is run where it is joined: between
    the two nothing but the thread uses the workloads and the dictionary, and
    the operating system's answers to its calls may be those of the time before.
    An exception ends the thread alone. *)
Definition start_transition : IO unit :=
  enabled <- transition_enabled ;;
  if negb enabled then ret () else
  started <- self nt_started ;;
  if (started : bool) then throw RuntimeError "Noise transition coordinator was already started"
  else set_self set_started.
Definition finish : IO unit :=
  started <- self nt_started ;;
  when started (try_except (λ e, negb (is_class OutOfFuel e)) _run (λ _, ret ())) ;;
  _write_state.
End transition.
