(* ===== verification/NoiseSpec.v ===== *)
(** * Properties of the interference workloads

    On a machine where killing a process ends it, no noise process outlives the
    object that owns it: whatever goes wrong while the suite starts or stops, a
    process that was started and has not ended is still held by its workload. *)
From Stdlib Require Import Ascii ZArith Lia Floats.SpecFloat.
From S2P Require Import Prelude PyStr PyFloat PyVal PyJson Effects Machine Noise.
From stdpp Require Import base gmap strings list.
Local Open Scope Z_scope.
Local Open Scope py_scope.
Local Open Scope M_scope.

(** ** Processes that have not ended *)

(** The processes a log started and did not see end. *)
Definition alive_step (l : list Z) (e : entry) : list Z :=
  match e with
  | ESpawn pid _ => pid :: l
  | EExit pid _ => filter (λ p, p ≠ pid) l
  | _ => l
  end.
Definition alive (log : list entry) : list Z := foldl alive_step [] log.

(** The documented behaviour of [Popen]: asking, terminating and killing do not
    fail, waiting can only time out, and after a kill it does not. *)
Class Killable (W : Type) `{OS W} := {
  poll_works pid w : is_ok (handle (Poll pid) w).1 = true;
  terminate_works pid w : is_ok (handle (Terminate pid) w).1 = true;
  wait_times_out pid t w e : (handle (Wait pid t) w).1 = Raise e → exn_type e = TimeoutExpired;
  kill_works pid w : is_ok (handle (Kill pid) w).1 = true;
  killed_ends pid t w : is_ok (handle (Wait pid t) (handle (Kill pid) w).2).1 = true;
}.

Lemma alive_app l k : alive (l ++ k) = foldl alive_step (alive l) k.
Proof. apply foldl_app. Qed.

(** *** One workload among others *)

Section owner.
Context {W : Type} `{OS W} `{!Killable W} (others : list Z).
Abbreviation state := (noise * world W)%type.
Implicit Types x y z : state.

(** A process that has not ended is the workload's or one of the others. *)
Definition owned x : Prop := ∀ p, p ∈ alive (w_log x.2) → np_process x.1 = Some p ∨ p ∈ others.
(** Nothing was started and the process is the same. *)
Definition steady : relation state := λ x y,
  np_process y.1 = np_process x.1 ∧ ∀ p, p ∈ alive (w_log y.2) → p ∈ alive (w_log x.2).
#[export] Instance steady_preorder : PreOrder steady.
Proof. split; [done|]. intros x y z [P1 A1] [P2 A2]. split; [congruence|auto]. Qed.
Lemma owned_steady x y : steady x y → owned x → owned y.
Proof. intros [P A] Ho p Hp. rewrite P. by apply Ho, A. Qed.

Lemma steady_sys {A} (c : syscall A) :
  match c with Spawn _ _ | SpawnWith _ _ => False | _ => True end → within steady (sys c).
Proof.
  intros Hc [s w]. unfold sys, steady. destruct (handle c (w_os w)) as [r o]. simpl. split; [done|].
  intros p. rewrite alive_app. destruct c; try done; simpl; repeat case_match; simpl; try done;
    by intros [_ ?]%list_elem_of_filter.
Qed.
Lemma steady_set_self f : (∀ s, np_process (f s) = np_process s) → within steady (set_self (W := W) f).
Proof. intros Hf [s w]. split; [apply Hf|done]. Qed.
End owner.
#[local] Hint Resolve steady_sys : keeps.

Ltac solve_steady :=
  repeat (intros; first
    [ progress solve_within
    | match goal with
      | |- within _ (set_self _) => by apply steady_set_self
      | |- within _ (sys _) => by apply steady_sys
      end ]).
(** What the operations of a workload that are not the start or the stop of its
    process do: nothing to processes. *)
Class Steady {W} `{OS W} (w : ManagedNoiseProcess (W := W)) := {
  before_start_steady : within steady (_before_start w);
  command_steady ready summary : within steady (_command w ready summary);
  decorate_steady ready command : within steady (_decorate_ready w ready command);
}.

#[export] Instance cpu_steady {W} `{OS W} c : Steady (CpuBusyLoopNoise (W := W) c).
Proof. split; intros; simpl; solve_steady. Qed.
#[export] Instance memory_steady {W} `{OS W} c : Steady (FixedCopyMemoryNoise (W := W) c).
Proof. split; intros; simpl; solve_steady. Qed.
#[export] Instance gpu_steady {W} `{OS W} c : Steady (GpuVulkanNoise (W := W) c).
Proof. split; intros; simpl; solve_steady. Qed.
#[export] Instance usb_steady {W} `{OS W} c : Steady (UsbStorageReadNoise (W := W) c).
Proof.
  split; intros; simpl; unfold usb_command, identify, _validate_device, require_utilities, resolve_device, inspect_disk,
    usb_properties; solve_steady.
Qed.
#[export] Instance suite_steady {W} `{OS W} cpu memory usb gpu m : Steady (NoiseSuite (W := W) cpu memory usb gpu m).
Proof. destruct m; apply _. Qed.

Section process.
Context {W : Type} `{OS W} `{!Killable W} (others : list Z).
Context (w : ManagedNoiseProcess (W := W)) `{!Steady w}.
Abbreviation state := (noise * world W)%type.
Implicit Types x y z : state.

Lemma wp_steady {A B} (m : M state A) (k : A → M state B) Q E x :
  within steady m → (∀ a y, steady x y → wp (k a) Q E y) → (∀ e y, steady x y → E e y) → wp (bind m k) Q E x.
Proof. intros Hm Hk He. apply wp_bind. by eapply wp_within. Qed.

(** The end of a process that is no longer held. *)
Lemma alive_exit log pid status p : p ∈ alive (log ++ [EExit pid status]) → p ∈ alive log ∧ p ≠ pid.
Proof. rewrite alive_app. simpl. by intros [? ?]%list_elem_of_filter. Qed.
Lemma end_process_spec pid x :
  wp (end_process pid)
    (λ _ y, y.1 = x.1 ∧ ∀ p, p ∈ alive (w_log y.2) → p ∈ alive (w_log x.2) ∧ p ≠ pid) (λ _ _, False) x.
Proof.
  destruct x as [s w0]. unfold end_process. apply wp_bind, wp_sys. intros r o Ho.
  pose proof (terminate_works pid w0.(w_os)) as Ht. rewrite Ho in Ht. destruct r as [[]|]; [|done]. clear Ht Ho.
  simpl note. rewrite app_nil_r. apply wp_try, wp_bind, wp_sys. cbn [w_os w_log]. intros [status|e] o1 Ho1.
  - apply wp_ret. split; [done|]. intros p. apply alive_exit.
  - assert (is_class TimeoutExpired e = true) as ->.
    { apply bool_decide_eq_true, (wait_times_out pid (f_of_Z 10) o). exact (f_equal fst Ho1). }
    simpl note. rewrite app_nil_r. apply wp_bind, wp_sys. cbn [w_os w_log]. intros r2 o2 Ho2.
    pose proof (kill_works pid o1) as Hk. rewrite Ho2 in Hk. destruct r2 as [[]|]; [|done]. clear Hk.
    simpl note. rewrite app_nil_r. apply wp_bind, wp_sys. cbn [w_os w_log]. intros r3 o3 Ho3.
    pose proof (killed_ends pid (f_of_Z 5) o1) as Hk. rewrite Ho2 in Hk. cbn [snd] in Hk. rewrite Ho3 in Hk.
    destruct r3 as [status|]; [|done]. apply wp_ret. split; [done|]. intros p. apply alive_exit.
Qed.

(** A process that has ended can be let go. *)
Lemma let_go pid s (w0 w' : world W) :
  owned others (s, w0) → np_process s = Some pid →
  (∀ p, p ∈ alive (w_log w') → p ∈ alive (w_log w0) ∧ p ≠ pid) → owned others (set_process None s, w').
Proof.
  intros Ho Hs Ha p Hp. destruct (Ha p Hp) as [Hp' Hne]. destruct (Ho p Hp') as [Hpid|Hin]; [|by right].
  simpl in Hpid. congruence.
Qed.
(** Stopping: the process is let go, and has ended. *)
Lemma stop_spec record_dir x :
  owned others x →
  wp (stop w record_dir) (λ _ y, owned others y ∧ np_process y.1 = None)
    (λ _ y, owned others y ∧ np_process y.1 = None) x.
Proof.
  intros Hx. destruct x as [s w0]. unfold stop. apply wp_bind, wp_self.
  destruct (np_process s) as [pid|] eqn:Hpid; [|by apply wp_ret].
  apply wp_bind, wp_set_self. set (s1 := set_process None s).
  assert (∀ w' : world W, (∀ p, p ∈ alive (w_log w') → p ∈ alive (w_log w0) ∧ p ≠ pid) → owned others (s1, w')) as Hend
    by (intros w'; by apply let_go).
  assert (∀ (status : Z) (forced : bool) (w' : world W), owned others (s1, w') →
    wp (match record_dir with Some dir => _write_process w dir status forced | None => ret () end)
      (λ _ y, owned others y ∧ np_process y.1 = None) (λ _ y, owned others y ∧ np_process y.1 = None) (s1, w')) as Hwrite.
  { intros status forced w' Ho. destruct record_dir as [dir|]; [|by apply wp_ret].
    eapply wp_within; [by apply steady_sys|..]; intros a y Hy; (split; [by eapply owned_steady|]);
      by rewrite (proj1 Hy). }
  apply wp_bind, wp_sys. intros r o Ho. pose proof (poll_works pid (w_os w0)) as Hp. rewrite Ho in Hp.
  destruct r as [[status|]|]; [| |done]; clear Hp; apply wp_bind.
  - apply wp_ret. apply (Hwrite status false). apply Hend. intros p. apply alive_exit.
  - simpl note. rewrite app_nil_r.
    eapply wp_conseq; [apply end_process_spec| |by intros].
    intros [status forced] [s2 w2] [Hs Ha]. simpl in Hs. subst s2. apply (Hwrite status forced). apply Hend. exact Ha.
Qed.

Lemma look_ready_steady record_dir command : within steady (look_ready w record_dir command).
Proof. unfold look_ready, _read_json. pose proof decorate_steady. solve_steady. Qed.
Lemma exited_early_spec record_dir pid status s (w0 w' : world W) :
  owned others (s, w0) → np_process s = Some pid →
  (∀ p, p ∈ alive (w_log w') → p ∈ alive (w_log w0) ∧ p ≠ pid) →
  wp (exited_early w record_dir status) (λ _ _, False) (λ _ y, owned others y) (s, w').
Proof.
  intros Ho Hs Ha. unfold exited_early. apply wp_bind, wp_set_self.
  pose proof (let_go pid s w0 w' Ho Hs Ha) as Ho'.
  apply wp_steady; [by apply steady_sys| |intros e y Hy; by eapply owned_steady].
  intros _ y Hy. apply wp_steady; [by apply steady_sys| |intros e z Hz; eapply owned_steady; [|exact Ho']; by etrans].
  intros detail z Hz. apply wp_throw. eapply owned_steady; [|exact Ho']. by etrans.
Qed.
Lemma await_ready_spec fuel pid record_dir command deadline x :
  owned others x → np_process x.1 = Some pid →
  wp (await_ready w fuel pid record_dir command deadline)
    (λ _ y, owned others y ∧ np_process y.1 = Some pid) (λ _ y, owned others y) x.
Proof.
  revert x. induction fuel as [|fuel IH]; intros x Ho Hs; simpl; [by apply wp_throw|].
  apply wp_steady; [by apply steady_sys| |intros e y Hy; by eapply owned_steady].
  intros now y Hy. assert (owned others y) as Hoy by by eapply owned_steady.
  assert (np_process y.1 = Some pid) as Hsy by (rewrite (proj1 Hy); exact Hs). destruct (f_lt now deadline); simpl.
  2:{ apply wp_bind. eapply wp_conseq; [by apply stop_spec| |by intros e z [? _]].
      intros _ z [Hz _]. by apply wp_throw. }
  destruct y as [s w0]. apply wp_bind, wp_sys. intros r o Hr. pose proof (poll_works pid (w_os w0)) as Hp.
  rewrite Hr in Hp. destruct r as [[status|]|]; [| |done]; clear Hp.
  - eapply wp_conseq; [apply (exited_early_spec record_dir pid status s w0); [done|done|]| |by intros].
    + intros p. apply alive_exit.
    + by intros.
  - simpl note. rewrite app_nil_r. set (y := (s, World o (w_log w0))).
    apply wp_steady; [apply look_ready_steady| |intros e z Hz; by eapply owned_steady].
    intros look z Hz. assert (owned others z) as Hoz by by eapply owned_steady.
    assert (np_process z.1 = Some pid) as Hsz by (rewrite (proj1 Hz); exact Hsy).
    destruct look.1 as [ready|]; [by apply wp_ret|].
    apply wp_steady; [by apply steady_sys| |intros e u Hu; by eapply owned_steady].
    intros _ u Hu. apply IH; [by eapply owned_steady|]. rewrite (proj1 Hu). exact Hsz.
Qed.

(** Starting: the process is held, or has ended. *)
Lemma start_spec fuel mode record_dir x :
  owned others x →
  wp (start w fuel mode record_dir)
    (λ _ y, owned others y ∧ (mode ≠ "none" → is_Some (np_process y.1)))
    (λ _ y, owned others y) x.
Proof.
  intros Ho. unfold start. case_bool_decide as Hmode; [by apply wp_ret|].
  apply wp_steady; [solve_steady| |intros e y Hy; by eapply owned_steady]. intros _ x1 H1.
  apply wp_bind. destruct x1 as [s1 w1]. apply wp_self.
  destruct (np_process s1) as [pid|] eqn:Hnone; [apply wp_bind, wp_throw; by eapply owned_steady|].
  apply wp_bind. apply (wp_ret (A := unit)).
  apply wp_steady; [apply before_start_steady| |intros e y Hy; eapply owned_steady; [|exact Ho]; by etrans].
  intros _ x2 H2. apply wp_steady; [apply command_steady| |].
  2:{ intros e y Hy; eapply owned_steady; [|exact Ho]; by do 2 (etrans; [done|]). }
  intros command x3 H3. assert (steady (s1, w1) x3) as H13 by by etrans.
  assert (∀ y, steady x3 y → owned others y) as Hrest.
  { intros y Hy. eapply owned_steady; [|exact Ho]. etrans; [exact H1|]. by etrans. }
  apply wp_steady; [by apply steady_sys| |intros e y Hy; by apply Hrest]. intros started x4 H4.
  apply wp_steady; [by apply steady_sys| |intros e y Hy; apply Hrest; by etrans]. intros _ x5 H5.
  apply wp_steady; [by apply steady_sys| |intros e y Hy; apply Hrest; by do 2 (etrans; [done|])]. intros _ [s6 w6] H6.
  assert (steady x3 (s6, w6)) as H36 by (do 2 (etrans; [done|]); done).
  assert (np_process s6 = None) as Hs6 by (rewrite (proj1 H36 : np_process s6 = _), (proj1 H13); exact Hnone).
  apply wp_bind, wp_sys. intros [pid|e] o _; [|simpl note; rewrite app_nil_r; exact (Hrest _ H36)].
  apply wp_bind, wp_set_self. eapply wp_conseq; [apply await_ready_spec; [|done]| |done].
  - intros p. simpl. rewrite alive_app. simpl. rewrite elem_of_cons. intros [->|Hp]; [by left|right].
    destruct (Hrest _ H36 p Hp) as [Hs|Hin]; [|done]. simpl in Hs. congruence.
  - intros _ y [Hoy Hsy]. split; [done|]. intros _. by eexists.
Qed.
End process.

(** *** The suite *)

Section suite.
Context {W : Type} `{OS W} `{!Killable W} (workload : member → ManagedNoiseProcess (W := W)).
Context `{!∀ m, Steady (workload m)} (fuel : nat).
Abbreviation state := (suite * world W)%type.
Implicit Types x y z : state.

(** Every process that was started and has not ended is held by a workload. *)
Definition no_orphans x : Prop := ∀ p, p ∈ alive (w_log x.2) → ∃ m, np_process (x.1 m) = Some p.
Definition held_elsewhere (m : member) (all : suite) : list Z :=
  omap (λ k, np_process (all k)) (filter (λ k, k ≠ m) members).

Lemma members_all m : m ∈ members.
Proof. destruct m; unfold members; set_solver. Qed.
Lemma no_orphans_owned m all (w : world W) :
  no_orphans (all, w) ↔ owned (held_elsewhere m all) (all m, w).
Proof.
  unfold no_orphans, owned, held_elsewhere. simpl. split; intros Ha p Hp.
  - destruct (Ha p Hp) as [k Hk]. destruct (decide (k = m)) as [->|Hne]; [by left|right].
    apply list_elem_of_omap. exists k. split; [|done]. apply list_elem_of_filter. split; [done|apply members_all].
  - destruct (Ha p Hp) as [Hs|Hin]; [by exists m|].
    apply list_elem_of_omap in Hin as (k & _ & Hk). by exists k.
Qed.
Lemma held_set_member m s all : held_elsewhere m (set_member m s all) = held_elsewhere m all.
Proof.
  unfold held_elsewhere, set_member. induction members as [|k l IH]; [done|].
  rewrite !filter_cons. destruct (decide (k ≠ m)) as [Hk|Hk]; [|exact IH].
  change (k :: filter (λ k, k ≠ m) l) with ([k] ++ filter (λ k, k ≠ m) l). rewrite !omap_app, IH. f_equal. simpl.
  by rewrite decide_False.
Qed.
(** A method of a workload that keeps its own process in hand. *)
Lemma on_member_spec {A} m (c : M (noise * world W) A) (Q : A → noise → Prop) (E : noise → Prop) x :
  no_orphans x →
  (∀ others, owned others (x.1 m, x.2) →
     wp c (λ a (t : noise * world W), owned others t ∧ Q a t.1) (λ _ (t : noise * world W), owned others t ∧ E t.1) (x.1 m, x.2)) →
  wp (on_member m c) (λ a y, no_orphans y ∧ Q a (y.1 m) ∧ ∀ k, k ≠ m → y.1 k = x.1 k)
    (λ _ y, no_orphans y ∧ E (y.1 m) ∧ ∀ k, k ≠ m → y.1 k = x.1 k) x.
Proof.
  destruct x as [all w]. intros Ho Hc. unfold on_member. apply wp_zoom.
  specialize (Hc (held_elsewhere m all) (proj1 (no_orphans_owned m all w) Ho)).
  assert (∀ t : noise * world W, owned (held_elsewhere m all) t → no_orphans (set_member m t.1 all, t.2)) as Hback.
  { intros [s w'] Hy. apply (no_orphans_owned m). rewrite held_set_member. unfold set_member. by rewrite decide_True. }
  assert (∀ (t : noise * world W) k, k ≠ m → set_member m t.1 all k = all k) as Hother
    by (intros t k Hk; unfold set_member; by rewrite decide_False).
  assert (∀ t : noise * world W, set_member m t.1 all m = t.1) as Hself
    by (intros t; unfold set_member; by rewrite decide_True).
  eapply wp_conseq; [exact Hc| |].
  - intros a t [Hy Hq]. split_and!; [by apply Hback|simpl; by rewrite Hself|by apply Hother].
  - intros e t [Hy He]. split_and!; [by apply Hback|simpl; by rewrite Hself|by apply Hother].
Qed.
Lemma no_orphans_sys {A} (c : syscall A) x :
  match c with Spawn _ _ | SpawnWith _ _ => False | _ => True end → no_orphans x →
  wp (sys c) (λ _ y, y.1 = x.1 ∧ no_orphans y) (λ _ y, y.1 = x.1 ∧ no_orphans y) x.
Proof.
  intros Hc Ho. destruct x as [all w]. pose proof (steady_sys c Hc (all Cpu, w)) as [_ Ha].
  unfold sys in *. unfold wp. destruct (handle c (w_os w)) as [[a|e] o]; simpl in *;
    (split; [done|]; intros p Hp; by apply Ho, Ha).
Qed.

(** Stopping everything. *)
Definition all_idle (s : suite) : Prop := ∀ m, np_process (s m) = None.
Lemma stop_member_spec record_dir m x :
  no_orphans x →
  wp (on_member m (stop (workload m) record_dir))
    (λ _ y, no_orphans y ∧ np_process (y.1 m) = None ∧ ∀ k, k ≠ m → y.1 k = x.1 k)
    (λ _ y, no_orphans y ∧ np_process (y.1 m) = None ∧ ∀ k, k ≠ m → y.1 k = x.1 k) x.
Proof.
  intros Ho. apply (on_member_spec m _ (λ _ s, np_process s = None) (λ s, np_process s = None)); [done|].
  intros others Hx. by apply stop_spec.
Qed.
Lemma stop_all_spec record_dir x :
  no_orphans x →
  wp (stop_all workload record_dir) (λ _ y, no_orphans y ∧ all_idle y.1) (λ _ y, no_orphans y) x.
Proof.
  intros Ho. unfold stop_all.
  eapply wp_conseq; [apply (wp_for_each _ _ (λ done y, no_orphans y ∧ ∀ m, m ∈ done → np_process (y.1 m) = None)
    (λ _ y, no_orphans y))| |].
  - split; [done|]. intros m Hm. by apply elem_of_nil in Hm.
  - intros done m rest y _ [Hy Hd]. eapply wp_conseq; [by apply stop_member_spec| |by intros e z (? & _)].
    intros _ z (Hz & Hm & Hk). split; [done|]. intros k. rewrite elem_of_app, list_elem_of_singleton.
    destruct (decide (k = m)) as [->|Hne]; [done|]. intros [Hin| ->]; [|done]. rewrite Hk by done. by apply Hd.
  - intros [] y [Hy Hd]. split; [done|]. intros m. apply Hd. rewrite list_elem_of_In, <- in_rev, <- list_elem_of_In. apply members_all.
  - done.
Qed.
Lemma idle_none_alive x : no_orphans x → all_idle x.1 → ∀ p, p ∉ alive (w_log x.2).
Proof. intros Ho Hi p Hp. destruct (Ho p Hp) as [m Hm]. by rewrite Hi in Hm. Qed.

(** Starting one workload after those in [done]. *)
Definition started (modes : list (string * string)) (done : list member) (s : suite) : Prop :=
  ∀ m mode, m ∈ done → mode_of modes m = Ok mode → mode ≠ "none" → is_Some (np_process (s m)).
Lemma start_member_spec modes record_dir done values m x :
  no_orphans x → started modes done x.1 → m ∉ done →
  wp (start_member workload fuel modes record_dir values m)
    (λ _ y, no_orphans y ∧ started modes (done ++ [m]) y.1) (λ _ y, no_orphans y) x.
Proof.
  intros Ho Hs Hm. unfold start_member. apply wp_bind, wp_lift.
  destruct (mode_of modes m) as [mode|] eqn:Hmode; [|done]. apply wp_bind.
  eapply wp_conseq; [apply (on_member_spec m _ (λ _ s, mode ≠ "none" → is_Some (np_process s)) (λ _, True))| |];
    [done| | |by intros e y (? & _)].
  { intros others Hx. eapply wp_conseq; [by apply start_spec|by intros|by intros]. }
  intros ready y (Hy & Hready & Hk). apply wp_bind.
  eapply wp_conseq; [by apply (no_orphans_sys (WriteJson _ _) y)| |by intros e z [_ ?]].
  intros _ z [Hz Hoz]. apply wp_ret. split; [done|]. rewrite Hz. intros k kmode.
  rewrite elem_of_app, list_elem_of_singleton. intros [Hin| ->] Hkm Hne.
  - rewrite Hk by (intros ->; done). by eapply Hs.
  - apply Hready. congruence.
Qed.
Lemma start_all_members modes record_dir ms done values x :
  no_orphans x → started modes done x.1 → NoDup (done ++ ms) →
  wp (fold_each ms values (start_member workload fuel modes record_dir))
    (λ _ y, no_orphans y ∧ started modes (done ++ ms) y.1) (λ _ y, no_orphans y) x.
Proof.
  revert done values x. induction ms as [|m ms IH]; intros done values x Ho Hs Hnd; simpl.
  { apply wp_ret. by rewrite app_nil_r. }
  apply wp_bind. eapply wp_conseq; [apply (start_member_spec modes record_dir done values m x Ho Hs)| |done].
  { apply NoDup_app in Hnd as (_ & Hnot & _). intros Hin. apply (Hnot m Hin). by left. }
  intros values' y [Hy Hsy]. rewrite (app_assoc done [m] ms : done ++ m :: ms = _).
  apply IH; [done|done|]. by rewrite <- app_assoc.
Qed.
End suite.

(** No noise process is orphaned, and a start is all or nothing.  On a
    machine where a killed process ends, and from a suite that holds every
    process that is alive: however [start_all] or [stop_all] ends, each process
    that was started and has not ended is held by its workload.  When [start_all]
    returns, every workload with a mode has its process; when it raises an
    [Exception], no workload holds a process and none is alive, unless stopping
    them raised that exception.  When [stop_all] returns, none is alive. *)
Theorem noise_processes_owned {W} `{OS W} `{!Killable W} cpu memory usb gpu fuel modes record_dir
    (x : suite * world W) :
  let workload := NoiseSuite cpu memory usb gpu in
  let none_alive (y : suite * world W) := all_idle y.1 ∧ ∀ p, p ∉ alive (w_log y.2) in
  no_orphans x →
  match start_all workload fuel modes record_dir x with
  | (Ok _, y) => no_orphans y ∧ started modes members y.1
  | (Raise e, y) => no_orphans y ∧
      (is_Exception e = true → none_alive y ∨ ∃ z, stop_all workload (Some record_dir) z = (Raise e, y))
  end ∧
  match stop_all workload (Some record_dir) x with
  | (Ok _, y) => no_orphans y ∧ none_alive y
  | (Raise _, y) => no_orphans y
  end.
Proof.
  intros workload none_alive Ho. split.
  - pose proof (start_all_members workload fuel modes record_dir members [] [] x Ho) as Hw.
    unfold start_all, try_except. unfold wp in Hw.
    destruct (fold_each members [] _ x) as [[values|e] y].
    + apply Hw; [intros m mode Hm; by apply elem_of_nil in Hm|apply (bool_decide_unpack _); done].
    + assert (no_orphans y) as Hy
        by (apply Hw; [intros m mode Hm; by apply elem_of_nil in Hm|apply (bool_decide_unpack _); done]).
      destruct (is_Exception e) eqn:He; [|split; [done|congruence]]. unfold bind.
      pose proof (stop_all_spec workload (Some record_dir) y Hy) as Hs. unfold wp in Hs.
      destruct (stop_all workload (Some record_dir) y) as [[[]|e'] z] eqn:Hstop; simpl.
      * destruct Hs as [Hz Hi]. split; [done|]. intros _. left. split; [done|by apply idle_none_alive].
      * split; [done|]. intros _. right. by exists y.
  - pose proof (stop_all_spec workload (Some record_dir) x Ho) as Hs. unfold wp in Hs.
    destruct (stop_all workload (Some record_dir) x) as [[[]|e] y]; [|done].
    destruct Hs as [Hy Hi]. split; [done|]. split; [done|by apply idle_none_alive].
Qed.

(** ** A machine with stubborn processes *)

(** Processes are numbered; they ignore [terminate] and end when killed; the
    process [b_broken] ends at once.  [b_full]: a file that cannot be written. *)
Record bench := Bench { b_next : Z; b_killed : list Z; b_broken : Z; b_full : string }.
Definition bench_handle {A} (c : syscall A) (w : bench) : outcome A * bench :=
  match c in syscall A return outcome A * bench with
  | Spawn _ _ => (Ok (b_next w), Bench (b_next w + 1) (b_killed w) (b_broken w) (b_full w))
  | Poll pid => (Ok (if bool_decide (pid = b_broken w) then Some 1 else
                     if bool_decide (pid ∈ b_killed w) then Some (-9) else None), w)
  | Terminate _ => (Ok (), w)
  | Kill pid => (Ok (), Bench (b_next w) (pid :: b_killed w) (b_broken w) (b_full w))
  | Wait pid _ => (if bool_decide (pid ∈ b_killed w) then Ok (-9) else raise TimeoutExpired "timed out", w)
  | WriteJson p _ => (if bool_decide (p = b_full w) then raise OSError "No space left on device" else Ok (), w)
  | WriteText _ _ | Sleep _ => (Ok (), w)
  | IsFile _ => (Ok true, w)
  | ReadJson _ => (Ok (VDict [("ready", VBool true)]), w)
  | ReadText _ => (Ok "no device", w)
  | FileDigest _ => (Ok "sha", w)
  | Monotonic => (Ok (f_of_Z 0), w)
  | _ => (raise OSError "not available", w)
  end.
#[export] Instance bench_os : OS bench := @bench_handle.
#[export] Program Instance bench_killable : Killable bench.
Next Obligation. done. Qed.
Next Obligation. done. Qed.
Next Obligation. intros pid t w e. unfold handle, bench_os, bench_handle. simpl. case_bool_decide; [done|by intros [= <-]]. Qed.
Next Obligation. done. Qed.
Next Obligation.
  intros pid t w. unfold handle, bench_os, bench_handle. simpl. by rewrite bool_decide_true by by left.
Qed.

Definition demo_cpu : CpuNoiseConfig :=
  {| cpu_executable := "/build/cpu_noise"; cpu_modes := ["busy_loop"]; cpu_workers := 3;
     cpu_warmup_seconds := f_of_Z 1; cpu_ready_timeout_seconds := f_of_Z 5; cpu_affinity := Some "1-3" |}.
Definition demo_memory : MemoryNoiseConfig :=
  {| mem_executable := "/build/memory_noise"; mem_modes := ["fixed_copy"]; mem_workers := 3;
     mem_buffer_size_mib := 64; mem_copy_chunk_kib := 256; mem_target_mib_per_second := f_of_Z 0;
     mem_warmup_seconds := f_of_Z 1; mem_ready_timeout_seconds := f_of_Z 5; mem_affinity := None |}.
Definition demo_usb : UsbStorageNoiseConfig :=
  {| usb_executable := "/build/usb_noise"; usb_modes := ["none"]; usb_device := None;
     usb_warmup_seconds := f_of_Z 1; usb_block_size_kib := 1024; usb_ready_timeout_seconds := f_of_Z 5;
     usb_use_sudo := false |}.
Definition demo_gpu : GpuNoiseConfig :=
  {| gpu_executable := "/build/gpu_noise"; gpu_modes := ["mobilenet_v2_vulkan"]; gpu_model_param := "/model.param";
     gpu_device := 0; gpu_warmup_iterations := 3; gpu_ready_timeout_seconds := f_of_Z 5; gpu_affinity := None;
     gpu_vulkan_icd := None |}.
Definition demo_noise : member → ManagedNoiseProcess (W := bench) :=
  NoiseSuite demo_cpu demo_memory demo_usb demo_gpu.
Definition demo_modes : list (string * string) := [
  ("cpu_noise", "busy_loop"); ("memory_noise", "fixed_copy"); ("usb_storage_noise", "none");
  ("gpu_noise", "mobilenet_v2_vulkan")].
Definition demo_start (broken : Z) (full : string) : outcome (list (string * pydict)) * (suite * world bench) :=
  start_all demo_noise 3 demo_modes "/run" (λ _, idle, World (Bench 1 [] broken full) []).

Lemma noise_processes_owned_witness :
  raised (demo_start 3 "") = Some RuntimeError ∧ alive (w_log (demo_start 3 "").2.2) = [] ∧
  no_orphans (demo_start 3 "").2.
Proof.
  split; [vm_compute; reflexivity|]. split; [vm_compute; reflexivity|].
  assert (no_orphans (λ _ : member, idle, World (Bench 1 [] 3 "") [])) as Hx by (intros p Hp; inversion Hp).
  pose proof (noise_processes_owned demo_cpu demo_memory demo_usb demo_gpu 3 demo_modes "/run" _ Hx) as [Hs _].
  fold demo_noise in Hs. change (start_all demo_noise 3 demo_modes "/run" _) with (demo_start 3 "") in Hs.
  destruct (demo_start 3 "") as [[values|e] y]; exact (proj1 Hs).
Defined.
(** Without a failure three processes run. *)
Example demo_noise_runs : returned (demo_start 0 "") = true ∧ alive (w_log (demo_start 0 "").2.2) = [3; 2; 1].
Proof. split; vm_compute; reflexivity. Qed.
(** The suite stops its workloads in a plain loop: when the end of the memory
    workload cannot be written down, the CPU workload is never stopped. *)
Example stop_all_gives_up :
  raised (demo_start 3 "/run/memory_noise_process.json") = Some OSError ∧
  alive (w_log (demo_start 3 "/run/memory_noise_process.json").2.2) = [1].
Proof. split; vm_compute; reflexivity. Qed.
