(* ===== verification/ThreadTrace.v ===== *)
(** * The thread trace tool ([parse_trace.py] of realsense_thread_trace)

    The lifetimes of threads from the events of the pthread tracer, and the
    samples of [perf script] by thread and function.  In the code a thread is a
    dictionary that a list and two indices share; here the dictionaries live in
    the list [threads] of a store, and the indices hold positions.  Comparing two
    times that are lists, which no tracer writes, is an error here.  The argument
    parser is left out. *)
From Stdlib Require Import Ascii ZArith Lia Floats.SpecFloat.
From S2P Require Import Prelude PyStr PyFloat PyVal PyJson FloatOrder Effects Noise.
From stdpp Require Import base gmap strings list.
Local Open Scope Z_scope.
Local Open Scope py_scope.
Local Open Scope M_scope.

(** ** Dictionaries and comparisons of arbitrary values *)

Definition hashed (key : pyval) : outcome pyval :=
  match key with
  | VList _ | VDict _ => raise TypeError ("unhashable type: '" +:+ type_name key +:+ "'")
  | _ => Ok key
  end.
Section vdict.
Context {A : Type}.
Fixpoint vget (k : pyval) (d : list (pyval * A)) : option A :=
  match d with
  | [] => None
  | (k', v) :: d => if py_eq k k' then Some v else vget k d
  end.
Fixpoint vset (k : pyval) (v : A) (d : list (pyval * A)) : list (pyval * A) :=
  match d with
  | [] => [(k, v)]
  | (k', v') :: d => if py_eq k k' then (k', v) :: d else (k', v') :: vset k v d
  end.
End vdict.

Definition number (v : pyval) : option (Z + f64) :=
  match v with
  | VBool b => Some (inl (Z_of_bool b)) | VInt z => Some (inl z) | VFloat x => Some (inr x) | _ => None
  end.
Definition number_lt (a b : Z + f64) : bool :=
  match a, b with
  | inl m, inl n => bool_decide (m < n)
  | inl m, inr y => f_gt_Z y m
  | inr x, inl n => f_lt_Z x n
  | inr x, inr y => f_lt x y
  end.
(** [v < w], and [v <= w] on numbers and texts. *)
Definition not_supported {A} (op : string) (v w : pyval) : outcome A :=
  raise TypeError ("'" +:+ op +:+ "' not supported between instances of '" +:+ type_name v +:+ "' and '"
                   +:+ type_name w +:+ "'").
Definition val_lt (v w : pyval) : outcome bool :=
  match number v, number w with
  | Some m, Some n => Ok (number_lt m n)
  | _, _ => match v, w with VStr s, VStr t => Ok (String.ltb s t) | _, _ => not_supported "<" v w end
  end.
Definition val_le (v w : pyval) : outcome bool :=
  match number v, number w with
  | Some m, Some n => Ok (number_lt m n || py_eq v w)
  | _, _ => match v, w with VStr s, VStr t => Ok (String.leb s t) | _, _ => not_supported "<=" v w end
  end.
(** [(v - w) / 1_000_000]. *)
Definition to_f64 (n : Z + f64) : f64 := match n with inl z => f_of_Z z | inr x => x end.
Definition millions (v w : pyval) : outcome f64 :=
  match number v, number w with
  | Some (inl m), Some (inl n) => Ok (Z_truediv (m - n) 1000000)
  | Some m, Some n => f_div (f_sub (to_f64 m) (to_f64 n)) (f_of_Z 1000000)
  | _, _ => raise TypeError ("unsupported operand type(s) for -: '" +:+ type_name v +:+ "' and '" +:+ type_name w +:+ "'")
  end.
Definition is_None (v : pyval) : bool := match v with VNone => true | _ => false end.

Definition _duration_ms (start_ns end_ns : pyval) : outcome pyval :=
  if is_None start_ns || is_None end_ns then Ok (VStr "") else
  x ← millions end_ns start_ns; Ok (VStr (format_fixed 3 x)).
Definition _ms (value_ns origin_ns : pyval) : outcome pyval := _duration_ms origin_ns value_ns.

(** ** Events *)

(** One line of the trace: a value that is not a dictionary cannot take the line
    number. *)
Definition parse_line (line_no : Z) (line : string) : outcome (option pydict) :=
  let line := py_strip line in
  if bool_decide (line = "") then Ok None else
  match json_loads line with
  | Raise e =>
      if is_class JSONDecodeError e then
        Ok (Some [("event", VStr "parse_error"); ("line_no", VInt line_no); ("error", VStr (exn_msg e)); ("raw", VStr line)])
      else Raise e
  | Ok (VDict event) => Ok (Some (dset "_line_no" (VInt line_no) event))
  | Ok v => raise TypeError ("'" +:+ type_name v +:+ "' object does not support item assignment")
  end.
Fixpoint parse_lines (line_no : Z) (lines : list string) : outcome (list pydict) :=
  match lines with
  | [] => Ok []
  | line :: lines =>
      event ← parse_line line_no line; events ← parse_lines (line_no + 1) lines;
      Ok (match event with Some event => event :: events | None => events end)
  end.
Definition newline : ascii := Ascii.ascii_of_nat 10.
Definition parse_text (text : string) : outcome (list pydict) := parse_lines 1 (py_split newline text).

(** ** Records *)

Abbreviation thread := pydict.
(** [rec.get(k)]; the keys of a record never change. *)
Definition field (k : string) (r : thread) : pyval := dgetd k VNone r.
Definition blank (pthread_value tid : pyval) : thread := [
  ("pthread_value", pthread_value); ("tid", tid); ("name", VStr ""); ("parent_tid", VStr ""); ("created_ns", VNone);
  ("started_ns", VNone); ("exited_ns", VNone); ("exit_kind", VStr ""); ("joined_by", VStr ""); ("detached_by", VStr "");
  ("entry_address", VStr ""); ("entry_module", VStr ""); ("entry_symbol", VStr ""); ("create_result", VStr "")].
(** [event.get(k, "")] and [event.get(k, "") or v]. *)
Definition text_get (k : string) (event : pydict) : pyval := dgetd k (VStr "") event.
Definition text_or (k : string) (event : pydict) (v : pyval) : pyval := val_or (text_get k event) v.

(** The assignments of a creation and of a start. *)
Definition creation_fields (event : pydict) (timestamp_ns : pyval) : pydict := [
  ("created_ns", timestamp_ns); ("parent_tid", text_get "caller_tid" event);
  ("entry_address", text_get "entry_address" event); ("entry_module", text_get "entry_module" event);
  ("entry_symbol", text_get "entry_symbol" event); ("create_result", text_get "result" event)].
Definition start_fields (event : pydict) (timestamp_ns : pyval) (r : thread) : pydict := [
  ("parent_tid", dgetd "parent_tid" (field "parent_tid" r) event);
  ("created_ns", val_or (field "created_ns" r) (dgetd "create_timestamp_ns" VNone event));
  ("started_ns", timestamp_ns); ("name", text_or "name" event (field "name" r));
  ("entry_address", dgetd "entry_address" (field "entry_address" r) event);
  ("entry_module", dgetd "entry_module" (field "entry_module" r) event);
  ("entry_symbol", dgetd "entry_symbol" (field "entry_symbol" r) event)].

Record store := {
  threads : list thread;
  threads_by_pthread : list (pyval * list nat);
  threads_by_tid : list (pyval * nat);
}.
Definition empty_store : store := {| threads := []; threads_by_pthread := []; threads_by_tid := [] |}.
Abbreviation ST := (M store).

Definition record_at (i : nat) (st : store) : thread := default [] (threads st !! i).
(** [rec.update(fields)] for the record at [i]. *)
Definition update (i : nat) (fields : pydict) : ST unit := modify (λ st,
  {| threads := alter (λ r, dupdate r fields) i (threads st); threads_by_pthread := threads_by_pthread st;
     threads_by_tid := threads_by_tid st |}).
Definition append_thread (r : thread) : ST nat := λ st,
  (Ok (length (threads st)), {| threads := threads st ++ [r]; threads_by_pthread := threads_by_pthread st;
                                threads_by_tid := threads_by_tid st |}).
(** [threads_by_pthread[key].append(rec)], [threads_by_tid[key] = rec]. *)
Definition index_pthread (key : pyval) (i : nat) : ST unit :=
  key <- lift (hashed key) ;;
  modify (λ st, {| threads := threads st;
    threads_by_pthread := vset key (default [] (vget key (threads_by_pthread st)) ++ [i]) (threads_by_pthread st);
    threads_by_tid := threads_by_tid st |}).
Definition index_tid (key : pyval) (i : nat) : ST unit :=
  key <- lift (hashed key) ;;
  modify (λ st, {| threads := threads st; threads_by_pthread := threads_by_pthread st;
                   threads_by_tid := vset key i (threads_by_tid st) |}).
Definition find_tid (key : pyval) : ST (option nat) :=
  key <- lift (hashed key) ;; gets (λ st, vget key (threads_by_tid st)).
Definition candidates_of (key : pyval) : ST (option (list nat)) :=
  key <- lift (hashed key) ;; gets (λ st, vget key (threads_by_pthread st)).

Definition no_tid (tid : pyval) : bool := py_eq tid (VStr "").
Definition new_record (pthread_value tid : pyval) : ST nat :=
  i <- append_thread (blank pthread_value tid) ;;
  when (truthy pthread_value) (index_pthread pthread_value i) ;;
  when (negb (no_tid tid)) (index_tid tid i) ;;
  ret i.
Definition record_for_tid (tid : pyval) : ST nat :=
  found <- find_tid tid ;;
  match found with Some i => ret i | None => new_record (VStr "") tid end.
Definition bind_tid (i : nat) (tid : pyval) : ST unit :=
  if no_tid tid then ret () else update i [("tid", tid)] ;; index_tid tid i.
Definition bind_pthread (i : nat) (pthread_value : pyval) : ST unit :=
  if negb (truthy pthread_value) then ret () else
  r <- gets (record_at i) ;;
  if py_eq (field "pthread_value" r) pthread_value then ret ()
  else update i [("pthread_value", pthread_value)] ;; index_pthread pthread_value i.

(** The last candidate that passes a test. *)
Definition last_such (p : thread → bool) (candidates : list nat) (st : store) : option nat :=
  last (filter (λ i, p (record_at i st) = true) candidates).
Definition created_at (time : pyval) (r : thread) : bool := py_eq (field "created_ns" r) time.
Definition not_started (r : thread) : bool := is_None (field "started_ns" r).
Definition find_start_record (pthread_value create_timestamp_ns : pyval) : ST nat :=
  candidates <- candidates_of pthread_value ;;
  let candidates := default [] candidates in
  exact <- (if is_None create_timestamp_ns then ret None else gets (last_such (created_at create_timestamp_ns) candidates)) ;;
  pending <- gets (last_such not_started candidates) ;;
  match exact, pending with
  | Some i, _ => ret i
  | None, Some i => ret i
  | None, None =>
      i <- new_record pthread_value (VStr "") ;;
      when (negb (is_None create_timestamp_ns)) (update i [("created_ns", create_timestamp_ns)]) ;;
      ret i
  end.

(** [created_ns is None or created_ns <= timestamp_ns]. *)
Definition created_before (timestamp_ns : pyval) (r : thread) : outcome bool :=
  let created := field "created_ns" r in
  if is_None created then Ok true else val_le created timestamp_ns.
Fixpoint eligible (p : thread → outcome bool) (st : store) (candidates : list nat) : outcome (list nat) :=
  match candidates with
  | [] => Ok []
  | i :: l => b ← p (record_at i st); l ← eligible p st l; Ok (if (b : bool) then i :: l else l)
  end.
Definition find_latest_pthread_record (pthread_value timestamp_ns : pyval) : ST nat :=
  candidates <- candidates_of pthread_value ;;
  match candidates with
  | None | Some [] => new_record pthread_value (VStr "")
  | Some ((i :: l) as candidates) =>
      let latest := List.last l i in
      if is_None timestamp_ns then ret latest else
      st <- get ;;
      l <- lift (eligible (created_before timestamp_ns) st candidates) ;;
      ret (default latest (last l))
  end.
Definition not_joined_before (timestamp_ns : pyval) (r : thread) : outcome bool :=
  if truthy (field "joined_by" r) then Ok false else created_before timestamp_ns r.
Definition find_join_record (pthread_value timestamp_ns : pyval) : ST nat :=
  candidates <- candidates_of pthread_value ;;
  st <- get ;;
  l <- lift (eligible (not_joined_before timestamp_ns) st (default [] candidates)) ;;
  match last l with
  | Some i => ret i
  | None => find_latest_pthread_record pthread_value timestamp_ns
  end.

(** ** The loop over the events *)

Definition is_event (kind : string) (event : pydict) : bool := py_eq (dgetd "event" VNone event) (VStr kind).

Definition on_process_start (event : pydict) (timestamp_ns : pyval) : ST unit :=
  i <- record_for_tid (text_get "tid" event) ;;
  main <- gets (record_at i) ;;
  update i [("name", val_or (field "name" main) (VStr "main"))] ;;
  update i [("started_ns", timestamp_ns)].
Definition on_create (event : pydict) (timestamp_ns : pyval) : ST unit :=
  let pthread_value := text_get "pthread_value" event in
  candidates <- candidates_of pthread_value ;;
  known <- gets (last_such (created_at timestamp_ns) (default [] candidates)) ;;
  i <- match known with Some i => ret i | None => new_record pthread_value (VStr "") end ;;
  update i (creation_fields event timestamp_ns).
Definition on_start (event : pydict) (timestamp_ns : pyval) : ST unit :=
  i <- find_start_record (text_get "pthread_value" event) (dgetd "create_timestamp_ns" VNone event) ;;
  r <- gets (record_at i) ;;
  update i (start_fields event timestamp_ns r) ;;
  bind_tid i (text_get "tid" event).
Definition on_name (event : pydict) (timestamp_ns : pyval) : ST unit :=
  let pthread_value := text_get "pthread_value" event in
  let caller_tid := text_get "caller_tid" event in
  found <- (if no_tid caller_tid then ret None else find_tid caller_tid) ;;
  i <- match found with Some i => ret i | None => find_latest_pthread_record pthread_value timestamp_ns end ;;
  r <- gets (record_at i) ;;
  update i [("name", text_or "name" event (field "name" r))] ;;
  bind_pthread i pthread_value ;;
  r <- gets (record_at i) ;;
  when (negb (no_tid caller_tid)
        && (negb (truthy (field "tid" r)) || bool_decide (str_val (field "tid" r) = ""))) (bind_tid i caller_tid).
Definition on_exit (event : pydict) (timestamp_ns : pyval) : ST unit :=
  found <- find_tid (dgetd "tid" VNone event) ;;
  i <- match found with
       | Some i => ret i
       | None =>
           candidates <- candidates_of (dgetd "pthread_value" VNone event) ;;
           match candidates with
           | Some _ => find_latest_pthread_record (dgetd "pthread_value" VNone event) timestamp_ns
           | None => record_for_tid (text_get "tid" event)
           end
       end ;;
  r <- gets (record_at i) ;;
  update i [("exited_ns", timestamp_ns); ("exit_kind", text_get "exit_kind" event);
            ("name", text_or "name" event (field "name" r))].
Definition on_join_end (event : pydict) (timestamp_ns : pyval) : ST unit :=
  i <- find_join_record (text_get "pthread_value" event) timestamp_ns ;;
  update i [("joined_by", text_get "caller_tid" event)].
Definition on_detach (event : pydict) (timestamp_ns : pyval) : ST unit :=
  i <- find_latest_pthread_record (text_get "pthread_value" event) timestamp_ns ;;
  update i [("detached_by", text_get "caller_tid" event)].

(** The local variables beside the store. *)
Record progress := { phases : nat; origin_ns : pyval; trace_end_ns : option Z }.
Definition later (timestamp_ns : pyval) (trace_end : option Z) : option Z :=
  match as_int timestamp_ns, trace_end with
  | Some t, Some e => Some (Z.max e t)
  | Some t, None => Some t
  | None, _ => trace_end
  end.
Definition thread_event (pr : progress) (event : pydict) : ST progress :=
  let timestamp_ns := dgetd "timestamp_ns" VNone event in
  let pr := {| phases := phases pr; origin_ns := origin_ns pr; trace_end_ns := later timestamp_ns (trace_end_ns pr) |} in
  if is_event "phase_marker" event then
    if py_eq (dgetd "name" VNone event) (VStr "process_start") && is_None (origin_ns pr) then
      on_process_start event timestamp_ns ;;
      ret {| phases := S (phases pr); origin_ns := timestamp_ns; trace_end_ns := trace_end_ns pr |}
    else ret {| phases := S (phases pr); origin_ns := origin_ns pr; trace_end_ns := trace_end_ns pr |}
  else
    (if is_event "pthread_create" event then on_create event timestamp_ns
     else if is_event "thread_start" event then on_start event timestamp_ns
     else if is_event "thread_name" event then on_name event timestamp_ns
     else if is_event "thread_exit" event then on_exit event timestamp_ns
     else if is_event "pthread_join_end" event then on_join_end event timestamp_ns
     else if is_event "pthread_detach" event then on_detach event timestamp_ns
     else ret ()) ;;
    ret pr.
Definition start_progress : progress := {| phases := 0; origin_ns := VNone; trace_end_ns := None |}.
Definition thread_records (events : list pydict) : ST progress := fold_each events start_progress thread_event.

(** ** The table of threads *)

(** The key of the order: not started last, then the time, then the id as text. *)
Definition time_key (r : thread) : pyval := val_or (val_or (field "started_ns" r) (field "created_ns" r)) (VInt 0).
Definition tid_text (r : thread) : string := str_val (field "tid" r).
Definition thread_lt (r s : thread) : bool :=
  let a := not_started r in let b := not_started s in
  if negb (Bool.eqb a b) then negb a && b else
  if py_eq (time_key r) (time_key s) then String.ltb (tid_text r) (tid_text s)
  else match val_lt (time_key r) (time_key s) with Ok lt => lt | Raise _ => false end.
(** Two records of which the sort compares times that cannot be compared: such
    a pair always meets, because the two kinds of times have to be separated. *)
Definition comparable (r s : thread) : outcome unit :=
  if negb (Bool.eqb (not_started r) (not_started s)) || py_eq (time_key r) (time_key s) then Ok ()
  else _ ← val_lt (time_key r) (time_key s); Ok ().
Fixpoint all_comparable (l : list thread) : outcome unit :=
  match l with
  | [] => Ok ()
  | r :: l => _ ← traverse (comparable r) l; all_comparable l
  end.
Definition sorted_threads (l : list thread) : outcome (list thread) :=
  _ ← all_comparable l; Ok (sort_by thread_lt l).

Definition SUMMARY_FIELDS : list string := [
  "tid"; "pthread_value"; "name"; "parent_tid"; "created_ms"; "started_ms"; "exited_ms"; "observed_lifetime_ms"; "status";
  "exit_kind"; "joined_by"; "detached_by"; "entry_address"; "entry_module"; "entry_symbol"; "create_result"].
Definition summary_row (origin trace_end : pyval) (r : thread) : outcome pydict :=
  let start_ns := val_or (field "started_ns" r) (field "created_ns" r) in
  let end_ns := val_or (field "exited_ns" r) trace_end in
  created ← _ms (field "created_ns" r) origin;
  started ← _ms (field "started_ns" r) origin;
  exited ← _ms (field "exited_ns" r) origin;
  lifetime ← _duration_ms start_ns end_ns;
  Ok [("tid", field "tid" r); ("pthread_value", field "pthread_value" r); ("name", field "name" r);
      ("parent_tid", field "parent_tid" r); ("created_ms", created); ("started_ms", started); ("exited_ms", exited);
      ("observed_lifetime_ms", lifetime);
      ("status", VStr (if truthy (field "exited_ns" r) then "exited" else "still_alive_at_trace_end"));
      ("exit_kind", field "exit_kind" r); ("joined_by", field "joined_by" r); ("detached_by", field "detached_by" r);
      ("entry_address", field "entry_address" r); ("entry_module", field "entry_module" r);
      ("entry_symbol", field "entry_symbol" r); ("create_result", field "create_result" r)].

Definition first_timestamp (events : list pydict) : pyval :=
  match omap (λ e, z ← as_int (dgetd "timestamp_ns" VNone e); Some (VInt z)) events with v :: _ => v | [] => VNone end.
(** The records in the order of the table, with the times it is relative to. *)
Record history := { h_threads : list thread; h_origin : pyval; h_trace_end : pyval; h_phases : nat }.
Definition thread_history (events : list pydict) : outcome history :=
  let '(pr, st) := thread_records events empty_store in
  pr ← pr;
  sorted ← sorted_threads (threads st);
  Ok {| h_threads := sorted;
        h_origin := if is_None (origin_ns pr) then first_timestamp events else origin_ns pr;
        h_trace_end := match trace_end_ns pr with Some z => VInt z | None => VNone end; h_phases := phases pr |}.

(** [Path(p)] and its [parent]. *)
Definition as_path (p : string) : string := "." // p.
Definition path_parent (p : string) : string :=
  let parts := path_parts p in
  if py_startswith "/" p then "/" +:+ py_join "/" (removelast parts)
  else match removelast parts with [] => "." | l => py_join "/" l end.

Section files.
Context {W : Type} `{OS W} {T : Type}.
Abbreviation IO := (M (T * world W)).

Definition parse_events (trace_path : string) : IO (list pydict) :=
  text <- sys (ReadText (as_path trace_path)) ;; lift (parse_text text).
Definition parse_trace_file (trace_path summary_csv : string) : IO pydict :=
  events <- parse_events trace_path ;;
  h <- lift (thread_history events) ;;
  let summary_csv := as_path summary_csv in
  sys (Mkdir (path_parent summary_csv) true) ;;
  rows <- lift (traverse (summary_row (h_origin h) (h_trace_end h)) (h_threads h)) ;;
  sys (WriteCsv summary_csv SUMMARY_FIELDS rows) ;;
  ret [("events", VInt (Z.of_nat (length events))); ("threads", VInt (Z.of_nat (length (h_threads h))));
       ("phases", VInt (Z.of_nat (h_phases h))); ("summary_csv", VStr summary_csv)].
End files.

(** ** Samples of [perf script] *)

(** The groups of the three expressions; a line is a sequence of words. *)
Definition is_hex_char (a : ascii) : bool :=
  py_isdigit_char a || bool_decide (lower_char a ∈ ["a"; "b"; "c"; "d"; "e"; "f"]%char).
Definition is_hex (s : string) : bool := negb (bool_decide (s = "")) && string_forall is_hex_char s.
(** [\d+(?:\.\d+)?]: the text it matches first, and the rest. *)
Definition span_time (s : string) : option (string * string) :=
  let '(d, r) := span_digits s in
  if bool_decide (d = "") then None else
  match r with
  | String "."%char r' =>
      let '(e, r'') := span_digits r' in
      if bool_decide (e = "") then Some (d, r) else Some (d +:+ "." +:+ e, r'')
  | _ => Some (d, r)
  end.
(** [field_line_re]: thread, time and the words of the rest. *)
Definition field_match (line : string) : option (string * string * list string) :=
  let words := py_words line in
  match words with
  | _ :: tid :: time :: ip :: _ :: _ =>
      if py_isdigit tid && bool_decide (span_time time = Some (time, "")) && is_hex ip
      then Some (tid, time, drop 4 words) else None
  | _ => None
  end.
(** [header_re]: thread and time. *)
Definition header_match (line : string) : option (string * string) :=
  match py_words line with
  | _ :: tid :: time :: _ =>
      if negb (py_isdigit tid) then None else
      match span_time time with Some (t, String ":"%char _) => Some (tid, t) | _ => None end
  | _ => None
  end.
(** [frame_re]: the rest of the line; only white space after the address, of
    which there has to be more than one, is an empty rest. *)
Fixpoint span_word (s : string) : string * string :=
  match s with
  | EmptyString => ("", "")
  | String a s' => if py_isspace a then ("", s) else let '(w, r) := span_word s' in (String a w, r)
  end.
Definition frame_match (line : string) : option string :=
  let '(ip, r) := span_word (lstrip_by py_isspace line) in
  if negb (is_hex ip) then None else
  let rest := py_strip r in
  if negb (bool_decide (rest = "")) then Some rest
  else if bool_decide (2 <= String.length r)%nat then Some "" else None.
(** [module_re]: the function and the module in parentheses, without an offset.
    The greedy group takes the last opening parenthesis that fits. *)
Fixpoint without_offset (m s : string) : option string :=
  match s with
  | EmptyString => None
  | String a s' =>
      if negb (bool_decide (m = "")) && py_startswith "+0x" s && is_hex (py_drop 3 s) then Some m
      else without_offset (m +:+ String a "") s'
  end.
Definition closed (body : string) : option string :=
  match py_partition ")"%char body with
  | (content, true, EmptyString) => if bool_decide (content = "") then None else Some (default content (without_offset "" content))
  | _ => None
  end.
Fixpoint module_at (before s : string) : option (string * string) :=
  match s with
  | EmptyString => None
  | String a s' =>
      match module_at (before +:+ String a "") s' with
      | Some r => Some r
      | None =>
          match s' with
          | String "("%char body =>
              if py_isspace a && negb (bool_decide (before = "")) then pair before <$> closed body else None
          | _ => None
          end
      end
  end.
Definition module_match (rest : string) : option (string * string) :=
  (λ r, (py_strip r.1, py_strip r.2)) <$> module_at "" rest.

(** *** Counting *)

(** Thread, function, module, source file and source line. *)
Abbreviation sample_key := (string * string * string * string * string)%type.
Section counts.
Context {K A : Type} `{EqDecision K}.
Fixpoint kget (k : K) (d : list (K * A)) : option A :=
  match d with [] => None | (k', v) :: d => if bool_decide (k = k') then Some v else kget k d end.
Fixpoint kset (k : K) (v : A) (d : list (K * A)) : list (K * A) :=
  match d with
  | [] => [(k, v)]
  | (k', v') :: d => if bool_decide (k = k') then (k', v) :: d else (k', v') :: kset k v d
  end.
End counts.
Record perf := {
  counts : list (sample_key * Z);
  totals : list (string * Z);
  first_seen : list (sample_key * string);
  last_seen : list (sample_key * string);
}.
Definition no_samples : perf := {| counts := []; totals := []; first_seen := []; last_seen := [] |}.

(** [srcline.rsplit(":", 1)], when the text names a source. *)
Definition source_of (srcline : string) : string * string :=
  let srcline := py_replace " (inlined)" "" srcline in
  if bool_decide (srcline = "") || bool_decide (srcline = "??:0") || negb (in_string ":"%char srcline) then ("", "")
  else let file := py_rsplit1_head ":"%char srcline in (file, py_drop (S (String.length file)) srcline).
Definition str_min (s t : string) : string := if String.ltb t s then t else s.
Definition str_max (s t : string) : string := if String.ltb s t then t else s.
Definition add_sample (tid time function module srcline : string) (p : perf) : perf :=
  if bool_decide (function = "") || bool_decide (function ∈ ["[unknown]"; "0"]) then p else
  let '(source_file, source_line) := source_of srcline in
  let key := (tid, function, module, source_file, source_line) in
  {| counts := kset key (default 0 (kget key (counts p)) + 1) (counts p);
     totals := kset tid (default 0 (kget tid (totals p)) + 1) (totals p);
     first_seen := kset key (str_min (default time (kget key (first_seen p))) time) (first_seen p);
     last_seen := kset key (str_max (default time (kget key (last_seen p))) time) (last_seen p) |}.

(** The source line that may follow a frame. *)
Definition source_line_of (lines : list string) : option string :=
  match lines with
  | [] => None
  | line :: _ =>
      let next := py_strip line in
      if negb (bool_decide (next = "")) && bool_decide (header_match line = None) && bool_decide (frame_match line = None)
      then Some next else None
  end.
Definition add_frame (current : string * string) (rest : string) (srcline : option string) : perf → perf :=
  let '(function, module) := default (py_strip rest, "") (module_match rest) in
  add_sample current.1 current.2 function module (default "" srcline).
Definition add_field (m : string * string * list string) (p : perf) : perf :=
  let '(tid, time, rest) := m in
  let n := length rest in
  if bool_decide (4 <= n)%nat
  then add_sample tid time (py_join " " (take (n - 3) rest)) (nth (n - 3) rest "") (nth (n - 1) rest "") p
  else p.
Fixpoint perf_lines (current : option (string * string)) (p : perf) (lines : list string) : perf :=
  match lines with
  | [] => p
  | line :: lines =>
      match field_match line, header_match line with
      | Some m, _ => perf_lines current (add_field m p) lines
      | None, Some header => perf_lines (Some header) p lines
      | None, None =>
          match frame_match line, current with
          | Some rest, Some thread =>
              match source_line_of lines, lines with
              | Some srcline, _ :: lines' => perf_lines current (add_frame thread rest (Some srcline) p) lines'
              | _, _ => perf_lines current (add_frame thread rest None p) lines
              end
          | _, _ => perf_lines current p lines
          end
      end
  end.

(** *** The table of functions *)

Definition thread_of (k : sample_key) : string := k.1.1.1.1.
Definition function_of (k : sample_key) : string := k.1.1.1.2.
(** [(tid, -count, function)] comes before. *)
Definition count_lt (a b : sample_key * Z) : bool :=
  if negb (bool_decide (thread_of a.1 = thread_of b.1)) then String.ltb (thread_of a.1) (thread_of b.1)
  else if negb (bool_decide (a.2 = b.2)) then bool_decide (b.2 < a.2)
  else String.ltb (function_of a.1) (function_of b.1).
Definition FUNCTION_FIELDS : list string := [
  "tid"; "thread_name"; "function"; "module"; "source_file"; "source_line"; "sample_count"; "sample_percentage";
  "first_seen_time"; "last_seen_time"].
Definition function_row (names : list (string * string)) (p : perf) (c : sample_key * Z) : outcome pydict :=
  let '(tid, function, module, source_file, source_line) := c.1 in
  percentage ← f_div (f_mul (f_of_Z 100) (f_of_Z c.2)) (f_of_Z (default 1 (kget tid (totals p))));
  first ← match kget c.1 (first_seen p) with Some t => Ok t | None => raise KeyError function end;
  last ← match kget c.1 (last_seen p) with Some t => Ok t | None => raise KeyError function end;
  Ok [("tid", VStr tid); ("thread_name", VStr (default "" (dget tid names))); ("function", VStr function);
      ("module", VStr module); ("source_file", VStr source_file); ("source_line", VStr source_line);
      ("sample_count", VInt c.2); ("sample_percentage", VStr (format_fixed 3 percentage));
      ("first_seen_time", VStr first); ("last_seen_time", VStr last)].
Definition add_name (names : list (string * string)) (row : list (string * string)) : list (string * string) :=
  match dget "tid" row with
  | Some tid => if bool_decide (tid = "") then names else dset tid (default "" (dget "name" row)) names
  | None => names
  end.

Section perf_files.
Context {W : Type} `{OS W} {T : Type}.
Abbreviation IO := (M (T * world W)).
Definition _thread_names_from_summary (summary_csv : string) : IO (list (string * string)) :=
  let path := as_path summary_csv in
  found <- sys (PathExists path) ;;
  if negb found then ret [] else
  rows <- sys (ReadCsv path) ;; ret (foldl add_name [] rows).
Definition parse_perf_script (perf_script_path summary_csv output_csv : string) : IO pydict :=
  thread_names <- _thread_names_from_summary summary_csv ;;
  text <- sys (ReadText (as_path perf_script_path)) ;;
  let p := perf_lines None no_samples (py_splitlines text) in
  let output_csv := as_path output_csv in
  sys (Mkdir (path_parent output_csv) true) ;;
  rows <- lift (traverse (function_row thread_names p) (sort_by count_lt (counts p))) ;;
  sys (WriteCsv output_csv FUNCTION_FIELDS rows) ;;
  ret [("functions", VInt (Z.of_nat (length (counts p)))); ("samples", VInt (foldl Z.add 0 (map snd (counts p))));
       ("output_csv", VStr output_csv)].

(** ** The program *)

Definition main (trace_jsonl summary_csv perf_script function_summary_csv : string) : IO unit :=
  parse_trace_file trace_jsonl summary_csv ;;
  if bool_decide (perf_script = "") then ret ()
  else parse_perf_script perf_script summary_csv function_summary_csv ;; ret ().
End perf_files.
