(* ===== verification/ThreadTraceSpec.v ===== *)
(** * Properties of the thread trace tool

    A thread has one record, whichever of its creation and its start the tracer
    wrote first; the table of functions is complete, and its counts are the
    samples of the threads. *)
From Stdlib Require Import Ascii ZArith Lia Floats.SpecFloat.
From S2P Require Import Prelude PyStr PyFloat PyVal PyJson FloatOrder Effects Noise ThreadTrace.
From stdpp Require Import base gmap strings list.
Local Open Scope Z_scope.
Local Open Scope py_scope.
Local Open Scope M_scope.

(** ** The indices *)

Lemma vset_elem {A} k (v : A) d p : p ∈ vset k v d → p.2 = v ∨ p ∈ d.
Proof.
  induction d as [|[k' v'] d IH]; simpl; [intros ->%list_elem_of_singleton; by left|].
  destruct (py_eq k k'); rewrite !elem_of_cons; [intros [->|?]; auto|]. intros [->|H%IH]; naive_solver.
Qed.
Lemma vget_elem {A} k (v : A) d : vget k d = Some v → ∃ k', (k', v) ∈ d.
Proof.
  induction d as [|[k' v'] d IH]; simpl; [done|]. destruct (py_eq k k'); [intros [= ->]; exists k'; by left|].
  intros (k1 & H)%IH. exists k1. by right.
Qed.

(** Every position in an index is that of a record. *)
Record indexed (st : store) : Prop := {
  pthread_indexed k l i : (k, l) ∈ threads_by_pthread st → i ∈ l → (i < length (threads st))%nat;
  tid_indexed k i : (k, i) ∈ threads_by_tid st → (i < length (threads st))%nat;
}.
(** The computation keeps the indices, and gives a position of a record. *)
Definition keeps_index {A} (m : ST A) : Prop := ∀ st, indexed st →
  wp m (λ _ st', indexed st' ∧ (length (threads st) ≤ length (threads st'))%nat) (λ _ _, True) st.
Definition gives_index (m : ST nat) : Prop := ∀ st, indexed st →
  wp m (λ i st', (indexed st' ∧ (length (threads st) ≤ length (threads st'))%nat) ∧ (i < length (threads st'))%nat)
    (λ _ _, True) st.

Lemma index_bind {A B} (m : ST A) (k : A → ST B) : keeps_index m → (∀ a, keeps_index (k a)) → keeps_index (bind m k).
Proof.
  intros Hm Hk st Hst. apply wp_bind. eapply wp_conseq; [by apply Hm| |done]. intros a st1 [H1 L1].
  eapply wp_conseq; [by apply Hk| |done]. intros b st2 [H2 L2]. split; [done|lia].
Qed.
Lemma index_ret {A} (a : A) : keeps_index (ret a).
Proof. intros st Hst. by apply wp_ret. Qed.
Lemma index_lift {A} (o : outcome A) : keeps_index (lift o).
Proof. intros st Hst. apply wp_lift. by destruct o. Qed.
Lemma index_gets {A} (f : store → A) : keeps_index (gets f).
Proof. intros st Hst. by apply wp_gets. Qed.
Lemma index_update i fields : keeps_index (update i fields).
Proof.
  intros st [H1 H2]. apply wp_modify. simpl. rewrite length_alter. split; [|done].
  by split; simpl; rewrite length_alter.
Qed.
Lemma gives_keeps m : gives_index m → keeps_index m.
Proof. intros Hm st Hst. eapply wp_conseq; [by apply Hm| |done]. by intros i st' [? _]. Qed.
(** A position is used by what follows. *)
Lemma gives_bind {A} (m : ST nat) (k : nat → ST A) :
  gives_index m → (∀ i st, (i < length (threads st))%nat → indexed st →
    wp (k i) (λ _ st', indexed st' ∧ (length (threads st) ≤ length (threads st'))%nat) (λ _ _, True) st) →
  keeps_index (bind m k).
Proof.
  intros Hm Hk st Hst. apply wp_bind. eapply wp_conseq; [by apply Hm| |done]. intros i st1 [[H1 L1] Hi].
  eapply wp_conseq; [by apply Hk| |done]. intros b st2 [H2 L2]. split; [done|lia].
Qed.

Lemma index_pthread_keeps key i st :
  (i < length (threads st))%nat → indexed st →
  wp (index_pthread key i) (λ _ st', indexed st' ∧ (length (threads st) ≤ length (threads st'))%nat) (λ _ _, True) st.
Proof.
  intros Hi [H1 H2]. apply wp_bind, wp_lift. destruct (hashed key) as [k|]; [|done]. apply wp_modify. split; [|done].
  split; simpl; [|apply H2]. intros k' l j [Hl|Hl]%vset_elem Hj; [|by eapply H1]. simpl in Hl. subst l.
  apply elem_of_app in Hj as [Hj|Hj]; [|by apply list_elem_of_singleton in Hj as ->].
  destruct (vget k _) as [l|] eqn:Hg; [|by apply elem_of_nil in Hj]. apply vget_elem in Hg as (k1 & Hg). by eapply H1.
Qed.
Lemma index_tid_keeps key i st :
  (i < length (threads st))%nat → indexed st →
  wp (index_tid key i) (λ _ st', indexed st' ∧ (length (threads st) ≤ length (threads st'))%nat) (λ _ _, True) st.
Proof.
  intros Hi [H1 H2]. apply wp_bind, wp_lift. destruct (hashed key) as [k|]; [|done]. apply wp_modify. split; [|done].
  split; simpl; [apply H1|]. intros k' j [Hj|Hj]%vset_elem; [by simpl in Hj; subst j|by eapply H2].
Qed.
(** A step that uses a position, and then others. *)
Lemma wp_index_then {A B} (m : ST A) (k : A → ST B) st n Q :
  wp m (λ _ st', indexed st' ∧ (length (threads st) ≤ length (threads st'))%nat) (λ _ _, True) st →
  (n < length (threads st))%nat →
  (∀ a st', indexed st' → (n < length (threads st'))%nat → (length (threads st) ≤ length (threads st'))%nat →
    wp (k a) Q (λ _ _, True) st') → wp (bind m k) Q (λ _ _, True) st.
Proof.
  intros Hm Hn Hk. apply wp_bind. eapply wp_conseq; [exact Hm| |done]. intros a st' [H1 H2]. apply Hk; [done|lia|done].
Qed.
Lemma new_record_index pthread_value tid : gives_index (new_record pthread_value tid).
Proof.
  intros st [H1 H2]. unfold new_record. apply wp_bind. unfold wp at 1, append_thread.
  set (i := length (threads st)). set (st1 := {| threads := threads st ++ _ |}).
  assert (length (threads st1) = S i) as Hlen by (simpl; rewrite length_app; simpl; lia).
  assert (indexed st1) as Hst1.
  { split; unfold st1 at 1; simpl; rewrite length_app; intros.
    - eapply Nat.lt_lt_add_r, H1; eassumption.
    - eapply Nat.lt_lt_add_r, H2; eassumption. }
  apply (wp_index_then _ _ _ i); [|lia|].
  { apply wp_when; intros _; [apply index_pthread_keeps; [lia|done]|by split]. }
  intros _ st2 I2 L2 G2. apply (wp_index_then _ _ _ i); [|done|].
  { apply wp_when; intros _; [by apply index_tid_keeps|by split]. }
  intros _ st3 I3 L3 G3. apply wp_ret. split; [|done]. split; [done|lia].
Qed.
Lemma bind_tid_index i tid st :
  (i < length (threads st))%nat → indexed st →
  wp (bind_tid i tid) (λ _ st', indexed st' ∧ (length (threads st) ≤ length (threads st'))%nat) (λ _ _, True) st.
Proof.
  intros Hi Hst. unfold bind_tid. destruct (no_tid tid); [by apply wp_ret|].
  apply (wp_index_then _ _ _ i); [by apply index_update|done|]. intros _ st1 I1 L1 G1.
  eapply wp_conseq; [by apply index_tid_keeps| |done]. intros _ st2 [I2 L2]. split; [done|lia].
Qed.
Lemma bind_pthread_index i pthread_value st :
  (i < length (threads st))%nat → indexed st →
  wp (bind_pthread i pthread_value) (λ _ st', indexed st' ∧ (length (threads st) ≤ length (threads st'))%nat) (λ _ _, True) st.
Proof.
  intros Hi Hst. unfold bind_pthread. destruct (negb _); [by apply wp_ret|].
  apply wp_bind, wp_gets. destruct (py_eq _ _); [by apply wp_ret|].
  apply (wp_index_then _ _ _ i); [by apply index_update|done|]. intros _ st1 I1 L1 G1.
  eapply wp_conseq; [by apply index_pthread_keeps| |done]. intros _ st2 [I2 L2]. split; [done|lia].
Qed.

(** Positions that are found. *)
Lemma wp_find_tid key st : indexed st →
  wp (find_tid key) (λ r st', st' = st ∧ ∀ i, r = Some i → (i < length (threads st))%nat) (λ _ _, True) st.
Proof.
  intros [_ H2]. apply wp_bind, wp_lift. destruct (hashed key) as [k|]; [|done]. apply wp_gets. split; [done|].
  intros i (k' & Hi)%vget_elem. by eapply H2.
Qed.
Lemma wp_candidates key st : indexed st →
  wp (candidates_of key) (λ r st', st' = st ∧ ∀ i, i ∈ default [] r → (i < length (threads st))%nat) (λ _ _, True) st.
Proof.
  intros [H1 _]. apply wp_bind, wp_lift. destruct (hashed key) as [k|]; [|done]. apply wp_gets. split; [done|].
  destruct (vget k _) as [l|] eqn:Hl; simpl; [|by intros i ?%elem_of_nil]. apply vget_elem in Hl as (k' & Hl).
  intros i. by eapply H1.
Qed.
Lemma last_such_elem p l st i : last_such p l st = Some i → i ∈ l.
Proof. unfold last_such. intros Hi%last_Some_elem_of. by apply list_elem_of_filter in Hi as [_ Hi]. Qed.
Lemma eligible_elem p st l l' : eligible p st l = Ok l' → ∀ i, i ∈ l' → i ∈ l.
Proof.
  revert l'. induction l as [|j l IH]; intros l'; simpl; [by intros [= <-]|].
  intros (b & _ & (l1 & Hl1 & [= <-])%outcome_bind_ok)%outcome_bind_ok i.
  destruct b; rewrite ?elem_of_cons; [intros [->|?]|]; eauto.
Qed.
Lemma last_elem (i : nat) l : List.last l i ∈ i :: l.
Proof.
  revert i. induction l as [|j l IH]; intros i; [by left|]. destruct l as [|k l]; [by right; left|].
  specialize (IH i). change (List.last (k :: l) i ∈ i :: j :: k :: l).
  apply elem_of_cons in IH as [->|IH]; [by left|]. right. by right.
Qed.

Lemma record_for_tid_index tid : gives_index (record_for_tid tid).
Proof.
  intros st Hst. unfold record_for_tid. apply wp_bind. eapply wp_conseq; [by apply wp_find_tid| |done].
  intros [i|] st' [-> Hi]; [|by apply new_record_index]. apply wp_ret. split; [done|]. by apply Hi.
Qed.
Lemma find_latest_index p time : gives_index (find_latest_pthread_record p time).
Proof.
  intros st Hst. unfold find_latest_pthread_record. apply wp_bind. eapply wp_conseq; [by apply wp_candidates| |done].
  intros [[|i l]|] st' [-> Hi]; [by apply new_record_index| |by apply new_record_index]. simpl in Hi.
  destruct (is_None time); [apply wp_ret; split; [done|apply Hi, last_elem]|].
  apply wp_bind, wp_get, wp_bind, wp_lift. destruct (eligible _ _ _) as [l'|] eqn:Hl; [|done]. apply wp_ret.
  split; [done|]. destruct (last l') as [j|] eqn:Hj; simpl; apply Hi; [|apply last_elem].
  eapply eligible_elem; [done|]. by apply last_Some_elem_of.
Qed.
Lemma find_join_index p time : gives_index (find_join_record p time).
Proof.
  intros st Hst. unfold find_join_record. apply wp_bind. eapply wp_conseq; [by apply wp_candidates| |done].
  intros cs st' [-> Hi]. apply wp_bind, wp_get, wp_bind, wp_lift. destruct (eligible _ _ _) as [l'|] eqn:Hl; [|done].
  destruct (last l') as [j|] eqn:Hj; [|by apply find_latest_index]. apply wp_ret. split; [done|]. apply Hi.
  eapply eligible_elem; [done|]. by apply last_Some_elem_of.
Qed.
Lemma find_start_index p time : gives_index (find_start_record p time).
Proof.
  intros st Hst. unfold find_start_record. apply wp_bind. eapply wp_conseq; [by apply wp_candidates| |done].
  intros cs st' [-> Hi].
  assert (∀ q i, last_such q (default [] cs) st = Some i → (i < length (threads st))%nat) as Hlast.
  { intros q i Hq%last_such_elem. by apply Hi. }
  apply wp_bind. assert (∀ Q, (∀ r, (∀ i, r = Some i → (i < length (threads st))%nat) → Q r st) →
    wp (if is_None time then ret None else gets (last_such (created_at time) (default [] cs))) Q (λ _ _, True) st) as Hwp.
  { intros Q HQ. destruct (is_None time); [apply wp_ret, HQ; done|apply wp_gets, HQ; intros; by eapply Hlast]. }
  apply Hwp. intros r Hr. apply wp_bind, wp_gets. destruct r as [i|]; [apply wp_ret; split; [done|by apply Hr]|].
  destruct (last_such not_started _ _) as [i|] eqn:Hp; [apply wp_ret; split; [done|by eapply Hlast]|].
  apply wp_bind. eapply wp_conseq; [by apply new_record_index| |done]. intros i st1 [[I1 L1] Hi1].
  apply (wp_index_then _ _ _ i); [|done|].
  { apply wp_when; intros _; [by apply index_update|by split]. }
  intros _ st2 I2 L2 G2. apply wp_ret. split; [split; [done|lia]|done].
Qed.

Lemma index_when b (m : ST unit) : keeps_index m → keeps_index (when b m).
Proof. destruct b; [done|]. intros _. apply index_ret. Qed.
Lemma use_index {A} (m : ST nat) (k : nat → ST A) :
  gives_index m → (∀ i, keeps_index (k i)) → keeps_index (bind m k).
Proof. intros Hm Hk. apply index_bind; [by apply gives_keeps|done]. Qed.

(** *** The handlers *)

Lemma find_tid_keeps key : keeps_index (find_tid key).
Proof. apply index_bind; [apply index_lift|]. intros. apply index_gets. Qed.
Lemma candidates_keeps key : keeps_index (candidates_of key).
Proof. apply index_bind; [apply index_lift|]. intros. apply index_gets. Qed.
Create HintDb index.
Hint Resolve index_ret index_lift index_gets index_update find_tid_keeps candidates_keeps gives_keeps
  new_record_index record_for_tid_index find_latest_index find_join_index find_start_index : index.
Ltac solve_index := repeat (intros; match goal with
  | |- keeps_index (bind _ _) => apply index_bind
  | |- keeps_index (match ?x with _ => _ end) => destruct x
  | |- keeps_index (when _ _) => apply index_when
  | |- keeps_index _ => solve [eauto with index]
  end).

Lemma on_start_index event time : keeps_index (on_start event time).
Proof.
  apply gives_bind; [auto with index|]. intros i st Hi Hst. apply wp_bind, wp_gets.
  apply (wp_index_then _ _ _ i); [by apply index_update|done|]. intros _ st1 I1 L1 G1.
  eapply wp_conseq; [by apply bind_tid_index| |done]. intros _ st2 [I2 L2]. split; [done|lia].
Qed.
Lemma on_name_index event time : keeps_index (on_name event time).
Proof.
  intros st Hst. unfold on_name. set (caller := text_get "caller_tid" event).
  apply wp_bind. eapply (wp_conseq _ (λ r st', st' = st ∧ ∀ i, r = Some i → (i < length (threads st))%nat) _ (λ _ _, True));
    [destruct (no_tid caller); [by apply wp_ret|by apply wp_find_tid]| |done].
  intros found st' [-> Hf]. apply wp_bind.
  eapply (wp_conseq _ (λ i st', (indexed st' ∧ (length (threads st) ≤ length (threads st'))%nat) ∧ (i < length (threads st'))%nat)
    _ (λ _ _, True)); [|clear Hf|done].
  { destruct found as [i|]; [apply wp_ret; split; [done|by apply Hf]|by apply find_latest_index]. }
  intros i st1 [[I1 L1] Hi]. apply wp_bind, wp_gets. apply (wp_index_then _ _ _ i); [by apply index_update|done|].
  intros _ st2 I2 L2 G2. apply (wp_index_then _ _ _ i); [by apply bind_pthread_index|done|].
  intros _ st3 I3 L3 G3. apply wp_bind, wp_gets, wp_when; intros _; [|split; [done|lia]].
  eapply wp_conseq; [by apply bind_tid_index| |done]. intros _ st4 [I4 L4]. split; [done|lia].
Qed.
Lemma thread_event_index pr event : keeps_index (thread_event pr event).
Proof.
  pose proof on_start_index. pose proof on_name_index.
  unfold thread_event, on_process_start, on_create, on_exit, on_join_end, on_detach. solve_index.
Qed.
(** The indices of the tool are always consistent. *)
Lemma records_indexed events pr st : thread_records events empty_store = (Ok pr, st) → indexed st.
Proof.
  assert (keeps_index (thread_records events)) as Hk.
  { unfold thread_records. generalize start_progress. induction events as [|e l IH]; intros p; simpl; [apply index_ret|].
    apply index_bind; [apply thread_event_index|done]. }
  assert (indexed empty_store) as H0 by (split; [intros k l i Hi|intros k i Hi]; by apply elem_of_nil in Hi).
  intros Hr. by destruct (wp_ok _ _ _ _ _ _ (Hk _ H0) Hr).
Qed.

(** ** One record per thread *)

(** A creation and a start that the tracer wrote for one thread. *)
Record same_thread (creation start : pydict) (p : string) (t n : Z) : Prop := {
  named : p ≠ "";
  creation_pthread : text_get "pthread_value" creation = VStr p;
  start_pthread : text_get "pthread_value" start = VStr p;
  start_created : dgetd "create_timestamp_ns" VNone start = VInt t;
  start_tid : text_get "tid" start = VInt n;
  same_parent : dgetd "parent_tid" (text_get "caller_tid" creation) start = text_get "caller_tid" creation;
  same_entry k : k ∈ ["entry_address"; "entry_module"; "entry_symbol"] →
    dgetd k (text_get k creation) start = text_get k creation;
}.
(** No earlier thread with this handle was created at the time, or has yet to start. *)
Definition none_waits (st : store) (p : string) (t : Z) : Prop :=
  ∀ i, i ∈ default [] (vget (VStr p) (threads_by_pthread st)) →
    created_at (VInt t) (record_at i st) = false ∧ not_started (record_at i st) = false.

Lemma vget_vset_text {A} p (v : A) d : vget (VStr p) (vset (VStr p) v d) = Some v.
Proof.
  assert (py_eq (VStr p) (VStr p) = true) as Hp by by apply bool_decide_eq_true.
  induction d as [|[k w] d IH]; cbn [vset vget]; [by rewrite Hp|].
  destruct (py_eq (VStr p) k) eqn:Hk; cbn [vget]; by rewrite Hk.
Qed.
Lemma last_such_none p l st : (∀ i, i ∈ l → p (record_at i st) = false) → last_such p l st = None.
Proof.
  intros Hl. unfold last_such. replace (filter _ l) with ([] : list nat); [done|]. symmetry.
  induction l as [|i l IH]; [done|]. rewrite filter_cons, decide_False; [|by rewrite Hl by left].
  apply IH. intros j Hj. apply Hl. by right.
Qed.
Lemma last_such_snoc p l i st : p (record_at i st) = true → last_such p (l ++ [i]) st = Some i.
Proof. intros Hp. unfold last_such. rewrite filter_app, filter_cons, decide_True by done. apply last_snoc. Qed.
Lemma update_last l (f : thread → thread) (r : thread) : alter f (length l) (l ++ [r]) = l ++ [f r].
Proof. rewrite alter_app_r_alt by lia. by rewrite Nat.sub_diag. Qed.
Lemma record_at_last l r ps ts : record_at (length l) {| threads := l ++ [r]; threads_by_pthread := ps; threads_by_tid := ts |} = r.
Proof. unfold record_at. simpl. rewrite lookup_app_r by lia. by rewrite Nat.sub_diag. Qed.

Lemma default_some {A} (l : list A) : default [] (Some l) = l.
Proof. done. Qed.
Definition with_record (st : store) (p : string) (r : thread) (tids : list (pyval * nat)) : store := {|
  threads := threads st ++ [r];
  threads_by_pthread := vset (VStr p) (default [] (vget (VStr p) (threads_by_pthread st)) ++ [length (threads st)])
    (threads_by_pthread st);
  threads_by_tid := tids |}.
Lemma new_record_text st p :
  p ≠ "" → new_record (VStr p) (VStr "") st =
    (Ok (length (threads st)), with_record st p (blank (VStr p) (VStr "")) (threads_by_tid st)).
Proof. intros Hp. unfold new_record, bind, append_thread. cbn. by rewrite bool_decide_false. Qed.
Lemma update_record st p r tids fields :
  update (length (threads st)) fields (with_record st p r tids) = (Ok (), with_record st p (dupdate r fields) tids).
Proof. unfold update, modify, with_record. simpl. by rewrite update_last. Qed.
Lemma record_of st p r tids : record_at (length (threads st)) (with_record st p r tids) = r.
Proof. apply record_at_last. Qed.
Lemma candidates_with st p r tids :
  candidates_of (VStr p) (with_record st p r tids) =
    (Ok (Some (default [] (vget (VStr p) (threads_by_pthread st)) ++ [length (threads st)])), with_record st p r tids).
Proof. unfold candidates_of, bind, gets. cbn. by rewrite vget_vset_text. Qed.
Lemma bind_record st p r tids n :
  bind_tid (length (threads st)) (VInt n) (with_record st p r tids) =
    (Ok (), with_record st p (dupdate r [("tid", VInt n)]) (vset (VInt n) (length (threads st)) tids)).
Proof.
  unfold bind_tid, bind. change (no_tid (VInt n)) with false. cbv iota beta. by rewrite update_record.
Qed.

Lemma dgetd_cons k v k' x (d : pydict) : dgetd k v ((k', x) :: d) = if bool_decide (k = k') then x else dgetd k v d.
Proof. unfold dgetd. cbn [dget]. by destruct (bool_decide _). Qed.
(** Looks keys of records up. *)
Ltac compute_tests := repeat (cbn [dset foldl fst snd]; match goal with
  | |- context [bool_decide (?a = ?b :> string)] =>
      let v := eval vm_compute in (bool_decide (a = b)) in change (bool_decide (a = b)) with v; cbv iota
  end).
Ltac compute_keys := compute_tests; repeat (rewrite dgetd_cons; match goal with
  | |- context [bool_decide (?a = ?b :> string)] =>
      let v := eval vm_compute in (bool_decide (a = b)) in change (bool_decide (a = b)) with v; cbv iota
  end).

Section commute.
Context (creation start : pydict) (p : string) (t n : Z) (time : pyval) (st : store).
Context (Hsame : same_thread creation start p t n) (Hwait : none_waits st p t).
Abbreviation last_record := (length (threads st)).

Definition created : thread := dupdate (blank (VStr p) (VStr "")) (creation_fields creation (VInt t)).
Definition started (r : thread) : thread := dupdate (dupdate r (start_fields start time r)) [("tid", VInt n)].
Definition early : thread := dupdate (blank (VStr p) (VStr "")) [("created_ns", VInt t)].

Lemma create_fresh : on_create creation (VInt t) st = (Ok (), with_record st p created (threads_by_tid st)).
Proof.
  destruct Hsame as [Hp Hc _ _ _ _ _]. unfold on_create. rewrite Hc.
  unfold candidates_of, bind at 1 2, gets, lift. simpl hashed. cbv iota beta.
  unfold bind at 1. rewrite last_such_none by (intros i Hi; by apply Hwait).
  unfold bind. rewrite new_record_text by done. apply update_record.
Qed.
Lemma create_known r tids :
  created_at (VInt t) r = true → on_create creation (VInt t) (with_record st p r tids) =
    (Ok (), with_record st p (dupdate r (creation_fields creation (VInt t))) tids).
Proof.
  destruct Hsame as [Hp Hc _ _ _ _ _]. intros Hr. unfold on_create. rewrite Hc. unfold bind. rewrite candidates_with.
  unfold gets, ret. rewrite default_some, last_such_snoc by by rewrite record_of. apply update_record.
Qed.
Lemma start_known r :
  created_at (VInt t) r = true → on_start start time (with_record st p r (threads_by_tid st)) =
    (Ok (), with_record st p (started r) (vset (VInt n) last_record (threads_by_tid st))).
Proof.
  destruct Hsame as [Hp _ Hs Ht Hn _ _]. intros Hr. unfold on_start, find_start_record. rewrite Hs, Ht, Hn.
  unfold bind. rewrite candidates_with. unfold gets, ret. change (is_None (VInt t)) with false. cbv iota beta.
  rewrite default_some, last_such_snoc by by rewrite record_of. rewrite record_of, update_record. apply bind_record.
Qed.
Lemma start_fresh : on_start start time st =
  (Ok (), with_record st p (started early) (vset (VInt n) last_record (threads_by_tid st))).
Proof.
  destruct Hsame as [Hp _ Hs Ht Hn _ _]. unfold on_start, find_start_record. rewrite Hs, Ht, Hn.
  unfold candidates_of, bind, gets, lift, ret. simpl hashed. cbv iota beta. change (is_None (VInt t)) with false. cbv iota beta.
  rewrite !last_such_none by (intros i Hi; by apply Hwait). rewrite new_record_text by done.
  cbn [negb when]. rewrite update_record. fold early. rewrite record_of, update_record. apply bind_record.
Qed.
Lemma created_when_created : created_at (VInt t) created = true ∧ created_at (VInt t) (started early) = true.
Proof.
  destruct Hsame as [_ _ _ Ht _ _ _]. split;
    unfold created_at, started, created, early, start_fields, creation_fields, blank, field, dupdate; rewrite ?Ht;
    compute_keys; unfold val_or; repeat case_match; apply Z.eqb_refl.
Qed.
Lemma one_record : started created = dupdate (started early) (creation_fields creation (VInt t)).
Proof.
  clear Hwait. destruct Hsame as [_ _ _ Ht _ Hparent Hentry].
  pose proof (Hentry "entry_address" ltac:(set_solver)). pose proof (Hentry "entry_module" ltac:(set_solver)).
  pose proof (Hentry "entry_symbol" ltac:(set_solver)).
  unfold started, created, early, start_fields, creation_fields, blank, field, dupdate. rewrite Ht.
  compute_keys. unfold val_or. repeat case_match; congruence.
Qed.
End commute.

(** C40: a thread has one record, whichever of its creation and its start comes first.  Take a creation and a start that
    name the same handle and the same creation time, and agree on what both of them tell, in a state in which no other
    thread with the handle was created at this time or has yet to start.  Then both orders of the two events lead to the
    same state of the tool: one more record, with the times, the thread id, the parent and the entry of the thread. *)
Theorem creation_and_start_commute creation start p t n u pr st :
  dgetd "event" VNone creation = VStr "pthread_create" → dgetd "event" VNone start = VStr "thread_start" →
  dgetd "timestamp_ns" VNone creation = VInt t → dgetd "timestamp_ns" VNone start = VInt u →
  same_thread creation start p t n → none_waits st p t →
  fold_each [start; creation] pr thread_event st = fold_each [creation; start] pr thread_event st ∧
  ∃ pr' st' r, fold_each [creation; start] pr thread_event st = (Ok pr', st') ∧ threads st' = threads st ++ [r] ∧
    field "pthread_value" r = VStr p ∧ field "created_ns" r = VInt t ∧ field "started_ns" r = VInt u ∧
    field "tid" r = VInt n ∧ field "parent_tid" r = text_get "caller_tid" creation ∧
    field "entry_symbol" r = text_get "entry_symbol" creation ∧ field "create_result" r = text_get "result" creation.
Proof.
  intros Hc Hs Ht Hu Hsame Hwait. set (time := VInt u).
  destruct (created_when_created creation start p t n time Hsame) as [C1 C2].
  assert (∀ q x, thread_event q creation x = (on_create creation (VInt t) ;;
    ret {| phases := phases q; origin_ns := origin_ns q; trace_end_ns := later (VInt t) (trace_end_ns q) |}) x) as Ec.
  { intros q x. unfold thread_event, is_event. by rewrite Hc, Ht. }
  assert (∀ q x, thread_event q start x = (on_start start time ;;
    ret {| phases := phases q; origin_ns := origin_ns q; trace_end_ns := later time (trace_end_ns q) |}) x) as Es.
  { intros q x. unfold thread_event, is_event. by rewrite Hs, Hu. }
  assert (later time (later (VInt t) (trace_end_ns pr)) = later (VInt t) (later time (trace_end_ns pr))) as El.
  { unfold later. simpl. destruct (trace_end_ns pr); simpl; f_equal; lia. }
  assert (fold_each [creation; start] pr thread_event st =
    (Ok {| phases := phases pr; origin_ns := origin_ns pr; trace_end_ns := later time (later (VInt t) (trace_end_ns pr)) |},
     with_record st p (started start n time (created creation p t)) (vset (VInt n) (length (threads st)) (threads_by_tid st))))
    as E1.
  { cbn [fold_each]. unfold bind at 1. rewrite Ec. unfold bind at 1. rewrite (create_fresh creation start p t n st Hsame Hwait).
    unfold ret at 1. unfold bind at 1. rewrite Es. unfold bind at 1. by rewrite (start_known creation start p t n time st Hsame). }
  rewrite E1. split.
  - cbn [fold_each]. unfold bind at 1. rewrite Es. unfold bind at 1.
    rewrite (start_fresh creation start p t n time st Hsame Hwait).
    unfold ret at 1. unfold bind at 1. rewrite Ec. unfold bind at 1.
    rewrite (create_known creation start p t n st Hsame) by exact C2.
    unfold ret. simpl. by rewrite El, (one_record creation start p t n time Hsame).
  - do 3 eexists. split; [done|]. split; [done|]. rewrite (one_record creation start p t n time Hsame).
    unfold field, started, early, start_fields, creation_fields, blank, field, dupdate.
    destruct Hsame as [_ _ _ Hcreated _ _ _]. rewrite Hcreated. compute_keys. unfold val_or.
    split_and!; repeat case_match; done.
Qed.

(** A creation that the tracer wrote after the start of the thread, and nothing before. *)
Module demo.
Definition creation : pydict := [
  ("event", VStr "pthread_create"); ("timestamp_ns", VInt 1000); ("pthread_value", VStr "0x7f"); ("caller_tid", VInt 10);
  ("entry_symbol", VStr "worker"); ("entry_module", VStr "librealsense2.so"); ("entry_address", VStr "0x1"); ("result", VInt 0)].
Definition start : pydict := [
  ("event", VStr "thread_start"); ("timestamp_ns", VInt 1500); ("pthread_value", VStr "0x7f"); ("tid", VInt 11);
  ("create_timestamp_ns", VInt 1000); ("parent_tid", VInt 10); ("name", VStr "uvc")].
End demo.
Lemma creation_and_start_commute_witness :
  fold_each [demo.start; demo.creation] start_progress thread_event empty_store =
    fold_each [demo.creation; demo.start] start_progress thread_event empty_store ∧
  is_ok (fold_each [demo.creation; demo.start] start_progress thread_event empty_store).1 = true.
Proof.
  destruct (creation_and_start_commute demo.creation demo.start "0x7f" 1000 11 1500 start_progress empty_store)
    as (Heq & pr & st & r & Hr & _).
  - reflexivity.
  - reflexivity.
  - reflexivity.
  - reflexivity.
  - split; [done|reflexivity|reflexivity|reflexivity|reflexivity|reflexivity|].
    intros k Hk. repeat (apply elem_of_cons in Hk as [->|Hk]; [reflexivity|]). by apply elem_of_nil in Hk.
  - intros i Hi. by apply elem_of_nil in Hi.
  - split; [exact Heq|]. by rewrite Hr.
Defined.

(** ** Samples by function *)

(** The samples of a thread in the table. *)
Definition samples_of (tid : string) (l : list (sample_key * Z)) : Z :=
  foldr Z.add 0 (map snd (filter (λ c, thread_of c.1 = tid) l)).
Lemma kget_kset {K A} `{EqDecision K} (k k' : K) (v : A) d :
  kget k' (kset k v d) = if bool_decide (k' = k) then Some v else kget k' d.
Proof. induction d as [|[]]; simpl; repeat (case_bool_decide; simplify_eq/=); done. Qed.
Lemma samples_of_cons tid c l :
  samples_of tid (c :: l) = (if bool_decide (thread_of c.1 = tid) then c.2 else 0) + samples_of tid l.
Proof. unfold samples_of. rewrite filter_cons. case_bool_decide; case_decide; done. Qed.
Lemma samples_of_count tid key l :
  samples_of tid (kset key (default 0 (kget key l) + 1) l) =
    samples_of tid l + (if bool_decide (thread_of key = tid) then 1 else 0).
Proof.
  induction l as [|[k n] l IH].
  - cbn [kset kget default]. rewrite samples_of_cons. simpl. unfold samples_of. simpl. case_bool_decide; lia.
  - cbn [kset kget]. destruct (bool_decide_reflect (key = k)) as [->|Hk]; rewrite !samples_of_cons; cbn [fst snd].
    + simpl. case_bool_decide; lia.
    + rewrite IH. lia.
Qed.
(** Each thread's total is the number of its samples in the table, and no line of the table is empty. *)
Definition counted (p : perf) : Prop :=
  (∀ tid, samples_of tid (counts p) = default 0 (kget tid (totals p))) ∧
  ∀ key n, kget key (counts p) = Some n → 0 < n ∧ is_Some (kget key (first_seen p)) ∧ is_Some (kget key (last_seen p)).
Lemma add_sample_counted tid time function module srcline p :
  counted p → counted (add_sample tid time function module srcline p).
Proof.
  intros [Hsum Hpos]. unfold add_sample. destruct (_ || _); [done|]. destruct (source_of srcline) as [file line].
  set (key := (tid, function, module, file, line)). split; cbn [counts totals first_seen last_seen].
  - intros t. rewrite samples_of_count, kget_kset, Hsum. change (thread_of key) with tid.
    repeat case_bool_decide; simplify_eq/=; lia.
  - intros k n. rewrite !kget_kset. case_bool_decide as Hk; [|apply Hpos]. intros [= <-]. split; [|by split].
    destruct (kget key (counts p)) as [m|] eqn:Hm; simpl; [|lia]. destruct (Hpos _ _ Hm). lia.
Qed.
(** The samples of a script are all counted: whatever the lines are, the counts of each thread in the table of functions
    add up to its total, by which its percentages are divided; every line of the table has at least one sample and the
    times of the first and the last one. *)
Theorem samples_are_counted lines : counted (perf_lines None no_samples lines).
Proof.
  assert (∀ n lines current p, (length lines ≤ n)%nat → counted p → counted (perf_lines current p lines)) as H.
  { clear. intros n. induction n as [|n IH]; intros [|line lines] current p Hn Hp; simpl in *; try done; try lia.
    assert (∀ m, counted (add_field m p)) as Hfield.
    { intros [[t u] rest]. unfold add_field. case_bool_decide; [|done]. by apply add_sample_counted. }
    assert (∀ c rest s, counted (add_frame c rest s p)) as Hframe.
    { intros c rest s. unfold add_frame. destruct (default _ _) as [f m]. by apply add_sample_counted. }
    destruct (field_match line) as [m|]; [by apply IH; [lia|]|].
    destruct (header_match line); [by apply IH; [lia|]|].
    destruct (frame_match line) as [rest|], current as [c|]; [|by apply IH; [lia|]..].
    destruct (source_line_of lines) as [s|], lines as [|next lines]; cbn [length] in Hn; cbv iota;
      first [exact (Hframe _ _ _) | apply IH; [cbn [length]; lia|exact (Hframe _ _ _)]]. }
  apply (H (length lines)); [done|]. split; [done|]. by intros.
Qed.

(** A script with both kinds of lines.  The times are compared as texts: of the samples at 9.5 and 10.1 the second is
    said to be the first. *)
Example first_time_is_a_text :
  let p := perf_lines None no_samples [
    "probe 11 9.5:"; "  7f01 uvc_poll+0x4 (librealsense2.so+0x12)"; "  backend.cpp:42";
    "probe 11 10.1:"; "  7f01 uvc_poll+0x4 (librealsense2.so+0x12)"; "  backend.cpp:42"] in
  counts p = [(("11", "uvc_poll+0x4", "librealsense2.so", "backend.cpp", "42"), 2)] ∧
  map snd (first_seen p) = ["10.1"] ∧ map snd (last_seen p) = ["9.5"].
Proof. vm_compute. done. Qed.
(** The order of the table, and the lifetimes of its threads. *)
Example thread_rows :
  (λ h, map (λ r, (str_val (field "tid" r), str_val (field "name" r))) (h_threads h)) <$>
    thread_history [
      [("event", VStr "phase_marker"); ("name", VStr "process_start"); ("tid", VInt 10); ("timestamp_ns", VInt 500)];
      demo.start; demo.creation] = Ok [("10", "main"); ("11", "uvc")].
Proof. vm_compute. reflexivity. Qed.
