(* ===== verification/Commands.v ===== *)
(** * Commands of the benchmarks ([commands.py], [settings.py], [steady_settings.py])

    The scheduling prefix of a policy, the command line of a traced benchmark,
    the check of the tracing tools, the build of the thread tracer, and the
    fixed controls of the campaigns.  [repo_root] is the directory of the
    repository. *)
From Stdlib Require Import Ascii ZArith Lia Floats.SpecFloat.
From S2P Require Import Prelude PyStr PyFloat PyVal Effects Machine Shell.
From stdpp Require Import base gmap strings list.
Local Open Scope Z_scope.
Local Open Scope py_scope.
Local Open Scope M_scope.

(** ** Settings *)

Definition PAPER_BACKEND : string := "v4l2".
Definition PAPER_USB_KERNEL_DRIVER : string := "uvcvideo".
Definition PAPER_CPU_FREQUENCY_MHZ : Z := 1500.
Definition PAPER_DROP_CACHES_BEFORE_RUN : bool := true.
Definition PAPER_RT_PRIORITY : Z := 80.
Definition PAPER_CPU_ISOLATION_ENABLED : bool := true.
Definition PAPER_HOUSEKEEPING_CPUS : string := "0".
Definition PAPER_BENCHMARK_CPUS : string := "1-3".
Definition BASE_POLICY_NAMES : list (string * string) :=
  [("other", "SCHED_OTHER"); ("rr", "SCHED_RR"); ("fifo", "SCHED_FIFO")].
Definition POLICY_NAMES : list (string * string) :=
  dupdate BASE_POLICY_NAMES
    [("deadline", "SCHED_DEADLINE"); ("rr-rm", "SCHED_RR_RM"); ("fifo-rm", "SCHED_FIFO_RM")].
Definition MODELED_POLICIES : list string := ["deadline"; "rr-rm"; "fifo-rm"].
Definition CAMPAIGN_BUILD_TYPE : string := "RelWithDebInfo".

Section paths.
Context (repo_root : string).
Definition TOOLS_DIR : string := repo_root // "tools".
Definition TOOL_DIR : string := TOOLS_DIR // "realsense_steady_bench".
Definition TRACER_SOURCE : string := repo_root // "tools" // "realsense_thread_trace" // "trace_pthreads.c".
Definition CPU_LOCK : string := repo_root // "scripts" // "lock_cpu_freq.sh".
Definition CPU_RESTORE : string := repo_root // "scripts" // "restore_cpu_freq_default.sh".
Definition RSUSB_HELPER : string := repo_root // "scripts" // "realsense_rsusb_uvc.sh".
Definition NCNN_MODEL_PARAM : string :=
  repo_root // "deps" // "ncnn" // "benchmark" // "models" // "mobilenet_v2.param".
End paths.

(** ** Command lines *)

Definition scheduler_prefix (policy : string) (priority : Z) : outcome (list string) :=
  if bool_decide (policy = "other") then Ok ["chrt"; "--other"; "0"]
  else if bool_decide (policy = "rr") then Ok ["chrt"; "--rr"; str_Z priority]
  else if bool_decide (policy = "fifo") then Ok ["chrt"; "--fifo"; str_Z priority]
  else if bool_decide (policy ∈ ["deadline"; "rr-rm"; "fifo-rm"]) then Ok ["chrt"; "--other"; "0"]
  else raise ValueError ("Unsupported policy: " +:+ policy).

Definition traced_command (scheduled_command : list string) (tracer lifecycle_path lime lime_dir : string)
    (use_lime use_sudo : bool) (target_environment : list (string * string)) : list string :=
  let target := ["env"; "LD_PRELOAD=" +:+ tracer; "RS_THREAD_TRACE_FILE=" +:+ lifecycle_path]
    ++ map (λ nv, nv.1 +:+ "=" +:+ nv.2) target_environment ++ scheduled_command in
  let command := if use_lime then [lime; "trace"; "--best-effort"; "-o"; lime_dir; "--"] ++ target else target in
  if use_sudo then ["sudo"; "--preserve-env=LD_LIBRARY_PATH"] ++ command else command.

Section tools.
Context {W : Type} `{OS W} {T : Type}.
Abbreviation IO := (M (T * world W)).

Definition validate_trace_environment (lime : string) (use_lime : bool) : IO unit :=
  when use_lime
    (file <- sys (IsFile lime) ;;
     when (negb file) (throw RuntimeError ("LiME executable not found at " +:+ lime
       +:+ ". Build the unmodified dependency with: sh scripts/build_lime.sh"))) ;;
  found <- sys (Which "chrt") ;;
  when (negb found) (throw RuntimeError "chrt is required (normally provided by util-linux)").

(** [source.resolve().parents[2]]. *)
Definition parent_2 (p : string) : outcome string :=
  match path_parents p with
  | _ :: _ :: parent :: _ => Ok parent
  | _ => raise IndexError "2"
  end.
Definition build_pthread_tracer (output source : string) (compiler : option string) : IO unit :=
  compiler <- (match compiler with
               | Some c => if bool_decide (c = "") then cc <- sys (GetEnv "CC") ;; ret (default "cc" cc) else ret c
               | None => cc <- sys (GetEnv "CC") ;; ret (default "cc" cc)
               end) ;;
  resolved <- sys (Resolve source) ;;
  root <- lift (parent_2 resolved) ;;
  check_call [compiler; "-shared"; "-fPIC"; "-g"; "-O2"; "-fno-omit-frame-pointer"; "-Wall"; "-Wextra";
    "-I"; root // "include"; "-o"; output; source; "-ldl"; "-pthread"].
End tools.

(** The scheduled command is what a traced one runs, whatever wraps it. *)
Lemma traced_command_runs scheduled tracer lifecycle lime lime_dir use_lime use_sudo environment :
  ∃ wrapping, traced_command scheduled tracer lifecycle lime lime_dir use_lime use_sudo environment
    = wrapping ++ scheduled.
Proof.
  unfold traced_command. destruct use_lime, use_sudo; rewrite !app_assoc; eexists; reflexivity.
Qed.
