(* ===== verification/Memory.v ===== *)
(** * Cold caches before a run ([memory.py])

    The hook that writes dirty pages out and drops the file-system caches before
    an attempt, the record it leaves, and the columns that are read from it.
    The dictionary [metadata] is the local state of the hook. *)
From Stdlib Require Import Ascii ZArith Lia Floats.SpecFloat.
From S2P Require Import Prelude PyStr PyFloat PyVal Effects Machine.
From stdpp Require Import base gmap strings list.
Local Open Scope Z_scope.
Local Open Scope py_scope.
Local Open Scope M_scope.

Definition DROP_CACHES_PATH : string := "/proc/sys/vm/drop_caches".
Definition MEMINFO_PATH : string := "/proc/meminfo".
Definition MEMINFO_FIELDS : list string :=
  ["MemTotal"; "MemFree"; "MemAvailable"; "Buffers"; "Cached"; "SReclaimable"; "Shmem"; "SwapCached"].
Definition MEMORY_CLEANUP_FILENAME : string := "memory_cleanup_before_run.json".

Definition meminfo_line (values : pydict) (line : string) : outcome pydict :=
  let '(key, separator, remainder) := py_partition ":"%char line in
  if negb separator || negb (bool_decide (key ∈ MEMINFO_FIELDS)) then Ok values else
  match py_words remainder with
  | [] => Ok values
  | field :: _ => n ← py_int (VStr field); Ok (dset key (VInt n) values)
  end.

Section hook.
Context {W : Type} `{OS W} (use_sudo : bool).

Section methods.
Context {T : Type}.
Abbreviation IO := (M (T * world W)).

Definition _read_meminfo_kib : IO pydict :=
  text <- sys (ReadText MEMINFO_PATH) ;;
  lift (fold_outcome meminfo_line [] (py_splitlines text)).

Definition validate : IO unit :=
  platform <- sys Platform ;;
  when (negb (py_startswith "linux" platform))
    (throw RuntimeError "per-run cache dropping is supported only on Linux") ;;
  file <- sys (IsFile DROP_CACHES_PATH) ;;
  when (negb file) (throw RuntimeError ("Linux drop-caches control is missing: " +:+ DROP_CACHES_PATH)) ;;
  for_each ["sync"; "tee"] (λ utility,
    found <- sys (Which utility) ;;
    when (negb found) (throw RuntimeError (utility +:+ " is required for per-run cache dropping"))) ;;
  if use_sudo then
    found <- sys (Which "sudo") ;;
    when (negb found) (throw RuntimeError "sudo is required for per-run cache dropping")
  else
    euid <- sys GetEuid ;;
    if bool_decide (euid = 0) then ret () else
    writable <- sys (MayWrite DROP_CACHES_PATH) ;;
    when (negb writable)
      (throw RuntimeError "dropping caches requires root; run the campaign with sudo enabled").

Definition tee_command : list string := ["tee"; DROP_CACHES_PATH].
Definition _drop_command : IO (list string) :=
  if negb use_sudo then ret tee_command else
  euid <- sys GetEuid ;;
  ret (if bool_decide (euid = 0) then tee_command else ["sudo"; "--non-interactive"] ++ tee_command).

Definition _run (command : list string) (input_text : option string) : IO completed :=
  completed <- sys (RunCommand command input_text None) ;;
  when (negb (bool_decide (returncode completed = 0)))
    (let detail := str_or (py_strip (stderr completed)) (py_strip (stdout completed)) in
     throw RuntimeError (py_join " " command +:+ " exited with " +:+ str_Z (returncode completed)
       +:+ (if bool_decide (detail = "") then "" else ": " +:+ detail))) ;;
  ret completed.
End methods.

Definition cleanup_metadata (drop_command : list string) (before : pydict) (start_ns : Z) : pydict := [
  ("schema_version", VInt 1); ("enabled", VBool true); ("success", VBool false);
  ("operation", VStr "sync_and_drop_linux_filesystem_caches"); ("drop_caches_value", VInt 3);
  ("scope", VStr "page_cache_dentries_inodes"); ("anonymous_memory_cleared", VBool false);
  ("commands", VList [VList [VStr "sync"]; VList (map VStr drop_command)]);
  ("meminfo_before_kib", VDict before); ("start_boottime_ns", VInt start_ns)].
Definition note_metadata (k : string) (v : pyval) : M (pydict * world W) unit := set_self (dset k v).

(** The [try] statement. *)
Definition sync_and_drop (drop_command : list string) : M (pydict * world W) unit :=
  try_except is_Exception
    (_run ["sync"] None ;; _run drop_command (Some ("3" +:+ nl)) ;; note_metadata "success" (VBool true))
    (λ e, note_metadata "error" (VStr (exn_name (exn_type e) +:+ ": " +:+ exn_msg e)) ;; rethrow e).
(** Its [finally] clause. *)
Definition complete_metadata (start_ns : Z) : M (pydict * world W) unit :=
  end_ns <- sys BoottimeNs ;;
  note_metadata "end_boottime_ns" (VInt end_ns) ;;
  duration <- lift (f_div (f_of_Z (end_ns - start_ns)) (f_of_Z 1000000)) ;;
  note_metadata "duration_ms" (VFloat duration) ;;
  after <- _read_meminfo_kib ;;
  note_metadata "meminfo_after_kib" (VDict after).
Definition write_metadata (output_path : string) (start_ns : Z) : M (pydict * world W) unit :=
  complete_metadata start_ns ;;
  metadata <- self id ;;
  sys (WriteJson output_path (VDict metadata)).

(** [DropCachesBeforeRun.__call__]. *)
Definition drop_caches {T} (record_dir : string) : M (T * world W) unit :=
  sys (Mkdir record_dir true) ;;
  drop_command <- _drop_command ;;
  before <- _read_meminfo_kib ;;
  start_ns <- sys BoottimeNs ;;
  local (cleanup_metadata drop_command before start_ns)
    (try_finally (sync_and_drop drop_command)
       (write_metadata (record_dir // MEMORY_CLEANUP_FILENAME) start_ns)).

Definition memory_cleanup_result_fields {T} (record_data_dir : string) (configured : bool) :
    M (T * world W) pydict :=
  let path := record_data_dir // MEMORY_CLEANUP_FILENAME in
  file <- sys (IsFile path) ;;
  value <- (if (file : bool) then sys (ReadJson path) else ret (VDict [])) ;;
  metadata <- lift (as_dict value) ;;
  let before := dgetd "meminfo_before_kib" (VDict []) metadata in
  let after := dgetd "meminfo_after_kib" (VDict []) metadata in
  let field v k := (d ← as_dict v; Ok (dgetd k (VStr "") d)) in
  available_before <- lift (field before "MemAvailable") ;;
  available_after <- lift (field after "MemAvailable") ;;
  cached_before <- lift (field before "Cached") ;;
  cached_after <- lift (field after "Cached") ;;
  sreclaimable_before <- lift (field before "SReclaimable") ;;
  sreclaimable_after <- lift (field after "SReclaimable") ;;
  ret [("memory_cleanup_enabled", VBool configured);
    ("memory_cleanup_recorded", VBool (negb (bool_decide (metadata = []))));
    ("memory_cleanup_success", dgetd "success" (VStr "") metadata);
    ("memory_cleanup_duration_ms", dgetd "duration_ms" (VStr "") metadata);
    ("memory_available_before_kib", available_before); ("memory_available_after_kib", available_after);
    ("memory_cached_before_kib", cached_before); ("memory_cached_after_kib", cached_after);
    ("memory_sreclaimable_before_kib", sreclaimable_before);
    ("memory_sreclaimable_after_kib", sreclaimable_after)].
End hook.

(** ** What the hook leaves *)

(** The steps that write nothing into the log. *)
Definition same_log {W} : relation (world W) := λ x y, w_log y = w_log x.
#[export] Instance same_log_preorder {W} : PreOrder (@same_log W).
Proof. unfold same_log. split; [done|]. intros x y z. congruence. Qed.
Lemma same_log_sys {W} `{OS W} {T A} (c : syscall A) :
  (∀ r, note c r = []) → within (on_world same_log) (sys (S := T) c).
Proof.
  intros Hn [s w]. unfold sys, on_world, same_log. destruct (handle c (w_os w)) as [r o]. simpl.
  by rewrite Hn, app_nil_r.
Qed.
Ltac solve_same_log := repeat (intros; match goal with
  | |- within _ (sys _) => apply same_log_sys; by intros
  | |- within _ (set_self _) => apply within_set_self; typeclasses eauto
  | |- within _ _ => progress solve_within
  end).

Section log.
Context {W : Type} `{OS W} (use_sudo : bool).
Implicit Types w : world W.

Lemma read_meminfo_log {T} : within (on_world same_log) (_read_meminfo_kib (W := W) (T := T)).
Proof. unfold _read_meminfo_kib. solve_same_log. Qed.
Lemma drop_command_log {T} : within (on_world same_log) (_drop_command (W := W) use_sudo (T := T)).
Proof. unfold _drop_command. solve_same_log. Qed.

(** The two forms of the command that drops the caches. *)
Definition drops (command : list string) : Prop :=
  command = tee_command ∨ command = ["sudo"; "--non-interactive"] ++ tee_command.
Lemma drop_command_drops {T} (x : T * world W) :
  wp (_drop_command use_sudo) (λ command y, drops command ∧ w_log y.2 = w_log x.2)
    (λ _ y, w_log y.2 = w_log x.2) x.
Proof.
  eapply wp_conseq; [apply (wp_and_within (on_world same_log)); [apply drop_command_log|]| |].
  - instantiate (1 := λ _ _, True). instantiate (1 := λ command _, drops command).
    unfold _drop_command. destruct (negb use_sudo); [by left|].
    apply wp_skip; [|done]. intros euid y. apply wp_ret. case_bool_decide; [by left|by right].
  - done.
  - by intros e y [_ ?].
Qed.

(** One command: its entry, with status 0 exactly when it returns. *)
Lemma run_log {T} command input (x : T * world W) :
  wp (_run command input)
    (λ _ y, y.1 = x.1 ∧ w_log y.2 = w_log x.2 ++ [ERun command input (Ok 0)])
    (λ _ y, y.1 = x.1 ∧ ∃ r, r ≠ Ok 0 ∧ w_log y.2 = w_log x.2 ++ [ERun command input r]) x.
Proof.
  destruct x as [s w]. unfold _run. apply wp_bind, wp_sys. intros [c|e] o _; simpl.
  - apply wp_bind. unfold when. case_bool_decide as Hc; simpl.
    + apply wp_ret. simpl. apply wp_ret. simpl. by rewrite Hc.
    + apply wp_throw. simpl. split; [done|]. exists (Ok (returncode c)). split; [congruence|done].
  - split; [done|]. by exists (Raise e).
Qed.

(** The commands of a cleanup, and whether both succeeded: the second one runs
    only after the first. *)
Inductive cleaned (drop : list string) : list entry → bool → Prop :=
  | sync_fails r : r ≠ Ok 0 → cleaned drop [ERun ["sync"] None r] false
  | drop_fails r : r ≠ Ok 0 →
      cleaned drop [ERun ["sync"] None (Ok 0); ERun drop (Some ("3" +:+ nl)) r] false
  | both_succeed : cleaned drop [ERun ["sync"] None (Ok 0); ERun drop (Some ("3" +:+ nl)) (Ok 0)] true.

Abbreviation state := (pydict * world W)%type.
Definition says (ok : bool) (metadata : pydict) : Prop := dget "success" metadata = Some (VBool ok).
Definition attempted (drop : list string) (ok : bool) (x y : state) : Prop :=
  says ok y.1 ∧ ∃ commands, cleaned drop commands ok ∧ w_log y.2 = w_log x.2 ++ commands.
Lemma says_dset k v ok d : k ≠ "success" → says ok d → says ok (dset k v d).
Proof. unfold says. intros Hk <-. by apply dget_dset_ne. Qed.
Lemma says_success ok d : says ok (dset "success" (VBool ok) d).
Proof. unfold says. by rewrite dget_dset, decide_True. Qed.

Lemma sync_and_drop_log drop (x : state) : says false x.1 →
  wp (sync_and_drop drop) (λ _ y, attempted drop true x y) (λ _ y, attempted drop false x y) x.
Proof.
  intros Hx. unfold sync_and_drop. apply wp_try, (wp_conseq _ (λ _ y, attempted drop true x y) _
    (λ _ y, attempted drop false x y)); [|done|].
  - apply wp_bind. eapply wp_conseq; [apply run_log| |].
    + intros _ y [Hy Hl]. apply wp_bind. eapply wp_conseq; [apply run_log| |].
      * intros _ [d w] [_ Hl']. apply wp_set_self. split; [apply says_success|].
        eexists. split; [apply both_succeed|]. simpl in *. by rewrite Hl', Hl, <- app_assoc.
      * intros e z (Hz & r & Hr & Hl'). split; [by rewrite Hz, Hy|].
        eexists. split; [by apply (drop_fails _ r)|]. by rewrite Hl', Hl, <- app_assoc.
    + intros e y (Hy & r & Hr & Hl). split; [by rewrite Hy|]. eexists. split; [by apply (sync_fails _ r)|done].
  - intros e [d w] [Hd Hc]. destruct (is_Exception e); [|done].
    apply wp_bind, wp_set_self, wp_rethrow. split; [by apply says_dset|done].
Qed.

(** The steps that leave the verdict and the log alone. *)
Definition noting : relation state := λ x y,
  (∀ ok, says ok x.1 → says ok y.1) ∧ w_log y.2 = w_log x.2.
#[local] Instance noting_preorder : PreOrder noting.
Proof. split; [done|]. intros x y z [S1 L1] [S2 L2]. split; [auto|congruence]. Qed.
Lemma complete_metadata_noting start_ns : within noting (complete_metadata start_ns).
Proof.
  assert (∀ A (c : syscall A), (∀ r, note c r = []) → within noting (sys c)) as Hsys.
  { intros A c Hn x. split; [by rewrite (keeps_sys c x)|by apply (same_log_sys c Hn)]. }
  assert (∀ k v, k ≠ "success" → within noting (note_metadata (W := W) k v)) as Hnote.
  { intros k v Hk [d w]. split; [intros ok; by apply says_dset|done]. }
  unfold complete_metadata, _read_meminfo_kib. solve_within; first [by apply Hsys|by apply Hnote].
Qed.

(** The record: written last, if at all. *)
Definition recorded (path : string) (ok : bool) (x y : state) : Prop :=
  ∃ m, says ok m ∧ w_log y.2 = w_log x.2 ++ [EWriteJson path (VDict m)].
Lemma write_metadata_log path start_ns ok (x : state) : says ok x.1 →
  wp (write_metadata path start_ns) (λ _ y, recorded path ok x y)
    (λ _ y, w_log y.2 = w_log x.2 ∨ recorded path ok x y) x.
Proof.
  intros Hx. apply wp_bind. eapply wp_within; [apply complete_metadata_noting| |by intros e y [_ ?]; left].
  intros _ [d w] [Hs Hl]. simpl in *. apply wp_bind, wp_self, wp_sys.
  assert (recorded path ok x (d, World w.(w_os) (w_log w ++ [EWriteJson path (VDict d)]))) as Hrec.
  { exists d. split; [by apply Hs|]. simpl. by rewrite Hl. }
  intros [[]|e] o _; [|right]; exact Hrec.
Qed.

(** The hook after its first entry: commands, then the record. *)
Definition cleanup_entries (path : string) (complete : bool) (new : list entry) : Prop :=
  ∃ drop commands ok, drops drop ∧ cleaned drop commands ok ∧
    ((complete = false ∧ new = commands) ∨ ∃ m, says ok m ∧ new = commands ++ [EWriteJson path (VDict m)]) ∧
    (complete = true → ok = true).

Lemma write_metadata_entries path start_ns drop commands ok (y : state) log record_dir :
  drops drop → cleaned drop commands ok → says ok y.1 → w_log y.2 = log ++ EMkdir record_dir :: commands →
  wp (write_metadata path start_ns)
    (λ _ z, ∃ new, w_log z.2 = log ++ EMkdir record_dir :: new ∧ cleanup_entries path ok new)
    (λ _ z, ∃ new, w_log z.2 = log ++ EMkdir record_dir :: new ∧ cleanup_entries path false new) y.
Proof.
  intros Hd Hc Hs Hl. eapply wp_conseq; [by apply write_metadata_log| |].
  - intros _ z (m & Hm & ->). rewrite Hl, <- app_assoc. eexists. split; [reflexivity|].
    exists drop, commands, ok. eauto 8.
  - intros e z [->|(m & Hm & ->)]; rewrite Hl; [|rewrite <- app_assoc]; (eexists; split; [reflexivity|]);
      exists drop, commands, ok; (split_and!; [done|done|eauto|done]).
Qed.
Lemma drop_caches_log {T} record_dir (x : T * world W) :
  let path := record_dir // MEMORY_CLEANUP_FILENAME in
  wp (drop_caches use_sudo record_dir)
    (λ _ y, ∃ new, w_log y.2 = w_log x.2 ++ EMkdir record_dir :: new ∧ cleanup_entries path true new)
    (λ _ y, ∃ new, w_log y.2 = w_log x.2 ++ EMkdir record_dir :: new ∧
       (new = [] ∨ cleanup_entries path false new)) x.
Proof.
  intros path. unfold drop_caches. destruct x as [s w]. apply wp_bind, wp_sys.
  intros [[]|e] o _; simpl; [|by exists []; auto].
  apply wp_bind. eapply wp_conseq; [apply drop_command_drops| |intros e y Hl; exists []; auto].
  intros drop y [Hdrop Hl]. apply wp_bind. eapply wp_within; [apply read_meminfo_log| |].
  2:{ intros e z Hz. exists []. split; [|by left]. unfold on_world, same_log in Hz. by rewrite Hz, Hl. }
  intros before z Hz. unfold on_world, same_log in Hz. rewrite Hl in Hz. clear Hl y. destruct z as [s' w'].
  apply wp_bind, wp_sys. intros [start_ns|e] o' _; simpl in *.
  2:{ exists []. by rewrite app_nil_r, Hz; auto. }
  apply wp_local, wp_finally.
  eapply wp_conseq; [by apply sync_and_drop_log| |]; intros ? y (Hs & commands & Hc & Hl); simpl in Hl;
    rewrite app_nil_r, Hz, <- app_assoc in Hl; simpl in Hl;
    (eapply wp_conseq; [exact (write_metadata_entries _ start_ns _ _ _ _ _ _ Hdrop Hc Hs Hl)| |]; simpl);
    intros ? z (new & Hnew & Hentries); eauto.
Qed.
End log.

(** The record of a cache cleanup tells what happened.  Whatever the
    operating system does, the hook makes its directory first; when it returns,
    it has run sync and then the drop of the caches, both with exit status 0, and
    then written a record that says success.  When it raises, the drop was run
    only after a sync that succeeded, and a record that was written is the last
    entry and says success exactly when both commands succeeded. *)
Theorem drop_caches_recorded {W} `{OS W} {T} (use_sudo : bool) record_dir (x : T * world W) :
  let path := record_dir // MEMORY_CLEANUP_FILENAME in
  let '(r, y) := drop_caches use_sudo record_dir x in
  ∃ new, w_log y.2 = w_log x.2 ++ EMkdir record_dir :: new ∧
    match r with
    | Ok _ => ∃ drop m, drops drop ∧ says true m ∧
        new = [ERun ["sync"] None (Ok 0); ERun drop (Some ("3" +:+ nl)) (Ok 0); EWriteJson path (VDict m)]
    | Raise _ => new = [] ∨ ∃ drop commands ok, drops drop ∧ cleaned drop commands ok ∧
        (new = commands ∨ ∃ m, says ok m ∧ new = commands ++ [EWriteJson path (VDict m)])
    end.
Proof.
  pose proof (drop_caches_log use_sudo record_dir x) as Hlog. simpl in Hlog. unfold wp in Hlog.
  destruct (drop_caches use_sudo record_dir x) as [[[]|e] y]; destruct Hlog as (new & Hl & Hnew).
  - exists new. split; [done|]. destruct Hnew as (drop & commands & ok & Hd & Hc & Hrec & Hok).
    rewrite (Hok eq_refl) in *. destruct Hrec as [[? _]|(m & Hm & ->)]; [done|].
    exists drop, m. split; [done|]. split; [done|]. by inversion Hc.
  - exists new. split; [done|]. destruct Hnew as [->|(drop & commands & ok & Hd & Hc & Hrec & _)]; [by left|].
    right. exists drop, commands, ok. split; [done|]. split; [done|].
    destruct Hrec as [[_ ->]|Hrec]; [by left|by right].
Qed.
