(* ===== verification/Bisect.v ===== *)
(** * Binary search ([bisect])

    [bisect_left] and [bisect_right] of the standard library, with the loop they
    run, so that they are defined on lists that are not sorted; on sorted lists
    they count. *)
From Stdlib Require Import ZArith Lia.
From S2P Require Import Prelude.
From stdpp Require Import base list sorting.
Local Open Scope Z_scope.

(** [lo] and [hi]: the search goes on behind the middle when it is before the
    place. *)
Fixpoint bisect_loop (fuel : nat) (before : Z → bool) (l : list Z) (lo hi : nat) : nat :=
  match fuel with
  | O => lo
  | S fuel =>
      if (lo <? hi)%nat then
        let mid := ((lo + hi) / 2)%nat in
        if before (nth mid l 0) then bisect_loop fuel before l (S mid) hi else bisect_loop fuel before l lo mid
      else lo
  end.
(** The length of the interval bounds the number of turns. *)
Definition bisect (before : Z → bool) (l : list Z) : nat := bisect_loop (length l) before l 0 (length l).
Definition bisect_left (l : list Z) (x : Z) : nat := bisect (λ y, bool_decide (y < x)) l.
Definition bisect_right (l : list Z) (x : Z) : nat := bisect (λ y, bool_decide (y <= x)) l.

Lemma bisect_loop_place before l k fuel lo hi :
  (∀ i, (i < k)%nat → before (nth i l 0) = true) → (∀ i, (k <= i < length l)%nat → before (nth i l 0) = false) →
  (lo <= k <= hi)%nat → (hi <= length l)%nat → (hi - lo <= fuel)%nat → bisect_loop fuel before l lo hi = k.
Proof.
  intros Hlow Hhigh. revert lo hi. induction fuel as [|fuel IH]; intros lo hi Hk Hhi Hf; cbn [bisect_loop]; [lia|].
  destruct (Nat.ltb_spec lo hi) as [Hlt|]; [|lia].
  assert (lo <= (lo + hi) / 2 < hi)%nat as Hmid.
  { pose proof (Nat.div_mod_eq (lo + hi) 2). pose proof (Nat.mod_upper_bound (lo + hi) 2). lia. }
  set (mid := ((lo + hi) / 2)%nat) in *.
  destruct (before (nth mid l 0)) eqn:Hb.
  - apply IH; [|lia..]. destruct (decide (k <= mid)%nat); [|lia]. rewrite Hhigh in Hb by lia. done.
  - apply IH; [|lia..]. destruct (decide (mid < k)%nat); [|lia]. by rewrite Hlow in Hb.
Qed.
Lemma filter_all {A} (P : A → Prop) `{!∀ x, Decision (P x)} l : Forall P l → filter P l = l.
Proof. induction 1 as [|x l Hx Hl IH]; [done|]. by rewrite filter_cons, decide_True, IH. Qed.
Lemma filter_none {A} (P : A → Prop) `{!∀ x, Decision (P x)} l : Forall (λ x, ¬ P x) l → filter P l = [].
Proof. induction 1 as [|x l Hx Hl IH]; [done|]. by rewrite filter_cons, decide_False. Qed.
(** The place of a value in a sorted list is the number of values before it. *)
Lemma bisect_count before l :
  StronglySorted (≤) l → (∀ x y, x <= y → before y = true → before x = true) →
  bisect before l = length (filter (λ x, before x = true) l).
Proof.
  intros Hl Hb. unfold bisect.
  assert (∀ i, (i < length (filter (λ x, before x = true) l))%nat → before (nth i l 0) = true) as Hlow.
  { induction Hl as [|x l Hl IH Hx]; intros i Hi; [simpl in Hi; lia|]. rewrite filter_cons in Hi.
    rewrite Forall_forall in Hx. destruct (decide (before x = true)) as [Hbx|Hbx].
    - destruct i as [|i]; [done|]. simpl in *. apply IH. lia.
    - rewrite filter_none in Hi; [simpl in Hi; lia|]. apply Forall_forall. intros y Hy Hby. apply Hbx.
      eapply Hb; [|done]. by apply Hx. }
  assert (∀ i, (length (filter (λ x, before x = true) l) <= i < length l)%nat → before (nth i l 0) = false) as Hhigh.
  { clear Hlow. induction Hl as [|x l Hl IH Hx]; intros i Hi; [simpl in Hi; lia|]. rewrite filter_cons in Hi.
    rewrite Forall_forall in Hx. destruct (decide (before x = true)) as [Hbx|Hbx].
    - destruct i as [|i]; simpl in *; [lia|]. apply IH. lia.
    - apply not_true_is_false. intros Hn. apply Hbx. destruct i as [|i]; [done|]. simpl in *.
      eapply Hb; [|exact Hn]. apply Hx, list_elem_of_In, nth_In. lia. }
  apply bisect_loop_place; auto; [|lia].
  split; [lia|]. apply length_filter.
Qed.
Lemma bisect_left_count l x : StronglySorted (≤) l → bisect_left l x = length (filter (λ y, y < x) l).
Proof.
  intros Hl. unfold bisect_left. rewrite bisect_count; [|done|intros y z ?; rewrite !bool_decide_eq_true; lia].
  f_equal. apply list_filter_iff. intros y. apply bool_decide_eq_true.
Qed.
Lemma bisect_right_count l x : StronglySorted (≤) l → bisect_right l x = length (filter (λ y, y <= x) l).
Proof.
  intros Hl. unfold bisect_right. rewrite bisect_count; [|done|intros y z ?; rewrite !bool_decide_eq_true; lia].
  f_equal. apply list_filter_iff. intros y. apply bool_decide_eq_true.
Qed.
