(* ===== verification/V4l2Trace.v ===== *)
(** * The V4L2 stage trace ([parse_v4l2_diagnostic_trace.py])

    The binary trace of librealsense's stages: the layout of the file (the two
    [struct.Struct] of the code, little-endian, without padding), the activation
    an event belongs to, the scan that finds gaps in frame sequences and pairs
    the begin and end of stages, and the summary.  The file is read at once; the
    two [read] calls are its parts. *)
From Stdlib Require Import Ascii Strings.Byte ZArith Lia Floats.SpecFloat.
From coqutil Require Import Word.LittleEndianList.
From S2P Require Import Prelude PyStr PyFloat PyVal PyJson FloatOrder Effects Machine.
From S2P Require Import Bisect Devices SchedTrace DeadlineProfile.
From stdpp Require Import base gmap strings list.
Local Open Scope Z_scope.
Local Open Scope py_scope.
Local Open Scope M_scope.

(** ** The file *)

#[export] Instance byte_eq_dec : EqDecision Byte.byte := Byte.byte_eq_dec.

Definition HEADER_size : nat := 48.
Definition EVENT_size : nat := 32.
Definition HEADER_BYTES : nat := 4096.
(** [b"RSV4L2D"]. *)
Definition MAGIC : list Byte.byte := String.list_byte_of_string "RSV4L2D".

(** An unsigned and a signed field of a [struct.Struct]. *)
Definition uint (raw : list Byte.byte) (offset size : nat) : Z := le_combine (take size (drop offset raw)).
Definition to_signed (size : nat) (z : Z) : Z :=
  if bool_decide (z < 2 ^ (8 * Z.of_nat size - 1)) then z else z - 2 ^ (8 * Z.of_nat size).
Definition sint (raw : list Byte.byte) (offset size : nat) : Z := to_signed size (uint raw offset size).

(** [HEADER], "<8sIIIIQQQ". *)
Record header := {
  magic : list Byte.byte;
  version : Z;
  header_size : Z;
  event_size : Z;
  capacity : Z;
  count : Z;
  dropped : Z;
}.
Definition unpack_header (raw : list Byte.byte) : header := {|
  magic := take 8 raw; version := uint raw 8 4; header_size := uint raw 12 4; event_size := uint raw 16 4;
  capacity := uint raw 24 8; count := uint raw 32 8; dropped := uint raw 40 8 |}.
(** [EVENT], "<QIHHiiII"; the last field is not used. *)
Record event := Event {
  ev_timestamp_ns : Z;
  ev_tid : Z;
  ev_cpu : Z;
  ev_stage_id : Z;
  ev_fd : Z;
  ev_result : Z;
  ev_sequence : Z;
}.
#[export] Instance event_eq_dec : EqDecision event.
Proof. solve_decision. Defined.
Definition unpack_event (raw : list Byte.byte) (offset : nat) : event :=
  Event (uint raw offset 8) (uint raw (offset + 8) 4) (uint raw (offset + 12) 2) (uint raw (offset + 14) 2)
    (sint raw (offset + 16) 4) (sint raw (offset + 20) 4) (uint raw (offset + 24) 4).

Definition stored_count (h : header) : Z := Z.min (count h) (capacity h).
(** The checks of the header, then the events. *)
Definition decode_trace (file : list Byte.byte) : outcome (header * list event) :=
  let raw_header := take HEADER_BYTES file in
  if bool_decide (length raw_header < HEADER_size)%nat then raise ValueError "V4L2 diagnostic trace header is truncated"
  else
  let h := unpack_header raw_header in
  if negb (bool_decide (take 7 (magic h) = MAGIC)) || negb (bool_decide (version h = 1)) then
    raise ValueError "unsupported V4L2 diagnostic trace"
  else if negb (bool_decide (header_size h = Z.of_nat HEADER_BYTES))
          || negb (bool_decide (event_size h = Z.of_nat EVENT_size)) then
    raise ValueError "unexpected V4L2 diagnostic trace layout"
  else
  let size := stored_count h * Z.of_nat EVENT_size in
  let rest := drop HEADER_BYTES file in
  let raw_events := take (Z.to_nat (Z.min size (Z.of_nat (length rest)))) rest in
  if negb (bool_decide (Z.of_nat (length raw_events) = size)) then
    raise ValueError "V4L2 diagnostic trace event array is truncated"
  else
    Ok (h, map (λ i, unpack_event raw_events (i * EVENT_size)) (seq 0 (Z.to_nat (stored_count h)))).

(** ** Stages *)

Definition STAGES : list (Z * string) := [
  (1, "select_return"); (2, "metadata_begin"); (3, "metadata_end"); (4, "video_dqbuf_begin"); (5, "video_dqbuf_end");
  (6, "metadata_dqbuf_begin"); (7, "metadata_dqbuf_end"); (8, "callback_begin"); (9, "callback_end");
  (10, "requeue_begin"); (11, "requeue_end"); (12, "sensor_timestamp_begin"); (13, "sensor_timestamp_end");
  (14, "sensor_allocate_begin"); (15, "sensor_allocate_end"); (16, "sensor_copy_begin"); (17, "sensor_copy_end");
  (18, "sensor_continue_begin"); (19, "sensor_continue_end"); (20, "sensor_invoke_begin"); (21, "sensor_invoke_end");
  (22, "syncer_match_begin"); (23, "syncer_match_end"); (24, "syncer_emit_begin"); (25, "syncer_emit_end");
  (26, "aggregator_enqueue_begin"); (27, "aggregator_enqueue_end"); (28, "pipeline_wait_begin");
  (29, "pipeline_wait_end"); (30, "format_convert_begin"); (31, "format_convert_end")].
Definition stage_name (id : Z) : string :=
  match filter (λ p, p.1 = id) STAGES with p :: _ => p.2 | [] => "unknown_" +:+ str_Z id end.
(** [PAIRS], from the end of a stage to its begin. *)
Definition PAIRS : list (string * string) :=
  map (λ stage, (stage, py_removesuffix "_end" stage +:+ "_begin")) (filter (λ stage, py_endswith "_end" stage = true) STAGES.*2).

(** ** Statistics *)

Definition percentile (values : list f64) (quantile : f64) : outcome f64 :=
  match f_sorted values with
  | [] => Ok f_zero
  | ordered =>
      let n := Z.of_nat (length ordered) in
      let position := f_mul quantile (f_of_Z (n - 1)) in
      low ← f_trunc position;
      let high := Z.min (low + 1) (n - 1) in
      let at_ i := nth (Z.to_nat i) ordered f_zero in
      mret (f_add (at_ low) (f_mul (f_sub (at_ high) (at_ low)) (f_sub position (f_of_Z low))))
  end.
Definition distribution (samples : list f64) : outcome pydict :=
  match samples with
  | [] => Ok (map (λ key, (key, VInt 0)) ["n"; "min"; "mean"; "p50"; "p90"; "p99"; "max"])
  | x :: l =>
      p50 ← percentile samples (f_dec 50 (-2));
      p90 ← percentile samples (f_dec 90 (-2));
      p99 ← percentile samples (f_dec 99 (-2));
      mret [("n", VInt (Z.of_nat (length samples))); ("min", VFloat (f_list_min x l));
            ("mean", VFloat (f_fmean samples)); ("p50", VFloat p50); ("p90", VFloat p90); ("p99", VFloat p99);
            ("max", VFloat (f_list_max x l))]
  end.

(** ** The steady state and the activations *)

(** The time stamps of a marker. *)
Definition marker_step (markers : list (string * Z)) (row : pyval) : outcome (list (string * Z)) :=
  d ← as_dict row;
  if py_eq (dgetd "event" VNone d) (VStr "phase_marker") then
    t ← (v ← subscript d "timestamp_ns"; py_int v);
    Ok (markers ++ [(str_val (dgetd "name" VNone d), t)])
  else Ok markers.
Definition times_of (name : string) (markers : list (string * Z)) : list Z := (filter (λ m, m.1 = name) markers).*2.
Definition window_of (markers : list (string * Z)) : outcome (Z * Z) :=
  match times_of "steady_state_begin" markers, times_of "steady_state_end" markers with
  | [b], [e] => if bool_decide (e <= b) then raise ValueError "lifecycle must contain one valid steady-state window"
                else Ok (b, e)
  | _, _ => raise ValueError "lifecycle must contain one valid steady-state window"
  end.
Definition phase_window {W} `{OS W} {T} (lifecycle_path : string) : M (T * world W) (Z * Z) :=
  rows <- sys (ReadJsonl lifecycle_path) ;;
  lift (markers ← fold_outcome marker_step [] rows; window_of markers).

Record activation_row := { a_activation : Z; a_release_ns : Z; a_completion_ns : Z }.
Definition row_int (row : list (string * string)) (k : string) : outcome Z :=
  match dget k row with Some text => py_int (VStr text) | None => key_error k end.
Definition activation_step (index : gmap Z (list activation_row)) (row : list (string * string)) :
    outcome (gmap Z (list activation_row)) :=
  tid ← row_int row "tid"; activation ← row_int row "activation"; release_ns ← row_int row "release_ns";
  completion_ns ← row_int row "completion_ns";
  Ok (<[tid := default [] (index !! tid) ++
        [{| a_activation := activation; a_release_ns := release_ns; a_completion_ns := completion_ns |}]]> index).
Definition load_activations {W} `{OS W} {T} (path : string) : M (T * world W) (gmap Z (list activation_row)) :=
  file <- sys (IsFile path) ;;
  if negb file then ret ∅ else
  rows <- sys (ReadCsv path) ;;
  index <- lift (fold_outcome activation_step ∅ rows) ;;
  ret (fmap (sort_on a_release_ns) index).
Definition activation_at (index : gmap Z (list activation_row)) (tid timestamp_ns : Z) : pyval :=
  match index !! tid with
  | None => VStr ""
  | Some rows =>
      match bisect_right (map a_release_ns rows) timestamp_ns with
      | O => VStr ""
      | S position => match rows !! position with
                      | Some row => if bool_decide (timestamp_ns <= a_completion_ns row) then VInt (a_activation row)
                                    else VStr ""
                      | None => VStr ""
                      end
      end
  end.

(** ** The events in order *)

Record event_row := Row {
  r_timestamp_ns : Z;
  r_in_steady_state : bool;
  r_tid : Z;
  r_cpu : Z;
  r_stage : string;
  r_fd : Z;
  r_result : Z;
  r_sequence : Z;
  r_activation : pyval;
}.
Definition make_row (window : Z * Z) (activations : gmap Z (list activation_row)) (e : event) : event_row :=
  Row (ev_timestamp_ns e) (bool_decide (window.1 <= ev_timestamp_ns e) && bool_decide (ev_timestamp_ns e <= window.2))
    (ev_tid e) (ev_cpu e) (stage_name (ev_stage_id e)) (ev_fd e) (ev_result e) (ev_sequence e)
    (activation_at activations (ev_tid e) (ev_timestamp_ns e)).
Definition row_lt (x y : event_row) : bool :=
  bool_decide (r_timestamp_ns x < r_timestamp_ns y)
  || bool_decide (r_timestamp_ns x = r_timestamp_ns y) && bool_decide (r_tid x < r_tid y).
Definition event_rows (window : Z * Z) (activations : gmap Z (list activation_row)) (l : list event) : list event_row :=
  sort_by row_lt (map (make_row window activations) l).

(** ** The scan *)

(** A gap in the sequence numbers of a stream. *)
Record gap := Gap {
  g_row : event_row;
  g_previous : Z;
}.
Definition g_delta (g : gap) : Z := r_sequence (g_row g) - g_previous g.
Definition missing_frames (g : gap) : Z := Z.max 0 (g_delta g - 1).
Definition out_of_order (g : gap) : bool := bool_decide (r_sequence (g_row g) <= g_previous g).
(** A begin and the end it is paired with. *)
Record duration := Duration {
  d_begin : event_row;
  d_end : event_row;
}.
Definition d_ns (d : duration) : Z := r_timestamp_ns (d_end d) - r_timestamp_ns (d_begin d).
Definition d_stage (d : duration) : string := py_removesuffix "_begin" (r_stage (d_begin d)).
Definition d_in_steady_state (d : duration) : bool := r_in_steady_state (d_begin d) && r_in_steady_state (d_end d).

(** The local variables of the loop; the defaultdicts are maps, and a key that
    was only looked at is not in them. *)
Record scan := Scan {
  previous_video_sequence : gmap (Z * Z) Z;
  sequence_gap_rows : list gap;
  video_frames_by_stream : gmap (Z * Z) Z;
  stacks : gmap (Z * Z * string) (list event_row);
  duration_rows : list duration;
}.
Definition start_scan : scan := Scan ∅ [] ∅ ∅ [].
Definition stream (r : event_row) : Z * Z := (r_tid r, r_fd r).
Definition is_frame (r : event_row) : bool := bool_decide (r_stage r = "video_dqbuf_end") && r_in_steady_state r.
Definition count_frame (r : event_row) (s : scan) : scan :=
  let key := stream r in
  let gaps := match previous_video_sequence s !! key with
              | Some previous => if bool_decide (r_sequence r = previous + 1) then [] else [Gap r previous]
              | None => []
              end in
  Scan (<[key := r_sequence r]> (previous_video_sequence s)) (sequence_gap_rows s ++ gaps)
    (<[key := default 0 (video_frames_by_stream s !! key) + 1]> (video_frames_by_stream s)) (stacks s) (duration_rows s).
(** A stack is a list with its top first. *)
Definition stack_of (key : Z * Z * string) (s : scan) : list event_row := default [] (stacks s !! key).
Definition set_stack (key : Z * Z * string) (l : list event_row) (durations : list duration) (s : scan) : scan :=
  Scan (previous_video_sequence s) (sequence_gap_rows s) (video_frames_by_stream s) (<[key := l]> (stacks s))
    (duration_rows s ++ durations).
Definition pair_stage (r : event_row) (s : scan) : scan :=
  if py_endswith "_begin" (r_stage r) then
    let key := (r_tid r, r_fd r, r_stage r) in set_stack key (r :: stack_of key s) [] s
  else match dget (r_stage r) PAIRS with
  | Some begin_stage =>
      let key := (r_tid r, r_fd r, begin_stage) in
      match stack_of key s with
      | begin_row :: rest => set_stack key rest [Duration begin_row r] s
      | [] => s
      end
  | None => s
  end.
Definition scan_row (s : scan) (r : event_row) : scan := pair_stage r (if is_frame r then count_frame r s else s).
Definition scan_events (l : list event_row) : scan := foldl scan_row start_scan l.

(** ** What is written *)

Definition event_dict (begin_ns : Z) (r : event_row) : pydict := [
  ("timestamp_ns", VInt (r_timestamp_ns r));
  ("time_from_steady_begin_ms", VFloat (ms_of_ns (r_timestamp_ns r - begin_ns)));
  ("in_steady_state", VBool (r_in_steady_state r)); ("tid", VInt (r_tid r)); ("cpu", VInt (r_cpu r));
  ("stage", VStr (r_stage r)); ("fd", VInt (r_fd r)); ("result", VInt (r_result r));
  ("sequence", VInt (r_sequence r)); ("activation", r_activation r)].
Definition gap_dict (begin_ns : Z) (g : gap) : pydict :=
  let r := g_row g in [
  ("timestamp_ns", VInt (r_timestamp_ns r));
  ("time_from_steady_begin_ms", VFloat (ms_of_ns (r_timestamp_ns r - begin_ns)));
  ("tid", VInt (r_tid r)); ("cpu", VInt (r_cpu r)); ("fd", VInt (r_fd r));
  ("previous_sequence", VInt (g_previous g)); ("sequence", VInt (r_sequence r)); ("sequence_delta", VInt (g_delta g));
  ("missing_frames", VInt (missing_frames g)); ("out_of_order", VBool (out_of_order g));
  ("activation", r_activation r)].
Definition duration_ms (d : duration) : f64 := ms_of_ns (d_ns d).
Definition duration_dict (d : duration) : pydict :=
  let r := d_end d in [
  ("tid", VInt (r_tid r)); ("cpu", VInt (r_cpu r)); ("fd", VInt (r_fd r)); ("stage", VStr (d_stage d));
  ("begin_ns", VInt (r_timestamp_ns (d_begin d))); ("end_ns", VInt (r_timestamp_ns r));
  ("duration_ms", VFloat (duration_ms d)); ("sequence", VInt (r_sequence r));
  ("in_steady_state", VBool (d_in_steady_state d)); ("activation", r_activation r)].

(** [sorted(video_frames_by_stream.items())]: no two items have the same key. *)
Definition stream_lt (x y : Z * Z * Z) : bool :=
  bool_decide (x.1.1 < y.1.1) || bool_decide (x.1.1 = y.1.1) && bool_decide (x.1.2 < y.1.2).
Definition sorted_streams (s : scan) : list (Z * Z * Z) := sort_by stream_lt (map_to_list (video_frames_by_stream s)).
Definition gaps_of (key : Z * Z) (s : scan) : list gap := filter (λ g, stream (g_row g) = key) (sequence_gap_rows s).
Definition Zsum_by {A} (f : A → Z) (l : list A) : Z := foldr (λ x acc, f x + acc) 0 l.
Definition stream_dict (s : scan) (item : Z * Z * Z) : pydict :=
  let gaps := gaps_of item.1 s in [
  ("tid", VInt item.1.1); ("fd", VInt item.1.2); ("frames", VInt item.2);
  ("sequence_discontinuities", VInt (Z.of_nat (length gaps))); ("missing_frames", VInt (Zsum_by missing_frames gaps))].
Definition steady_durations (s : scan) : list duration := filter (λ d, d_in_steady_state d = true) (duration_rows s).
Definition stage_distribution (l : list duration) (stage : string) : outcome (string * pyval) :=
  d ← distribution (map duration_ms (filter (λ d, d_stage d = stage) l)); Ok (stage, VDict d).
Definition stages_ms (l : list duration) : outcome pydict :=
  traverse (stage_distribution l) (sorted_strings (elements (list_to_set (map d_stage l) : gset string))).
Definition longest (l : list duration) : pyval :=
  match l with
  | [] => VNone
  | d :: l => VDict (duration_dict (foldl (choose_by (λ x y, f_lt (duration_ms y) (duration_ms x))) d l))
  end.
Definition unmatched_begin_count (s : scan) : Z :=
  Zsum_by (λ kl, Z.of_nat (length kl.2)) (map_to_list (stacks s)).
Definition trace_summary (h : header) (compact_output : bool) (rows : list event_row) (s : scan) : outcome pydict :=
  stages ← stages_ms (steady_durations s);
  Ok [("schema_version", VInt 1); ("event_count", VInt (count h)); ("stored_event_count", VInt (stored_count h));
      ("dropped_event_count", VInt (dropped h)); ("compact_output", VBool compact_output);
      ("steady_event_count", VInt (Z.of_nat (length (filter (λ r, r_in_steady_state r = true) rows))));
      ("unmatched_begin_count", VInt (unmatched_begin_count s));
      ("raw_video_sequence_discontinuity_count", VInt (Z.of_nat (length (sequence_gap_rows s))));
      ("raw_video_missing_frame_count", VInt (Zsum_by missing_frames (sequence_gap_rows s)));
      ("raw_video_streams", VList (map (VDict ∘ stream_dict s) (sorted_streams s)));
      ("stages_ms", VDict stages); ("longest_steady_stage", longest (steady_durations s))].

Section parse.
Context {W : Type} `{OS W} {T : Type}.
Abbreviation IO := (M (T * world W)).
(** The fields of the first row, or the default ones. *)
Definition fields_of (default : list string) (rows : list pydict) : list string :=
  match rows with row :: _ => dkeys row | [] => default end.
Definition write_rows (path : string) (default : list string) (rows : list pydict) : IO unit :=
  sys (WriteCsv path (fields_of default rows) rows).
Definition parse_trace (trace_path lifecycle_path output_dir : string) (compact_output : bool) : IO pydict :=
  window <- phase_window lifecycle_path ;;
  activations <- load_activations (output_dir // "thread_steady_activations.csv") ;;
  file <- sys (ReadBytes trace_path) ;;
  decoded <- lift (decode_trace file) ;;
  let rows := event_rows window activations decoded.2 in
  let s := scan_events rows in
  sys (Mkdir output_dir true) ;;
  let events_path := output_dir // "v4l2_diagnostic_events.csv" in
  let durations_path := output_dir // "v4l2_diagnostic_durations.csv" in
  (if compact_output then sys (Unlink events_path) ;; sys (Unlink durations_path)
   else
     write_rows events_path ["timestamp_ns"; "stage"] (map (event_dict window.1) rows) ;;
     write_rows durations_path ["tid"; "stage"; "duration_ms"] (map duration_dict (duration_rows s))) ;;
  write_rows (output_dir // "v4l2_sequence_gaps.csv") ["timestamp_ns"; "tid"; "fd"; "previous_sequence"; "sequence"]
    (map (gap_dict window.1) (sequence_gap_rows s)) ;;
  summary <- lift (trace_summary decoded.1 compact_output rows s) ;;
  sys (WriteJson (output_dir // "v4l2_diagnostic_summary.json") (VDict summary)) ;;
  ret summary.
End parse.
