(* ===== verification/KernelTrace.v ===== *)
(** * Lines of a kernel trace

    What parse_overrun_kernel_trace.py and parse_freshness_kernel_trace.py share:
    the regular expression of a line of [trace-cmd report], the integer fields of
    an event, and the report itself, whose lines are read before its status. *)
From Stdlib Require Import Ascii ZArith Lia Floats.SpecFloat.
From S2P Require Import Prelude PyStr PyFloat PyVal PyJson Effects Machine.
From S2P Require Import DeadlineProfile V4l2Trace.
From stdpp Require Import base gmap strings list.
Local Open Scope Z_scope.
Local Open Scope py_scope.
Local Open Scope M_scope.

(** ** [LINE] *)

Record trace_line := {
  l_task : string;
  l_pid : Z;
  l_cpu : Z;
  l_seconds : string;
  l_event : string;
  l_fields : string;
}.

(** The longest prefix of characters of a class. *)
Fixpoint span_by (p : ascii → bool) (s : string) : string * string :=
  match s with
  | EmptyString => ("", "")
  | String a s' => if p a then let '(x, rest) := span_by p s' in (String a x, rest) else ("", s)
  end.
Definition is_letter (a : ascii) : bool :=
  let n := code a in ((65 <=? n) && (n <=? 90) || (97 <=? n) && (n <=? 122))%nat.
(** [[\w-]]. *)
Definition event_char (a : ascii) : bool :=
  is_letter a || py_isdigit_char a || bool_decide (a = "_"%char) || bool_decide (a = "-"%char).
(** A character that has to come next; digits that have to come next. *)
Definition expect (c : ascii) (s : string) : option string :=
  match s with String a s' => if bool_decide (a = c) then Some s' else None | EmptyString => None end.
Definition some_digits (s : string) : option (string * string) :=
  let '(d, rest) := span_digits s in if bool_decide (d = "") then None else Some (d, rest).
Definition some_spaces (s : string) : option string :=
  match s with String a s' => if py_isspace a then Some (lstrip_by py_isspace s') else None | EmptyString => None end.
Definition some_word (s : string) : option (string * string) :=
  let '(w, rest) := span_by event_char s in if bool_decide (w = "") then None else Some (w, rest).

(** [-(?P<pid>\d+)\s+\[(?P<cpu>\d+)\]] after the hyphen. *)
Definition match_context (s : string) : option (Z * Z * string) :=
  '(pid, s) ← some_digits s; s ← some_spaces s; s ← expect "[" s; '(cpu, s) ← some_digits s; s ← expect "]" s;
  pid ← int_of_string pid; cpu ← int_of_string cpu; Some (pid, cpu, s).
(** [(?P<event>[\w-]+(?::[\w-]+)?):]: the optional part when a colon follows
    it. *)
Definition match_name (s : string) : option (string * string) :=
  '(a, s) ← some_word s; s ← expect ":" s;
  match ('(b, s') ← some_word s; s' ← expect ":" s'; Some (a +:+ ":" +:+ b, s')) with
  | Some m => Some m
  | None => Some (a, s)
  end.
(** The rest of a line, from the time on. *)
Definition match_event (s : string) : option (string * string * string) :=
  '(whole, s) ← some_digits s; s ← expect "." s; '(fraction, s) ← some_digits s; s ← expect ":" s;
  s ← some_spaces s; '(event, s) ← match_name s;
  Some (whole +:+ "." +:+ fraction, event, lstrip_by py_isspace s).
(** [.*?\s]: the first white space that the rest can follow. *)
Fixpoint find_event (s : string) : option (string * string * string) :=
  match s with
  | EmptyString => None
  | String a s' =>
      if py_isspace a then match match_event s' with Some m => Some m | None => find_event s' end else find_event s'
  end.
Definition match_rest (before after : string) : option trace_line :=
  '(pid, cpu, s) ← match_context after; '(seconds, event, fields) ← find_event s;
  Some {| l_task := py_strip before; l_pid := pid; l_cpu := cpu; l_seconds := seconds; l_event := event;
          l_fields := fields |}.
(** The last hyphen that the rest can follow: [.+] is greedy, and not empty. *)
Fixpoint match_task (before s : string) : option trace_line :=
  match s with
  | EmptyString => None
  | String a s' =>
      match match_task (before +:+ String a "") s' with
      | Some m => Some m
      | None => if bool_decide (a = "-"%char) && negb (bool_decide (before = "")) then match_rest before s' else None
      end
  end.
Definition match_line (line : string) : option trace_line := match_task "" line.

(** [round(float(seconds) * 1_000_000_000)]. *)
Definition timestamp_of (l : trace_line) : outcome Z :=
  x ← py_float (VStr (l_seconds l)); f_round (f_mul x (f_of_Z 1000000000)).
(** [event.rsplit(":", 1)[-1]]. *)
Definition short_event (event : string) : string := List.last (py_split ":" event) "".

(** ** Fields *)

Definition is_hex (a : ascii) : bool := bool_decide (is_Some (hex_value a)).
Fixpoint digits_value (base acc : Z) (s : string) : option Z :=
  match s with
  | EmptyString => Some acc
  | String a s' => v ← hex_value a; if bool_decide (v < base) then digits_value base (acc * base + v) s' else None
  end.
(** [int(s, 0)] on text of the shape [-?(0x)?[0-9a-fA-F]+]: a prefix chooses the
    base, and a decimal number has no leading zeros. *)
Definition unsigned_base_0 (s : string) : option Z :=
  if py_startswith "0x" s then digits_value 16 0 (py_drop 2 s)
  else if py_startswith "0b" (py_lower s) then
    if bool_decide (py_drop 2 s = "") then None else digits_value 2 0 (py_drop 2 s)
  else if py_startswith "0" s && negb (string_forall (λ a, bool_decide (a = "0"%char)) s) then None
  else digits_value 10 0 s.
Definition int_base_0 (s : string) : outcome Z :=
  let v := match expect "-" s with Some rest => Z.opp <$> unsigned_base_0 rest | None => unsigned_base_0 s end in
  match v with
  | Some z => Ok z
  | None => raise ValueError ("invalid literal for int() with base 0: " +:+ py_repr s)
  end.
(** [(-?(?:0x)?[0-9a-fA-F]+)]. *)
Definition capture_integer (s : string) : option string :=
  let '(sign, s) := match expect "-" s with Some rest => ("-", rest) | None => ("", s) end in
  let '(prefix, rest) := if py_startswith "0x" s then ("0x", py_drop 2 s) else ("", s) in
  match (span_by is_hex rest).1 with
  | "" => match (span_by is_hex s).1 with "" => None | digits => Some (sign +:+ digits) end
  | digits => Some (sign +:+ prefix +:+ digits)
  end.
(** [re.search((?:^|<sep>)...)]: what follows the beginning or the first
    separator after which it matches. *)
Fixpoint after_separator {A} (sep : ascii → bool) (f : string → option A) (s : string) : option A :=
  match s with
  | EmptyString => None
  | String a s' => if sep a then match f s' with Some m => Some m | None => after_separator sep f s' end
                   else after_separator sep f s'
  end.
Definition search_separated {A} (sep : ascii → bool) (f : string → option A) (s : string) : option A :=
  match f s with Some m => Some m | None => after_separator sep f s end.
Definition space_or_comma (a : ascii) : bool := py_isspace a || bool_decide (a = ","%char).
Definition skip_spaces : string → string := lstrip_by py_isspace.
(** [name\s*=\s*]: what follows it. *)
Definition assigned (name s : string) : option string :=
  if py_startswith name s then skip_spaces <$> expect "=" (skip_spaces (py_drop (String.length name) s)) else None.

(** ** The report *)

Section report.
Context {W : Type} `{OS W} {T : Type}.
Abbreviation IO := (M (T * world W)).
Definition load_csv (path : string) : IO (list (list (string * string))) :=
  file <- sys (IsFile path) ;; if (file : bool) then sys (ReadCsv path) else ret [].
(** [trace_report_lines] with the loop over its lines: the status is looked at
    when there are no more lines. *)
Definition report_command (trace_path : string) : list string := ["trace-cmd"; "report"; "-i"; trace_path].
Definition trace_report (trace_path : string) : IO completed := sys (RunCommand (report_command trace_path) None None).
Definition report_lines (c : completed) : list string := py_split (Ascii.ascii_of_nat 10) (stdout c).
Definition check_report (c : completed) : outcome unit :=
  if bool_decide (returncode c = 0) then Ok ()
  else raise CalledProcessError ("Command returned non-zero exit status " +:+ str_Z (returncode c)).
End report.

(** The three regular expressions on lines of real traces. *)
Example line_examples :
  map (λ l, (λ m, (l_task m, l_pid m, l_cpu m, (l_seconds m, l_event m, l_fields m))) <$> match_line l)
    ["        app-worker-42    [001] d..2.  1234.567890: irq_handler_entry:    irq=132 name=xhci-hcd:usb2";
     "  <idle>-0 [003] 12.5: sched:sched_switch: prev=a"; "cpus=4"; "rtla-x 1 [2] 3.0: e: f"] =
    [Some ("app-worker", 42, 1, ("1234.567890", "irq_handler_entry", "irq=132 name=xhci-hcd:usb2"));
     Some ("<idle>", 0, 3, ("12.5", "sched:sched_switch", "prev=a")); None; None].
Proof. vm_compute. reflexivity. Qed.
