(* ===== verification/FreshnessTrace.v ===== *)
(** * Where frames were lost ([parse_freshness_kernel_trace.py])

    The events of V4L2, UVC, VB2 and xHCI in a kernel trace, the gaps in their
    sequence numbers, and the classification of every gap that librealsense saw
    by the events around it. *)
From Stdlib Require Import Ascii ZArith Lia Floats.SpecFloat Strings.HexString.
From S2P Require Import Prelude PyStr PyFloat PyVal PyJson FloatOrder Effects Machine.
From S2P Require Import Bisect SchedTrace StartupTrace DeadlineProfile V4l2Trace KernelTrace.
From stdpp Require Import base gmap strings list.
Local Open Scope Z_scope.
Local Open Scope py_scope.
Local Open Scope M_scope.

(** ** Events *)

(** [field_int] of this file: separators are white space and commas, and white
    space may surround the equals sign. *)
Definition field_int (text name : string) (default : Z) : outcome Z :=
  match search_separated space_or_comma (λ s, s ← assigned name s; capture_integer s) text with
  | Some digits => int_base_0 digits
  | None => Ok default
  end.
Definition is_video_capture (fields : string) : bool :=
  bool_decide (is_Some (search_separated space_or_comma (λ s,
    s ← assigned "type" s;
    if py_startswith "VIDEO_CAPTURE" s then
      match py_drop (String.length "VIDEO_CAPTURE") s with
      | EmptyString => Some ()
      | String a _ => if space_or_comma a then Some () else None
      end
    else None) fields)).

(** The seven lists of rows. *)
Inductive category := KernelDqbuf | UvcReady | UvcValidation | UvcError | NoBuffer | XhciError | Vb2Event.
#[export] Instance category_eq_dec : EqDecision category.
Proof. solve_decision. Defined.
(** A row: [base], the integers of its category, and the cause of a failed
    validation. *)
Record kernel_row := {
  k_timestamp_ns : Z;
  k_in_steady_state : bool;
  k_event : string;
  k_task : string;
  k_context_tid : Z;
  k_cpu : Z;
  k_fields : string;
  k_values : list (string * Z);
  k_cause : option string;
}.
Definition k_get (k : string) (default : Z) (r : kernel_row) : Z := match dget k (k_values r) with Some z => z | None => default end.
Definition read_fields (fields : string) (l : list (string * string * Z)) : outcome (list (string * Z)) :=
  traverse (λ '(key, name, default), v ← field_int fields name default; Ok (key, v)) l.
Definition plain (names : list string) : list (string * string * Z) := map (λ name, (name, name, 0)) names.
(** The integers a category reads; not those of a validation. *)
Definition category_fields (c : category) : list (string * string * Z) :=
  match c with
  | KernelDqbuf => [("minor", "minor", -1); ("sequence", "sequence", 0)]
  | UvcReady => plain ["queue"; "sequence"; "state"; "error"; "bytesused"]
  | UvcError => plain ["sequence"; "state"; "error"; "bytesused"]
  | NoBuffer => plain ["ret"]
  | XhciError => plain ["status"; "actual"; "length"; "epnum"] ++ [("slot_id", "slot", 0)]
  | Vb2Event => [("queued", "queued", -1); ("owned_by_drv", "owned_by_drv", -1); ("index", "index", -1);
                 ("bytesused", "bytesused", 0)]
  | UvcValidation => []
  end.
Definition validation_cause (prior_error bytesused expected header_errors invalid_headers : Z) : string :=
  if bool_decide (expected < bytesused) then "uvc_frame_overflow"
  else if negb (bool_decide (prior_error = 0)) && negb (bool_decide (header_errors = 0)) then "uvc_payload_error_flag"
  else if negb (bool_decide (prior_error = 0)) && bool_decide (bytesused < expected) then "uvc_iso_packet_error"
  else if negb (bool_decide (invalid_headers = 0)) then "uvc_invalid_payload_header"
  else if bool_decide (bytesused < expected) then "uvc_short_frame"
  else "uvc_preexisting_buffer_error".
(** The integers and the cause of a validation; [None] when nothing failed. *)
Definition read_validation (fields : string) : outcome (option (list (string * Z) * string)) :=
  prior_error ← field_int fields "prior_error" 0; bytesused ← field_int fields "bytesused" 0;
  expected ← field_int fields "expected" 0; header_errors ← field_int fields "frame_header_errors" 0;
  invalid_headers ← field_int fields "frame_invalid_headers" 0;
  if bool_decide (prior_error = 0) && bool_decide (bytesused = expected) then Ok None else
  buf ← field_int fields "buf" 0; sequence ← field_int fields "sequence" 0;
  Ok (Some ([("buf", buf); ("sequence", sequence); ("prior_error", prior_error); ("bytesused", bytesused);
             ("expected", expected); ("frame_invalid_headers", invalid_headers); ("frame_header_errors", header_errors)],
            validation_cause prior_error bytesused expected header_errors invalid_headers)).
Definition category_of (event fields : string) : option category :=
  if bool_decide (event = "v4l2_dqbuf") && is_video_capture fields then Some KernelDqbuf
  else if bool_decide (event = "uvc_frame_ready") then Some UvcReady
  else if bool_decide (event = "uvc_buffer_error") then Some UvcError
  else if bool_decide (event = "uvc_frame_validation") then Some UvcValidation
  else if bool_decide (event = "uvc_no_video_buffer") then Some NoBuffer
  else if bool_decide (event = "xhci_urb_giveback") then Some XhciError
  else if bool_decide (event ∈ ["vb2_buf_done"; "vb2_dqbuf"; "vb2_qbuf"]) then Some Vb2Event
  else None.

(** What the loop collects: the events, for the counter, and the rows. *)
Record collected := {
  c_events : list string;
  c_rows : list (category * kernel_row);
}.
Definition base_row (window : Z * Z) (l : trace_line) (timestamp_ns : Z) (values : list (string * Z)) (cause : option string) :
    kernel_row := {|
  k_timestamp_ns := timestamp_ns;
  k_in_steady_state := bool_decide (window.1 <= timestamp_ns) && bool_decide (timestamp_ns <= window.2);
  k_event := short_event (l_event l); k_task := l_task l; k_context_tid := l_pid l; k_cpu := l_cpu l;
  k_fields := l_fields l; k_values := values; k_cause := cause |}.
(** The rows of a line. *)
Definition line_rows (window : Z * Z) (l : trace_line) (timestamp_ns : Z) : outcome (list (category * kernel_row)) :=
  match category_of (short_event (l_event l)) (l_fields l) with
  | None => Ok []
  | Some UvcValidation =>
      v ← read_validation (l_fields l);
      Ok match v with
         | Some (values, cause) => [(UvcValidation, base_row window l timestamp_ns values (Some cause))]
         | None => []
         end
  | Some c =>
      values ← read_fields (l_fields l) (category_fields c);
      Ok [(c, base_row window l timestamp_ns values None)]
  end.
Definition collect_line (window : Z * Z) (v : collected) (line : string) : outcome collected :=
  match match_line line with
  | None => Ok v
  | Some l =>
      timestamp_ns ← timestamp_of l;
      rows ← line_rows window l timestamp_ns;
      Ok {| c_events := c_events v ++ [short_event (l_event l)]; c_rows := c_rows v ++ rows |}
  end.
Definition collect (window : Z * Z) (lines : list string) : outcome collected :=
  fold_outcome (collect_line window) {| c_events := []; c_rows := [] |} lines.
(** The sorted rows of a category. *)
Definition rows_of (c : category) (v : collected) : list kernel_row :=
  sort_on k_timestamp_ns (filter (λ p, p.1 = c) (c_rows v)).*2.

(** ** Gaps *)

Record kernel_gap := {
  kg_row : kernel_row;
  kg_previous : Z;
}.
Definition kg_timestamp_ns (g : kernel_gap) : Z := k_timestamp_ns (kg_row g).
Definition k_sequence (r : kernel_row) : Z := k_get "sequence" 0 r.
Definition kg_sequence (g : kernel_gap) : Z := k_sequence (kg_row g).
Definition kg_missing (g : kernel_gap) : Z := Z.max 0 (kg_sequence g - kg_previous g - 1).
Definition gap_step (key_name : string) (v : gmap Z Z * list kernel_gap) (r : kernel_row) : gmap Z Z * list kernel_gap :=
  let key := k_get key_name 0 r in
  let sequence := k_sequence r in
  let gaps := match v.1 !! key with
              | Some last => if bool_decide (sequence = last + 1) then [] else [{| kg_row := r; kg_previous := last |}]
              | None => []
              end in
  (<[key := sequence]> v.1, v.2 ++ gaps).
Definition discontinuities (rows : list kernel_row) (key_name : string) : list kernel_gap :=
  (foldl (gap_step key_name) (∅, []) rows).2.
Definition steady_gaps (c : category) (key_name : string) (v : collected) : list kernel_gap :=
  discontinuities (filter (λ r, k_in_steady_state r = true) (rows_of c v)) key_name.

Section nearest.
Context {A : Type} (timestamp_ns sequence_of : A → Z).
Definition distance (t : Z) (x : A) : Z := Z.abs (timestamp_ns x - t).
(** The rows in the window around a time; those with the sequence number if
    there are any. *)
Definition candidates (rows : list A) (t radius_ns : Z) (sequence : option Z) : list A :=
  let timestamps := map timestamp_ns rows in
  let begin := bisect_left timestamps (t - radius_ns) in
  let end_ := bisect_right timestamps (t + radius_ns) in
  let near := take (end_ - begin) (drop begin rows) in
  match sequence with
  | None => near
  | Some n => match filter (λ x, sequence_of x = n) near with [] => near | exact => exact end
  end.
Definition nearest (rows : list A) (t radius_ns : Z) (sequence : option Z) : option A :=
  match candidates rows t radius_ns sequence with
  | [] => None
  | x :: l => Some (foldl (choose_by (λ x y, bool_decide (distance t x < distance t y))) x l)
  end.
End nearest.

(** ** Correlations *)

(** A gap that librealsense saw: a row of v4l2_sequence_gaps.csv, which holds
    the columns that are looked at. *)
Record raw_gap := {
  raw_row : pydict;
  raw_timestamp_ns : Z;
  raw_sequence : Z;
  raw_previous : Z;
}.
(** The nearest events of each kind. *)
Record nearby := {
  n_kernel : option kernel_gap;
  n_uvc : option kernel_gap;
  n_validation : option kernel_row;
  n_uvc_error : option kernel_row;
  n_empty : option kernel_row;
  n_xhci : option kernel_row;
  n_vb2 : option kernel_row;
}.
Definition nearest_row (c : category) (v : collected) (t radius_ns : Z) (sequence : option Z) : option kernel_row :=
  nearest k_timestamp_ns (k_get "sequence" (-1)) (rows_of c v) t radius_ns sequence.
Definition nearest_gap (c : category) (key_name : string) (v : collected) (t radius_ns sequence : Z) : option kernel_gap :=
  nearest kg_timestamp_ns kg_sequence (steady_gaps c key_name v) t radius_ns (Some sequence).
Definition look_around (v : collected) (raw : raw_gap) : nearby :=
  let t := raw_timestamp_ns raw in {|
  n_kernel := nearest_gap KernelDqbuf "minor" v t 20000000 (raw_sequence raw);
  n_uvc := nearest_gap UvcReady "queue" v t 20000000 (raw_sequence raw);
  n_validation := nearest_row UvcValidation v t 100000000 (Some (raw_previous raw + 1));
  n_uvc_error := nearest_row UvcError v t 50000000 None;
  n_empty := nearest_row NoBuffer v t 50000000 None;
  n_xhci := nearest_row XhciError v t 50000000 None;
  n_vb2 := nearest_row Vb2Event v t 20000000 None |}.
Definition classification (n : nearby) : string :=
  match n_validation n with
  | Some validation => default "None" (k_cause validation)
  | None =>
  if bool_decide (is_Some (n_uvc_error n)) then "uvc_corrupted_buffer"
  else if bool_decide (is_Some (n_empty n)) then "uvc_buffer_starvation"
  else if bool_decide (is_Some (n_xhci n)) then "xhci_urb_error"
  else if bool_decide (is_Some (n_uvc n)) then "uvc_or_usb_before_frame_ready"
  else if bool_decide (is_Some (n_kernel n)) then "between_uvc_ready_and_v4l2_dqbuf"
  else "between_kernel_dqbuf_and_librealsense"
  end.

(** A row of v4l2_sequence_gaps.csv: its columns are read in the loop, but the
    time already for sorting. *)
Definition csv_time (row : list (string * string)) : outcome (Z * list (string * string)) :=
  t ← row_int row "timestamp_ns"; Ok (t, row).
Definition read_raw_gap (row : Z * list (string * string)) : outcome raw_gap :=
  sequence ← row_int row.2 "sequence"; previous ← row_int row.2 "previous_sequence";
  Ok {| raw_row := map (λ kv, (kv.1, VStr kv.2)) row.2; raw_timestamp_ns := row.1; raw_sequence := sequence;
        raw_previous := previous |}.

Definition delta (t : Z) (event_ns : option Z) : pyval :=
  match event_ns with Some e => VFloat (ms_of_ns (e - t)) | None => VStr "" end.
Definition value_of (k : string) (r : option kernel_row) : pyval :=
  match r with
  | Some r => match dget k (k_values r) with Some z => VInt z | None => VStr "" end
  | None => VStr ""
  end.
Definition is_found {A} (o : option A) : pyval := VBool (bool_decide (is_Some o)).
Definition correlation (raw : raw_gap) (n : nearby) : pydict :=
  let t := raw_timestamp_ns raw in
  let row_delta (r : option kernel_row) := delta t (k_timestamp_ns <$> r) in
  let gap_delta (g : option kernel_gap) := delta t (kg_timestamp_ns <$> g) in
  dupdate (dupdate [] (raw_row raw)) [
  ("classification", VStr (classification n));
  ("kernel_dqbuf_gap", is_found (n_kernel n)); ("kernel_dqbuf_delta_ms", gap_delta (n_kernel n));
  ("kernel_minor", value_of "minor" (kg_row <$> n_kernel n));
  ("uvc_ready_gap", is_found (n_uvc n)); ("uvc_ready_delta_ms", gap_delta (n_uvc n));
  ("uvc_queue", match n_uvc n with
                | Some g => VStr (HexString.of_Z (k_get "queue" 0 (kg_row g)))
                | None => VStr ""
                end);
  ("uvc_validation", is_found (n_validation n)); ("uvc_validation_delta_ms", row_delta (n_validation n));
  ("uvc_validation_sequence", value_of "sequence" (n_validation n));
  ("uvc_validation_prior_error", value_of "prior_error" (n_validation n));
  ("uvc_validation_bytesused", value_of "bytesused" (n_validation n));
  ("uvc_validation_expected", value_of "expected" (n_validation n));
  ("uvc_validation_header_errors", value_of "frame_header_errors" (n_validation n));
  ("uvc_validation_invalid_headers", value_of "frame_invalid_headers" (n_validation n));
  ("uvc_error", is_found (n_uvc_error n)); ("uvc_error_delta_ms", row_delta (n_uvc_error n));
  ("uvc_no_buffer", is_found (n_empty n)); ("uvc_no_buffer_delta_ms", row_delta (n_empty n));
  ("xhci_error", is_found (n_xhci n)); ("xhci_error_delta_ms", row_delta (n_xhci n));
  ("nearest_vb2_event", match n_vb2 n with Some r => VStr (k_event r) | None => VStr "" end);
  ("nearest_vb2_delta_ms", row_delta (n_vb2 n));
  ("nearest_vb2_queued", value_of "queued" (n_vb2 n));
  ("nearest_vb2_owned_by_drv", value_of "owned_by_drv" (n_vb2 n))].

(** No row has a "delta_ms", so it is always zero. *)
Definition sparse_event (r : kernel_row) : pydict :=
  let integer k default := (k, VInt (k_get k default r)) in [
  ("timestamp_ns", VInt (k_timestamp_ns r)); ("delta_ms", VFloat f_zero); ("event", VStr (k_event r));
  ("cpu", VInt (k_cpu r)); ("context_tid", VInt (k_context_tid r)); integer "sequence" 0; integer "minor" (-1);
  integer "queue" 0; integer "error" 0; integer "prior_error" 0; integer "bytesused" 0; integer "expected" 0;
  integer "frame_invalid_headers" 0; integer "frame_header_errors" 0;
  ("validation_cause", VStr (default "" (k_cause r))); integer "queued" (-1); integer "owned_by_drv" (-1);
  ("fields", VStr (k_fields r))].
(** [dict(sorted(Counter(l).items()))]. *)
Definition counts (l : list string) : pydict := map (λ key, (key, VInt (counter key l))) (sorted_set l).
Definition exception_rows (v : collected) : list kernel_row :=
  sort_on k_timestamp_ns (rows_of UvcValidation v ++ rows_of UvcError v ++ rows_of NoBuffer v ++ rows_of XhciError v).

(** The gaps that were seen, in the order of time, with what is around them. *)
Definition correlate (v : collected) (gaps : list raw_gap) : list (raw_gap * nearby) :=
  map (λ raw, (raw, look_around v raw)) gaps.
Definition number {A} (l : list A) : pyval := VInt (Z.of_nat (length l)).
Definition freshness_summary (v : collected) (gaps : list raw_gap) : pydict :=
  let correlations := correlate v gaps in
  let kernel_gaps := steady_gaps KernelDqbuf "minor" v in
  let uvc_gaps := steady_gaps UvcReady "queue" v in
  [
  ("schema_version", VInt 1); ("event_counts", VDict (counts (c_events v)));
  ("steady_kernel_v4l2_dqbuf_gap_count", number kernel_gaps);
  ("steady_kernel_v4l2_missing_frame_count", VInt (Zsum_by kg_missing kernel_gaps));
  ("steady_uvc_frame_ready_gap_count", number uvc_gaps);
  ("steady_uvc_missing_frame_count", VInt (Zsum_by kg_missing uvc_gaps));
  ("uvc_corrupted_buffer_event_count", number (rows_of UvcError v));
  ("uvc_frame_validation_event_count", number (rows_of UvcValidation v));
  ("uvc_frame_validation_cause_counts", VDict (counts (map (default "" ∘ k_cause) (rows_of UvcValidation v))));
  ("uvc_no_video_buffer_event_count", number (rows_of NoBuffer v));
  ("xhci_error_giveback_event_count", number (rows_of XhciError v));
  ("raw_librealsense_gap_count", number gaps); ("correlated_raw_gap_count", number correlations);
  ("classification_counts", VDict (counts (map (classification ∘ snd) correlations)));
  ("correlations", VList (map (λ p, VDict (correlation p.1 p.2)) correlations))].

Section parse.
Context {W : Type} `{OS W} {T : Type}.
Abbreviation IO := (M (T * world W)).
Definition read_gaps (output_dir : string) : IO (list raw_gap) :=
  rows <- load_csv (output_dir // "v4l2_sequence_gaps.csv") ;;
  lift (timed ← traverse csv_time rows; traverse read_raw_gap (sort_on fst timed)).
Definition parse_trace (trace_path lifecycle_path output_dir : string) : IO pydict :=
  window <- phase_window lifecycle_path ;;
  sys (Mkdir output_dir true) ;;
  report <- trace_report trace_path ;;
  v <- lift (v ← collect window (report_lines report); _ ← check_report report; Ok v) ;;
  gaps <- read_gaps output_dir ;;
  write_rows (output_dir // "kernel_v4l2_dqbuf.csv") ["timestamp_ns"; "event"; "minor"; "sequence"]
    (map sparse_event (rows_of KernelDqbuf v)) ;;
  write_rows (output_dir // "kernel_uvc_frame_ready.csv") ["timestamp_ns"; "event"; "queue"; "sequence"]
    (map sparse_event (rows_of UvcReady v)) ;;
  write_rows (output_dir // "kernel_freshness_exception_events.csv") ["timestamp_ns"; "event"]
    (map sparse_event (exception_rows v)) ;;
  write_rows (output_dir // "freshness_path_correlations.csv") ["timestamp_ns"; "classification"]
    (map (λ p, correlation p.1 p.2) (correlate v gaps)) ;;
  let summary := freshness_summary v gaps in
  sys (WriteJson (output_dir // "freshness_kernel_trace_summary.json") (VDict summary)) ;;
  ret summary.
End parse.
