(* ===== verification/OverrunTrace.v ===== *)
(** * Deadline overruns ([parse_overrun_kernel_trace.py])

    Interrupts and deadline throttling in a kernel trace: interrupt intervals are
    paired per CPU while the report is read, activations are corrected by the
    interrupts that ran in them, and each throttling of an application thread is
    put beside its activation, its V4L2 stages, the gaps in its frames and the
    xHCI interrupts around it. *)
From Stdlib Require Import Ascii ZArith Lia Floats.SpecFloat.
From S2P Require Import Prelude PyStr PyFloat PyVal PyJson FloatOrder Effects Machine.
From S2P Require Import Bisect SchedTrace DeadlineProfile V4l2Trace KernelTrace.
From stdpp Require Import base gmap strings list.
Local Open Scope Z_scope.
Local Open Scope py_scope.
Local Open Scope M_scope.

Abbreviation csv_row := (list (string * string)).

(** [field_int] of this file: the field is the name, an equals sign and the
    number, after white space. *)
Definition field_int (text name : string) : outcome Z :=
  match search_separated py_isspace (λ s,
          if py_startswith (name +:+ "=") s then capture_integer (py_drop (String.length name + 1) s) else None) text with
  | Some digits => int_base_0 digits
  | None => Ok 0
  end.
Definition overlap_ns (left_begin left_end right_begin right_end : Z) : Z :=
  Z.max 0 (Z.min left_end right_end - Z.max left_begin right_begin).

(** The identifiers of the xHCI interrupts. *)
Definition xhci_irq (interrupt : pyval) : outcome (option Z) :=
  match interrupt with
  | VDict d =>
      match dget "irq" d with
      | Some irq => if py_contains "xhci-hcd" (str_val (dgetd "description" (VStr "") d))
                    then z ← py_int irq; Ok (Some z) else Ok None
      | None => Ok None
      end
  | _ => Ok None
  end.
Definition topology_xhci_irq_ids (topology : pydict) : outcome (gset Z) :=
  let parsed := dgetd "parsed_interrupts" (VList []) topology in
  let parsed := match parsed with VDict d => dgetd "lines" (VList []) d | v => v end in
  match parsed with
  | VList l => ids ← traverse xhci_irq l; Ok (list_to_set (omap id ids))
  | _ => Ok ∅
  end.

(** ** The report *)

(** The columns of a row that are looked at again. *)
Record trace_row := {
  t_timestamp_ns : Z;
  t_in_steady_state : bool;
  t_context_tid : Z;
  t_task : string;
  t_cpu : Z;
  t_event : string;
  t_fields : string;
}.
Record interrupt := {
  i_hardirq : bool;
  i_identifier : Z;
  i_cpu : Z;
  i_context_tid : Z;
  i_begin_ns : Z;
  i_end_ns : Z;
  i_in_steady_state : bool;
}.
Record throttle := {
  th_row : trace_row;
  th_runtime_ns : Z;
  th_flags : Z;
}.
(** [bool(flags & 0x8)]. *)
Definition dl_overrun_flag (th : throttle) : bool := Z.testbit (th_flags th) 3.
(** The local variables of the loop; a stack has its top first. *)
Record reading := {
  kernel_event_count : Z;
  irq_stacks : gmap (Z * bool) (list (trace_row * Z));
  interrupt_rows : list interrupt;
  throttle_rows : list throttle;
  signal_rows : list (trace_row * Z);
}.
Definition start_reading : reading :=
  {| kernel_event_count := 0; irq_stacks := ∅; interrupt_rows := []; throttle_rows := []; signal_rows := [] |}.
Definition make_row (window : Z * Z) (l : trace_line) (timestamp_ns : Z) : trace_row := {|
  t_timestamp_ns := timestamp_ns;
  t_in_steady_state := bool_decide (window.1 <= timestamp_ns) && bool_decide (timestamp_ns <= window.2);
  t_context_tid := l_pid l; t_task := l_task l; t_cpu := l_cpu l; t_event := l_event l; t_fields := l_fields l |}.
Definition count_event (v : reading) : reading := {|
  kernel_event_count := kernel_event_count v + 1; irq_stacks := irq_stacks v; interrupt_rows := interrupt_rows v;
  throttle_rows := throttle_rows v; signal_rows := signal_rows v |}.
Definition irq_stack (v : reading) (key : Z * bool) : list (trace_row * Z) := default [] (irq_stacks v !! key).
Definition enter_interrupt (row : trace_row) (hardirq : bool) (v : reading) : outcome reading :=
  identifier ← field_int (t_fields row) (if hardirq then "irq" else "vec");
  let key := (t_cpu row, hardirq) in
  Ok {| kernel_event_count := kernel_event_count v;
        irq_stacks := <[key := (row, identifier) :: irq_stack v key]> (irq_stacks v);
        interrupt_rows := interrupt_rows v; throttle_rows := throttle_rows v; signal_rows := signal_rows v |}.
Definition close_interrupt (row : trace_row) (hardirq : bool) (begin : trace_row * Z) : interrupt := {|
  i_hardirq := hardirq; i_identifier := begin.2; i_cpu := t_cpu row; i_context_tid := t_context_tid begin.1;
  i_begin_ns := t_timestamp_ns begin.1; i_end_ns := t_timestamp_ns row;
  i_in_steady_state := t_in_steady_state begin.1 && t_in_steady_state row |}.
Definition leave_interrupt (row : trace_row) (hardirq : bool) (v : reading) : reading :=
  let key := (t_cpu row, hardirq) in
  match irq_stack v key with
  | [] => v
  | begin :: rest =>
      {| kernel_event_count := kernel_event_count v; irq_stacks := <[key := rest]> (irq_stacks v);
         interrupt_rows := interrupt_rows v ++ [close_interrupt row hardirq begin];
         throttle_rows := throttle_rows v; signal_rows := signal_rows v |}
  end.
Definition note_throttle (row : trace_row) (v : reading) : outcome reading :=
  flags ← field_int (t_fields row) "flags"; runtime_ns ← field_int (t_fields row) "runtime";
  Ok {| kernel_event_count := kernel_event_count v; irq_stacks := irq_stacks v; interrupt_rows := interrupt_rows v;
        throttle_rows := throttle_rows v ++ [{| th_row := row; th_runtime_ns := runtime_ns; th_flags := flags |}];
        signal_rows := signal_rows v |}.
Definition note_signal (row : trace_row) (v : reading) : outcome reading :=
  signal ← field_int (t_fields row) "sig";
  Ok {| kernel_event_count := kernel_event_count v; irq_stacks := irq_stacks v; interrupt_rows := interrupt_rows v;
        throttle_rows := throttle_rows v; signal_rows := signal_rows v ++ [(row, signal)] |}.
Definition read_event (row : trace_row) (v : reading) : outcome reading :=
  let event := short_event (t_event row) in
  if bool_decide (event = "irq_handler_entry") then enter_interrupt row true v
  else if bool_decide (event = "softirq_entry") then enter_interrupt row false v
  else if bool_decide (event = "irq_handler_exit") then Ok (leave_interrupt row true v)
  else if bool_decide (event = "softirq_exit") then Ok (leave_interrupt row false v)
  else if bool_decide (event = "dl_runtime_exhausted") then note_throttle row v
  else if bool_decide (event ∈ ["signal_generate"; "signal_deliver"]) then note_signal row v
  else Ok v.
Definition read_line (window : Z * Z) (v : reading) (line : string) : outcome reading :=
  match match_line line with
  | None => Ok v
  | Some l =>
      let v := count_event v in
      timestamp_ns ← timestamp_of l; read_event (make_row window l timestamp_ns) v
  end.
(** The loop: what was read when it ended, and the exception that ended it. *)
Fixpoint read_lines (window : Z * Z) (v : reading) (lines : list string) : reading * option exn :=
  match lines with
  | [] => (v, None)
  | line :: lines =>
      match read_line window v line with
      | Ok v => read_lines window v lines
      | Raise e => (v, Some e)
      end
  end.

(** ** Interrupts of a thread and of xHCI *)

Definition interrupts_of (tid : Z) (v : reading) : list interrupt :=
  sort_on i_begin_ns (filter (λ i, i_context_tid i = tid) (interrupt_rows v)).
(** In the order in which they ended. *)
Definition xhci_interrupts (ids : gset Z) (v : reading) : list interrupt :=
  filter (λ i, i_hardirq i = true ∧ i_identifier i ∈ ids) (interrupt_rows v).
Definition Z_max_or_zero (l : list Z) : Z := match l with [] => 0 | x :: l => foldl Z.max x l end.
Definition xhci_window (xhci : list interrupt) (timestamp_ns radius_ms : Z) : string * pyval :=
  let begins := map i_begin_ns xhci in
  let radius_ns := radius_ms * 1000000 in
  let first := bisect_left begins (timestamp_ns - radius_ns) in
  let past_last := bisect_right begins (timestamp_ns + radius_ns) in
  let durations := take (past_last - first) (drop first (map (λ i, i_end_ns i - i_begin_ns i) xhci)) in
  (str_Z radius_ms, VDict [
    ("radius_ms", VInt radius_ms); ("interval_count", VInt (Z.of_nat past_last - Z.of_nat first));
    ("service_ms", VFloat (ms_of_ns (Zsum_by id durations)));
    ("maximum_service_ms", VFloat (ms_of_ns (Z_max_or_zero durations)))]).
Definition xhci_windows (xhci : list interrupt) (timestamp_ns : Z) : pydict :=
  map (xhci_window xhci timestamp_ns) [1; 10; 100; 1000].

(** ** Activations *)

Record activation := {
  ac_row : csv_row;
  ac_tid : Z;
  ac_release_ns : Z;
  ac_completion_ns : Z;
  ac_residency_ms : f64;
  ac_hardirq_ns : Z;
  ac_softirq_ns : Z;
}.
Definition row_float (row : csv_row) (k : string) : outcome f64 :=
  match dget k row with Some text => py_float (VStr text) | None => key_error k end.
(** The interrupts that are looked at: from the one before the first that begins
    in the activation. *)
Definition overlapping (interrupts : list interrupt) (begin end_ : Z) : list interrupt :=
  let begins := map i_begin_ns interrupts in
  let first := (bisect_left begins begin - 1)%nat in
  take (bisect_left begins end_ - first) (drop first interrupts).
Definition interrupt_time (hardirq : bool) (l : list interrupt) (begin end_ : Z) : Z :=
  Zsum_by (λ i, if eqb (i_hardirq i) hardirq then overlap_ns begin end_ (i_begin_ns i) (i_end_ns i) else 0) l.
Definition correct_activation (v : reading) (row : csv_row) : outcome activation :=
  tid ← row_int row "tid"; begin ← row_int row "release_ns"; end_ ← row_int row "completion_ns";
  residency_ms ← row_float row "execution_ms";
  let l := overlapping (interrupts_of tid v) begin end_ in
  Ok {| ac_row := row; ac_tid := tid; ac_release_ns := begin; ac_completion_ns := end_; ac_residency_ms := residency_ms;
        ac_hardirq_ns := interrupt_time true l begin end_; ac_softirq_ns := interrupt_time false l begin end_ |}.
(** [max(0.0, x)]. *)
Definition max_zero (x : f64) : f64 := if f_lt f_zero x then x else f_zero.
Definition task_execution_ms (a : activation) : f64 :=
  max_zero (f_sub (ac_residency_ms a) (ms_of_ns (ac_hardirq_ns a + ac_softirq_ns a))).
Definition csv_values (row : csv_row) : pydict := map (λ kv, (kv.1, VStr kv.2)) row.
Definition activation_dict (a : activation) : pydict :=
  dupdate (dupdate [] (csv_values (ac_row a))) [
    ("scheduler_residency_ms", VFloat (ac_residency_ms a)); ("hardirq_ms", VFloat (ms_of_ns (ac_hardirq_ns a)));
    ("softirq_ms", VFloat (ms_of_ns (ac_softirq_ns a))); ("task_execution_ms", VFloat (task_execution_ms a))].

(** ** Stages and gaps *)

(** A row of v4l2_diagnostic_durations.csv: the columns that sort it. *)
Record stage_row := {
  s_row : csv_row;
  s_tid : Z;
  s_begin_ns : Z;
}.
Definition read_stage (row : csv_row) : outcome stage_row :=
  tid ← row_int row "tid"; begin_ns ← row_int row "begin_ns"; Ok {| s_row := row; s_tid := tid; s_begin_ns := begin_ns |}.
Definition stages_of (tid : Z) (l : list stage_row) : list stage_row := sort_on s_begin_ns (filter (λ s, s_tid s = tid) l).
Definition row_text (row : csv_row) (k : string) : outcome string :=
  match dget k row with Some text => Ok text | None => key_error k end.
Definition stage_detail (s : stage_row) : outcome pydict :=
  stage ← row_text (s_row s) "stage"; end_ns ← row_int (s_row s) "end_ns"; duration_ms ← row_float (s_row s) "duration_ms";
  fd ← row_int (s_row s) "fd"; sequence ← row_int (s_row s) "sequence";
  Ok [("stage", VStr stage); ("begin_ns", VInt (s_begin_ns s)); ("end_ns", VInt end_ns); ("duration_ms", VFloat duration_ms);
      ("fd", VInt fd); ("sequence", VInt sequence)].
(** The stages that had begun and not ended, latest first before sorting. *)
Definition active_stage (timestamp_ns : Z) (s : stage_row) : outcome (option (Z * pydict)) :=
  end_ns ← row_int (s_row s) "end_ns";
  if bool_decide (timestamp_ns <= end_ns) then d ← stage_detail s; Ok (Some (s_begin_ns s, d)) else Ok None.
Definition active_stages (timestamp_ns : Z) (l : list stage_row) : outcome (list pydict) :=
  found ← traverse (active_stage timestamp_ns) (reverse (take (bisect_right (map s_begin_ns l) timestamp_ns) l));
  Ok (sort_on fst (omap id found)).*2.
(** The time of each stage in the activation, and the stage that ended last
    before the throttling. *)
Record stage_totals := {
  totals_ms : list (string * f64);
  last_stage : option (Z * pydict);
}.
Definition total_step (a : activation) (timestamp_ns : Z) (v : stage_totals) (s : stage_row) : outcome stage_totals :=
  end_ns ← row_int (s_row s) "end_ns";
  let overlap := overlap_ns (ac_release_ns a) (ac_completion_ns a) (s_begin_ns s) end_ns in
  totals ← (if bool_decide (overlap = 0) then Ok (totals_ms v) else
              stage ← row_text (s_row s) "stage";
              Ok (dset stage (f_add (default f_zero (dget stage (totals_ms v))) (ms_of_ns overlap)) (totals_ms v)));
  if bool_decide (ac_release_ns a <= end_ns) && bool_decide (end_ns <= timestamp_ns)
     && match last_stage v with None => true | Some l => bool_decide (l.1 < end_ns) end then
    d ← stage_detail s; Ok {| totals_ms := totals; last_stage := Some (end_ns, d) |}
  else Ok {| totals_ms := totals; last_stage := last_stage v |}.
Definition stage_totals_of (a : activation) (timestamp_ns : Z) (l : list stage_row) : outcome stage_totals :=
  fold_outcome (total_step a timestamp_ns) {| totals_ms := []; last_stage := None |}
    (take (bisect_right (map s_begin_ns l) (ac_completion_ns a)) l).

Definition read_gap (row : csv_row) : outcome (Z * csv_row) := t ← row_int row "timestamp_ns"; Ok (t, row).
Definition gap_detail (timestamp_ns : Z) (gap : Z * csv_row) : outcome pydict :=
  tid ← row_int gap.2 "tid"; fd ← row_int gap.2 "fd"; previous ← row_int gap.2 "previous_sequence";
  sequence ← row_int gap.2 "sequence"; missing ← row_int gap.2 "missing_frames";
  Ok [("delta_from_throttle_ms", VFloat (ms_of_ns (gap.1 - timestamp_ns))); ("tid", VInt tid); ("fd", VInt fd);
      ("previous_sequence", VInt previous); ("sequence", VInt sequence); ("missing_frames", VInt missing)].
Definition nearby_gaps (timestamp_ns : Z) (gaps : list (Z * csv_row)) : outcome (list pydict) :=
  let begin := bisect_left gaps.*1 (timestamp_ns - 2000000000) in
  let end_ := bisect_right gaps.*1 (timestamp_ns + 2000000000) in
  traverse (gap_detail timestamp_ns) (take (end_ - begin) (drop begin gaps)).

(** ** Correlations *)

(** [json.dumps(value, separators=(",", ":"))]. *)
Fixpoint json_compact (v : pyval) : string :=
  match v with
  | VList l => "[" +:+ py_join "," (map json_compact l) +:+ "]"
  | VDict d =>
      "{" +:+ py_join "," ((fix go d := match d with
                                        | [] => []
                                        | (k, x) :: d => (json_string k +:+ ":" +:+ json_compact x) :: go d
                                        end) d) +:+ "}"
  | v => json_dumps v
  end.
Definition is_steady_overrun (tids : gset Z) (th : throttle) : bool :=
  bool_decide (t_context_tid (th_row th) ∈ tids) && dl_overrun_flag th && t_in_steady_state (th_row th).
(** The activation of a thread that a time falls in. *)
Definition activations_of (tid : Z) (l : list activation) : list activation :=
  sort_on ac_release_ns (filter (λ a, ac_tid a = tid) l).
Definition activation_at (l : list activation) (timestamp_ns : Z) : option activation :=
  match bisect_right (map ac_release_ns l) timestamp_ns with
  | O => None
  | S position => match l !! position with
                  | Some a => if bool_decide (timestamp_ns <= ac_completion_ns a) then Some a else None
                  | None => None
                  end
  end.
Definition activation_field (k : string) (a : option activation) : outcome pyval :=
  match a with Some a => subscript (activation_dict a) k | None => Ok (VStr "") end.
Section correlate.
Context (window : Z * Z) (activations : list activation) (stages : list stage_row) (gaps : list (Z * csv_row)).
Context (xhci : list interrupt).
Definition correlate (th : throttle) : outcome pydict :=
  let row := th_row th in
  let timestamp_ns := t_timestamp_ns row in
  let a := activation_at (activations_of (t_context_tid row) activations) timestamp_ns in
  let l := stages_of (t_context_tid row) stages in
  active ← active_stages timestamp_ns l;
  near ← nearby_gaps timestamp_ns gaps;
  totals ← match a with
           | Some a => stage_totals_of a timestamp_ns l
           | None => Ok {| totals_ms := []; last_stage := None |}
           end;
  number ← activation_field "activation" a; release ← activation_field "release_ns" a;
  completion ← activation_field "completion_ns" a; residency ← activation_field "scheduler_residency_ms" a;
  hardirq ← activation_field "hardirq_ms" a; softirq ← activation_field "softirq_ms" a;
  execution ← activation_field "task_execution_ms" a;
  let text v := VStr (json_compact v) in
  Ok [("timestamp_ns", VInt timestamp_ns);
      ("time_from_steady_begin_ms", VFloat (ms_of_ns (timestamp_ns - window.1)));
      ("tid", VInt (t_context_tid row)); ("cpu", VInt (t_cpu row)); ("runtime_remaining_ns", VInt (th_runtime_ns th));
      ("activation", number); ("activation_release_ns", release); ("activation_completion_ns", completion);
      ("scheduler_residency_ms", residency); ("hardirq_ms", hardirq); ("softirq_ms", softirq);
      ("irq_corrected_task_execution_ms", execution);
      ("active_v4l2_stages", VStr (py_join "," (map (λ d, str_val (dgetd "stage" VNone d)) active)));
      ("active_v4l2_stage_details", text (VList (map VDict active)));
      ("activation_v4l2_stage_durations_ms", text (VDict (map (λ kv, (kv.1, VFloat kv.2)) (sort_keys (totals_ms totals)))));
      ("last_v4l2_stage_before_throttle", text (match last_stage totals with Some l => VDict l.2 | None => VNone end));
      ("raw_sequence_gaps_within_2s", text (VList (map VDict near)));
      ("xhci_irq_windows", text (VDict (xhci_windows xhci timestamp_ns)))].
End correlate.

(** ** What is written *)

Definition interrupt_fields : list string :=
  ["kind"; "identifier"; "cpu"; "context_tid"; "begin_ns"; "end_ns"; "duration_ms"; "in_steady_state"].
Definition interrupt_dict (i : interrupt) : pydict := [
  ("kind", VStr (if i_hardirq i then "hardirq" else "softirq")); ("identifier", VInt (i_identifier i));
  ("cpu", VInt (i_cpu i)); ("context_tid", VInt (i_context_tid i)); ("begin_ns", VInt (i_begin_ns i));
  ("end_ns", VInt (i_end_ns i)); ("duration_ms", VFloat (ms_of_ns (i_end_ns i - i_begin_ns i)));
  ("in_steady_state", VBool (i_in_steady_state i))].
Definition row_dict (begin_ns : Z) (r : trace_row) : pydict := [
  ("timestamp_ns", VInt (t_timestamp_ns r));
  ("time_from_steady_begin_ms", VFloat (ms_of_ns (t_timestamp_ns r - begin_ns)));
  ("in_steady_state", VBool (t_in_steady_state r)); ("context_tid", VInt (t_context_tid r)); ("task", VStr (t_task r));
  ("cpu", VInt (t_cpu r)); ("event", VStr (t_event r)); ("fields", VStr (t_fields r))].
Definition throttle_dict (begin_ns : Z) (th : throttle) : pydict :=
  row_dict begin_ns (th_row th) ++
  [("runtime_ns", VInt (th_runtime_ns th)); ("flags", VInt (th_flags th)); ("dl_overrun_flag", VBool (dl_overrun_flag th))].
Definition signal_dict (begin_ns : Z) (s : trace_row * Z) : pydict := row_dict begin_ns s.1 ++ [("signal", VInt s.2)].
(** [max(l, key=key, default=None)]. *)
Definition largest (key : activation → f64) (l : list activation) : option activation :=
  match l with
  | [] => None
  | a :: l => Some (foldl (choose_by (λ x y, f_lt (key y) (key x))) a l)
  end.
Definition opt_dict (a : option activation) : pyval := match a with Some a => VDict (activation_dict a) | None => VNone end.
Definition application_throttles (tids : gset Z) (v : reading) : list throttle :=
  filter (λ th, t_context_tid (th_row th) ∈ tids ∧ dl_overrun_flag th = true) (throttle_rows v).
Definition steady_throttles (tids : gset Z) (v : reading) : list throttle :=
  filter (λ th, t_in_steady_state (th_row th) = true) (application_throttles tids v).
Definition sorted_ids (s : gset Z) : pyval := VList (map VInt (sort_on id (elements s))).
Definition overrun_summary (window : Z * Z) (tids ids : gset Z) (v : reading) (activations : list activation)
    (correlations : list pydict) : pydict :=
  let xhci := xhci_interrupts ids v in
  let largest_task := largest task_execution_ms activations in
  let steady := steady_throttles tids v in [
  ("schema_version", VInt 1); ("kernel_event_count", VInt (kernel_event_count v));
  ("interrupt_interval_count", VInt (Z.of_nat (length (interrupt_rows v))));
  ("system_deadline_throttle_point_count", VInt (Z.of_nat (length (throttle_rows v))));
  ("application_deadline_runtime_exhaustion_count", VInt (Z.of_nat (length (application_throttles tids v))));
  ("steady_deadline_runtime_exhaustion_count", VInt (Z.of_nat (length steady)));
  ("steady_deadline_runtime_exhaustion_tids", sorted_ids (list_to_set (map (t_context_tid ∘ th_row) steady)));
  ("steady_deadline_overrun_gate_passed", VBool (bool_decide (steady = [])));
  ("steady_deadline_overrun_correlations", VList (map VDict correlations));
  ("steady_sigxcpu_event_count", VInt (Z.of_nat (length (filter (λ s, t_in_steady_state s.1 = true ∧ s.2 = 24) (signal_rows v)))));
  ("post_steady_deadline_runtime_exhaustion_count", VInt (Z.of_nat (length
     (filter (λ th, window.2 < t_timestamp_ns (th_row th)) (application_throttles tids v)))));
  ("largest_scheduler_residency_activation", opt_dict (largest ac_residency_ms activations));
  ("largest_irq_corrected_task_activation", opt_dict largest_task);
  ("largest_irq_corrected_task_activation_xhci_windows",
     VDict match largest_task with Some a => xhci_windows xhci (ac_completion_ns a) | None => [] end);
  ("xhci_irq_ids", sorted_ids ids)].

Section parse.
Context {W : Type} `{OS W} {T : Type}.
Abbreviation IO := (M (T * world W)).
Definition read_topology (output_dir : string) : IO (gset Z) :=
  let path := output_dir // "topology_before.json" in
  file <- sys (IsFile path) ;;
  if negb file then ret ∅ else
  value <- sys (ReadJson path) ;; lift (d ← as_dict value; topology_xhci_irq_ids d).
(** The report is read while kernel_interrupt_intervals.csv is open: whatever
    ends the loop, the intervals before it are in the file. *)
Definition read_report (window : Z * Z) (trace_path output_dir : string) : IO reading :=
  let path := output_dir // "kernel_interrupt_intervals.csv" in
  report <- try_except (λ _, true) (trace_report trace_path)
              (λ e, sys (WriteCsv path interrupt_fields []) ;; rethrow e) ;;
  let '(v, error) := read_lines window start_reading (report_lines report) in
  sys (WriteCsv path interrupt_fields (map interrupt_dict (interrupt_rows v))) ;;
  match error with
  | Some e => rethrow e
  | None => lift (check_report report) ;; ret v
  end.
(** The four files. *)
Definition write_outputs (window : Z * Z) (output_dir : string) (v : reading) (activations : list activation)
    (correlations : list pydict) : IO unit :=
  let write name rows := write_rows (output_dir // name) ["timestamp_ns"] rows in
  write "deadline_runtime_exhaustions.csv" (map (throttle_dict window.1) (throttle_rows v)) ;;
  write "deadline_signal_events.csv" (map (signal_dict window.1) (signal_rows v)) ;;
  write "thread_steady_activations_irq_corrected.csv" (map activation_dict activations) ;;
  write "deadline_overrun_correlations.csv" correlations.
Definition parse_trace (trace_path lifecycle_path activation_path output_dir : string) : IO pydict :=
  window <- phase_window lifecycle_path ;;
  rows <- sys (ReadCsv activation_path) ;;
  tids <- lift (l ← traverse (λ row, row_int row "tid") rows; Ok (list_to_set l : gset Z)) ;;
  ids <- read_topology output_dir ;;
  sys (Mkdir output_dir true) ;;
  v <- read_report window trace_path output_dir ;;
  activations <- lift (traverse (correct_activation v) rows) ;;
  durations <- load_csv (output_dir // "v4l2_diagnostic_durations.csv") ;;
  stages <- lift (_ ← traverse (λ row, row_int row "tid") durations; traverse read_stage durations) ;;
  gap_rows <- load_csv (output_dir // "v4l2_sequence_gaps.csv") ;;
  gaps <- lift (l ← traverse read_gap gap_rows; Ok (sort_on fst l)) ;;
  correlations <- lift (traverse (correlate window activations stages gaps (xhci_interrupts ids v))
                          (filter (λ th, is_steady_overrun tids th = true) (throttle_rows v))) ;;
  write_outputs window output_dir v activations correlations ;;
  let summary := overrun_summary window tids ids v activations correlations in
  sys (WriteJson (output_dir // "overrun_kernel_trace_summary.json") (VDict summary)) ;;
  ret summary.
End parse.
