(* ===== verification/Calls.v ===== *)
(** * What a computation cannot do, and what it did

    A computation that makes only certain system calls keeps every preorder on
    the machine that these calls keep ([makes]).  The methods of the machine
    controls, the recovery, the traces and the artifacts start no process that
    outlives the call and run no benchmark ([quiet]); those of the interference
    workloads run no benchmark either ([no_bench]).

    In the other direction, [called] relates two worlds between which the machine
    answered calls, and [did c a w w'] says that one of them was [c], answered by
    [a]. *)
From Stdlib Require Import Ascii ZArith Lia Floats.SpecFloat.
From S2P Require Import Prelude PyStr PyFloat PyVal PyJson Effects Machine.
From S2P Require Import V4l2Trace KernelTrace FreshnessTrace OverrunTrace.
From S2P Require Import CpuList Devices.
From S2P Require Import CpuIsolation Attempts SteadyAttempts SystemControls Recovery SteadyTrace Noise Memory Shell.
From stdpp Require Import base gmap strings list.
Local Open Scope Z_scope.
Local Open Scope py_scope.
Local Open Scope M_scope.

(** Neither a process of its own nor a benchmark; no benchmark. *)
Definition quiet {A} (c : syscall A) : bool :=
  match c with Spawn _ _ | SpawnWith _ _ | RunBench _ _ => false | _ => true end.
Definition no_bench {A} (c : syscall A) : bool := match c with RunBench _ _ => false | _ => true end.

Section makes.
Context {W : Type} `{OS W}.

(** The calls allowed by [P] keep [R]. *)
Definition kept_by (P : ∀ B, syscall B → bool) (R : relation (world W)) : Prop :=
  PreOrder R ∧ ∀ B (c : syscall B) w r o,
    P B c = true → handle c (w_os w) = (r, o) → R w (World o (w_log w ++ note c r)).
Definition makes {T A} (P : ∀ B, syscall B → bool) (m : M (T * world W) A) : Prop :=
  ∀ R, kept_by P R → within (on_world R) m.

Context (P : ∀ B, syscall B → bool).
Implicit Types T A B : Type.

Lemma makes_sys {T A} (c : syscall A) : P A c = true → makes P (sys (S := T) c).
Proof.
  intros Hc R [_ HR] [s w]. unfold sys, on_world. destruct (handle c (w_os w)) as [r o] eqn:Ho. simpl.
  by eapply HR.
Qed.
Lemma makes_world {T A} (m : M (T * world W) A) : (∀ x, (m x).2.2 = x.2) → makes P m.
Proof. intros Hm R [HR _] x. unfold on_world. by rewrite Hm. Qed.
Lemma makes_ret {T A} (a : A) : makes P (ret a : M (T * world W) A).
Proof. by apply makes_world. Qed.
Lemma makes_throw {T A} c msg : makes P (throw c msg : M (T * world W) A).
Proof. by apply makes_world. Qed.
Lemma makes_rethrow {T A} e : makes P (rethrow e : M (T * world W) A).
Proof. by apply makes_world. Qed.
Lemma makes_lift {T A} (o : outcome A) : makes P (lift o : M (T * world W) A).
Proof. by apply makes_world. Qed.
Lemma makes_self {T A} (f : T → A) : makes P (self f).
Proof. by apply makes_world. Qed.
Lemma makes_set_self {T} (f : T → T) : makes P (set_self f).
Proof. by apply makes_world. Qed.
Lemma makes_bind {T A B} (m : M (T * world W) A) (k : A → M (T * world W) B) :
  makes P m → (∀ a, makes P (k a)) → makes P (bind m k).
Proof. intros Hm Hk R HR. pose proof (proj1 HR). apply within_bind; [typeclasses eauto|by apply Hm|]. intros a. by apply Hk. Qed.
Lemma makes_try {T A} p (m : M (T * world W) A) h :
  makes P m → (∀ e, makes P (h e)) → makes P (try_except p m h).
Proof. intros Hm Hh R HR. pose proof (proj1 HR). apply within_try; [typeclasses eauto|by apply Hm|]. intros e. by apply Hh. Qed.
Lemma makes_finally {T A} (m : M (T * world W) A) f : makes P m → makes P f → makes P (try_finally m f).
Proof. intros Hm Hf R HR. pose proof (proj1 HR). apply within_finally; [typeclasses eauto|by apply Hm|by apply Hf]. Qed.
Lemma makes_for_each {T A} (l : list A) (f : A → M (T * world W) unit) :
  (∀ x, makes P (f x)) → makes P (for_each l f).
Proof. intros Hf R HR. pose proof (proj1 HR). apply within_for_each; [typeclasses eauto|]. intros x. by apply Hf. Qed.
Lemma makes_map_each {T A B} (l : list A) (f : A → M (T * world W) B) :
  (∀ x, makes P (f x)) → makes P (map_each l f).
Proof. intros Hf R HR. pose proof (proj1 HR). apply within_map_each; [typeclasses eauto|]. intros x. by apply Hf. Qed.
Lemma makes_fold_each {T A B} (l : list A) (acc : B) (f : B → A → M (T * world W) B) :
  (∀ acc x, makes P (f acc x)) → makes P (fold_each l acc f).
Proof. intros Hf R HR. pose proof (proj1 HR). apply within_fold_each; [typeclasses eauto|]. intros a x. by apply Hf. Qed.
Lemma makes_when {T} b (m : M (T * world W) unit) : makes P m → makes P (when b m).
Proof. destruct b; [done|]. intros _. apply makes_ret. Qed.
Lemma makes_zoom {S T A} (f : S → T) set (m : M (T * world W) A) : makes P m → makes P (zoom f set m).
Proof.
  intros Hm R HR [s w]. specialize (Hm R HR (f s, w)). unfold zoom, on_world in *.
  by destruct (m (f s, w)) as [r [t w']].
Qed.
Lemma makes_local {S T A} (t : T) (m : M (T * world W) A) : makes P m → makes P (local (S := S) t m).
Proof. intros Hm R HR. pose proof (proj1 HR). by apply within_local, Hm. Qed.

(** A computation keeps what its calls keep. *)
Lemma makes_within {T A} (m : M (T * world W) A) R : makes P m → kept_by P R → within (on_world R) m.
Proof. intros Hm HR. by apply Hm. Qed.
End makes.

Create HintDb makes.
#[export] Hint Resolve makes_ret makes_throw makes_rethrow makes_lift makes_self makes_set_self : makes.

(** Walks through a method body; what it calls has to be in the database. *)
Ltac solve_makes :=
  repeat (intros; match goal with
    | |- makes _ (bind _ _) => apply makes_bind
    | |- makes _ (match ?x with _ => _ end) => destruct x
    | |- makes _ (sys _) => apply makes_sys; reflexivity
    | |- makes _ _ => solve [eauto 3 with makes]
    | |- makes _ (try_except _ _ _) => apply makes_try
    | |- makes _ (try_finally _ _) => apply makes_finally
    | |- makes _ (map_each _ _) => apply makes_map_each
    | |- makes _ (for_each _ _) => apply makes_for_each
    | |- makes _ (fold_each _ _ _) => apply makes_fold_each
    | |- makes _ (when _ _) => apply makes_when
    | |- makes _ (zoom _ _ _) => apply makes_zoom
    | |- makes _ (local _ _) => apply makes_local
    end).

Lemma makes_mono {W} `{OS W} {T A} (P P' : ∀ B, syscall B → bool) (m : M (T * world W) A) :
  (∀ B (c : syscall B), P B c = true → P' B c = true) → makes P m → makes P' m.
Proof.
  intros HP Hm R [HR Hkept]. apply Hm. split; [done|]. intros B c w r o Hc. by apply Hkept, HP.
Qed.
(** [called w w']: calls take the machine from [w] to [w'] and log themselves. *)
Definition call_step {W} `{OS W} : relation (world W) := λ w w',
  ∃ A (c : syscall A) r, handle c (w_os w) = (r, w_os w') ∧ w_log w' = w_log w ++ note c r.
Definition called {W} `{OS W} : relation (world W) := rtc call_step.
#[export] Instance called_preorder {W} `{OS W} : PreOrder called.
Proof. unfold called. apply _. Qed.
Lemma called_kept {W} `{OS W} P : kept_by P called.
Proof. split; [apply _|]. intros B c w r o _ Ho. apply rtc_once. by exists B, c, r. Qed.
Lemma called_log {W} `{OS W} (w w' : world W) : called w w' → w_log w `prefix_of` w_log w'.
Proof. induction 1 as [|w w1 w2 (A & c & r & _ & ->) _ IH]; [done|]. etrans; [|exact IH]. by apply prefix_app_r. Qed.
Lemma called_in {W} `{OS W} (w w' : world W) e : called w w' → e ∈ w_log w → e ∈ w_log w'.
Proof. intros Hc He. destruct (called_log _ _ Hc) as [l ->]. apply elem_of_app. by left. Qed.
Lemma called_makes {W} `{OS W} {T A} P (m : M (T * world W) A) x : makes P m → called x.2 (m x).2.2.
Proof. intros Hm. exact (Hm _ (called_kept P) x). Qed.

(** [did c a w w']: between [w] and [w'] the call [c] was made and gave [a]. *)
Definition did {W} `{OS W} {A} (c : syscall A) (a : A) : relation (world W) := λ w w',
  ∃ w1 w2, called w w1 ∧ handle c (w_os w1) = (Ok a, w_os w2) ∧
    w_log w2 = w_log w1 ++ note c (Ok a) ∧ called w2 w'.
Lemma did_called {W} `{OS W} {A} (c : syscall A) a (w w' : world W) : did c a w w' → called w w'.
Proof.
  intros (w1 & w2 & H1 & Hc & Hl & H2). etrans; [exact H1|]. etrans; [|exact H2].
  apply rtc_once. by exists A, c, (Ok a).
Qed.
Lemma did_between {W} `{OS W} {A} (c : syscall A) a (w0 w w' w'' : world W) :
  called w0 w → did c a w w' → called w' w'' → did c a w0 w''.
Proof. intros H0 (w1 & w2 & H1 & Hc & Hl & H2) H3. exists w1, w2. split_and!; try done; by etrans. Qed.
Lemma did_in {W} `{OS W} {A} (c : syscall A) a (w w' : world W) e :
  did c a w w' → e ∈ note c (Ok a) → e ∈ w_log w'.
Proof.
  intros (w1 & w2 & _ & _ & Hl & H2) He. eapply called_in; [exact H2|]. rewrite Hl. apply elem_of_app. by right.
Qed.
Lemma wp_did {W} `{OS W} {T A} (c : syscall A) Q (E : exn → T * world W → Prop) x :
  (∀ a y, y.1 = x.1 → did c a x.2 y.2 → Q a y) → (∀ e y, y.1 = x.1 → called x.2 y.2 → E e y) → wp (sys c) Q E x.
Proof.
  intros HQ HE. destruct x as [s w]. apply wp_sys. intros [a|e] o Ho.
  - apply HQ; [done|]. exists w, (World o (w_log w ++ note c (Ok a))). by split_and!.
  - apply HE; [done|]. apply rtc_once. by exists A, c, (Raise e).
Qed.
Lemma wp_did_bind {W} `{OS W} {T A B} (c : syscall A) (k : A → M (T * world W) B) Q (E : exn → T * world W → Prop) x :
  (∀ a y, y.1 = x.1 → did c a x.2 y.2 → wp (k a) Q E y) → (∀ e y, y.1 = x.1 → called x.2 y.2 → E e y) →
  wp (bind (sys c) k) Q E x.
Proof. intros HQ HE. by apply wp_bind, wp_did. Qed.
Lemma wp_called {W} `{OS W} {T A} P (m : M (T * world W) A) Q (E : exn → T * world W → Prop) x :
  makes P m → (∀ a y, called x.2 y.2 → Q a y) → (∀ e y, called x.2 y.2 → E e y) → wp m Q E x.
Proof. intros Hm. by apply (wp_within (on_world called)), Hm, called_kept. Qed.
Lemma wp_called_bind {W} `{OS W} {T A B} P (m : M (T * world W) A) (k : A → M (T * world W) B) Q
    (E : exn → T * world W → Prop) x :
  makes P m → (∀ a y, called x.2 y.2 → wp (k a) Q E y) → (∀ e y, called x.2 y.2 → E e y) → wp (bind m k) Q E x.
Proof. intros Hm HQ HE. by apply wp_bind, (wp_called P). Qed.

(** Everything quiet runs no benchmark. *)
Lemma quiet_no_bench {W} `{OS W} {T A} (m : M (T * world W) A) : makes (@quiet) m → makes (@no_bench) m.
Proof. apply makes_mono. by intros B []. Qed.

(** ** Quiet methods *)

Section quiet.
Context {W : Type} `{OS W}.
Abbreviation is_quiet := (makes (@quiet)).
Implicit Types T : Type.

Lemma quiet_run_checked {T} c i t : is_quiet (Shell.run_checked (S := T) c i t).
Proof. unfold Shell.run_checked. solve_makes. Qed.
Hint Resolve quiet_run_checked : makes.
Lemma quiet_check_call {T} c : is_quiet (Shell.check_call (S := T) c).
Proof. unfold Shell.check_call. solve_makes. Qed.
Hint Resolve quiet_check_call : makes.

(** *** Devices *)

Lemma quiet_read_optional {T} p : is_quiet (read_optional_text (S := T) p).
Proof. unfold read_optional_text. solve_makes. Qed.
Hint Resolve quiet_read_optional : makes.
Lemma quiet_is_video {T} p : is_quiet (is_realsense_video_device (S := T) p).
Proof. unfold is_realsense_video_device. solve_makes. Qed.
Hint Resolve quiet_is_video : makes.
Lemma quiet_model {T} p : is_quiet (model_from_device (S := T) p).
Proof. unfold model_from_device. solve_makes. Qed.
Hint Resolve quiet_model : makes.
Lemma quiet_device_record {T} p : is_quiet (device_record (S := T) p).
Proof. unfold device_record. solve_makes. Qed.
Hint Resolve quiet_device_record : makes.
Lemma quiet_camera_dirs {T} p : is_quiet (camera_dirs (S := T) p).
Proof. unfold camera_dirs. solve_makes. Qed.
Hint Resolve quiet_camera_dirs : makes.
Lemma quiet_discover {T} p : is_quiet (discover_realsense_devices (S := T) p).
Proof. unfold discover_realsense_devices. solve_makes. Qed.
Hint Resolve quiet_discover : makes.

(** *** CPU isolation *)

Import CpuIsolation.
Lemma quiet_run_privileged (config : CpuIsolationConfig) c : is_quiet (run_privileged config c).
Proof. unfold run_privileged. solve_makes. Qed.
Hint Resolve quiet_run_privileged : makes.
Lemma quiet_write (config : CpuIsolationConfig) p v : is_quiet (write config p v).
Proof. unfold write. solve_makes. Qed.
Hint Resolve quiet_write : makes.
Lemma quiet_read p : is_quiet (CpuIsolation.read p).
Proof. unfold CpuIsolation.read. solve_makes. Qed.
Hint Resolve quiet_read : makes.
Lemma quiet_current_cgroup (config : CpuIsolationConfig) : is_quiet (current_process_cgroup config).
Proof. unfold current_process_cgroup. solve_makes. Qed.
Hint Resolve quiet_current_cgroup : makes.
Lemma quiet_canonical t : is_quiet (canonical_cpus t).
Proof. unfold canonical_cpus. solve_makes. Qed.
Hint Resolve quiet_canonical : makes.
Lemma quiet_raise_errors p l : is_quiet (raise_errors p l).
Proof. unfold raise_errors. solve_makes. Qed.
Hint Resolve quiet_raise_errors : makes.
Lemma quiet_discover_one a b d : is_quiet (discover_one a b d).
Proof. unfold discover_one. solve_makes. Qed.
Hint Resolve quiet_discover_one : makes.
Lemma quiet_discover_irqs (config : CpuIsolationConfig) : is_quiet (discover_camera_xhci_irqs config).
Proof. unfold discover_camera_xhci_irqs, connected_realsense_devices, interrupt_actions. solve_makes. Qed.
Hint Resolve quiet_discover_irqs : makes.
Lemma quiet_sched p : is_quiet (sched_attributes p).
Proof. unfold sched_attributes. solve_makes. Qed.
Hint Resolve quiet_sched : makes.
Lemma quiet_thread_scan prefix l : is_quiet (irq_thread_scan prefix l).
Proof. induction l; simpl; solve_makes. Qed.
Hint Resolve quiet_thread_scan : makes.
Lemma quiet_thread_state (config : CpuIsolationConfig) irq : is_quiet (irq_thread_state config irq).
Proof. unfold irq_thread_state. solve_makes. Qed.
Hint Resolve quiet_thread_state : makes.
Lemma quiet_isolation_environment (config : CpuIsolationConfig) : is_quiet (validate_environment config).
Proof. unfold validate_environment. solve_makes. Qed.
Hint Resolve quiet_isolation_environment : makes.
Lemma quiet_verify (config : CpuIsolationConfig) output : is_quiet (verify config output).
Proof. unfold verify, verify_irq, compare_cpus. solve_makes. Qed.
Hint Resolve quiet_verify : makes.
Lemma quiet_restore (config : CpuIsolationConfig) : is_quiet (restore config).
Proof.
  unfold restore, restore_process, restore_irq, restore_cgroup, restore_controller, collect. solve_makes.
Qed.
Hint Resolve quiet_restore : makes.
Lemma quiet_prepare (config : CpuIsolationConfig) dir : is_quiet (prepare config dir).
Proof. unfold prepare, prepare_body, pin_irq, check_cpus. solve_makes. Qed.
Hint Resolve quiet_prepare : makes.

(** *** Machine controls *)

Import SystemControls.
Lemma quiet_isolation {A} (m : M (CpuIsolation.CpuIsolation * world W) A) :
  is_quiet m → is_quiet (isolation m).
Proof. apply makes_zoom. Qed.
Hint Resolve quiet_isolation : makes.
Lemma quiet_policy_state p : is_quiet (policy_state p).
Proof. unfold policy_state. solve_makes. Qed.
Hint Resolve quiet_policy_state : makes.
Lemma quiet_frequency_state : is_quiet cpu_frequency_state.
Proof. unfold cpu_frequency_state. solve_makes. Qed.
Hint Resolve quiet_frequency_state : makes.
Lemma quiet_write_sysfs (config : SystemControlConfig) p v : is_quiet (write_sysfs_value config p v).
Proof. unfold write_sysfs_value. solve_makes. Qed.
Hint Resolve quiet_write_sysfs : makes.
Lemma quiet_await_frequency (config : SystemControlConfig) n d : is_quiet (await_frequency config n d).
Proof. revert d. induction n; intros d; simpl; solve_makes. Qed.
Hint Resolve quiet_await_frequency : makes.
Lemma quiet_lock (config : SystemControlConfig) (fuel : nat) dir : is_quiet (lock_cpu_once config fuel dir).
Proof. unfold lock_cpu_once. solve_makes. Qed.
Hint Resolve quiet_lock : makes.
Lemma quiet_restore_frequency (config : SystemControlConfig) : is_quiet (restore_cpu_frequency config).
Proof. unfold restore_cpu_frequency, restore_policy, restore_switch. solve_makes. Qed.
Hint Resolve quiet_restore_frequency : makes.
Lemma quiet_helper n c what d l : is_quiet (helper_attempts n c what d l).
Proof. revert l. induction n; intros l; simpl; solve_makes. Qed.
Hint Resolve quiet_helper : makes.
Lemma quiet_rsusb_helper (config : SystemControlConfig) (fuel : nat) a : is_quiet (run_rsusb_helper config fuel a).
Proof. unfold run_rsusb_helper. solve_makes. Qed.
Hint Resolve quiet_rsusb_helper : makes.
Lemma quiet_prepare_once (config : SystemControlConfig) (fuel : nat) : is_quiet (prepare_rsusb_once config fuel).
Proof. unfold prepare_rsusb_once, settle_after_unbind. solve_makes. Qed.
Hint Resolve quiet_prepare_once : makes.
Lemma quiet_prepare_access (config : SystemControlConfig) (fuel : nat) : is_quiet (prepare_rsusb_access config fuel).
Proof. unfold prepare_rsusb_access, settle_after_unbind. solve_makes. Qed.
Hint Resolve quiet_prepare_access : makes.
Lemma quiet_restore_binding (config : SystemControlConfig) (fuel : nat) : is_quiet (restore_v4l2_binding config fuel).
Proof. unfold restore_v4l2_binding. solve_makes. Qed.
Hint Resolve quiet_restore_binding : makes.
Lemma quiet_autosuspend (config : SystemControlConfig) output n : is_quiet (enforce_realsense_autosuspend config output n).
Proof.
  unfold enforce_realsense_autosuspend, realsense_usb_power_state, power_record, enable_power. solve_makes.
Qed.
Hint Resolve quiet_autosuspend : makes.
Lemma quiet_controls_environment (config : SystemControlConfig) : is_quiet (SystemControls.validate_environment config).
Proof. unfold SystemControls.validate_environment. solve_makes. Qed.
Hint Resolve quiet_controls_environment : makes.
Lemma quiet_prepare_campaign (config : SystemControlConfig) (fuel : nat) dir : is_quiet (prepare_campaign config fuel dir).
Proof. unfold prepare_campaign. solve_makes. Qed.
Hint Resolve quiet_prepare_campaign : makes.
Lemma quiet_prepare_attempt (config : SystemControlConfig) (fuel : nat) n dir : is_quiet (prepare_attempt config fuel n dir).
Proof. unfold prepare_attempt. solve_makes. Qed.
Hint Resolve quiet_prepare_attempt : makes.
Lemma quiet_topology (config : SystemControlConfig) exe output : is_quiet (snapshot_topology config exe output).
Proof. unfold snapshot_topology. solve_makes. Qed.
Hint Resolve quiet_topology : makes.
Lemma quiet_kernel_log (config : SystemControlConfig) : is_quiet (kernel_log config).
Proof. unfold kernel_log. solve_makes. Qed.
Hint Resolve quiet_kernel_log : makes.
Lemma quiet_capture (config : SystemControlConfig) dir b e : is_quiet (capture_kernel_delta config dir b e).
Proof. unfold capture_kernel_delta. solve_makes. Qed.
Hint Resolve quiet_capture : makes.
Lemma quiet_verify_isolation (config : SystemControlConfig) output : is_quiet (verify_cpu_isolation config output).
Proof. unfold verify_cpu_isolation. solve_makes. Qed.
Hint Resolve quiet_verify_isolation : makes.
Lemma quiet_isolation_state : is_quiet cpu_isolation_state.
Proof. unfold cpu_isolation_state. solve_makes. Qed.
Hint Resolve quiet_isolation_state : makes.
Lemma quiet_cleanup (config : SystemControlConfig) (fuel : nat) : is_quiet (cleanup config fuel).
Proof.
  unfold cleanup, cleanup_step. simpl fold_each. solve_makes.
Qed.
Hint Resolve quiet_cleanup : makes.
End quiet.
#[export] Hint Resolve quiet_run_checked quiet_check_call quiet_read_optional quiet_is_video quiet_model quiet_device_record quiet_camera_dirs quiet_discover quiet_run_privileged quiet_write quiet_read quiet_current_cgroup quiet_canonical quiet_raise_errors quiet_discover_one quiet_discover_irqs quiet_sched quiet_thread_scan quiet_thread_state quiet_isolation_environment quiet_verify quiet_restore quiet_prepare quiet_isolation quiet_policy_state quiet_frequency_state quiet_write_sysfs quiet_await_frequency quiet_lock quiet_restore_frequency quiet_helper quiet_rsusb_helper quiet_prepare_once quiet_prepare_access quiet_restore_binding quiet_autosuspend quiet_controls_environment quiet_prepare_campaign quiet_prepare_attempt quiet_topology quiet_kernel_log quiet_capture quiet_verify_isolation quiet_isolation_state quiet_cleanup : makes.

(** *** Recovery, attempts, traces, artifacts *)

(** These have no attributes of their own: they keep every preorder, also on the
    object they run on, that their calls keep. *)
Section over.
Context {W : Type} `{OS W} {T : Type} (R : relation (T * world W)) `{!PreOrder R}.
Context (sys_within : ∀ B (c : syscall B), quiet c = true → within R (sys c)).
Hint Extern 1 (within _ (sys _)) => apply sys_within; reflexivity : keeps.

Lemma within_check_call c : within R (Shell.check_call c).
Proof. unfold Shell.check_call, Shell.run_checked. solve_within. Qed.
Lemma within_reset_failure case n dir manifest e :
  within R (SteadyAttempts.record_pre_run_reset_failure case n dir manifest e).
Proof. unfold SteadyAttempts.record_pre_run_reset_failure. solve_within. Qed.
Lemma within_publish a r : within R (SteadyAttempts.publish_attempts a r).
Proof. unfold SteadyAttempts.publish_attempts. solve_within. Qed.
Lemma within_parse_steady a b c : within R (SteadyTrace.parse_steady_trace a b c).
Proof.
  unfold SteadyTrace.parse_steady_trace, SteadyTrace.read_jsonl, SteadyTrace.load_lime, SteadyTrace.load_task.
  solve_within.
Qed.
Lemma within_meminfo : within R Memory._read_meminfo_kib.
Proof. unfold Memory._read_meminfo_kib. solve_within. Qed.
Lemma within_drop_command b : within R (Memory._drop_command b).
Proof. unfold Memory._drop_command. solve_within. Qed.

Section recovery.
Import Recovery.
Context (config : CameraRecoveryConfig W T) (fuel : nat).
Context (prepare_within : ∀ m, prepare_enumeration_probe config = Some m → within R m).
Lemma within_first_usb l : within R (first_usb_device l).
Proof using sys_within PreOrder0. induction l; simpl; solve_within. Qed.
Hint Resolve within_first_usb : keeps.
Lemma within_can_find serial t : within R (_probe_can_find_serial config serial t).
Proof using sys_within PreOrder0. unfold _probe_can_find_serial. solve_within. Qed.
Hint Resolve within_can_find : keeps.
Lemma within_await_camera n serial d out : within R (await_camera config n serial d out).
Proof using sys_within PreOrder0. revert out. induction n; intros out; simpl; solve_within. Qed.
Hint Resolve within_await_camera : keeps.
Lemma within_await_enumeration serial r : within R (await_enumeration config fuel serial r).
Proof.
  unfold await_enumeration. apply within_bind; [done| |solve_within].
  destruct (prepare_enumeration_probe config) as [m|] eqn:Hm; [by apply prepare_within|by apply within_ret].
Qed.
Hint Resolve within_await_enumeration : keeps.
Lemma within_usb_reset serial port : within R (_usb_reset config fuel serial port).
Proof.
  unfold _usb_reset, _usb_device_from_physical_port, reset_device, guarded, read_number. solve_within.
Qed.
Lemma within_firmware serial : within R (_firmware_reset config serial).
Proof using sys_within PreOrder0. unfold _firmware_reset, guarded. solve_within. Qed.
Hint Resolve within_usb_reset within_firmware : keeps.
Lemma within_recover_camera camera : within R (_recover_camera config fuel camera).
Proof. unfold _recover_camera. solve_within. Qed.
Hint Resolve within_recover_camera : keeps.
Lemma within_recover cameras dir : within R (recover config fuel cameras dir).
Proof. unfold recover. solve_within. Qed.
Hint Resolve within_recover : keeps.
Lemma within_reset_before_run cameras dir : within R (reset_before_run config fuel cameras dir).
Proof. unfold reset_before_run. solve_within. Qed.
End recovery.
End over.

Lemma kept_sys {W} `{OS W} {T B} P R (c : syscall B) :
  kept_by P R → P B c = true → within (on_world R) (sys (S := T) c).
Proof. intros HR Hc. by apply (makes_sys P c Hc). Qed.

Section adapters.
Context {W : Type} `{OS W} {T : Type}.
Abbreviation is_quiet := (makes (T := T) (@quiet)).

Lemma quiet_recovery_environment config : is_quiet (Recovery.validate_environment config).
Proof. unfold Recovery.validate_environment. solve_makes. Qed.
Lemma quiet_recover config fuel cameras dir :
  (∀ m, Recovery.prepare_enumeration_probe config = Some m → is_quiet m) →
  is_quiet (Recovery.recover config fuel cameras dir).
Proof.
  intros Hp R HR. pose proof (proj1 HR). apply within_recover; [typeclasses eauto| |].
  - intros B c. by apply kept_sys.
  - intros m Hm. by apply (Hp m Hm).
Qed.
Lemma quiet_reset_before_run config fuel cameras dir :
  (∀ m, Recovery.prepare_enumeration_probe config = Some m → is_quiet m) →
  is_quiet (Recovery.reset_before_run config fuel cameras dir).
Proof.
  intros Hp. pose proof (quiet_recover config fuel). unfold Recovery.reset_before_run. solve_makes.
Qed.
Lemma quiet_reset_failure case n dir manifest e :
  is_quiet (SteadyAttempts.record_pre_run_reset_failure case n dir manifest e).
Proof. unfold SteadyAttempts.record_pre_run_reset_failure. solve_makes. Qed.
Lemma quiet_publish a r : is_quiet (SteadyAttempts.publish_attempts a r).
Proof. unfold SteadyAttempts.publish_attempts. solve_makes. Qed.
Lemma quiet_resolve_attempt dir : is_quiet (SteadyAttempts.resolve_selected_attempt dir).
Proof.
  unfold SteadyAttempts.resolve_selected_attempt, SteadyAttempts.selected_attempt_number. solve_makes.
Qed.
Lemma quiet_parse_steady a b c : is_quiet (SteadyTrace.parse_steady_trace a b c).
Proof.
  intros R HR. pose proof (proj1 HR). apply within_parse_steady; [typeclasses eauto|].
  intros B c'. by apply kept_sys.
Qed.
Lemma quiet_window path : is_quiet (V4l2Trace.phase_window path).
Proof. unfold V4l2Trace.phase_window. solve_makes. Qed.
Hint Resolve quiet_window : makes.
Lemma quiet_v4l2_trace a b c d : is_quiet (V4l2Trace.parse_trace a b c d).
Proof. unfold V4l2Trace.parse_trace, V4l2Trace.load_activations, V4l2Trace.write_rows. solve_makes. Qed.
Lemma quiet_load_csv path : is_quiet (KernelTrace.load_csv path).
Proof. unfold KernelTrace.load_csv. solve_makes. Qed.
Hint Resolve quiet_load_csv : makes.
Lemma quiet_freshness_trace a b c : is_quiet (FreshnessTrace.parse_trace a b c).
Proof.
  unfold FreshnessTrace.parse_trace, FreshnessTrace.read_gaps, KernelTrace.trace_report, V4l2Trace.write_rows. solve_makes.
Qed.
Lemma quiet_overrun_trace a b c d : is_quiet (OverrunTrace.parse_trace a b c d).
Proof.
  unfold OverrunTrace.parse_trace, OverrunTrace.read_topology, OverrunTrace.read_report, OverrunTrace.write_outputs,
    KernelTrace.trace_report, V4l2Trace.write_rows. solve_makes.
Qed.
Lemma quiet_meminfo : is_quiet Memory._read_meminfo_kib.
Proof. unfold Memory._read_meminfo_kib. solve_makes. Qed.
Lemma quiet_memory_environment b : is_quiet (Memory.validate b).
Proof. unfold Memory.validate. solve_makes. Qed.
Lemma quiet_memory_run c i : is_quiet (Memory._run c i).
Proof. unfold Memory._run. solve_makes. Qed.
Lemma quiet_drop_command b : is_quiet (Memory._drop_command b).
Proof. unfold Memory._drop_command. solve_makes. Qed.
Lemma quiet_cleanup_fields dir b : is_quiet (Memory.memory_cleanup_result_fields dir b).
Proof. unfold Memory.memory_cleanup_result_fields. solve_makes. Qed.
End adapters.
#[export] Hint Resolve quiet_recovery_environment quiet_reset_failure quiet_publish quiet_resolve_attempt
  quiet_parse_steady quiet_v4l2_trace quiet_freshness_trace quiet_overrun_trace quiet_meminfo quiet_memory_environment quiet_memory_run quiet_drop_command
  quiet_cleanup_fields : makes.

Lemma quiet_drop_caches {W} `{OS W} {T} b dir : makes (@quiet) (Memory.drop_caches (T := T) b dir).
Proof.
  unfold Memory.drop_caches, Memory.sync_and_drop, Memory.write_metadata, Memory.complete_metadata,
    Memory.note_metadata. solve_makes.
Qed.
#[export] Hint Resolve quiet_drop_caches : makes.

(** ** Assertions that returning and raising leave *)

(** From [I] the computation returns with [I] and raises with [E]. *)
Definition ends {S A} (I E : S → Prop) (m : M S A) : Prop := ∀ x, I x → wp m (λ _ y, I y) (λ _ y, E y) x.

Section ends.
Context {S : Type} (I E : S → Prop) (weaker : ∀ x, I x → E x).
Lemma ends_ret {A} (a : A) : ends I E (ret a).
Proof. intros x Hx. by apply wp_ret. Qed.
Lemma ends_bind {A B} (m : M S A) (k : A → M S B) : ends I E m → (∀ a, ends I E (k a)) → ends I E (bind m k).
Proof. intros Hm Hk x Hx. apply wp_bind. eapply wp_conseq; [by apply Hm|intros a y Hy; by apply Hk|done]. Qed.
Lemma ends_lift {A} (o : outcome A) : ends I E (lift o).
Proof. intros x Hx. apply wp_lift. destruct o; auto. Qed.
Lemma ends_throw {A} c msg : ends I E (throw c msg : M S A).
Proof. intros x Hx. by apply wp_throw, weaker. Qed.
Lemma ends_try {A} p (m : M S A) h : ends I I m → (∀ e, ends I E (h e)) → ends I E (try_except p m h).
Proof.
  intros Hm Hh x Hx. apply wp_try. eapply wp_conseq; [by apply Hm|done|].
  intros e y Hy. destruct (p e); [by apply Hh|by apply weaker].
Qed.
Lemma ends_when b (m : M S unit) : ends I E m → ends I E (when b m).
Proof. intros Hm. destruct b; [done|apply ends_ret]. Qed.
End ends.
Lemma within_ends {S A} (R : relation S) (m : M S A) : Transitive R → within R m → ∀ x, ends (R x) (R x) m.
Proof.
  intros HR Hm x y Hy. unfold wp. specialize (Hm y). destruct (m y) as [[] z]; simpl in Hm; by etrans.
Qed.

(** The attempt loop leaves what the callables it is given leave. *)
Section loop.
Import Attempts.
Context {W : Type} `{OS W} {T : Type} (args : loop_arguments W T).
Section loop_ends.
Context (I E : T * world W → Prop) (weaker : ∀ x, I x → E x).
Context (sleeps : ends I E (sys (S := T) (Sleep (recovery_settle_seconds args)))).
Context (run_ends : ∀ n dir, ends I E (run_attempt args n dir)).
Context (recover_ends : ∀ f s dir d, recover_attempt args = Some f → ends I E (f s dir d)).
Context (before_ends : ∀ f n dir, before_attempt args = Some f → ends I E (f n dir)).
Lemma ends_one_attempt n : ends I E (one_attempt args n).
Proof using weaker run_ends recover_ends before_ends.
  unfold one_attempt, recovery_for. apply ends_bind.
  { destruct (before_attempt args) as [f|] eqn:Hf; [by apply (before_ends f)|by apply ends_ret]. }
  intros []. apply ends_bind; [apply run_ends|]. intros [output summary].
  apply ends_bind; [by apply ends_lift|]. intros d.
  apply ends_bind; [|intros record].
  { destruct (build_attempt_record args); [|apply ends_ret].
    apply ends_bind; [by apply ends_lift|intros; apply ends_ret]. }
  destruct (negb (success d) && recover d && negb (bool_decide (recovery_method args = "none")));
    [|by apply ends_ret].
  destruct (recover_attempt args) as [f|] eqn:Hf; [|by apply ends_ret].
  apply ends_bind; [by apply (recover_ends f)|intros; by apply ends_ret].
Qed.
Lemma ends_attempt_loop n k : ends I E (attempt_loop args n k).
Proof using weaker sleeps run_ends recover_ends before_ends.
  revert k. induction n as [|n IH]; intros k; simpl; [by apply ends_ret|].
  apply ends_bind; [apply ends_one_attempt|]. intros st.
  destruct (negb (retry_after args k st)); [by apply ends_ret|].
  apply ends_bind; [by apply ends_when|]. intros _.
  apply ends_bind; [apply IH|intros; by apply ends_ret].
Qed.
Lemma ends_run_attempt_loop : ends I E (run_attempt_loop args).
Proof using weaker sleeps run_ends recover_ends before_ends.
  unfold run_attempt_loop. destruct (bool_decide (max_attempts args < 1)); [by apply ends_throw|].
  apply ends_bind; [apply ends_attempt_loop|]. intros sts.
  destruct (last sts); [by apply ends_ret|by apply ends_throw].
Qed.
End loop_ends.

Context (R : relation (T * world W)) `{!PreOrder R}.
Lemma within_run_attempt_loop :
  within R (sys (S := T) (Sleep (recovery_settle_seconds args))) →
  (∀ n dir, within R (run_attempt args n dir)) →
  (∀ f s dir d, recover_attempt args = Some f → within R (f s dir d)) →
  (∀ f n dir, before_attempt args = Some f → within R (f n dir)) →
  within R (run_attempt_loop args).
Proof.
  intros Hs Hr Hc Hb x.
  assert (ends (R x) (R x) (run_attempt_loop args)) as He.
  { apply ends_run_attempt_loop; [done|..]; intros; apply within_ends; try typeclasses eauto; eauto. }
  specialize (He x (reflexivity x)). unfold wp in He. by destruct (run_attempt_loop args x) as [[] y].
Qed.
End loop.

(** ** The interference workloads run no benchmark *)

Section noise.
Import Noise.
Context {W : Type} `{OS W}.
Abbreviation benchless := (makes (@no_bench)).

(** The operations of a workload. *)
Record operations_make (P : ∀ B, syscall B → bool) (w : ManagedNoiseProcess (W := W)) : Prop := {
  makes_validate : makes P (validate_environment w);
  makes_manifest mode : makes P (manifest w mode);
  makes_command a b : makes P (_command w a b);
  makes_before : makes P (_before_start w);
  makes_decorate r c : makes P (_decorate_ready w r c);
  makes_extra mode : makes P (_extra_result_fields w mode);
}.

Lemma quiet_taskset b a s : makes (@quiet) (check_taskset b a s).
Proof. unfold check_taskset. solve_makes. Qed.
Hint Resolve quiet_taskset : makes.
Lemma quiet_identify c : makes (@quiet) (identify c).
Proof.
  unfold identify, _validate_device, require_utilities, resolve_device, inspect_disk, usb_properties. solve_makes.
Qed.
Hint Resolve quiet_identify : makes.
Lemma workloads_quiet cpu memory usb gpu m : operations_make (@quiet) (NoiseSuite cpu memory usb gpu m).
Proof.
  destruct m; split; intros; simpl; unfold gpu_validate_environment, model_digest, usb_command; solve_makes.
Qed.
Lemma cpu_workload_quiet cpu : operations_make (@quiet) (CpuBusyLoopNoise cpu).
Proof. split; intros; simpl; solve_makes. Qed.
Lemma operations_no_bench w : operations_make (@quiet) w → operations_make (@no_bench) w.
Proof. intros []. split; intros; by apply quiet_no_bench. Qed.

Section process.
Context (w : ManagedNoiseProcess (W := W)).
Lemma quiet_read_json p : makes (@quiet) (_read_json p).
Proof. unfold _read_json. solve_makes. Qed.
Hint Resolve quiet_read_json : makes.
Lemma quiet_stop dir : makes (@quiet) (stop w dir).
Proof. unfold stop, end_process, _write_process. solve_makes. Qed.
Lemma quiet_artifacts mode dir : operations_make (@quiet) w → makes (@quiet) (artifacts w mode dir).
Proof. intros []. unfold artifacts. solve_makes. Qed.
Lemma benchless_stop dir : benchless (stop w dir).
Proof. apply quiet_no_bench, quiet_stop. Qed.
Lemma benchless_read_json p : benchless (_read_json p).
Proof. apply quiet_no_bench, quiet_read_json. Qed.
Hint Resolve benchless_stop benchless_read_json : makes.
Context (ops : operations_make (@no_bench) w).
Lemma benchless_look dir c : benchless (look_ready w dir c).
Proof. destruct ops. unfold look_ready. solve_makes. Qed.
Hint Resolve benchless_look : makes.
Lemma benchless_await n pid dir c d : benchless (await_ready w n pid dir c d).
Proof. induction n; simpl; unfold exited_early, _write_process; solve_makes. Qed.
Hint Resolve benchless_await : makes.
Lemma benchless_start fuel mode dir : benchless (start w fuel mode dir).
Proof. destruct ops. unfold start. solve_makes. Qed.
End process.

Section suite.
Context (workload : member → ManagedNoiseProcess (W := W)) (ops : ∀ m, operations_make (@quiet) (workload m)).
Lemma quiet_stop_all dir : makes (@quiet) (stop_all workload dir).
Proof. unfold stop_all, on_member. pose proof quiet_stop. solve_makes. Qed.
Lemma quiet_suite_environment : makes (@quiet) (suite_validate_environment workload).
Proof. unfold suite_validate_environment, on_member. solve_makes. by destruct (ops x). Qed.
Lemma quiet_suite_manifest modes : makes (@quiet) (suite_manifest workload modes).
Proof. unfold suite_manifest, on_member. solve_makes. by destruct (ops x). Qed.
Lemma quiet_suite_artifacts modes dir : makes (@quiet) (suite_artifacts workload modes dir).
Proof. unfold suite_artifacts, on_member. pose proof quiet_artifacts. solve_makes. Qed.
Lemma benchless_start_all fuel modes dir : benchless (start_all workload fuel modes dir).
Proof.
  assert (∀ m, operations_make (@no_bench) (workload m)) as Hops by (intros m; apply operations_no_bench, ops).
  pose proof (λ d, quiet_no_bench _ (quiet_stop_all d)) as Hstop.
  unfold start_all, start_member, on_member. solve_makes. by apply benchless_start.
Qed.
End suite.

Section transition.
Context (workload : member → ManagedNoiseProcess (W := W)) (ops : ∀ m, operations_make (@quiet) (workload m)).
Lemma quiet_transition_enabled : makes (@quiet) (transition_enabled (W := W)).
Proof. unfold transition_enabled. solve_makes. Qed.
Lemma quiet_probe_arguments modes dir : makes (@quiet) (probe_arguments workload modes dir).
Proof. unfold probe_arguments, transition_enabled. solve_makes. Qed.
Lemma quiet_write_state dir : makes (@quiet) (_write_state (W := W) dir).
Proof. unfold _write_state. solve_makes. Qed.
Lemma benchless_warmup dir n : benchless (_wait_for_camera_warmup (W := W) dir n).
Proof. unfold _wait_for_camera_warmup. induction n; simpl; unfold probe_done, warmup_timestamp, note_state; solve_makes. Qed.
Hint Resolve benchless_warmup : makes.
Lemma benchless_run fuel modes dir : benchless (_run workload fuel modes dir).
Proof.
  pose proof (benchless_start_all workload ops) as Hstart.
  unfold _run, run_transition, _publish_error, _atomic_write, _write_state, note_state, probe_done. solve_makes.
Qed.
Lemma quiet_start_transition : makes (@quiet) (start_transition (W := W)).
Proof. unfold start_transition, transition_enabled. solve_makes. Qed.
Lemma benchless_finish fuel modes dir : benchless (finish workload fuel modes dir).
Proof. pose proof benchless_run. unfold finish, _write_state. solve_makes. Qed.
End transition.
End noise.
#[export] Hint Resolve quiet_stop quiet_stop_all quiet_suite_environment quiet_suite_manifest quiet_suite_artifacts
  quiet_probe_arguments quiet_write_state benchless_run
  quiet_transition_enabled quiet_start_transition benchless_finish workloads_quiet : makes.
