(* ===== verification/SteadyResults.v ===== *)
(** * Results of a steady-state run ([steady_results.py])

    The row of one run: the columns of the attempts, the noise, the aggregate,
    every camera slot, the traces, the kernel log and the interrupts, from the
    files of the selected attempt. *)
From Stdlib Require Import Ascii ZArith Lia Floats.SpecFloat.
From S2P Require Import Prelude PyStr PyFloat PyVal PyJson Effects Machine.
From S2P Require Import Devices SteadyAttempts StartupTrace.
From S2P Require Import Memory Noise.
From stdpp Require Import base gmap strings list pretty.
Local Open Scope Z_scope.
Local Open Scope py_scope.
Local Open Scope M_scope.

Definition CAMERA_SCALAR_RESULT_KEYS : list string := [
  "serial"; "physical_port"; "usb_type"; "start_call_ms"; "stop_call_ms"; "warmup_deliveries";
  "warmup_health_deliveries"; "warmup_observed_frames"; "warmup_duplicate_frames"; "warmup_sequence_gaps";
  "warmup_out_of_order_frames"; "deliveries"; "frames"; "drops"; "timeouts"; "pre_measurement_timeouts";
  "measurement_timeouts"; "observed_frames"; "unique_frames"; "duplicate_frames"; "sequence_gaps";
  "nonadvancing_frames"; "out_of_order_frames"; "fully_fresh_framesets"; "partially_stale_framesets";
  "stale_framesets"].
Definition CAMERA_INTERARRIVAL_RESULT_KEYS : list string :=
  ["max"; "mean"; "min"; "n"; "p50"; "p90"; "p99"; "p999"; "stddev"].
Definition CAMERA_STORAGE_RESULT_KEYS : list string :=
  ["allocated_event_capacity"; "delivery_capacity"; "event_capacity"; "stream_sample_capacity"].

(** [json.dumps(value, sort_keys=True)]. *)
Fixpoint json_sorted (v : pyval) : string :=
  match v with
  | VList l => "[" +:+ py_join ", " (map json_sorted l) +:+ "]"
  | VDict d =>
      let texts := (fix go d := match d with
                                | [] => []
                                | (k, x) :: d => (k, json_string k +:+ ": " +:+ json_sorted x) :: go d
                                end) d in
      "{" +:+ py_join ", " (map snd (sort_keys texts)) +:+ "}"
  | v => json_dumps v
  end.

(** [flatten(prefix, value, output)]. *)
Fixpoint flatten (prefix : string) (value : pyval) (output : pydict) : pydict :=
  match value with
  | VDict d =>
      (fix go d output :=
         match d with
         | [] => output
         | (key, child) :: d =>
             go d (flatten (if bool_decide (prefix = "") then key else prefix +:+ "_" +:+ key) child output)
         end) d output
  | VList _ => dset prefix (VStr (json_sorted value)) output
  | v => dset prefix v output
  end.

(** [v.get(k, default)]. *)
Definition field (v : pyval) (k : string) (default : pyval) : outcome pyval :=
  d ← as_dict v; Ok (dgetd k default d).

(** ** Interrupts *)

Definition interrupt_count (count : pyval) : outcome Z := py_int count.
Definition interrupt_line (totals : pydict) (v : pyval) : outcome pydict :=
  line ← as_dict v;
  counts ← as_list (dgetd "counts" (VList []) line);
  numbers ← traverse py_int counts;
  Ok (dset (str_val (dgetd "irq" (VStr "") line) +:+ ":" +:+ str_val (dgetd "description" (VStr "") line))
        (VInt (foldl Z.add 0 numbers)) totals).
Definition totals_of (value : pyval) : outcome pydict :=
  parsed ← field value "parsed_interrupts" (VDict []);
  lines ← field parsed "lines" (VList []);
  l ← as_list lines;
  fold_outcome interrupt_line [] l.

Definition total (k : string) (totals : pydict) : Z := default 0 (as_int (dgetd k (VInt 0) totals)).
(** The difference of two snapshots, for the keys of either. *)
Definition irq_delta (before after : pydict) : pydict :=
  map (λ k, (k, VInt (total k after - total k before))) (sorted_set (dkeys before ++ dkeys after)).

(** ** The kernel log *)

(** [re.findall] of the resubmit errors; matches do not overlap. *)
Fixpoint uvc_findall (s : string) : list (string * string) :=
  match s with
  | EmptyString => []
  | String _ s' =>
      match (s ← expect "uvcvideo" s; uvc_tail s) with
      | Some m => m :: uvc_findall s'
      | None => uvc_findall s'
      end
  end.
Definition uvc_columns (captured : bool) (text : string) : pydict :=
  let matches := uvc_findall text in [
  ("kernel_log_captured", VBool captured);
  ("uvc_resubmit_errors", VInt (Z.of_nat (length matches)));
  ("uvc_resubmit_interfaces", VStr (py_join "," (sorted_set (map fst matches))));
  ("uvc_resubmit_error_codes", VStr (py_join "," (sorted_set (map snd matches))))].

(** ** Cameras *)

(** [cameras_by_index]. *)
Definition index_camera (by_index : list (Z * pydict)) (v : pyval) : outcome (list (Z * pydict)) :=
  camera ← as_dict v;
  index ← py_int (dgetd "index" (VInt 0) camera);
  Ok (zset index camera by_index).
Definition camera_prefix (index : Z) : string := "camera_" +:+ str_Z index.
(** The columns of one slot, with the values of its camera. *)
Definition camera_cells (index : Z) (camera : pydict) : outcome pydict :=
  let prefix := camera_prefix index in
  interarrival ← as_dict (dgetd "delivery_interarrival_ms" (VDict []) camera);
  storage ← as_dict (dgetd "storage" (VDict []) camera);
  Ok (map (λ k, (prefix +:+ "_" +:+ k, dgetd k (VStr "") camera)) CAMERA_SCALAR_RESULT_KEYS
      ++ map (λ k, (prefix +:+ "_interarrival_ms_" +:+ k, dgetd k (VStr "") interarrival))
           CAMERA_INTERARRIVAL_RESULT_KEYS
      ++ map (λ k, (prefix +:+ "_storage_" +:+ k, dgetd k (VStr "") storage)) CAMERA_STORAGE_RESULT_KEYS).
Definition add_slot (by_index : list (Z * pydict)) (result : pydict) (index : Z) : outcome pydict :=
  cells ← camera_cells index (default [] (zget index by_index));
  Ok (dupdate result cells).
Definition slots (n : Z) : list Z := seqZ 0 n.
Definition _add_camera_results (result data : pydict) (camera_result_slots : Z) : outcome pydict :=
  cameras ← as_list (dgetd "cameras" (VList []) data);
  by_index ← fold_outcome index_camera [] cameras;
  let unexpected := sort_on id (filter (λ i, ¬ (0 <= i < camera_result_slots)) (map fst by_index)) in
  if negb (bool_decide (unexpected = [])) then
    raise ValueError ("camera result index exceeds the configured CSV schema: "
      +:+ py_join ", " (map str_Z unexpected))
  else fold_outcome (add_slot by_index) result (slots camera_result_slots).

(** ** Noise *)

Definition noise_modes (run_variables : pydict) : outcome (list (string * string)) :=
  traverse (λ m, v ← subscript run_variables (mode_key m); Ok (mode_key m, str_val v)) members.
Definition invalidate (error : string) (result : pydict) : pydict :=
  let text := str_val (dgetd "error" (VStr "") result) +:+ " | " +:+ error in
  dset "error" (VStr (py_strip_chars " |" text)) (dset "success" (VBool false) result).
Definition add_artifacts (result : pydict) (a : NoiseArtifacts) : outcome pydict :=
  let prefix := na_prefix a in
  ready ← field (na_ready a) "ready" (VBool false);
  let result := dset (prefix +:+ "_ready") (VBool (truthy ready)) result in
  returncode ← field (na_process a) "returncode" (VStr "");
  let result := dset (prefix +:+ "_process_returncode") returncode result in
  forced ← field (na_process a) "forced_kill" (VBool false);
  let result := dset (prefix +:+ "_forced_kill") forced result in
  let result := if truthy (na_summary a) then flatten prefix (na_summary a) result else result in
  let result := dset (prefix +:+ "_valid") (VBool (na_valid a)) (dupdate result (na_extra a)) in
  Ok (if na_valid a then result else invalidate (na_error a) result).

(** ** The row *)

(** The dictionary literal. *)
Definition steady_columns (record_dir backend_name : string) (policy_names : list (string * string))
    (run_variables data : pydict) (selected : SelectedAttempt) : outcome pydict :=
  let get := λ k, dgetd k (VDict []) data in
  let aggregate := get "aggregate" in
  let agg := λ k default, field aggregate k default in
  policy ← subscript run_variables "policy";
  policy_requested ← match dget (str_val policy) policy_names with
                     | Some name => Ok name | None => key_error (str_val policy) end;
  launch ← field (get "scheduler") "policy" (VStr "");
  main ← field (get "scheduler") "main_thread_policy" launch;
  worker ← field (get "scheduler") "steady_worker_policy" (VStr "");
  modes ← traverse (λ m, v ← subscript run_variables (mode_key m);
                     Ok [(mode_key m +:+ "_mode", v); (mode_key m +:+ "_enabled", VBool (negb (py_eq v (VStr "none"))))])
            [Cpu; Memory; Gpu; UsbStorage];
  camera_count ← field (get "run") "camera_count" (VInt 0);
  fixed_event_storage ← field (get "run") "fixed_event_storage" (VBool false);
  deliveries ← agg "deliveries" (VInt 0); frames ← agg "frames" (VInt 0); drops ← agg "drops" (VInt 0);
  timeouts ← agg "timeouts" (VInt 0); pre_timeouts ← agg "pre_measurement_timeouts" (VInt 0);
  measurement_timeouts ← agg "measurement_timeouts" (VInt 0);
  observed ← agg "observed_frames" frames; unique ← agg "unique_frames" frames;
  duplicate ← agg "duplicate_frames" (VInt 0); gaps ← agg "sequence_gaps" drops;
  nonadvancing ← agg "nonadvancing_frames" (VInt 0); out_of_order ← agg "out_of_order_frames" (VInt 0);
  fully ← agg "fully_fresh_framesets" (VInt 0); partially ← agg "partially_stale_framesets" (VInt 0);
  stale ← agg "stale_framesets" (VInt 0);
  freshness ← field (get "postprocess") "freshness_analysis_ms" (VFloat f_zero);
  run_mode ← field (get "run") "measurement_mode" (VStr "deliveries");
  mode ← field (get "measurement") "mode" run_mode;
  requested ← field (get "measurement") "requested_duration_ms" (VInt 0);
  duration ← field (get "measurement") "duration_ms" (VInt 0);
  let applied k := VBool (match dgetd k VNone data with VNone => false | _ => true end) in
  Ok ([("success", dgetd "success" (VBool false) data);
     ("error", dgetd "error" (VStr "summary file missing") data); ("backend", VStr backend_name);
     ("policy_requested", VStr policy_requested); ("process_launch_policy_effective", launch);
     ("main_thread_policy_effective", main); ("steady_worker_policy_effective", worker);
     ("deadline_profile_applied", applied "deadline"); ("rate_monotonic_profile_applied", applied "rate_monotonic");
     ("hardware_sync_enabled", VBool false); ("hardware_sync_master_serial", VStr "");
     ("hardware_sync_slave_serials", VStr "[]"); ("hardware_sync_all_applied", VBool false);
     ("hardware_sync_all_restored", VBool false); ("hardware_sync_assignments", VStr "[]")]
    ++ concat modes ++
    [("camera_count", camera_count); ("fixed_event_storage", fixed_event_storage);
     ("deliveries", deliveries); ("frames", frames); ("drops", drops); ("timeouts", timeouts);
     ("pre_measurement_timeouts", pre_timeouts); ("measurement_timeouts", measurement_timeouts);
     ("observed_frames", observed); ("unique_frames", unique); ("duplicate_frames", duplicate);
     ("sequence_gaps", gaps); ("nonadvancing_frames", nonadvancing); ("out_of_order_frames", out_of_order);
     ("fully_fresh_framesets", fully); ("partially_stale_framesets", partially); ("stale_framesets", stale);
     ("freshness_analysis_ms", freshness); ("measurement_mode", mode);
     ("measurement_requested_duration_ms", requested); ("measurement_duration_ms", duration);
     ("transition_noise_gate_enabled", VBool false); ("transition_warmup_ready_boottime_ns", VInt 0);
     ("transition_measurement_gate_open_boottime_ns", VInt 0); ("transition_warmup_to_gate_ms", VFloat f_zero);
     ("deadline_assignments", VStr "[]"); ("deadline_live_threads", VInt 0); ("deadline_overrun_signals", VInt 0);
     ("deadline_partial_profile", VBool false); ("deadline_profile_entries", VInt 0);
     ("deadline_profile_path", VStr ""); ("deadline_unassigned_live_threads", VInt 0);
     ("rate_monotonic_assignments", VStr "[]"); ("rate_monotonic_highest_priority", VInt 0);
     ("rate_monotonic_live_threads", VInt 0); ("rate_monotonic_lowest_priority", VInt 0);
     ("rate_monotonic_policy", VStr ""); ("rate_monotonic_priority_levels", VInt 0);
     ("rate_monotonic_profile_entries", VInt 0); ("rate_monotonic_profile_path", VStr "");
     ("record_data_dir", VStr record_dir); ("selected_attempt_data_dir", VStr (data_dir selected));
     ("artifact_layout", VStr (layout selected))]).

(** The nested values of the summary and the case. *)
Definition flatten_present (k : string) (data result : pydict) : pydict :=
  match dgetd k VNone data with VNone => result | v => flatten k v result end.
Definition flatten_columns (isolation case data result : pydict) : outcome pydict :=
  let result := flatten "cpu_isolation" (VDict isolation) result in
  let result := flatten "workload" (dgetd "workload" (VDict []) case) result in
  let result := flatten "physical" (dgetd "physical" (VDict []) case) result in
  let aggregate := dgetd "aggregate" (VDict []) data in
  interarrival ← field aggregate "delivery_interarrival_ms" (VDict []);
  let result := flatten "delivery_interarrival_ms" interarrival result in
  wait ← field aggregate "wait_ms" (VDict []);
  let result := flatten "wait_ms" wait result in
  let result := flatten "transition" (dgetd "transition" (VDict []) data) result in
  let result := flatten_present "rate_monotonic" data (flatten_present "deadline" data result) in
  Ok (flatten "hardware_sync" (dgetd "hardware_sync" (VDict []) data) result).

Section results.
Context {W : Type} `{OS W}.
Section files.
Context {T : Type}.
Abbreviation IO := (M (T * world W)).

(** The JSON value of a file, [default] when there is none. *)
Definition json_or (default : pyval) (path : string) : IO pyval :=
  file <- sys (IsFile path) ;;
  if (file : bool) then sys (ReadJson path) else ret default.
Definition interrupt_totals (path : string) : IO pydict :=
  file <- sys (IsFile path) ;;
  if negb file then ret [] else value <- sys (ReadJson path) ;; lift (totals_of value).
Definition _add_trace_results (record_dir : string) (result : pydict) : IO pydict :=
  let path := record_dir // "thread_steady_summary.json" in
  file <- sys (IsFile path) ;;
  if negb file then
    ret (dset "traced_activation_count" (VInt 0) (dset "traced_thread_count" (VInt 0) result))
  else
    thread_data <- sys (ReadJson path) ;;
    threads <- lift (field thread_data "thread_count" (VInt 0)) ;;
    activations <- lift (field thread_data "activation_count" (VInt 0)) ;;
    ret (dset "traced_activation_count" activations (dset "traced_thread_count" threads result)).
Definition _add_kernel_results (record_dir : string) (result : pydict) : IO pydict :=
  let path := record_dir // "kernel_log.txt" in
  file <- sys (IsFile path) ;;
  text <- (if (file : bool) then sys (ReadText path) else ret "") ;;
  captured <- sys (IsFile path) ;;
  before <- interrupt_totals (record_dir // "topology_before.json") ;;
  after <- interrupt_totals (record_dir // "topology_after.json") ;;
  ret (dset "irq_delta_json" (VStr (json_sorted (VDict (irq_delta before after))))
        (dupdate result (uvc_columns captured text))).
Definition _add_pre_run_reset_results (record_dir : string) (result : pydict) : IO pydict :=
  value <- json_or (VDict []) (record_dir // "pre_run_reset.json") ;;
  data <- lift (as_dict value) ;;
  ret (dupdate result [
    ("pre_run_reset_attempted", VBool (truthy (dgetd "attempted" (VBool false) data)));
    ("pre_run_reset_success", dgetd "success" (VStr "") data);
    ("pre_run_reset_camera_count", dgetd "camera_count" (VInt 0) data);
    ("pre_run_reset_duration_ms", dgetd "duration_ms" (VFloat f_zero) data);
    ("pre_run_reset_error", dgetd "error" (VStr "") data)]).
End files.

Context (workload : member → ManagedNoiseProcess (W := W)).
Abbreviation IO := (M (suite * world W)).

Definition _add_noise_results (run_variables : pydict) (record_dir : string) (result : pydict) : IO pydict :=
  modes <- lift (noise_modes run_variables) ;;
  artifacts <- suite_artifacts workload modes record_dir ;;
  lift (fold_outcome add_artifacts result artifacts).

Record results_arguments := {
  ra_record_dir : string;
  ra_case : pydict;
  ra_run_variables : pydict;
  ra_backend_name : string;
  ra_policy_names : list (string * string);
  ra_drop_caches_configured : bool;
  ra_cpu_isolation_state : pydict;
  ra_camera_result_slots : Z;
}.

Definition parse_steady_results (a : results_arguments) : IO pydict :=
  let record_dir := ra_record_dir a in
  if bool_decide (ra_camera_result_slots a < 1)
  then throw ValueError "camera_result_slots must be at least one" else
  value <- json_or (VDict []) (record_dir // "steady_summary.json") ;;
  selected <- resolve_selected_attempt record_dir ;;
  data <- lift (as_dict value) ;;
  let selected_dir := data_dir selected in
  memory <- Memory.memory_cleanup_result_fields selected_dir (ra_drop_caches_configured a) ;;
  common <- lift (common_attempt_result_fields data) ;;
  columns <- lift (steady_columns record_dir (ra_backend_name a) (ra_policy_names a) (ra_run_variables a)
                     data selected) ;;
  result <- _add_noise_results (ra_run_variables a) selected_dir (dupdate (dupdate memory common) columns) ;;
  result <- lift (flatten_columns (ra_cpu_isolation_state a) (ra_case a) data result) ;;
  result <- lift (_add_camera_results result data (ra_camera_result_slots a)) ;;
  result <- _add_trace_results selected_dir result ;;
  result <- _add_kernel_results selected_dir result ;;
  _add_pre_run_reset_results record_dir result.
End results.

(** ** The camera columns *)

(** The columns of one slot, and of all slots. *)
Definition slot_keys : list string :=
  CAMERA_SCALAR_RESULT_KEYS ++ map (λ k, "interarrival_ms_" +:+ k) CAMERA_INTERARRIVAL_RESULT_KEYS
  ++ map (λ k, "storage_" +:+ k) CAMERA_STORAGE_RESULT_KEYS.
Definition column (index : Z) (k : string) : string := camera_prefix index +:+ "_" +:+ k.
Definition camera_columns (n : Z) : list string := slots n ≫= λ i, map (column i) slot_keys.
(** A dictionary's keys after [k] is set. *)
Definition add_key (keys : list string) (k : string) : list string :=
  if bool_decide (k ∈ keys) then keys else keys ++ [k].

Lemma slot_keys_NoDup : NoDup slot_keys.
Proof. apply (bool_decide_unpack _). vm_compute. done. Qed.
Lemma str_Z_no_underscore z : in_string "_" (str_Z z) = false.
Proof.
  unfold str_Z. destruct z as [|p|p]; [done| |].
  - apply (string_forall_not_in py_isdigit_char); [apply pretty_N_digits|done].
  - change (pretty (Z.neg p)) with (String "-" (pretty (N.pos p))). simpl.
    apply (string_forall_not_in py_isdigit_char); [apply pretty_N_digits|done].
Qed.
Lemma column_inj i j k l : column i k = column j l → i = j ∧ k = l.
Proof.
  unfold column, camera_prefix. rewrite !string_app_assoc. intros Heq%string_app_inj_l.
  pose proof (f_equal (py_split "_"%char) Heq) as Hs.
  rewrite !string_app_cons, !py_split_cons in Hs by apply str_Z_no_underscore.
  assert (str_Z i = str_Z j) as Hij by congruence. rewrite Hij in Heq. apply str_Z_inj in Hij.
  apply string_app_inj_l, string_app_inj_l in Heq. done.
Qed.

#[local] Instance column_Inj i : Inj (=) (=) (column i).
Proof. intros k l Hkl. by apply column_inj in Hkl as [_ ?]. Qed.

Lemma keys_dupdate {A} (d e : list (string * A)) : dkeys (dupdate d e) = foldl add_key (dkeys d) (dkeys e).
Proof.
  unfold dupdate. revert d. induction e as [|[k v] e IH]; intros d; [done|]. simpl. rewrite IH. f_equal.
  by rewrite dkeys_dset.
Qed.

Lemma camera_cells_keys i camera cells :
  camera_cells i camera = Ok cells → dkeys cells = map (column i) slot_keys.
Proof.
  unfold camera_cells. intros (a & _ & (s & _ & <-%Ok_inj)%outcome_bind_ok)%outcome_bind_ok.
  unfold dkeys, slot_keys. rewrite !map_app, !map_map. done.
Qed.
Lemma camera_cells_NoDup i camera cells : camera_cells i camera = Ok cells → NoDup (dkeys cells).
Proof.
  intros ->%camera_cells_keys. by apply (NoDup_fmap_2 (column i)), slot_keys_NoDup.
Qed.
Lemma camera_cells_scalar i camera cells k :
  camera_cells i camera = Ok cells → k ∈ CAMERA_SCALAR_RESULT_KEYS →
  (column i k, dgetd k (VStr "") camera) ∈ cells.
Proof.
  unfold camera_cells. intros (a & _ & (s & _ & <-%Ok_inj)%outcome_bind_ok)%outcome_bind_ok Hk.
  apply elem_of_app. left. apply list_elem_of_In, in_map_iff. exists k. split; [done|by apply list_elem_of_In].
Qed.

(** The loop over the slots. *)
Lemma add_slots_keys by_index result l result' :
  fold_outcome (add_slot by_index) result l = Ok result' →
  dkeys result' = foldl add_key (dkeys result) (l ≫= λ i, map (column i) slot_keys).
Proof.
  revert result. induction l as [|i l IH]; intros result; [by intros [= <-]|]. simpl fold_outcome.
  unfold add_slot at 1. destruct (camera_cells i _) as [cells|e] eqn:Hc; [|done]. intros Hl.
  change (fold_outcome (add_slot by_index) (dupdate result cells) l = Ok result') in Hl.
  rewrite (IH _ Hl), keys_dupdate, (camera_cells_keys _ _ _ Hc), bind_cons. by rewrite foldl_app.
Qed.
Lemma add_slots_frame by_index result l result' k :
  fold_outcome (add_slot by_index) result l = Ok result' →
  (∀ i, i ∈ l → k ∉ map (column i) slot_keys) → dget k result' = dget k result.
Proof.
  revert result. induction l as [|i l IH]; intros result; [by intros [= <-]|]. simpl.
  unfold add_slot at 1. destruct (camera_cells i _) as [cells|e] eqn:Hc; [|done]. simpl. intros Hl Hk.
  rewrite (IH _ Hl) by (intros j Hj; apply Hk; by right).
  apply dget_dupdate. rewrite (camera_cells_keys _ _ _ Hc). apply Hk. by left.
Qed.
Lemma add_slots_value by_index result l result' i k :
  fold_outcome (add_slot by_index) result l = Ok result' → NoDup l → i ∈ l → k ∈ CAMERA_SCALAR_RESULT_KEYS →
  dget (column i k) result' = Some (dgetd k (VStr "") (default [] (zget i by_index))).
Proof.
  revert result. induction l as [|j l IH]; intros result; [by intros _ _ ?%elem_of_nil|]. simpl.
  unfold add_slot at 1. destruct (camera_cells j _) as [cells|e] eqn:Hc; [|done]. simpl. intros Hl Hnd Hi Hk.
  apply NoDup_cons in Hnd as [Hj Hnd]. apply elem_of_cons in Hi as [->|Hi]; [|by eapply IH].
  rewrite (add_slots_frame _ _ _ _ _ Hl).
  - apply dget_dupdate_in; [by eapply camera_cells_NoDup|by apply camera_cells_scalar].
  - intros i' Hi' Hin. apply list_elem_of_In, in_map_iff in Hin as (k' & [Heq _]%column_inj & _). by subst.
Qed.

(** The camera of a slot: the last one in the summary with its index. *)
Definition at_index (i : Z) (v : pyval) : option pydict :=
  match v with
  | VDict camera =>
      if bool_decide (py_int (dgetd "index" (VInt 0) camera) = Ok i) then Some camera else None
  | _ => None
  end.
Definition camera_at (i : Z) (cameras : list pyval) : option pydict := last (omap (at_index i) cameras).

Lemma index_cameras_spec l by_index :
  fold_outcome index_camera [] l = Ok by_index →
  (∀ i, zget i by_index = camera_at i l) ∧ ∀ v, v ∈ l → ∃ i, is_Some (at_index i v) ∧ i ∈ map fst by_index.
Proof.
  apply (fold_outcome_inv index_camera (λ l b, (∀ i, zget i b = camera_at i l) ∧
    ∀ v, v ∈ l → ∃ i, is_Some (at_index i v) ∧ i ∈ map fst b)); [split; [done|by intros v ?%elem_of_nil]|].
  intros done v rest b b' _ [Hget Hall]. unfold index_camera.
  intros (camera & Hv & (index & Hi & [= <-])%outcome_bind_ok)%outcome_bind_ok.
  assert (∀ i, at_index i v = if bool_decide (i = index) then Some camera else None) as Hat.
  { intros i. destruct v; try done. simpl in Hv. injection Hv as ->. unfold at_index. rewrite Hi.
    repeat case_bool_decide; congruence. }
  split.
  - intros i. rewrite zget_zset, Hget. unfold camera_at. rewrite omap_app. simpl. rewrite Hat.
    case_bool_decide; [by rewrite last_snoc|by rewrite app_nil_r].
  - intros u [Hu|Hu%list_elem_of_singleton]%elem_of_app.
    + destruct (Hall u Hu) as (i & Hsome & Hin). exists i. split; [done|]. apply zset_keys. by right.
    + subst u. exists index. split; [rewrite Hat, bool_decide_true; by eauto|]. apply zset_keys. by left.
Qed.

(** The camera columns of a result row.  They are the same for every run with
    the same number of slots, one block per slot, whatever cameras it used: the
    keys of the row grow by exactly the columns of all slots.  A cell of a slot
    holds the value of the last camera of the summary with that index, or empty
    text; no camera of the summary is without a slot, and no other cell of the
    row changes. *)
Theorem camera_columns_fixed result data n result' :
  _add_camera_results result data n = Ok result' →
  dkeys result' = foldl add_key (dkeys result) (camera_columns n) ∧
  (∀ k, k ∉ camera_columns n → dget k result' = dget k result) ∧
  ∃ cameras, as_list (dgetd "cameras" (VList []) data) = Ok cameras ∧
    (∀ i k, 0 <= i < n → k ∈ CAMERA_SCALAR_RESULT_KEYS →
       dget (column i k) result' = Some (dgetd k (VStr "") (default [] (camera_at i cameras)))) ∧
    ∀ v, v ∈ cameras → ∃ i, 0 <= i < n ∧ is_Some (at_index i v).
Proof.
  unfold _add_camera_results. intros (cameras & Hc & (by_index & Hb & Hrow)%outcome_bind_ok)%outcome_bind_ok.
  case_bool_decide as Hin; [|done]. simpl in Hrow. apply index_cameras_spec in Hb as [Hget Hall].
  split; [by apply add_slots_keys in Hrow|]. split.
  - intros k Hk. apply (add_slots_frame _ _ _ _ _ Hrow). intros i Hi Hki. apply Hk.
    unfold camera_columns. apply list_elem_of_bind. by exists i.
  - exists cameras. split; [done|]. split.
    + intros i k Hi Hk. rewrite <- Hget. eapply add_slots_value; [done|apply NoDup_seqZ|by apply elem_of_seqZ|done].
    + intros v Hv. destruct (Hall v Hv) as (i & Hs & Hi). exists i. split; [|done].
      apply dec_stable. intros Hout. apply sort_on_nil in Hin.
      assert (i ∈ filter (λ i, ¬ (0 <= i < n)) (map fst by_index)) as Hf by (by apply list_elem_of_filter).
      rewrite Hin in Hf. by apply elem_of_nil in Hf.
Qed.

Definition two_cameras : pydict := [("cameras", VList [
  VDict [("index", VInt 1); ("serial", VStr "B"); ("frames", VInt 30)];
  VDict [("index", VInt 0); ("serial", VStr "A"); ("drops", VInt 2)]])].
Lemma camera_columns_fixed_witness :
  ∃ row, _add_camera_results [("case", VStr "x")] two_cameras 3 = Ok row ∧
    dget "camera_1_serial" row = Some (VStr "B") ∧ dget "camera_2_serial" row = Some (VStr "") ∧
    dget "case" row = Some (VStr "x") ∧ length row = 118%nat.
Proof.
  destruct (_add_camera_results [("case", VStr "x")] two_cameras 3) as [row|e] eqn:Hrow;
    [|vm_compute in Hrow; discriminate].
  exists row. split; [reflexivity|].
  pose proof (camera_columns_fixed _ _ _ _ Hrow) as (Hkeys & Hframe & cameras & Hc & Hcells & _).
  injection Hc as <-. split_and!.
  - apply (Hcells 1 "serial"); [lia|by left].
  - apply (Hcells 2 "serial"); [lia|by left].
  - apply (Hframe "case"). apply (bool_decide_unpack _). vm_compute. exact I.
  - rewrite <- (length_map fst). change (length (dkeys row) = 118%nat). rewrite Hkeys. vm_compute. reflexivity.
Defined.
(** A camera beyond the slots is an error. *)
Example camera_beyond_slots : _add_camera_results [] two_cameras 1 =
  raise ValueError "camera result index exceeds the configured CSV schema: 1".
Proof. vm_compute. reflexivity. Qed.
