(* ===== verification/SteadyBench.v ===== *)
(** * One steady-state campaign run ([steady_benchmark.py])

    The class [RealSenseSteadyBench]: it composes the machine controls, the
    recovery, the interference workloads, the cache cleanup, the attempt loop,
    the trace analysis and the result row into the run of one point of a
    campaign.  The methods of Benchkit that it calls are the system call
    [RunBench]. *)
From Stdlib Require Import Ascii ZArith Lia Floats.SpecFloat.
From S2P Require Import Prelude PyStr PyFloat PyVal PyJson Effects Machine.
From S2P Require Import V4l2Trace KernelTrace FreshnessTrace OverrunTrace.
From S2P Require Import CpuIsolation Attempts SystemControls Recovery SteadyTrace Memory Shell Commands.
From S2P Require Import SteadyAttempts Noise SteadyResults.
From stdpp Require Import base gmap strings list.
Local Open Scope Z_scope.
Local Open Scope py_scope.
Local Open Scope M_scope.

(** ** Construction *)

(** The arguments of [__init__]; a workload's configuration stands for the
    arguments it is built from. *)
Record bench_arguments := {
  sb_repo_root : string;
  sb_cases : list pydict;
  sb_build_dir : string;
  sb_lime : string;
  sb_use_lime : bool;
  sb_v4l2_diagnostics : bool;
  sb_overrun_kernel_trace : bool;
  sb_freshness_kernel_trace : bool;
  sb_full_path_kernel_trace : bool;
  sb_host_latency_kernel_trace : bool;
  sb_use_sudo : bool;
  sb_backend : string;
  sb_rsusb_usb_devices : list string;
  sb_cpu_isolation_enabled : bool;
  sb_housekeeping_cpus : string;
  sb_benchmark_cpus : string;
  sb_cpu_noise : string → CpuNoiseConfig;
  sb_memory_noise : string → MemoryNoiseConfig;
  sb_usb_storage_noise : string → UsbStorageNoiseConfig;
  sb_gpu_noise : string → option string → GpuNoiseConfig;
  sb_gpu_noise_vulkan_icd : option string;
  sb_recover_on_failure : string;
  sb_reset_before_run : bool;
  sb_recovery_reset_timeout_ms : Z;
  sb_recovery_wait_seconds : f64;
  sb_recovery_settle_seconds : f64;
  sb_max_attempts_per_run : Z;
  sb_build_jobs : Z;
  sb_v4l2_diagnostics_build_only : bool;
}.

(** The attributes that do not change. *)
Record RealSenseSteadyBench := {
  arguments : bench_arguments;
  _cases : list (string * pydict);
  _camera_result_slots : Z;
  _build_dir : string;
  _lime : string;
  _vulkan_icd : option string;
}.
(** The attributes that do: the machine controls, the workloads, the failed
    runs; and the local object [noise_transition] of an attempt. *)
Record bench := Bench {
  b_controls : SystemControls;
  b_noise : suite;
  b_failures : list string;
  b_transition : bool * pydict;
}.
Definition set_controls (c : SystemControls) (b : bench) : bench :=
  Bench c (b_noise b) (b_failures b) (b_transition b).
Definition set_noise (n : suite) (b : bench) : bench := Bench (b_controls b) n (b_failures b) (b_transition b).
Definition add_failure (f : string) (b : bench) : bench :=
  Bench (b_controls b) (b_noise b) (b_failures b ++ [f]) (b_transition b).
(** The coordinator and the workloads it shares with the benchmark. *)
Definition b_coordinator (b : bench) : transition := Transition (b_transition b).1 (b_transition b).2 (b_noise b).
Definition set_coordinator (t : transition) (b : bench) : bench :=
  Bench (b_controls b) (nt_suite t) (b_failures b) (nt_started t, nt_state t).

Definition case_key (cases : list (string * pydict)) (case : pydict) : outcome (list (string * pydict)) :=
  id ← subscript case "case_id";
  match id with
  | VStr k => Ok (dset k case cases)
  | VList _ | VDict _ => raise TypeError ("unhashable type: '" +:+ type_name id +:+ "'")
  | _ => Ok cases
  end.
Definition probe_of (case : pydict) : pyval := dgetd "probe" (VDict []) case.
(** [probe.get("camera_count", case.get("physical", {}).get("camera_count", 1))]. *)
Definition camera_count_of (case : pydict) : outcome pyval :=
  probe ← as_dict (probe_of case);
  physical ← field (dgetd "physical" (VDict []) case) "camera_count" (VInt 1);
  Ok (dgetd "camera_count" physical probe).
Definition max_slots (counts : list Z) : outcome Z :=
  match counts with
  | [] => raise ValueError "max() iterable argument is empty"
  | n :: l => Ok (foldl Z.max n l)
  end.

(** [RealSenseSteadyBench(...)]. *)
Definition new_bench {W} `{OS W} {T} (a : bench_arguments) : M (T * world W) RealSenseSteadyBench :=
  cases <- lift (fold_outcome case_key [] (sb_cases a)) ;;
  counts <- lift (traverse (λ case, n ← camera_count_of case; py_int n) (sb_cases a)) ;;
  slots <- lift (max_slots counts) ;;
  build_dir <- sys (Resolve (sb_build_dir a)) ;;
  lime <- sys (Resolve (sb_lime a)) ;;
  icd <- (match sb_gpu_noise_vulkan_icd a with
          | Some icd => p <- sys (Resolve icd) ;; ret (Some p)
          | None => ret None
          end) ;;
  ret {| arguments := a; _cases := cases; _camera_result_slots := slots; _build_dir := build_dir;
         _lime := lime; _vulkan_icd := icd |}.

Definition V4L2_DIAGNOSTIC_TRACE_CAPACITY : Z := 12000000.

Section bench.
Context {W : Type} `{OS W} (s : RealSenseSteadyBench) (fuel : nat).
Abbreviation IO := (M (bench * world W)).
Abbreviation args := (arguments s).

Definition tool (name : string) : string := TOOL_DIR (sb_repo_root args) // name.
Definition OVERRUN_KERNEL_TRACE : string := tool "record_overrun_kernel_trace.sh".
Definition FRESHNESS_KERNEL_TRACE : string := tool "record_freshness_kernel_trace.sh".
Definition FULL_PATH_KERNEL_TRACE : string := tool "record_full_receive_path.sh".
Definition FULL_PATH_ANALYZER : string := tool "analyze_full_receive_path.py".
Definition HOST_LATENCY_KERNEL_TRACE : string := tool "record_host_latency.sh".
Definition HOST_LATENCY_ANALYZER : string := tool "analyze_host_latency.py".

Definition _probe : string := _build_dir s // "realsense_steady_probe".
Definition _reset_probe : string := _build_dir s // "d435_sensor_probe".
Definition _tracer : string := _build_dir s // "libtrace_pthreads.so".
Definition _priority : Z := PAPER_RT_PRIORITY.
Definition rsusb : bool := bool_decide (sb_backend args = "rsusb").

Definition controls_config : SystemControlConfig := {|
  SystemControls.repo_root := sb_repo_root args; tool_dir := TOOL_DIR (sb_repo_root args);
  SystemControls.use_sudo := sb_use_sudo args; cpu_frequency_mhz := Some PAPER_CPU_FREQUENCY_MHZ;
  cpu_lock_script := CPU_LOCK (sb_repo_root args); cpu_restore_script := CPU_RESTORE (sb_repo_root args);
  rsusb_backend := rsusb; rsusb_usb_devices := sb_rsusb_usb_devices args;
  rsusb_helper := RSUSB_HELPER (sb_repo_root args); rsusb_prepare_each_attempt := rsusb;
  rsusb_prepare_timeout_seconds := f_of_Z 10; rsusb_unbind_settle_seconds := f_dec 25 (-2);
  disable_realsense_autosuspend := true; SystemControls.usb_sysfs_base := "/sys/bus/usb/devices";
  cpu_isolation_enabled := sb_cpu_isolation_enabled args; housekeeping_cpus := sb_housekeeping_cpus args;
  benchmark_cpus := sb_benchmark_cpus args |}.
(** A method of the machine controls, of the workloads, of the coordinator. *)
Definition controls {A} (m : M (SystemControls * world W) A) : IO A := zoom b_controls set_controls m.
Definition noise_suite {A} (m : M (suite * world W) A) : IO A := zoom b_noise set_noise m.
Definition coordinator {A} (m : M (transition * world W) A) : IO A := zoom b_coordinator set_coordinator m.

Definition prepare_rsusb_access : IO unit := controls (SystemControls.prepare_rsusb_access controls_config fuel).
Definition recovery_config : CameraRecoveryConfig W bench := {|
  Recovery.repo_root := sb_repo_root args; reset_probe := _reset_probe; Recovery.use_sudo := sb_use_sudo args;
  reset_timeout_ms := sb_recovery_reset_timeout_ms args;
  enumeration_timeout_seconds := sb_recovery_wait_seconds args;
  prepare_enumeration_probe := if rsusb then Some prepare_rsusb_access else None |}.
Definition workload : member → ManagedNoiseProcess (W := W) :=
  NoiseSuite (sb_cpu_noise args (_build_dir s // "realsense_cpu_noise"))
    (sb_memory_noise args (_build_dir s // "realsense_memory_noise"))
    (sb_usb_storage_noise args (_build_dir s // "realsense_usb_storage_noise"))
    (sb_gpu_noise args (_build_dir s // "realsense_gpu_noise") (_vulkan_icd s)).

(** ** [prebuild_bench] *)

Definition require_trace (enabled v4l2_only : bool) (option : string) : IO unit :=
  when enabled
    (when (negb (sb_use_sudo args)) (throw RuntimeError (option +:+ " requires sudo")) ;;
     found <- sys (Which "trace-cmd") ;;
     when (negb found) (throw RuntimeError (option +:+ " requires trace-cmd")) ;;
     when (v4l2_only && rsusb) (throw RuntimeError (option +:+ " requires the V4L2 backend"))).
Definition trace_modes : list bool :=
  [sb_overrun_kernel_trace args; sb_freshness_kernel_trace args; sb_full_path_kernel_trace args;
   sb_host_latency_kernel_trace args].
Definition on_off (b : bool) : string := if b then "ON" else "OFF".
Definition configure_command : list string :=
  ["cmake"; "-S"; sb_repo_root args; "-B"; _build_dir s; "-DCMAKE_BUILD_TYPE=" +:+ CAMPAIGN_BUILD_TYPE;
   "-DFORCE_RSUSB_BACKEND=" +:+ on_off rsusb;
   "-DRS_CAMERA_BUILD_GPU_NOISE=" +:+ on_off (gpu_enabled workload);
   "-DRS_CAMERA_V4L2_DIAGNOSTICS=" +:+ on_off (sb_v4l2_diagnostics args || sb_v4l2_diagnostics_build_only args)].
Definition build_command : list string :=
  ["cmake"; "--build"; _build_dir s; "--target"; "realsense_steady_probe"; "d435_sensor_probe"]
  ++ build_targets workload ++ ["--parallel"; str_Z (sb_build_jobs args)].
Definition prebuild_bench : IO Z :=
  validate_trace_environment (_lime s) (sb_use_lime args) ;;
  when PAPER_DROP_CACHES_BEFORE_RUN (Memory.validate (sb_use_sudo args)) ;;
  noise_suite (suite_validate_environment workload) ;;
  when (bool_decide (sb_recover_on_failure args = "full-reset") || sb_reset_before_run args)
    (Recovery.validate_environment recovery_config) ;;
  controls (SystemControls.validate_environment controls_config) ;;
  require_trace (sb_overrun_kernel_trace args) false "--overrun-kernel-trace" ;;
  require_trace (sb_freshness_kernel_trace args) false "--freshness-kernel-trace" ;;
  require_trace (sb_full_path_kernel_trace args) true "--full-path-kernel-trace" ;;
  require_trace (sb_host_latency_kernel_trace args) true "--host-latency-kernel-trace" ;;
  when (bool_decide (1 < length (filter (λ b, b = true) trace_modes))%nat)
    (throw RuntimeError "kernel trace modes cannot wrap the same process simultaneously") ;;
  check_call configure_command ;;
  check_call build_command ;;
  build_pthread_tracer _tracer (TRACER_SOURCE (sb_repo_root args)) None ;;
  ret 0.

(** ** The probe's command *)

Definition probe_fields : list (string * string) := [
  ("stream_mode", "--stream-mode"); ("delivery", "--delivery"); ("frames", "--frames");
  ("measurement_duration_ms", "--measurement-duration-ms"); ("warmup_frames", "--warmup-frames");
  ("warmup_health_window_frames", "--warmup-health-window-frames");
  ("deadline_apply_after_frames", "--deadline-apply-after-frames"); ("frame_timeout_ms", "--frame-timeout-ms");
  ("startup_timeout_ms", "--startup-timeout-ms"); ("measurement_timeout_ms", "--measurement-timeout-ms");
  ("fps", "--fps"); ("depth_width", "--depth-width"); ("depth_height", "--depth-height");
  ("color_width", "--color-width"); ("color_height", "--color-height")].
Definition field_words (probe : pydict) (f : string * string) : list string :=
  match dgetd f.1 VNone probe with VNone => [] | v => [f.2; str_val v] end.
Definition repeated (flag : string) (values : list pyval) : list string :=
  values ≫= λ v, [flag; str_val v].
Definition sync_slaves (probe : pydict) : outcome (list pyval) :=
  match dgetd "hardware_sync_slaves" (VList []) probe with VStr slave => Ok [VStr slave] | v => as_list v end.
Definition profile_words (probe : pydict) (policy profile : string) : list string :=
  if bool_decide (policy = "deadline") then
    ["--deadline-profile"; profile]
    ++ (if truthy (dgetd "deadline_allow_partial_profile" (VBool false) probe)
        then ["--deadline-allow-partial-profile"] else [])
  else if bool_decide (policy ∈ ["rr-rm"; "fifo-rm"]) then
    ["--rate-monotonic-profile"; profile; "--rate-monotonic-policy";
     if bool_decide (policy = "rr-rm") then "rr" else "fifo";
     "--rate-monotonic-highest-priority"; str_Z _priority]
  else [].
Definition profile_path (probe : pydict) (policy : string) (given : option string) : outcome string :=
  if negb (bool_decide (policy ∈ MODELED_POLICIES)) then Ok "" else
  match given with
  | Some p => Ok p
  | None => v ← subscript probe "deadline_profile"; Ok ("." // str_val v)
  end.
Definition _scheduled_probe (case : pydict) (policy summary_path events_path : string)
    (scheduler_profile_path : option string) (transition_arguments : list string) : outcome (list string) :=
  prefix ← scheduler_prefix policy _priority;
  probe ← as_dict (probe_of case);
  serials ← probe_serials probe;
  let master := dgetd "hardware_sync_master" VNone probe in
  slaves ← sync_slaves probe;
  camera_count ← camera_count_of case;
  profile ← profile_path probe policy scheduler_profile_path;
  Ok (prefix ++ [_probe] ++ repeated "--serial" serials
      ++ (if truthy master then ["--hardware-sync-master"; str_val master] else [])
      ++ repeated "--hardware-sync-slave" slaves
      ++ ["--camera-count"; str_val camera_count] ++ (probe_fields ≫= field_words probe)
      ++ profile_words probe policy profile ++ transition_arguments
      ++ ["--summary-output"; summary_path; "--events-output"; events_path]).

Definition _drop_caches_for_attempt (attempt_dir : string) : IO unit :=
  when PAPER_DROP_CACHES_BEFORE_RUN (drop_caches (sb_use_sudo args) attempt_dir).

(** ** One attempt *)


(** The keyword arguments of [_run_attempt]. *)
Record attempt_arguments := {
  at_case : pydict;
  at_policy : string;
  at_attempt : Z;
  at_dir : string;
  at_base_manifest : pydict;
  at_noise_modes : list (string * string);
}.
Definition modeled (policy : string) : bool := bool_decide (policy ∈ MODELED_POLICIES).

Section attempt.
Context (x : attempt_arguments).
Abbreviation dir := (at_dir x).
Abbreviation policy := (at_policy x).

Definition summary_path : string := dir // "steady_summary.json".
Definition lifecycle_path : string := dir // "thread_lifecycle.jsonl".
Definition v4l2_diagnostic_path : string := dir // "v4l2_diagnostic_trace.bin".
Definition kernel_trace_path : string := dir // "overrun_kernel_trace.dat".
Definition freshness_kernel_trace_path : string := dir // "freshness_kernel_trace.dat".
Definition full_path_kernel_trace_path : string := dir // "kernel_trace.dat".
Definition host_latency_kernel_trace_path : string := dir // "host_latency_kernel_trace.dat".
Definition lime_dir : string := dir // "lime_trace".

(** The copy of the scheduling profile and its digest. *)
Definition copy_profile : IO (option string * string) :=
  if negb (modeled policy) then ret (None, "") else
  profile <- lift (item (probe_of (at_case x)) "deadline_profile") ;;
  source <- sys (Resolve (str_val profile)) ;;
  let name := if bool_decide (policy = "deadline") then "deadline_profile.csv" else "rate_monotonic_profile.csv" in
  sys (Copy source (dir // name)) ;;
  sha <- sys (FileDigest (dir // name)) ;;
  let metadata_source := source +:+ ".json" in
  metadata <- sys (IsFile metadata_source) ;;
  when metadata (sys (Copy metadata_source (dir // (name +:+ ".json")))) ;;
  ret (Some (dir // name), sha).

Definition target_environment : list (string * string) :=
  if sb_v4l2_diagnostics args
  then [("RS_V4L2_DIAGNOSTIC_TRACE_FILE", v4l2_diagnostic_path);
        ("RS_V4L2_DIAGNOSTIC_TRACE_CAPACITY", str_Z V4L2_DIAGNOSTIC_TRACE_CAPACITY)]
  else [].
(** The kernel trace that wraps the command. *)
Definition kernel_traced (command : list string) : list string :=
  if sb_overrun_kernel_trace args then ["sudo"; OVERRUN_KERNEL_TRACE; kernel_trace_path] ++ command
  else if sb_freshness_kernel_trace args then ["sudo"; FRESHNESS_KERNEL_TRACE; freshness_kernel_trace_path] ++ command
  else if sb_full_path_kernel_trace args then ["sudo"; FULL_PATH_KERNEL_TRACE; full_path_kernel_trace_path] ++ command
  else if sb_host_latency_kernel_trace args
  then ["sudo"; HOST_LATENCY_KERNEL_TRACE; host_latency_kernel_trace_path] ++ command
  else command.
Definition attempt_command (profile : option string) (transition_arguments : list string) : outcome (list string) :=
  scheduled ← _scheduled_probe (at_case x) policy summary_path (dir // "frame_events.csv") profile transition_arguments;
  Ok (kernel_traced (traced_command scheduled _tracer lifecycle_path (_lime s) lime_dir (sb_use_lime args)
                       (sb_use_sudo args) target_environment)).

Definition attempt_manifest (command : list string) (copy : option string) (sha : string) (enabled : bool)
    (gate_timeout_ms : Z) : pydict :=
  let path := VStr (default "" copy) in
  let deadline v := if bool_decide (policy = "deadline") then v else VStr "" in
  dupdate (at_base_manifest x) [
    ("attempt", VInt (at_attempt x)); ("command", VList (map VStr command)); ("record_data_dir", VStr dir);
    ("scheduler_profile_copy", path); ("scheduler_profile_sha256", VStr sha);
    ("deadline_profile_copy", if bool_decide (policy = "deadline")
                              then VStr (match copy with Some p => p | None => "None" end) else VStr "");
    ("deadline_profile_sha256", deadline (VStr sha)); ("noise_after_camera_warmup", VBool enabled);
    ("measurement_gate_timeout_ms", VInt gate_timeout_ms)].

(** The timeout of the probe, in seconds. *)
Definition probe_seconds (probe : pydict) : outcome Z :=
  frames ← py_int (dgetd "frames" (VInt 10000) probe);
  fps ← py_int (dgetd "fps" (VInt 30) probe);
  duration_ms ← py_int (dgetd "measurement_duration_ms" (VInt 0) probe);
  let duration := Z_truediv duration_ms 1000 in
  if f_gt_Z duration 0 then f_trunc (f_add duration (f_of_Z 90)) else
  let automatic := f_add (f_mul (Z_truediv frames (Z.max 1 fps)) (f_of_Z 2)) (f_of_Z 90) in
  timeout_ms ← py_int (dgetd "measurement_timeout_ms" (VInt 0) probe);
  automatic_seconds ← f_trunc automatic;
  measurement_seconds ← f_trunc (f_add (Z_truediv timeout_ms 1000) (f_of_Z 60));
  Ok (Z.max automatic_seconds measurement_seconds).
Definition attempt_timeout (enabled : bool) (gate_timeout_ms : Z) : outcome Z :=
  probe ← as_dict (probe_of (at_case x));
  seconds ← probe_seconds probe;
  if negb enabled then Ok seconds else
  gate ← f_trunc (Z_truediv gate_timeout_ms 1000);
  Ok (seconds + gate + 5).

(** The [try] statement around the probe, and its [finally] clause. *)
Definition run_probe (command : list string) (timeout : Z) : IO string :=
  coordinator start_transition ;;
  output <- sys (RunBench command timeout) ;;
  sys (WriteText (dir // "probe_stdout.txt") output) ;;
  ret output.
Definition after_probe (executable : string) (kernel_before : option string) (kernel_error : string) : IO unit :=
  coordinator (finish workload fuel (at_noise_modes x) dir) ;;
  noise_suite (stop_all workload (Some dir)) ;;
  controls (capture_kernel_delta controls_config dir kernel_before kernel_error) ;;
  controls (snapshot_topology controls_config executable (dir // "topology_after.json")) ;;
  controls (verify_cpu_isolation controls_config (Some (dir // "cpu_isolation_after.json"))) ;;
  ret ().

Definition missing_summary (cameras : list pydict) : pydict := [
  ("schema_version", VInt 1); ("success", VBool false); ("error", VStr "steady probe summary file missing");
  ("measurement", VDict [("start_boottime_ns", VInt 0); ("end_boottime_ns", VInt 0); ("duration_ms", VFloat f_zero)]);
  ("cameras", VList (map VDict cameras)); ("aggregate", VDict [])].
Definition read_summary : IO pyval :=
  file <- sys (IsFile summary_path) ;;
  if (file : bool) then sys (ReadJson summary_path) else
  cameras <- lift (camera_descriptors (at_case x) []) ;;
  let summary := VDict (missing_summary cameras) in
  sys (WriteJson summary_path summary) ;;
  ret summary.

(** A trace analysis: a failure is noted, and raised when the run succeeded. *)
Definition guarded_analysis (summary : pyval) (error_file : string) (analysis : IO unit) : IO unit :=
  try_except is_Exception analysis (λ e,
    sys (WriteText (dir // error_file) (exn_name (exn_type e) +:+ ": " +:+ exn_msg e +:+ nl)) ;;
    success <- lift (field summary "success" VNone) ;;
    when (truthy success) (rethrow e)).
Definition when_files (enabled : bool) (paths : list string) (m : IO unit) : IO unit :=
  if negb enabled then ret () else
  found <- (fix all (l : list string) : IO bool :=
    match l with
    | [] => ret true
    | p :: l => file <- sys (IsFile p) ;; if (file : bool) then all l else ret false
    end) paths ;;
  when found m.
Definition activation_path : string := dir // "thread_steady_activations.csv".
Definition analyse_traces (summary : pyval) : IO unit :=
  when (sb_use_lime args)
    (guarded_analysis summary "trace_parse_error.txt"
       (parse_steady_trace lifecycle_path lime_dir dir ;; ret ())) ;;
  when_files (sb_v4l2_diagnostics args) [v4l2_diagnostic_path]
    (guarded_analysis summary "v4l2_diagnostic_parse_error.txt"
       (V4l2Trace.parse_trace v4l2_diagnostic_path lifecycle_path dir (sb_freshness_kernel_trace args) ;; ret ())) ;;
  when_files (sb_overrun_kernel_trace args) [kernel_trace_path; activation_path]
    (guarded_analysis summary "overrun_kernel_trace_parse_error.txt"
       (OverrunTrace.parse_trace kernel_trace_path lifecycle_path activation_path dir ;; ret ())) ;;
  when_files (sb_freshness_kernel_trace args) [freshness_kernel_trace_path]
    (guarded_analysis summary "freshness_kernel_trace_parse_error.txt"
       (FreshnessTrace.parse_trace freshness_kernel_trace_path lifecycle_path dir ;; ret ())) ;;
  when_files (sb_full_path_kernel_trace args) [full_path_kernel_trace_path]
    (guarded_analysis summary "full_path_parse_error.txt" (check_call [FULL_PATH_ANALYZER; dir])) ;;
  when_files (sb_host_latency_kernel_trace args) [host_latency_kernel_trace_path]
    (guarded_analysis summary "host_latency_parse_error.txt" (check_call [HOST_LATENCY_ANALYZER; dir])).

(** Everything before the probe is started: its command, its timeout and the
    kernel log. *)
Definition prepare_probe (executable : string) : IO (list string * Z * (option string * string)) :=
  sys (Mkdir dir false) ;;
  controls (prepare_attempt controls_config fuel (at_attempt x) dir) ;;
  _drop_caches_for_attempt dir ;;
  controls (snapshot_topology controls_config executable (dir // "topology_before.json")) ;;
  workloads <- self b_noise ;;
  noise_transition <- lift (new_transition (at_noise_modes x) workloads) ;;
  set_self (set_coordinator noise_transition) ;;
  enabled <- coordinator transition_enabled ;;
  copied <- copy_profile ;;
  transition_arguments <- coordinator (probe_arguments workload (at_noise_modes x) dir) ;;
  command <- lift (attempt_command copied.1 transition_arguments) ;;
  gate <- (if (enabled : bool) then lift (gate_timeout_ms workload (at_noise_modes x)) else ret 0) ;;
  sys (WriteJson (dir // "attempt_manifest.json")
         (VDict (attempt_manifest command copied.1 copied.2 enabled gate))) ;;
  timeout <- lift (attempt_timeout enabled gate) ;;
  log <- controls (kernel_log controls_config) ;;
  ret (command, timeout, log).
Definition _run_attempt (executable : string) : IO (string * pydict) :=
  prepared <- prepare_probe executable ;;
  let '(command, timeout, (kernel_before, kernel_error)) := prepared in
  output <- try_finally (run_probe command timeout) (after_probe executable kernel_before kernel_error) ;;
  summary <- read_summary ;;
  analyse_traces summary ;;
  d <- lift (as_dict summary) ;;
  ret (output, d).
End attempt.

(** ** One logical run *)

Definition no_priority (policy : string) : bool := bool_decide (policy ∈ ["other"; "deadline"]).
Definition profile_source (case : pydict) (wanted : bool) : outcome pyval :=
  if wanted then v ← field (probe_of case) "deadline_profile" (VStr ""); Ok (VStr (str_val v)) else Ok (VStr "").
Definition base_manifest (case_id policy : string) (case isolation : pydict) (noise : list (string * pydict))
    (policy_requested : string) : outcome pydict :=
  deadline_source ← profile_source case (bool_decide (policy = "deadline"));
  scheduler_source ← profile_source case (modeled policy);
  let backend := backend_name controls_config in
  Ok ([("schema_version", VInt 2); ("case_id", VStr case_id); ("policy_requested", VStr policy_requested);
     ("priority_requested", VInt (if no_priority policy then 0 else _priority)); ("backend", VStr backend);
     ("usb_kernel_driver", VStr (if bool_decide (backend = "RSUSB") then "none" else "uvcvideo"));
     ("realsense_usb_autosuspend_disabled", VBool true); ("lime_enabled", VBool (sb_use_lime args));
     ("cpu_frequency_mhz", VInt PAPER_CPU_FREQUENCY_MHZ); ("cpu_isolation", VDict isolation);
     ("drop_caches_before_attempt", VBool PAPER_DROP_CACHES_BEFORE_RUN);
     ("recover_on_failure", VStr (sb_recover_on_failure args));
     ("reset_before_run", VBool (sb_reset_before_run args));
     ("recovery_reset_timeout_ms", VInt (sb_recovery_reset_timeout_ms args));
     ("recovery_wait_seconds", VFloat (sb_recovery_wait_seconds args));
     ("recovery_settle_seconds", VFloat (sb_recovery_settle_seconds args));
     ("max_attempts_per_run", VInt (sb_max_attempts_per_run args))]
    ++ map (λ kd, (kd.1, VDict kd.2)) noise ++
    [("clock", VStr "CLOCK_BOOTTIME"); ("deadline_profile_source", deadline_source);
     ("scheduler_profile_source", scheduler_source);
     ("rate_monotonic_highest_priority",
        VInt (if bool_decide (policy ∈ ["rr-rm"; "fifo-rm"]) then _priority else 0))]).

(** The arguments of [single_run]. *)
Record run_arguments := {
  r_case_id : string;
  r_policy : string;
  r_cpu_noise : string;
  r_memory_noise : string;
  r_gpu_noise : string;
  r_usb_storage_noise : string;
  r_record_data_dir : string;
}.
Definition run_noise_modes (r : run_arguments) : list (string * string) :=
  [("cpu_noise", r_cpu_noise r); ("memory_noise", r_memory_noise r);
   ("usb_storage_noise", r_usb_storage_noise r); ("gpu_noise", r_gpu_noise r)].
Definition find_case (case_id : string) : outcome pydict :=
  match dget case_id (_cases s) with Some case => Ok case | None => key_error case_id end.

(** The reset before the first attempt: its exception, if any. *)
Definition reset_first (case : pydict) (record_dir : string) : IO (option exn) :=
  prepare_rsusb_access ;;
  try_except is_Exception
    (cameras <- lift (camera_descriptors case []) ;;
     Recovery.reset_before_run recovery_config fuel cameras record_dir ;; ret None)
    (λ e, ret (Some e)).
(** The local function [run_attempt]. *)
Definition run_attempt_of (executable : string) (r : run_arguments) (case manifest : pydict)
    (record_dir : string) (attempt : Z) (attempt_dir : string) : IO (string * pydict) :=
  failed <- (if sb_reset_before_run args && bool_decide (attempt = 1) then reset_first case record_dir
             else ret None) ;;
  match failed with
  | Some error => record_pre_run_reset_failure case attempt attempt_dir manifest error
  | None => _run_attempt {| at_case := case; at_policy := r_policy r; at_attempt := attempt;
      at_dir := attempt_dir; at_base_manifest := manifest; at_noise_modes := run_noise_modes r |} executable
  end.
Definition steady_run (executable : string) (r : run_arguments) (case manifest : pydict) (record_dir : string) :
    steady_arguments W bench := {|
  SteadyAttempts.case := case; SteadyAttempts.record_dir := record_dir;
  SteadyAttempts.base_manifest := manifest;
  SteadyAttempts.recover_on_failure := sb_recover_on_failure args;
  SteadyAttempts.recovery_settle_seconds := sb_recovery_settle_seconds args;
  SteadyAttempts.max_attempts_per_run := sb_max_attempts_per_run args;
  recovery_recover := Recovery.recover recovery_config fuel;
  SteadyAttempts.run_attempt := run_attempt_of executable r case manifest record_dir |}.

Definition prepare_run (r : run_arguments) : IO (pydict * pydict * string) :=
  case <- lift (find_case (r_case_id r)) ;;
  record_dir <- sys (Resolve (r_record_data_dir r)) ;;
  sys (Mkdir record_dir true) ;;
  used <- sys (Glob record_dir "attempt-*") ;;
  when (negb (bool_decide (used = [])))
    (throw RuntimeError ("Attempt directories already exist in " +:+ record_dir)) ;;
  controls (prepare_campaign controls_config fuel record_dir) ;;
  sys (WriteJson (record_dir // "case.json") (VDict case)) ;;
  policy_requested <- lift (match dget (r_policy r) POLICY_NAMES with
                            | Some name => Ok name | None => key_error (r_policy r) end) ;;
  isolation <- controls cpu_isolation_state ;;
  noise <- noise_suite (suite_manifest workload (run_noise_modes r)) ;;
  manifest <- lift (base_manifest (r_case_id r) (r_policy r) case isolation noise policy_requested) ;;
  sys (WriteJson (record_dir // "run_manifest.json") (VDict manifest)) ;;
  ret (case, manifest, record_dir).
Definition single_run (executable : string) (r : run_arguments) : IO string :=
  prepared <- prepare_run r ;;
  let '(case, manifest, record_dir) := prepared in
  run_steady_attempts (steady_run executable r case manifest record_dir).

(** ** Results and cleanup *)

(** The line of a failed run. *)
Definition failure_line (run_variables result : pydict) : outcome string :=
  let var k := (v ← subscript run_variables k; Ok (str_val v)) in
  case_id ← var "case_id"; policy ← var "policy"; cpu ← var "cpu_noise"; memory ← var "memory_noise";
  gpu ← var "gpu_noise"; usb ← var "usb_storage_noise";
  Ok (case_id +:+ "/" +:+ policy +:+ "/cpu=" +:+ cpu +:+ "/memory=" +:+ memory +:+ "/gpu=" +:+ gpu
      +:+ "/usb=" +:+ usb +:+ ": " +:+ str_val (dgetd "error" (VStr "unknown error") result)).
Definition results_of (record_dir : string) (case run_variables isolation : pydict) : results_arguments := {|
  ra_record_dir := record_dir; ra_case := case; ra_run_variables := run_variables;
  ra_backend_name := backend_name controls_config; ra_policy_names := POLICY_NAMES;
  ra_drop_caches_configured := PAPER_DROP_CACHES_BEFORE_RUN; ra_cpu_isolation_state := isolation;
  ra_camera_result_slots := _camera_result_slots s |}.
Definition parse_output_to_results (run_variables : pydict) (record_data_dir : string) : IO pydict :=
  record_dir <- sys (Resolve record_data_dir) ;;
  case_id <- lift (subscript run_variables "case_id") ;;
  case <- lift (find_case (str_val case_id)) ;;
  isolation <- controls cpu_isolation_state ;;
  result <- noise_suite (parse_steady_results workload (results_of record_dir case run_variables isolation)) ;;
  if truthy (dgetd "success" (VBool false) result) then ret result else
  line <- lift (failure_line run_variables result) ;;
  set_self (add_failure line) ;;
  ret result.

Definition failures_text (failures : list string) : string :=
  let n := length failures in
  str_Z (Z.of_nat n) +:+ " logical benchmark run(s) failed: " +:+ py_join " | " (take 5 failures)
  +:+ (if bool_decide (5 < n)%nat then " | ... " +:+ str_Z (Z.of_nat n - 5) +:+ " more" else "").
Definition assert_all_runs_successful : IO unit :=
  failures <- self b_failures ;;
  when (negb (bool_decide (failures = []))) (throw RuntimeError (failures_text failures)).

Definition cleanup_action (errors : list string) (da : string * IO unit) : IO (list string) :=
  try_except is_Exception (da.2 ;; ret errors) (λ e, ret (errors ++ [da.1 +:+ ": " +:+ exn_msg e])).
Definition cleanup : IO unit :=
  errors <- fold_each
    [("stop noise workloads", noise_suite (stop_all workload None));
     ("restore system controls", controls (SystemControls.cleanup controls_config fuel))] [] cleanup_action ;;
  when (negb (bool_decide (errors = [])))
    (throw RuntimeError ("Campaign cleanup failed: " +:+ py_join " | " errors)).
End bench.
