(* ===== verification/SteadyBenchSpec.v ===== *)
(** * Properties of a steady-state run

    What the composition of the parts promises: every measurement starts with
    cold caches, no interference process outlives a run, and cleaning up gives up
    on nothing. *)
From Stdlib Require Import Ascii ZArith Lia Floats.SpecFloat.
From S2P Require Import Prelude PyStr PyFloat PyVal PyJson Effects Machine.
From S2P Require Import CpuIsolation Attempts SystemControls Recovery SteadyTrace Memory Shell Commands.
From S2P Require Import SteadyAttempts Noise NoiseSpec Calls SteadyResults SteadyBench.
From stdpp Require Import base gmap strings list.
Local Open Scope Z_scope.
Local Open Scope py_scope.
Local Open Scope M_scope.

(** ** Logs with cold measurements *)

Definition is_bench (e : entry) : bool := match e with EBench _ _ => true | _ => false end.
Definition benchless_entries (l : list entry) : Prop := Forall (λ e, is_bench e = false) l.
(** The log ends with a cache cleanup that worked, and no measurement since. *)
Definition cold_before (l : list entry) : Prop :=
  ∃ before drop after, drops drop ∧ benchless_entries after ∧
    l = before ++ [ERun ["sync"] None (Ok 0); ERun drop (Some ("3" +:+ nl)) (Ok 0)] ++ after.
(** Every measurement is cold. *)
Definition cold_runs (l : list entry) : Prop :=
  ∀ before command timeout after, l = before ++ EBench command timeout :: after → cold_before before.

Lemma benchless_cold_runs l : benchless_entries l → cold_runs l.
Proof. intros Hl pre cmd t post ->. unfold benchless_entries in Hl. by decompose_Forall. Qed.
Lemma cold_before_app l k : cold_before k → cold_before (l ++ k).
Proof.
  intros (b & d & a & Hd & Ha & ->). exists (l ++ b), d, a. by rewrite app_assoc.
Qed.
Lemma cold_before_snoc l k : cold_before l → benchless_entries k → cold_before (l ++ k).
Proof.
  intros (b & d & a & Hd & Ha & ->) Hk. exists b, d, (a ++ k). rewrite <- !app_assoc.
  split; [done|]. split; [by apply Forall_app|done].
Qed.
Lemma cold_runs_app l k : cold_runs l → cold_runs k → cold_runs (l ++ k).
Proof.
  intros Hl Hk pre cmd t post Heq. apply app_eq_inv in Heq as [(k1 & -> & Heq)|(k1 & -> & ->)].
  - destruct k1 as [|e k1]; simpl in Heq.
    + rewrite <- (app_nil_r pre). apply cold_before_app. by eapply (Hk [] cmd t post).
    + injection Heq as <- ->. by eapply Hl.
  - apply cold_before_app. by eapply Hk.
Qed.

Section cold.
Context {W : Type}.
Implicit Types x y z : world W.
(** What a computation adds to the log: measurements that are cold; none. *)
Definition cold : relation (world W) := λ x y, ∃ new, w_log y = w_log x ++ new ∧ cold_runs new.
Definition still : relation (world W) := λ x y, ∃ new, w_log y = w_log x ++ new ∧ benchless_entries new.
#[export] Instance still_preorder : PreOrder still.
Proof.
  split; [intros x; exists []; split; [by rewrite app_nil_r|constructor]|].
  intros x y z (n & Hn & Hb) (m & Hm & Hc). exists (n ++ m). rewrite Hm, Hn, app_assoc.
  split; [done|by apply Forall_app].
Qed.
#[export] Instance cold_preorder : PreOrder cold.
Proof.
  split; [intros x; exists []; split; [by rewrite app_nil_r|by apply benchless_cold_runs; constructor]|].
  intros x y z (n & Hn & Hb) (m & Hm & Hc). exists (n ++ m). rewrite Hm, Hn, app_assoc.
  split; [done|by apply cold_runs_app].
Qed.
Lemma still_cold x y : still x y → cold x y.
Proof. intros (n & Hn & Hb). exists n. split; [done|by apply benchless_cold_runs]. Qed.
Lemma still_kept `{OS W} : kept_by (@no_bench) still.
Proof.
  split; [typeclasses eauto|]. intros B c w r o Hc _. exists (note c r). split; [done|].
  destruct c; simpl; try done; try (by repeat constructor); destruct r as [[]|]; by repeat constructor.
Qed.
(** A log that has become cold. *)
Definition cooled x y : Prop := ∃ new, w_log y = w_log x ++ new ∧ benchless_entries new ∧ cold_before new.
Lemma cooled_still x y z : cooled x y → still y z → cooled x z.
Proof.
  intros (n & Hn & Hb & Hc) (m & Hm & Hd). exists (n ++ m). rewrite Hm, Hn, app_assoc.
  split; [done|]. split; [by apply Forall_app|by apply cold_before_snoc].
Qed.
Lemma still_cooled x y z : still x y → cooled y z → cooled x z.
Proof.
  intros (n & Hn & Hb) (m & Hm & Hd & Hc). exists (n ++ m). rewrite Hm, Hn, app_assoc.
  split; [done|]. split; [by apply Forall_app|by apply cold_before_app].
Qed.
(** A measurement of a cold log, and what follows it. *)
Lemma cooled_bench x y z command timeout : cooled x y → w_log z = w_log y ++ [EBench command timeout] → cold x z.
Proof.
  intros (n & Hn & Hb & Hc) Hz. exists (n ++ [EBench command timeout]). rewrite Hz, Hn, app_assoc. split; [done|].
  intros pre cmd t post Heq. destruct post as [|e post _] using rev_ind.
  - apply app_inj_tail in Heq as [<- _]. done.
  - rewrite app_comm_cons, app_assoc in Heq. apply app_inj_tail in Heq as [-> _].
    unfold benchless_entries in Hb. by decompose_Forall.
Qed.
End cold.

(** ** The calls of a run *)

Section calls.
Context {W : Type} `{OS W} (s : RealSenseSteadyBench) (fuel : nat).
Context (x : attempt_arguments) (executable : string).
Abbreviation bench_quiet := (makes (T := bench) (@quiet)).
Abbreviation benchless := (makes (T := bench) (@no_bench)).

Lemma quiet_controls {A} (m : M (SystemControls * world W) A) : makes (@quiet) m → bench_quiet (controls m).
Proof. apply makes_zoom. Qed.
Lemma quiet_noise_suite {A} (m : M (suite * world W) A) : makes (@quiet) m → bench_quiet (noise_suite m).
Proof. apply makes_zoom. Qed.
Lemma quiet_coordinator {A} (m : M (transition * world W) A) : makes (@quiet) m → bench_quiet (coordinator m).
Proof. apply makes_zoom. Qed.
Hint Resolve quiet_controls quiet_noise_suite quiet_coordinator : makes.
Lemma quiet_bench_access : bench_quiet (SteadyBench.prepare_rsusb_access s fuel).
Proof. unfold SteadyBench.prepare_rsusb_access. eauto with makes. Qed.
Hint Resolve quiet_bench_access : makes.
Lemma recovery_prepares m : prepare_enumeration_probe (recovery_config s fuel) = Some m → bench_quiet m.
Proof. simpl. destruct (rsusb s); [|done]. intros [= <-]. eauto with makes. Qed.
Lemma quiet_bench_reset case dir : bench_quiet (reset_first s fuel case dir).
Proof.
  pose proof (λ cameras d, quiet_reset_before_run (recovery_config s fuel) fuel cameras d recovery_prepares).
  unfold reset_first. solve_makes.
Qed.
Lemma quiet_bench_recover cameras dir : bench_quiet (Recovery.recover (recovery_config s fuel) fuel cameras dir).
Proof. apply quiet_recover, recovery_prepares. Qed.
Hint Resolve quiet_bench_reset quiet_bench_recover : makes.
Lemma quiet_copy_profile : bench_quiet (copy_profile x).
Proof. unfold copy_profile. solve_makes. Qed.
Lemma quiet_read_summary : bench_quiet (read_summary x).
Proof. unfold read_summary. solve_makes. Qed.
Lemma quiet_prepare_run r : bench_quiet (prepare_run s fuel r).
Proof.
  unfold prepare_run, workload. pose proof (λ m c1 c2 c3 c4, workloads_quiet c1 c2 c3 c4 m). solve_makes.
Qed.
Hint Resolve quiet_copy_profile quiet_read_summary quiet_prepare_run : makes.

Lemma workload_quiet m : operations_make (@quiet) (workload (W := W) s m).
Proof. apply workloads_quiet. Qed.
End calls.
#[export] Hint Resolve quiet_controls quiet_noise_suite quiet_coordinator quiet_bench_access quiet_bench_reset
  quiet_bench_recover quiet_copy_profile quiet_read_summary quiet_prepare_run workload_quiet : makes.

(** ** Measurements are cold *)

(** A computation without measurements, and what it adds to the log. *)
Lemma wp_still {W} `{OS W} {T A} (m : M (T * world W) A) Q E (x : T * world W) :
  makes (@no_bench) m → (∀ a y, still x.2 y.2 → Q a y) → (∀ e y, still x.2 y.2 → E e y) → wp m Q E x.
Proof.
  intros Hm HQ HE. apply (wp_within (on_world still)); [by apply (makes_within (@no_bench)); [|apply still_kept]|done|done].
Qed.
Lemma within_wp {S A} (R : relation S) (m : M S A) :
  (∀ x, wp m (λ _ y, R x y) (λ _ y, R x y) x) → within R m.
Proof. intros Hm x. specialize (Hm x). unfold wp in Hm. by destruct (m x) as [[] y]. Qed.
Lemma drop_caches_cools {W} `{OS W} {T} b dir (x : T * world W) :
  wp (drop_caches b dir) (λ _ y, cooled x.2 y.2) (λ _ y, still x.2 y.2) x.
Proof.
  pose proof (wp_still (drop_caches b dir) (λ _ y, still x.2 y.2) (λ _ y, still x.2 y.2) x) as Hstill.
  eapply wp_conseq; [apply wp_and; [apply drop_caches_log|apply Hstill]| |].
  - by apply quiet_no_bench, quiet_drop_caches.
  - done.
  - done.
  - intros _ y [(new & Hl & drop & commands & ok & Hd & Hc & Hrec & Hok) (n & Hn & Hb)].
    exists n. split; [done|]. split; [done|]. rewrite Hl in Hn. apply app_inv_head in Hn as <-.
    rewrite (Hok eq_refl) in *. destruct Hrec as [[? _]|(m & _ & ->)]; [done|]. inversion Hc; subst.
    exists [EMkdir dir], drop, [EWriteJson (dir // MEMORY_CLEANUP_FILENAME) (VDict m)].
    split; [done|]. split; [by apply Forall_singleton|reflexivity].
  - by intros e y [_ ?].
Qed.

Lemma quiet_is_benchless B (c : syscall B) : quiet c = true → no_bench c = true.
Proof. by destruct c. Qed.

Section cold_runs.
Context {W : Type} `{OS W} (s : RealSenseSteadyBench) (fuel : nat).

Context (executable : string).

Section analyses.
Context (x : attempt_arguments) (P : ∀ B, syscall B → bool) (allows : ∀ B (c : syscall B), quiet c = true → P B c = true).
Lemma makes_quiet {T A} (m : M (T * world W) A) : makes (@quiet) m → makes P m.
Proof. by apply makes_mono. Qed.
Lemma makes_guarded summary file m : makes P m → makes P (guarded_analysis (W := W) x summary file m).
Proof. intros Hm. unfold guarded_analysis. solve_makes. by apply makes_sys, allows. Qed.
Lemma makes_when_files b l (m : M (bench * world W) unit) : makes P m → makes P (when_files b l m).
Proof.
  intros Hm. unfold when_files. destruct b; simpl; [|solve_makes]. apply makes_bind; [|solve_makes].
  induction l as [|p l IH]; [solve_makes|]. apply makes_bind; [by apply makes_sys, allows|]. intros []; [done|solve_makes].
Qed.
Lemma makes_analyse summary : makes P (analyse_traces s x summary).
Proof.
  unfold analyse_traces. apply makes_bind; [|intros _].
  { apply makes_when, makes_guarded, makes_quiet. solve_makes. }
  repeat (apply makes_bind; [|intros _]); apply makes_when_files, makes_guarded, makes_quiet; solve_makes.
Qed.
End analyses.

Section attempt.
Context (x : attempt_arguments).
Lemma after_probe_benchless b e : makes (@no_bench) (after_probe s fuel x executable b e).
Proof.
  unfold after_probe, controls, noise_suite, coordinator.
  pose proof (benchless_finish (workload s) (workload_quiet s)).
  pose proof (λ d, quiet_no_bench _ (quiet_stop_all (workload (W := W) s) d)).
  pose proof (λ d a b, quiet_no_bench _ (quiet_capture (W := W) (controls_config s) d a b)).
  pose proof (λ a b, quiet_no_bench _ (quiet_topology (W := W) (controls_config s) a b)).
  pose proof (λ a, quiet_no_bench _ (quiet_verify_isolation (W := W) (controls_config s) a)).
  solve_makes.
Qed.
Lemma prepare_probe_cools (y : bench * world W) :
  wp (prepare_probe s fuel x executable) (λ _ z, cooled y.2 z.2) (λ _ z, still y.2 z.2) y.
Proof.
  unfold prepare_probe. apply wp_bind, wp_still; [by apply makes_sys| |done]. intros _ y1 H1.
  apply wp_bind, wp_still; [apply quiet_no_bench, quiet_controls, quiet_prepare_attempt| |].
  2:{ intros e z Hz. by etrans. }
  intros _ y2 H2. apply wp_bind. unfold _drop_caches_for_attempt, when. simpl.
  assert (still y.2 y2.2) as H12 by (by etrans).
  eapply wp_conseq; [apply drop_caches_cools| |intros e z Hz; by etrans].
  intros [] y3 H3. apply (still_cooled _ _ _ H12) in H3. apply wp_still.
  - apply quiet_no_bench. solve_makes.
  - intros a z Hz. by eapply cooled_still.
  - intros e z Hz. destruct H3 as (n & Hn & Hb & _). etrans; [|done]. by exists n.
Qed.
Lemma run_probe_cold command timeout (y z : bench * world W) : cooled y.2 z.2 →
  wp (run_probe x command timeout) (λ _ u, cold y.2 u.2) (λ _ u, cold y.2 u.2) z.
Proof.
  intros Hz. unfold run_probe. apply wp_bind, wp_still.
  { apply quiet_no_bench, quiet_coordinator, quiet_start_transition. }
  - intros [] u Hu. apply (cooled_still _ _ _ Hz) in Hu. apply wp_bind. destruct u as [b w].
    apply wp_sys. intros r o _. assert (cold y.2 (World o (w_log w ++ [EBench command timeout]))) as Hcold
      by (by eapply cooled_bench).
    destruct r as [output|e]; [|exact Hcold]. apply wp_still; [solve_makes| |].
    + intros out u Hstill. etrans; [exact Hcold|by apply still_cold].
    + intros e u Hstill. etrans; [exact Hcold|by apply still_cold].
  - intros e u Hu. apply (cooled_still _ _ _ Hz) in Hu. destruct Hu as (n & Hn & Hb & _).
    exists n. split; [done|by apply benchless_cold_runs].
Qed.
Lemma run_attempt_cold : within (on_world cold) (_run_attempt s fuel x executable).
Proof.
  apply within_wp. intros y. unfold _run_attempt. apply wp_bind.
  eapply wp_conseq; [apply prepare_probe_cools| |intros e z Hz; by apply still_cold].
  intros [[command timeout] [before error]] z Hz. apply wp_bind, wp_finally.
  assert (∀ u, cold y.2 u.2 → ∀ (m : M (bench * world W) unit), makes (@no_bench) m →
    wp m (λ _ v, cold y.2 v.2) (λ _ v, cold y.2 v.2) u) as Hafter.
  { intros u Hu m Hm. apply wp_still; [done| |]; intros a v Hv; (etrans; [done|by apply still_cold]). }
  eapply wp_conseq; [by apply run_probe_cold| |].
  - intros output u Hu. eapply wp_conseq; [apply (Hafter u Hu), after_probe_benchless| |done].
    intros [] v Hv. apply wp_still.
    + pose proof (makes_analyse x (@no_bench) quiet_is_benchless).
      pose proof (quiet_no_bench _ (quiet_read_summary (W := W) x)). solve_makes.
    + intros a u' Hu'. etrans; [done|by apply still_cold].
    + intros a u' Hu'. etrans; [done|by apply still_cold].
  - intros e u Hu. eapply wp_conseq; [apply (Hafter u Hu), after_probe_benchless|done|done].
Qed.
End attempt.
End cold_runs.

Section single_run.
Context {W : Type} `{OS W} (s : RealSenseSteadyBench) (fuel : nat).
Context (executable : string).

Lemma still_within_cold {T A} (m : M (T * world W) A) : makes (@no_bench) m → within (on_world cold) m.
Proof. intros Hm x. apply still_cold. by apply (makes_within (@no_bench)); [|apply still_kept]. Qed.
Lemma quiet_within_cold {T A} (m : M (T * world W) A) : makes (@quiet) m → within (on_world cold) m.
Proof. intros Hm. by apply still_within_cold, quiet_no_bench. Qed.

Lemma run_attempt_of_cold r case manifest dir n attempt_dir :
  within (on_world cold) (run_attempt_of s fuel executable r case manifest dir n attempt_dir).
Proof.
  intros Hp. unfold run_attempt_of. apply within_bind; [typeclasses eauto|apply quiet_within_cold; solve_makes|].
  intros [e|]; [apply quiet_within_cold; solve_makes|by apply run_attempt_cold].
Qed.
End single_run.

(** C4: Every measurement starts with cold caches.  Whatever the operating
    system does and however the run of a campaign point ends, between two runs of
    the benchmark's probe, and before the first one, the log of the run has a sync
    and a drop of the kernel's caches that both succeeded; attempts that are
    repeated after a failure are no exception. *)
Theorem measurements_are_cold {W} `{OS W} s fuel executable r
    (x : bench * world W) :
  ∃ new, w_log (single_run s fuel executable r x).2.2 = w_log x.2 ++ new ∧ cold_runs new.
Proof.
  change (on_world cold x (single_run s fuel executable r x).2).
  cut (within (on_world cold) (single_run s fuel executable r)); [auto|].
  unfold single_run. apply within_bind; [typeclasses eauto|apply quiet_within_cold; solve_makes|].
  intros [[case manifest] dir]. unfold run_steady_attempts.
  apply within_bind; [typeclasses eauto| |intros result; apply quiet_within_cold; solve_makes].
  apply within_run_attempt_loop; [typeclasses eauto| | | |done].
  - apply quiet_within_cold. solve_makes.
  - intros n attempt_dir. by apply run_attempt_of_cold.
  - intros f summary attempt_dir d. simpl. case_bool_decide; [|done]. intros [= <-].
    apply quiet_within_cold. solve_makes.
Qed.

(** ** A machine on which a run can be made *)

(** It counts the probe's runs; the second one succeeds. *)
Definition rig_text (path : string) : string :=
  let name := path_name path in
  if bool_decide (name ∈ ["scaling_min_freq"; "scaling_max_freq"; "scaling_cur_freq"]) then "1500000"
  else if bool_decide (name = "idVendor") then "8086"
  else if bool_decide (name = "product") then "Intel RealSense D435"
  else if bool_decide (name = "control") then "on"
  else if bool_decide (name = "selected_attempt.txt") then "2"
  else "".
Definition rig_summary (runs : Z) : pyval :=
  VDict [("success", VBool (bool_decide (1 < runs))); ("error", VStr "no frames")].
Definition rig_handle {A} (c : syscall A) (runs : Z) : outcome A * Z :=
  match c in syscall A return outcome A * Z with
  | ReadText p => (Ok (rig_text p), runs)
  | ReadJson p => (Ok (rig_summary runs), runs)
  | WriteText _ _ | WriteJson _ _ | Mkdir _ _ | Sleep _ | WriteCsv _ _ _ => (Ok (), runs)
  | Glob dir pattern =>
      (Ok (if bool_decide (pattern = "policy*") then [dir // "policy0"]
           else if bool_decide (pattern = "*") then [dir // "2-1"] else []), runs)
  | IsFile _ | IsDir _ | Which _ => (Ok true, runs)
  | Resolve p => (Ok p, runs)
  | RunCommand _ _ _ => (Ok (Completed 0 "" ""), runs)
  | RunBench _ _ => (Ok "frames", runs + 1)
  | Monotonic => (Ok (f_of_Z 0), runs)
  | BoottimeNs => (Ok 1, runs)
  | GetEuid => (Ok 1000, runs)
  | _ => (raise OSError "not available", runs)
  end.
#[export] Instance rig_os : OS Z := @rig_handle.

Definition rig_arguments : bench_arguments := {|
  sb_repo_root := "/repo"; sb_cases := [[("case_id", VStr "one"); ("probe", VDict [("camera_count", VInt 1)])]];
  sb_build_dir := "/build"; sb_lime := "/lime"; sb_use_lime := false; sb_v4l2_diagnostics := false;
  sb_overrun_kernel_trace := false; sb_freshness_kernel_trace := false; sb_full_path_kernel_trace := false;
  sb_host_latency_kernel_trace := false; sb_use_sudo := true; sb_backend := "v4l2"; sb_rsusb_usb_devices := [];
  sb_cpu_isolation_enabled := false; sb_housekeeping_cpus := "0"; sb_benchmark_cpus := "1-3";
  sb_cpu_noise := λ _, demo_cpu; sb_memory_noise := λ _, demo_memory; sb_usb_storage_noise := λ _, demo_usb;
  sb_gpu_noise := λ _ _, demo_gpu; sb_gpu_noise_vulkan_icd := None; sb_recover_on_failure := "none";
  sb_reset_before_run := false; sb_recovery_reset_timeout_ms := 5000; sb_recovery_wait_seconds := f_of_Z 1;
  sb_recovery_settle_seconds := f_of_Z 0; sb_max_attempts_per_run := 3; sb_build_jobs := 4;
  sb_v4l2_diagnostics_build_only := false |}.
Definition rig_bench : RealSenseSteadyBench :=
  match (new_bench (T := unit) rig_arguments ((), World (0 : Z) [])).1 with
  | Ok s => s
  | Raise _ => {| arguments := rig_arguments; _cases := []; _camera_result_slots := 0; _build_dir := "";
                  _lime := ""; _vulkan_icd := None |}
  end.
Definition rig_start : bench * world Z :=
  (Bench (SystemControls.initial (controls_config rig_bench)) (λ _, idle) [] (false, []), World 0 []).
Definition rig_run_arguments : run_arguments := {|
  r_case_id := "one"; r_policy := "fifo"; r_cpu_noise := "none"; r_memory_noise := "none"; r_gpu_noise := "none";
  r_usb_storage_noise := "none"; r_record_data_dir := "/results/run" |}.
Abbreviation rig_run := (single_run rig_bench 5 "/usr/bin/python3" rig_run_arguments rig_start).

Lemma rig_log : w_log rig_start.2 = [].
Proof. reflexivity. Qed.

(** Two attempts, two measurements, both cold. *)
Lemma measurements_are_cold_witness :
  length (filter (λ e, is_bench e = true) (w_log rig_run.2.2)) = 2%nat ∧ returned rig_run = true ∧
  cold_runs (w_log rig_run.2.2).
Proof.
  split; [vm_compute; reflexivity|]. split; [vm_compute; reflexivity|].
  destruct (measurements_are_cold rig_bench 5 "/usr/bin/python3" rig_run_arguments rig_start)
    as (new & Hnew & Hcold).
  rewrite Hnew, rig_log. exact Hcold.
Defined.
