(* ===== verification/SteadyNoise.v ===== *)
(** * The interference of a steady-state run

    On a machine where killing a process ends it, no noise process outlives a
    run that returns, and cleaning up after a campaign ends those that are left
    after a run that did not. *)
From Stdlib Require Import Ascii ZArith Lia Floats.SpecFloat.
From S2P Require Import Prelude PyStr PyFloat PyVal PyJson Effects Machine.
From S2P Require Import CpuIsolation Attempts SystemControls Recovery SteadyTrace Memory Shell Commands.
From S2P Require Import SteadyAttempts Noise NoiseSpec Calls SteadyResults SteadyBench SteadyBenchSpec.
From stdpp Require Import base gmap strings list.
Local Open Scope Z_scope.
Local Open Scope py_scope.
Local Open Scope M_scope.

(** ** Living processes *)

(** The log started no process that has not ended. *)
Definition none_alive {W} (w : world W) : Prop := ∀ p, p ∉ alive (w_log w).
(** No living process appeared. *)
Definition no_new {W} : relation (world W) := λ x y, ∀ p, p ∈ alive (w_log y) → p ∈ alive (w_log x).
#[export] Instance no_new_preorder {W} : PreOrder (@no_new W).
Proof. split; [by intros x p|]. intros x y z Hxy Hyz p Hp. by apply Hxy, Hyz. Qed.
Lemma no_new_kept {W} `{OS W} : kept_by (@quiet) (@no_new W).
Proof.
  split; [typeclasses eauto|]. intros B c w r o Hc Ho.
  pose proof (steady_sys c) as Hs. assert (match c with Spawn _ _ | SpawnWith _ _ => False | _ => True end) as Hn by by destruct c.
  specialize (Hs Hn (idle, w)) as [_ Ha]. unfold sys in Ha. by rewrite Ho in Ha.
Qed.

Section transition.
Context {W : Type} `{OS W} `{!Killable W} (workload : member → ManagedNoiseProcess (W := W)).
Context `{!∀ m, Steady (workload m)} (fuel : nat) (modes : list (string * string)) (dir : string).
Abbreviation state := (transition * world W)%type.
(** Every living process is held, if it was so before. *)
Definition held (x : state) : Prop := no_orphans (nt_suite x.1, x.2).
Definition holding : relation state := λ x y, held x → held y.
#[local] Instance holding_preorder : PreOrder holding.
Proof. split; [by intros x ?|]. unfold holding; intros x y z; auto. Qed.
Lemma holding_sys {A} (c : syscall A) : quiet c = true → within holding (sys c).
Proof.
  intros Hc x Hx p Hp. pose proof (kept_sys (T := transition) _ no_new c no_new_kept Hc x) as Hn.
  destruct (Hx p (Hn p Hp)) as [m Hm]. exists m. rewrite <- Hm. simpl. destruct x as [t w].
  unfold sys. by destruct (handle c (w_os w)).
Qed.
Lemma holding_note k v : within holding (note_state k v).
Proof. intros [t w] Hx. exact Hx. Qed.
Hint Extern 1 (within holding (sys _)) => apply holding_sys; reflexivity : keeps.
Hint Resolve holding_note : keeps.
Lemma start_all_holds x : no_orphans x → no_orphans (start_all workload fuel modes dir x).2.
Proof.
  intros Hx. enough (wp (start_all workload fuel modes dir) (λ _ y, no_orphans y) (λ _ y, no_orphans y) x) as Hw.
  { unfold wp in Hw. by destruct (start_all workload fuel modes dir x) as [[] y]. }
  unfold start_all. apply wp_try. eapply wp_conseq; [apply (start_all_members workload fuel modes dir members [])|..].
  - done.
  - intros m mode Hm. by apply elem_of_nil in Hm.
  - by apply (bool_decide_unpack _).
  - by intros values y [Hy _].
  - intros e y Hy. destruct (is_Exception e); [|done]. apply wp_bind.
    eapply wp_conseq; [by apply stop_all_spec|by intros [] z [Hz _]; apply wp_rethrow|done].
Qed.
Lemma holding_start_all :
  within holding (zoom nt_suite set_suite (start_all (W := W) workload fuel modes dir)).
Proof.
  intros [t w] Hx. pose proof (start_all_holds (nt_suite t, w) Hx) as Hs. unfold zoom, held.
  by destruct (start_all workload fuel modes dir (nt_suite t, w)) as [r [u w']].
Qed.
Hint Resolve holding_start_all : keeps.
Lemma holding_finish : within holding (finish workload fuel modes dir).
Proof.
  assert (∀ n, within holding (_wait_for_camera_warmup (W := W) dir n)) as Hwait.
  { induction n; simpl; unfold probe_done, warmup_timestamp; solve_within. }
  unfold finish, _run, run_transition, _publish_error, _atomic_write, _write_state, probe_done. solve_within.
Qed.
End transition.

(** ** A run *)

Section run.
Context {W : Type} `{OS W} `{!Killable W} (s : RealSenseSteadyBench) (fuel : nat).
Context (executable : string).
Abbreviation state := (bench * world W)%type.
Definition ended (x : state) : Prop := none_alive x.2.
Definition owned_by_suite (x : state) : Prop := no_orphans (b_noise x.1, x.2).
Lemma ended_owned x : ended x → owned_by_suite x.
Proof. intros Hx p Hp. by destruct (Hx p). Qed.
Abbreviation tidy := (ends ended owned_by_suite).

#[export] Instance workload_steady m : Steady (workload (W := W) s m).
Proof. unfold workload. apply _. Qed.

Lemma ended_quiet {A} (m : M state A) : makes (@quiet) m → ends ended ended m.
Proof.
  intros Hm x Hx. apply (wp_within (on_world no_new)); [apply Hm, no_new_kept|..];
    intros a y Hy p Hp; by apply (Hx p), Hy.
Qed.
Lemma tidy_quiet {A} (m : M state A) : makes (@quiet) m → tidy m.
Proof. intros Hm x Hx. eapply wp_conseq; [by apply (ended_quiet m)|done|]. intros e y Hy. by apply ended_owned. Qed.

Lemma finish_owned dir modes x : owned_by_suite x →
  wp (coordinator (finish (workload (W := W) s) fuel modes dir)) (λ _ y, owned_by_suite y) (λ _ y, owned_by_suite y) x.
Proof.
  destruct x as [b w]. intros Hx. unfold coordinator. apply wp_zoom.
  apply (wp_within (holding (W := W))); [apply holding_finish; typeclasses eauto|intros a y Hy; exact (Hy Hx)..].
Qed.
Lemma stop_owned dir x : owned_by_suite x →
  let same y := b_controls y.1 = b_controls x.1 in
  wp (noise_suite (stop_all (workload (W := W) s) dir)) (λ _ y, ended y ∧ same y) (λ _ y, owned_by_suite y ∧ same y) x.
Proof.
  destruct x as [b w]. intros Hx same. unfold noise_suite. apply wp_zoom.
  eapply wp_conseq; [by apply (stop_all_spec (workload s) dir (b_noise b, w))| |by intros e y Hy].
  intros [] y [Hy Hi]. split; [|done]. intros p. by apply (idle_none_alive y).
Qed.
Lemma tidy_after_probe x before error : tidy (after_probe s fuel x executable before error).
Proof.
  intros y Hy. unfold after_probe. apply wp_bind.
  eapply wp_conseq; [by apply finish_owned, ended_owned| |done]. intros [] z Hz. apply wp_bind.
  eapply wp_conseq; [by apply stop_owned| |by intros e u [? _]].
  intros [] u [Hu _]. apply tidy_quiet; [|done]. solve_makes.
Qed.
Lemma ended_finally {A} (m : M state A) f :
  ends ended ended m → tidy f → tidy (try_finally m f).
Proof.
  intros Hm Hf x Hx. apply wp_finally. eapply wp_conseq; [by apply Hm| |].
  - intros a y Hy. by apply Hf.
  - intros e y Hy. eapply wp_conseq; [by apply Hf|intros [] z; apply ended_owned|done].
Qed.
Lemma run_probe_ends x command timeout : ends ended ended (run_probe (W := W) x command timeout).
Proof.
  apply ends_bind; [apply ended_quiet; solve_makes|]. intros []. apply ends_bind.
  - intros [b w] Hw. apply wp_sys. intros [text|e] o _ p; simpl; rewrite alive_app; apply Hw.
  - intros output. apply ended_quiet. solve_makes.
Qed.
Lemma tidy_run_attempt x : tidy (_run_attempt s fuel x executable).
Proof.
  unfold _run_attempt. apply ends_bind.
  { apply tidy_quiet. unfold prepare_probe, _drop_caches_for_attempt.
    pose proof (λ n d, quiet_prepare_attempt (W := W) (controls_config s) fuel n d). solve_makes. }
  intros [[command timeout] [before error]]. apply ends_bind.
  { apply ended_finally; [apply run_probe_ends|apply tidy_after_probe]. }
  intros output. apply tidy_quiet. pose proof (makes_analyse s x (@quiet) (λ _ _ h, h)). solve_makes.
Qed.
Lemma tidy_single_run r : tidy (single_run s fuel executable r).
Proof.
  apply ends_bind; [apply tidy_quiet; solve_makes|]. intros [[case manifest] dir].
  unfold run_steady_attempts. apply ends_bind; [|intros; apply tidy_quiet; solve_makes].
  apply ends_run_attempt_loop; [exact ended_owned| | | |done].
  - apply tidy_quiet. solve_makes.
  - intros n d. unfold run_attempt_of. simpl. unfold run_attempt_of. apply ends_bind; [apply tidy_quiet; solve_makes|].
    intros [e|]; [apply tidy_quiet; solve_makes|apply tidy_run_attempt].
  - intros f summary d decision. simpl. case_bool_decide; [|done]. intros [= <-]. apply tidy_quiet. solve_makes.
Qed.
(** Cleaning up: the workloads first, the machine controls whatever happened. *)
Definition cleaned_controls (x y : state) : Prop :=
  ∃ w r, SystemControls.cleanup (controls_config s) fuel (b_controls x.1, w) = (r, (b_controls y.1, y.2)).
Lemma controls_owned (b : bench) (w : world W) : owned_by_suite (b, w) →
  let cleaned y := owned_by_suite y ∧ cleaned_controls (b, w) y ∧ (none_alive w → ended y) in
  wp (controls (SystemControls.cleanup (controls_config s) fuel)) (λ _ y, cleaned y) (λ _ y, cleaned y) (b, w).
Proof.
  intros Hx cleaned.
  pose proof (quiet_cleanup (controls_config s) fuel no_new no_new_kept (b_controls b, w)) as Hn.
  unfold controls, zoom, wp. destruct (SystemControls.cleanup _ fuel (b_controls b, w)) as [r [c w']] eqn:Hc.
  assert (cleaned (set_controls c b, w')) as Hclean.
  { split_and!; [intros p Hp; exact (Hx p (Hn p Hp))|by exists w, r|intros Hw p Hp; exact (Hw p (Hn p Hp))]. }
  by destruct r.
Qed.
(** What the end of [cleanup] does with the errors of its actions. *)
Definition report (errors : list string) : M state unit :=
  when (negb (bool_decide (errors = []))) (throw RuntimeError ("Campaign cleanup failed: " +:+ py_join " | " errors)).
Definition tidied (x y : state) : Prop := ended y ∧ cleaned_controls x y.
Definition given_up (x : state) (e : exn) (y : state) : Prop :=
  owned_by_suite y ∧ (is_Exception e = true → cleaned_controls x y).
Lemma report_ends errors x y : owned_by_suite y → cleaned_controls x y → (errors = [] → ended y) →
  wp (report errors) (λ _ z, tidied x z) (given_up x) y.
Proof.
  intros Ho Hc He. apply wp_when; intros Hl.
  - by apply wp_throw.
  - apply negb_false_iff, bool_decide_eq_true in Hl. split; [by apply He|done].
Qed.
Lemma restore_ends errors (b : bench) (w : world W) x :
  owned_by_suite (b, w) → b_controls b = b_controls x.1 → (errors = [] → none_alive w) →
  wp (cleanup_action errors ("restore system controls", controls (SystemControls.cleanup (controls_config s) fuel)))
    (λ errors y, wp (report errors) (λ _ z, tidied x z) (given_up x) y) (given_up x) (b, w).
Proof.
  intros Hx Hb Hw. unfold cleanup_action. apply wp_try, wp_bind.
  eapply wp_conseq; [by apply controls_owned|intros [] y (Ho & (w1 & r & Hc) & He)|intros e y (Ho & (w1 & r & Hc) & He)];
    assert (cleaned_controls x y) as Hclean by (exists w1, r; by rewrite <- Hb).
  - apply wp_ret, report_ends; auto.
  - destruct (is_Exception e) eqn:Hexn; [|split; [done|congruence]].
    apply wp_ret, report_ends; [done|done|by destruct errors].
Qed.
Lemma cleanup_ends x : owned_by_suite x → wp (cleanup s fuel) (λ _ y, tidied x y) (given_up x) x.
Proof.
  intros Hx. unfold cleanup. simpl fold_each. apply wp_bind, wp_bind.
  assert (∀ errors (b : bench) w, owned_by_suite (b, w) → b_controls b = b_controls x.1 → (errors = [] → none_alive w) →
    wp (bind (cleanup_action errors ("restore system controls",
              controls (SystemControls.cleanup (controls_config s) fuel))) (λ errors, ret errors))
      (λ errors y, wp (report errors) (λ _ z, tidied x z) (given_up x) y) (given_up x) (b, w)) as Hrest.
  { intros errors b w Hb Hc He. apply wp_bind. eapply wp_conseq; [by apply restore_ends| |done].
    intros l y Hy. by apply wp_ret. }
  unfold cleanup_action at 1. apply wp_try, wp_bind. eapply wp_conseq; [by apply stop_owned| |].
  - intros [] [b w] [He Hb]. apply wp_ret. apply Hrest; [by apply ended_owned|done|done].
  - intros e [b w] [Ho Hb]. destruct (is_Exception e) eqn:Hexn; [|split; [done|congruence]].
    apply wp_ret. by apply Hrest.
Qed.
End run.

(** C5: No interference outlives a run.  On a machine where a killed process
    ends, and with no noise process alive: when a run of a campaign point
    returns, however many attempts it made, none is alive; when it raises, each
    process that is left is held by its workload.  The cleanup after it does not
    return before none is alive, and unless it is interrupted by something that is
    not an [Exception], it cleans the machine controls up whatever stopping the
    workloads did. *)
Theorem no_interference_is_left {W} `{OS W} `{!Killable W} s fuel executable r
    (x : bench * world W) :
  none_alive x.2 →
  let run := single_run s fuel executable r x in
  let clean := cleanup s fuel run.2 in
  (is_ok run.1 = true → none_alive run.2.2) ∧ owned_by_suite run.2 ∧
  (is_ok clean.1 = true → none_alive clean.2.2) ∧ owned_by_suite clean.2 ∧
  (cleaned_controls s fuel run.2 clean.2 ∨ ∃ e, clean.1 = Raise e ∧ is_Exception e = false).
Proof.
  intros Hx run clean. pose proof (tidy_single_run s fuel executable r x Hx) as Hr.
  unfold wp in Hr. fold run in Hr.
  assert ((is_ok run.1 = true → none_alive run.2.2) ∧ owned_by_suite run.2) as [Hrun Ho].
  { destruct run as [[output|e] y]; split; try done. by apply ended_owned. }
  split; [done|]. split; [done|]. pose proof (cleanup_ends s fuel run.2 Ho) as Hc. unfold wp in Hc. fold clean in Hc.
  destruct clean as [[[]|e] y]; [destruct Hc as [He Hc]|destruct Hc as [Hy Hc]].
  - split; [done|]. split; [by apply ended_owned|by left].
  - split; [done|]. split; [done|]. destruct (is_Exception e) eqn:Hexn; [left; by apply Hc|right; by exists e].
Qed.

(** ** A machine on which the workloads run *)

Record stage := Stage { st_next : Z; st_killed : list Z; st_runs : Z }.
Definition stage_text (path : string) : string :=
  if bool_decide (path_name path = "camera_warmup_ready") then "1" else rig_text path.
Definition stage_json (path : string) (runs : Z) : pyval :=
  if bool_decide (path_name path = "steady_summary.json") then rig_summary runs else VDict [("ready", VBool true)].
Definition stage_handle {A} (c : syscall A) (w : stage) : outcome A * stage :=
  match c in syscall A return outcome A * stage with
  | Spawn _ _ => (Ok (st_next w), Stage (st_next w + 1) (st_killed w) (st_runs w))
  | Poll pid => (Ok (if bool_decide (pid ∈ st_killed w) then Some (-9) else None), w)
  | Terminate _ => (Ok (), w)
  | Kill pid => (Ok (), Stage (st_next w) (pid :: st_killed w) (st_runs w))
  | Wait pid _ => (if bool_decide (pid ∈ st_killed w) then Ok (-9) else raise TimeoutExpired "timed out", w)
  | IsSet _ => (Ok false, w)
  | Rename _ _ => (Ok (), w)
  | FileDigest _ => (Ok "sha", w)
  | ReadText p => (Ok (stage_text p), w)
  | ReadJson p => (Ok (stage_json p (st_runs w)), w)
  | c => let '(r, runs) := rig_handle c (st_runs w) in (r, Stage (st_next w) (st_killed w) runs)
  end.
#[export] Instance stage_os : OS stage := @stage_handle.
#[export] Program Instance stage_killable : Killable stage.
Next Obligation. done. Qed.
Next Obligation. done. Qed.
Next Obligation. intros pid t w e. unfold handle, stage_os, stage_handle. simpl. case_bool_decide; [done|by intros [= <-]]. Qed.
Next Obligation. done. Qed.
Next Obligation. intros pid t w. unfold handle, stage_os, stage_handle. simpl. by rewrite bool_decide_true by by left. Qed.

Definition noisy_arguments : run_arguments := {|
  r_case_id := "one"; r_policy := "fifo"; r_cpu_noise := "busy_loop"; r_memory_noise := "fixed_copy";
  r_gpu_noise := "none"; r_usb_storage_noise := "none"; r_record_data_dir := "/results/run" |}.
Definition stage_start : bench * world stage :=
  (Bench (SystemControls.initial (controls_config rig_bench)) (λ _, idle) [] (false, []), World (Stage 1 [] 0) []).
Abbreviation noisy_run :=
  (single_run rig_bench 5 "/usr/bin/python3" noisy_arguments stage_start).
Definition is_spawn (e : entry) : bool := match e with ESpawn _ _ => true | _ => false end.

(** Two attempts start two workloads each; all four processes end. *)
Lemma no_interference_is_left_witness :
  length (filter (λ e, is_spawn e = true) (w_log noisy_run.2.2)) = 4%nat ∧
  none_alive noisy_run.2.2 ∧ none_alive (cleanup rig_bench 5 noisy_run.2).2.2.
Proof.
  split; [vm_compute; reflexivity|].
  assert (none_alive stage_start.2) as Hx by (intros p Hin; inversion Hin).
  destruct (no_interference_is_left rig_bench 5 "/usr/bin/python3" noisy_arguments stage_start Hx)
    as (Hrun & _ & Hclean & _ & _).
  assert (is_ok noisy_run.1 = true) as Hret by (vm_compute; reflexivity).
  assert (is_ok (cleanup rig_bench 5 noisy_run.2).1 = true) as Hc by (vm_compute; reflexivity).
  split; [exact (Hrun Hret)|]. exact (Hclean Hc).
Defined.
