(* ===== verification/CampaignRun.v ===== *)
(** * What the campaign programs share ([run_steady_campaign.py], [run_timerlat_campaign.py])

    Both check their options one after the other, read cases with unique ids,
    select some of them by id, and clean up after a campaign. *)
From Stdlib Require Import Ascii ZArith Lia Floats.SpecFloat.
From S2P Require Import Prelude PyStr PyFloat PyVal Effects StartupTrace.
From stdpp Require Import base gmap strings list.
Local Open Scope Z_scope.
Local Open Scope py_scope.
Local Open Scope M_scope.

(** ** Options *)

(** [if condition: raise SystemExit(message)], one after the other. *)
Fixpoint refuse (checks : list (bool * string)) : outcome unit :=
  match checks with
  | [] => Ok ()
  | (condition, message) :: checks => if (condition : bool) then raise SystemExit message else refuse checks
  end.
(** [n is not None and p(n)]. *)
Definition given {A} (p : A → bool) (n : option A) : bool := match n with Some n => p n | None => false end.
Definition below (bound n : Z) : bool := bool_decide (n < bound).
Definition not_positive (x : f64) : bool := f_le_Z x 0.
(** [math.isfinite(x)]. *)
Definition isfinite (x : f64) : bool := match x with S754_zero _ | S754_finite _ _ _ => true | _ => false end.
(** [any(mode != 'none' for mode in modes)]. *)
Definition any_noise (modes : list string) : bool := existsb (λ mode, negb (bool_decide (mode = "none"))) modes.
Definition is_nil {A} (l : list A) : bool := match l with [] => true | _ => false end.

(** ** Cases *)

Definition case_id (case : pydict) : pyval := dgetd "case_id" VNone case.
(** [v in seen] for a set [seen]. *)
Definition in_set (v : pyval) (seen : list pyval) : outcome bool :=
  match v with
  | VList _ | VDict _ => raise TypeError ("unhashable type: '" +:+ type_name v +:+ "'")
  | _ => Ok (existsb (py_eq v) seen)
  end.
(** A case with an id that was not seen before. *)
Definition new_case (seen : list pyval) (case : pyval) : outcome pydict :=
  let nameless := raise ValueError ("Case without case_id: " +:+ repr_val case) in
  match case with
  | VDict d =>
      if negb (truthy (case_id d)) then nameless else
      known ← in_set (case_id d) seen;
      if (known : bool) then raise ValueError ("Duplicate case_id: " +:+ str_val (case_id d)) else Ok d
  | _ => nameless
  end.
(** [for case in cases:] with the check of [new_case] and another one. *)
Definition add_case (check : pydict → outcome unit) (acc : list pyval * list pydict) (case : pyval) :
    outcome (list pyval * list pydict) :=
  d ← new_case acc.1 case; _ ← check d; Ok (acc.1 ++ [case_id d], acc.2 ++ [d]).
Definition check_cases (check : pydict → outcome unit) (cases : list pyval) : outcome (list pydict) :=
  acc ← fold_outcome (add_case check) ([], []) cases; Ok acc.2.
Definition is_id (case : pydict) (wanted : string) : bool := py_eq (case_id case) (VStr wanted).
(** The wanted cases, in the order of the file. *)
Definition select_cases (case_ids : list string) (cases : list pydict) : outcome (list pydict) :=
  if is_nil case_ids then Ok cases else
  let selected := filter (λ case, existsb (is_id case) case_ids = true) cases in
  match filter (λ w, existsb (λ case, is_id case w) selected = false) case_ids with
  | [] => Ok selected
  | missing => raise SystemExit ("Unknown case_id(s): " +:+ py_join ", " (sorted_set missing))
  end.

(** ** The end of a campaign *)

(** [try: ...; finally: ...] of a campaign: an [Exception] of the cleanup is
    raised when the campaign did not fail, and printed when it did. *)
Definition with_cleanup {S A} (campaign : M S A) (cleanup : M S unit) : M S A := λ s,
  match campaign s with
  | (Ok a, s) => (cleanup ;; ret a) s
  | (Raise e, s) => (try_except is_Exception cleanup (λ _, ret ()) ;; rethrow e) s
  end.

(** Something that is not an [Exception] ended the cleanup after [y]. *)
Definition stopped {S} (cleanup : M S unit) (y : S) : Prop := ∃ e, (cleanup y).1 = Raise e ∧ is_Exception e = false.
(** What a campaign leaves after the cleanup, and what is raised. *)
Lemma with_cleanup_cases {S A} (cleanup : M S unit) (m : M S A) x :
  let c := m x in let r := with_cleanup m cleanup x in
  r.2 = (cleanup c.2).2 ∧ (is_ok r.1 = true → is_ok c.1 = true ∧ is_ok (cleanup c.2).1 = true) ∧
  ∀ e, c.1 = Raise e → r.1 = Raise e ∨ stopped cleanup c.2.
Proof.
  intros c r. unfold r, with_cleanup. fold c. unfold stopped. destruct c as [[a|e] y]; simpl.
  - unfold bind. destruct (cleanup y) as [[[]|e] z]; by repeat split.
  - unfold bind, try_except. destruct (cleanup y) as [[[]|e'] z]; simpl.
    + split; [done|]. split; [done|]. intros e1 [= <-]. by left.
    + destruct (is_Exception e') eqn:He; simpl; (split; [done|]; split; [done|]); intros e1 [= <-]; [by left|right; eauto].
Qed.
