(* ===== verification/SteadyCampaign.v ===== *)
(** * The steady-state campaign ([run_steady_campaign.py])

    What the program does between its argument parser and Benchkit: the checks of
    the options, the cases of the configuration and the options that override
    them, the checks of the selected cases, the construction of the benchmark
    ([SteadyBench]), the constants and variables of the campaign, and the cleanup
    around it.  Benchkit's campaign is an argument.  The handlers of the two
    signals are left out: a signal is an exception that the campaign raises. *)
From Stdlib Require Import Ascii ZArith Lia Floats.SpecFloat.
From S2P Require Import Prelude PyStr PyFloat PyVal Effects.
From S2P Require Import SystemControls Shell Commands Noise SteadyResults SteadyBench CampaignRun.
From stdpp Require Import base gmap strings list.
Local Open Scope Z_scope.
Local Open Scope py_scope.
Local Open Scope M_scope.

(** ** Settings *)

Definition DEFAULT_BROADCOM_VULKAN_ICD : string := "/usr/share/vulkan/icd.d/broadcom_icd.json".
Definition FIXED_CAMPAIGN_CONSTANTS : pydict := [
  ("fixed_cmake_build_type", VStr CAMPAIGN_BUILD_TYPE); ("fixed_librealsense_backend", VStr PAPER_BACKEND);
  ("fixed_usb_kernel_driver", VStr PAPER_USB_KERNEL_DRIVER);
  ("fixed_cpu_frequency_mhz", VInt PAPER_CPU_FREQUENCY_MHZ);
  ("fixed_cpu_isolation", VBool PAPER_CPU_ISOLATION_ENABLED);
  ("fixed_housekeeping_cpus", VStr PAPER_HOUSEKEEPING_CPUS); ("fixed_benchmark_cpus", VStr PAPER_BENCHMARK_CPUS);
  ("fixed_drop_caches_before_run", VBool PAPER_DROP_CACHES_BEFORE_RUN);
  ("fixed_realsense_usb_autosuspend_disabled", VBool true); ("fixed_rt_priority", VInt PAPER_RT_PRIORITY)].

(** ** The options *)

Record options := {
  o_config : string;
  o_case_ids : list string;
  o_policies : list string;
  o_deadline_profile : option string;
  o_nb_runs : Z;
  o_frames : option Z;
  o_measurement_duration_seconds : option f64;
  o_deadline_apply_after_frames : option Z;
  o_deadline_allow_partial_profile : bool;
  o_serials : list string;
  o_build_dir : string;
  o_results_dir : string;
  o_lime : string;
  o_no_lime : bool;
  o_v4l2_diagnostics : bool;
  o_v4l2_diagnostics_build_only : bool;
  o_overrun_kernel_trace : bool;
  o_freshness_kernel_trace : bool;
  o_full_path_kernel_trace : bool;
  o_host_latency_kernel_trace : bool;
  o_no_sudo : bool;
  o_backend : string;
  o_rsusb_usb_devices : list string;
  o_cpu_isolation : bool;
  o_housekeeping_cpus : string;
  o_benchmark_cpus : string;
  o_recover_on_failure : string;
  o_reset_before_run : bool;
  o_recovery_reset_timeout_ms : Z;
  o_recovery_wait_seconds : f64;
  o_recovery_settle_seconds : f64;
  o_max_attempts_per_run : Z;
  o_cpu_noise_modes : list string;
  o_cpu_noise_workers : Z;
  o_cpu_noise_warmup_seconds : f64;
  o_cpu_noise_ready_timeout_seconds : f64;
  o_cpu_noise_cpu_affinity : option string;
  o_memory_noise_modes : list string;
  o_memory_noise_workers : Z;
  o_memory_noise_buffer_size_mib : Z;
  o_memory_noise_target_mib_per_second : f64;
  o_memory_noise_copy_chunk_kib : Z;
  o_memory_noise_warmup_seconds : f64;
  o_memory_noise_ready_timeout_seconds : f64;
  o_memory_noise_cpu_affinity : option string;
  o_gpu_noise_modes : list string;
  o_gpu_noise_device : Z;
  o_gpu_noise_warmup_iterations : Z;
  o_gpu_noise_ready_timeout_seconds : f64;
  o_gpu_noise_cpu_affinity : option string;
  o_usb_storage_noise_modes : list string;
  o_usb_storage_device : option string;
  o_usb_storage_warmup_seconds : f64;
  o_usb_storage_block_size_kib : Z;
  o_usb_storage_ready_timeout_seconds : f64;
  o_gpu_noise_vulkan_icd : option string;
  o_build_jobs : Z;
}.

Section options.
Context (o : options).
Definition usb_backend_checks : list (bool * string) := [
  (below 1 (o_build_jobs o), "--build-jobs must be positive");
  (bool_decide (o_backend o = "rsusb") && is_nil (o_rsusb_usb_devices o),
   "--backend rsusb requires at least one --rsusb-usb-device");
  (bool_decide (o_backend o = "v4l2") && negb (is_nil (o_rsusb_usb_devices o)),
   "--rsusb-usb-device is only valid with --backend rsusb")].
Definition recovery_checks : list (bool * string) := [
  (below 1 (o_recovery_reset_timeout_ms o), "--recovery-reset-timeout-ms must be positive");
  (not_positive (o_recovery_wait_seconds o), "--recovery-wait-seconds must be positive");
  (f_lt_Z (o_recovery_settle_seconds o) 0, "--recovery-settle-seconds must be non-negative");
  (below 1 (o_max_attempts_per_run o), "--max-attempts-per-run must be positive");
  (given not_positive (o_measurement_duration_seconds o), "--measurement-duration-seconds must be positive");
  (given (below 1) (o_deadline_apply_after_frames o), "--deadline-apply-after-frames must be positive");
  (bool_decide (1 < o_max_attempts_per_run o) && bool_decide (o_recover_on_failure o = "none"),
   "multiple attempts require --recover-on-failure")].
Definition cpu_noise_checks : list (bool * string) := [
  (below 1 (o_cpu_noise_workers o), "--cpu-noise-workers must be positive");
  (not_positive (o_cpu_noise_warmup_seconds o), "--cpu-noise-warmup-seconds must be positive");
  (f_le (o_cpu_noise_ready_timeout_seconds o) (o_cpu_noise_warmup_seconds o),
   "--cpu-noise-ready-timeout-seconds must exceed the warm-up duration")].
Definition memory_noise_buffer_size_kib : Z := o_memory_noise_buffer_size_mib o * 1024.
Definition memory_noise_checks : list (bool * string) := [
  (below 1 (o_memory_noise_workers o), "--memory-noise-workers must be positive");
  (below 1 (o_memory_noise_buffer_size_mib o), "--memory-noise-buffer-size-mib must be positive");
  (below 1 (o_memory_noise_copy_chunk_kib o), "--memory-noise-copy-chunk-kib must be positive");
  (bool_decide (memory_noise_buffer_size_kib < o_memory_noise_copy_chunk_kib o),
   "--memory-noise-copy-chunk-kib must not exceed the buffer size");
  (negb (bool_decide (memory_noise_buffer_size_kib mod o_memory_noise_copy_chunk_kib o = 0)),
   "--memory-noise-copy-chunk-kib must divide the buffer size exactly");
  (negb (isfinite (o_memory_noise_target_mib_per_second o)) || f_lt (o_memory_noise_target_mib_per_second o) f_zero,
   "--memory-noise-target-mib-per-second must be finite and non-negative");
  (f_lt f_zero (o_memory_noise_target_mib_per_second o) && f_lt (o_memory_noise_target_mib_per_second o) (f_of_Z 1),
   "--memory-noise-target-mib-per-second must be zero or at least 1");
  (not_positive (o_memory_noise_warmup_seconds o), "--memory-noise-warmup-seconds must be positive");
  (f_le (o_memory_noise_ready_timeout_seconds o) (o_memory_noise_warmup_seconds o),
   "--memory-noise-ready-timeout-seconds must exceed the warm-up duration")].
Definition device_noise_checks : list (bool * string) := [
  (below 1 (o_gpu_noise_warmup_iterations o), "--gpu-noise-warmup-iterations must be positive");
  (not_positive (o_gpu_noise_ready_timeout_seconds o), "--gpu-noise-ready-timeout-seconds must be positive");
  (not_positive (o_usb_storage_warmup_seconds o), "--usb-storage-warmup-seconds must be positive");
  (below 4 (o_usb_storage_block_size_kib o), "--usb-storage-block-size-kib must be at least 4");
  (f_le (o_usb_storage_ready_timeout_seconds o) (o_usb_storage_warmup_seconds o),
   "--usb-storage-ready-timeout-seconds must exceed the warm-up duration");
  (any_noise (o_usb_storage_noise_modes o) && bool_decide (o_usb_storage_device o = None),
   "--usb-storage-device is required for sequential-read USB noise")].
Definition check_options : outcome unit :=
  refuse (usb_backend_checks ++ recovery_checks ++ cpu_noise_checks ++ memory_noise_checks ++ device_noise_checks).
End options.

(** ** The cases *)

Definition parse_cases (path : string) (value : pyval) : outcome (list pydict) :=
  match (match value with VDict d => dgetd "cases" (VList []) d | _ => value end) with
  | VList cases => check_cases (λ _, Ok ()) cases
  | _ => raise ValueError (path +:+ " does not contain a case list")
  end.
Definition load_cases {W} `{OS W} {T} (path : string) : M (T * world W) (list pydict) :=
  value <- sys (ReadJson path) ;; lift (parse_cases path value).

(** [case.setdefault(k, {})] followed by assignments to the dictionary. *)
Definition in_section (k : string) (f : pydict → pydict) (case : pydict) : outcome pydict :=
  match dgetd k (VDict []) case with
  | VDict d => Ok (dset k (VDict (f d)) case)
  | VList _ => raise TypeError "list indices must be integers or slices, not str"
  | v => raise TypeError ("'" +:+ type_name v +:+ "' object does not support item assignment")
  end.
Definition in_probe : (pydict → pydict) → pydict → outcome pydict := in_section "probe".
(** [override(x)] of every case when the option is given. *)
Definition each_case {A} (option : option A) (override : A → pydict → outcome pydict) (cases : list pydict) :
    outcome (list pydict) :=
  match option with Some x => traverse (override x) cases | None => Ok cases end.

Definition override_frames (duration_given : bool) (frames : Z) : pydict → outcome pydict :=
  in_probe (λ probe, let probe := dset "frames" (VInt frames) probe in
                     if duration_given then probe else dpop "measurement_duration_ms" probe).
Definition override_duration (duration_ms : Z) : pydict → outcome pydict :=
  in_probe (λ probe, dpop "measurement_timeout_ms" (dset "measurement_duration_ms" (VInt duration_ms) probe)).
Definition override_apply_after (frames : Z) : pydict → outcome pydict :=
  in_probe (dset "deadline_apply_after_frames" (VInt frames)).
Definition allow_partial (_ : unit) : pydict → outcome pydict := in_probe (dset "deadline_allow_partial_profile" (VBool true)).
Definition override_serials (serials : list string) (case : pydict) : outcome pydict :=
  let count := VInt (Z.of_nat (length serials)) in
  case ← in_probe (λ probe, dset "camera_count" count (dset "serials" (VList (map VStr serials)) probe)) case;
  in_section "physical" (dset "camera_count" count) case.
Definition measurement_ms (o : options) : outcome (option Z) :=
  match o_measurement_duration_seconds o with
  | Some seconds => ms ← f_round (f_mul seconds (f_of_Z 1000)); Ok (Some ms)
  | None => Ok None
  end.
Definition override_cases (o : options) (cases : list pydict) : outcome (list pydict) :=
  cases ← each_case (o_frames o) (override_frames (bool_decide (is_Some (o_measurement_duration_seconds o)))) cases;
  duration_ms ← measurement_ms o;
  cases ← each_case duration_ms override_duration cases;
  cases ← each_case (o_deadline_apply_after_frames o) override_apply_after cases;
  cases ← each_case (if o_deadline_allow_partial_profile o then Some () else None) allow_partial cases;
  each_case (if is_nil (o_serials o) then None else Some (o_serials o)) override_serials cases.

(** ** The checks of the selected cases *)

Definition camera_count (case : pydict) : outcome Z := n ← camera_count_of case; py_int n.
Definition rsusb_case (devices : list string) (case : pydict) : outcome pydict :=
  case ← match dget "probe" case with Some _ => Ok case | None => Ok (dset "probe" (VDict []) case) end;
  count ← camera_count case;
  let n := Z.of_nat (length devices) in
  if negb (bool_decide (n = count)) then
    raise SystemExit ("RSUSB requires one --rsusb-usb-device per selected camera; case " +:+ repr_val (case_id case)
      +:+ " selects " +:+ str_Z count +:+ " camera(s) but provides " +:+ str_Z n +:+ " USB device(s)")
  else in_probe (dset "rsusb_usb_devices" (VList (map VStr devices))) case.
Definition rsusb_cases (o : options) (cases : list pydict) : outcome (list pydict) :=
  if bool_decide (o_backend o = "rsusb") then traverse (rsusb_case (o_rsusb_usb_devices o)) cases else Ok cases.

Definition profile_of (case : pydict) : outcome pyval := field (probe_of case) "deadline_profile" VNone.
Definition serial_values (probe : pydict) : pyval :=
  match dgetd "serials" (dgetd "serial" (VList []) probe) probe with
  | VStr serial => VList (if bool_decide (serial = "") then [] else [VStr serial])
  | v => v
  end.
Definition check_reset (case : pydict) : outcome unit :=
  probe ← as_dict (probe_of case);
  count ← camera_count case;
  n ← py_len (serial_values probe);
  if negb (bool_decide (Z.of_nat n = count)) then
    raise SystemExit ("full-reset recovery requires one explicit --serial per selected camera; case "
      +:+ repr_val (case_id case) +:+ " selects " +:+ str_Z count +:+ " camera(s) but provides "
      +:+ str_Z (Z.of_nat n) +:+ " serial(s)")
  else Ok ().
Definition needs_reset (o : options) : bool := bool_decide (o_recover_on_failure o = "full-reset") || o_reset_before_run o.
Definition check_resets (o : options) (cases : list pydict) : outcome unit :=
  if needs_reset o then _ ← traverse check_reset cases; Ok () else Ok ().

(** ** The machine's part of the checks *)

Section steps.
Context {W : Type} `{OS W} {T : Type} (repo_root : string).
Abbreviation IO := (M (T * world W)).

Definition vulkan_icd (o : options) : IO (option string) :=
  match o_gpu_noise_vulkan_icd o with
  | Some icd => ret (Some icd)
  | None =>
      there <- sys (IsFile DEFAULT_BROADCOM_VULKAN_ICD) ;;
      ret (if there && any_noise (o_gpu_noise_modes o) then Some DEFAULT_BROADCOM_VULKAN_ICD else None)
  end.
(** [NCNN_MODEL_PARAM.parents[2]]. *)
Definition ncnn_root : string := repo_root // "deps" // "ncnn".
Definition missing_files (paths : list string) : IO (list string) :=
  found <- map_each paths (λ path, there <- sys (IsFile path) ;; ret (path, there)) ;;
  ret (omap (M := list) (λ pt : string * bool, if pt.2 then None else Some pt.1) found).
Definition check_ncnn (o : options) : IO unit :=
  when (any_noise (o_gpu_noise_modes o))
    (missing <- missing_files [ncnn_root // "CMakeLists.txt"; NCNN_MODEL_PARAM repo_root] ;;
     when (negb (is_nil missing))
       (throw SystemExit ("GPU noise requires the pinned ncnn submodule and MobileNetV2 model; missing: "
          +:+ py_join ", " missing +:+ ". Run: git submodule update --init --recursive deps/ncnn"))).

Definition set_profile (path : string) : pydict → outcome pydict := in_probe (dset "deadline_profile" (VStr path)).
Definition override_profile (o : options) (cases : list pydict) : IO (list pydict) :=
  match o_deadline_profile o with
  | None => ret cases
  | Some profile =>
      when (negb (bool_decide (length cases = 1%nat)))
        (throw SystemExit ("--scheduler-profile can override exactly one selected case; "
           +:+ "use per-case probe.deadline_profile values for a multi-case matrix")) ;;
      deadline_profile <- sys (Resolve profile) ;;
      there <- sys (IsFile deadline_profile) ;;
      when (negb there) (throw SystemExit ("Scheduler model profile does not exist: " +:+ deadline_profile)) ;;
      lift (traverse (set_profile deadline_profile) cases)
  end.
Definition is_modeled (policy : string) : bool := bool_decide (policy ∈ MODELED_POLICIES).
(** The ids of the cases without a profile. *)
Definition with_its_profile (case : pydict) : outcome (pyval * pydict) := profile ← profile_of case; Ok (profile, case).
Definition without_profile (marked : list (pyval * pydict)) : list string :=
  omap (λ pc, if truthy pc.1 then None else Some (str_val (case_id pc.2))) marked.
Definition missing_profiles (cases : list pydict) : outcome (list string) :=
  marked ← traverse with_its_profile cases; Ok (without_profile marked).
Definition resolve_profile (case : pydict) : IO pydict :=
  profile <- lift (profile_of case) ;;
  match profile with
  | VStr p =>
      profile <- sys (Resolve p) ;;
      there <- sys (IsFile profile) ;;
      when (negb there)
        (throw SystemExit ("Scheduler profile for case " +:+ repr_val (case_id case) +:+ " does not exist: " +:+ profile)) ;;
      lift (set_profile profile case)
  | v => throw TypeError ("argument should be a str or an os.PathLike object where __fspath__ returns a str, not '"
                          +:+ type_name v +:+ "'")
  end.
Definition check_profiles (o : options) (cases : list pydict) : IO (list pydict) :=
  if existsb is_modeled (o_policies o) then
    missing <- lift (missing_profiles cases) ;;
    when (negb (is_nil missing))
      (throw SystemExit ("modeled scheduling requires --scheduler-profile (or its --deadline-profile compatibility "
         +:+ "alias) or a per-case probe.deadline_profile; missing for: " +:+ py_join ", " missing)) ;;
    map_each cases resolve_profile
  else ret cases.

(** Lines 520 to 621: the cases of the campaign. *)
Definition campaign_cases (o : options) : IO (list pydict) :=
  cases <- load_cases (o_config o) ;;
  cases <- lift (select_cases (o_case_ids o) cases) ;;
  cases <- lift (override_cases o cases) ;;
  cases <- lift (rsusb_cases o cases) ;;
  when (is_nil cases) (throw SystemExit "No cases selected") ;;
  cases <- override_profile o cases ;;
  cases <- check_profiles o cases ;;
  lift (check_resets o cases) ;;
  ret cases.
End steps.

(** ** The campaign *)

Section campaign.
Context (repo_root : string) (o : options).

Definition arguments_of (cases : list pydict) (icd : option string) : bench_arguments := {|
  sb_repo_root := repo_root; sb_cases := cases; sb_build_dir := o_build_dir o; sb_lime := o_lime o;
  sb_use_lime := negb (o_no_lime o) && negb (o_host_latency_kernel_trace o);
  sb_v4l2_diagnostics := o_v4l2_diagnostics o || o_freshness_kernel_trace o || o_full_path_kernel_trace o;
  sb_overrun_kernel_trace := o_overrun_kernel_trace o; sb_freshness_kernel_trace := o_freshness_kernel_trace o;
  sb_full_path_kernel_trace := o_full_path_kernel_trace o; sb_host_latency_kernel_trace := o_host_latency_kernel_trace o;
  sb_use_sudo := negb (o_no_sudo o); sb_backend := o_backend o; sb_rsusb_usb_devices := o_rsusb_usb_devices o;
  sb_cpu_isolation_enabled := o_cpu_isolation o; sb_housekeeping_cpus := o_housekeeping_cpus o;
  sb_benchmark_cpus := o_benchmark_cpus o;
  sb_cpu_noise := λ executable, {|
    cpu_executable := executable; cpu_modes := o_cpu_noise_modes o; cpu_workers := o_cpu_noise_workers o;
    cpu_warmup_seconds := o_cpu_noise_warmup_seconds o;
    cpu_ready_timeout_seconds := o_cpu_noise_ready_timeout_seconds o; cpu_affinity := o_cpu_noise_cpu_affinity o |};
  sb_memory_noise := λ executable, {|
    mem_executable := executable; mem_modes := o_memory_noise_modes o; mem_workers := o_memory_noise_workers o;
    mem_buffer_size_mib := o_memory_noise_buffer_size_mib o; mem_copy_chunk_kib := o_memory_noise_copy_chunk_kib o;
    mem_target_mib_per_second := o_memory_noise_target_mib_per_second o;
    mem_warmup_seconds := o_memory_noise_warmup_seconds o;
    mem_ready_timeout_seconds := o_memory_noise_ready_timeout_seconds o; mem_affinity := o_memory_noise_cpu_affinity o |};
  sb_usb_storage_noise := λ executable, {|
    usb_executable := executable; usb_modes := o_usb_storage_noise_modes o; usb_device := o_usb_storage_device o;
    usb_warmup_seconds := o_usb_storage_warmup_seconds o; usb_block_size_kib := o_usb_storage_block_size_kib o;
    usb_ready_timeout_seconds := o_usb_storage_ready_timeout_seconds o; usb_use_sudo := negb (o_no_sudo o) |};
  sb_gpu_noise := λ executable icd, {|
    gpu_executable := executable; gpu_modes := o_gpu_noise_modes o; gpu_model_param := NCNN_MODEL_PARAM repo_root;
    gpu_device := o_gpu_noise_device o; gpu_warmup_iterations := o_gpu_noise_warmup_iterations o;
    gpu_ready_timeout_seconds := o_gpu_noise_ready_timeout_seconds o; gpu_affinity := o_gpu_noise_cpu_affinity o;
    gpu_vulkan_icd := icd |};
  sb_gpu_noise_vulkan_icd := icd; sb_recover_on_failure := o_recover_on_failure o;
  sb_reset_before_run := o_reset_before_run o; sb_recovery_reset_timeout_ms := o_recovery_reset_timeout_ms o;
  sb_recovery_wait_seconds := o_recovery_wait_seconds o; sb_recovery_settle_seconds := o_recovery_settle_seconds o;
  sb_max_attempts_per_run := o_max_attempts_per_run o; sb_build_jobs := o_build_jobs o;
  sb_v4l2_diagnostics_build_only := o_v4l2_diagnostics_build_only o |}.
Definition campaign_constants : pydict :=
  dupdate FIXED_CAMPAIGN_CONSTANTS [
    ("fixed_librealsense_backend", VStr (o_backend o));
    ("fixed_usb_kernel_driver", VStr (if bool_decide (o_backend o = "v4l2") then "uvcvideo" else "none"));
    ("fixed_cpu_isolation", VBool (o_cpu_isolation o));
    ("fixed_housekeeping_cpus", VStr (if o_cpu_isolation o then o_housekeeping_cpus o else ""));
    ("fixed_benchmark_cpus", VStr (if o_cpu_isolation o then o_benchmark_cpus o else ""))].
Definition variables (cases : list pydict) : list (string * list pyval) := [
  ("case_id", map case_id cases); ("policy", map VStr (o_policies o)); ("cpu_noise", map VStr (o_cpu_noise_modes o));
  ("memory_noise", map VStr (o_memory_noise_modes o)); ("gpu_noise", map VStr (o_gpu_noise_modes o));
  ("usb_storage_noise", map VStr (o_usb_storage_noise_modes o))].
End campaign.

Section run.
Context {W : Type} `{OS W}.
Abbreviation IO := (M (bench * world W)).

Definition run_with_cleanup (s : RealSenseSteadyBench) (fuel : nat) (campaign : IO unit) : IO unit :=
  with_cleanup (campaign ;; assert_all_runs_successful) (SteadyBench.cleanup s fuel).

(** A new benchmark: nothing is set up, no workload runs, no run has failed. *)
Definition new_state (s : RealSenseSteadyBench) : bench :=
  Bench (SystemControls.initial (controls_config s)) (λ _, idle) [] (false, []).
(** [CampaignCartesianProduct(...).run] of the benchmark, the repetitions, the
    variables, the constants and the directory of results. *)
Context (campaign : RealSenseSteadyBench → Z → list (string * list pyval) → pydict → string → IO unit).
Definition main (repo_root : string) (fuel : nat) (o : options) : IO unit :=
  lift (check_options o) ;;
  icd <- vulkan_icd o ;;
  check_ncnn repo_root o ;;
  cases <- campaign_cases o ;;
  sys (Mkdir (o_results_dir o) true) ;;
  benchmark <- new_bench (arguments_of repo_root o cases icd) ;;
  set_self (λ _, new_state benchmark) ;;
  run_with_cleanup benchmark fuel
    (campaign benchmark (o_nb_runs o) (variables o cases) (campaign_constants o) (o_results_dir o)).
End run.
