(* ===== verification/SteadyCampaignSpec.v ===== *)
(** * What the steady-state campaign promises

    The cases that reach the benchmark are the selected ones of the file with
    exactly the asked changes, and they can be run: their ids differ, the
    benchmark can be built from them, each has its cameras, USB devices and
    scheduler profile.  The end of a campaign reports every failed run and leaves
    no interference. *)
From Stdlib Require Import Ascii ZArith Lia Floats.SpecFloat.
From S2P Require Import Prelude PyStr PyFloat PyVal PyJson Effects Machine.
From S2P Require Import SystemControls Commands Noise NoiseSpec Calls SteadyResults SteadyBench SteadyNoise.
From S2P Require Import SteadyAttempts SteadyBenchSpec.
From S2P Require Import CampaignRun SteadyCampaign.
From stdpp Require Import base gmap strings list.
Local Open Scope Z_scope.
Local Open Scope py_scope.
Local Open Scope M_scope.

(** ** Cases with different ids *)

(** No id equals an earlier one, in Python's sense. *)
Definition fresh_ids (ids : list pyval) : Prop :=
  ∀ i j v w, ids !! i = Some v → ids !! j = Some w → (i < j)%nat → py_eq w v = false.
Definition usable_id (v : pyval) : bool :=
  truthy v && match v with VList _ | VDict _ => false | _ => true end.
Definition proper_cases (cases : list pydict) : Prop :=
  fresh_ids (map case_id cases) ∧ Forall (λ c, usable_id (case_id c) = true) cases.

Lemma fresh_ids_snoc ids v : fresh_ids (ids ++ [v]) ↔ fresh_ids ids ∧ Forall (λ w, py_eq v w = false) ids.
Proof.
  split.
  - intros Hf. split.
    + intros i j a b Ha Hb. apply Hf; by apply lookup_app_l_Some.
    + apply Forall_lookup_2. intros i w Hw. apply (Hf i (length ids) w v); [by apply lookup_app_l_Some| |].
      * by rewrite lookup_app_r, Nat.sub_diag by done.
      * by eapply lookup_lt_Some.
  - intros [Hf Hv] i j a b Ha Hb Hij.
    apply lookup_app_Some in Hb as [Hb|[Hj Hb]].
    + apply (Hf i j); [|done|done]. apply lookup_lt_Some in Hb. rewrite lookup_app_l in Ha by lia. done.
    + apply list_lookup_singleton_Some in Hb as [Hj' <-].
      rewrite lookup_app_l in Ha by lia. by eapply Forall_lookup_1 in Hv.
Qed.
Lemma sublist_keeps {A} (P : A → Prop) k l : k `sublist_of` l → Forall P l → Forall P k.
Proof. induction 1; rewrite ?Forall_cons; naive_solver. Qed.
Lemma fresh_ids_sublist l k : k `sublist_of` l → fresh_ids l → fresh_ids k.
Proof.
  revert k. induction l as [|v l IH] using rev_ind; intros k Hk Hl.
  { apply sublist_nil_r in Hk as ->. done. }
  apply fresh_ids_snoc in Hl as [Hl Hv]. apply sublist_app_r in Hk as (k1 & k2 & -> & Hk1 & Hk2).
  inversion Hk2 as [|? ? ? H2|? ? ? H2]; subst; apply sublist_nil_r in H2 as ->.
  - apply fresh_ids_snoc. split; [by apply IH|]. by eapply sublist_keeps.
  - rewrite app_nil_r. by apply IH.
Qed.
Lemma proper_sublist k l : k `sublist_of` l → proper_cases l → proper_cases k.
Proof.
  intros Hk [Hf Ht]. split; [|by eapply sublist_keeps].
  eapply fresh_ids_sublist; [|done]. by apply fmap_sublist.
Qed.

Lemma in_set_fresh v seen : in_set v seen = Ok false → Forall (λ w, py_eq v w = false) seen.
Proof.
  intros Hv. assert (existsb (py_eq v) seen = false) as He by (by destruct v; try discriminate Hv; injection Hv).
  apply Forall_forall. intros w Hw. apply not_true_iff_false. intros Hvw. rewrite <- not_true_iff_false in He.
  apply He, existsb_exists. exists w. split; [|done]. by apply list_elem_of_In.
Qed.
(** The loop over the cases of a file. *)
Lemma check_cases_proper check l cases :
  check_cases check l = Ok cases → l = map VDict cases ∧ proper_cases cases ∧ Forall (λ c, check c = Ok ()) cases.
Proof.
  unfold check_cases. intros ([ids cs] & Hf & [= <-])%outcome_bind_ok.
  refine (let '(conj Hi (conj Hl (conj Hp Hc))) := _ in conj Hl (conj Hp Hc)).
  apply (fold_outcome_inv (add_case check)
    (λ done acc, acc.1 = map case_id acc.2 ∧ done = map VDict acc.2 ∧ proper_cases acc.2 ∧ Forall (λ c, check c = Ok ()) acc.2)
    ([], []) l (ids, cs)); [|clear|exact Hf].
  { split; [done|]. split; [done|]. split; [|constructor]. split; [done|constructor]. }
  intros done v rest [seen cs] b _ (Hs & Hd & [Hfr Ht] & Hc) Ha. simpl in *. subst seen done.
  apply outcome_bind_ok in Ha as (d & Hd & ([] & Hk & [= <-])%outcome_bind_ok). simpl.
  unfold new_case in Hd. destruct v as [| | | | | |e]; try discriminate Hd.
  destruct (truthy (case_id e)) eqn:Htr; [|discriminate Hd]. simpl in Hd.
  apply outcome_bind_ok in Hd as ([] & Hin & Hd); [discriminate Hd|]. injection Hd as ->.
  rewrite !map_app. split; [done|]. split; [done|]. split; [split|].
  - rewrite map_app. apply fresh_ids_snoc. split; [done|]. by apply in_set_fresh.
  - apply Forall_app. split; [done|]. apply Forall_singleton. unfold usable_id. rewrite Htr.
    by destruct (case_id d); try discriminate Hin.
  - apply Forall_app. by split; [|apply Forall_singleton].
Qed.
Lemma parse_cases_proper path v cases : parse_cases path v = Ok cases → proper_cases cases.
Proof.
  unfold parse_cases. destruct (match v with VDict d => _ | _ => _ end); try discriminate.
  by intros (_ & ? & _)%check_cases_proper.
Qed.

(** ** The selection *)

Lemma py_eq_str v s : py_eq v (VStr s) = true → v = VStr s.
Proof. destruct v; simpl; try discriminate. by intros ->%bool_decide_eq_true. Qed.
(** The wanted cases, all of them and in the order of the file. *)
Lemma select_cases_spec ids cases selected :
  select_cases ids cases = Ok selected →
  selected `sublist_of` cases ∧
  (ids = [] ∧ selected = cases ∨
   (∀ c, c ∈ selected ↔ c ∈ cases ∧ ∃ w, w ∈ ids ∧ case_id c = VStr w) ∧
   ∀ w, w ∈ ids → ∃ c, c ∈ selected ∧ case_id c = VStr w).
Proof.
  unfold select_cases. destruct ids as [|id ids]; [intros [= <-]; split; [done|by left]|]. simpl is_nil. cbv iota.
  set (ws := id :: ids). set (sel := filter _ cases). destruct (filter _ ws) as [|m ms] eqn:Hm; [|discriminate].
  intros [= <-]. split; [apply sublist_filter|]. right. split.
  - intros c. unfold sel. rewrite list_elem_of_filter, existsb_exists. split.
    + intros [(w & Hw & He) Hc]. split; [done|]. exists w. split; [by apply list_elem_of_In|by apply py_eq_str].
    + intros [Hc (w & Hw & He)]. split; [|done]. exists w. split; [by apply list_elem_of_In|].
      unfold is_id. rewrite He. simpl. by apply bool_decide_eq_true_2.
  - intros w Hw. destruct (existsb (λ c, is_id c w) sel) eqn:E.
    + apply existsb_exists in E as (c & Hc & He). exists c. split; [by apply list_elem_of_In|by apply py_eq_str].
    + assert (w ∈ filter (λ w, existsb (λ c, is_id c w) sel = false) ws) as Hin by (by apply list_elem_of_filter).
      rewrite Hm in Hin. by apply elem_of_nil in Hin.
Qed.

(** ** The overrides, key by key *)

(** [case['probe'].get(k)], when that is there. *)
Definition probe_get (k : string) (case : pydict) : option pyval :=
  match probe_of case with VDict d => dget k d | _ => None end.
Definition unique_keys (case : pydict) : Prop := ∀ d, probe_of case = VDict d → NoDup (dkeys d).
(** What a step makes of every key of a probe; the rest of the case, but for
    [physical], is kept. *)
Definition update := string → option pyval → option pyval.
Definition kept_outside : relation pydict := λ c c', ∀ k, k ∉ ["probe"; "physical"] → dget k c' = dget k c.
Definition acts (u : update) (c c' : pydict) : Prop :=
  kept_outside c c' ∧ (unique_keys c → unique_keys c' ∧ ∀ k, probe_get k c' = u k (probe_get k c)).
Definition same : update := λ _ v, v.
Definition setting (k0 : string) (v : pyval) : update := λ k old, if decide (k = k0) then Some v else old.
Definition dropping (k0 : string) : update := λ k old, if decide (k = k0) then None else old.
Definition and_then (u1 u2 : update) : update := λ k old, u2 k (u1 k old).
Definition when_given {A} (option : option A) (u : A → update) : update :=
  match option with Some x => u x | None => same end.

Lemma acts_same c : acts same c c.
Proof. split; [by intros k|]. by repeat split. Qed.
Lemma kept_trans c1 c2 c3 : kept_outside c1 c2 → kept_outside c2 c3 → kept_outside c1 c3.
Proof. intros H1 H2 k Hk. by rewrite H2, H1. Qed.
Lemma kept_dset k v c : k ∈ ["probe"; "physical"] → kept_outside c (dset k v c).
Proof. intros Hk k' Hk'. apply dget_dset_ne. set_solver. Qed.
Lemma acts_then u1 u2 c1 c2 c3 : acts u1 c1 c2 → acts u2 c2 c3 → acts (and_then u1 u2) c1 c3.
Proof.
  intros [Hk1 H1] [Hk2 H2]. split; [by eapply kept_trans|]. intros Hc.
  destruct (H1 Hc) as [Hu2 Hp2], (H2 Hu2) as [Hu3 Hp3]. split; [done|]. intros k. by rewrite Hp3, Hp2.
Qed.

Lemma dpop_sublist {A} k (d : list (string * A)) : dkeys (dpop k d) `sublist_of` dkeys d.
Proof.
  induction d as [|[k' v] d IH]; [done|]. simpl. case_bool_decide; [by apply sublist_cons|by apply sublist_skip].
Qed.
Lemma dget_dpop {A} k k' (d : list (string * A)) :
  NoDup (dkeys d) → dget k (dpop k' d) = if decide (k = k') then None else dget k d.
Proof.
  induction d as [|[k1 v] d IH]; [by destruct (decide _)|].
  change (NoDup (k1 :: dkeys d) → dget k (dpop k' ((k1, v) :: d)) = if decide (k = k') then None else dget k ((k1, v) :: d)).
  rewrite NoDup_cons. intros [Hk1 Hd]. simpl. destruct (bool_decide_reflect (k' = k1)) as [->|Hne]; simpl.
  - case_bool_decide as Hk; [subst; rewrite decide_True by done; by apply dget_None|by rewrite decide_False].
  - case_bool_decide as Hk; [subst; by rewrite decide_False|by apply IH].
Qed.

Lemma in_section_ok k f c c' :
  in_section k f c = Ok c' → ∃ d, dgetd k (VDict []) c = VDict d ∧ c' = dset k (VDict (f d)) c.
Proof. unfold in_section. destruct (dgetd k _ c); intros [=]. eauto. Qed.
Lemma probe_of_dset d c : probe_of (dset "probe" (VDict d) c) = VDict d.
Proof. unfold probe_of, dgetd. by rewrite dget_dset_eq. Qed.
Lemma acts_in_probe f u c c' :
  (∀ d, NoDup (dkeys d) → NoDup (dkeys (f d)) ∧ ∀ k, dget k (f d) = u k (dget k d)) →
  in_probe f c = Ok c' → acts u c c'.
Proof.
  intros Hf (d & Hd & ->)%in_section_ok. split; [apply kept_dset; set_solver|]. intros Hu.
  destruct (Hf d (Hu _ Hd)) as [Hn Hg]. split.
  - intros d'. rewrite probe_of_dset. by intros [= <-].
  - intros k. unfold probe_get. rewrite probe_of_dset. unfold probe_of. by rewrite Hd.
Qed.
Lemma acts_dset k v c c' : in_probe (dset k v) c = Ok c' → acts (setting k v) c c'.
Proof. apply acts_in_probe. intros d Hd. split; [by apply NoDup_dset|]. intros k'. by rewrite dget_dset. Qed.
Lemma acts_physical f c c' : in_section "physical" f c = Ok c' → acts same c c'.
Proof.
  intros (d & _ & ->)%in_section_ok. split; [apply kept_dset; set_solver|]. intros Hu.
  assert (∀ v, probe_of (dset "physical" v c) = probe_of c) as Hp.
  { intros v. unfold probe_of, dgetd. by rewrite dget_dset_ne. }
  unfold unique_keys, probe_get. rewrite Hp. by split.
Qed.

Definition given_duration (o : options) : bool := bool_decide (is_Some (o_measurement_duration_seconds o)).
Definition frames_update (o : options) (n : Z) : update :=
  and_then (setting "frames" (VInt n)) (if given_duration o then same else dropping "measurement_duration_ms").
Definition duration_update (ms : Z) : update :=
  and_then (setting "measurement_duration_ms" (VInt ms)) (dropping "measurement_timeout_ms").
Definition serials_update (serials : list string) : update :=
  and_then (setting "serials" (VList (map VStr serials))) (setting "camera_count" (VInt (Z.of_nat (length serials)))).
Definition options_update (o : options) (ms : option Z) : update :=
  and_then (when_given (o_frames o) (frames_update o))
  (and_then (when_given ms duration_update)
  (and_then (when_given (o_deadline_apply_after_frames o) (λ n, setting "deadline_apply_after_frames" (VInt n)))
  (and_then (when_given (if o_deadline_allow_partial_profile o then Some () else None)
               (λ _, setting "deadline_allow_partial_profile" (VBool true)))
     (when_given (if is_nil (o_serials o) then None else Some (o_serials o)) serials_update)))).

Lemma frames_acts o n c c' : override_frames (given_duration o) n c = Ok c' → acts (frames_update o n) c c'.
Proof.
  apply acts_in_probe. intros d Hd. unfold frames_update, and_then, setting.
  assert (NoDup (dkeys (dset "frames" (VInt n) d))) as Hs by by apply NoDup_dset.
  destruct (given_duration o); [split; [done|intros k; by rewrite dget_dset]|].
  split; [by eapply sublist_NoDup, dpop_sublist|]. intros k. by rewrite dget_dpop, dget_dset by done.
Qed.
Lemma duration_acts ms c c' : override_duration ms c = Ok c' → acts (duration_update ms) c c'.
Proof.
  apply acts_in_probe. intros d Hd. unfold duration_update, and_then, setting.
  assert (NoDup (dkeys (dset "measurement_duration_ms" (VInt ms) d))) as Hs by by apply NoDup_dset.
  split; [by eapply sublist_NoDup, dpop_sublist|]. intros k. by rewrite dget_dpop, dget_dset by done.
Qed.
Lemma serials_acts serials c c' : override_serials serials c = Ok c' → acts (serials_update serials) c c'.
Proof.
  intros (c1 & H1 & H2)%outcome_bind_ok. apply acts_physical in H2.
  eapply (acts_then _ same); [|exact H2]. revert H1. apply acts_in_probe. intros d Hd.
  split; [by do 2 apply NoDup_dset|]. intros k. by rewrite !dget_dset.
Qed.

Lemma each_case_acts {A} (option : option A) (f : A → pydict → outcome pydict) (u : A → update) cases cases' :
  (∀ x c c', f x c = Ok c' → acts (u x) c c') →
  each_case option f cases = Ok cases' → Forall2 (acts (when_given option u)) cases cases'.
Proof.
  intros Hf. destruct option as [x|]; simpl.
  - rewrite traverse_ok. intros Hl. eapply Forall2_impl; [exact Hl|apply Hf].
  - intros [= <-]. apply Forall_Forall2_diag, Forall_true. apply acts_same.
Qed.
Lemma acts_all u1 u2 l1 l2 l3 : Forall2 (acts u1) l1 l2 → Forall2 (acts u2) l2 l3 → Forall2 (acts (and_then u1 u2)) l1 l3.
Proof.
  intros H1. revert l3. induction H1; inversion 1; subst; constructor; [by eapply acts_then|auto].
Qed.
Lemma override_acts o cases cases' : override_cases o cases = Ok cases' →
  ∃ ms, measurement_ms o = Ok ms ∧ Forall2 (acts (options_update o ms)) cases cases'.
Proof.
  intros (c1 & H1 & (ms & Hms & (c2 & H2 & (c3 & H3 & (c4 & H4 & H5)%outcome_bind_ok)%outcome_bind_ok)%outcome_bind_ok)
    %outcome_bind_ok)%outcome_bind_ok.
  exists ms. split; [done|].
  eapply acts_all; [eapply each_case_acts; [|exact H1]; intros n; apply frames_acts|].
  eapply acts_all; [eapply each_case_acts; [|exact H2]; intros n; apply duration_acts|].
  eapply acts_all; [eapply each_case_acts; [|exact H3]; intros n; apply acts_dset|].
  eapply acts_all; [eapply each_case_acts; [|exact H4]; intros []; apply acts_dset|].
  eapply each_case_acts; [|exact H5]. intros n. apply serials_acts.
Qed.

(** *** The USB devices of RSUSB *)

Definition rsusb_update (o : options) : update :=
  if bool_decide (o_backend o = "rsusb") then setting "rsusb_usb_devices" (VList (map VStr (o_rsusb_usb_devices o))) else same.
Lemma setdefault_acts c : acts same c (match dget "probe" c with Some _ => c | None => dset "probe" (VDict []) c end).
Proof.
  destruct (dget "probe" c) as [v|] eqn:E; [apply acts_same|]. split; [apply kept_dset; set_solver|]. intros Hu. split.
  - intros d. rewrite probe_of_dset. intros [= <-]. constructor.
  - intros k. unfold probe_get. rewrite probe_of_dset. unfold probe_of, dgetd. by rewrite E.
Qed.
Lemma camera_count_in_probe k v c c' : in_probe (dset k v) c = Ok c' → k ≠ "camera_count" → camera_count c' = camera_count c.
Proof.
  intros (d & Hd & ->)%in_section_ok Hk. unfold camera_count, camera_count_of.
  rewrite probe_of_dset. unfold probe_of. rewrite Hd. simpl. unfold dgetd.
  by rewrite (dget_dset_ne "physical"), (dget_dset_ne "camera_count") by done.
Qed.
Definition has_cameras (n : nat) (c : pydict) : Prop := camera_count c = Ok (Z.of_nat n).
Lemma rsusb_case_spec devices c c' :
  rsusb_case devices c = Ok c' →
  acts (setting "rsusb_usb_devices" (VList (map VStr devices))) c c' ∧ has_cameras (length devices) c'.
Proof.
  unfold rsusb_case.
  intros (c1 & H1 & H2)%outcome_bind_ok. apply outcome_bind_ok in H2 as (m & Hm & H2).
  pose proof (setdefault_acts c) as Hs.
  assert (c1 = match dget "probe" c with Some _ => c | None => dset "probe" (VDict []) c end) as ->
    by (by destruct (dget "probe" c); injection H1).
  destruct (bool_decide_reflect (Z.of_nat (length devices) = m)) as [Hd|]; [simpl in H2|discriminate H2].
  rewrite <- Hd in Hm.
  split; [|unfold has_cameras; by rewrite (camera_count_in_probe _ _ _ _ H2)].
  exact (acts_then _ _ _ _ _ Hs (acts_dset _ _ _ _ H2)).
Qed.
Lemma rsusb_acts o cases cases' : rsusb_cases o cases = Ok cases' →
  Forall2 (acts (rsusb_update o)) cases cases' ∧
  (o_backend o = "rsusb" → Forall (has_cameras (length (o_rsusb_usb_devices o))) cases').
Proof.
  unfold rsusb_cases, rsusb_update. destruct (bool_decide_reflect (o_backend o = "rsusb")) as [Hb|Hb].
  - rewrite traverse_ok. intros Hl. split.
    + eapply Forall2_impl; [exact Hl|]. intros c c'. apply rsusb_case_spec.
    + intros _. eapply Forall2_Forall_r; [exact Hl|]. apply Forall_true. intros c c' Hc. by apply rsusb_case_spec in Hc as [_ Hc].
  - intros [= <-]. split; [|done]. apply Forall_Forall2_diag, Forall_true, acts_same.
Qed.

(** *** Scheduler profiles *)

(** The operating system gave this answer. *)
Definition answered {W} `{OS W} {A} (c : syscall A) (a : A) : Prop := ∃ w, (handle c w).1 = Ok a.
Definition modeled_run (o : options) : bool := existsb is_modeled (o_policies o).
Definition profiled (o : options) : bool := bool_decide (is_Some (o_deadline_profile o)) || modeled_run o.
(** Every key but the profile's is kept. *)
Definition reprofiled : relation pydict := λ c c',
  kept_outside c c' ∧ camera_count c' = camera_count c ∧
  (unique_keys c → unique_keys c' ∧ ∀ k, k ≠ "deadline_profile" → probe_get k c' = probe_get k c).
#[export] Instance reprofiled_preorder : PreOrder reprofiled.
Proof.
  split; [by intros c|]. intros c1 c2 c3 (Hk12 & Hn12 & H12) (Hk23 & Hn23 & H23).
  split; [by eapply kept_trans|]. split; [by rewrite Hn23|]. intros Hu.
  destruct (H12 Hu) as [Hu2 Hp2], (H23 Hu2) as [Hu3 Hp3]. split; [done|]. intros k Hk. by rewrite Hp3, Hp2.
Qed.
Lemma set_profile_spec p c c' : set_profile p c = Ok c' → reprofiled c c' ∧ probe_get "deadline_profile" c' = Some (VStr p).
Proof.
  intros Hc. destruct (acts_dset _ _ _ _ Hc) as [Hk Ha]. split; [split; [done|split]|].
  - by apply (camera_count_in_probe _ _ _ _ Hc).
  - intros Hu. destruct (Ha Hu) as [Hu' Hp]. split; [done|].
    intros k Hne. rewrite Hp. unfold setting. by rewrite decide_False.
  - apply in_section_ok in Hc as (d & _ & ->). unfold probe_get. rewrite probe_of_dset. apply dget_dset_eq.
Qed.

Section profiles.
Context {W : Type} `{OS W} {T : Type} (o : options).
Implicit Types x : (T * world W)%type.

Definition has_profile (c : pydict) : Prop :=
  ∃ p, probe_get "deadline_profile" c = Some (VStr p) ∧ answered (IsFile p) true.
Lemma wp_answered {A} (c : syscall A) x : wp (sys c) (λ a _, answered c a) (λ _ _, True) x.
Proof. destruct x as [t w]. apply wp_sys. intros [a|e] w' E; [|done]. exists (w_os w). by rewrite E. Qed.
Lemma wp_map_each {A B} (R : A → B → Prop) (f : A → M (T * world W) B) l x :
  (∀ a y, wp (f a) (λ b _, R a b) (λ _ _, True) y) → wp (map_each l f) (λ bs _, Forall2 R l bs) (λ _ _, True) x.
Proof.
  intros Hf. revert x. induction l as [|a l IH]; intros x; simpl; [by apply wp_ret|].
  apply wp_bind. eapply wp_conseq; [apply Hf| |done]. intros b y Hb. simpl.
  apply wp_bind. eapply wp_conseq; [apply IH| |done]. intros bs z Hbs. apply wp_ret. by constructor.
Qed.
Lemma wp_resolve_profile c x :
  wp (resolve_profile c) (λ c' _, reprofiled c c' ∧ has_profile c') (λ _ _, True) x.
Proof.
  unfold resolve_profile. apply wp_bind, wp_lift. destruct (profile_of c) as [v|]; [|done].
  destruct v as [| | | |p| |]; try (by apply wp_throw).
  apply wp_bind. eapply wp_conseq; [apply wp_answered| |done]. intros q y _. simpl.
  apply wp_bind. eapply wp_conseq; [apply wp_answered| |done]. intros there z Hf. simpl.
  apply wp_bind, wp_when; [intros _; by apply wp_throw|]. intros Ht%negb_false_iff. subst there.
  apply wp_lift. destruct (set_profile q c) as [c'|] eqn:E; [|done].
  apply set_profile_spec in E as [Hr Hp]. split; [done|]. by exists q.
Qed.
Lemma wp_override_profile cases x :
  wp (override_profile o cases) (λ cases' _, Forall2 reprofiled cases cases' ∧
    (o_deadline_profile o = None → cases' = cases) ∧ (o_deadline_profile o ≠ None → Forall has_profile cases'))
    (λ _ _, True) x.
Proof.
  unfold override_profile. destruct (o_deadline_profile o) as [profile|].
  - apply wp_bind, wp_when; [intros _; by apply wp_throw|intros _].
    apply wp_bind. eapply wp_conseq; [apply wp_answered| |done]. intros p y _. simpl.
    apply wp_bind. eapply wp_conseq; [apply wp_answered| |done]. intros there z Hf. simpl.
    apply wp_bind, wp_when; [intros _; by apply wp_throw|]. intros Ht%negb_false_iff. subst there.
    apply wp_lift. destruct (traverse _ cases) as [cases'|] eqn:E; [|done]. apply traverse_ok in E.
    split; [|split; [done|intros _]].
    + eapply Forall2_impl; [exact E|]. intros c c' Hc. by apply set_profile_spec in Hc as [].
    + eapply Forall2_Forall_r; [exact E|]. apply Forall_true. intros c c' Hc.
      apply set_profile_spec in Hc as [_ Hc]. by exists p.
  - apply wp_ret. split; [|done]. apply Forall_Forall2_diag, Forall_true. reflexivity.
Qed.
Lemma wp_check_profiles cases x :
  wp (check_profiles o cases) (λ cases' _, Forall2 reprofiled cases cases' ∧
    (modeled_run o = false → cases' = cases) ∧ (modeled_run o = true → Forall has_profile cases')) (λ _ _, True) x.
Proof.
  unfold check_profiles, modeled_run. destruct (existsb is_modeled _).
  - apply wp_bind, wp_lift. destruct (missing_profiles cases); [|done].
    apply wp_bind, wp_when; [intros _; by apply wp_throw|intros _].
    eapply wp_conseq; [apply wp_map_each, wp_resolve_profile| |done]. intros cases' y Hl. split; [|split; [done|intros _]].
    + eapply Forall2_impl; [exact Hl|]. by intros c c' [].
    + eapply Forall2_Forall_r; [exact Hl|]. apply Forall_true. by intros c c' [].
  - apply wp_ret. split; [|done]. apply Forall_Forall2_diag, Forall_true. reflexivity.
Qed.
End profiles.

(** ** The cases of a campaign *)

(** What becomes of each key of a probe, from the options. *)
Definition overlay (o : options) (ms : option Z) : update := λ k old,
  if decide (k = "frames") then match o_frames o with Some n => Some (VInt n) | None => old end
  else if decide (k = "measurement_duration_ms") then
    match ms, o_frames o with Some n, _ => Some (VInt n) | None, Some _ => None | None, None => old end
  else if decide (k = "measurement_timeout_ms") then match ms with Some _ => None | None => old end
  else if decide (k = "deadline_apply_after_frames") then
    match o_deadline_apply_after_frames o with Some n => Some (VInt n) | None => old end
  else if decide (k = "deadline_allow_partial_profile") then
    if o_deadline_allow_partial_profile o then Some (VBool true) else old
  else if decide (k = "serials") then if is_nil (o_serials o) then old else Some (VList (map VStr (o_serials o)))
  else if decide (k = "camera_count") then if is_nil (o_serials o) then old else Some (VInt (Z.of_nat (length (o_serials o))))
  else if decide (k = "rsusb_usb_devices") then
    if bool_decide (o_backend o = "rsusb") then Some (VList (map VStr (o_rsusb_usb_devices o))) else old
  else old.
Lemma overlay_steps o ms k old : measurement_ms o = Ok ms →
  and_then (options_update o ms) (rsusb_update o) k old = overlay o ms k old.
Proof.
  intros Hms. assert (given_duration o = bool_decide (is_Some ms)) as Hg.
  { revert Hms. unfold measurement_ms, given_duration. destruct (o_measurement_duration_seconds o); [|by intros [= <-]].
    by intros (n & _ & [= <-])%outcome_bind_ok. }
  unfold and_then, options_update, overlay, when_given, frames_update, duration_update, serials_update, rsusb_update.
  unfold and_then, setting, dropping, same. rewrite Hg.
  destruct (o_frames o), ms, (o_deadline_apply_after_frames o), (o_deadline_allow_partial_profile o), (is_nil (o_serials o)),
    (bool_decide (o_backend o = "rsusb")); simpl; repeat case_decide; congruence.
Qed.

(** What [campaign_cases] returns, step by step. *)
Lemma wp_campaign_cases {W} `{OS W} {T} o (x : T * world W) :
  wp (campaign_cases o) (λ cases _, ∃ value original selected ms overridden,
    answered (ReadJson (o_config o)) value ∧ parse_cases (o_config o) value = Ok original ∧
    select_cases (o_case_ids o) original = Ok selected ∧ measurement_ms o = Ok ms ∧
    Forall2 (acts (and_then (options_update o ms) (rsusb_update o))) selected overridden ∧
    (o_backend o = "rsusb" → Forall (has_cameras (length (o_rsusb_usb_devices o))) overridden) ∧
    overridden ≠ [] ∧ Forall2 reprofiled overridden cases ∧ (profiled o = false → cases = overridden) ∧
    (profiled o = true → Forall has_profile cases) ∧ check_resets o cases = Ok ()) (λ _ _, True) x.
Proof.
  unfold campaign_cases, load_cases. apply wp_bind, wp_bind.
  eapply wp_conseq; [apply wp_answered| |done]. intros value y Hv.
  apply wp_lift. destruct (parse_cases _ value) as [original|] eqn:Ho; [|done].
  apply wp_bind, wp_lift. destruct (select_cases _ original) as [selected|] eqn:Hs; [|done].
  apply wp_bind, wp_lift. destruct (override_cases o selected) as [c1|] eqn:H1; [|done].
  apply override_acts in H1 as (ms & Hms & H1).
  apply wp_bind, wp_lift. destruct (rsusb_cases o c1) as [c2|] eqn:H2; [|done]. apply rsusb_acts in H2 as [H2 Hc2].
  apply wp_bind, wp_when; [intros _; by apply wp_throw|]. intros Hne.
  apply wp_bind. eapply wp_conseq; [apply wp_override_profile| |done]. intros c3 z (H3 & Hn3 & Hp3). simpl.
  apply wp_bind. eapply wp_conseq; [apply wp_check_profiles| |done]. intros c4 u (H4 & Hn4 & Hp4). simpl.
  apply wp_bind, wp_lift. destruct (check_resets o c4) as [[]|] eqn:Hr; [|done]. apply wp_ret.
  exists value, original, selected, ms, c2. repeat (split; [by eauto using acts_all|]).
  split; [by intros ->|]. split; [by etransitivity|]. unfold profiled. split; [|split; [|done]].
  - intros [Hd Hm]%orb_false_elim. rewrite Hn4 by done. apply Hn3.
    destruct (o_deadline_profile o); [|done]. by rewrite bool_decide_true in Hd.
  - intros Hd. destruct (modeled_run o); [by apply Hp4|]. rewrite Hn4 by done. apply Hp3. intros Hn. by rewrite Hn in Hd.
Qed.

(** The asked changes, and nothing else. *)
Definition asked (o : options) (ms : option Z) (c c' : pydict) : Prop :=
  kept_outside c c' ∧
  (unique_keys c → ∀ k, k ≠ "deadline_profile" ∨ profiled o = false → probe_get k c' = overlay o ms k (probe_get k c)).

(** C36: The campaign runs the cases of the file with the asked changes only.
    When the cases of a campaign are accepted, they are, in order, the selected
    cases of the configuration file; outside of [probe] and [physical] each is
    kept, and every key of its [probe] is what the options say: a given frame
    count, without the duration of the file unless one is given too, the given
    duration in milliseconds, without the timeout of the file, the given serial
    numbers with their count, and so on; a key that no option names is kept.  Only
    the scheduler profile may be replaced otherwise, by a file that exists. *)
Theorem options_override_cases {W} `{OS W} {T} o (x : T * world W) :
  wp (campaign_cases o) (λ cases _, ∃ value original selected ms,
    answered (ReadJson (o_config o)) value ∧ parse_cases (o_config o) value = Ok original ∧
    select_cases (o_case_ids o) original = Ok selected ∧ measurement_ms o = Ok ms ∧
    Forall2 (asked o ms) selected cases ∧ (profiled o = true → Forall has_profile cases)) (λ _ _, True) x.
Proof.
  eapply wp_conseq; [apply wp_campaign_cases| |done].
  intros cases y (value & original & selected & ms & c2 & Hv & Ho & Hs & Hms & H2 & _ & _ & H4 & Hn & Hp & _).
  exists value, original, selected, ms. repeat (split; [done|]). split; [|done].
  destruct (profiled o) eqn:Epr; [|rewrite (Hn eq_refl); clear H4].
  - clear Hn Hp Hs. revert cases H4. induction H2 as [|c c2' l l2 [Hk Ha] H2 IH]; intros cases H4; inversion H4; subst; constructor.
    + match goal with Hr : reprofiled c2' _ |- _ => destruct Hr as (Hk' & _ & Hp) end.
      split; [by eapply kept_trans|]. intros Hu k [Hne|Hne]; [|by rewrite Epr in Hne]. destruct (Ha Hu) as [Hu2 Hg].
      destruct (Hp Hu2) as [_ Hg']. by rewrite Hg', Hg, overlay_steps.
    + auto.
  - eapply Forall2_impl; [exact H2|]. intros c c' [Hk Ha]. split; [done|]. intros Hu k _.
    destruct (Ha Hu) as [_ Hg]. by rewrite Hg, overlay_steps.
Qed.

(** ** Accepted cases can be run *)

Definition as_many_serials (c : pydict) : Prop :=
  ∃ n probe, has_cameras n c ∧ probe_of c = VDict probe ∧ py_len (serial_values probe) = Ok n.
Lemma check_resets_spec o cases : check_resets o cases = Ok () → needs_reset o = true → Forall as_many_serials cases.
Proof.
  unfold check_resets. intros Hc Hr. rewrite Hr in Hc. apply outcome_bind_ok in Hc as (us & Hus%traverse_ok & _).
  eapply Forall2_Forall_l; [exact Hus|]. apply Forall_true. clear Hus. intros u c Hc. unfold check_reset in Hc.
  apply outcome_bind_ok in Hc as (probe & Hp & Hc). apply outcome_bind_ok in Hc as (count & Hcc & Hc).
  apply outcome_bind_ok in Hc as (n & Hn & Hc).
  destruct (bool_decide_reflect (Z.of_nat n = count)) as [<-|]; [|discriminate Hc].
  exists n, probe. split; [done|]. split; [|done]. by destruct (probe_of c); try discriminate Hp; injection Hp as ->.
Qed.

(** The exception comes from the operating system. *)
Definition from_resolve {W} `{OS W} (e : exn) : Prop := ∃ p w, (handle (Resolve p) w).1 = Raise e.
Lemma wp_resolve {W} `{OS W} {T} p (x : T * world W) : wp (sys (Resolve p)) (λ _ _, True) (λ e _, from_resolve e) x.
Proof. destruct x as [t w]. apply wp_sys. intros [a|e] w' E; [done|]. exists p, (w_os w). by rewrite E. Qed.
Lemma case_keys_ok cases acc : Forall (λ c, usable_id (case_id c) = true) cases →
  ∃ d, fold_outcome case_key acc cases = Ok d.
Proof.
  intros Hc. revert acc. induction Hc as [|c cases Hi Hc IH]; intros acc; simpl; [eauto|].
  unfold case_key, subscript. unfold usable_id, case_id, dgetd in Hi.
  destruct (dget "case_id" c) as [v|]; [|discriminate Hi]. simpl.
  destruct v; simpl in Hi |- *; try apply IH; by rewrite andb_false_r in Hi.
Qed.
Lemma wp_new_bench {W} `{OS W} {T} a (x : T * world W) :
  sb_cases a ≠ [] → Forall (λ c, usable_id (case_id c) = true) (sb_cases a) →
  Forall (λ c, ∃ n, has_cameras n c) (sb_cases a) →
  wp (new_bench a) (λ _ _, True) (λ e _, from_resolve e) x.
Proof.
  intros Hne Hi Hc. unfold new_bench. destruct (case_keys_ok (sb_cases a) [] Hi) as [d Hd].
  apply wp_bind, wp_lift. rewrite Hd. apply wp_bind, wp_lift.
  assert (∃ counts, traverse (λ case, n ← camera_count_of case; py_int n) (sb_cases a) = Ok counts ∧ counts ≠ [])
    as (counts & -> & Hcs).
  { destruct (sb_cases a) as [|c l]; [done|]. clear -Hc. revert Hc. cut (∀ l : list pydict,
      Forall (λ c, ∃ n, has_cameras n c) l → ∃ counts, traverse (λ case, n ← camera_count_of case; py_int n) l = Ok counts
        ∧ length counts = length l).
    { intros Hl Hc. destruct (Hl _ Hc) as (counts & Ht & Hlen). exists counts. split; [done|]. by intros ->. }
    clear. induction 1 as [|c l [n Hn] _ (counts & IH & Hlen)]; [by exists []|].
    exists (Z.of_nat n :: counts). simpl. unfold has_cameras, camera_count in Hn. rewrite Hn, IH, Hlen. done. }
  apply wp_bind, wp_lift. destruct counts as [|n counts]; [done|]. simpl.
  apply wp_bind. eapply wp_conseq; [apply wp_resolve| |done]. intros dir y _.
  apply wp_bind. eapply wp_conseq; [apply wp_resolve| |done]. intros lime z _.
  apply wp_bind. destruct (sb_gpu_noise_vulkan_icd a) as [icd|]; [|by apply wp_ret].
  apply wp_bind. eapply wp_conseq; [apply wp_resolve| |done]. done.
Qed.

Lemma kept_id c c' : kept_outside c c' → case_id c' = case_id c.
Proof. intros Hk. unfold case_id, dgetd. rewrite Hk; [done|set_solver]. Qed.
Lemma kept_ids l l' : Forall2 kept_outside l l' → map case_id l' = map case_id l.
Proof. induction 1; simpl; f_equal; [by apply kept_id|done]. Qed.
Lemma Forall_map_ids cases :
  Forall (λ c, usable_id (case_id c) = true) cases ↔ Forall (λ v, usable_id v = true) (map case_id cases).
Proof. induction cases as [|c l IH]; simpl; [by split|]. by rewrite !Forall_cons, IH. Qed.
Definition counted (o : options) : bool := needs_reset o || bool_decide (o_backend o = "rsusb").

(** C35: Accepted cases can be run.  When the cases of a campaign are accepted,
    there is at least one, no id is missing or equals an earlier one, and every
    wanted id is there.  For a policy that needs a scheduler profile, or when one
    is given, every case names a profile that is a file.  With RSUSB every case
    has as many cameras as there are USB devices, and when cameras are to be
    reset, as many as serial numbers; in both cases the construction of the
    benchmark can only fail because the operating system cannot resolve a path. *)
Theorem accepted_cases_can_run {W} `{OS W} {T} o (x : T * world W) :
  wp (campaign_cases o) (λ cases _,
    cases ≠ [] ∧ proper_cases cases ∧ (∀ w, w ∈ o_case_ids o → VStr w ∈ map case_id cases) ∧
    (profiled o = true → Forall has_profile cases) ∧
    (o_backend o = "rsusb" → Forall (has_cameras (length (o_rsusb_usb_devices o))) cases) ∧
    (needs_reset o = true → Forall as_many_serials cases) ∧
    (counted o = true → ∀ root icd (y : T * world W),
       wp (new_bench (arguments_of root o cases icd)) (λ _ _, True) (λ e _, from_resolve e) y)) (λ _ _, True) x.
Proof.
  eapply wp_conseq; [apply wp_campaign_cases| |done].
  intros cases y (value & original & selected & ms & c2 & Hv & Ho & Hs & Hms & H2 & Hb2 & Hne & H4 & _ & Hp & Hr).
  apply parse_cases_proper in Ho. apply select_cases_spec in Hs as [Hsub Hsel].
  apply (proper_sublist _ _ Hsub) in Ho as [Hfr Hus].
  assert (map case_id cases = map case_id selected) as Hids.
  { rewrite <- (kept_ids selected c2), <- (kept_ids c2 cases); [done| |].
    - eapply Forall2_impl; [exact H4|]. by intros c c' [].
    - eapply Forall2_impl; [exact H2|]. by intros c c' []. }
  assert (proper_cases cases) as Hprop.
  { split; [by rewrite Hids|].
    apply (Forall_map_ids cases). rewrite Hids. by apply Forall_map_ids. }
  assert (cases ≠ []) as Hcases by (intros ->; by apply Forall2_nil_inv_r in H4).
  assert (o_backend o = "rsusb" → Forall (has_cameras (length (o_rsusb_usb_devices o))) cases) as Hb4.
  { intros Hb. eapply Forall2_Forall_r; [exact H4|]. eapply Forall_impl; [by apply Hb2|].
    intros c Hc c' (_ & Hn & _). unfold has_cameras. by rewrite Hn. }
  assert (needs_reset o = true → Forall as_many_serials cases) as Hres by by apply check_resets_spec.
  split; [done|]. split; [done|]. split; [|split; [done|split; [done|split; [done|]]]].
  - intros w Hw. rewrite Hids. destruct Hsel as [[Hnil _]|[_ Hall]]; [by rewrite Hnil in Hw; apply elem_of_nil in Hw|].
    destruct (Hall w Hw) as (c & Hc & <-). by apply list_elem_of_fmap_2.
  - intros Hcnt root icd z. apply wp_new_bench; [done|by destruct Hprop|]. simpl.
    apply orb_true_iff in Hcnt as [Hcnt|Hcnt%bool_decide_eq_true].
    + eapply Forall_impl; [by apply Hres|]. intros c (n & _ & Hn & _). by exists n.
    + eapply Forall_impl; [by apply Hb4|]. intros c Hn. by eexists.
Qed.

(** ** The end of a campaign *)

Section finish.
Context {W : Type} `{OS W} `{!Killable W} (s : RealSenseSteadyBench) (fuel : nat).
Abbreviation state := (bench * world W)%type.
Implicit Types x y : state.

Definition cut_short y : Prop := stopped (SteadyBench.cleanup s fuel) y.
Lemma cleanup_cases y : owned_by_suite y →
  let clean := SteadyBench.cleanup s fuel y in
  (is_ok clean.1 = true → ended clean.2) ∧ owned_by_suite clean.2 ∧ (cleaned_controls s fuel y clean.2 ∨ cut_short y).
Proof.
  intros Hy clean. pose proof (cleanup_ends s fuel y Hy) as Hc. unfold wp in Hc. fold clean in Hc.
  destruct clean as [[[]|e] z] eqn:E; destruct Hc as [Hz Hc].
  - split; [done|]. split; [by apply ended_owned|by left].
  - split; [done|]. split; [done|]. destruct (is_Exception e) eqn:Hexn; [left; by apply Hc|right; exists e].
    by unfold clean in E; rewrite E.
Qed.
Lemma assert_all_cases (b : bench) (w : world W) :
  assert_all_runs_successful (b, w)
  = (if bool_decide (b_failures b = []) then Ok () else raise RuntimeError (failures_text (b_failures b)), (b, w)).
Proof. unfold assert_all_runs_successful, bind, self, gets, when. simpl. by case_bool_decide. Qed.

End finish.

(** C37: The end of a campaign hides no failure and leaves no interference.
    Benchkit's campaign is any computation that leaves every living noise process
    to its workload, and none when it returns.  Whatever it does, the cleanup
    follows it.  When the whole returns, the campaign returned, no logical run had
    failed, and no noise process is alive.  An exception of the campaign is the
    one that is raised; when the campaign returns with failed runs, the
    [RuntimeError] that names them is raised: unless the cleanup is interrupted by
    something that is not an [Exception].  But for such an interruption, the
    machine controls are cleaned up. *)
Theorem campaign_end_hides_nothing {W} `{OS W} `{!Killable W} s fuel campaign (x : bench * world W) :
  ends ended owned_by_suite campaign → none_alive x.2 →
  let c := campaign x in
  let run := run_with_cleanup s fuel campaign x in
  (is_ok run.1 = true → is_ok c.1 = true ∧ b_failures c.2.1 = [] ∧ none_alive run.2.2) ∧
  (∀ e, c.1 = Raise e → run.1 = Raise e ∨ cut_short s fuel c.2) ∧
  (is_ok c.1 = true → b_failures c.2.1 ≠ [] →
   run.1 = raise RuntimeError (failures_text (b_failures c.2.1)) ∨ cut_short s fuel c.2) ∧
  owned_by_suite run.2 ∧ (cleaned_controls s fuel c.2 run.2 ∨ cut_short s fuel c.2).
Proof.
  intros Hc Hx c run. pose proof (Hc x Hx) as Hw. unfold wp in Hw. fold c in Hw.
  assert (owned_by_suite c.2) as Ho by (destruct c as [[]]; [by apply ended_owned|done]).
  set (m := campaign ;; assert_all_runs_successful).
  assert (m x = match c with
                | (Ok _, (b, w)) => (if bool_decide (b_failures b = []) then Ok ()
                                     else raise RuntimeError (failures_text (b_failures b)), (b, w))
                | (Raise e, y) => (Raise e, y) end) as Hm.
  { unfold m, bind. fold c. destruct c as [[[]|e] [b w]]; [apply assert_all_cases|done]. }
  destruct (with_cleanup_cases (SteadyBench.cleanup s fuel) m x) as (Hs & Hok & Hexn).
  change (with_cleanup m (SteadyBench.cleanup s fuel) x) with run in *.
  assert ((m x).2 = c.2) as H2 by (rewrite Hm; by destruct c as [[[]|e] [b w]]). rewrite H2 in *.
  destruct (cleanup_cases s fuel c.2 Ho) as (Ha & Hown & Hcl). rewrite <- Hs in *.
  split; [|split; [|split; [|by split]]].
  - intros [Hr Hclean]%Hok. split; [|split; [|by apply Ha]].
    + rewrite Hm in Hr. by destruct c as [[]].
    + rewrite Hm in Hr. destruct c as [[[]|e] [b w]]; [|done]. simpl in *. by case_bool_decide.
  - intros e He. apply Hexn. rewrite Hm. destruct c as [[]]; [done|]. simpl in *. congruence.
  - intros Hret Hf. apply Hexn. rewrite Hm. destruct c as [[[]|e] [b w]]; [|done]. simpl in *.
    by rewrite bool_decide_eq_false_2.
Qed.

(** *** Campaigns that run points *)

Section points.
Context {W : Type} `{OS W} `{!Killable W} (s : RealSenseSteadyBench) (fuel : nat) (executable : string).
Abbreviation is_quiet := (makes (@quiet)).

Lemma quiet_parse_results workload a : (∀ m, operations_make (@quiet) (workload m)) →
  is_quiet (parse_steady_results (W := W) workload a).
Proof.
  intros Hops. pose proof (λ modes dir, quiet_suite_artifacts workload Hops modes dir).
  unfold parse_steady_results, _add_noise_results, _add_trace_results, _add_kernel_results, _add_pre_run_reset_results,
    interrupt_totals, json_or. solve_makes.
Qed.
Lemma quiet_parse_output variables dir : is_quiet (parse_output_to_results (W := W) s variables dir).
Proof.
  pose proof (λ a, quiet_parse_results (workload s) a (λ m, workloads_quiet _ _ _ _ m)) as Hp.
  unfold parse_output_to_results, noise_suite, controls. solve_makes.
Qed.
(** Benchkit runs the points of a campaign one after the other, and turns the
    output of each into a row. *)
Definition run_points (points : list (run_arguments * pydict)) : M (bench * world W) unit :=
  for_each points (λ p, single_run s fuel executable p.1 ;;
                        parse_output_to_results s p.2 (r_record_data_dir p.1) ;; ret ()).
Lemma run_points_tidy points : ends ended owned_by_suite (run_points points).
Proof.
  unfold run_points. induction points as [|p points IH]; [by apply ends_ret|]. simpl.
  apply ends_bind; [|done]. apply ends_bind; [apply tidy_single_run|]. intros _.
  apply ends_bind; [apply tidy_quiet, quiet_parse_output|intros; apply ends_ret].
Qed.
End points.

Definition noisy_row : pydict := [
  ("case_id", VStr "one"); ("policy", VStr "fifo"); ("cpu_noise", VStr "busy_loop"); ("memory_noise", VStr "fixed_copy");
  ("gpu_noise", VStr "none"); ("usb_storage_noise", VStr "none")].
Abbreviation noisy_campaign :=
  (run_points rig_bench 5 "/usr/bin/python3" [(noisy_arguments, noisy_row); (noisy_arguments, noisy_row)]).
Abbreviation failed_end := (run_with_cleanup rig_bench 5 noisy_campaign stage_start).
Definition quiet_campaign : M (bench * world stage) unit :=
  single_run rig_bench 5 "/usr/bin/python3" noisy_arguments ;; ret ().
Abbreviation good_end := (run_with_cleanup rig_bench 5 quiet_campaign stage_start).
(** Two points run with interference, whose processes leave no valid summary: the
    end of the campaign names both.  Another campaign ends without a failure and
    with no process alive. *)
Lemma campaign_end_hides_nothing_witness :
  (failed_end.1 = raise RuntimeError (failures_text (b_failures (noisy_campaign stage_start).2.1)) ∧
   length (b_failures (noisy_campaign stage_start).2.1) = 2%nat) ∧
  (3 < length (filter (λ e, is_spawn e = true) (w_log good_end.2.2)))%nat ∧ none_alive good_end.2.2.
Proof.
  assert (none_alive stage_start.2) as Hx by (intros p Hin; inversion Hin).
  destruct (campaign_end_hides_nothing rig_bench 5 noisy_campaign stage_start
              (run_points_tidy rig_bench 5 "/usr/bin/python3" _) Hx) as (_ & _ & Hf & _ & _).
  assert (ends ended owned_by_suite quiet_campaign) as Ht.
  { apply ends_bind; [apply tidy_single_run|intros; apply ends_ret]. }
  destruct (campaign_end_hides_nothing rig_bench 5 quiet_campaign stage_start Ht Hx) as (Hret & _).
  split; [split|split].
  - destruct Hf as [Hf|(e & He & _)]; [vm_compute; reflexivity|vm_compute; discriminate|exact Hf|].
    exfalso. revert He. vm_compute. discriminate.
  - vm_compute. reflexivity.
  - apply Nat.ltb_lt. vm_compute. reflexivity.
  - assert (is_ok good_end.1 = true) as Hok by (vm_compute; reflexivity). destruct (Hret Hok) as (_ & _ & Hn). exact Hn.
Defined.
