(* ===== verification/StartupBench.v ===== *)
(** * One startup campaign run ([run_startup_campaign.py])

    The class [RealSenseStartupBench]: repeated starts of a camera under one
    scheduling policy, with the three recoveries of a failed attempt, the attempt
    loop, the trace analysis and the result row; the cleanup around a campaign,
    and the program without its argument parser.  Benchkit's campaign is an
    argument, and so is what an expired probe left of its output. *)
From Stdlib Require Import Ascii ZArith Lia Floats.SpecFloat.
From S2P Require Import Prelude PyStr PyFloat PyVal PyJson Effects Machine.
From S2P Require Import Attempts SteadyAttempts SystemControls Recovery Memory Shell Commands Lifecycle StartupTrace.
From stdpp Require Import base gmap strings list.
Local Open Scope Z_scope.
Local Open Scope py_scope.
Local Open Scope M_scope.

(** ** Settings *)

Definition CAMPAIGN_CYCLE_DELAY_MS : Z := 0.
Definition CAMPAIGN_RSUSB_USB_DEVICE : string := "".
Definition CAMPAIGN_RSUSB_PREPARE_TIMEOUT_SECONDS : f64 := f_of_Z 10.
Definition CAMPAIGN_RSUSB_UNBIND_SETTLE_SECONDS : f64 := f_of_Z 1.
Definition CAMPAIGN_DROP_CACHES_BEFORE_RUN : bool := PAPER_DROP_CACHES_BEFORE_RUN.
Definition FIXED_CAMPAIGN_CONSTANTS : pydict := [
  ("fixed_librealsense_backend", VStr PAPER_BACKEND); ("fixed_usb_kernel_driver", VStr PAPER_USB_KERNEL_DRIVER);
  ("fixed_cpu_frequency_mhz", VInt PAPER_CPU_FREQUENCY_MHZ);
  ("fixed_drop_caches_before_run", VBool CAMPAIGN_DROP_CACHES_BEFORE_RUN); ("fixed_rt_priority", VInt PAPER_RT_PRIORITY);
  ("fixed_cycle_delay_ms", VInt CAMPAIGN_CYCLE_DELAY_MS)].

(** ** Construction *)

Record startup_arguments := {
  su_repo_root : string;
  su_build_dir : string;
  su_lime : string;
  su_cycles : Z;
  su_frames : Z;
  su_serial : string;
  su_frame_timeout_ms : Z;
  su_join_timeout_ms : Z;
  su_process_timeout_seconds : Z;
  su_recovery_reset_timeout_ms : Z;
  su_recover_on_failure : string;
  su_recovery_wait_seconds : f64;
  su_recovery_settle_seconds : f64;
  su_max_attempts_per_run : Z;
  su_reset_before_run : bool;
  su_use_sudo : bool;
}.
(** The attributes that do not change; those that do are the ones of
    [_system_controls]. *)
Record RealSenseStartupBench := { arguments : startup_arguments; _build_dir : string; _lime : string }.
Definition new_startup_bench {W} `{OS W} {T} (a : startup_arguments) : M (T * world W) RealSenseStartupBench :=
  build_dir <- sys (Resolve (su_build_dir a)) ;;
  lime <- sys (Resolve (su_lime a)) ;;
  ret {| arguments := a; _build_dir := build_dir; _lime := lime |}.

Section bench.
Context {W : Type} `{OS W} (s : RealSenseStartupBench) (fuel : nat) (expired_output : exn → string).
Abbreviation IO := (M (SystemControls * world W)).
Abbreviation args := (arguments s).

Definition TOOL_DIR : string := su_repo_root args // "tools" // "realsense_startup_bench".
Definition _probe : string := _build_dir s // "d435_sensor_probe".
Definition _tracer : string := _build_dir s // "libtrace_pthreads.so".
Definition _priority : Z := PAPER_RT_PRIORITY.
Definition _rsusb_backend : bool := bool_decide (PAPER_BACKEND = "rsusb").
Definition pre_run_hooks : list (string → IO unit) :=
  if CAMPAIGN_DROP_CACHES_BEFORE_RUN then [drop_caches (su_use_sudo args)] else [].
Definition controls_config : SystemControlConfig := {|
  SystemControls.repo_root := su_repo_root args; tool_dir := TOOL_DIR; SystemControls.use_sudo := su_use_sudo args;
  cpu_frequency_mhz := Some PAPER_CPU_FREQUENCY_MHZ; cpu_lock_script := CPU_LOCK (su_repo_root args);
  cpu_restore_script := CPU_RESTORE (su_repo_root args); rsusb_backend := _rsusb_backend;
  rsusb_usb_devices := (if bool_decide (CAMPAIGN_RSUSB_USB_DEVICE = "") then [] else [CAMPAIGN_RSUSB_USB_DEVICE]);
  rsusb_helper := RSUSB_HELPER (su_repo_root args); rsusb_prepare_each_attempt := true;
  rsusb_prepare_timeout_seconds := CAMPAIGN_RSUSB_PREPARE_TIMEOUT_SECONDS;
  rsusb_unbind_settle_seconds := CAMPAIGN_RSUSB_UNBIND_SETTLE_SECONDS;
  disable_realsense_autosuspend := negb _rsusb_backend; SystemControls.usb_sysfs_base := "/sys/bus/usb/devices";
  cpu_isolation_enabled := false; housekeeping_cpus := "0"; benchmark_cpus := "1-3" |}.
Definition recovery_config : CameraRecoveryConfig W SystemControls := {|
  Recovery.repo_root := su_repo_root args; reset_probe := _probe; Recovery.use_sudo := su_use_sudo args;
  reset_timeout_ms := su_recovery_reset_timeout_ms args;
  enumeration_timeout_seconds := su_recovery_wait_seconds args; prepare_enumeration_probe := None |}.

(** ** [prebuild_bench] *)

Definition configure_command : list string :=
  ["cmake"; "-S"; su_repo_root args; "-B"; _build_dir s; "-DCMAKE_BUILD_TYPE=RelWithDebInfo";
   "-DFORCE_RSUSB_BACKEND=" +:+ (if _rsusb_backend then "ON" else "OFF")].
Definition build_command : list string := ["cmake"; "--build"; _build_dir s; "--target"; "d435_sensor_probe"; "-j4"].
Definition prebuild_bench : IO Z :=
  validate_trace_environment (_lime s) true ;;
  when CAMPAIGN_DROP_CACHES_BEFORE_RUN (Memory.validate (su_use_sudo args)) ;;
  when (bool_decide (su_recover_on_failure args ∈ ["usb"; "full-reset"]) || su_reset_before_run args)
    (found <- sys (Which "usbreset") ;;
     when (negb found) (throw RuntimeError "usbreset is required for RealSense full-device reset.")) ;;
  when (bool_decide (su_recover_on_failure args = "depth-prime"))
    (found <- sys (Which "v4l2-ctl") ;;
     when (negb found) (throw RuntimeError "v4l2-ctl is required for --recover-on-failure depth-prime.")) ;;
  SystemControls.validate_environment controls_config ;;
  check_call configure_command ;;
  check_call build_command ;;
  build_pthread_tracer _tracer (TRACER_SOURCE (su_repo_root args)) None ;;
  ret 0.

Definition serial_words : list string :=
  if bool_decide (su_serial args = "") then [] else ["--serial"; su_serial args].
Definition _scheduled_probe (policy : string) (cycle_delay_ms : Z) : outcome (list string) :=
  scheduled ← scheduler_prefix policy _priority;
  Ok (scheduled ++ [_probe; "--cycles"; str_Z (su_cycles args); "--frames"; str_Z (su_frames args);
      "--frame-timeout-ms"; str_Z (su_frame_timeout_ms args); "--join-timeout-ms"; str_Z (su_join_timeout_ms args);
      "--cycle-delay-ms"; str_Z cycle_delay_ms; "--strict-streams"] ++ serial_words).
Definition restore_v4l2_binding : IO unit := SystemControls.restore_v4l2_binding controls_config fuel.
Definition restore_cpu_frequency : IO unit := SystemControls.restore_cpu_frequency controls_config.

(** ** Recovery of a failed attempt *)

Definition _usb_device_from_physical_port : string → IO (option string) := Recovery._usb_device_from_physical_port.
Definition list_command : list string := [_probe; "--list-only"] ++ serial_words.
Definition _probe_can_find_device (timeout_seconds : f64) : IO (bool * string) :=
  try_except is_TimeoutExpired
    (completed <- sys (RunCommand list_command None (Some timeout_seconds)) ;;
     ret (bool_decide (returncode completed = 0), py_strip (stdout completed +:+ stderr completed)))
    (λ _, ret (false, "device enumeration probe timed out")).
Definition _depth_video_node (physical_port : string) : option string :=
  let name := path_name physical_port in
  if py_startswith "video" name && py_isdigit (py_drop 5 name) then Some ("/dev" // name) else None.

(** [try: ... except <caught> as error: result["error"] = str(error)]. *)
Definition noted (caught : exn → bool) (result : pydict) (m : IO pydict) : IO pydict :=
  try_except caught m (λ error, ret (dset "error" (VStr (exn_msg error)) result)).
Definition record_recovery (record_dir : string) (result : pydict) : IO pydict :=
  sys (WriteJson (record_dir // "recovery.json") (VDict result)) ;; ret result.
Definition port_of (device : pydict) : string := str_val (dgetd "physical_port" (VStr "") device).

Definition prime_command (video_node : string) : list string :=
  ["v4l2-ctl"; "--device"; video_node; "--set-fmt-video=width=848,height=480,pixelformat=0x2036315a"; "--set-parm=30";
   "--stream-mmap=4"; "--stream-count=10"; "--stream-to=/dev/null"; "--verbose"].
Definition prime (video_node : string) (result : pydict) : IO pydict :=
  let command := prime_command video_node in
  let result := dupdate result [("video_node", VStr video_node); ("command", command_value command)] in
  noted run_errors result
    (completed <- sys (RunCommand command None (Some (f_of_Z 20))) ;;
     let output := stdout completed +:+ stderr completed in
     let captured_buffers := Z.of_nat (py_count "cap dqbuf:" output) in
     let success := bool_decide (returncode completed = 0) && bool_decide (10 <= captured_buffers) in
     let result := dupdate result [("returncode", VInt (returncode completed)); ("captured_buffers", VInt captured_buffers);
                                   ("output", VStr (py_strip output)); ("success", VBool success)] in
     ret (if success then result else dset "error" (VStr "depth priming did not capture 10 buffers") result)).
Definition _recover_depth_prime (device : pydict) (record_dir : string) : IO pydict :=
  let physical_port := port_of device in
  let result := [("attempted", VBool true); ("method", VStr "depth-prime"); ("success", VBool false);
                 ("physical_port", VStr physical_port); ("expected_buffers", VInt 10)] in
  let unresolved := dset "error" (VStr "could not resolve the selected camera depth video node") result in
  result <- (match _depth_video_node physical_port with
             | None => ret unresolved
             | Some video_node =>
                 there <- sys (PathExists video_node) ;;
                 if (there : bool) then prime video_node result else ret unresolved
             end) ;;
  record_recovery record_dir result.

(** The loop that waits for the camera: whether it was seen, and the last
    output of the probe. *)
Fixpoint await_visible (fuel : nat) (deadline : f64) (last_probe_output : string) : IO (bool * string) :=
  match fuel with
  | O => throw OutOfFuel ""
  | S fuel =>
      now <- sys Monotonic ;;
      let remaining := f_sub deadline now in
      if f_le_Z remaining 0 then ret (false, last_probe_output) else
      seen <- _probe_can_find_device (f_max (f_dec 5 (-2)) (f_min (f_of_Z 2) remaining)) ;;
      if seen.1 then ret (true, seen.2) else
      now <- sys Monotonic ;;
      let remaining := f_sub deadline now in
      when (f_gt_Z remaining 0) (sys (Sleep (f_min (f_dec 25 (-2)) remaining))) ;;
      await_visible fuel deadline seen.2
  end.
Definition await_reset_camera (result : pydict) : IO pydict :=
  now <- sys Monotonic ;;
  seen <- await_visible fuel (f_add now (su_recovery_wait_seconds args)) "" ;;
  let result := dupdate result ((if seen.1 then [("success", VBool true)] else []) ++ [("enumeration_output", VStr seen.2)]) in
  ret (if seen.1 then result else dset "error" (VStr "camera did not reappear before recovery timeout") result).
Definition usbreset (target : string) : list string :=
  if su_use_sudo args then ["sudo"; "--non-interactive"; "usbreset"; target] else ["usbreset"; target].
Definition reset_usb (target : string) (result : pydict) : IO pydict :=
  completed <- sys (RunCommand (usbreset target) None (Some (f_of_Z 15))) ;;
  let result := dupdate result [("reset_returncode", VInt (returncode completed));
                                ("reset_output", VStr (py_strip (stdout completed +:+ stderr completed)))] in
  if negb (bool_decide (returncode completed = 0)) then ret (dset "error" (VStr "usbreset failed") result)
  else noted usb_errors result (await_reset_camera result).
Definition _recover_usb_device (device : pydict) (record_dir : string) : IO pydict :=
  let result := [("attempted", VBool true); ("method", VStr "usb"); ("success", VBool false);
                 ("physical_port", VStr (port_of device))] in
  usb_device <- _usb_device_from_physical_port (port_of device) ;;
  result <- (match usb_device with
             | None => ret (dset "error" (VStr "could not resolve the selected camera to a USB device") result)
             | Some usb_device =>
                 noted usb_errors result
                   (bus <- read_number (usb_device // "busnum") ;;
                    device_number <- read_number (usb_device // "devnum") ;;
                    let target := pad_Z 3 bus +:+ "/" +:+ pad_Z 3 device_number in
                    let result := dupdate result [("usb_device", VStr usb_device); ("target", VStr target);
                                                  ("command", command_value (usbreset target))] in
                    noted usb_errors result (reset_usb target result))
             end) ;;
  record_recovery record_dir result.
Definition _recover_full_reset (device : pydict) (record_dir : string) : IO pydict :=
  let descriptor := if truthy (dgetd "serial" VNone device) then device else dset "serial" (VStr (su_serial args)) device in
  Recovery.recover recovery_config fuel [descriptor] record_dir.

(** ** One attempt *)

(** [x // 1000] of milliseconds, rounded up. *)
Definition whole_seconds (ms : Z) : Z := (ms + 999) / 1000.
Definition attempt_timeout (cycle_delay_ms : Z) : Z :=
  Z.max (su_process_timeout_seconds args)
    (su_cycles args * (whole_seconds (su_join_timeout_ms args) + whole_seconds (su_frame_timeout_ms args) + 5)
     + whole_seconds (Z.max 0 (su_cycles args - 1) * cycle_delay_ms)).
(** What is added to the output of a probe that was stopped. *)
Definition timeout_line (timeout : Z) : string :=
  let pair k v := json_string k +:+ ": " +:+ json_string v in
  "RS_STARTUP_ERROR {" +:+ pair "kind" "outer-timeout" +:+ ", "
  +:+ pair "message" ("probe exceeded outer timeout of " +:+ str_Z timeout +:+ "s") +:+ "}" +:+ nl.
Definition expired_text (timeout : Z) (error : exn) : string :=
  let output := expired_output error in
  (if bool_decide (output = "") || py_endswith nl output then output else output +:+ nl) +:+ timeout_line timeout.
Definition run_traced (command : list string) (timeout : Z) : IO (string * bool) :=
  try_except is_TimeoutExpired
    (output <- sys (RunBench command timeout) ;; ret (output, false))
    (λ error, ret (expired_text timeout error, true)).
Definition _run_attempt (policy : string) (cycle_delay_ms attempt : Z) (attempt_dir : string) (base_manifest : pydict) :
    IO (string * pydict) :=
  sys (Mkdir attempt_dir false) ;;
  let lifecycle_path := attempt_dir // "thread_lifecycle.jsonl" in
  let stdout_path := attempt_dir // "probe_stdout.txt" in
  let lime_dir := attempt_dir // "lime_trace" in
  scheduled <- lift (_scheduled_probe policy cycle_delay_ms) ;;
  let command := traced_command scheduled _tracer lifecycle_path (_lime s) lime_dir true (su_use_sudo args) [] in
  sys (WriteJson (attempt_dir // "run_manifest.json") (VDict (dupdate base_manifest [
    ("attempt", VInt attempt); ("command", VList (map VStr command)); ("record_data_dir", VStr attempt_dir)]))) ;;
  let timeout := attempt_timeout cycle_delay_ms in
  log <- kernel_log controls_config ;;
  ran <- try_finally (run_traced command timeout) (capture_kernel_delta controls_config attempt_dir log.1 log.2) ;;
  sys (WriteText stdout_path ran.1) ;;
  summary <- parse_startup_trace lifecycle_path lime_dir attempt_dir (Some stdout_path) ;;
  ret (ran.1, if ran.2 then dset "process_error" (VBool true) summary else summary).

(** ** One logical run *)

Definition run_manifest (policy policy_requested : string) (cpu_frequency : pydict) : pydict := [
  ("schema_version", VInt 5); ("policy_requested", VStr policy_requested);
  ("priority_requested", VInt (if bool_decide (policy = "other") then 0 else _priority));
  ("librealsense_backend", VStr PAPER_BACKEND); ("usb_kernel_driver", VStr PAPER_USB_KERNEL_DRIVER);
  ("cycles", VInt (su_cycles args)); ("frames_per_cycle", VInt (su_frames args));
  ("frame_timeout_ms", VInt (su_frame_timeout_ms args)); ("serial", VStr (su_serial args));
  ("join_timeout_ms", VInt (su_join_timeout_ms args));
  ("process_timeout_seconds", VInt (su_process_timeout_seconds args));
  ("recovery_reset_timeout_ms", VInt (su_recovery_reset_timeout_ms args));
  ("cycle_delay_ms", VInt CAMPAIGN_CYCLE_DELAY_MS); ("recover_on_failure", VStr (su_recover_on_failure args));
  ("recovery_wait_seconds", VFloat (su_recovery_wait_seconds args));
  ("recovery_settle_seconds", VFloat (su_recovery_settle_seconds args));
  ("max_attempts_per_run", VInt (su_max_attempts_per_run args)); ("reset_before_run", VBool (su_reset_before_run args));
  ("rsusb_usb_device", VStr CAMPAIGN_RSUSB_USB_DEVICE);
  ("rsusb_prepare_timeout_seconds", VFloat CAMPAIGN_RSUSB_PREPARE_TIMEOUT_SECONDS);
  ("rsusb_unbind_settle_seconds", VFloat CAMPAIGN_RSUSB_UNBIND_SETTLE_SECONDS); ("cpu_frequency", VDict cpu_frequency);
  ("drop_caches_before_run", VBool CAMPAIGN_DROP_CACHES_BEFORE_RUN); ("probe", VStr _probe); ("lime", VStr (_lime s));
  ("clock", VStr "CLOCK_BOOTTIME")].
(** The local functions [classify_attempt] and [recover_attempt]. *)
Definition classify_attempt (summary : pydict) : outcome AttemptDecision :=
  startup_result ← as_dict (dgetd "startup_result" (VDict []) summary);
  startup_error ← as_dict (dgetd "startup_error" (VDict []) summary);
  let process_error := truthy (dgetd "process_error" (VBool false) summary) in
  let probe_success := truthy (dgetd "success" (VBool false) startup_result) in
  let success := probe_success && negb process_error in
  let message := str_val (dgetd "message" (VStr "") startup_error) in
  let error_message := if process_error && bool_decide (message = "") then "benchmark process failed before clean exit"
                       else message in
  Ok {| Attempts.success := success; failure_phase := if success then "none" else "startup"; retry := negb success;
        Attempts.recover := true; Attempts.error := error_message;
        metadata := [("cycles_started", dgetd "cycles_started" (VInt 0) summary);
                     ("cycles_completed", dgetd "completed_cycles" (VInt 0) startup_result);
                     ("error_kind", dgetd "kind" (VStr "") startup_error); ("error_message", VStr error_message)] |}.
Definition recover_attempt (summary : pydict) (attempt_dir : string) (_ : AttemptDecision) : IO pydict :=
  device <- lift (as_dict (dgetd "device" (VDict []) summary)) ;;
  if bool_decide (su_recover_on_failure args = "usb") then _recover_usb_device device attempt_dir
  else if bool_decide (su_recover_on_failure args = "depth-prime") then _recover_depth_prime device attempt_dir
  else if bool_decide (su_recover_on_failure args = "full-reset") then _recover_full_reset device attempt_dir
  else ret [("attempted", VBool false); ("method", VStr (su_recover_on_failure args)); ("success", VBool false);
            ("error", VStr "unsupported recovery method")].
Definition startup_loop (policy : string) (manifest : pydict) (record_dir : string) : loop_arguments W SystemControls := {|
  Attempts.record_dir := record_dir; Attempts.max_attempts := su_max_attempts_per_run args;
  Attempts.recovery_method := su_recover_on_failure args;
  Attempts.recovery_settle_seconds := su_recovery_settle_seconds args;
  Attempts.run_attempt := λ attempt attempt_dir, _run_attempt policy CAMPAIGN_CYCLE_DELAY_MS attempt attempt_dir manifest;
  Attempts.classify_attempt := classify_attempt;
  Attempts.recover_attempt := if bool_decide (su_recover_on_failure args = "none") then None else Some recover_attempt;
  Attempts.before_attempt := Some (prepare_attempt controls_config fuel); Attempts.build_attempt_record := None |}.

(** Everything before the first attempt. *)
Definition prepare_run (policy record_data_dir : string) : IO (string * pydict * pydict) :=
  record_dir <- sys (Resolve record_data_dir) ;;
  sys (Mkdir record_dir true) ;;
  used <- sys (Glob record_dir "attempt-*") ;;
  when (negb (bool_decide (used = []))) (throw RuntimeError ("Attempt directories already exist in " +:+ record_dir)) ;;
  before <- prepare_campaign controls_config fuel record_dir ;;
  write_cpu_state (record_dir // "cpu_frequency_before_run.json") before ;;
  requested <- lift (match dget policy POLICY_NAMES with Some name => Ok name | None => key_error policy end) ;;
  let manifest := run_manifest policy requested before in
  sys (WriteJson (record_dir // "run_manifest.json") (VDict manifest)) ;;
  when (su_reset_before_run args)
    (Recovery.reset_before_run recovery_config fuel [[("serial", VStr (su_serial args))]] record_dir ;; ret ()) ;;
  ret (record_dir, before, manifest).
(** The CPU frequency after the run, compared with what was asked for. *)
Definition frequency_after : IO pydict :=
  state <- cpu_frequency_state ;;
  errors <- lift (verify_cpu_frequency controls_config state) ;;
  ret (dupdate state [("enabled", VBool true); ("requested_mhz", VInt PAPER_CPU_FREQUENCY_MHZ);
                      ("maintained", VBool (bool_decide (errors = []))); ("verification_errors", VList (map VStr errors))]).
Definition publish_run (record_dir : string) (before after : pydict) (result : AttemptLoopResult) : IO string :=
  let summary := dset "cpu_frequency" (VDict [("before_run", VDict before); ("after_run", VDict after)])
                   (Attempts.summary result) in
  write_cpu_state (record_dir // "cpu_frequency_after_run.json") after ;;
  sys (WriteJson (record_dir // "attempts.json") (VList (map VDict (Attempts.attempts result)))) ;;
  sys (WriteJson (record_dir // "summary.json") (VDict summary)) ;;
  sys (WriteText (record_dir // "probe_stdout.txt") (Attempts.output result)) ;;
  sys (WriteText (record_dir // "selected_attempt.txt") (str_Z (Attempts.selected_attempt result) +:+ nl)) ;;
  ret (Attempts.output result).
Definition single_run (policy record_data_dir : string) : IO string :=
  prepared <- prepare_run policy record_data_dir ;;
  let '(record_dir, before, manifest) := prepared in
  result <- run_attempt_loop (startup_loop policy manifest record_dir) ;;
  after <- frequency_after ;;
  publish_run record_dir before after result.

(** ** Results *)

Definition joined (k : string) (policies : list pydict) : pyval :=
  VStr (py_join "," (map (λ item, str_val (dgetd k (VStr "") item)) policies)).
Definition section_of (summary : pydict) (k : string) : outcome pydict := as_dict (dgetd k (VDict []) summary).
Definition reset_columns (reset : pydict) : pydict := [
  ("pre_run_reset_attempted", VBool (truthy (dgetd "attempted" (VBool false) reset)));
  ("pre_run_reset_success", dgetd "success" (VStr "") reset);
  ("pre_run_reset_camera_count", dgetd "camera_count" (VInt 0) reset);
  ("pre_run_reset_duration_ms", dgetd "duration_ms" (VFloat f_zero) reset);
  ("pre_run_reset_error", dgetd "error" (VStr "") reset)].
Definition frequency_columns (before after : pydict) (policies : list pydict) : pydict := [
  ("librealsense_backend", VStr (if _rsusb_backend then "rsusb" else "v4l2"));
  ("cpu_frequency_requested_mhz", dgetd "requested_mhz" (VStr "") before);
  ("cpu_frequency_locked", dgetd "locked" (VBool false) before);
  ("cpu_frequency_maintained", dgetd "maintained" (VBool false) after);
  ("cpu_frequency_policy_count", VInt (Z.of_nat (length policies)));
  ("cpu_frequency_governors", joined "governor" policies); ("cpu_frequency_min_khz", joined "scaling_min_khz" policies);
  ("cpu_frequency_max_khz", joined "scaling_max_khz" policies);
  ("cpu_frequency_current_khz", joined "scaling_current_khz" policies);
  ("temperature_before_run_millic", dgetd "temperature_millic" (VStr "") before);
  ("temperature_after_run_millic", dgetd "temperature_millic" (VStr "") after)].
Definition policy_columns (policy requested : string) (scheduler : pydict) : pydict :=
  let effective := dgetd "policy" (VStr "") scheduler in [
  ("policy_requested", VStr requested);
  ("priority_requested", VInt (if bool_decide (policy = "other") then 0 else _priority));
  ("policy_effective", effective); ("priority_effective", dgetd "priority" (VStr "") scheduler);
  ("policy_matches", VBool (py_eq effective (VStr requested)))].
(** The columns that are copied from the summary, with their defaults. *)
Definition COPIED : list (string * pyval) :=
  [("observed_thread_instances", VInt 0)] ++
  map (λ k, (k, VInt 0)) [
    "start_call_ms_mean"; "start_call_ms_max"; "first_frame_ms_mean"; "first_frame_ms_max"; "first_frame_wait_ms_mean";
    "first_frame_wait_ms_max"; "join_wait_ms_mean"; "join_wait_ms_max"; "execution_ms_total"; "sleep_ms_total";
    "ready_ms_total"] ++
  [("kernel_log_captured", VBool false)] ++
  map (λ k, (k, VInt 0)) [
    "uvc_resubmit_errors"; "uvc_resubmit_errors_startup"; "uvc_resubmit_errors_streaming"; "uvc_resubmit_errors_teardown";
    "uvc_resubmit_errors_other"] ++
  [("uvc_resubmit_interfaces", VStr ""); ("uvc_resubmit_error_codes", VStr "")].
(** The one column whose name in the summary is another. *)
Definition summary_key (column : string) : string :=
  if bool_decide (column = "observed_thread_instances") then "thread_instances" else column.
Definition startup_columns (summary startup_result startup_error : pydict) : pydict := [
  ("workload_success", VBool (truthy (dgetd "success" (VBool false) startup_result)));
  ("process_error", dgetd "process_error" (VBool false) summary);
  ("startup_error_kind", dgetd "kind" (VStr "") startup_error);
  ("startup_error_message", dgetd "message" (VStr "") startup_error);
  ("cycles_started", dgetd "cycles_started" (VInt 0) summary);
  ("cycles_completed", dgetd "completed_cycles" (VInt 0) startup_result);
  ("cycles_successful", dgetd "successful_cycles" (VInt 0) summary);
  ("all_threads_terminated", dgetd "all_observed_threads_terminated" (VBool false) summary)]
  ++ map (λ c, (c.1, dgetd (summary_key c.1) c.2 summary)) COPIED.
Definition result_row (policy record_dir : string) (summary reset memory : pydict) : outcome pydict :=
  scheduler ← section_of summary "scheduler"; startup_result ← section_of summary "startup_result";
  cpu_frequency ← section_of summary "cpu_frequency";
  before ← section_of cpu_frequency "before_run"; after ← section_of cpu_frequency "after_run";
  policies ← (l ← as_list (dgetd "policies" (VList []) before); traverse as_dict l);
  requested ← match dget policy POLICY_NAMES with Some name => Ok name | None => key_error policy end;
  common ← common_attempt_result_fields summary;
  startup_error ← section_of summary "startup_error";
  Ok (foldl dupdate [] [memory; common; reset_columns reset; frequency_columns before after policies;
      policy_columns policy requested scheduler; startup_columns summary startup_result startup_error;
      [("record_data_dir", VStr record_dir)]]).
Definition parse_output_to_results (run_variables : pydict) (record_dir : string) : IO pydict :=
  summary <- sys (ReadJson (record_dir // "summary.json")) ;;
  summary <- lift (as_dict summary) ;;
  file <- sys (IsFile (record_dir // "pre_run_reset.json")) ;;
  reset <- (if (file : bool) then sys (ReadJson (record_dir // "pre_run_reset.json")) else ret (VDict [])) ;;
  reset <- lift (as_dict reset) ;;
  memory <- memory_cleanup_result_fields record_dir CAMPAIGN_DROP_CACHES_BEFORE_RUN ;;
  policy <- lift (subscript run_variables "policy") ;;
  lift (result_row (str_val policy) record_dir summary reset memory).

(** ** The campaign and its cleanup *)

Definition cleanup_actions : list (string * IO unit) :=
  [("restore V4L2 binding", restore_v4l2_binding); ("restore CPU frequency", restore_cpu_frequency)].
(** What is printed of the failures when the campaign failed already. *)
Definition cleanup_action (errors : list string) (da : string * IO unit) : IO (list string) :=
  try_except is_Exception (da.2 ;; ret errors) (λ e, ret (errors ++ [da.1 +:+ ": " +:+ exn_msg e])).
Definition run_cleanups : IO (list string) := fold_each cleanup_actions [] cleanup_action.
(** [except BaseException]: every exception of the code. *)
Definition is_BaseException (e : exn) : bool := negb (is_class OutOfFuel e).
Definition _run_campaign_with_cleanup (campaign : IO unit) : IO unit :=
  try_except is_BaseException campaign (λ e, run_cleanups ;; rethrow e) ;;
  cleanup_errors <- run_cleanups ;;
  when (negb (bool_decide (cleanup_errors = [])))
    (throw RuntimeError ("Campaign cleanup failed: " +:+ py_join " | " cleanup_errors)).
End bench.

(** ** The program *)

Record options := {
  o_policies : list string;
  o_arguments : startup_arguments;
  o_nb_runs : Z;
  o_results_dir : string;
  o_no_sudo : bool;
}.
Definition parser_error {A} (message : string) : outcome A := raise SystemExit message.
Definition check_options (o : options) : outcome unit :=
  let a := o_arguments o in
  if existsb (λ n, bool_decide (n < 1)) [su_cycles a; su_frames a; su_frame_timeout_ms a; su_process_timeout_seconds a;
       su_recovery_reset_timeout_ms a; o_nb_runs o] then
    parser_error ("--cycles, --frames, --frame-timeout-ms, --process-timeout-seconds, "
      +:+ "--recovery-reset-timeout-ms, and --nb-runs must be positive")
  else if bool_decide (su_join_timeout_ms a < 0) then parser_error "--join-timeout-ms must be non-negative"
  else if f_le_Z (su_recovery_wait_seconds a) 0 then parser_error "--recovery-wait-seconds must be positive"
  else if f_lt_Z (su_recovery_settle_seconds a) 0 then parser_error "--recovery-settle-seconds must be non-negative"
  else if bool_decide (su_max_attempts_per_run a < 1) then parser_error "--max-attempts-per-run must be positive"
  else if bool_decide (1 < su_max_attempts_per_run a) && bool_decide (su_recover_on_failure a = "none") then
    parser_error "multiple attempts require --recover-on-failure"
  else if su_reset_before_run a && bool_decide (su_serial a = "") then
    parser_error "--reset-before-run requires an explicit --serial"
  else Ok ().
Definition with_sudo (use_sudo : bool) (a : startup_arguments) : startup_arguments := {|
  su_repo_root := su_repo_root a; su_build_dir := su_build_dir a; su_lime := su_lime a; su_cycles := su_cycles a;
  su_frames := su_frames a; su_serial := su_serial a; su_frame_timeout_ms := su_frame_timeout_ms a;
  su_join_timeout_ms := su_join_timeout_ms a; su_process_timeout_seconds := su_process_timeout_seconds a;
  su_recovery_reset_timeout_ms := su_recovery_reset_timeout_ms a; su_recover_on_failure := su_recover_on_failure a;
  su_recovery_wait_seconds := su_recovery_wait_seconds a; su_recovery_settle_seconds := su_recovery_settle_seconds a;
  su_max_attempts_per_run := su_max_attempts_per_run a; su_reset_before_run := su_reset_before_run a;
  su_use_sudo := use_sudo |}.
(** [CampaignCartesianProduct(...)] and its [run] are Benchkit's: [campaign]. *)
Definition main {W} `{OS W} (fuel : nat)
    (campaign : RealSenseStartupBench → Z → list string → pydict → string → M (SystemControls * world W) unit)
    (o : options) : M (SystemControls * world W) unit :=
  lift (check_options o) ;;
  euid <- sys GetEuid ;;
  let use_sudo := negb (bool_decide (euid = 0)) && negb (o_no_sudo o) in
  sys (Mkdir (o_results_dir o) true) ;;
  benchmark <- new_startup_bench (with_sudo use_sudo (o_arguments o)) ;;
  set_self (λ _, SystemControls.initial (controls_config benchmark)) ;;
  _run_campaign_with_cleanup benchmark fuel
    (campaign benchmark (o_nb_runs o) (o_policies o) FIXED_CAMPAIGN_CONSTANTS (o_results_dir o)).
