(* ===== verification/StartupBenchSpec.v ===== *)
(** * What the startup benchmark promises

    Properties of [RealSenseStartupBench]: a recovery that counts as a success
    has its evidence in the log of commands and ends, an attempt that counts as a
    success was reported by the probe in time, and the cleanup after a campaign
    keeps its exception and the state of the CPU frequency. *)
From Stdlib Require Import Ascii ZArith Lia Floats.SpecFloat.
From S2P Require Import Prelude PyStr PyFloat PyVal PyJson Effects Machine Clock.
From S2P Require Import Lifecycle Attempts SteadyAttempts SystemControls SystemControlsSpec Recovery RecoverySpec.
From S2P Require Import Commands SteadyTrace StartupTrace Calls StartupBench.
From stdpp Require Import base gmap strings list.
Local Open Scope Z_scope.
Local Open Scope py_scope.
Local Open Scope M_scope.

(** ** Recoveries *)

Section recovery.
Context {W : Type} `{OS W} (s : RealSenseStartupBench) (fuel : nat).
Abbreviation state := (SystemControls * world W)%type.
Implicit Types x y z : state.

(** The camera was reset and then listed. *)
Definition relisted (target : string) : list entry :=
  [ERun (usbreset s target) None (Ok 0); ERun (list_command s) None (Ok 0)].

Lemma succeeded_dupdate (d e : pydict) : "success" ∉ dkeys e → succeeded (dupdate d e) = succeeded d.
Proof. intros He. unfold succeeded, dgetd. by rewrite dget_dupdate. Qed.

Lemma logs_noted caught result (m : M state pydict) es :
  succeeded result = false → logs m succeeded es → logs (noted caught result m) succeeded es.
Proof.
  intros Hr Hm x. unfold noted. apply wp_try. eapply wp_conseq; [apply Hm|done|].
  intros e y Hy. destruct (caught e); [|done]. apply wp_ret. by rewrite succeeded_error, Hr.
Qed.
Lemma list_logs t : logs (_probe_can_find_device s t : M state _) fst [ERun (list_command s) None (Ok 0)].
Proof.
  intros x. unfold _probe_can_find_device. apply wp_try.
  eapply wp_conseq; [apply (logs_run _ _ _ _ fst [])| |].
  - intros c. destruct (decide (returncode c = 0)) as [Hc|Hc].
    + left. split; [done|]. intros y. apply wp_ret. destruct (fst _); apply logged_refl.
    + right. intros y. apply wp_ret. split; [apply logged_refl|]. by apply bool_decide_eq_false_2.
  - done.
  - intros e y Hy. destruct (is_TimeoutExpired e); [|done]. by apply wp_ret.
Qed.
Lemma await_visible_logs n d out : logs (await_visible s n d out : M state _) fst [ERun (list_command s) None (Ok 0)].
Proof.
  revert out. induction n as [|n IH]; intros out; simpl.
  { intros x. apply wp_throw. reflexivity. }
  apply logs_bind_grows; [eauto with keeps|]. intros now.
  destruct (f_le_Z _ _); [by apply logs_ret|]. intros x. apply wp_bind.
  eapply wp_conseq; [apply list_logs| |done]. intros [seen o] y Hy. simpl in *. destruct seen.
  - by apply wp_ret.
  - eapply wp_conseq; [|intros r z Hz; eapply logged_before; [exact Hy|exact Hz]|intros e z Hz; exact (logged_app _ _ _ [] [] Hy Hz)].
    do 2 (apply logs_bind_grows; [solve_within; eauto with keeps|]; intros ?). apply IH.
Qed.
Lemma await_reset_logs result :
  succeeded result = false →
  logs (await_reset_camera s fuel result : M state _) succeeded [ERun (list_command s) None (Ok 0)].
Proof.
  intros Hr. unfold await_reset_camera. apply logs_bind_grows; [eauto with keeps|]. intros now x. apply wp_bind.
  eapply wp_conseq; [apply await_visible_logs| |done]. intros [seen out] y Hy. apply wp_ret. simpl in *.
  destruct seen; simpl.
  - rewrite succeeded_other by done. unfold succeeded, dgetd. by rewrite dget_dset_eq.
  - rewrite succeeded_error, succeeded_other by done. by rewrite Hr.
Qed.
Lemma reset_usb_logs target result :
  succeeded result = false → logs (reset_usb s fuel target result : M state _) succeeded (relisted target).
Proof.
  intros Hr. unfold reset_usb. apply logs_run. intros c.
  set (result' := dupdate result _). assert (succeeded result' = false) as Hr' by (subst result'; by rewrite succeeded_dupdate by set_solver).
  destruct (decide (returncode c = 0)) as [Hc|Hc].
  - left. split; [done|]. rewrite bool_decide_eq_true_2 by done. simpl.
    apply logs_noted; [done|]. by apply await_reset_logs.
  - right. intros x. rewrite bool_decide_eq_false_2 by done. apply wp_ret.
    split; [apply logged_refl|]. by rewrite succeeded_error.
Qed.
Lemma recover_usb_logs device dir x :
  wp (_recover_usb_device s fuel device dir)
     (λ r y, succeeded r = true → ∃ target, logged x y (relisted target)) (λ _ _, True) x.
Proof.
  unfold _recover_usb_device. apply wp_bind.
  eapply (wp_within grows); [apply usb_device_grows| |done]. intros dev y Hy. apply wp_bind.
  eapply (wp_conseq _ (λ r z, succeeded r = true → ∃ target, logged x z (relisted target)) _ (λ _ _, True)); [| |done].
  - destruct dev as [dev|]; [|by apply wp_ret]. set (base := [_; _; _; _] : pydict).
    unfold noted at 1. apply wp_try, wp_bind.
    eapply (wp_within grows); [apply read_number_grows| |].
    + intros bus y2 Hy2. apply wp_bind. eapply (wp_within grows); [apply read_number_grows| |].
      * intros number y3 Hy3. set (target := _ +:+ _). cbv zeta.
        eapply wp_conseq; [apply (logs_noted usb_errors _ _ (relisted target)); [|apply reset_usb_logs]|..]; try done.
        -- intros r z Hz Hr. simpl in Hz. rewrite Hr in Hz. exists target. eapply logged_before; [|exact Hz]. by do 2 (etrans; [eassumption|]).
        -- intros e z Hz. destruct (usb_errors e); [|done]. by apply wp_ret.
      * intros e z Hz. destruct (usb_errors e); [|done]. by apply wp_ret.
    + intros e z Hz. destruct (usb_errors e); [|done]. by apply wp_ret.
  - intros r z Hr. unfold record_recovery. apply wp_grows; [eauto with keeps|intros _ z2 Hz2|done]. apply wp_ret.
    intros Hs. destruct (Hr Hs) as [target Ht]. exists target. by eapply logged_after.
Qed.
(** Ten buffers were counted in the output of a successful [v4l2-ctl]. *)
Lemma recover_prime_logs device dir x :
  wp (_recover_depth_prime device dir)
     (λ r y, succeeded r = true → ∃ node, _depth_video_node (port_of device) = Some node ∧
        logged x y [ERun (prime_command node) None (Ok 0)]) (λ _ _, True) x.
Proof.
  unfold _recover_depth_prime. apply wp_bind. set (base := [_; _; _; _; _] : pydict).
  eapply (wp_conseq _ (λ r z, succeeded r = true → ∃ node, _depth_video_node (port_of device) = Some node ∧
    logged x z [ERun (prime_command node) None (Ok 0)]) _ (λ _ _, True)); [| |done].
  - destruct (_depth_video_node (port_of device)) as [node|]; [|by apply wp_ret].
    apply wp_grows; [eauto with keeps|intros there y Hy|done]. destruct there; [|by apply wp_ret].
    eapply wp_conseq; [apply (logs_noted run_errors _ _ [ERun (prime_command node) None (Ok 0)]); [done|apply logs_run]|..]; try done.
    + intros c. destruct (decide (returncode c = 0)) as [Hc|Hc]; [left; split; [done|]|right].
      * intros z. apply wp_ret. case_match; apply logged_refl.
      * rewrite (bool_decide_eq_false_2 (returncode c = 0)) by done. intros z. apply wp_ret. by split; [apply logged_refl|].
    + intros r z Hz Hr. simpl in Hz. rewrite Hr in Hz. exists node. split; [done|]. by eapply logged_before.
  - intros r z Hr. unfold record_recovery. apply wp_grows; [eauto with keeps|intros _ z2 Hz2|done]. apply wp_ret.
    intros Hs. destruct (Hr Hs) as (node & Hn & Ht). exists node. split; [done|]. by eapply logged_after.
Qed.

(** What a successful recovery of the device shows. *)
Definition device_serial (device : pydict) : string :=
  camera_serial (if truthy (dgetd "serial" VNone device) then device else dset "serial" (VStr (su_serial (arguments s))) device).
Definition recovery_evidence (device : pydict) (es : list entry) : Prop :=
  match su_recover_on_failure (arguments s) with
  | "usb" => ∃ target, es = relisted target
  | "depth-prime" => ∃ node, _depth_video_node (port_of device) = Some node ∧ es = [ERun (prime_command node) None (Ok 0)]
  | "full-reset" => device_serial device ≠ "" ∧ ∃ target, es = evidence (recovery_config (W := W) s) (device_serial device) target
  | _ => False
  end.
End recovery.

(** *** The waiting ends *)

(** [x > 0] of a float. *)
Lemma f_positive r : f_gt_Z r 0 = f_lt f_zero r.
Proof.
  destruct r as [| [] | |s m e]; try done. unfold f_gt_Z, f_compare_Z. rewrite Z.mul_0_l.
  set (q := if bool_decide (0 <= e) then cond_Zopp s (Z.pos m) * 2 ^ e ?= 0 else cond_Zopp s (Z.pos m) ?= 0).
  assert (q = if s then Lt else Gt) as ->; [|by destruct s].
  subst q. case_bool_decide; [|by destruct s].
  assert (0 < Z.pos m * 2 ^ e) as Hp by (apply Z.mul_pos_pos; [lia|apply Z.pow_pos_nonneg; lia]).
  destruct s; simpl; [apply Z.compare_lt_iff; lia|by apply Z.compare_gt_iff].
Qed.

Section ends.
Context {W : Type} `{Clock W} (s : RealSenseStartupBench) (fuel : nat).
Context (wait_ends : ends_within (su_recovery_wait_seconds (arguments s)) fuel).
Implicit Types x y : SystemControls * world W.
Abbreviation ends m x := (wp m (λ _ _, True) fine x).

Lemma list_quick t : quick (S := SystemControls) (W := W) (_probe_can_find_device s t).
Proof. unfold _probe_can_find_device. solve_quick. Qed.
Lemma await_visible_ends n d out x :
  deadline d → (time_left d (w_os x.2) < n)%nat → ends (await_visible s n d out) x.
Proof.
  revert out x. induction n as [|n IH]; intros out x Hd Hn; [lia|]. simpl.
  apply (wp_now_fine d); [done|]. intros now x1 H1 Hdue.
  destruct (f_le_Z _ _) eqn:Hle; [by apply wp_ret|].
  assert (1 <= time_left d (w_os x.2))%nat as Hleft.
  { destruct (time_left d (w_os x.2)); [|lia]. destruct Hdue as [Hdue _]; [done|]. by rewrite Hdue in Hle. }
  apply wp_quick; [apply list_quick|]. intros [seen o] x2 H2. simpl. destruct seen; [by apply wp_ret|].
  apply (wp_reached_fine d); [done|]. intros now2 x3 H3 Hreached.
  specialize (H1 d). specialize (H2 d). specialize (H3 d). rewrite f_positive.
  destruct (f_lt f_zero (f_sub d now2)) eqn:Hlt; simpl.
  - apply wp_sleep_fine; [|intros x4 H4; specialize (H4 d); apply IH; [done|lia]].
    apply f_min_positive; [done|]. destruct (f_le_Z (f_sub d now2) 0) eqn:Hz; [|done].
    rewrite <- f_positive in Hlt. unfold f_gt_Z in Hlt. unfold f_le_Z in Hz.
    by destruct (f_compare_Z (f_sub d now2) 0) as [[]|].
  - apply wp_quick; [apply quick_ret|]. intros _ x4 H4. specialize (H4 d).
    rewrite Hreached in H4 by done. apply IH; [done|lia].
Qed.
Lemma noted_ends caught result m x : ends m x → ends (noted (W := W) caught result m) x.
Proof.
  intros Hm. unfold noted. apply wp_try. eapply wp_conseq; [exact Hm|done|].
  intros e y He. destruct (caught e); [by apply wp_ret|done].
Qed.
Lemma record_quick dir result : quick (S := SystemControls) (W := W) (record_recovery dir result).
Proof. unfold record_recovery. solve_quick. Qed.
Lemma reset_usb_ends target result x : ends (reset_usb s fuel target result) x.
Proof.
  unfold reset_usb. apply wp_quick; [apply quick_sys|]. intros c y _. cbv zeta.
  destruct (negb _); [by apply wp_ret|]. apply noted_ends. unfold await_reset_camera.
  eapply wp_start_fine; [exact wait_ends|]. intros now y2 _ Hd Hn.
  apply wp_bind. eapply wp_conseq; [by apply await_visible_ends| |done]. intros seen y3 _. by apply wp_ret.
Qed.
Lemma recover_usb_ends device dir x : ends (_recover_usb_device s fuel device dir) x.
Proof.
  unfold _recover_usb_device. cbv zeta. apply wp_quick; [apply usb_device_quick|]. intros dev y _.
  apply wp_bind. eapply (wp_conseq _ (λ _ _, True) _ fine); [|intros r z _; apply wp_quick_last, record_quick|done].
  destruct dev as [dev|]; [|by apply wp_ret]. apply noted_ends.
  apply wp_quick; [apply read_number_quick|]. intros bus y1 _.
  apply wp_quick; [apply read_number_quick|]. intros number y2 _. apply noted_ends, reset_usb_ends.
Qed.
Lemma recover_prime_quick device dir : quick (S := SystemControls) (W := W) (_recover_depth_prime device dir).
Proof. unfold _recover_depth_prime, prime, noted, record_recovery. solve_quick. Qed.
Lemma recover_attempt_ends summary dir d x : ends (recover_attempt s fuel summary dir d) x.
Proof.
  unfold recover_attempt. apply wp_bind, wp_lift. destruct (as_dict _) as [device|e] eqn:He.
  - case_bool_decide; [apply recover_usb_ends|]. case_bool_decide; [apply wp_quick_last, recover_prime_quick|].
    case_bool_decide; [|by apply wp_ret]. unfold _recover_full_reset. by apply recover_ends.
  - unfold fine. destruct (dgetd _ _ _); simpl in He; try discriminate He; injection He as <-; discriminate.
Qed.
End ends.

(** C32: A successful recovery has its evidence, and every recovery ends.  When
    the recovery of a failed attempt reports success, the log holds, in this
    order: for a USB reset, a successful [usbreset] and a successful listing of
    the camera; for depth priming, a successful [v4l2-ctl] on the camera's video
    node; for a full reset, a successful firmware reset, a successful USB reset
    and a successful sighting of the camera with the serial of the failed run, or
    of the options.  On a machine whose clock advances, with fuel for the sleeps
    that fit into the waiting time, a recovery never runs out of fuel. *)
Theorem successful_recovery_has_evidence {W} `{Clock W} s fuel summary device dir d (x : SystemControls * world W) :
  ends_within (su_recovery_wait_seconds (arguments s)) fuel → dgetd "device" (VDict []) summary = VDict device →
  let run := recover_attempt s fuel summary dir d x in
  in_fuel run ∧ (∀ r y, run = (Ok r, y) → succeeded r = true →
    ∃ es, recovery_evidence (W := W) s device es ∧ logged x y es).
Proof.
  intros Ht Hd run. split; [by eapply in_fuel_wp, recover_attempt_ends|]. intros r y Hr Hs. revert r y Hr Hs.
  cut (wp (recover_attempt s fuel summary dir d)
         (λ r y, succeeded r = true → ∃ es, recovery_evidence (W := W) s device es ∧ logged x y es) (λ _ _, True) x).
  { intros Hwp r y Hr. exact (wp_ok _ _ _ _ _ _ Hwp Hr). }
  unfold recover_attempt, recovery_evidence. apply wp_bind, wp_lift. rewrite Hd. simpl.
  case_bool_decide as Hm; [rewrite Hm|clear Hm; case_bool_decide as Hm; [rewrite Hm|clear Hm; case_bool_decide as Hm; [rewrite Hm|]]].
  - eapply wp_conseq; [apply recover_usb_logs| |done]. intros r y Hr Hs. destruct (Hr Hs) as [target Hl]. eauto.
  - eapply wp_conseq; [apply recover_prime_logs| |done]. intros r y Hr Hs. destruct (Hr Hs) as (node & Hn & Hl). eauto.
  - unfold _recover_full_reset. eapply wp_conseq; [by apply recover_logs| |done]. intros r y [_ Hr] Hs.
    destruct (Hr Hs) as [_ Hall]. apply Forall_cons in Hall as [[Hn [target Hl]] _]. eexists. split; [|exact Hl].
    split; [exact Hn|]. by eexists.
  - by apply wp_ret.
Qed.

(** ** What a successful attempt says *)

(** The calls that cannot change the text file at [q]. *)
Definition keeps_text (q : string) (A : Type) (c : syscall A) : bool :=
  match c with
  | WriteText p _ | WriteJson p _ | WriteCsv p _ _ => negb (bool_decide (p = q))
  | ReadText _ | ReadJson _ | ReadJsonl _ | ReadCsv _ | IsFile _ | IsDir _ | PathExists _ | Glob _ _ | Resolve _
  | Mkdir _ _ => true
  | _ => false
  end.
(** A file system on which these calls indeed keep it. *)
Class TraceFiles (W : Type) `{TextFiles W} := {
  text_exists p (w : W) t : text_at w p = Some t → handle (PathExists p) w = (Ok true, (handle (PathExists p) w).2);
  text_kept {A} (c : syscall A) (w : W) q : keeps_text q A c = true → text_at (handle c w).2 q = text_at w q;
}.

(** A line in which the probe reports success. *)
Definition reports (line : string) : Prop :=
  py_startswith "RS_STARTUP_RESULT " line = true ∧
  ∃ d v, json_loads (py_drop 18 line) = Ok (VDict d) ∧ ("success", v) ∈ d ∧ truthy v = true.

Lemma succeeded_after_update (target d : pydict) :
  succeeded (dupdate target d) = true → succeeded target = true ∨ ∃ v, ("success", v) ∈ d ∧ truthy v = true.
Proof.
  unfold dupdate. revert target. induction d as [|[k v] d IH]; intros target Hs; [by left|].
  simpl in Hs. apply IH in Hs as [Hs|(w & Hw & Ht)]; [|right; exists w; by split; [right|]].
  destruct (decide (k = "success")) as [->|Hk].
  - right. exists v. split; [by left|]. unfold succeeded, dgetd in Hs. by rewrite dget_dset_eq in Hs.
  - left. by rewrite succeeded_other in Hs.
Qed.
Lemma line_reports v line v' :
  stdout_line v line = Ok v' → succeeded (final_result v') = true → succeeded (final_result v) = true ∨ reports line.
Proof.
  unfold stdout_line. intros (device & _ & Hv)%outcome_bind_ok. apply outcome_bind_ok in Hv as (sched & _ & Hv).
  apply outcome_bind_ok in Hv as (final & Hf & Hv). apply outcome_bind_ok in Hv as (error & _ & Hv).
  apply outcome_bind_ok in Hv as (cycles & _ & [= <-]). simpl. intros Hs. unfold update_target in Hf.
  destruct (py_startswith "RS_STARTUP_RESULT " line) eqn:Hp; [|injection Hf as <-; by left].
  apply outcome_bind_ok in Hf as (value & Hj & Hd). destruct value as [| | | | | |d]; try discriminate Hd.
  injection Hd as <-. apply succeeded_after_update in Hs as [Hs|(w & Hw & Ht)]; [by left|right].
  split; [done|]. by exists d, w.
Qed.
Lemma output_reports lines v v' :
  fold_outcome stdout_line v lines = Ok v' → succeeded (final_result v') = true →
  succeeded (final_result v) = true ∨ Exists reports lines.
Proof.
  revert v. induction lines as [|line lines IH]; intros v; simpl; [intros [= ->]; by left|].
  intros (u & Hu & Hf)%outcome_bind_ok Hs. destruct (IH _ Hf Hs) as [Hs'|Hl]; [|right; by constructor 2].
  destruct (line_reports _ _ _ Hu Hs'); [by left|right; by constructor].
Qed.
(** The success in a summary is the one of the output. *)
Lemma summary_reports d summary :
  startup_summary d = Ok summary → ∃ final, dget "startup_result" summary = Some (VDict final) ∧
    (succeeded final = true → succeeded (final_result (s_stdout d)) = true).
Proof.
  unfold startup_summary. intros (final & Hf & Hs)%outcome_bind_ok.
  repeat (apply outcome_bind_ok in Hs as (? & _ & Hs)). injection Hs as <-. exists final. split; [reflexivity|].
  destruct (final_result (s_stdout d)) as [|p r]; [|by injection Hf as <-].
  apply outcome_bind_ok in Hf as (requested & _ & [= <-]). done.
Qed.

(** The log grows on everything that makes calls. *)
Lemma makes_grows {W} `{OS W} {T A} P (m : M (T * world W) A) : makes P m → within grows m.
Proof.
  intros Hm. apply (makes_within P m (λ a b, w_log a `prefix_of` w_log b)) in Hm.
  - intros x. destruct (Hm x) as [l Hl]. exists l. split; [exact Hl|apply sublist_nil_l].
  - split; [split; [by intros a|intros a b c; by etrans]|]. intros B c w r o _ _. by apply prefix_app_r.
Qed.

Section parse.
Context {W : Type} `{OS W}.
Abbreviation state := (SystemControls * world W)%type.

Lemma quiet_parse_startup a b dir p : makes (@quiet) (parse_startup_trace (W := W) (T := SystemControls) a b dir p).
Proof.
  unfold parse_startup_trace, optional_text, optional_json, read_jsonl, load_lime, load_task. solve_makes.
Qed.

Context `{!TextFiles W} `{!TraceFiles W}.
Context (q : string).
Abbreviation stays := (makes (keeps_text q)).
Definition text_stays : relation state := λ x y, text_at (w_os y.2) q = text_at (w_os x.2) q.
Lemma stays_text {A} (m : M state A) : stays m → within text_stays m.
Proof.
  intros Hm. apply (makes_within _ m (λ a b, text_at (w_os b) q = text_at (w_os a) q)) in Hm; [exact Hm|].
  split; [split; [by intros a|intros a b c; congruence]|]. intros B c w r o Hc Ho. simpl.
  pose proof (text_kept c (w_os w) q Hc) as Hk. by rewrite Ho in Hk.
Qed.
Lemma wp_stays {A B} (m : M state A) (k : A → M state B) text Q x :
  stays m → text_at (w_os x.2) q = Some text →
  (∀ a y, text_at (w_os y.2) q = Some text → wp (k a) Q (λ _ _, True) y) → wp (bind m k) Q (λ _ _, True) x.
Proof.
  intros Hm Ht Hk. apply wp_bind. apply (wp_within text_stays); [by apply stays_text| |done].
  intros a y Hy. apply Hk. unfold text_stays in Hy. by rewrite Hy.
Qed.
Lemma stays_read_jsonl p : stays (read_jsonl (W := W) (T := SystemControls) p).
Proof. unfold read_jsonl. solve_makes. Qed.
Lemma stays_load_lime dir app : stays (load_lime (W := W) (T := SystemControls) dir app).
Proof. unfold load_lime, load_task. solve_makes. Qed.
Lemma stays_csv p fields rows : p ≠ q → stays (sys (S := SystemControls) (WriteCsv p fields rows)).
Proof. intros Hp. apply makes_sys. simpl. by rewrite bool_decide_eq_false_2. Qed.
End parse.

(** The text that the analysis reads is the output. *)
Lemma parse_reports {W} `{OS W} `{!TextFiles W} `{!TraceFiles W} a b dir text (x : SystemControls * world W) :
  text_at (w_os x.2) (dir // "probe_stdout.txt") = Some text →
  wp (parse_startup_trace a b dir (Some (dir // "probe_stdout.txt")))
     (λ summary _, ∃ final, dget "startup_result" summary = Some (VDict final) ∧
        (succeeded final = true → Exists reports (py_splitlines text))) (λ _ _, True) x.
Proof.
  intros Ht. set (q := dir // "probe_stdout.txt") in *. unfold parse_startup_trace.
  apply (wp_stays q _ _ text); [apply makes_sys; reflexivity|done|]. clear x Ht. intros _ x Ht.
  apply (wp_stays q _ _ text); [apply stays_read_jsonl|done|]. clear x Ht. intros lifecycle x Ht.
  apply wp_bind, wp_lift. destruct (phase_data lifecycle) as [[[origin phases] bounds]|]; [|done].
  apply wp_bind, wp_lift. destruct (lifecycle_records bounds lifecycle) as [rc|]; [|done].
  apply (wp_stays q _ _ text); [apply stays_load_lime|done|]. clear x Ht. intros lime_ x Ht.
  apply wp_bind, wp_lift. destruct (trace_end_of _ _ _) as [trace_end|]; [|done].
  apply wp_bind, wp_lift. case_match; [|done]. apply wp_bind, wp_lift. case_match; [|done].
  do 3 (apply (wp_stays q _ _ text); [apply stays_csv; by intros ?%pjoin_inj|done|]; clear x Ht; intros _ x Ht).
  unfold optional_text at 1. apply wp_bind, wp_bind. destruct x as [t w].
  apply wp_sys. intros r o Ho. rewrite (text_exists q (w_os w) text Ht) in Ho. injection Ho as <- <-.
  apply wp_bind, wp_sys. intros r o Ho.
  assert (text_at (handle (PathExists q) (w_os w)).2 q = Some text) as Ht' by (by rewrite text_kept).
  simpl in Ho. rewrite (text_read q _ text Ht') in Ho. injection Ho as <- <-. apply wp_ret.
  apply wp_bind, wp_lift. destruct (fold_outcome stdout_line no_stdout _) as [out|] eqn:Hout; [|done].
  apply wp_skip; [intros manifest x|done].
  apply wp_bind, wp_lift. case_match; [|done]. apply wp_skip; [intros log x2|done].
  apply wp_bind, wp_lift. case_match; [|done]. apply wp_skip; [intros _ x3|done].
  apply wp_bind, wp_lift. destruct (startup_summary _) as [summary|] eqn:Hs; [|done].
  apply wp_skip; [intros _ x4|done]. apply wp_ret.
  destruct (summary_reports _ _ Hs) as (final & Hfinal & Hsucc). exists final. split; [exact Hfinal|].
  intros Hok. apply Hsucc in Hok. destruct (output_reports _ _ _ Hout Hok) as [Hno|Hyes]; [discriminate Hno|exact Hyes].
Qed.

Section success.
Context {W : Type} `{OS W} (s : RealSenseStartupBench) (expired_output : exn → string).
Abbreviation state := (SystemControls * world W)%type.
Implicit Types x y : state.

Definition attempt_command (scheduled : list string) (dir : string) : list string :=
  traced_command scheduled (_tracer s) (dir // "thread_lifecycle.jsonl") (_lime s) (dir // "lime_trace") true
    (su_use_sudo (arguments s)) [].
(** The benchmark returned the output in its time. *)
Definition printed (command : list string) (timeout : Z) (output : string) : Prop :=
  ∃ w : W, (handle (RunBench command timeout) w).1 = Ok output.
Definition ran_well (policy : string) (delay : Z) (dir output : string) x y : Prop :=
  ∃ scheduled, _scheduled_probe s policy delay = Ok scheduled ∧
    let command := attempt_command scheduled dir in
    let timeout := attempt_timeout s delay in
    printed command timeout output ∧ logged x y [EBench command timeout].

Lemma run_traced_says command timeout x :
  wp (run_traced expired_output command timeout)
     (λ r y, r.2 = false → printed command timeout r.1 ∧ logged x y [EBench command timeout]) (λ _ _, True) x.
Proof.
  destruct x as [t w]. unfold run_traced. apply wp_try.
  eapply (wp_conseq _ (λ r y, r.2 = false → printed command timeout r.1 ∧ logged (t, w) y [EBench command timeout]) _ (λ _ _, True)).
  - apply wp_bind, wp_sys. intros [output|e] o Ho; [|done]. apply wp_ret. intros _. split.
    + exists (w_os w). by rewrite Ho.
    + by exists [EBench command timeout].
  - done.
  - intros e y _. destruct (is_TimeoutExpired e); [by apply wp_ret|done].
Qed.
(** Steps that only add to the log. *)
Lemma wp_quiet_step {A B} (m : M state A) (k : A → M state B) Q x :
  makes (@quiet) m → (∀ a y, grows x y → wp (k a) Q (λ _ _, True) y) → wp (bind m k) Q (λ _ _, True) x.
Proof. intros Hm Hk. apply wp_grows; [by eapply makes_grows|exact Hk|done]. Qed.
Lemma attempt_ran_well policy delay n dir manifest x :
  wp (_run_attempt s expired_output policy delay n dir manifest)
     (λ r y, ∃ expired, (expired = false → ran_well policy delay dir r.1 x y) ∧
        (expired = true → truthy (dgetd "process_error" VNone r.2) = true)) (λ _ _, True) x.
Proof.
  unfold _run_attempt. apply wp_quiet_step; [solve_makes|intros _ x1 H1].
  apply wp_bind, wp_lift. destruct (_scheduled_probe s policy delay) as [scheduled|] eqn:Hs; [|done]. cbv zeta.
  fold (attempt_command scheduled dir).
  apply wp_quiet_step; [solve_makes|intros _ x2 H2].
  apply wp_quiet_step; [apply quiet_kernel_log|intros log x3 H3].
  apply wp_bind, wp_finally. eapply wp_conseq; [apply run_traced_says| |].
  - intros ran x4 Hran. eapply (wp_within grows); [eapply makes_grows, quiet_capture| |done]. intros _ x5 H5.
    apply wp_quiet_step; [solve_makes|intros _ x6 H6].
    apply wp_quiet_step; [apply quiet_parse_startup|intros summary x7 H7]. apply wp_ret.
    exists ran.2. split.
    + intros Hr. destruct (Hran Hr) as [Hp Hl]. exists scheduled. split; [done|]. split; [done|].
      eapply logged_before; [by do 2 (etrans; [eassumption|])|]. eapply logged_after; [exact Hl|].
      by do 2 (etrans; [eassumption|]).
    + intros ->. unfold dgetd. simpl. by rewrite dget_dset_eq.
  - intros e x4 _. unfold wp. by destruct (capture_kernel_delta _ _ _ _ _) as [[] ?].
Qed.
Lemma attempt_reports `{!TextFiles W} `{!TraceFiles W} policy delay n dir manifest x :
  wp (_run_attempt s expired_output policy delay n dir manifest)
     (λ r _, ∃ final, dget "startup_result" r.2 = Some (VDict final) ∧
        (succeeded final = true → Exists reports (py_splitlines r.1))) (λ _ _, True) x.
Proof.
  unfold _run_attempt. apply wp_skip; [intros _ x1|done].
  apply wp_bind, wp_lift. destruct (_scheduled_probe _ _ _); [|done]. cbv zeta.
  do 2 (apply wp_skip; [intros ? ?|done]). apply wp_skip; [intros ran [t w]|done]. apply wp_bind.
  eapply wp_conseq; [apply wp_write_text| |done]. intros [] x4 Ht.
  apply wp_bind. eapply wp_conseq; [by apply parse_reports| |done]. intros summary x5 (final & Hf & Hr). apply wp_ret.
  exists final. split; [|exact Hr]. simpl. destruct ran.2; [|done]. by rewrite dget_dset_ne.
Qed.
End success.

(** C33: A successful startup was reported in time.  When an attempt returns and
    its summary is classified as a success, the traced probe ran with the
    scheduler and the arguments of the options, the output is what the benchmark
    printed within its timeout, and a line of it is a result in which the probe
    reports success. *)
Theorem successful_startup_was_reported {W} `{OS W} `{!TextFiles W} `{!TraceFiles W} s expired_output policy delay n dir manifest
    (x : SystemControls * world W) output summary d :
  let run := _run_attempt s expired_output policy delay n dir manifest x in
  run.1 = Ok (output, summary) → classify_attempt summary = Ok d → success d = true →
  ran_well s policy delay dir output x run.2 ∧ Exists reports (py_splitlines output).
Proof.
  intros run Hrun Hd Hs. subst run.
  pose proof (attempt_ran_well s expired_output policy delay n dir manifest x) as Hwell.
  pose proof (attempt_reports s expired_output policy delay n dir manifest x) as Hrep.
  unfold wp in Hwell, Hrep. destruct (_run_attempt _ _ _ _ _ _ _ _) as [r y]. simpl in Hrun. subst r. simpl in *.
  destruct Hwell as (expired & Hok & Hexp), Hrep as (final & Hf & Hr). unfold classify_attempt in Hd.
  assert (dgetd "startup_result" (VDict []) summary = VDict final) as Hg by (unfold dgetd; by rewrite Hf).
  rewrite Hg in Hd. simpl in Hd.
  apply outcome_bind_ok in Hd as (error & _ & [= <-]). simpl in Hs. apply andb_true_iff in Hs as [Hs He].
  split; [apply Hok; destruct expired; [|done]; specialize (Hexp eq_refl)|by apply Hr].
  unfold dgetd in Hexp, He. by destruct (dget "process_error" summary) as [v|]; [rewrite Hexp in He|].
Qed.

(** ** The cleanup after a campaign *)

Section cleanup.
Context {W : Type} `{OS W} (s : RealSenseStartupBench) (fuel : nat).
Abbreviation state := (SystemControls * world W)%type.
Implicit Types x y : state.

(** Both actions, one after the other, whatever each of them does. *)
Definition cleaned_up y : state := (restore_cpu_frequency s (restore_v4l2_binding s fuel y).2).2.
Definition cleanup_returned y : bool :=
  returned (restore_v4l2_binding s fuel y) && returned (restore_cpu_frequency s (restore_v4l2_binding s fuel y).2).
Definition cleanup_caught y : bool :=
  caught (restore_v4l2_binding s fuel y) && caught (restore_cpu_frequency s (restore_v4l2_binding s fuel y).2).

Lemma run_cleanups_spec y : cleanup_caught y = true →
  ∃ errors, run_cleanups s fuel y = (Ok errors, cleaned_up y) ∧ bool_decide (errors = []) = cleanup_returned y.
Proof.
  unfold cleanup_caught. intros [H1 H2]%andb_true_iff.
  unfold run_cleanups, cleanup_actions, fold_each, bind, cleaned_up, cleanup_returned.
  change (StartupBench.cleanup_action (W := W)) with (SystemControls.cleanup_step (W := W)).
  rewrite cleanup_step_run by done. cbv beta iota. rewrite cleanup_step_run by done. cbv beta iota. unfold ret.
  eexists. split; [reflexivity|].
  destruct (restore_v4l2_binding s fuel y) as [[[]|e1] y1]; simpl in *;
    destruct (restore_cpu_frequency s y1) as [[[]|e2] y2]; simpl in *; done.
Qed.
Lemma restored_frequency y : returned (restore_cpu_frequency s y) = true →
  cpu_restore_needed (restore_cpu_frequency s y).2.1 = false.
Proof.
  unfold restore_cpu_frequency. destruct y as [c w]. destruct (cpu_restore_needed c) eqn:Hn.
  - pose proof (restore_frequency_post (controls_config s) c w Hn) as Hp. unfold wp in Hp.
    destruct (SystemControls.restore_cpu_frequency _ (c, w)) as [[] ?]; [intros _; exact (proj1 Hp)|done].
  - intros _. unfold SystemControls.restore_cpu_frequency, bind, self, gets. simpl. by rewrite Hn.
Qed.
End cleanup.

(** The cleanup of a campaign runs both actions and hides no failure.
    Unless an action is interrupted by something that is not an [Exception],
    the campaign ends in the state in which the camera driver and then the CPU
    frequency were restored, whatever the campaign did; an exception of the
    campaign is the one that is raised; after a campaign that returned, the
    failure of an action is a [RuntimeError]; and when the whole returns, the CPU
    frequency is not marked as changed any more. *)
Theorem campaign_cleanup_hides_nothing {W} `{OS W} s fuel campaign (x : SystemControls * world W) :
  let ended := campaign x in
  let run := _run_campaign_with_cleanup s fuel campaign x in
  raised ended ≠ Some OutOfFuel → cleanup_caught s fuel ended.2 = true →
  run.2 = cleaned_up s fuel ended.2 ∧
  match ended.1 with
  | Raise e => run.1 = Raise e
  | Ok _ => if cleanup_returned s fuel ended.2 then run.1 = Ok () ∧ cpu_restore_needed run.2.1 = false
            else raised run = Some RuntimeError
  end.
Proof.
  intros ended run Hfuel Hc. destruct (run_cleanups_spec s fuel ended.2 Hc) as (errors & He & Hr).
  unfold run, _run_campaign_with_cleanup, bind, try_except. fold ended.
  destruct ended as [[[]|e] y]; simpl in Hc, He, Hr, Hfuel |- *.
  - rewrite He, <- Hr. case_bool_decide as Hn; simpl; [|by split].
    split; [done|]. split; [done|]. symmetry in Hr. apply andb_true_iff in Hr as [_ Hr]. by apply restored_frequency.
  - assert (is_BaseException e = true) as ->.
    { unfold is_BaseException, is_class. apply negb_true_iff, bool_decide_eq_false_2. congruence. }
    by rewrite He.
Qed.

(** ** Applications *)

Definition demo_arguments (method : string) : startup_arguments := {|
  su_repo_root := "/repo"; su_build_dir := "/build"; su_lime := "/lime"; su_cycles := 2; su_frames := 10; su_serial := "123";
  su_frame_timeout_ms := 1500; su_join_timeout_ms := 10; su_process_timeout_seconds := 30;
  su_recovery_reset_timeout_ms := 5000; su_recover_on_failure := method; su_recovery_wait_seconds := f_of_Z 10;
  su_recovery_settle_seconds := f_of_Z 0; su_max_attempts_per_run := 3; su_reset_before_run := true; su_use_sudo := false |}.
Definition demo_bench (method : string) : RealSenseStartupBench :=
  {| arguments := demo_arguments method; _build_dir := "/build"; _lime := "/lime" |}.
Definition demo_controls : SystemControls := SystemControls.initial (controls_config (demo_bench "usb")).

(** The clock of [Clock], on a machine with a camera whose commands succeed. *)
Definition port_handle {A} (c : syscall A) (awake : bool) : outcome A * bool :=
  match c in syscall A return outcome A * bool with
  | RunCommand _ _ _ => (Ok (Completed 0 "RS_DEVICE" ""), awake)
  | ReadText _ => (Ok ("7" +:+ nl), awake)
  | IsFile _ => (Ok true, awake)
  | Resolve p => (Ok p, awake)
  | WriteJson _ _ => (Ok (), awake)
  | c => tick_handle c awake
  end.
Definition port_os : OS bool := @port_handle.
Definition port_clock : @Clock bool port_os.
Proof.
  refine (@Build_Clock bool port_os (λ d, d ∈ tick_deadlines) (λ _ (awake : bool), if awake then 1 else 0)%nat
    (@clock_due bool tick_os tick_clock) (@clock_reached bool tick_os tick_clock) (@clock_sleep bool tick_os tick_clock) _ _).
  - intros d A c w. destruct c, w; simpl; lia.
  - intros A c w e. by destruct c; intros [= <-].
Defined.
Definition demo_device : pydict := [("physical_port", VStr "/sys/bus/usb/devices/2-1:1.0")].
Abbreviation demo_recovery := (@recover_attempt bool port_os (demo_bench "usb") 2 [("device", VDict demo_device)]
  "/r/attempt-1" {| success := false; failure_phase := "startup"; retry := true; Attempts.recover := true;
                    Attempts.error := ""; metadata := [] |} (demo_controls, World true [])).
Definition recovery_of (r : outcome pydict) : pydict := match r with Ok r => r | Raise _ => [] end.

Lemma successful_recovery_has_evidence_witness :
  in_fuel demo_recovery ∧ succeeded (recovery_of demo_recovery.1) = true ∧
  ∃ target, logged (demo_controls, World true []) demo_recovery.2 (relisted (demo_bench "usb") target).
Proof.
  assert (@ends_within bool port_os port_clock (f_of_Z 10) 2) as Ht.
  { intros [] now [= <-]; (split; [|simpl; lia]).
    - change (f_add (f_of_Z 0) (f_of_Z 10) ∈ tick_deadlines). apply (bool_decide_unpack _); vm_compute; done.
    - change (f_add f_largest (f_of_Z 10) ∈ tick_deadlines). apply (bool_decide_unpack _); vm_compute; done. }
  assert (succeeded (recovery_of demo_recovery.1) = true) as Hs by (vm_compute; reflexivity).
  destruct (@successful_recovery_has_evidence bool port_os port_clock (demo_bench "usb") 2
    [("device", VDict demo_device)] demo_device "/r/attempt-1" {| success := false; failure_phase := "startup"; retry := true;
      Attempts.recover := true; Attempts.error := ""; metadata := [] |} (demo_controls, World true []) Ht eq_refl) as [Hf He].
  split; [exact Hf|]. split; [exact Hs|]. destruct demo_recovery as [[r|e] y]; [|discriminate Hs].
  destruct (He r y eq_refl Hs) as (es & [target ->] & Hl). exists target. exact Hl.
Defined.

(** A machine on which the probe prints one result. *)
#[local] Instance desk_commands : Commands := λ _ _ m, (exit_status 0 "", m).
Definition result_line : string := "RS_STARTUP_RESULT {" +:+ json_string "success" +:+ ": true}".
Definition desk_handle {A} (c : syscall A) (m : machine) : outcome A * machine :=
  match c in syscall A return outcome A * machine with
  | RunBench _ _ => (Ok ("probe" +:+ nl +:+ result_line +:+ nl), m)
  | c => sim_handle c m
  end.
Definition desk_os : OS machine := @desk_handle.
Definition desk_files : @TextFiles machine desk_os :=
  @Build_TextFiles machine desk_os (λ m p, dget p (m_files m))
    (@text_read machine _ _) (@text_is_file machine _ _) (@text_write machine _ _) (@text_query machine _ _)
    (@text_resolve machine _ _) (@text_read_json machine _ _) (@text_write_json machine _ _).
Lemma desk_kept {A} (c : syscall A) (m : machine) q :
  keeps_text q A c = true → dget q (m_files (desk_handle c m).2) = dget q (m_files m).
Proof.
  destruct c; intros Hk; try discriminate Hk; try reflexivity. simpl in *.
  apply negb_true_iff, bool_decide_eq_false in Hk. by apply dget_dset_ne.
Qed.
Definition desk_trace : @TraceFiles machine desk_os desk_files.
Proof.
  refine (@Build_TraceFiles machine desk_os desk_files _ _); [|intros A c w q; apply desk_kept].
  intros p w t Ht. unfold handle, desk_os, desk_handle. simpl in *. unfold has.
  by rewrite (bool_decide_eq_true_2 (is_Some (dget p (m_files w)))) by (rewrite Ht; eauto).
Defined.
Definition desk : machine := {|
  m_files := []; m_json := [("/r/attempt-1/thread_lifecycle.jsonl", VList [
     VDict [("event", VStr "phase_marker"); ("name", VStr "process_start"); ("tid", VInt 10); ("timestamp_ns", VInt 1)];
     VDict [("event", VStr "phase_marker"); ("name", VStr "process_end"); ("tid", VInt 10); ("timestamp_ns", VInt 9)]])];
  m_dirs := []; m_globs := []; m_links := []; m_clock := f_zero; m_boottime := 0; m_euid := 0; m_affinity := ∅ |}.
Abbreviation desk_attempt :=
  (@_run_attempt machine desk_os (demo_bench "usb") (λ _, "") "rr" 0 1 "/r/attempt-1" [] (demo_controls, World desk [])).
Definition attempt_of (r : outcome (string * pydict)) : string * pydict := match r with Ok r => r | Raise _ => ("", []) end.
Example desk_ran : raised desk_attempt = None.
Proof. vm_compute. reflexivity. Qed.
Lemma successful_startup_was_reported_witness :
  ∃ output summary d, desk_attempt.1 = Ok (output, summary) ∧ classify_attempt summary = Ok d ∧ success d = true ∧
    @ran_well machine desk_os (demo_bench "usb") "rr" 0 "/r/attempt-1" output (demo_controls, World desk []) desk_attempt.2 ∧
    Exists reports (py_splitlines output).
Proof.
  assert (match desk_attempt.1 with
          | Ok (_, summary) => match classify_attempt summary with Ok d => success d | _ => false end
          | _ => false end = true) as Hok by (vm_compute; reflexivity).
  destruct desk_attempt.1 as [[output summary]|e] eqn:Hrun; [|discriminate Hok].
  destruct (classify_attempt summary) as [d|] eqn:Hd; [|discriminate Hok]. exists output, summary, d.
  split; [done|]. split; [done|]. split; [done|].
  exact (@successful_startup_was_reported machine desk_os desk_files desk_trace (demo_bench "usb") (λ _, "") "rr" 0 1
    "/r/attempt-1" [] (demo_controls, World desk []) output summary d Hrun Hd Hok).
Defined.

(** A campaign that is interrupted after the CPU frequency was locked. *)
Definition locked_controls : SystemControls :=
  set_original_state (Some [("policies", VList [])]) (set_restore_needed true demo_controls).
Definition interrupted (returns : bool) : M (SystemControls * world machine) unit :=
  set_self (λ _, locked_controls) ;; if returns then ret () else throw KeyboardInterrupt "".
Abbreviation demo_campaign returns :=
  (_run_campaign_with_cleanup (demo_bench "usb") 1 (interrupted returns) (demo_controls, World desk [])).
Lemma campaign_cleanup_hides_nothing_witness :
  (demo_campaign true).1 = Ok () ∧ cpu_restore_needed (demo_campaign true).2.1 = false ∧
  (demo_campaign false).1 = raise KeyboardInterrupt "" ∧
  (demo_campaign false).2 = cleaned_up (demo_bench "usb") 1 (locked_controls, World desk []).
Proof.
  assert (∀ returns, raised (interrupted returns (demo_controls, World desk [])) ≠ Some OutOfFuel) as Hf by (by intros []).
  assert (∀ returns, cleanup_caught (demo_bench "usb") 1 (interrupted returns (demo_controls, World desk [])).2 = true) as Hc
    by (intros []; vm_compute; reflexivity).
  assert (cleanup_returned (demo_bench "usb") 1 (locked_controls, World desk []) = true) as Hr by (vm_compute; reflexivity).
  destruct (campaign_cleanup_hides_nothing (demo_bench "usb") 1 (interrupted true) (demo_controls, World desk []) (Hf true) (Hc true))
    as [_ Ht].
  destruct (campaign_cleanup_hides_nothing (demo_bench "usb") 1 (interrupted false) (demo_controls, World desk []) (Hf false) (Hc false))
    as [Hs He].
  change ((interrupted true (demo_controls, World desk [])).2) with (locked_controls, World desk []) in Ht.
  rewrite Hr in Ht. destruct Ht as [Hok Hn]. split; [exact Hok|]. split; [exact Hn|]. split; [exact He|exact Hs].
Defined.
