(* ===== verification/MultiCamera.v ===== *)
(** * Multi-camera campaigns ([run_multicamera_campaign.py])

    The registry of known cameras, the inventory of what is connected, the check
    of a frozen layout against it, the plan of the cases of a suite, and the
    command that runs the steady-state campaign on them. *)
From Stdlib Require Import Ascii ZArith Lia Floats.SpecFloat Strings.String.
From S2P Require Import Prelude PyStr PyFloat PyVal PyJson FloatOrder Effects Machine Shell.
From S2P Require Import Devices StartupTrace Commands.
From stdpp Require Import base gmap strings list.
Local Open Scope Z_scope.
Local Open Scope py_scope.
Local Open Scope M_scope.

(** ** Text *)

Definition upper_char (a : ascii) : ascii :=
  let n := code a in if ((97 <=? n) && (n <=? 122))%nat then Ascii.ascii_of_nat (n - 32) else a.
Definition py_upper : string → string := string_map upper_char.
Definition str_lt (a b : string) : bool := String.ltb a b.
Definition pair_lt {A} (lt : A → A → bool) (eq : A → A → bool) (x y : A * string) : bool :=
  lt x.1 y.1 || eq x.1 y.1 && str_lt x.2 y.2.
(** [sorted(l, key=key)] of keys that may raise: the keys are computed first. *)
Definition sorted_keyed {A K} (lt : K → K → bool) (key : A → outcome K) (l : list A) : outcome (list A) :=
  keyed ← traverse (λ x, k ← key x; Ok (k, x)) l; Ok (sort_by (λ x y : K * A, lt x.1 y.1) keyed).*2.
Definition str_pair_lt : string * string → string * string → bool := pair_lt str_lt (λ a b, bool_decide (a = b)).

(** ** Cameras *)

Abbreviation camera := pydict.
(** [str(camera[field])] and [str(camera.get(field, default))]. *)
Definition need (field : string) (c : camera) : outcome string := v ← subscript c field; Ok (str_val v).
Definition may (field default : string) (c : camera) : string := str_val (dgetd field (VStr default) c).
(** Two strings are the same, or two lists have no element twice. *)
Definition no_duplicates (l : list string) : bool := bool_decide (NoDup l).

(** *** The registry *)

Definition REQUIRED : list string := ["label"; "model"; "product_id"; "librealsense_serial"; "usb_descriptor_serial"].
Definition list_of_cameras (v : pyval) : option (list pyval) := match v with VList (x :: l) => Some (x :: l) | _ => None end.
(** [camera.items()] of what is no object raises. *)
Definition registry_entry (v : pyval) : outcome camera :=
  match v with
  | VDict d =>
      let record := dupdate [] (map (λ kv, (kv.1, VStr (str_val kv.2))) d) in
      match filter (λ k, may k "" record = "") REQUIRED with
      | [] => Ok (dset "product_id" (VStr (py_lower (may "product_id" "" record)))
                   (dset "model" (VStr (py_upper (may "model" "" record))) record))
      | missing => raise ValueError ("camera registry entry is missing " +:+ py_join ", " missing +:+ ": " +:+ repr_val v)
      end
  | _ => raise AttributeError "object has no attribute 'items'"
  end.
Fixpoint check_unique (message : string → string) (fields : list string) (l : list camera) : outcome unit :=
  match fields with
  | [] => Ok ()
  | field :: fields => if no_duplicates (map (may field "") l) then check_unique message fields l
                       else raise ValueError (message field)
  end.
Definition parse_registry (path : string) (v : pyval) : outcome (list camera) :=
  registry ← as_dict v;
  if negb (py_eq (dgetd "schema_version" VNone registry) (VInt 1)) then
    raise ValueError ("unsupported camera registry schema in " +:+ path)
  else match list_of_cameras (dgetd "cameras" VNone registry) with
  | None => raise ValueError ("camera registry has no cameras: " +:+ path)
  | Some cameras =>
      normalized ← traverse registry_entry cameras;
      _ ← check_unique (λ f, "camera registry has duplicate " +:+ f +:+ " values")
            ["label"; "librealsense_serial"; "usb_descriptor_serial"] normalized;
      Ok normalized
  end.

(** *** The inventory *)

Definition usb_serial_of (device : pydict) : string :=
  str_val (dgetd "usb_descriptor_serial" (dgetd "serial" (VStr "") device) device).
Definition known_by_usb_serial (known : list camera) : outcome (list (string * camera)) :=
  keyed ← traverse (λ c, k ← need "usb_descriptor_serial" c; Ok (k, c)) known;
  Ok (foldl (λ d kc, dset kc.1 kc.2 d) [] keyed).
Definition label_camera (known : list (string * camera)) (device : pydict) : outcome camera :=
  let usb_serial := usb_serial_of device in
  match dget usb_serial known with
  | None => raise ValueError ("connected RealSense camera is absent from the camera registry: model=" +:+ may "model" "unknown" device
      +:+ " product_id=" +:+ may "product_id" "" device +:+ " usb_descriptor_serial=" +:+ usb_serial
      +:+ "; query its librealsense serial and add both serial namespaces to the registry")
  | Some entry =>
      let model := py_upper (may "model" "unknown" device) in
      known_model ← need "model" entry; known_product ← need "product_id" entry;
      if negb (bool_decide (model = py_upper known_model))
         || negb (bool_decide (py_lower (may "product_id" "" device) = py_lower known_product)) then
        raise ValueError (usb_serial +:+ ": registry identity is " +:+ py_upper known_model +:+ "/" +:+ py_lower known_product
          +:+ ", but sysfs reports " +:+ model +:+ "/" +:+ may "product_id" "" device)
      else
      serial ← need "librealsense_serial" entry; label ← need "label" entry;
      let copy field := (field, VStr (may field "" device)) in
      Ok [("label", VStr label); ("model", VStr model); ("serial", VStr serial); ("librealsense_serial", VStr serial);
          ("usb_descriptor_serial", VStr usb_serial); copy "product_id"; copy "product"; copy "usb_device";
          copy "upstream_hub"; copy "xhci_controller"; copy "speed_mbps"; copy "power_control"]
  end.
Definition _camera_labels (devices : list pydict) (known_cameras : list camera) : outcome (list camera) :=
  known ← known_by_usb_serial known_cameras;
  devices ← sorted_keyed str_pair_lt (λ d, Ok (may "model" "" d, usb_serial_of d)) devices;
  traverse (label_camera known) devices.

(** [defaultdict(list)] keyed by hub. *)
Definition hub_of (c : camera) : string := may "upstream_hub" "unknown" c.
Definition add_to_hub (groups : list (string * list camera)) (c : camera) : list (string * list camera) :=
  dset (hub_of c) (default [] (dget (hub_of c) groups) ++ [c]) groups.
Definition by_hub (cameras : list camera) : list (string * list camera) := foldl add_to_hub [] cameras.
Definition camera_key (c : camera) : outcome (string * string) := model ← need "model" c; serial ← need "serial" c; Ok (model, serial).
Definition sort_group (g : string * list camera) : outcome (string * list camera) :=
  l ← sorted_keyed str_pair_lt camera_key g.2; Ok (g.1, l).
(** One turn of the outer loop: the first camera of each hub that has one. *)
Definition hub_heads (groups : list (string * list camera)) : list camera := omap (λ g, head g.2) groups.
Definition hub_tails (groups : list (string * list camera)) : list (string * list camera) := map (λ g, (g.1, tail g.2)) groups.
Fixpoint take_turns (fuel : nat) (groups : list (string * list camera)) : list camera :=
  match fuel with
  | O => []
  | S fuel => if existsb (λ g, negb (bool_decide (g.2 = []))) groups
              then hub_heads groups ++ take_turns fuel (hub_tails groups) else []
  end.
(** Every turn takes a camera, so that their number is enough fuel. *)
Definition _spread (cameras : list camera) : outcome (list camera) :=
  groups ← traverse sort_group (by_hub cameras);
  Ok (take_turns (length cameras) (sort_by (λ x y, str_lt x.1 y.1) groups)).

Definition model_priority (model : string) : Z :=
  default 99 (dget model [("D455", 0); ("D435", 1); ("D415", 2)]).
Definition model_lt (models : list string) (a b : string) : bool :=
  let key m := (- counter m models, model_priority m) in
  bool_decide ((key a).1 < (key b).1)
  || bool_decide ((key a).1 = (key b).1) && bool_decide ((key a).2 < (key b).2)
  || bool_decide (key a = key b) && str_lt a b.
Definition scaling_order_of (cameras : list camera) : outcome (list string) :=
  models ← traverse (need "model") cameras;
  orders ← traverse (λ model,
             l ← _spread (filter (λ c, py_eq (dgetd "model" VNone c) (VStr model) = true) cameras);
             traverse (need "label") l)
           (sort_by (model_lt models) (remove_dups models));
  Ok (concat orders).
Definition layout_of (devices : list pydict) (generated_at : string) (max_per_hub : Z) (known_cameras : list camera) : outcome pydict :=
  cameras ← _camera_labels devices known_cameras;
  scaling ← scaling_order_of cameras;
  Ok [("schema_version", VInt 2); ("generated_at_utc", VStr generated_at); ("max_cameras_per_powered_hub", VInt max_per_hub);
      ("cameras", VList (map VDict cameras)); ("scaling_order", VList (map VStr scaling));
      ("notes", VList (map VStr [
         "Keep this file with the result set: it freezes serial-to-port placement.";
         "Use no more than two cameras per 5 V / 3 A powered hub.";
         "Only cameras listed here may remain connected during this batch.";
         "Re-run inventory after physically changing any camera or hub port."]))].

(** ** The layout *)

Definition first_duplicate (groups : list (string * list string)) : option string :=
  head (omap (λ g, if no_duplicates g.2 then None else Some g.1) groups).
Definition parse_layout (path : string) (v : pyval) : outcome (pydict * list camera) :=
  layout ← as_dict v;
  if negb (py_eq (dgetd "schema_version" VNone layout) (VInt 2)) then raise ValueError ("unsupported layout schema in " +:+ path)
  else match list_of_cameras (dgetd "cameras" VNone layout) with
  | None => raise ValueError ("layout has no cameras: " +:+ path)
  | Some cameras =>
      cameras ← traverse as_dict cameras;
      let labels := map (may "label" "") cameras in
      let serials := map (may "librealsense_serial" "") cameras in
      let usb_serials := map (may "usb_descriptor_serial" "") cameras in
      if existsb (λ s, bool_decide (s = "")) (labels ++ serials ++ usb_serials) then
        raise ValueError "every layout camera needs a non-empty label, librealsense_serial, and usb_descriptor_serial"
      else match first_duplicate [("labels", labels); ("librealsense serials", serials); ("USB descriptor serials", usb_serials)] with
      | Some field => raise ValueError ("layout " +:+ field +:+ " must be unique")
      | None =>
          if forallb (λ c, bool_decide (may "serial" "" c = may "librealsense_serial" "" c)) cameras then Ok (layout, cameras)
          else raise ValueError "layout serial must equal librealsense_serial"
      end
  end.

(** *** The check of the layout *)

Record messages := { errors : list string; warnings : list string }.
Definition no_messages : messages := {| errors := []; warnings := [] |}.
Definition error (m : string) (r : messages) : messages := {| errors := errors r ++ [m]; warnings := warnings r |}.
Definition warning (m : string) (r : messages) : messages := {| errors := errors r; warnings := warnings r ++ [m] |}.
(** [sorted(a - b)] of sets of strings. *)
Definition set_difference (a b : list string) : list string := sorted_strings (filter (λ s, s ∉ b) (remove_dups a)).
Section check.
Context (connected : list pydict) (allow_extra_cameras allow_topology_change : bool).
Definition connected_by_serial : list (string * pydict) := devices_by_serial connected.
Definition check_presence (expected : list string) (r : messages) : messages :=
  let missing := set_difference expected (dkeys connected_by_serial) in
  let extra := set_difference (dkeys connected_by_serial) expected in
  let r := if bool_decide (missing = []) then r
           else error ("layout cameras are missing by USB descriptor serial: " +:+ py_join ", " missing) r in
  if bool_decide (extra = []) then r
  else if allow_extra_cameras then warning ("extra connected cameras: " +:+ py_join ", " extra) r
  else error ("unlisted RealSense cameras are connected by USB descriptor serial: " +:+ py_join ", " extra) r.
Definition check_model (serial : string) (expected actual : camera) (r : messages) : messages :=
  let expected_model := py_upper (may "model" "" expected) in
  let actual_model := py_upper (may "model" "" actual) in
  if bool_decide (expected_model = "") || bool_decide (actual_model = expected_model) then r
  else error (serial +:+ ": model changed from " +:+ expected_model +:+ " to " +:+ actual_model) r.
Definition check_field (serial : string) (expected actual : camera) (r : messages) (field : string) : messages :=
  let old := may field "" expected in
  let new := may field "" actual in
  if bool_decide (old = "") || bool_decide (new = old) then r
  else (if allow_topology_change then warning else error)
         (serial +:+ ": " +:+ field +:+ " changed from " +:+ old +:+ " to " +:+ new) r.
Definition speed_of (actual : camera) : f64 := default f_zero (float_of_string (may "speed_mbps" "0" actual)).
Definition repr_field (field : string) (c : camera) : string := repr_val (dgetd field VNone c).
Definition check_speed (serial : string) (actual : camera) (r : messages) : messages :=
  if f_lt (speed_of actual) (f_of_Z 5000) then
    error (serial +:+ ": USB speed is " +:+ repr_field "speed_mbps" actual +:+ " Mbps, expected SuperSpeed (at least 5000 Mbps)") r
  else r.
Definition check_power (serial : string) (actual : camera) (r : messages) : messages :=
  if py_eq (dgetd "power_control" VNone actual) (VStr "on") then r
  else warning (serial +:+ ": power/control=" +:+ repr_field "power_control" actual
         +:+ "; the steady campaign will force it to 'on' before measurement") r.
(** One camera of the layout: what it is reported as when it is connected. *)
Definition check_camera (v : list camera * messages) (expected : camera) : outcome (list camera * messages) :=
  serial ← need "librealsense_serial" expected; usb_serial ← need "usb_descriptor_serial" expected;
  match dget usb_serial connected_by_serial with
  | None => Ok v
  | Some actual =>
      let r := check_model serial expected actual v.2 in
      let r := foldl (check_field serial expected actual) r ["usb_device"; "upstream_hub"; "xhci_controller"] in
      let r := check_power serial actual (check_speed serial actual r) in
      label ← need "label" expected;
      Ok (v.1 ++ [dupdate actual [("label", VStr label); ("serial", VStr serial); ("librealsense_serial", VStr serial);
                                  ("usb_descriptor_serial", VStr usb_serial)]], r)
  end.
Definition hub_counts (l : list camera) : list (string * Z) :=
  map (λ hub, (hub, counter hub (map hub_of l))) (sorted_set (map hub_of l)).
Definition check_hubs (max_per_hub : Z) (verified : list camera) (r : messages) : messages :=
  match filter (λ hc, max_per_hub < hc.2) (hub_counts verified) with
  | [] => r
  | overloaded => error ("powered-hub camera limit exceeded: "
      +:+ py_join ", " (map (λ hc, hc.1 +:+ "=" +:+ str_Z hc.2) overloaded)) r
  end.
Definition controllers (verified : list camera) : list string := sorted_set (map (may "xhci_controller" "") verified).
Definition check_controllers (verified : list camera) (r : messages) : messages :=
  if bool_decide (1 < length verified)%nat
     && bool_decide (length (filter (λ c, c ≠ "") (controllers verified)) < 2)%nat then
    warning ("all cameras appear below one xHCI controller; record this as a "
      +:+ "shared-controller topology rather than assuming independent links") r
  else r.
Record report := { verified_cameras : list camera; r_warnings : list string; layout_camera_count : Z }.
Definition check_layout (layout : pydict) (layout_cameras : list camera) : outcome report :=
  expected ← traverse (need "usb_descriptor_serial") layout_cameras;
  v ← fold_outcome check_camera ([], check_presence expected no_messages) layout_cameras;
  max_per_hub ← py_int (dgetd "max_cameras_per_powered_hub" (VInt 2) layout);
  let r := check_controllers v.1 (check_hubs max_per_hub v.1 v.2) in
  match errors r with
  | [] => Ok {| verified_cameras := v.1; r_warnings := warnings r; layout_camera_count := Z.of_nat (length layout_cameras) |}
  | errors => raise RuntimeError ("preflight failed: " +:+ py_join " | " errors)
  end.
Definition report_dict (r : report) : pydict := [
  ("success", VBool true); ("errors", VList []); ("warnings", VList (map VStr (r_warnings r)));
  ("layout_camera_count", VInt (layout_camera_count r)); ("connected_camera_count", VInt (Z.of_nat (length connected)));
  ("verified_cameras", VList (map VDict (verified_cameras r)));
  ("hub_counts", VDict (map (λ hc, (hc.1, VInt hc.2)) (hub_counts (verified_cameras r))));
  ("xhci_controllers", VList (map VStr (controllers (verified_cameras r))))].
End check.

(** ** The cases *)

Record case := {
  case_id : string;
  workload : pydict;
  physical : pydict;
  serials : list string;
  stream_mode : string;
  frames : Z;
  measurement_duration_ms : Z;
  warmup_frames : Z;
  fps : Z;
  depth_width : Z;
  depth_height : Z;
  color_width : Z;
  color_height : Z;
  deadline_profile : option string;
}.
Definition _physical (cameras : list camera) : outcome pydict :=
  hubs ← traverse (need "upstream_hub") cameras;
  models ← traverse (need "model") cameras; labels ← traverse (need "label") cameras; serials ← traverse (need "serial") cameras;
  controllers ← traverse (need "xhci_controller") cameras;
  Ok [("camera_count", VInt (Z.of_nat (length cameras))); ("camera_models", VStr (py_join "+" models));
      ("camera_labels", VStr (py_join "+" labels)); ("camera_serials", VStr (py_join "+" serials));
      ("hub_distribution", VStr (py_join "+" (map (λ hub, hub +:+ ":" +:+ str_Z (counter hub hubs)) (sorted_set hubs))));
      ("hub_label", VStr "powered_usb3"); ("root_hub_label", VStr (py_join "+" (sorted_set controllers)));
      ("usb_speed_label", VStr "usb3_superspeed_preflight_verified")].
Definition _common_case (id : string) (cameras : list camera) (duration_seconds : Z) : outcome case :=
  physical ← _physical cameras; serials ← traverse (need "serial") cameras;
  Ok {| case_id := id;
        workload := [("class", VStr "heterogeneous_common"); ("measurement_seconds", VInt duration_seconds);
                     ("depth", VStr "848x480_Z16_30fps"); ("color", VStr "640x480_RGB8_30fps"); ("infrared", VStr "disabled")];
        physical := physical; serials := serials; stream_mode := "depth_color"; frames := duration_seconds * 30;
        measurement_duration_ms := duration_seconds * 1000; warmup_frames := 300; fps := 30; depth_width := 848;
        depth_height := 480; color_width := 640; color_height := 480; deadline_profile := None |}.
Record stress_profile := { sp_depth : Z * Z; sp_color : Z * Z; sp_fps : Z }.
Definition STEREO_STRESS_PROFILES : list (string * stress_profile) :=
  [("D435", {| sp_depth := (848, 480); sp_color := (960, 540); sp_fps := 60 |});
   ("D455", {| sp_depth := (848, 480); sp_color := (848, 480); sp_fps := 60 |})].
Definition size_text (p : Z * Z) : string := str_Z p.1 +:+ "x" +:+ str_Z p.2.
Definition _stereo_case (id : string) (cameras : list camera) (duration_seconds : Z) : outcome case :=
  models ← traverse (need "model") cameras;
  let models := sorted_set (map py_upper models) in
  let invalid := filter (λ m, m ∉ dkeys STEREO_STRESS_PROFILES) models in
  if negb (bool_decide (invalid = [])) then
    raise ValueError ("stereo_all is reserved for D435/D455; invalid: " +:+ py_join ", " invalid)
  else match models with
  | [model] =>
      match dget model STEREO_STRESS_PROFILES with
      | None => key_error model
      | Some p =>
          physical ← _physical cameras; serials ← traverse (need "serial") cameras;
          let fps := sp_fps p in
          let rate := str_Z fps +:+ "fps" in
          Ok {| case_id := id;
                workload := [("class", VStr "stereo_stress"); ("measurement_seconds", VInt duration_seconds);
                             ("depth", VStr (size_text (sp_depth p) +:+ "_Z16_" +:+ rate));
                             ("color", VStr (size_text (sp_color p) +:+ "_RGB8_" +:+ rate));
                             ("infrared", VStr ("IR1+IR2_" +:+ size_text (sp_depth p) +:+ "_Y8_" +:+ rate))];
                physical := physical; serials := serials; stream_mode := "d435_all"; frames := duration_seconds * fps;
                measurement_duration_ms := duration_seconds * 1000; warmup_frames := fps * 10; fps := fps;
                depth_width := (sp_depth p).1; depth_height := (sp_depth p).2; color_width := (sp_color p).1;
                color_height := (sp_color p).2; deadline_profile := None |}
      end
  | _ => raise ValueError "stereo stress profiles are model-specific; split mixed models into homogeneous cases"
  end.
Definition case_dict (c : case) : pydict := [
  ("case_id", VStr (case_id c)); ("workload", VDict (workload c)); ("physical", VDict (physical c));
  ("probe", VDict ([
     ("camera_count", VInt (Z.of_nat (length (serials c)))); ("serials", VList (map VStr (serials c)));
     ("stream_mode", VStr (stream_mode c)); ("delivery", VStr "wait"); ("frames", VInt (frames c));
     ("measurement_duration_ms", VInt (measurement_duration_ms c)); ("warmup_frames", VInt (warmup_frames c));
     ("frame_timeout_ms", VInt 1500); ("startup_timeout_ms", VInt 15000); ("fps", VInt (fps c));
     ("depth_width", VInt (depth_width c)); ("depth_height", VInt (depth_height c)); ("color_width", VInt (color_width c));
     ("color_height", VInt (color_height c))]
     ++ match deadline_profile c with Some p => [("deadline_profile", VStr p)] | None => [] end))].

(** ** The plan *)

Definition same_camera (a b : camera) : bool := py_eq (VDict a) (VDict b).
(** [camera not in selected]. *)
Definition not_in (l : list camera) (c : camera) : bool := negb (existsb (same_camera c) l).
(** The cameras chosen so far; [None] when a model has no camera left. *)
Definition used_lt (a b : Z * string) : bool := bool_decide (a.1 < b.1) || bool_decide (a.1 = b.1) && str_lt a.2 b.2.
Definition is_model (model : string) (c : camera) : outcome bool := m ← need "model" c; Ok (bool_decide (py_upper m = py_upper model)).
Definition of_model (model : string) (cameras : list camera) : outcome (list camera) :=
  marked ← traverse (λ c, b ← is_model model c; Ok (b, c)) cameras; Ok (filter (λ p, p.1 = true) marked).*2.
Fixpoint _choose_models (cameras : list camera) (models : list string) (selected : list camera) : outcome (option (list camera)) :=
  match models with
  | [] => Ok (Some selected)
  | model :: models =>
      candidates ← of_model model cameras;
      let used := map (may "upstream_hub" "") selected in
      sorted ← sorted_keyed used_lt (λ c, s ← need "serial" c; Ok (counter (may "upstream_hub" "" c) used, s))
                 (filter (λ c, not_in selected c = true) candidates);
      match sorted with
      | [] => Ok None
      | choice :: _ => _choose_models cameras models (selected ++ [choice])
      end
  end.
Definition _case_suffix (cameras : list camera) : outcome string := labels ← traverse (need "label") cameras; Ok (py_join "-" labels).
(** [range(first, min(4, n) + 1)]. *)
Definition counts_up_to (first n : nat) : list nat := seq first (S (4 `min` n) - first).

Section plan.
Context (layout : pydict) (cameras : list camera) (duration_seconds : Z).
Definition smoke_cases : outcome (list case) :=
  traverse (λ c, label ← need "label" c; _common_case ("smoke_common30_" +:+ label) [c] duration_seconds) cameras.
(** The labels of the layout in the order of scaling; any JSON list. *)
Definition configured_order : outcome (list string) :=
  l ← as_list (dgetd "scaling_order" (VList []) layout); Ok (map str_val l).
Definition order_for_scaling : outcome (list camera) :=
  labelled ← traverse (λ c, label ← need "label" c; Ok (label, c)) cameras;
  let by_label := foldl (λ d kc, dset kc.1 kc.2 d) [] labelled in
  order ← configured_order;
  if negb (no_duplicates order) then raise ValueError "layout scaling_order contains duplicate labels"
  else match set_difference order (dkeys by_label) with
  | [] =>
      let ordered := omap (λ label, dget label by_label) order in
      spread ← _spread cameras;
      Ok (foldl (λ l c, if not_in l c then l ++ [c] else l) ordered spread)
  | unknown => raise ValueError ("layout scaling_order contains unknown labels: " +:+ py_join ", " unknown)
  end.
Definition prefix_case (name : string) (make : string → list camera → Z → outcome case) (ordered : list camera) (count : nat) :
    outcome case :=
  let selected := take count ordered in
  suffix ← _case_suffix selected;
  make (name +:+ str_Z (Z.of_nat count) +:+ "_" +:+ suffix) selected duration_seconds.
Definition scaling_cases : outcome (list case) :=
  ordered ← order_for_scaling;
  traverse (prefix_case "scaling_common30_n" _common_case ordered) (counts_up_to 1 (length ordered)).
(** [itertools.combinations(models, 2)]. *)
Fixpoint pairs_of {A} (l : list A) : list (A * A) :=
  match l with [] => [] | x :: l => map (pair x) l ++ pairs_of l end.
Definition chosen_sets (models : list string) : outcome (list (list camera)) :=
  pairs ← traverse (λ p : string * string, _choose_models cameras [p.1; p.2] []) (pairs_of models);
  three ← (if forallb (λ m, bool_decide (m ∈ models)) ["D455"; "D435"; "D415"]
           then t ← _choose_models cameras ["D455"; "D435"; "D415"] []; Ok [t] else Ok []);
  four ← (if bool_decide (4 <= length cameras)%nat && bool_decide (2 <= length models)%nat
          then l ← _spread cameras; Ok [Some (take 4 l)] else Ok []);
  Ok (omap id (pairs ++ three ++ four)).
(** The sets without those whose serials were seen. *)
Fixpoint unseen_sets (seen : list (list string)) (l : list (list camera)) : outcome (list (list camera)) :=
  match l with
  | [] => Ok []
  | selected :: l =>
      serials ← traverse (need "serial") selected;
      let key := sorted_strings serials in
      if bool_decide (key ∈ seen) then unseen_sets seen l
      else rest ← unseen_sets (key :: seen) l; Ok (selected :: rest)
  end.
Definition heterogeneous_case (selected : list camera) : outcome case :=
  models ← traverse (need "model") selected; suffix ← _case_suffix selected;
  _common_case ("heterogeneous_common30_" +:+ py_join "-" (map py_lower models) +:+ "_" +:+ suffix) selected duration_seconds.
Definition heterogeneous_cases : outcome (list case) :=
  models ← traverse (need "model") cameras;
  sets ← chosen_sets (sorted_set (map py_upper models));
  sets ← unseen_sets [] sets;
  traverse heterogeneous_case sets.
Definition stereo_cases (model : string) : outcome (list case) :=
  matching ← of_model model cameras;
  ordered ← _spread matching;
  singles ← traverse (λ c, label ← need "label" c;
              _stereo_case (py_lower model +:+ "_stress60_n1_" +:+ label) [c] duration_seconds) ordered;
  more ← traverse (prefix_case (py_lower model +:+ "_stress60_n") _stereo_case ordered) (counts_up_to 2 (length ordered));
  Ok (singles ++ more).

(** Two cases with the same signature are one situation. *)
Definition signature (c : case) : list string * (string * list Z) :=
  (sorted_strings (serials c), (stream_mode c, [fps c; depth_width c; depth_height c; color_width c; color_height c])).
Definition keep_first (l : list case) (c : case) : list case :=
  if bool_decide (signature c ∈ map signature l) then l else l ++ [c].
Definition part (suites : list string) (suite : string) (cases : outcome (list case)) : outcome (list case) :=
  if bool_decide (suite ∈ suites) then cases else Ok [].
Definition plan_cases (suite : string) : outcome (list case) :=
  smoke ← part ["smoke"; "all"] suite smoke_cases;
  scaling ← part ["scaling"; "all"] suite scaling_cases;
  heterogeneous ← part ["heterogeneous"; "all"] suite heterogeneous_cases;
  stereo ← part ["stereo-smoke"; "stereo-stress"; "all"] suite (l ← traverse stereo_cases ["D455"; "D435"]; Ok (concat l));
  Ok (foldl keep_first [] (smoke ++ scaling ++ heterogeneous ++ stereo)).
End plan.

(** ** The program *)

Definition with_profile (path : string) (c : case) : case := {|
  case_id := case_id c; workload := workload c; physical := physical c; serials := serials c; stream_mode := stream_mode c;
  frames := frames c; measurement_duration_ms := measurement_duration_ms c; warmup_frames := warmup_frames c; fps := fps c;
  depth_width := depth_width c; depth_height := depth_height c; color_width := color_width c;
  color_height := color_height c; deadline_profile := Some path |}.
Record run_options := {
  o_layout : string;
  o_suite : string;
  o_duration_seconds : option Z;
  o_nb_runs : option Z;
  o_policies : list string;
  o_profiles_dir : option string;
  o_build_dir : string;
  o_results_dir : string;
  o_build_jobs : Z;
  o_no_lime : bool;
  o_no_sudo : bool;
  o_no_cpu_isolation : bool;
  o_allow_extra_cameras : bool;
  o_allow_topology_change : bool;
  o_usb_sysfs_base : string;
  o_dry_run : bool;
}.
Definition DEFAULT_RECOVER_ON_FAILURE : string := "full-reset".
Definition DEFAULT_MAX_ATTEMPTS_PER_RUN : Z := 3.

Section main.
Context {W : Type} `{OS W} {T : Type}.
(** [sys.executable], the directory of run_steady_campaign.py, and the time
    stamps of the run. *)
Context (executable STEADY_RUNNER stamp : string).
Abbreviation IO := (M (T * world W)).
(** [path.parent]. *)
Definition parent_of (path : string) : string :=
  let parts := removelast (path_parts path) in
  if py_startswith "/" path then "/" +:+ py_join "/" parts
  else if bool_decide (parts = []) then "." else py_join "/" parts.
Definition _json_write (path : string) (value : pyval) : IO unit :=
  sys (Mkdir (parent_of path) true) ;; sys (WriteJson path value).
Definition load_camera_registry (path : string) : IO (list camera) := v <- sys (ReadJson path) ;; lift (parse_registry path v).
Definition load_layout (path : string) : IO (pydict * list camera) := v <- sys (ReadJson path) ;; lift (parse_layout path v).
Definition inventory_layout (usb_sysfs_base : string) (max_per_hub : Z) (known : list camera) : IO pydict :=
  devices <- discover_realsense_devices usb_sysfs_base ;; lift (layout_of devices stamp max_per_hub known).
Definition validate_layout (o : run_options) (layout : pydict) (cameras : list camera) : IO (list pydict * report) :=
  connected <- discover_realsense_devices (o_usb_sysfs_base o) ;;
  r <- lift (check_layout connected (o_allow_extra_cameras o) (o_allow_topology_change o) layout cameras) ;;
  ret (connected, r).
(** The profile of each case, or its path when there is none. *)
Fixpoint find_profiles (profiles_dir : string) (cases : list case) : IO (list case * list string) :=
  match cases with
  | [] => ret ([], [])
  | c :: cases =>
      profile <- sys (Resolve (profiles_dir // (case_id c +:+ ".csv"))) ;;
      file <- sys (IsFile profile) ;;
      rest <- find_profiles profiles_dir cases ;;
      ret (if (file : bool) then (with_profile profile c :: rest.1, rest.2) else (c :: rest.1, profile :: rest.2))
  end.
Definition _profile_cases (profiles_dir : string) (cases : list case) : IO (list case) :=
  found <- find_profiles profiles_dir cases ;;
  match found.2 with
  | [] => ret found.1
  | missing => throw ValueError ("one scheduler profile per exact camera case is required: " +:+ py_join ", " missing)
  end.
Definition inventory (output usb_sysfs_base registry : string) (max_per_hub : Z) : IO unit :=
  when (bool_decide (max_per_hub < 1)) (throw SystemExit "--max-cameras-per-hub must be positive") ;;
  registry <- sys (Resolve registry) ;;
  known <- load_camera_registry registry ;;
  layout <- inventory_layout usb_sysfs_base max_per_hub known ;;
  when (negb (truthy (dgetd "cameras" VNone layout))) (throw SystemExit "no connected Intel RealSense camera was found") ;;
  _json_write output (VDict layout).
(** What may raise before anything is written. *)
Definition preflight (o : run_options) (duration_seconds : Z) (layout : pydict) (cameras : list camera) :
    IO (list pydict * report * list case) :=
  checked <- validate_layout o layout cameras ;;
  cases <- lift (plan_cases layout cameras duration_seconds (o_suite o)) ;;
  when (bool_decide (cases = [])) (throw ValueError ("suite " +:+ py_repr (o_suite o) +:+ " produced no cases")) ;;
  if existsb (λ p, bool_decide (p ∈ MODELED_POLICIES)) (o_policies o) then
    match o_profiles_dir o with
    | None => throw ValueError ("modeled policies require --profiles-dir; profiles are "
                +:+ "specific to the exact model/count/topology case")
    | Some dir => dir <- sys (Resolve dir) ;; cases <- _profile_cases dir cases ;; ret (checked, cases)
    end
  else ret (checked, cases).
Definition preflight_errors (e : exn) : bool := is_OSError e || is_ValueError e || is_class RuntimeError e.
Definition flag (b : bool) (name : string) : list string := if b then [name] else [].
Definition steady_command (o : run_options) (config_path build_dir run_root : string) (nb_runs : Z) : list string :=
  [executable; STEADY_RUNNER; "--config"; config_path; "--policies"] ++ o_policies o ++
  ["--nb-runs"; str_Z nb_runs; "--build-dir"; build_dir; "--results-dir"; run_root // "benchkit";
   "--recover-on-failure"; DEFAULT_RECOVER_ON_FAILURE; "--reset-before-run"; "--max-attempts-per-run";
   str_Z DEFAULT_MAX_ATTEMPTS_PER_RUN; "--recovery-reset-timeout-ms"; "10000"; "--recovery-wait-seconds"; "5";
   "--recovery-settle-seconds"; "0"; "--build-jobs"; str_Z (o_build_jobs o)]
  ++ flag (o_no_lime o) "--no-lime" ++ flag (o_no_sudo o) "--no-sudo" ++ flag (o_no_cpu_isolation o) "--no-cpu-isolation".
Definition is_smoke (suite : string) : bool := bool_decide (suite ∈ ["smoke"; "stereo-smoke"]).
Definition run_duration (o : run_options) : Z := default (if is_smoke (o_suite o) then 60 else 600) (o_duration_seconds o).
Definition run_repetitions (o : run_options) : Z := default (if is_smoke (o_suite o) then 1 else 3) (o_nb_runs o).
(** The configuration of the steady-state campaign. *)
Definition generated_cases (source suite : string) (cases : list case) : pyval := VDict [
  ("description", VStr "Generated topology-aware multi-camera steady suite"); ("source_layout", VStr source);
  ("suite", VStr suite); ("cases", VList (map (VDict ∘ case_dict) cases))].
Definition run (o : run_options) : IO unit :=
  when (bool_decide (o_build_jobs o < 1)) (throw SystemExit "--build-jobs must be positive") ;;
  let duration_seconds := run_duration o in
  let nb_runs := run_repetitions o in
  when (bool_decide (duration_seconds < 1) || bool_decide (nb_runs < 1))
    (throw SystemExit "duration and repetitions must be positive") ;;
  layout_path <- sys (Resolve (o_layout o)) ;;
  loaded <- load_layout layout_path ;;
  p <- try_except preflight_errors (preflight o duration_seconds loaded.1 loaded.2) (λ e, throw SystemExit (exn_msg e)) ;;
  let cases := p.2 in
  results <- sys (Resolve (o_results_dir o)) ;;
  let run_root := results // ("multicamera_" +:+ o_suite o +:+ "_" +:+ stamp) in
  sys (Mkdir run_root false) ;;
  let config_path := run_root // "generated_cases.json" in
  source <- sys (Resolve (o_layout o)) ;;
  _json_write config_path (generated_cases source (o_suite o) cases) ;;
  _json_write (run_root // "layout.json") (VDict loaded.1) ;;
  _json_write (run_root // "preflight.json") (VDict (report_dict p.1.1 p.1.2)) ;;
  build_dir <- sys (Resolve (o_build_dir o)) ;;
  let command := steady_command o config_path build_dir run_root nb_runs in
  _json_write (run_root // "invocation.json") (VDict [
    ("command", VList (map VStr command)); ("dry_run", VBool (o_dry_run o)); ("case_ids", VList (map (VStr ∘ case_id) cases))]) ;;
  when (negb (o_dry_run o))
    (completed <- sys (RunCommand command None None) ;;
     when (negb (bool_decide (returncode completed = 0))) (throw SystemExit (str_Z (returncode completed)))).
End main.
