(* ===== verification/MultiCameraSpec.v ===== *)
(** * Properties of multi-camera campaigns

    The order in which cameras are spread over hubs, what a layout that passes
    the check guarantees, and what a plan holds. *)
From Stdlib Require Import Ascii ZArith Lia Floats.SpecFloat Strings.String.
From S2P Require Import Prelude PyStr PyFloat PyVal PyJson FloatOrder Effects Machine Shell.
From S2P Require Import Timerlat Bisect Devices StartupTrace Commands MultiCamera.
From stdpp Require Import base gmap strings list sorting.
Local Open Scope Z_scope.
Local Open Scope py_scope.
Local Open Scope M_scope.

(** ** Sorting with keys *)

Lemma sorted_keyed_perm {A K} (lt : K → K → bool) (key : A → outcome K) l k : sorted_keyed lt key l = Ok k → k ≡ₚ l.
Proof.
  unfold sorted_keyed. intros (keyed & Hk & Heq)%outcome_bind_ok. injection Heq as <-. rewrite sort_by_perm.
  apply traverse_ok in Hk. induction Hk as [|x y l keyed Hx Hk IH]; [done|]. simpl. rewrite IH.
  apply outcome_bind_ok in Hx as (z & _ & Hy). by injection Hy as <-.
Qed.
(** Lists with the same parts, by a classification, are permutations. *)
Lemma perm_by_class {A B} `{EqDecision B} (f : A → B) l k :
  (∀ b, filter (λ x, f x = b) l ≡ₚ filter (λ x, f x = b) k) → l ≡ₚ k.
Proof.
  revert k. induction l as [|x l IH]; intros k Hlk.
  - destruct k as [|y k]; [done|]. specialize (Hlk (f y)). rewrite filter_cons_True in Hlk by done.
    by apply Permutation_nil_cons in Hlk.
  - pose proof (Hlk (f x)) as Hx. rewrite filter_cons_True in Hx by done.
    assert (x ∈ k) as (k1 & k2 & ->)%list_elem_of_split.
    { assert (x ∈ filter (λ y, f y = f x) k) as Hin by (rewrite <- Hx; left). by apply list_elem_of_filter in Hin as [_ ?]. }
    rewrite <- Permutation_middle. constructor. apply IH. intros b. specialize (Hlk b).
    rewrite (filter_Permutation _ (k1 ++ x :: k2) (x :: k1 ++ k2)) in Hlk by (by rewrite Permutation_middle).
    rewrite !filter_cons in Hlk. destruct (decide (f x = b)); [|done]. by apply Permutation_cons_inv in Hlk.
Qed.

(** ** Spreading over hubs *)

(** The cameras of a hub. *)
Definition on_hub (h : string) (l : list camera) : list camera := filter (λ c, hub_of c = h) l.
Definition group (h : string) (g : list (string * list camera)) : list camera := default [] (dget h g).
Lemma on_hub_app h l k : on_hub h (l ++ k) = on_hub h l ++ on_hub h k.
Proof. apply filter_app. Qed.
Lemma by_hub_spec cameras : NoDup (dkeys (by_hub cameras)) ∧ ∀ h, group h (by_hub cameras) = on_hub h cameras.
Proof.
  unfold by_hub. induction cameras as [|c l [Hd Hg]] using rev_ind; [split; [constructor|done]|].
  rewrite foldl_app. simpl. set (g := foldl add_to_hub [] l) in *. unfold add_to_hub. split; [by apply NoDup_dset|].
  intros h. rewrite on_hub_app. unfold group. rewrite dget_dset. unfold on_hub at 2. rewrite filter_cons. case_decide as Hh.
  - subst h. rewrite decide_True by done. rewrite <- Hg. simpl. unfold group. done.
  - rewrite decide_False by congruence. rewrite app_nil_r. apply Hg.
Qed.

(** Groups by hub: no hub twice, and each camera in the group of its hub. *)
Definition grouped (g : list (string * list camera)) : Prop :=
  NoDup (dkeys g) ∧ Forall (λ p, Forall (λ c, hub_of c = p.1) p.2) g.
Lemma grouped_cons h l g : grouped ((h, l) :: g) ↔ (h ∉ dkeys g) ∧ Forall (λ c, hub_of c = h) l ∧ grouped g.
Proof. unfold grouped. simpl. rewrite NoDup_cons, Forall_cons. simpl. tauto. Qed.
Lemma group_cons h k l g : group h ((k, l) :: g) = if decide (h = k) then l else group h g.
Proof. unfold group. simpl. by repeat case_decide. Qed.
Lemma on_hub_all h l : Forall (λ c, hub_of c = h) l → on_hub h l = l.
Proof. apply filter_all. Qed.
Lemma on_hub_none h k l : h ≠ k → Forall (λ c, hub_of c = k) l → on_hub h l = [].
Proof. intros Hne Hl. apply filter_none. eapply Forall_impl; [exact Hl|]. intros c Hc Heq. simpl in *. congruence. Qed.
Lemma group_absent h g : h ∉ dkeys g → group h g = [].
Proof. intros Hh%dget_None. unfold group. by rewrite Hh. Qed.
Lemma grouped_tails g : grouped g → grouped (hub_tails g).
Proof.
  induction g as [|[h l] g IH]; [done|]. change (hub_tails ((h, l) :: g)) with ((h, tail l) :: hub_tails g).
  rewrite !grouped_cons. intros (Hh & Hl & Hg). split_and!; [|by apply Forall_tail|by apply IH].
  intros Hin. apply Hh. clear -Hin. induction g as [|[k m] g IH]; [done|]. simpl in *. apply elem_of_cons in Hin as [->|Hin]; [by left|].
  right. by apply IH.
Qed.
Lemma group_tails h g : group h (hub_tails g) = tail (group h g).
Proof.
  induction g as [|[k l] g IH]; [done|]. change (hub_tails ((k, l) :: g)) with ((k, tail l) :: hub_tails g).
  rewrite !group_cons, IH. by destruct (decide _).
Qed.
Lemma heads_on_hub h g : grouped g → on_hub h (hub_heads g) = take 1 (group h g).
Proof.
  induction g as [|[k l] g IH]; [done|]. rewrite grouped_cons, group_cons. intros (Hk & Hl & Hg). specialize (IH Hg).
  change (hub_heads ((k, l) :: g)) with (omap (λ g, head g.2) ((k, l) :: g)). cbn [omap list_omap].
  simpl. fold (hub_heads g). destruct l as [|c l]; simpl.
  - rewrite IH. destruct (decide (h = k)) as [->|]; [|done]. by rewrite group_absent.
  - apply Forall_cons in Hl as [Hc _]. unfold on_hub in *. rewrite filter_cons, Hc. destruct (decide (h = k)) as [->|].
    + rewrite decide_True by done. rewrite IH, group_absent by done. done.
    + rewrite decide_False by congruence. exact IH.
Qed.
Definition exhausted (g : list (string * list camera)) : Prop := ∀ h, group h g = [].
Lemma no_heads g : grouped g → existsb (λ p, negb (bool_decide (p.2 = []))) g = false → exhausted g.
Proof.
  intros [Hd _]. induction g as [|[k l] g IH]; intros He h; [done|]. simpl in *. apply orb_false_iff in He as [Hl He].
  apply NoDup_cons in Hd as [_ Hd]. apply negb_false_iff, bool_decide_eq_true in Hl. rewrite group_cons.
  destruct (decide _); [done|]. by apply IH.
Qed.
(** With a turn for each camera of the largest group, everything is taken, in
    the order of the groups. *)
Lemma turns_on_hub fuel g h :
  grouped g → (∀ h, length (group h g) <= fuel)%nat → on_hub h (take_turns fuel g) = group h g.
Proof.
  revert g. induction fuel as [|fuel IH]; intros g Hg Hl; simpl.
  { specialize (Hl h). destruct (group h g); [done|simpl in Hl; lia]. }
  destruct (existsb _ g) eqn:He; [|symmetry; by apply no_heads].
  rewrite on_hub_app, heads_on_hub by done. rewrite IH.
  - rewrite group_tails. by destruct (group h g).
  - by apply grouped_tails.
  - intros k. rewrite group_tails. specialize (Hl k). destruct (group k g); simpl in *; lia.
Qed.
Lemma take_on_hub h n l : ∃ m, on_hub h (take n l) = take m (on_hub h l).
Proof.
  exists (length (on_hub h (take n l))). rewrite <- (take_drop n l) at 3. by rewrite on_hub_app, take_app_length.
Qed.
(** No hub is ahead of another one that has cameras left by more than one. *)
Definition fair (g : list (string * list camera)) (l : list camera) : Prop := ∀ h k,
  (length (on_hub h l) <= S (length (on_hub k l)))%nat ∨ on_hub k l = group k g.
Lemma heads_fair g n h k : grouped g → (length (on_hub h (take n (hub_heads g))) <= S (length (on_hub k (take n (hub_heads g)))))%nat.
Proof.
  intros Hg. destruct (take_on_hub h n (hub_heads g)) as [m ->]. rewrite heads_on_hub by done.
  rewrite length_take. assert (length (take 1 (group h g)) <= 1)%nat by (rewrite length_take; lia). lia.
Qed.
Lemma turns_fair fuel g n :
  grouped g → (∀ h, length (group h g) <= fuel)%nat → fair g (take n (take_turns fuel g)).
Proof.
  revert g n. induction fuel as [|fuel IH]; intros g n Hg Hl h k; simpl.
  { left. rewrite take_nil. simpl. lia. }
  destruct (existsb _ g) eqn:He; [|left; rewrite take_nil; simpl; lia].
  destruct (decide (n <= length (hub_heads g))%nat) as [Hn|Hn].
  { left. rewrite take_app_le by done. by apply heads_fair. }
  rewrite take_app_ge by lia. set (m := (n - length (hub_heads g))%nat). rewrite !on_hub_app, !heads_on_hub by done.
  assert (∀ h, length (group h (hub_tails g)) <= fuel)%nat as Hl'.
  { intros j. rewrite group_tails. specialize (Hl j). destruct (group j g); simpl in *; lia. }
  pose proof (grouped_tails g Hg) as Hg'. destruct (IH (hub_tails g) m Hg' Hl' h k) as [Hle|Hall].
  - rewrite !length_app, !length_take. destruct (group k g) as [|c l] eqn:Hk.
    + right. destruct (take_on_hub k m (take_turns fuel (hub_tails g))) as [j ->].
      rewrite turns_on_hub by done. rewrite group_tails, Hk. simpl. by rewrite take_nil.
    + left. change (length (c :: l)) with (S (length l)). lia.
  - right. rewrite Hall, group_tails. by destruct (group k g).
Qed.

(** The groups that are spread: the cameras of each hub. *)
Lemma spread_groups cameras groups :
  traverse sort_group (by_hub cameras) = Ok groups →
  let g := sort_by (λ x y : string * list camera, str_lt x.1 y.1) groups in
  grouped g ∧ ∀ h, group h g ≡ₚ on_hub h cameras.
Proof.
  intros Ht%traverse_ok g. destruct (by_hub_spec cameras) as [Hd Hg].
  assert (Forall2 (λ x y : string * list camera, x.1 = y.1 ∧ y.2 ≡ₚ x.2) (by_hub cameras) groups) as Hp.
  { eapply Forall2_impl; [exact Ht|]. unfold sort_group. intros x y (l & Hl & [= <-])%outcome_bind_ok. split; [done|].
    simpl. by eapply sorted_keyed_perm. }
  assert (dkeys groups = dkeys (by_hub cameras)) as Hkeys.
  { clear -Hp. induction Hp as [|x y l k [Hx _] _ IH]; [done|]. simpl. by rewrite Hx, IH. }
  assert (∀ h, group h groups ≡ₚ on_hub h cameras) as Hgr.
  { intros h. rewrite <- Hg. clear -Hp. induction Hp as [|[k l] [k' l'] gs gs' [Hk Hl] _ IH]; [done|]. simpl in Hk, Hl. subst k'.
    rewrite !group_cons. by destruct (decide _). }
  assert (g ≡ₚ groups) as Hperm by apply sort_by_perm.
  assert (NoDup (dkeys g)) as Hdg. { unfold dkeys. rewrite Hperm. rewrite <- Hkeys in Hd. exact Hd. }
  assert (∀ h, group h g = group h groups) as Heq.
  { intros h. unfold group. f_equal. destruct (dget h g) as [l|] eqn:E.
    - apply dget_elem in E. rewrite Hperm in E. symmetry. apply dget_elem_of; [by rewrite Hkeys|done].
    - symmetry. apply dget_None. apply dget_None in E. intros Hin. apply E. unfold dkeys in *. by rewrite Hperm. }
  split; [|intros h; by rewrite Heq]. split; [done|]. apply Forall_forall. intros [h l] Hin. simpl.
  assert (group h groups = l) as <-.
  { rewrite <- Heq. unfold group. by rewrite (dget_elem_of g h l). }
  rewrite Hgr. unfold on_hub. apply Forall_forall. intros c Hc. by apply list_elem_of_filter in Hc as [? _].
Qed.
Lemma group_bound h cameras g : group h g ≡ₚ on_hub h cameras → (length (group h g) <= length cameras)%nat.
Proof. intros Hp. rewrite Hp. apply length_filter. Qed.

Lemma spread_perm cameras l : _spread cameras = Ok l → l ≡ₚ cameras.
Proof.
  unfold _spread. intros (groups & Ht & Heq)%outcome_bind_ok. injection Heq as <-.
  destruct (spread_groups cameras groups Ht) as [Hg Hp]. set (g := sort_by _ groups) in *.
  apply (perm_by_class hub_of). intros h. change (filter _ ?x) with (on_hub h x).
  rewrite turns_on_hub by (try done; intros k; by apply group_bound). apply Hp.
Qed.
(** C30: Cameras are spread over the hubs.  The order of [_spread] holds the
    cameras it was given and nothing else, and in every prefix of it no hub has
    more cameras than one more than any other hub, unless that other hub has
    no camera left: prefixes use distinct hubs before they share one. *)
Theorem spread_uses_hubs_evenly (cameras l : list camera) :
  _spread cameras = Ok l →
  l ≡ₚ cameras ∧
  ∀ n h k, let on hub := length (filter (λ c, hub_of c = hub) (take n l)) in
    (on h <= S (on k))%nat ∨ on k = length (filter (λ c, hub_of c = k) cameras).
Proof.
  intros Hsp. split; [by apply spread_perm|]. revert Hsp.
  unfold _spread. intros (groups & Ht & Heq)%outcome_bind_ok. injection Heq as <-.
  destruct (spread_groups cameras groups Ht) as [Hg Hp]. set (g := sort_by _ groups) in *.
  assert (∀ h, length (group h g) <= length cameras)%nat as Hl by (intros h; by apply group_bound).
  - intros n h k. cbv zeta. change (filter _ (take n ?x)) with (on_hub h (take n x)) at 1.
    change (filter (λ c, hub_of c = k) ?x) with (on_hub k x).
    destruct (turns_fair (length cameras) g n Hg Hl h k) as [Hle|Hall]; [by left|]. right. rewrite Hall. by rewrite Hp.
Qed.

(** ** The check of a layout *)

Section check.
Context (connected : list pydict) (allow_extra allow_change : bool).
Abbreviation by_serial := (connected_by_serial connected).
Lemma error_not_empty m r : errors (error m r) ≠ [].
Proof. simpl. by destruct (errors r). Qed.
Lemma presence_clean expected r : errors (check_presence connected allow_extra expected r) = [] →
  errors r = [] ∧ (∀ s, s ∈ expected → s ∈ dkeys by_serial) ∧
  (allow_extra = false → ∀ s, s ∈ dkeys by_serial → s ∈ expected).
Proof.
  unfold check_presence. cbv zeta.
  assert (∀ a b, set_difference a b = [] → ∀ s : string, s ∈ a → s ∈ b) as Hdiff.
  { intros a b Hn s Hs. destruct (decide (s ∈ b)) as [|Hb]; [done|]. exfalso.
    assert (s ∈ set_difference a b) as Hin; [|rewrite Hn in Hin; by apply not_elem_of_nil in Hin].
    unfold set_difference, sorted_strings. rewrite merge_sort_Permutation. apply list_elem_of_filter. split; [done|].
    by apply elem_of_remove_dups. }
  set (r1 := if bool_decide _ then r else _). intros He.
  assert (errors r1 = [] ∧ (allow_extra = false → set_difference (dkeys by_serial) expected = [])) as [Hr1 Hextra].
  { case_bool_decide; [done|]. destruct allow_extra; [done|]. by apply error_not_empty in He. }
  subst r1. case_bool_decide as Hm; [|by apply error_not_empty in Hr1]. split_and!; [done|by apply Hdiff|].
  intros Ha. by apply Hdiff, Hextra.
Qed.
Definition same_or_unknown (field : string) (expected actual : camera) : Prop :=
  may field "" expected = "" ∨ may field "" actual = may field "" expected.
Definition same_model (expected actual : camera) : Prop :=
  py_upper (may "model" "" expected) = "" ∨ py_upper (may "model" "" actual) = py_upper (may "model" "" expected).
Lemma model_clean serial expected actual r : errors (check_model serial expected actual r) = [] →
  errors r = [] ∧ same_model expected actual.
Proof.
  unfold check_model, same_model. cbv zeta. destruct (_ || _) eqn:E; [|by intros ?%error_not_empty].
  intros Hr. split; [done|]. by apply orb_true_iff in E as [E%bool_decide_eq_true|E%bool_decide_eq_true]; [left|right].
Qed.
Lemma field_clean serial expected actual r field : errors (check_field allow_change serial expected actual r field) = [] →
  errors r = [] ∧ (allow_change = false → same_or_unknown field expected actual).
Proof.
  unfold check_field, same_or_unknown. cbv zeta. destruct (_ || _) eqn:E.
  - intros Hr. split; [done|]. intros _. by apply orb_true_iff in E as [E%bool_decide_eq_true|E%bool_decide_eq_true]; [left|right].
  - destruct allow_change; [done|]. by intros ?%error_not_empty.
Qed.
Lemma fields_clean serial expected actual fields r :
  errors (foldl (check_field allow_change serial expected actual) r fields) = [] →
  errors r = [] ∧ (allow_change = false → Forall (λ f, same_or_unknown f expected actual) fields).
Proof.
  revert r. induction fields as [|f fields IH]; intros r; simpl; [done|]. intros [Hr Hf]%IH.
  apply field_clean in Hr as [Hr Hs]. split; [done|]. intros Ha. constructor; auto.
Qed.
Lemma speed_clean serial actual r : errors (check_speed serial actual r) = [] →
  errors r = [] ∧ f_lt (speed_of actual) (f_of_Z 5000) = false.
Proof. unfold check_speed. destruct (f_lt _ _); [|done]. by intros ?%error_not_empty. Qed.
Lemma power_errors serial actual r : errors (check_power serial actual r) = errors r.
Proof. unfold check_power. by destruct (py_eq _ _). Qed.
(** A camera of the layout as it is connected. *)
Definition as_expected (expected actual : camera) : Prop :=
  same_model expected actual ∧
  (allow_change = false → Forall (λ f, same_or_unknown f expected actual) ["usb_device"; "upstream_hub"; "xhci_controller"]) ∧
  f_lt (speed_of actual) (f_of_Z 5000) = false.
Definition verified_as (usb : string) (expected : camera) : Prop :=
  need "usb_descriptor_serial" expected = Ok usb ∧
  (∀ actual, dget usb by_serial = Some actual → as_expected expected actual).
Lemma cameras_clean l v v' : fold_outcome (check_camera connected allow_change) v l = Ok v' → errors v'.2 = [] →
  errors v.2 = [] ∧ Forall (λ c, ∃ usb, verified_as usb c) l.
Proof.
  revert v. induction l as [|c l IH]; intros v; simpl; [by intros [= <-]|].
  destruct (check_camera _ _ v c) as [v1|] eqn:Hc; [|done]. intros Hl He. destruct (IH v1 Hl He) as [H1 Hf].
  unfold check_camera in Hc. apply outcome_bind_ok in Hc as (serial & _ & Hc). apply outcome_bind_ok in Hc as (usb & Hu & Hc).
  destruct (dget usb by_serial) as [actual|] eqn:Ha.
  - apply outcome_bind_ok in Hc as (label & _ & Hc). injection Hc as <-. cbn [snd] in H1. rewrite power_errors in H1.
    apply speed_clean in H1 as [H1 Hs]. apply (fields_clean _ _ _ ["usb_device"; "upstream_hub"; "xhci_controller"]) in H1 as [H1 Hfields]. apply model_clean in H1 as [H1 Hm].
    split; [done|]. constructor; [|done]. exists usb. split; [done|]. rewrite Ha. intros ? [= <-]. done.
  - injection Hc as <-. split; [done|]. constructor; [|done]. exists usb. split; [done|]. by rewrite Ha.
Qed.
(** The connected device of a camera of the layout. *)
Definition connected_as (expected actual : camera) : Prop :=
  ∃ usb, need "usb_descriptor_serial" expected = Ok usb ∧ dget usb by_serial = Some actual ∧ as_expected expected actual.
(** What a camera is reported as: the fields of the device, under the label and
    the serials of the layout. *)
Definition reported_as (expected actual reported : camera) : Prop :=
  ∃ label serial usb,
    need "label" expected = Ok label ∧ need "librealsense_serial" expected = Ok serial ∧
    need "usb_descriptor_serial" expected = Ok usb ∧
    dget "label" reported = Some (VStr label) ∧ dget "serial" reported = Some (VStr serial) ∧
    dget "librealsense_serial" reported = Some (VStr serial) ∧ dget "usb_descriptor_serial" reported = Some (VStr usb) ∧
    (∀ key, key ∉ ["label"; "serial"; "librealsense_serial"; "usb_descriptor_serial"] → dget key reported = dget key actual).
Lemma reported_fields (actual : camera) label serial usb :
  let fields := [("label", VStr label); ("serial", VStr serial); ("librealsense_serial", VStr serial);
                 ("usb_descriptor_serial", VStr usb)] in
  Forall (λ kv, dget kv.1 (dupdate actual fields) = Some kv.2) fields ∧
  (∀ key, key ∉ dkeys fields → dget key (dupdate actual fields) = dget key actual).
Proof.
  intros fields. split; [|intros key Hk; by apply dget_dupdate]. unfold fields, dupdate. simpl.
  repeat constructor; simpl; by rewrite ?dget_dset.
Qed.
Lemma cameras_verified l v v' : fold_outcome (check_camera connected allow_change) v l = Ok v' → errors v'.2 = [] →
  Forall (λ c, ∃ usb, need "usb_descriptor_serial" c = Ok usb ∧ usb ∈ dkeys by_serial) l →
  ∃ actuals reported, v'.1 = v.1 ++ reported ∧ Forall2 connected_as l actuals ∧
    Forall2 (λ p c, reported_as p.1 p.2 c) (zip l actuals) reported.
Proof.
  intros Hl He Hp. destruct (cameras_clean l v v' Hl He) as [_ Hall]. revert v Hl.
  induction Hp as [|c l (usb & Hu & Hin) _ IH]; intros v.
  { intros [= <-]. exists [], []. rewrite app_nil_r. split_and!; [done|constructor|constructor]. }
  apply Forall_cons in Hall as [(usb' & Hu' & Hok) Hall]. rewrite Hu in Hu'. injection Hu' as <-. simpl.
  destruct (check_camera _ _ v c) as [v1|] eqn:Hc; [|done]. intros Hl.
  destruct (IH Hall v1 Hl) as (actuals & reported & Hv & Hf & Hr).
  unfold check_camera in Hc. apply outcome_bind_ok in Hc as (serial & Hserial & Hc).
  rewrite Hu in Hc. simpl in Hc. destruct (dget usb by_serial) as [actual|] eqn:Ha; [|by apply dget_None in Ha].
  apply outcome_bind_ok in Hc as (label & Hlabel & Hc). injection Hc as <-. simpl in Hv.
  exists (actual :: actuals), (dupdate actual [("label", VStr label); ("serial", VStr serial);
    ("librealsense_serial", VStr serial); ("usb_descriptor_serial", VStr usb)] :: reported).
  split_and!; [by rewrite Hv, <- app_assoc| |].
  - constructor; [|done]. exists usb. auto.
  - simpl. constructor; [|done]. destruct (reported_fields actual label serial usb) as [Hfields Hother].
    repeat (apply Forall_cons in Hfields as [? Hfields]). exists label, serial, usb. split_and!; done.
Qed.
Lemma reported_hubs l actuals reported :
  length l = length actuals → Forall2 (λ p c, reported_as p.1 p.2 c) (zip l actuals) reported →
  map hub_of reported = map hub_of actuals.
Proof.
  revert actuals reported. induction l as [|e l IH]; intros [|a actuals] reported Hlen Hr; try done.
  - by apply Forall2_nil_inv_l in Hr as ->.
  - simpl in Hr. apply Forall2_cons_inv_l in Hr as (c & cs & Hc & Hr & ->). simpl. f_equal; [|apply IH; [by injection Hlen|done]].
    destruct Hc as (? & ? & ? & _ & _ & _ & _ & _ & _ & _ & Hother). unfold hub_of, may, dgetd. by rewrite Hother by set_solver.
Qed.
Lemma hubs_clean n l r : errors (check_hubs n l r) = [] → errors r = [] ∧ ∀ h, counter h (map hub_of l) <= Z.max n 0.
Proof.
  unfold check_hubs. destruct (filter _ _) as [|hc rest] eqn:E; [|by intros ?%error_not_empty]. intros He. split; [done|].
  intros h. destruct (decide (h ∈ map hub_of l)) as [Hin|Hn].
  - destruct (decide (n < counter h (map hub_of l))) as [Hlt|]; [|lia]. exfalso.
    assert ((h, counter h (map hub_of l)) ∈ filter (λ hc : string * Z, n < hc.2) (hub_counts l)) as Hf; [|rewrite E in Hf; by apply not_elem_of_nil in Hf].
    apply list_elem_of_filter. split; [done|]. unfold hub_counts. apply list_elem_of_fmap. exists h. split; [done|].
    unfold sorted_set, sorted_strings. rewrite merge_sort_Permutation. by apply elem_of_remove_dups.
  - unfold counter. rewrite filter_none; [simpl; lia|]. apply Forall_forall. intros x Hx ->. done.
Qed.
Lemma controllers_errors l r : errors (check_controllers l r) = errors r.
Proof. unfold check_controllers. by destruct (_ && _). Qed.
End check.

(** C29: A layout that passes the preflight is the one that is connected.  Every
    camera of the layout is connected, with its model, at SuperSpeed, and (unless
    a change of topology is allowed) at its port, hub and controller as far as
    the layout names them; unless extra cameras are allowed no other camera is
    connected.  The verified cameras of the report are exactly these, in the
    order of the layout: each has the fields of its connected device under the
    label and the serials of the layout.  And no powered hub carries more of the
    connected cameras of the layout than the layout allows. *)
Theorem preflight_is_sound (connected : list pydict) (allow_extra allow_change : bool) (layout : pydict) (cameras : list camera) r :
  check_layout connected allow_extra allow_change layout cameras = Ok r →
  ∃ devices,
    Forall2 (λ expected actual, ∃ usb,
      need "usb_descriptor_serial" expected = Ok usb ∧ dget usb (devices_by_serial connected) = Some actual ∧
      as_expected allow_change expected actual) cameras devices ∧
    (allow_extra = false → ∀ usb, usb ∈ dkeys (devices_by_serial connected) →
       ∃ expected, expected ∈ cameras ∧ need "usb_descriptor_serial" expected = Ok usb) ∧
    Forall2 (λ p reported, reported_as p.1 p.2 reported) (zip cameras devices) (verified_cameras r) ∧
    ∃ max_per_hub, py_int (dgetd "max_cameras_per_powered_hub" (VInt 2) layout) = Ok max_per_hub ∧
      ∀ h, counter h (map hub_of devices) <= Z.max max_per_hub 0.
Proof.
  unfold check_layout. intros (expected & Hex & H)%outcome_bind_ok. apply outcome_bind_ok in H as (v & Hv & H).
  apply outcome_bind_ok in H as (n & Hn & H). cbv zeta in H. destruct (errors _) as [|] eqn:He; [|done]. injection H as <-.
  rewrite controllers_errors in He. apply hubs_clean in He as [He Hhubs].
  destruct (cameras_clean _ _ _ _ _ Hv He) as [Hp _]. cbn [snd] in Hp. apply presence_clean in Hp as (_ & Hpresent & Hextra).
  apply traverse_ok in Hex.
  destruct (cameras_verified _ _ _ _ _ Hv He) as (devices & reported & Hrep & Hdev & Hfields).
  { apply Forall_forall. intros c Hin. apply list_elem_of_lookup in Hin as [i Hi].
    destruct (Forall2_lookup_l _ _ _ _ _ Hex Hi) as (u & Hu & Heq). exists u. split; [done|].
    apply Hpresent. by eapply list_elem_of_lookup_2. }
  simpl in Hrep. exists devices. split_and!; [exact Hdev| |by simpl; rewrite Hrep|].
  - intros Ha usb Hu. apply (Hextra Ha) in Hu. apply list_elem_of_lookup in Hu as [i Hi].
    destruct (Forall2_lookup_r _ _ _ _ _ Hex Hi) as (c & Hc' & Heq). exists c. split; [by eapply list_elem_of_lookup_2|done].
  - exists n. split; [done|]. rewrite <- (reported_hubs cameras devices reported); [by rewrite <- Hrep|by eapply Forall2_length|done].
Qed.

(** ** The plan *)

Lemma keep_first_spec l acc :
  NoDup (map signature acc) →
  NoDup (map signature (foldl keep_first acc l)) ∧ (∀ c, c ∈ foldl keep_first acc l → c ∈ acc ∨ c ∈ l) ∧
  (∀ c, c ∈ acc ∨ c ∈ l → ∃ c', c' ∈ foldl keep_first acc l ∧ signature c' = signature c).
Proof.
  revert acc. induction l as [|x l IH]; intros acc Hacc; simpl.
  { split_and!; [done|by left|]. intros c [Hc|Hc]; [by exists c|by apply not_elem_of_nil in Hc]. }
  assert (NoDup (map signature (keep_first acc x)) ∧ (∀ c, c ∈ keep_first acc x → c ∈ acc ∨ c = x) ∧
          (∀ c, c ∈ acc ∨ c = x → ∃ c', c' ∈ keep_first acc x ∧ signature c' = signature c)) as (Hn & Hsub & Hsup).
  { unfold keep_first. case_bool_decide as Hin.
    - split_and!; [done|by left|]. intros c [Hc| ->]; [by exists c|]. apply list_elem_of_fmap in Hin as (c' & Heq & Hc'). by exists c'.
    - split_and!.
      + rewrite map_app. simpl. apply NoDup_app. split_and!; [done| |apply NoDup_singleton].
        intros s Hs ->%list_elem_of_singleton. done.
      + intros c [Hc|Hc%list_elem_of_singleton]%elem_of_app; auto.
      + intros c Hc. exists c. split; [|done]. apply elem_of_app. rewrite list_elem_of_singleton. tauto. }
  destruct (IH _ Hn) as (Hn' & Hsub' & Hsup'). split_and!; [done|..].
  - intros c [Hc|Hc]%Hsub'; [|by right; right]. destruct (Hsub c Hc) as [| ->]; [by left|right; left].
  - intros c Hc. destruct Hc as [Hc|[-> |Hc]%elem_of_cons].
    + destruct (Hsup c (or_introl Hc)) as (c1 & H1 & E1). destruct (Hsup' c1 (or_introl H1)) as (c2 & H2 & E2). exists c2. by rewrite E2, E1.
    + destruct (Hsup x (or_intror eq_refl)) as (c1 & H1 & E1). destruct (Hsup' c1 (or_introl H1)) as (c2 & H2 & E2). exists c2. by rewrite E2, E1.
    + apply Hsup'. by right.
Qed.

Section plan.
Context (layout : pydict) (cameras : list camera) (duration : Z).
(** The case runs some of the cameras, for the time that was asked for. *)
Definition drawn (c : case) : Prop :=
  ∃ selected, (0 < length selected <= 4)%nat ∧ Forall (λ x, x ∈ cameras) selected ∧
    Forall2 (λ x s, need "serial" x = Ok s) selected (serials c) ∧
    measurement_duration_ms c = duration * 1000 ∧ frames c = duration * fps c.
Definition some_cameras (selected : list camera) : Prop := (0 < length selected <= 4)%nat ∧ Forall (λ x, x ∈ cameras) selected.
Lemma common_drawn id selected c : some_cameras selected → _common_case id selected duration = Ok c → drawn c.
Proof.
  intros [Hn Hs]. unfold _common_case. intros (ph & _ & H)%outcome_bind_ok. apply outcome_bind_ok in H as (ss & Hss & H).
  injection H as <-. exists selected. apply traverse_ok in Hss. done.
Qed.
Lemma stereo_drawn id selected c : some_cameras selected → _stereo_case id selected duration = Ok c → drawn c.
Proof.
  intros [Hn Hs]. unfold _stereo_case. intros (models & _ & H)%outcome_bind_ok. cbv zeta in H. destruct (negb _); [done|].
  destruct (sorted_set _) as [|m [|? ?]]; [done| |done]. destruct (dget m _) as [p|]; [|done].
  apply outcome_bind_ok in H as (ph & _ & H). apply outcome_bind_ok in H as (ss & Hss & H). injection H as <-.
  exists selected. apply traverse_ok in Hss. done.
Qed.
Lemma single c : c ∈ cameras → some_cameras [c].
Proof. intros Hc. split; [simpl; lia|by constructor]. Qed.
Lemma prefix_some ordered n : Forall (λ x, x ∈ cameras) ordered → (0 < n <= 4)%nat → (n <= length ordered)%nat → some_cameras (take n ordered).
Proof. intros Ho Hn Hl. split; [rewrite length_take; lia|by apply Forall_take]. Qed.
Lemma counts_bounds first n k : (0 < first)%nat → k ∈ counts_up_to first n → (0 < k <= 4 ∧ k <= n)%nat.
Proof. unfold counts_up_to. rewrite elem_of_seq. lia. Qed.
Lemma traverse_all {A B} (f : A → outcome B) (P : B → Prop) l k :
  (∀ a b, a ∈ l → f a = Ok b → P b) → traverse f l = Ok k → Forall P k.
Proof.
  intros Hf Hk%traverse_ok. apply Forall_forall. intros b Hb. apply list_elem_of_lookup in Hb as [i Hi].
  destruct (Forall2_lookup_r _ _ _ _ _ Hk Hi) as (a & Ha & Hab). eapply Hf; [|exact Hab]. by eapply list_elem_of_lookup_2.
Qed.
Lemma prefixes_drawn name make ordered first cases :
  (∀ id selected c, some_cameras selected → make id selected duration = Ok c → drawn c) →
  Forall (λ x, x ∈ cameras) ordered → (0 < first)%nat →
  traverse (prefix_case duration name make ordered) (counts_up_to first (length ordered)) = Ok cases → Forall drawn cases.
Proof.
  intros Hmake Ho Hf. apply traverse_all. intros n c Hn. unfold prefix_case. cbv zeta. intros (suffix & _ & H)%outcome_bind_ok.
  eapply Hmake; [|exact H]. apply counts_bounds in Hn as [? ?]; [|done]. by apply prefix_some.
Qed.
Lemma spread_members l k : _spread l = Ok k → Forall (λ x, x ∈ l) k.
Proof.
  intros Hs%spread_perm. apply Forall_forall. intros x Hx. by rewrite <- Hs.
Qed.
Lemma of_model_members model l : of_model model cameras = Ok l → Forall (λ x, x ∈ cameras) l.
Proof.
  unfold of_model. intros (marked & Hm & H)%outcome_bind_ok. injection H as <-.
  assert (Forall (λ p : bool * camera, p.2 ∈ cameras) marked) as Hf.
  { eapply traverse_all; [|exact Hm]. intros c p Hc (b & _ & [= <-])%outcome_bind_ok. done. }
  apply Forall_forall. intros x Hx. apply list_elem_of_fmap in Hx as (p & -> & Hp). apply list_elem_of_filter in Hp as [_ Hp].
  rewrite Forall_forall in Hf. by apply Hf.
Qed.
Lemma smoke_drawn cases : smoke_cases cameras duration = Ok cases →
  Forall drawn cases ∧ Forall (λ c, ∃ s case, need "serial" c = Ok s ∧ case ∈ cases ∧ serials case = [s]) cameras.
Proof.
  unfold smoke_cases. intros Hc. split.
  - revert Hc. apply traverse_all. intros c case Hc (label & _ & H)%outcome_bind_ok. eapply common_drawn; [by apply single|exact H].
  - apply traverse_ok in Hc. apply Forall_forall. intros c Hin. apply list_elem_of_lookup in Hin as [i Hi].
    destruct (Forall2_lookup_l _ _ _ _ _ Hc Hi) as (case & Hcase & H). apply outcome_bind_ok in H as (label & _ & H).
    unfold _common_case in H. apply outcome_bind_ok in H as (ph & _ & H). apply outcome_bind_ok in H as (ss & Hss & H). injection H as H.
    apply traverse_ok in Hss. inversion Hss as [|? s ? ? Hs Hnil]; subst. inversion Hnil; subst.
    eexists s, _. split; [done|]. split; [by eapply list_elem_of_lookup_2|done].
Qed.
Lemma scaling_drawn cases : scaling_cases layout cameras duration = Ok cases → Forall drawn cases.
Proof.
  unfold scaling_cases. intros (ordered & Ho & H)%outcome_bind_ok. eapply prefixes_drawn; [exact common_drawn| | |exact H]; [|lia].
  unfold order_for_scaling in Ho. apply outcome_bind_ok in Ho as (labelled & Hl & Ho). cbv zeta in Ho.
  apply outcome_bind_ok in Ho as (order & _ & Ho). destruct (negb _); [done|]. destruct (set_difference _ _); [|done].
  apply outcome_bind_ok in Ho as (spread & Hs & Ho). injection Ho as <-. apply spread_members in Hs.
  assert (Forall (λ p : string * camera, p.2 ∈ cameras) labelled) as Hf.
  { eapply traverse_all; [|exact Hl]. intros c p Hc (b & _ & [= <-])%outcome_bind_ok. done. }
  assert (Forall (λ p : string * camera, p.2 ∈ cameras) (foldl (λ d kc, dset kc.1 kc.2 d) [] labelled)) as Hd.
  { clear -Hf. assert (∀ acc : list (string * camera), Forall (λ p, p.2 ∈ cameras) acc →
      Forall (λ p, p.2 ∈ cameras) (foldl (λ d kc, dset kc.1 kc.2 d) acc labelled)) as Hg; [|by apply Hg].
    induction Hf as [|p l Hp _ IH]; intros acc Hacc; simpl; [done|]. apply IH. clear IH. induction Hacc as [|[k v] acc Hv Hacc IHa]; simpl.
    - by constructor.
    - case_bool_decide; constructor; done. }
  set (ordered0 := omap _ order).
  assert (Forall (λ x, x ∈ cameras) ordered0) as H0.
  { apply Forall_forall. intros x Hx. apply list_elem_of_omap in Hx as (label & _ & Hx). apply dget_elem in Hx.
    rewrite Forall_forall in Hd. by apply (Hd (label, x)). }
  clearbody ordered0. clear -H0 Hs. revert ordered0 H0. induction Hs as [|x spread Hx Hs IH]; intros l Hl; simpl; [done|].
  apply IH. destruct (not_in l x); [|done]. apply Forall_app. split; [done|by constructor].
Qed.
Lemma choose_members models selected sel :
  Forall (λ x, x ∈ cameras) selected → _choose_models cameras models selected = Ok (Some sel) →
  Forall (λ x, x ∈ cameras) sel ∧ length sel = (length selected + length models)%nat.
Proof.
  revert selected. induction models as [|m models IH]; intros selected Hsel; simpl; [intros [= <-]; split; [done|lia]|].
  intros (candidates & Hc & H)%outcome_bind_ok. cbv zeta in H. apply outcome_bind_ok in H as (sorted & Hsort & H).
  destruct sorted as [|choice sorted]; [done|]. apply sorted_keyed_perm in Hsort. apply of_model_members in Hc.
  assert (choice ∈ cameras) as Hch.
  { assert (choice ∈ filter (λ c, not_in selected c = true) candidates) as Hin by (rewrite <- Hsort; left).
    apply list_elem_of_filter in Hin as [_ Hin]. rewrite Forall_forall in Hc. by apply Hc. }
  apply IH in H as [Hm Hlen]; [|apply Forall_app; split; [done|by constructor]]. split; [done|]. rewrite Hlen, length_app. simpl. lia.
Qed.
Lemma sets_some models sets : chosen_sets cameras models = Ok sets → Forall some_cameras sets.
Proof.
  unfold chosen_sets. intros (pairs & Hp & H)%outcome_bind_ok. apply outcome_bind_ok in H as (three & H3 & H).
  apply outcome_bind_ok in H as (four & H4 & H). injection H as <-.
  set (fine (o : option (list camera)) := ∀ l, o = Some l → some_cameras l).
  assert (Forall fine pairs) as F2.
  { eapply traverse_all; [|exact Hp]. intros [a b] o _ Ho l ->. apply choose_members in Ho as [Hm Hl]; [|constructor]. split; [rewrite Hl; simpl; lia|done]. }
  assert (Forall fine three) as F3.
  { destruct (forallb _ _); [|injection H3 as <-; constructor]. apply outcome_bind_ok in H3 as (t & Ht & [= <-]). constructor; [|constructor].
    intros l ->. apply choose_members in Ht as [Hm Hl]; [|constructor]. split; [rewrite Hl; simpl; lia|done]. }
  assert (Forall fine four) as F4.
  { destruct (_ && _) eqn:E; [|injection H4 as <-; constructor]. apply outcome_bind_ok in H4 as (t & Ht & [= <-]). constructor; [|constructor].
    intros l [= <-]. apply andb_true_iff in E as [E%bool_decide_eq_true _]. apply prefix_some; [by apply spread_members|lia|].
    by apply spread_perm in Ht as ->. }
  apply Forall_forall. intros l Hl. apply list_elem_of_omap in Hl as (o & Ho & Heq). simpl in Heq. subst o.
  assert (Forall fine (pairs ++ three ++ four)) as Hall by (rewrite !Forall_app; done). rewrite Forall_forall in Hall. by apply (Hall _ Ho).
Qed.
Lemma unseen_members seen l k : unseen_sets seen l = Ok k → Forall (λ x, x ∈ l) k.
Proof.
  revert seen k. induction l as [|x l IH]; intros seen k; simpl; [intros [= <-]; constructor|].
  intros (ss & _ & H)%outcome_bind_ok. cbv zeta in H. case_bool_decide.
  - apply IH in H. eapply Forall_impl; [exact H|]. intros y Hy. by right.
  - apply outcome_bind_ok in H as (rest & Hr & [= <-]). apply IH in Hr. constructor; [by left|]. eapply Forall_impl; [exact Hr|]. intros y Hy. by right.
Qed.
Lemma heterogeneous_drawn cases : heterogeneous_cases cameras duration = Ok cases → Forall drawn cases.
Proof.
  unfold heterogeneous_cases. intros (models & _ & H)%outcome_bind_ok. apply outcome_bind_ok in H as (sets & Hsets & H).
  apply outcome_bind_ok in H as (sets' & Hsets' & H). apply sets_some in Hsets. apply unseen_members in Hsets'. revert H. apply traverse_all.
  intros selected c Hs. unfold heterogeneous_case. intros (ms & _ & H)%outcome_bind_ok. apply outcome_bind_ok in H as (suffix & _ & H).
  eapply common_drawn; [|exact H]. rewrite Forall_forall in Hsets, Hsets'. by apply Hsets, Hsets'.
Qed.
Lemma stereo_cases_drawn model cases : stereo_cases cameras duration model = Ok cases → Forall drawn cases.
Proof.
  unfold stereo_cases. intros (matching & Hm & H)%outcome_bind_ok. apply outcome_bind_ok in H as (ordered & Ho & H).
  apply outcome_bind_ok in H as (singles & Hs & H). apply outcome_bind_ok in H as (more & Hmore & H). injection H as <-.
  apply of_model_members in Hm. apply spread_members in Ho.
  assert (Forall (λ x, x ∈ cameras) ordered) as Hall.
  { eapply Forall_impl; [exact Ho|]. intros x Hx. rewrite Forall_forall in Hm. by apply Hm. }
  apply Forall_app. split.
  - revert Hs. apply traverse_all. intros c case Hc (label & _ & H)%outcome_bind_ok. eapply stereo_drawn; [|exact H].
    apply single. rewrite Forall_forall in Hall. by apply Hall.
  - eapply prefixes_drawn; [exact stereo_drawn|exact Hall| |exact Hmore]. lia.
Qed.
End plan.
Lemma part_ok suites suite m l (P : case → Prop) :
  part suites suite m = Ok l → (∀ l, m = Ok l → Forall P l) → Forall P l.
Proof. unfold part. case_bool_decide; [auto|]. intros [= <-] _. constructor. Qed.

(** C31: A plan measures every situation once.  No two cases of a plan have the
    same signature (cameras, stream mode, rate and sizes); every case runs between
    one and four cameras of the layout, for the duration that was asked for and
    with the number of frames that it takes; and the suites "smoke" and "all" run
    every camera on its own. *)
Theorem plan_measures_each_situation_once (layout : pydict) (cameras : list camera) (duration : Z) (suite : string) cases :
  plan_cases layout cameras duration suite = Ok cases →
  NoDup (map signature cases) ∧ Forall (drawn cameras duration) cases ∧
  (suite ∈ ["smoke"; "all"] →
   Forall (λ c, ∃ s case, need "serial" c = Ok s ∧ case ∈ cases ∧ sorted_strings (serials case) = [s]) cameras).
Proof.
  unfold plan_cases. intros (smoke & Hsm & H)%outcome_bind_ok. apply outcome_bind_ok in H as (scaling & Hsc & H).
  apply outcome_bind_ok in H as (het & Hhe & H). apply outcome_bind_ok in H as (stereo & Hst & H). injection H as <-.
  destruct (keep_first_spec (smoke ++ scaling ++ het ++ stereo) [] NoDup_nil_2) as (Hn & Hsub & Hsup). split; [done|]. split.
  - assert (Forall (drawn cameras duration) (smoke ++ scaling ++ het ++ stereo)) as Hall.
    { rewrite !Forall_app. split_and!.
      - eapply part_ok; [exact Hsm|]. intros l Hl. by apply smoke_drawn in Hl as [? _].
      - eapply part_ok; [exact Hsc|apply scaling_drawn].
      - eapply part_ok; [exact Hhe|apply heterogeneous_drawn].
      - eapply part_ok; [exact Hst|]. intros l (parts & Hp & [= <-])%outcome_bind_ok. apply Forall_concat.
        revert Hp. apply traverse_all. intros m p _. apply stereo_cases_drawn. }
    apply Forall_forall. intros c Hc. rewrite Forall_forall in Hall. apply Hall. by destruct (Hsub c Hc) as [[]%not_elem_of_nil|].
  - intros Hsuite. unfold part in Hsm. rewrite bool_decide_true in Hsm by done. apply smoke_drawn in Hsm as [_ Hone].
    eapply Forall_impl; [exact Hone|]. intros c (s & case & Hs & Hin & Hcase).
    destruct (Hsup case) as (case' & Hin' & Hsig); [right; apply elem_of_app; by left|]. exists s, case'. split; [done|]. split; [done|].
    unfold signature in Hsig. injection Hsig as Hss _. by rewrite Hss, Hcase.
Qed.

(** ** Applications *)

(** Three cameras at two hubs. *)
Definition demo_camera (label model serial usb_serial port hub : string) : camera := [
  ("label", VStr label); ("model", VStr model); ("serial", VStr serial); ("librealsense_serial", VStr serial);
  ("usb_descriptor_serial", VStr usb_serial); ("usb_device", VStr port); ("upstream_hub", VStr hub);
  ("xhci_controller", VStr "xhci-hcd.0"); ("speed_mbps", VStr "5000"); ("power_control", VStr "on")].
Definition demo_cameras : list camera := [
  demo_camera "a" "D435" "11" "u1" "2-1.1" "2-1"; demo_camera "b" "D435" "12" "u2" "2-1.2" "2-1";
  demo_camera "c" "D455" "13" "u3" "2-2.1" "2-2"].
(** As sysfs has them: the serial is that of the descriptor. *)
Definition demo_connected : list pydict := map (λ c, dset "serial" (VStr (may "usb_descriptor_serial" "" c)) c) demo_cameras.
Definition demo_layout : pydict := [("max_cameras_per_powered_hub", VInt 2); ("cameras", VList (map VDict demo_cameras))].
Definition labels_of (o : outcome (list camera)) : option (list string) :=
  match o with Ok l => Some (map (may "label" "") l) | Raise _ => None end.
Example demo_spread : labels_of (_spread demo_cameras) = Some ["a"; "c"; "b"].
Proof. vm_compute. reflexivity. Qed.
Example demo_plan :
  match plan_cases demo_layout demo_cameras 60 "all" with Ok l => Some (map case_id l) | Raise _ => None end =
  Some ["smoke_common30_a"; "smoke_common30_b"; "smoke_common30_c"; "scaling_common30_n2_a-c"; "scaling_common30_n3_a-c-b";
        "d455_stress60_n1_c"; "d435_stress60_n1_a"; "d435_stress60_n1_b"; "d435_stress60_n2_a-b"].
Proof. vm_compute. reflexivity. Qed.
Definition raised_class {A} (o : outcome A) : option exn_class := match o with Raise e => Some (exn_type e) | Ok _ => None end.
(** A slow camera and a camera that is not in the layout. *)
Example demo_rejected :
  raised_class (check_layout (dset "speed_mbps" (VStr "480") (demo_camera "a" "D435" "u1" "u1" "2-1.1" "2-1") :: tail demo_connected)
                  false false demo_layout demo_cameras) = Some RuntimeError ∧
  raised_class (check_layout (demo_camera "d" "D415" "u4" "u4" "2-3" "direct:2-3" :: demo_connected)
                  false false demo_layout demo_cameras) = Some RuntimeError.
Proof. vm_compute. done. Qed.

Lemma spread_uses_hubs_evenly_witness :
  ∃ l, _spread demo_cameras = Ok l ∧ l ≡ₚ demo_cameras.
Proof.
  assert (is_ok (_spread demo_cameras) = true) as Hok by (vm_compute; reflexivity).
  destruct (_spread demo_cameras) as [l|] eqn:E; [|done]. exists l. split; [done|]. apply (spread_uses_hubs_evenly _ _ E).
Defined.
Lemma preflight_is_sound_witness :
  ∃ r devices, check_layout demo_connected false false demo_layout demo_cameras = Ok r ∧ length devices = 3%nat ∧
    ∃ n, py_int (dgetd "max_cameras_per_powered_hub" (VInt 2) demo_layout) = Ok n ∧
      ∀ h, counter h (map hub_of devices) <= Z.max n 0.
Proof.
  assert (is_ok (check_layout demo_connected false false demo_layout demo_cameras) = true) as Hok by (vm_compute; reflexivity).
  destruct (check_layout _ _ _ _ _) as [r|] eqn:E; [|done].
  destruct (preflight_is_sound _ _ _ _ _ _ E) as (devices & Hdev & _ & _ & Hhubs). exists r, devices.
  split; [done|]. split; [symmetry; exact (Forall2_length _ _ _ Hdev)|exact Hhubs].
Defined.
Lemma plan_measures_each_situation_once_witness :
  ∃ cases, plan_cases demo_layout demo_cameras 60 "all" = Ok cases ∧ length cases = 9%nat ∧ NoDup (map signature cases).
Proof.
  assert (length <$> plan_cases demo_layout demo_cameras 60 "all" = Ok 9%nat) as Hok by (vm_compute; reflexivity).
  destruct (plan_cases _ _ _ _) as [cases|] eqn:E; [|done]. exists cases. split; [done|]. split; [by injection Hok|].
  apply (plan_measures_each_situation_once _ _ _ _ _ E).
Defined.
