(* ===== verification/PlannedCases.v ===== *)
(** * From the multi-camera plan to the steady-state campaign

    run_multicamera_campaign.py writes the cases of its plan to a file and starts
    run_steady_campaign.py on it.  The file is accepted: the ids of planned cases
    differ, and every case names as many cameras as it has serial numbers. *)
From Stdlib Require Import Ascii ZArith Lia Floats.SpecFloat.
From S2P Require Import Prelude PyStr PyFloat PyVal Effects.
From S2P Require Import StartupTrace SteadyResults SteadyBench MultiCamera MultiCameraSpec CampaignRun SteadyCampaign SteadyCampaignSpec.
From stdpp Require Import base gmap strings list sorting.
Local Open Scope Z_scope.
Local Open Scope py_scope.

(** ** Text up to a separator *)

Lemma split_inj c a b a' b' : in_string c a = false → in_string c a' = false →
  a +:+ String c b = a' +:+ String c b' → a = a' ∧ b = b'.
Proof.
  intros Ha Ha' Heq. pose proof (f_equal (head ∘ py_split c) Heq) as Hh. simpl in Hh. rewrite !py_split_cons in Hh by done.
  injection Hh as <-. split; [done|]. apply string_app_inj_l in Heq. by injection Heq.
Qed.
Lemma in_string_map f c s : (∀ a, f a = c → a = c) → in_string c s = false → in_string c (string_map f s) = false.
Proof.
  intros Hf. induction s as [|a s IH]; simpl; [done|]. rewrite !orb_false_iff. intros [Ha Hs]. split; [|by apply IH].
  apply bool_decide_eq_false in Ha. apply bool_decide_eq_false. intros Heq. apply Ha. by rewrite (Hf a).
Qed.
Ltac decided := apply (bool_decide_unpack _); vm_compute; exact I.
Ltac each_char := intros [[] [] [] [] [] [] [] []]; vm_compute; congruence.
Lemma lower_of_upper a : lower_char (upper_char a) = lower_char a.
Proof. revert a. each_char. Qed.
Lemma upper_of_lower a : upper_char (lower_char a) = upper_char a.
Proof. revert a. each_char. Qed.
Lemma upper_idempotent s : py_upper (py_upper s) = py_upper s.
Proof. unfold py_upper. induction s as [|a s IH]; simpl; [done|]. rewrite IH. f_equal. revert a. each_char. Qed.
Lemma upper_lower s t : py_lower s = py_lower t → py_upper s = py_upper t.
Proof.
  unfold py_lower, py_upper. revert t. induction s as [|a s IH]; intros [|b t]; simpl; try done.
  intros [= Hab Hst]. f_equal; [|by apply IH]. by rewrite <- (upper_of_lower a), Hab, upper_of_lower.
Qed.

(** ** Lists whose ids differ *)

Lemma traverse_ids {A B K} (f : A → outcome B) (id : B → string) (tag : A → K) l cs :
  traverse f l = Ok cs →
  (∀ x y c d, x ∈ l → y ∈ l → f x = Ok c → f y = Ok d → id c = id d → tag x = tag y) →
  NoDup (map tag l) → NoDup (map id cs).
Proof.
  intros Hl%traverse_ok. induction Hl as [|x c l cs Hx Hl IH]; simpl; intros Ht; [constructor|].
  rewrite !NoDup_cons. intros [Hn Hd]. split; [|apply IH; [|done]; intros y z d e Hy Hz; apply Ht; by right].
  intros (d & Heq & Hdin)%list_elem_of_fmap. apply Hn. apply list_elem_of_lookup in Hdin as [i Hi].
  destruct (Forall2_lookup_r _ _ _ _ _ Hl Hi) as (y & Hy & Hyd). apply list_elem_of_lookup_2 in Hy.
  apply list_elem_of_fmap. exists y. split; [|done]. eapply Ht; [by left|by right|done|done|done].
Qed.
Lemma traverse_Forall {A B} (f : A → outcome B) (P : B → Prop) l cs :
  traverse f l = Ok cs → (∀ x c, x ∈ l → f x = Ok c → P c) → Forall P cs.
Proof. intros Hl Hf. eapply traverse_all; [|exact Hl]. auto. Qed.
Definition of_family (family id : string) : Prop := ∃ rest, id = family +:+ "_" +:+ rest.
Definition of_families (fs : list string) (id : string) : Prop := ∃ f, f ∈ fs ∧ of_family f id.
Lemma one_family f ids : Forall (of_family f) ids → Forall (of_families [f]) ids.
Proof. intros Hf. eapply Forall_impl; [exact Hf|]. intros id Hid. exists f. split; [by left|done]. Qed.
Lemma more_families fs gs ids : fs ⊆ gs → Forall (of_families fs) ids → Forall (of_families gs) ids.
Proof. intros Hs Hf. eapply Forall_impl; [exact Hf|]. intros id (f & Hin & Hid). exists f. split; [by apply Hs|done]. Qed.
Lemma families_differ fs gs ids1 ids2 :
  Forall (λ f, f ∉ gs) fs → Forall (λ f, in_string "_" f = false) (fs ++ gs) →
  NoDup ids1 ∧ Forall (of_families fs) ids1 → NoDup ids2 ∧ Forall (of_families gs) ids2 →
  NoDup (ids1 ++ ids2) ∧ Forall (of_families (fs ++ gs)) (ids1 ++ ids2).
Proof.
  intros Hne Hno [Hn1 H1] [Hn2 H2]. split.
  - apply NoDup_app. split; [done|]. split; [|done]. intros id Hin1 Hin2. rewrite Forall_forall in H1, H2, Hne, Hno.
    destruct (H1 id Hin1) as (f & Hf & r1 & ->), (H2 _ Hin2) as (g & Hg & r2 & Heq).
    apply (split_inj "_") in Heq as [<- _]; [by apply (Hne f)|apply Hno, elem_of_app; by left|apply Hno, elem_of_app; by right].
  - apply Forall_app. split; (eapply more_families; [|eassumption]); intros f Hf; apply elem_of_app; auto.
Qed.
Lemma keep_first_sublist l acc : ∃ k, k `sublist_of` l ∧ foldl keep_first acc l = acc ++ k.
Proof.
  revert acc. induction l as [|c l IH]; intros acc; simpl; [exists []; by rewrite app_nil_r|].
  destruct (IH (keep_first acc c)) as (k & Hk & ->). unfold keep_first. case_bool_decide.
  - exists k. split; [by apply sublist_cons|done].
  - exists (c :: k). split; [by apply sublist_skip|]. by rewrite <- app_assoc.
Qed.

(** ** The ids of the plan *)

Abbreviation id_of := MultiCamera.case_id.
Lemma need_may k c s : need k c = Ok s → may k "" c = s.
Proof. unfold need, may, subscript, dgetd. by destruct (dget k c); intros [=]. Qed.
Lemma traverse_need k l ss : traverse (need k) l = Ok ss → map (may k "") l = ss.
Proof. intros Hl%traverse_ok. induction Hl; simpl; [done|]. f_equal; [by apply need_may|done]. Qed.
Lemma common_id id selected duration c : _common_case id selected duration = Ok c → id_of c = id.
Proof. unfold _common_case. intros (ph & _ & (ss & _ & [= <-])%outcome_bind_ok)%outcome_bind_ok. done. Qed.
Lemma stereo_id id selected duration c : _stereo_case id selected duration = Ok c → id_of c = id.
Proof.
  unfold _stereo_case. intros (models & _ & H)%outcome_bind_ok. cbv zeta in H. destruct (negb _); [done|].
  destruct (sorted_set _) as [|m [|? ?]]; [done| |done]. destruct (dget m _) as [p|]; [|done].
  apply outcome_bind_ok in H as (ph & _ & H). apply outcome_bind_ok in H as (ss & _ & H). by injection H as <-.
Qed.

Section ids.
Context (layout : pydict) (cameras : list camera) (duration : Z).
Abbreviation label := (may "label" "").
Abbreviation model := (may "model" "").
Context (unique : NoDup (map label cameras)).

Lemma smoke_ids cases : smoke_cases cameras duration = Ok cases →
  NoDup (map id_of cases) ∧ Forall (of_family "smoke") (map id_of cases).
Proof using unique.
  unfold smoke_cases. intros Hc.
  assert (∀ c case, (l ← need "label" c; _common_case ("smoke_common30_" +:+ l) [c] duration) = Ok case →
            id_of case = "smoke_common30_" +:+ label c) as Hid.
  { intros c case (l & Hl & H)%outcome_bind_ok. rewrite (need_may _ _ _ Hl). by eapply common_id. }
  split.
  - eapply traverse_ids; [exact Hc| |exact unique]. intros x y c d _ _ Hx Hy. rewrite (Hid _ _ Hx), (Hid _ _ Hy).
    apply string_app_inj_l.
  - apply Forall_fmap. eapply traverse_Forall; [exact Hc|]. intros c case _ H. exists ("common30_" +:+ label c). by apply Hid.
Qed.
(** The cases of the first cameras of an order, one per count. *)
Lemma prefix_ids name make ordered counts cases :
  (∀ id selected c, make id selected duration = Ok c → id_of c = id) →
  traverse (prefix_case duration name make ordered) counts = Ok cases → NoDup counts →
  NoDup (map id_of cases) ∧ Forall (λ id, ∃ n rest, n ∈ counts ∧ id = name +:+ str_Z (Z.of_nat n) +:+ "_" +:+ rest) (map id_of cases).
Proof.
  intros Hmake Hc Hn.
  assert (∀ n case, prefix_case duration name make ordered n = Ok case →
            ∃ rest, id_of case = name +:+ str_Z (Z.of_nat n) +:+ "_" +:+ rest) as Hid.
  { intros n case (suffix & _ & H)%outcome_bind_ok. exists suffix. by eapply Hmake. }
  split.
  - eapply (traverse_ids _ _ id); [exact Hc| |by rewrite map_id]. intros x y c d _ _ Hx Hy.
    destruct (Hid _ _ Hx) as [r ->], (Hid _ _ Hy) as [r' ->]. intros Heq%string_app_inj_l.
    apply (split_inj "_") in Heq as [Heq _]; [|apply str_Z_no_underscore..]. apply str_Z_inj in Heq. unfold Datatypes.id. lia.
  - apply Forall_fmap. eapply traverse_Forall; [exact Hc|]. intros n case Hin H. destruct (Hid _ _ H) as [r Hr]. by exists n, r.
Qed.
Lemma scaling_ids cases : scaling_cases layout cameras duration = Ok cases →
  NoDup (map id_of cases) ∧ Forall (of_family "scaling") (map id_of cases).
Proof.
  unfold scaling_cases. intros (ordered & _ & H)%outcome_bind_ok.
  apply prefix_ids in H as [Hn Hf]; [|intros ???; apply common_id|apply NoDup_seq]. split; [done|].
  eapply Forall_impl; [exact Hf|]. intros id (n & r & _ & ->).
  exists ("common30_n" +:+ str_Z (Z.of_nat n) +:+ "_" +:+ r). done.
Qed.

(** *** Sets of different models *)

Definition shape (selected : list camera) : list string := map (λ c, py_upper (model c)) selected.
Lemma of_model_shape m l c : of_model m cameras = Ok l → c ∈ l → py_upper (model c) = py_upper m.
Proof.
  unfold of_model. intros (marked & Hm & H)%outcome_bind_ok Hc. injection H as <-.
  apply list_elem_of_fmap in Hc as ([b c'] & -> & Hin). apply list_elem_of_filter in Hin as [Hb Hin]. simpl in *. subst b.
  apply traverse_ok in Hm. apply list_elem_of_lookup in Hin as [i Hi].
  destruct (Forall2_lookup_r _ _ _ _ _ Hm Hi) as (y & _ & Hy). apply outcome_bind_ok in Hy as (b & Hb & [= -> ->]).
  apply outcome_bind_ok in Hb as (s & Hs & Hb). injection Hb as Hb%bool_decide_eq_true. by rewrite (need_may _ _ _ Hs).
Qed.
Lemma choose_shape models selected sel :
  _choose_models cameras models selected = Ok (Some sel) → shape sel = shape selected ++ map py_upper models.
Proof.
  revert selected. induction models as [|m models IH]; intros selected; simpl; [intros [= <-]; by rewrite app_nil_r|].
  intros (candidates & Hc & H)%outcome_bind_ok. cbv zeta in H. apply outcome_bind_ok in H as (sorted & Hsort & H).
  destruct sorted as [|choice sorted]; [done|]. apply sorted_keyed_perm in Hsort.
  assert (choice ∈ candidates) as Hin.
  { assert (choice ∈ filter (λ c, not_in selected c = true) candidates) as Hin by (rewrite <- Hsort; left).
    by apply list_elem_of_filter in Hin as [_ Hin]. }
  apply IH in H. rewrite H. unfold shape. rewrite map_app, <- app_assoc. simpl. by rewrite (of_model_shape _ _ _ Hc Hin).
Qed.
Lemma pairs_of_spec {A} (l : list A) : NoDup l → NoDup (pairs_of l) ∧ Forall (λ p, p.1 ∈ l ∧ p.2 ∈ l) (pairs_of l).
Proof.
  induction 1 as [|x l Hx Hl [IHn IHf]]; simpl; [split; constructor|]. split.
  - apply NoDup_app. split; [by apply NoDup_fmap_2; [intros ?? [=]|]|]. split; [|done].
    intros p (y & -> & Hy)%list_elem_of_fmap Hp. rewrite Forall_forall in IHf. by destruct (IHf _ Hp).
  - apply Forall_app. split.
    + apply Forall_fmap, Forall_forall. intros y Hy. simpl. split; [by left|by right].
    + eapply Forall_impl; [exact IHf|]. intros p [H1 H2]. split; by right.
Qed.
Lemma sorted_set_spec l : NoDup (sorted_set l) ∧ ∀ x, x ∈ sorted_set l ↔ x ∈ l.
Proof.
  unfold sorted_set, Devices.sorted_strings. split.
  - rewrite (merge_sort_Permutation String.le). apply NoDup_remove_dups.
  - intros x. rewrite (merge_sort_Permutation String.le). apply elem_of_remove_dups.
Qed.
Lemma found_shapes {K} (f : K → list string) ks os :
  Forall2 (λ k o, ∀ sel, o = Some sel → shape sel = f k) ks os → NoDup (map f ks) →
  NoDup (map shape (omap id os)) ∧ Forall (λ s, s ∈ map f ks) (map shape (omap id os)).
Proof.
  induction 1 as [|k o ks os Ho Hs IH]; simpl; [by split; constructor|]. intros [Hk Hn]%NoDup_cons.
  destruct (IH Hn) as [IHn IHf]. assert (Forall (λ s, s ∈ f k :: map f ks) (map shape (omap id os))) as Hmore.
  { eapply Forall_impl; [exact IHf|]. intros s Hs'. by right. }
  destruct o as [sel|]; simpl; [|by split]. rewrite (Ho sel eq_refl). split; [|by constructor; [left|]].
  apply NoDup_cons. split; [|done]. intros Hin. rewrite Forall_forall in IHf. by apply Hk, IHf.
Qed.
Lemma sets_shapes models sets : NoDup models → Forall (λ m, py_upper m = m) models →
  chosen_sets cameras models = Ok sets → NoDup (map shape sets).
Proof.
  intros Hnd Hup. unfold chosen_sets. intros (pairs & Hp & H)%outcome_bind_ok. apply outcome_bind_ok in H as (three & H3 & H).
  apply outcome_bind_ok in H as (four & H4 & H). injection H as <-. destruct (pairs_of_spec models Hnd) as [Hpn Hpf].
  set (f := λ p : string * string, [p.1; p.2]).
  destruct (found_shapes f (pairs_of models) pairs) as [Hn2 Hf2].
  { apply traverse_ok in Hp. assert (Forall (λ p, py_upper p.1 = p.1 ∧ py_upper p.2 = p.2) (pairs_of models)) as Hpu.
    { eapply Forall_impl; [exact Hpf|]. intros p [H1 H2]. rewrite Forall_forall in Hup. split; by apply Hup. }
    clear Hpf Hpn. induction Hp as [|p o ps os Ho Hs IH]; [constructor|]. apply Forall_cons in Hpu as [[H1 H2] Hpu].
    constructor; [|by apply IH]. intros sel ->. apply choose_shape in Ho. rewrite Ho. simpl. by rewrite H1, H2. }
  { apply NoDup_fmap_2; [|done]. by intros [] [] [= -> ->]. }
  assert (Forall (λ s, length s = 2%nat) (map shape (omap id pairs))) as L2.
  { eapply Forall_impl; [exact Hf2|]. by intros s (p & -> & _)%list_elem_of_fmap. }
  assert (NoDup (map shape (omap id three)) ∧ Forall (λ s, length s = 3%nat) (map shape (omap id three))) as [Hn3 L3].
  { destruct (forallb _ _); [|injection H3 as <-; by split; constructor]. apply outcome_bind_ok in H3 as (t & Ht & [= <-]).
    destruct t as [sel|]; simpl; [|by split; constructor]. apply choose_shape in Ht. rewrite Ht.
    split; [apply NoDup_singleton|by constructor]. }
  assert (NoDup (map shape (omap id four)) ∧ Forall (λ s, length s = 4%nat) (map shape (omap id four))) as [Hn4 L4].
  { destruct (_ && _) eqn:E; [|injection H4 as <-; by split; constructor]. apply outcome_bind_ok in H4 as (t & Ht & [= <-]).
    apply andb_true_iff in E as [E%bool_decide_eq_true _]. apply spread_perm in Ht. simpl.
    split; [apply NoDup_singleton|]. constructor; [|constructor]. unfold shape. rewrite length_map, length_take, Ht. lia. }
  rewrite !omap_app, !map_app. apply NoDup_app. split; [done|]. split; [|apply NoDup_app; split; [done|split; [|done]]].
  - intros s Hs. rewrite Forall_forall in L2, L3, L4. specialize (L2 s Hs).
    intros [Hin|Hin]%elem_of_app; [specialize (L3 s Hin)|specialize (L4 s Hin)]; congruence.
  - intros s Hs Hin. rewrite Forall_forall in L3, L4. specialize (L3 s Hs). specialize (L4 s Hin). congruence.
Qed.
Lemma unseen_sublist seen l k : unseen_sets seen l = Ok k → k `sublist_of` l.
Proof.
  revert seen k. induction l as [|x l IH]; intros seen k; simpl; [by intros [= <-]|].
  intros (ss & _ & H)%outcome_bind_ok. cbv zeta in H. case_bool_decide.
  - apply sublist_cons. by eapply IH.
  - apply outcome_bind_ok in H as (rest & Hr & [= <-]). apply sublist_skip. by eapply IH.
Qed.

Lemma of_model_sublist m l : of_model m cameras = Ok l → l `sublist_of` cameras.
Proof.
  unfold of_model. intros (marked & Hm & H)%outcome_bind_ok. injection H as <-.
  assert (marked.*2 = cameras) as <-; [|apply fmap_sublist, sublist_filter].
  apply traverse_ok in Hm. clear -Hm. induction Hm as [|c p l k Hc Hl IH]; [done|].
  change (p.2 :: k.*2 = c :: l). rewrite IH. by apply outcome_bind_ok in Hc as (b & _ & [= <-]).
Qed.
Lemma stereo_ids m cases : stereo_cases cameras duration m = Ok cases →
  NoDup (map id_of cases) ∧ Forall (of_family (py_lower m)) (map id_of cases).
Proof using unique.
  unfold stereo_cases. intros (matching & Hm & H)%outcome_bind_ok. apply outcome_bind_ok in H as (ordered & Ho & H).
  apply outcome_bind_ok in H as (singles & Hs & H). apply outcome_bind_ok in H as (more & Hmore & H). injection H as <-.
  set (name := py_lower m +:+ "_stress60_n").
  assert (∀ c case, (l ← need "label" c; _stereo_case (py_lower m +:+ "_stress60_n1_" +:+ l) [c] duration) = Ok case →
            id_of case = name +:+ str_Z 1 +:+ "_" +:+ label c) as Hid.
  { intros c case (l & Hl & H)%outcome_bind_ok. rewrite (need_may _ _ _ Hl). apply stereo_id in H. rewrite H.
    unfold name. by rewrite string_app_assoc. }
  assert (NoDup (map id_of singles)) as Hn1.
  { eapply (traverse_ids _ _ (λ c, label c)); [exact Hs| |].
    - intros x y c d _ _ Hx Hy. rewrite (Hid _ _ Hx), (Hid _ _ Hy).
      by intros ?%string_app_inj_l%string_app_inj_l%string_app_inj_l.
    - apply spread_perm in Ho. rewrite Ho. eapply sublist_NoDup; [exact unique|]. apply fmap_sublist. by eapply of_model_sublist. }
  assert (Forall (λ id, ∃ rest, id = name +:+ str_Z 1 +:+ "_" +:+ rest) (map id_of singles)) as Hf1.
  { apply Forall_fmap. eapply traverse_Forall; [exact Hs|]. intros c case _ H. exists (label c). by apply Hid. }
  apply prefix_ids in Hmore as [Hn2 Hf2]; [|intros ???; apply stereo_id|apply NoDup_seq].
  rewrite map_app. split.
  - apply NoDup_app. split; [done|]. split; [|done]. intros id Hin Hin'. rewrite Forall_forall in Hf1, Hf2.
    destruct (Hf1 _ Hin) as [r ->], (Hf2 _ Hin') as (n & r' & Hn & Heq). unfold name in Heq. apply string_app_inj_l in Heq.
    apply (split_inj "_") in Heq as [Heq _]; [|apply str_Z_no_underscore..]. apply str_Z_inj in Heq.
    unfold counts_up_to in Hn. apply elem_of_seq in Hn. lia.
  - apply Forall_app. split.
    + eapply Forall_impl; [exact Hf1|]. intros id (r & ->). unfold name. rewrite string_app_assoc.
      by exists ("stress60_n" +:+ str_Z 1 +:+ "_" +:+ r).
    + eapply Forall_impl; [exact Hf2|]. intros id (n & r & _ & ->). rewrite string_app_assoc.
      by exists ("stress60_n" +:+ str_Z (Z.of_nat n) +:+ "_" +:+ r).
Qed.
Lemma stereo_part_ids suites suite stereo :
  part suites suite (l ← traverse (stereo_cases cameras duration) ["D455"; "D435"]; Ok (concat l)) = Ok stereo →
  NoDup (map id_of stereo) ∧ Forall (of_families ["d455"; "d435"]) (map id_of stereo).
Proof using unique.
  unfold part. case_bool_decide; [|intros [= <-]; by split; constructor]. intros (parts & Hp & [= <-])%outcome_bind_ok.
  simpl in Hp. destruct (stereo_cases cameras duration "D455") as [a|] eqn:Ea; [|done].
  destruct (stereo_cases cameras duration "D435") as [b|] eqn:Eb; [|done]. injection Hp as <-.
  apply stereo_ids in Ea as [Ha Hfa]. apply stereo_ids in Eb as [Hb Hfb]. simpl. rewrite app_nil_r, map_app.
  apply (families_differ ["d455"] ["d435"]); [decided|decided|split; [done|by apply one_family]..].
Qed.
(** Model names, like those of the cameras there are, hold none of the two
    characters that separate the parts of an id. *)
Definition plain_name (s : string) : Prop := in_string "-" s = false ∧ in_string "_" s = false.
Lemma plain_lower s : plain_name s → plain_name (py_lower s).
Proof. intros [H1 H2]. split; (apply in_string_map; [each_char|done]). Qed.
Lemma in_string_join c sep l : in_string c sep = false → Forall (λ s, in_string c s = false) l → in_string c (py_join sep l) = false.
Proof.
  intros Hsep. induction 1 as [|s l Hs Hl IH]; [done|]. destruct l as [|t l]; [done|].
  change (in_string c (s +:+ sep +:+ py_join sep (t :: l)) = false). by rewrite !in_string_app, Hs, Hsep.
Qed.
Lemma names_inj ms ms' suffix suffix' : ms ≠ [] → ms' ≠ [] → Forall plain_name ms → Forall plain_name ms' →
  py_join "-" ms +:+ "_" +:+ suffix = py_join "-" ms' +:+ "_" +:+ suffix' → ms = ms'.
Proof.
  intros Hn Hn' Hp Hp' Heq. apply (split_inj "_") in Heq as [Heq _].
  - apply (f_equal (py_split "-")) in Heq. rewrite !py_split_join in Heq; [done|done| |done|];
      (eapply Forall_impl; [eassumption|]; by intros s []).
  - apply in_string_join; [done|]. eapply Forall_impl; [exact Hp|]. by intros s [].
  - apply in_string_join; [done|]. eapply Forall_impl; [exact Hp'|]. by intros s [].
Qed.
Context (plain : Forall (λ c, plain_name (model c)) cameras).
Lemma heterogeneous_ids cases : heterogeneous_cases cameras duration = Ok cases →
  NoDup (map id_of cases) ∧ Forall (of_family "heterogeneous") (map id_of cases).
Proof using plain.
  unfold heterogeneous_cases. intros (models & _ & H)%outcome_bind_ok. apply outcome_bind_ok in H as (sets & Hsets & H).
  apply outcome_bind_ok in H as (sets' & Hsets' & H).
  assert (∀ sel case, heterogeneous_case duration sel = Ok case → ∃ suffix,
    id_of case = "heterogeneous_common30_" +:+ py_join "-" (map py_lower (map model sel)) +:+ "_" +:+ suffix) as Hid.
  { intros sel case (ms & Hms & (suffix & _ & Hc)%outcome_bind_ok)%outcome_bind_ok. exists suffix.
    apply traverse_need in Hms. rewrite Hms. by eapply common_id. }
  assert (∀ sel, sel ∈ sets' → map py_lower (map model sel) ≠ [] ∧ Forall plain_name (map py_lower (map model sel))) as Hok.
  { intros sel Hsel. apply sets_some in Hsets. pose proof (unseen_members _ _ _ Hsets') as Hm.
    rewrite Forall_forall in Hsets, Hm. destruct (Hsets _ (Hm _ Hsel)) as [Hl Hin]. split; [by destruct sel; simpl in *; [lia|]|].
    rewrite !Forall_fmap. eapply Forall_impl; [exact Hin|]. intros c Hc. apply plain_lower.
    rewrite Forall_forall in plain. by apply plain. }
  split.
  - eapply (traverse_ids _ _ shape); [exact H| |].
    + intros x y c d Hx Hy Hc Hd. destruct (Hid _ _ Hc) as [r ->], (Hid _ _ Hd) as [r' ->]. intros Heq%string_app_inj_l.
      destruct (Hok x Hx), (Hok y Hy). apply names_inj in Heq; [|done..].
      unfold shape. rewrite <- !(map_map model py_upper). revert Heq. generalize (map model x), (map model y).
      intros l. induction l as [|s l IH]; intros [|s' l']; simpl; try done. intros [= Hs Hl]. f_equal; [by apply upper_lower|by apply IH].
    + eapply sublist_NoDup; [|by apply fmap_sublist; eapply unseen_sublist]. destruct (sorted_set_spec (map py_upper models)) as [Hn Hin].
      eapply sets_shapes; [exact Hn| |exact Hsets]. apply Forall_forall. intros m Hm. apply Hin in Hm.
      apply list_elem_of_fmap in Hm as (m' & -> & _). apply upper_idempotent.
  - apply Forall_fmap. eapply traverse_Forall; [exact H|]. intros sel case _ Hc. destruct (Hid _ _ Hc) as [r Hr].
    exists ("common30_" +:+ py_join "-" (map py_lower (map model sel)) +:+ "_" +:+ r). exact Hr.
Qed.

Lemma part_ids suites suite f m l : part suites suite m = Ok l →
  (∀ l, m = Ok l → NoDup (map id_of l) ∧ Forall (of_family f) (map id_of l)) →
  NoDup (map id_of l) ∧ Forall (of_families [f]) (map id_of l).
Proof.
  unfold part. case_bool_decide; [|intros [= <-] _; by split; constructor].
  intros Hm Hf. destruct (Hf l Hm). split; [done|by apply one_family].
Qed.
Lemma planned_ids suite cases : plan_cases layout cameras duration suite = Ok cases →
  NoDup (map id_of cases) ∧ Forall (λ id, id ≠ "") (map id_of cases).
Proof using unique plain.
  unfold plan_cases. intros (smoke & Hsm & H)%outcome_bind_ok. apply outcome_bind_ok in H as (scaling & Hsc & H).
  apply outcome_bind_ok in H as (het & Hhe & H). apply outcome_bind_ok in H as (stereo & Hst & H). injection H as <-.
  destruct (keep_first_sublist (smoke ++ scaling ++ het ++ stereo) []) as (k & Hk & ->). simpl.
  assert (NoDup (map id_of (smoke ++ scaling ++ het ++ stereo)) ∧
          Forall (of_families (["smoke"] ++ ["scaling"] ++ ["heterogeneous"] ++ ["d455"; "d435"]))
            (map id_of (smoke ++ scaling ++ het ++ stereo))) as [Hn Hf].
  { apply (part_ids _ _ "smoke") in Hsm; [|apply smoke_ids]. apply (part_ids _ _ "scaling") in Hsc; [|apply scaling_ids].
    apply (part_ids _ _ "heterogeneous") in Hhe; [|apply heterogeneous_ids]. apply stereo_part_ids in Hst. rewrite !map_app.
    apply families_differ; [decided|decided|done|]. apply families_differ; [decided|decided|done|].
    apply families_differ; [decided|decided|done..]. }
  assert (map id_of k `sublist_of` map id_of (smoke ++ scaling ++ het ++ stereo)) as Hs by by apply fmap_sublist.
  split; [by eapply sublist_NoDup|]. eapply sublist_keeps; [exact Hs|]. eapply Forall_impl; [exact Hf|].
  intros id (f & _ & rest & ->). by destruct f.
Qed.
End ids.

(** ** The campaign accepts the plan *)

Definition acceptable (ds : list pydict) : Prop :=
  ∃ ids, map case_id ds = map VStr ids ∧ NoDup ids ∧ Forall (λ id, id ≠ "") ids.
Lemma new_case_ok d id dids : case_id d = VStr id → id ≠ "" → id ∉ dids → new_case (map VStr dids) (VDict d) = Ok d.
Proof.
  intros Hd He Hn. unfold new_case. rewrite Hd. cbn [truthy in_set]. rewrite bool_decide_false by done. cbn [negb].
  assert (existsb (py_eq (VStr id)) (map VStr dids) = false) as ->; [|done].
  apply not_true_iff_false. rewrite existsb_exists. intros (v & Hv & Heq).
  apply list_elem_of_In, list_elem_of_fmap in Hv as (id' & -> & Hin). simpl in Heq. by apply bool_decide_eq_true in Heq as <-.
Qed.
Lemma check_cases_ok ds : acceptable ds → check_cases (λ _, Ok ()) (map VDict ds) = Ok ds.
Proof.
  intros (ids & Hids & Hn & He). unfold check_cases.
  enough (∀ done dids, map case_id done = map VStr dids → NoDup (dids ++ ids) →
    fold_outcome (add_case (λ _, Ok ())) (map VStr dids, done) (map VDict ds) = Ok (map VStr (dids ++ ids), done ++ ds)) as Hgo.
  { specialize (Hgo [] [] eq_refl Hn). simpl in Hgo. by rewrite Hgo. }
  clear Hn. revert ds Hids. induction He as [|id ids Hid He IH]; intros [|d ds] Hids done dids Hdone Hn; try discriminate Hids.
  { simpl. by rewrite !app_nil_r. }
  simpl in Hids. injection Hids as Hd Hids. pose proof Hn as (_ & Hfresh & _)%NoDup_app.
  cbn [map fold_outcome]. unfold add_case at 1. cbn [fst snd]. rewrite (new_case_ok _ _ _ Hd Hid).
  2: { intros Hin. apply (Hfresh id Hin). by left. }
  cbn [mbind outcome_bind]. rewrite Hd.
  change (map VStr dids ++ [VStr id]) with (map VStr dids ++ map VStr [id]). rewrite <- map_app.
  rewrite (IH ds Hids (done ++ [d]) (dids ++ [id])); [by rewrite <- !app_assoc| |by rewrite <- app_assoc].
  rewrite !map_app. simpl. by rewrite Hdone, Hd.
Qed.
Lemma parse_planned path source suite cases :
  acceptable (map case_dict cases) → parse_cases path (generated_cases source suite cases) = Ok (map case_dict cases).
Proof.
  intros Ha. change (check_cases (λ _, Ok ()) (map (VDict ∘ case_dict) cases) = Ok (map case_dict cases)).
  rewrite <- (check_cases_ok _ Ha), map_map. done.
Qed.
Lemma planned_counts c : check_reset (case_dict c) = Ok ().
Proof.
  unfold check_reset, camera_count, camera_count_of. simpl. rewrite length_map. by rewrite bool_decide_true.
Qed.

(** The options of the campaign that run_multicamera_campaign.py leaves alone. *)
Definition unchanged (o : SteadyCampaign.options) : Prop :=
  o_case_ids o = [] ∧ o_frames o = None ∧ o_measurement_duration_seconds o = None ∧ o_deadline_apply_after_frames o = None ∧
  o_deadline_allow_partial_profile o = false ∧ o_serials o = [] ∧ o_backend o = "v4l2" ∧ o_deadline_profile o = None.

(** C34: The campaign accepts the planned cases.  When the labels of the cameras
    differ, as the check of the layout demands, and model names hold neither of
    the two separators of an id, the ids of a plan are not empty and differ; and
    the file of cases that is written for a plan that is not empty is accepted as
    it is by the steady-state campaign that is started on it with policies that
    need no profile: no case is refused, and each has one serial number per
    camera. *)
Theorem planned_cases_are_accepted {W} `{OS W} {T} layout cameras duration suite source cases o (x : T * world W) :
  NoDup (map (may "label" "") cameras) → Forall (λ c, plain_name (may "model" "" c)) cameras →
  plan_cases layout cameras duration suite = Ok cases → cases ≠ [] →
  unchanged o → modeled_run o = false →
  (handle (ReadJson (o_config o)) (w_os x.2)).1 = Ok (generated_cases source suite cases) →
  NoDup (map id_of cases) ∧ (campaign_cases o x).1 = Ok (map case_dict cases).
Proof.
  intros Hl Hm Hp Hne (H1 & H2 & H3 & H4 & H5 & H6 & H7 & H8) Hmod Hread.
  destruct (planned_ids layout cameras duration Hl Hm suite cases Hp) as [Hids He]. split; [done|].
  destruct x as [t w]. unfold campaign_cases, load_cases, bind, sys, lift. simpl in Hread |- *.
  destruct (handle (ReadJson (o_config o)) (w_os w)) as [r os]. simpl in Hread. subst r.
  assert (acceptable (map case_dict cases)) as Ha.
  { exists (map id_of cases). split; [|done]. by rewrite !map_map. }
  rewrite parse_planned by done. unfold select_cases, override_cases, measurement_ms.
  rewrite H1, H2, H3, H4, H5, H6. simpl. unfold rsusb_cases. rewrite H7. simpl.
  assert (is_nil (map case_dict cases) = false) as -> by by destruct cases. simpl.
  unfold override_profile. rewrite H8. simpl. unfold check_profiles. unfold modeled_run in Hmod. rewrite Hmod. simpl.
  unfold check_resets. assert (∃ us, traverse check_reset (map case_dict cases) = Ok us) as [us ->].
  { clear. induction cases as [|c cases [us IH]]; [by exists []|]. exists (() :: us). simpl. by rewrite planned_counts, IH. }
  by destruct (needs_reset o).
Qed.

(** *** A machine that holds one file *)

#[local] Instance desk_os : OS pyval := λ A c v,
  match c in syscall A return outcome A * pyval with
  | ReadJson _ => (Ok v, v)
  | _ => (raise OSError "not available", v)
  end.
Definition default_options : SteadyCampaign.options := {|
  o_config := "/run/generated_cases.json"; o_case_ids := []; SteadyCampaign.o_policies := ["other"; "fifo"];
  o_deadline_profile := None; SteadyCampaign.o_nb_runs := 3; o_frames := None; o_measurement_duration_seconds := None;
  o_deadline_apply_after_frames := None; o_deadline_allow_partial_profile := false; o_serials := [];
  SteadyCampaign.o_build_dir := "/build"; SteadyCampaign.o_results_dir := "/run/benchkit"; o_lime := "/lime";
  SteadyCampaign.o_no_lime := false; o_v4l2_diagnostics := false; o_v4l2_diagnostics_build_only := false;
  o_overrun_kernel_trace := false; o_freshness_kernel_trace := false; o_full_path_kernel_trace := false;
  o_host_latency_kernel_trace := false; SteadyCampaign.o_no_sudo := false; o_backend := "v4l2"; o_rsusb_usb_devices := [];
  o_cpu_isolation := true; o_housekeeping_cpus := "0"; o_benchmark_cpus := "1-3"; o_recover_on_failure := "full-reset";
  o_reset_before_run := true; o_recovery_reset_timeout_ms := 10000; o_recovery_wait_seconds := f_of_Z 5;
  o_recovery_settle_seconds := f_of_Z 0; o_max_attempts_per_run := 3; o_cpu_noise_modes := ["none"];
  o_cpu_noise_workers := 4; o_cpu_noise_warmup_seconds := f_of_Z 10; o_cpu_noise_ready_timeout_seconds := f_of_Z 30;
  o_cpu_noise_cpu_affinity := None; o_memory_noise_modes := ["none"]; o_memory_noise_workers := 4;
  o_memory_noise_buffer_size_mib := 64; o_memory_noise_target_mib_per_second := f_of_Z 0;
  o_memory_noise_copy_chunk_kib := 1024; o_memory_noise_warmup_seconds := f_of_Z 10;
  o_memory_noise_ready_timeout_seconds := f_of_Z 30; o_memory_noise_cpu_affinity := None; o_gpu_noise_modes := ["none"];
  o_gpu_noise_device := 0; o_gpu_noise_warmup_iterations := 10; o_gpu_noise_ready_timeout_seconds := f_of_Z 60;
  o_gpu_noise_cpu_affinity := None; o_usb_storage_noise_modes := ["none"]; o_usb_storage_device := None;
  o_usb_storage_warmup_seconds := f_of_Z 10; o_usb_storage_block_size_kib := 1024;
  o_usb_storage_ready_timeout_seconds := f_of_Z 30; o_gpu_noise_vulkan_icd := None; SteadyCampaign.o_build_jobs := 3 |}.
Example default_options_pass : check_options default_options = Ok ().
Proof. vm_compute. reflexivity. Qed.
Definition planned : list case :=
  match plan_cases demo_layout demo_cameras 60 "all" with Ok cases => cases | Raise _ => [] end.
Definition planned_file : pyval := generated_cases "/layout.json" "all" planned.
Definition at_desk : unit * world pyval := ((), World planned_file []).
(** The plan of two D435 and one D455. *)
Lemma planned_cases_are_accepted_witness :
  map id_of planned = ["smoke_common30_a"; "smoke_common30_b"; "smoke_common30_c"; "scaling_common30_n2_a-c";
    "scaling_common30_n3_a-c-b"; "d455_stress60_n1_c"; "d435_stress60_n1_a"; "d435_stress60_n1_b"; "d435_stress60_n2_a-b"] ∧
  (campaign_cases default_options at_desk).1 = Ok (map case_dict planned).
Proof.
  split; [vm_compute; reflexivity|].
  assert (plan_cases demo_layout demo_cameras 60 "all" = Ok planned) as Hp by (vm_compute; reflexivity).
  destruct (planned_cases_are_accepted demo_layout demo_cameras 60 "all" "/layout.json" planned default_options at_desk)
    as [_ Hc]; [decided|repeat (constructor; [split; vm_compute; reflexivity|]); constructor|exact Hp|
                vm_compute; discriminate|repeat split|vm_compute; reflexivity|reflexivity|exact Hc].
Defined.
