(* ===== verification/Calibration.v ===== *)
(** * Startup calibration ([calibrate_startup_timings.py])

    Full resets and runs of the sensor probe over candidates for five timings,
    the choice of the least candidate that covers what was observed, and the
    validation of the choice.  The local variables that the nested function
    [execute_stage] changes are the attributes of [calibration]. *)
From Stdlib Require Import Ascii ZArith Lia Floats.SpecFloat.
From S2P Require Import Prelude PyStr PyFloat PyVal PyJson FloatOrder Effects Machine Shell Recovery.
From stdpp Require Import base gmap strings list.
Local Open Scope Z_scope.
Local Open Scope py_scope.
Local Open Scope M_scope.

Definition STAGE_SETTLE : string := "recovery_settle_ms".
Definition STAGE_FRAME : string := "frame_timeout_ms".
Definition STAGE_JOIN : string := "join_timeout_ms".
Definition STAGE_CYCLE : string := "cycle_delay_ms".
Definition STAGE_VALIDATION : string := "combined_validation".
Definition CYCLE_FIELDS : list string :=
  ["stage"; "candidate_ms"; "trial"; "cycle"; "success"; "framesets"; "start_call_ms"; "first_frame_ms";
   "first_frame_wait_ms"; "stop_call_ms"; "join_wait_ms"; "cycle_ms"; "threads_after_start"; "extra_threads_after_join"].

(** ** The output of the probe *)

(** The values behind a prefix; lines that are no JSON are skipped. *)
Definition prefixed_line (prefix line : string) : option pyval :=
  if negb (py_startswith prefix line) then None
  else match json_loads (py_drop (String.length prefix) line) with Ok v => Some v | Raise _ => None end.
Definition prefixed_json (output prefix : string) : list pyval := omap (prefixed_line prefix) (py_splitlines output).

(** [cycle[field] if field in cycle]: also of what is no object. *)
Definition field_of (cycle : pyval) (field : string) : outcome (option pyval) :=
  match cycle with
  | VDict d => Ok (dget field d)
  | VList l => if existsb (py_eq (VStr field)) l then raise TypeError "list indices must be integers or slices, not str"
               else Ok None
  | VStr s => if py_contains field s then raise TypeError "string indices must be integers, not 'str'" else Ok None
  | v => raise TypeError ("argument of type '" +:+ type_name v +:+ "' is not iterable")
  end.
Definition field_float (field : string) (cycle : pyval) : outcome (option f64) :=
  v ← field_of cycle field;
  match v with Some v => x ← py_float v; Ok (Some x) | None => Ok None end.
Inductive operation := Mean | Max.
Definition metric (cycles : list pyval) (field : string) (op : operation) : outcome f64 :=
  values ← traverse (field_float field) cycles;
  Ok match omap id values with
     | [] => f_zero
     | x :: l => match op with Mean => f_fmean (x :: l) | Max => f_list_max x l end
     end.

(** [all(bool(cycle.get("success", False)) for cycle in cycles)]. *)
Fixpoint all_success (cycles : list pyval) : outcome bool :=
  match cycles with
  | [] => Ok true
  | cycle :: cycles => d ← as_dict cycle;
                       if truthy (dgetd "success" (VBool false) d) then all_success cycles else Ok false
  end.
Record probe_result := {
  success : bool;
  p_returncode : Z;
  cycles_requested : Z;
  cycles_completed : Z;
  cycles_observed : Z;
  error_kind : pyval;
  error_message : pyval;
  cycles : list pyval;
  metrics : list (string * f64);
  elapsed_ms : f64;
}.
Definition METRICS : list string :=
  ["start_call_ms"; "first_frame_ms"; "first_frame_wait_ms"; "stop_call_ms"; "join_wait_ms"; "cycle_ms"].
Definition field_metrics (cycles : list pyval) (field : string) : outcome (list (string * f64)) :=
  mean ← metric cycles field Mean; max ← metric cycles field Max;
  Ok [(field +:+ "_mean", mean); (field +:+ "_max", max)].
Definition last_or_empty (l : list pyval) : outcome pydict := as_dict (List.last l (VDict [])).
Definition parse_probe_output (output : string) (returncode requested_cycles : Z) : outcome probe_result :=
  let cycles := prefixed_json output "RS_STARTUP_CYCLE " in
  result ← last_or_empty (prefixed_json output "RS_STARTUP_RESULT ");
  completed ← py_int (dgetd "completed_cycles" (VInt (Z.of_nat (length cycles))) result);
  success ← (if bool_decide (returncode = 0) && truthy (dgetd "success" (VBool false) result)
                && bool_decide (completed = requested_cycles) && bool_decide (Z.of_nat (length cycles) = requested_cycles)
             then all_success cycles else Ok false);
  error ← last_or_empty (prefixed_json output "RS_STARTUP_ERROR ");
  metrics ← traverse (field_metrics cycles) METRICS;
  Ok {| success := success; p_returncode := returncode; cycles_requested := requested_cycles;
        cycles_completed := completed; cycles_observed := Z.of_nat (length cycles);
        error_kind := dgetd "kind" (VStr "") error; error_message := dgetd "message" (VStr "") error;
        cycles := cycles; metrics := concat metrics; elapsed_ms := f_zero |}.

(** ** Candidates *)

Definition unique_candidates (values : list Z) (allow_zero : bool) : outcome (list Z) :=
  let result := sort_on id (elements (list_to_set values : gset Z)) in
  let minimum := if allow_zero then 0 else 1 in
  if bool_decide (result = []) then raise ValueError "candidate list cannot be empty"
  else if existsb (λ v, bool_decide (v < minimum)) result then
    raise ValueError ("candidate values must be " +:+ (if allow_zero then "non-negative" else "positive"))
  else Ok result.

Record settings := {
  frame_timeout_ms : Z;
  join_timeout_ms : Z;
  cycle_delay_ms : Z;
}.
Record reset_result := {
  hardware_reset : pydict;
  usb_reset : pydict;
  enumeration : pydict;
  reset_success : bool;
  reset_settle_ms : Z;
  reset_elapsed_ms : f64;
}.
(** A row of candidate_results.csv, with the cycles of its run. *)
Record trial_row := {
  stage : string;
  candidate_ms : Z;
  trial : Z;
  parsed : probe_result;
  reset : reset_result;
  settle_ms : Z;
  current : settings;
  stdout_file : string;
  reset_file : string;
}.
Definition metric_value (name : string) (r : trial_row) : f64 := default f_zero (dget name (metrics (parsed r))).
Definition first_wait (r : trial_row) : f64 := metric_value "first_frame_wait_ms_max" r.
Definition join_wait (r : trial_row) : f64 := metric_value "join_wait_ms_max" r.
(** [max(..., default=0.0)] and [sum]. *)
Definition max_or_zero (l : list f64) : f64 := match l with [] => f_zero | x :: l => f_list_max x l end.
Definition sum_floats (l : list f64) : pyval := match l with [] => VInt 0 | _ => VFloat (f_sum l) end.

Record summary := {
  s_stage : string;
  s_candidate_ms : Z;
  s_trials : Z;
  successful_trials : Z;
  s_cycles_requested : Z;
  s_cycles_completed : Z;
  observed_success : bool;
  headroom_required_ms : Z;
  qualified : bool;
  s_first_frame_wait_ms_max : f64;
  s_join_wait_ms_max : f64;
  elapsed_ms_total : pyval;
}.
Definition selected_rows (stage_name : string) (candidate : Z) (rows : list trial_row) : list trial_row :=
  filter (λ r, stage r = stage_name ∧ candidate_ms r = candidate) rows.
Definition Zsum (l : list Z) : Z := foldr Z.add 0 l.
Definition number_successful (rows : list trial_row) : Z := Z.of_nat (length (filter (λ r, success (parsed r) = true) rows)).
Definition all_observed (trials cycles_per_trial : Z) (rows : list trial_row) : bool :=
  bool_decide (Z.of_nat (length rows) = trials) && bool_decide (number_successful rows = trials)
  && bool_decide (Zsum (map (cycles_completed ∘ parsed) rows) = trials * cycles_per_trial).
(** What the waits in [rows] ask of a candidate of the stage. *)
Definition headroom (stage_name : string) (safety_factor : f64) (join_poll_ms : Z) (rows : list trial_row) : outcome Z :=
  if bool_decide (stage_name = STAGE_FRAME) then f_ceil (f_mul (max_or_zero (map first_wait rows)) safety_factor)
  else if bool_decide (stage_name = STAGE_JOIN) then
    f_ceil (f_add (f_mul (max_or_zero (map join_wait rows)) safety_factor) (f_of_Z join_poll_ms))
  else Ok 0.
Section summarize.
Context (stage_name : string) (rows : list trial_row) (trials cycles_per_trial : Z).
Context (safety_factor : f64) (join_poll_ms : Z) (headroom_rows : option (list trial_row)).
Definition summarize_candidate (candidate : Z) : outcome summary :=
  let selected := selected_rows stage_name candidate rows in
  let observed := all_observed trials cycles_per_trial selected in
  required ← headroom stage_name safety_factor join_poll_ms (default selected headroom_rows);
  Ok {| s_stage := stage_name; s_candidate_ms := candidate; s_trials := Z.of_nat (length selected);
        successful_trials := number_successful selected; s_cycles_requested := trials * cycles_per_trial;
        s_cycles_completed := Zsum (map (cycles_completed ∘ parsed) selected); observed_success := observed;
        headroom_required_ms := required; qualified := observed && bool_decide (required <= candidate);
        s_first_frame_wait_ms_max := max_or_zero (map first_wait selected);
        s_join_wait_ms_max := max_or_zero (map join_wait selected);
        elapsed_ms_total := sum_floats (map (elapsed_ms ∘ parsed) selected) |}.
Definition qualified_values (summaries : list summary) : list Z :=
  map s_candidate_ms (filter (λ s, qualified s = true) summaries).
Definition least (l : list Z) : option Z := match l with [] => None | x :: l => Some (foldl Z.min x l) end.
Definition summarize_candidates (candidates : list Z) : outcome (list summary * option Z) :=
  summaries ← traverse summarize_candidate candidates;
  Ok (summaries, least (qualified_values summaries)).
End summarize.

(** [int(math.ceil(max(floor_ms, math.ceil(observed_ms * safety_factor + 1000.0)) / 100.0) * 100)]. *)
Definition rounded_timeout (observed_ms safety_factor : f64) (floor_ms : Z) : outcome Z :=
  c ← f_ceil (f_add (f_mul observed_ms safety_factor) (f_of_Z 1000));
  hundreds ← f_ceil (f_div_raw (f_of_Z (Z.max floor_ms c)) (f_of_Z 100));
  Ok (hundreds * 100).

(** ** Commands *)

Definition sudo_command (command : list string) (use_sudo preserve_library_path : bool) : list string :=
  if negb use_sudo then command
  else ["sudo"; "--non-interactive"]
       ++ (if preserve_library_path then ["--preserve-env=LD_LIBRARY_PATH"] else []) ++ command.
Definition serial_words (serial : string) : list string := if bool_decide (serial = "") then [] else ["--serial"; serial].
Definition query_command (probe serial : string) : list string := [probe; "--list-only"] ++ serial_words serial.
Definition hardware_command (probe serial : string) (use_sudo : bool) (reset_timeout_ms : Z) : list string :=
  sudo_command ([probe; "--hardware-reset"; "--reset-timeout-ms"; str_Z reset_timeout_ms] ++ serial_words serial)
    use_sudo true.
Definition probe_command (probe serial : string) (frames cycles : Z) (s : settings) : list string :=
  ["chrt"; "--other"; "0"; probe; "--cycles"; str_Z cycles; "--frames"; str_Z frames;
   "--frame-timeout-ms"; str_Z (frame_timeout_ms s); "--join-timeout-ms"; str_Z (join_timeout_ms s);
   "--cycle-delay-ms"; str_Z (cycle_delay_ms s); "--strict-streams"] ++ serial_words serial.
Definition ceil_seconds (ms : Z) : outcome Z := f_ceil (f_div_raw (f_of_Z ms) (f_of_Z 1000)).
Definition probe_timeout (cycles : Z) (s : settings) : outcome Z :=
  frame_seconds ← ceil_seconds (frame_timeout_ms s); join_seconds ← ceil_seconds (join_timeout_ms s);
  delay_seconds ← ceil_seconds (Z.max 0 (cycles - 1) * cycle_delay_ms s);
  Ok (Z.max 30 (cycles * (frame_seconds + join_seconds + 5) + delay_seconds)).
Definition with_elapsed (ms : f64) (p : probe_result) : probe_result := {|
  success := success p; p_returncode := p_returncode p; cycles_requested := cycles_requested p;
  cycles_completed := cycles_completed p; cycles_observed := cycles_observed p; error_kind := error_kind p;
  error_message := error_message p; cycles := cycles p; metrics := metrics p; elapsed_ms := ms |}.
Definition with_error (kind message : string) (p : probe_result) : probe_result := {|
  success := success p; p_returncode := p_returncode p; cycles_requested := cycles_requested p;
  cycles_completed := cycles_completed p; cycles_observed := cycles_observed p; error_kind := VStr kind;
  error_message := VStr message; cycles := cycles p; metrics := metrics p; elapsed_ms := elapsed_ms p |}.
(** What stands for a run after a failed reset. *)
Definition no_run (requested_cycles : Z) : probe_result := {|
  success := false; p_returncode := -1; cycles_requested := requested_cycles; cycles_completed := 0;
  cycles_observed := 0; error_kind := VStr "recovery"; error_message := VStr "full reset failed before candidate";
  cycles := []; metrics := concat (map (λ m, [(m +:+ "_mean", f_zero); (m +:+ "_max", f_zero)]) METRICS);
  elapsed_ms := f_zero |}.
Definition reset_dict (r : reset_result) : pydict := [
  ("method", VStr "firmware-and-composite-usb"); ("success", VBool (reset_success r)); ("settle_ms", VInt (reset_settle_ms r));
  ("hardware_reset", VDict (hardware_reset r)); ("usb_reset", VDict (usb_reset r)); ("enumeration", VDict (enumeration r));
  ("elapsed_ms", VFloat (reset_elapsed_ms r))].
Definition succeeded (d : pydict) : bool := truthy (dgetd "success" (VBool false) d).
Definition elapsed_of (d : pydict) : pyval := dgetd "elapsed_ms" (VFloat f_zero) d.

(** ** The state and the options *)

Record calibration := {
  device : pyval;
  result_rows : list trial_row;
  cycle_rows : list pydict;
  reset_records : list reset_result;
}.
(** What is left of the last enumeration, if there was one. *)
Definition add_reset (r : reset_result) (c : calibration) : calibration := {|
  device := (let found := dgetd "device" (VDict []) (enumeration r) in if truthy found then found else device c);
  result_rows := result_rows c; cycle_rows := cycle_rows c; reset_records := reset_records c ++ [r] |}.
Definition add_row (r : trial_row) (c : calibration) : calibration := {|
  device := device c; result_rows := result_rows c ++ [r]; cycle_rows := cycle_rows c; reset_records := reset_records c |}.
Definition add_cycle (r : pydict) (c : calibration) : calibration := {|
  device := device c; result_rows := result_rows c; cycle_rows := cycle_rows c ++ [r]; reset_records := reset_records c |}.
Definition with_frame (ms : Z) (s : settings) : settings :=
  {| frame_timeout_ms := ms; join_timeout_ms := join_timeout_ms s; cycle_delay_ms := cycle_delay_ms s |}.
Definition with_join (ms : Z) (s : settings) : settings :=
  {| frame_timeout_ms := frame_timeout_ms s; join_timeout_ms := ms; cycle_delay_ms := cycle_delay_ms s |}.
Definition with_cycle (ms : Z) (s : settings) : settings :=
  {| frame_timeout_ms := frame_timeout_ms s; join_timeout_ms := join_timeout_ms s; cycle_delay_ms := ms |}.
Definition list_max (l : list Z) : Z := match l with [] => 0 | x :: l => foldl Z.max x l end.

(** The options of the command line. *)
Record options := {
  serial : string;
  build_dir : string;
  results_dir : string;
  frames : Z;
  cycles_per_trial : Z;
  trials : Z;
  validation_trials : Z;
  safety_factor : f64;
  settle_candidates_ms : list Z;
  frame_timeout_candidates_ms : list Z;
  join_timeout_candidates_ms : list Z;
  cycle_delay_candidates_ms : list Z;
  reset_timeout_ms : Z;
  enumeration_timeout_ms : Z;
  skip_build : bool;
  no_sudo : bool;
}.
Record candidates := {
  settle_candidates : list Z;
  frame_candidates : list Z;
  join_candidates : list Z;
  cycle_candidates : list Z;
}.

(** ** Rows and results *)

Definition columns (fields : list string) (d : pydict) : pydict :=
  omap (λ f, (λ v, (f, v)) <$> dget f d) fields.
(** [{"stage": ..., **cycle}]. *)
Definition cycle_dict (stage_name : string) (candidate trial : Z) (cycle : pyval) : outcome pydict :=
  match cycle with
  | VDict d => Ok (dupdate [("stage", VStr stage_name); ("candidate_ms", VInt candidate); ("trial", VInt trial)] d)
  | v => raise TypeError ("'" +:+ type_name v +:+ "' object is not a mapping")
  end.
Definition metric_dict (p : probe_result) : pydict := map (λ kv, (kv.1, VFloat kv.2)) (metrics p).
Definition result_dict (r : trial_row) : pydict :=
  let p := parsed r in
  [("stage", VStr (stage r)); ("candidate_ms", VInt (candidate_ms r)); ("trial", VInt (trial r));
   ("success", VBool (success p)); ("returncode", VInt (p_returncode p)); ("elapsed_ms", VFloat (elapsed_ms p));
   ("cycles_requested", VInt (cycles_requested p)); ("cycles_completed", VInt (cycles_completed p));
   ("cycles_observed", VInt (cycles_observed p))] ++ metric_dict p ++
  [("error_kind", error_kind p); ("error_message", error_message p);
   ("reset_success", VBool (reset_success (reset r))); ("hardware_reset_ms", elapsed_of (hardware_reset (reset r)));
   ("usb_reset_ms", elapsed_of (usb_reset (reset r))); ("enumeration_ms", elapsed_of (enumeration (reset r)));
   ("settle_ms", VInt (settle_ms r)); ("frame_timeout_ms", VInt (frame_timeout_ms (current r)));
   ("join_timeout_ms", VInt (join_timeout_ms (current r))); ("cycle_delay_ms", VInt (cycle_delay_ms (current r)));
   ("stdout_file", VStr (stdout_file r)); ("reset_file", VStr (reset_file r))].
Definition RESULT_FIELDS : list string :=
  ["stage"; "candidate_ms"; "trial"; "success"; "returncode"; "elapsed_ms"; "cycles_requested"; "cycles_completed";
   "cycles_observed"] ++ concat (map (λ m, [m +:+ "_mean"; m +:+ "_max"]) METRICS) ++
  ["error_kind"; "error_message"; "reset_success"; "hardware_reset_ms"; "usb_reset_ms"; "enumeration_ms"; "settle_ms";
   "frame_timeout_ms"; "join_timeout_ms"; "cycle_delay_ms"; "stdout_file"; "reset_file"].
Definition SUMMARY_FIELDS : list string :=
  ["stage"; "candidate_ms"; "trials"; "successful_trials"; "cycles_requested"; "cycles_completed"; "observed_success";
   "headroom_required_ms"; "qualified"; "first_frame_wait_ms_max"; "join_wait_ms_max"; "elapsed_ms_total"].
Definition summary_dict (s : summary) : pydict :=
  [("stage", VStr (s_stage s)); ("candidate_ms", VInt (s_candidate_ms s)); ("trials", VInt (s_trials s));
   ("successful_trials", VInt (successful_trials s)); ("cycles_requested", VInt (s_cycles_requested s));
   ("cycles_completed", VInt (s_cycles_completed s)); ("observed_success", VBool (observed_success s));
   ("headroom_required_ms", VInt (headroom_required_ms s)); ("qualified", VBool (qualified s));
   ("first_frame_wait_ms_max", VFloat (s_first_frame_wait_ms_max s)); ("join_wait_ms_max", VFloat (s_join_wait_ms_max s));
   ("elapsed_ms_total", elapsed_ms_total s)].
(** [replacements.get((stage, candidate), summary)]. *)
Definition replace_summary (replacements : list summary) (s : summary) : summary :=
  match List.rev (filter (λ r, s_stage r = s_stage s ∧ s_candidate_ms r = s_candidate_ms s) replacements) with
  | r :: _ => r
  | [] => s
  end.
Definition replace_summaries (replacements l : list summary) : list summary := map (replace_summary replacements) l.

Record recommendation := {
  validated : bool;
  successful_validation_trials : Z;
  selected_settle : option Z;
  selected_frame : option Z;
  selected_join : option Z;
  selected_cycle : option Z;
  selected_reset_timeout_ms : Z;
  selected_enumeration_timeout_ms : Z;
  validation_settings : settings;
  effective_settle_ms : Z;
  first_frame_wait_max : f64;
  join_wait_max : f64;
  hardware_max : f64;
  enumeration_max : f64;
}.
Definition float_elapsed (d : pydict) : outcome f64 := py_float (elapsed_of d).
Definition recommend (o : options) (rows : list trial_row) (resets : list reset_result)
    (settle frame join cycle : option Z) (validation : settings) (effective_settle : Z) : outcome recommendation :=
  let validation_rows := filter (λ r, stage r = STAGE_VALIDATION) rows in
  hardware ← traverse (float_elapsed ∘ hardware_reset) resets;
  enumerations ← traverse (float_elapsed ∘ enumeration) resets;
  reset_timeout ← rounded_timeout (max_or_zero hardware) (safety_factor o) 5000;
  enumeration_timeout ← rounded_timeout (max_or_zero enumerations) (safety_factor o) 1000;
  Ok {| validated := bool_decide (Z.of_nat (length validation_rows) = validation_trials o)
                     && forallb (λ r, success (parsed r)) validation_rows
                     && bool_decide (is_Some frame) && bool_decide (is_Some join) && bool_decide (is_Some cycle)
                     && bool_decide (is_Some settle);
        successful_validation_trials := number_successful validation_rows;
        selected_settle := settle; selected_frame := frame; selected_join := join; selected_cycle := cycle;
        selected_reset_timeout_ms := reset_timeout; selected_enumeration_timeout_ms := enumeration_timeout;
        validation_settings := validation; effective_settle_ms := effective_settle;
        first_frame_wait_max := max_or_zero (map first_wait rows); join_wait_max := max_or_zero (map join_wait rows);
        hardware_max := max_or_zero hardware; enumeration_max := max_or_zero enumerations |}.

Section calibration.
Context {W : Type} `{OS W}.
(** What an expired probe left on its output, as the exception carries it. *)
Context (expired_output : exn → string).
Context (fuel : nat).

Section commands.
Context {T : Type}.
Abbreviation IO := (M (T * world W)).
Definition elapsed_since (started : f64) : IO f64 :=
  now <- sys Monotonic ;; ret (f_mul (f_sub now started) (f_of_Z 1000)).
Definition query_device (probe serial : string) (timeout_seconds : f64) : IO (pyval * string) :=
  r <- try_except run_errors
         (completed <- sys (RunCommand (query_command probe serial) None (Some timeout_seconds)) ;; ret (inl completed))
         (λ error, ret (inr (exn_msg error))) ;;
  match r with
  | inr message => ret (VDict [], message)
  | inl completed =>
      let output := stdout completed +:+ stderr completed in
      match bool_decide (returncode completed = 0), List.rev (prefixed_json output "RS_DEVICE ") with
      | true, device :: _ => ret (device, py_strip output)
      | _, _ => ret (VDict [], str_or (py_strip output) ("device query exited with " +:+ str_Z (returncode completed)))
      end
  end.
Definition do_hardware_reset (probe serial : string) (use_sudo : bool) (reset_timeout_ms : Z) : IO pydict :=
  let command := hardware_command probe serial use_sudo reset_timeout_ms in
  started <- sys Monotonic ;;
  try_except run_errors
    (completed <- sys (RunCommand command None
       (Some (f_add (f_div_raw (f_of_Z reset_timeout_ms) (f_of_Z 1000)) (f_of_Z 15)))) ;;
     let output := py_strip (stdout completed +:+ stderr completed) in
     elapsed <- elapsed_since started ;;
     ret [("success", VBool (bool_decide (returncode completed = 0) && py_contains STATE_COMPLETE output));
          ("returncode", VInt (returncode completed)); ("elapsed_ms", VFloat elapsed);
          ("command", command_value command); ("output", VStr output)])
    (λ error,
     elapsed <- elapsed_since started ;;
     ret [("success", VBool false); ("elapsed_ms", VFloat elapsed); ("command", command_value command);
          ("error", VStr (exn_msg error))]).
Definition usb_device_from_physical_port : string → IO (option string) := _usb_device_from_physical_port.
Definition do_usb_reset (use_sudo : bool) (physical_port : string) : IO pydict :=
  usb_device <- usb_device_from_physical_port physical_port ;;
  match usb_device with
  | None => ret [("success", VBool false); ("error", VStr "could not resolve composite USB parent")]
  | Some usb_device =>
      try_except usb_errors
        (bus <- read_number (usb_device // "busnum") ;;
         device_number <- read_number (usb_device // "devnum") ;;
         let target := pad_Z 3 bus +:+ "/" +:+ pad_Z 3 device_number in
         let command := sudo_command ["usbreset"; target] use_sudo false in
         started <- sys Monotonic ;;
         completed <- sys (RunCommand command None (Some (f_of_Z 15))) ;;
         elapsed <- elapsed_since started ;;
         ret [("success", VBool (bool_decide (returncode completed = 0))); ("returncode", VInt (returncode completed));
              ("elapsed_ms", VFloat elapsed); ("command", command_value command); ("target", VStr target);
              ("usb_device", VStr usb_device); ("output", VStr (py_strip (stdout completed +:+ stderr completed)))])
        (λ error, ret [("success", VBool false); ("error", VStr (exn_msg error))])
  end.
(** The loop that waits for the camera: the device and the last output. *)
Fixpoint await_device (fuel : nat) (probe serial : string) (deadline : f64) (found : pyval * string) : IO (pyval * string) :=
  match fuel with
  | O => throw OutOfFuel ""
  | S fuel =>
      now <- sys Monotonic ;;
      if f_lt now deadline then
        found <- query_device probe serial (f_of_Z 2) ;;
        if truthy found.1 then ret found else
        sys (Sleep (f_dec 1 (-1))) ;; await_device fuel probe serial deadline found
      else ret found
  end.
Definition await_enumeration (probe serial : string) (enumeration_timeout_ms : Z) : IO pydict :=
  started <- sys Monotonic ;;
  let deadline := f_add started (f_div_raw (f_of_Z enumeration_timeout_ms) (f_of_Z 1000)) in
  found <- await_device fuel probe serial deadline (VDict [], "") ;;
  elapsed <- elapsed_since started ;;
  ret [("success", VBool (truthy found.1)); ("elapsed_ms", VFloat elapsed); ("device", found.1); ("last_output", VStr found.2)].
Definition full_reset (probe serial : string) (device : pyval) (use_sudo : bool)
    (reset_timeout_ms enumeration_timeout_ms settle_ms : Z) : IO reset_result :=
  started <- sys Monotonic ;;
  hardware <- do_hardware_reset probe serial use_sudo reset_timeout_ms ;;
  physical_port <- lift (d ← as_dict device; Ok (str_val (dgetd "physical_port" (VStr "") d))) ;;
  usb <- do_usb_reset use_sudo physical_port ;;
  enumeration <- await_enumeration probe serial enumeration_timeout_ms ;;
  let success := succeeded hardware && succeeded usb && succeeded enumeration in
  when (success && negb (bool_decide (settle_ms = 0)))
    (sys (Sleep (f_div_raw (f_of_Z settle_ms) (f_of_Z 1000)))) ;;
  elapsed <- elapsed_since started ;;
  ret {| hardware_reset := hardware; usb_reset := usb; enumeration := enumeration; reset_success := success;
         reset_settle_ms := settle_ms; reset_elapsed_ms := elapsed |}.
Definition run_probe (probe serial : string) (frames cycles : Z) (s : settings) : IO (string * probe_result) :=
  timeout_seconds <- lift (probe_timeout cycles s) ;;
  started <- sys Monotonic ;;
  result <- try_except is_TimeoutExpired
    (completed <- sys (RunCommand (probe_command probe serial frames cycles s) None (Some (f_of_Z timeout_seconds))) ;;
     let output := stdout completed +:+ stderr completed in
     parsed <- lift (parse_probe_output output (returncode completed) cycles) ;;
     ret (output, parsed))
    (λ error,
     let output := expired_output error in
     parsed <- lift (parse_probe_output output 124 cycles) ;;
     ret (output, with_error "outer-timeout" ("probe exceeded " +:+ str_Z timeout_seconds +:+ "s") parsed)) ;;
  elapsed <- elapsed_since started ;;
  ret (result.1, with_elapsed elapsed result.2).
End commands.

(** ** Stages *)

Context (o : options) (probe root : string) (use_sudo : bool).
Abbreviation IO := (M (calibration * world W)).
(** The settings of a run: the candidate of its stage in place of one of them. *)
Definition candidate_settings (stage_name : string) (candidate : Z) (s : settings) : settings :=
  if bool_decide (stage_name = STAGE_FRAME) then with_frame candidate s
  else if bool_decide (stage_name = STAGE_JOIN) then with_join candidate s
  else if bool_decide (stage_name = STAGE_CYCLE) then with_cycle candidate s
  else s.
Definition candidate_settle (stage_name : string) (candidate default_settle_ms : Z) : Z :=
  if bool_decide (stage_name = STAGE_SETTLE) then candidate else default_settle_ms.
Definition trial_dir (stage_name : string) (candidate trial : Z) : string :=
  root // stage_name // ("candidate-" +:+ str_Z candidate) // ("trial-" +:+ str_Z trial).
Definition reset_trial (dir : string) (settle_ms : Z) : IO reset_result :=
  device <- self device ;;
  reset <- full_reset probe (serial o) device use_sudo (reset_timeout_ms o) (enumeration_timeout_ms o) settle_ms ;;
  sys (WriteJson (dir // "reset.json") (VDict (reset_dict reset))) ;;
  set_self (add_reset reset) ;;
  ret reset.
Definition run_trial (reset : reset_result) (current : settings) : IO (string * probe_result) :=
  if reset_success reset then run_probe probe (serial o) (frames o) (cycles_per_trial o) current
  else ret ("", no_run (cycles_per_trial o)).
Definition write_results : IO unit :=
  rows <- self result_rows ;; cycles <- self cycle_rows ;;
  sys (WriteCsv (root // "candidate_results.csv") RESULT_FIELDS (map result_dict rows)) ;;
  sys (WriteCsv (root // "cycle_results.csv") CYCLE_FIELDS (map (columns CYCLE_FIELDS) cycles)).
Definition execute_trial (stage_name : string) (s : settings) (default_settle_ms candidate trial : Z) : IO unit :=
  let settle_ms := candidate_settle stage_name candidate default_settle_ms in
  let dir := trial_dir stage_name candidate trial in
  sys (Mkdir dir false) ;;
  reset <- reset_trial dir settle_ms ;;
  let current := candidate_settings stage_name candidate s in
  run <- run_trial reset current ;;
  let stdout_path := dir // "probe_stdout.txt" in
  sys (WriteText stdout_path run.1) ;;
  let row := {| stage := stage_name; candidate_ms := candidate; trial := trial; parsed := run.2; reset := reset;
                settle_ms := settle_ms; current := current; stdout_file := stdout_path; reset_file := dir // "reset.json" |} in
  set_self (add_row row) ;;
  for_each (cycles run.2) (λ cycle, row <- lift (cycle_dict stage_name candidate trial cycle) ;; set_self (add_cycle row)) ;;
  write_results.
Definition trial_numbers (trials : Z) : list Z := map (λ i, Z.of_nat i + 1) (seq 0 (Z.to_nat trials)).
Definition execute_stage (stage_name : string) (candidates : list Z) (s : settings) (default_settle_ms trials : Z) :
    IO (list summary * option Z) :=
  for_each candidates (λ candidate,
    for_each (trial_numbers trials) (execute_trial stage_name s default_settle_ms candidate)) ;;
  rows <- self result_rows ;;
  lift (summarize_candidates stage_name rows trials (cycles_per_trial o) (safety_factor o) 5 None candidates).

(** ** The calibration *)

(** Both timeouts again, over the waits in all rows. *)
Definition summarize_timeouts (rows : list trial_row) (frame_candidates join_candidates : list Z) :
    outcome (list summary * option Z * (list summary * option Z)) :=
  let over stage_name candidates :=
    summarize_candidates stage_name rows (trials o) (cycles_per_trial o) (safety_factor o) 5 (Some rows) candidates in
  frame ← over STAGE_FRAME frame_candidates; join ← over STAGE_JOIN join_candidates; Ok (frame, join).
Definition calibrate (c : candidates) : IO (recommendation * list summary) :=
  let settle_max := list_max (settle_candidates c) in
  let safe := {| frame_timeout_ms := Z.max 3000 (list_max (frame_candidates c));
                 join_timeout_ms := Z.max 100 (list_max (join_candidates c));
                 cycle_delay_ms := list_max (cycle_candidates c) |} in
  settle <- execute_stage STAGE_SETTLE (settle_candidates c) safe settle_max (trials o) ;;
  let effective_settle := default settle_max settle.2 in
  frame <- execute_stage STAGE_FRAME (frame_candidates c) safe effective_settle (trials o) ;;
  let join_settings := with_frame (default (frame_timeout_ms safe) frame.2) safe in
  join <- execute_stage STAGE_JOIN (join_candidates c) join_settings effective_settle (trials o) ;;
  let cycle_settings := with_join (default (join_timeout_ms safe) join.2) join_settings in
  cycle <- execute_stage STAGE_CYCLE (cycle_candidates c) cycle_settings effective_settle (trials o) ;;
  rows <- self result_rows ;;
  both <- lift (summarize_timeouts rows (frame_candidates c) (join_candidates c)) ;;
  let all := replace_summaries (both.1.1 ++ both.2.1) (settle.1 ++ frame.1 ++ join.1 ++ cycle.1) in
  let validation := {| frame_timeout_ms := default (frame_timeout_ms safe) both.1.2;
                       join_timeout_ms := default (join_timeout_ms safe) both.2.2;
                       cycle_delay_ms := default (cycle_delay_ms safe) cycle.2 |} in
  validated <- execute_stage STAGE_VALIDATION [0] validation effective_settle (validation_trials o) ;;
  rows <- self result_rows ;; resets <- self reset_records ;;
  both <- lift (summarize_timeouts rows (frame_candidates c) (join_candidates c)) ;;
  let all := replace_summaries (both.1.1 ++ both.2.1) (all ++ validated.1) in
  r <- lift (recommend o rows resets settle.2 both.1.2 both.2.2 cycle.2 validation effective_settle) ;;
  ret (r, all).
End calibration.

(** ** The program *)

Definition option_Z (z : option Z) : pyval := match z with Some z => VInt z | None => VNone end.
Definition settings_dict (s : settings) : pydict :=
  [("frame_timeout_ms", VInt (frame_timeout_ms s)); ("join_timeout_ms", VInt (join_timeout_ms s));
   ("cycle_delay_ms", VInt (cycle_delay_ms s))].
Definition recommendation_dict (o : options) (r : recommendation) : pydict := [
  ("schema_version", VInt 2); ("provisional", VBool true); ("validated", VBool (validated r));
  ("successful_validation_trials", VInt (successful_validation_trials r));
  ("requested_validation_trials", VInt (validation_trials o));
  ("selection", VDict [
     ("frame_timeout_ms", option_Z (selected_frame r)); ("join_timeout_ms", option_Z (selected_join r));
     ("cycle_delay_ms", option_Z (selected_cycle r)); ("recovery_settle_ms", option_Z (selected_settle r));
     ("reset_timeout_ms", VInt (selected_reset_timeout_ms r));
     ("enumeration_timeout_ms", VInt (selected_enumeration_timeout_ms r))]);
  ("effective_validation_settings",
     VDict (settings_dict (validation_settings r) ++ [("recovery_settle_ms", VInt (effective_settle_ms r))]));
  ("observed_maxima", VDict [
     ("first_frame_wait_ms", VFloat (first_frame_wait_max r)); ("join_wait_ms", VFloat (join_wait_max r));
     ("hardware_reset_ms", VFloat (hardware_max r)); ("enumeration_ms", VFloat (enumeration_max r))]);
  ("safety_factor", VFloat (safety_factor o)); ("headroom_scope", VStr "all_stages_including_validation");
  ("qualification", VStr ("All configured trials and cycles must succeed. Frame timeout uses "
     +:+ "safety_factor headroom over the maximum first-frame wait observed in "
     +:+ "all stages. Join timeout uses the same global rule plus the 5 ms " +:+ "polling interval."));
  ("warning", VStr ("These values are platform-, firmware-, topology-, and load-specific. "
     +:+ "Repeat with more trials and under intended stress before changing " +:+ "the production benchmark defaults."))].
Definition list_val (l : list Z) : pyval := VList (map VInt l).
Definition manifest (o : options) (c : candidates) (device : pyval) (probe : string) (use_sudo : bool) : pydict := [
  ("schema_version", VInt 2); ("serial", VStr (serial o)); ("device", device); ("frames", VInt (frames o));
  ("cycles_per_trial", VInt (cycles_per_trial o)); ("trials", VInt (trials o));
  ("validation_trials", VInt (validation_trials o)); ("safety_factor", VFloat (safety_factor o));
  ("settle_candidates_ms", list_val (settle_candidates c)); ("frame_timeout_candidates_ms", list_val (frame_candidates c));
  ("join_timeout_candidates_ms", list_val (join_candidates c)); ("cycle_delay_candidates_ms", list_val (cycle_candidates c));
  ("reset_timeout_ms", VInt (reset_timeout_ms o)); ("enumeration_timeout_ms", VInt (enumeration_timeout_ms o));
  ("probe", VStr probe); ("use_sudo", VBool use_sudo)].

(** [parser.error]: the message, and status 2. *)
Definition parser_error {A} (message : string) : outcome A := raise SystemExit message.
Definition check_options (o : options) : outcome candidates :=
  if bool_decide (frames o < 1) || bool_decide (cycles_per_trial o < 1) then
    parser_error "--frames and --cycles-per-trial must be positive"
  else if bool_decide (trials o < 1) || bool_decide (validation_trials o < 1) then
    parser_error "--trials and --validation-trials must be positive"
  else if f_lt (safety_factor o) (f_of_Z 1) then parser_error "--safety-factor must be at least 1"
  else if bool_decide (reset_timeout_ms o < 1) || bool_decide (enumeration_timeout_ms o < 1) then
    parser_error "reset and enumeration timeouts must be positive"
  else
    match (settle ← unique_candidates (settle_candidates_ms o) true;
           frame ← unique_candidates (frame_timeout_candidates_ms o) false;
           join ← unique_candidates (join_timeout_candidates_ms o) true;
           cycle ← unique_candidates (cycle_delay_candidates_ms o) true;
           Ok {| settle_candidates := settle; frame_candidates := frame; join_candidates := join; cycle_candidates := cycle |}) with
    | Ok c => Ok c
    | Raise e => if is_ValueError e then parser_error (exn_msg e) else Raise e
    end.

Section main.
Context {W : Type} `{OS W} (expired_output : exn → string) (fuel : nat) (repo_root : string).
(** [datetime.now().strftime("%Y%m%d_%H%M%S")]. *)
Context (stamp : string).
Abbreviation IO := (M (calibration * world W)).
Definition need (found : bool) (message : string) : IO unit := when (negb found) (throw SystemExit message).
Definition check_tools (use_sudo : bool) : IO unit :=
  chrt <- sys (Which "chrt") ;; need chrt "chrt is required" ;;
  usbreset <- sys (Which "usbreset") ;; need usbreset "usbreset is required" ;;
  when use_sudo
    (completed <- sys (RunCommand ["sudo"; "--non-interactive"; "-v"] None None) ;;
     need (bool_decide (returncode completed = 0)) "Run 'sudo -v' immediately before calibration.").
Definition build_probe (build_dir : string) : IO unit :=
  check_call ["cmake"; "-S"; repo_root; "-B"; build_dir; "-DCMAKE_BUILD_TYPE=RelWithDebInfo"] ;;
  check_call ["cmake"; "--build"; build_dir; "--target"; "d435_sensor_probe"; "-j4"].
Definition write_recommendation (o : options) (root : string) (r : recommendation) (summaries : list summary) : IO unit :=
  write_results root ;;
  sys (WriteCsv (root // "candidate_summary.csv") SUMMARY_FIELDS (map summary_dict summaries)) ;;
  sys (WriteJson (root // "recommendation.json") (VDict (recommendation_dict o r))).
Definition main (o : options) : IO recommendation :=
  c <- lift (check_options o) ;;
  euid <- sys GetEuid ;;
  let use_sudo := negb (bool_decide (euid = 0)) && negb (no_sudo o) in
  check_tools use_sudo ;;
  build_dir <- sys (Resolve (build_dir o)) ;;
  let probe := build_dir // "d435_sensor_probe" in
  when (negb (skip_build o)) (build_probe build_dir) ;;
  file <- sys (IsFile probe) ;;
  need file ("probe not found: " +:+ probe) ;;
  found <- query_device probe (serial o) (f_of_Z 5) ;;
  need (truthy found.1) ("camera preflight failed: " +:+ found.2) ;;
  root <- sys (Resolve (results_dir o // ("calibration_" +:+ stamp))) ;;
  sys (Mkdir root false) ;;
  sys (WriteJson (root // "manifest.json") (VDict (manifest o c found.1 probe use_sudo))) ;;
  set_self (λ _, {| device := found.1; result_rows := []; cycle_rows := []; reset_records := [] |}) ;;
  result <- calibrate expired_output fuel o probe root use_sudo c ;;
  write_recommendation o root result.1 result.2 ;;
  ret result.1.
End main.
