(* ===== verification/CalibrationRuns.v ===== *)
(** * What a reset and a run of the calibration did

    The calls behind the records of a trial: the firmware reset, the composite
    USB reset, the query that found the camera again and the settling time of a
    reset that counts as a success, and the command of a run of the probe with
    the output its result was read from. *)
From Stdlib Require Import Ascii ZArith Lia Floats.SpecFloat.
From S2P Require Import Prelude PyStr PyFloat PyVal PyJson FloatOrder Effects Machine Shell Recovery.
From S2P Require Import Calls Calibration.
From stdpp Require Import base gmap strings list.
Local Open Scope Z_scope.
Local Open Scope py_scope.
Local Open Scope M_scope.

Section runs.
Context {W : Type} `{OS W} (expired_output : exn → string) (fuel : nat).
Context (o : options) (probe : string) (use_sudo : bool).

(** ** The evidence *)

(** The query of the probe ended with status 0 and listed the device. *)
Definition listed (device : pyval) (w w' : world W) : Prop :=
  ∃ limit c, did (RunCommand (query_command probe (serial o)) None limit) c w w' ∧ returncode c = 0 ∧
    device ∈ prefixed_json (stdout c +:+ stderr c) "RS_DEVICE " ∧ truthy device = true.
(** The firmware reset ended with status 0 and said that it is complete. *)
Definition hardware_ran (w w' : world W) : Prop :=
  ∃ limit c, did (RunCommand (hardware_command probe (serial o) use_sudo (reset_timeout_ms o)) None limit) c w w' ∧
    returncode c = 0 ∧ py_contains STATE_COMPLETE (py_strip (stdout c +:+ stderr c)) = true.
(** The composite USB reset ended with status 0. *)
Definition usb_ran (w w' : world W) : Prop :=
  ∃ target limit c, did (RunCommand (sudo_command ["usbreset"; target] use_sudo false) None limit) c w w' ∧
    returncode c = 0.
Definition settled_for (settle : Z) (w w' : world W) : Prop :=
  if bool_decide (settle = 0) then called w w'
  else did (Sleep (f_div_raw (f_of_Z settle) (f_of_Z 1000))) () w w'.
(** A full reset: all of these, one after the other. *)
Definition fully_reset (settle : Z) (w w' : world W) : Prop :=
  ∃ device w1 w2 w3,
    hardware_ran w w1 ∧ usb_ran w1 w2 ∧ listed device w2 w3 ∧ settled_for settle w3 w'.

(** A run of the probe with the settings, and its result: read from the output
    of the command, or a failure when the command took too long. *)
Definition probe_ran (s : settings) (p : probe_result) (w w' : world W) : Prop :=
  ∃ timeout, probe_timeout (cycles_per_trial o) s = Ok timeout ∧
    ((∃ c q ms,
        did (RunCommand (probe_command probe (serial o) (frames o) (cycles_per_trial o) s) None (Some (f_of_Z timeout)))
          c w w' ∧
        parse_probe_output (stdout c +:+ stderr c) (returncode c) (cycles_per_trial o) = Ok q ∧
        p = with_elapsed ms q) ∨
     called w w' ∧ success p = false).

(** The trial of a row: its reset, and the run with its settings when the reset
    succeeded; no run otherwise. *)
Definition trial_ran (r : trial_row) (w w' : world W) : Prop :=
  ∃ w1 w2 w3, called w w1 ∧
    (if reset_success (reset r) then fully_reset (settle_ms r) w1 w2 ∧ probe_ran (current r) (parsed r) w2 w3
     else called w1 w3 ∧ parsed r = no_run (cycles_per_trial o)) ∧
    called w3 w'.
(** The trials of rows, one after the other. *)
Fixpoint trials_ran (rows : list trial_row) (w w' : world W) : Prop :=
  match rows with
  | [] => called w w'
  | r :: rows => ∃ w1, trial_ran r w w1 ∧ trials_ran rows w1 w'
  end.
Lemma trials_ran_app rows rows' w w' :
  trials_ran (rows ++ rows') w w' ↔ ∃ w1, trials_ran rows w w1 ∧ trials_ran rows' w1 w'.
Proof.
  assert (∀ rows w w1 w', called w w1 → trials_ran rows w1 w' → trials_ran rows w w') as Hbefore.
  { intros [|r l] u u1 u'; simpl; [intros; by etrans|]. intros Hu (u2 & (a & b & c & Ha & Hr) & Hl). exists u2.
    split; [|done]. exists a, b, c. split; [by etrans|done]. }
  revert w. induction rows as [|r rows IH]; intros w; simpl.
  - split; [intros Hr; by exists w|]. intros (w1 & Hw & Hr). by eapply Hbefore.
  - setoid_rewrite IH. naive_solver.
Qed.
Lemma trial_ran_before r w0 w w' : called w0 w → trial_ran r w w' → trial_ran r w0 w'.
Proof. intros H0 (a & b & c & Ha & Hr). exists a, b, c. split; [by etrans|done]. Qed.
Lemma settled_before settle w0 w w' : called w0 w → settled_for settle w w' → settled_for settle w0 w'.
Proof.
  unfold settled_for. intros Ha Hb. case_bool_decide; [by etrans|]. by eapply did_between.
Qed.
Lemma listed_between device w0 w w' w'' : called w0 w → listed device w w' → called w' w'' → listed device w0 w''.
Proof. intros H0 (l & c & Hc & Hr) H1. exists l, c. split; [by eapply did_between|done]. Qed.
Lemma fully_reset_between settle w0 w w' w'' :
  called w0 w → fully_reset settle w w' → called w' w'' → fully_reset settle w0 w''.
Proof.
  intros Ha (device & w1 & w2 & w3 & (l & c & Hc & Hr) & Husb & Hl & Hs) Hb. exists device, w1, w2, w3.
  split_and!; [|done|done|].
  - exists l, c. split; [by eapply did_between|done].
  - unfold settled_for in *. case_bool_decide; [by etrans|]. by eapply did_between.
Qed.
(** Successful trials with one settling time and the same settings. *)
Fixpoint validation_ran (settle : Z) (s : settings) (rows : list trial_row) (w w' : world W) : Prop :=
  match rows with
  | [] => called w w'
  | r :: rows => ∃ w1 w2 w3 w4,
      called w w1 ∧ fully_reset settle w1 w2 ∧ probe_ran s (parsed r) w2 w3 ∧ success (parsed r) = true ∧
      called w3 w4 ∧ validation_ran settle s rows w4 w'
  end.
Lemma validation_of_trials settle s rows w w' :
  trials_ran rows w w' →
  Forall (λ r, success (parsed r) = true ∧ reset_success (reset r) = true ∧ current r = s ∧ settle_ms r = settle) rows →
  validation_ran settle s rows w w'.
Proof.
  intros Ht Hr. revert w Ht. induction Hr as [|r rows (Hs & Hreset & <- & <-) _ IH]; intros w; simpl; [done|].
  intros (w4 & (w1 & w2 & w3 & H1 & Hrun & H3) & Hrest). rewrite Hreset in Hrun. destruct Hrun.
  exists w1, w2, w3, w4. split_and!; try done. by apply IH.
Qed.
Lemma fully_reset_called settle w w' : fully_reset settle w w' → called w w'.
Proof.
  intros (d & w1 & w2 & w3 & (l1 & c1 & H1%did_called & _) & (t & l2 & c2 & H2%did_called & _) & (l3 & c3 & H3%did_called & _) & Hs).
  etrans; [exact H1|]. etrans; [exact H2|]. etrans; [exact H3|]. unfold settled_for in Hs. case_bool_decide; [done|].
  by eapply did_called.
Qed.
Lemma trials_called rows w w' : trials_ran rows w w' → called w w'.
Proof.
  revert w. induction rows as [|r rows IH]; intros w; simpl; [done|].
  intros (w4 & (w1 & w2 & w3 & H1 & Hrun & H3) & Hrest%IH). etrans; [exact H1|].
  assert (called w1 w3); [|etrans; [eassumption|]; by etrans].
  destruct (reset_success (reset r)); [|apply Hrun]. destruct Hrun as [H2%fully_reset_called (t & _ & Hp)].
  etrans; [exact H2|]. destruct Hp as [(c & q & ms & Hc%did_called & _)|[Hc _]]; done.
Qed.

(** ** The computations *)

Context {T : Type}.
Implicit Types x y : T * world W.
Abbreviation post m Q x := (wp m Q (λ _ _, True) x).

Lemma quiet_elapsed started : makes (@quiet) (elapsed_since (T := T) started).
Proof. unfold elapsed_since. solve_makes. Qed.
Lemma query_listed t x :
  wp (query_device probe (serial o) t)
    (λ found y, called x.2 y.2 ∧ (truthy found.1 = true → listed found.1 x.2 y.2)) (λ _ y, called x.2 y.2) x.
Proof.
  unfold query_device. apply wp_bind.
  apply (wp_conseq _ (λ r y, called x.2 y.2 ∧ match r with
    | inl c => did (RunCommand (query_command probe (serial o)) None (Some t)) c x.2 y.2 | inr _ => True end) _
    (λ _ y, called x.2 y.2)); [| |done].
  - apply wp_try, wp_did_bind.
    + intros c y _ Hc. apply wp_ret. split; [by eapply did_called|done].
    + intros e y _ Hc. destruct (run_errors e); [by apply wp_ret|done].
  - intros [c|message] y [Hy Hc]; [|by apply wp_ret]. cbv zeta. case_bool_decide as Hz.
    + destruct (List.rev (prefixed_json (stdout c +:+ stderr c) "RS_DEVICE ")) as [|device l] eqn:Hl; apply wp_ret; split; try done.
      intros Ht. exists (Some t), c. split_and!; try done. apply list_elem_of_In, in_rev. rewrite Hl. by left.
    + by apply wp_ret.
Qed.
Lemma await_device_listed n deadline found x : truthy found.1 = false →
  post (await_device n probe (serial o) deadline found)
    (λ f y, called x.2 y.2 ∧ (truthy f.1 = true → listed f.1 x.2 y.2)) x.
Proof.
  revert found x. induction n as [|n IH]; intros found x Hf; simpl; [done|].
  apply (wp_called_bind (@quiet)); [solve_makes| |done]. intros now x1 H1. destruct (f_lt now deadline).
  2:{ apply wp_ret. split; [done|]. by rewrite Hf. }
  apply wp_bind. eapply wp_conseq; [apply query_listed| |done]. intros found' x2 [H2 Hl].
  destruct (truthy found'.1) eqn:Ht.
  - apply wp_ret. split; [by etrans|]. intros _. eapply listed_between; [exact H1|by apply Hl|done].
  - apply (wp_called_bind (@quiet)); [solve_makes| |done]. intros _ x3 H3.
    assert (called x.2 x3.2) by (etrans; [exact H1|]; by etrans).
    eapply wp_conseq; [by apply IH| |done]. intros f y [Hy Hl']. split; [by etrans|].
    intros Hft. by eapply listed_between; [|by apply Hl'|].
Qed.
Lemma enumeration_listed x :
  post (Calibration.await_enumeration fuel probe (serial o) (enumeration_timeout_ms o))
    (λ d y, called x.2 y.2 ∧ (succeeded d = true → ∃ device, listed device x.2 y.2)) x.
Proof.
  unfold Calibration.await_enumeration. apply (wp_called_bind (@quiet)); [solve_makes| |done]. intros started x1 H1. cbv zeta.
  apply wp_bind. eapply wp_conseq; [by apply await_device_listed| |done]. intros found x2 [H2 Hl].
  apply (wp_called_bind (@quiet)); [apply quiet_elapsed| |done]. intros ms x3 H3. apply wp_ret.
  split; [etrans; [exact H1|]; by etrans|]. unfold succeeded. simpl. intros Ht.
  exists found.1. eapply listed_between; [exact H1|by apply Hl|done].
Qed.
Lemma hardware_reset_ran x :
  post (do_hardware_reset probe (serial o) use_sudo (reset_timeout_ms o))
    (λ d y, called x.2 y.2 ∧ (succeeded d = true → hardware_ran x.2 y.2)) x.
Proof.
  unfold do_hardware_reset. cbv zeta. apply (wp_called_bind (@quiet)); [solve_makes| |done]. intros started x1 H1.
  assert (∀ e y, called x1.2 y.2 → (if run_errors e then
      post (elapsed <- elapsed_since started ;;
            ret [("success", VBool false); ("elapsed_ms", VFloat elapsed);
                 ("command", command_value (hardware_command probe (serial o) use_sudo (reset_timeout_ms o)));
                 ("error", VStr (exn_msg e))])
        (λ d y, called x.2 y.2 ∧ (succeeded d = true → hardware_ran x.2 y.2)) y else True)) as Hfail.
  { intros e y Hy. destruct (run_errors e); [|done]. apply (wp_called_bind (@quiet)); [apply quiet_elapsed| |done].
    intros ms z Hz. apply wp_ret. split; [etrans; [exact H1|]; by etrans|done]. }
  apply wp_try, wp_did_bind; [|by intros; apply Hfail]. intros c x2 _ Hc. cbv zeta.
  pose proof (did_called _ _ _ _ Hc) as H2.
  apply (wp_called_bind (@quiet)); [apply quiet_elapsed| |intros e y Hy; apply Hfail; by etrans]. intros ms x3 H3. apply wp_ret.
  split; [etrans; [exact H1|]; by etrans|]. unfold succeeded. simpl. intros [Hz%bool_decide_eq_true Hs]%andb_true_iff.
  eexists _, c. split; [by eapply did_between|done].
Qed.
Lemma usb_reset_ran port x :
  post (do_usb_reset use_sudo port) (λ d y, called x.2 y.2 ∧ (succeeded d = true → usb_ran x.2 y.2)) x.
Proof.
  unfold do_usb_reset. apply (wp_called_bind (@quiet)).
  { unfold usb_device_from_physical_port, _usb_device_from_physical_port.
    assert (∀ l, makes (@quiet) (first_usb_device (T := T) l)) by (induction l; simpl; solve_makes; done).
    solve_makes; done. }
  2:{ done. }
  intros [device|] x1 H1; [|by apply wp_ret]. apply wp_try.
  assert (∀ e y, called x.2 y.2 → (if usb_errors e then
      post (ret [("success", VBool false); ("error", VStr (exn_msg e))])
        (λ d y, called x.2 y.2 ∧ (succeeded d = true → usb_ran x.2 y.2)) y else True)) as Hfail.
  { intros e y Hy. by destruct (usb_errors e). }
  do 2 (apply (wp_called_bind (@quiet)); [unfold read_number; solve_makes|intros ? ? ?|intros; apply Hfail; by repeat (etrans; [eassumption|])]).
  cbv zeta. apply (wp_called_bind (@quiet)); [solve_makes|intros started x4 H4|intros; apply Hfail; by repeat (etrans; [eassumption|])].
  assert (called x.2 x4.2) as Hx4 by (by repeat (etrans; [eassumption|])).
  apply wp_did_bind; [|intros e u _ Hu; apply Hfail; by etrans]. intros c x5 _ Hc. pose proof (did_called _ _ _ _ Hc).
  apply (wp_called_bind (@quiet)); [apply quiet_elapsed|intros ms x6 H6|intros e u Hu; apply Hfail; etrans; [exact Hx4|]; by etrans].
  apply wp_ret. split; [etrans; [exact Hx4|]; by etrans|]. unfold succeeded. simpl. intros Hz%bool_decide_eq_true.
  eexists _, _, c. split; [by eapply did_between|done].
Qed.

Lemma full_reset_ran device settle x :
  post (full_reset fuel probe (serial o) device use_sudo (reset_timeout_ms o) (enumeration_timeout_ms o) settle)
    (λ r y, called x.2 y.2 ∧ (reset_success r = true → fully_reset settle x.2 y.2)) x.
Proof.
  unfold full_reset. apply (wp_called_bind (@quiet)); [solve_makes| |done]. intros started x1 H1.
  apply wp_bind. eapply wp_conseq; [apply hardware_reset_ran| |done]. intros hw x2 [H2 Hhw].
  apply wp_bind, wp_lift. destruct (d ← as_dict device; _) as [port|]; [|done].
  apply wp_bind. eapply wp_conseq; [apply usb_reset_ran| |done]. intros usb x3 [H3 Husb].
  apply wp_bind. eapply wp_conseq; [apply enumeration_listed| |done]. intros en x4 [H4 Hen]. cbv zeta.
  destruct (succeeded hw && succeeded usb && succeeded en) eqn:Hs.
  - apply andb_true_iff in Hs as [[Hs1 Hs2]%andb_true_iff Hs3]. destruct (Hen Hs3) as [d Hd].
    assert (called x.2 x1.2) by done. simpl andb. apply wp_bind.
    apply (wp_conseq _ (λ _ y, settled_for settle x4.2 y.2) _ (λ _ _, True)); [| |done].
    { unfold settled_for. destruct (bool_decide (settle = 0)); simpl; [by apply (wp_ret (A := unit))|].
      apply wp_did; [|done]. by intros [] y _. }
    intros _ x5 H5. apply (wp_called_bind (@quiet)); [apply quiet_elapsed| |done]. intros ms x6 H6. apply wp_ret. simpl.
    assert (settled_for settle x4.2 x6.2) as Hsettle.
    { unfold settled_for in *. case_bool_decide; [by etrans|]. by eapply did_between. }
    destruct (Hhw Hs1) as (l & c & Hc & Hr).
    split.
    + etrans; [exact H1|]. etrans; [exact H2|]. etrans; [exact H3|]. etrans; [exact H4|].
      unfold settled_for in Hsettle. case_bool_decide; [done|]. by eapply did_called.
    + intros _. exists d, x2.2, x3.2, x4.2. split_and!; [|by apply Husb|done|done].
      exists l, c. split; [by eapply did_between|done].
  - simpl andb. apply wp_bind, (wp_ret (A := unit)). apply (wp_called_bind (@quiet)); [apply quiet_elapsed| |done].
    intros ms x6 H6. apply wp_ret. simpl. split; [|done].
    etrans; [exact H1|]. etrans; [exact H2|]. etrans; [exact H3|]. by etrans.
Qed.

Lemma run_probe_ran s x :
  post (run_probe expired_output probe (serial o) (frames o) (cycles_per_trial o) s)
    (λ r y, probe_ran s r.2 x.2 y.2) x.
Proof.
  unfold run_probe. apply wp_bind, wp_lift. destruct (probe_timeout (cycles_per_trial o) s) as [t|] eqn:Ht; [|done].
  apply (wp_called_bind (@quiet)); [solve_makes| |done]. intros started x1 H1. cbv zeta. apply wp_bind.
  apply (wp_conseq _ (λ r y, (∃ c,
      did (RunCommand (probe_command probe (serial o) (frames o) (cycles_per_trial o) s) None (Some (f_of_Z t))) c x1.2 y.2 ∧
      parse_probe_output (stdout c +:+ stderr c) (returncode c) (cycles_per_trial o) = Ok r.2) ∨
      called x1.2 y.2 ∧ success r.2 = false) _ (λ _ _, True)); [| |done].
  - apply wp_try. assert (∀ e y, called x1.2 y.2 → (if is_TimeoutExpired e then
      post (parsed <- lift (parse_probe_output (expired_output e) 124 (cycles_per_trial o)) ;;
            ret (expired_output e, with_error "outer-timeout" ("probe exceeded " +:+ str_Z t +:+ "s") parsed))
        (λ r y, (∃ c,
            did (RunCommand (probe_command probe (serial o) (frames o) (cycles_per_trial o) s) None (Some (f_of_Z t))) c x1.2 y.2 ∧
            parse_probe_output (stdout c +:+ stderr c) (returncode c) (cycles_per_trial o) = Ok r.2) ∨
          called x1.2 y.2 ∧ success r.2 = false) y else True)) as Hexpired.
    { intros e y Hy. destruct (is_TimeoutExpired e); [|done]. apply wp_bind, wp_lift.
      destruct (parse_probe_output _ 124 _) as [q|] eqn:Hq; [|done]. apply wp_ret. right. split; [done|]. simpl.
      revert Hq. unfold parse_probe_output. cbv zeta. intros (result & _ & Hq)%outcome_bind_ok.
      apply outcome_bind_ok in Hq as (completed & _ & Hq). simpl in Hq. apply outcome_bind_ok in Hq as (error & _ & Hq).
      apply outcome_bind_ok in Hq as (m & _ & Hq). by injection Hq as <-. }
    apply wp_did_bind; [|by intros; apply Hexpired]. intros c x2 _ Hc. apply wp_bind, wp_lift.
    destruct (parse_probe_output _ (returncode c) _) as [q|] eqn:Hq; [|apply Hexpired; by eapply did_called].
    apply wp_ret. left. by exists c.
  - intros [output p] x2 Hp. simpl in Hp. apply (wp_called_bind (@quiet)); [apply quiet_elapsed| |done]. intros ms x3 H3.
    apply wp_ret. exists t. split; [done|]. destruct Hp as [(c & Hc & Hq)|[H2 Hs]].
    + left. exists c, p, ms. split_and!; [by eapply did_between|done|done].
    + right. split; [etrans; [exact H1|]; by etrans|done].
Qed.
End runs.
