(* ===== verification/CalibrationSpec.v ===== *)
(** * Properties of the startup calibration

    What a calibration that returns has done: every candidate has had its trials,
    a trial that succeeded ran after a successful reset and delivered all of its
    cycles, a selected timeout is the least proved candidate that covers the waits
    in all rows, and a validated recommendation was run as a whole. *)
From Stdlib Require Import Ascii ZArith Lia Floats.SpecFloat.
From S2P Require Import Prelude PyStr PyFloat PyVal PyJson FloatOrder Effects Machine Clock Shell Recovery.
From S2P Require Import Calls Bisect Calibration CalibrationRuns.
From stdpp Require Import base gmap strings list.
Local Open Scope Z_scope.
Local Open Scope py_scope.
Local Open Scope M_scope.

(** ** The choice of a candidate *)

Lemma foldl_min_spec x l : foldl Z.min x l ∈ x :: l ∧ ∀ y, y ∈ x :: l → foldl Z.min x l <= y.
Proof.
  revert x. induction l as [|z l IH]; intros x; simpl.
  { split; [by left|]. intros y ->%list_elem_of_singleton. lia. }
  destruct (IH (Z.min x z)) as [Hin Hle]. split.
  - apply elem_of_cons in Hin as [Heq|Hin]; [|set_solver]. rewrite Heq. destruct (Z.min_spec x z) as [[_ ->]|[_ ->]]; set_solver.
  - intros y Hy. assert (foldl Z.min (Z.min x z) l <= Z.min x z) by (apply Hle; by left).
    apply elem_of_cons in Hy as [->|[->|Hy]%elem_of_cons]; [lia|lia|]. apply Hle. by right.
Qed.
Lemma least_some l t : least l = Some t → t ∈ l ∧ ∀ y, y ∈ l → t <= y.
Proof. destruct l as [|x l]; [done|]. simpl. intros [= <-]. apply foldl_min_spec. Qed.
Lemma least_none l : least l = None ↔ l = [].
Proof. by destruct l. Qed.

Section choice.
Context (stage_name : string) (rows : list trial_row) (trials cycles_per_trial : Z) (safety_factor : f64) (poll : Z).
Context (headroom_rows : option (list trial_row)).
(** All trials of the candidate succeeded with all of their cycles. *)
Definition proved (candidate : Z) : Prop :=
  all_observed trials cycles_per_trial (selected_rows stage_name candidate rows) = true.
(** The candidate is at least what the waits ask for. *)
Definition covers (candidate : Z) : Prop :=
  ∃ required, headroom stage_name safety_factor poll (default (selected_rows stage_name candidate rows) headroom_rows)
                = Ok required ∧ required <= candidate.
Lemma candidate_qualified candidate s :
  summarize_candidate stage_name rows trials cycles_per_trial safety_factor poll headroom_rows candidate = Ok s →
  s_candidate_ms s = candidate ∧ (qualified s = true ↔ proved candidate ∧ covers candidate).
Proof.
  unfold summarize_candidate, proved, covers. intros (required & Hr & Hs)%outcome_bind_ok.
  injection Hs as <-. simpl. split; [done|]. rewrite andb_true_iff, bool_decide_eq_true. split.
  - intros [Ho Hle]. eauto.
  - intros [Ho (r & Hr' & Hle)]. rewrite Hr in Hr'. injection Hr' as <-. auto.
Qed.
Lemma qualified_spec candidates summaries :
  Forall2 (λ c s, summarize_candidate stage_name rows trials cycles_per_trial safety_factor poll headroom_rows c = Ok s)
    candidates summaries →
  ∀ t, t ∈ qualified_values summaries ↔ t ∈ candidates ∧ proved t ∧ covers t.
Proof.
  unfold qualified_values. induction 1 as [|c s cs ss Hs Hrest IH]; intros t; [set_solver|].
  apply candidate_qualified in Hs as [Hc Hq]. rewrite filter_cons. case_decide as Hd.
  - change (map s_candidate_ms (s :: filter _ ss)) with (s_candidate_ms s :: map s_candidate_ms (filter (λ s, qualified s = true) ss)).
    rewrite !elem_of_cons, IH, Hc. apply Hq in Hd. split; [intros [->|?]; tauto|]. intros [[->|?] ?]; tauto.
  - rewrite IH, elem_of_cons. split; [tauto|]. intros [[->|?] Hp]; [|tauto]. destruct Hd. by apply Hq.
Qed.
(** The least candidate that is proved and covers the waits, if there is one. *)
Definition chosen (candidates : list Z) (selected : option Z) : Prop :=
  match selected with
  | Some t => t ∈ candidates ∧ proved t ∧ covers t ∧ ∀ c, c ∈ candidates → proved c → covers c → t <= c
  | None => ∀ c, c ∈ candidates → proved c → ¬ covers c
  end.
Lemma summarize_chosen candidates summaries selected :
  summarize_candidates stage_name rows trials cycles_per_trial safety_factor poll headroom_rows candidates
    = Ok (summaries, selected) → chosen candidates selected.
Proof.
  unfold summarize_candidates. intros (ss & Hss & Heq)%outcome_bind_ok. injection Heq as -> <-.
  apply traverse_ok in Hss. pose proof (qualified_spec _ _ Hss) as Hq. unfold chosen.
  destruct (least _) as [t|] eqn:Ht.
  - apply least_some in Ht as [Hin Hle]. apply Hq in Hin as (? & ? & ?). split_and!; try done.
    intros c ???. apply Hle, Hq. auto.
  - apply least_none in Ht. rewrite Ht in Hq. intros c Hc Hp Hcov. assert (c ∈ @nil Z) as []%not_elem_of_nil.
    apply Hq. auto.
Qed.
End choice.

(** The largest of numbers bounds all of them. *)
Lemma max_or_zero_spec l : Forall num l → ∀ x, x ∈ l → f_le x (max_or_zero l) = true.
Proof. destruct l as [|y l]; intros Hl x Hx; [by apply not_elem_of_nil in Hx|]. by apply f_list_max_spec. Qed.
(** ** The output of the probe *)

Definition cycle_succeeded (v : pyval) : Prop := ∃ d, v = VDict d ∧ truthy (dgetd "success" (VBool false) d) = true.
Lemma all_success_spec l : all_success l = Ok true → Forall cycle_succeeded l.
Proof.
  induction l as [|v l IH]; [constructor|]. simpl. intros (d & Hd & Hl)%outcome_bind_ok.
  destruct v; try discriminate Hd. injection Hd as ->. destruct (truthy _) eqn:Ht; [|done].
  constructor; [by exists d|auto].
Qed.
(** A run that counts as a success. *)
Definition reliable (requested : Z) (p : probe_result) : Prop :=
  success p = true →
  p_returncode p = 0 ∧ cycles_completed p = requested ∧ Z.of_nat (length (cycles p)) = requested ∧
  Forall cycle_succeeded (cycles p).
Lemma parse_reliable output code requested p :
  parse_probe_output output code requested = Ok p → reliable requested p ∧ p_returncode p = code.
Proof.
  unfold parse_probe_output, reliable. cbv zeta. intros (result & _ & H)%outcome_bind_ok.
  apply outcome_bind_ok in H as (completed & _ & H). apply outcome_bind_ok in H as (b & Hb & H).
  apply outcome_bind_ok in H as (error & _ & H). apply outcome_bind_ok in H as (m & _ & H).
  injection H as <-. simpl. split; [|done]. intros ->. destruct (_ && _) eqn:Hc in Hb; [|done].
  rewrite !andb_true_iff, !bool_decide_eq_true in Hc. destruct Hc as [[[? _] ?] ?]. split_and!; try done.
  by apply all_success_spec.
Qed.

(** ** Trials and stages *)

Section stages.
Context {W : Type} `{OS W} (expired_output : exn → string) (fuel : nat).
Context (o : options) (probe root : string) (use_sudo : bool).
Abbreviation state := (calibration * world W)%type.
Implicit Types x y : state.
(** What a computation does when it returns. *)
Abbreviation post m Q x := (wp m Q (λ _ _, True) x).

Lemma post_bind {S A B} (m : M S A) (k : A → M S B) Q1 Q (s : S) :
  post m Q1 s → (∀ a s', Q1 a s' → post (k a) Q s') → post (bind m k) Q s.
Proof. intros Hm Hk. apply wp_bind. eapply wp_conseq; [exact Hm|exact Hk|done]. Qed.
(** A step that leaves the object alone. *)
Lemma post_keeps {T A B} (m : M (T * world W) A) (k : A → M (T * world W) B) Q s w :
  keeps m → (∀ a w', post (k a) Q (s, w')) → post (bind m k) Q (s, w).
Proof. intros Hm Hk. apply wp_bind. by eapply wp_keeps. Qed.

Lemma await_device_keeps {T} n serial d found : keeps (await_device (T := T) n probe serial d found).
Proof. revert found. induction n as [|n IH]; intros found; simpl; unfold query_device; solve_keeps. Qed.
Lemma usb_keeps {T} b port : keeps (do_usb_reset (T := T) b port).
Proof.
  unfold do_usb_reset, usb_device_from_physical_port, _usb_device_from_physical_port, read_number, elapsed_since.
  assert (∀ l, keeps (first_usb_device (T := T) l)) as Hf by (induction l; simpl; solve_keeps; done).
  solve_keeps.
Qed.
Lemma full_reset_keeps {T} serial device b rt et settle :
  keeps (full_reset (T := T) fuel probe serial device b rt et settle).
Proof.
  unfold full_reset, do_hardware_reset, Calibration.await_enumeration, elapsed_since. solve_keeps; try apply usb_keeps; try apply await_device_keeps.
Qed.
(** The result of a run of the probe. *)
Lemma parsed_reliable {T} (c code : Z) output (k : probe_result → probe_result) (x : T) :
  (∀ p, reliable c p → reliable c (k p)) →
  wp (p <- lift (parse_probe_output output code c) ;; ret (output, k p)) (λ r z, z = x ∧ reliable c r.2) (λ _ z, z = x) x.
Proof.
  intros Hk. apply wp_bind, wp_lift. destruct (parse_probe_output _ _ _) as [p|] eqn:Hp; [|done].
  apply wp_ret. split; [done|]. apply Hk. by apply parse_reliable in Hp as [? _].
Qed.
Lemma run_probe_reliable (c : Z) s x :
  post (run_probe expired_output probe (serial o) (frames o) c s)
    (λ r y, y.1 = x.1 ∧ reliable c r.2) x.
Proof.
  destruct x as [s0 w0]. unfold run_probe, elapsed_since. apply wp_bind, wp_lift. destruct (probe_timeout c s) as [t|]; [|done].
  apply post_keeps; [solve_keeps|]. intros started w1. eapply (post_bind _ _ (λ r y, y.1 = s0 ∧ reliable c r.2)).
  - apply wp_try, wp_bind. eapply wp_keeps; [solve_keeps| |].
    + intros completed w2. cbv zeta. eapply wp_conseq; [apply (parsed_reliable c _ _ id); done| |].
      * intros r y [-> Hr]. done.
      * intros e y ->. cbv beta. destruct (is_TimeoutExpired e); [|done].
        eapply wp_conseq; [apply (parsed_reliable c _ _ (with_error _ _)); done|by intros r z [-> Hr]|done].
    + intros e w2. destruct (is_TimeoutExpired e); [|done].
      eapply wp_conseq; [apply (parsed_reliable c _ _ (with_error _ _)); done|by intros r z [-> Hr]|done].
  - intros [output p] [s1 w1'] [Heq Hr]. simpl in Heq, Hr. subst s1. apply post_keeps; [solve_keeps|]. intros ms w3. by apply wp_ret.
Qed.

(** The row of a trial: its settings, and that a success is one. *)
Definition sound (r : trial_row) : Prop :=
  success (parsed r) = true → reset_success (reset r) = true.
Definition entry_of (stage_name : string) (s : settings) (default_settle candidate trial : Z) (r : trial_row) : Prop :=
  stage r = stage_name ∧ candidate_ms r = candidate ∧ Calibration.trial r = trial ∧
  settle_ms r = candidate_settle stage_name candidate default_settle ∧
  current r = candidate_settings stage_name candidate s ∧
  sound r ∧ reliable (cycles_per_trial o) (parsed r).
(** Only cycles, resets and the device change after the row is in. *)
Definition same_rows : relation state := λ x y, result_rows y.1 = result_rows x.1.
#[local] Instance same_rows_preorder : PreOrder same_rows.
Proof. split; [by intros x|]. intros x y z. unfold same_rows. congruence. Qed.
Lemma keeps_same_rows {A} (m : M state A) : keeps m → within same_rows m.
Proof. apply within_mono. intros [] []. unfold same_self, same_rows. simpl. by intros ->. Qed.
Lemma reset_trial_post dir settle x :
  post (reset_trial fuel o probe use_sudo dir settle)
    (λ r y, same_rows x y ∧ called x.2 y.2 ∧ (reset_success r = true → fully_reset o probe use_sudo settle x.2 y.2)) x.
Proof.
  destruct x as [c w]. unfold reset_trial. apply wp_bind, wp_self, wp_bind.
  eapply wp_conseq; [apply (wp_and_within same_self); [apply full_reset_keeps|apply full_reset_ran]| |done].
  intros r [c1 w1] [[H1 Hr] Hc]. unfold same_self in Hc. simpl in H1, Hr, Hc. subst c1.
  apply wp_did_bind; [|done]. intros [] [c2 w2] Hc2 Hd%did_called. simpl in Hc2, Hd. subst c2.
  apply wp_bind, wp_set_self, wp_ret. split_and!; [done|simpl; by etrans|]. intros Hs. simpl.
  eapply fully_reset_between; [reflexivity|by apply Hr|done].
Qed.
(** What a run after the reset is: a run of the probe, or none. *)
Definition run_made (r : reset_result) (s : settings) (p : probe_result) (w w' : world W) : Prop :=
  if reset_success r then probe_ran o probe s p w w' else called w w' ∧ p = no_run (cycles_per_trial o).
Lemma run_trial_post r s x :
  post (run_trial expired_output o probe r s)
    (λ run y, y.1 = x.1 ∧ (success run.2 = true → reset_success r = true) ∧ reliable (cycles_per_trial o) run.2 ∧
              run_made r s run.2 x.2 y.2) x.
Proof.
  unfold run_trial, run_made. destruct (reset_success r).
  - eapply wp_conseq; [apply wp_and; [apply run_probe_reliable|apply run_probe_ran]| |done]. by intros run y [[-> ?] ?].
  - apply wp_ret. done.
Qed.
Lemma after_row_same_rows stage_name candidate trial l :
  within same_rows (for_each l (λ cycle, row <- lift (cycle_dict stage_name candidate trial cycle) ;;
    set_self (W := W) (add_cycle row)) ;; write_results root).
Proof.
  apply within_bind; [typeclasses eauto| |].
  - apply within_for_each; [typeclasses eauto|]. intros cycle. apply within_bind; [typeclasses eauto|apply within_lift; typeclasses eauto|].
    intros row [c w]. done.
  - intros []. apply keeps_same_rows. unfold write_results. solve_keeps.
Qed.
Lemma quiet_after_row stage_name candidate trial l :
  makes (@quiet) (for_each l (λ cycle, row <- lift (cycle_dict stage_name candidate trial cycle) ;;
    set_self (W := W) (add_cycle row)) ;; write_results root).
Proof. unfold write_results. solve_makes. Qed.
Lemma after_row_post stage_name candidate trial l x :
  post (for_each l (λ cycle, row <- lift (cycle_dict stage_name candidate trial cycle) ;; set_self (W := W) (add_cycle row)) ;;
        write_results root) (λ _ y, same_rows x y ∧ called x.2 y.2) x.
Proof.
  eapply wp_conseq; [apply (wp_and_within (on_world called)); [apply quiet_after_row, called_kept|];
    apply (wp_within same_rows _ (λ _ y, same_rows x y) (λ _ _, True)); [apply after_row_same_rows|done|done]|done|done].
Qed.
Lemma execute_trial_post stage_name s default_settle candidate trial x :
  post (execute_trial expired_output fuel o probe root use_sudo stage_name s default_settle candidate trial)
    (λ _ y, ∃ r, entry_of stage_name s default_settle candidate trial r ∧
       trial_ran o probe use_sudo r x.2 y.2 ∧ result_rows y.1 = result_rows x.1 ++ [r]) x.
Proof.
  destruct x as [c w]. unfold execute_trial. cbv zeta. apply wp_did_bind; [|done].
  intros _ [c0 w1] Hc0 H1%did_called. simpl in Hc0, H1. subst c0.
  eapply post_bind; [apply reset_trial_post|]. intros r [c1 w2] (Hsame & H2 & Hreset). eapply post_bind; [apply run_trial_post|].
  intros [output p] [c2 w3] (Hc & Hs & Hr & Hrun). simpl in Hc, Hs, Hr, Hrun, H2, Hreset. subst c2.
  apply wp_did_bind; [|done]. intros _ [c3 w4] Hc3 H4%did_called. simpl in Hc3, H4. subst c3.
  apply wp_bind, wp_set_self.
  eapply wp_conseq; [apply after_row_post| |done].
  intros _ [c5 w5] [Hsame5 H5]. unfold same_rows in *. simpl in *.
  eexists. split; [|split; [|rewrite Hsame5; simpl; by rewrite Hsame]]; [by unfold entry_of, sound|].
  exists w1, w2, w3. simpl. split_and!; [done| |by etrans]. unfold run_made in Hrun.
  destruct (reset_success r); [by split; [apply Hreset|]|]. destruct Hrun. split; [by etrans|done].
Qed.

(** The trials of a stage, in order. *)
Definition stage_plan (candidates : list Z) (trials : Z) : list (Z * Z) :=
  candidates ≫= λ c, map (pair c) (trial_numbers trials).
Definition rows_of_plan (stage_name : string) (s : settings) (default_settle : Z) : list (Z * Z) → list trial_row → Prop :=
  Forall2 (λ k r, entry_of stage_name s default_settle k.1 k.2 r).
(** The rows of a plan that are new, with their trials. *)
Definition adds (stage_name : string) (s : settings) (default_settle : Z) (plan : list (Z * Z)) (x y : state) : Prop :=
  ∃ new, rows_of_plan stage_name s default_settle plan new ∧ trials_ran o probe use_sudo new x.2 y.2 ∧
         result_rows y.1 = result_rows x.1 ++ new.
(** A loop that adds rows for each of its elements. *)
Lemma loop_adds {A} (keys : A → list (Z * Z)) (f : A → M state unit) stage_name s default_settle l x :
  (∀ a z, post (f a) (λ _ y, adds stage_name s default_settle (keys a) z y) z) →
  post (for_each l f) (λ _ y, adds stage_name s default_settle (l ≫= keys) x y) x.
Proof.
  intros Hf. revert x. induction l as [|a l IH]; intros x; simpl.
  - apply wp_ret. exists []. split_and!; [apply Forall2_nil_2|simpl; reflexivity|by rewrite app_nil_r].
  - eapply post_bind; [apply Hf|]. intros [] y (new & Hn & Ht & Hy). eapply wp_conseq; [apply IH| |done].
    intros [] z (rest & Hr & Ht' & Hz). exists (new ++ rest). split_and!; [by apply Forall2_app| |].
    + apply trials_ran_app. by exists y.2.
    + by rewrite Hz, Hy, app_assoc.
Qed.
Lemma execute_stage_post stage_name candidates s default_settle trials x :
  post (execute_stage expired_output fuel o probe root use_sudo stage_name candidates s default_settle trials)
    (λ r y, adds stage_name s default_settle (stage_plan candidates trials) x y ∧
            chosen stage_name (result_rows y.1) trials (cycles_per_trial o) (safety_factor o) 5 None candidates r.2) x.
Proof.
  unfold execute_stage. eapply post_bind.
  - apply (loop_adds (λ c, map (pair c) (trial_numbers trials)) _ stage_name s default_settle). intros c z.
    eapply wp_conseq; [apply (loop_adds (λ t, [(c, t)]) _ stage_name s default_settle)| |done].
    + intros t z'. eapply wp_conseq; [apply execute_trial_post| |done]. intros [] y (r & Hr & Ht & Hy). exists [r].
      split_and!; [constructor; [exact Hr|constructor]|exists y.2; split; [exact Ht|simpl; reflexivity]|done].
    + intros [] y (new & Hn & Ht & Hy). exists new. split; [|done].
      assert (map (pair c) (trial_numbers trials) = trial_numbers trials ≫= λ t, [(c, t)]) as ->; [|done].
      induction (trial_numbers trials) as [|t l IH]; [done|]. cbn. by f_equal.
  - intros [] [c w] Hadds. apply wp_bind, wp_self. apply wp_lift.
    destruct (summarize_candidates _ _ _ _ _ _ _ _) as [[ss sel]|] eqn:Hs; [|done]. split; [done|].
    by apply summarize_chosen in Hs.
Qed.

(** ** The whole calibration *)

Definition key_of (r : trial_row) : string * (Z * Z) := (stage r, (candidate_ms r, Calibration.trial r)).
(** A row of a timing tries its candidate. *)
Definition tried (r : trial_row) : Prop :=
  (stage r = STAGE_SETTLE → settle_ms r = candidate_ms r) ∧
  (stage r = STAGE_FRAME → frame_timeout_ms (current r) = candidate_ms r) ∧
  (stage r = STAGE_JOIN → join_timeout_ms (current r) = candidate_ms r) ∧
  (stage r = STAGE_CYCLE → cycle_delay_ms (current r) = candidate_ms r).
Lemma entry_tried stage_name s default_settle candidate trial r :
  entry_of stage_name s default_settle candidate trial r → tried r.
Proof.
  intros (Hst & Hcand & _ & Hs & Hc & _). unfold tried. rewrite Hst, Hcand, Hs, Hc.
  split_and!; intros ->; reflexivity.
Qed.
Definition good (r : trial_row) : Prop := tried r ∧ sound r ∧ reliable (cycles_per_trial o) (parsed r).
Definition batch (stage_name : string) (plan : list (Z * Z)) (rows : list trial_row) : Prop :=
  map key_of rows = map (pair stage_name) plan ∧ Forall good rows.
Lemma plan_batch stage_name s default_settle plan rows :
  rows_of_plan stage_name s default_settle plan rows → batch stage_name plan rows.
Proof.
  unfold batch. induction 1 as [|[c t] r plan rows Hr _ [IHk IHg]]; [done|]. simpl in *.
  pose proof (entry_tried _ _ _ _ _ _ Hr). destruct Hr as (Hs & Hc & Ht & _ & _ & Hg). split.
  - rewrite IHk. unfold key_of at 1. by rewrite Hs, Hc, Ht.
  - by constructor.
Qed.
(** The plan of a calibration. *)
Definition calibration_plan (c : candidates) : list (string * (Z * Z)) :=
  map (pair STAGE_SETTLE) (stage_plan (settle_candidates c) (trials o)) ++
  map (pair STAGE_FRAME) (stage_plan (frame_candidates c) (trials o)) ++
  map (pair STAGE_JOIN) (stage_plan (join_candidates c) (trials o)) ++
  map (pair STAGE_CYCLE) (stage_plan (cycle_candidates c) (trials o)) ++
  map (pair STAGE_VALIDATION) (stage_plan [0] (validation_trials o)).
(** The choice of a timeout over all rows. *)
Definition chosen_over (stage_name : string) (rows : list trial_row) : list Z → option Z → Prop :=
  chosen stage_name rows (trials o) (cycles_per_trial o) (safety_factor o) 5 (Some rows).
Lemma timeouts_chosen rows frames joins both :
  summarize_timeouts o rows frames joins = Ok both →
  chosen_over STAGE_FRAME rows frames both.1.2 ∧ chosen_over STAGE_JOIN rows joins both.2.2.
Proof.
  unfold summarize_timeouts. cbv zeta. intros ([fs f] & Hf & H')%outcome_bind_ok.
  apply outcome_bind_ok in H' as ([js j] & Hj & H'). injection H' as <-. simpl.
  split; [by apply summarize_chosen in Hf|by apply summarize_chosen in Hj].
Qed.
Definition calibrated (c : candidates) (before : list trial_row) (r : recommendation) (rows : list trial_row)
    (w w' : world W) : Prop :=
  ∃ before_validation validation resets settle cycle,
    (∃ w1, trials_ran o probe use_sudo before_validation w w1 ∧ trials_ran o probe use_sudo validation w1 w') ∧
    rows = before ++ before_validation ++ validation ∧
    map key_of (before_validation ++ validation) = calibration_plan c ∧ Forall good (before_validation ++ validation) ∧
    Forall (λ r, stage r ≠ STAGE_VALIDATION) before_validation ∧
    rows_of_plan STAGE_VALIDATION (validation_settings r) (effective_settle_ms r) (stage_plan [0] (validation_trials o)) validation ∧
    chosen_over STAGE_FRAME rows (frame_candidates c) (selected_frame r) ∧
    chosen_over STAGE_JOIN rows (join_candidates c) (selected_join r) ∧
    recommend o rows resets settle (selected_frame r) (selected_join r) cycle (validation_settings r) (effective_settle_ms r)
      = Ok r.
Lemma batch_stage stage_name plan rows : batch stage_name plan rows → Forall (λ r, stage r = stage_name) rows.
Proof.
  intros [Hk _]. revert plan Hk. induction rows as [|r rows IH]; intros [|p plan] Hk; try done.
  injection Hk as Hs _ Hk. constructor; [done|]. by apply (IH plan).
Qed.
Lemma recommend_fields rows resets settle frame join cycle s effective r :
  recommend o rows resets settle frame join cycle s effective = Ok r →
  selected_frame r = frame ∧ selected_join r = join ∧ selected_settle r = settle ∧ selected_cycle r = cycle ∧
  validation_settings r = s ∧ effective_settle_ms r = effective ∧
  first_frame_wait_max r = max_or_zero (map first_wait rows) ∧ join_wait_max r = max_or_zero (map join_wait rows) ∧
  (validated r = true → let l := filter (λ r, stage r = STAGE_VALIDATION) rows in
     Z.of_nat (length l) = validation_trials o ∧ Forall (λ r, success (parsed r) = true) l ∧
     is_Some frame ∧ is_Some join ∧ is_Some cycle ∧ is_Some settle).
Proof.
  unfold recommend. intros (hardware & _ & H')%outcome_bind_ok. apply outcome_bind_ok in H' as (en & _ & H').
  apply outcome_bind_ok in H' as (rt & _ & H'). apply outcome_bind_ok in H' as (et & _ & H'). injection H' as <-. simpl.
  split_and!; try done. rewrite !andb_true_iff, !bool_decide_eq_true. intros [[[[[? Hall] ?] ?] ?] ?].
  split_and!; try done. apply Forall_forall. intros x Hx. rewrite forallb_forall in Hall. apply Hall. by apply list_elem_of_In.
Qed.
Lemma calibrate_post c x :
  post (calibrate expired_output fuel o probe root use_sudo c)
    (λ res y, calibrated c (result_rows x.1) res.1 (result_rows y.1) x.2 y.2) x.
Proof.
  unfold calibrate. cbv zeta.
  eapply post_bind; [apply execute_stage_post|]. intros settle y1 [(l1 & P1%plan_batch & T1 & E1) _].
  eapply post_bind; [apply execute_stage_post|]. intros frame y2 [(l2 & P2%plan_batch & T2 & E2) _].
  eapply post_bind; [apply execute_stage_post|]. intros join y3 [(l3 & P3%plan_batch & T3 & E3) _].
  eapply post_bind; [apply execute_stage_post|]. intros cycle y4 [(l4 & P4%plan_batch & T4 & E4) _].
  destruct y4 as [c4 w4]. apply wp_bind, wp_self, wp_bind, wp_lift.
  destruct (summarize_timeouts _ _ _ _) as [both|]; [|done].
  eapply post_bind; [apply execute_stage_post|]. intros validated_ y5 [(l5 & P5 & T5 & E5) _].
  destruct y5 as [c5 w5]. apply wp_bind, wp_self, wp_bind, wp_self, wp_bind, wp_lift.
  destruct (summarize_timeouts _ _ _ _) as [both'|] eqn:Hb; [|done]. apply wp_bind, wp_lift.
  destruct (recommend _ _ _ _ _ _ _ _ _) as [r|] eqn:Hr; [|done]. apply wp_ret.
  destruct (timeouts_chosen _ _ _ _ Hb) as [Hf Hj].
  destruct (recommend_fields _ _ _ _ _ _ _ _ _ Hr) as (Ef & Ej & _ & _ & Es & Ee & _).
  simpl in *. rewrite <- Ef, <- Ej, <- Es, <- Ee in Hr. rewrite <- Es, <- Ee in P5. rewrite <- Ef in Hf. rewrite <- Ej in Hj.
  exists (l1 ++ l2 ++ l3 ++ l4), l5, (reset_records c5), settle.2, cycle.2.
  pose proof (plan_batch _ _ _ _ _ P5) as [K5 G5].
  pose proof (batch_stage _ _ _ P1) as S1. pose proof (batch_stage _ _ _ P2) as S2.
  pose proof (batch_stage _ _ _ P3) as S3. pose proof (batch_stage _ _ _ P4) as S4.
  destruct P1 as [K1 G1], P2 as [K2 G2], P3 as [K3 G3], P4 as [K4 G4].
  split_and!; try done.
  - exists w4. split; [|done]. apply trials_ran_app. exists y1.2. split; [done|].
    apply trials_ran_app. exists y2.2. split; [done|]. apply trials_ran_app. by exists y3.2.
  - by rewrite E5, E4, E3, E2, E1, <- !app_assoc.
  - rewrite !map_app, K1, K2, K3, K4, K5. unfold calibration_plan. by rewrite <- !app_assoc.
  - rewrite !Forall_app. done.
  - rewrite !Forall_app. split_and!; eapply Forall_impl; try eassumption; by intros ? ->.
Qed.
End stages.

(** ** What a calibration has done *)

Section properties.
Context {W : Type} `{OS W}.
Abbreviation run expired_output fuel o probe root use_sudo c := (calibrate expired_output fuel o probe root use_sudo c).


(** C26: A recommended timeout covers every observation.  The frame timeout and
    the join timeout of a recommendation are the least candidates all of whose
    trials succeeded with all cycles and that leave the headroom over the longest
    wait of all rows, the validation included (none is recommended when there is
    no such candidate); and the longest waits are upper bounds, when the probe
    reported numbers. *)
Theorem recommended_timeouts_cover expired_output fuel o probe root use_sudo c (x y : calibration * world W) r all :
  result_rows x.1 = [] → run expired_output fuel o probe root use_sudo c x = (Ok (r, all), y) →
  let rows := result_rows y.1 in
  chosen_over o STAGE_FRAME rows (frame_candidates c) (selected_frame r) ∧
  chosen_over o STAGE_JOIN rows (join_candidates c) (selected_join r) ∧
  (∀ t, selected_frame r = Some t → ∃ required,
     f_ceil (f_mul (first_frame_wait_max r) (safety_factor o)) = Ok required ∧ required <= t) ∧
  (∀ t, selected_join r = Some t → ∃ required,
     f_ceil (f_add (f_mul (join_wait_max r) (safety_factor o)) (f_of_Z 5)) = Ok required ∧ required <= t) ∧
  (Forall (λ row, num (first_wait row) ∧ num (join_wait row)) rows →
   Forall (λ row, f_le (first_wait row) (first_frame_wait_max r) = true ∧
                  f_le (join_wait row) (join_wait_max r) = true) rows).
Proof.
  intros Hx Hrun rows. pose proof (wp_ok _ _ _ _ _ _ (calibrate_post expired_output fuel o probe root use_sudo c x) Hrun) as Hc.
  destruct Hc as (l & v & resets & settle & cycle & _ & _ & _ & _ & _ & _ & Hf & Hj & Hr). fold rows in Hf, Hj, Hr. simpl in *.
  destruct (recommend_fields _ _ _ _ _ _ _ _ _ _ Hr) as (_ & _ & _ & _ & _ & _ & Ewf & Ewj & _).
  split; [exact Hf|]. split; [exact Hj|]. rewrite Ewf, Ewj. split_and!.
  - intros t Ht. rewrite Ht in Hf. destruct Hf as (_ & _ & Hcov & _). exact Hcov.
  - intros t Ht. rewrite Ht in Hj. destruct Hj as (_ & _ & Hcov & _). exact Hcov.
  - intros Hn. apply Forall_forall. intros row Hrow. rewrite Forall_forall in Hn.
    split; (apply max_or_zero_spec; [apply Forall_fmap, Forall_forall; intros z Hz; by apply Hn|by apply list_elem_of_fmap_2]).
Qed.

(** C27: A validated recommendation was run.  When a recommendation is marked as
    validated, every timing has a selected value, and the trials of the
    validation are as many as were asked for.  They were made one after the
    other, at the end of the calibration: in each the full reset was run and the
    effective settling time waited, and then the probe was run with exactly the
    settings the recommendation gives as effective and its output says that it
    succeeded. *)
Theorem validated_settings_were_run expired_output fuel o probe root use_sudo c (x y : calibration * world W) r all :
  result_rows x.1 = [] → run expired_output fuel o probe root use_sudo c x = (Ok (r, all), y) → validated r = true →
  let runs := filter (λ r, stage r = STAGE_VALIDATION) (result_rows y.1) in
  is_Some (selected_settle r) ∧ is_Some (selected_frame r) ∧ is_Some (selected_join r) ∧ is_Some (selected_cycle r) ∧
  Z.of_nat (length runs) = validation_trials o ∧
  (∃ w, called x.2 w ∧ validation_ran o probe use_sudo (effective_settle_ms r) (validation_settings r) runs w y.2) ∧
  Forall (λ row, success (parsed row) = true ∧ reset_success (reset row) = true ∧
                 current row = validation_settings r ∧ settle_ms row = effective_settle_ms r) runs.
Proof.
  intros Hx Hrun Hv runs. pose proof (wp_ok _ _ _ _ _ _ (calibrate_post expired_output fuel o probe root use_sudo c x) Hrun) as Hc.
  destruct Hc as (l & v & resets & settle & cycle & (w1 & T1 & T2) & Hy & _ & Hg & Hl & Hp & _ & _ & Hr). simpl in *.
  destruct (recommend_fields _ _ _ _ _ _ _ _ _ _ Hr) as (_ & _ & Es & Ec & _ & _ & _ & _ & Hok). rewrite Es, Ec.
  destruct (Hok Hv) as (Hn & Hsucc & ? & ? & ? & ?).
  assert (runs = v) as Hruns.
  { unfold runs. rewrite Hy, Hx. simpl. rewrite filter_app, filter_none, filter_all by
      (first [exact Hl|apply (batch_stage o _ _ _ (plan_batch o _ _ _ _ _ Hp))]). done. }
  assert (Forall (λ r, success (parsed r) = true) v) as Hsv by (rewrite <- Hruns; exact Hsucc).
  rewrite Hruns. apply Forall_app in Hg as [_ Hg].
  assert (Forall (λ row, success (parsed row) = true ∧ reset_success (reset row) = true ∧
    current row = validation_settings r ∧ settle_ms row = effective_settle_ms r) v) as Hall.
  { clear -Hp Hg Hsv. rename Hsv into Hsucc. revert Hg Hsucc.
    induction Hp as [|k row plan rows (_ & _ & _ & Hs & Hc & _) _ IH]; intros Hg Hsucc; [constructor|].
    apply Forall_cons in Hg as [(_ & Hsound & _) Hg], Hsucc as [Hok Hsucc]. constructor; [|auto].
    rewrite Hs, Hc. split_and!; auto. }
  split_and!; try done; [by rewrite <- Hruns|]. exists w1. split; [by eapply trials_called|].
  by apply validation_of_trials.
Qed.
End properties.

(** ** It ends *)

(** An outcome of the code itself: no exception of a loop without fuel. *)
Definition real {A} (m : outcome A) : Prop := ∀ e, m = Raise e → exn_type e ≠ OutOfFuel.
Lemma real_ok {A} (a : A) : real (Ok a).
Proof. by intros e. Qed.
Lemma real_raise {A} c msg : c ≠ OutOfFuel → real (raise (A := A) c msg).
Proof. intros Hc e [= <-]. done. Qed.
Lemma real_bind {A B} (m : outcome A) (f : A → outcome B) : real m → (∀ a, real (f a)) → real (m ≫= f).
Proof. intros Hm Hf. destruct m as [a|e]; [apply Hf|]. intros e' [= <-]. by apply Hm. Qed.
Lemma real_traverse {A B} (f : A → outcome B) l : (∀ a, real (f a)) → real (traverse f l).
Proof.
  intros Hf. induction l as [|x l IH]; simpl; [by apply real_ok|]. destruct (f x) as [y|e] eqn:E; [|by intros e' [= <-]; apply (Hf x)].
  destruct (traverse f l); [by apply real_ok|]. intros e' [= <-]. by apply IH.
Qed.
Create HintDb real.
Ltac solve_real :=
  repeat (intros; match goal with
    | |- real (Ok _) => apply real_ok
    | |- real (raise _ _) => apply real_raise; done
    | |- real (parser_error _) => apply real_raise; done
    | |- real (cannot_convert ?x) => destruct x; apply real_raise; done
    | |- real (mbind _ _) => apply real_bind
    | |- real (traverse _ _) => apply real_traverse
    | |- real _ => solve [eauto with real]
    | |- real (match ?x with _ => _ end) => destruct x
    end).
Lemma real_f_trunc x : real (f_trunc x).
Proof. unfold f_trunc, cannot_convert. solve_real. Qed.
Lemma real_f_floor x : real (f_floor x).
Proof. unfold f_floor, cannot_convert. solve_real. Qed.
#[export] Hint Resolve real_f_trunc real_f_floor : real.
Lemma real_f_ceil x : real (f_ceil x).
Proof. unfold f_ceil. intros e. pose proof (real_f_floor (SFopp x) e) as Hf. destruct (f_floor _); [done|]. intros [= <-]. auto. Qed.
Lemma real_as_dict v : real (as_dict v).
Proof. unfold as_dict. solve_real. Qed.
Lemma real_py_int v : real (py_int v).
Proof. unfold py_int. solve_real. Qed.
Lemma real_py_float v : real (py_float v).
Proof. unfold py_float. solve_real. Qed.
#[export] Hint Resolve real_f_ceil real_as_dict real_py_int real_py_float : real.
Lemma real_metric cycles field op : real (metric cycles field op).
Proof. unfold metric, field_float, field_of. solve_real. Qed.
Lemma real_all_success l : real (all_success l).
Proof. induction l as [|v l IH]; simpl; solve_real. Qed.
#[export] Hint Resolve real_metric real_all_success : real.
Lemma real_parse output code n : real (parse_probe_output output code n).
Proof. unfold parse_probe_output, last_or_empty, field_metrics. cbv zeta. solve_real. Qed.
Lemma real_timeout n s : real (probe_timeout n s).
Proof. unfold probe_timeout, ceil_seconds. solve_real. Qed.
Lemma real_summarize st rows tr n sf poll hr cs : real (summarize_candidates st rows tr n sf poll hr cs).
Proof. unfold summarize_candidates, summarize_candidate, headroom. solve_real. Qed.
#[export] Hint Resolve real_parse real_timeout real_summarize : real.
Lemma real_recommend o rows resets a b c d s e : real (recommend o rows resets a b c d s e).
Proof. unfold recommend, rounded_timeout, float_elapsed. cbv zeta. solve_real. Qed.
Lemma real_summarize_timeouts o rows fs js : real (summarize_timeouts o rows fs js).
Proof. unfold summarize_timeouts. cbv zeta. solve_real. Qed.
Lemma real_cycle_dict st c t v : real (cycle_dict st c t v).
Proof. unfold cycle_dict. solve_real. Qed.
#[export] Hint Resolve real_recommend real_summarize_timeouts real_cycle_dict : real.

Lemma quick_real {W} `{Clock W} {T A} (m : outcome A) : real m → quick (S := T) (lift m).
Proof. apply quick_lift. Qed.
Ltac real_quick := solve_quick; intros; try (apply quick_real; solve_real).
Ltac quick_step := apply wp_quick; [unfold elapsed_since, read_number; real_quick|intros ? ? _].

Section ends.
Context {W : Type} `{Clock W} (expired_output : exn → string) (fuel : nat).
Context (o : options) (probe root : string) (use_sudo : bool).
Context (timeout_ends : ends_within (f_div_raw (f_of_Z (enumeration_timeout_ms o)) (f_of_Z 1000)) fuel).
Abbreviation ends m x := (wp m (λ _ _, True) fine x).

Lemma ends_seq {T A B} (m : M (T * world W) A) (k : A → M (T * world W) B) x :
  ends m x → (∀ a y, ends (k a) y) → ends (bind m k) x.
Proof. intros Hm Hk. apply wp_bind. eapply wp_conseq; [exact Hm| |done]. intros a y _. apply Hk. Qed.
Lemma ends_for_each {T A} (l : list A) (f : A → M (T * world W) unit) x :
  (∀ a y, ends (f a) y) → ends (for_each l f) x.
Proof.
  intros Hf. revert x. induction l as [|a l IH]; intros x; simpl; [by apply wp_ret|]. apply ends_seq; [apply Hf|]. intros [] y. apply IH.
Qed.

Lemma query_quick {T} serial t : quick (query_device (T := T) probe serial t).
Proof. unfold query_device. solve_quick. Qed.
Lemma await_device_ends {T} n serial d found (x : T * world W) :
  deadline d → (time_left d (w_os x.2) < n)%nat → ends (await_device n probe serial d found) x.
Proof.
  revert found x. induction n as [|n IH]; intros found x Hd Hn; [lia|]. simpl.
  apply (wp_now_fine d); [done|]. intros now x1 H1 Hdue.
  destruct (f_lt now d) eqn:Hlt; [|by apply wp_ret].
  assert (1 <= time_left d (w_os x.2))%nat as Hleft.
  { destruct (time_left d (w_os x.2)); [|lia]. destruct Hdue as [_ Hdue]; [done|]. f_order. }
  apply wp_quick; [apply query_quick|]. intros found' x2 H2. destruct (truthy _); [by apply wp_ret|].
  apply wp_sleep_fine; [by vm_compute|]. intros x3 H3. specialize (H1 d). specialize (H2 d). specialize (H3 d).
  apply IH; [done|lia].
Qed.
Lemma usb_quick {T} b port : quick (do_usb_reset (T := T) b port).
Proof.
  unfold do_usb_reset, usb_device_from_physical_port, elapsed_since, read_number, _usb_device_from_physical_port.
  assert (∀ cs, quick (first_usb_device (T := T) cs)) as Hfirst by (induction cs as [|c cs IH]; simpl; solve_quick; done).
  real_quick. apply Hfirst.
Qed.
Lemma full_reset_ends {T} serial device settle (x : T * world W) :
  ends (full_reset fuel probe serial device use_sudo (reset_timeout_ms o) (enumeration_timeout_ms o) settle) x.
Proof.
  unfold full_reset, do_hardware_reset. quick_step. quick_step. quick_step. apply wp_quick; [apply usb_quick|]. intros usb y _.
  apply ends_seq.
  - unfold Calibration.await_enumeration. eapply wp_start_fine; [exact timeout_ends|]. intros now z _ Hd Hn. cbv zeta.
    apply ends_seq; [by apply await_device_ends|]. intros found z'. quick_step. by apply wp_ret.
  - intros en z. cbv zeta. quick_step. quick_step. by apply wp_ret.
Qed.
Lemma run_trial_quick r s : quick (run_trial expired_output o probe r s).
Proof.
  unfold run_trial, run_probe, elapsed_since. real_quick.
Qed.
Lemma execute_trial_ends st s settle candidate trial x :
  ends (execute_trial expired_output fuel o probe root use_sudo st s settle candidate trial) x.
Proof.
  unfold execute_trial, reset_trial. cbv zeta. quick_step. apply ends_seq.
  - quick_step. apply ends_seq; [apply full_reset_ends|]. intros r y. apply wp_quick_last. solve_quick.
  - intros r y. apply wp_quick; [apply run_trial_quick|]. intros run z _. apply wp_quick_last. unfold write_results.
    real_quick.
Qed.
Lemma execute_stage_ends st cs s settle n x :
  ends (execute_stage expired_output fuel o probe root use_sudo st cs s settle n) x.
Proof.
  unfold execute_stage. apply ends_seq.
  - apply ends_for_each. intros c y. apply ends_for_each. intros t z. apply execute_trial_ends.
  - intros [] y. apply wp_quick_last. real_quick.
Qed.
End ends.

(** A calibration ends.  On a machine whose clock advances, with fuel for the
    sleeps that fit into the enumeration timeout, a calibration never waits for
    a camera for ever: it returns a recommendation or raises a Python
    exception. *)
Theorem calibration_ends {W} `{Clock W} expired_output fuel o probe root use_sudo c (x : calibration * world W) :
  ends_within (f_div_raw (f_of_Z (enumeration_timeout_ms o)) (f_of_Z 1000)) fuel →
  in_fuel (calibrate expired_output fuel o probe root use_sudo c x).
Proof.
  intros Ht. eapply in_fuel_wp. unfold calibrate. cbv zeta.
  do 4 (apply ends_seq; [by apply execute_stage_ends|]; intros ? ?).
  do 2 (apply wp_quick; [real_quick|]; intros ? ? _).
  apply ends_seq; [by apply execute_stage_ends|]. intros ? ?. apply wp_quick_last. real_quick.
Qed.

(** ** Applications *)

(** A camera whose first frame comes 400 ms after a start, and whose join takes
    3 ms. *)
Definition line (prefix : string) (d : pydict) : string := prefix +:+ json_dumps (VDict d) +:+ nl.
Definition demo_cycle : pydict :=
  [("success", VBool true); ("first_frame_wait_ms", VFloat (f_of_Z 400)); ("join_wait_ms", VFloat (f_of_Z 3))].
Definition demo_output (cmd : list string) : string :=
  if bool_decide ("--list-only" ∈ cmd) then line "RS_DEVICE " [("physical_port", VStr "/sys/bus/usb/devices/2-1:1.0")]
  else if bool_decide ("--hardware-reset" ∈ cmd) then STATE_COMPLETE
  else if bool_decide ("chrt" ∈ cmd) then
    line "RS_STARTUP_CYCLE " demo_cycle +:+ line "RS_STARTUP_RESULT " [("success", VBool true); ("completed_cycles", VInt 1)]
  else "".
#[local] Instance demo_commands : Commands := λ cmd _ m, (Ok (Completed 0 (demo_output cmd) ""), m).
Definition demo_options : options := {|
  serial := "123"; build_dir := "/build"; results_dir := "/results"; frames := 10; cycles_per_trial := 1; trials := 2;
  validation_trials := 3; safety_factor := f_dec 15 (-1); settle_candidates_ms := [100; 0];
  frame_timeout_candidates_ms := [750; 500; 1000]; join_timeout_candidates_ms := [25; 5; 10];
  cycle_delay_candidates_ms := [10; 0]; Calibration.reset_timeout_ms := 5000; enumeration_timeout_ms := 1200;
  skip_build := true; no_sudo := false |}.
Definition demo_candidates : candidates :=
  match check_options demo_options with
  | Ok c => c
  | Raise _ => {| settle_candidates := []; frame_candidates := []; join_candidates := []; cycle_candidates := [] |}
  end.
Definition demo_machine : machine := {|
  m_files := [("/sys/bus/usb/devices/2-1/busnum", "2" +:+ nl); ("/sys/bus/usb/devices/2-1/devnum", "5" +:+ nl);
              ("/build/d435_sensor_probe", "")];
  m_json := []; m_dirs := []; m_globs := [];
  m_links := [("/sys/bus/usb/devices/2-1:1.0", "/sys/bus/usb/devices/2-1")];
  m_clock := f_of_Z 1; m_boottime := 0; m_euid := 0; m_affinity := ∅ |}.
Definition demo_start : calibration * world machine :=
  ({| device := VDict [("physical_port", VStr "/sys/bus/usb/devices/2-1:1.0")]; result_rows := []; cycle_rows := [];
      reset_records := [] |}, World demo_machine []).
Abbreviation demo_run := (calibrate (λ _, "") 2 demo_options "/build/d435_sensor_probe" "/r" false demo_candidates demo_start).

(** 400 ms with half as much again are 600 ms, and 3 ms, with half as much again
    and the polling interval, 10 ms: the candidates that cover them. *)
Definition chosen_values (r : outcome (recommendation * list summary)) : option (bool * list (option Z)) :=
  match r with
  | Ok (r, _) => Some (validated r, [selected_settle r; selected_frame r; selected_join r; selected_cycle r])
  | Raise _ => None
  end.
Example demo_selection : chosen_values demo_run.1 = Some (true, [Some 0; Some 750; Some 10; Some 0]).
Proof. vm_compute. reflexivity. Qed.
Example demo_main :
  raised (main (λ _, "") 2 "/repo" "now" demo_options demo_start) = None ∧
  raised (main (λ _, "") 2 "/repo" "now" demo_options (demo_start.1, World (set_files [] demo_machine) [])) = Some SystemExit.
Proof. vm_compute. done. Qed.

Lemma recommended_timeouts_cover_witness :
  ∃ r all y, demo_run = (Ok (r, all), y) ∧ selected_frame r = Some 750 ∧
    ∃ required, f_ceil (f_mul (first_frame_wait_max r) (safety_factor demo_options)) = Ok required ∧ required <= 750.
Proof.
  assert (option_map (λ v, v.2 !! 1%nat) (chosen_values demo_run.1) = Some (Some (Some 750))) as Hs by (vm_compute; reflexivity).
  destruct demo_run as [[[r all]|e] y] eqn:E; [|done]. injection Hs as Hs. exists r, all, y. split; [done|]. split; [done|].
  destruct (recommended_timeouts_cover _ _ _ _ _ _ _ demo_start y r all eq_refl E) as (_ & _ & Hf & _). by apply Hf.
Defined.
Lemma validated_settings_were_run_witness :
  ∃ r all y, demo_run = (Ok (r, all), y) ∧ validated r = true ∧
    Z.of_nat (length (filter (λ r, stage r = STAGE_VALIDATION) (result_rows y.1))) = 3.
Proof.
  assert (option_map fst (chosen_values demo_run.1) = Some true) as Hv by (vm_compute; reflexivity).
  destruct demo_run as [[[r all]|e] y] eqn:E; [|done]. injection Hv as Hv. exists r, all, y. split; [done|]. split; [done|].
  destruct (validated_settings_were_run _ _ _ _ _ _ _ demo_start y r all eq_refl E Hv) as (_ & _ & _ & _ & Hn & _). exact Hn.
Defined.
Lemma calibration_ends_witness :
  let o := {| serial := "123"; build_dir := "/build"; results_dir := "/results"; frames := 10; cycles_per_trial := 1; trials := 1;
              validation_trials := 1; safety_factor := f_of_Z 2; settle_candidates_ms := [0];
              frame_timeout_candidates_ms := [500]; join_timeout_candidates_ms := [5]; cycle_delay_candidates_ms := [0];
              Calibration.reset_timeout_ms := 5000; enumeration_timeout_ms := 10000; skip_build := true; no_sudo := false |} in
  in_fuel (@calibrate bool tick_os (λ _, "") 2 o "/probe" "/r" false demo_candidates (demo_start.1, World true [])).
Proof.
  intros o. apply (@calibration_ends bool tick_os tick_clock). intros [] now [= <-]; (split; [|simpl; lia]).
  - change (f_add (f_of_Z 0) (f_div_raw (f_of_Z 10000) (f_of_Z 1000)) ∈ tick_deadlines). apply (bool_decide_unpack _); vm_compute; done.
  - change (f_add f_largest (f_div_raw (f_of_Z 10000) (f_of_Z 1000)) ∈ tick_deadlines). apply (bool_decide_unpack _); vm_compute; done.
Defined.
