(* ===== verification/StartupModel.v ===== *)
(** * The startup timing model ([build_startup_model.py])

    From the thread traces of repeated startups to one timing model: the work
    bursts of a thread, the stable period they settle into, the thread shape
    that most runs share, and what the roles of that shape have in common.  The
    figures and the Markdown report are left out.  Times are read by [float] from
    decimal text. *)
From Stdlib Require Import Ascii ZArith Lia Floats.SpecFloat.
From S2P Require Import Prelude PyStr PyFloat PyVal FloatOrder Effects Machine.
From S2P Require Import Attempts SteadyAttempts SchedTrace DeadlineProfile Noise.
From stdpp Require Import base gmap strings list.
Local Open Scope Z_scope.
Local Open Scope py_scope.
Local Open Scope M_scope.

(** ** Data *)

Record PeriodicResult := {
  start_ms : f64;
  period_ms : f64;
  match_ratio : f64;
  jitter_ratio : f64;
  releases : Z;
}.
Record ThreadSample := {
  ts_run_id : string;
  ts_attempt_dir : string;
  ts_role : string;
  ts_rank : Z;
  ts_tid : pyval;
  ts_name : string;
  ts_creation_phase : string;
  ts_created_ms : option f64;
  ts_started_ms : option f64;
  ts_first_run_ms : option f64;
  ts_first_sleep_ms : option f64;
  ts_exited_ms : option f64;
  ts_joined_ms : option f64;
  ts_status : pyval;
  ts_intervals : list pydict;
  ts_periodic : option PeriodicResult;
  ts_execution_to_cutoff_ms : option f64;
  ts_sleep_to_cutoff_ms : option f64;
  ts_ready_to_cutoff_ms : option f64;
}.
(** The shape of a run: the names and creation phases of its threads. *)
Record RunSample := {
  rs_run_id : string;
  rs_attempt_dir : string;
  rs_summary : pyval;
  rs_phases : list (string * f64);
  rs_threads : list ThreadSample;
  rs_signature : list string;
  rs_cutoff_ms : option f64;
}.

(** ** Cells of the tables *)

Definition float_item (row : pydict) (k : string) : outcome f64 := v ← subscript row k; py_float v.
Definition optional_float (value : pyval) : outcome (option f64) :=
  match value with
  | VNone => Ok None
  | VStr "" => Ok None
  | _ => x ← py_float value; Ok (Some x)
  end.
Definition optional_item (row : pydict) (k : string) : outcome (option f64) :=
  v ← subscript row k; optional_float v.

(** ** Statistics *)

Definition finite_values (values : list (option f64)) : list f64 :=
  filter (λ x, is_finite x = true) (omap id values).
Definition f_nth (l : list f64) (i : Z) : f64 := nth (Z.to_nat i) l f_zero.
Definition percentile (values : list (option f64)) (fraction : f64) : outcome (option f64) :=
  let ordered := f_sorted (finite_values values) in
  match ordered with
  | [] => Ok None
  | [x] => Ok (Some x)
  | _ =>
      let position := f_mul (f_of_Z (Z.of_nat (length ordered) - 1)) fraction in
      lower ← f_floor position;
      upper ← f_ceil position;
      if bool_decide (lower = upper) then Ok (Some (f_nth ordered lower)) else
      let weight := f_sub position (f_of_Z lower) in
      Ok (Some (f_add (f_mul (f_nth ordered lower) (f_sub (f_of_Z 1) weight))
                      (f_mul (f_nth ordered upper) weight)))
  end.
(** [statistics.median] of a non-empty list. *)
Definition f_median (l : list f64) : f64 :=
  let sorted := f_sorted l in
  let n := Z.of_nat (length l) in
  if bool_decide (n mod 2 = 1) then f_nth sorted (n / 2)
  else f_div_raw (f_add (f_nth sorted (n / 2 - 1)) (f_nth sorted (n / 2))) (f_of_Z 2).

(** ** Phases *)

Definition phase_step (phases : list (string * f64)) (row : pydict) : outcome (list (string * f64)) :=
  source ← subscript row "source";
  if negb (py_eq source (VStr "pthread")) then Ok phases else
  event ← subscript row "event";
  if negb (py_eq event (VStr "phase_marker")) then Ok phases else
  timestamp ← float_item row "timestamp_ms";
  detail ← subscript row "detail";
  Ok (dset (str_val detail) timestamp phases).
Definition phase_times {W} `{OS W} {T} (events_path : string) : M (T * world W) (list (string * f64)) :=
  rows <- sys (ReadCsv events_path) ;;
  lift (fold_outcome phase_step [] (map csv_row rows)).

Definition marker (cycle : Z) (name : string) : string := "cycle_" +:+ pad_Z 2 cycle +:+ "_" +:+ name.
Definition markers (cycle : Z) : list (string * string) := [
  (marker cycle "begin", "process_setup");
  (marker cycle "after_context", "context");
  (marker cycle "before_pipeline_construction", "device_discovery");
  (marker cycle "before_pipeline_start", "pipeline_construction");
  (marker cycle "after_pipeline_start", "pipeline_start");
  (marker cycle "frames_complete", "streaming");
  (marker cycle "end", "teardown")].
Fixpoint phase_of (created : f64) (phases : list (string * f64)) (previous : string)
    (markers : list (string * string)) : string :=
  match markers with
  | [] => previous
  | (name, following) :: markers =>
      match dget name phases with
      | None => phase_of created phases previous markers
      | Some timestamp =>
          if f_lt created timestamp then previous else phase_of created phases following markers
      end
  end.
Definition creation_phase (created_ms : option f64) (phases : list (string * f64)) (cycle : Z) : string :=
  match created_ms with
  | None => "unknown"
  | Some created => phase_of created phases "process_setup" (markers cycle)
  end.

(** ** Work bursts *)

(** The part of a running interval inside the window. *)
Definition running_slice (window_start_ms window_end_ms : f64) (row : pydict) : outcome (list (f64 * f64)) :=
  state ← subscript row "state";
  if negb (py_eq state (VStr "running")) then Ok [] else
  end_ms ← float_item row "end_ms";
  if negb (f_le window_start_ms end_ms) then Ok [] else
  start ← float_item row "start_ms";
  if negb (f_le start window_end_ms) then Ok [] else
  Ok [(f_max start window_start_ms, f_min end_ms window_end_ms)].
(** [<] on pairs of floats. *)
Definition pair_lt (p q : f64 * f64) : bool := if f_eq p.1 q.1 then f_lt p.2 q.2 else f_lt p.1 q.1.
Definition running_slices (intervals : list pydict) (window_start_ms window_end_ms : f64) :
    outcome (list (f64 * f64)) :=
  slices ← traverse (running_slice window_start_ms window_end_ms) intervals;
  Ok (sort_by pair_lt (concat slices)).
(** One pass of the loop; the bursts, the last one first. *)
Definition burst_step (merge_gap_ms : f64) (bursts : list (f64 * f64)) (slice : f64 * f64) : list (f64 * f64) :=
  if f_lt slice.2 slice.1 then bursts else
  match bursts with
  | [] => [slice]
  | last :: before =>
      if f_lt merge_gap_ms (f_sub slice.1 last.2) then slice :: bursts
      else (last.1, f_max last.2 slice.2) :: before
  end.
Definition merge_bursts (merge_gap_ms : f64) (running : list (f64 * f64)) : list (f64 * f64) :=
  rev (foldl (burst_step merge_gap_ms) [] running).
Definition merge_running_bursts (intervals : list pydict) (window_start_ms window_end_ms merge_gap_ms : f64) :
    outcome (list (f64 * f64)) :=
  running ← running_slices intervals window_start_ms window_end_ms;
  Ok (merge_bursts merge_gap_ms running).

(** ** Periods *)

Record period_options := {
  merge_gap_ms : f64;
  min_period_ms : f64;
  max_period_ms : f64;
  min_periods : Z;
  tolerance : f64;
  required_match_ratio : f64;
  required_direct_ratio : f64;
  max_multiple : Z;
}.
(** The defaults of [detect_stable_period]. *)
Definition default_options (min_periods : Z) : period_options := {|
  merge_gap_ms := f_of_Z 2; min_period_ms := f_of_Z 5; max_period_ms := f_of_Z 250; min_periods := min_periods;
  tolerance := f_dec 18 (-2); required_match_ratio := f_dec 9 (-1); required_direct_ratio := f_dec 6 (-1);
  max_multiple := 8 |}.
(** The best period so far: [(candidate, match_ratio, direct_ratio, jitter)]. *)
Record fit := { fit_period : f64; fit_match : f64; fit_direct : f64; fit_jitter : f64 }.
Definition score (b : fit) : list f64 := [fit_match b; fit_direct b; SFopp (fit_jitter b); fit_period b].
(** [<] on tuples of floats. *)
Fixpoint tuple_lt (l k : list f64) : bool :=
  match l, k with
  | x :: l, y :: k => if f_eq x y then tuple_lt l k else f_lt x y
  | [], _ :: _ => true
  | _, _ => false
  end.

Section period.
Context (o : period_options).
Definition candidates_of (gap : f64) : list f64 :=
  filter (λ p, f_le (min_period_ms o) p && f_le p (max_period_ms o) = true)
    (map (λ m, f_div_raw gap (f_of_Z m)) (seqZ 1 (max_multiple o))).
Definition candidates (gaps : list f64) : list f64 := gaps ≫= candidates_of.
(** How far a gap is from a multiple of the candidate; [None] when the multiple
    is too large. *)
Definition residual (candidate gap : f64) : outcome (option f64) :=
  ratio ← f_div gap candidate;
  multiple ← (n ← f_round ratio; Ok (Z.max 1 n));
  if bool_decide (max_multiple o < multiple) then Ok None else
  r ← f_div (SFabs (f_sub gap (f_mul (f_of_Z multiple) candidate))) candidate;
  Ok (Some r).
Definition direct_match (candidate gap : f64) : outcome bool :=
  r ← f_div (SFabs (f_sub gap candidate)) candidate; Ok (f_le r (tolerance o)).
Definition count_true (l : list bool) : Z := Z.of_nat (length (filter (λ b, b = true) l)).
Definition matches (residuals : list (option f64)) : Z :=
  count_true (map (λ r, match r with Some r => f_le r (tolerance o) | None => false end) residuals).
(** The fit of one candidate. *)
Definition candidate_fit (gaps : list f64) (candidate : f64) : outcome fit :=
  residuals ← traverse (residual candidate) gaps;
  direct ← traverse (direct_match candidate) gaps;
  let n := Z.of_nat (length gaps) in
  let finite := finite_values residuals in
  Ok {| fit_period := candidate; fit_match := Z_truediv (matches residuals) n;
        fit_direct := Z_truediv (count_true direct) n;
        fit_jitter := if bool_decide (finite = []) then S754_infinity false else f_median finite |}.
Definition better (best : option fit) (b : fit) : option fit :=
  match best with
  | Some a => if tuple_lt (score a) (score b) then Some b else best
  | None => Some b
  end.
Definition _period_fit (gaps : list f64) : outcome (option fit) :=
  fold_outcome (λ best candidate, b ← candidate_fit gaps candidate; Ok (better best b)) None (candidates gaps).

Fixpoint f_gaps (l : list f64) : list f64 :=
  match l with
  | a :: (b :: _) as l' => f_sub b a :: f_gaps l'
  | _ => []
  end.
(** The conditions on a fit of the releases from the first of [starts] on. *)
Definition stable (starts : list f64) (window_end_ms : f64) (b : fit) : bool :=
  let first := hd f_zero starts in
  let last := List.last starts f_zero in
  negb (f_lt (fit_match b) (required_match_ratio o)) &&
  negb (f_lt (fit_direct b) (required_direct_ratio o)) &&
  negb (f_lt (f_sub last first) (f_mul (f_of_Z (min_periods o)) (fit_period b))) &&
  negb (f_lt (f_mul (f_mul (f_of_Z (max_multiple o)) (fit_period b)) (f_dec 12 (-1))) (f_sub window_end_ms last)).
(** One pass of the loop: the releases from an index on. *)
Definition stable_from (window_end_ms : f64) (starts : list f64) : outcome (option PeriodicResult) :=
  let gaps := f_gaps starts in
  if bool_decide (Z.of_nat (length gaps) < min_periods o) then Ok None else
  best ← _period_fit gaps;
  Ok (match best with
      | Some b =>
          if stable starts window_end_ms b
          then Some {| start_ms := hd f_zero starts; period_ms := fit_period b; match_ratio := fit_match b;
                       jitter_ratio := fit_jitter b; releases := Z.of_nat (length starts) |}
          else None
      | None => None
      end).
(** The first index at which the releases are stable. *)
Fixpoint first_stable (n : nat) (window_end_ms : f64) (starts : list f64) : outcome (option PeriodicResult) :=
  match n with
  | O => Ok None
  | S n =>
      found ← stable_from window_end_ms starts;
      match found with
      | Some r => Ok (Some r)
      | None => first_stable n window_end_ms (tail starts)
      end
  end.
Definition detect_stable_period (intervals : list pydict) (window_start_ms window_end_ms : f64) :
    outcome (option PeriodicResult) :=
  bursts ← merge_running_bursts intervals window_start_ms window_end_ms (merge_gap_ms o);
  let starts := bursts.*1 in
  if bool_decide (Z.of_nat (length starts) < min_periods o + 1) then Ok None else
  first_stable (Z.to_nat (Z.of_nat (length starts) - min_periods o)) window_end_ms starts.
End period.

(** ** Runs *)

Definition parent_of (p : string) : string := default p (head (path_parents p)).
(** [path.parts] of an absolute path. *)
Definition parts_of (p : string) : list string := "/" :: path_parts p.
(** The order of paths: by their parts. *)
Fixpoint parts_lt (l k : list string) : bool :=
  match l, k with
  | x :: l, y :: k => if bool_decide (x = y) then parts_lt l k else String.ltb x y
  | [], _ :: _ => true
  | _, _ => false
  end.
Definition path_lt (p q : string) : bool := parts_lt (parts_of p) (parts_of q).

(** [str(attempt_dir.relative_to(attempt_dir.parents[4]))]. *)
Definition run_id_of (attempt_dir : string) : outcome string :=
  let parts := path_parts attempt_dir in
  if bool_decide (length parts < 5)%nat then raise IndexError "4"
  else Ok (py_join "/" (drop (length parts - 5) parts)).

Definition group_interval (by_tid : list (string * list pydict)) (row : pydict) : outcome (list (string * list pydict)) :=
  tid ← subscript row "tid";
  let key := str_val tid in
  Ok (dset key (default [] (dget key by_tid) ++ [row]) by_tid).
Definition is_main (row : pydict) : outcome bool :=
  tid ← subscript row "tid"; tgid ← subscript row "tgid"; Ok (py_eq tid tgid).
(** The threads of the cycle, and the main thread of the process. *)
Definition timing_row (cycle : Z) (row : pydict) : outcome (list pydict) :=
  c ← subscript row "cycle";
  if py_eq c (VStr (str_Z cycle)) then Ok [row] else
  if negb (py_eq c (VStr "0")) then Ok [] else
  main ← is_main row;
  Ok (if (main : bool) then [row] else []).
(** The key of [timing_rows.sort]. *)
Definition timing_key (row : pydict) : outcome ((Z * f64 * Z) * pydict) :=
  main ← is_main row;
  created ← optional_item row "created_ms";
  v ← subscript row "tid";
  tid ← py_int v;
  Ok ((if (main : bool) then 0 else 1, default f_zero created, tid), row).
Definition timing_lt (p q : (Z * f64 * Z) * pydict) : bool :=
  let '((a, x, t), _) := p in let '((b, y, u), _) := q in
  if bool_decide (a = b) then (if f_eq x y then bool_decide (t < u) else f_lt x y) else bool_decide (a < b).
Definition interval_key (row : pydict) : outcome (f64 * pydict) := x ← float_item row "start_ms"; Ok (x, row).
Definition sorted_intervals (rows : list pydict) : outcome (list pydict) :=
  keyed ← traverse interval_key rows;
  Ok ((sort_by (λ p q, f_lt p.1 q.1) keyed).*2).

Definition role_name (main : bool) (rank : Z) : string := if (main : bool) then "T00-main" else "T" +:+ pad_Z 2 rank.
Definition thread_phase (main : bool) (created : option f64) (phases : list (string * f64)) (cycle : Z) : string :=
  if (main : bool) then "process" else creation_phase created phases cycle.
Definition thread_sample (o : period_options) (run_id attempt_dir : string) (cycle : Z)
    (phases : list (string * f64)) (by_tid : list (string * list pydict)) (stream_start stream_end : f64)
    (ranked : Z * pydict) : outcome ThreadSample :=
  let '(rank, row) := ranked in
  main ← is_main row;
  tid ← subscript row "tid";
  intervals ← sorted_intervals (default [] (dget (str_val tid) by_tid));
  name ← subscript row "name";
  created ← optional_item row "created_ms";
  started ← optional_item row "started_ms";
  first_run ← optional_item row "first_run_ms";
  first_sleep ← optional_item row "first_sleep_ms";
  exited ← optional_item row "exited_ms";
  joined ← optional_item row "joined_ms";
  status ← subscript row "status";
  periodic ← detect_stable_period o intervals stream_start stream_end;
  Ok {| ts_run_id := run_id; ts_attempt_dir := attempt_dir; ts_role := role_name main rank; ts_rank := rank;
        ts_tid := tid; ts_name := str_val (val_or name (VStr "unnamed"));
        ts_creation_phase := thread_phase main created phases cycle; ts_created_ms := created;
        ts_started_ms := started; ts_first_run_ms := first_run; ts_first_sleep_ms := first_sleep;
        ts_exited_ms := exited; ts_joined_ms := joined; ts_status := status; ts_intervals := intervals;
        ts_periodic := periodic; ts_execution_to_cutoff_ms := None; ts_sleep_to_cutoff_ms := None;
        ts_ready_to_cutoff_ms := None |}.
Definition enumerate {A} (l : list A) : list (Z * A) := zip (seqZ 0 (Z.of_nat (length l))) l.
Definition thread_shape (t : ThreadSample) : string := ts_name t +:+ "@" +:+ ts_creation_phase t.
Definition phase_marker (phases : list (string * f64)) (name : string) : outcome f64 :=
  match dget name phases with Some x => Ok x | None => key_error name end.

(** What is computed from the tables of a run. *)
Definition run_sample (o : period_options) (attempt_dir : string) (cycle : Z) (summary : pyval)
    (phases : list (string * f64)) (by_tid : list (string * list pydict)) (timing : list pydict) (run_id : string) :
    outcome RunSample :=
  selected ← traverse (timing_row cycle) timing;
  keyed ← traverse timing_key (concat selected);
  let timing_rows := (sort_by timing_lt keyed).*2 in
  stream_start ← phase_marker phases (marker cycle "after_pipeline_start");
  stream_end ← phase_marker phases (marker cycle "frames_complete");
  threads ← traverse (thread_sample o run_id attempt_dir cycle phases by_tid stream_start stream_end)
              (enumerate timing_rows);
  Ok {| rs_run_id := run_id; rs_attempt_dir := attempt_dir; rs_summary := summary; rs_phases := phases;
        rs_threads := threads; rs_signature := map thread_shape threads;
        rs_cutoff_ms := None |}.

Section read_run.
Context {W : Type} `{OS W} {T : Type}.
Abbreviation IO := (M (T * world W)).
(** The attempts that were selected and started up. *)
Definition selected_attempt_dir (policy_component timing_path : string) : IO (list string) :=
  let candidate_dir := parent_of timing_path in
  if negb (bool_decide (policy_component ∈ parts_of candidate_dir)) then ret [] else
  let run_dir := if py_startswith "attempt-" (path_name candidate_dir) then parent_of candidate_dir
                 else candidate_dir in
  selected <- resolve_selected_attempt run_dir ;;
  resolved <- sys (Resolve candidate_dir) ;;
  if negb (bool_decide (data_dir selected = resolved)) then ret [] else
  let summary_path := candidate_dir // "summary.json" in
  found <- sys (PathExists summary_path) ;;
  if negb (found : bool) then ret [] else
  value <- sys (ReadJson summary_path) ;;
  summary <- lift (as_dict value) ;;
  startup_result <- lift (as_dict (dgetd "startup_result" (VDict []) summary)) ;;
  if negb (truthy (dgetd "success" (VBool false) startup_result)) then ret [] else
  if truthy (dgetd "process_error" (VBool false) summary) then ret [] else
  ret [candidate_dir].
Definition selected_attempt_dirs (campaign_dir policy : string) : IO (list string) :=
  timing_paths <- sys (Glob campaign_dir "**/thread_timing.csv") ;;
  attempts <- map_each timing_paths (selected_attempt_dir ("policy-" +:+ policy)) ;;
  ret (sort_by path_lt (concat attempts)).
Definition read_run (o : period_options) (cycle : Z) (attempt_dir : string) : IO RunSample :=
  summary <- sys (ReadJson (attempt_dir // "summary.json")) ;;
  phases <- phase_times (attempt_dir // "thread_events.csv") ;;
  run_id <- lift (run_id_of attempt_dir) ;;
  intervals <- _read_csv (attempt_dir // "thread_intervals.csv") ;;
  by_tid <- lift (fold_outcome group_interval [] intervals) ;;
  timing <- _read_csv (attempt_dir // "thread_timing.csv") ;;
  lift (run_sample o attempt_dir cycle summary phases by_tid timing run_id).
End read_run.

(** ** The model *)

(** The attempts of every run below the campaign that were recorded. *)
Definition history_of {W} `{OS W} {T} (policy_component attempts_path : string) :
    M (T * world W) (list (list pyval)) :=
  if negb (bool_decide (policy_component ∈ parts_of attempts_path)) then ret [] else
  values <- sys (ReadJson attempts_path) ;;
  ret (match values with VList (v :: l) => [v :: l] | _ => [] end).
Definition attempt_success (attempt : pyval) : outcome bool :=
  d ← as_dict attempt; Ok (truthy (dgetd "success" (VBool false) d)).
Fixpoint any_success (attempts : list pyval) : outcome bool :=
  match attempts with
  | [] => Ok false
  | a :: l => s ← attempt_success a; if (s : bool) then Ok true else any_success l
  end.
Definition count_false (l : list bool) : Z := Z.of_nat (length (filter (λ b, b = false) l)).
Definition initial_failure_runs (history : list (list pyval)) : outcome Z :=
  l ← traverse (λ attempts, attempt_success (hd VNone attempts)) history; Ok (count_false l).
Definition eventual_failure_runs (history : list (list pyval)) : outcome Z :=
  l ← traverse any_success history; Ok (count_false l).
Definition failed_attempts (history : list (list pyval)) : outcome Z :=
  l ← traverse attempt_success (concat history); Ok (count_false l).

(** [Counter(signatures).most_common(1)[0]]: the first of the most frequent. *)
Definition count_signature (signatures : list (list string)) (s : list string) : Z :=
  Z.of_nat (length (filter (λ s', s' = s) signatures)).
Definition more_common (signatures : list (list string)) (s best : list string) : bool :=
  bool_decide (count_signature signatures best < count_signature signatures s).
Definition modal_signature (signatures : list (list string)) : option (list string) :=
  match signatures with
  | [] => None
  | s :: l => Some (foldl (choose_by (more_common signatures)) s l)
  end.

Abbreviation roles := (list (string * list ThreadSample)).
Definition add_sample (samples_by_role : roles) (thread : ThreadSample) : roles :=
  dset (ts_role thread) (default [] (dget (ts_role thread) samples_by_role) ++ [thread]) samples_by_role.
Definition group_by_role (accepted : list RunSample) : roles :=
  foldl add_sample [] (accepted ≫= rs_threads).
Definition periodic_samples (samples : list ThreadSample) : list ThreadSample :=
  filter (λ t, is_Some (ts_periodic t)) samples.
Definition periodic_rate (samples : list ThreadSample) : f64 :=
  Z_truediv (Z.of_nat (length (periodic_samples samples))) (Z.of_nat (length samples)).
Definition first_rank (rs : string * list ThreadSample) : Z :=
  match rs.2 with t :: _ => ts_rank t | [] => 0 end.
Definition periodic_roles_of (samples_by_role : roles) (periodic_presence : f64) : list string :=
  (sort_on first_rank (filter (λ rs, f_le periodic_presence (periodic_rate rs.2) = true) samples_by_role)).*1.

Definition set_cutoff (c : f64) (run : RunSample) : RunSample := {|
  rs_run_id := rs_run_id run; rs_attempt_dir := rs_attempt_dir run; rs_summary := rs_summary run;
  rs_phases := rs_phases run; rs_threads := rs_threads run; rs_signature := rs_signature run;
  rs_cutoff_ms := Some c |}.
Definition periodic_by_role (run : RunSample) : list (string * option PeriodicResult) :=
  foldl (λ d t, dset (ts_role t) (ts_periodic t) d) [] (rs_threads run).
(** The run with its cutoff, when every periodic role has a period in it. *)
Definition complete_run (periodic_roles : list string) (run : RunSample) : option RunSample :=
  let found := periodic_by_role run in
  starts ← mapM (λ role, p ← mjoin (dget role found); Some (start_ms p)) periodic_roles;
  match starts with
  | [] => None
  | x :: l => Some (set_cutoff (f_list_max x l) run)
  end.

Definition interval_step (state : string) (cutoff_ms : f64) (total : f64) (row : pydict) : outcome f64 :=
  s ← subscript row "state";
  if negb (py_eq s (VStr state)) then Ok total else
  first ← float_item row "start_ms";
  last ← float_item row "end_ms";
  let start := f_max f_zero first in
  let stop := f_min cutoff_ms last in
  Ok (if f_lt start stop then f_add total (f_sub stop start) else total).
Definition interval_total (intervals : list pydict) (state : string) (cutoff_ms : f64) : outcome f64 :=
  fold_outcome (interval_step state cutoff_ms) f_zero intervals.
Definition set_totals (execution sleep ready : f64) (t : ThreadSample) : ThreadSample := {|
  ts_run_id := ts_run_id t; ts_attempt_dir := ts_attempt_dir t; ts_role := ts_role t; ts_rank := ts_rank t;
  ts_tid := ts_tid t; ts_name := ts_name t; ts_creation_phase := ts_creation_phase t;
  ts_created_ms := ts_created_ms t; ts_started_ms := ts_started_ms t; ts_first_run_ms := ts_first_run_ms t;
  ts_first_sleep_ms := ts_first_sleep_ms t; ts_exited_ms := ts_exited_ms t; ts_joined_ms := ts_joined_ms t;
  ts_status := ts_status t; ts_intervals := ts_intervals t; ts_periodic := ts_periodic t;
  ts_execution_to_cutoff_ms := Some execution; ts_sleep_to_cutoff_ms := Some sleep;
  ts_ready_to_cutoff_ms := Some ready |}.
Definition run_named (runs : list RunSample) (run_id : string) : option RunSample :=
  head (filter (λ run, rs_run_id run = run_id) runs).
Definition with_totals (complete_runs : list RunSample) (t : ThreadSample) : outcome ThreadSample :=
  match run_named complete_runs (ts_run_id t) ≫= rs_cutoff_ms with
  | None => Ok t
  | Some cutoff =>
      execution ← interval_total (ts_intervals t) "running" cutoff;
      sleep ← interval_total (ts_intervals t) "sleeping" cutoff;
      ready ← interval_total (ts_intervals t) "ready" cutoff;
      Ok (set_totals execution sleep ready t)
  end.

(** [min(complete_runs, key=lambda run: abs((run.cutoff_ms or 0.0) - cutoff_median))]. *)
Definition cutoff_distance (median : f64) (run : RunSample) : f64 :=
  let c := default f_zero (rs_cutoff_ms run) in SFabs (f_sub (if f_eq c f_zero then f_zero else c) median).
Definition nearer (median : f64) (run best : RunSample) : bool :=
  f_lt (cutoff_distance median run) (cutoff_distance median best).

Record startup_model := {
  sm_accepted : list RunSample;
  sm_excluded : list RunSample;
  sm_samples_by_role : roles;
  sm_periodic_roles : list string;
  sm_complete_runs : list RunSample;
  sm_modal_signature : list string;
  sm_representative : RunSample;
}.
Definition cutoff_values (m : startup_model) : list (option f64) := map rs_cutoff_ms (sm_complete_runs m).
Definition model_of (runs : list RunSample) (periodic_presence : f64) : outcome startup_model :=
  match modal_signature (map rs_signature runs) with
  | None => raise IndexError "list index out of range"
  | Some modal =>
      let accepted := filter (λ run, rs_signature run = modal) runs in
      let excluded := filter (λ run, rs_signature run ≠ modal) runs in
      let samples_by_role := group_by_role accepted in
      let periodic_roles := periodic_roles_of samples_by_role periodic_presence in
      if bool_decide (periodic_roles = []) then raise ValueError "No recurring periodic thread roles were detected" else
      let complete_runs := omap (complete_run periodic_roles) accepted in
      match complete_runs with
      | [] => raise ValueError "No run detected every recurring periodic role"
      | first :: rest =>
          samples ← traverse (λ rs, l ← traverse (with_totals complete_runs) rs.2; Ok (rs.1, l)) samples_by_role;
          median ← percentile (map rs_cutoff_ms complete_runs) (f_dec 5 (-1));
          match median with
          | None => raise AssertionError ""
          | Some median =>
              Ok {| sm_accepted := accepted; sm_excluded := excluded; sm_samples_by_role := samples;
                    sm_periodic_roles := periodic_roles; sm_complete_runs := complete_runs;
                    sm_modal_signature := modal;
                    sm_representative := foldl (choose_by (nearer median)) first rest |}
          end
      end
  end.

(** ** The rows and the metadata *)

Definition format_value (value : option f64) : pyval :=
  VStr (match value with Some x => format_fixed 6 x | None => "" end).
Definition opt_float (value : option f64) : pyval := match value with Some x => VFloat x | None => VNone end.
Definition period_field (f : PeriodicResult → f64) (t : ThreadSample) : option f64 := f <$> ts_periodic t.
Definition sample_row (t : ThreadSample) : pydict := [
  ("run_id", VStr (ts_run_id t)); ("role", VStr (ts_role t)); ("tid", ts_tid t); ("name", VStr (ts_name t));
  ("creation_phase", VStr (ts_creation_phase t)); ("created_ms", format_value (ts_created_ms t));
  ("started_ms", format_value (ts_started_ms t)); ("first_run_ms", format_value (ts_first_run_ms t));
  ("first_sleep_ms", format_value (ts_first_sleep_ms t));
  ("stable_period_start_ms", format_value (period_field start_ms t));
  ("period_ms", format_value (period_field period_ms t));
  ("period_match_ratio", format_value (period_field match_ratio t));
  ("period_jitter_ratio", format_value (period_field jitter_ratio t));
  ("exited_ms", format_value (ts_exited_ms t)); ("joined_ms", format_value (ts_joined_ms t));
  ("execution_to_cutoff_ms", format_value (ts_execution_to_cutoff_ms t));
  ("sleep_to_cutoff_ms", format_value (ts_sleep_to_cutoff_ms t));
  ("ready_to_cutoff_ms", format_value (ts_ready_to_cutoff_ms t)); ("status", ts_status t)].
(** The roles in the order of their ranks. *)
Definition ranked_roles (m : startup_model) : roles := sort_on first_rank (sm_samples_by_role m).
Definition sample_rows (m : startup_model) : list pydict := ranked_roles m ≫= λ rs, map sample_row rs.2.

(** The thread had exited when the pipeline was running. *)
Definition exited_early (accepted : list RunSample) (cycle : Z) (t : ThreadSample) : outcome bool :=
  match ts_exited_ms t with
  | None => Ok false
  | Some exited =>
      match run_named accepted (ts_run_id t) with
      | None => raise StopIteration ""
      | Some run => stream_start ← phase_marker (rs_phases run) (marker cycle "after_pipeline_start");
                    Ok (f_le exited stream_start)
      end
  end.
Definition classification (m : startup_model) (cycle : Z) (role : string) (samples : list ThreadSample) : outcome string :=
  if bool_decide (role ∈ sm_periodic_roles m) then Ok "periodic" else
  early ← traverse (exited_early (sm_accepted m) cycle) samples;
  Ok (if f_le_Z (Z_truediv (Z.of_nat (length samples)) 2) (count_true early)
      then "transient" else "event-driven/non-periodic").
Definition three_percentiles (prefix : string) (values : list (option f64)) : outcome pydict :=
  low ← percentile values (f_dec 5 (-2));
  median ← percentile values (f_dec 5 (-1));
  high ← percentile values (f_dec 95 (-2));
  Ok [(prefix +:+ "_p05_ms", opt_float low); (prefix +:+ "_p50_ms", opt_float median);
      (prefix +:+ "_p95_ms", opt_float high)].
Definition one_percentile (prefix : string) (values : list (option f64)) : outcome pydict :=
  median ← percentile values (f_dec 5 (-1)); Ok [(prefix +:+ "_p50_ms", opt_float median)].
Definition sample_in (runs : list RunSample) (t : ThreadSample) : bool :=
  bool_decide (ts_run_id t ∈ map rs_run_id runs).
Definition model_row (m : startup_model) (cycle : Z) (rs : string * list ThreadSample) : outcome pydict :=
  let '(role, samples) := rs in
  let complete_samples := filter (λ t, sample_in (sm_complete_runs m) t = true) samples in
  let when_periodic values := if bool_decide (role ∈ sm_periodic_roles m) then values else [] in
  class ← classification m cycle role samples;
  created ← three_percentiles "created" (map ts_created_ms samples);
  started ← three_percentiles "started" (map ts_started_ms samples);
  first_run ← three_percentiles "first_run" (map ts_first_run_ms samples);
  first_sleep ← three_percentiles "first_sleep" (map ts_first_sleep_ms samples);
  stable_start ← three_percentiles "stable_period_start" (when_periodic (map (period_field start_ms) samples));
  period ← three_percentiles "period" (when_periodic (map (period_field period_ms) samples));
  exited ← three_percentiles "exited" (map ts_exited_ms samples);
  execution ← one_percentile "execution_to_cutoff" (map ts_execution_to_cutoff_ms complete_samples);
  sleep ← one_percentile "sleep_to_cutoff" (map ts_sleep_to_cutoff_ms complete_samples);
  ready ← one_percentile "ready_to_cutoff" (map ts_ready_to_cutoff_ms complete_samples);
  Ok ([("role", VStr role); ("name", VStr (default "" (ts_name <$> head samples)));
       ("creation_phase", VStr (default "" (ts_creation_phase <$> head samples)));
       ("observed_runs", VInt (Z.of_nat (length samples))); ("accepted_runs", VInt (Z.of_nat (length (sm_accepted m))));
       ("classification", VStr class); ("periodic_detection_rate", VFloat (periodic_rate samples))]
      ++ created ++ started ++ first_run ++ first_sleep ++ stable_start ++ period ++ exited
      ++ execution ++ sleep ++ ready).
Definition model_rows (m : startup_model) (cycle : Z) : outcome (list pydict) :=
  traverse (model_row m cycle) (ranked_roles m).

(** The attempts recorded for every run, and the model of those that started up. *)
Section build.
Context {W : Type} `{OS W} {T : Type}.
Definition startup_analysis (campaign_dir policy : string) (cycle min_periods : Z) (periodic_presence : f64) :
    M (T * world W) (list (list pyval) * startup_model) :=
  attempt_dirs <- selected_attempt_dirs campaign_dir policy ;;
  if bool_decide (attempt_dirs = [])
  then throw ValueError ("No successful selected attempts found below " +:+ campaign_dir) else
  paths <- sys (Glob campaign_dir "**/attempts.json") ;;
  history <- map_each paths (history_of ("policy-" +:+ policy)) ;;
  lift (_ ← initial_failure_runs (concat history); _ ← eventual_failure_runs (concat history);
        _ ← failed_attempts (concat history); Ok ()) ;;
  runs <- map_each attempt_dirs (read_run (default_options min_periods) cycle) ;;
  m <- lift (model_of runs periodic_presence) ;;
  ret (concat history, m).
End build.

Definition model_metadata (campaign_dir policy : string) (cycle min_periods : Z) (periodic_presence : f64)
    (history : list (list pyval)) (runs : Z) (m : startup_model) : outcome pydict :=
  initial ← initial_failure_runs history;
  eventual ← eventual_failure_runs history;
  failed ← failed_attempts history;
  let recorded := Z.of_nat (length history) in
  low ← percentile (cutoff_values m) (f_dec 5 (-2));
  median ← percentile (cutoff_values m) (f_dec 5 (-1));
  high ← percentile (cutoff_values m) (f_dec 95 (-2));
  summary ← as_dict (rs_summary (sm_representative m));
  Ok [("schema_version", VInt 1); ("campaign_dir", VStr campaign_dir); ("policy", VStr policy); ("cycle", VInt cycle);
      ("logical_runs_recorded", VInt recorded); ("initial_failure_runs", VInt initial);
      ("initial_failure_rate", VFloat (Z_truediv initial (Z.max recorded 1)));
      ("eventual_failure_runs", VInt eventual); ("failed_attempts_preserved", VInt failed);
      ("successful_selected_attempts", VInt runs); ("modal_shape_runs", VInt (Z.of_nat (length (sm_accepted m))));
      ("periodic_complete_runs", VInt (Z.of_nat (length (sm_complete_runs m))));
      ("excluded_non_modal_runs", VList (map (λ run, VStr (rs_run_id run)) (sm_excluded m)));
      ("thread_roles", VInt (Z.of_nat (length (sm_modal_signature m))));
      ("periodic_roles", VList (map VStr (sm_periodic_roles m)));
      ("periodic_presence_threshold", VFloat periodic_presence); ("stable_period_min_gaps", VInt min_periods);
      ("cutoff_p05_ms", opt_float low); ("cutoff_p50_ms", opt_float median); ("cutoff_p95_ms", opt_float high);
      ("cutoff_max_ms", opt_float (match omap rs_cutoff_ms (sm_complete_runs m) with
                                   | x :: l => Some (f_list_max x l) | [] => None end));
      ("representative_run", VStr (rs_run_id (sm_representative m)));
      ("representative_cutoff_ms", opt_float (rs_cutoff_ms (sm_representative m)));
      ("device", dgetd "device" (VDict []) summary); ("scheduler", dgetd "scheduler" (VDict []) summary)].
