(* ===== verification/StartupModelSpec.v ===== *)
(** * Properties of the startup timing model

    The work bursts of a thread cover its running time and are apart; the stable
    period is the best fit from the first release on that passes the tests; the
    model compares runs of one shape, and each of its roles is in all of them. *)
From Stdlib Require Import Ascii ZArith Lia Floats.SpecFloat.
From S2P Require Import Prelude PyStr PyFloat PyVal FloatOrder Effects Machine.
From S2P Require Import SchedTrace DeadlineProfile Noise StartupModel.
From stdpp Require Import base gmap strings list sorting.
Local Open Scope Z_scope.
Local Open Scope py_scope.

(** ** Bursts *)

Abbreviation slice := (f64 * f64)%type.
Definition nums (s : slice) : Prop := num s.1 ∧ num s.2.
(** The slice has a length. *)
Definition forward (s : slice) : Prop := f_le s.1 s.2 = true.
Definition inside (s b : slice) : Prop := f_le b.1 s.1 = true ∧ f_le s.2 b.2 = true.
(** The second burst starts more than [gap] after the end of the first. *)
Definition apart (gap : f64) (b b' : slice) : Prop :=
  f_lt gap (f_sub b'.1 b.2) = true ∧ f_le b.1 b'.1 = true.

Lemma pair_lt_asym s t : pair_lt s t = true → pair_lt t s = false.
Proof.
  unfold pair_lt. rewrite (f_eq_sym t.1 s.1). destruct (f_eq s.1 t.1); f_order.
Qed.
Lemma pair_le_first s t : nums s → nums t → by_le pair_lt s t → f_le s.1 t.1 = true.
Proof.
  intros [Hs _] [Ht _]. unfold by_le, pair_lt. destruct (f_eq t.1 s.1) eqn:E; [intros _; f_order|].
  intros Hlt. by apply f_nlt_le.
Qed.
Lemma pair_le_trans s t u : nums s → nums t → nums u →
  by_le pair_lt s t → by_le pair_lt t u → by_le pair_lt s u.
Proof.
  intros [Hs1 Hs2] [Ht1 Ht2] [Hu1 Hu2]. unfold by_le, pair_lt.
  destruct (f_eq t.1 s.1) eqn:E1, (f_eq u.1 t.1) eqn:E2, (f_eq u.1 s.1) eqn:E3; intros H1 H2; try f_order.
Qed.

(** What a list of bursts says of the slices it was made of. *)
Record covers (gap : f64) (slices bursts : list slice) : Prop := {
  cover_slices s : s ∈ slices → forward s → ∃ b, b ∈ bursts ∧ inside s b;
  cover_bursts b : b ∈ bursts → forward b ∧ (∃ s, s ∈ slices ∧ s.1 = b.1) ∧ ∃ s, s ∈ slices ∧ s.2 = b.2;
  cover_apart : Sorted (apart gap) bursts;
}.

Lemma Sorted_snoc_intro {A} (R : relation A) l a b : Sorted R (l ++ [a]) → R a b → Sorted R (l ++ [a; b]).
Proof.
  intros Hl Hab. induction l as [|x l IH]; simpl in *; [by repeat constructor|].
  inversion Hl as [|? ? Hs Hx]; subst. constructor; [by apply IH|]. destruct l; inversion Hx; by constructor.
Qed.
Lemma Sorted_replace_last {A} (R : relation A) l a a' :
  Sorted R (l ++ [a]) → (∀ x, R x a → R x a') → Sorted R (l ++ [a']).
Proof.
  intros Hl Ha. induction l as [|x l IH]; simpl in *; [by repeat constructor|].
  inversion Hl as [|? ? Hs Hx]; subst. constructor; [by apply IH|]. destruct l; inversion Hx; constructor; auto.
Qed.

(** The state of the loop after a prefix of the slices. *)
Lemma covers_skip gap slices bursts s : ¬ forward s → covers gap slices bursts → covers gap (slices ++ [s]) bursts.
Proof.
  intros Hs [Hc Hb Ha]. split; [|intros b Hin; destruct (Hb b Hin) as (? & (s1 & ? & ?) & (s2 & ? & ?))|done].
  - intros t [Ht|Ht%list_elem_of_singleton]%elem_of_app Hf; [by apply Hc|by subst].
  - split; [done|]. split; [exists s1|exists s2]; (split; [apply elem_of_app; by left|done]).
Qed.
Lemma covers_new gap slices bursts s :
  forward s → (∀ b, last bursts = Some b → apart gap b s) → covers gap slices bursts →
  covers gap (slices ++ [s]) (bursts ++ [s]).
Proof.
  intros Hs Hl [Hc Hb Ha]. split.
  - intros t [Ht|Ht%list_elem_of_singleton]%elem_of_app Hf.
    + destruct (Hc t Ht Hf) as (b & Hin & Hi). exists b. split; [apply elem_of_app; by left|done].
    + subst. exists s. split; [apply elem_of_app; right; by left|]. unfold forward in Hs.
      destruct (le_num _ _ Hs). split; by apply f_le_refl.
  - intros b [Hin|Hin%list_elem_of_singleton]%elem_of_app.
    + destruct (Hb b Hin) as (? & (s1 & ? & ?) & (s2 & ? & ?)).
      split; [done|]. split; [exists s1|exists s2]; (split; [apply elem_of_app; by left|done]).
    + subst. split; [done|]. split; exists s; (split; [apply elem_of_app; right; by left|done]).
  - destruct bursts as [|b l _] using rev_ind; [by repeat constructor|]. rewrite <- app_assoc.
    apply Sorted_snoc_intro; [done|]. apply Hl. by rewrite last_snoc.
Qed.
Lemma covers_grow gap slices bursts b s :
  forward s → num b.2 → f_le b.1 s.1 = true → covers gap slices (bursts ++ [b]) →
  covers gap (slices ++ [s]) (bursts ++ [(b.1, f_max b.2 s.2)]).
Proof.
  intros Hs Hnb Hbs [Hc Hb Ha]. destruct (le_num _ _ Hs) as [Hn1 Hn2].
  pose proof (f_max_le_l b.2 s.2 Hnb Hn2) as Hl. pose proof (f_max_le_r b.2 s.2 Hnb Hn2) as Hr. split.
  - intros t [Ht|Ht%list_elem_of_singleton]%elem_of_app Hf.
    + destruct (Hc t Ht Hf) as (b' & [Hin|Hin%list_elem_of_singleton]%elem_of_app & Hi).
      * exists b'. split; [apply elem_of_app; by left|done].
      * subst b'. exists (b.1, f_max b.2 s.2). split; [apply elem_of_app; right; by left|].
        destruct Hi. split; [done|]. by eapply f_le_trans.
    + subst. exists (b.1, f_max b.2 s.2). split; [apply elem_of_app; right; by left|done].
  - intros b' [Hin|Hin%list_elem_of_singleton]%elem_of_app.
    + destruct (Hb b') as (? & (s1 & ? & ?) & (s2 & ? & ?)); [apply elem_of_app; by left|].
      split; [done|]. split; [exists s1|exists s2]; (split; [apply elem_of_app; by left|done]).
    + subst. destruct (Hb b) as (Hfb & (s1 & ? & ?) & (s2 & ? & ?)); [apply elem_of_app; right; by left|].
      split; [unfold forward in *; by eapply f_le_trans|]. split.
      * exists s1. split; [apply elem_of_app; by left|done].
      * simpl. unfold f_max. destruct (f_lt b.2 s.2); [exists s|exists s2];
          (split; [apply elem_of_app; try (right; by left); by left|done]).
  - eapply Sorted_replace_last; [done|]. by intros x [].
Qed.
Lemma merge_bursts_covers gap slices :
  Forall nums slices → StronglySorted (by_le pair_lt) slices → covers gap slices (merge_bursts gap slices).
Proof.
  unfold merge_bursts. intros Hn Hs. induction slices as [|s slices IH] using rev_ind; [split; try constructor; set_solver|].
  apply Forall_app in Hn as [Hn Hns]. apply Forall_singleton in Hns as [Hn1 Hn2].
  apply StronglySorted_app in Hs as (Hord & Hs & _). specialize (IH Hn Hs). rewrite foldl_app. simpl.
  set (acc := foldl (burst_step gap) [] slices) in *. unfold burst_step.
  destruct (f_lt s.2 s.1) eqn:Hfw.
  { apply covers_skip; [|done]. unfold forward. intros Hle. f_order. }
  assert (forward s) as Hf by (by apply f_nlt_le).
  destruct acc as [|b before].
  { apply (covers_new gap slices []); [done|done|done]. }
  destruct (cover_bursts _ _ _ IH b) as (Hb & (s1 & Hs1 & Hb1) & (s2 & Hs2 & Hb2)); [simpl; set_solver|].
  assert (f_le b.1 s.1 = true) as Hle.
  { rewrite <- Hb1. rewrite Forall_forall in Hn. apply pair_le_first; [by apply Hn|done|]. apply Hord; [done|by left]. }
  destruct (f_lt gap (f_sub s.1 b.2)) eqn:Hgap; simpl.
  - apply (covers_new gap slices (rev before ++ [b])); [done| |done].
    intros b'. rewrite last_snoc. intros [= <-]. done.
  - apply covers_grow; [done|rewrite <- Hb2; rewrite Forall_forall in Hn; by apply (Hn s2)|done|done].
Qed.

(** The row is of a running interval that meets the window, and [s] is what the
    window leaves of it. *)
Definition clipped (window_start_ms window_end_ms : f64) (row : pydict) (s : slice) : Prop :=
  ∃ state start stop, subscript row "state" = Ok state ∧ py_eq state (VStr "running") = true ∧
    float_item row "start_ms" = Ok start ∧ float_item row "end_ms" = Ok stop ∧
    f_le window_start_ms stop = true ∧ f_le start window_end_ms = true ∧
    s = (f_max start window_start_ms, f_min stop window_end_ms).
Lemma running_slice_spec ws we row l :
  running_slice ws we row = Ok l → ∀ s, s ∈ l ↔ clipped ws we row s.
Proof.
  intros Hl s. unfold running_slice in Hl. apply outcome_bind_ok in Hl as (state & Hstate & Hl).
  destruct (py_eq state (VStr "running")) eqn:Hrun; simpl in Hl.
  2:{ injection Hl as <-. split; [by intros ?%elem_of_nil|]. intros (v & ? & ? & Hv & Heq & _). congruence. }
  apply outcome_bind_ok in Hl as (stop & Hstop & Hl). destruct (f_le ws stop) eqn:Hws; simpl in Hl.
  2:{ injection Hl as <-. split; [by intros ?%elem_of_nil|].
      intros (v & a & e & _ & _ & _ & He & Hle & _). congruence. }
  apply outcome_bind_ok in Hl as (start & Hstart & Hl). destruct (f_le start we) eqn:Hwe; simpl in Hl.
  2:{ injection Hl as <-. split; [by intros ?%elem_of_nil|].
      intros (v & a & e & _ & _ & Ha & _ & _ & Hle & _). congruence. }
  injection Hl as <-. rewrite list_elem_of_singleton. split.
  - intros ->. by exists state, start, stop.
  - intros (v & a & e & Hv & _ & Ha & He & _ & _ & ->). congruence.
Qed.
Lemma running_slices_spec intervals ws we slices :
  running_slices intervals ws we = Ok slices →
  ∀ s, s ∈ slices ↔ ∃ row, row ∈ intervals ∧ clipped ws we row s.
Proof.
  unfold running_slices. intros (parts & Hparts & [= <-])%outcome_bind_ok s. apply traverse_ok in Hparts.
  rewrite sort_by_perm. induction Hparts as [|row l intervals parts Hl Hparts IH]; simpl.
  - split; [by intros ?%elem_of_nil|by intros (? & ?%elem_of_nil & _)].
  - rewrite elem_of_app, IH, (running_slice_spec _ _ _ _ Hl). setoid_rewrite elem_of_cons. naive_solver.
Qed.
Lemma clipped_window ws we row s :
  clipped ws we row s → nums s ∧ f_le ws s.1 = true ∧ f_le s.2 we = true.
Proof.
  intros (state & start & stop & _ & _ & _ & _ & Hws & Hwe & ->). destruct (le_num _ _ Hws), (le_num _ _ Hwe).
  split; [split; [by apply f_max_num|by apply f_min_num]|]. split; [by apply f_max_le_r|by apply f_min_le_r].
Qed.
Lemma clipped_nums ws we intervals slices :
  running_slices intervals ws we = Ok slices → Forall nums slices ∧ StronglySorted (by_le pair_lt) slices.
Proof.
  intros Hs. assert (Forall nums slices) as Hn.
  { apply Forall_forall. intros s Hin. apply (running_slices_spec _ _ _ _ Hs) in Hin as (row & _ & Hc).
    by apply clipped_window in Hc as [? _]. }
  split; [done|]. unfold running_slices in Hs. apply outcome_bind_ok in Hs as (parts & _ & [= <-]).
  apply (sort_by_sorted _ nums pair_lt_asym pair_le_trans). by rewrite sort_by_perm in Hn.
Qed.

(** The work bursts of a thread are its running time.  The bursts found in a
    window lie in it, one after the other and more than the merge gap apart; each
    one begins where a running interval begins and ends where one ends, both cut
    to the window; and every running interval that the window does not leave empty
    lies in one of them. *)
Theorem work_bursts_spec intervals window_start_ms window_end_ms gap bursts :
  merge_running_bursts intervals window_start_ms window_end_ms gap = Ok bursts →
  let clip := clipped window_start_ms window_end_ms in
  Sorted (apart gap) bursts ∧
  (∀ b, b ∈ bursts →
     f_le window_start_ms b.1 = true ∧ f_le b.1 b.2 = true ∧ f_le b.2 window_end_ms = true ∧
     (∃ row s, row ∈ intervals ∧ clip row s ∧ s.1 = b.1) ∧ ∃ row s, row ∈ intervals ∧ clip row s ∧ s.2 = b.2) ∧
  ∀ row s, row ∈ intervals → clip row s → f_le s.1 s.2 = true →
    ∃ b, b ∈ bursts ∧ f_le b.1 s.1 = true ∧ f_le s.2 b.2 = true.
Proof.
  intros (slices & Hs & [= <-])%outcome_bind_ok clip. pose proof (running_slices_spec _ _ _ _ Hs) as Hin.
  destruct (clipped_nums _ _ _ _ Hs) as [Hn Hsorted]. pose proof (merge_bursts_covers gap _ Hn Hsorted) as [Hc Hb Ha].
  split; [done|]. split.
  - intros b Hb'. destruct (Hb b Hb') as (Hf & (s1 & (row1 & Hr1 & Hc1)%Hin & H1) & (s2 & (row2 & Hr2 & Hc2)%Hin & H2)).
    destruct (clipped_window _ _ _ _ Hc1) as (_ & Hw1 & _), (clipped_window _ _ _ _ Hc2) as (_ & _ & Hw2).
    rewrite H1 in Hw1. rewrite H2 in Hw2. split_and!; [done..|by exists row1, s1|by exists row2, s2].
  - intros row s Hrow Hclip Hf. apply Hc; [|done]. apply Hin. by exists row.
Qed.

(** Two slices 2 ms apart are one burst; a longer gap starts another. *)
Definition demo_interval (start stop : string) : pydict :=
  [("tid", VStr "7"); ("state", VStr "running"); ("start_ms", VStr start); ("end_ms", VStr stop)].
Definition demo_intervals : list pydict :=
  [demo_interval "14.5" "15.0"; demo_interval "0.5" "2.0"; demo_interval "4.0" "5.25"].
Lemma work_bursts_spec_witness :
  ∃ bursts, merge_running_bursts demo_intervals (f_of_Z 1) (f_of_Z 100) (f_of_Z 2) = Ok bursts ∧
    bursts = [(f_of_Z 1, f_dec 525 (-2)); (f_dec 145 (-1), f_of_Z 15)] ∧ Sorted (apart (f_of_Z 2)) bursts.
Proof.
  eexists. split; [vm_compute; reflexivity|]. split; [vm_compute; reflexivity|].
  refine (proj1 (work_bursts_spec demo_intervals (f_of_Z 1) (f_of_Z 100) (f_of_Z 2) _ _)).
  vm_compute. reflexivity.
Defined.

(** ** Periods *)

Lemma f_lt_neq x y : f_lt x y = true → f_eq x y = false.
Proof. f_order. Qed.
Lemma tuple_lt_irrefl l : tuple_lt l l = false.
Proof. induction l as [|x l IH]; simpl; [done|]. destruct (f_eq x x); [done|]. f_order. Qed.
Lemma tuple_lt_trans l k m : tuple_lt l k = true → tuple_lt k m = true → tuple_lt l m = true.
Proof.
  revert k m. induction l as [|x l IH]; intros [|y k] [|z m]; simpl; try done.
  intros H1 H2. destruct (f_eq x y) eqn:Exy, (f_eq y z) eqn:Eyz.
  - rewrite (f_eq_trans x y z) by done. by apply (IH k m).
  - pose proof (f_eq_lt x y z Exy H2) as Hlt. by rewrite (f_lt_neq x z).
  - pose proof (f_lt_eq x y z H1 Eyz) as Hlt. by rewrite (f_lt_neq x z).
  - pose proof (f_lt_trans x y z H1 H2) as Hlt. by rewrite (f_lt_neq x z).
Qed.

Section period.
Context (o : period_options).
(** No candidate fits better: the scores are compared lexicographically. *)
Definition best_fit (gaps : list f64) (b : fit) : Prop :=
  fit_period b ∈ candidates o gaps ∧ candidate_fit o gaps (fit_period b) = Ok b ∧
  ∀ c, c ∈ candidates o gaps → ∃ b', candidate_fit o gaps c = Ok b' ∧ tuple_lt (score b) (score b') = false.
Lemma candidate_fit_period gaps c b : candidate_fit o gaps c = Ok b → fit_period b = c.
Proof. by intros (residuals & _ & (direct & _ & [= <-])%outcome_bind_ok)%outcome_bind_ok. Qed.
Lemma period_fit_spec gaps best :
  _period_fit o gaps = Ok best →
  match best with Some b => best_fit gaps b | None => candidates o gaps = [] end.
Proof.
  unfold _period_fit, best_fit. intros Hf.
  apply (fold_outcome_inv _ (λ seen best, match best with
    | Some b => fit_period b ∈ seen ∧ candidate_fit o gaps (fit_period b) = Ok b ∧
        ∀ c, c ∈ seen → ∃ b', candidate_fit o gaps c = Ok b' ∧ tuple_lt (score b) (score b') = false
    | None => seen = []
    end)) in Hf; [done|done|].
  clear Hf. intros seen c rest best0 best1 _ Hbest (b & Hb & [= <-])%outcome_bind_ok.
  pose proof (candidate_fit_period _ _ _ Hb) as Hc. subst c. destruct best0 as [a|]; cbn [better].
  2:{ subst seen. split; [by left|]. split; [done|]. intros c' ->%list_elem_of_singleton.
      exists b. split; [done|apply tuple_lt_irrefl]. }
  destruct Hbest as (Ha & Hfa & Hall). destruct (tuple_lt (score a) (score b)) eqn:Hlt.
  - split; [apply elem_of_app; right; by left|]. split; [done|].
    intros c' [Hin|Hin%list_elem_of_singleton]%elem_of_app.
    + destruct (Hall c' Hin) as (b' & Hb' & Hn). exists b'. split; [done|].
      destruct (tuple_lt (score b) (score b')) eqn:E; [|done]. by rewrite (tuple_lt_trans _ _ _ Hlt E) in Hn.
    + subst c'. exists b. split; [done|apply tuple_lt_irrefl].
  - split; [apply elem_of_app; by left|]. split; [done|].
    intros c' [Hin|Hin%list_elem_of_singleton]%elem_of_app; [by apply Hall|]. subst c'. by exists b.
Qed.
Lemma candidates_range gaps p : p ∈ candidates o gaps →
  f_le (min_period_ms o) p = true ∧ f_le p (max_period_ms o) = true ∧
  ∃ gap m, gap ∈ gaps ∧ 1 <= m <= max_multiple o ∧ p = f_div_raw gap (f_of_Z m).
Proof.
  unfold candidates, candidates_of. intros (gap & Hp & Hgap)%list_elem_of_bind.
  apply list_elem_of_filter in Hp as [[H1 H2]%andb_true_iff Hp].
  apply list_elem_of_In, in_map_iff in Hp as (m & <- & Hm%list_elem_of_In%elem_of_seqZ).
  split; [done|]. split; [done|]. exists gap, m. split_and!; [done|lia..|done].
Qed.

(** The releases from an index on are stable, with this result. *)
Definition stable_result (window_end_ms : f64) (starts : list f64) (r : PeriodicResult) : Prop :=
  hd_error starts = Some (start_ms r) ∧ releases r = Z.of_nat (length starts) ∧
  min_periods o <= Z.of_nat (length (f_gaps starts)) ∧
  ∃ b, best_fit (f_gaps starts) b ∧ stable o starts window_end_ms b = true ∧
    period_ms r = fit_period b ∧ match_ratio r = fit_match b ∧ jitter_ratio r = fit_jitter b.
Definition not_stable (window_end_ms : f64) (starts : list f64) : Prop :=
  Z.of_nat (length (f_gaps starts)) < min_periods o ∨ candidates o (f_gaps starts) = [] ∨
  ∃ b, best_fit (f_gaps starts) b ∧ stable o starts window_end_ms b = false.
Lemma stable_from_spec window_end_ms start starts found :
  stable_from o window_end_ms (start :: starts) = Ok found →
  match found with
  | Some r => stable_result window_end_ms (start :: starts) r
  | None => not_stable window_end_ms (start :: starts)
  end.
Proof.
  unfold stable_from. case_bool_decide as Hn; [intros [= <-]; by left|].
  intros (best & Hbest%period_fit_spec & [= <-])%outcome_bind_ok. destruct best as [b|]; [|by right; left].
  destruct (stable o (start :: starts) window_end_ms b) eqn:Hs; [|right; right; by exists b].
  split; [done|]. split; [done|]. split; [lia|]. by exists b.
Qed.
Lemma first_stable_spec n window_end_ms starts found :
  (n < length starts)%nat → first_stable o n window_end_ms starts = Ok found →
  ∃ i, (i ≤ n)%nat ∧ (∀ j, (j < i)%nat → not_stable window_end_ms (drop j starts)) ∧
    match found with
    | Some r => (i < n)%nat ∧ stable_result window_end_ms (drop i starts) r
    | None => i = n
    end.
Proof.
  revert starts. induction n as [|n IH]; intros starts Hn; simpl.
  { intros [= <-]. exists O. split; [lia|]. split; [intros j Hj; lia|done]. }
  destruct starts as [|s starts]; [simpl in Hn; lia|]. intros (look & Hlook%stable_from_spec & Hf)%outcome_bind_ok.
  destruct look as [r|].
  - injection Hf as <-. exists O. split; [lia|]. split; [intros j Hj; lia|]. split; [lia|done].
  - cbn [tail] in Hf. apply IH in Hf as (i & Hi & Hbefore & Hfound); [|simpl in Hn; lia]. exists (S i). split; [lia|]. split.
    + intros [|j] Hj; [done|]. apply (Hbefore j). lia.
    + destruct found as [r|]; [|lia]. destruct Hfound as [? ?]. split; [lia|done].
Qed.
End period.

(** C20: The stable period of a thread is the best fit from the first point on
    where one passes.  A period that is returned starts with one of the work
    bursts; at least [min_periods] gaps follow; it is one of them divided by a
    whole number, in the range of periods, and of all such candidates none has a
    better score; it passes the tests on the shares of matching and of direct
    gaps, on the length of the series and on the time after it; and from no
    earlier burst on the best fit passes.  Without a period the best fit passes
    from no burst on that is followed by enough gaps. *)
Theorem stable_period_is_first_best o intervals window_start_ms window_end_ms found :
  1 <= min_periods o →
  detect_stable_period o intervals window_start_ms window_end_ms = Ok found →
  ∃ bursts, merge_running_bursts intervals window_start_ms window_end_ms (merge_gap_ms o) = Ok bursts ∧
  let from i := drop i bursts.*1 in
  match found with
  | Some r => ∃ i, stable_result o window_end_ms (from i) r ∧
      f_le (min_period_ms o) (period_ms r) = true ∧ f_le (period_ms r) (max_period_ms o) = true ∧
      (∃ gap m, gap ∈ f_gaps (from i) ∧ 1 <= m <= max_multiple o ∧ period_ms r = f_div_raw gap (f_of_Z m)) ∧
      ∀ j, (j < i)%nat → not_stable o window_end_ms (from j)
  | None => ∀ j, Z.of_nat j + min_periods o < Z.of_nat (length bursts) → not_stable o window_end_ms (from j)
  end.
Proof.
  intros Hmin (bursts & Hb & Hf)%outcome_bind_ok. exists bursts. split; [done|]. intros from.
  cbv zeta in Hf. rewrite length_fmap in Hf. case_bool_decide as Hlen.
  { injection Hf as <-. intros j Hj. lia. }
  apply first_stable_spec in Hf as (i & Hi & Hbefore & Hfound); [|rewrite length_fmap; lia].
  destruct found as [r|].
  - destruct Hfound as [Hin Hr]. exists i. split; [done|].
    pose proof Hr as (_ & _ & _ & b & (Hc & _) & _ & Hp & _). rewrite Hp.
    destruct (candidates_range _ _ _ Hc) as (H1 & H2 & H3). done.
  - intros j Hj. apply Hbefore. lia.
Qed.

(** Two short sleeps, then seven releases 33 ms apart: the period is found from
    the third burst on. *)
Definition demo_thread : list pydict :=
  map (λ t, demo_interval (str_Z t) (str_Z (t + 1))) [3; 9; 23; 56; 89; 122; 155; 188; 221].
Abbreviation demo_period := (detect_stable_period (default_options 6) demo_thread (f_of_Z 0) (f_of_Z 300)).
Definition demo_found : PeriodicResult := {|
  start_ms := f_of_Z 23; period_ms := f_of_Z 33; match_ratio := f_of_Z 1; jitter_ratio := f_zero; releases := 7 |}.
Lemma stable_period_is_first_best_witness :
  demo_period = Ok (Some demo_found) ∧
  ∃ (bursts : list slice) i, stable_result (default_options 6) (f_of_Z 300) (drop i bursts.*1) demo_found.
Proof.
  assert (demo_period = Ok (Some demo_found)) as Hd by (vm_compute; reflexivity).
  split; [exact Hd|].
  destruct (stable_period_is_first_best (default_options 6) demo_thread (f_of_Z 0) (f_of_Z 300) (Some demo_found)
    ltac:(vm_compute; discriminate) Hd) as (bursts & _ & i & Hr & _).
  exists bursts, i. exact Hr.
Defined.

(** ** Runs of one shape *)

(** The last [@] of a shape. *)
Definition no_at : string → bool := string_forall (λ a, negb (bool_decide (a = "@"%char))).
Lemma last_at s p s' p' : no_at p = true → no_at p' = true → s +:+ "@" +:+ p = s' +:+ "@" +:+ p' → p = p'.
Proof.
  unfold no_at. intros Hp Hp'. revert s'. induction s as [|a s IH]; intros [|a' s'] Heq; simpl in Heq; simplify_eq.
  - done.
  - change ("" +:+ p) with p in H. subst p. rewrite string_forall_app in Hp. by apply andb_true_iff in Hp as [_ ?].
  - change ("" +:+ p') with p' in H. subst p'. rewrite string_forall_app in Hp'. by apply andb_true_iff in Hp' as [_ ?].
  - by apply (IH s').
Qed.

Definition phase_names : list string :=
  ["process_setup"; "context"; "device_discovery"; "pipeline_construction"; "pipeline_start"; "streaming"; "teardown"].
Lemma phase_of_names created phases previous l :
  phase_of created phases previous l ∈ previous :: l.*2.
Proof.
  revert previous. induction l as [|[name following] l IH]; intros previous; simpl; [by left|].
  destruct (dget name phases) as [x|]; [destruct (f_lt created x); [by left|]|].
  - right. apply IH.
  - specialize (IH previous). set_solver.
Qed.
Lemma phase_names_plain : Forall (λ phase, no_at phase = true ∧ phase ≠ "process") ("process_setup" :: phase_names).
Proof. repeat constructor; discriminate. Qed.
Lemma thread_phase_main main created phases cycle :
  let phase := thread_phase main created phases cycle in
  no_at phase = true ∧ (phase = "process" ↔ main = true).
Proof.
  destruct main; simpl; [done|]. destruct created as [x|]; simpl; [|done].
  pose proof phase_names_plain as Hplain. rewrite Forall_forall in Hplain.
  destruct (Hplain _ (phase_of_names x phases "process_setup" (markers cycle))). done.
Qed.

(** What reading a run makes of its threads. *)
Definition main_sample (t : ThreadSample) : bool := bool_decide (ts_creation_phase t = "process").
Record ranked_sample (rank : Z) (t : ThreadSample) : Prop := {
  sample_rank : ts_rank t = rank;
  sample_role : ts_role t = role_name (main_sample t) rank;
  sample_phase : no_at (ts_creation_phase t) = true;
  sample_start p : ts_periodic t = Some p → num (start_ms p);
}.
Definition well_read (run : RunSample) : Prop :=
  Forall2 ranked_sample (seqZ 0 (Z.of_nat (length (rs_threads run)))) (rs_threads run) ∧
  rs_signature run = map thread_shape (rs_threads run).

Lemma main_sample_shape t t' : no_at (ts_creation_phase t) = true → no_at (ts_creation_phase t') = true →
  thread_shape t = thread_shape t' → main_sample t = main_sample t'.
Proof. unfold main_sample. intros Hp Hp' Hs. by rewrite (last_at _ _ _ _ Hp Hp' Hs). Qed.

(** Two runs of the same shape have the same roles. *)
Lemma same_shape_roles run run' :
  well_read run → well_read run' → rs_signature run = rs_signature run' →
  map ts_role (rs_threads run) = map ts_role (rs_threads run').
Proof.
  intros [Hr ->] [Hr' ->] Hsig. assert (length (rs_threads run) = length (rs_threads run')) as Hlen
    by (by rewrite <- (length_map thread_shape), Hsig, length_map).
  rewrite <- Hlen in Hr'. clear Hlen. revert Hr Hr' Hsig.
  generalize (seqZ 0 (Z.of_nat (length (rs_threads run)))) as ranks. intros ranks Hr.
  generalize (rs_threads run') as l'. induction Hr as [|rank t ranks l Ht Hr IH]; intros l' Hr' Hsig.
  - by inversion Hr'.
  - inversion Hr' as [|? t' ? k' Ht' Hk']; subst. simpl in Hsig. injection Hsig as Hs Hsig. simpl. f_equal; [|by apply IH].
    destruct Ht as [_ -> Hp _], Ht' as [_ -> Hp' _]. by rewrite (main_sample_shape t t' Hp Hp' Hs).
Qed.

(** What [run_sample] returns is well read. *)
Lemma stable_from_start o we starts r : stable_from o we starts = Ok (Some r) → start_ms r = hd f_zero starts.
Proof.
  unfold stable_from. case_bool_decide; [done|]. intros (best & _ & [= Hb])%outcome_bind_ok.
  destruct best as [b|]; [|done]. destruct (stable o starts we b); by simplify_eq.
Qed.
Lemma first_stable_num o n we starts r :
  Forall num starts → first_stable o n we starts = Ok (Some r) → num (start_ms r).
Proof.
  revert starts. induction n as [|n IH]; intros starts Hn; simpl; [done|].
  intros (look & Hlook & Hf)%outcome_bind_ok. destruct look as [r'|].
  - injection Hf as ->. rewrite (stable_from_start _ _ _ _ Hlook). destruct Hn; simpl; [by eexists|done].
  - apply IH in Hf; [done|]. by destruct Hn.
Qed.
Lemma detect_start_num o intervals ws we r :
  detect_stable_period o intervals ws we = Ok (Some r) → num (start_ms r).
Proof.
  intros (bursts & (slices & Hs & [= <-])%outcome_bind_ok & Hf)%outcome_bind_ok. cbv zeta in Hf.
  case_bool_decide; [done|]. eapply first_stable_num; [|done]. apply Forall_fmap, Forall_forall. intros b Hb.
  destruct (clipped_nums _ _ _ _ Hs) as [Hn Hsorted].
  pose proof (cover_bursts _ _ _ (merge_bursts_covers (merge_gap_ms o) _ Hn Hsorted) b Hb) as [Hf' _].
  by destruct (le_num _ _ Hf').
Qed.
Lemma thread_sample_ranked o run_id dir cycle phases by_tid ss se rank row t :
  thread_sample o run_id dir cycle phases by_tid ss se (rank, row) = Ok t → ranked_sample rank t.
Proof.
  unfold thread_sample. intros Ht.
  repeat (apply outcome_bind_ok in Ht as (? & ? & Ht)). injection Ht as <-.
  match goal with H : is_main row = Ok ?m, K : optional_item row "created_ms" = Ok ?c |- _ =>
    pose proof (thread_phase_main m c phases cycle) as [Hat Hmain] end.
  split; simpl; [done| |done|].
  - f_equal. unfold main_sample. simpl. apply eq_true_iff_eq. by rewrite bool_decide_eq_true.
  - intros p ->. by eapply detect_start_num.
Qed.
Lemma Forall2_zip_left {A B C} (P : A * B → C → Prop) (Q : A → C → Prop) ks l ts :
  Forall2 P (zip ks l) ts → length ks = length l → (∀ k x t, P (k, x) t → Q k t) → Forall2 Q ks ts.
Proof.
  intros Hp Hlen HQ. revert l Hlen ts Hp. induction ks as [|k ks IH]; intros [|x l] Hlen ts Hp; simplify_eq/=;
    inversion Hp; subst; constructor; [by eapply HQ|by eapply IH].
Qed.
Lemma run_sample_well_read o dir cycle summary phases by_tid timing run_id run :
  run_sample o dir cycle summary phases by_tid timing run_id = Ok run → well_read run.
Proof.
  unfold run_sample. intros Hr. repeat (apply outcome_bind_ok in Hr as (? & ? & Hr)). injection Hr as <-.
  split; simpl; [|done].
  match goal with H : traverse (thread_sample _ _ _ _ _ _ _ _) _ = Ok _ |- _ => apply traverse_ok in H; rename H into Ht end.
  pose proof (Forall2_length _ _ _ Ht) as Hlen. unfold enumerate in *.
  rewrite length_zip_with, length_seqZ in Hlen. intros.
  assert (length x3 = length (sort_by timing_lt x0).*2) as Heq by lia. simpl. rewrite Heq.
  eapply Forall2_zip_left; [exact Ht|rewrite length_seqZ; lia|].
  intros k row t. apply thread_sample_ranked.
Qed.

(** *** Grouping by role *)

Lemma group_keys l d k : k ∈ dkeys (foldl add_sample d l) ↔ k ∈ dkeys d ∨ k ∈ map ts_role l.
Proof.
  revert d. induction l as [|t l IH]; intros d; simpl; [set_solver|]. rewrite IH. unfold add_sample.
  rewrite dkeys_dset, elem_of_cons. case_decide as Hk; [|set_solver].
  split; [naive_solver|]. intros [?|[->|?]]; auto.
Qed.
Lemma periodic_role_of d presence role :
  role ∈ periodic_roles_of d presence ↔ ∃ samples, (role, samples) ∈ d ∧ f_le presence (periodic_rate samples) = true.
Proof.
  unfold periodic_roles_of. rewrite list_elem_of_fmap. setoid_rewrite sort_on_perm.
  setoid_rewrite list_elem_of_filter. split.
  - intros ([r samples] & -> & ? & ?). by exists samples.
  - intros (samples & ? & ?). by exists (role, samples).
Qed.

(** *** Choices *)

Lemma modal_signature_spec signatures modal :
  modal_signature signatures = Some modal →
  modal ∈ signatures ∧ ∀ s, s ∈ signatures → count_signature signatures s <= count_signature signatures modal.
Proof.
  destruct signatures as [|s l]; [done|]. cbn [modal_signature]. intros [= <-].
  destruct (choose_by_spec (more_common (s :: l))) with (l := l) (x := s) as [Hin Hbest].
  - intros x. unfold more_common. apply bool_decide_eq_false. lia.
  - unfold more_common. intros x y z. rewrite !bool_decide_eq_true. lia.
  - split; [done|]. intros s' Hs'%Hbest. apply bool_decide_eq_false in Hs'. lia.
Qed.
Lemma representative_spec median run l :
  let best := foldl (choose_by (nearer median)) run l in
  best ∈ run :: l ∧
  ∀ run', run' ∈ run :: l → f_lt (cutoff_distance median run') (cutoff_distance median best) = false.
Proof.
  apply (choose_by_spec (nearer median)); [intros x; unfold nearer; f_order|]. intros x y z. apply f_lt_trans.
Qed.

(** *** Complete runs *)

Lemma periodic_by_role_elem run role v :
  dget role (periodic_by_role run) = Some v →
  ∃ t, t ∈ rs_threads run ∧ ts_role t = role ∧ ts_periodic t = v.
Proof.
  unfold periodic_by_role. enough (∀ l d, dget role (foldl (λ d t, dset (ts_role t) (ts_periodic t) d) d l) = Some v →
    dget role d = Some v ∨ ∃ t, t ∈ l ∧ ts_role t = role ∧ ts_periodic t = v) as Hl.
  { intros Hd. apply Hl in Hd as [?|?]; done. }
  induction l as [|t l IH]; intros d; simpl; [by left|]. intros [Hd|(u & Hu & ?)]%IH.
  - rewrite dget_dset in Hd. case_decide; [|by left]. right. exists t. split; [by left|naive_solver].
  - right. exists u. split; [by right|done].
Qed.
Definition periodic_at (run : RunSample) (role : string) (p : PeriodicResult) : Prop :=
  ∃ t, t ∈ rs_threads run ∧ ts_role t = role ∧ ts_periodic t = Some p.
Lemma complete_run_spec roles run run' :
  well_read run → complete_run roles run = Some run' →
  ∃ cutoff, run' = set_cutoff cutoff run ∧
    (∀ role, role ∈ roles → ∃ p, periodic_at run role p ∧ f_le (start_ms p) cutoff = true) ∧
    ∃ role p, role ∈ roles ∧ periodic_at run role p ∧ start_ms p = cutoff.
Proof.
  intros [Hread _]. unfold complete_run. intros (starts & Hstarts & Hrun)%bind_Some.
  apply mapM_Some in Hstarts. destruct starts as [|x l]; [done|]. injection Hrun as <-.
  assert (Forall2 (λ role start, ∃ p, periodic_at run role p ∧ start = start_ms p) roles (x :: l)) as Hall.
  { eapply Forall2_impl; [exact Hstarts|]. intros role start (p & Hp & [= <-])%bind_Some. exists p. split; [|done].
    destruct (dget role (periodic_by_role run)) as [v|] eqn:Hd; [|done]. simpl in Hp.
    apply periodic_by_role_elem in Hd as (t & ? & ? & Ht). exists t. split; [done|]. split; [done|]. by subst. }
  clear Hstarts. assert (Forall num (x :: l)) as Hnum.
  { apply Forall_forall. intros start Hin. apply list_elem_of_lookup in Hin as [i Hi].
    destruct (Forall2_lookup_r _ _ _ _ _ Hall Hi) as (role & _ & p & (t & Ht & _ & Hp) & ->).
    apply list_elem_of_lookup in Ht as [j Hj]. destruct (Forall2_lookup_r _ _ _ _ _ Hread Hj) as (rank & _ & Hs).
    by eapply sample_start. }
  destruct (f_list_max_spec _ _ Hnum) as [Hin Hle]. exists (f_list_max x l). split; [done|]. split.
  - intros role Hrole. apply list_elem_of_lookup in Hrole as [i Hi].
    destruct (Forall2_lookup_l _ _ _ _ _ Hall Hi) as (start & Hs & p & Hp & ->). exists p. split; [done|].
    apply Hle. by eapply list_elem_of_lookup_2.
  - apply list_elem_of_lookup in Hin as [i Hi].
    destruct (Forall2_lookup_r _ _ _ _ _ Hall Hi) as (role & Hr & p & Hp & Heq). exists role, p.
    split; [by eapply list_elem_of_lookup_2|done].
Qed.


(** *** The accepted runs *)

Lemma count_signature_runs runs s :
  count_signature (map rs_signature runs) s = Z.of_nat (length (filter (λ run, rs_signature run = s) runs)).
Proof.
  unfold count_signature. f_equal. induction runs as [|run runs IH]; [done|]. simpl. rewrite !filter_cons.
  destruct (decide (rs_signature run = s)); simpl; by rewrite IH.
Qed.
Lemma modal_most_common runs modal s :
  modal_signature (map rs_signature runs) = Some modal →
  count_signature (map rs_signature runs) s <= Z.of_nat (length (filter (λ run, rs_signature run = modal) runs)).
Proof.
  intros [_ Hmax]%modal_signature_spec. rewrite <- count_signature_runs.
  destruct (decide (s ∈ map rs_signature runs)) as [Hs|Hs]; [by apply Hmax|].
  unfold count_signature at 1. destruct (filter (λ s', s' = s) (map rs_signature runs)) as [|s' l] eqn:Hf;
    [simpl; unfold count_signature; lia|].
  assert (s' ∈ filter (λ s', s' = s) (map rs_signature runs)) as [-> Hs']%list_elem_of_filter by (rewrite Hf; by left).
  done.
Qed.
Definition one_shape (runs : list RunSample) : Prop :=
  ∀ run run', run ∈ runs → run' ∈ runs → map ts_role (rs_threads run) = map ts_role (rs_threads run').
Lemma accepted_one_shape runs modal : Forall well_read runs →
  one_shape (filter (λ run, rs_signature run = modal) runs).
Proof.
  rewrite Forall_forall. intros Hread run run' [Hs Hr]%list_elem_of_filter [Hs' Hr']%list_elem_of_filter.
  apply same_shape_roles; [by apply Hread..|congruence].
Qed.
Lemma periodic_role_in_runs accepted presence role run : one_shape accepted →
  role ∈ periodic_roles_of (group_by_role accepted) presence → run ∈ accepted → role ∈ map ts_role (rs_threads run).
Proof.
  intros Hshape (samples & Hin & _)%periodic_role_of Hrun.
  assert (role ∈ dkeys (group_by_role accepted)) as Hkey.
  { apply list_elem_of_fmap. by exists (role, samples). }
  apply group_keys in Hkey as [?%elem_of_nil|Hkey]; [done|].
  apply list_elem_of_In, in_map_iff in Hkey as (t & <- & Ht%list_elem_of_In).
  apply list_elem_of_bind in Ht as (run' & Ht & Hrun'). rewrite (Hshape run run' Hrun Hrun').
  apply list_elem_of_In, in_map. by apply list_elem_of_In.
Qed.

(** The model compares runs of one shape.  From runs as they are read, the
    accepted ones are all those with a signature that no other signature is more
    frequent than, the excluded ones the others; the accepted runs have the same
    roles, so that every role the model calls periodic, which is one of them and
    has a period in the wanted share of its samples, can be looked up in each.  The
    complete runs are the accepted ones with a period in every such role; their
    cutoff is the latest start of a stable period of these roles; and the
    representative is one of them, none being nearer to the median cutoff. *)
Theorem model_compares_one_shape runs periodic_presence m :
  Forall well_read runs → model_of runs periodic_presence = Ok m →
  sm_accepted m = filter (λ run, rs_signature run = sm_modal_signature m) runs ∧
  sm_excluded m = filter (λ run, rs_signature run ≠ sm_modal_signature m) runs ∧
  (∀ s, count_signature (map rs_signature runs) s <= Z.of_nat (length (sm_accepted m))) ∧
  (∀ run run', run ∈ sm_accepted m → run' ∈ sm_accepted m →
     map ts_role (rs_threads run) = map ts_role (rs_threads run')) ∧
  (∀ role run, role ∈ sm_periodic_roles m → run ∈ sm_accepted m → role ∈ map ts_role (rs_threads run)) ∧
  (∀ run', run' ∈ sm_complete_runs m → ∃ run cutoff, run ∈ sm_accepted m ∧ run' = set_cutoff cutoff run ∧
     (∀ role, role ∈ sm_periodic_roles m → ∃ p, periodic_at run role p ∧ f_le (start_ms p) cutoff = true) ∧
     ∃ role p, role ∈ sm_periodic_roles m ∧ periodic_at run role p ∧ start_ms p = cutoff) ∧
  sm_representative m ∈ sm_complete_runs m ∧
  ∃ median, percentile (cutoff_values m) (f_dec 5 (-1)) = Ok (Some median) ∧
    ∀ run, run ∈ sm_complete_runs m →
      f_lt (cutoff_distance median run) (cutoff_distance median (sm_representative m)) = false.
Proof.
  intros Hread. unfold model_of. destruct (modal_signature _) as [modal|] eqn:Hmodal; [|done].
  pose proof (accepted_one_shape runs modal Hread) as Hshape.
  set (accepted := filter (λ run, rs_signature run = modal) runs) in *.
  set (roles := periodic_roles_of _ _). case_bool_decide as Hroles; [done|].
  destruct (omap (complete_run roles) accepted) as [|first rest] eqn:Hcomplete; [done|].
  intros (samples & _ & ([median|] & Hmedian & [= <-])%outcome_bind_ok)%outcome_bind_ok.
  destruct (representative_spec median first rest) as [Hrep Hnear]. simpl in *. split_and!; try done.
  - intros s. by apply modal_most_common.
  - intros role run. by apply periodic_role_in_runs.
  - intros run'. rewrite <- Hcomplete. intros (run & Hrun & Hc)%list_elem_of_omap.
    assert (well_read run) as Hr by (apply list_elem_of_filter in Hrun as [_ Hrun]; by rewrite Forall_forall in Hread; apply Hread).
    destruct (complete_run_spec _ _ _ Hr Hc) as (cutoff & ? & ? & ?). by exists run, cutoff.
  - by exists median.
Qed.

(** Three runs, one of them with another thread. *)
Definition demo_timing (tid name created : string) : pydict := [
  ("cycle", VStr "1"); ("tid", VStr tid); ("tgid", VStr "1"); ("name", VStr name); ("created_ms", VStr created);
  ("started_ms", VStr created); ("first_run_ms", VStr created); ("first_sleep_ms", VStr ""); ("exited_ms", VStr "");
  ("joined_ms", VStr ""); ("status", VStr "running")].
Definition demo_phases : list (string * f64) :=
  [("cycle_01_after_pipeline_start", f_of_Z 0); ("cycle_01_frames_complete", f_of_Z 300)].
Definition demo_run (run_id : string) (workers : list (string * string)) : outcome RunSample :=
  run_sample (default_options 6) "/results/attempt-1" 1 (VDict []) demo_phases [("7", demo_thread)]
    (demo_timing "1" "d435-probe" "0.0" :: map (λ w, demo_timing w.1 w.2 "1.5") workers) run_id.
Definition demo_runs : outcome (list RunSample) :=
  traverse (λ r, demo_run r.1 r.2) [("a", [("7", "libusb_event")]); ("b", [("7", "libusb_event"); ("8", "d435-probe")]);
                                    ("c", [("7", "libusb_event")])].
Definition demo_model : outcome startup_model := runs ← demo_runs; model_of runs (f_dec 8 (-1)).
Lemma demo_runs_well_read runs : demo_runs = Ok runs → Forall well_read runs.
Proof.
  intros Hr%traverse_ok. induction Hr as [|[id workers] run l runs Hrun Hr IH]; constructor; [|done].
  by eapply run_sample_well_read.
Qed.
Lemma model_compares_one_shape_witness :
  (m ← demo_model; Ok (length (sm_accepted m), length (sm_excluded m), sm_periodic_roles m))
    = Ok (2%nat, 1%nat, ["T01"]) ∧
  ∃ m, demo_model = Ok m ∧ sm_representative m ∈ sm_complete_runs m.
Proof.
  split; [vm_compute; reflexivity|]. assert (is_ok demo_model = true) as Hok by (vm_compute; reflexivity).
  destruct demo_model as [m|] eqn:Hm; [|discriminate Hok].
  exists m. split; [reflexivity|]. apply outcome_bind_ok in Hm as (runs & Hruns & Hm).
  pose proof (model_compares_one_shape runs (f_dec 8 (-1)) m (demo_runs_well_read runs Hruns) Hm) as Hall.
  exact (proj1 (proj2 (proj2 (proj2 (proj2 (proj2 (proj2 Hall))))))).
Defined.
