(* ===== verification/MultiCameraProfiles.v ===== *)
(** * Profiles of multi-camera cases ([generate_profiles.py] of the multi-camera bench)

    The runs of an experiment under the default scheduler are grouped by case,
    and the deadline profile of each case is generated from its runs
    ([generate_profile] of DeadlineProfile.v).  The argument parser and [print]
    are left out; the limits of the kernel, which the code reads while it builds
    the parser, are read at the start of the program. *)
From Stdlib Require Import Ascii ZArith Lia.
From S2P Require Import Prelude PyStr PyFloat PyVal PyJson FloatOrder Effects DeadlineProfile StartupModel.
From stdpp Require Import base gmap strings list sorting.
Local Open Scope Z_scope.
Local Open Scope py_scope.
Local Open Scope M_scope.

(** ** The runs *)

(** The case of a run: [None] when it did not succeed under SCHED_OTHER. *)
Definition case_of_run (case summary manifest : pyval) : outcome (option string) :=
  s ← as_dict summary;
  if negb (truthy (dgetd "eventual_success" (dgetd "success" (VBool false) s) s)) then Ok None else
  m ← as_dict manifest;
  if negb (py_eq (dgetd "policy_requested" VNone m) (VStr "SCHED_OTHER")) then Ok None else
  c ← as_dict case;
  let case_id := str_val (dgetd "case_id" (VStr "") c) in
  Ok (if bool_decide (case_id = "") then None else Some case_id).

Abbreviation groups := (list (string * list string)).
Definition group_run (grouped : groups) (case_id run_dir : string) : groups :=
  dset case_id (default [] (dget case_id grouped) ++ [run_dir]) grouped.
Definition parent (path : string) : string := hd "/" (path_parents path).

Record profile_options := {
  po_results_root : string;
  po_output_dir : string;
  po_minimum_runs : Z;
  po_runtime_margin : f64;
  po_period_scale : f64;
  po_minimum_runtime_us : option Z;
  po_maximum_period_us : option Z;
  po_maximum_modeled_period_us : option Z;
}.
Definition profile_path (output_dir case_id : string) : string := output_dir // (case_id +:+ ".csv").
Definition profile_entry (case_id profile : string) (trace_runs : list string) (metadata : pydict) : pyval :=
  VDict [("case_id", VStr case_id); ("profile", VStr profile); ("trace_runs", VList (map VStr trace_runs));
         ("metadata", VDict metadata)].
Definition insufficient (minimum : Z) (grouped : groups) : groups :=
  filter (λ g, Z.of_nat (length g.2) < minimum) grouped.
Definition insufficient_text (minimum : Z) (missing : groups) : string :=
  "insufficient traces: " +:+
  py_join ", " (map (λ g, g.1 +:+ "=" +:+ str_Z (Z.of_nat (length g.2)) +:+ "/" +:+ str_Z minimum) missing).

Section profiles.
Context {W : Type} `{OS W} {T : Type}.
Abbreviation IO := (M (T * world W)).

(** The three files of a run, when they can be read. *)
Definition read_files (case_path summary_path manifest_path : string) : IO (option (pyval * pyval * pyval)) :=
  try_except (λ e, is_OSError e || is_class JSONDecodeError e)
    (case <- sys (ReadJson case_path) ;;
     summary <- sys (ReadJson summary_path) ;;
     manifest <- sys (ReadJson manifest_path) ;;
     ret (Some (case, summary, manifest)))
    (λ _, ret None).
Definition add_case_path (grouped : groups) (case_path : string) : IO groups :=
  let run_dir := parent case_path in
  let summary_path := run_dir // "steady_summary.json" in
  let manifest_path := run_dir // "run_manifest.json" in
  summary_file <- sys (IsFile summary_path) ;;
  manifest_file <- (if (summary_file : bool) then sys (IsFile manifest_path) else ret false) ;;
  if negb manifest_file then ret grouped else
  files <- read_files case_path summary_path manifest_path ;;
  match files with
  | None => ret grouped
  | Some (case, summary, manifest) =>
      case_id <- lift (case_of_run case summary manifest) ;;
      ret match case_id with Some case_id => group_run grouped case_id run_dir | None => grouped end
  end.
Definition successful_other_runs (root : string) : IO groups :=
  case_paths <- sys (Glob root "**/case.json") ;;
  grouped <- fold_each case_paths [] add_case_path ;;
  ret (map (λ g, (g.1, sort_by path_lt g.2)) (sort_keys grouped)).

(** ** The program *)

Definition limit_or (given : option Z) (limit : Z) : Z := default limit given.
Definition generate_one (output_dir : string) (p : profile_parameters) (group : string * list string) : IO pyval :=
  let output := profile_path output_dir group.1 in
  metadata <- generate_profile group.2 output p ;;
  profile <- sys (Resolve output) ;;
  trace_runs <- map_each group.2 (λ run, sys (Resolve run)) ;;
  ret (profile_entry group.1 profile trace_runs metadata).
Definition main (o : profile_options) : IO unit :=
  minimum_us <- _read_limit "/proc/sys/kernel/sched_deadline_period_min_us" 100 ;;
  maximum_us <- _read_limit "/proc/sys/kernel/sched_deadline_period_max_us" 4194304 ;;
  when (bool_decide (po_minimum_runs o < 1)) (throw SystemExit "--minimum-runs must be positive") ;;
  root <- sys (Resolve (po_results_root o)) ;;
  grouped <- successful_other_runs root ;;
  when (bool_decide (grouped = [])) (throw SystemExit "no successful SCHED_OTHER multi-camera trace runs found") ;;
  let missing := insufficient (po_minimum_runs o) grouped in
  when (negb (bool_decide (missing = []))) (throw SystemExit (insufficient_text (po_minimum_runs o) missing)) ;;
  sys (Mkdir (po_output_dir o) true) ;;
  let p := {| runtime_margin := po_runtime_margin o; period_scale := po_period_scale o;
              minimum_runtime_us := limit_or (po_minimum_runtime_us o) minimum_us;
              maximum_period_us := limit_or (po_maximum_period_us o) maximum_us;
              maximum_modeled_period_us := po_maximum_modeled_period_us o |} in
  profiles <- map_each grouped (generate_one (po_output_dir o) p) ;;
  sys (WriteJson (po_output_dir o // "index.json")
    (VDict [("schema_version", VInt 1); ("profiles", VList profiles)])).
End profiles.

Example cases_of_runs :
  map (λ s, case_of_run (VDict [("case_id", VStr "a")]) (VDict s) (VDict [("policy_requested", VStr "SCHED_OTHER")]))
    [[("success", VBool true)]; [("success", VBool true); ("eventual_success", VBool false)]; []] =
  [Ok (Some "a"); Ok None; Ok None] ∧
  foldl (λ g p, group_run g p.1 p.2) [] [("b", "/r/2"); ("a", "/r/1"); ("b", "/r/3")] = [("b", ["/r/2"; "/r/3"]); ("a", ["/r/1"])].
Proof. split; vm_compute; reflexivity. Qed.

(** ** Where profiles come from *)

Section evidence.
Context {W : Type} `{OS W} {T : Type}.
Abbreviation state := (T * world W)%type.
Implicit Types x y z : state.

(** The file [path] held [value] when it was read. *)
Definition held (path : string) (value : pyval) : Prop := ∃ w, (handle (ReadJson path) w).1 = Ok value.
(** The files of a run that succeeded under the default scheduler, for a case. *)
Definition evidence (case_id run_dir : string) : Prop :=
  ∃ case_path case summary manifest, run_dir = parent case_path ∧ held case_path case ∧
    held (run_dir // "steady_summary.json") summary ∧ held (run_dir // "run_manifest.json") manifest ∧
    case_of_run case summary manifest = Ok (Some case_id).
Definition supported (grouped : groups) : Prop :=
  NoDup (dkeys grouped) ∧ ∀ g, g ∈ grouped → g.1 ≠ "" ∧ ∀ run, run ∈ g.2 → evidence g.1 run.

Lemma case_of_run_named case summary manifest case_id :
  case_of_run case summary manifest = Ok (Some case_id) → case_id ≠ "".
Proof.
  unfold case_of_run. intros (s & _ & Hs)%outcome_bind_ok. destruct (negb _); [done|].
  apply outcome_bind_ok in Hs as (m & _ & Hm). destruct (negb _); [done|].
  apply outcome_bind_ok in Hm as (c & _ & Hc). case_bool_decide; congruence.
Qed.
Lemma group_run_supported grouped case_id run :
  supported grouped → case_id ≠ "" → evidence case_id run → supported (group_run grouped case_id run).
Proof.
  intros [Hnd Hg] Hne He. split; [by apply NoDup_dset|]. intros g Hin. unfold group_run in Hin.
  assert (g ∈ grouped ∨ g = (case_id, default [] (dget case_id grouped) ++ [run])) as [Hg'| ->].
  { clear -Hin. revert Hin. generalize (default [] (dget case_id grouped) ++ [run]). intros v Hin.
    induction grouped as [|[k u] l IH]; simpl in Hin; [set_solver|]. case_bool_decide; set_solver. }
  - by apply Hg.
  - split; [done|]. intros r. simpl. rewrite elem_of_app, list_elem_of_singleton. intros [Hr| ->]; [|done].
    destruct (dget case_id grouped) as [l|] eqn:Hl; simpl in Hr; [|by apply elem_of_nil in Hr].
    by apply (Hg (case_id, l)); [apply dget_elem|].
Qed.
Lemma read_files_held p q r x :
  wp (read_files p q r) (λ f _, match f with
    | Some (a, b, c) => held p a ∧ held q b ∧ held r c | None => True end) (λ _ _, True) x.
Proof.
  unfold read_files. apply wp_try. eapply (wp_conseq _ (λ f _, match f with
    | Some (a, b, c) => held p a ∧ held q b ∧ held r c | None => True end) _ (λ _ _, True)); [|done|].
  - destruct x as [t w]. apply wp_bind, wp_sys. intros [a|] o Ha; [|done].
    apply wp_bind, wp_sys. simpl. intros [b|] o' Hb; [|done].
    apply wp_bind, wp_sys. simpl. intros [c|] o'' Hc; [|done]. apply wp_ret.
    split_and!; eexists; [by rewrite Ha|by rewrite Hb|by rewrite Hc].
  - intros e y _. by destruct (_ || _).
Qed.
Lemma add_case_supported grouped path x :
  supported grouped → wp (add_case_path grouped path) (λ g _, supported g) (λ _ _, True) x.
Proof.
  intros Hg. unfold add_case_path. apply wp_skip; [intros s x1|done].
  apply wp_skip; [intros m x2|done]. destruct (negb m); [by apply wp_ret|].
  apply wp_bind. eapply wp_conseq; [apply read_files_held| |done]. intros [[[a b] c]|] x3 Hf; [|by apply wp_ret].
  apply wp_bind, wp_lift. destruct (case_of_run a b c) as [[case_id|]|] eqn:Hc; [|by apply wp_ret|done].
  apply wp_ret, group_run_supported; [done|by eapply case_of_run_named|].
  destruct Hf as (? & ? & ?). by exists path, a, b, c.
Qed.
Lemma fold_supported paths grouped x :
  supported grouped → wp (fold_each paths grouped add_case_path) (λ g _, supported g) (λ _ _, True) x.
Proof.
  revert grouped x. induction paths as [|p l IH]; intros grouped x Hg; simpl; [by apply wp_ret|].
  apply wp_bind. eapply wp_conseq; [by apply add_case_supported| |done]. intros g y Hy. by apply IH.
Qed.
Lemma insert_key_perm {A} (p : string * A) l : insert_key p l ≡ₚ p :: l.
Proof.
  induction l as [|q l IH]; simpl; [done|]. destruct (String.leb _ _); [done|]. rewrite IH. constructor.
Qed.
Lemma sort_keys_perm {A} (l : list (string * A)) : sort_keys l ≡ₚ l.
Proof.
  induction l as [|p l IH]; [done|]. change (sort_keys (p :: l)) with (insert_key p (sort_keys l)).
  by rewrite insert_key_perm, IH.
Qed.
Lemma successful_supported root x : wp (successful_other_runs root) (λ g _, supported g) (λ _ _, True) x.
Proof.
  unfold successful_other_runs. apply wp_skip; [intros paths y|done].
  apply wp_bind. eapply wp_conseq; [apply fold_supported| |done].
  { split; [constructor|]. by intros g ?%elem_of_nil. }
  intros grouped z [Hnd Hg]. apply wp_ret. split.
  - unfold dkeys. rewrite map_map. simpl. change (NoDup (dkeys (sort_keys grouped))). unfold dkeys.
    by rewrite sort_keys_perm.
  - intros g (h & -> & Hh)%list_elem_of_fmap. rewrite sort_keys_perm in Hh. destruct (Hg h Hh) as [Hne He].
    split; [done|]. simpl. intros run. rewrite sort_by_perm. apply He.
Qed.

(** What the program has written when it returns: one entry for each case. *)
Definition index_of (grouped : groups) (profiles : list pyval) : Prop :=
  Forall2 (λ g v, ∃ profile trace_runs metadata, v = profile_entry g.1 profile trace_runs metadata ∧
    length trace_runs = length g.2) grouped profiles.
Lemma generate_one_entry output_dir p g x :
  wp (generate_one output_dir p g) (λ v _, ∃ profile trace_runs metadata,
    v = profile_entry g.1 profile trace_runs metadata ∧ length trace_runs = length g.2) (λ _ _, True) x.
Proof.
  unfold generate_one. apply wp_skip; [intros metadata y|done]. apply wp_skip; [intros profile z|done].
  apply wp_bind. eapply (wp_conseq _ (λ l _, length l = length g.2) _ (λ _ _, True)); [| |done].
  - generalize g.2. intros l. revert z. induction l as [|r l IH]; intros z; simpl; [by apply wp_ret|].
    apply wp_skip; [intros a z1|done]. apply wp_bind. eapply wp_conseq; [apply IH| |done]. intros k z2 Hk. apply wp_ret. simpl. by f_equal.
  - intros l y' Hl. apply wp_ret. by exists profile, l, metadata.
Qed.

(** Profiles come from enough evidence.  When the program returns, the index that it wrote last has one profile for
    each case of which a run succeeded, no case twice, and each from at least the minimum number of runs; and for each
    of these runs the files said, when they were read, that it succeeded under SCHED_OTHER and belongs to the case. *)
Theorem profiles_have_evidence (o : profile_options) (x : state) :
  wp (main o) (λ _ y, ∃ grouped profiles log, supported grouped ∧ grouped ≠ [] ∧ index_of grouped profiles ∧
      (∀ g, g ∈ grouped → 1 <= po_minimum_runs o <= Z.of_nat (length g.2)) ∧
      w_log y.2 = log ++ [EWriteJson (po_output_dir o // "index.json")
        (VDict [("schema_version", VInt 1); ("profiles", VList profiles)])]) (λ _ _, True) x.
Proof.
  unfold main. do 2 (apply wp_skip; [intros ? ?|done]). apply wp_bind, wp_when; intros Hmin; [done|].
  apply bool_decide_eq_false in Hmin. apply wp_skip; [intros root x1|done].
  apply wp_bind. eapply wp_conseq; [apply successful_supported| |done]. intros grouped x2 Hs.
  apply wp_bind, wp_when; intros Hne; [done|]. apply bool_decide_eq_false in Hne.
  apply wp_bind, wp_when; intros Hi; [done|]. apply negb_false_iff, bool_decide_eq_true in Hi.
  apply wp_skip; [intros ? x3|done].
  set (p := {| runtime_margin := _ |}). apply wp_bind.
  eapply (wp_conseq _ (λ l _, index_of grouped l) _ (λ _ _, True)); [| |done].
  - clear Hs Hne Hi. unfold index_of. revert x3. induction grouped as [|g l IH]; intros x3; simpl; [by apply wp_ret; constructor|].
    apply wp_bind. eapply wp_conseq; [apply generate_one_entry| |done]. intros v y Hv.
    apply wp_bind. eapply wp_conseq; [apply IH| |done]. intros vs z Hvs. apply wp_ret. by constructor.
  - intros profiles [t w] Hp. apply wp_sys. intros [[]|] o' Ho; [|done].
    exists grouped, profiles, (w_log w). split_and!; [done..| |done]. intros g Hg. split; [lia|].
    destruct (decide (Z.of_nat (length g.2) < po_minimum_runs o)) as [Hlt|]; [|lia].
    assert (g ∈ insufficient (po_minimum_runs o) grouped) as Hin by by apply list_elem_of_filter.
    rewrite Hi in Hin. by apply elem_of_nil in Hin.
Qed.
End evidence.
