(* ===== verification/TimerlatLoad.v ===== *)
(** * The camera load of a timer-latency run ([timerlat_workload.py])

    The class [ManagedCameraLoad]: the steady probe started beside [rtla], the
    wait for its steady state, and its end.  Redirecting its output and the
    working directory are left out, except that the files are created. *)
From Stdlib Require Import Ascii ZArith Lia Floats.SpecFloat.
From S2P Require Import Prelude PyStr PyFloat PyVal PyJson Effects Machine.
From stdpp Require Import base gmap strings list.
Local Open Scope Z_scope.
Local Open Scope py_scope.
Local Open Scope M_scope.

(** The arguments of the class. *)
Record load_config := {
  lc_probe : string;
  lc_serials : list string;
  lc_duration_seconds : Z;
  lc_timerlat_warmup_seconds : Z;
  lc_guard_seconds : Z;
}.
(** The attributes that change. *)
Record ManagedCameraLoad := Load {
  cl_config : load_config;
  cl_process : option Z;
  cl_command : list string;
  cl_summary_path : option string;
  cl_lifecycle_path : option string;
  cl_started_boottime_ns : Z;
  cl_ready_boottime_ns : Z;
}.
Definition new_load (c : load_config) : ManagedCameraLoad := Load c None [] None None 0 0.
Definition set_process (p : option Z) (l : ManagedCameraLoad) : ManagedCameraLoad :=
  Load (cl_config l) p (cl_command l) (cl_summary_path l) (cl_lifecycle_path l) (cl_started_boottime_ns l)
    (cl_ready_boottime_ns l).
Definition set_paths (record_dir : string) (l : ManagedCameraLoad) : ManagedCameraLoad :=
  Load (cl_config l) (cl_process l) (cl_command l) (Some (record_dir // "camera_summary.json"))
    (Some (record_dir // "camera_lifecycle.jsonl")) (cl_started_boottime_ns l) (cl_ready_boottime_ns l).
Definition set_command (command : list string) (l : ManagedCameraLoad) : ManagedCameraLoad :=
  Load (cl_config l) (cl_process l) command (cl_summary_path l) (cl_lifecycle_path l) (cl_started_boottime_ns l)
    (cl_ready_boottime_ns l).
Definition set_started (t : Z) (l : ManagedCameraLoad) : ManagedCameraLoad :=
  Load (cl_config l) (cl_process l) (cl_command l) (cl_summary_path l) (cl_lifecycle_path l) t (cl_ready_boottime_ns l).
Definition set_ready (t : Z) (l : ManagedCameraLoad) : ManagedCameraLoad :=
  Load (cl_config l) (cl_process l) (cl_command l) (cl_summary_path l) (cl_lifecycle_path l)
    (cl_started_boottime_ns l) t.

(** ** [phase_marker_seen] *)

Fixpoint marker_in (marker : string) (lines : list string) : outcome bool :=
  match lines with
  | [] => Ok false
  | line :: lines =>
      match json_loads line with
      | Raise e => if is_class JSONDecodeError e then marker_in marker lines else Raise e
      | Ok event =>
          d ← as_dict event;
          if py_eq (dgetd "event" VNone d) (VStr "phase_marker") && py_eq (dgetd "name" VNone d) (VStr marker)
          then Ok true else marker_in marker lines
      end
  end.
Definition phase_marker_seen {W} `{OS W} {T} (path marker : string) : M (T * world W) bool :=
  file <- sys (IsFile path) ;;
  if negb file then ret false else
  text <- try_except is_OSError (t <- sys (ReadText path) ;; ret (Some t)) (λ _, ret None) ;;
  match text with
  | None => ret false
  | Some t => lift (marker_in marker (py_splitlines t))
  end.

Section load.
Context {W : Type} `{OS W} (fuel : nat).
Abbreviation IO := (M (ManagedCameraLoad * world W)).

Definition running : IO bool :=
  process <- self cl_process ;;
  match process with
  | None => ret false
  | Some pid => status <- sys (Poll pid) ;; ret (bool_decide (status = None))
  end.

(** ** The command *)

(** The words of the command that the case gives. *)
Definition camera_words (camera : pydict) (fps frames : Z) : outcome (list string) :=
  let word k := (v ← subscript camera k; Ok (str_val v)) in
  count ← word "count"; stream_mode ← word "stream_mode"; warmup ← word "warmup_frames";
  frame_timeout ← word "frame_timeout_ms"; startup_timeout ← word "startup_timeout_ms";
  depth_width ← word "depth_width"; depth_height ← word "depth_height";
  color_width ← word "color_width"; color_height ← word "color_height";
  Ok ["--camera-count"; count; "--stream-mode"; stream_mode; "--delivery";
      str_val (dgetd "delivery" (VStr "wait") camera); "--frames"; str_Z frames; "--warmup-frames"; warmup;
      "--frame-timeout-ms"; frame_timeout; "--startup-timeout-ms"; startup_timeout; "--fps"; str_Z fps;
      "--depth-width"; depth_width; "--depth-height"; depth_height; "--color-width"; color_width;
      "--color-height"; color_height].
Definition _build_command (case : pydict) (record_dir : string) : IO (list string) :=
  camera <- lift (v ← subscript case "camera"; as_dict v) ;;
  fps <- lift (v ← subscript camera "fps"; py_int v) ;;
  config <- self cl_config ;;
  let measurement_seconds := lc_duration_seconds config + lc_timerlat_warmup_seconds config + lc_guard_seconds config in
  set_self (set_paths record_dir) ;;
  words <- lift (camera_words camera fps (measurement_seconds * fps)) ;;
  ret (["chrt"; "--other"; "0"; lc_probe config]
       ++ (lc_serials config ≫= λ serial, ["--serial"; serial]) ++ words
       ++ ["--summary-output"; record_dir // "camera_summary.json";
           "--events-output"; record_dir // "camera_frame_events.csv"]).

(** ** The process *)

Definition start (case : pydict) (record_dir : string) : IO unit :=
  process <- self cl_process ;;
  when (bool_decide (is_Some process)) (throw RuntimeError "Camera load is already active") ;;
  command <- _build_command case record_dir ;;
  set_self (set_command command) ;;
  lifecycle_path <- self cl_lifecycle_path ;;
  match lifecycle_path with
  | None => throw AssertionError ""
  | Some path =>
      sys (WriteText (record_dir // "camera_stdout.txt") "") ;;
      sys (WriteText (record_dir // "camera_stderr.txt") "") ;;
      started <- sys BoottimeNs ;;
      set_self (set_started started) ;;
      pid <- sys (Spawn command [("RS_THREAD_TRACE_FILE", path)]) ;;
      set_self (set_process (Some pid))
  end.

Definition command_item : IO (string * pyval) :=
  command <- self cl_command ;; ret ("command", VList (map VStr command)).
Definition not_ready (status : option Z) (error : string) : IO pydict :=
  command <- command_item ;;
  ret [("ready", VBool false); ("returncode", match status with Some s => VInt s | None => VNone end);
       ("error", VStr error); command].
Definition now_ready : IO pydict :=
  t <- sys BoottimeNs ;;
  set_self (set_ready t) ;;
  started <- self cl_started_boottime_ns ;;
  command <- command_item ;;
  ret [("ready", VBool true); ("started_boottime_ns", VInt started); ("ready_boottime_ns", VInt t); command].
(** The [while] loop. *)
Fixpoint await_steady (fuel : nat) (pid : Z) (lifecycle_path : string) (deadline : f64) : IO pydict :=
  match fuel with
  | O => throw OutOfFuel ""
  | S fuel =>
      now <- sys Monotonic ;;
      if negb (f_lt now deadline) then
        status <- sys (Poll pid) ;; not_ready status "timed out waiting for steady_state_begin"
      else
      seen <- phase_marker_seen lifecycle_path "steady_state_begin" ;;
      if (seen : bool) then now_ready else
      status <- sys (Poll pid) ;;
      match status with
      | Some _ => not_ready status "camera probe exited before steady_state_begin"
      | None => sys (Sleep (f_dec 5 (-2))) ;; await_steady fuel pid lifecycle_path deadline
      end
  end.
Definition wait_until_steady (timeout_seconds : f64) : IO pydict :=
  process <- self cl_process ;;
  lifecycle_path <- self cl_lifecycle_path ;;
  match process, lifecycle_path with
  | Some pid, Some path =>
      now <- sys Monotonic ;; await_steady fuel pid path (f_add now timeout_seconds)
  | _, _ => throw RuntimeError "Camera load was not started"
  end.

Definition read_summary : IO pyval :=
  summary_path <- self cl_summary_path ;;
  match summary_path with
  | None => ret (VDict [])
  | Some path =>
      file <- sys (IsFile path) ;;
      if negb file then ret (VDict []) else
      try_except (λ e, is_OSError e || is_class JSONDecodeError e) (sys (ReadJson path)) (λ _, ret (VDict []))
  end.

(** Waiting, then terminating, then killing: the status, [terminated] and
    [forced_kill]. *)
Definition await_exit (pid : Z) (timeout_seconds : f64) : IO (Z * (bool * bool)) :=
  try_except (is_class TimeoutExpired)
    (status <- sys (Wait pid timeout_seconds) ;; ret (status, (false, false)))
    (λ _,
      sys (Terminate pid) ;;
      try_except (is_class TimeoutExpired)
        (status <- sys (Wait pid (f_of_Z 5)) ;; ret (status, (true, false)))
        (λ _, sys (Kill pid) ;; status <- sys (Wait pid (f_of_Z 5)) ;; ret (status, (true, true)))).
Definition finish (timeout_seconds : f64) : IO pydict :=
  process <- self cl_process ;;
  match process with
  | None => ret [("started", VBool false); ("returncode", VStr ""); ("forced_kill", VBool false)]
  | Some pid =>
      exit <- await_exit pid timeout_seconds ;;
      let '(status, (terminated, forced_kill)) := exit in
      started <- self cl_started_boottime_ns ;;
      ready <- self cl_ready_boottime_ns ;;
      ended <- sys BoottimeNs ;;
      command <- command_item ;;
      set_self (set_process None) ;;
      ret [("started", VBool true); ("returncode", VInt status); ("terminated", VBool terminated);
           ("forced_kill", VBool forced_kill); ("started_boottime_ns", VInt started);
           ("ready_boottime_ns", VInt ready); ("ended_boottime_ns", VInt ended); command]
  end.
Definition stop : IO pydict := finish f_zero.
End load.
