(* ===== verification/TimerlatBench.v ===== *)
(** * One timer-latency campaign run ([timerlat_benchmark.py])

    The class [RealSenseTimerlatBench]: [rtla timerlat] beside a camera load and
    a CPU workload, the verdict on an attempt, the attempt loop, the result row
    and the cleanup.  What [subprocess.TimeoutExpired] carries of the output is
    an argument ([partial]). *)
From Stdlib Require Import Ascii ZArith Lia Floats.SpecFloat.
From S2P Require Import Prelude PyStr PyFloat PyVal PyJson Effects Machine.
From S2P Require Import Attempts SteadyAttempts SystemControls Recovery Memory Shell Commands Noise Timerlat.
From S2P Require Import SteadyResults TimerlatLoad.
From stdpp Require Import base gmap strings list.
Local Open Scope Z_scope.
Local Open Scope py_scope.
Local Open Scope M_scope.

(** ** Settings *)

Definition CAMPAIGN_CAMERA_GUARD_SECONDS : Z := 5.
Definition CAMPAIGN_CPU_NOISE_WORKERS : Z := 4.
Definition CAMPAIGN_DROP_CACHES_BEFORE_RUN : bool := true.

(** ** The kernel *)

Section kernel.
Context {W : Type} `{OS W} {T : Type}.
Abbreviation IO := (M (T * world W)).
Definition preempt_rt_enabled : IO bool :=
  realtime <- try_except is_OSError
    (text <- sys (ReadText "/sys/kernel/realtime") ;; ret (bool_decide (py_strip text = "1")))
    (λ _, ret false) ;;
  if (realtime : bool) then ret true else
  version <- sys KernelVersion ;;
  ret (py_contains "PREEMPT_RT" version).
Definition bool_text (b : bool) : string := if b then "True" else "False".
Definition validate_kernel_label (label : string) : IO pydict :=
  detected_rt <- preempt_rt_enabled ;;
  let expected_rt := bool_decide (label = "linux_preempt_rt") in
  if negb (eqb detected_rt expected_rt) then
    throw RuntimeError ("kernel label " +:+ py_repr label +:+ " expects PREEMPT_RT=" +:+ bool_text expected_rt
      +:+ ", but the running kernel reports PREEMPT_RT=" +:+ bool_text detected_rt)
  else
  release <- sys Release ;;
  version <- sys KernelVersion ;;
  machine <- sys MachineName ;;
  ret [("label", VStr label); ("release", VStr release); ("version", VStr version); ("machine", VStr machine);
       ("preempt_rt", VBool detected_rt)].
End kernel.

(** ** Construction *)

Record timerlat_arguments := {
  ta_repo_root : string;
  ta_cases : list pydict;
  ta_timerlat : pydict;
  ta_kernel_label : string;
  ta_serials : list string;
  ta_build_dir : string;
  ta_rtla : string;
  ta_use_sudo : bool;
  ta_recover_on_failure : string;
  ta_reset_before_run : bool;
  ta_recovery_reset_timeout_ms : Z;
  ta_recovery_wait_seconds : f64;
  ta_recovery_settle_seconds : f64;
  ta_max_attempts_per_run : Z;
  ta_build_jobs : Z;
}.
(** The attributes that do not change. *)
Record RealSenseTimerlatBench := {
  t_arguments : timerlat_arguments;
  t_cases : list (string * pydict);
  t_kernel : pydict;
  t_build_dir : string;
}.
(** The attributes that do: the machine controls, the CPU workload, the camera
    load that is running, the path of [rtla]. *)
Record tbench := TBench {
  tb_controls : SystemControls;
  tb_noise : noise;
  tb_active : option ManagedCameraLoad;
  tb_rtla : string;
}.
Definition set_controls (c : SystemControls) (b : tbench) : tbench := TBench c (tb_noise b) (tb_active b) (tb_rtla b).
Definition set_noise (n : noise) (b : tbench) : tbench := TBench (tb_controls b) n (tb_active b) (tb_rtla b).
Definition set_active (a : option ManagedCameraLoad) (b : tbench) : tbench :=
  TBench (tb_controls b) (tb_noise b) a (tb_rtla b).
Definition set_rtla (r : string) (b : tbench) : tbench := TBench (tb_controls b) (tb_noise b) (tb_active b) r.

Definition timerlat_case_key (cases : list (string * pydict)) (case : pydict) : outcome (list (string * pydict)) :=
  id ← subscript case "case_id"; Ok (dset (str_val id) case cases).
Definition new_timerlat_bench {W} `{OS W} {T} (a : timerlat_arguments) : M (T * world W) RealSenseTimerlatBench :=
  cases <- lift (fold_outcome timerlat_case_key [] (ta_cases a)) ;;
  kernel <- validate_kernel_label (ta_kernel_label a) ;;
  build_dir <- sys (Resolve (ta_build_dir a)) ;;
  ret {| t_arguments := a; t_cases := cases; t_kernel := kernel; t_build_dir := build_dir |}.

(** [case.get("camera", {}).get("enabled")] and the like. *)
Definition section_field (case : pydict) (name k : string) (default : pyval) : outcome pyval :=
  field (dgetd name (VDict []) case) k default.
Definition camera_enabled_of (case : pydict) : outcome bool :=
  v ← section_field case "camera" "enabled" VNone; Ok (truthy v).
Definition noise_mode_of (case : pydict) : outcome string :=
  v ← section_field case "noise" "cpu" (VStr "none"); Ok (str_val v).
Definition camera_count_of (case : pydict) : outcome Z :=
  v ← section_field case "camera" "count" (VInt 0); py_int v.
(** [any(p(case) for case in cases)]. *)
Fixpoint any_case (p : pydict → outcome bool) (cases : list pydict) : outcome bool :=
  match cases with
  | [] => Ok false
  | case :: cases => b ← p case; if (b : bool) then Ok true else any_case p cases
  end.
(** [serials[:count]]. *)
Definition first_serials (count : Z) (serials : list string) : list string :=
  take (Z.to_nat (if bool_decide (count < 0) then Z.of_nat (length serials) + count else count)) serials.

(** [try] with a [finally] clause that changes local variables. *)
Definition finally_with {S A B} (m : M S A) (f : M S B) : M S (A * B) := λ s,
  match m s with
  | (Ok a, s') => bind f (λ b, ret (a, b)) s'
  | (Raise e, s') => bind f (λ _, rethrow e) s'
  end.

Section bench.
Context {W : Type} `{OS W} (s : RealSenseTimerlatBench) (fuel : nat) (executable : string).
Context (partial : exn → string * string).
Abbreviation IO := (M (tbench * world W)).
Abbreviation args := (t_arguments s).

Definition STEADY_TOOL_DIR : string := TOOL_DIR (ta_repo_root args).
Definition _probe : string := t_build_dir s // "realsense_steady_probe".
Definition _reset_probe : string := t_build_dir s // "d435_sensor_probe".
Definition controls_config : SystemControlConfig := {|
  SystemControls.repo_root := ta_repo_root args; tool_dir := STEADY_TOOL_DIR;
  SystemControls.use_sudo := ta_use_sudo args; cpu_frequency_mhz := Some PAPER_CPU_FREQUENCY_MHZ;
  cpu_lock_script := CPU_LOCK (ta_repo_root args); cpu_restore_script := CPU_RESTORE (ta_repo_root args);
  rsusb_backend := false; rsusb_usb_devices := []; rsusb_helper := "/unused"; rsusb_prepare_each_attempt := false;
  rsusb_prepare_timeout_seconds := f_of_Z 10; rsusb_unbind_settle_seconds := f_dec 25 (-2);
  disable_realsense_autosuspend := true; SystemControls.usb_sysfs_base := "/sys/bus/usb/devices";
  cpu_isolation_enabled := false; housekeeping_cpus := "0"; benchmark_cpus := "1-3" |}.
Definition recovery_config : CameraRecoveryConfig W tbench := {|
  Recovery.repo_root := ta_repo_root args; reset_probe := _reset_probe; Recovery.use_sudo := ta_use_sudo args;
  reset_timeout_ms := ta_recovery_reset_timeout_ms args;
  enumeration_timeout_seconds := ta_recovery_wait_seconds args; prepare_enumeration_probe := None |}.
Definition _cpu_noise : ManagedNoiseProcess (W := W) := CpuBusyLoopNoise {|
  cpu_executable := t_build_dir s // "realsense_cpu_noise"; cpu_modes := ["none"; "busy_loop"];
  cpu_workers := CAMPAIGN_CPU_NOISE_WORKERS; cpu_warmup_seconds := f_of_Z 10;
  cpu_ready_timeout_seconds := f_of_Z 30; cpu_affinity := None |}.
(** A method of the machine controls, of the CPU workload, of the camera load
    that is running. *)
Definition controls {A} (m : M (SystemControls * world W) A) : IO A := zoom tb_controls set_controls m.
Definition cpu_noise {A} (m : M (noise * world W) A) : IO A := zoom tb_noise set_noise m.
Definition on_load {A} (m : M (ManagedCameraLoad * world W) A) : IO A := λ '(b, w),
  match tb_active b with
  | Some l => let '(r, (l', w')) := m (l, w) in (r, (set_active (Some l') b, w'))
  | None => (raise AttributeError "'NoneType' object has no attribute", (b, w))
  end.

(** ** [prebuild_bench] *)

Definition _rtla_executable : IO string :=
  rtla <- self tb_rtla ;;
  resolved <- sys (WhichPath rtla) ;;
  match given resolved with
  | Some path => ret path
  | None =>
      file <- sys (IsFile rtla) ;;
      found <- (if (file : bool) then sys (MayExecute rtla) else ret false) ;;
      if (found : bool) then sys (Resolve rtla)
      else throw RuntimeError ("rtla executable not found: " +:+ rtla)
  end.
(** One of the paths: the tracer is listed in it. *)
Definition tracer_listed (path : string) : IO bool :=
  text <- try_except is_OSError (t <- sys (ReadText path) ;; ret (Some t)) (λ _, ret None) ;;
  match text with
  | Some t => ret (bool_decide ("timerlat" ∈ py_words t))
  | None =>
      if negb (ta_use_sudo args) then ret false else
      completed <- sys (RunCommand ["sudo"; "--non-interactive"; "cat"; path] None (Some (f_of_Z 5))) ;;
      ret (bool_decide (returncode completed = 0) && bool_decide ("timerlat" ∈ py_words (stdout completed)))
  end.
Definition _timerlat_tracer_available : IO bool :=
  first <- tracer_listed "/sys/kernel/tracing/available_tracers" ;;
  if (first : bool) then ret true else tracer_listed "/sys/kernel/debug/tracing/available_tracers".

Definition configure_command : list string :=
  ["cmake"; "-S"; ta_repo_root args; "-B"; t_build_dir s; "-DCMAKE_BUILD_TYPE=RelWithDebInfo";
   "-DFORCE_RSUSB_BACKEND=OFF"; "-DRS_CAMERA_BUILD_GPU_NOISE=OFF"].
Definition build_command (targets : list string) : list string :=
  ["cmake"; "--build"; t_build_dir s; "--target"] ++ targets ++ ["--parallel"; str_Z (ta_build_jobs args)].
Definition prebuild_bench : IO Z :=
  rtla <- _rtla_executable ;;
  set_self (set_rtla rtla) ;;
  available <- _timerlat_tracer_available ;;
  when (negb available)
    (throw RuntimeError ("The running kernel does not expose timerlat. Mount tracefs and " +:+
       "enable CONFIG_OSNOISE_TRACER and CONFIG_TIMERLAT_TRACER.")) ;;
  controls (SystemControls.validate_environment controls_config) ;;
  when CAMPAIGN_DROP_CACHES_BEFORE_RUN (Memory.validate (ta_use_sudo args)) ;;
  camera_enabled <- lift (any_case camera_enabled_of (t_cases s).*2) ;;
  cpu_noise_enabled <- lift (any_case (λ case, v ← section_field case "noise" "cpu" VNone;
                                              Ok (py_eq v (VStr "busy_loop"))) (t_cases s).*2) ;;
  when (camera_enabled && (bool_decide (ta_recover_on_failure args = "full-reset") || ta_reset_before_run args))
    (Recovery.validate_environment recovery_config) ;;
  when cpu_noise_enabled (cpu_noise (Noise.validate_environment _cpu_noise)) ;;
  let targets := (if (camera_enabled : bool) then ["realsense_steady_probe"; "d435_sensor_probe"] else [])
                 ++ (if (cpu_noise_enabled : bool) then ["realsense_cpu_noise"] else []) in
  when (negb (bool_decide (targets = [])))
    (check_call configure_command ;; check_call (build_command targets)) ;;
  ret 0.

(** ** One attempt *)

Definition setting (k : string) : outcome pyval := subscript (ta_timerlat args) k.
Definition setting_word (k : string) : outcome string := v ← setting k; Ok (str_val v).
Definition setting_int (k : string) : outcome Z := v ← setting k; py_int v.
Definition _timerlat_command (rtla : string) : outcome (list string) :=
  cpu_list ← setting_word "cpu_list"; period_us ← setting_word "period_us"; policy ← setting_word "policy";
  warmup ← setting_word "warmup_seconds"; duration ← setting_word "duration_seconds";
  bucket_us ← setting_word "bucket_us"; entries ← setting_word "entries";
  let command := [rtla; "timerlat"; "hist"; "-k"; "-c"; cpu_list; "-p"; period_us; "-P"; policy; "--warm-up"; warmup;
                  "-d"; duration +:+ "s"; "-b"; bucket_us; "-E"; entries; "--no-aa"] in
  Ok (if ta_use_sudo args then ["sudo"; "--non-interactive"] ++ command else command).

Definition _prepare_attempt (attempt : Z) (attempt_dir : string) : IO unit :=
  sys (Mkdir attempt_dir false) ;;
  controls (prepare_attempt controls_config fuel attempt attempt_dir) ;;
  when CAMPAIGN_DROP_CACHES_BEFORE_RUN (drop_caches (ta_use_sudo args) attempt_dir).

(** [_start_camera]: what it returns of the load is the attribute. *)
Definition no_camera : pydict := [("ready", VBool true); ("enabled", VBool false)].
Definition _start_camera (case : pydict) (attempt_dir : string) : IO (bool * pydict) :=
  enabled <- lift (camera_enabled_of case) ;;
  if negb enabled then ret (false, no_camera) else
  camera <- lift (as_dict (dgetd "camera" (VDict []) case)) ;;
  count <- lift (v ← subscript camera "count"; py_int v) ;;
  duration_seconds <- lift (setting_int "duration_seconds") ;;
  warmup_seconds <- lift (setting_int "warmup_seconds") ;;
  set_self (set_active (Some (new_load {| lc_probe := _probe; lc_serials := first_serials count (ta_serials args);
    lc_duration_seconds := duration_seconds; lc_timerlat_warmup_seconds := warmup_seconds;
    lc_guard_seconds := CAMPAIGN_CAMERA_GUARD_SECONDS |}))) ;;
  on_load (TimerlatLoad.start case attempt_dir) ;;
  timeout <- lift (v ← subscript camera "startup_timeout_ms"; py_float v) ;;
  ready <- on_load (wait_until_steady fuel (f_add (f_div_raw timeout (f_of_Z 1000)) (f_of_Z 10))) ;;
  sys (WriteJson (attempt_dir // "camera_ready.json") (VDict ready)) ;;
  ret (true, ready).

Definition timed_out (e : exn) : completed :=
  Completed 124 (partial e).1 ((partial e).2 +:+ nl +:+ "rtla process timed out" +:+ nl).
Definition _run_timerlat (attempt_dir : string) : IO (string * pydict) :=
  rtla <- self tb_rtla ;;
  command <- lift (_timerlat_command rtla) ;;
  sys (WriteJson (attempt_dir // "timerlat_command.json") (VList (map VStr command))) ;;
  started_ns <- sys BoottimeNs ;;
  completed <- try_except (is_class TimeoutExpired)
    (duration <- lift (setting_int "duration_seconds") ;;
     warmup <- lift (setting_int "warmup_seconds") ;;
     sys (RunCommand command None (Some (f_of_Z (duration + warmup + 60)))))
    (λ e, ret (timed_out e)) ;;
  ended_ns <- sys BoottimeNs ;;
  let process := [("command", VList (map VStr command)); ("returncode", VInt (returncode completed));
                  ("started_boottime_ns", VInt started_ns); ("ended_boottime_ns", VInt ended_ns)] in
  sys (WriteText (attempt_dir // "timerlat_hist.txt") (stdout completed)) ;;
  sys (WriteText (attempt_dir // "timerlat_stderr.txt") (stderr completed)) ;;
  sys (WriteJson (attempt_dir // "timerlat_process.json") (VDict process)) ;;
  ret (stdout completed, process).

(** The dictionary that [parse_timerlat_histogram] returns. *)
Definition opt_int (v : option Z) : pyval := match v with Some z => VInt z | None => VNone end.
Definition context_value (c : context) : pyval := VDict (dupdate (map (λ kv, (kv.1, VInt kv.2)) (counters c)) [
  ("over", VInt (over c)); ("histogram_count", VInt (histogram_count c)); ("p50_us", opt_int (p50_us c));
  ("p99_us", opt_int (p99_us c)); ("p999_us", opt_int (p999_us c)); ("p9999_us", opt_int (p9999_us c))]).
Definition histogram_value (h : histogram) : pydict := [
  ("schema_version", VInt 1); ("columns", VList (map VStr (h_columns h)));
  ("contexts", VDict (map (λ kc, (kc.1, context_value kc.2)) (contexts h)));
  ("global", VDict [("irq_max_us", VInt (irq_max_us h)); ("thread_max_us", VInt (thread_max_us h));
     ("irq_p999_us_max_cpu", opt_int (irq_p999_us_max_cpu h));
     ("thread_p999_us_max_cpu", opt_int (thread_p999_us_max_cpu h));
     ("overflow_samples", VInt (overflow_samples h))])].

(** The local variables of [_run_attempt] that its [try] statement sets. *)
Record attempt_data := {
  ad_output : string;
  ad_load : option ManagedCameraLoad;
  ad_ready : pydict;
  ad_timerlat_process : pydict;
  ad_timerlat : pydict;
  ad_camera_process : pydict;
  ad_parse_error : string;
}.
(** [finish] or [stop] of the running load, which is then forgotten; its value
    and its result. *)
Definition end_camera (m : M (ManagedCameraLoad * world W) pydict) : IO (option ManagedCameraLoad * pydict) :=
  process <- on_load m ;;
  load <- self tb_active ;;
  set_self (set_active None) ;;
  ret (load, process).
(** The histogram and the error of the parser, or of writing the histogram,
    which is kept then. *)
Definition parse_histogram (output attempt_dir : string) : IO (pydict * string) :=
  match parse_timerlat_histogram output with
  | Ok h =>
      let data := histogram_value h in
      try_except is_ValueError
        (sys (WriteJson (attempt_dir // "timerlat_histogram.json") (VDict data)) ;; ret (data, ""))
        (λ e, ret (data, exn_msg e))
  | Raise e => if is_ValueError e then ret ([], exn_msg e) else rethrow e
  end.
Definition measure (case : pydict) (noise_mode attempt_dir : string) : IO attempt_data :=
  noise_ready <- cpu_noise (Noise.start _cpu_noise fuel noise_mode attempt_dir) ;;
  sys (WriteJson (attempt_dir // "cpu_noise_configuration.json") (VDict noise_ready)) ;;
  started <- _start_camera case attempt_dir ;;
  let '(has_camera, ready) := (started : bool * pydict) in
  if truthy (dgetd "ready" VNone ready) then
    measured <- _run_timerlat attempt_dir ;;
    camera <- (if has_camera then
                 warmup <- lift (setting_int "warmup_seconds") ;;
                 end_camera (finish (f_of_Z (warmup + CAMPAIGN_CAMERA_GUARD_SECONDS + 30)))
               else ret (None, [])) ;;
    parsed <- parse_histogram measured.1 attempt_dir ;;
    ret {| ad_output := measured.1; ad_load := camera.1; ad_ready := ready; ad_timerlat_process := measured.2;
           ad_timerlat := parsed.1; ad_camera_process := camera.2; ad_parse_error := parsed.2 |}
  else
    camera <- (if has_camera then end_camera TimerlatLoad.stop else ret (None, [])) ;;
    ret {| ad_output := ""; ad_load := camera.1; ad_ready := ready; ad_timerlat_process := []; ad_timerlat := [];
           ad_camera_process := camera.2; ad_parse_error := "" |}.
(** The [finally] clause; the result of a load that was still running. *)
Definition after_measure (attempt_dir : string) (kernel_before : option string) (kernel_error : string) :
    IO (option pydict) :=
  active <- self tb_active ;;
  stopped <- (match active with
              | Some _ => camera <- end_camera TimerlatLoad.stop ;; ret (Some camera.2)
              | None => ret None
              end) ;;
  cpu_noise (Noise.stop _cpu_noise (Some attempt_dir)) ;;
  controls (capture_kernel_delta controls_config attempt_dir kernel_before kernel_error) ;;
  controls (snapshot_topology controls_config executable (attempt_dir // "topology_after.json")) ;;
  ret stopped.

(** The verdict: the phase that failed and the error. *)
Definition verdict (ready timerlat_process : pydict) (parse_error : string) (camera_enabled : bool)
    (camera_summary camera_process : pydict) : string * string :=
  if negb (truthy (dgetd "ready" VNone ready)) then
    ("startup", str_val (dgetd "error" (dgetd "error" (VStr "camera did not reach steady state") ready) camera_summary))
  else if negb (py_eq (dgetd "returncode" (VInt 0) timerlat_process) (VInt 0)) then
    ("measurement", "rtla exited with " +:+ str_val (dgetd "returncode" VNone timerlat_process))
  else if negb (bool_decide (parse_error = "")) then ("measurement", parse_error)
  else if camera_enabled && negb (truthy (dgetd "success" (VBool false) camera_summary)) then
    ("measurement", str_val (dgetd "error" (VStr "camera load failed") camera_summary))
  else if camera_enabled && negb (py_eq (dgetd "returncode" VNone camera_process) (VInt 0)) then
    ("measurement", "camera probe exited with " +:+ str_val (dgetd "returncode" VNone camera_process))
  else ("none", "").
Definition _camera_descriptors (case : pydict) (camera_summary : pydict) : outcome (list pydict) :=
  match dgetd "cameras" (VList []) camera_summary with
  | VList ((_ :: _) as cameras) => Ok (omap (λ c, match c with VDict d => Some d | _ => None end) cameras)
  | _ => count ← camera_count_of case;
         Ok (map (λ serial, [("serial", VStr serial)]) (first_serials count (ta_serials args)))
  end.
Definition attempt_summary (case : pydict) (noise_mode : string) (d : attempt_data) (camera_summary : pydict) :
    outcome pydict :=
  camera_enabled ← camera_enabled_of case;
  let '(phase, error) := verdict (ad_ready d) (ad_timerlat_process d) (ad_parse_error d) camera_enabled
                           camera_summary (ad_camera_process d) in
  load_case ← subscript case "case_id";
  cameras ← _camera_descriptors case camera_summary;
  Ok [("schema_version", VInt 1); ("success", VBool (bool_decide (phase = "none"))); ("error", VStr error);
      ("failure_phase", VStr phase); ("kernel", VDict (t_kernel s)); ("load_case", load_case);
      ("timerlat", VDict (ad_timerlat d)); ("timerlat_process", VDict (ad_timerlat_process d));
      ("camera_enabled", VBool camera_enabled); ("camera_ready", VDict (ad_ready d));
      ("camera_process", VDict (ad_camera_process d)); ("camera", VDict camera_summary);
      ("cameras", VList (map VDict cameras)); ("cpu_noise_mode", VStr noise_mode)].
Definition with_stopped (stopped : option pydict) (d : attempt_data) : attempt_data := {|
  ad_output := ad_output d; ad_load := ad_load d; ad_ready := ad_ready d;
  ad_timerlat_process := ad_timerlat_process d; ad_timerlat := ad_timerlat d;
  ad_camera_process := default (ad_camera_process d) stopped; ad_parse_error := ad_parse_error d |}.
Definition _run_attempt (case : pydict) (attempt_dir : string) : IO (string * pydict) :=
  controls (snapshot_topology controls_config executable (attempt_dir // "topology_before.json")) ;;
  log <- controls (kernel_log controls_config) ;;
  noise_mode <- lift (noise_mode_of case) ;;
  measured <- finally_with (measure case noise_mode attempt_dir) (after_measure attempt_dir log.1 log.2) ;;
  let d := with_stopped measured.2 measured.1 in
  sys (WriteJson (attempt_dir // "camera_process.json") (VDict (ad_camera_process d))) ;;
  camera_summary <- (match ad_load d with
                     | Some load => value <- local load read_summary ;; lift (as_dict value)
                     | None => ret []
                     end) ;;
  summary <- lift (attempt_summary case noise_mode d camera_summary) ;;
  sys (WriteJson (attempt_dir // "timerlat_run_summary.json") (VDict summary)) ;;
  ret (ad_output d, summary).

(** ** One logical run *)

Definition find_case (load_case : string) : outcome pydict :=
  match dget load_case (t_cases s) with Some case => Ok case | None => key_error load_case end.
Definition run_manifest (load_case : string) (count : Z) (noise_manifest : pydict) : pydict := [
      ("schema_version", VInt 1); ("load_case", VStr load_case); ("kernel", VDict (t_kernel s));
      ("timerlat", VDict (ta_timerlat args)); ("camera_policy", VStr "SCHED_OTHER");
      ("camera_serials", VList (map VStr (first_serials count (ta_serials args))));
      ("cpu_frequency_mhz", VInt PAPER_CPU_FREQUENCY_MHZ);
      ("drop_caches_before_attempt", VBool CAMPAIGN_DROP_CACHES_BEFORE_RUN); ("cpu_noise", VDict noise_manifest);
      ("recover_on_failure", VStr (ta_recover_on_failure args));
      ("reset_before_run", VBool (ta_reset_before_run args));
      ("max_attempts_per_run", VInt (ta_max_attempts_per_run args))].
(** The local functions [run_attempt], [classify] and [recover]. *)
Definition run_attempt_of (load_case : string) (case : pydict) (attempt : Z) (attempt_dir : string) :
    IO (string * pydict) :=
  _prepare_attempt attempt attempt_dir ;; _run_attempt case attempt_dir.
Definition classify (summary : pydict) : outcome AttemptDecision :=
  let success := truthy (dgetd "success" (VBool false) summary) in
  let phase := str_val (dgetd "failure_phase" (VStr "measurement") summary) in
  Ok {| Attempts.success := success; failure_phase := phase; retry := negb success && bool_decide (phase = "startup");
        Attempts.recover := true; Attempts.error := str_val (dgetd "error" (VStr "") summary); metadata := [] |}.
Definition recover_of (summary : pydict) (attempt_dir : string) (_ : AttemptDecision) : IO pydict :=
  cameras <- lift (l ← as_list (dgetd "cameras" (VList []) summary); traverse as_dict l) ;;
  Recovery.recover recovery_config fuel cameras attempt_dir.
Definition timerlat_loop (load_case : string) (case : pydict) (camera_enabled : bool) (record_dir : string) :
    loop_arguments W tbench :=
  let recovery_method := if camera_enabled then ta_recover_on_failure args else "none" in {|
  Attempts.record_dir := record_dir;
  Attempts.max_attempts := if camera_enabled then ta_max_attempts_per_run args else 1;
  Attempts.recovery_method := recovery_method;
  Attempts.recovery_settle_seconds := ta_recovery_settle_seconds args;
  Attempts.run_attempt := run_attempt_of load_case case;
  Attempts.classify_attempt := classify;
  Attempts.recover_attempt := if bool_decide (recovery_method = "none") then None else Some recover_of;
  Attempts.before_attempt := None; Attempts.build_attempt_record := None |}.

(** Everything before the first attempt: the case, the directory, the manifest,
    and whether there is a camera. *)
Definition prepare_run (load_case record_data_dir : string) : IO (pydict * string * pydict * bool) :=
  case <- lift (find_case load_case) ;;
  record_dir <- sys (Resolve record_data_dir) ;;
  sys (Mkdir record_dir true) ;;
  used <- sys (Glob record_dir "attempt-*") ;;
  when (negb (bool_decide (used = []))) (throw RuntimeError ("Attempt directories already exist in " +:+ record_dir)) ;;
  cpu_state <- controls (prepare_campaign controls_config fuel record_dir) ;;
  controls (write_cpu_state (record_dir // "cpu_frequency_state.json") cpu_state) ;;
  sys (WriteJson (record_dir // "case.json") (VDict case)) ;;
  count <- lift (camera_count_of case) ;;
  mode <- lift (noise_mode_of case) ;;
  noise_manifest <- cpu_noise (Noise.manifest _cpu_noise mode) ;;
  let manifest := run_manifest load_case count noise_manifest in
  sys (WriteJson (record_dir // "run_manifest.json") (VDict manifest)) ;;
  camera_enabled <- lift (camera_enabled_of case) ;;
  when (camera_enabled && ta_reset_before_run args)
    (Recovery.reset_before_run recovery_config fuel
       (map (λ serial, [("serial", VStr serial)]) (first_serials count (ta_serials args))) record_dir ;;
     ret ()) ;;
  ret (case, record_dir, manifest, camera_enabled).
(** The files a run leaves. *)
Definition publish_run (record_dir : string) (manifest : pydict) (result : AttemptLoopResult) : IO string :=
  sys (WriteJson (record_dir // "timerlat_run_summary.json") (VDict (Attempts.summary result))) ;;
  sys (WriteJson (record_dir // "attempts.json") (VList (map VDict (Attempts.attempts result)))) ;;
  sys (WriteText (record_dir // "selected_attempt.txt") (str_Z (Attempts.selected_attempt result) +:+ nl)) ;;
  eventual <- lift (subscript (Attempts.summary result) "eventual_success") ;;
  sys (WriteJson (record_dir // "run_manifest.json") (VDict (dupdate manifest [
    ("selected_attempt", VInt (Attempts.selected_attempt result));
    ("attempt_count", VInt (Z.of_nat (length (Attempts.attempts result)))); ("eventual_success", eventual)]))) ;;
  ret (Attempts.output result).
Definition single_run (load_case record_data_dir : string) : IO string :=
  prepared <- prepare_run load_case record_data_dir ;;
  let '(case, record_dir, manifest, camera_enabled) := prepared in
  result <- run_attempt_loop (timerlat_loop load_case case camera_enabled record_dir) ;;
  publish_run record_dir manifest result.

(** ** Results and cleanup *)

Definition parse_output_to_results (run_variables : pydict) (record_data_dir : string) : IO pydict :=
  record_dir <- sys (Resolve record_data_dir) ;;
  value <- sys (ReadJson (record_dir // "timerlat_run_summary.json")) ;;
  summary <- lift (as_dict value) ;;
  selected <- resolve_selected_attempt record_dir ;;
  global <- lift (v ← field (dgetd "timerlat" (VDict []) summary) "global" (VDict []); as_dict v) ;;
  camera <- lift (as_dict (dgetd "camera" (VDict []) summary)) ;;
  aggregate <- lift (as_dict (dgetd "aggregate" (VDict []) camera)) ;;
  file <- sys (IsFile (record_dir // "pre_run_reset.json")) ;;
  reset <- (if (file : bool) then sys (ReadJson (record_dir // "pre_run_reset.json")) else ret (VDict [])) ;;
  noise <- cpu_noise (artifacts _cpu_noise (str_val (dgetd "cpu_noise_mode" (VStr "none") summary)) (data_dir selected)) ;;
  let success := truthy (dgetd "success" (VBool false) summary) && na_valid noise in
  let error := str_val (dgetd "error" (VStr "") summary) in
  let error := if na_valid noise then error
               else py_join " | " (filter (λ part, part ≠ "") [error; na_error noise]) in
  memory <- memory_cleanup_result_fields (data_dir selected) CAMPAIGN_DROP_CACHES_BEFORE_RUN ;;
  lift (common ← common_attempt_result_fields summary;
    pre_run_reset ← as_dict reset;
    load_case ← subscript run_variables "load_case";
    label ← subscript (t_kernel s) "label"; release ← subscript (t_kernel s) "release";
    preempt_rt ← subscript (t_kernel s) "preempt_rt";
    period_us ← setting "period_us"; duration ← setting "duration_seconds";
    cameras ← py_len (dgetd "cameras" (VList []) summary);
    Ok (foldl dupdate [] [memory; common; [
      ("pre_run_reset_attempted", VBool (truthy (dgetd "attempted" (VBool false) pre_run_reset)));
      ("pre_run_reset_success", dgetd "success" (VStr "") pre_run_reset);
      ("pre_run_reset_camera_count", dgetd "camera_count" (VInt 0) pre_run_reset);
      ("pre_run_reset_duration_ms", dgetd "duration_ms" (VFloat f_zero) pre_run_reset);
      ("pre_run_reset_error", dgetd "error" (VStr "") pre_run_reset); ("success", VBool success);
      ("error", VStr error); ("load_case", load_case); ("kernel_label", label); ("kernel_release", release);
      ("preempt_rt", preempt_rt); ("timerlat_period_us", period_us); ("timerlat_duration_seconds", duration);
      ("timerlat_irq_max_us", dgetd "irq_max_us" (VInt 0) global);
      ("timerlat_thread_max_us", dgetd "thread_max_us" (VInt 0) global);
      ("timerlat_irq_p999_us_max_cpu", dgetd "irq_p999_us_max_cpu" (VInt 0) global);
      ("timerlat_thread_p999_us_max_cpu", dgetd "thread_p999_us_max_cpu" (VInt 0) global);
      ("timerlat_overflow_samples", dgetd "overflow_samples" (VInt 0) global);
      ("camera_count", VInt (Z.of_nat cameras));
      ("camera_success", dgetd "success" (VBool (negb (truthy (dgetd "camera_enabled" VNone summary)))) camera);
      ("camera_frames", dgetd "frames" (VInt 0) aggregate); ("camera_drops", dgetd "drops" (VInt 0) aggregate);
      ("camera_timeouts", dgetd "timeouts" (VInt 0) aggregate);
      ("cpu_noise_mode", dgetd "cpu_noise_mode" (VStr "none") summary); ("cpu_noise_valid", VBool (na_valid noise));
      ("record_data_dir", VStr record_dir); ("selected_attempt_data_dir", VStr (data_dir selected))]])).

Definition cleanup_step (what : string) (m : IO unit) (errors : list string) : IO (list string) :=
  try_except is_Exception (m ;; ret errors) (λ e, ret (errors ++ [what +:+ ": " +:+ exn_msg e])).
Definition cleanup : IO unit :=
  active <- self tb_active ;;
  errors <- (match active with
             | Some _ =>
                 errors <- cleanup_step "stop camera load" (on_load TimerlatLoad.stop ;; ret ()) [] ;;
                 set_self (set_active None) ;;
                 ret errors
             | None => ret []
             end) ;;
  errors <- cleanup_step "stop CPU noise" (cpu_noise (Noise.stop _cpu_noise None)) errors ;;
  errors <- cleanup_step "restore system controls" (controls (SystemControls.cleanup controls_config fuel)) errors ;;
  when (negb (bool_decide (errors = [])))
    (throw RuntimeError ("Timerlat campaign cleanup failed: " +:+ py_join " | " errors)).
End bench.
