(* ===== verification/TimerlatSpec.v ===== *)
(** * Properties of the timer-latency benchmark

    No camera load and no CPU workload outlives a run that returns, and the
    cleanup after a campaign ends those that are left; and what a successful
    attempt says of [rtla], its histogram and the camera. *)
From Stdlib Require Import Ascii ZArith Lia Floats.SpecFloat.
From S2P Require Import Prelude PyStr PyFloat PyVal PyJson Effects Machine.
From S2P Require Import Attempts SteadyAttempts SystemControls Recovery Memory Shell Commands Noise NoiseSpec Timerlat.
From S2P Require Import Calls SteadyResults SteadyNoise TimerlatLoad TimerlatBench.
From stdpp Require Import base gmap strings list.
Local Open Scope Z_scope.
Local Open Scope py_scope.
Local Open Scope M_scope.

(** ** The camera load *)

Section load.
Context {W : Type} `{OS W}.
Abbreviation state := (ManagedCameraLoad * world W)%type.
Implicit Types x y z : state.

(** A method that starts no process and does not change the one that is held. *)
Definition calm : relation state := λ x y, cl_process y.1 = cl_process x.1 ∧ no_new x.2 y.2.
#[export] Instance calm_preorder : PreOrder calm.
Proof. split; [intros x; split; [done|by intros p ?]|]. intros x y z [P N] [Q O]. split; [congruence|by etrans]. Qed.
Lemma t_calm_sys {A} (c : syscall A) : quiet c = true → within calm (sys c).
Proof.
  intros Hc [l w]. pose proof (kept_sys (T := ManagedCameraLoad) _ no_new c no_new_kept Hc (l, w)) as Hn.
  unfold sys, calm, on_world in *. destruct (handle c (w_os w)). by split.
Qed.
Lemma calm_set_self f : (∀ l, cl_process (f l) = cl_process l) → within calm (set_self (W := W) f).
Proof. intros Hf [l w]. split; [apply Hf|by intros p ?]. Qed.
Ltac solve_calm :=
  repeat (intros; first
    [ progress solve_within
    | match goal with
      | |- within calm (set_self _) => by apply calm_set_self
      | |- within calm (sys _) => by apply t_calm_sys
      end ]).
Lemma calm_marker path marker : within calm (phase_marker_seen path marker).
Proof. unfold phase_marker_seen. solve_calm. Qed.
Lemma calm_await fuel pid path deadline : within calm (await_steady fuel pid path deadline).
Proof.
  pose proof calm_marker. induction fuel; simpl; unfold not_ready, now_ready, command_item; solve_calm.
Qed.
Lemma calm_wait fuel timeout : within calm (wait_until_steady fuel timeout).
Proof. pose proof calm_await. unfold wait_until_steady. solve_calm. Qed.
Lemma calm_build case dir : within calm (_build_command case dir).
Proof. unfold _build_command. solve_calm. Qed.
Lemma t_quiet_read_summary : makes (@quiet) (read_summary (W := W)).
Proof. unfold read_summary. solve_makes. Qed.

Context `{!Killable W} (others : list Z).
(** A process that has not ended is the load's or one of the others; is one of
    the others. *)
Definition accounted x : Prop := ∀ p, p ∈ alive (w_log x.2) → cl_process x.1 = Some p ∨ p ∈ others.
Definition only_others (w : world W) : Prop := ∀ p, p ∈ alive (w_log w) → p ∈ others.
Lemma accounted_calm x y : calm x y → accounted x → accounted y.
Proof. intros [P N] Hx p Hp. rewrite P. by apply Hx, N. Qed.

Lemma start_accounted case dir x : only_others x.2 →
  wp (TimerlatLoad.start case dir) (λ _ y, accounted y) (λ _ y, accounted y) x.
Proof.
  intros Hx. assert (∀ y, no_new x.2 y.2 → accounted y) as Hcalm by (intros y Hy p Hp; right; by apply Hx, Hy).
  unfold TimerlatLoad.start.
  assert (∀ {A B} (m : M state A) (k : A → M state B) y, within calm m → no_new x.2 y.2 →
    (∀ a z, no_new x.2 z.2 → wp (k a) (λ _ y, accounted y) (λ _ y, accounted y) z) →
    wp (bind m k) (λ _ y, accounted y) (λ _ y, accounted y) y) as Hstep.
  { intros A B m k y Hm Hy Hk. apply wp_bind. apply (wp_within calm); [done|intros a z [_ Hz]; apply Hk; by etrans|].
    intros e z [_ Hz]. apply Hcalm. by etrans. }
  apply Hstep; [solve_calm|done|intros process x1 H1]. apply Hstep; [solve_calm|done|intros _ x2 H2].
  apply Hstep; [apply calm_build|done|intros command x3 H3]. apply Hstep; [solve_calm|done|intros _ x4 H4].
  apply Hstep; [solve_calm|done|intros [path|] x5 H5]; [|by apply wp_throw, Hcalm].
  do 4 (apply Hstep; [solve_calm|done|intros ? ? ?]). apply wp_bind.
  match goal with Hy : no_new _ (snd ?y) |- wp _ _ _ ?y => destruct y as [l w]; rename Hy into Hw end.
  apply wp_sys. intros [pid|e] o _; [|simpl note; rewrite app_nil_r; by apply (Hcalm (l, World o (w_log w)))].
  apply wp_set_self. intros p. simpl. rewrite alive_app. simpl. rewrite elem_of_cons. intros [->|Hp]; [by left|right].
  by apply Hx, Hw.
Qed.

(** Waiting for the exit, whatever it takes, ends the process. *)
Lemma await_exit_spec pid timeout x :
  wp (await_exit pid timeout)
    (λ _ y, y.1 = x.1 ∧ ∀ p, p ∈ alive (w_log y.2) → p ∈ alive (w_log x.2) ∧ p ≠ pid) (λ _ _, False) x.
Proof.
  destruct x as [l w0]. unfold await_exit. apply wp_try, wp_bind, wp_sys. intros [status|e] o Ho.
  { apply wp_ret. split; [done|]. intros p. apply alive_exit. }
  assert (is_class TimeoutExpired e = true) as ->.
  { apply bool_decide_eq_true, (wait_times_out pid timeout (w_os w0)). exact (f_equal fst Ho). }
  simpl note. rewrite app_nil_r. apply wp_bind, wp_sys. cbn [w_os w_log]. intros r1 o1 Ho1.
  pose proof (terminate_works pid o) as Ht. rewrite Ho1 in Ht. destruct r1 as [[]|]; [|done]. clear Ht.
  simpl note. rewrite app_nil_r. apply wp_try, wp_bind, wp_sys. cbn [w_os w_log]. intros [status|e1] o2 Ho2.
  { apply wp_ret. split; [done|]. intros p. apply alive_exit. }
  assert (is_class TimeoutExpired e1 = true) as ->.
  { apply bool_decide_eq_true, (wait_times_out pid (f_of_Z 5) o1). exact (f_equal fst Ho2). }
  simpl note. rewrite app_nil_r. apply wp_bind, wp_sys. cbn [w_os w_log]. intros r3 o3 Ho3.
  pose proof (kill_works pid o2) as Hk. rewrite Ho3 in Hk. destruct r3 as [[]|]; [|done]. clear Hk.
  simpl note. rewrite app_nil_r. apply wp_bind, wp_sys. cbn [w_os w_log]. intros r4 o4 Ho4.
  pose proof (killed_ends pid (f_of_Z 5) o2) as Hk. rewrite Ho3 in Hk. cbn [snd] in Hk. rewrite Ho4 in Hk.
  destruct r4 as [status|]; [|done]. apply wp_ret. split; [done|]. intros p. apply alive_exit.
Qed.
Lemma finish_ends timeout x : accounted x →
  wp (TimerlatLoad.finish timeout) (λ _ y, only_others y.2) (λ _ y, only_others y.2) x.
Proof.
  intros Hx. destruct x as [l w]. unfold TimerlatLoad.finish. apply wp_bind, wp_self.
  destruct (cl_process l) as [pid|] eqn:Hl; [|apply wp_ret; intros p Hp; by destruct (Hx p Hp) as [Hq|?]; [simpl in Hq; congruence|]].
  apply wp_bind. eapply wp_conseq; [apply await_exit_spec| |by intros].
  intros [status [terminated forced]] [l1 w1] [_ Ha]. assert (only_others w1) as H1.
  { intros p [Hp Hne]%Ha. destruct (Hx p Hp) as [Hq|?]; [simpl in Hq; congruence|done]. }
  eapply (wp_within (on_world no_new)); [|intros a y Hy p Hp; by apply H1, Hy..].
  eapply makes_within; [|apply no_new_kept]. unfold command_item. solve_makes.
Qed.
End load.

(** ** The benchmark *)

(** [finally] with a value. *)
Lemma wp_finally_with {S A B} (m : M S A) (f : M S B) Q (E : exn → S → Prop) x :
  wp m (λ a y, wp f (λ b z, Q (a, b) z) E y) (λ e y, wp f (λ _ z, E e z) E y) x → wp (finally_with m f) Q E x.
Proof.
  unfold wp, finally_with, bind, ret, rethrow. destruct (m x) as [[a|e] y]; simpl; by destruct (f y) as [[b|e'] z].
Qed.
(** A method of the load that is running. *)
Lemma wp_on_load {W} {A} (m : M (ManagedCameraLoad * world W) A) Q E (b : tbench) (w : world W) l :
  tb_active b = Some l →
  wp m (λ a y, Q a (set_active (Some y.1) b, y.2)) (λ e y, E e (set_active (Some y.1) b, y.2)) (l, w) →
  wp (on_load m) Q E (b, w).
Proof. intros Hb Hm. unfold wp, on_load in *. rewrite Hb. by destruct (m (l, w)) as [[] []]. Qed.

Section bench.
Context {W : Type} `{OS W} `{!Killable W} (s : RealSenseTimerlatBench) (fuel : nat) (executable : string).
Context (partial : exn → string * string).
Abbreviation state := (tbench * world W)%type.
Implicit Types x y z : state.

(** The process of the load that is running. *)
Definition camera_process (b : tbench) : option Z := tb_active b ≫= cl_process.
(** Every living process is held: by the CPU workload, or by the load that is
    running. *)
Definition held_by_bench x : Prop :=
  ∀ p, p ∈ alive (w_log x.2) → np_process (tb_noise x.1) = Some p ∨ camera_process x.1 = Some p.
(** No process of a load is living. *)
Definition noise_only x : Prop := ∀ p, p ∈ alive (w_log x.2) → np_process (tb_noise x.1) = Some p.
Definition settled x : Prop := none_alive x.2.
Lemma settled_noise x : settled x → noise_only x.
Proof. intros Hx p Hp. by destruct (Hx p). Qed.
Lemma noise_held x : noise_only x → held_by_bench x.
Proof. intros Hx p Hp. left. by apply Hx. Qed.
Lemma settled_held x : settled x → held_by_bench x.
Proof. intros Hx. by apply noise_held, settled_noise. Qed.
#[local] Hint Resolve settled_noise noise_held settled_held : core.

(** What a quiet method of another object leaves. *)
Definition undisturbed : relation state := λ x y,
  tb_noise y.1 = tb_noise x.1 ∧ tb_active y.1 = tb_active x.1 ∧ no_new x.2 y.2.
#[export] Instance undisturbed_preorder : PreOrder undisturbed.
Proof.
  split; [intros x; split_and!; [done..|by intros p ?]|]. intros x y z (A & B & C) (D & F & G).
  split_and!; [congruence..|by etrans].
Qed.
Lemma undisturbed_held x y : undisturbed x y → held_by_bench x → held_by_bench y.
Proof. intros (A & B & N) Hx p Hp. unfold camera_process. rewrite A, B. by apply Hx, N. Qed.
Lemma undisturbed_noise x y : undisturbed x y → noise_only x → noise_only y.
Proof. intros (A & B & N) Hx p Hp. rewrite A. by apply Hx, N. Qed.
Lemma undisturbed_settled x y : undisturbed x y → settled x → settled y.
Proof. intros (A & B & N) Hx p Hp. by apply (Hx p), N. Qed.
Lemma undisturbed_sys {A} (c : syscall A) : quiet c = true → within undisturbed (sys c).
Proof.
  intros Hc [b w]. pose proof (kept_sys (T := tbench) _ no_new c no_new_kept Hc (b, w)) as Hn.
  unfold sys, undisturbed, on_world in *. by destruct (handle c (w_os w)).
Qed.
Lemma undisturbed_controls {A} (m : M (SystemControls * world W) A) :
  makes (@quiet) m → within undisturbed (controls m).
Proof.
  intros Hm [b w]. pose proof (Hm no_new no_new_kept (tb_controls b, w)) as Hn. unfold controls, zoom, undisturbed.
  by destruct (m (tb_controls b, w)) as [r [c w']].
Qed.
Lemma undisturbed_rtla r : within undisturbed (set_self (W := W) (set_rtla r)).
Proof. intros [b w]. split_and!; [done..|by intros p ?]. Qed.
Lemma undisturbed_local {T A} (t : T) (m : M (T * world W) A) : makes (@quiet) m → within undisturbed (local t m).
Proof.
  intros Hm [b w]. pose proof (Hm no_new no_new_kept (t, w)) as Hn. unfold local, undisturbed.
  by destruct (m (t, w)) as [r [c w']].
Qed.
Lemma ends_undisturbed {A} (I : state → Prop) (m : M state A) :
  (∀ x y, undisturbed x y → I x → I y) → within undisturbed m → ends I I m.
Proof. intros HI Hm x Hx. apply (wp_within undisturbed); [done|intros a y Hy; by eapply HI..]. Qed.

(** The end of the running load. *)
Lemma end_camera_noise timeout x : held_by_bench x →
  wp (on_load (TimerlatLoad.finish timeout)) (λ _ y, noise_only y) (λ _ y, noise_only y) x.
Proof.
  destruct x as [b w]. intros Hx. destruct (tb_active b) as [l|] eqn:Hb.
  - apply (wp_on_load _ _ _ _ _ l); [done|].
    eapply wp_conseq; [apply (finish_ends (option_list (np_process (tb_noise b))))| |].
    + intros p Hp. destruct (Hx p Hp) as [Hn|Hc]; [right; simpl in Hn; rewrite Hn; set_solver|left].
      unfold camera_process in Hc. simpl in Hc. by rewrite Hb in Hc.
    + intros a [l' w'] Hy p Hp%Hy. simpl in *. destruct (np_process (tb_noise b)); set_solver.
    + intros a [l' w'] Hy p Hp%Hy. simpl in *. destruct (np_process (tb_noise b)); set_solver.
  - unfold on_load, wp. rewrite Hb. intros p Hp. destruct (Hx p Hp) as [Hn|Hc]; [done|].
    unfold camera_process in Hc. simpl in Hc. by rewrite Hb in Hc.
Qed.

Lemma held_load (b : tbench) l (w : world W) : tb_active b = Some l →
  held_by_bench (b, w) ↔ accounted (option_list (np_process (tb_noise b))) (l, w).
Proof.
  intros Hb. unfold held_by_bench, accounted, camera_process. simpl. rewrite Hb. simpl.
  destruct (np_process (tb_noise b)); simpl; set_solver.
Qed.
Lemma start_camera_held case dir x : noise_only x →
  wp (_start_camera s fuel case dir) (λ _ y, held_by_bench y) (λ _ y, held_by_bench y) x.
Proof.
  intros Hx. unfold _start_camera.
  assert (∀ {A B} (o : outcome A) (k : A → M state B) Q,
    (∀ a, wp (k a) Q (λ _ y, held_by_bench y) x) → wp (bind (lift o) k) Q (λ _ y, held_by_bench y) x) as Hlift.
  { intros A B o k Q Hk. apply wp_bind, wp_lift. destruct o; [done|by apply noise_held]. }
  apply Hlift. intros [|]; simpl; [|by apply wp_ret; auto].
  do 4 (apply Hlift; intros ?). destruct x as [b w]. apply wp_bind, wp_set_self.
  set (l := new_load _). set (b1 := set_active (Some l) b).
  apply wp_bind, (wp_on_load _ _ _ _ _ l); [done|].
  assert (∀ y : ManagedCameraLoad * world W, accounted (option_list (np_process (tb_noise b))) y →
            held_by_bench (set_active (Some y.1) b1, y.2)) as Hheld by (intros [l1 w1] Hy; by apply (held_load _ l1)).
  eapply wp_conseq; [apply (start_accounted (option_list (np_process (tb_noise b))))| |intros e y Hy; by apply Hheld].
  { intros p Hp%Hx. simpl in *. rewrite Hp. set_solver. }
  intros [] [l1 w1] H1. simpl. apply wp_bind, wp_lift. destruct (a ← _; _) as [timeout|]; [|by apply (Hheld (l1, w1))].
  apply wp_bind, (wp_on_load _ _ _ _ _ l1); [done|].
  apply (wp_within calm); [apply calm_wait| |intros e y Hy; by eapply Hheld, accounted_calm].
  intros ready [l2 w2] H2. apply wp_bind.
  apply (wp_within undisturbed); [by apply undisturbed_sys| |].
  - intros [] y Hy. apply wp_ret. eapply undisturbed_held; [exact Hy|]. by eapply (Hheld (l2, w2)), accounted_calm.
  - intros e y Hy. eapply undisturbed_held; [exact Hy|]. by eapply (Hheld (l2, w2)), accounted_calm.
Qed.
Lemma end_camera_spec timeout x : held_by_bench x →
  wp (end_camera (TimerlatLoad.finish timeout)) (λ _ y, noise_only y ∧ tb_active y.1 = None) (λ _ y, noise_only y) x.
Proof.
  intros Hx. unfold end_camera. apply wp_bind. eapply wp_conseq; [by apply end_camera_noise| |done].
  intros process [b w] Hy. apply wp_bind, wp_self, wp_bind, wp_set_self, wp_ret. by split.
Qed.
Lemma noise_stop_ends dir x : noise_only x →
  wp (cpu_noise (Noise.stop (_cpu_noise s) dir)) (λ _ y, settled y) (λ _ y, settled y) x.
Proof.
  destruct x as [b w]. intros Hx. apply wp_zoom. eapply wp_conseq; [apply (stop_spec [])| |].
  - intros p Hp. left. by apply Hx.
  - intros [] y [Ho Hn] p Hp. destruct (Ho p Hp) as [Hs|Hs]; [congruence|by apply elem_of_nil in Hs].
  - intros e y [Ho Hn] p Hp. destruct (Ho p Hp) as [Hs|Hs]; [congruence|by apply elem_of_nil in Hs].
Qed.
#[export] Instance cpu_noise_steady : Steady (_cpu_noise (W := W) s).
Proof. apply cpu_steady. Qed.
Lemma noise_start_held mode dir x : settled x →
  wp (cpu_noise (Noise.start (_cpu_noise s) fuel mode dir)) (λ _ y, noise_only y) (λ _ y, noise_only y) x.
Proof.
  destruct x as [b w]. intros Hx. apply wp_zoom. eapply wp_conseq; [apply (start_spec [] (_cpu_noise s))| |].
  - intros p Hp. by destruct (Hx p).
  - intros a y [Ho _] p Hp. destruct (Ho p Hp) as [Hs|Hs]; [done|by apply elem_of_nil in Hs].
  - intros e y Ho p Hp. destruct (Ho p Hp) as [Hs|Hs]; [done|by apply elem_of_nil in Hs].
Qed.
Ltac solve_undisturbed :=
  repeat (intros; first
    [ progress solve_within
    | match goal with
      | |- within undisturbed (sys _) => by apply undisturbed_sys
      | |- within undisturbed (controls _) => apply undisturbed_controls; by eauto with makes
      end ]).
Lemma run_timerlat_undisturbed dir : within undisturbed (_run_timerlat s partial dir).
Proof. unfold _run_timerlat. solve_undisturbed. Qed.
Lemma parse_undisturbed output dir : within undisturbed (parse_histogram (W := W) output dir).
Proof. unfold parse_histogram. solve_undisturbed. Qed.

(** From where nothing is living: when it returns, nothing is; when it raises,
    what is living is held. *)
Abbreviation tidy := (ends settled held_by_bench).

Lemma wp_undisturbed {A B} (m : M state A) (k : A → M state B) (I : state → Prop) Q E x :
  (∀ y z, undisturbed y z → I y → I z) → (∀ y, I y → E y) → within undisturbed m → I x →
  (∀ a y, I y → wp (k a) Q (λ _ z, E z) y) → wp (bind m k) Q (λ _ z, E z) x.
Proof.
  intros HI HE Hm Hx Hk. apply wp_bind. apply (wp_within undisturbed); [done|intros a y Hy; apply Hk|intros e y Hy; apply HE];
    by eapply HI.
Qed.
Lemma measure_held case mode dir x : settled x →
  wp (measure s fuel partial case mode dir) (λ _ y, held_by_bench y) (λ _ y, held_by_bench y) x.
Proof.
  intros Hx. unfold measure. apply wp_bind.
  eapply wp_conseq; [by apply noise_start_held| |intros e y; apply noise_held]. intros noise x1 H1.
  apply (wp_undisturbed _ _ noise_only); [exact undisturbed_noise|exact noise_held|by apply undisturbed_sys|done|].
  intros _ x2 H2. apply wp_bind. eapply wp_conseq; [by apply start_camera_held| |done].
  intros [has_camera ready] x3 H3. simpl.
  assert (∀ {A} timeout (k : option ManagedCameraLoad * pydict → M state A) y,
    (∀ c z, held_by_bench z → wp (k c) (λ _ y, held_by_bench y) (λ _ y, held_by_bench y) z) → held_by_bench y →
    wp (bind (if has_camera then end_camera (TimerlatLoad.finish timeout) else ret (None, [])) k)
      (λ _ y, held_by_bench y) (λ _ y, held_by_bench y) y) as Hend.
  { intros A timeout k y Hk Hy. apply wp_bind. destruct has_camera; [|by apply wp_ret, Hk].
    eapply wp_conseq; [by apply end_camera_spec|intros c z [Hz _]|intros e z Hz]; [apply Hk|]; by apply noise_held. }
  destruct (truthy _).
  - apply (wp_undisturbed _ _ held_by_bench);
      [exact undisturbed_held|done|apply run_timerlat_undisturbed|done|].
    intros measured x4 H4. apply wp_bind.
    eapply (wp_conseq _ (λ _ y, held_by_bench y) _ (λ _ y, held_by_bench y)); [|intros camera y Hy|done].
    + destruct has_camera; [|by apply wp_ret]. apply wp_bind, wp_lift. destruct (setting_int _ _) as [z|]; [|done].
      eapply wp_conseq; [by apply end_camera_spec|intros c y [Hy _]|intros e y Hy]; by apply noise_held.
    + apply (wp_undisturbed _ _ held_by_bench); [exact undisturbed_held|done|apply parse_undisturbed|done|].
      intros parsed z Hz. by apply wp_ret.
  - apply Hend; [|done]. intros c z Hz. by apply wp_ret.
Qed.
Lemma after_measure_ends dir before error x : held_by_bench x →
  wp (after_measure s executable dir before error) (λ _ y, settled y) (λ _ y, held_by_bench y) x.
Proof.
  intros Hx. destruct x as [b w]. unfold after_measure. apply wp_bind, wp_self, wp_bind.
  eapply (wp_conseq _ (λ _ y, noise_only y) _ (λ _ y, noise_only y)); [|intros stopped y Hy|intros e y; apply noise_held].
  - destruct (tb_active b) as [l|] eqn:Hb.
    + apply wp_bind. eapply wp_conseq; [by apply end_camera_spec|intros c y [Hy _]; by apply wp_ret|done].
    + apply wp_ret. intros p Hp. destruct (Hx p Hp) as [Hn|Hc]; [done|].
      unfold camera_process in Hc. simpl in Hc. by rewrite Hb in Hc.
  - apply wp_bind. eapply wp_conseq; [by apply noise_stop_ends|intros [] z Hz|intros e z; apply settled_held].
    apply (wp_undisturbed _ _ settled); [exact undisturbed_settled|exact settled_held|solve_undisturbed|done|].
    intros _ u Hu. apply (wp_undisturbed _ _ settled); [exact undisturbed_settled|exact settled_held|solve_undisturbed|done|].
    intros _ v Hv. by apply wp_ret.
Qed.
Lemma tidy_undisturbed {A} (m : M state A) : within undisturbed m → tidy m.
Proof.
  intros Hm x Hx. apply (wp_within undisturbed); [done|intros a y Hy; by eapply undisturbed_settled|].
  intros e y Hy. by eapply settled_held, undisturbed_settled.
Qed.
Lemma t_tidy_run_attempt case dir : tidy (_run_attempt s fuel executable partial case dir).
Proof.
  unfold _run_attempt. apply ends_bind; [apply tidy_undisturbed; solve_undisturbed|intros _].
  apply ends_bind; [apply tidy_undisturbed; solve_undisturbed|intros [before error]].
  apply ends_bind; [by apply ends_lift; auto|intros mode]. apply ends_bind.
  - intros x Hx. apply wp_finally_with.
    eapply wp_conseq; [by apply measure_held|intros d y Hy|intros e y Hy];
      (eapply wp_conseq; [by apply after_measure_ends|auto|done]).
  - intros [d stopped]. apply tidy_undisturbed. pose proof t_quiet_read_summary.
    solve_undisturbed. apply undisturbed_local, t_quiet_read_summary.
Qed.

Lemma t_tidy_quiet {A} (m : M state A) : makes (@quiet) m → tidy m.
Proof.
  intros Hm x Hx. apply (wp_within (on_world no_new)); [apply Hm, no_new_kept|intros a y Hy p Hp; by apply (Hx p), Hy|].
  intros e y Hy. apply settled_held. intros p Hp. by apply (Hx p), Hy.
Qed.
Lemma cpu_noise_quiet : operations_make (@quiet) (_cpu_noise (W := W) s).
Proof. split; intros; simpl; solve_makes; apply quiet_taskset. Qed.
Lemma tidy_prepare_run load_case dir : tidy (prepare_run s fuel load_case dir).
Proof.
  destruct cpu_noise_quiet. apply t_tidy_quiet. unfold prepare_run, controls, cpu_noise, write_cpu_state. solve_makes.
  by apply quiet_reset_before_run.
Qed.
Lemma t_tidy_single_run load_case dir : tidy (single_run s fuel executable partial load_case dir).
Proof.
  unfold single_run. apply ends_bind; [apply tidy_prepare_run|intros [[[case record_dir] manifest] camera_enabled]].
  apply ends_bind; [|intros result; apply t_tidy_quiet; unfold publish_run; solve_makes].
  apply ends_run_attempt_loop; [exact settled_held| | | |done].
  - apply t_tidy_quiet. solve_makes.
  - intros n d. simpl. unfold run_attempt_of. apply ends_bind; [|intros _; apply t_tidy_run_attempt].
    apply t_tidy_quiet. unfold _prepare_attempt, controls. solve_makes.
  - intros f summary d decision. simpl. case_bool_decide; [done|]. intros [= <-]. apply t_tidy_quiet.
    unfold recover_of. apply makes_bind; [apply makes_lift|intros cameras; by apply quiet_recover].
Qed.

(** *** Cleaning up *)

Definition controls_cleaned x y : Prop :=
  ∃ w r, SystemControls.cleanup (controls_config s) fuel (tb_controls x.1, w) = (r, (tb_controls y.1, y.2)).
Definition cleaned x y : Prop := settled y ∧ controls_cleaned x y.
Definition same_controls : relation state := λ x y, tb_controls y.1 = tb_controls x.1.
Lemma on_load_controls {A} (m : M (ManagedCameraLoad * world W) A) : within same_controls (on_load m).
Proof. intros [b w]. unfold on_load. destruct (tb_active b); [by destruct (m _) as [? []]|done]. Qed.
Lemma cpu_noise_controls {A} (m : M (noise * world W) A) : within same_controls (cpu_noise m).
Proof. intros [b w]. unfold cpu_noise, zoom. by destruct (m _) as [? []]. Qed.
(** One of the three steps: what it leaves, the next one finds. *)
Lemma wp_cleanup_step {A} what (m : M state unit) errors (k : list string → M state A) (J : state → Prop) Q E x :
  wp m (λ _ y, J y) (λ _ y, J y) x → (∀ errors y, J y → wp (k errors) Q E y) →
  (∀ e y, is_Exception e = false → J y → E e y) → wp (bind (cleanup_step what m errors) k) Q E x.
Proof.
  intros Hm Hk HE. unfold cleanup_step. apply wp_bind, wp_try, wp_bind.
  eapply wp_conseq; [exact Hm|intros [] y Hy; by apply wp_ret, Hk|intros e y Hy].
  destruct (is_Exception e) eqn:He; [by apply wp_ret, Hk|by apply HE].
Qed.
Lemma wp_same_controls {A} (m : M state A) (J : state → Prop) x :
  wp m (λ _ y, J y) (λ _ y, J y) x → within same_controls m →
  wp m (λ _ y, J y ∧ same_controls x y) (λ _ y, J y ∧ same_controls x y) x.
Proof. intros Hm Hc. specialize (Hc x). unfold wp in *. by destruct (m x) as [[] y]. Qed.
Lemma t_cleanup_ends x : held_by_bench x →
  wp (cleanup s fuel) (λ _ y, cleaned x y) (λ e y, held_by_bench y ∧ (is_Exception e = true → cleaned x y)) x.
Proof.
  intros Hx. set (E := λ (e : exn) (y : state), held_by_bench y ∧ (is_Exception e = true → cleaned x y)).
  assert (∀ errors y, noise_only y → same_controls x y →
    wp (errors <- cleanup_step "stop CPU noise" (cpu_noise (Noise.stop (_cpu_noise s) None)) errors ;;
        errors <- cleanup_step "restore system controls" (controls (SystemControls.cleanup (controls_config s) fuel)) errors ;;
        when (negb (bool_decide (errors = [])))
          (throw RuntimeError ("Timerlat campaign cleanup failed: " +:+ py_join " | " errors)))
      (λ _ y, cleaned x y) E y) as Hrest.
  { intros errors y Hy Hc. apply (wp_cleanup_step _ _ _ _ (λ z, settled z ∧ same_controls x z)).
    - eapply wp_conseq; [apply wp_same_controls; [by apply noise_stop_ends|apply cpu_noise_controls]|..];
        intros a z [Hz Hcz]; (split; [done|]); unfold same_controls in *; congruence.
    - intros errors1 [b w] [Hz Hcz]. apply (wp_cleanup_step _ _ _ _ (cleaned x)).
      + pose proof (quiet_cleanup (controls_config s) fuel no_new no_new_kept (tb_controls b, w)) as Hn.
        unfold controls, zoom, wp. destruct (SystemControls.cleanup _ fuel (tb_controls b, w)) as [r [c w']] eqn:Hr.
        assert (cleaned x (set_controls c b, w')) as Hclean.
        { split; [intros p Hp; exact (Hz p (Hn p Hp))|]. exists w, r. rewrite <- Hcz. exact Hr. }
        by destruct r.
      + intros errors2 z2 Hz2. apply wp_when; intros _; [|done]. apply wp_throw. split; [apply settled_held, Hz2|done].
      + intros e z2 He [Hz2 _]. split; [by apply settled_held|congruence].
    - intros e z He [Hz _]. split; [by apply settled_held|congruence]. }
  destruct x as [b w]. unfold cleanup. apply wp_bind, wp_self. destruct (tb_active b) as [l|] eqn:Hb.
  - apply wp_bind. apply (wp_cleanup_step _ _ _ _ (λ y, noise_only y ∧ same_controls (b, w) y)).
    + apply wp_bind. eapply wp_conseq; [apply wp_same_controls; [by apply end_camera_noise|apply on_load_controls]|..].
      * intros a y Hy. by apply wp_ret.
      * by intros e y Hy.
    + intros errors [b1 w1] [Hy Hc]. apply wp_bind, wp_set_self, wp_ret. by apply Hrest.
    + intros e y He [Hy _]. split; [by apply noise_held|congruence].
  - apply wp_bind, wp_ret, Hrest; [|done]. intros p Hp. destruct (Hx p Hp) as [Hn|Hn]; [done|].
    unfold camera_process in Hn. simpl in Hn. by rewrite Hb in Hn.
Qed.
End bench.

(** No load outlives a timer-latency run.  On a machine where a killed
    process ends, and with no process alive: when a run returns, however many
    attempts it made, neither the camera load nor the CPU workload is alive; when
    it raises, each process that is left is held by the benchmark.  The cleanup
    after it, unless it is interrupted by something that is not an [Exception],
    leaves none alive and cleans the machine controls up, also when it reports
    errors. *)
Theorem no_load_is_left {W} `{OS W} `{!Killable W} s fuel executable partial load_case dir (x : tbench * world W) :
  none_alive x.2 →
  let run := single_run s fuel executable partial load_case dir x in
  let clean := cleanup s fuel run.2 in
  (is_ok run.1 = true → none_alive run.2.2) ∧ held_by_bench run.2 ∧ held_by_bench clean.2 ∧
  (none_alive clean.2.2 ∧ controls_cleaned s fuel run.2 clean.2 ∨ ∃ e, clean.1 = Raise e ∧ is_Exception e = false).
Proof.
  intros Hx run clean. pose proof (t_tidy_single_run s fuel executable partial load_case dir x Hx) as Hr.
  unfold wp in Hr. fold run in Hr.
  assert ((is_ok run.1 = true → none_alive run.2.2) ∧ held_by_bench run.2) as [Hrun Ho].
  { destruct run as [[output|e] y]; split; try done. by apply settled_held. }
  split; [done|]. split; [done|]. pose proof (t_cleanup_ends s fuel partial run.2 Ho) as Hc. unfold wp in Hc. fold clean in Hc.
  destruct clean as [[[]|e] y]; destruct Hc as [He Hc].
  - split; [by apply settled_held|by left].
  - split; [done|]. destruct (is_Exception e) eqn:Hexn; [left; by apply Hc|right; by exists e].
Qed.

(** ** What a successful attempt says *)


Section success.
Context {W : Type} `{OS W} (s : RealSenseTimerlatBench) (fuel : nat) (executable : string).
Context (partial : exn → string * string).
Abbreviation state := (tbench * world W)%type.
Implicit Types x y z : state.

(** Between [w] and [w']: [rtla] was run with the command and the time limit of
    the settings; it completed with the status and printed the output. *)
Definition rtla_ran (status : Z) (output : string) (w w' : world W) : Prop :=
  ∃ rtla command duration warmup completed,
    _timerlat_command s rtla = Ok command ∧
    setting_int s "duration_seconds" = Ok duration ∧ setting_int s "warmup_seconds" = Ok warmup ∧
    did (RunCommand command None (Some (f_of_Z (duration + warmup + 60)))) completed w w' ∧
    returncode completed = status ∧ stdout completed = output.
(** The output is in its file. *)
Definition output_kept (dir output : string) (w : world W) : Prop :=
  EWriteText (dir // "timerlat_hist.txt") output ∈ w_log w.
Definition process_says (dir : string) (output : string) (p : pydict) (w w' : world W) : Prop :=
  ∃ status, dget "returncode" p = Some (VInt status) ∧
    (status ≠ 124 → rtla_ran status output w w') ∧ output_kept dir output w'.

Abbreviation benchless := (makes (@no_bench)).

(** What the local variables say after the measurement. *)
Definition measured (dir : string) (d : attempt_data) (w w' : world W) : Prop :=
  truthy (dgetd "ready" VNone (ad_ready d)) = true →
  process_says dir (ad_output d) (ad_timerlat_process d) w w' ∧
  (ad_parse_error d = "" →
   ∃ h, parse_timerlat_histogram (ad_output d) = Ok h ∧ ad_timerlat d = histogram_value h).



End success.


(** ** A machine on which the benchmark runs *)

(** The second camera load (process 4) reaches its steady state and exits when
    it is done; the first one (process 2) exits before. *)
Record lab := Lab { lab_stage : stage }.
Definition lab_text (path : string) (l : lab) : string :=
  if bool_decide (path_name path = "camera_lifecycle.jsonl") then
    if bool_decide (4 < st_next (lab_stage l))
    then json_dumps (VDict [("event", VStr "phase_marker"); ("name", VStr "steady_state_begin")]) else ""
  else stage_text path.
Definition lab_json (path : string) (l : lab) : pyval :=
  if bool_decide (path_name path = "camera_summary.json") then VDict [("success", VBool true)]
  else stage_json path (st_runs (lab_stage l)).
Definition lab_handle {A} (c : syscall A) (l : lab) : outcome A * lab :=
  match c in syscall A return outcome A * lab with
  | ReadText p => (Ok (lab_text p l), l)
  | ReadJson p => (Ok (lab_json p l), l)
  | RunCommand command _ _ =>
      (Ok (Completed 0 (if bool_decide ("timerlat" ∈ command) then sample_histogram else "") ""), l)
  | Poll pid =>
      (if bool_decide (pid = 2) then Ok (Some 1) else (stage_handle (Poll pid) (lab_stage l)).1, l)
  | Wait pid t =>
      (if bool_decide (pid = 4) then Ok 0 else (stage_handle (Wait pid t) (lab_stage l)).1, l)
  | c => let '(r, w) := stage_handle c (lab_stage l) in (r, Lab w)
  end.
#[export] Instance lab_os : OS lab := @lab_handle.
#[export] Program Instance lab_killable : Killable lab.
Next Obligation. intros pid [w]. unfold handle, lab_os. simpl. by case_bool_decide. Qed.
Next Obligation. done. Qed.
Next Obligation.
  intros pid t [w] e. unfold handle, lab_os. simpl. case_bool_decide; [done|]. case_bool_decide; [done|].
  by intros [= <-].
Qed.
Next Obligation. done. Qed.
Next Obligation.
  intros pid t [w]. unfold handle, lab_os. simpl. case_bool_decide; [done|]. by rewrite bool_decide_true by by left.
Qed.

Definition lab_case : pydict := [
  ("case_id", VStr "loaded"); ("noise", VDict [("cpu", VStr "busy_loop")]);
  ("camera", VDict [("enabled", VBool true); ("count", VInt 1); ("fps", VInt 30); ("stream_mode", VStr "depth");
    ("warmup_frames", VInt 30); ("frame_timeout_ms", VInt 1000); ("startup_timeout_ms", VInt 20000);
    ("depth_width", VInt 848); ("depth_height", VInt 480); ("color_width", VInt 848); ("color_height", VInt 480)])].
Definition lab_arguments : timerlat_arguments := {|
  ta_repo_root := "/repo"; ta_cases := [lab_case];
  ta_timerlat := [("cpu_list", VStr "0-3"); ("period_us", VInt 1000); ("policy", VStr "f:95");
    ("warmup_seconds", VInt 5); ("duration_seconds", VInt 60); ("bucket_us", VInt 1); ("entries", VInt 256)];
  ta_kernel_label := "linux_non_rt"; ta_serials := ["0123"]; ta_build_dir := "/build"; ta_rtla := "/usr/bin/rtla";
  ta_use_sudo := true; ta_recover_on_failure := "none"; ta_reset_before_run := false;
  ta_recovery_reset_timeout_ms := 5000; ta_recovery_wait_seconds := f_of_Z 1; ta_recovery_settle_seconds := f_of_Z 0;
  ta_max_attempts_per_run := 3; ta_build_jobs := 4 |}.
Definition lab_bench : RealSenseTimerlatBench := {|
  t_arguments := lab_arguments; t_cases := [("loaded", lab_case)]; t_kernel := [("label", VStr "linux_non_rt")];
  t_build_dir := "/build" |}.
Definition lab_start (next : Z) : tbench * world lab :=
  (TBench (SystemControls.initial (controls_config lab_bench)) idle None "/usr/bin/rtla", World (Lab (Stage next [] 0)) []).
Definition no_partial (_ : exn) : string * string := ("", "").
Abbreviation lab_run := (single_run lab_bench 5 "/usr/bin/python3" no_partial "loaded" "/results/run" (lab_start 1)).
Abbreviation lab_attempt :=
  (_run_attempt lab_bench 5 "/usr/bin/python3" no_partial lab_case "/results/run/attempt-1" (lab_start 3)).

(** Two attempts, a CPU workload and a camera load each; all four processes end. *)
Lemma no_load_is_left_witness :
  length (filter (λ e, is_spawn e = true) (w_log lab_run.2.2)) = 4%nat ∧
  none_alive lab_run.2.2 ∧ held_by_bench (cleanup lab_bench 5 lab_run.2).2.
Proof.
  split; [vm_compute; reflexivity|].
  assert (none_alive (lab_start 1).2) as Hx by (intros p Hin; inversion Hin).
  destruct (no_load_is_left lab_bench 5 "/usr/bin/python3" no_partial "loaded" "/results/run" (lab_start 1) Hx)
    as (Hrun & _ & Hclean & _).
  assert (is_ok lab_run.1 = true) as Hret by (vm_compute; reflexivity).
  split; [exact (Hrun Hret)|exact Hclean].
Defined.
