(* ===== verification/TimerlatCampaign.v ===== *)
(** * The timer-latency campaign ([run_timerlat_campaign.py])

    The checks of the options, the matrix of load cases, the construction of the
    benchmark ([TimerlatBench]), the constants of the campaign and the cleanup
    around it.  Benchkit's campaign is an argument.  An accepted matrix can be run
    with the serial numbers that were given, and the end of a campaign hides no
    failure and leaves no process. *)
From Stdlib Require Import Ascii ZArith Lia Floats.SpecFloat.
From S2P Require Import NoiseSpec Calls SteadyNoise TimerlatSpec SteadyCampaignSpec.
From S2P Require Import Prelude PyStr PyFloat PyVal Effects StartupTrace.
From S2P Require Import SystemControls Shell Noise SteadyResults TimerlatLoad TimerlatBench CampaignRun.
From stdpp Require Import base gmap strings list.
Local Open Scope Z_scope.
Local Open Scope py_scope.
Local Open Scope M_scope.

Record timerlat_options := {
  t_kernel_label : string;
  t_config : string;
  t_case_ids : list string;
  t_serials : list string;
  t_nb_runs : Z;
  t_duration_seconds : option Z;
  t_build_directory : string;
  t_results_dir : string;
  t_rtla : string;
  t_no_sudo : bool;
  t_recover_on_failure : string;
  t_reset_before_run : bool;
  t_recovery_reset_timeout_ms : Z;
  t_recovery_wait_seconds : f64;
  t_recovery_settle_seconds : f64;
  t_max_attempts_per_run : Z;
  t_build_jobs : Z;
}.
Definition option_checks (o : timerlat_options) : list (bool * string) := [
  (below 1 (t_nb_runs o) || below 1 (t_max_attempts_per_run o) || below 1 (t_build_jobs o),
   "run, attempt, and build-job counts must be positive");
  (given (below 1) (t_duration_seconds o), "--duration-seconds must be positive");
  (below 1 (t_recovery_reset_timeout_ms o) || not_positive (t_recovery_wait_seconds o),
   "recovery timeouts must be positive");
  (f_lt_Z (t_recovery_settle_seconds o) 0, "--recovery-settle-seconds must be non-negative");
  (bool_decide (1 < t_max_attempts_per_run o) && bool_decide (t_recover_on_failure o = "none"),
   "multiple attempts require --recover-on-failure full-reset")].

(** ** The matrix of cases *)

Definition check_camera (case : pydict) : outcome unit :=
  enabled ← camera_enabled_of case;
  count ← camera_count_of case;
  if eqb enabled (bool_decide (0 < count)) then Ok ()
  else raise ValueError ("Case " +:+ repr_val (case_id case) +:+ " has inconsistent camera enabled/count").
Definition check_noise (case : pydict) : outcome unit :=
  cpu ← section_field case "noise" "cpu" VNone;
  if negb (py_eq cpu (VStr "busy_loop")) then Ok () else
  workers ← section_field case "noise" "workers" (VInt (-1));
  workers ← py_int workers;
  if bool_decide (workers = CAMPAIGN_CPU_NOISE_WORKERS) then Ok ()
  else raise ValueError ("Case " +:+ repr_val (case_id case) +:+ " must use exactly "
                         +:+ str_Z CAMPAIGN_CPU_NOISE_WORKERS +:+ " CPU workers").
Definition check_load (case : pydict) : outcome unit := _ ← check_camera case; check_noise case.
Definition REQUIRED : list string :=
  ["duration_seconds"; "warmup_seconds"; "period_us"; "cpu_list"; "policy"; "bucket_us"; "entries"].
Definition parse_matrix (path : string) (value : pyval) : outcome (pydict * list pydict) :=
  let no_timerlat := raise ValueError (path +:+ " does not contain a timerlat object") in
  match value with
  | VDict d =>
      match dget "timerlat" d with
      | Some (VDict timerlat) =>
          match dgetd "cases" VNone d with
          | VList ((_ :: _) as cases) =>
              cases ← check_cases check_load cases;
              match filter (λ k, k ∉ dkeys timerlat) REQUIRED with
              | [] => Ok (timerlat, cases)
              | missing => raise ValueError ("Timerlat configuration missing: " +:+ py_join ", " (sorted_set missing))
              end
          | _ => raise ValueError (path +:+ " does not contain a non-empty case list")
          end
      | _ => no_timerlat
      end
  | _ => no_timerlat
  end.
Definition load_matrix {W} `{OS W} {T} (path : string) : M (T * world W) (pydict * list pydict) :=
  value <- sys (ReadJson path) ;; lift (parse_matrix path value).
Definition _select_cases (cases : list pydict) (selected : list string) : outcome (list pydict) :=
  select_cases selected cases.

(** [int(case['camera']['count'])]. *)
Definition camera_number (case : pydict) : outcome Z :=
  camera ← subscript case "camera"; count ← item camera "count"; py_int count.
Definition required_cameras (cases : list pydict) : outcome Z :=
  counts ← traverse camera_number cases;
  match counts with
  | [] => raise ValueError "max() iterable argument is empty"
  | n :: counts => Ok (foldl Z.max n counts)
  end.
Definition with_duration (o : timerlat_options) (timerlat : pydict) : pydict :=
  match t_duration_seconds o with Some n => dset "duration_seconds" (VInt n) timerlat | None => timerlat end.
Definition check_serials (o : timerlat_options) (cases : list pydict) : outcome unit :=
  required ← required_cameras cases;
  let n := Z.of_nat (length (t_serials o)) in
  if bool_decide (n < required) then
    raise SystemExit ("selected cases require " +:+ str_Z required +:+ " explicit --serial values; received " +:+ str_Z n)
  else Ok ().

(** ** The campaign *)

Definition timerlat_arguments_of (repo_root : string) (o : timerlat_options) (timerlat : pydict) (cases : list pydict) :
    timerlat_arguments := {|
  ta_repo_root := repo_root; ta_cases := cases; ta_timerlat := timerlat; ta_kernel_label := t_kernel_label o;
  ta_serials := t_serials o; ta_build_dir := t_build_directory o; ta_rtla := t_rtla o; ta_use_sudo := negb (t_no_sudo o);
  ta_recover_on_failure := t_recover_on_failure o; ta_reset_before_run := t_reset_before_run o;
  ta_recovery_reset_timeout_ms := t_recovery_reset_timeout_ms o;
  ta_recovery_wait_seconds := t_recovery_wait_seconds o; ta_recovery_settle_seconds := t_recovery_settle_seconds o;
  ta_max_attempts_per_run := t_max_attempts_per_run o; ta_build_jobs := t_build_jobs o |}.
Definition timerlat_constants (o : timerlat_options) (timerlat : pydict) : outcome pydict :=
  duration ← subscript timerlat "duration_seconds"; warmup ← subscript timerlat "warmup_seconds";
  period ← subscript timerlat "period_us"; cpu_list ← subscript timerlat "cpu_list"; policy ← subscript timerlat "policy";
  Ok [("kernel_label", VStr (t_kernel_label o)); ("timerlat_duration_seconds", duration);
      ("timerlat_warmup_seconds", warmup); ("timerlat_period_us", period); ("timerlat_cpu_list", cpu_list);
      ("timerlat_policy", policy); ("cpu_frequency_mhz", VInt 1500)].

Section run.
Context {W : Type} `{OS W}.
Abbreviation IO := (M (tbench * world W)).

Definition timerlat_run_with_cleanup (s : RealSenseTimerlatBench) (fuel : nat)
    (campaign : IO unit) : IO unit :=
  with_cleanup campaign (TimerlatBench.cleanup s fuel).
(** A new benchmark: nothing is set up and nothing runs. *)
Definition new_timerlat_state (s : RealSenseTimerlatBench) : tbench :=
  TBench (SystemControls.initial (controls_config s)) idle None (ta_rtla (t_arguments s)).
Context (campaign : RealSenseTimerlatBench → Z → list pyval → pydict → string → IO unit).
Definition timerlat_main (repo_root : string) (fuel : nat) (o : timerlat_options) :
    IO unit :=
  lift (refuse (option_checks o)) ;;
  matrix <- load_matrix (t_config o) ;;
  cases <- lift (_select_cases matrix.2 (t_case_ids o)) ;;
  let timerlat := with_duration o matrix.1 in
  lift (check_serials o cases) ;;
  sys (Mkdir (t_results_dir o) true) ;;
  benchmark <- new_timerlat_bench (timerlat_arguments_of repo_root o timerlat cases) ;;
  set_self (λ _, new_timerlat_state benchmark) ;;
  constants <- lift (timerlat_constants o timerlat) ;;
  timerlat_run_with_cleanup benchmark fuel
    (campaign benchmark (t_nb_runs o) (map case_id cases) constants (t_results_dir o)).
End run.

(** ** The matrix *)

(** A case with a camera has a positive count of cameras, one without has none;
    the CPU workload has the number of workers that the benchmark uses. *)
Definition consistent_load (case : pydict) : Prop :=
  (∃ count, camera_count_of case = Ok count ∧ camera_enabled_of case = Ok (bool_decide (0 < count))) ∧
  (noise_mode_of case = Ok "busy_loop" →
   section_field case "noise" "cpu" VNone = Ok (VStr "busy_loop") →
   ∃ workers, section_field case "noise" "workers" (VInt (-1)) = Ok workers ∧ py_int workers = Ok CAMPAIGN_CPU_NOISE_WORKERS).
Lemma check_load_spec case : check_load case = Ok () → consistent_load case.
Proof.
  intros ([] & Hc & Hn)%outcome_bind_ok. split.
  - apply outcome_bind_ok in Hc as (enabled & He & Hc). apply outcome_bind_ok in Hc as (count & Hcount & Hc).
    exists count. split; [done|]. destruct (eqb enabled _) eqn:Heq; [|done]. by apply eqb_prop in Heq as <-.
  - intros _ Hcpu. unfold check_noise in Hn. rewrite Hcpu in Hn. simpl in Hn.
    apply outcome_bind_ok in Hn as (v & Hv & Hn). apply outcome_bind_ok in Hn as (n & Hi & Hn).
    exists v. split; [done|]. rewrite Hi. by case_bool_decide as Heq; [rewrite Heq|].
Qed.
Lemma fold_max_ge n l : n ≤ foldl Z.max n l ∧ Forall (λ m, m ≤ foldl Z.max n l) l.
Proof.
  revert n. induction l as [|m l IH]; intros n; simpl; [split; [lia|constructor]|].
  destruct (IH (Z.max n m)) as [H1 H2]. split; [lia|]. constructor; [lia|done].
Qed.
Lemma required_cameras_spec cases n : required_cameras cases = Ok n →
  Forall (λ c, ∃ k, camera_number c = Ok k ∧ k ≤ n) cases.
Proof.
  unfold required_cameras. intros (counts & Hc%traverse_ok & Hn)%outcome_bind_ok. destruct counts as [|k counts]; [done|].
  injection Hn as <-. destruct (fold_max_ge k counts) as [Hk Hcs].
  eapply Forall2_Forall_l; [exact Hc|]. constructor; [intros c Hc'; by exists k|].
  eapply Forall_impl; [exact Hcs|]. intros m Hm c Hc'. by exists m.
Qed.
(** Both ways to read the number of cameras agree where the second one works. *)
Lemma camera_number_count case k : camera_number case = Ok k → camera_count_of case = Ok k.
Proof.
  unfold camera_number, camera_count_of, section_field, SteadyResults.field, subscript, dgetd.
  destruct (dget "camera" case) as [v|]; [|done]. cbn [mbind outcome_bind]. destruct v; try done. simpl.
  unfold subscript. by destruct (dget "count" d).
Qed.
(** The cameras of a case, by their serial numbers. *)
Definition has_serials (serials : list string) (case : pydict) : Prop :=
  camera_enabled_of case = Ok true →
  ∃ n, camera_count_of case = Ok (Z.of_nat n) ∧ (0 < n)%nat ∧ length (first_serials (Z.of_nat n) serials) = n.

(** An accepted timer-latency matrix can be run.  When the matrix is read,
    the cases are selected and the serial numbers are enough, there is a case, no
    id is missing or equals an earlier one; cameras are enabled exactly where
    their count is positive, the CPU workload has four workers, every case with
    cameras gets one serial number per camera, and no setting that the constants
    of the campaign need is missing. *)
Theorem accepted_matrix_can_run path value matrix cases o :
  parse_matrix path value = Ok matrix → _select_cases matrix.2 (t_case_ids o) = Ok cases →
  check_serials o cases = Ok () →
  cases ≠ [] ∧ proper_cases cases ∧ Forall consistent_load cases ∧ Forall (has_serials (t_serials o)) cases ∧
  is_ok (timerlat_constants o (with_duration o matrix.1)) = true.
Proof.
  intros Hm Hs Hserials. unfold parse_matrix in Hm.
  destruct value as [| | | | | |d]; try discriminate Hm. destruct (dget "timerlat" d) as [v|]; [|discriminate Hm].
  destruct v as [| | | | | |timerlat]; try discriminate Hm. destruct (dgetd "cases" VNone d) as [| | | | |l|]; try discriminate Hm.
  destruct l as [|v l]; [discriminate Hm|]. apply outcome_bind_ok in Hm as (all & Hall & Hm).
  destruct (filter _ REQUIRED) as [|k ks] eqn:Hreq; [|discriminate Hm]. injection Hm as <-. simpl in Hs |- *.
  apply check_cases_proper in Hall as (Heq & Hp & Hc). apply select_cases_spec in Hs as [Hsub Hsel].
  assert (Forall consistent_load cases) as Hload.
  { eapply sublist_keeps; [exact Hsub|]. eapply Forall_impl; [exact Hc|]. apply check_load_spec. }
  unfold check_serials in Hserials. apply outcome_bind_ok in Hserials as (n & Hn & Hserials).
  split; [|split; [exact (proper_sublist _ _ Hsub Hp)|split; [done|split]]].
  - intros ->. unfold required_cameras in Hn. simpl in Hn. discriminate Hn.
  - apply required_cameras_spec in Hn. apply Forall_forall. intros c Hin Hen.
    rewrite Forall_forall in Hload, Hn. destruct (Hload c Hin) as [(k & Hk & He) _], (Hn c Hin) as (k' & Hk' & Hle).
    apply camera_number_count in Hk'. rewrite Hk in Hk'. injection Hk' as <-. rewrite Hen in He. injection He as He.
    symmetry in He. apply bool_decide_eq_true in He. exists (Z.to_nat k). rewrite Z2Nat.id by lia. split; [done|]. split; [lia|].
    unfold first_serials. rewrite bool_decide_false by lia. rewrite length_take.
    destruct (bool_decide_reflect (Z.of_nat (length (t_serials o)) < n)); [discriminate Hserials|]. lia.
  - assert (∀ k, k ∈ REQUIRED → is_Some (dget k (with_duration o timerlat))) as Hsome.
    { intros k Hk. assert (is_Some (dget k timerlat)) as Hin.
      { destruct (dget k timerlat) as [v'|] eqn:E; [by exists v'|]. apply dget_None in E.
        assert (k ∈ filter (λ k, k ∉ dkeys timerlat) REQUIRED) as Hf by by apply list_elem_of_filter.
        rewrite Hreq in Hf. by apply elem_of_nil in Hf. }
      unfold with_duration. destruct (t_duration_seconds o); [|done]. rewrite dget_dset. destruct (decide _); [by eexists|exact Hin]. }
    unfold timerlat_constants, subscript.
    destruct (Hsome "duration_seconds") as [v1 ->]; [by apply (bool_decide_unpack _)|].
    destruct (Hsome "warmup_seconds") as [v2 ->]; [by apply (bool_decide_unpack _)|].
    destruct (Hsome "period_us") as [v3 ->]; [by apply (bool_decide_unpack _)|].
    destruct (Hsome "cpu_list") as [v4 ->]; [by apply (bool_decide_unpack _)|].
    destruct (Hsome "policy") as [v5 ->]; [by apply (bool_decide_unpack _)|]. done.
Qed.

(** *** A matrix *)

Definition demo_load (id : string) (enabled : bool) (count : Z) (cpu : string) : pyval := VDict [
  ("case_id", VStr id); ("camera", VDict [("enabled", VBool enabled); ("count", VInt count)]);
  ("noise", VDict [("cpu", VStr cpu); ("workers", VInt 4)])].
Definition demo_settings : pydict := [
  ("duration_seconds", VInt 300); ("warmup_seconds", VInt 10); ("period_us", VInt 1000); ("cpu_list", VStr "0-3");
  ("policy", VStr "f:95"); ("bucket_us", VInt 1); ("entries", VInt 10000)].
Definition demo_matrix (cases : list pyval) : pyval := VDict [("timerlat", VDict demo_settings); ("cases", VList cases)].
Definition demo_loads : list pyval :=
  [demo_load "idle" false 0 "none"; demo_load "cameras" true 2 "none"; demo_load "both" true 2 "busy_loop"].
Definition demo_timerlat_options : timerlat_options := {|
  t_kernel_label := "linux_preempt_rt"; t_config := "/matrix.json"; t_case_ids := ["both"; "idle"];
  t_serials := ["11"; "12"]; t_nb_runs := 5; t_duration_seconds := Some 60; t_build_directory := "/build";
  t_results_dir := "/results"; t_rtla := "rtla"; t_no_sudo := false; t_recover_on_failure := "full-reset";
  t_reset_before_run := true; t_recovery_reset_timeout_ms := 10000; t_recovery_wait_seconds := f_of_Z 5;
  t_recovery_settle_seconds := f_of_Z 0; t_max_attempts_per_run := 3; t_build_jobs := 3 |}.
Definition matrix_of (value : pyval) : pydict * list pydict :=
  match parse_matrix "/matrix.json" value with Ok m => m | Raise _ => ([], []) end.
Definition selected_of (value : pyval) (ids : list string) : list pydict :=
  match _select_cases (matrix_of value).2 ids with Ok l => l | Raise _ => [] end.
(** Two of three cases are selected; the one with cameras has a serial for both. *)
Lemma accepted_matrix_can_run_witness :
  map case_id (selected_of (demo_matrix demo_loads) ["both"; "idle"]) = [VStr "idle"; VStr "both"] ∧
  Forall (has_serials ["11"; "12"]) (selected_of (demo_matrix demo_loads) ["both"; "idle"]).
Proof.
  split; [vm_compute; reflexivity|].
  destruct (accepted_matrix_can_run "/matrix.json" (demo_matrix demo_loads) (matrix_of (demo_matrix demo_loads))
              (selected_of (demo_matrix demo_loads) ["both"; "idle"]) demo_timerlat_options) as (_ & _ & _ & Hs & _);
    [vm_compute; reflexivity..|exact Hs].
Defined.
(** A case without a camera section is read as one without cameras, and the
    number of cameras is then looked up in the missing section. *)
Example missing_camera_section :
  let value := demo_matrix [VDict [("case_id", VStr "idle")]] in
  is_ok (parse_matrix "/matrix.json" value) = true ∧
  check_serials demo_timerlat_options (matrix_of value).2 = raise KeyError "'camera'".
Proof. vm_compute. split; reflexivity. Qed.

(** ** The end of a campaign *)

(** The end of a timer-latency campaign hides no failure and leaves no
    interference: as for the steady-state campaign, for any campaign that leaves
    every living process to its workload, and none when it returns. *)
Theorem timerlat_end_hides_nothing {W} `{OS W} `{!Killable W} s fuel campaign (x : tbench * world W) :
  ends settled held_by_bench campaign → none_alive x.2 →
  let c := campaign x in
  let run := timerlat_run_with_cleanup s fuel campaign x in
  let cut := stopped (TimerlatBench.cleanup s fuel) c.2 in
  (is_ok run.1 = true → is_ok c.1 = true) ∧ (∀ e, c.1 = Raise e → run.1 = Raise e ∨ cut) ∧
  held_by_bench run.2 ∧ (none_alive run.2.2 ∧ controls_cleaned s fuel c.2 run.2 ∨ cut).
Proof.
  intros Hc Hx c run cut. pose proof (Hc x Hx) as Hw. unfold wp in Hw. fold c in Hw.
  assert (held_by_bench c.2) as Ho by (destruct c as [[]]; [by apply settled_held|done]).
  destruct (with_cleanup_cases (TimerlatBench.cleanup s fuel) campaign x) as (Hs & Hok & Hexn).
  change (with_cleanup campaign (TimerlatBench.cleanup s fuel) x) with run in *. fold c in Hs, Hok, Hexn.
  pose proof (t_cleanup_ends s fuel (λ _, ("", "")) c.2 Ho) as Hcl. unfold wp in Hcl. rewrite Hs. unfold cut, stopped.
  split; [by intros [Hr _]%Hok|]. split; [done|].
  destruct (TimerlatBench.cleanup s fuel c.2) as [[[]|e] y]; simpl.
  - split; [by apply settled_held, Hcl|by left].
  - destruct Hcl as [Hh Hcl]. split; [done|]. destruct (is_Exception e) eqn:He; [left; by apply Hcl|right; by exists e].
Qed.
