(* ===== verification/V4l2TraceSpec.v ===== *)
(** * Properties of the V4L2 stage trace

    Packing events and unpacking the file gives them back; every begin of a
    stage is paired at most once, with an end of the same stage that comes after
    it; and the missing frames of a stream account for its sequence numbers. *)
From Stdlib Require Import Ascii Strings.Byte ZArith Lia Floats.SpecFloat.
From coqutil Require Import Word.LittleEndianList.
From S2P Require Import Prelude PyStr PyFloat PyVal PyJson FloatOrder Effects Machine.
From S2P Require Import Devices SchedTrace DeadlineProfile V4l2Trace.
From stdpp Require Import base gmap strings list sorting.
Local Open Scope Z_scope.
Local Open Scope py_scope.

(** ** Packing *)

(** [struct.pack] of the two layouts. *)
Definition pack_header (h : header) : list Byte.byte :=
  magic h ++ le_split 4 (version h) ++ le_split 4 (header_size h) ++ le_split 4 (event_size h) ++ le_split 4 0
  ++ le_split 8 (capacity h) ++ le_split 8 (count h) ++ le_split 8 (dropped h).
Definition pack_event (e : event) : list Byte.byte :=
  le_split 8 (ev_timestamp_ns e) ++ le_split 4 (ev_tid e) ++ le_split 2 (ev_cpu e) ++ le_split 2 (ev_stage_id e)
  ++ le_split 4 (ev_fd e) ++ le_split 4 (ev_result e) ++ le_split 4 (ev_sequence e) ++ le_split 4 0.
(** The values [struct.pack] accepts. *)
Definition unsigned_range (bytes : nat) (z : Z) : Prop := 0 <= z < 2 ^ (8 * Z.of_nat bytes).
Definition signed_range (bytes : nat) (z : Z) : Prop := - 2 ^ (8 * Z.of_nat bytes - 1) <= z < 2 ^ (8 * Z.of_nat bytes - 1).
Definition event_range (e : event) : Prop :=
  unsigned_range 8 (ev_timestamp_ns e) ∧ unsigned_range 4 (ev_tid e) ∧ unsigned_range 2 (ev_cpu e) ∧
  unsigned_range 2 (ev_stage_id e) ∧ signed_range 4 (ev_fd e) ∧ signed_range 4 (ev_result e) ∧
  unsigned_range 4 (ev_sequence e).
(** The header of a trace of [count] events, of which [capacity] fit. *)
Definition trace_header (capacity count dropped : Z) : header := {|
  magic := MAGIC ++ [Byte.x00]; version := 1; header_size := Z.of_nat HEADER_BYTES; event_size := Z.of_nat EVENT_size;
  capacity := capacity; count := count; dropped := dropped |}.
(** The file: the header, padding, the events, and what may follow. *)
Definition pack_trace (h : header) (l : list event) (rest : list Byte.byte) : list Byte.byte :=
  pack_header h ++ replicate (HEADER_BYTES - HEADER_size) Byte.x00 ++ (l ≫= pack_event) ++ rest.

Lemma uint_skip a b offset size : uint (a ++ b) (length a + offset) size = uint b offset size.
Proof. unfold uint. by rewrite drop_app_add. Qed.
Lemma uint_le_split size z b : unsigned_range size z → uint (le_split size z ++ b) 0 size = z.
Proof.
  intros Hz. unfold uint. rewrite drop_0, take_app_length' by (symmetry; apply length_le_split).
  rewrite le_combine_split. unfold unsigned_range in Hz. rewrite Z.mul_comm in Hz. by apply Z.mod_small.
Qed.
Lemma sint_le_split size z b : (0 < size)%nat → signed_range size z → to_signed size (uint (le_split size z ++ b) 0 size) = z.
Proof.
  intros Hn Hz. unfold uint. rewrite drop_0, take_app_length' by (symmetry; apply length_le_split). rewrite le_combine_split, Z.mul_comm.
  unfold to_signed, signed_range in *.
  assert (2 ^ (8 * Z.of_nat size) = 2 * 2 ^ (8 * Z.of_nat size - 1)) as Hpow
    by (rewrite <- Z.pow_succ_r by lia; f_equal; lia).
  rewrite Hpow. destruct (decide (0 <= z)).
  - rewrite Z.mod_small by lia. by rewrite bool_decide_true by lia.
  - replace (z mod (2 * 2 ^ (8 * Z.of_nat size - 1))) with (z + 2 * 2 ^ (8 * Z.of_nat size - 1)).
    + rewrite bool_decide_false by lia. lia.
    + apply (Z.mod_unique _ _ (-1)); lia.
Qed.
Lemma length_pack_event e : length (pack_event e) = EVENT_size.
Proof. unfold pack_event. rewrite !length_app, !length_le_split. reflexivity. Qed.

(** The fields of a record, one after the other. *)
Ltac unpack_field :=
  repeat match goal with
  | |- context [uint (?a ++ ?b) (S ?k) ?size] =>
      let n := eval vm_compute in (S k - length a)%nat in
      change (S k) with (length a + n)%nat; rewrite (uint_skip a b n size)
  end; first [by apply uint_le_split | by apply sint_le_split; [lia|]].
Lemma unpack_pack_event e rest : event_range e → unpack_event (pack_event e ++ rest) 0 = e.
Proof.
  intros (H1 & H2 & H3 & H4 & H5 & H6 & H7). unfold unpack_event, pack_event, sint.
  destruct e as [ts tid cpu stage fd result sequence]. cbn [ev_timestamp_ns ev_tid ev_cpu ev_stage_id ev_fd ev_result ev_sequence Nat.add] in *. rewrite <- !app_assoc.
  f_equal; unpack_field.
Qed.
Lemma unpack_event_skip a b k : unpack_event (a ++ b) (length a + k) = unpack_event b k.
Proof. unfold unpack_event, sint. by rewrite <- !Nat.add_assoc, !uint_skip. Qed.
Lemma unpack_pack_events l : Forall event_range l →
  map (λ i, unpack_event (l ≫= pack_event) (i * EVENT_size)) (seq 0 (length l)) = l.
Proof.
  induction 1 as [|e l He Hl IH]; [done|]. rewrite bind_cons. cbn [length seq map]. f_equal.
  - change (0 * EVENT_size)%nat with 0%nat. by apply unpack_pack_event.
  - rewrite <- seq_shift, map_map. etrans; [|exact IH]. apply map_ext. intros i.
    change (S i * EVENT_size)%nat with (EVENT_size + i * EVENT_size)%nat. rewrite <- (length_pack_event e) at 1.
    apply unpack_event_skip.
Qed.
Lemma length_pack_header capacity count dropped : length (pack_header (trace_header capacity count dropped)) = HEADER_size.
Proof. unfold pack_header. rewrite !length_app, !length_le_split. reflexivity. Qed.
Lemma unpack_pack_header capacity count dropped rest :
  unsigned_range 8 capacity → unsigned_range 8 count → unsigned_range 8 dropped →
  unpack_header (pack_header (trace_header capacity count dropped) ++ rest) = trace_header capacity count dropped.
Proof.
  intros H1 H2 H3. unfold unpack_header, pack_header, trace_header.
  cbn [magic version header_size event_size V4l2Trace.capacity V4l2Trace.count V4l2Trace.dropped].
  rewrite <- !app_assoc.
  f_equal; rewrite (app_assoc MAGIC); unpack_field.
Qed.
Lemma length_pack_events l : length (l ≫= pack_event) = (length l * EVENT_size)%nat.
Proof. induction l as [|e l IH]; [done|]. rewrite bind_cons, length_app, length_pack_event, IH. reflexivity. Qed.

(** C22: The trace file is read as it was written.  A file that holds the header,
    the padding and the packed events, all fields within the width of their type,
    is decoded to that header and those events: no event is lost, shifted or
    truncated, and the sign of the signed fields is kept.  If the file says that
    more events were produced than fit, the ones that fit are there. *)
Theorem trace_file_roundtrip capacity count dropped l rest :
  unsigned_range 8 capacity → unsigned_range 8 count → unsigned_range 8 dropped → Forall event_range l →
  Z.of_nat (length l) = Z.min count capacity →
  let h := trace_header capacity count dropped in decode_trace (pack_trace h l rest) = Ok (h, l).
Proof.
  intros H1 H2 H3 Hl Hn h. unfold decode_trace, pack_trace.
  assert (length (pack_header h ++ replicate (HEADER_BYTES - HEADER_size) Byte.x00) = HEADER_BYTES) as Hlen
    by (rewrite length_app, length_replicate; unfold h; rewrite length_pack_header; reflexivity).
  rewrite (app_assoc (pack_header h)), take_app_length', drop_app_length' by done.
  rewrite bool_decide_false by (rewrite Hlen; unfold HEADER_BYTES, HEADER_size; lia).
  pose proof (unpack_pack_header capacity count dropped (replicate (HEADER_BYTES - HEADER_size) Byte.x00) H1 H2 H3) as Hu.
  fold h in Hu. rewrite Hu.
  assert (stored_count h = Z.of_nat (length l)) as Hstored by (by rewrite Hn).
  rewrite !bool_decide_true by done. simpl negb. cbn [orb].
  assert (Z.to_nat (Z.min (stored_count h * Z.of_nat EVENT_size) (Z.of_nat (length ((l ≫= pack_event) ++ rest)))) =
    length (l ≫= pack_event)) as Hsize by (rewrite Hstored, length_app, length_pack_events; unfold EVENT_size; lia).
  rewrite Hsize, take_app_length. rewrite bool_decide_true by (rewrite length_pack_events, Hstored; lia). simpl negb.
  cbn [negb]. by rewrite Hstored, Nat2Z.id, unpack_pack_events.
Qed.

(** ** Frames *)

Lemma Zsum_by_app {A} (f : A → Z) l k : Zsum_by f (l ++ k) = Zsum_by f l + Zsum_by f k.
Proof. induction l as [|x l IH]; simpl; lia. Qed.

(** How far a sequence number is behind the one it should at least have. *)
Definition backwards (g : gap) : Z := Z.max 0 (1 - g_delta g).
Lemma backwards_zero g : backwards g = 0 ↔ out_of_order g = false.
Proof. unfold backwards, out_of_order, g_delta. case_bool_decide; lia. Qed.
Lemma gap_balance g : missing_frames g - backwards g = g_delta g - 1.
Proof. unfold missing_frames, backwards. lia. Qed.
Lemma backwards_none l : Zsum_by backwards l = 0 ↔ Forall (λ g, out_of_order g = false) l.
Proof.
  assert (∀ k, 0 <= Zsum_by backwards k) as Hnn by (induction k; simpl; unfold backwards in *; lia).
  induction l as [|g l IH]; simpl; [by split|]. rewrite Forall_cons, <- IH, <- backwards_zero.
  specialize (Hnn l). assert (0 <= backwards g) by (unfold backwards; lia). lia.
Qed.

(** The frames of a stream in the steady state. *)
Definition frames_of (key : Z * Z) (l : list event_row) : list event_row :=
  filter (λ r, is_frame r = true ∧ stream r = key) l.
Lemma frames_snoc key l r :
  frames_of key (l ++ [r]) = if bool_decide (is_frame r = true ∧ stream r = key) then frames_of key l ++ [r] else frames_of key l.
Proof.
  unfold frames_of. rewrite filter_app. simpl. rewrite filter_cons, filter_nil.
  case_bool_decide; [by rewrite decide_True|]. by rewrite decide_False, app_nil_r.
Qed.
(** What the scan knows of the frames of a stream. *)
Record counted (key : Z * Z) (l : list event_row) (s : scan) : Prop := {
  counted_frames : default 0 (video_frames_by_stream s !! key) = Z.of_nat (length (frames_of key l));
  counted_key : is_Some (video_frames_by_stream s !! key) → frames_of key l ≠ [];
  counted_previous : previous_video_sequence s !! key = r_sequence <$> last (frames_of key l);
  counted_none : frames_of key l = [] → gaps_of key s = [];
  counted_gaps : ∀ first last_, head (frames_of key l) = Some first → last (frames_of key l) = Some last_ →
    r_sequence last_ - r_sequence first + 1 =
      Z.of_nat (length (frames_of key l)) + Zsum_by missing_frames (gaps_of key s) - Zsum_by backwards (gaps_of key s);
}.
Lemma pair_stage_frames r s :
  previous_video_sequence (pair_stage r s) = previous_video_sequence s ∧
  sequence_gap_rows (pair_stage r s) = sequence_gap_rows s ∧
  video_frames_by_stream (pair_stage r s) = video_frames_by_stream s.
Proof. unfold pair_stage, set_stack. by repeat case_match. Qed.
Lemma counted_pair key l r s : counted key l s → counted key l (pair_stage r s).
Proof.
  destruct (pair_stage_frames r s) as (Hp & Hg & Hf). intros [H1 H2 H3 H5 H4]. split; unfold gaps_of in *; by rewrite ?Hp, ?Hg, ?Hf.
Qed.
Lemma counted_other key l r s : stream r ≠ key → counted key l s → counted key l (count_frame r s).
Proof.
  intros Hne [H1 H2 H3 H5 H4]. assert (gaps_of key (count_frame r s) = gaps_of key s) as Hgaps.
  { unfold gaps_of, count_frame. simpl. rewrite filter_app.
    assert (∀ previous, filter (λ g, stream (g_row g) = key) [Gap r previous] = []) as Hnone
      by (intros p; rewrite filter_cons, decide_False by done; done).
    repeat case_match; rewrite ?Hnone; apply app_nil_r. }
  split; rewrite ?Hgaps; unfold count_frame; simpl; rewrite ?lookup_insert_ne by done; done.
Qed.
Lemma counted_frame l r s : is_frame r = true → counted (stream r) l s → counted (stream r) (l ++ [r]) (count_frame r s).
Proof.
  intros Hr [H1 H2 H3 H5 H4]. set (key := stream r) in *.
  assert (frames_of key (l ++ [r]) = frames_of key l ++ [r]) as Hframes
    by (rewrite frames_snoc; by rewrite bool_decide_true).
  split; rewrite Hframes.
  - unfold count_frame. simpl. fold key. rewrite lookup_insert_eq, H1, length_app. simpl. lia.
  - by intros _ [_ ?]%app_nil.
  - unfold count_frame. simpl. fold key. by rewrite lookup_insert_eq, last_snoc.
  - by intros [_ ?]%app_nil.
  - intros first last_ Hfirst Hlast. rewrite last_snoc in Hlast. injection Hlast as <-. rewrite length_app. simpl.
    destruct (last (frames_of key l)) as [z|] eqn:Hz.
    + assert (head (frames_of key l) = Some first) as Hfirst' by (by destruct (frames_of key l)).
      specialize (H4 first z Hfirst' eq_refl). simpl in H3.
      unfold gaps_of, count_frame in *. simpl. fold key. rewrite H3, filter_app, !Zsum_by_app.
      case_bool_decide as Hseq; [simpl; lia|]. rewrite filter_cons, decide_True, filter_nil by done. simpl.
      pose proof (gap_balance (Gap r (r_sequence z))) as Hg. unfold g_delta in Hg. simpl in *. lia.
    + apply last_None in Hz. specialize (H5 Hz). rewrite Hz in *. simpl in *. injection Hfirst as <-.
      assert (gaps_of key (count_frame r s) = []) as ->
        by (rewrite <- H5; unfold gaps_of, count_frame; simpl; fold key; by rewrite H3, app_nil_r).
      simpl. lia.
Qed.
Lemma counted_scan key l : counted key l (scan_events l).
Proof.
  unfold scan_events. induction l as [|r l IH] using rev_ind.
  { split; [done|by intros []|done..]. }
  rewrite foldl_app. simpl. set (s := foldl scan_row start_scan l) in *. unfold scan_row. apply counted_pair.
  destruct (is_frame r) eqn:Hr.
  - destruct (decide (stream r = key)) as [<-|Hne]; [by apply counted_frame|].
    apply (counted_other _ _ _ _ Hne) in IH. destruct IH. split; rewrite frames_snoc, bool_decide_false by (intros []; congruence); done.
  - destruct IH. split; rewrite frames_snoc, bool_decide_false by (intros []; congruence); done.
Qed.

(** C23: The missing frames of a stream account for its sequence numbers.  For
    each stream of the summary, with the steady-state frames it counts: from the
    first sequence number to the last there are at most as many numbers as frames
    and missing frames together, and exactly as many when no frame came out of
    order. *)
Theorem missing_frames_accounted window activations l key frames :
  let rows := event_rows window activations l in
  let s := scan_events rows in
  (key, frames) ∈ sorted_streams s →
  ∃ first last_, head (frames_of key rows) = Some first ∧ last (frames_of key rows) = Some last_ ∧
    frames = Z.of_nat (length (frames_of key rows)) ∧
    let numbers := r_sequence last_ - r_sequence first + 1 in
    let missing := Zsum_by missing_frames (gaps_of key s) in
    numbers <= frames + missing ∧
    (numbers = frames + missing ↔ Forall (λ g, out_of_order g = false) (gaps_of key s)).
Proof.
  intros rows s Hkey. unfold sorted_streams in Hkey. rewrite sort_by_perm, elem_of_map_to_list in Hkey.
  destruct (counted_scan key rows) as [H1 H2 H3 H5 H4]. fold s in H1, H2, H3, H4, H5. rewrite Hkey in H1, H2. simpl in H1.
  specialize (H2 (mk_is_Some _ _ eq_refl)). destruct (frames_of key rows) as [|first fs] eqn:Hf; [done|].
  destruct (last (first :: fs)) as [z|] eqn:Hz; [|by apply last_None in Hz].
  exists first, z. specialize (H4 first z eq_refl eq_refl). do 3 (split; [done|]). split.
  - assert (0 <= Zsum_by backwards (gaps_of key s)); [|lia].
    generalize (gaps_of key s). intros k. induction k; simpl; unfold backwards in *; lia.
  - etrans; [|apply backwards_none]. lia.
Qed.

(** ** Stages *)

Lemma row_lt_spec x y : row_lt x y = true ↔
  r_timestamp_ns x < r_timestamp_ns y ∨ r_timestamp_ns x = r_timestamp_ns y ∧ r_tid x < r_tid y.
Proof. unfold row_lt. rewrite orb_true_iff, andb_true_iff, !bool_decide_eq_true. done. Qed.
Lemma sorted_weaken {A} (R R' : A → A → Prop) l : (∀ x y, R x y → R' x y) → StronglySorted R l → StronglySorted R' l.
Proof. intros Hr. induction 1; constructor; [done|]. eapply Forall_impl; [eassumption|auto]. Qed.
Lemma event_rows_sorted window activations l :
  StronglySorted (λ x y, r_timestamp_ns x <= r_timestamp_ns y) (event_rows window activations l).
Proof.
  eapply sorted_weaken; [|apply (sort_by_sorted row_lt (λ _, True))].
  - intros x y Hxy. unfold by_le in Hxy. destruct (decide (r_timestamp_ns y < r_timestamp_ns x)); [|lia].
    assert (row_lt y x = true) by (apply row_lt_spec; lia). congruence.
  - intros x y [?|[]]%row_lt_spec; apply not_true_iff_false; rewrite row_lt_spec; lia.
  - intros x y z _ _ _ Hxy Hyz. unfold by_le in *. rewrite <- not_true_iff_false, row_lt_spec in *. lia.
  - by apply Forall_true.
Qed.

Definition is_begin (r : event_row) : bool := py_endswith "_begin" (r_stage r).
(** The begins that are not paired. *)
Definition open_rows (s : scan) : list event_row := map_to_list (stacks s) ≫= snd.
Definition stack_key (r : event_row) : Z * Z * string := (r_tid r, r_fd r, r_stage r).
(** A pair is a begin and an end of the same stage, in a thread and a stream. *)
Definition well_paired (d : duration) : Prop :=
  stream (d_end d) = stream (d_begin d) ∧ dget (r_stage (d_end d)) PAIRS = Some (r_stage (d_begin d)) ∧ 0 <= d_ns d.

Lemma open_rows_insert (m : gmap (Z * Z * string) (list event_row)) key x :
  map_to_list (<[key := x]> m) ≫= snd ≡ₚ x ++ (map_to_list (delete key m) ≫= snd).
Proof.
  rewrite <- insert_delete_eq, map_to_list_insert by apply lookup_delete_eq. by rewrite bind_cons.
Qed.
Lemma open_rows_lookup (m : gmap (Z * Z * string) (list event_row)) key :
  map_to_list m ≫= snd ≡ₚ default [] (m !! key) ++ (map_to_list (delete key m) ≫= snd).
Proof.
  destruct (m !! key) as [x|] eqn:Hx; simpl.
  - rewrite <- open_rows_insert. by rewrite insert_id.
  - by rewrite delete_id.
Qed.

Record paired (l : list event_row) (s : scan) : Prop := {
  paired_begins : filter (λ r, is_begin r = true) l ≡ₚ map d_begin (duration_rows s) ++ open_rows s;
  paired_ends : sublist (map d_end (duration_rows s)) l;
  paired_stacks : ∀ key rows, stacks s !! key = Some rows → Forall (λ r, stack_key r = key) rows;
  paired_well : Forall well_paired (duration_rows s);
}.
Lemma begin_is_no_end r : is_begin r = true → dget (r_stage r) PAIRS = None.
Proof.
  unfold is_begin. intros Hb. destruct (dget (r_stage r) PAIRS) as [b|] eqn:Hd; [|done]. exfalso.
  assert (Forall (λ p, py_endswith "_begin" p.1 = false) PAIRS) as Hall by (by apply (bool_decide_unpack _)).
  assert ((r_stage r, b) ∈ PAIRS) as Hin by (by apply dget_elem).
  rewrite Forall_forall in Hall. specialize (Hall _ Hin). simpl in Hall. congruence.
Qed.
Lemma sublist_snoc {A} (l k : list A) x : sublist l k → sublist (l ++ [x]) (k ++ [x]).
Proof. intros Hl. by apply sublist_app. Qed.
Lemma paired_count l r s : paired l s → paired l (count_frame r s).
Proof. by intros []. Qed.
Lemma paired_step l r s :
  Forall (λ x, r_timestamp_ns x <= r_timestamp_ns r) l → paired l s → paired (l ++ [r]) (pair_stage r s).
Proof.
  intros Hl [Hb He Hs Hw]. unfold pair_stage. fold (is_begin r).
  assert (∀ key rows x, stacks (set_stack key rows x s) = <[key := rows]> (stacks s)) as Hstacks by done.
  destruct (is_begin r) eqn:Hr; [|destruct (dget (r_stage r) PAIRS) as [begin_stage|] eqn:Hp].
  - fold (stack_key r). set (key := stack_key r). split.
    + rewrite filter_app, filter_cons, decide_True, filter_nil by done. unfold set_stack, open_rows in *. simpl.
      rewrite app_nil_r, open_rows_insert, Hb, (open_rows_lookup (stacks s) key). unfold stack_of. simpl.
      rewrite <- app_assoc. apply Permutation_app_head. by rewrite <- Permutation_cons_append.
    + simpl. rewrite app_nil_r. by apply sublist_inserts_r.
    + intros k rows. rewrite Hstacks. destruct (decide (k = key)) as [->|Hne].
      * rewrite lookup_insert_eq. intros [= <-]. constructor; [done|]. unfold stack_of.
        destruct (stacks s !! key) as [x|] eqn:Hx; simpl; [by apply Hs|constructor].
      * rewrite lookup_insert_ne by done. apply Hs.
    + simpl. by rewrite app_nil_r.
  - set (key := (r_tid r, r_fd r, begin_stage)). destruct (stack_of key s) as [|b rest] eqn:Hstack.
    + split; [|by apply sublist_inserts_r|done|done].
      rewrite filter_app, filter_cons, decide_False, filter_nil, app_nil_r by congruence. done.
    + assert (stacks s !! key = Some (b :: rest)) as Hkey
        by (unfold stack_of in Hstack; destruct (stacks s !! key); simpl in Hstack; congruence).
      assert (Forall (λ x, stack_key x = key) (b :: rest)) as [Hbk Hrest]%Forall_cons by by eapply Hs.
      assert (b ∈ l) as Hin.
      { apply (list_elem_of_filter (λ r, is_begin r = true)). rewrite Hb. apply elem_of_app. right. unfold open_rows.
        rewrite (open_rows_lookup (stacks s) key), Hkey. by left. }
      split.
      * rewrite filter_app, filter_cons, decide_False, filter_nil, app_nil_r by congruence. rewrite Hb.
        unfold set_stack, open_rows in *. simpl. rewrite map_app, <- app_assoc, open_rows_insert.
        rewrite (open_rows_lookup (stacks s) key), Hkey. done.
      * simpl. rewrite map_app. by apply sublist_snoc.
      * intros k rows. rewrite Hstacks. destruct (decide (k = key)) as [->|Hne].
        -- rewrite lookup_insert_eq. by intros [= <-].
        -- rewrite lookup_insert_ne by done. apply Hs.
      * simpl. apply Forall_app. split; [done|]. constructor; [|constructor]. unfold well_paired, stream, d_ns. simpl.
        rewrite Forall_forall in Hl. specialize (Hl b Hin). injection Hbk as H1 H2 H3.
        split_and!; [by rewrite H1, H2|by rewrite H3|lia].
  - split; [|by apply sublist_inserts_r|done|done].
    rewrite filter_app, filter_cons, decide_False, filter_nil, app_nil_r by congruence. done.
Qed.
Lemma paired_scan l : StronglySorted (λ x y, r_timestamp_ns x <= r_timestamp_ns y) l → paired l (scan_events l).
Proof.
  unfold scan_events. induction l as [|r l IH] using rev_ind; intros Hl.
  { split; [done|done|by intros key rows|constructor]. }
  apply StronglySorted_app in Hl as (Hbefore & Hl & _).
  rewrite foldl_app. simpl. unfold scan_row. apply paired_step.
  - apply Forall_forall. intros x Hx. apply Hbefore; [done|by left].
  - destruct (is_frame r); [apply paired_count|]; by apply IH.
Qed.

(** Every begin of a stage is paired at most once.  The begins of the events
    are, each as often as it occurs, those of the durations and those that the
    summary counts as unmatched; no end ends two stages; and a duration is the
    begin and the end of one stage, in one thread on one file descriptor, and is
    not negative. *)
Theorem stages_paired_once window activations l :
  let rows := event_rows window activations l in
  let s := scan_events rows in
  filter (λ r, is_begin r = true) rows ≡ₚ map d_begin (duration_rows s) ++ open_rows s ∧
  unmatched_begin_count s = Z.of_nat (length (open_rows s)) ∧
  sublist (map d_end (duration_rows s)) rows ∧
  Forall (λ d, stream (d_end d) = stream (d_begin d) ∧ dget (r_stage (d_end d)) PAIRS = Some (r_stage (d_begin d)) ∧
               0 <= d_ns d) (duration_rows s).
Proof.
  intros rows s. destruct (paired_scan rows (event_rows_sorted window activations l)) as [Hb He Hs Hw].
  split; [exact Hb|]. split; [|by split].
  unfold unmatched_begin_count, open_rows. induction (map_to_list (stacks s)) as [|p k IH]; [done|].
  rewrite bind_cons, length_app. simpl. rewrite IH. lia.
Qed.

(** ** A trace *)

(** Two frames with a gap, a frame that comes late, and a stage in another
    thread whose begin is paired; the last begin is not. *)
Definition sample_events : list event := [
  Event 1100010000 42 1 5 9 0 10 ; Event 1133343000 42 1 5 9 0 12; Event 1140000000 42 2 5 9 0 11;
  Event 1100040000 43 1 26 (-1) 0 20; Event 1100050000 43 1 27 (-1) 0 20; Event 1100060000 43 1 26 (-1) (-11) 21].
Definition sample_window : Z * Z := (1000000000, 2000000000).
Abbreviation sample_scan := (scan_events (event_rows sample_window ∅ sample_events)).

Lemma trace_file_roundtrip_witness :
  decode_trace (pack_trace (trace_header 6 9 3) sample_events []) = Ok (trace_header 6 9 3, sample_events) ∧
  length (pack_trace (trace_header 6 9 3) sample_events []) = (4096 + 6 * 32)%nat.
Proof.
  split; [|vm_compute; reflexivity]. apply trace_file_roundtrip; [unfold unsigned_range; lia..| |reflexivity].
  unfold sample_events, event_range, unsigned_range, signed_range. simpl.
  repeat (constructor; [simpl; lia|]). constructor.
Defined.
(** 10, 12, 11: two numbers from the first to the last, three frames, one
    missing. *)
Lemma missing_frames_accounted_witness :
  map (λ g, (g_previous g, r_sequence (g_row g), missing_frames g, out_of_order g)) (gaps_of (42, 9) sample_scan) =
    [(10, 12, 1, false); (12, 11, 0, true)] ∧
  ∃ first last_ : event_row, r_sequence last_ - r_sequence first + 1 <= 3 + 1 ∧
    (r_sequence last_ - r_sequence first + 1 = 3 + 1 ↔ Forall (λ g, out_of_order g = false) (gaps_of (42, 9) sample_scan)).
Proof.
  split; [vm_compute; reflexivity|].
  assert (((42, 9), 3) ∈ sorted_streams sample_scan) as Hin by (vm_compute; left).
  destruct (missing_frames_accounted sample_window ∅ sample_events (42, 9) 3 Hin)
    as (first & last_ & _ & _ & _ & Hle & Heq).
  exists first, last_. assert (Zsum_by missing_frames (gaps_of (42, 9) sample_scan) = 1) as Hm by (vm_compute; reflexivity).
  rewrite Hm in Hle, Heq. by split.
Defined.
Example sample_pairs :
  map (λ d, (d_stage d, d_ns d)) (duration_rows sample_scan) = [("aggregator_enqueue", 10000)] ∧
  unmatched_begin_count sample_scan = 1.
Proof. by vm_compute. Qed.
