(* ===== verification/FreshnessSpec.v ===== *)
(** * Properties of the frame-loss analysis

    The events nearest to a time are found by bisection; every gap is classified
    by the strongest evidence around it, and counted once. *)
From Stdlib Require Import Ascii ZArith Lia Floats.SpecFloat.
From S2P Require Import Prelude PyStr PyFloat PyVal PyJson FloatOrder Effects Machine.
From S2P Require Import Bisect Devices SchedTrace StartupTrace DeadlineProfile V4l2Trace KernelTrace FreshnessTrace.
From stdpp Require Import base gmap strings list sorting.
Local Open Scope Z_scope.
Local Open Scope py_scope.

(** ** Bisection *)

Section bisect.
Context {A : Type} (key : A → Z).
Abbreviation sorted := (StronglySorted (λ x y, key x <= key y)).

Lemma length_filter_map (P : Z → Prop) `{!∀ x, Decision (P x)} l :
  length (filter P (map key l)) = length (filter (λ x, P (key x)) l).
Proof.
  induction l as [|x l IH]; [done|]. simpl. rewrite !filter_cons. destruct (decide (P (key x))); simpl; by rewrite IH.
Qed.
Lemma sorted_keys l : sorted l → StronglySorted (≤) (map key l).
Proof.
  induction 1 as [|x l Hl IH Hx]; [constructor|]. simpl. constructor; [done|]. clear IH Hl.
  induction Hx; simpl; by constructor.
Qed.
(** What is dropped by [bisect_left], what is taken by [bisect_right]. *)
Lemma drop_bisect_left l a : sorted l → drop (bisect_left (map key l) a) l = filter (λ x, a <= key x) l.
Proof.
  intros Hs. rewrite bisect_left_count by (by apply sorted_keys). rewrite length_filter_map. induction Hs as [|x l Hl IH Hx]; [done|]. rewrite !filter_cons.
  destruct (decide (key x < a)).
  - rewrite (decide_False (P := a <= key x)) by lia. exact IH.
  - rewrite (decide_True (P := a <= key x)) by lia.
    rewrite filter_none, filter_all; [done|..]; eapply Forall_impl; try exact Hx; simpl; lia.
Qed.
Lemma take_bisect_right l b : sorted l → take (bisect_right (map key l) b) l = filter (λ x, key x <= b) l.
Proof.
  intros Hs. rewrite bisect_right_count by (by apply sorted_keys). rewrite length_filter_map. induction Hs as [|x l Hl IH Hx]; [done|]. rewrite !filter_cons.
  destruct (decide (key x <= b)); [simpl; by rewrite IH|].
  rewrite !filter_none; [done|..]; eapply Forall_impl; try exact Hx; simpl; lia.
Qed.
Lemma window_slice l a b : sorted l → a <= b →
  take (bisect_right (map key l) b - bisect_left (map key l) a) (drop (bisect_left (map key l) a) l) =
  filter (λ x, a <= key x ∧ key x <= b) l.
Proof.
  intros Hl Hab. rewrite drop_bisect_left by done.
  assert (sorted (filter (λ x, a <= key x) l)) as Hf.
  { clear Hab. induction Hl as [|x l Hl IH Hx]; [constructor|]. rewrite filter_cons. case_decide; [|done]. constructor; [done|].
    apply Forall_forall. intros y [_ Hy]%list_elem_of_filter. rewrite Forall_forall in Hx. by apply Hx. }
  assert (bisect_right (map key l) b - bisect_left (map key l) a =
          bisect_right (map key (filter (λ x, (a <= key x)%Z) l)) b)%nat as ->.
  { rewrite !bisect_right_count, bisect_left_count by (by apply sorted_keys). rewrite !length_filter_map. clear Hl Hf.
    enough (length (filter (λ x, (key x <= b)%Z) l) = length (filter (λ x, (key x < a)%Z) l) +
      length (filter (λ x, (key x <= b)%Z) (filter (λ x, (a <= key x)%Z) l)))%nat by lia.
    induction l as [|x l IH]; [done|]. rewrite !filter_cons.
    repeat case_decide; rewrite ?filter_cons; repeat case_decide; simpl; try lia. }
  rewrite take_bisect_right by done. rewrite list_filter_filter. apply list_filter_iff. intros x. lia.
Qed.
End bisect.

(** ** The nearest event *)

Section nearest.
Context {A : Type} (timestamp_ns sequence_of : A → Z).
Abbreviation sorted := (StronglySorted (λ x y, timestamp_ns x <= timestamp_ns y)).
Abbreviation close t radius x := (Z.abs (timestamp_ns x - t) <= radius).

Lemma candidates_spec rows t radius sequence x : sorted rows → 0 <= radius →
  x ∈ candidates timestamp_ns sequence_of rows t radius sequence →
  x ∈ rows ∧ close t radius x ∧
  (∀ n, sequence = Some n → (∃ y, y ∈ rows ∧ close t radius y ∧ sequence_of y = n) → sequence_of x = n).
Proof.
  intros Hs Hr. unfold candidates. rewrite window_slice by (done || lia).
  set (near := filter _ rows).
  assert (∀ y, y ∈ near ↔ y ∈ rows ∧ close t radius y) as Hnear.
  { intros y. unfold near. rewrite list_elem_of_filter. split; intros [? ?]; (split; [|try lia; done]); try done; lia. }
  destruct sequence as [n|]; [|intros Hx; apply Hnear in Hx as [? ?]; done].
  destruct (filter (λ x, sequence_of x = n) near) as [|z l] eqn:Hf.
  - intros Hx. apply Hnear in Hx as [Hx Hc]. split; [done|]. split; [done|]. intros m [= <-] (y & Hy & Hcy & Hn).
    assert (y ∈ filter (λ x, sequence_of x = n) near) as Hin by (apply list_elem_of_filter; split; [done|by apply Hnear]).
    rewrite Hf in Hin. by apply elem_of_nil in Hin.
  - rewrite <- Hf. intros [Hn Hx]%list_elem_of_filter. apply Hnear in Hx as [Hx Hc]. split; [done|]. split; [done|].
    by intros m [= <-].
Qed.
Lemma candidates_none rows t radius sequence : sorted rows → 0 <= radius →
  candidates timestamp_ns sequence_of rows t radius sequence = [] ↔ Forall (λ x, ¬ close t radius x) rows.
Proof.
  intros Hs Hr. unfold candidates. rewrite window_slice by (done || lia). set (near := filter _ rows).
  assert (near = [] ↔ Forall (λ x, ¬ close t radius x) rows) as Hnear.
  { unfold near. rewrite Forall_forall. split.
    - intros Hn x Hx Hc. assert (x ∈ near) as Hin by (apply list_elem_of_filter; split; [lia|done]).
      unfold near in Hin. rewrite Hn in Hin. by apply elem_of_nil in Hin.
    - intros Ha. apply filter_none, Forall_forall. intros x Hx Hc. apply (Ha x Hx). lia. }
  destruct sequence as [n|]; [|done].
  destruct (filter (λ x, sequence_of x = n) near) as [|z l] eqn:Hf; [done|]. split; [done|].
  intros Hn%Hnear. by rewrite Hn in Hf.
Qed.
(** Nothing is found exactly when nothing is close; what is found is the first of
    the nearest candidates. *)
Lemma nearest_none rows t radius sequence : sorted rows → 0 <= radius →
  nearest timestamp_ns sequence_of rows t radius sequence = None ↔ Forall (λ x, ¬ close t radius x) rows.
Proof.
  intros Hs Hr. rewrite <- (candidates_none rows t radius sequence) by done. unfold nearest.
  by destruct (candidates _ _ _ _ _ _).
Qed.
Lemma nearest_some rows t radius sequence x :
  nearest timestamp_ns sequence_of rows t radius sequence = Some x →
  x ∈ candidates timestamp_ns sequence_of rows t radius sequence ∧
  ∀ y, y ∈ candidates timestamp_ns sequence_of rows t radius sequence → distance timestamp_ns t x <= distance timestamp_ns t y.
Proof.
  unfold nearest. destruct (candidates _ _ _ _ _ _) as [|z l]; [done|]. intros [= <-].
  destruct (choose_by_spec (λ x y, bool_decide (distance timestamp_ns t x < distance timestamp_ns t y))
    ltac:(intros; apply bool_decide_eq_false; lia) ltac:(intros ? ? ?; rewrite !bool_decide_eq_true; lia) l z) as [Hin Hle].
  split; [done|]. intros y Hy. specialize (Hle y Hy). apply bool_decide_eq_false in Hle. lia.
Qed.
End nearest.

(** ** Classification *)

Lemma rows_of_sorted c v : StronglySorted (λ x y, k_timestamp_ns x <= k_timestamp_ns y) (rows_of c v).
Proof. apply sort_on_sorted. Qed.
(** The gaps of sorted rows are sorted. *)
Definition new_gaps (key_name : string) (m : gmap Z Z) (r : kernel_row) : list kernel_gap := (gap_step key_name (m, []) r).2.
Lemma gap_step_eq key_name m gaps r :
  gap_step key_name (m, gaps) r = (<[k_get key_name 0 r := k_sequence r]> m, gaps ++ new_gaps key_name m r).
Proof. reflexivity. Qed.
Lemma gap_step_rows key_name m gaps rows :
  (foldl (gap_step key_name) (m, gaps) rows).2 = gaps ++ (foldl (gap_step key_name) (m, []) rows).2.
Proof.
  revert m gaps. induction rows as [|r rows IH]; intros m gaps; cbn [foldl]; [by rewrite app_nil_r|].
  rewrite !gap_step_eq, (IH _ (gaps ++ _)), (IH _ ([] ++ _)). by rewrite <- !app_assoc.
Qed.
Lemma discontinuities_sublist key_name m rows :
  sublist (map kg_row (foldl (gap_step key_name) (m, []) rows).2) rows.
Proof.
  revert m. induction rows as [|r rows IH]; intros m; cbn [foldl]; [done|]. rewrite gap_step_eq, gap_step_rows, map_app.
  unfold new_gaps, gap_step. simpl.
  destruct (m !! _) as [last|]; [|simpl; by apply sublist_cons].
  case_bool_decide; simpl; [by apply sublist_cons|by apply sublist_skip].
Qed.
Lemma sublist_sorted {A} (R : relation A) l k : sublist l k → StronglySorted R k → StronglySorted R l.
Proof.
  induction 1 as [|x l k Hs IH|x l k Hs IH]; intros Hk; [done|..]; apply StronglySorted_inv in Hk as [Hk Hx].
  - constructor; [by apply IH|]. rewrite Forall_forall in *. intros y Hy. apply Hx. by eapply elem_of_sublist.
  - by apply IH.
Qed.
Lemma sorted_map {A B} (f : A → B) (key : B → Z) l :
  StronglySorted (λ x y, key x <= key y) (map f l) → StronglySorted (λ x y, key (f x) <= key (f y)) l.
Proof.
  induction l as [|x l IH]; intros Hl; [constructor|]. change (map f (x :: l)) with (f x :: map f l) in Hl.
  apply StronglySorted_inv in Hl as [Hl Hx].
  constructor; [by apply IH|]. clear IH Hl. induction l; simpl in Hx; inversion_clear Hx; constructor; auto.
Qed.
Lemma steady_gaps_sorted c key_name v :
  StronglySorted (λ x y, kg_timestamp_ns x <= kg_timestamp_ns y) (steady_gaps c key_name v).
Proof.
  apply (sorted_map kg_row k_timestamp_ns). unfold steady_gaps, discontinuities.
  eapply sublist_sorted; [apply discontinuities_sublist|]. eapply sublist_sorted; [|apply (rows_of_sorted c v)].
  apply sublist_filter.
Qed.

(** An event of a category, a gap of a sequence, within a distance of a time. *)
Definition event_near (v : collected) (c : category) (t radius : Z) : Prop :=
  ∃ r, r ∈ rows_of c v ∧ Z.abs (k_timestamp_ns r - t) <= radius.
Definition gap_near (v : collected) (c : category) (key_name : string) (t radius : Z) : Prop :=
  ∃ g, g ∈ steady_gaps c key_name v ∧ Z.abs (kg_timestamp_ns g - t) <= radius.
Lemma nearest_row_none c v t radius sequence : 0 <= radius → nearest_row c v t radius sequence = None ↔ ¬ event_near v c t radius.
Proof.
  intros Hr. unfold nearest_row. rewrite nearest_none by (done || apply rows_of_sorted). rewrite Forall_forall.
  unfold event_near. naive_solver.
Qed.
Lemma nearest_gap_none c key_name v t radius sequence :
  0 <= radius → nearest_gap c key_name v t radius sequence = None ↔ ¬ gap_near v c key_name t radius.
Proof.
  intros Hr. unfold nearest_gap. rewrite nearest_none by (done || apply steady_gaps_sorted). rewrite Forall_forall.
  unfold gap_near. naive_solver.
Qed.
Lemma found_true {A} (o : option A) (P : Prop) : (o = None ↔ ¬ P) → P → bool_decide (is_Some o) = true.
Proof. intros Ho HP. apply bool_decide_eq_true. destruct o; [done|]. by destruct (proj1 Ho eq_refl). Qed.
Lemma found_false {A} (o : option A) (P : Prop) : (o = None ↔ ¬ P) → ¬ P → bool_decide (is_Some o) = false.
Proof. intros Ho HP. apply bool_decide_eq_false. rewrite (proj2 Ho HP). by intros []. Qed.
(** A failed validation near a time, the nearest one; with the sequence number if
    one of them has it. *)
Definition blamed (v : collected) (t radius sequence : Z) (r : kernel_row) : Prop :=
  r ∈ rows_of UvcValidation v ∧ Z.abs (k_timestamp_ns r - t) <= radius ∧
  ((∃ r', r' ∈ rows_of UvcValidation v ∧ Z.abs (k_timestamp_ns r' - t) <= radius ∧ k_get "sequence" (-1) r' = sequence) →
   k_get "sequence" (-1) r = sequence).

(** C24: Every lost frame is blamed on the strongest evidence.  The class of a gap
    that librealsense saw is the first of these that applies: the cause of a
    failed validation within 100 ms, of the missing frame if there is one; a
    corrupted buffer, a missing buffer or a failed transfer within 50 ms; a gap
    in the frames UVC completed, or in those V4L2 returned, within 20 ms; and if
    there is nothing, the loss is after the kernel. *)
Theorem gap_classification v raw :
  let t := raw_timestamp_ns raw in
  let class := classification (look_around v raw) in
  let validation := event_near v UvcValidation t 100000000 in
  let corrupted := event_near v UvcError t 50000000 in
  let starved := event_near v NoBuffer t 50000000 in
  let transfer := event_near v XhciError t 50000000 in
  let uvc := gap_near v UvcReady "queue" t 20000000 in
  let kernel := gap_near v KernelDqbuf "minor" t 20000000 in
  (validation → ∃ r, blamed v t 100000000 (raw_previous raw + 1) r ∧ class = default "None" (k_cause r)) ∧
  (¬ validation → corrupted → class = "uvc_corrupted_buffer") ∧
  (¬ validation → ¬ corrupted → starved → class = "uvc_buffer_starvation") ∧
  (¬ validation → ¬ corrupted → ¬ starved → transfer → class = "xhci_urb_error") ∧
  (¬ validation → ¬ corrupted → ¬ starved → ¬ transfer → uvc → class = "uvc_or_usb_before_frame_ready") ∧
  (¬ validation → ¬ corrupted → ¬ starved → ¬ transfer → ¬ uvc → kernel → class = "between_uvc_ready_and_v4l2_dqbuf") ∧
  (¬ validation → ¬ corrupted → ¬ starved → ¬ transfer → ¬ uvc → ¬ kernel →
   class = "between_kernel_dqbuf_and_librealsense").
Proof.
  intros t class validation corrupted starved transfer uvc kernel. subst class. unfold classification, look_around. cbn.
  fold t.
  pose proof (nearest_row_none UvcValidation v t 100000000 (Some (raw_previous raw + 1)) ltac:(lia)) as Hv.
  pose proof (nearest_row_none UvcError v t 50000000 None ltac:(lia)) as He.
  pose proof (nearest_row_none NoBuffer v t 50000000 None ltac:(lia)) as Hn.
  pose proof (nearest_row_none XhciError v t 50000000 None ltac:(lia)) as Hx.
  pose proof (nearest_gap_none UvcReady "queue" v t 20000000 (raw_sequence raw) ltac:(lia)) as Hu.
  pose proof (nearest_gap_none KernelDqbuf "minor" v t 20000000 (raw_sequence raw) ltac:(lia)) as Hk.
  fold validation in Hv. fold corrupted in He. fold starved in Hn. fold transfer in Hx. fold uvc in Hu. fold kernel in Hk.
  destruct (nearest_row UvcValidation _ _ _ _) as [r|] eqn:Hr.
  - assert (¬ ¬ validation) as Hval by (intros Hnv; by apply Hv in Hnv).
    split; [|split_and!; intros Hnv; by destruct (Hval Hnv)]. intros _. exists r. split; [|done]. unfold nearest_row in Hr.
    apply nearest_some in Hr as [Hr _]. apply candidates_spec in Hr as (Hin & Hc & Hs); [|apply rows_of_sorted|lia].
    split; [done|]. split; [done|]. intros Hex. by apply (Hs (raw_previous raw + 1)).
  - assert (¬ validation) as Hval by by apply Hv. split; [done|].
    split_and!.
    + intros _ H1. by rewrite (found_true _ _ He H1).
    + intros _ N1 H2. by rewrite (found_false _ _ He N1), (found_true _ _ Hn H2).
    + intros _ N1 N2 H3. by rewrite (found_false _ _ He N1), (found_false _ _ Hn N2), (found_true _ _ Hx H3).
    + intros _ N1 N2 N3 H4.
      by rewrite (found_false _ _ He N1), (found_false _ _ Hn N2), (found_false _ _ Hx N3), (found_true _ _ Hu H4).
    + intros _ N1 N2 N3 N4 H5. by rewrite (found_false _ _ He N1), (found_false _ _ Hn N2), (found_false _ _ Hx N3),
        (found_false _ _ Hu N4), (found_true _ _ Hk H5).
    + intros _ N1 N2 N3 N4 N5. by rewrite (found_false _ _ He N1), (found_false _ _ Hn N2), (found_false _ _ Hx N3),
        (found_false _ _ Hu N4), (found_false _ _ Hk N5).
Qed.

(** ** A trace *)

(** A frame that UVC found too short, a corrupted buffer later, and a gap in the
    sequence that V4L2 returned. *)
Definition sample_lines : list string := [
  " uvc-worker-77  [001] d..2.  1.100000: uvc_frame_ready: queue=0xff80 sequence=10 state=3 error=0 bytesused=100";
  " uvc-worker-77  [001] d..2.  1.133000: uvc_frame_validation: buf=0x1 sequence=11 prior_error=0 bytesused=50 expected=100 frame_header_errors=0 frame_invalid_headers=0";
  " uvc-worker-77  [001] d..2.  1.400000: uvc_buffer_error: sequence=20 state=3 error=-71 bytesused=0";
  " camera-42 [002] ....  1.900000: v4l2_dqbuf: minor = 0, type = VIDEO_CAPTURE, sequence = 30";
  " camera-42 [002] ....  1.905000: v4l2_dqbuf: minor = 0, type = VIDEO_CAPTURE, sequence = 33";
  "cpus=4"].
Definition sample_collected : collected :=
  match collect (1000000000, 2000000000) sample_lines with Ok v => v | Raise _ => {| c_events := []; c_rows := [] |} end.
Definition sample_gap (t sequence previous : Z) : raw_gap :=
  {| raw_row := []; raw_timestamp_ns := t; raw_sequence := sequence; raw_previous := previous |}.
Example sample_classes :
  map (λ raw, classification (look_around sample_collected raw))
    [sample_gap 1140000000 12 10; sample_gap 1430000000 21 19; sample_gap 1906000000 33 30; sample_gap 1700000000 5 3] =
  ["uvc_short_frame"; "uvc_corrupted_buffer"; "between_uvc_ready_and_v4l2_dqbuf"; "between_kernel_dqbuf_and_librealsense"] ∧
  map kg_missing (steady_gaps KernelDqbuf "minor" sample_collected) = [2].
Proof. vm_compute. split; reflexivity. Qed.
Lemma gap_classification_witness :
  length (rows_of UvcError sample_collected) = 1%nat ∧
  classification (look_around sample_collected (sample_gap 1430000000 21 19)) = "uvc_corrupted_buffer".
Proof.
  split; [vm_compute; reflexivity|].
  destruct (gap_classification sample_collected (sample_gap 1430000000 21 19)) as (_ & Hcorrupted & _). apply Hcorrupted.
  - intros (r & Hr & Hc).
    assert (k_timestamp_ns <$> rows_of UvcValidation sample_collected = [1133000000]) as Hrows by (vm_compute; reflexivity).
    apply (list_elem_of_fmap_2 k_timestamp_ns) in Hr.
    rewrite Hrows in Hr. apply list_elem_of_singleton in Hr. rewrite Hr in Hc. vm_compute in Hc. by apply Hc.
  - assert (map k_timestamp_ns (rows_of UvcError sample_collected) = [1400000000]) as Hrows by (vm_compute; reflexivity).
    destruct (rows_of UvcError sample_collected) as [|r l] eqn:Hl; [done|]. injection Hrows as Hr _.
    exists r. rewrite Hl, Hr. split; [by left|simpl; lia].
Defined.
