(* ===== verification/OverrunSpec.v ===== *)
(** * Properties of the overrun analysis

    The correction of an activation looks at a few interrupts only; when those of
    a thread do not overlap, none of the others could count.  When they are
    nested the correction can miss one, and the windows of the xHCI interrupts
    can too when they end in another order than they began: two examples. *)
From Stdlib Require Import Ascii ZArith Lia Floats.SpecFloat.
From S2P Require Import Prelude PyStr PyFloat PyVal PyJson FloatOrder Effects Machine.
From S2P Require Import Bisect SchedTrace DeadlineProfile V4l2Trace V4l2TraceSpec KernelTrace FreshnessTrace FreshnessSpec OverrunTrace.
From stdpp Require Import base gmap strings list sorting.
Local Open Scope Z_scope.
Local Open Scope py_scope.

(** One after the other: each ends before the next begins. *)
Definition disjoint (l : list interrupt) : Prop :=
  StronglySorted (λ x y, i_begin_ns x <= i_begin_ns y ∧ i_end_ns x <= i_begin_ns y) l.
Lemma disjoint_sorted l : disjoint l → StronglySorted (λ x y, i_begin_ns x <= i_begin_ns y) l.
Proof. apply sorted_weaken. tauto. Qed.

(** An interrupt outside of an interval counts for nothing. *)
Lemma outside_counts_nothing hardirq l begin end_ :
  Forall (λ i, i_end_ns i <= begin ∨ end_ <= i_begin_ns i) l → interrupt_time hardirq l begin end_ = 0.
Proof.
  unfold interrupt_time. induction 1 as [|i l Hi Hl IH]; [done|]. simpl. rewrite IH. unfold overlap_ns.
  destruct (eqb _ _); lia.
Qed.
Lemma interrupt_time_app hardirq l k begin end_ :
  interrupt_time hardirq (l ++ k) begin end_ = interrupt_time hardirq l begin end_ + interrupt_time hardirq k begin end_.
Proof. apply Zsum_by_app. Qed.

Lemma overlap_reversed begin end_ a b : end_ <= begin → overlap_ns begin end_ a b = 0.
Proof. unfold overlap_ns. lia. Qed.
Lemma interrupt_time_reversed hardirq l begin end_ : end_ <= begin → interrupt_time hardirq l begin end_ = 0.
Proof.
  intros He. unfold interrupt_time. induction l as [|i l IH]; [done|]. simpl. rewrite IH, overlap_reversed by done.
  by destruct (eqb _ _).
Qed.
(** What is before the place of a time begins before it, and all of it but the
    last has ended. *)
Lemma take_bisect_before l a : disjoint l →
  Forall (λ i, i_begin_ns i < a) (take (bisect_left (map i_begin_ns l) a) l).
Proof.
  intros Hs%disjoint_sorted. rewrite bisect_left_count by (by apply sorted_keys). rewrite length_filter_map.
  induction Hs as [|i l Hl IH Hi]; [constructor|]. rewrite filter_cons. destruct (decide (i_begin_ns i < a)).
  - by constructor.
  - rewrite filter_none; [constructor|]. eapply Forall_impl; [exact Hi|]. simpl. lia.
Qed.
Lemma ended_before l a : disjoint l →
  Forall (λ i, i_end_ns i <= a) (take (bisect_left (map i_begin_ns l) a - 1) l).
Proof.
  intros Hd. pose proof (take_bisect_before l a Hd) as Hb. destruct (bisect_left _ a) as [|k] eqn:Hk; [constructor|].
  rewrite Nat.sub_succ, Nat.sub_0_r. destruct (l !! k) as [i|] eqn:Hi.
  - rewrite (take_S_r _ _ _ Hi), Forall_app, Forall_singleton in Hb. destruct Hb as [_ Hb].
    rewrite <- (take_drop_middle _ _ _ Hi) in Hd. apply Forall_forall. intros j Hj.
    unfold disjoint in Hd. eapply StronglySorted_app_1_elem_of in Hd as [_ Hd]; [|done|by left]. lia.
  - apply lookup_ge_None in Hi. rewrite bisect_left_count, length_filter_map in Hk by (by apply sorted_keys, disjoint_sorted).
    pose proof (length_filter (λ i, i_begin_ns i < a) l). lia.
Qed.
Lemma begun_after l b : disjoint l → Forall (λ i, b <= i_begin_ns i) (drop (bisect_left (map i_begin_ns l) b) l).
Proof.
  intros Hs%disjoint_sorted. rewrite drop_bisect_left by done. apply Forall_forall. by intros i [Hi _]%list_elem_of_filter.
Qed.
Lemma bisect_left_mono l a b : disjoint l → a <= b →
  (bisect_left (map i_begin_ns l) a <= bisect_left (map i_begin_ns l) b)%nat.
Proof.
  intros Hs%disjoint_sorted Hab. rewrite !bisect_left_count by (by apply sorted_keys). rewrite !length_filter_map.
  clear Hs. induction l as [|i l IH]; [done|]. rewrite !filter_cons. repeat case_decide; simpl; lia.
Qed.
(** No interrupt that is left out counts. *)
Lemma overlapping_complete hardirq l begin end_ : disjoint l →
  interrupt_time hardirq (overlapping l begin end_) begin end_ = interrupt_time hardirq l begin end_.
Proof.
  intros Hd. destruct (decide (begin <= end_)) as [Hbe|]; [|rewrite !interrupt_time_reversed by lia; done].
  pose proof (ended_before l begin Hd) as Hbefore. pose proof (begun_after l end_ Hd) as Hafter.
  pose proof (bisect_left_mono l begin end_ Hd Hbe) as Hle. unfold overlapping. cbv zeta.
  set (m := bisect_left _ end_) in *. set (first := (bisect_left _ begin - 1)%nat) in *.
  assert (l = take first l ++ take (m - first) (drop first l) ++ drop m l) as Hl.
  { rewrite <- (take_drop first l) at 1. f_equal. rewrite <- (take_drop (m - first) (drop first l)) at 1. f_equal.
    rewrite drop_drop. f_equal. unfold first. lia. }
  rewrite Hl at 2. rewrite !interrupt_time_app.
  rewrite (outside_counts_nothing _ (drop m l)), (outside_counts_nothing _ (take first l)); [lia|..];
    eapply Forall_impl; try eassumption; simpl; auto.
Qed.

(** C25: the interrupt time of an activation is complete.  The correction of an
    activation looks only at the interrupts of its thread from the one before the
    first that begins in it to the last that begins before its end; when the
    interrupts of the thread do not overlap, the time it takes away is the time
    all of them have in common with the activation, and the row and the times
    that it keeps are those of the file. *)
Theorem activation_corrected (v : reading) (row : csv_row) (a : activation) :
  disjoint (interrupts_of (ac_tid a) v) → correct_activation v row = Ok a →
  ac_row a = row ∧ row_int row "tid" = Ok (ac_tid a) ∧
  row_int row "release_ns" = Ok (ac_release_ns a) ∧ row_int row "completion_ns" = Ok (ac_completion_ns a) ∧
  ac_hardirq_ns a = interrupt_time true (interrupts_of (ac_tid a) v) (ac_release_ns a) (ac_completion_ns a) ∧
  ac_softirq_ns a = interrupt_time false (interrupts_of (ac_tid a) v) (ac_release_ns a) (ac_completion_ns a).
Proof.
  intros Hd. unfold correct_activation. destruct (row_int row "tid"); [|done]. simpl.
  destruct (row_int row "release_ns"); [|done]. simpl. destruct (row_int row "completion_ns"); [|done]. simpl.
  destruct (row_float row "execution_ms"); [|done]. simpl. intros [= <-]. simpl in *.
  rewrite !overlapping_complete by done. done.
Qed.

(** ** Samples *)

(** A hardirq that runs inside of a softirq, both of which had begun before the
    activation was released, on the CPU of thread 7; then one in it. *)
Definition sample_lines : list string := [
  "camera-7 [002] 1.000100: irq:softirq_entry: vec=3 [action=NET_RX]";
  "camera-7 [002] 1.000200: irq:irq_handler_entry: irq=120 name=xhci-hcd";
  "camera-7 [002] 1.000300: irq:irq_handler_exit: irq=120 ret=handled";
  "camera-7 [002] 1.000900: irq:softirq_exit: vec=3 [action=NET_RX]";
  "camera-7 [002] 1.003000: irq:irq_handler_entry: irq=120 name=xhci-hcd";
  "camera-7 [002] 1.003250: irq:irq_handler_exit: irq=120 ret=handled"].
Definition sample_reading (lines : list string) : reading := (read_lines (1000000000, 2000000000) start_reading lines).1.
Definition sample_row (release completion : string) : csv_row :=
  [("tid", "7"); ("release_ns", release); ("completion_ns", completion); ("execution_ms", "5.0")].
Definition sample_times (v : reading) (row : csv_row) : outcome (Z * Z) :=
  a ← correct_activation v row; Ok (ac_hardirq_ns a, ac_softirq_ns a).

(** The softirq goes on for 500 us of the activation; the hardirq inside of it is
    the only one before the activation that is looked at. *)
Example nested_interrupt_missed :
  let v := sample_reading sample_lines in
  sample_times v (sample_row "1000400000" "1008000000") = Ok (250000, 0) ∧
  interrupt_time false (interrupts_of 7 v) 1000400000 1008000000 = 500000.
Proof. vm_compute. done. Qed.

(** Two xHCI controllers on two CPUs: the interrupt of the second begins later
    and ends earlier, the begins are not sorted, and the window of 10 ms around
    1.0105 s finds none, though that interrupt began in it. *)
Definition sample_xhci_lines : list string := [
  "idle-0 [000] 1.000000: irq:irq_handler_entry: irq=120 name=xhci-hcd";
  "idle-0 [001] 1.010000: irq:irq_handler_entry: irq=121 name=xhci-hcd";
  "idle-0 [001] 1.010050: irq:irq_handler_exit: irq=121 ret=handled";
  "idle-0 [000] 1.010100: irq:irq_handler_exit: irq=120 ret=handled"].
Definition sample_xhci : list interrupt := xhci_interrupts (list_to_set [120; 121]) (sample_reading sample_xhci_lines).
Definition interval_count (w : string * pyval) : option pyval :=
  match w.2 with VDict d => dget "interval_count" d | _ => None end.
Example xhci_interrupt_missed :
  map i_begin_ns sample_xhci = [1010000000; 1000000000] ∧
  interval_count (xhci_window sample_xhci 1010500000 10) = Some (VInt 0) ∧
  length (filter (λ i, Z.abs (i_begin_ns i - 1010500000) <= 10 * 1000000) sample_xhci) = 1%nat.
Proof. vm_compute. done. Qed.

(** The later activation of the first sample: none of its interrupts overlap. *)
Definition sample_alone : reading := sample_reading (drop 4 sample_lines).
Lemma activation_corrected_witness :
  ∃ a, correct_activation sample_alone (sample_row "1003100000" "1008000000") = Ok a ∧
       ac_hardirq_ns a = interrupt_time true (interrupts_of 7 sample_alone) 1003100000 1008000000 ∧
       ac_hardirq_ns a = 150000.
Proof.
  set (a := match correct_activation sample_alone (sample_row "1003100000" "1008000000") with
            | Ok a => a
            | Raise _ => {| ac_row := []; ac_tid := 0; ac_release_ns := 0; ac_completion_ns := 0; ac_residency_ms := f_zero;
                            ac_hardirq_ns := 0; ac_softirq_ns := 0 |}
            end).
  assert (correct_activation sample_alone (sample_row "1003100000" "1008000000") = Ok a) as Ha by (vm_compute; reflexivity).
  exists a. split; [exact Ha|]. split; [|vm_compute; reflexivity].
  apply (activation_corrected sample_alone (sample_row "1003100000" "1008000000") a); [|exact Ha].
  assert (∃ i, interrupts_of (ac_tid a) sample_alone = [i]) as [i Hi] by (eexists; vm_compute; reflexivity).
  rewrite Hi. repeat constructor.
Defined.
