(* ===== verification/DiagnosticOverhead.v ===== *)
(** * The cost of the diagnostics ([run_diagnostic_overhead.py])

    The program builds the camera library without and with its diagnostic
    markers, runs the steady-state probe in three modes (without markers, with
    markers that write nothing, with markers that write a trace) under two
    workloads, samples the process while it measures, and writes what a run cost.
    The CPU frequency is locked meanwhile.  [print], the argument parser and the
    exit status after an interrupt are left out. *)
From Stdlib Require Import Ascii ZArith Lia Floats.SpecFloat.
From S2P Require Import Prelude PyStr PyFloat PyVal Effects Shell DeadlineProfile.
From stdpp Require Import base gmap strings list.
Local Open Scope Z_scope.
Local Open Scope py_scope.
Local Open Scope M_scope.

Definition MODE_ORDERS : list (list string) :=
  [["off"; "build-only"; "full"]; ["build-only"; "full"; "off"]; ["full"; "off"; "build-only"]].
Definition WORKLOADS : list string := ["representative"; "stress"].

(** ** What /proc tells of a process *)

Record process_sample_row := {
  ps_state : string;
  ps_utime_ticks : Z;
  ps_stime_ticks : Z;
  ps_rss_kib : Z;
  ps_hwm_kib : Z;
  ps_voluntary_context_switches : Z;
  ps_involuntary_context_switches : Z;
  ps_read_bytes : Z;
  ps_write_bytes : Z;
}.
Record sample := { s_process : process_sample_row; s_boottime_ns : Z; s_frequency_khz : Z; s_temperature : Z }.
Definition sample_dict (s : sample) : pydict :=
  let p := s_process s in [
  ("state", VStr (ps_state p)); ("utime_ticks", VInt (ps_utime_ticks p)); ("stime_ticks", VInt (ps_stime_ticks p));
  ("rss_kib", VInt (ps_rss_kib p)); ("hwm_kib", VInt (ps_hwm_kib p));
  ("voluntary_context_switches", VInt (ps_voluntary_context_switches p));
  ("involuntary_context_switches", VInt (ps_involuntary_context_switches p));
  ("read_bytes", VInt (ps_read_bytes p)); ("write_bytes", VInt (ps_write_bytes p));
  ("boottime_ns", VInt (s_boottime_ns s)); ("frequency_khz", VInt (s_frequency_khz s));
  ("temperature_millicelsius", VInt (s_temperature s))].

(** A file of a process that is gone, or of another user. *)
Definition is_gone (e : exn) : bool :=
  is_class FileNotFoundError e || is_class ProcessLookupError e || is_class PermissionError e.

(** A line of a status file: [key: number unit]. *)
Definition key_value (values : list (string * Z)) (line : string) : outcome (list (string * Z)) :=
  match py_split_max ":"%char 1 line with
  | [key; value] =>
      match py_words (py_strip value) with
      | token :: _ =>
          if py_isdigit (py_lstrip_char "-"%char token)
          then n ← py_int (VStr token); Ok (dset key n values)
          else Ok values
      | [] => Ok values
      end
  | _ => Ok values
  end.
Definition count_of (k : string) (values : list (string * Z)) : Z := default 0 (dget k values).
(** [s[s.rfind(c) + 2:]], when there is a [c]. *)
Fixpoint after_last (c : ascii) (s : string) : option string :=
  match s with
  | EmptyString => None
  | String a s => match after_last c s with
                  | Some r => Some r
                  | None => if bool_decide (a = c) then Some (py_drop 1 s) else None
                  end
  end.
Definition int_field (fields : list string) (i : nat) : outcome Z := py_int (VStr (default "" (fields !! i))).

Section overhead.
Context {W : Type} `{OS W} {T : Type}.
Abbreviation IO := (M (T * world W)).

(** [subprocess.run(command, check=True)]. *)
Definition run (command : list string) : IO unit := check_call command.

Definition read_key_values (path : string) : IO (list (string * Z)) :=
  text <- try_except is_gone (t <- sys (ReadText path) ;; ret (Some t)) (λ _, ret None) ;;
  match text with
  | None => ret []
  | Some text => lift (fold_outcome key_value [] (py_splitlines text))
  end.

Definition process_sample (pid : Z) : IO (option process_sample_row) :=
  let root := "/proc" // str_Z pid in
  stat_text <- try_except is_gone (t <- sys (ReadText (root // "stat")) ;; ret (Some t)) (λ _, ret None) ;;
  match stat_text ≫= after_last ")"%char with
  | None => ret None
  | Some rest =>
      let fields := py_words rest in
      if bool_decide (length fields < 20)%nat then ret None else
      status <- read_key_values (root // "status") ;;
      io <- read_key_values (root // "io") ;;
      utime <- lift (int_field fields 11) ;;
      stime <- lift (int_field fields 12) ;;
      ret (Some {| ps_state := default "" (fields !! 0%nat); ps_utime_ticks := utime; ps_stime_ticks := stime;
                   ps_rss_kib := count_of "VmRSS" status; ps_hwm_kib := count_of "VmHWM" status;
                   ps_voluntary_context_switches := count_of "voluntary_ctxt_switches" status;
                   ps_involuntary_context_switches := count_of "nonvoluntary_ctxt_switches" status;
                   ps_read_bytes := count_of "read_bytes" io; ps_write_bytes := count_of "write_bytes" io |})
  end.

Definition boottime_ns : IO Z := sys BoottimeNs.

(** One file with a number; [except (OSError, ValueError): pass]. *)
Definition add_number (values : list Z) (path : string) : IO (list Z) :=
  try_except (λ e, is_OSError e || is_ValueError e)
    (text <- sys (ReadText path) ;; n <- lift (py_int (VStr (py_strip text))) ;; ret (values ++ [n]))
    (λ _, ret values).
Definition read_frequency_khz : IO Z :=
  paths <- sys (Glob "/sys/devices/system/cpu/cpufreq" "policy*/scaling_cur_freq") ;;
  values <- fold_each paths [] add_number ;;
  match values with [] => ret 0 | _ => lift (py_int (median values)) end.
Definition read_temperature_millicelsius : IO Z :=
  paths <- sys (Glob "/sys/class/thermal" "thermal_zone*/temp") ;;
  values <- fold_each paths [] add_number ;;
  ret match values with [] => 0 | n :: values => foldl Z.max n values end.

(** ** Waiting *)

Definition ready_deadline (timeout_seconds : f64) : IO f64 :=
  now <- sys Monotonic ;; ret (f_add now timeout_seconds).
Fixpoint wait_until (fuel : nat) (path : string) (pid : Z) (deadline : f64) : IO unit :=
  match fuel with
  | O => throw OutOfFuel ""
  | S fuel =>
      now <- sys Monotonic ;;
      if negb (f_lt now deadline) then throw TimeoutError "timed out waiting for the warm-up ready marker" else
      ready <- sys (IsFile path) ;;
      if (ready : bool) then ret () else
      row <- process_sample pid ;;
      match row with
      | Some row =>
          if bool_decide (ps_state row = "Z") then throw RuntimeError "probe exited before the warm-up ready marker"
          else sys (Sleep (f_dec 5 (-2))) ;; wait_until fuel path pid deadline
      | None => throw RuntimeError "probe exited before the warm-up ready marker"
      end
  end.
Definition wait_for_ready (fuel : nat) (path : string) (pid : Z) (timeout_seconds : f64) : IO unit :=
  deadline <- ready_deadline timeout_seconds ;; wait_until fuel path pid deadline.

(** The resource usage of the process that ended. *)
Definition wait4_process (pid : Z) : IO (Z * pydict) := sys (Wait4 pid).

(** The loop over the samples: until the process is gone or has ended. *)
Definition take_sample (pid : Z) : IO (option sample) :=
  row <- process_sample pid ;;
  match row with
  | None => ret None
  | Some row =>
      now <- boottime_ns ;;
      frequency <- read_frequency_khz ;;
      temperature <- read_temperature_millicelsius ;;
      ret (Some {| s_process := row; s_boottime_ns := now; s_frequency_khz := frequency; s_temperature := temperature |})
  end.
Fixpoint take_samples (fuel : nat) (pid : Z) (samples : list sample) : IO (list sample) :=
  match fuel with
  | O => throw OutOfFuel ""
  | S fuel =>
      row <- take_sample pid ;;
      match row with
      | None => ret samples
      | Some row =>
          let samples := samples ++ [row] in
          if bool_decide (ps_state (s_process row) = "Z") then ret samples
          else sys (Sleep (f_dec 10 (-2))) ;; take_samples fuel pid samples
      end
  end.

Definition write_samples (path : string) (samples : list sample) : IO unit :=
  match samples with
  | [] => ret ()
  | s :: _ => sys (WriteCsv path (dkeys (sample_dict s)) (map sample_dict samples))
  end.

(** ** The two builds *)

Definition LIBRARY : string := "librealsense2.so.2.58.3".
Definition on_off (diagnostics : bool) : string := if diagnostics then "ON" else "OFF".
Definition variant_mode (diagnostics : bool) : string := if diagnostics then "on" else "off".
Definition variant_files (build_dir : string) : list (string * string) := [
  ("realsense_steady_probe", build_dir // "realsense_steady_probe");
  ("d435_sensor_probe", build_dir // "d435_sensor_probe"); (LIBRARY, build_dir // "RelWithDebInfo" // LIBRARY)].
Definition build_manifest (diagnostics : bool) (hashes : list (string * string)) : pydict := [
  ("schema_version", VInt 1); ("diagnostics_compiled", VBool diagnostics); ("build_type", VStr "RelWithDebInfo");
  ("files_sha256", VDict (map (λ h, (h.1, VStr h.2)) hashes))].
Definition configure_and_snapshot_variant (repo build_dir variant_root : string) (diagnostics : bool) (jobs : Z) :
    IO (list (string * string)) :=
  let destination := variant_root // variant_mode diagnostics in
  exists_ <- sys (PathExists destination) ;;
  when exists_ (throw FileExistsError ("variant output already exists: " +:+ destination)) ;;
  run ["cmake"; "-S"; repo; "-B"; build_dir; "-DCMAKE_BUILD_TYPE=RelWithDebInfo";
       "-DRS_CAMERA_V4L2_DIAGNOSTICS=" +:+ on_off diagnostics] ;;
  run ["cmake"; "--build"; build_dir; "--target"; "realsense_steady_probe"; "d435_sensor_probe"; "-j" +:+ str_Z jobs] ;;
  for_each (variant_files build_dir) (λ f,
    file <- sys (IsFile f.2) ;; when (negb file) (throw FileNotFoundError f.2)) ;;
  sys (Mkdir destination false) ;;
  hashes <- map_each (variant_files build_dir) (λ f,
    let target := destination // f.1 in
    sys (Copy f.2 target) ;; hash <- sys (FileDigest target) ;; ret (f.1, hash)) ;;
  sys (Symlink (destination // "librealsense2.so.2.58") LIBRARY) ;;
  sys (Symlink (destination // "librealsense2.so.2") LIBRARY) ;;
  sys (WriteJson (destination // "build_manifest.json") (VDict (build_manifest diagnostics hashes))) ;;
  ret hashes.

(** ** One run *)

Definition probe_command (variant serial workload output : string) (measurement_seconds : Z) : list string :=
  let representative := bool_decide (workload = "representative") in
  let fps := if representative then 30 else 60 in
  [variant // "realsense_steady_probe"; "--serial"; serial; "--camera-count"; "1"; "--delivery"; "wait";
   "--frames"; "1000000"; "--measurement-duration-ms"; str_Z (measurement_seconds * 1000);
   "--frame-timeout-ms"; "1500"; "--startup-timeout-ms"; "15000"; "--warmup-ready-file"; output // "warmup.ready";
   "--measurement-start-gate"; output // "measurement.gate"; "--measurement-gate-timeout-ms"; "30000";
   "--summary-output"; output // "steady_summary.json"; "--events-output"; output // "frame_events.csv";
   "--fps"; str_Z fps; "--depth-width"; "848"; "--depth-height"; "480"; "--warmup-frames"; str_Z (fps * 10)]
  ++ (if representative
      then ["--stream-mode"; "depth_color"; "--color-width"; "640"; "--color-height"; "480"]
      else ["--stream-mode"; "stereo_all"; "--color-width"; "960"; "--color-height"; "540"]).
Definition reset_command (variant serial : string) : list string :=
  [variant // "d435_sensor_probe"; "--serial"; serial; "--hardware-reset"; "--reset-timeout-ms"; "5000"].
Definition variant_of (variants mode : string) : string :=
  variants // (if bool_decide (mode = "off") then "off" else "on").

Definition TRACE_FILE : string := "RS_V4L2_DIAGNOSTIC_TRACE_FILE".
Definition TRACE_CAPACITY : string := "RS_V4L2_DIAGNOSTIC_TRACE_CAPACITY".
(** The environment of the probe: the trace is written in the mode [full] only,
    whatever was inherited. *)
Definition probe_environment (variant mode trace : string) (inherited : list (string * string)) :
    list (string * string) :=
  let environment := dset "LD_LIBRARY_PATH" variant inherited in
  if bool_decide (mode = "full") then dset TRACE_CAPACITY "12000000" (dset TRACE_FILE trace environment)
  else dpop TRACE_CAPACITY (dpop TRACE_FILE environment).

Definition SIGTERM : Z := 15.
Definition SIGKILL : Z := 9.
(** The [except BaseException] clause: the process group is asked to end, and
    killed when it does not.  It raises the exception again, so it runs, like
    [finally], also when the model's fuel is used up. *)
Definition end_probe (pid : Z) : IO unit :=
  try_except (is_class ProcessLookupError) (sys (KillGroup pid SIGTERM)) (λ _, ret ()) ;;
  try_except (is_class TimeoutExpired) (sys (Wait pid (f_of_Z 5)) ;; ret ())
    (λ _, sys (KillGroup pid SIGKILL) ;; sys (Reap pid) ;; ret ()).
Definition measure (fuel : nat) (output : string) (pid : Z) : IO (list sample * (Z * pydict)) :=
  wait_for_ready fuel (output // "warmup.ready") pid (f_of_Z 40) ;;
  now <- boottime_ns ;;
  sys (WriteText (output // "measurement.gate") (str_Z now +:+ nl)) ;;
  samples <- take_samples fuel pid [] ;;
  ended <- wait4_process pid ;;
  ret (samples, ended).
Definition measure_or_end (fuel : nat) (output : string) (pid : Z) : IO (list sample * (Z * pydict)) :=
  try_except (λ _, true) (measure fuel output pid) (λ e, end_probe pid ;; rethrow e).
End overhead.

(** *** What the run cost *)

(** [min(samples, key=lambda row: abs(row.boottime_ns - t))]: the first of the nearest. *)
Definition distance (t : Z) (s : sample) : Z := Z.abs (s_boottime_ns s - t).
Definition nearer (t : Z) (best s : sample) : sample := if bool_decide (distance t s < distance t best) then s else best.
Definition nearest_sample (samples : list sample) (t : Z) : outcome sample :=
  match samples with
  | [] => raise ValueError "min() iterable argument is empty"
  | s :: samples => Ok (foldl (nearer t) s samples)
  end.
(** The samples of the measurement: the two nearest ones when there are fewer
    than two within it. *)
Definition in_measurement (start_ns end_ns : Z) (s : sample) : bool :=
  bool_decide (start_ns <= s_boottime_ns s <= end_ns).
Definition measured_samples (samples : list sample) (start_ns end_ns : Z) : outcome (list sample) :=
  let measured := filter (λ s, in_measurement start_ns end_ns s = true) samples in
  if bool_decide (length measured < 2)%nat then
    first ← nearest_sample samples start_ns; last ← nearest_sample samples end_ns; Ok [first; last]
  else Ok measured.

Definition first_last (measured : list sample) : outcome (sample * sample) :=
  match measured with
  | [] => raise IndexError "list index out of range"
  | s :: l => Ok (s, List.last (s :: l) s)
  end.
(** [(b - a) / d] of integers. *)
Definition int_ratio (a b d : Z) : outcome f64 :=
  if bool_decide (d = 0) then raise ZeroDivisionError "division by zero" else Ok (Z_truediv (b - a) d).

(** The process times between two samples. *)
Record cost := { sampled_seconds : f64; user_seconds : f64; system_seconds : f64; cpu_percent : f64 }.
Definition cost_between (ticks : Z) (first last : sample) : outcome cost :=
  seconds ← f_div (f_of_Z (s_boottime_ns last - s_boottime_ns first)) (f_dec 1 9);
  user ← int_ratio (ps_utime_ticks (s_process first)) (ps_utime_ticks (s_process last)) ticks;
  system ← int_ratio (ps_stime_ticks (s_process first)) (ps_stime_ticks (s_process last)) ticks;
  percent ← f_div (f_mul (f_of_Z 100) (f_add user system)) seconds;
  Ok {| sampled_seconds := seconds; user_seconds := user; system_seconds := system; cpu_percent := percent |}.

(** [v[0]]. *)
Definition first_item (v : pyval) : outcome pyval :=
  match v with
  | VList (x :: _) => Ok x
  | VList [] => raise IndexError "list index out of range"
  | VStr (String a _) => Ok (VStr (String a ""))
  | VStr "" => raise IndexError "string index out of range"
  | VDict _ => raise KeyError "0"
  | _ => raise TypeError ("'" +:+ type_name v +:+ "' object is not subscriptable")
  end.
Definition AGGREGATE_KEYS : list string :=
  ["deliveries"; "frames"; "duplicate_frames"; "sequence_gaps"; "out_of_order_frames"; "timeouts";
   "delivery_interarrival_ms"; "wait_ms"].
Definition aggregate (camera : pyval) : outcome pydict := traverse (λ k, v ← item camera k; Ok (k, v)) AGGREGATE_KEYS.
Definition USAGE_KEYS : list (string * string) := [
  ("lifetime_user_cpu_seconds", "ru_utime"); ("lifetime_system_cpu_seconds", "ru_stime");
  ("lifetime_max_rss_kib", "ru_maxrss"); ("lifetime_minor_faults", "ru_minflt"); ("lifetime_major_faults", "ru_majflt");
  ("lifetime_block_input_operations", "ru_inblock"); ("lifetime_block_output_operations", "ru_oublock");
  ("lifetime_voluntary_context_switches", "ru_nvcsw"); ("lifetime_involuntary_context_switches", "ru_nivcsw")].
Definition usage_rows (usage : pydict) : pydict := map (λ k, (k.1, dgetd k.2 VNone usage)) USAGE_KEYS.
Definition between (f : process_sample_row → Z) (first last : sample) : pyval :=
  VInt (f (s_process last) - f (s_process first)).
Definition largest (f : process_sample_row → Z) (measured : list sample) : pyval :=
  match map (f ∘ s_process) measured with [] => VNone | n :: l => VInt (foldl Z.max n l) end.

(** *** The run and its summary *)

(** One condition of the experiment. *)
Record condition := { c_workload : string; c_rep : Z; c_mode : string }.

Section run_one.
Context {W : Type} `{OS W} {T : Type} (fuel : nat).
Abbreviation IO := (M (T * world W)).

(** What a run knows when its probe has ended. *)
Record ended_run := {
  e_condition : condition;
  e_serial : string;
  e_command : list string;
  e_trace : string;
  e_samples : list sample;
  e_returncode : Z;
  e_usage : pydict;
  e_frequency_start : Z;
  e_temperature_start : Z;
}.
Definition head_revision : IO pyval := text <- check_output ["git"; "rev-parse"; "HEAD"] ;; ret (VStr (py_strip text)).
Definition resource_summary (r : ended_run) (summary : pyval) : IO pydict :=
  measurement <- lift (item summary "measurement") ;;
  start_ns <- lift (v ← item measurement "start_boottime_ns"; py_int v) ;;
  end_ns <- lift (v ← item measurement "end_boottime_ns"; py_int v) ;;
  measured <- lift (measured_samples (e_samples r) start_ns end_ns) ;;
  bounds <- lift (first_last measured) ;;
  let '(first, last) := bounds in
  ticks <- sys ClockTicks ;;
  c <- lift (cost_between ticks first last) ;;
  camera <- lift (v ← item summary "cameras"; first_item v) ;;
  file <- sys (IsFile (e_trace r)) ;;
  trace_bytes <- (if (file : bool) then sys (FileSize (e_trace r)) else ret 0) ;;
  source_revision <- head_revision ;;
  librealsense_revision <- head_revision ;;
  success <- lift (d ← as_dict summary; Ok (truthy (dgetd "success" VNone d))) ;;
  aggregate_ <- lift (aggregate camera) ;;
  frequency_end <- read_frequency_khz ;;
  temperature_end <- read_temperature_millicelsius ;;
  ret ([("schema_version", VInt 2); ("source_revision", source_revision);
        ("librealsense_revision", librealsense_revision); ("workload", VStr (c_workload (e_condition r)));
        ("mode", VStr (c_mode (e_condition r))); ("rep", VInt (c_rep (e_condition r))); ("serial", VStr (e_serial r));
        ("command", VList (map VStr (e_command r))); ("probe_success", VBool success);
        ("returncode", VInt (e_returncode r)); ("measurement", measurement); ("aggregate", VDict aggregate_);
        ("sample_count", VInt (Z.of_nat (length measured))); ("sampled_seconds", VFloat (sampled_seconds c));
        ("cpu_utilization_percent_of_one_core", VFloat (cpu_percent c));
        ("user_cpu_seconds", VFloat (user_seconds c)); ("system_cpu_seconds", VFloat (system_seconds c));
        ("rss_start_kib", VInt (ps_rss_kib (s_process first)));
        ("rss_mean_kib", VFloat (f_fmean (map (λ s, f_of_Z (ps_rss_kib (s_process s))) measured)));
        ("rss_max_kib", largest ps_rss_kib measured); ("hwm_max_kib", largest ps_hwm_kib measured);
        ("minor_faults", VInt 0); ("major_faults", VInt 0);
        ("voluntary_context_switches", between ps_voluntary_context_switches first last);
        ("involuntary_context_switches", between ps_involuntary_context_switches first last);
        ("read_bytes", between ps_read_bytes first last); ("write_bytes", between ps_write_bytes first last);
        ("frequency_start_khz", VInt (e_frequency_start r)); ("frequency_end_khz", VInt frequency_end);
        ("temperature_start_millicelsius", VInt (e_temperature_start r));
        ("temperature_end_millicelsius", VInt temperature_end)]
       ++ usage_rows (e_usage r)
       ++ [("trace_final_allocated_bytes", VInt trace_bytes); ("trace_final_logical_bytes", VInt trace_bytes)]).

(** The part of a run with a living probe. *)
Definition run_probe (command : list string) (environment : list (string * string)) (output : string) :
    IO (list sample * (Z * pydict)) :=
  pid <- sys (SpawnWith command environment) ;; measure_or_end fuel output pid.
Definition failed_text (c : condition) (returncode : Z) : string :=
  "probe failed for " +:+ c_workload c +:+ "/" +:+ c_mode c +:+ "/rep-" +:+ str_Z (c_rep c) +:+ ": " +:+ str_Z returncode.
Definition run_one (variants serial : string) (c : condition) (output : string) (measurement_seconds : Z) : IO unit :=
  let variant := variant_of variants (c_mode c) in
  sys (Mkdir output false) ;;
  inherited <- sys Environ ;;
  let trace := output // "v4l2_diagnostic_trace.bin" in
  run (reset_command variant serial) ;;
  let command := probe_command variant serial (c_workload c) output measurement_seconds in
  frequency_start <- read_frequency_khz ;;
  temperature_start <- read_temperature_millicelsius ;;
  sys (WriteText (output // "probe_stdout.txt") "") ;;
  sys (WriteText (output // "probe_stderr.txt") "") ;;
  ended <- run_probe command (probe_environment variant (c_mode c) trace inherited) output ;;
  let '(samples, (returncode, usage)) := ended in
  write_samples (output // "resource_samples.csv") samples ;;
  when (negb (bool_decide (returncode = 0))) (throw RuntimeError (failed_text c returncode)) ;;
  summary <- sys (ReadJson (output // "steady_summary.json")) ;;
  result <- resource_summary {| e_condition := c; e_serial := serial; e_command := command; e_trace := trace;
    e_samples := samples; e_returncode := returncode; e_usage := usage;
    e_frequency_start := frequency_start; e_temperature_start := temperature_start |} summary ;;
  sys (WriteJson (output // "resource_summary.json") (VDict result)).
End run_one.

(** ** The program *)

Record options := {
  o_serial : string;
  o_build_dir : string;
  o_results_dir : string;
  o_repetitions : Z;
  o_measurement_seconds : Z;
  o_build_jobs : Z;
  o_rerun_condition : option string;
}.

(** [WORKLOAD:REP:MODE]. *)
Definition parse_rerun_condition (value : string) : outcome condition :=
  match py_split ":"%char value with
  | [workload; rep_text; mode] =>
      if negb (bool_decide (workload ∈ WORKLOADS)) then raise ValueError ("unsupported rerun workload: " +:+ workload) else
      if negb (bool_decide (mode ∈ ["off"; "build-only"; "full"])) then raise ValueError ("unsupported rerun mode: " +:+ mode) else
      match int_of_string rep_text with
      | None => raise ValueError ("invalid rerun repetition: " +:+ rep_text)
      | Some rep =>
          if bool_decide (rep <= 0) then raise ValueError "rerun repetition must be positive"
          else Ok {| c_workload := workload; c_rep := rep; c_mode := mode |}
      end
  | _ => raise ValueError "rerun condition must be WORKLOAD:REP:MODE"
  end.

(** The conditions of an experiment, in order. *)
Definition conditions_of (workload : string) (rep : nat) : list condition :=
  map (λ mode, {| c_workload := workload; c_rep := Z.of_nat rep; c_mode := mode |})
      (nth (pred rep) MODE_ORDERS []).
Definition conditions (repetitions : Z) : list condition :=
  concat (map (λ workload, concat (map (conditions_of workload) (seq 1 (Z.to_nat repetitions)))) WORKLOADS).
Definition output_of (results : string) (c : condition) : string :=
  results // c_workload c // ("rep-" +:+ str_Z (c_rep c)) // c_mode c.

Section main.
Context {W : Type} `{OS W} {T : Type} (fuel : nat) (repo : string) (args : options).
Abbreviation IO := (M (T * world W)).

Definition lock_command : list string := ["sudo"; "-n"; repo // "scripts/lock_cpu_freq.sh"; "1500000"].
Definition restore_command : list string := ["sudo"; "-n"; repo // "scripts/restore_cpu_freq_default.sh"].
(** [try: run(lock); ... finally: subprocess.run(restore, check=False)]. *)
Definition at_locked_frequency (body : IO unit) : IO unit :=
  try_finally (run lock_command ;; body) (sys (RunCommand restore_command None None) ;; ret ()).
Definition run_condition (results : string) (c : condition) : IO unit :=
  run_one fuel (results // "variants") (o_serial args) c (output_of results c) (o_measurement_seconds args).

Definition rerun (results value : string) : IO unit :=
  directory <- sys (IsDir results) ;;
  when (negb directory) (throw FileNotFoundError ("results directory does not exist: " +:+ results)) ;;
  c <- lift (parse_rerun_condition value) ;;
  let output := output_of results c in
  exists_ <- sys (PathExists output) ;;
  when exists_ (throw FileExistsError ("rerun output already exists; archive it before rerunning: " +:+ output)) ;;
  at_locked_frequency (run_condition results c).

Definition campaign_manifest : IO pydict :=
  uname <- sys Uname ;;
  source_revision <- head_revision ;;
  librealsense_revision <- head_revision ;;
  ret [("schema_version", VInt 1); ("hostname", VStr (default "" (uname !! 1%nat))); ("uname", VStr (py_join " " uname));
       ("serial", VStr (o_serial args)); ("measurement_seconds", VInt (o_measurement_seconds args));
       ("repetitions", VInt (o_repetitions args));
       ("mode_orders", VList (map (λ l, VList (map VStr l)) (take (Z.to_nat (o_repetitions args)) MODE_ORDERS)));
       ("source_revision", source_revision); ("librealsense_revision", librealsense_revision)].
Definition experiment (build_dir results : string) : IO unit :=
  configure_and_snapshot_variant repo build_dir (results // "variants") false (o_build_jobs args) ;;
  configure_and_snapshot_variant repo build_dir (results // "variants") true (o_build_jobs args) ;;
  for_each (conditions (o_repetitions args)) (run_condition results).
Definition campaign (build_dir results : string) : IO unit :=
  exists_ <- sys (PathExists results) ;;
  when exists_ (throw FileExistsError ("results directory already exists: " +:+ results)) ;;
  when (bool_decide (o_repetitions args <= 0) || bool_decide (Z.of_nat (length MODE_ORDERS) < o_repetitions args))
    (throw ValueError ("repetitions must be between 1 and " +:+ str_Z (Z.of_nat (length MODE_ORDERS)))) ;;
  sys (Mkdir results false) ;;
  manifest <- campaign_manifest ;;
  sys (WriteJson (results // "campaign_manifest.json") (VDict manifest)) ;;
  at_locked_frequency (experiment build_dir results).

Definition main : IO unit :=
  build_dir <- sys (Resolve (repo // o_build_dir args)) ;;
  results <- sys (Resolve (repo // o_results_dir args)) ;;
  match o_rerun_condition args with
  | Some value => if bool_decide (value = "") then campaign build_dir results else rerun results value
  | None => campaign build_dir results
  end.
End main.
