(* ===== verification/DiagnosticOverheadSpec.v ===== *)
(** * Properties of the measurement of the diagnostics' cost

    The program measures at a locked CPU frequency only, runs the conditions of
    the experiment in their order, restores the frequency as its last action, and
    leaves no probe running; every condition of an experiment has a directory of
    its own and can be run again by its name. *)
From Stdlib Require Import Ascii ZArith Lia Floats.SpecFloat.
From S2P Require Import Prelude PyStr PyFloat PyVal PyJson Effects Machine Noise NoiseSpec Shell Calls DiagnosticOverhead.
From stdpp Require Import base gmap strings list.
Local Open Scope Z_scope.
Local Open Scope py_scope.
Local Open Scope M_scope.

(** ** What a computation adds to the log *)

Section adds.
Context {W : Type} `{OS W} (P : entry → bool).
Definition adds : relation (world W) := λ x y, ∃ l, w_log y = w_log x ++ l ∧ Forall (λ e, P e = true) l.
#[export] Instance adds_preorder : PreOrder adds.
Proof.
  split; [intros x; exists []; by rewrite app_nil_r|].
  intros x y z (l & Hl & Pl) (k & Hk & Pk). exists (l ++ k). split; [|by apply Forall_app].
  by rewrite Hk, Hl, app_assoc.
Qed.
Lemma adds_sys {T A} (c : syscall A) : (∀ r, forallb P (note c r) = true) → within (on_world adds) (sys (S := T) c).
Proof.
  intros Hc [s w]. unfold sys, on_world. destruct (handle c (w_os w)) as [r o] eqn:Ho. simpl.
  exists (note c r). split; [done|]. apply Forall_forall. intros e He.
  apply (proj1 (forallb_forall _ _) (Hc r)). by apply list_elem_of_In.
Qed.
End adds.

Ltac solve_adds := repeat (intros; first
  [ progress solve_within
  | match goal with
    | |- within (on_world (adds _)) (sys _) =>
        apply adds_sys; intros ?; cbn; repeat case_match; try done; simpl; by rewrite ?andb_true_r
    end ]).

(** The commands of the probes that a log started. *)
Definition probe_started (e : entry) : option (list string) := match e with ESpawn _ c => Some c | _ => None end.
Definition probes (log : list entry) : list (list string) := omap probe_started log.
Lemma probes_app l k : probes (l ++ k) = probes l ++ probes k.
Proof. apply omap_app. Qed.

(** ** Computations that start nothing *)

Section starts_nothing.
Context {W : Type} `{OS W}.
Abbreviation is_quiet := (makes (@quiet)).

(** Neither a new probe nor a new process that has not ended. *)
Definition starts_nothing : relation (world W) := λ x y,
  probes (w_log y) = probes (w_log x) ∧ ∀ p, p ∈ alive (w_log y) → p ∈ alive (w_log x).
Lemma starts_nothing_kept : kept_by (@quiet) starts_nothing.
Proof.
  split.
  { split; [by intros x|]. intros x y z [P1 A1] [P2 A2]. split; [congruence|auto]. }
  intros B c w r o Hc Ho. unfold starts_nothing. simpl. rewrite probes_app, alive_app. split.
  - destruct c; try done; simpl; repeat case_match; simpl; by rewrite app_nil_r.
  - intros p. destruct c; try done; simpl; repeat case_match; simpl; try done; by intros [_ ?]%list_elem_of_filter.
Qed.

Lemma quiet_run {T} c : is_quiet (run (T := T) c).
Proof. unfold run. pose proof @quiet_check_call. solve_makes. Qed.
Lemma quiet_key_values {T} p : is_quiet (read_key_values (T := T) p).
Proof. unfold read_key_values. solve_makes. Qed.
Hint Resolve quiet_run quiet_key_values : makes.
Lemma quiet_process_sample {T} pid : is_quiet (process_sample (T := T) pid).
Proof. unfold process_sample. solve_makes. Qed.
Lemma quiet_frequency {T} : is_quiet (read_frequency_khz (T := T)).
Proof. unfold read_frequency_khz, add_number. solve_makes. Qed.
Lemma quiet_temperature {T} : is_quiet (read_temperature_millicelsius (T := T)).
Proof. unfold read_temperature_millicelsius, add_number. solve_makes. Qed.
Hint Resolve quiet_process_sample quiet_frequency quiet_temperature : makes.
Lemma quiet_wait_until {T} fuel path pid d : is_quiet (wait_until (T := T) fuel path pid d).
Proof. induction fuel; simpl; solve_makes. Qed.
Lemma quiet_take_samples {T} fuel pid l : is_quiet (take_samples (T := T) fuel pid l).
Proof. revert l. induction fuel; intros l; simpl; unfold take_sample, boottime_ns; solve_makes. Qed.
Hint Resolve quiet_wait_until quiet_take_samples : makes.
Lemma quiet_measure {T} fuel output pid : is_quiet (measure (T := T) fuel output pid).
Proof. unfold measure, wait_for_ready, ready_deadline, boottime_ns, wait4_process. solve_makes. Qed.
Lemma quiet_end_probe {T} pid : is_quiet (end_probe (T := T) pid).
Proof. unfold end_probe. solve_makes. Qed.
Lemma quiet_write_samples {T} path l : is_quiet (write_samples (T := T) path l).
Proof. unfold write_samples. solve_makes. Qed.
Lemma quiet_head_revision {T} : is_quiet (head_revision (T := T)).
Proof. unfold head_revision, check_output. pose proof @quiet_run_checked. solve_makes. Qed.
Hint Resolve quiet_measure quiet_end_probe quiet_write_samples quiet_head_revision : makes.
Lemma quiet_resource_summary {T} r summary : is_quiet (resource_summary (T := T) r summary).
Proof. unfold resource_summary. solve_makes. Qed.
Lemma quiet_configure {T} repo b v d j : is_quiet (configure_and_snapshot_variant (T := T) repo b v d j).
Proof. unfold configure_and_snapshot_variant. solve_makes. Qed.
Lemma quiet_manifest {T} args : is_quiet (campaign_manifest (T := T) args).
Proof. unfold campaign_manifest. solve_makes. Qed.
End starts_nothing.
#[export] Hint Resolve quiet_run quiet_wait_until quiet_take_samples quiet_measure quiet_end_probe quiet_write_samples quiet_head_revision
  quiet_frequency quiet_temperature quiet_resource_summary quiet_configure quiet_manifest : makes.

(** The behaviour of process groups and of waiting that [end_probe] relies on:
    only a group that is gone cannot be asked to end, a wait can only time out,
    and a process whose wait timed out can be killed and then ends. *)
Class ProcessGroups (W : Type) `{OS W} := {
  group_gone pid w e : (handle (KillGroup pid SIGTERM) w).1 = Raise e → exn_type e = ProcessLookupError;
  group_times_out pid t w e : (handle (Wait pid t) w).1 = Raise e → exn_type e = TimeoutExpired;
  group_killed pid t w e o : handle (Wait pid t) w = (Raise e, o) → is_ok (handle (KillGroup pid SIGKILL) o).1 = true;
  group_reaped pid w : is_ok (handle (Reap pid) w).1 = true;
}.

Section runs.
Context {W : Type} `{OS W} {T : Type}.
Abbreviation state := (T * world W)%type.
Implicit Types x y z : state.

Lemma wp_nothing {A B} (m : M state A) (k : A → M state B) Q (E : exn → state → Prop) x :
  makes (@quiet) m → (∀ a y, starts_nothing x.2 y.2 → wp (k a) Q E y) →
  (∀ e y, starts_nothing x.2 y.2 → E e y) → wp (bind m k) Q E x.
Proof.
  intros Hm Hk He. apply wp_bind. apply (wp_within (on_world starts_nothing)); [|exact Hk|exact He].
  apply (makes_within (@quiet)); [done|apply starts_nothing_kept].
Qed.
Lemma wp_nothing_last {A} (m : M state A) (Q : A → state → Prop) (E : exn → state → Prop) x :
  makes (@quiet) m → (∀ a y, starts_nothing x.2 y.2 → Q a y) → (∀ e y, starts_nothing x.2 y.2 → E e y) → wp m Q E x.
Proof.
  intros Hm Hk He. apply (wp_within (on_world starts_nothing)); [|exact Hk|exact He].
  apply (makes_within (@quiet)); [done|apply starts_nothing_kept].
Qed.

(** *** The command of the probe *)

Definition probe_of (results serial : string) (seconds : Z) (c : condition) : list string :=
  probe_command (variant_of (results // "variants") (c_mode c)) serial (c_workload c) (output_of results c) seconds.

Lemma run_probe_probes fuel command environment output x :
  wp (run_probe fuel command environment output)
    (λ _ y, probes (w_log y.2) = probes (w_log x.2) ++ [command]) (λ _ _, True) x.
Proof.
  destruct x as [s w]. unfold run_probe. apply wp_bind, wp_sys. intros [pid|e] o Ho; [|done].
  unfold measure_or_end. apply wp_try. apply wp_nothing_last; [auto with makes| |].
  - intros a y [Hp _]. rewrite Hp. cbn [w_log snd]. by rewrite probes_app.
  - intros e y _. apply wp_nothing; [auto with makes|done|done].
Qed.
Lemma run_one_probes fuel results serial seconds c x :
  wp (run_one fuel (results // "variants") serial c (output_of results c) seconds)
    (λ _ y, probes (w_log y.2) = probes (w_log x.2) ++ [probe_of results serial seconds c]) (λ _ _, True) x.
Proof.
  unfold run_one. apply wp_nothing; [solve_makes| |done]. intros _ y1 [P1 _].
  apply wp_nothing; [solve_makes| |done]. intros inherited y2 [P2 _].
  apply wp_nothing; [solve_makes| |done]. intros _ y3 [P3 _].
  apply wp_nothing; [solve_makes| |done]. intros f y4 [P4 _].
  apply wp_nothing; [solve_makes| |done]. intros t y5 [P5 _].
  apply wp_nothing; [solve_makes| |done]. intros _ y6 [P6 _].
  apply wp_nothing; [solve_makes| |done]. intros _ y7 [P7 _].
  apply wp_bind. eapply wp_conseq; [apply run_probe_probes| |done]. intros [samples [status usage]] y8 P8.
  apply wp_nothing_last; [solve_makes| |done]. intros _ y9 [P9 _].
  by rewrite P9, P8, P7, P6, P5, P4, P3, P2, P1.
Qed.
Lemma conditions_probes fuel args results l x :
  wp (for_each l (run_condition fuel args results))
    (λ _ y, probes (w_log y.2) =
       probes (w_log x.2) ++ map (probe_of results (o_serial args) (o_measurement_seconds args)) l) (λ _ _, True) x.
Proof.
  apply (wp_for_each l _ (λ done y, probes (w_log y.2) =
    probes (w_log x.2) ++ map (probe_of results (o_serial args) (o_measurement_seconds args)) done)).
  { by rewrite app_nil_r. }
  intros done c rest y _ Hd. eapply wp_conseq; [apply run_one_probes| |done].
  intros [] z Hz. cbv beta in *. by rewrite Hz, Hd, map_app, app_assoc.
Qed.

(** *** The end of the probe *)

Context `{!ProcessGroups W}.
Definition ended_from (pid : Z) x y : Prop := ∀ p, p ∈ alive (w_log y.2) → p ∈ alive (w_log x.2) ∧ p ≠ pid.

Lemma measure_ends fuel output pid x :
  wp (measure fuel output pid) (λ _ y, ended_from pid x y) (λ _ y, starts_nothing x.2 y.2) x.
Proof.
  pose proof (proj1 (starts_nothing_kept (W := W))) as Hpre.
  unfold measure. apply wp_nothing; [unfold wait_for_ready, ready_deadline; solve_makes| |done]. intros _ y1 H1.
  apply wp_nothing; [unfold boottime_ns; solve_makes| |by intros e y H2; etrans; eassumption]. intros now y2 H2.
  apply wp_nothing; [solve_makes| |intros e y H3; do 2 (etrans; [eassumption|]); eassumption]. intros _ y3 H3.
  apply wp_nothing; [solve_makes| |intros e y H4; do 3 (etrans; [eassumption|]); eassumption]. intros samples y4 H4.
  assert (starts_nothing x.2 y4.2) as [S1 S2] by (do 3 (etrans; [eassumption|]); eassumption). destruct y4 as [t w4].
  apply wp_bind, wp_sys. intros [ended|e] o Ho.
  - apply wp_ret. intros p [Hp Hne]%alive_exit. split; [by apply S2|done].
  - simpl. by rewrite app_nil_r.
Qed.
(** The handler ends the probe. *)
Lemma wait_or_kill_ends pid x :
  wp (try_except (is_class TimeoutExpired) (sys (Wait pid (f_of_Z 5)) ;; ret ())
       (λ _, sys (KillGroup pid SIGKILL) ;; sys (Reap pid) ;; ret ()))
    (λ _ y, ended_from pid x y) (λ _ _, False) x.
Proof.
  destruct x as [t w]. apply wp_try, wp_bind, wp_sys. intros [status|e] o Ho.
  { apply wp_ret. intros p. apply alive_exit. }
  assert (is_class TimeoutExpired e = true) as ->.
  { apply bool_decide_eq_true, (group_times_out pid (f_of_Z 5) (w_os w)). by rewrite Ho. }
  pose proof (group_killed _ _ _ _ _ Ho) as Hk. simpl note. rewrite app_nil_r.
  apply wp_bind, wp_sys. cbn [w_os w_log]. intros r o1 Ho1. rewrite Ho1 in Hk. destruct r as [[]|]; [|done].
  simpl note. rewrite app_nil_r. apply wp_bind, wp_sys. cbn [w_os w_log]. intros r o2 Ho2.
  pose proof (group_reaped pid o1) as Hr. rewrite Ho2 in Hr. destruct r as [status|]; [|done].
  apply wp_ret. intros p. apply alive_exit.
Qed.
Lemma end_probe_ends pid x : wp (end_probe pid) (λ _ y, ended_from pid x y) (λ _ _, False) x.
Proof.
  destruct x as [t w]. unfold end_probe. apply wp_bind, wp_try, wp_sys. intros r o Ho.
  assert (match r with Ok _ => True | Raise e => is_class ProcessLookupError e = true end) as Hr.
  { destruct r as [|e]; [done|]. apply bool_decide_eq_true, (group_gone pid (w_os w)). by rewrite Ho. }
  simpl note. rewrite app_nil_r.
  destruct r as [u|e]; [|rewrite Hr; apply wp_ret]; apply (wait_or_kill_ends pid (t, World o (w_log w))).
Qed.

(** No process is left that was not there before. *)
Definition leaves_none : relation (world W) := λ v w, ∀ p, p ∈ alive (w_log w) → p ∈ alive (w_log v).
#[export] Instance leaves_none_preorder : PreOrder leaves_none.
Proof. split; [by intros v p|]. intros u v w H1 H2 p Hp. by apply H1, H2. Qed.
Lemma nothing_leaves_none {A} (m : M state A) : makes (@quiet) m → within (on_world leaves_none) m.
Proof.
  intros Hm x. by destruct (makes_within (@quiet) m starts_nothing Hm starts_nothing_kept x) as [_ Ha].
Qed.
Lemma run_probe_leaves_none fuel command environment output :
  within (on_world leaves_none) (run_probe (T := T) fuel command environment output).
Proof.
  intros x. cut (wp (run_probe fuel command environment output) (λ _, on_world leaves_none x)
    (λ _, on_world leaves_none x) x).
  { unfold wp. by destruct (run_probe _ _ _ _ x) as [[a|e] y]. }
  destruct x as [t w]. unfold run_probe. apply wp_bind, wp_sys. intros [pid|e] o Ho; cycle 1.
  { intros p. simpl. by rewrite app_nil_r. }
  unfold measure_or_end. set (x1 := (t, World o (w_log w ++ note (SpawnWith command environment) (Ok pid)))).
  assert (∀ y, ended_from pid x1 y → on_world leaves_none (t, w) y) as Hend.
  { intros y Hy p [Hp Hne]%Hy. unfold x1 in Hp. cbn [w_log snd] in Hp. rewrite alive_app in Hp. simpl in Hp.
    by apply elem_of_cons in Hp as [->|Hp]. }
  apply wp_try. eapply wp_conseq; [apply measure_ends| |]; [intros a y Hy; exact (Hend y Hy)|].
  intros e y Hy. apply wp_bind. eapply wp_conseq; [apply end_probe_ends| |done]. intros [] z Hz. cbv beta in Hz.
  apply wp_rethrow, Hend. intros p [Hp Hne]%Hz. split; [|done]. by apply Hy.
Qed.
Lemma run_one_leaves_none fuel variants serial c output seconds :
  within (on_world leaves_none) (run_one (T := T) fuel variants serial c output seconds).
Proof.
  unfold run_one. repeat (apply within_bind; [typeclasses eauto| |];
    [first [apply run_probe_leaves_none|apply nothing_leaves_none; solve_makes]|intros ?]).
  destruct a6 as [samples [status usage]]. apply nothing_leaves_none. solve_makes.
Qed.
End runs.

Section program.
Context {W : Type} `{OS W} {T : Type} (fuel : nat) (repo : string) (args : options).
Abbreviation state := (T * world W)%type.

(** No probe outlives the program.  On a machine where a process group can be asked to end and killed, and a wait can
    only time out: however the program ends, every process it started has ended. *)
Theorem no_probe_is_left `{!ProcessGroups W} (x : state) p :
  p ∈ alive (w_log (main fuel repo args x).2.2) → p ∈ alive (w_log x.2).
Proof.
  revert p. apply (λ Hm : within (on_world leaves_none) (main fuel repo args), Hm x).
  assert (∀ r l, within (on_world leaves_none) (for_each l (run_condition (T := T) fuel args r))) as Hl.
  { intros r l. apply within_for_each; [typeclasses eauto|]. intros c. apply run_one_leaves_none. }
  assert (∀ m : M state unit, within (on_world leaves_none) m →
    within (on_world leaves_none) (at_locked_frequency repo m)) as Hlock.
  { intros m Hm. unfold at_locked_frequency. apply within_finally; [typeclasses eauto| |apply nothing_leaves_none; solve_makes].
    apply within_bind; [typeclasses eauto|apply nothing_leaves_none; solve_makes|done]. }
  assert (∀ A B (m : M state A) (k : A → M state B), makes (@quiet) m → (∀ a, within (on_world leaves_none) (k a)) →
    within (on_world leaves_none) (bind m k)) as Hb.
  { intros A B m k Hm Hk. apply within_bind; [typeclasses eauto|by apply nothing_leaves_none|done]. }
  assert (∀ b r, within (on_world leaves_none) (campaign (T := T) fuel repo args b r)) as Hc.
  { intros b r. unfold campaign. do 5 (apply Hb; [solve_makes|intros ?]). apply Hb; [solve_makes|intros ?].
    apply Hlock. unfold experiment. do 2 (apply Hb; [solve_makes|intros ?]). apply Hl. }
  unfold main. apply Hb; [solve_makes|intros b]. apply Hb; [solve_makes|intros r].
  destruct (o_rerun_condition args) as [v|]; [|done]. case_bool_decide; [done|].
  unfold rerun. do 5 (apply Hb; [solve_makes|intros ?]). apply Hlock, run_one_leaves_none.
Qed.

(** *** The frequency *)

Definition keeps_frequency (e : entry) : bool :=
  match e with
  | ERun c _ _ => negb (bool_decide (c = lock_command repo)) && negb (bool_decide (c = restore_command repo))
  | _ => true
  end.
Abbreviation steady_frequency := (within (on_world (adds keeps_frequency))).

(** Only the two commands of the frequency have [-n] as their first argument. *)
Lemma other_command c i r : c !! 1%nat ≠ Some "-n" → keeps_frequency (ERun c i r) = true.
Proof.
  intros Hc. simpl. apply andb_true_iff. by split; apply negb_true_iff, bool_decide_eq_false; intros ->.
Qed.
Lemma frequency_run c i t : c !! 1%nat ≠ Some "-n" → steady_frequency (run_checked (S := T) c i t).
Proof.
  intros Hc. unfold run_checked. apply within_bind; [typeclasses eauto| |intros r; solve_adds].
  apply adds_sys. intros r. simpl note. cbn [forallb]. by rewrite other_command.
Qed.
Lemma frequency_head_revision : steady_frequency (head_revision (T := T)).
Proof.
  unfold head_revision, check_output. do 2 (apply within_bind; [typeclasses eauto| |intros a; solve_adds]).
  by apply frequency_run.
Qed.
Ltac solve_frequency := repeat (intros; first
  [ apply frequency_head_revision | progress solve_adds
  | match goal with |- within _ (run _) => unfold run, check_call | |- within _ (run_checked _ _ _) => by apply frequency_run end ]).
Lemma frequency_process_sample pid : steady_frequency (process_sample (T := T) pid).
Proof. unfold process_sample, read_key_values. solve_frequency. Qed.
Lemma frequency_khz : steady_frequency (read_frequency_khz (T := T)).
Proof. unfold read_frequency_khz, add_number. solve_frequency. Qed.
Lemma frequency_temperature : steady_frequency (read_temperature_millicelsius (T := T)).
Proof. unfold read_temperature_millicelsius, add_number. solve_frequency. Qed.
Hint Resolve frequency_process_sample frequency_khz frequency_temperature frequency_head_revision : keeps.
Lemma frequency_measure output pid : steady_frequency (measure (T := T) fuel output pid).
Proof.
  assert (∀ n path d, steady_frequency (wait_until (T := T) n path pid d)) as Hw.
  { intros n. induction n; intros; simpl; solve_frequency. }
  assert (∀ n l, steady_frequency (take_samples (T := T) n pid l)) as Ht.
  { intros n. induction n; intros; simpl; unfold take_sample, boottime_ns; solve_frequency. }
  unfold measure, wait_for_ready, ready_deadline, boottime_ns, wait4_process. solve_frequency; auto.
Qed.
Lemma frequency_end_probe pid : steady_frequency (end_probe (T := T) pid).
Proof. unfold end_probe. solve_frequency. Qed.
Lemma frequency_summary r summary : steady_frequency (resource_summary (T := T) r summary).
Proof. unfold resource_summary. repeat (apply within_bind; [typeclasses eauto|solve_frequency|intros ?]). solve_frequency. Qed.
Hint Resolve frequency_measure frequency_end_probe frequency_summary : keeps.
Lemma frequency_run_probe command environment output :
  steady_frequency (run_probe (T := T) fuel command environment output).
Proof. unfold run_probe, measure_or_end. solve_frequency. Qed.
Hint Resolve frequency_run_probe : keeps.
Lemma frequency_run_one variants serial c output seconds :
  steady_frequency (run_one (T := T) fuel variants serial c output seconds).
Proof. unfold run_one, write_samples. solve_frequency. Qed.
Lemma frequency_configure b v d j : steady_frequency (configure_and_snapshot_variant (T := T) repo b v d j).
Proof. unfold configure_and_snapshot_variant. solve_frequency. Qed.
Lemma frequency_manifest : steady_frequency (campaign_manifest (T := T) args).
Proof. unfold campaign_manifest. solve_frequency. Qed.

(** The two commands around what is done at the locked frequency. *)
Record locked_run (v w : world W) (returned_ : bool) (l : list (list string)) (entries : list entry) : Prop := {
  entries_between : ∃ lock during restore,
    entries = ERun (lock_command repo) None lock :: during ++ [ERun (restore_command repo) None restore] ∧
    Forall (λ e, keeps_frequency e = true) during ∧ (lock ≠ Ok 0 → during = []) ∧
    (returned_ = true → lock = Ok 0 ∧ probes during = l);
  entries_added : w_log w = w_log v ++ entries;
}.
Lemma locked_spec (body : M state unit) l x :
  steady_frequency body →
  (∀ y, wp body (λ _ z, probes (w_log z.2) = probes (w_log y.2) ++ l) (λ _ _, True) y) →
  let r := at_locked_frequency repo body x in ∃ entries, locked_run x.2 r.2.2 (is_ok r.1) l entries.
Proof.
  intros Hbody Hl. destruct x as [t w]. cbv zeta. unfold at_locked_frequency, try_finally.
  set (m := run (lock_command repo) ;; body).
  assert (∃ lock during, w_log (m (t, w)).2.2 = w_log w ++ ERun (lock_command repo) None lock :: during ∧
    Forall (λ e, keeps_frequency e = true) during ∧ (lock ≠ Ok 0 → during = []) ∧
    (is_ok (m (t, w)).1 = true → lock = Ok 0 ∧ probes during = l)) as (lock & during & Hm & Hf & Hn & Hok).
  { unfold m, run, check_call, run_checked, bind, sys.
    destruct (handle (RunCommand (lock_command repo) None None) (w_os w)) as [[c|e] o] eqn:Ho; cycle 1.
    { exists (Raise e), []. split; [done|by repeat split]. }
    simpl. case_bool_decide as Hc; simpl; cycle 1.
    { exists (Ok (returncode c)), []. split; [done|by repeat split]. }
    set (y := (t, World o (w_log w ++ [ERun (lock_command repo) None (Ok (returncode c))]))).
    destruct (Hbody y) as (during & Hd & Pd). specialize (Hl y). unfold wp in Hl.
    exists (Ok (returncode c)), during. split; [rewrite Hd; simpl; by rewrite <- app_assoc|].
    split; [done|]. split; [intros Hne; by rewrite Hc in Hne|]. intros Hr. split; [by rewrite Hc|].
    destruct (body y) as [[[]|e] z]; [|done]. simpl in Hd. rewrite Hd, probes_app in Hl. by apply app_inv_head in Hl. }
  destruct (m (t, w)) as [r [t' w']]. simpl in Hm, Hok. unfold bind, sys.
  destruct (handle (RunCommand (restore_command repo) None None) (w_os w')) as [[c|e] o]; simpl.
  all: eexists; split; [|simpl; rewrite Hm, <- app_assoc; reflexivity]; do 3 eexists; split; [reflexivity|]; done.
Qed.

(** The conditions that the program is asked to run. *)
Definition asked : outcome (list condition) :=
  match o_rerun_condition args with
  | Some value => if bool_decide (value = "") then Ok (conditions (o_repetitions args))
                  else c ← parse_rerun_condition value; Ok [c]
  | None => Ok (conditions (o_repetitions args))
  end.
(** What a run of the program adds to the log. *)
Definition overhead_run (v w : world W) (returned_ : bool) : Prop :=
  ∃ before entries, w_log w = w_log v ++ before ++ entries ∧
    Forall (λ e, keeps_frequency e = true) before ∧ probes before = [] ∧
    ((entries = [] ∧ returned_ = false) ∨
     ∃ lock during restore,
       entries = ERun (lock_command repo) None lock :: during ++ [ERun (restore_command repo) None restore] ∧
       Forall (λ e, keeps_frequency e = true) during ∧ (lock ≠ Ok 0 → during = []) ∧
       (returned_ = true → lock = Ok 0 ∧ ∃ results l, asked = Ok l ∧
          probes during = map (probe_of results (o_serial args) (o_measurement_seconds args)) l)).

Definition runs (m : M state unit) x : Prop := overhead_run x.2 (m x).2.2 (is_ok (m x).1).
Lemma runs_bind {A} (m : M state A) (k : A → M state unit) x :
  makes (@quiet) m → steady_frequency m → (∀ a y, m x = (Ok a, y) → runs (k a) y) → runs (bind m k) x.
Proof.
  intros Hq Hm Hk. destruct (Hm x) as (l & Hl & Pl).
  destruct (makes_within (@quiet) m starts_nothing Hq starts_nothing_kept x) as [Hp _].
  unfold runs, bind in *. destruct (m x) as [[a|e] y]; simpl in *.
  - destruct (Hk a y eq_refl) as (before & entries & He & Pb & Hb & Hor). exists (l ++ before), entries.
    rewrite He, Hl, <- !app_assoc. split; [done|]. split; [by apply Forall_app|]. split; [|done].
    rewrite probes_app, Hb, app_nil_r. rewrite Hl, probes_app in Hp. apply (app_inv_head (probes (w_log x.2))).
    by rewrite app_nil_r.
  - exists l, []. rewrite app_nil_r. split; [done|]. split; [done|]. split; [|by left].
    rewrite Hl, probes_app in Hp. apply (app_inv_head (probes (w_log x.2))). by rewrite app_nil_r.
Qed.
Lemma runs_locked (body : M state unit) results l x :
  steady_frequency body → asked = Ok l →
  (∀ y, wp body (λ _ z, probes (w_log z.2) = probes (w_log y.2) ++
     map (probe_of results (o_serial args) (o_measurement_seconds args)) l) (λ _ _, True) y) →
  runs (at_locked_frequency repo body) x.
Proof.
  intros Hf Ha Hb. destruct (locked_spec body _ x Hf Hb) as (entries & [(lock & during & restore & He & Hd & Hn & Hr) Hadd]).
  exists [], entries. split; [done|]. split; [constructor|]. split; [done|]. right. exists lock, during, restore.
  split_and!; [done..|]. intros Hret. destruct (Hr Hret). split; [done|]. by exists results, l.
Qed.

(** C38: measurements are made at the locked frequency, and the frequency is restored.  Whatever the commands and files
    answer, and however the program ends: before the frequency is locked no probe is started; when the command that
    locks it fails, nothing is done but to restore it; once it was asked for, restoring it is the last action; and when
    the program returns, the frequency was locked, and in between one probe was started for each condition asked for,
    in their order, with its command. *)
Theorem measured_at_locked_frequency (x : state) :
  overhead_run x.2 (main fuel repo args x).2.2 (is_ok (main fuel repo args x).1).
Proof.
  change (runs (main fuel repo args) x).
  assert (∀ b r y, asked = Ok (conditions (o_repetitions args)) → runs (campaign fuel repo args b r) y) as Hc.
  { intros b r y Ha. unfold campaign. do 5 (apply runs_bind; [solve_makes|solve_frequency; apply frequency_manifest|intros ? ? ?]).
    apply runs_bind; [solve_makes|solve_frequency|intros ? ? ?]. apply (runs_locked _ r (conditions (o_repetitions args))); [|done|].
    - unfold experiment. repeat (apply within_bind; [typeclasses eauto|apply frequency_configure|intros ?]).
      apply within_for_each; [typeclasses eauto|]. intros c. apply frequency_run_one.
    - intros z. unfold experiment. apply wp_nothing; [solve_makes| |done]. intros _ z1 [P1 _].
      apply wp_nothing; [solve_makes| |done]. intros _ z2 [P2 _].
      rewrite <- P1, <- P2. apply conditions_probes. }
  unfold main. apply runs_bind; [solve_makes|solve_frequency|intros b x1 _].
  apply runs_bind; [solve_makes|solve_frequency|intros results x2 _].
  destruct (o_rerun_condition args) as [v|] eqn:Hv; [|apply Hc; unfold asked; by rewrite Hv].
  case_bool_decide as Hne; [apply Hc; unfold asked; rewrite Hv; by rewrite bool_decide_true|].
  unfold rerun. apply runs_bind; [solve_makes|solve_frequency|intros directory x3 _].
  apply runs_bind; [solve_makes|solve_frequency|intros _ x4 _].
  apply runs_bind; [solve_makes|solve_frequency|]. intros c x5 Hparse.
  assert (parse_rerun_condition v = Ok c) as Hpc by (unfold lift in Hparse; congruence).
  do 2 (apply runs_bind; [solve_makes|solve_frequency|intros ? ? ?]).
  apply (runs_locked _ results [c]); [apply frequency_run_one| |].
  - unfold asked. by rewrite Hv, bool_decide_false, Hpc.
  - intros z. apply run_one_probes.
Qed.
End program.

(** ** Names and directories of conditions *)

(** The name that [--rerun-condition] takes. *)
Definition condition_name (c : condition) : string := c_workload c +:+ ":" +:+ str_Z (c_rep c) +:+ ":" +:+ c_mode c.
Definition condition_path (c : condition) : string := c_workload c +:+ "/rep-" +:+ str_Z (c_rep c) +:+ "/" +:+ c_mode c.
#[export] Instance condition_eq_dec : EqDecision condition.
Proof. solve_decision. Defined.

Lemma asked_repetitions n : 0 < n ≤ 3 → n = 1 ∨ n = 2 ∨ n = 3.
Proof. lia. Qed.
Lemma conditions_known n c : 0 < n ≤ 3 → c ∈ conditions n → c ∈ conditions 3.
Proof.
  intros Hn Hc. assert (Forall (λ c, c ∈ conditions 3) (conditions n)) as Hall.
  { destruct (asked_repetitions n Hn) as [->|[->| ->]]; apply (bool_decide_unpack _); vm_compute; done. }
  by apply (proj1 (Forall_forall _ _) Hall).
Qed.
(** Joining one name to a path. *)
Definition path_prefix (p : string) : string := if bool_decide (p = "/") then "/" else if bool_decide (p = ".") then "" else p +:+ "/".
Lemma pjoin_one_name p c : plain_name c = true → p // c = path_prefix p +:+ c.
Proof.
  unfold plain_name. intros [Hc Hs]%andb_true_iff. apply bool_decide_eq_true in Hc. apply negb_true_iff in Hs.
  unfold pjoin, path_prefix. rewrite Hs, Hc. simpl py_join. repeat case_bool_decide; [done..|].
  by rewrite string_app_assoc.
Qed.
Lemma path_prefix_long p : (1 < String.length p)%nat → path_prefix p = p +:+ "/".
Proof. intros Hp. unfold path_prefix. rewrite !bool_decide_false; [done|by intros ->; simpl in Hp; lia..]. Qed.
Lemma app_long p c : (1 < String.length c)%nat → (1 < String.length (p +:+ c))%nat.
Proof.
  intros Hc. induction p as [|a p IH]; [done|]. rewrite string_app_cons. cbn [String.length]. lia.
Qed.
(** The directory of a condition, below whatever directory the results have. *)
Definition plain_condition (c : condition) : bool :=
  plain_name (c_workload c) && plain_name ("rep-" +:+ str_Z (c_rep c)) && plain_name (c_mode c)
  && (1 <? String.length (c_workload c))%nat && (1 <? String.length ("rep-" +:+ str_Z (c_rep c)))%nat.
Lemma output_path results c : plain_condition c = true → output_of results c = path_prefix results +:+ condition_path c.
Proof.
  unfold plain_condition. rewrite !andb_true_iff, !Nat.ltb_lt. intros [[[[Hw Hr] Hm] Lw] Lr].
  unfold output_of, condition_path. rewrite (pjoin_one_name _ _ Hm), (pjoin_one_name _ _ Hr), (pjoin_one_name _ _ Hw).
  rewrite (path_prefix_long (path_prefix results +:+ c_workload c)) by by apply app_long.
  rewrite path_prefix_long by by apply app_long. by rewrite !string_app_assoc.
Qed.

(** C39: every condition of an experiment can be run again by its name, into its own directory.  For each number of
    repetitions that the program accepts, parsing the name of a condition gives the condition, each condition occurs
    once, and below any directory of results no two conditions have the same output directory; over the three
    repetitions each mode is measured first, second and last once per workload. *)
Theorem conditions_can_be_rerun n results :
  0 < n ≤ 3 →
  (∀ c, c ∈ conditions n → parse_rerun_condition (condition_name c) = Ok c) ∧
  NoDup (map (output_of results) (conditions n)) ∧
  ∀ w i, w ∈ WORKLOADS → (i < 3)%nat →
    omap (λ rep, c_mode <$> conditions_of w rep !! i) [1%nat; 2%nat; 3%nat] ≡ₚ ["off"; "build-only"; "full"].
Proof.
  intros Hn. split; [|split].
  - intros c Hc. apply (conditions_known n) in Hc; [|done]. revert c Hc. apply Forall_forall.
    apply (bool_decide_unpack _). vm_compute. done.
  - assert (map (output_of results) (conditions n) =
      map (λ c, path_prefix results +:+ condition_path c) (conditions n)) as ->.
    { apply map_ext_in. intros c Hc%list_elem_of_In%(conditions_known n); [|done]. apply output_path. revert c Hc.
      apply Forall_forall. apply (bool_decide_unpack _). vm_compute. done. }
    rewrite <- (map_map condition_path). apply NoDup_fmap_2.
    + intros a b. apply string_app_inj_l.
    + destruct (asked_repetitions n Hn) as [->|[->| ->]]; apply (bool_decide_unpack _); vm_compute; done.
  - intros w i Hw Hi. repeat (apply elem_of_cons in Hw as [->|Hw]); [..|by apply elem_of_nil in Hw];
      (destruct i as [|[|[|i]]]; [..|lia]); apply (bool_decide_unpack _); vm_compute; done.
Qed.

(** ** An experiment *)

Module demo.
(** Its time; the probe ends after the third sample of each run. *)
Definition stat_text (now : nat) : string :=
  "77 (steady probe) " +:+ (if bool_decide (now mod 4 = 3)%nat then "Z" else "S")
  +:+ " 1 1 1 0 -1 0 0 0 0 0 " +:+ str_Z (Z.of_nat now) +:+ " 3 0 0 20 0 5 0 100" +:+ nl.
Definition camera : pyval := VDict (map (λ k, (k, VInt 1)) AGGREGATE_KEYS).
Definition summary : pyval := VDict [("success", VBool true);
  ("measurement", VDict [("start_boottime_ns", VInt 0); ("end_boottime_ns", VInt (10 ^ 12))]); ("cameras", VList [camera])].
Definition handle_ {A} (c : syscall A) (now : nat) : outcome A * nat :=
  match c in syscall A return outcome A * nat with
  | BoottimeNs => (Ok (Z.of_nat now * 10 ^ 8), S now)
  | Monotonic => (Ok (f_of_Z 0), now)
  | ReadText p => (if bool_decide (p = "/proc/77/stat") then Ok (stat_text now) else raise FileNotFoundError p, now)
  | ReadJson _ => (Ok summary, now)
  | RunCommand _ _ _ => (Ok (Completed 0 "abc" ""), now)
  | SpawnWith _ _ => (Ok 77, now)
  | Wait4 _ => (Ok (0, [("ru_utime", VInt 1)]), now)
  | Wait _ _ | Reap _ => (Ok 0, now)
  | KillGroup _ _ | WriteText _ _ | WriteJson _ _ | WriteCsv _ _ _ | Mkdir _ _ | Sleep _ | Copy _ _ | Symlink _ _ =>
      (Ok (), now)
  | FileDigest _ => (Ok "abc", now)
  | IsFile _ | IsDir _ => (Ok true, now)
  | PathExists _ => (Ok false, now)
  | Resolve p => (Ok p, now)
  | Glob _ _ => (Ok [], now)
  | FileSize _ => (Ok 12, now)
  | ClockTicks => (Ok 100, now)
  | Environ => (Ok [(TRACE_FILE, "old")], now)
  | Uname => (Ok ["Linux"; "pi"; "6.12"; "#1"; "aarch64"], now)
  | _ => (raise OSError "not available", now)
  end.
Definition os : OS nat := @handle_.
#[local] Existing Instance os.
#[local] Instance groups : ProcessGroups nat.
Proof. split; by intros. Qed.
Definition args (rerun : option string) : options := {|
  o_serial := "123"; o_build_dir := "build"; o_results_dir := "results"; o_repetitions := 2; o_measurement_seconds := 30;
  o_build_jobs := 3; o_rerun_condition := rerun |}.
(** A machine with another process. *)
Definition start : unit * world nat := ((), World 0%nat [ESpawn 7 ["other"]]).
Abbreviation run rerun := (main (H := os) 10 "/repo" (args rerun) start).
End demo.
#[local] Existing Instance demo.os.
#[local] Existing Instance demo.groups.

(** Both ways to run the program return; a condition that was not written by the program is refused. *)
Example both_ways_return :
  map (λ rerun, (is_ok (demo.run rerun).1, length (probes (w_log (demo.run rerun).2.2)), alive (w_log (demo.run rerun).2.2)))
    [None; Some "stress:1:off"; Some "stress:0:off"] =
  [(true, 13%nat, [7]); (true, 2%nat, [7]); (false, 1%nat, [7])].
Proof. vm_compute. reflexivity. Qed.
(** A measurement with one sample: the two nearest samples are the same, and the time between them is zero. *)
Definition lone_sample : sample := {|
  s_process := {| ps_state := "Z"; ps_utime_ticks := 5; ps_stime_ticks := 3; ps_rss_kib := 0; ps_hwm_kib := 0;
                  ps_voluntary_context_switches := 0; ps_involuntary_context_switches := 0; ps_read_bytes := 0; ps_write_bytes := 0 |};
  s_boottime_ns := 10; s_frequency_khz := 0; s_temperature := 0 |}.
Example one_sample_has_no_duration :
  (l ← measured_samples [lone_sample] 0 20; p ← first_last l; cost_between 100 p.1 p.2) =
  raise ZeroDivisionError "float division by zero".
Proof. vm_compute. reflexivity. Qed.
Lemma no_probe_is_left_witness :
  7 ∈ alive (w_log (demo.run None).2.2) ∧ 7 ∈ alive (w_log demo.start.2).
Proof.
  assert (7 ∈ alive (w_log (demo.run None).2.2)) as H by (apply (bool_decide_unpack _); vm_compute; done).
  split; [exact H|]. exact (no_probe_is_left 10 "/repo" (demo.args None) demo.start 7 H).
Defined.
Lemma conditions_can_be_rerun_witness :
  0 < 2 ≤ 3 ∧ parse_rerun_condition "stress:2:full" = Ok {| c_workload := "stress"; c_rep := 2; c_mode := "full" |}.
Proof.
  split; [lia|]. destruct (conditions_can_be_rerun 2 "/results") as (H & _); [lia|].
  apply (H {| c_workload := "stress"; c_rep := 2; c_mode := "full" |}). apply (bool_decide_unpack _). vm_compute. done.
Defined.
